(* ===== verification/_CoqProject ===== *)
-Q . S2P
Prelude.v
PyStr.v
PyFloat.v
PyVal.v
PyTime.v
Libs.v
Demo.v
SourcePatch.v
ManifestEditor.v
RemediationContract.v
SourceSplice.v
EventStore.v
EventWorker.v
OutboxRelay.v
InMemoryBus.v
EventBody.v
EventBodies.v
Dispatch.v
RecoveryMerge.v
WorkloadTarget.v
DeleteScope.v
Signals.v
CauseEngine.v
RecoveryChecks.v
RecoveryVerification.v
RecoveryLifecycle.v
RecoveryAuthority.v
RecoveryReplacements.v
RecoveryDispatch.v
RecoveryTracking.v
RecoveryPullRequest.v
RecoverySelection.v
RecoveryPlanner.v
Symptom.v
EvidenceBundle.v
IncidentDetection.v
AnalysisPipeline.v
CollectionLimits.v
EvidenceJobs.v
AgentScheduler.v
EvidenceIntake.v
Identity.v
ClusterAgents.v
Sessions.v
EvidenceWorker.v
TimelineModel.v
KubernetesEvents.v
TimelineLedger.v
HistoryIngest.v
