(* ===== verification/Prelude.v ===== *)
(** * K8s Clue: a verification development

    K8s Clue watches Kubernetes clusters, explains incidents from collected
    evidence, proposes repairs as pull requests against the GitOps repository
    and verifies after the deployment that the incident is over.  The program
    is a set of Python services that exchange events through a broker and
    share a PostgreSQL database.  This library models the parts that decide:
    what may be changed in a repository, when an event has taken effect, which
    cause is reported, and when a recovery counts as complete.

    ** The files

    Foundations, shared by all components:
    - [Prelude]: the error monad ([res], the exceptions the sources raise),
      list functions in the shape of the comprehensions and loops, tactics,
      the hint database [clue];
    - [PyStr], [PyFloat], [PyVal], [PyTime]: the Python values the sources
      pass around (strings, binary64 floats, decoded JSON, datetimes);
    - [Libs]: type classes for what the sources call but do not define (PyYAML,
      JSON decoding, SHA-256), with their documented laws as separate classes;
      [Demo]: concrete instances of them, so that every law is inhabited.

    Changing a repository (paths under [src/src]):
    - [SourcePatch]: [domains/gitops/source_patch.py], the plans, their
      validation and their documents;
    - [SourceSplice]: the same file, the edits of the source text;
    - [RemediationContract]: [packages/contracts/remediation_source.py];
    - [ManifestEditor]: [domains/manifest_editor/validation.py].

    Events:
    - [EventStore]: the tables of [packages/storage/schema.py] and the
      operations of [packages/storage/repositories];
    - [EventWorker]: [packages/runtime/worker.py] and [ledger.py];
    - [OutboxRelay]: [packages/runtime/relay.py];
    - [InMemoryBus]: [packages/events/in_memory.py];
    - [EventBody], [EventBodies]: the codec of
      [packages/contracts/event_bus/bodies/base.py] and every body class,
      subject and registry of the program;
    - [Dispatch]: [packages/runtime/app.py] and [dispatch.py], how handlers are
      declared, found and run.

    Who may do what:
    - [Identity]: [packages/contracts/identity.py], the tables of
      [domains/identity/models.py] and the operations and access decisions of
      [domains/identity/repository.py];
    - [ClusterAgents]: which cluster the token of an agent speaks for, over
      all operations of [Identity];
    - [Sessions]: [packages/storage/sessions.py], [auth.py], [rate_limits.py]
      and [passwords.py] of [services/gateway/api-gateway], and
      [packages/security/trusted_proxy.py].

    Inventory and analysis:
    - [AgentScheduler], [CollectionLimits]: [evidence/jobs.py] and
      [providers/collection_limits.py] of the cluster agent;
    - [EvidenceJobs]: [domains/target/evidence_jobs.py] and the job table of
      [domains/target/repository.py];
    - [EvidenceIntake]: the evidence routes of [domains/rca/router.py], the
      evidence windows of [domains/target/repository.py] and the alert events
      of [domains/alert/repository.py];
    - [EvidenceWorker]: [services/ai/evidence-worker/app.py] with the stored
      evidence and the workload changes it reads;
    - [DeleteScope]: [domains/inventory/coverage.py];
    - [HistoryIngest]: [domains/rca/history_ingest.py], evidence reused as an
      inventory snapshot;
    - [KubernetesEvents]: [domains/inventory/kubernetes_events.py] and
      [domains/timeline/coverage.py], event facts and the gaps of their
      capture;
    - [TimelineModel], [TimelineLedger]: the events of
      [packages/contracts/timeline/models.py], and the ledger and readers of
      [domains/timeline/repository.py] and [predicate.py];
    - [Symptom], [EvidenceBundle], [IncidentDetection]: [symptom.py],
      [evidence.py], [evidence_bundle.py], [incident.py] and
      [incident_signal.py] of [services/ai/agent/pipeline], with the handler
      of [incident-worker/app.py], the signal claims and the timeline fact;
    - [Signals], [CauseEngine]: [services/ai/agent/causes], the rules of
      [playbooks/cause.py] and [block_reason_code] of [pipeline/causes.py];
    - [AnalysisPipeline]: [pipeline/causes.py], [rca-worker/app.py], and the
      way from evidence to a planned recovery.

    Recovery:
    - [RecoveryPlanner]: [playbooks/recovery.py], [recovery/engine.py] and
      [recovery/builtin.py], the rules and the plans they make;
    - [RecoveryChecks], [RecoveryVerification]:
      [domains/rca/recovery_verification.py];
    - [RecoveryLifecycle]: the verification handlers of
      [services/ai/rca-feedback-worker/app.py] with the plan table of
      [domains/rca/repository.py];
    - [WorkloadTarget], [RecoveryAuthority]:
      [services/ai/agent/workload_target.py] and [recovery/authority.py], the
      resource a recovery speaks of and the GitOps identity that backs it;
    - [RecoveryReplacements], [RecoveryDispatch]:
      [services/ai/agent/recovery/dispatch.py], the proposed changes, the
      request for a pull request and the preflight;
    - [RecoveryTracking]: selection and pull-request tracking in
      [rca-feedback-worker/app.py] and [domains/rca/repository.py], approvals
      of [domains/gitops/repository.py];
    - [RecoveryMerge]: [domains/gitops/recovery_merge.py], what a merged diff
      may contain;
    - [RecoveryPullRequest]: the pull-request webhook of
      [domains/gitops/router.py];
    - [RecoverySelection]: planning, selection and retry
      ([domains/rca/router.py], [recovery-worker/app.py]) and the transition
      system of all operations on a plan.

    Each file has a module of its own name whose definitions keep the names of
    the source.  State is a record or a map that the operations take and
    return; a function that can raise returns [res]; a loop is a fold or a
    structural recursion on its list.

    ** What the theorems show

    - Patches: a plan is accepted exactly when it is well formed, names safe
      paths and is allowed by its action; replicas only grow and memory stays
      capped; plans survive their YAML documents; applying a plan changes
      exactly the addressed scalars of the text and nothing else, and the
      rollback restores the text; a declared source is only changed where the
      contract allows it; an edited manifest is accepted exactly when it keeps
      the identities, the server-owned fields and the absence of secrets.
    - Events: for every interleaving of deliveries, crashes, timeouts and
      redeliveries, an event whose claim was never overtaken takes effect at
      most once per consumer, is acknowledged only when settled, and settled
      stays settled; the relay
      accounts for every event it took; leases exclude each other; the
      in-memory bus neither loses nor duplicates messages; every registered
      body survives its wire form, what is decoded has the declared types but for three
      unchecked numbers, and
      what a handler yields is published and handled by whoever declared it.
    - Access: whoever may do something is an administrator or holds a granted
      role that permits it, in an organization and a group that are active; a
      revoked role gives nothing until a role is granted again; the listing of
      accessible resources is the access decision; a token speaks for one
      cluster, and for none once it is withdrawn; a request passes as an
      administrator only for a user who was one when the session, or the one
      it descends from, was issued, or through the trusted proxy; a session that ended stays ended; a rate
      limit bounds the requests however they interleave.
    - Collection: a job is handed to one agent at a time, a bounded number of
      times, and comes to an end; a finished window accounts for each of its
      providers; providers whose set or interval changed are due together;
      evidence stays with the tenant of the token that sent it, counts once
      however often it is sent, and an incident is reopened once;
      evidence is built from its own workspace only, joined with the one
      nearest of the newest windows of the other source or with none, names the GitOps
      identity that the server recorded, and is what the detection of
      incidents reads; the loop that shrinks a payload ends, with a payload
      that fits or has nothing left to drop, and no group of items hides another.
    - Timeline: evidence brings about deletions of pods only, and exactly where
      the agent proved its list complete; only new observations of Kubernetes
      events enter the timeline; the gaps of their capture are the same read at
      once or through an ordered cursor, or both readings fail;
      the ledger is numbered without gaps and holds each source key once; appending answers with what is stored and
      can be repeated; a reader that resumes misses nothing and sees nothing
      twice, or is told to start over; the SQL predicate of a reader is the
      guard in Python.
    - Detection: the derived symptom is the first in a fixed precedence,
      whatever the order of the evidence; an occurrence becomes an incident at
      most once, and only on evidence that shows a failure; a bundle accounts
      for every required source, is bounded, stays in the namespace of the
      incident and redacts the values of sensitive recent changes.
    - Analysis: an analysis completes only on a candidate whose evidence and
      signals are all present; the best supported candidate is selected; a
      planned recovery rests on the evidence it names, offers reviewable
      actions only, and each of them can be selected.
    - Recovery: a recovery is declared complete only after a continuous
      healthy period of the configured length with enough distinct windows,
      all checks true in each; along all writes of the plan table the incident
      is resolved at most once, and a completed plan keeps its status, its
      decision and its lifecycle.
    - The way of a repair: an authority context is backed by agreeing rows of
      the database; a proposed patch is an approved plan within the bounds of
      its action; a request for a pull request speaks for that authority or a
      person is asked instead; the tracked pull request is the approved one
      and its contract is the proposed patch; only the exactly recorded head
      starts a deployment, once, and a retry repeats that request; a merged
      diff is authorised only when it is the contract.  Over all operations
      together, in any order, an incident is resolved only after a selection,
      the tracking and the merge of that plan.

    ** Idealisations, bounds and fuel

    Strings are sequences of code points below 256, so case folding and
    whitespace are those of Latin-1; the Korean messages are the bytes of
    their UTF-8 text.  Keys of mappings are strings.  Integers are unbounded,
    as in Python; [int] of a string has the interpreter's limit of 4300
    digits.  Floats are IEEE binary64 computed by the Standard Library's
    [SpecFloat].  ISO 8601 text is an interface with the documented round trip.
    The database runs each statement or transaction atomically on one clock,
    and a violated constraint is an error of the operation; Redis runs each
    command atomically on a clock in seconds, and a stored JSON text is
    represented by its object; a token that is drawn is new.  [EventWorker]
    assumes nothing of the timers: a delivery may go on after its claim has
    become stale and was taken by another, and the state records the keys for
    which that happened; the theorems speak of the other keys, and another
    shows what goes wrong with these.  A handler of the recovery reads
    and writes one state of the plan table; the interleaving is that of whole
    handlers, and [RecoverySelection] also lets the write of an evidence
    handler come any number of steps after its read.  Prose that no code reads back is left out of
    messages and pull-request texts.  Recursion is structural
    nearly everywhere.  Fuel bounds the number of digits when an integer is
    printed, by its logarithm, and the two loops of [CollectionLimits], by the
    number of items that can still be dropped or selected; theorems show that
    this much, or any more, gives the result.

    ** Not modelled

    The write of an inventory snapshot with its temporal projection, other
    SQL construction and HTTP routes, the NATS and GitHub clients, the
    Kubernetes providers, the storage engine and migrations, logging and
    metrics; the catalogue of cause rules, which is data. *)
From Stdlib Require Export ZArith Lia Bool.
From Stdlib Require Export Ascii.
From Stdlib Require Export Sorting.Sorted.
From stdpp Require Export base tactics option list numbers strings gmap sets sorting.

(** ** Scope and notations *)

Declare Scope clue_scope.
Delimit Scope clue_scope with clue.
Open Scope clue_scope.
Open Scope Z_scope.

(** ** Exceptions and the error monad

    The exception classes the modelled functions raise or let escape.  A
    payload is the message literal of the [raise] statement; the constructors
    without a payload are raised by the interpreter or by the standard
    library. *)
Inductive exn :=
  | ManifestSourcePatchError (msg : string)
  | RemediationSourcePatchUnsupported (reason : string)
  | RemediationSourceContractError (msg : string)
  | CauseCatalogError
  | EventBodyDecodeError (msg : string)
  | AssertionError
  | YAMLError
  | JSONDecodeError
  | ValueError
  | TypeError
  | KeyError
  | AttributeError
  | OverflowError
  | RuntimeError
  | LookupError
  | IndexError
  | TimeoutError
  | IntegrityError
  | ValidationError
  | TimelineCoverageLimitExceeded.

#[global] Instance exn_eq_dec : EqDecision exn.
Proof. solve_decision. Defined.

(** A Python computation that returns a value or raises. *)
Inductive res (A : Type) :=
  | Ok (a : A)
  | Err (e : exn).
Arguments Ok {_} _.
Arguments Err {_} _.

#[global] Instance res_ret : MRet res := fun _ a => Ok a.
#[global] Instance res_bind : MBind res := fun _ _ f m =>
  match m with Ok a => f a | Err e => Err e end.
#[global] Instance res_fmap : FMap res := fun _ _ f m =>
  match m with Ok a => Ok (f a) | Err e => Err e end.

(** [is_ok m]: the computation returns. *)
Definition is_ok {A} (m : res A) : bool :=
  match m with Ok _ => true | Err _ => false end.

(** What the computation returns, whatever it raises. *)
Definition returned {A} (m : res A) : option A :=
  match m with Ok a => Some a | Err _ => None end.

(** [raise_if c e]: the statement [if c: raise e]. *)
Definition raise_if (c : bool) (e : exn) : res unit := if c then Err e else Ok tt.

(** [raise_none o e]: the value of [o], raising [e] when it is [None]. *)
Definition raise_none {A} (o : option A) (e : exn) : res A :=
  match o with Some a => Ok a | None => Err e end.

(** [except]: [catch m p e] re-raises as [e] the exceptions that [p] selects. *)
Definition catch {A} (m : res A) (p : exn -> bool) (e : exn) : res A :=
  match m with
  | Ok a => Ok a
  | Err e' => if p e' then Err e else Err e'
  end.

Definition is_YAMLError (e : exn) : bool :=
  match e with YAMLError => true | _ => false end.

(** A comprehension whose element expression can raise. *)
Definition mapr {A B} (f : A -> res B) : list A -> res (list B) :=
  fix mapr l :=
    match l with
    | [] => Ok []
    | x :: l => y ← f x; ys ← mapr l; Ok (y :: ys)
    end.

(** A [for] loop over a list that updates an accumulator and can raise. *)
Fixpoint foldr_res {A B} (f : B -> A -> res B) (acc : B) (l : list A) : res B :=
  match l with
  | [] => Ok acc
  | x :: l => acc' ← f acc x; foldr_res f acc' l
  end.

(** The lazy conjunction [a and m] when [m] can raise. *)
Definition and_res (a : bool) (m : res bool) : res bool := if a then m else Ok false.

(** [all(f(x) for x in l)], which stops at the first false. *)
Fixpoint allr {A} (f : A -> res bool) (l : list A) : res bool :=
  match l with
  | [] => Ok true
  | x :: l => b ← f x; and_res b (allr f l)
  end.

(** The values a loop with [continue] statements keeps. *)
Fixpoint omapr {A B} (f : A -> res (option B)) (l : list A) : res (list B) :=
  match l with
  | [] => Ok []
  | x :: l => o ← f x; ys ← omapr f l;
              Ok (match o with Some y => y :: ys | None => ys end)
  end.

Lemma Ok_inj {A} (a b : A) : Ok a = Ok b -> a = b.
Proof. by intros [= ->]. Qed.

Lemma bind_Ok {A B} (m : res A) (f : A -> res B) b :
  m ≫= f = Ok b <-> exists a, m = Ok a /\ f a = Ok b.
Proof. destruct m; cbn; naive_solver. Qed.

Lemma bind_Err {A B} (m : res A) (f : A -> res B) e :
  m ≫= f = Err e <-> m = Err e \/ exists a, m = Ok a /\ f a = Err e.
Proof. destruct m; cbn; naive_solver. Qed.

Lemma fmap_Ok {A B} (f : A -> B) (m : res A) b :
  f <$> m = Ok b <-> exists a, m = Ok a /\ b = f a.
Proof. destruct m; cbn; naive_solver. Qed.

Lemma raise_if_Ok c e u : raise_if c e = Ok u <-> c = false.
Proof. destruct c, u; cbn; naive_solver. Qed.

Lemma raise_none_Ok {A} (o : option A) e a : raise_none o e = Ok a <-> o = Some a.
Proof. destruct o; cbn; naive_solver. Qed.

Lemma catch_Ok {A} (m : res A) p e a : catch m p e = Ok a <-> m = Ok a.
Proof. unfold catch. destruct m; [done|]. case_match; done. Qed.

Lemma mapr_Ok {A B} (f : A -> res B) l ys :
  mapr f l = Ok ys <-> Forall2 (fun x y => f x = Ok y) l ys.
Proof.
  revert ys. induction l as [|x l IH]; intros ys; cbn.
  - split; [intros [= <-]; constructor | by inversion 1].
  - rewrite bind_Ok. setoid_rewrite bind_Ok. setoid_rewrite IH. split.
    + intros (y & Hy & ys' & Hys & [= <-]). by constructor.
    + inversion 1; subst. eauto 10.
Qed.

Lemma mapr_elem_r {A B} (f : A -> res B) l ys y :
  mapr f l = Ok ys -> y ∈ ys -> exists x, x ∈ l /\ f x = Ok y.
Proof.
  intros HF%mapr_Ok. induction HF as [|a b l ys Hf _ IH]; [set_solver|].
  intros [->|Hin]%elem_of_cons; [exists a; set_solver|].
  destruct (IH Hin) as (x & ? & ?). exists x. set_solver.
Qed.

Lemma mapr_elem_l {A B} (f : A -> res B) l ys x :
  mapr f l = Ok ys -> x ∈ l -> exists y, y ∈ ys /\ f x = Ok y.
Proof.
  intros HF%mapr_Ok. induction HF as [|a b l ys Hf _ IH]; [set_solver|].
  intros [->|Hin]%elem_of_cons; [exists b; set_solver|].
  destruct (IH Hin) as (y & ? & ?). exists y. set_solver.
Qed.

Lemma and_res_true a m : and_res a m = Ok true <-> a = true /\ m = Ok true.
Proof. destruct a; cbn; naive_solver. Qed.

Lemma allr_true {A} (f : A -> res bool) l :
  allr f l = Ok true <-> forall x, x ∈ l -> f x = Ok true.
Proof.
  induction l as [|x l IH]; cbn; [set_solver|]. rewrite bind_Ok.
  setoid_rewrite and_res_true. setoid_rewrite IH. setoid_rewrite elem_of_cons. split.
  - intros (b & Hb & -> & Hl) y [->|?]; auto.
  - intros Hl. exists true. auto 6.
Qed.

Lemma omapr_Ok {A B} (f : A -> res (option B)) l ys :
  omapr f l = Ok ys <-> exists os, mapr f l = Ok os /\ ys = omap id os.
Proof.
  revert ys. induction l as [|x l IH]; intros ys; cbn.
  - split; [intros [= <-]; by exists []|]. by intros (? & [= <-] & ->).
  - rewrite bind_Ok. split.
    + intros (o & Ho & (ys' & Hys' & [= <-])%bind_Ok).
      apply IH in Hys' as (os & Hos & ->). exists (o :: os). rewrite Ho. cbn. rewrite Hos. cbn.
      by destruct o.
    + intros (os & (o & Ho & (os' & Hos & [= <-])%bind_Ok)%bind_Ok & ->). exists o.
      split; [done|]. rewrite (proj2 (IH _) (ex_intro _ os' (conj Hos eq_refl))). cbn.
      by destruct o.
Qed.

Lemma omapr_elem {A B} (f : A -> res (option B)) l ys y :
  omapr f l = Ok ys -> y ∈ ys -> exists x, x ∈ l /\ f x = Ok (Some y).
Proof.
  intros (os & Hos & ->)%omapr_Ok (o & Ho & Hy)%list_elem_of_omap.
  cbn in Hy. subst o. by eapply mapr_elem_r.
Qed.

Lemma foldr_res_inv {A B} (f : B -> A -> res B) (P : B -> Prop) acc l acc' :
  (forall b a b', a ∈ l -> f b a = Ok b' -> P b -> P b') ->
  foldr_res f acc l = Ok acc' -> P acc -> P acc'.
Proof.
  revert acc. induction l as [|x l IH]; intros acc Hf; cbn; [by intros [= <-]|].
  intros (b & Hb & Hl)%bind_Ok HP. eapply (IH b); [|done|].
  - intros ??? Ha. apply Hf. set_solver.
  - eapply Hf; [|done..]. set_solver.
Qed.

Lemma Forall2_elem_of_l {A B} (P : A -> B -> Prop) l k x :
  Forall2 P l k -> x ∈ l -> exists y, y ∈ k /\ P x y.
Proof.
  induction 1 as [|a b l k Hab _ IH]; [set_solver|].
  intros [->|Hin]%elem_of_cons; [exists b; set_solver|].
  destruct (IH Hin) as (y & ? & ?). exists y. set_solver.
Qed.

Lemma Forall2_impl_elem {A B} (P Q : A -> B -> Prop) l k :
  Forall2 P l k -> (forall x y, x ∈ l -> P x y -> Q x y) -> Forall2 Q l k.
Proof.
  induction 1 as [|x y l k Hxy _ IH]; intros HQ; constructor.
  - apply HQ; [left|done].
  - apply IH. intros a b Ha. apply HQ. by right.
Qed.

Lemma Forall2_conj {A B} (P Q : A -> B -> Prop) l k :
  Forall2 P l k -> Forall2 Q l k -> Forall2 (fun x y => P x y /\ Q x y) l k.
Proof. induction 1; inversion 1; subst; constructor; auto. Qed.

Lemma Forall2_compose {A B C} (P : A -> B -> Prop) (Q : B -> C -> Prop) (R : A -> C -> Prop) l k m :
  (forall a b c, P a b -> Q b c -> R a c) -> Forall2 P l k -> Forall2 Q k m -> Forall2 R l m.
Proof.
  intros HR HP. revert m. induction HP as [|a b l k Hab _ IH]; inversion 1; subst; constructor; eauto.
Qed.

Lemma mapr_total {A B} (f : A -> res B) l :
  (forall x, x ∈ l -> is_ok (f x) = true) -> exists ys, mapr f l = Ok ys.
Proof.
  induction l as [|x l IH]; cbn; intros Hf; [eauto|].
  pose proof (Hf x ltac:(set_solver)) as Hx. destruct (f x); [|done].
  destruct IH as [ys ->]; [set_solver|]. cbn. eauto.
Qed.

(** ** Tactics *)

(** Decompose every hypothesis of the form [m ≫= f = Ok v] and the raising
    guards inside it. *)
Ltac res_inv_step :=
  match goal with
  | H : _ ≫= _ = Ok _ |- _ => apply bind_Ok in H as (? & ? & ?)
  | H : mbind _ _ = Ok _ |- _ => apply bind_Ok in H as (? & ? & ?)
  | H : _ <$> _ = Ok _ |- _ => apply fmap_Ok in H as (? & ? & ?)
  | H : raise_if _ _ = Ok _ |- _ => apply raise_if_Ok in H
  | H : raise_none _ _ = Ok _ |- _ => apply raise_none_Ok in H
  | H : catch _ _ _ = Ok _ |- _ => apply catch_Ok in H
  | H : Ok _ = Ok _ |- _ => injection H as H
  | H : Err _ = Ok _ |- _ => discriminate H
  | H : mret _ = Ok _ |- _ => injection H as H
  end.
Ltac res_inv := repeat res_inv_step; simplify_eq/=.

(** Turn boolean guards that hold or fail into propositions. *)
Ltac bool_simpl :=
  repeat match goal with
  | H : _ && _ = true |- _ => apply andb_true_iff in H as [? ?]
  | H : _ || _ = false |- _ => apply orb_false_iff in H as [? ?]
  | H : negb _ = true |- _ => apply negb_true_iff in H
  | H : negb _ = false |- _ => apply negb_false_iff in H
  | H : bool_decide _ = true |- _ => apply bool_decide_eq_true_1 in H
  | H : bool_decide _ = false |- _ => apply bool_decide_eq_false_1 in H
  | H : (_ =? _)%Z = true |- _ => apply Z.eqb_eq in H
  | H : (_ =? _)%Z = false |- _ => apply Z.eqb_neq in H
  | H : (_ <=? _)%Z = true |- _ => apply Z.leb_le in H
  | H : (_ <=? _)%Z = false |- _ => apply Z.leb_gt in H
  | H : (_ <? _)%Z = true |- _ => apply Z.ltb_lt in H
  | H : (_ <? _)%Z = false |- _ => apply Z.ltb_ge in H
  end.

(** Split every conditional and match of a hypothesis or goal. *)
Ltac case_all := repeat (case_match; simplify_eq/=).

(** ** Hint databases

    [clue] carries the lemmas that discharge the common side conditions
    (membership through the library's list functions, dictionary lookups,
    string facts). *)
Create HintDb clue.

(** ** Generic lemmas on lists *)

(** [unique_first]: keep the first occurrence of every element, in order
    ([dict.fromkeys] and the [seen]-set loops of the sources). *)
Fixpoint unique_from {A} `{EqDecision A} (seen l : list A) : list A :=
  match l with
  | [] => []
  | x :: l =>
      if bool_decide (x ∈ seen) then unique_from seen l
      else x :: unique_from (x :: seen) l
  end.
Definition unique_first {A} `{EqDecision A} (l : list A) : list A := unique_from [] l.

Lemma elem_of_unique_from {A} `{EqDecision A} (seen l : list A) x :
  x ∈ unique_from seen l <-> x ∈ l /\ x ∉ seen.
Proof.
  revert seen. induction l as [|y l IH]; intros seen; cbn; [set_solver|].
  case_bool_decide; [rewrite IH; set_solver|].
  rewrite !elem_of_cons, IH, not_elem_of_cons.
  destruct (decide (x = y)); set_solver.
Qed.

Lemma NoDup_unique_from {A} `{EqDecision A} (seen l : list A) :
  NoDup (unique_from seen l).
Proof.
  revert seen. induction l as [|y l IH]; intros seen; cbn; [constructor|].
  case_bool_decide; [apply IH|]. constructor; [|apply IH].
  rewrite elem_of_unique_from. set_solver.
Qed.

Lemma elem_of_unique_first {A} `{EqDecision A} (l : list A) x :
  x ∈ unique_first l <-> x ∈ l.
Proof. unfold unique_first. rewrite elem_of_unique_from. set_solver. Qed.

Lemma NoDup_unique_first {A} `{EqDecision A} (l : list A) : NoDup (unique_first l).
Proof. apply NoDup_unique_from. Qed.

Lemma unique_from_id {A} `{EqDecision A} (seen l : list A) :
  NoDup l -> (forall x, x ∈ l -> x ∉ seen) -> unique_from seen l = l.
Proof.
  revert seen. induction l as [|y l IH]; intros seen Hnd Hs; cbn; [done|].
  apply NoDup_cons in Hnd as [Hy Hnd].
  rewrite bool_decide_eq_false_2 by set_solver.
  f_equal. apply IH; [done|]. intros x Hx. rewrite not_elem_of_cons.
  split; [by intros -> | set_solver].
Qed.

Lemma unique_first_snoc {A} `{EqDecision A} (l : list A) x :
  unique_first (l ++ [x]) = unique_first l ++ (if bool_decide (x ∈ l) then [] else [x]).
Proof.
  unfold unique_first.
  assert (forall seen, unique_from seen (l ++ [x]) =
    unique_from seen l ++ (if bool_decide (x ∈ seen ++ l) then [] else [x])) as ->; [|done].
  induction l as [|y l IH]; intros seen; cbn.
  - rewrite app_nil_r. by case_bool_decide.
  - case_bool_decide; cbn; rewrite IH; repeat f_equal; repeat case_bool_decide; set_solver.
Qed.

(** [no_dup l]: [len(set(l)) == len(l)]. *)
Definition no_dup {A} `{EqDecision A} (l : list A) : bool :=
  bool_decide (length (unique_first l) = length l).

Lemma length_unique_from {A} `{EqDecision A} (seen l : list A) :
  (length (unique_from seen l) <= length l)%nat.
Proof.
  revert seen. induction l as [|y l IH]; intros seen; cbn; [lia|].
  pose proof (IH seen). pose proof (IH (y :: seen)). case_bool_decide; cbn; lia.
Qed.

Lemma unique_from_full {A} `{EqDecision A} (seen l : list A) :
  length (unique_from seen l) = length l ->
  NoDup l /\ (forall x, x ∈ l -> x ∉ seen).
Proof.
  revert seen. induction l as [|y l IH]; intros seen; cbn.
  - intros _. split; [constructor | set_solver].
  - case_bool_decide as Hy; cbn; intros Hlen.
    + pose proof (length_unique_from seen l). lia.
    + destruct (IH (y :: seen)) as [Hnd Hs]; [lia|]. split.
      * constructor; [|done]. intros Hin. apply (Hs y Hin). set_solver.
      * intros x Hx. apply elem_of_cons in Hx as [->|Hx]; [done|].
        specialize (Hs x Hx). set_solver.
Qed.

Lemma no_dup_spec {A} `{EqDecision A} (l : list A) : no_dup l = true <-> NoDup l.
Proof.
  unfold no_dup, unique_first. rewrite bool_decide_eq_true. split.
  - intros H. by apply unique_from_full in H as [? _].
  - intros H. rewrite unique_from_id; [done|done|set_solver].
Qed.

(** The one element of a singleton list: [xs[0] if len(xs) == 1 else None]. *)
Definition the_one {A} (l : list A) : option A :=
  match l with [x] => Some x | _ => None end.

Lemma the_one_Some {A} (l : list A) x : the_one l = Some x <-> l = [x].
Proof. destruct l as [|? [|]]; cbn; naive_solver. Qed.

(** Boolean filtering, the shape of [[x for x in l if p(x)]]. *)
Fixpoint keep {A} (p : A -> bool) (l : list A) : list A :=
  match l with
  | [] => []
  | x :: l => if p x then x :: keep p l else keep p l
  end.

Lemma elem_of_keep {A} (p : A -> bool) l x : x ∈ keep p l <-> x ∈ l /\ p x = true.
Proof.
  induction l as [|y l IH]; cbn; [set_solver|].
  destruct (p y) eqn:E; rewrite ?elem_of_cons, IH; intuition congruence.
Qed.

Lemma keep_length_le {A} (p : A -> bool) l : (length (keep p l) <= length l)%nat.
Proof. induction l as [|y l IH]; cbn; [lia|]. destruct (p y); cbn; lia. Qed.

Lemma keep_true {A} (p : A -> bool) l :
  (forall x, x ∈ l -> p x = true) -> keep p l = l.
Proof.
  induction l as [|y l IH]; cbn; [done|]. intros Hp.
  rewrite Hp by set_solver. rewrite IH; [done|set_solver].
Qed.

Lemma keep_false {A} (p : A -> bool) l :
  (forall x, x ∈ l -> p x = false) -> keep p l = [].
Proof.
  induction l as [|y l IH]; cbn; [done|]. intros Hp.
  rewrite Hp by set_solver. rewrite IH; [done|set_solver].
Qed.

Lemma keep_app {A} (p : A -> bool) l k : keep p (l ++ k) = keep p l ++ keep p k.
Proof. induction l as [|y l IH]; cbn; [done|]. destruct (p y); cbn; by rewrite IH. Qed.

(** [sorted]: a stable insertion sort. *)
Section isort.
Context {A : Type} (leb : A -> A -> bool).

Fixpoint insert_sorted (x : A) (l : list A) : list A :=
  match l with
  | [] => [x]
  | y :: l => if leb x y then x :: y :: l else y :: insert_sorted x l
  end.
Fixpoint isort (l : list A) : list A :=
  match l with
  | [] => []
  | x :: l => insert_sorted x (isort l)
  end.

Lemma insert_sorted_perm x l : insert_sorted x l ≡ₚ x :: l.
Proof.
  induction l as [|y l IH]; cbn; [done|].
  destruct (leb x y); [done|]. rewrite IH. apply Permutation_swap.
Qed.

Lemma isort_perm l : isort l ≡ₚ l.
Proof. induction l as [|x l IH]; cbn; [done|]. by rewrite insert_sorted_perm, IH. Qed.

Lemma elem_of_isort x l : x ∈ isort l <-> x ∈ l.
Proof. by rewrite isort_perm. Qed.

Lemma length_isort l : length (isort l) = length l.
Proof. by rewrite isort_perm. Qed.

Context (leb_total : forall a b, leb a b = true \/ leb b a = true).
Context (leb_trans : forall a b c, leb a b = true -> leb b c = true -> leb a c = true).

Lemma insert_sorted_sorted x l :
  StronglySorted (fun a b => leb a b = true) l ->
  StronglySorted (fun a b => leb a b = true) (insert_sorted x l).
Proof.
  induction 1 as [|y l Hs IH Hall]; cbn; [repeat constructor|].
  destruct (leb x y) eqn:E.
  - constructor; [by constructor|]. constructor; [done|].
    eapply Forall_impl; [exact Hall|]. cbn. eauto.
  - constructor; [done|]. rewrite insert_sorted_perm. constructor; [|done].
    destruct (leb_total x y); congruence.
Qed.

Lemma isort_sorted l : StronglySorted (fun a b => leb a b = true) (isort l).
Proof. induction l as [|x l IH]; cbn; [constructor|]. by apply insert_sorted_sorted. Qed.

(** The same where the order is only known on the elements at hand. *)
Lemma isort_sorted_on (P : A -> Prop) l :
  (forall a b, P a -> P b -> leb a b = true \/ leb b a = true) ->
  (forall a b c, P a -> P b -> P c -> leb a b = true -> leb b c = true -> leb a c = true) ->
  Forall P l -> StronglySorted (fun a b => leb a b = true) (isort l).
Proof.
  intros Htotal Htrans. induction 1 as [|x l Hx Hl IH]; cbn; [constructor|].
  assert (Forall P (isort l)) as Hp by (by rewrite isort_perm). clear Hl. revert Hp.
  induction IH as [|y k Hs IH Hall]; cbn; [repeat constructor|]. intros [Hy Hk]%Forall_cons.
  destruct (leb x y) eqn:E.
  - constructor; [by constructor|]. constructor; [done|].
    rewrite Forall_forall in Hall, Hk |- *. intros z Hz. by apply (Htrans x y z); auto.
  - constructor; [by apply IH|]. rewrite insert_sorted_perm. constructor; [|done].
    destruct (Htotal x y); congruence.
Qed.
End isort.

(** Tuples compare element by element: pairs in lexicographic order. *)
Section lex.
Context {A B : Type} `{EqDecision A} (la : A -> A -> bool) (lb : B -> B -> bool).

Definition lex_leb (x y : A * B) : bool :=
  if bool_decide (x.1 = y.1) then lb x.2 y.2 else la x.1 y.1.

Lemma lex_total :
  (forall a b, la a b = true \/ la b a = true) -> (forall a b, lb a b = true \/ lb b a = true) ->
  forall x y, lex_leb x y = true \/ lex_leb y x = true.
Proof.
  intros Ha Hb [a b] [a' b']. unfold lex_leb. cbn. rewrite (bool_decide_ext (a' = a) (a = a')) by done.
  case_bool_decide; auto.
Qed.

Lemma lex_antisym :
  (forall a b, la a b = true -> la b a = true -> a = b) -> (forall a b, lb a b = true -> lb b a = true -> a = b) ->
  forall x y, lex_leb x y = true -> lex_leb y x = true -> x = y.
Proof.
  intros Ha Hb [a b] [a' b']. unfold lex_leb. cbn. rewrite (bool_decide_ext (a' = a) (a = a')) by done.
  case_bool_decide as E; intros; f_equal; auto.
  all: destruct E; auto.
Qed.

Lemma lex_trans :
  (forall a b, la a b = true -> la b a = true -> a = b) ->
  (forall a b c, la a b = true -> la b c = true -> la a c = true) ->
  (forall a b c, lb a b = true -> lb b c = true -> lb a c = true) ->
  forall x y z, lex_leb x y = true -> lex_leb y z = true -> lex_leb x z = true.
Proof.
  intros Has Ha Hb [a b] [a' b'] [a'' b'']. unfold lex_leb. cbn.
  destruct (decide (a = a')) as [->|Hn]; [rewrite (bool_decide_true (a' = a')) by done|
    rewrite (bool_decide_false (a = a')) by done].
  - case_bool_decide; eauto.
  - case_bool_decide; [subst; rewrite bool_decide_false by done; eauto|].
    intros H1 H2. rewrite bool_decide_false; [eauto|]. intros <-. by apply Hn, Has.
Qed.
End lex.

Lemma elem_of_option_list {A} (o : option A) x : x ∈ option_list o <-> o = Some x.
Proof. destruct o; cbn; [|set_solver]. rewrite list_elem_of_singleton. naive_solver. Qed.

(** Elements with distinct keys are determined by them. *)
Lemma NoDup_fmap_fst_eq {A B} (f : A -> B) l x y :
  NoDup (f <$> l) -> x ∈ l -> y ∈ l -> f x = f y -> x = y.
Proof.
  induction l as [|z l IH]; cbn; [set_solver|]. intros [Hz Hnd]%NoDup_cons.
  assert (forall w, w ∈ l -> f w <> f z) as Hne.
  { intros w Hw E. destruct Hz. apply list_elem_of_fmap. eauto. }
  intros [->|Hx]%elem_of_cons [->|Hy]%elem_of_cons E; auto; destruct (Hne _ ltac:(eassumption));
    congruence.
Qed.

(** Selecting by a key that no two elements share. *)
Lemma keep_key_unique {A} (f : A -> string) l k x :
  NoDup (f <$> l) ->
  keep (fun y => bool_decide (f y = k)) l = [x] <-> x ∈ l /\ f x = k.
Proof.
  intros Hnd. split.
  - intros E. assert (x ∈ keep (fun y => bool_decide (f y = k)) l) as Hx by (rewrite E; set_solver).
    apply elem_of_keep in Hx as [? ?%bool_decide_eq_true]. done.
  - intros [Hin Hk]. induction l as [|y l IH]; [set_solver|]. cbn in *.
    apply NoDup_cons in Hnd as [Hy Hnd]. apply elem_of_cons in Hin as [<-|Hin].
    + rewrite bool_decide_true by done. f_equal. apply keep_false. intros z Hz.
      apply bool_decide_eq_false. intros Hzk. destruct Hy. apply list_elem_of_fmap.
      exists z. split; [congruence|done].
    + rewrite bool_decide_false; [by apply IH|]. intros Hyk. destruct Hy.
      apply list_elem_of_fmap. exists x. split; [congruence|done].
Qed.

(** Decidable [all] and [any] over lists, reflected into membership. *)
Lemma forallb_elem {A} (p : A -> bool) l :
  forallb p l = true <-> forall x, x ∈ l -> p x = true.
Proof.
  rewrite forallb_forall. split; intros H x Hx; apply H; by apply list_elem_of_In.
Qed.

Lemma existsb_elem {A} (p : A -> bool) l :
  existsb p l = true <-> exists x, x ∈ l /\ p x = true.
Proof.
  rewrite existsb_exists. setoid_rewrite <- list_elem_of_In. done.
Qed.

#[export] Hint Resolve NoDup_unique_first NoDup_unique_from : clue.
#[export] Hint Rewrite @elem_of_unique_first @elem_of_keep : clue.
