(* ===== verification/PyStr.v ===== *)
(** * Python strings

    The [str] operations the modelled sources use.  A Python [str] is a
    sequence of code points; the model keeps the code points below 256, one
    [ascii] per code point (identifiers, label values, digests, paths and
    quantities of Kubernetes and GitHub are ASCII).  Literals of the sources
    outside that range are only carried around, never inspected.

    [casefold] maps U+00B5 to itself: its case folding (U+03BC) is outside the
    range and the sources use folded text only in comparisons between folded
    texts, where renaming one character changes nothing. *)
From S2P Require Import Prelude.

#[global] Arguments String.append !_ _ : simpl nomatch.

(** ** Characters *)

Definition code (c : ascii) : N := N_of_ascii c.

Definition in_range (lo hi : N) (c : ascii) : bool :=
  (lo <=? code c)%N && (code c <=? hi)%N.

(** [str.isspace] on one character. *)
Definition is_space (c : ascii) : bool :=
  in_range 9 13 c || in_range 28 32 c || (code c =? 133)%N || (code c =? 160)%N.

Definition is_digit (c : ascii) : bool := in_range 48 57 c.
Definition is_upper (c : ascii) : bool := in_range 65 90 c.
Definition is_lower (c : ascii) : bool := in_range 97 122 c.

(** The class [A-Za-z0-9] of the regular expressions. *)
Definition is_word (c : ascii) : bool := is_digit c || is_upper c || is_lower c.

(** The class [0-9a-f]. *)
Definition is_hex (c : ascii) : bool := is_digit c || in_range 97 102 c.

(** Membership of a character in a literal set such as ["._-"]. *)
Fixpoint char_in (c : ascii) (s : string) : bool :=
  match s with
  | EmptyString => false
  | String d s => bool_decide (c = d) || char_in c s
  end.

Definition digit_value (c : ascii) : Z := Z.of_N (code c) - 48.

(** ** Whole strings *)

Definition chars (s : string) : list ascii := String.list_ascii_of_string s.
Definition unchars (l : list ascii) : string := String.string_of_list_ascii l.

Notation str_len := String.length (only parsing).
Definition is_empty (s : string) : bool := match s with EmptyString => true | _ => false end.
Definition nonempty (s : string) : bool := negb (is_empty s).
Definition str_eqb (a b : string) : bool := bool_decide (a = b).

(** [all(p(c) for c in s)]. *)
Fixpoint all_chars (p : ascii -> bool) (s : string) : bool :=
  match s with
  | EmptyString => true
  | String c s => p c && all_chars p s
  end.

(** [s[:n]] and [s[n:]]. *)
Fixpoint str_take (n : nat) (s : string) : string :=
  match n, s with
  | S n, String c s => String c (str_take n s)
  | _, _ => EmptyString
  end.
Fixpoint str_drop (n : nat) (s : string) : string :=
  match n, s with
  | S n, String _ s => str_drop n s
  | _, _ => s
  end.

(** [s[a:b]]. *)
Definition str_slice (a b : nat) (s : string) : string := str_take (b - a) (str_drop a s).

(** [s.startswith(p)] and [s.endswith(p)]. *)
Fixpoint starts_with (p s : string) : bool :=
  match p, s with
  | EmptyString, _ => true
  | String a p, String b s => bool_decide (a = b) && starts_with p s
  | _, _ => false
  end.
Fixpoint ends_with (p s : string) : bool :=
  str_eqb s p || match s with EmptyString => false | String _ s => ends_with p s end.

(** [p in s]. *)
Fixpoint contains (p s : string) : bool :=
  starts_with p s || match s with EmptyString => false | String _ s => contains p s end.

Fixpoint lstrip (s : string) : string :=
  match s with
  | EmptyString => EmptyString
  | String c s' => if is_space c then lstrip s' else s
  end.
Fixpoint rstrip (s : string) : string :=
  match s with
  | EmptyString => EmptyString
  | String c s =>
      let t := rstrip s in
      if is_empty t && is_space c then EmptyString else String c t
  end.
(** [s.strip()]. *)
Definition strip (s : string) : string := rstrip (lstrip s).

(** [s.casefold()]. *)
Definition casefold_char (c : ascii) : string :=
  if is_upper c || (in_range 192 222 c && negb (code c =? 215)%N) then
    String (ascii_of_N (code c + 32)) EmptyString
  else if (code c =? 223)%N then "ss"
  else String c EmptyString.
Fixpoint casefold (s : string) : string :=
  match s with
  | EmptyString => EmptyString
  | String c s => casefold_char c +:+ casefold s
  end.

(** [s.replace(c, t)] for a one-character [c]. *)
Fixpoint replace_char (c : ascii) (t s : string) : string :=
  match s with
  | EmptyString => EmptyString
  | String d s => (if bool_decide (c = d) then t else String d EmptyString) +:+ replace_char c t s
  end.

(** [s.split(c)] for a one-character [c]; never empty. *)
Fixpoint split_char (c : ascii) (s : string) : list string :=
  match s with
  | EmptyString => [EmptyString]
  | String d s =>
      if bool_decide (c = d) then EmptyString :: split_char c s
      else match split_char c s with
           | [] => [String d EmptyString]
           | w :: ws => String d w :: ws
           end
  end.

(** [s.rfind(c)]: [-1] when absent. *)
Fixpoint rfind_char (c : ascii) (s : string) : Z :=
  match s with
  | EmptyString => -1
  | String d s =>
      let r := rfind_char c s in
      if 0 <=? r then r + 1 else if bool_decide (c = d) then 0 else -1
  end.

(** [sep.join(ws)]. *)
Fixpoint join (sep : string) (ws : list string) : string :=
  match ws with
  | [] => EmptyString
  | [w] => w
  | w :: ws => w +:+ sep +:+ join sep ws
  end.

(** [s * n]. *)
Fixpoint concat_strings (ws : list string) : string :=
  match ws with
  | [] => EmptyString
  | w :: ws => w +:+ concat_strings ws
  end.

(** [PurePosixPath(s).parts]: the components between slashes, without the
    empty ones and the single dots, with the root in front. *)
Definition path_parts (s : string) : list string :=
  (if starts_with "/" s then ["/"] else []) ++
  keep (fun w => negb (is_empty w) && negb (str_eqb w ".")) (split_char "/" s).

(** Decimal rendering of an integer: [str(z)]. *)
Definition digit_char (d : Z) : ascii := ascii_of_N (Z.to_N (d + 48)).
Fixpoint digits_fuel (fuel : nat) (n : Z) (acc : string) : string :=
  match fuel with
  | O => acc
  | S fuel =>
      let acc := String (digit_char (n mod 10)) acc in
      if n <? 10 then acc else digits_fuel fuel (n / 10) acc
  end.
Definition str_of_int (z : Z) : string :=
  if z <? 0 then String "-" (digits_fuel (S (Z.to_nat (Z.log2 (- z)))) (- z) "")
  else digits_fuel (S (Z.to_nat (Z.log2 z))) z "".

(** Digit groups separated by single underscores: the value and the number of
    digits, [None] when the text is not of that form. *)
Fixpoint digit_groups (after_digit : bool) (s : string) (acc : Z) (n : Z) : option (Z * Z) :=
  match s with
  | EmptyString => if after_digit then Some (acc, n) else None
  | String c s =>
      if is_digit c then digit_groups true s (10 * acc + digit_value c) (n + 1)
      else if bool_decide (c = "_"%char) && after_digit then digit_groups false s acc n
      else None
  end.

(** The digit limit of [int(str)] (CPython's default). *)
Definition INT_MAX_STR_DIGITS : Z := 4300.

(** [int(s)] for a string: [None] stands for [ValueError]. *)
Definition int_of_str (s : string) : option Z :=
  let parse sgn t :=
    match digit_groups false t 0 0 with
    | Some (z, n) => if n <=? INT_MAX_STR_DIGITS then Some (sgn * z) else None
    | None => None
    end in
  match strip s with
  | String "+" t => parse 1 t
  | String "-" t => parse (-1) t
  | t => parse 1 t
  end.

(** [s.partition(c)]: the text before the separator, whether there is one,
    the text after it. *)
Fixpoint partition_char (c : ascii) (s : string) : string * bool * string :=
  match s with
  | EmptyString => ("", false, "")
  | String a s =>
      if bool_decide (a = c) then ("", true, s)
      else let '(l, found, r) := partition_char c s in (String a l, found, r)
  end.

(** [str.isdigit] on one character: the superscripts count, though [int] does
    not read them. *)
Definition is_digit_like (c : ascii) : bool :=
  is_digit c || bool_decide (code c ∈ [178; 179; 185])%N.
Definition isdigit (s : string) : bool := nonempty s && all_chars is_digit_like s.

(** ** Lemmas *)

Lemma str_app_nil_r (s : string) : s +:+ "" = s.
Proof. induction s as [|c s IH]; [done|]. cbn. by rewrite IH. Qed.

Lemma str_app_assoc (a b c : string) : (a +:+ b) +:+ c = a +:+ (b +:+ c).
Proof. induction a as [|x a IH]; [done|]. cbn. by rewrite IH. Qed.

Lemma str_app_length (a b : string) : str_len (a +:+ b) = (str_len a + str_len b)%nat.
Proof. induction a as [|x a IH]; [done|]. cbn. by rewrite IH. Qed.

Lemma str_take_drop n s : str_take n s +:+ str_drop n s = s.
Proof.
  revert s. induction n as [|n IH]; intros [|c s]; try done. cbn. by rewrite IH.
Qed.

Lemma str_take_app_length (a b : string) : str_take (str_len a) (a +:+ b) = a.
Proof. induction a as [|x a IH]; cbn; [by destruct b|]. by rewrite IH. Qed.

Lemma str_drop_app_length (a b : string) : str_drop (str_len a) (a +:+ b) = b.
Proof. induction a as [|x a IH]; cbn; [by destruct b|]. apply IH. Qed.

Lemma str_len_take n s : (n <= str_len s)%nat -> str_len (str_take n s) = n.
Proof.
  revert s. induction n as [|n IH]; intros [|c s]; cbn; try lia.
  intros. rewrite IH; lia.
Qed.

Lemma str_len_drop n s : str_len (str_drop n s) = (str_len s - n)%nat.
Proof.
  revert s. induction n as [|n IH]; intros [|c s]; cbn; auto.
Qed.

Lemma str_drop_drop a b s : str_drop a (str_drop b s) = str_drop (b + a) s.
Proof.
  revert s. induction b as [|b IH]; intros [|c s]; cbn; auto; by destruct a.
Qed.

Lemma str_take_take a b s : str_take a (str_take b s) = str_take (a `min` b) s.
Proof.
  revert b s. induction a as [|a IH]; intros [|b] [|c s]; cbn; try done. by rewrite IH.
Qed.

Lemma str_eqb_eq a b : str_eqb a b = true <-> a = b.
Proof. unfold str_eqb. by rewrite bool_decide_eq_true. Qed.

Lemma str_eqb_refl a : str_eqb a a = true.
Proof. by apply str_eqb_eq. Qed.

Lemma is_empty_eq s : is_empty s = true <-> s = "".
Proof. by destruct s. Qed.

Lemma starts_with_app p s : starts_with p (p +:+ s) = true.
Proof. induction p as [|c p IH]; [done|]. cbn. by rewrite bool_decide_eq_true_2. Qed.

Lemma starts_with_spec p s : starts_with p s = true <-> exists t, s = p +:+ t.
Proof.
  split; [|intros [t ->]; apply starts_with_app].
  revert s. induction p as [|c p IH]; intros [|d s]; cbn; intros H; try done; eauto.
  apply andb_true_iff in H as [->%bool_decide_eq_true_1 H].
  destruct (IH s H) as [t ->]. eauto.
Qed.

Lemma ends_with_spec p s : ends_with p s = true <-> exists t, s = t +:+ p.
Proof.
  split.
  - induction s as [|c s IH]; cbn; rewrite orb_true_iff, str_eqb_eq.
    + intros [<-|?]; [|done]. by exists "".
    + intros [<-|H]; [by exists ""|]. destruct (IH H) as [t ->]. by exists (String c t).
  - intros [t ->]. induction t as [|c t IH]; cbn.
    + destruct p; cbn; by rewrite str_eqb_refl.
    + rewrite IH. by rewrite orb_true_r.
Qed.

Lemma all_chars_app p a b : all_chars p (a +:+ b) = all_chars p a && all_chars p b.
Proof. induction a as [|c a IH]; cbn; [done|]. by rewrite IH, andb_assoc. Qed.

Lemma all_chars_impl (p q : ascii -> bool) s :
  (forall c, p c = true -> q c = true) -> all_chars p s = true -> all_chars q s = true.
Proof.
  intros Hpq. induction s as [|c s IH]; cbn; [done|].
  rewrite !andb_true_iff. naive_solver.
Qed.

(** Text without white space is its own [strip]. *)
Lemma rstrip_no_space s : all_chars (fun c => negb (is_space c)) s = true -> rstrip s = s.
Proof.
  induction s as [|c s IH]; cbn; [done|]. rewrite andb_true_iff.
  intros [Hc Hs]. rewrite (IH Hs). apply negb_true_iff in Hc. rewrite Hc.
  by rewrite andb_false_r.
Qed.

Lemma strip_no_space s : all_chars (fun c => negb (is_space c)) s = true -> strip s = s.
Proof.
  unfold strip. intros H. destruct s as [|c s]; [done|]. cbn [lstrip].
  pose proof H as H'. cbn in H. apply andb_true_iff in H as [Hc _].
  apply negb_true_iff in Hc. rewrite Hc. by apply rstrip_no_space.
Qed.

Lemma rstrip_idemp s : rstrip (rstrip s) = rstrip s.
Proof.
  induction s as [|c s IH]; cbn; [done|].
  destruct (is_empty (rstrip s) && is_space c) eqn:E; [done|].
  cbn. rewrite IH. by rewrite E.
Qed.

Lemma lstrip_head s c t : lstrip s = String c t -> is_space c = false.
Proof.
  induction s as [|d s IH]; cbn; [done|].
  destruct (is_space d) eqn:E; [done|]. by intros [= <- <-].
Qed.

(** [strip] is idempotent. *)
Lemma strip_idemp s : strip (strip s) = strip s.
Proof.
  unfold strip. destruct (lstrip s) as [|c t] eqn:E; [done|].
  apply lstrip_head in E.
  assert (rstrip (String c t) = String c (rstrip t)) as Hr
    by (cbn; by rewrite E, andb_false_r).
  rewrite Hr. cbn [lstrip]. rewrite E. rewrite <- Hr at 1. rewrite rstrip_idemp. done.
Qed.

Lemma str_app_inj_r (a b c : string) : a +:+ c = b +:+ c -> a = b.
Proof.
  revert b. induction a as [|x a IH]; intros [|y b] H; cbn in H; try done.
  - apply (f_equal str_len) in H. cbn in H. rewrite ?str_app_length in H.
    pose proof (str_app_length b c). lia.
  - apply (f_equal str_len) in H. cbn in H. pose proof (str_app_length a c).
    lia.
  - injection H as -> H. f_equal. by apply IH.
Qed.

#[export] Hint Rewrite str_app_nil_r str_app_assoc str_take_drop str_take_app_length
  str_drop_app_length : clue.
#[export] Hint Resolve str_eqb_refl starts_with_app strip_no_space : clue.

(** Comparison of strings is by code points. *)
Lemma ascii_compare_code c d : Ascii.compare c d = N.compare (code c) (code d).
Proof. done. Qed.

Lemma str_leb_cons c s d t :
  String.leb (String c s) (String d t) = (if (code c =? code d)%N then String.leb s t else (code c <? code d)%N).
Proof.
  unfold String.leb. cbn. rewrite ascii_compare_code. unfold N.ltb.
  destruct (N.eqb_spec (code c) (code d)) as [->|]; [by rewrite N.compare_refl|].
  by destruct (N.compare_spec (code c) (code d)).
Qed.

Lemma str_leb_trans a b c : String.leb a b = true -> String.leb b c = true -> String.leb a c = true.
Proof.
  revert b c. induction a as [|x a IH]; intros [|y b] [|z c]; try done. rewrite !str_leb_cons.
  destruct (N.eqb_spec (code x) (code y)), (N.eqb_spec (code y) (code z)), (N.eqb_spec (code x) (code z));
    rewrite ?N.ltb_lt; intros; try lia; eauto.
Qed.

Lemma rfind_char_lb c s : -1 <= rfind_char c s.
Proof. induction s as [|d s IH]; cbn; [lia|]. case_match; [lia|]. case_match; lia. Qed.

Lemma rfind_char_split c s :
  0 <= rfind_char c s ->
  s = str_take (Z.to_nat (rfind_char c s)) s +:+ String c (str_drop (Z.to_nat (rfind_char c s + 1)) s).
Proof.
  induction s as [|d s IH]; cbn [rfind_char]; [lia|].
  destruct (0 <=? rfind_char c s) eqn:E; bool_simpl.
  - intros _. specialize (IH E).
    replace (Z.to_nat (rfind_char c s + 1 + 1)) with (S (Z.to_nat (rfind_char c s + 1))) by lia.
    replace (Z.to_nat (rfind_char c s + 1)) with (S (Z.to_nat (rfind_char c s))) in * by lia.
    cbn. f_equal. exact IH.
  - case_bool_decide as Hc; [|lia]. subst. done.
Qed.
