(* ===== verification/PyFloat.v ===== *)
(** * Python floats

    IEEE 754 binary64, computed with the Standard Library's [SpecFloat]
    (precision 53, maximal exponent 1024): literals, [float(int)],
    [float(str)], the true division of integers, the arithmetic and the
    comparisons the sources use, and the order lemmas the proofs need. *)
From Stdlib Require Import Floats.SpecFloat.
From S2P Require Import Prelude PyStr.

Definition float : Type := spec_float.

Definition prec : Z := 53.
Definition emax : Z := 1024.

#[global] Instance float_eq_dec : EqDecision float.
Proof. unfold float. solve_decision. Defined.

Definition is_finite (f : float) : bool :=
  match f with S754_zero _ | S754_finite _ _ _ => true | _ => false end.
Definition is_nan (f : float) : bool :=
  match f with S754_nan => true | _ => false end.

Definition fzero : float := S754_zero false.

Definition fadd : float -> float -> float := SFadd prec emax.
Definition fsub : float -> float -> float := SFsub prec emax.
Definition fmul : float -> float -> float := SFmul prec emax.
Definition fdiv : float -> float -> float := SFdiv prec emax.
Definition fopp : float -> float := SFopp.
Definition fabs : float -> float := SFabs.
Definition feqb : float -> float -> bool := SFeqb.
Definition fltb : float -> float -> bool := SFltb.
Definition fleb : float -> float -> bool := SFleb.

(** The correctly rounded value of [n / d] for a positive [d]. *)
Definition round_ratio (n : Z) (d : positive) : float :=
  match n with
  | Z0 => S754_zero false
  | Zpos p => let '(q, e, l) := SFdiv_core_binary prec emax (Zpos p) 0 (Zpos d) 0 in
              binary_round_aux prec emax false q e l
  | Zneg p => let '(q, e, l) := SFdiv_core_binary prec emax (Zpos p) 0 (Zpos d) 0 in
              binary_round_aux prec emax true q e l
  end.

(** [n / d] on integers, for the positive denominators of the sources. *)
Definition int_div (n : Z) (d : Z) : float :=
  match d with Zpos p => round_ratio n p | _ => S754_nan end.

(** The nearest float of an integer, infinite when the integer is out of
    range. *)
Definition nearest_float (z : Z) : float := binary_normalize prec emax z 0 false.

(** [float(z)]: raises [OverflowError] outside the range of binary64. *)
Definition float_of_int (z : Z) : res float :=
  let f := nearest_float z in
  if is_finite f then Ok f else Err OverflowError.

(** The integer part, as [int(f)] truncates: [ValueError] on NaN,
    [OverflowError] on the infinities. *)
Definition int_of_float (f : float) : res Z :=
  match f with
  | S754_zero _ => Ok 0
  | S754_nan => Err ValueError
  | S754_infinity _ => Err OverflowError
  | S754_finite s m e =>
      let a := if 0 <=? e then Zpos m * 2 ^ e else Zpos m / 2 ^ (- e) in
      Ok (if s then - a else a)
  end.

(** [math.ceil(f)], with the errors of [int(f)]. *)
Definition ceil_of_float (f : float) : res Z :=
  match f with
  | S754_zero _ => Ok 0
  | S754_nan => Err ValueError
  | S754_infinity _ => Err OverflowError
  | S754_finite s m e =>
      let a := if s then Zneg m else Zpos m in
      Ok (if 0 <=? e then a * 2 ^ e else - ((- a) / 2 ^ (- e)))
  end.

(** [f.is_integer()]. *)
Definition float_is_integer (f : float) : bool :=
  match f with
  | S754_zero _ => true
  | S754_finite _ m e => (0 <=? e) || (Zpos m mod 2 ^ (- e) =? 0)
  | _ => false
  end.

(** The exact comparison [z == f] of an integer and a float. *)
Definition int_eq_float (z : Z) (f : float) : bool :=
  match f with
  | S754_zero _ => z =? 0
  | S754_finite s m e =>
      let v := if s then Zneg m else Zpos m in
      if 0 <=? e then z =? v * 2 ^ e else z * 2 ^ (- e) =? v
  | _ => false
  end.

(** ** [float(str)] *)

(** Underscores are accepted between two digits only; they are then dropped. *)
Fixpoint drop_underscores (after_digit : bool) (s : string) : option string :=
  match s with
  | EmptyString => Some ""
  | String "_" t =>
      match t with
      | String d _ => if after_digit && is_digit d then drop_underscores false t else None
      | EmptyString => None
      end
  | String c t => String c <$> drop_underscores (is_digit c) t
  end.

(** The longest prefix of digits: its value, its length and the rest. *)
Fixpoint read_digits (s : string) (acc n : Z) : Z * Z * string :=
  match s with
  | String c t => if is_digit c then read_digits t (10 * acc + digit_value c) (n + 1) else (acc, n, s)
  | EmptyString => (acc, n, s)
  end.

(** The exponent part of a decimal literal. *)
Definition read_exponent (s : string) : option Z :=
  let finish sgn t :=
    match read_digits t 0 0 with
    | (e, n, "") => if 0 <? n then Some (sgn * e) else None
    | _ => None
    end in
  match s with
  | EmptyString => Some 0
  | String c t =>
      if bool_decide (c = "e"%char) || bool_decide (c = "E"%char) then
        match t with
        | String "+" t => finish 1 t
        | String "-" t => finish (-1) t
        | _ => finish 1 t
        end
      else None
  end.

(** The value of [m * 10^e] with [n] digits in [m], correctly rounded. *)
Definition decimal_value (neg : bool) (m n e : Z) : float :=
  let sgn f := if neg then fopp f else f in
  if m =? 0 then sgn (S754_zero false)
  else if 400 <? e then sgn (S754_infinity false)
  else if n + e <? -400 then sgn (S754_zero false)
  else if 0 <=? e then sgn (nearest_float (m * 10 ^ e))
  else sgn (round_ratio m (Z.to_pos (10 ^ (- e)))).

Definition parse_decimal (neg : bool) (s : string) : option float :=
  let '(ip, ni, rest) := read_digits s 0 0 in
  let '(m, n, frac, rest) :=
    match rest with
    | String "." t => let '(m, n, rest) := read_digits t ip ni in (m, n, n - ni, rest)
    | _ => (ip, ni, 0, rest)
    end in
  if n =? 0 then None
  else match read_exponent rest with
       | Some e => Some (decimal_value neg m n (e - frac))
       | None => None
       end.

Definition parse_unsigned_float (neg : bool) (s : string) : option float :=
  let w := casefold s in
  if str_eqb w "inf" || str_eqb w "infinity" then Some (S754_infinity neg)
  else if str_eqb w "nan" then Some S754_nan
  else match drop_underscores false s with
       | Some t => parse_decimal neg t
       | None => None
       end.

(** [float(s)] for a string: [None] stands for [ValueError]. *)
Definition float_of_str (s : string) : option float :=
  match strip s with
  | String "+" t => parse_unsigned_float false t
  | String "-" t => parse_unsigned_float true t
  | t => parse_unsigned_float false t
  end.

(** A float literal of the sources, written as a string. *)
Definition flit (s : string) : float := default S754_nan (float_of_str s).

(** ** Order lemmas *)

(** [rank f]: a triple whose lexicographic order is the order of the floats
    other than NaN. *)
Definition rank (f : float) : Z * Z * Z :=
  match f with
  | S754_nan => (0, 0, 0)
  | S754_infinity true => (-2, 0, 0)
  | S754_infinity false => (2, 0, 0)
  | S754_zero _ => (0, 0, 0)
  | S754_finite true m e => (-1, - e, Zneg m)
  | S754_finite false m e => (1, e, Zpos m)
  end.

Definition rank_lt (a b : Z * Z * Z) : Prop :=
  let '(a1, a2, a3) := a in let '(b1, b2, b3) := b in
  a1 < b1 \/ (a1 = b1 /\ (a2 < b2 \/ (a2 = b2 /\ a3 < b3))).

Lemma SFcompare_rank (f g : float) :
  is_nan f = false -> is_nan g = false ->
  match SFcompare f g with
  | Some Lt => rank_lt (rank f) (rank g)
  | Some Eq => rank f = rank g
  | Some Gt => rank_lt (rank g) (rank f)
  | None => False
  end.
Proof.
  destruct f as [s1|s1| |s1 m1 e1], g as [s2|s2| |s2 m2 e2]; cbn; intros Hf Hg; try done;
    try (destruct s1; cbn; lia); try (destruct s2; cbn; lia); try done.
  all: destruct s1, s2; cbn; try lia; try done.
  all: destruct (Z.compare_spec e1 e2) as [->|?|?]; cbn; try lia.
  all: change (Pos.compare_cont Eq m1 m2) with (m1 ?= m2)%positive.
  all: destruct (Pos.compare_spec m1 m2) as [->|?|?]; cbn; try done; lia.
Qed.

Lemma fltb_rank f g :
  is_nan f = false -> is_nan g = false -> fltb f g = true <-> rank_lt (rank f) (rank g).
Proof.
  intros Hf Hg. pose proof (SFcompare_rank f g Hf Hg) as H.
  unfold fltb, SFltb. destruct (SFcompare f g) as [[]|]; try done; split; try done;
    destruct (rank f) as [[??]?], (rank g) as [[??]?]; simplify_eq; cbn in *; lia.
Qed.

Lemma fleb_rank f g :
  is_nan f = false -> is_nan g = false -> fleb f g = true <-> ~ rank_lt (rank g) (rank f).
Proof.
  intros Hf Hg. pose proof (SFcompare_rank f g Hf Hg) as H.
  unfold fleb, SFleb. destruct (SFcompare f g) as [[]|]; try done; split; try done;
    destruct (rank f) as [[??]?], (rank g) as [[??]?]; simplify_eq; cbn in *; lia.
Qed.

Lemma feqb_rank f g :
  is_nan f = false -> is_nan g = false -> feqb f g = true <-> rank f = rank g.
Proof.
  intros Hf Hg. pose proof (SFcompare_rank f g Hf Hg) as H.
  unfold feqb, SFeqb. destruct (SFcompare f g) as [[]|]; try done; split; try done;
    destruct (rank f) as [[??]?], (rank g) as [[??]?]; intros ?; simplify_eq; cbn in *; lia.
Qed.

Lemma rank_fopp f :
  rank (fopp f) = (let '(a, b, c) := rank f in (- a, - b, - c)).
Proof. destruct f as [[]|[]| |[]]; cbn; try done; f_equal; f_equal; lia. Qed.

Lemma is_nan_fopp f : is_nan (fopp f) = is_nan f.
Proof. by destruct f. Qed.

Lemma finite_not_nan f : is_finite f = true -> is_nan f = false.
Proof. by destruct f. Qed.

Lemma binary_round_aux_cases s m e l :
  0 <= m -> binary_round_aux prec emax s m e l <> S754_nan.
Proof.
  intros Hm. unfold binary_round_aux, shr_fexp.
  assert (forall r, 0 <= shr_m r -> 0 <= shr_m (shr_1 r)) as Hshr1.
  { intros [[|p|p] ? ?]; cbn; try lia; destruct p; cbn; lia. }
  assert (forall p r, 0 <= shr_m r -> 0 <= shr_m (SpecFloat.iter_pos shr_1 p r)) as Hiter.
  { induction p; cbn; auto. }
  assert (forall r e n, 0 <= shr_m r -> 0 <= shr_m (fst (shr r e n))) as Hshr.
  { intros r e' [|p|p]; cbn; auto. }
  assert (forall m' l', 0 <= m' -> 0 <= shr_m (shr_record_of_loc m' l')) as Hrec.
  { intros m' [|[]]; cbn; done. }
  destruct (shr (shr_record_of_loc m l) e _) as [r1 e1] eqn:E1.
  pose proof (Hshr (shr_record_of_loc m l) e (fexp prec emax (Zdigits2 m + e) - e) (Hrec m l Hm)) as H1.
  rewrite E1 in H1. cbn in H1.
  assert (0 <= round_nearest_even (shr_m r1) (loc_of_shr_record r1)) as H2.
  { unfold round_nearest_even. case_all; lia. }
  destruct (shr (shr_record_of_loc (round_nearest_even _ _) loc_Exact) e1 _) as [r2 e2] eqn:E2.
  match type of E2 with shr ?a ?b ?c = _ => pose proof (Hshr a b c (Hrec _ _ H2)) as H3 end.
  rewrite E2 in H3. cbn in H3. case_all; try done; lia.
Qed.

Lemma SFdiv_core_nonneg p d :
  0 <= fst (fst (SFdiv_core_binary prec emax (Zpos p) 0 (Zpos d) 0)).
Proof.
  unfold SFdiv_core_binary.
  match goal with |- context [Z.div_eucl ?a ?b] =>
    assert (0 <= a) as Ha; [|pose proof (Z.div_pos a b Ha ltac:(lia)) as Hq;
      unfold Z.div in Hq; destruct (Z.div_eucl a b) as [q r]; exact Hq] end.
  case_match; [lia|apply Z.shiftl_nonneg; lia|lia].
Qed.

(** The true division of integers never gives NaN. *)
Lemma int_div_not_nan n d : 0 < d -> is_nan (int_div n d) = false.
Proof.
  intros Hd. destruct d as [|d|d]; [lia| |lia]. cbn.
  assert (forall f : float, f <> S754_nan -> is_nan f = false) as Hn by (intros []; done).
  unfold round_ratio. destruct n as [|p|p]; [done| |]; apply Hn;
    pose proof (SFdiv_core_nonneg p d) as Hq;
    destruct (SFdiv_core_binary _ _ _ _ _ _) as [[q e] l]; by apply binary_round_aux_cases.
Qed.

(** A negative integer divided by a positive one is at most zero. *)
Lemma round_ratio_neg p d : fleb (round_ratio (Zneg p) d) fzero = true.
Proof.
  pose proof (SFdiv_core_nonneg p d) as Hq. cbn.
  destruct (SFdiv_core_binary _ _ _ _ _ _) as [[q e] l]. cbn in Hq.
  pose proof (binary_round_aux_cases true q e l Hq) as Hn. revert Hn.
  unfold binary_round_aux. destruct (shr_fexp _ _ _ _ _) as [m1 e1].
  destruct (shr_fexp _ _ _ _ _) as [m2 e2]. destruct (shr_m m2); [done| |done].
  by destruct (_ <=? _).
Qed.

Lemma int_div_positive n d : fleb (int_div n (Zpos d)) fzero = false -> 0 < n.
Proof. destruct n as [|p|p]; [done|lia|]. cbn [int_div]. by rewrite round_ratio_neg. Qed.

(** A positive integer divided by itself is exactly [1.0]. *)
Lemma int_div_self d : 0 < d -> int_div d d = flit "1.0".
Proof.
  intros Hd. destruct d as [|d|d]; [lia| |lia]. cbn -[flit]. unfold SFdiv_core_binary.
  rewrite !Z.add_0_r, !Z.sub_diag.
  change (Z.min (fexp prec emax 0) 0) with (-53). cbn -[Z.shiftl flit Z.div_eucl].
  pose proof (Z.div_mul (2 ^ 53) (Zpos d) ltac:(lia)) as Hq.
  pose proof (Z.mod_mul (2 ^ 53) (Zpos d) ltac:(lia)) as Hr.
  rewrite Z.shiftl_mul_pow2, Z.mul_comm by lia. unfold Z.div in Hq. unfold Z.modulo in Hr.
  destruct (Z.div_eucl _ _) as [q r]. subst q r.
  assert (new_location (Zpos d) 0 = loc_Exact) as ->; [|vm_compute; reflexivity].
  unfold new_location, new_location_even, new_location_odd. by destruct (Z.even _).
Qed.

Lemma fle_refl f : is_nan f = false -> fleb f f = true.
Proof. intros H. apply fleb_rank; [done..|]. destruct (rank f) as [[??]?]; cbn; lia. Qed.

Lemma fle_trans f g h :
  is_nan f = false -> is_nan g = false -> is_nan h = false ->
  fleb f g = true -> fleb g h = true -> fleb f h = true.
Proof.
  intros ???. rewrite !fleb_rank by done.
  destruct (rank f) as [[??]?], (rank g) as [[??]?], (rank h) as [[??]?]; cbn; lia.
Qed.

Lemma fle_total f g :
  is_nan f = false -> is_nan g = false -> fleb f g = true \/ fleb g f = true.
Proof.
  intros ??. rewrite !fleb_rank by done.
  destruct (rank f) as [[??]?], (rank g) as [[??]?]; cbn; lia.
Qed.
