(* ===== verification/PyVal.v ===== *)
(** * Python values

    The dynamically typed values the sources pass around: decoded JSON and
    YAML documents, rows of the database, event payloads.  A mapping is an
    association list in insertion order with string keys (the keys of JSON
    objects and of Kubernetes documents); a lookup takes the first entry and
    an assignment to an existing key keeps its position, as in Python.

    The values outside the model are [bytes], [date] and [set], which none of
    the modelled functions accepts as a scalar, a mapping or a list. *)
From S2P Require Import Prelude PyStr PyFloat.

(** A [datetime]: the wall-clock reading in microseconds since 1970-01-01
    00:00 and the offset from UTC, [None] for a naive value. *)
Record moment := Moment { m_wall : Z; m_offset : option Z }.

#[global] Instance moment_eq_dec : EqDecision moment.
Proof. solve_decision. Defined.

Inductive pyval :=
  | VNone
  | VBool (b : bool)
  | VInt (z : Z)
  | VFloat (f : float)
  | VStr (s : string)
  | VTime (t : moment)
  | VList (l : list pyval)
  | VDict (d : list (string * pyval)).

Notation dict := (list (string * pyval)).

(** Induction through the elements of lists and the values of mappings. *)
Section pyval_induction.
Context (P : pyval -> Prop).
Hypothesis HNone : P VNone.
Hypothesis HBool : forall b, P (VBool b).
Hypothesis HInt : forall z, P (VInt z).
Hypothesis HFloat : forall f, P (VFloat f).
Hypothesis HStr : forall s, P (VStr s).
Hypothesis HTime : forall t, P (VTime t).
Hypothesis HList : forall l, Forall P l -> P (VList l).
Hypothesis HDict : forall d, Forall (fun kv => P kv.2) d -> P (VDict d).

Fixpoint pyval_nested_ind (v : pyval) : P v :=
  match v with
  | VNone => HNone
  | VBool b => HBool b
  | VInt z => HInt z
  | VFloat f => HFloat f
  | VStr s => HStr s
  | VTime t => HTime t
  | VList l =>
      HList l ((fix go (l : list pyval) : Forall P l :=
        match l with
        | [] => List.Forall_nil _
        | x :: l => List.Forall_cons _ x l (pyval_nested_ind x) (go l)
        end) l)
  | VDict d =>
      HDict d ((fix go (d : dict) : Forall (fun kv => P kv.2) d :=
        match d with
        | [] => List.Forall_nil _
        | kv :: d => List.Forall_cons _ kv d (pyval_nested_ind kv.2) (go d)
        end) d)
  end.
End pyval_induction.

Lemma pyval_eq_dec_aux (a b : pyval) : {a = b} + {a <> b}.
Proof.
  revert a b. fix IH 1. intros a b.
  destruct a as [|x|x|x|x|x|l|d], b as [|y|y|y|y|y|k|e];
    try (right; discriminate); try (left; reflexivity);
    try (destruct (decide (x = y)) as [->|]; [by left | right; congruence]).
  - assert ({l = k} + {l <> k}) as [->|]; [|by left|right; congruence].
    revert k. induction l as [|x l IHl]; intros [|y k];
      try (left; reflexivity); try (right; discriminate).
    destruct (IH x y) as [->|]; [|right; congruence].
    destruct (IHl k) as [->|]; [by left|right; congruence].
  - assert ({d = e} + {d <> e}) as [->|]; [|by left|right; congruence].
    revert e. induction d as [|[i x] d IHd]; intros [|[j y] e];
      try (left; reflexivity); try (right; discriminate).
    destruct (decide (i = j)) as [->|]; [|right; congruence].
    destruct (IH x y) as [->|]; [|right; congruence].
    destruct (IHd e) as [->|]; [by left|right; congruence].
Defined.
#[global] Instance pyval_eq_dec : EqDecision pyval := pyval_eq_dec_aux.

(** ** Type tests *)

Definition is_mapping (v : pyval) : bool := match v with VDict _ => true | _ => false end.
Definition is_list (v : pyval) : bool := match v with VList _ => true | _ => false end.
Definition is_str (v : pyval) : bool := match v with VStr _ => true | _ => false end.
Definition is_none (v : pyval) : bool := match v with VNone => true | _ => false end.
Definition is_true (v : pyval) : bool := match v with VBool true => true | _ => false end.
Definition is_false (v : pyval) : bool := match v with VBool false => true | _ => false end.

Definition as_list (v : pyval) : option (list pyval) :=
  match v with VList l => Some l | _ => None end.
Definition as_str (v : pyval) : option string :=
  match v with VStr s => Some s | _ => None end.
Definition as_dict (v : pyval) : option dict :=
  match v with VDict d => Some d | _ => None end.

(** [mapping(v)]: the mapping itself, the empty one for anything else. *)
Definition mapping (v : pyval) : dict := match v with VDict d => d | _ => [] end.

(** [bool(v)]. *)
Definition truthy (v : pyval) : bool :=
  match v with
  | VNone => false
  | VBool b => b
  | VInt z => negb (z =? 0)
  | VFloat f => negb (feqb f fzero)
  | VStr s => nonempty s
  | VTime _ => true
  | VList l => negb (bool_decide (l = []))
  | VDict d => negb (bool_decide (d = []))
  end.

(** ** Mappings *)

Fixpoint dict_get {A} (d : list (string * A)) (k : string) : option A :=
  match d with
  | [] => None
  | (k', v) :: d => if str_eqb k' k then Some v else dict_get d k
  end.

(** [d.get(k)]. *)
Definition get (d : dict) (k : string) : pyval := default VNone (dict_get d k).

(** [v.get(k)] on a value that may not be a mapping. *)
Definition attr_get (v : pyval) (k : string) : res pyval :=
  match v with VDict d => Ok (get d k) | _ => Err AttributeError end.

(** [k in d]. *)
Definition has_key {A} (d : list (string * A)) (k : string) : bool :=
  match dict_get d k with Some _ => true | None => false end.

(** [d[k] = v]. *)
Fixpoint dict_set {A} (d : list (string * A)) (k : string) (v : A) : list (string * A) :=
  match d with
  | [] => [(k, v)]
  | (k', w) :: d => if str_eqb k' k then (k', v) :: d else (k', w) :: dict_set d k v
  end.

(** [d.update(e)]. *)
Definition dict_update {A} (d e : list (string * A)) : list (string * A) :=
  fold_left (fun acc kv => dict_set acc kv.1 kv.2) e d.

(** [set(d) == {ks}]. *)
Definition keys_are {A} (d : list (string * A)) (ks : list string) : bool :=
  forallb (fun k => bool_decide (k ∈ ks)) d.*1 && forallb (has_key d) ks.

(** ** Equality *)

Definition as_num (v : pyval) : option (Z + float) :=
  match v with
  | VBool b => Some (inl (if b then 1 else 0))
  | VInt z => Some (inl z)
  | VFloat f => Some (inr f)
  | _ => None
  end.

Definition num_eqb (a b : Z + float) : bool :=
  match a, b with
  | inl x, inl y => x =? y
  | inl x, inr f => int_eq_float x f
  | inr f, inl x => int_eq_float x f
  | inr f, inr g => feqb f g
  end.

(** The instant of an aware [datetime]; naive and aware values never compare
    equal. *)
Definition moment_eqb (a b : moment) : bool :=
  match m_offset a, m_offset b with
  | None, None => m_wall a =? m_wall b
  | Some x, Some y => m_wall a - x =? m_wall b - y
  | _, _ => false
  end.

(** [a == b]: numbers compare across [bool], [int] and [float], mappings
    regardless of the order of their keys. *)
Fixpoint py_eqb (a b : pyval) {struct a} : bool :=
  match a, b with
  | VNone, VNone => true
  | VStr x, VStr y => str_eqb x y
  | VTime x, VTime y => moment_eqb x y
  | VList l, VList k =>
      (fix go (l k : list pyval) : bool :=
         match l, k with
         | [], [] => true
         | x :: l, y :: k => py_eqb x y && go l k
         | _, _ => false
         end) l k
  | VDict d, VDict e =>
      Nat.eqb (length d) (length e) &&
      forallb (fun kv => match dict_get e kv.1 with
                         | Some w => py_eqb kv.2 w
                         | None => false
                         end) d
  | _, _ => match as_num a, as_num b with
            | Some x, Some y => num_eqb x y
            | _, _ => false
            end
  end.

(** [type(a) is type(b)]. *)
Definition same_type (a b : pyval) : bool :=
  match a, b with
  | VNone, VNone | VBool _, VBool _ | VInt _, VInt _ | VFloat _, VFloat _
  | VStr _, VStr _ | VTime _, VTime _ | VList _, VList _ | VDict _, VDict _ => true
  | _, _ => false
  end.

(** ** [str(v)]

    The textual form of floats, times and containers is a parameter: the
    sources only strip it and compare it with literals. *)
Class ReprLib := { repr_other : pyval -> string }.

Definition py_str `{ReprLib} (v : pyval) : string :=
  match v with
  | VNone => "None"
  | VBool true => "True"
  | VBool false => "False"
  | VInt z => str_of_int z
  | VStr s => s
  | _ => repr_other v
  end.

(** ** [int(v)] and [float(v)] *)

Definition py_int (v : pyval) : res Z :=
  match v with
  | VInt z => Ok z
  | VBool b => Ok (if b then 1 else 0)
  | VFloat f => int_of_float f
  | VStr s => raise_none (int_of_str s) ValueError
  | _ => Err TypeError
  end.

Definition py_float (v : pyval) : res float :=
  match v with
  | VFloat f => Ok f
  | VInt z => float_of_int z
  | VBool b => Ok (if b then nearest_float 1 else fzero)
  | VStr s => raise_none (float_of_str s) ValueError
  | _ => Err TypeError
  end.

(** ** Lemmas on mappings *)

Lemma dict_get_set_eq {A} (d : list (string * A)) k v : dict_get (dict_set d k v) k = Some v.
Proof.
  induction d as [|[k' w] d IH]; cbn; [by rewrite str_eqb_refl|].
  destruct (str_eqb k' k) eqn:E; cbn; rewrite E; done.
Qed.

Lemma dict_get_set_ne {A} (d : list (string * A)) k k' v :
  k <> k' -> dict_get (dict_set d k v) k' = dict_get d k'.
Proof.
  intros Hne. induction d as [|[i w] d IH]; cbn.
  - destruct (str_eqb k k') eqn:E; [by apply str_eqb_eq in E|done].
  - destruct (str_eqb i k) eqn:E; cbn; [|by rewrite IH].
    apply str_eqb_eq in E as ->. destruct (str_eqb k k') eqn:E'; [by apply str_eqb_eq in E'|done].
Qed.

Lemma get_set_eq d k v : get (dict_set d k v) k = v.
Proof. unfold get. by rewrite dict_get_set_eq. Qed.

Lemma get_set_ne d k k' v : k <> k' -> get (dict_set d k v) k' = get d k'.
Proof. intros. unfold get. by rewrite dict_get_set_ne. Qed.

Lemma dict_get_elem {A} (d : list (string * A)) k v : dict_get d k = Some v -> (k, v) ∈ d.
Proof.
  induction d as [|[i w] d IH]; cbn; [done|].
  destruct (str_eqb i k) eqn:E; [|intros ?%IH; set_solver].
  apply str_eqb_eq in E as ->. intros [= ->]. set_solver.
Qed.

Lemma dict_get_None {A} (d : list (string * A)) k : dict_get d k = None <-> k ∉ d.*1.
Proof.
  induction d as [|[i w] d IH]; cbn; [set_solver|].
  destruct (str_eqb i k) eqn:E.
  - apply str_eqb_eq in E as ->. set_solver.
  - rewrite IH, not_elem_of_cons. split; [|tauto].
    intros ?. split; [|done]. intros ->. by rewrite str_eqb_refl in E.
Qed.

Lemma dict_get_NoDup {A} (d : list (string * A)) k v :
  NoDup d.*1 -> (k, v) ∈ d -> dict_get d k = Some v.
Proof.
  induction d as [|[i w] d IH]; cbn; [set_solver|].
  rewrite NoDup_cons. intros [Hi Hnd] Hin.
  destruct (str_eqb i k) eqn:E.
  - apply str_eqb_eq in E as ->. apply elem_of_cons in Hin as [[= ->]|Hin]; [done|].
    exfalso. apply Hi. apply list_elem_of_fmap. by exists (k, v).
  - apply IH; [done|]. apply elem_of_cons in Hin as [[= -> ->]|Hin]; [|done].
    by rewrite str_eqb_refl in E.
Qed.

Lemma dict_set_keys {A} (d : list (string * A)) k v :
  has_key d k = true -> (dict_set d k v).*1 = d.*1.
Proof.
  unfold has_key. induction d as [|[i w] d IH]; cbn; [done|].
  destruct (str_eqb i k); cbn; [done|]. intros H. by rewrite IH.
Qed.

Lemma dict_set_length {A} (d : list (string * A)) k v :
  has_key d k = true -> length (dict_set d k v) = length d.
Proof.
  intros H. rewrite <- (length_fmap fst (dict_set d k v)), dict_set_keys by done.
  by rewrite length_fmap.
Qed.

Lemma dict_set_set {A} (d : list (string * A)) k v w :
  dict_set (dict_set d k v) k w = dict_set d k w.
Proof.
  induction d as [|[i x] d IH]; cbn; [by rewrite str_eqb_refl|].
  destruct (str_eqb i k) eqn:E; cbn; rewrite E; [done|]. by rewrite IH.
Qed.

Lemma dict_set_id {A} (d : list (string * A)) k v :
  dict_get d k = Some v -> dict_set d k v = d.
Proof.
  induction d as [|[i x] d IH]; cbn; [done|].
  destruct (str_eqb i k); [by intros [= ->]|]. intros H. by rewrite IH.
Qed.

Lemma dict_set_comm {A} (d : list (string * A)) j k v w :
  j <> k -> has_key d j = true -> has_key d k = true ->
  dict_set (dict_set d j v) k w = dict_set (dict_set d k w) j v.
Proof.
  unfold has_key. intros Hne. induction d as [|[i x] d IH]; cbn; [done|].
  destruct (str_eqb i j) eqn:Ej, (str_eqb i k) eqn:Ek; cbn; rewrite ?Ej, ?Ek; cbn;
    rewrite ?Ej, ?Ek; try done.
  - apply str_eqb_eq in Ej, Ek. congruence.
  - intros. by rewrite IH.
Qed.

Lemma dict_set_elem {A} (d : list (string * A)) k v i x :
  (i, x) ∈ dict_set d k v -> (i, x) ∈ d \/ x = v.
Proof.
  induction d as [|[j w] d IH]; cbn.
  - rewrite list_elem_of_singleton. intros [= -> ->]. by right.
  - destruct (str_eqb j k); rewrite !elem_of_cons; [|tauto]. intros [[= -> ->]|?]; tauto.
Qed.

Lemma dict_set_fresh {A} (d : list (string * A)) k v :
  k ∉ d.*1 -> dict_set d k v = d ++ [(k, v)].
Proof.
  induction d as [|[i x] d IH]; cbn; [done|]. intros [Hne Hk]%not_elem_of_cons.
  destruct (str_eqb i k) eqn:E; [by apply str_eqb_eq in E|]. by rewrite IH.
Qed.

Lemma has_key_elem {A} (d : list (string * A)) k : has_key d k = true <-> k ∈ d.*1.
Proof.
  unfold has_key. destruct (dict_get d k) eqn:E.
  - apply dict_get_elem in E. split; [|done]. intros _. apply list_elem_of_fmap. by exists (k, a).
  - apply dict_get_None in E. split; [done|]. intros ?. done.
Qed.

(** [{key(x): x for x in l}] has as many entries as [l] only when the keys are
    distinct, and then lists them in order. *)
Lemma dict_comprehension_full {A} (key : A -> string) l (acc : list (string * A)) :
  (length (fold_left (fun acc x => dict_set acc (key x) x) l acc) <= length acc + length l)%nat /\
  (length (fold_left (fun acc x => dict_set acc (key x) x) l acc) = length acc + length l ->
   NoDup (acc.*1) ->
   fold_left (fun acc x => dict_set acc (key x) x) l acc = acc ++ ((fun x => (key x, x)) <$> l) /\
   NoDup (acc.*1 ++ (key <$> l)))%nat.
Proof.
  revert acc. induction l as [|x l IH]; intros acc; cbn.
  - split; [lia|]. rewrite !app_nil_r. done.
  - destruct (IH (dict_set acc (key x) x)) as [Hle Heq].
    destruct (has_key acc (key x)) eqn:E.
    + rewrite dict_set_length in Hle by done. split; [lia|]. intros ?. lia.
    + assert (key x ∉ acc.*1) as Hx by (rewrite <- has_key_elem, E; done).
      rewrite !(dict_set_fresh acc) in * by done.
      rewrite length_app, fmap_app in *. cbn in Hle, Heq. split; [lia|]. intros Hlen Hnd.
      destruct Heq as [-> Hnd']; [lia| |].
      * apply NoDup_app. split; [done|]. split; [set_solver|apply NoDup_singleton].
      * rewrite <- !app_assoc in *. done.
Qed.

Lemma dict_update_fresh {A} (d : list (string * A)) : NoDup d.*1 -> dict_update [] d = d.
Proof.
  unfold dict_update. intros Hnd.
  assert (forall acc, NoDup (acc ++ d).*1 ->
    fold_left (fun acc kv => dict_set acc kv.1 kv.2) d acc = acc ++ d) as E; [|by apply E].
  clear Hnd. induction d as [|[k v] d IH]; intros acc Hnd; cbn; [by rewrite app_nil_r|].
  rewrite dict_set_fresh, IH; [by rewrite <- app_assoc|by rewrite <- app_assoc|].
  rewrite fmap_app in Hnd. apply NoDup_app in Hnd as (_ & Hd & _). intros Hk. by apply (Hd k Hk); left.
Qed.

Lemma mapping_VDict d : mapping (VDict d) = d.
Proof. done. Qed.

#[export] Hint Rewrite @dict_get_set_eq get_set_eq @dict_set_set : clue.

(** ** Reflexivity of equality *)

(** A value without NaN and without repeated keys. *)
Fixpoint wf_val (v : pyval) : bool :=
  match v with
  | VFloat f => negb (is_nan f)
  | VList l => forallb wf_val l
  | VDict d => no_dup d.*1 && forallb (fun kv => wf_val kv.2) d
  | _ => true
  end.

Lemma feqb_refl f : is_nan f = false -> feqb f f = true.
Proof. intros H. by apply feqb_rank. Qed.

Lemma moment_eqb_refl t : moment_eqb t t = true.
Proof. unfold moment_eqb. destruct (m_offset t); by apply Z.eqb_eq. Qed.

Lemma py_eqb_refl v : wf_val v = true -> py_eqb v v = true.
Proof.
  induction v as [|b|z|f|s|t|l IH|d IH] using pyval_nested_ind; cbn; try done.
  - intros _. apply Z.eqb_refl.
  - intros _. apply Z.eqb_refl.
  - intros H. apply feqb_refl. by apply negb_true_iff in H.
  - intros _. apply str_eqb_refl.
  - intros _. apply moment_eqb_refl.
  - intros Hwf. induction IH as [|x l Hx _ IHl]; [done|]. cbn in Hwf.
    apply andb_true_iff in Hwf as [? ?]. rewrite Hx by done. by apply IHl.
  - rewrite andb_true_iff. intros [Hnd Hwf]. apply no_dup_spec in Hnd.
    rewrite Nat.eqb_refl. cbn. apply forallb_elem. intros [k v] Hin. cbn.
    rewrite (dict_get_NoDup d k v) by done.
    rewrite Forall_forall in IH. apply (IH _ Hin).
    rewrite forallb_elem in Hwf. apply (Hwf _ Hin).
Qed.

(** ** Equality as a relation *)

(** A value without floats: on such values equality is transitive whatever
    the representation of the floats it is compared with. *)
Fixpoint no_floats (v : pyval) : bool :=
  match v with
  | VFloat _ => false
  | VList l => forallb no_floats l
  | VDict d => forallb (fun kv => no_floats kv.2) d
  | _ => true
  end.

(** The invariant of Python dictionaries: no key occurs twice, at any depth. *)
Fixpoint unique_keys (v : pyval) : bool :=
  match v with
  | VList l => forallb unique_keys l
  | VDict d => no_dup d.*1 && forallb (fun kv => unique_keys kv.2) d
  | _ => true
  end.

(** Lists are equal when their elements are. *)
Fixpoint py_list_eqb (l k : list pyval) : bool :=
  match l, k with
  | [], [] => true
  | x :: l, y :: k => py_eqb x y && py_list_eqb l k
  | _, _ => false
  end.

Lemma py_eqb_list l k : py_eqb (VList l) (VList k) = py_list_eqb l k.
Proof. revert k. induction l as [|x l IH]; intros [|y k]; done. Qed.

Lemma py_list_eqb_Forall2 l k :
  py_list_eqb l k = true <-> Forall2 (fun x y => py_eqb x y = true) l k.
Proof.
  revert k. induction l as [|x l IH]; intros [|y k]; cbn.
  - split; [constructor|done].
  - split; [done|by inversion 1].
  - split; [done|by inversion 1].
  - rewrite andb_true_iff, IH. split; [intros []; by constructor|by inversion 1].
Qed.

Lemma py_eqb_dict d e :
  py_eqb (VDict d) (VDict e) = true <->
  length d = length e /\
  forall k v, (k, v) ∈ d -> exists w, dict_get e k = Some w /\ py_eqb v w = true.
Proof.
  cbn. rewrite andb_true_iff, Nat.eqb_eq, forallb_elem. split; intros [Hl Hall]; (split; [done|]).
  - intros k v Hin. specialize (Hall (k, v) Hin). cbn in Hall.
    destruct (dict_get e k) as [w|]; [eauto|done].
  - intros [k v] Hin. destruct (Hall k v Hin) as (w & E & ?). cbn. by rewrite E.
Qed.

Lemma py_eqb_VList_inv l b : py_eqb (VList l) b = true -> exists k, b = VList k.
Proof. destruct b; try done. eauto. Qed.

Lemma py_eqb_VDict_inv d b : py_eqb (VDict d) b = true -> exists e, b = VDict e.
Proof. destruct b; try done. eauto. Qed.

Lemma py_eqb_VStr v s : py_eqb v (VStr s) = true <-> v = VStr s.
Proof.
  split; [|intros ->; apply str_eqb_refl]. destruct v; try done. cbn. by intros ->%str_eqb_eq.
Qed.

Lemma py_eqb_VStr_l v s : py_eqb (VStr s) v = true <-> v = VStr s.
Proof.
  split; [|intros ->; apply str_eqb_refl]. destruct v; try done. cbn. by intros ->%str_eqb_eq.
Qed.

Lemma int_eq_float_fun x y f : int_eq_float x f = true -> int_eq_float y f = true -> x = y.
Proof.
  destruct f as [s|s| |s m e]; cbn; try done; [intros; bool_simpl; lia|].
  destruct (0 <=? e) eqn:E; intros H1%Z.eqb_eq H2%Z.eqb_eq; [lia|].
  apply Z.leb_gt in E. assert (0 < 2 ^ (- e)) by (apply Z.pow_pos_nonneg; lia). nia.
Qed.

Lemma feqb_cases f g :
  feqb f g = true -> f = g \/ exists s t, f = SpecFloat.S754_zero s /\ g = SpecFloat.S754_zero t.
Proof.
  intros Hfg. destruct (is_nan f) eqn:Nf; [destruct f; done|].
  destruct (is_nan g) eqn:Ng; [destruct g; destruct f as [| |[]|]; done|].
  apply feqb_rank in Hfg; [|done..].
  destruct f as [|[]| |[]], g as [|[]| |[]]; cbn in *; simplify_eq; eauto; left; f_equal; lia.
Qed.

Lemma num_eqb_trans a b c :
  (match c with inr _ => false | inl _ => true end) = true ->
  num_eqb a b = true -> num_eqb b c = true -> num_eqb a c = true.
Proof.
  destruct c as [z|]; [|done]. intros _. destruct a as [x|f], b as [y|g]; cbn; intros Hab Hbc.
  - apply Z.eqb_eq in Hab as ->. done.
  - apply Z.eqb_eq. by eapply int_eq_float_fun.
  - apply Z.eqb_eq in Hbc as ->. done.
  - apply feqb_cases in Hab as [->|(s & t & -> & ->)]; done.
Qed.

Lemma py_eqb_trans a b c :
  no_floats c = true -> py_eqb a b = true -> py_eqb b c = true -> py_eqb a c = true.
Proof.
  revert b c. induction a as [|x|x|x|x|x|l IH|d IH] using pyval_nested_ind; intros b c Hc Hab Hbc.
  1-6: destruct b as [|y|y|y|y|y|k|e]; try done; destruct c as [|z|z|z|z|z|m|f]; try done.
  all: try (cbn in *; by eapply (num_eqb_trans (inl _) (inl _) (inl _))).
  all: try (cbn in *; by eapply (num_eqb_trans (inl _) (inr _) (inl _))).
  all: try (cbn in *; by eapply (num_eqb_trans (inr _) (inl _) (inl _))).
  all: try (cbn in *; by eapply (num_eqb_trans (inr _) (inr _) (inl _))).
  - cbn in *. apply str_eqb_eq in Hab as ->. done.
  - cbn in *. unfold moment_eqb in *. destruct (m_offset x), (m_offset y), (m_offset z); try done;
      bool_simpl; apply Z.eqb_eq; lia.
  - destruct (py_eqb_VList_inv _ _ Hab) as [k ->], (py_eqb_VList_inv _ _ Hbc) as [m ->].
    rewrite py_eqb_list in *. cbn in Hc. clear -IH Hc Hab Hbc. revert k m Hc Hab Hbc.
    induction IH as [|x l Hx _ IHl]; intros [|y k] [|z m]; cbn; try done.
    rewrite !andb_true_iff. intros [? ?] [? ?] [? ?]. split; [by eapply Hx|by eapply IHl].
  - destruct (py_eqb_VDict_inv _ _ Hab) as [e ->], (py_eqb_VDict_inv _ _ Hbc) as [f ->].
    apply py_eqb_dict in Hab as [Hl1 Hab], Hbc as [Hl2 Hbc]. apply py_eqb_dict.
    split; [congruence|]. intros k v Hin. destruct (Hab k v Hin) as (w & Hw & Hvw).
    destruct (Hbc k w (dict_get_elem _ _ _ Hw)) as (u & Hu & Hwu). exists u. split; [done|].
    rewrite Forall_forall in IH. apply (IH (k, v) Hin w u); [|done..].
    cbn in Hc. rewrite forallb_elem in Hc. apply (Hc (k, u)). by apply dict_get_elem.
Qed.

(** Equal mappings have the same keys, with equal values. *)
Lemma py_eqb_dict_get d e k :
  py_eqb (VDict d) (VDict e) = true -> NoDup d.*1 ->
  match dict_get d k, dict_get e k with
  | Some v, Some w => py_eqb v w = true
  | None, None => True
  | _, _ => False
  end.
Proof.
  intros [Hlen Hall]%py_eqb_dict Hnd. destruct (dict_get d k) as [v|] eqn:Ed.
  - apply dict_get_elem in Ed. destruct (Hall k v Ed) as (w & -> & ?). done.
  - apply dict_get_None in Ed. assert (d.*1 ≡ₚ e.*1) as Hp.
    { apply submseteq_length_Permutation; [|rewrite !length_fmap; lia].
      apply NoDup_submseteq; [done|]. intros j Hj. apply list_elem_of_fmap in Hj as ([i v] & -> & Hin).
      destruct (Hall i v Hin) as (w & Hw%dict_get_elem & _). apply list_elem_of_fmap. by exists (i, w). }
    assert (dict_get e k = None) as ->; [|done]. apply dict_get_None. by rewrite <- Hp.
Qed.

Lemma unique_keys_get d k v :
  unique_keys (VDict d) = true -> dict_get d k = Some v -> unique_keys v = true.
Proof.
  cbn. rewrite andb_true_iff, forallb_elem. intros [_ Hall] Hg%dict_get_elem. apply (Hall _ Hg).
Qed.

Lemma dict_set_NoDup {A} (d : list (string * A)) k v : NoDup d.*1 -> NoDup (dict_set d k v).*1.
Proof.
  intros Hnd. destruct (has_key d k) eqn:E; [by rewrite dict_set_keys|].
  assert (k ∉ d.*1) as Hk by (rewrite <- has_key_elem, E; done).
  rewrite dict_set_fresh, fmap_app by done. apply NoDup_app. split; [done|].
  split; [set_solver|apply NoDup_singleton].
Qed.

Lemma unique_keys_dict d :
  unique_keys (VDict d) = true <-> NoDup d.*1 /\ forall k v, (k, v) ∈ d -> unique_keys v = true.
Proof.
  cbn [unique_keys]. rewrite andb_true_iff, no_dup_spec, forallb_elem.
  split; intros [Hnd Hall]; (split; [done|]); [intros k v Hin; exact (Hall _ Hin)|].
  intros [k v] Hin. by apply (Hall k).
Qed.

Lemma unique_keys_set d k v :
  unique_keys (VDict d) = true -> unique_keys v = true -> unique_keys (VDict (dict_set d k v)) = true.
Proof.
  rewrite !unique_keys_dict. intros [Hnd Hall] Hv. split; [by apply dict_set_NoDup|].
  intros i x [Hin| ->]%dict_set_elem; eauto.
Qed.
