(* ===== verification/PyTime.v ===== *)
(** * Python datetimes

    Aware datetimes normalised to UTC are instants: microseconds since
    1970-01-01T00:00Z, inside the years 1 to 9999.  [timedelta.total_seconds],
    [datetime.fromtimestamp] and the conversion to UTC follow the reference
    implementation.  The ISO 8601 text form is an interface: the sources only
    write it and read it back. *)
From Stdlib Require Import Floats.SpecFloat.
From S2P Require Import Prelude PyStr PyFloat PyVal.

Definition SECOND : Z := 1000000.

(** [datetime.min] and [datetime.max] in UTC. *)
Definition MIN_INSTANT : Z := -719162 * 86400 * SECOND.
Definition MAX_INSTANT : Z := 2932897 * 86400 * SECOND - 1.

Definition in_years (t : Z) : bool := (MIN_INSTANT <=? t) && (t <=? MAX_INSTANT).

(** [normalized_utc(value)]: a naive value is read as UTC; the conversion of an
    aware one raises [OverflowError] when it leaves the range of years. *)
Definition normalized_utc (m : moment) : res Z :=
  match m_offset m with
  | None => Ok (m_wall m)
  | Some offset =>
      let t := m_wall m - offset in
      if in_years t then Ok t else Err OverflowError
  end.

(** [t + timedelta(seconds=s)]. *)
Definition add_seconds (t s : Z) : res Z :=
  let t' := t + s * SECOND in
  if in_years t' then Ok t' else Err OverflowError.

(** [(b - a).total_seconds()], for a difference in microseconds. *)
Definition total_seconds (us : Z) : float := int_div us SECOND.

(** The nearest integer of [m * 2^e], ties to even. *)
Definition round_half_even (f : float) : Z :=
  match f with
  | S754_finite s m e =>
      let a :=
        if 0 <=? e then Zpos m * 2 ^ e
        else let d := 2 ^ (- e) in
             let q := Zpos m / d in
             let r := 2 * (Zpos m mod d) in
             if d <? r then q + 1
             else if (r =? d) && Z.odd q then q + 1
             else q in
      if s then - a else a
  | _ => 0
  end.

(** The fractional part [math.modf(f)[0]] of a finite float, which is exact. *)
Definition fraction (f : float) : float :=
  match f with
  | S754_finite s m e =>
      if 0 <=? e then S754_zero s
      else binary_normalize prec emax
             ((if s then -1 else 1) * (Zpos m mod 2 ^ (- e))) e s
  | _ => f
  end.

(** [datetime.fromtimestamp(f, tz=UTC)]: [None] when it raises
    ([ValueError], [OverflowError] or [OSError], by platform and size). *)
Definition fromtimestamp (f : float) : option Z :=
  match int_of_float f with
  | Ok seconds =>
      let t := seconds * SECOND + round_half_even (fmul (fraction f) (nearest_float SECOND)) in
      if in_years t then Some t else None
  | Err _ => None
  end.

(** [math.ceil(f)]. *)
Definition ceil_float (f : float) : res Z :=
  match f with
  | S754_finite s m e =>
      if 0 <=? e then Ok ((if s then -1 else 1) * (Zpos m * 2 ^ e))
      else Ok (if s then - (Zpos m / 2 ^ (- e)) else - (- Zpos m / 2 ^ (- e)))
  | _ => int_of_float f
  end.

(** ** ISO 8601 text *)

Class IsoTime := {
  (** [t.isoformat()] of an instant in UTC. *)
  isoformat : Z -> string;
  (** [datetime.fromisoformat(s)], [None] for [ValueError]. *)
  fromisoformat : string -> option moment;
}.

(** Documented: [fromisoformat] inverts [isoformat].  The text has no letter
    [Z] and no surrounding space, being [YYYY-MM-DDTHH:MM:SS[.ffffff]+00:00]. *)
Class IsoRoundTrip `{IsoTime} := {
  iso_round_trip : forall t, in_years t = true ->
    fromisoformat (isoformat t) = Some (Moment t (Some 0));
  iso_no_zulu : forall t, char_in "Z" (isoformat t) = false;
  iso_stripped : forall t, strip (isoformat t) = isoformat t;
  iso_nonempty : forall t, isoformat t <> "";
}.

(** [parse_datetime(value)] of [recovery_verification.py]. *)
Definition parse_datetime `{IsoTime} (v : pyval) : res (option Z) :=
  match v with
  | VTime m => t ← normalized_utc m; Ok (Some t)
  | VStr s =>
      if nonempty (strip s) then
        match fromisoformat (replace_char "Z" "+00:00" s) with
        | Some m => t ← normalized_utc m; Ok (Some t)
        | None => Ok None
        end
      else Ok None
  | _ => Ok None
  end.

Lemma replace_char_absent c t s : char_in c s = false -> replace_char c t s = s.
Proof.
  induction s as [|a s IH]; cbn; [done|]. intros [Ha Hs]%orb_false_iff.
  by rewrite Ha, IH.
Qed.

Lemma parse_isoformat `{IsoRoundTrip} t :
  in_years t = true -> parse_datetime (VStr (isoformat t)) = Ok (Some t).
Proof.
  intros Ht. unfold parse_datetime.
  rewrite iso_stripped, replace_char_absent, iso_round_trip by (done || apply iso_no_zulu).
  pose proof (iso_nonempty t). destruct (isoformat t) as [|c s]; [done|]. cbn.
  unfold normalized_utc. cbn. by rewrite Z.sub_0_r, Ht.
Qed.

(** ** A concrete text form

    An instance of the interface that satisfies its laws: the binary digits of
    the instant counted from [MIN_INSTANT]. *)
Fixpoint pos_text (p : positive) : string :=
  match p with
  | xH => "1"
  | xO p => String "0" (pos_text p)
  | xI p => String "1" (pos_text p)
  end.
Fixpoint text_pos (s : string) : option positive :=
  match s with
  | String "1" EmptyString => Some xH
  | String "0" s => xO <$> text_pos s
  | String "1" s => xI <$> text_pos s
  | _ => None
  end.

Lemma text_pos_text p : text_pos (pos_text p) = Some p.
Proof.
  induction p as [p IH|p IH|]; cbn; [|by rewrite IH|done]. rewrite IH.
  by destruct p.
Qed.

Lemma pos_text_chars p (q : ascii -> bool) :
  q "0"%char = true -> q "1"%char = true -> all_chars q (pos_text p) = true.
Proof. intros H0 H1. induction p; cbn; by rewrite ?H0, ?H1. Qed.

Definition coded_iso : IsoTime := {|
  isoformat t := pos_text (Z.to_pos (t - MIN_INSTANT + 1));
  fromisoformat s := p ← text_pos s; Some (Moment (Zpos p + MIN_INSTANT - 1) (Some 0));
|}.

#[global] Instance coded_iso_round_trip : @IsoRoundTrip coded_iso.
Proof.
  split.
  - intros t Ht. cbn. rewrite text_pos_text. cbn. do 2 f_equal.
    unfold in_years in Ht. rewrite Z2Pos.id by lia. lia.
  - intros t. cbn. generalize (Z.to_pos (t - MIN_INSTANT + 1)). induction p; cbn; done.
  - intros t. apply strip_no_space. by apply pos_text_chars.
  - intros t. cbn. by destruct (Z.to_pos _).
Qed.
