(* ===== verification/Libs.v ===== *)
(** * Interfaces to libraries

    What the sources call but do not define: PyYAML (a third-party package),
    the JSON decoder, SHA-256.  Each is a type class whose operations are
    parameters of the definitions that use them; the laws the proofs need are
    separate classes, stated as documented behaviour.  The JSON encoder is
    spelled out, because the bytes it produces end up in manifests. *)
From S2P Require Import Prelude PyStr PyFloat PyVal.

(** ** YAML *)

(** A composed YAML node: a scalar with its value, its style ([None] for a
    plain scalar, otherwise the quote or block indicator) and the span of its
    text in the source, a sequence, or a mapping of key and value nodes. *)
Inductive node :=
  | ScalarNode (value : string) (style : option ascii) (start_index end_index : nat)
  | SequenceNode (items : list node)
  | MappingNode (pairs : list (node * node)).

Inductive token := AnchorToken | AliasToken | OtherToken.

Class YamlLib := {
  (** The tokens [yaml.scan] yields, and whether it then raises [YAMLError]. *)
  yaml_scan : string -> list token * bool;
  (** [list(yaml.compose_all(source))]. *)
  yaml_compose_all : string -> res (list node);
  (** [list(yaml.safe_load_all(source))]. *)
  yaml_safe_load_all : string -> res (list pyval);
  (** [yaml.safe_load(source)]. *)
  yaml_safe_load : string -> res pyval;
  (** [yaml.safe_dump(value, sort_keys=False, allow_unicode=True)]. *)
  yaml_safe_dump : pyval -> string;
}.

(** [any(isinstance(token, AnchorToken | AliasToken) for token in yaml.scan(s))]:
    the generator stops at the first such token, before a later scanning
    error. *)
Definition scan_finds_anchor `{YamlLib} (s : string) : res bool :=
  let '(tokens, fails) := yaml_scan s in
  if existsb (fun t => match t with OtherToken => false | _ => true end) tokens then Ok true
  else if fails then Err YAMLError else Ok false.

(** The spans of the scalars of a node, in document order. *)
Fixpoint scalar_spans (n : node) : list (nat * nat) :=
  match n with
  | ScalarNode _ _ a b => [(a, b)]
  | SequenceNode items => flat_map scalar_spans items
  | MappingNode pairs => flat_map (fun kv => scalar_spans kv.1 ++ scalar_spans kv.2) pairs
  end.

(** Two spans that share no character. *)
Definition disjoint_spans (p q : nat * nat) : Prop := (p.2 <= q.1)%nat \/ (q.2 <= p.1)%nat.

(** PyYAML's marks: every scalar lies inside the source it was composed from,
    and two scalars with different spans do not overlap. *)
Class YamlMarks `{YamlLib} := {
  yaml_marks_inside : forall s ns n p,
    yaml_compose_all s = Ok ns -> n ∈ ns -> p ∈ scalar_spans n ->
    (p.1 <= p.2 <= String.length s)%nat;
  yaml_marks_disjoint : forall s ns n n' p q,
    yaml_compose_all s = Ok ns -> n ∈ ns -> n' ∈ ns ->
    p ∈ scalar_spans n -> q ∈ scalar_spans n' -> p <> q -> disjoint_spans p q;
}.

(** What the loader builds are Python dictionaries: no repeated keys. *)
Class YamlDicts `{YamlLib} := {
  yaml_unique_keys : forall s vs v,
    yaml_safe_load_all s = Ok vs -> v ∈ vs -> unique_keys v = true;
}.

(** A value [yaml.safe_dump] writes and [yaml.safe_load] reads back: built
    from [None], booleans, integers, floats and strings. *)
Fixpoint yaml_plain (v : pyval) : bool :=
  match v with
  | VTime _ => false
  | VList l => forallb yaml_plain l
  | VDict d => no_dup d.*1 && forallb (fun kv => yaml_plain kv.2) d
  | _ => true
  end.

Class YamlRoundTrip `{YamlLib} := {
  yaml_load_dump : forall v, yaml_plain v = true -> yaml_safe_load (yaml_safe_dump v) = Ok v;
}.

(** ** JSON *)

Class JsonLib := {
  (** [json.loads(source)]; malformed text raises [JSONDecodeError]. *)
  json_loads : string -> res pyval;
}.

Definition is_JSONDecodeError (e : exn) : bool :=
  match e with JSONDecodeError => true | _ => false end.

Definition hex_digit (n : N) : ascii :=
  ascii_of_N (if (n <? 10)%N then 48 + n else 87 + n)%N.

(** One character inside a JSON string, as [json.dumps(s, ensure_ascii=False)]
    writes it. *)
Definition json_char (c : ascii) : string :=
  let n := code c in
  if (n =? 34)%N then String "\" (String "034" "")
  else if (n =? 92)%N then String "\" (String "\" "")
  else if (n =? 8)%N then "\b"
  else if (n =? 9)%N then "\t"
  else if (n =? 10)%N then "\n"
  else if (n =? 12)%N then "\f"
  else if (n =? 13)%N then "\r"
  else if (n <? 32)%N then
    "\u00" +:+ String (hex_digit (n / 16)) (String (hex_digit (n mod 16)) "")
  else String c "".
Fixpoint json_chars (s : string) : string :=
  match s with
  | EmptyString => ""
  | String c s => json_char c +:+ json_chars s
  end.
Definition json_string (s : string) : string := String "034" (json_chars s +:+ String "034" "").

(** [float.__repr__], with the names JSON gives to the non-finite floats. *)
Definition json_float `{ReprLib} (f : float) : string :=
  match f with
  | SpecFloat.S754_nan => "NaN"
  | SpecFloat.S754_infinity false => "Infinity"
  | SpecFloat.S754_infinity true => "-Infinity"
  | _ => repr_other (VFloat f)
  end.

(** [json.dumps(v, ensure_ascii=False, allow_nan=False)] on a scalar. *)
Definition json_scalar `{ReprLib} (v : pyval) : res string :=
  match v with
  | VNone => Ok "null"
  | VBool true => Ok "true"
  | VBool false => Ok "false"
  | VInt z => Ok (str_of_int z)
  | VFloat f => if is_finite f then Ok (json_float f) else Err ValueError
  | VStr s => Ok (json_string s)
  | _ => Err TypeError
  end.

Definition key_leb {A} (a b : string * A) : bool := String.leb a.1 b.1.

(** [json.dumps(v, sort_keys=True, separators=(",", ":"))], with the encoding of
    strings as a parameter. *)
Fixpoint json_sorted `{ReprLib} (enc : string -> string) (v : pyval) : res string :=
  match v with
  | VNone => Ok "null"
  | VBool true => Ok "true"
  | VBool false => Ok "false"
  | VInt z => Ok (str_of_int z)
  | VFloat f => Ok (json_float f)
  | VStr s => Ok (enc s)
  | VTime _ => Err TypeError
  | VList l =>
      texts ← mapr (fun x => json_sorted enc x) l;
      Ok ("[" +:+ join "," texts +:+ "]")
  | VDict d =>
      entries ← mapr (fun kv => t ← json_sorted enc kv.2; Ok (kv.1, t)) d;
      Ok ("{" +:+ join "," ((fun kv => enc kv.1 +:+ ":" +:+ kv.2) <$> isort key_leb entries)
          +:+ "}")
  end.

(** With [ensure_ascii=False]. *)
Definition json_canonical `{ReprLib} (v : pyval) : res string := json_sorted json_string v.

(** With [ensure_ascii=True], the default: characters beyond ASCII are
    escaped. *)
Fixpoint json_ascii_chars (s : string) : string :=
  match s with
  | EmptyString => ""
  | String c s =>
      (if (code c <? 128)%N then json_char c
       else "\u00" +:+ String (hex_digit (code c / 16)) (String (hex_digit (code c mod 16)) ""))
      +:+ json_ascii_chars s
  end.
Definition json_ascii_string (s : string) : string :=
  String "034" (json_ascii_chars s +:+ String "034" "").

(** [s.encode()]: the UTF-8 bytes of code points below 256. *)
Fixpoint utf8_encode (s : string) : string :=
  match s with
  | EmptyString => ""
  | String c s =>
      let n := code c in
      (if (n <? 128)%N then String c ""
       else String (ascii_of_N (192 + n / 64)) (String (ascii_of_N (128 + n mod 64)) ""))
      +:+ utf8_encode s
  end.

(** ** SHA-256 *)

Class Sha256 := {
  (** [hashlib.sha256(data).hexdigest()]. *)
  sha256_hexdigest : string -> string;
}.
