(* ===== verification/Demo.v ===== *)
(** * Concrete library instances

    The theorems are stated for every YAML, JSON, hash and formatting library
    that satisfies the named laws.  The instances below are the executable
    ones the examples of the other files run on: a YAML reader given by a
    table of texts, a hash that is the identity. *)
From S2P Require Import Prelude PyStr PyFloat PyVal Libs.

Module Demo.

(** What a text composes to and what it loads as. *)
Definition table : Type := list (string * (list node * list pyval)).

(** A text outside the table is a plain scalar. *)
Definition table_yaml (t : table) : YamlLib := {|
  yaml_scan _ := ([OtherToken], false);
  yaml_compose_all s :=
    Ok (match dict_get t s with
        | Some (ns, _) => ns
        | None => [ScalarNode s None 0 (str_len s)]
        end);
  yaml_safe_load_all s := Ok (match dict_get t s with Some (_, vs) => vs | None => [VStr s] end);
  yaml_safe_load s :=
    Ok (match dict_get t s with Some (_, v :: _) => v | Some (_, []) => VNone | None => VStr s end);
  yaml_safe_dump _ := "";
|}.

(** The laws of marks and of dictionaries, checked on a table. *)
Definition span_inside (s : string) (p : nat * nat) : bool :=
  Nat.leb p.1 p.2 && Nat.leb p.2 (str_len s).
Definition span_apart (p q : nat * nat) : bool :=
  bool_decide (p = q) || Nat.leb p.2 q.1 || Nat.leb q.2 p.1.
Definition marks_ok (t : table) : bool :=
  forallb (fun e => let spans := flat_map scalar_spans e.2.1 in
                    forallb (span_inside e.1) spans
                    && forallb (fun p => forallb (span_apart p) spans) spans) t.
Definition dicts_ok (t : table) : bool :=
  forallb (fun e => forallb unique_keys e.2.2) t.

Lemma table_spans t s ns n p :
  @yaml_compose_all (table_yaml t) s = Ok ns -> n ∈ ns -> p ∈ scalar_spans n ->
  (exists vs, (s, (ns, vs)) ∈ t /\ p ∈ flat_map scalar_spans ns) \/ p = (0%nat, str_len s).
Proof.
  cbn. intros Hc Hn Hp. assert (p ∈ flat_map scalar_spans ns) as Hin.
  { apply list_elem_of_In, in_flat_map. exists n. split; by apply list_elem_of_In. }
  destruct (dict_get t s) as [[ns' vs]|] eqn:E; injection Hc as <-.
  - left. exists vs. split; [by apply dict_get_elem|done].
  - right. cbn in Hin. set_solver.
Qed.

Lemma table_marks t : marks_ok t = true -> @YamlMarks (table_yaml t).
Proof.
  unfold marks_ok. intros Hok. rewrite forallb_elem in Hok. constructor.
  - intros s ns n p Hc Hn Hp. destruct (table_spans t s ns n p Hc Hn Hp) as [(vs & Ht & Hin)| ->].
    + specialize (Hok _ Ht). cbn in Hok. apply andb_true_iff in Hok as [Hi _].
      rewrite forallb_elem in Hi. specialize (Hi _ Hin). unfold span_inside in Hi.
      apply andb_true_iff in Hi as [?%Nat.leb_le ?%Nat.leb_le]. lia.
    + cbn. lia.
  - intros s ns n n' p q Hc Hn Hn' Hp Hq Hne.
    assert (p ∈ flat_map scalar_spans ns /\ q ∈ flat_map scalar_spans ns) as [Hp' Hq'].
    { split; apply list_elem_of_In, in_flat_map; [exists n|exists n'];
        split; by apply list_elem_of_In. }
    cbn in Hc. destruct (dict_get t s) as [[ns' vs]|] eqn:E; injection Hc as <-.
    + apply dict_get_elem in E. specialize (Hok _ E). cbn in Hok. apply andb_true_iff in Hok as [_ Hd].
      rewrite forallb_elem in Hd. specialize (Hd _ Hp'). rewrite forallb_elem in Hd.
      specialize (Hd _ Hq'). unfold span_apart in Hd. rewrite !orb_true_iff, bool_decide_eq_true in Hd.
      unfold disjoint_spans. destruct Hd as [[?|?%Nat.leb_le]|?%Nat.leb_le]; [done|by left|by right].
    + cbn in Hp', Hq'. destruct Hne. set_solver.
Qed.

Lemma table_dicts t : dicts_ok t = true -> @YamlDicts (table_yaml t).
Proof.
  unfold dicts_ok. intros Hok. rewrite forallb_elem in Hok. constructor. intros s vs v Hl Hv.
  cbn in Hl. destruct (dict_get t s) as [[ns vs']|] eqn:E; injection Hl as <-.
  - apply dict_get_elem in E. specialize (Hok _ E). cbn in Hok. rewrite forallb_elem in Hok. by apply Hok.
  - apply list_elem_of_singleton in Hv as ->. done.
Qed.

Definition plain_repr : ReprLib := {| repr_other _ := "" |}.
Definition plain_hash : Sha256 := {| sha256_hexdigest s := s |}.
Definition constant_hash (h : string) : Sha256 := {| sha256_hexdigest _ := h |}.
Definition no_json : JsonLib := {| json_loads _ := Err JSONDecodeError |}.

(** A node for a key or a value without a position of its own. *)
Definition word (s : string) : node := ScalarNode s None 0 0.

(** ** A YAML library that reads back what it writes

    [coded_yaml] writes a value as the binary digits of its code in a
    countable type and reads it back by decoding them. *)

Definition leaf : Type := string + (Z + (bool + ((bool + bool) + (bool * positive * Z)))) + (Z * option Z).

Definition float_leaf (f : float) : option leaf :=
  match f with
  | SpecFloat.S754_zero s => Some (inl (inr (inr (inr (inl (inl s))))))
  | SpecFloat.S754_infinity s => Some (inl (inr (inr (inr (inl (inr s))))))
  | SpecFloat.S754_nan => None
  | SpecFloat.S754_finite s m e => Some (inl (inr (inr (inr (inr (s, m, e))))))
  end.

Fixpoint to_tree (v : pyval) : gen_tree leaf :=
  match v with
  | VNone => GenNode 0 []
  | VBool b => GenLeaf (inl (inr (inr (inl b))))
  | VInt z => GenLeaf (inl (inr (inl z)))
  | VFloat f => match float_leaf f with Some x => GenLeaf x | None => GenNode 1 [] end
  | VStr s => GenLeaf (inl (inl s))
  | VTime t => GenLeaf (inr (m_wall t, m_offset t))
  | VList l => GenNode 2 (map to_tree l)
  | VDict d => GenNode 3 (map (fun kv => GenNode 4 [GenLeaf (inl (inl kv.1)); to_tree kv.2]) d)
  end.

Fixpoint of_tree (t : gen_tree leaf) : pyval :=
  match t with
  | GenLeaf (inl (inl s)) => VStr s
  | GenLeaf (inl (inr (inl z))) => VInt z
  | GenLeaf (inl (inr (inr (inl b)))) => VBool b
  | GenLeaf (inl (inr (inr (inr (inl (inl s)))))) => VFloat (SpecFloat.S754_zero s)
  | GenLeaf (inl (inr (inr (inr (inl (inr s)))))) => VFloat (SpecFloat.S754_infinity s)
  | GenLeaf (inl (inr (inr (inr (inr (s, m, e)))))) => VFloat (SpecFloat.S754_finite s m e)
  | GenLeaf (inr (w, o)) => VTime {| m_wall := w; m_offset := o |}
  | GenNode 0 _ => VNone
  | GenNode 1 _ => VFloat SpecFloat.S754_nan
  | GenNode 2 ts => VList (map of_tree ts)
  | GenNode _ ts =>
      VDict (map (fun t => match t with
                           | GenNode _ [GenLeaf (inl (inl k)); x] => (k, of_tree x)
                           | _ => (""%string, VNone)
                           end) ts)
  end.

Lemma of_to_tree v : of_tree (to_tree v) = v.
Proof.
  induction v as [|b|z|f|s|t|l IH|d IH] using pyval_nested_ind; cbn; try done.
  - by destruct f.
  - by destruct t.
  - f_equal. induction IH as [|x l Hx _ IHl]; cbn; [done|]. by rewrite Hx, IHl.
  - f_equal. induction IH as [|[k x] d Hx _ IHd]; cbn in *; [done|]. by rewrite Hx, IHd.
Qed.

#[global] Instance pyval_countable : Countable pyval := inj_countable' to_tree of_tree of_to_tree.

Fixpoint bits (p : positive) : string :=
  match p with
  | xH => ""
  | xO p => String "0" (bits p)
  | xI p => String "1" (bits p)
  end.
Fixpoint of_bits (s : string) : positive :=
  match s with
  | EmptyString => xH
  | String c s => if Ascii.eqb c "0" then xO (of_bits s) else xI (of_bits s)
  end.

Lemma of_bits_bits p : of_bits (bits p) = p.
Proof. induction p; cbn; congruence. Qed.

Definition coded_yaml : YamlLib := {|
  yaml_scan _ := ([OtherToken], false);
  yaml_compose_all _ := Ok [];
  yaml_safe_load_all s := raise_none ((fun v => [v]) <$> decode (of_bits s)) YAMLError;
  yaml_safe_load s := raise_none (decode (of_bits s)) YAMLError;
  yaml_safe_dump v := bits (encode v);
|}.

#[global] Instance coded_yaml_round_trip : @YamlRoundTrip coded_yaml.
Proof. constructor. intros v _. cbn. by rewrite of_bits_bits, decode_encode. Qed.

End Demo.
