(* ===== verification/SourcePatch.v ===== *)
(** * Scalar patch plans

    [src/src/domains/gitops/source_patch.py], the part that does not touch a
    source text: the plan records, the field paths, the allowlist of changes,
    the validation of a plan, and its serialisation as an instruction
    document.  [SourceSplice.v] holds the part that rewrites manifests. *)
From S2P Require Import Prelude PyStr PyFloat PyVal Libs Demo.

Module SourcePatch.

(** ** Data *)

Definition RAW_JSON : string := "raw-json".
Definition RAW_YAML : string := "raw-yaml".
Definition SUPPORTED_SOURCE_TYPES : list string := [RAW_JSON; RAW_YAML].
Definition IMAGE_PATCH_API_VERSION : string := "gitops.krafton.dev/v1alpha1".
Definition IMAGE_PATCH_KIND : string := "GitOpsImagePatch".
Definition SCALAR_PATCH_API_VERSION : string := "gitops.krafton.dev/v1alpha1".
Definition SCALAR_PATCH_KIND : string := "GitOpsScalarPatch".
Definition CONTAINER_LIST_KEYS : list string :=
  ["containers"; "initContainers"; "ephemeralContainers"].

Record ImageScalarReplacement := {
  container_name : string;
  current_image : string;
  previous_image : string;
}.

Record ManifestImagePatchPlan := {
  ip_source_type : string;
  ip_source_manifest_sha256 : string;
  ip_expected_base_sha : string;
  ip_manifest_path : string;
  ip_replacements : list ImageScalarReplacement;
}.

Record ScalarFieldReplacement := {
  field_path : string;
  current_value : pyval;
  desired_value : pyval;
}.

Record ManifestScalarPatchPlan := {
  action_type : string;
  source_type : string;
  source_manifest_sha256 : string;
  expected_base_sha : string;
  manifest_path : string;
  replacements : list ScalarFieldReplacement;
  rollback_replacements : list ScalarFieldReplacement;
}.

Record FieldPathSegment := Segment {
  seg_key : string;
  selected_name : option string;
}.

#[global] Instance segment_eq_dec : EqDecision FieldPathSegment.
Proof. solve_decision. Defined.
#[global] Instance replacement_eq_dec : EqDecision ScalarFieldReplacement.
Proof. solve_decision. Defined.

Definition patch_error (msg : string) : exn := ManifestSourcePatchError msg.

(** ** Regular expressions *)

(** [sha256:[0-9a-f]{64}] *)
Definition is_sha256_digest (s : string) : bool :=
  starts_with "sha256:" s &&
  let t := str_drop 7 s in Nat.eqb (str_len t) 64 && all_chars is_hex t.

(** [[0-9a-f]{40,64}] *)
Definition is_git_sha (s : string) : bool :=
  Nat.leb 40 (str_len s) && Nat.leb (str_len s) 64 && all_chars is_hex s.

(** [^[A-Za-z0-9][A-Za-z0-9._/@:+-]*$] *)
Definition PLAIN_IMAGE_PATTERN (s : string) : bool :=
  match s with
  | EmptyString => false
  | String c t => is_word c && all_chars (fun c => is_word c || char_in c "._/@:+-") t
  end.

(** The characters of a field key: [[A-Za-z0-9_-]]. *)
Definition is_key_char (c : ascii) : bool := is_word c || char_in c "_-".

(** The longest prefix of key characters and the rest. *)
Fixpoint span_key (s : string) : string * string :=
  match s with
  | EmptyString => ("", "")
  | String c t =>
      if is_key_char c then let '(k, r) := span_key t in (String c k, r) else ("", s)
  end.

(** The text before the final [']'] of a selector, when it is the only one. *)
Fixpoint selector_name (s : string) : option string :=
  match s with
  | EmptyString => None
  | String c t =>
      if bool_decide (c = "]"%char) then (if is_empty t then Some "" else None)
      else String c <$> selector_name t
  end.

(** [^([A-Za-z0-9_-]+)(?:\[name=([^\]]+)\])?$]: the two groups. *)
Definition FIELD_PATH_SEGMENT_PATTERN (s : string) : option (string * option string) :=
  let '(k, r) := span_key s in
  if is_empty k then None
  else if is_empty r then Some (k, None)
  else if starts_with "[name=" r then
    match selector_name (str_drop 6 r) with
    | Some name => if is_empty name then None else Some (k, Some name)
    | None => None
    end
  else None.

(** The longest prefix of digits and the rest. *)
Fixpoint span_digits (s : string) : string * string :=
  match s with
  | EmptyString => ("", "")
  | String c t =>
      if is_digit c then let '(k, r) := span_digits t in (String c k, r) else ("", s)
  end.

(** [^(\d+)(Ki|Mi|Gi)$]: the digits and the unit's factor. *)
Definition MEMORY_QUANTITY_PATTERN (s : string) : option (string * Z) :=
  let '(ds, unit) := span_digits s in
  if is_empty ds then None
  else if str_eqb unit "Ki" then Some (ds, 1024)
  else if str_eqb unit "Mi" then Some (ds, 1024 ^ 2)
  else if str_eqb unit "Gi" then Some (ds, 1024 ^ 3)
  else None.

(** ** Scalars *)

Definition scalar_value (v : pyval) : bool :=
  match v with
  | VNone | VStr _ | VInt _ | VFloat _ | VBool _ => true
  | _ => false
  end.

Definition same_scalar (left right : pyval) : bool := same_type left right && py_eqb left right.

(** ** Field paths *)

(** The loop of [_field_path_parts]: [cur] is [value[start:index]]. *)
Fixpoint field_path_parts_go (s : string) (bracket_depth : Z) (cur : string) : option (list string) :=
  match s with
  | EmptyString => if bracket_depth =? 0 then Some [cur] else None
  | String c s =>
      if bool_decide (c = "["%char) then
        field_path_parts_go s (bracket_depth + 1) (cur +:+ String c "")
      else if bool_decide (c = "]"%char) then
        if bracket_depth - 1 <? 0 then None
        else field_path_parts_go s (bracket_depth - 1) (cur +:+ String c "")
      else if bool_decide (c = "."%char) && (bracket_depth =? 0) then
        match field_path_parts_go s bracket_depth "" with
        | Some parts => Some (cur :: parts)
        | None => None
        end
      else field_path_parts_go s bracket_depth (cur +:+ String c "")
  end.

(** [()] when the brackets do not match. *)
Definition field_path_parts (value : string) : list string :=
  default [] (field_path_parts_go value 0 "").

(** The segments of the parts, [None] at the first malformed one. *)
Fixpoint segments_of_parts (parts : list string) : option (list FieldPathSegment) :=
  match parts with
  | [] => Some []
  | raw :: parts =>
      match FIELD_PATH_SEGMENT_PATTERN raw with
      | None => None
      | Some (key, name) =>
          if match name with Some n => is_empty (strip n) | None => false end then None
          else match segments_of_parts parts with
               | Some segs => Some (Segment key name :: segs)
               | None => None
               end
      end
  end.

Definition field_path_segments (value : string) : list FieldPathSegment :=
  default [] (segments_of_parts (field_path_parts value)).

Definition safe_manifest_path (value : string) : bool :=
  nonempty value && negb (starts_with "/" value) && negb (contains "\" value) &&
  negb (bool_decide (".." ∈ path_parts value)).

(** ** The allowlist *)

Definition memory_quantity_bytes (value : pyval) : res (option Z) :=
  match value with
  | VStr s =>
      match MEMORY_QUANTITY_PATTERN s with
      | None => Ok None
      | Some (digits, factor) =>
          n ← raise_none (int_of_str digits) ValueError;
          Ok (Some (n * factor))
      end
  | _ => Ok None
  end.

Definition memory_increases_within_cap (current desired : pyval) : res bool :=
  current_bytes ← memory_quantity_bytes current;
  desired_bytes ← memory_quantity_bytes desired;
  Ok match current_bytes, desired_bytes with
     | Some c, Some d => (c <? d) && (d <=? 4 * 1024 ^ 3)
     | _, _ => false
     end.

(** [isinstance(value, str) and bool(value.strip())] *)
Definition text_scalar (v : pyval) : bool :=
  match v with VStr s => nonempty (strip s) | _ => false end.

Definition int_between (lo : Z) (current desired : pyval) (hi : Z) : bool :=
  match current, desired with
  | VInt c, VInt d => (lo <=? c) && (c <? d) && (d <=? hi)
  | _, _ => false
  end.

Definition action_allows_replacement (action : string) (item : ScalarFieldReplacement) : res bool :=
  let path := field_path item in
  let current := current_value item in
  let desired := desired_value item in
  if bool_decide (action ∈ ["image_rollback"; "image_tag_fix"]) then
    Ok (ends_with ".image" path && (text_scalar current && text_scalar desired))
  else if str_eqb action "replica_scale" then
    Ok (str_eqb path "spec.replicas" && int_between 1 current desired 10)
  else if str_eqb action "oom_memory" then
    if ends_with ".resources.requests.memory" path || ends_with ".resources.limits.memory" path
    then memory_increases_within_cap current desired
    else Ok false
  else if str_eqb action "probe_fix" then
    if ends_with ".timeoutSeconds" path then Ok (int_between 1 current desired 30)
    else if ends_with ".httpGet.port" path then
      Ok match desired with VInt d => (1 <=? d) && (d <=? 65535) | _ => false end
    else if ends_with ".httpGet.path" path then
      Ok match desired with VStr s => starts_with "/" s | _ => false end
    else Ok false
  else if str_eqb action "selector_fix" then
    Ok ((starts_with "spec.selector.matchLabels." path
         || starts_with "spec.template.metadata.labels." path)
        && (text_scalar current && text_scalar desired))
  else Ok false.

(** ** Validation of plans *)

Definition incomplete_image : exn := patch_error "structured image patch metadata is incomplete".
Definition incomplete_scalar : exn := patch_error "structured scalar patch metadata is incomplete".
Definition duplicated_target : exn := patch_error "structured scalar patch target is duplicated".
Definition not_inverse : exn := patch_error "structured scalar rollback is not an exact inverse".

Definition validate_image_patch_plan (plan : ManifestImagePatchPlan) : res unit :=
  _ ← raise_if
    (negb (str_eqb (ip_source_type plan) RAW_YAML)
     || negb (is_sha256_digest (ip_source_manifest_sha256 plan))
     || negb (is_git_sha (ip_expected_base_sha plan))
     || negb (safe_manifest_path (ip_manifest_path plan))
     || negb (Nat.eqb (length (ip_replacements plan)) 1)) incomplete_image;
  match ip_replacements plan with
  | replacement :: _ =>
      raise_if
        (is_empty (container_name replacement)
         || is_empty (current_image replacement)
         || is_empty (previous_image replacement)
         || str_eqb (current_image replacement) (previous_image replacement)) incomplete_image
  | [] => Err IndexError
  end.

Definition ACTION_TYPES : list string :=
  ["oom_memory"; "image_rollback"; "image_tag_fix"; "replica_scale"; "probe_fix"; "selector_fix"].

(** [{item.field_path: item for item in items}] *)
Definition by_path (items : list ScalarFieldReplacement) : list (string * ScalarFieldReplacement) :=
  fold_left (fun acc item => dict_set acc (field_path item) item) items [].

(** The guard of the validation loop, for one replacement. *)
Definition replacement_rejected (action : string)
    (rollback_by_path : list (string * ScalarFieldReplacement))
    (item : ScalarFieldReplacement) : res bool :=
  if bool_decide (field_path_segments (field_path item) = [])
     || negb (scalar_value (current_value item))
     || negb (scalar_value (desired_value item))
     || same_scalar (current_value item) (desired_value item)
  then Ok true
  else match dict_get rollback_by_path (field_path item) with
       | None => Ok true
       | Some rollback =>
           if negb (same_scalar (current_value rollback) (desired_value item))
              || negb (same_scalar (desired_value rollback) (current_value item))
           then Ok true
           else allowed ← action_allows_replacement action item; Ok (negb allowed)
       end.

Fixpoint check_replacements (action : string)
    (rollback_by_path : list (string * ScalarFieldReplacement))
    (items : list ScalarFieldReplacement) : res unit :=
  match items with
  | [] => Ok tt
  | item :: items =>
      rejected ← replacement_rejected action rollback_by_path item;
      _ ← raise_if rejected not_inverse;
      check_replacements action rollback_by_path items
  end.

Definition validate_scalar_patch_plan (plan : ManifestScalarPatchPlan) : res unit :=
  _ ← raise_if
    (negb (bool_decide (action_type plan ∈ ACTION_TYPES))
     || negb (str_eqb (source_type plan) RAW_YAML)
     || negb (is_sha256_digest (source_manifest_sha256 plan))
     || negb (is_git_sha (expected_base_sha plan))
     || negb (safe_manifest_path (manifest_path plan))
     || negb (Nat.leb 1 (length (replacements plan)) && Nat.leb (length (replacements plan)) 4)
     || negb (Nat.eqb (length (rollback_replacements plan)) (length (replacements plan))))
    incomplete_scalar;
  _ ← raise_if (negb (no_dup (field_path <$> replacements plan))) duplicated_target;
  let rollback_by_path := by_path (rollback_replacements plan) in
  _ ← raise_if
    (negb (Nat.eqb (length rollback_by_path) (length (rollback_replacements plan)))) not_inverse;
  check_replacements (action_type plan) rollback_by_path (replacements plan).

(** ** Instruction documents *)

Definition image_replacement_body (item : ImageScalarReplacement) : pyval :=
  VDict [("containerName", VStr (container_name item));
         ("currentImage", VStr (current_image item));
         ("previousImage", VStr (previous_image item))].

Definition image_patch_document (plan : ManifestImagePatchPlan) : pyval :=
  VDict [("apiVersion", VStr IMAGE_PATCH_API_VERSION);
         ("kind", VStr IMAGE_PATCH_KIND);
         ("spec", VDict
           [("sourceType", VStr (ip_source_type plan));
            ("sourceManifestSha256", VStr (ip_source_manifest_sha256 plan));
            ("expectedBaseSha", VStr (ip_expected_base_sha plan));
            ("manifestPath", VStr (ip_manifest_path plan));
            ("replacements", VList (image_replacement_body <$> ip_replacements plan))])].

Definition scalar_replacement_body (item : ScalarFieldReplacement) : pyval :=
  VDict [("fieldPath", VStr (field_path item));
         ("currentValue", current_value item);
         ("desiredValue", desired_value item)].

Definition scalar_patch_spec (plan : ManifestScalarPatchPlan) : dict :=
  [("actionType", VStr (action_type plan));
   ("sourceType", VStr (source_type plan));
   ("sourceManifestSha256", VStr (source_manifest_sha256 plan));
   ("expectedBaseSha", VStr (expected_base_sha plan));
   ("manifestPath", VStr (manifest_path plan));
   ("replacements", VList (scalar_replacement_body <$> replacements plan));
   ("rollbackReplacements", VList (scalar_replacement_body <$> rollback_replacements plan))].

Definition scalar_patch_document (plan : ManifestScalarPatchPlan) : pyval :=
  VDict [("apiVersion", VStr SCALAR_PATCH_API_VERSION);
         ("kind", VStr SCALAR_PATCH_KIND);
         ("spec", VDict (scalar_patch_spec plan))].

Section Documents.
Context `{YamlLib}.

Definition image_patch_content (plan : ManifestImagePatchPlan) : res string :=
  _ ← validate_image_patch_plan plan;
  Ok (yaml_safe_dump (image_patch_document plan)).

Definition scalar_patch_content (plan : ManifestScalarPatchPlan) : res string :=
  _ ← validate_scalar_patch_plan plan;
  Ok (yaml_safe_dump (scalar_patch_document plan)).

Definition invalid_image_document : exn := patch_error "structured image patch document is invalid".
Definition invalid_scalar_document : exn := patch_error "structured scalar patch document is invalid".

(** [spec[key] if isinstance(spec[key], str) else ""] *)
Definition text_or_empty (spec : dict) (key : string) : string :=
  match get spec key with VStr s => s | _ => "" end.

Definition parse_image_replacement (raw : pyval) : res ImageScalarReplacement :=
  match raw with
  | VDict d =>
      _ ← raise_if (negb (keys_are d ["containerName"; "currentImage"; "previousImage"]))
        invalid_image_document;
      _ ← raise_if (negb (forallb (fun kv => is_str kv.2) d)) invalid_image_document;
      Ok {| container_name := text_or_empty d "containerName";
            current_image := text_or_empty d "currentImage";
            previous_image := text_or_empty d "previousImage" |}
  | _ => Err invalid_image_document
  end.

Definition parse_image_patch_plan (content : string) : res (option ManifestImagePatchPlan) :=
  payload ← catch (yaml_safe_load content) is_YAMLError invalid_image_document;
  match payload with
  | VDict d =>
      if negb (py_eqb (get d "kind") (VStr IMAGE_PATCH_KIND)) then Ok None
      else
        _ ← raise_if
          (negb (py_eqb (get d "apiVersion") (VStr IMAGE_PATCH_API_VERSION))
           || negb (keys_are d ["apiVersion"; "kind"; "spec"])) invalid_image_document;
        spec ← raise_none (as_dict (get d "spec")) invalid_image_document;
        _ ← raise_if
          (negb (keys_are spec ["sourceType"; "sourceManifestSha256"; "expectedBaseSha";
                                "manifestPath"; "replacements"])) invalid_image_document;
        raw_replacements ← raise_none (as_list (get spec "replacements")) invalid_image_document;
        items ← mapr parse_image_replacement raw_replacements;
        let plan :=
          {| ip_source_type := text_or_empty spec "sourceType";
             ip_source_manifest_sha256 := text_or_empty spec "sourceManifestSha256";
             ip_expected_base_sha := text_or_empty spec "expectedBaseSha";
             ip_manifest_path := text_or_empty spec "manifestPath";
             ip_replacements := items |} in
        _ ← validate_image_patch_plan plan;
        Ok (Some plan)
  | _ => Ok None
  end.

Definition parse_scalar_replacement (raw : pyval) : res ScalarFieldReplacement :=
  match raw with
  | VDict d =>
      _ ← raise_if (negb (keys_are d ["fieldPath"; "currentValue"; "desiredValue"]))
        invalid_scalar_document;
      match get d "fieldPath" with
      | VStr path =>
          _ ← raise_if
            (negb (scalar_value (get d "currentValue"))
             || negb (scalar_value (get d "desiredValue"))) invalid_scalar_document;
          Ok {| field_path := path;
                current_value := get d "currentValue";
                desired_value := get d "desiredValue" |}
      | _ => Err invalid_scalar_document
      end
  | _ => Err invalid_scalar_document
  end.

Definition parse_scalar_replacements (value : pyval) : res (list ScalarFieldReplacement) :=
  raw ← raise_none (as_list value) invalid_scalar_document;
  mapr parse_scalar_replacement raw.

Definition SCALAR_TEXT_KEYS : list string :=
  ["actionType"; "sourceType"; "sourceManifestSha256"; "expectedBaseSha"; "manifestPath"].

Definition parse_scalar_patch_plan (content : string) : res (option ManifestScalarPatchPlan) :=
  payload ← catch (yaml_safe_load content) is_YAMLError invalid_scalar_document;
  match payload with
  | VDict d =>
      if negb (py_eqb (get d "kind") (VStr SCALAR_PATCH_KIND)) then Ok None
      else
        _ ← raise_if
          (negb (py_eqb (get d "apiVersion") (VStr SCALAR_PATCH_API_VERSION))
           || negb (keys_are d ["apiVersion"; "kind"; "spec"])) invalid_scalar_document;
        spec ← raise_none (as_dict (get d "spec")) invalid_scalar_document;
        _ ← raise_if
          (negb (keys_are spec (SCALAR_TEXT_KEYS ++ ["replacements"; "rollbackReplacements"])))
          invalid_scalar_document;
        items ← parse_scalar_replacements (get spec "replacements");
        rollback ← parse_scalar_replacements (get spec "rollbackReplacements");
        let plan :=
          {| action_type := text_or_empty spec "actionType";
             source_type := text_or_empty spec "sourceType";
             source_manifest_sha256 := text_or_empty spec "sourceManifestSha256";
             expected_base_sha := text_or_empty spec "expectedBaseSha";
             manifest_path := text_or_empty spec "manifestPath";
             replacements := items;
             rollback_replacements := rollback |} in
        _ ← raise_if (existsb (fun key => negb (is_str (get spec key))) SCALAR_TEXT_KEYS)
          invalid_scalar_document;
        _ ← validate_scalar_patch_plan plan;
        Ok (Some plan)
  | _ => Ok None
  end.

End Documents.

(** ** Values of documents at field paths *)

Definition target_missing : exn := patch_error "manifest scalar target is missing".
Definition target_not_unique : exn := patch_error "manifest scalar target is not unique".

(** [isinstance(item, Mapping) and item.get("name") == name] *)
Definition named (name : string) (item : pyval) : bool :=
  match item with
  | VDict d => py_eqb (get d "name") (VStr name)
  | _ => false
  end.

Definition select_named (name : string) (l : list pyval) : res pyval :=
  raise_none (the_one (keep (named name) l)) target_not_unique.

Fixpoint object_value_at (root : pyval) (segments : list FieldPathSegment) : res pyval :=
  match segments with
  | [] => Ok root
  | segment :: segments =>
      match root with
      | VDict d =>
          current ← raise_none (dict_get d (seg_key segment)) target_missing;
          current ← match selected_name segment with
                    | None => Ok current
                    | Some name =>
                        l ← raise_none (as_list current) target_missing;
                        select_named name l
                    end;
          object_value_at current segments
      | _ => Err target_missing
      end
  end.

(** [for item in current]: the elements of an iterable value. *)
Definition iter_values (v : pyval) : res (list pyval) :=
  match v with
  | VList l => Ok l
  | VDict d => Ok (VStr <$> d.*1)
  | VStr s => Ok ((fun c => VStr (String c "")) <$> chars s)
  | _ => Err TypeError
  end.

(** Replace the first element that [p] selects. *)
Fixpoint update_first (p : pyval -> bool) (x : pyval) (l : list pyval) : list pyval :=
  match l with
  | [] => []
  | y :: l => if p y then x :: l else y :: update_first p x l
  end.

(** [set_object_value(root, segments, value)] mutates [root] in place; here it
    returns the updated root.  The documents it runs on share no nodes: their
    sources have no YAML aliases. *)
Fixpoint set_object_value (root : pyval) (segments : list FieldPathSegment) (value : pyval)
    : res pyval :=
  match segments with
  | [] => Err IndexError
  | [final] =>
      match selected_name final, root with
      | None, VDict d => Ok (VDict (dict_set d (seg_key final) value))
      | _, _ => Err target_missing
      end
  | segment :: segments =>
      match root with
      | VDict d =>
          child ← raise_none (dict_get d (seg_key segment)) KeyError;
          child' ← match selected_name segment with
                   | None => set_object_value child segments value
                   | Some name =>
                       l ← iter_values child;
                       item ← select_named name l;
                       item' ← set_object_value item segments value;
                       Ok match child with
                          | VList l => VList (update_first (named name) item' l)
                          | _ => child
                          end
                   end;
          Ok (VDict (dict_set d (seg_key segment) child'))
      | _ => Err target_missing
      end
  end.

(** The value a manifest holds at a textual field path. *)
Definition value_at_path (root : pyval) (path : string) : res pyval :=
  object_value_at root (field_path_segments path).

Fixpoint all_current (manifest : pyval) (items : list ScalarFieldReplacement) : res bool :=
  match items with
  | [] => Ok true
  | item :: items =>
      v ← value_at_path manifest (field_path item);
      if same_scalar v (current_value item) then all_current manifest items else Ok false
  end.

Definition is_patch_error (e : exn) : bool :=
  match e with
  | ManifestSourcePatchError _ | RemediationSourcePatchUnsupported _ => true
  | _ => false
  end.

Definition scalar_patch_matches_manifest (plan : ManifestScalarPatchPlan) (manifest : pyval) : res bool :=
  match (_ ← validate_scalar_patch_plan plan; all_current manifest (replacements plan)) with
  | Ok b => Ok b
  | Err e => if is_patch_error e then Ok false else Err e
  end.

(** ** Reference notions for the theorems *)

(** Two paths that part ways: at some step they take different keys, or
    select different names in the same list. *)
Fixpoint diverge (s t : list FieldPathSegment) : bool :=
  match s, t with
  | a :: s, b :: t =>
      if negb (str_eqb (seg_key a) (seg_key b)) then true
      else match selected_name a, selected_name b with
           | None, None => diverge s t
           | Some x, Some y => if str_eqb x y then diverge s t else true
           | _, _ => false
           end
  | _, _ => false
  end.

(** Writing at the path does not rename the list element it selects. *)
Fixpoint keeps_selection (s : list FieldPathSegment) : bool :=
  match s with
  | [] => true
  | a :: s =>
      match selected_name a, s with
      | Some _, [b] => negb (str_eqb (seg_key b) "name")
      | _, _ => true
      end && keeps_selection s
  end.

(** The text of a segment and of a path. *)
Definition print_segment (g : FieldPathSegment) : string :=
  seg_key g +:+ match selected_name g with
                | None => ""
                | Some n => "[name=" +:+ n +:+ "]"
                end.
Definition print_segments (s : list FieldPathSegment) : string := join "." (print_segment <$> s).

(** A list of writes, in order. *)
Fixpoint set_all (root : pyval) (writes : list (list FieldPathSegment * pyval)) : res pyval :=
  match writes with
  | [] => Ok root
  | (s, v) :: writes => root' ← set_object_value root s v; set_all root' writes
  end.

(** ** Lemmas: selecting list elements *)

Lemma named_set_field name d k v :
  named name (VDict d) = true -> k <> "name" -> named name (VDict (dict_set d k v)) = true.
Proof. cbn. intros H Hk. by rewrite get_set_ne. Qed.

Lemma named_name name item :
  named name item = true -> exists d, item = VDict d /\ dict_get d "name" = Some (VStr name).
Proof.
  destruct item as [| | | | | | |d]; cbn; try done. intros H. exists d. split; [done|].
  unfold get in H. destruct (dict_get d "name") as [w|]; cbn in H; [|done].
  destruct w; try done. by apply str_eqb_eq in H as ->.
Qed.

Lemma named_inj a b item : named a item = true -> named b item = true -> a = b.
Proof.
  intros (d & -> & Ha)%named_name Hb. apply named_name in Hb as (d' & [= <-] & Hb). congruence.
Qed.

Lemma select_named_Ok name l x :
  select_named name l = Ok x <-> keep (named name) l = [x].
Proof. unfold select_named. by rewrite raise_none_Ok, the_one_Some. Qed.

Lemma keep_update_first_same (p : pyval -> bool) x y l :
  keep p l = [x] -> p y = true -> keep p (update_first p y l) = [y].
Proof.
  induction l as [|z l IH]; cbn; [done|]. intros Hk Hy.
  destruct (p z) eqn:E; cbn.
  - rewrite Hy. injection Hk as -> ->. done.
  - rewrite E. by apply IH.
Qed.

Lemma keep_update_first_other (p q : pyval -> bool) y l :
  (forall z, p z = true -> q z = false) -> p y = true ->
  keep q (update_first p y l) = keep q l.
Proof.
  intros Hpq Hy. induction l as [|z l IH]; cbn; [done|].
  destruct (p z) eqn:E; cbn; [by rewrite (Hpq y Hy), (Hpq z E)|]. by rewrite IH.
Qed.

Lemma elem_of_update_first (p : pyval -> bool) x l y :
  y ∈ update_first p x l -> y ∈ l \/ y = x.
Proof.
  induction l as [|z l IH]; cbn; [by intros ?%elem_of_nil|].
  destruct (p z); rewrite !elem_of_cons; [naive_solver|]. intros [->|Hy%IH]; naive_solver.
Qed.

Lemma update_first_back (p : pyval -> bool) x y l :
  keep p l = [x] -> p y = true -> update_first p x (update_first p y l) = l.
Proof.
  induction l as [|z l IH]; cbn; [done|]. intros Hk Hy.
  destruct (p z) eqn:E; cbn.
  - rewrite Hy. by injection Hk as ->.
  - rewrite E. by rewrite IH.
Qed.

Lemma update_first_comm (p q : pyval -> bool) x y l :
  (forall z, p z = true -> q z = false) -> p x = true -> q y = true ->
  update_first q y (update_first p x l) = update_first p x (update_first q y l).
Proof.
  intros Hpq Hx Hy. assert (forall z, q z = true -> p z = false) as Hqp.
  { intros z Hz. destruct (p z) eqn:E; [|done]. apply Hpq in E. congruence. }
  induction l as [|z l IH]; cbn; [done|].
  destruct (p z) eqn:Ep, (q z) eqn:Eq; cbn; rewrite ?Ep, ?Eq, ?(Hpq x Hx), ?(Hqp y Hy); try done.
  - apply Hpq in Ep. congruence.
  - by rewrite IH.
Qed.

Lemma update_first_twice (p : pyval -> bool) x y l :
  p x = true -> update_first p y (update_first p x l) = update_first p y l.
Proof.
  intros Hx. induction l as [|z l IH]; cbn; [done|].
  destruct (p z) eqn:E; cbn; [by rewrite Hx|]. by rewrite E, IH.
Qed.

(** ** Lemmas: writing at a path *)

(** The successful runs of [set_object_value], as a relation. *)
Inductive writes_at : pyval -> list FieldPathSegment -> pyval -> pyval -> Prop :=
  | writes_final d g v :
      selected_name g = None ->
      writes_at (VDict d) [g] v (VDict (dict_set d (seg_key g) v))
  | writes_key d g s v child child' :
      selected_name g = None -> s <> [] ->
      dict_get d (seg_key g) = Some child ->
      writes_at child s v child' ->
      writes_at (VDict d) (g :: s) v (VDict (dict_set d (seg_key g) child'))
  | writes_item d g s v name l item item' :
      selected_name g = Some name -> s <> [] ->
      dict_get d (seg_key g) = Some (VList l) ->
      keep (named name) l = [item] ->
      writes_at item s v item' ->
      writes_at (VDict d) (g :: s) v
        (VDict (dict_set d (seg_key g) (VList (update_first (named name) item' l)))).

Lemma set_object_value_cons g h s root value :
  set_object_value root (g :: h :: s) value =
  match root with
  | VDict d =>
      child ← raise_none (dict_get d (seg_key g)) KeyError;
      child' ← match selected_name g with
               | None => set_object_value child (h :: s) value
               | Some name =>
                   l ← iter_values child;
                   item ← select_named name l;
                   item' ← set_object_value item (h :: s) value;
                   Ok match child with
                      | VList l => VList (update_first (named name) item' l)
                      | _ => child
                      end
               end;
      Ok (VDict (dict_set d (seg_key g) child'))
  | _ => Err target_missing
  end.
Proof. done. Qed.

Lemma iter_named_list name v l item :
  iter_values v = Ok l -> keep (named name) l = [item] -> v = VList l.
Proof.
  destruct v as [| | | |str| |l0|d]; cbn; try done; intros [= <-] Hk; [..|done|].
  - assert (keep (named name) ((fun c => VStr (String c "")) <$> chars str) = []) as E;
      [|by rewrite E in Hk].
    apply keep_false. intros x (c & -> & _)%list_elem_of_fmap. done.
  - assert (keep (named name) (VStr <$> d.*1) = []) as E; [|by rewrite E in Hk].
    apply keep_false. intros x (c & -> & _)%list_elem_of_fmap. done.
Qed.

Lemma set_object_value_writes root s v root' :
  set_object_value root s v = Ok root' <-> writes_at root s v root'.
Proof.
  split.
  - revert root root'. induction s as [|g [|h s] IH]; intros root root' Hset; [done| |].
    + cbn in Hset. destruct (selected_name g) eqn:Hg, root; try done.
      injection Hset as <-. by constructor.
    + rewrite set_object_value_cons in Hset. destruct root as [| | | | | | |d]; try done. res_inv.
      destruct (selected_name g) as [name|] eqn:Hg; res_inv.
      * match goal with H : select_named _ _ = _ |- _ => apply select_named_Ok in H as Hk end.
        match goal with H : iter_values _ = _ |- _ =>
          pose proof (iter_named_list _ _ _ _ H Hk) as -> end.
        eapply writes_item; eauto.
      * eapply writes_key; eauto.
  - induction 1 as [d g v Hg|d g s v c c' Hg Hs Hc _ IH|d g s v n l i i' Hg Hs Hc Hk _ IH].
    + cbn. by rewrite Hg.
    + destruct s as [|h s]; [done|]. rewrite set_object_value_cons, Hc, Hg.
      cbn [mbind res_bind raise_none]. by rewrite IH.
    + destruct s as [|h s]; [done|]. rewrite set_object_value_cons, Hc, Hg.
      cbn [mbind res_bind raise_none iter_values]. rewrite (proj2 (select_named_Ok _ _ _) Hk).
      cbn [mbind res_bind]. by rewrite IH.
Qed.

Lemma writes_keep_name item s v item' name :
  writes_at item s v item' -> named name item = true ->
  match s with [b] => negb (str_eqb (seg_key b) "name") | _ => true end = true ->
  named name item' = true.
Proof.
  intros Hw Hn Hs. apply named_name in Hn as (d & -> & Hd).
  assert (forall k w, k <> "name" -> named name (VDict (dict_set d k w)) = true) as Hset.
  { intros k w Hk. apply named_set_field; [|done]. cbn. unfold get. rewrite Hd. cbn.
    apply str_eqb_refl. }
  inversion Hw; subst; apply Hset.
  - intros E. rewrite E in Hs. done.
  - intros E. rewrite E, Hd in *. simplify_eq.
    match goal with H : writes_at (VStr _) _ _ _ |- _ => inversion H end.
  - intros E. rewrite E, Hd in *. simplify_eq.
Qed.

Lemma keeps_selection_cons g s :
  keeps_selection (g :: s) = true ->
  keeps_selection s = true /\
  (selected_name g <> None ->
   match s with [b] => negb (str_eqb (seg_key b) "name") | _ => true end = true).
Proof.
  cbn. rewrite andb_true_iff. intros [H ?]. split; [done|]. intros Hg.
  destruct (selected_name g); [|done]. by destruct s as [|? [|]].
Qed.

Lemma writes_item_named g s v n l i i' :
  selected_name g = Some n -> keep (named n) l = [i] -> writes_at i s v i' ->
  keeps_selection (g :: s) = true -> named n i' = true.
Proof.
  intros Hg Hk Hw Hkeep. apply keeps_selection_cons in Hkeep as [_ Hname].
  eapply writes_keep_name; [done| |apply Hname; by rewrite Hg].
  assert (i ∈ keep (named n) l) as Hi by (rewrite Hk; set_solver).
  by apply elem_of_keep in Hi as [_ ?].
Qed.

Lemma object_value_at_errors root s e : object_value_at root s = Err e -> is_patch_error e = true.
Proof.
  revert root. induction s as [|g s IH]; intros root; cbn [object_value_at]; [done|].
  destruct root as [| | | | | | |d]; try (by intros [= <-]).
  destruct (dict_get d (seg_key g)) as [c|]; cbn; [|by intros [= <-]].
  destruct (selected_name g) as [n|]; cbn; [|apply IH].
  destruct (as_list c) as [l|]; cbn; [|by intros [= <-]]. unfold select_named.
  destruct (the_one _); cbn; [apply IH|by intros [= <-]].
Qed.

Lemma set_object_value_errors root s v e :
  s <> [] -> set_object_value root s v = Err e ->
  e = KeyError \/ e = TypeError \/ is_patch_error e = true.
Proof.
  revert root. induction s as [|g [|h s] IH]; intros root Hs; [done| |].
  - cbn. destruct (selected_name g), root; intros [= <-]; auto.
  - cbn [set_object_value]. destruct root as [| | | | | | |d]; try (intros [= <-]; by auto).
    destruct (dict_get d (seg_key g)) as [c|]; cbn [raise_none mbind res_bind];
      [|intros [= <-]; by auto].
    intros [Hc|(? & _ & ?)]%bind_Err; [|done].
    destruct (selected_name g) as [n|]; [|by apply (IH c)].
    apply bind_Err in Hc as [Hc|(l & _ & Hc)]; [destruct c; simplify_eq/=; by auto|].
    apply bind_Err in Hc as [Hc|(item & _ & Hc)].
    { unfold select_named in Hc. destruct (the_one _); simplify_eq/=; by auto. }
    apply bind_Err in Hc as [Hc|(? & _ & ?)]; [by apply (IH item)|done].
Qed.

(** A write keeps the keys of every mapping distinct. *)
Lemma writes_unique_keys root s v root' :
  writes_at root s v root' -> unique_keys v = true -> unique_keys root = true ->
  unique_keys root' = true.
Proof.
  induction 1 as [d g v Hg|d g s v c c' Hg Hs Hc Hw IH|d g s v n l i i' Hg Hs Hc Hk Hw IH];
    intros Hv Hr; apply unique_keys_set; auto.
  - apply IH; [done|]. by eapply unique_keys_get.
  - pose proof (unique_keys_get _ _ _ Hr Hc) as Hl. cbn in Hl |- *. rewrite forallb_elem in Hl.
    apply forallb_elem. intros x [Hx| ->]%elem_of_update_first; [by apply Hl|].
    apply IH; [done|]. apply Hl. assert (i ∈ keep (named n) l) as [? _]%elem_of_keep; [|done].
    rewrite Hk. set_solver.
Qed.

(** Reading back what was written. *)
Lemma read_after_write root s v root' :
  writes_at root s v root' -> keeps_selection s = true -> object_value_at root' s = Ok v.
Proof.
  induction 1 as [d g v Hg|d g s v c c' Hg Hs Hc Hw IH|d g s v n l i i' Hg Hs Hc Hk Hw IH];
    intros Hk0; pose proof (proj1 (keeps_selection_cons _ _ Hk0)) as Hkeep;
    cbn; rewrite dict_get_set_eq; cbn; rewrite Hg; cbn; auto.
  assert (named n i' = true) as Hn' by (by eapply writes_item_named).
  rewrite (proj2 (select_named_Ok n _ i')); [cbn; auto|].
  by eapply keep_update_first_same.
Qed.

(** A write leaves every diverging path alone. *)
Lemma read_other_after_write root s v root' :
  writes_at root s v root' -> keeps_selection s = true ->
  forall t, diverge s t = true -> object_value_at root' t = object_value_at root t.
Proof.
  induction 1 as [d g v Hg|d g s v c c' Hg Hs Hc Hw IH|d g s v n l i i' Hg Hs Hc Hk Hw IH];
    intros Hk0 [|h t] Hdiv; try done; pose proof (proj1 (keeps_selection_cons _ _ Hk0)) as Hkeep;
    cbn in Hdiv; cbn [object_value_at];
    destruct (str_eqb (seg_key g) (seg_key h)) eqn:E; cbn in Hdiv;
    try (rewrite dict_get_set_ne by (intros X; rewrite X, str_eqb_refl in E; done); done);
    apply str_eqb_eq in E; rewrite <- E; rewrite dict_get_set_eq, ?Hc, ?Hg; rewrite ?Hg in Hdiv; cbn.
  - destruct (selected_name h); done.
  - destruct (selected_name h); [done|]. cbn. by apply IH.
  - assert (named n i' = true) as Hn' by (by eapply writes_item_named).
    destruct (selected_name h) as [m|]; [|done]. cbn.
    destruct (str_eqb n m) eqn:Enm.
    + apply str_eqb_eq in Enm as <-.
      rewrite (proj2 (select_named_Ok n (update_first _ _ _) i'))
        by (by eapply keep_update_first_same).
      rewrite (proj2 (select_named_Ok n l i) Hk). cbn. by apply IH.
    + unfold select_named. rewrite keep_update_first_other; [done| |done].
      intros z Hz. destruct (named m z) eqn:Em; [|done].
      pose proof (named_inj _ _ _ Hz Em) as ->. by rewrite str_eqb_refl in Enm.
Qed.

(** Writing the old value back restores the document. *)
Lemma write_back root s v root' c :
  writes_at root s v root' -> keeps_selection s = true ->
  object_value_at root s = Ok c -> writes_at root' s c root.
Proof.
  intros Hw. revert c.
  induction Hw as [d g v Hg|d g s v ch ch' Hg Hs Hc Hw IH|d g s v n l i i' Hg Hs Hc Hk Hw IH];
    intros c Hk0 Hread; pose proof (proj1 (keeps_selection_cons _ _ Hk0)) as Hkeep;
    cbn in Hread; rewrite ?Hc, Hg in Hread; cbn in Hread; res_inv.
  - rewrite <- (dict_set_id d (seg_key g) c) at 2 by done.
    rewrite <- (dict_set_set d (seg_key g) v c). by constructor.
  - rewrite <- (dict_set_id d (seg_key g) ch) at 2 by done.
    rewrite <- (dict_set_set d (seg_key g) ch' ch).
    eapply writes_key; eauto. apply dict_get_set_eq.
  - assert (named n i' = true) as Hn' by (by eapply writes_item_named).
    match goal with H : select_named _ _ = _ |- _ =>
      apply select_named_Ok in H; rewrite Hk in H; injection H as <- end.
    rewrite <- (dict_set_id d (seg_key g) (VList l)) at 2 by done.
    rewrite <- (dict_set_set d (seg_key g) (VList (update_first (named n) i' l)) (VList l)).
    rewrite <- (update_first_back (named n) i i' l Hk Hn') at 3.
    eapply writes_item; eauto.
    + apply dict_get_set_eq.
    + by eapply keep_update_first_same.
Qed.

(** A write changes one key of the root, and depends on that key alone. *)
Lemma writes_head root g s v root' :
  writes_at root (g :: s) v root' ->
  exists d x, root = VDict d /\ root' = VDict (dict_set d (seg_key g) x) /\
    forall d', dict_get d' (seg_key g) = dict_get d (seg_key g) ->
      writes_at (VDict d') (g :: s) v (VDict (dict_set d' (seg_key g) x)).
Proof.
  inversion 1 as [d g' v' Hg|d g' s' v' c c' Hg Hs Hc Hw|d g' s' v' n l i i' Hg Hs Hc Hk Hw];
    subst; do 2 eexists; (split; [done|]); (split; [done|]); intros d' Hd'.
  - by constructor.
  - eapply writes_key; eauto. congruence.
  - eapply writes_item; eauto. congruence.
Qed.

Lemma object_has_key d g s c :
  object_value_at (VDict d) (g :: s) = Ok c -> has_key d (seg_key g) = true.
Proof. cbn. unfold has_key. by destruct (dict_get d (seg_key g)). Qed.

(** Writes at different keys of the root commute. *)
Lemma writes_commute_keys root g s h t v w root1 root2 c1 c2 :
  writes_at root (g :: s) v root1 -> writes_at root1 (h :: t) w root2 ->
  seg_key g <> seg_key h ->
  object_value_at root (g :: s) = Ok c1 -> object_value_at root (h :: t) = Ok c2 ->
  exists root1', writes_at root (h :: t) w root1' /\ writes_at root1' (g :: s) v root2.
Proof.
  intros H1 H2 Hne R1 R2.
  apply writes_head in H1 as (d & x & -> & -> & F1).
  apply writes_head in H2 as (d1 & y & [= <-] & -> & F2).
  exists (VDict (dict_set d (seg_key h) y)). split.
  - apply F2. by rewrite dict_get_set_ne.
  - rewrite dict_set_comm by eauto using object_has_key.
    apply F1. by rewrite dict_get_set_ne.
Qed.

(** Two writes at diverging paths commute. *)
Lemma writes_commute root s v root1 :
  writes_at root s v root1 -> keeps_selection s = true ->
  forall t w root2 c1 c2, writes_at root1 t w root2 -> diverge s t = true ->
  keeps_selection t = true ->
  object_value_at root s = Ok c1 -> object_value_at root t = Ok c2 ->
  exists root1', writes_at root t w root1' /\ writes_at root1' s v root2.
Proof.
  induction 1 as [d g v Hg|d g s v c c' Hg Hs Hc Hw IH|d g s v n l i i' Hg Hs Hc Hk Hw IH];
    intros Hk0 [|h t] w root2 c1 c2 H2 Hdiv Hkt R1 R2; try done;
    pose proof (proj1 (keeps_selection_cons _ _ Hk0)) as Hkeep;
    pose proof (proj1 (keeps_selection_cons _ _ Hkt)) as Hkeep';
    (destruct (decide (seg_key g = seg_key h)) as [E|E];
     [|eapply writes_commute_keys; [| exact H2 | done | done | done]; by econstructor]);
    cbn in Hdiv; rewrite E, str_eqb_refl, Hg in Hdiv; cbn in Hdiv.
  - by destruct (selected_name h).
  - destruct (selected_name h) eqn:Hh; [done|].
    cbn in R1, R2. rewrite Hc, Hg in R1. rewrite <- E, Hc, Hh in R2. cbn in R1, R2.
    inversion H2 as [? ? ? Hh'|? ? ? ? e e' Hh' Ht He We|? ? ? ? ? ? ? ? Hh' Ht He Hke We]; subst;
      [by destruct s| |congruence].
    rewrite <- E, dict_get_set_eq in He. injection He as <-.
    destruct (IH Hkeep _ _ _ _ _ We Hdiv Hkeep' R1 R2) as (m & W1 & W2).
    exists (VDict (dict_set d (seg_key h) m)). split.
    + eapply writes_key; [done|done| |done]. by rewrite <- E.
    + rewrite <- E, dict_set_set, <- (dict_set_set d (seg_key g) m e').
      eapply writes_key; [done|done|apply dict_get_set_eq|done].
  - destruct (selected_name h) as [n'|] eqn:Hh; [|done].
    assert (named n i' = true) as Hn' by (by eapply writes_item_named).
    cbn in R1, R2. rewrite Hc, Hg in R1. rewrite <- E, Hc, Hh in R2. cbn in R1, R2. res_inv.
    match goal with H : select_named n l = _ |- _ =>
      apply select_named_Ok in H; rewrite Hk in H; injection H as <- end.
    inversion H2 as [? ? ? Hh'|? ? ? ? e e' Hh' Ht He We|? ? ? ? n0 l0 j j' Hh' Ht He Hkj Wj]; subst;
      [congruence|congruence|].
    rewrite Hh in Hh'. injection Hh' as <-.
    rewrite <- E, dict_get_set_eq in He. injection He as <-.
    destruct (str_eqb n n') eqn:En.
    + apply str_eqb_eq in En as <-.
      rewrite (keep_update_first_same _ i) in Hkj by done. injection Hkj as <-.
      match goal with H : select_named n l = _ |- _ =>
        apply select_named_Ok in H; rewrite Hk in H; injection H as <- end.
      edestruct (IH Hkeep) as (m & W1 & W2); [eassumption..|].
      assert (named n m = true) as Hm by (eapply writes_item_named; [exact Hh|exact Hk|exact W1|done]).
      exists (VDict (dict_set d (seg_key h) (VList (update_first (named n) m l)))).
      rewrite <- E. split.
      * rewrite E. eapply writes_item; [done|done|by rewrite <- E|done|done].
      * rewrite dict_set_set, update_first_twice by done.
        rewrite <- (update_first_twice (named n) m j') by done.
        rewrite <- (dict_set_set d (seg_key g) (VList (update_first (named n) m l))
          (VList (update_first (named n) j' (update_first (named n) m l)))).
        eapply writes_item; [done|done|apply dict_get_set_eq| |done].
        by eapply keep_update_first_same.
    + assert (forall z, named n z = true -> named n' z = false) as Hsep.
      { intros z Hz. destruct (named n' z) eqn:Ez; [|done].
        pose proof (named_inj _ _ _ Hz Ez) as ->. by rewrite str_eqb_refl in En. }
      assert (forall z, named n' z = true -> named n z = false) as Hsep'.
      { intros z Hz. destruct (named n z) eqn:Ez; [|done]. apply Hsep in Ez. congruence. }
      rewrite keep_update_first_other in Hkj by done.
      assert (named n' j' = true) as Hj' by (eapply writes_item_named; [exact Hh|exact Hkj|exact Wj|done]).
      exists (VDict (dict_set d (seg_key h) (VList (update_first (named n') j' l)))).
      rewrite <- E. split.
      * rewrite E. eapply writes_item; [done|done|by rewrite <- E|done|done].
      * rewrite dict_set_set, update_first_comm by done.
        rewrite <- (dict_set_set d (seg_key g) (VList (update_first (named n') j' l))
          (VList (update_first (named n) i' (update_first (named n') j' l)))).
        eapply writes_item; [done|done|apply dict_get_set_eq| |done].
        by rewrite keep_update_first_other.
Qed.

(** ** Lemmas: families of diverging paths *)

Lemma diverge_sym s t : diverge s t = diverge t s.
Proof.
  revert t. induction s as [|a s IH]; intros [|b t]; cbn; try done.
  unfold str_eqb. rewrite (bool_decide_ext (seg_key a = seg_key b) (seg_key b = seg_key a)) by done.
  destruct (bool_decide (seg_key b = seg_key a)); cbn; [|done].
  destruct (selected_name a) as [x|], (selected_name b) as [y|]; try done.
  rewrite (bool_decide_ext (x = y) (y = x)) by done.
  by destruct (bool_decide (y = x)).
Qed.

(** Two different paths that both lead to scalars diverge. *)
Lemma scalars_diverge root s t a b :
  object_value_at root s = Ok a -> object_value_at root t = Ok b ->
  scalar_value a = true -> scalar_value b = true -> s <> t -> diverge s t = true.
Proof.
  revert root t. induction s as [|g s IH]; intros root [|h t] Ha Hb Sa Sb Hne; try done.
  - cbn in Ha. injection Ha as ->. destruct a; done.
  - cbn in Hb. injection Hb as ->. destruct b; done.
  - destruct root as [| | | | | | |d]; try done. cbn in Ha, Hb |- *.
    destruct (str_eqb (seg_key g) (seg_key h)) eqn:E; cbn; [|done]. apply str_eqb_eq in E.
    rewrite <- E in Hb. destruct (dict_get d (seg_key g)) as [ch|]; cbn in *; [|done].
    destruct g as [gk gn], h as [hk hn]; cbn in *. subst hk.
    destruct gn as [x|], hn as [y|]; cbn in *; res_inv.
    + destruct (str_eqb x y) eqn:Exy; [|done]. apply str_eqb_eq in Exy as ->.
      match goal with H : select_named y ?l = Ok ?i, H' : select_named y ?l = Ok ?j |- _ =>
        assert (i = j) as -> by congruence end.
      eapply IH; eauto. congruence.
    + destruct ch; cbn in *; simplify_eq. destruct t; cbn in *; simplify_eq; done.
    + destruct ch; cbn in *; simplify_eq. destruct s; cbn in *; simplify_eq; done.
    + eapply IH; eauto. congruence.
Qed.

(** The last step of a path goes through a key, not a selector. *)
Fixpoint ends_plain (s : list FieldPathSegment) : bool :=
  match s with
  | [] => false
  | [g] => match selected_name g with None => true | Some _ => false end
  | _ :: s => ends_plain s
  end.

Lemma write_exists root s c v :
  object_value_at root s = Ok c -> ends_plain s = true ->
  exists root', writes_at root s v root'.
Proof.
  revert root. induction s as [|g [|h s] IH]; intros root Hread Hend; [done| |].
  - destruct root as [| | | | | | |d]; try done. cbn in Hend.
    destruct (selected_name g) eqn:Hg; [done|]. eexists. by constructor.
  - destruct root as [| | | | | | |d]; try done. cbn [object_value_at] in Hread.
    destruct (dict_get d (seg_key g)) as [ch|] eqn:Hch; [|done].
    cbn [raise_none mbind res_bind] in Hread.
    destruct (selected_name g) as [n|] eqn:Hg.
    + apply bind_Ok in Hread as (item & Hitem & Hread). apply bind_Ok in Hitem as (l & Hl & Hitem).
      destruct ch; cbn in Hl; simplify_eq. apply select_named_Ok in Hitem.
      destruct (IH item Hread Hend) as [item' Hw]. eexists. by eapply writes_item.
    + destruct (IH ch Hread Hend) as [ch' Hw]. eexists. by eapply writes_key.
Qed.

(** The paths of a list of writes are safe to write together: they diverge
    pairwise and none renames the element it selects. *)
Fixpoint independent (paths : list (list FieldPathSegment)) : Prop :=
  match paths with
  | [] => True
  | s :: paths =>
      keeps_selection s = true /\ Forall (fun t => diverge s t = true) paths /\ independent paths
  end.

Definition resolves (root : pyval) (s : list FieldPathSegment) : Prop :=
  exists c, object_value_at root s = Ok c.

Lemma independent_perm p q : p ≡ₚ q -> independent p -> independent q.
Proof.
  induction 1 as [|s p q Hpq IH|s t p|p q r _ IH1 _ IH2]; cbn; [done|..|by auto].
  - intros (?&?&?). split; [done|]. split; [|by apply IH]. by rewrite <- Hpq.
  - intros (?&Hs&?&?&?). inversion Hs; subst.
    repeat split; try done. constructor; [by rewrite diverge_sym|done].
Qed.

Lemma set_all_app root w1 w2 root1 :
  set_all root w1 = Ok root1 -> set_all root (w1 ++ w2) = set_all root1 w2.
Proof.
  revert root. induction w1 as [|[s v] w1 IH]; intros root; cbn; [by intros [= ->]|].
  intros (r & -> & H)%bind_Ok. cbn. by apply IH.
Qed.

Lemma scalar_unique_keys v : scalar_value v = true -> unique_keys v = true.
Proof. by destruct v. Qed.

Lemma set_all_unique_keys root writes root' :
  set_all root writes = Ok root' -> Forall (fun w => unique_keys w.2 = true) writes ->
  unique_keys root = true -> unique_keys root' = true.
Proof.
  revert root. induction writes as [|[s v] ws IH]; intros root; cbn; [by intros [= ->]|].
  intros (r & Hw & Hset)%bind_Ok [Hv Hvs]%Forall_cons Hr. apply (IH r); [done..|].
  apply set_object_value_writes in Hw. by eapply writes_unique_keys.
Qed.

(** The order of independent writes does not matter. *)
Lemma set_all_perm w1 w2 :
  w1 ≡ₚ w2 -> forall root root', independent w1.*1 -> Forall (resolves root) w1.*1 ->
  set_all root w1 = Ok root' -> set_all root w2 = Ok root'.
Proof.
  induction 1 as [|[s v] w1 w2 _ IH|[s v] [t w] w1|w1 w2 w3 H12 IH1 _ IH2];
    intros root root' Hind Hres; cbn in *; [done|..].
  - destruct Hind as (Hk & Hd & Hind). inversion Hres as [|? ? _ Hres']; subst.
    intros (r & Hw & Hset)%bind_Ok. rewrite Hw. cbn. apply IH; [done| |done].
    eapply Forall_impl; [exact (List.Forall_and Hd Hres')|]. intros u [Hu [c Hc]].
    exists c. rewrite <- Hc. apply set_object_value_writes in Hw.
    by eapply read_other_after_write.
  - destruct Hind as (Hks & Hd & Hkt & _ & _). inversion Hd as [|? ? Hst _]; subst.
    inversion Hres as [|? ? [c1 R1] Hres']; subst. inversion Hres' as [|? ? [c2 R2] _]; subst.
    intros (r1 & W1 & (r2 & W2 & Hset)%bind_Ok)%bind_Ok.
    apply set_object_value_writes in W1, W2.
    destruct (writes_commute _ _ _ _ W1 Hks _ _ _ _ _ W2 Hst Hkt R1 R2)
      as (m & M1 & M2).
    apply set_object_value_writes in M1, M2. rewrite M1. cbn. by rewrite M2.
  - intros Hset. apply (IH2 root root').
    + eapply independent_perm; [|exact Hind]. by rewrite H12.
    + by rewrite <- H12.
    + by apply IH1.
Qed.

Lemma set_all_frame root writes root' t :
  set_all root writes = Ok root' -> independent writes.*1 ->
  Forall (fun s => diverge s t = true) writes.*1 ->
  object_value_at root' t = object_value_at root t.
Proof.
  revert root. induction writes as [|[s v] w IH]; intros root; cbn; [by intros [= ->]|].
  intros (r & Hw & Hset)%bind_Ok (Hk & _ & Hind) Hd. inversion Hd; subst.
  rewrite (IH r) by done. apply set_object_value_writes in Hw.
  by eapply read_other_after_write.
Qed.

Lemma set_all_read root writes root' s v :
  set_all root writes = Ok root' -> independent writes.*1 -> (s, v) ∈ writes ->
  object_value_at root' s = Ok v.
Proof.
  revert root. induction writes as [|[t w] ws IH]; intros root; cbn; [set_solver|].
  intros (r & Hw & Hset)%bind_Ok (Hk & Hd & Hind) [[= -> ->]|Hin]%elem_of_cons.
  - apply set_object_value_writes in Hw.
    rewrite (set_all_frame r ws root'); [by eapply read_after_write|done..|].
    eapply Forall_impl; [exact Hd|]. intros u Hu. by rewrite diverge_sym.
  - by eapply IH.
Qed.

(** Writing back the old values, in any order, restores the document. *)
Lemma set_all_restore_rev root writes root' olds :
  set_all root writes = Ok root' -> independent writes.*1 -> olds.*1 = writes.*1 ->
  Forall (fun sc => object_value_at root sc.1 = Ok sc.2) olds ->
  set_all root' (rev olds) = Ok root.
Proof.
  revert root olds. induction writes as [|[s v] ws IH]; intros root [|[t c] olds] Hset Hind Hp Hold;
    try done. cbn in Hset, Hind, Hp |- *. injection Hp as -> Hp.
  apply bind_Ok in Hset as (r & Hw & Hset). destruct Hind as (Hk & Hd & Hind).
  inversion Hold as [|? ? Hc Hold']; subst; cbn in Hc. apply set_object_value_writes in Hw.
  rewrite (set_all_app root' (rev olds) [(s, c)] r).
  - cbn. by rewrite (proj2 (set_object_value_writes r s c root) (write_back _ _ _ _ _ Hw Hk Hc)).
  - apply IH; [done..|]. rewrite <- Hp in Hd. rewrite Forall_fmap in Hd.
    eapply Forall_impl; [exact (List.Forall_and Hd Hold')|]. intros [u x] [Hu Hx]. cbn in *.
    rewrite <- Hx. by eapply read_other_after_write.
Qed.

Lemma set_all_restore root writes root' olds backwards :
  set_all root writes = Ok root' -> independent writes.*1 -> olds.*1 = writes.*1 ->
  Forall (fun sc => object_value_at root sc.1 = Ok sc.2) olds ->
  backwards ≡ₚ olds -> set_all root' backwards = Ok root.
Proof.
  intros Hset Hind Hp Hold Hperm.
  assert (rev olds ≡ₚ backwards) as Hb by (by rewrite Hperm, <- Permutation_rev).
  eapply set_all_perm; [exact Hb|..|by eapply set_all_restore_rev].
  - eapply independent_perm; [|exact Hind]. by rewrite <- Hp, <- Permutation_rev.
  - rewrite <- Permutation_rev, Hp. apply Forall_forall. intros s Hin.
    apply list_elem_of_fmap in Hin as ([t v] & -> & Hin). exists v. by eapply set_all_read.
Qed.

(** ** Lemmas: reading equal documents *)

(** Two reads that both fail, or return equal values. *)
Definition res_equiv (a b : res pyval) : Prop :=
  match a, b with
  | Ok x, Ok y => py_eqb x y = true
  | Err _, Err _ => True
  | _, _ => False
  end.

Lemma named_equiv n x y :
  py_eqb x y = true -> unique_keys x = true -> named n x = named n y.
Proof.
  intros Hxy Hu. destruct x as [| | | | | |l|d].
  8: { destruct (py_eqb_VDict_inv _ _ Hxy) as [e ->]. cbn [named].
       cbn in Hu. apply andb_true_iff in Hu as [Hnd%no_dup_spec _].
       pose proof (py_eqb_dict_get d e "name" Hxy Hnd) as Hg. unfold get.
       destruct (dict_get d "name") as [v|], (dict_get e "name") as [w|]; try done. cbn.
       apply eq_iff_eq_true. rewrite !py_eqb_VStr. split; intros ->.
       - by apply py_eqb_VStr_l in Hg.
       - by apply py_eqb_VStr in Hg. }
  all: destruct y; done.
Qed.

Lemma keep_named_equiv n l k :
  Forall2 (fun x y => py_eqb x y = true) l k -> forallb unique_keys l = true ->
  Forall2 (fun x y => py_eqb x y = true) (keep (named n) l) (keep (named n) k).
Proof.
  induction 1 as [|x y l k Hxy _ IH]; cbn; [constructor|]. intros [Hx Hl]%andb_true_iff.
  rewrite <- (named_equiv n x y) by done. destruct (named n x); [constructor|]; auto.
Qed.

Lemma read_equiv a b s :
  py_eqb a b = true -> unique_keys a = true ->
  res_equiv (object_value_at a s) (object_value_at b s).
Proof.
  revert a b. induction s as [|g s IH]; intros a b Hab Hu; [done|].
  destruct a as [| | | | | |l|d]; [destruct b; done..|].
  destruct (py_eqb_VDict_inv _ _ Hab) as [e ->]. cbn [object_value_at].
  assert (NoDup d.*1) as Hnd by (cbn in Hu; apply andb_true_iff in Hu as [? _]; by apply no_dup_spec).
  pose proof (py_eqb_dict_get d e (seg_key g) Hab Hnd) as Hg.
  destruct (dict_get d (seg_key g)) as [v|] eqn:Ed, (dict_get e (seg_key g)) as [w|]; try done.
  cbn [raise_none mbind res_bind]. pose proof (unique_keys_get _ _ _ Hu Ed) as Huv.
  destruct (selected_name g) as [n|]; [|by apply IH].
  destruct v as [| | | | | |l|d']; [destruct w; done..| |destruct w; done].
  destruct (py_eqb_VList_inv _ _ Hg) as [k ->]. cbn [as_list raise_none mbind res_bind].
  rewrite py_eqb_list in Hg. apply py_list_eqb_Forall2 in Hg.
  pose proof (keep_named_equiv n l k Hg Huv) as Hk. unfold select_named.
  assert (forall x, x ∈ keep (named n) l -> unique_keys x = true) as Hall.
  { intros x [Hx _]%elem_of_keep. cbn in Huv. rewrite forallb_elem in Huv. by apply Huv. }
  revert Hall. destruct Hk as [|x y ? ? Hxy [|? ? ? ? ? ?]]; try done.
  intros Hall. apply IH; [done|]. apply Hall. set_solver.
Qed.

Lemma res_equiv_trans a b c :
  (forall v, c = Ok v -> no_floats v = true) ->
  res_equiv a b -> res_equiv b c -> res_equiv a c.
Proof.
  destruct a, b, c; cbn; try done. intros Hc. by apply py_eqb_trans, Hc.
Qed.

Lemma read_no_floats root s v :
  no_floats root = true -> object_value_at root s = Ok v -> no_floats v = true.
Proof.
  revert root. induction s as [|g s IH]; intros root Hn; cbn [object_value_at]; [by intros [= <-]|].
  destruct root as [| | | | | | |d]; try done. intros (c & Hc%raise_none_Ok & Hv)%bind_Ok.
  cbn in Hn. rewrite forallb_elem in Hn. pose proof (Hn _ (dict_get_elem _ _ _ Hc)) as Hnc. cbn in Hnc.
  apply bind_Ok in Hv as (c' & Hc' & Hv). eapply IH; [|exact Hv].
  destruct (selected_name g); [|by injection Hc' as <-]. destruct c as [| | | | | |l|]; try done.
  cbn in Hc'. apply raise_none_Ok, the_one_Some in Hc'.
  assert (c' ∈ keep (named s0) l) as [Hl _]%elem_of_keep by (rewrite Hc'; set_solver).
  cbn in Hnc. rewrite forallb_elem in Hnc. by apply Hnc.
Qed.

Lemma same_scalar_sym a b :
  scalar_value a = true -> no_floats a = true -> same_scalar a b = true -> py_eqb b a = true.
Proof.
  unfold same_scalar. intros Hs Hn [Ht He]%andb_true_iff.
  destruct a, b; try done; cbn in *; rewrite ?Z.eqb_eq, ?str_eqb_eq in *; congruence.
Qed.

(** ** Lemmas: field paths as text *)

Lemma field_path_parts_go_join s depth cur parts :
  field_path_parts_go s depth cur = Some parts -> parts <> [] /\ join "." parts = cur +:+ s.
Proof.
  revert depth cur parts. induction s as [|c s IH]; intros depth cur parts; cbn.
  - case_match; [|done]. intros [= <-]. split; [done|]. cbn. by rewrite str_app_nil_r.
  - assert (forall d parts, field_path_parts_go s d (cur +:+ String c "") = Some parts ->
              parts <> [] /\ join "." parts = cur +:+ String c s) as Hstep.
    { intros d ps (? & Hj)%IH. split; [done|]. rewrite Hj, str_app_assoc. done. }
    case_bool_decide; [apply Hstep|]. case_bool_decide; [case_match; [done|apply Hstep]|].
    destruct (bool_decide (c = "."%char) && (depth =? 0)) eqn:E; [|apply Hstep]. bool_simpl. subst c.
    destruct (field_path_parts_go s depth "") as [ps|] eqn:Eg; [|done]. intros [= <-].
    apply IH in Eg as [Hne Hj]. split; [done|]. destruct ps as [|w ps]; [done|].
    change (join "." (cur :: w :: ps)) with (cur +:+ "." +:+ join "." (w :: ps)).
    by rewrite Hj.
Qed.

Lemma span_key_app s k r : span_key s = (k, r) -> s = k +:+ r.
Proof.
  revert k r. induction s as [|c s IH]; intros k r; cbn; [by intros [= <- <-]|].
  destruct (is_key_char c); [|by intros [= <- <-]].
  destruct (span_key s) as [k' r'] eqn:E. intros [= <- <-]. cbn. by rewrite (IH k' r').
Qed.

Lemma selector_name_app s n : selector_name s = Some n -> s = n +:+ "]".
Proof.
  revert n. induction s as [|c s IH]; intros n; cbn; [done|]. case_bool_decide as E.
  - subst c. destruct s; [|done]. by intros [= <-].
  - destruct (selector_name s) as [m|]; [|done]. intros [= <-]. cbn. by rewrite (IH m).
Qed.

Lemma segment_pattern_print raw k n :
  FIELD_PATH_SEGMENT_PATTERN raw = Some (k, n) -> print_segment (Segment k n) = raw.
Proof.
  unfold FIELD_PATH_SEGMENT_PATTERN, print_segment. destruct (span_key raw) as [key r] eqn:E.
  apply span_key_app in E as ->. cbn [seg_key selected_name]. destruct (is_empty key); [done|].
  destruct (is_empty r) eqn:Er.
  - apply is_empty_eq in Er as ->. by intros [= -> <-].
  - destruct (starts_with "[name=" r) eqn:Es; [|done]. apply starts_with_spec in Es as [t ->].
    destruct (selector_name (str_drop 6 ("[name=" +:+ t))) as [m|] eqn:Em; [|done].
    change (str_drop 6 ("[name=" +:+ t)) with t in Em. apply selector_name_app in Em as ->.
    case_match; [done|]. by intros [= -> <-].
Qed.

Lemma segments_of_parts_print parts segs :
  segments_of_parts parts = Some segs -> print_segment <$> segs = parts.
Proof.
  revert segs. induction parts as [|raw parts IH]; intros segs; cbn; [by intros [= <-]|].
  destruct (FIELD_PATH_SEGMENT_PATTERN raw) as [[k n]|] eqn:E; [|done].
  case_match; [done|]. destruct (segments_of_parts parts) as [ss|]; [|done]. intros [= <-].
  rewrite fmap_cons, (IH ss) by done. f_equal. by apply segment_pattern_print.
Qed.

Lemma field_path_print p :
  field_path_segments p <> [] -> print_segments (field_path_segments p) = p.
Proof.
  unfold field_path_segments, field_path_parts, print_segments.
  destruct (field_path_parts_go p 0 "") as [parts|] eqn:E; cbn; [|intros Hn; by destruct Hn].
  destruct (segments_of_parts parts) as [segs|] eqn:Es; cbn; [|intros Hn; by destruct Hn].
  intros _. apply segments_of_parts_print in Es as ->. by apply field_path_parts_go_join in E as [_ ->].
Qed.

Lemma field_path_segments_inj p q :
  field_path_segments p <> [] -> field_path_segments p = field_path_segments q -> p = q.
Proof.
  intros Hp E. rewrite <- (field_path_print p), <- (field_path_print q), E by congruence. done.
Qed.

(** ** Lemmas: validated plans *)

(** The item [r] undoes [item]. *)
Definition inverse_of (item r : ScalarFieldReplacement) : Prop :=
  field_path r = field_path item /\
  same_scalar (current_value r) (desired_value item) = true /\
  same_scalar (desired_value r) (current_value item) = true.

(** What validation establishes of one replacement. *)
Record approved (action : string) (rollback : list ScalarFieldReplacement)
    (item : ScalarFieldReplacement) : Prop := {
  ap_path : field_path_segments (field_path item) <> [];
  ap_current : scalar_value (current_value item) = true;
  ap_desired : scalar_value (desired_value item) = true;
  ap_changes : same_scalar (current_value item) (desired_value item) = false;
  ap_allowed : action_allows_replacement action item = Ok true;
  ap_inverse : exists r, r ∈ rollback /\ inverse_of item r;
}.

Lemma by_path_full items :
  length (by_path items) = length items ->
  by_path items = (fun x => (field_path x, x)) <$> items /\ NoDup (field_path <$> items).
Proof.
  intros Hlen. pose proof (dict_comprehension_full field_path items []) as [_ H].
  apply H; [done|constructor].
Qed.

Lemma check_replacements_approved action items rollback :
  length (by_path rollback) = length rollback ->
  check_replacements action (by_path rollback) items = Ok tt <->
  Forall (approved action rollback) items.
Proof.
  intros [Hby Hnd]%by_path_full. induction items as [|item items IH]; cbn; [done|].
  rewrite Forall_cons, <- IH. unfold replacement_rejected.
  destruct (bool_decide _ || _ || _ || _) eqn:G; cbn.
  { split; [done|]. intros [[] _]. rewrite !orb_true_iff in G.
    destruct G as [[[?|?]|?]|?]; bool_simpl; congruence. }
  bool_simpl. rewrite Hby. destruct (dict_get _ (field_path item)) as [r|] eqn:Er.
  - apply dict_get_elem in Er as Hin. apply list_elem_of_fmap in Hin as (? & [= Hp ->] & Hin).
    destruct (negb (same_scalar (current_value x) (desired_value item)) ||
              negb (same_scalar (desired_value x) (current_value item))) eqn:Ei; cbn.
    + split; [done|]. intros [[_ _ _ _ _ (r & Hr & Hrp & E1 & E2)] _].
      assert (r = x) as ->.
      { eapply NoDup_fmap_fst_eq; [exact Hnd|exact Hr|exact Hin|congruence]. }
      by rewrite E1, E2 in Ei.
    + bool_simpl. destruct (action_allows_replacement action item) as [[]|e] eqn:Ea; cbn.
      * split; [|tauto]. intros ?. split; [|done]. constructor; try done. by exists x.
      * split; [done|]. intros [[] _]. congruence.
      * split; [done|]. intros [[] _]. congruence.
  - cbn. split; [done|]. intros [[_ _ _ _ _ (r & Hr & Hrp & _)] _].
    apply dict_get_None in Er. destruct Er. rewrite <- list_fmap_compose, <- Hrp.
    apply list_elem_of_fmap. by exists r.
Qed.

(** What validation establishes of a whole plan. *)
Record approved_plan (plan : ManifestScalarPatchPlan) : Prop := {
  pl_action : action_type plan ∈ ACTION_TYPES;
  pl_type : source_type plan = RAW_YAML;
  pl_digest : is_sha256_digest (source_manifest_sha256 plan) = true;
  pl_base : is_git_sha (expected_base_sha plan) = true;
  pl_path : safe_manifest_path (manifest_path plan) = true;
  pl_count : (1 <= length (replacements plan) <= 4)%nat;
  pl_rollback_count : length (rollback_replacements plan) = length (replacements plan);
  pl_targets : NoDup (field_path <$> replacements plan);
  pl_rollback_targets : NoDup (field_path <$> rollback_replacements plan);
  pl_items : Forall (approved (action_type plan) (rollback_replacements plan)) (replacements plan);
}.

Lemma by_path_nodup items :
  NoDup (field_path <$> items) -> length (by_path items) = length items.
Proof.
  unfold by_path. intros Hnd.
  assert (forall acc, NoDup (acc.*1 ++ (field_path <$> items)) ->
    length (fold_left (fun acc item => dict_set acc (field_path item) item) items acc)
    = (length acc + length items)%nat) as Hgen; [|by apply (Hgen [])].
  clear Hnd. induction items as [|x items IH]; intros acc Hnd; cbn in *; [lia|].
  rewrite dict_set_fresh by (apply NoDup_app in Hnd; set_solver).
  rewrite IH; [rewrite length_app; cbn; lia|]. by rewrite fmap_app, <- app_assoc.
Qed.

Lemma validate_scalar_patch_plan_spec plan :
  validate_scalar_patch_plan plan = Ok tt <-> approved_plan plan.
Proof.
  unfold validate_scalar_patch_plan. split.
  - intros H. apply bind_Ok in H as ([] & H1%raise_if_Ok & H).
    apply bind_Ok in H as ([] & H2%raise_if_Ok & H).
    apply bind_Ok in H as ([] & H3%raise_if_Ok & H). bool_simpl.
    repeat match goal with E : Nat.leb _ _ = true |- _ => apply Nat.leb_le in E
      | E : Nat.eqb _ _ = true |- _ => apply Nat.eqb_eq in E
      | E : no_dup _ = true |- _ => apply no_dup_spec in E
      | E : str_eqb _ _ = true |- _ => apply str_eqb_eq in E end.
    constructor; try done. { by apply by_path_full. } by apply check_replacements_approved.
  - intros []. pose proof (by_path_nodup _ pl_rollback_targets0) as Hlen.
    rewrite bool_decide_true, pl_type0, str_eqb_refl, pl_digest0, pl_base0, pl_path0,
      pl_rollback_count0, Nat.eqb_refl by done.
    rewrite (proj2 (Nat.leb_le 1 _)), (proj2 (Nat.leb_le _ 4)) by lia. cbn [negb orb andb].
    rewrite (proj2 (no_dup_spec _)) by done. cbn [negb raise_if mbind res_bind].
    rewrite Hlen, pl_rollback_count0, Nat.eqb_refl. cbn [negb raise_if mbind res_bind].
    by apply check_replacements_approved.
Qed.

(** The inverses of a plan pair the two lists up. *)
Lemma inverse_perm plan :
  approved_plan plan ->
  exists rollback, rollback ≡ₚ rollback_replacements plan /\
    Forall2 inverse_of (replacements plan) rollback.
Proof.
  intros []. assert (exists rb, Forall2 inverse_of (replacements plan) rb /\
                       (forall r, r ∈ rb -> r ∈ rollback_replacements plan)) as (rb & HF & Hin).
  { clear - pl_items0. induction pl_items0 as [|item items [_ _ _ _ _ (r & ? & ?)] _ (rb & ? & ?)].
    - exists []. split; [constructor|set_solver].
    - exists (r :: rb). split; [by constructor|set_solver]. }
  exists rb. split; [|done].
  assert (field_path <$> rb = field_path <$> replacements plan) as Hp.
  { clear -HF. induction HF as [|? ? ? ? [? _]]; cbn; congruence. }
  apply submseteq_length_Permutation.
  - apply NoDup_submseteq; [|done]. apply (NoDup_fmap_1 field_path). by rewrite Hp.
  - apply (f_equal length) in Hp. rewrite !length_fmap in Hp. lia.
Qed.

(** ** Properties *)

(** C5: a scalar plan passes validation exactly when its action, digests and
    path are well formed, it has one to four distinct targets, every change is
    a real change of a scalar that the action's allowlist permits, and the
    rollback is, up to order, the list of the exact inverses. *)
Theorem validated_plan_iff plan :
  validate_scalar_patch_plan plan = Ok tt <->
  approved_plan plan /\
  exists rollback, rollback ≡ₚ rollback_replacements plan /\
    Forall2 inverse_of (replacements plan) rollback.
Proof.
  rewrite validate_scalar_patch_plan_spec. split; [|tauto].
  intros Hp. split; [done|]. by apply inverse_perm.
Qed.

Lemma int_between_spec lo current desired hi :
  int_between lo current desired hi = true <->
  exists c d, current = VInt c /\ desired = VInt d /\ lo <= c /\ c < d /\ d <= hi.
Proof.
  split.
  - unfold int_between. intros H. destruct current; try done. destruct desired; try done.
    bool_simpl. eauto 8.
  - intros (c & d & -> & -> & ? & ? & ?). cbn.
    rewrite (proj2 (Z.leb_le lo c)), (proj2 (Z.ltb_lt c d)), (proj2 (Z.leb_le d hi)) by lia. done.
Qed.

(** a validated [replica_scale] plan raises the replica count of one
    workload, within 1 to 10, and does nothing else. *)
Theorem replica_scale_only_raises plan :
  validate_scalar_patch_plan plan = Ok tt -> action_type plan = "replica_scale" ->
  exists c d, replacements plan =
      [{| field_path := "spec.replicas"; current_value := VInt c; desired_value := VInt d |}] /\
    rollback_replacements plan =
      [{| field_path := "spec.replicas"; current_value := VInt d; desired_value := VInt c |}] /\
    1 <= c /\ c < d /\ d <= 10.
Proof.
  intros [] %validate_scalar_patch_plan_spec Hact. rewrite Hact in pl_items0.
  assert (forall item, item ∈ replacements plan -> exists c d,
      item = {| field_path := "spec.replicas"; current_value := VInt c; desired_value := VInt d |} /\
      1 <= c /\ c < d /\ d <= 10) as Hall.
  { intros [p cv dv] Hin. rewrite Forall_forall in pl_items0. destruct (pl_items0 _ Hin).
    unfold action_allows_replacement in ap_allowed0. cbn in ap_allowed0.
    injection ap_allowed0 as E. apply andb_true_iff in E as [Ep Eb]. apply str_eqb_eq in Ep as ->.
    apply int_between_spec in Eb as (c & d & -> & -> & ? & ? & ?). by exists c, d. }
  destruct (replacements plan) as [|x [|y l]] eqn:E; cbn in *; [lia| |].
  - destruct (Hall x ltac:(set_solver)) as (c & d & -> & ? & ? & ?). exists c, d.
    destruct (rollback_replacements plan) as [|r [|? ?]] eqn:Er; cbn in *; try lia.
    apply Forall_cons in pl_items0 as [[_ _ _ _ _ (r' & Hr' & Hp & Hcv & Hdv)] _].
    apply list_elem_of_singleton in Hr' as ->. destruct r as [p cv dv]; cbn in *. subst p.
    unfold same_scalar in Hcv, Hdv. destruct cv, dv; cbn in Hcv, Hdv; try done. bool_simpl. by subst.
  - destruct (Hall x ltac:(set_solver)) as (? & ? & -> & _).
    destruct (Hall y ltac:(set_solver)) as (? & ? & -> & _). cbn in pl_targets0.
    apply NoDup_cons in pl_targets0 as [Hn _]. destruct Hn. set_solver.
Qed.

Lemma memory_increases_spec c d :
  memory_increases_within_cap c d = Ok true ->
  exists cb db, memory_quantity_bytes c = Ok (Some cb) /\ memory_quantity_bytes d = Ok (Some db) /\
    cb < db /\ db <= 4 * 1024 ^ 3.
Proof.
  unfold memory_increases_within_cap. intros H. res_inv.
  destruct x, x0; simplify_eq; bool_simpl; eauto 8.
Qed.

(** every change of a validated [oom_memory] plan raises a memory request
    or limit, both sides readable as byte counts and the new one at most 4 GiB. *)
Theorem oom_memory_capped plan item :
  validate_scalar_patch_plan plan = Ok tt -> action_type plan = "oom_memory" ->
  item ∈ replacements plan ->
  (ends_with ".resources.requests.memory" (field_path item) = true \/
   ends_with ".resources.limits.memory" (field_path item) = true) /\
  exists cb db, memory_quantity_bytes (current_value item) = Ok (Some cb) /\
    memory_quantity_bytes (desired_value item) = Ok (Some db) /\ cb < db /\ db <= 4 * 1024 ^ 3.
Proof.
  intros []%validate_scalar_patch_plan_spec Hact Hin. rewrite Hact in pl_items0.
  rewrite Forall_forall in pl_items0. destruct (pl_items0 _ Hin) as [_ _ _ _ Ha _].
  unfold action_allows_replacement in Ha. cbn in Ha.
  destruct (ends_with ".resources.requests.memory" (field_path item)) eqn:E1;
    destruct (ends_with ".resources.limits.memory" (field_path item)) eqn:E2; cbn in Ha;
    try done; apply memory_increases_spec in Ha; tauto.
Qed.

(** parsing a field path loses nothing: a path that is accepted prints
    back to the same text, so distinct paths have distinct segments. *)
Theorem field_path_round_trip p q :
  field_path_segments p <> [] ->
  print_segments (field_path_segments p) = p /\
  (field_path_segments p = field_path_segments q -> p = q).
Proof. intros Hp. split; [by apply field_path_print|by apply field_path_segments_inj]. Qed.

(** ** Round trip of the instruction document *)

Lemma parse_scalar_replacement_body item :
  scalar_value (current_value item) = true -> scalar_value (desired_value item) = true ->
  parse_scalar_replacement (scalar_replacement_body item) = Ok item.
Proof.
  intros Hc Hd. by destruct item as [p [] []].
Qed.

Lemma parse_scalar_replacements_body items :
  Forall (fun item => scalar_value (current_value item) = true /\
                      scalar_value (desired_value item) = true) items ->
  parse_scalar_replacements (VList (scalar_replacement_body <$> items)) = Ok items.
Proof.
  intros HF. unfold parse_scalar_replacements. cbn [as_list raise_none mbind res_bind].
  apply mapr_Ok. induction HF as [|item items [? ?] _ IH]; constructor; [|done].
  by apply parse_scalar_replacement_body.
Qed.

Lemma scalar_yaml_plain v : scalar_value v = true -> yaml_plain v = true.
Proof. by destruct v. Qed.

Lemma scalar_bodies_plain items :
  Forall (fun item => scalar_value (current_value item) = true /\
                      scalar_value (desired_value item) = true) items ->
  yaml_plain (VList (scalar_replacement_body <$> items)) = true.
Proof.
  intros HF. cbn. induction HF as [|item items [Hc Hd] _ IH]; cbn; [done|].
  change (no_dup _) with true. cbn. rewrite (scalar_yaml_plain _ Hc), (scalar_yaml_plain _ Hd). done.
Qed.

Lemma same_scalar_type a b : same_scalar a b = true -> scalar_value a = scalar_value b.
Proof. unfold same_scalar. intros [E _]%andb_true_iff. by destruct a, b. Qed.

Lemma approved_plan_scalars plan :
  approved_plan plan ->
  Forall (fun item => scalar_value (current_value item) = true /\
                      scalar_value (desired_value item) = true)
    (replacements plan ++ rollback_replacements plan).
Proof.
  intros Hp. apply Forall_app. pose proof (inverse_perm plan Hp) as (rb & Hperm & HF).
  destruct Hp. split.
  - eapply Forall_impl; [exact pl_items0|]. by intros item [].
  - rewrite <- Hperm. clear -HF pl_items0. revert pl_items0.
    induction HF as [|item r items rb (_ & E1 & E2) _ IH]; [constructor|].
    intros [[] HF']%Forall_cons. constructor; [|by apply IH].
    rewrite (same_scalar_type _ _ E1), (same_scalar_type _ _ E2). done.
Qed.

Lemma scalar_patch_document_read `{YamlRoundTrip} plan content :
  scalar_patch_content plan = Ok content -> parse_scalar_patch_plan content = Ok (Some plan).
Proof.
  unfold scalar_patch_content, parse_scalar_patch_plan. intros ([] & Hv & [= <-])%bind_Ok.
  pose proof (proj1 (validate_scalar_patch_plan_spec plan) Hv) as Hp.
  apply approved_plan_scalars in Hp as [Hr Hb]%Forall_app.
  rewrite yaml_load_dump.
  - cbn [catch mbind res_bind scalar_patch_document].
    change (py_eqb _ (VStr SCALAR_PATCH_KIND)) with true.
    change (py_eqb _ (VStr SCALAR_PATCH_API_VERSION)) with true.
    change (keys_are _ ["apiVersion"; "kind"; "spec"]) with true.
    cbn [negb orb raise_if].
    change (as_dict (get _ "spec")) with (Some (scalar_patch_spec plan)).
    cbn [raise_none mbind res_bind].
    change (keys_are _ (SCALAR_TEXT_KEYS ++ ["replacements"; "rollbackReplacements"])) with true.
    cbn [negb raise_if mbind res_bind].
    change (get (scalar_patch_spec plan) "replacements")
      with (VList (scalar_replacement_body <$> replacements plan)).
    change (get (scalar_patch_spec plan) "rollbackReplacements")
      with (VList (scalar_replacement_body <$> rollback_replacements plan)).
    rewrite !parse_scalar_replacements_body by done. cbn [mbind res_bind].
    change (existsb _ SCALAR_TEXT_KEYS) with false. cbn [raise_if mbind res_bind].
    destruct plan as [a t d b m rs rb].
    match goal with |- context [validate_scalar_patch_plan ?p] =>
      change p with (Build_ManifestScalarPatchPlan a t d b m rs rb) end.
    by rewrite Hv.
  - cbn [yaml_plain scalar_patch_document].
    pose proof (scalar_bodies_plain _ Hr) as P1. pose proof (scalar_bodies_plain _ Hb) as P2.
    cbn [yaml_plain] in P1, P2. cbn. rewrite P1, P2. done.
Qed.

(** the instruction document of a scalar plan carries the whole plan:
    whatever [scalar_patch_content] writes, [parse_scalar_patch_plan] reads
    back as the same plan. *)
Theorem scalar_patch_round_trip `{YamlRoundTrip} plan content :
  scalar_patch_content plan = Ok content -> parse_scalar_patch_plan content = Ok (Some plan).
Proof. apply scalar_patch_document_read. Qed.

(** ** Witnesses *)

Definition sample_hex : string := "0123456789abcdef0123456789abcdef0123456789abcdef0123456789abcdef".

Definition one_change_plan (action path : string) (c d : pyval) : ManifestScalarPatchPlan :=
  {| action_type := action; source_type := RAW_YAML;
     source_manifest_sha256 := "sha256:" +:+ sample_hex; expected_base_sha := sample_hex;
     manifest_path := "apps/api.yaml";
     replacements := [{| field_path := path; current_value := c; desired_value := d |}];
     rollback_replacements := [{| field_path := path; current_value := d; desired_value := c |}] |}.

Definition sample_scale_plan : ManifestScalarPatchPlan :=
  one_change_plan "replica_scale" "spec.replicas" (VInt 1) (VInt 3).
Definition sample_memory_plan : ManifestScalarPatchPlan :=
  one_change_plan "oom_memory" "spec.template.spec.containers[name=api].resources.limits.memory"
    (VStr "256Mi") (VStr "1Gi").

Lemma replica_scale_only_raises_witness :
  exists c d, replacements sample_scale_plan =
    [{| field_path := "spec.replicas"; current_value := VInt c; desired_value := VInt d |}] /\
    rollback_replacements sample_scale_plan =
    [{| field_path := "spec.replicas"; current_value := VInt d; desired_value := VInt c |}] /\
    1 <= c /\ c < d /\ d <= 10.
Proof. apply (replica_scale_only_raises sample_scale_plan); vm_compute; reflexivity. Defined.

Lemma oom_memory_capped_witness :
  exists cb db, memory_quantity_bytes (VStr "256Mi") = Ok (Some cb) /\
    memory_quantity_bytes (VStr "1Gi") = Ok (Some db) /\ cb < db /\ db <= 4 * 1024 ^ 3.
Proof.
  refine (proj2 (oom_memory_capped sample_memory_plan
    {| field_path := "spec.template.spec.containers[name=api].resources.limits.memory";
       current_value := VStr "256Mi"; desired_value := VStr "1Gi" |} _ _ _)).
  - vm_compute; reflexivity.
  - reflexivity.
  - apply elem_of_cons; left; reflexivity.
Defined.

Lemma field_path_round_trip_witness :
  print_segments (field_path_segments "spec.containers[name=a.b].image")
  = "spec.containers[name=a.b].image".
Proof.
  apply (field_path_round_trip "spec.containers[name=a.b].image" ""). vm_compute; discriminate.
Defined.

Lemma scalar_patch_round_trip_witness :
  @parse_scalar_patch_plan Demo.coded_yaml
    (@yaml_safe_dump Demo.coded_yaml (scalar_patch_document sample_scale_plan))
  = Ok (Some sample_scale_plan).
Proof.
  apply (@scalar_patch_round_trip Demo.coded_yaml Demo.coded_yaml_round_trip).
  vm_compute; reflexivity.
Defined.

End SourcePatch.
