(* ===== verification/ManifestEditor.v ===== *)
(** * The manifest editor

    [src/src/domains/manifest_editor/validation.py]: the validation of a YAML
    edit written in the browser.  An edit is accepted only when it keeps the
    set of resources, shows no secret and leaves the server-owned fields
    alone. *)
From S2P Require Import Prelude PyStr PyFloat PyVal Libs Demo.

Module ManifestEditor.

(** ** Data *)

Definition MAX_MANIFEST_BYTES : nat := 1048576.
Definition MAX_DOCUMENTS : nat := 100.
Definition SERVER_OWNED_METADATA : list string :=
  ["creationTimestamp"; "deletionGracePeriodSeconds"; "deletionTimestamp"; "generation";
   "managedFields"; "resourceVersion"; "selfLink"; "uid"].
Definition SAFE_REFERENCE_KEYS : list string :=
  ["secretname"; "secretkeyref"; "configmapkeyref"; "valuefrom"].
Definition SENSITIVE_GATE_PREFIXES : list string :=
  ["allow_"; "disable_"; "enable_"; "require_"; "use_"; "validate_"; "verify_"].
Definition BOOLEAN_GATE_LITERALS : list string :=
  ["0"; "1"; "false"; "no"; "off"; "on"; "true"; "yes"].

Record ManifestIdentity := Identity {
  api_version : string;
  kind : string;
  namespace : option string;
  name : string;
}.

#[global] Instance identity_eq_dec : EqDecision ManifestIdentity.
Proof. solve_decision. Defined.
#[global] Instance identity_countable : Countable ManifestIdentity.
Proof.
  refine (inj_countable' (fun i => (api_version i, kind i, namespace i, name i))
            (fun t => Identity t.1.1.1 t.1.1.2 t.1.2 t.2) _). by intros [].
Defined.

Record ManifestEditValidation := {
  valid : bool;
  changed : bool;
  source_sha256 : string;
  desired_sha256 : string;
  diff : string;
  errors : list string;
  warnings : list string;
}.

(** ** Regular expressions *)

Definition lower_char (c : ascii) : ascii :=
  if is_upper c then ascii_of_N (code c + 32) else c.
Fixpoint lower (s : string) : string :=
  match s with EmptyString => "" | String c s => String (lower_char c) (lower s) end.

(** The alternatives of [SENSITIVE_NAME], each [[_-]?] spelled out. *)
Definition SENSITIVE_WORDS : list string :=
  ["password"; "passwd"; "token"; "apikey"; "api_key"; "api-key";
   "accesskey"; "access_key"; "access-key"; "secret";
   "privatekey"; "private_key"; "private-key";
   "clientsecret"; "client_secret"; "client-secret"].

(** [(?:$|[_-])]: [$] also matches before a final newline. *)
Definition word_ends (rest : string) : bool :=
  match rest with
  | EmptyString => true
  | String c t => char_in c "_-" || (bool_decide (c = "010"%char) && is_empty t)
  end.

Definition sensitive_word_at (s : string) : bool :=
  existsb (fun w => starts_with w s && word_ends (str_drop (str_len w) s)) SENSITIVE_WORDS.

(** The search, where [start] says that a word may begin here. *)
Fixpoint sensitive_search (start : bool) (s : string) : bool :=
  (start && sensitive_word_at s) ||
  match s with
  | EmptyString => false
  | String c t => sensitive_search (char_in c "_-") t
  end.

Definition SENSITIVE_NAME (s : string) : bool := sensitive_search true (lower s).

(** [SENSITIVE_KEY.search], on a text of lower-case letters and digits. *)
Definition SENSITIVE_KEY (s : string) : bool :=
  existsb (fun w => ends_with w s)
    ["password"; "passwd"; "token"; "apikey"; "accesskey"; "secretkey"; "privatekey";
     "clientsecret"].

(** [re.sub(r"[^a-z0-9]", "", s)] *)
Definition only_lower_alnum (s : string) : string :=
  unchars (keep (fun c => is_digit c || is_lower c) (chars s)).

(** ** Identities *)

Definition manifest_identity (resource : dict) : option ManifestIdentity :=
  match get resource "metadata" with
  | VDict metadata =>
      match get resource "apiVersion", get resource "kind", get metadata "name" with
      | VStr a, VStr k, VStr n =>
          if is_empty (strip a) || is_empty (strip k) || is_empty (strip n) then None
          else match get metadata "namespace" with
               | VNone => Some (Identity a k None n)
               | VStr ns => Some (Identity a k (Some ns) n)
               | _ => None
               end
      | _, _, _ => None
      end
  | _ => None
  end.

Definition selected_identity_present (selected : ManifestIdentity) (identities : gset ManifestIdentity)
    : bool :=
  existsb (fun identity =>
      str_eqb (api_version identity) (api_version selected)
      && str_eqb (casefold (kind identity)) (casefold (kind selected))
      && str_eqb (name identity) (name selected)
      && bool_decide (namespace identity ∈ [namespace selected; None]))
    (elements identities).

Section Editor.
Context `{YamlLib} `{ReprLib} `{Sha256}.

(** [difflib.unified_diff] of the two texts, joined. *)
Context (unified_diff : string -> string -> string).

(** [str(v or "")] *)
Definition str_or_empty (v : pyval) : string := if truthy v then py_str v else "".

Definition flattened_resources (document : pyval) : list dict :=
  match document with
  | VDict d =>
      if negb (str_eqb (str_or_empty (get d "kind")) "List") then [d]
      else match get d "items" with
           | VList items => omap as_dict items
           | _ => []
           end
  | _ => []
  end.

(** The resources of all documents, in order. *)
Definition resources (documents : list pyval) : list dict :=
  flat_map flattened_resources documents.

Definition unnamed_error : string := "every YAML document must be a named Kubernetes resource".
Definition duplicate_error : string := "manifest contains duplicate Kubernetes resource identities".

Definition manifest_identities (documents : list pyval) : gset ManifestIdentity * list string :=
  let identities := omap manifest_identity (resources documents) in
  let unnamed := keep (fun r => bool_decide (manifest_identity r = None)) (resources documents) in
  let errors := (fun _ => unnamed_error) <$> unnamed in
  (list_to_set identities, errors ++ (if no_dup identities then [] else [duplicate_error])).

(** ** Secrets *)

Definition is_sensitive_gate_flag (name : string) (value : pyval) : bool :=
  let normalized_name := replace_char "-" "_" (casefold (strip name)) in
  if negb (existsb (fun p => starts_with p normalized_name) SENSITIVE_GATE_PREFIXES) then false
  else match value with
       | VBool _ => true
       | VInt z => (z =? 0) || (z =? 1)
       | VStr s => bool_decide (casefold (strip s) ∈ BOOLEAN_GATE_LITERALS)
       | _ => false
       end.

(** [v in (None, "")] *)
Definition none_or_empty (v : pyval) : bool := py_eqb v VNone || py_eqb v (VStr "").

(** An environment entry that spells a secret out. *)
Definition sensitive_env (d : dict) : bool :=
  match get d "name" with
  | VStr env_name =>
      SENSITIVE_NAME env_name && has_key d "value"
      && negb (none_or_empty (get d "value"))
      && negb (is_sensitive_gate_flag env_name (get d "value"))
  | _ => false
  end.

(** A secret-like key with a literal. *)
Definition sensitive_entry (key : string) (child : pyval) : bool :=
  let normalized := only_lower_alnum (casefold key) in
  negb (bool_decide (normalized ∈ SAFE_REFERENCE_KEYS))
  && SENSITIVE_KEY normalized
  && negb (none_or_empty child)
  && negb (is_mapping child || is_list child).

Fixpoint contains_sensitive_literal (value : pyval) : bool :=
  match value with
  | VDict d =>
      sensitive_env d
      || existsb (fun kv => sensitive_entry kv.1 kv.2 || contains_sensitive_literal kv.2) d
  | VList l => existsb contains_sensitive_literal l
  | _ => false
  end.

Definition secret_kind_error : string := "Secret resources cannot be displayed or edited".
Definition secret_literal_error : string :=
  "manifest contains a secret-like literal and cannot be displayed or edited".

Definition is_secret_kind (resource : dict) : bool :=
  str_eqb (casefold (str_or_empty (get resource "kind"))) "secret".

(** The nested loops return at the first offending resource. *)
Fixpoint first_secret_error (resources : list dict) : list string :=
  match resources with
  | [] => []
  | resource :: resources =>
      if is_secret_kind resource then [secret_kind_error]
      else if contains_sensitive_literal (VDict resource) then [secret_literal_error]
      else first_secret_error resources
  end.
Definition secret_safety_errors (documents : list pyval) : list string :=
  first_secret_error (resources documents).

(** ** Server-owned fields *)

Fixpoint identity_get {A} (m : list (ManifestIdentity * A)) (i : ManifestIdentity) : option A :=
  match m with
  | [] => None
  | (j, x) :: m => if bool_decide (j = i) then Some x else identity_get m i
  end.
Fixpoint identity_set {A} (m : list (ManifestIdentity * A)) (i : ManifestIdentity) (x : A)
    : list (ManifestIdentity * A) :=
  match m with
  | [] => [(i, x)]
  | (j, y) :: m => if bool_decide (j = i) then (j, x) :: m else (j, y) :: identity_set m i x
  end.

Definition resource_map (documents : list pyval) : list (ManifestIdentity * dict) :=
  fold_left (fun result resource =>
      match manifest_identity resource with
      | Some identity => identity_set result identity resource
      | None => result
      end) (resources documents) [].

Definition status_error : string :=
  "status is server-owned and cannot be changed through GitOps".
Definition metadata_error : string :=
  "server-owned metadata cannot be changed through GitOps".

Definition metadata_differs (source_resource desired_resource : dict) : bool :=
  match get source_resource "metadata", get desired_resource "metadata" with
  | VDict sm, VDict dm =>
      existsb (fun field => negb (py_eqb (get sm field) (get dm field))) SERVER_OWNED_METADATA
  | _, _ => false
  end.

Fixpoint first_owned_error (source desired : list (ManifestIdentity * dict)) : list string :=
  match source with
  | [] => []
  | (identity, source_resource) :: source =>
      match identity_get desired identity with
      | None => first_owned_error source desired
      | Some desired_resource =>
          if negb (py_eqb (get source_resource "status") (get desired_resource "status"))
          then [status_error]
          else if metadata_differs source_resource desired_resource then [metadata_error]
          else first_owned_error source desired
      end
  end.
Definition server_owned_field_errors (source desired : list pyval) : list string :=
  first_owned_error (resource_map source) (resource_map desired).

(** ** Parsing *)

(** [list(yaml.scan(content))] *)
Definition scan_all (content : string) : res (list token) :=
  let '(tokens, fails) := yaml_scan content in if fails then Err YAMLError else Ok tokens.

Definition is_anchor (t : token) : bool := match t with OtherToken => false | _ => true end.

(** Errors, or the documents.  An exception that is not a [YAMLError] escapes. *)
Definition parse_documents (content label : string) : res (list string + list pyval) :=
  if Nat.ltb MAX_MANIFEST_BYTES (str_len (utf8_encode content)) then
    Ok (inl [label +:+ " manifest exceeds the 1 MiB editor limit"])
  else if contains (String "000" "") content then
    Ok (inl [label +:+ " manifest contains an invalid NUL byte"])
  else match scan_all content with
  | Err e => if is_YAMLError e then Ok (inl [label +:+ " manifest is not valid YAML"]) else Err e
  | Ok tokens =>
      if existsb is_anchor tokens then
        Ok (inl [label +:+ " manifest anchors and aliases are not supported by the safe editor"])
      else match yaml_safe_load_all content with
      | Err e => if is_YAMLError e then Ok (inl [label +:+ " manifest is not valid YAML"]) else Err e
      | Ok documents =>
          let nonempty := keep (fun d => negb (is_none d)) documents in
          if bool_decide (nonempty = []) then
            Ok (inl [label +:+ " manifest contains no Kubernetes resources"])
          else if Nat.ltb MAX_DOCUMENTS (length nonempty) then
            Ok (inl [label +:+ " manifest exceeds the document limit"])
          else Ok (inr nonempty)
      end
  end.

(** ** Validation *)

Definition manifest_sha256 (content : string) : string :=
  "sha256:" +:+ sha256_hexdigest (utf8_encode content).

Definition not_declared_error : string :=
  "selected live resource is not declared by this manifest source".
Definition identities_error : string :=
  "resource identities cannot be added, removed, or renamed".
Definition no_changes_error : string := "manifest has no changes".

Definition err_when (b : bool) (e : string) : list string := if b then [e] else [].

Definition validate_manifest_source (source : string) (selected : ManifestIdentity)
    : res (list string) :=
  parsed ← parse_documents source "source";
  Ok match parsed with
     | inl errors => errors
     | inr documents =>
         let '(identities, identity_errors) := manifest_identities documents in
         secret_safety_errors documents ++ identity_errors
         ++ err_when (negb (selected_identity_present selected identities)) not_declared_error
     end.

(** The errors of two parsed sources, without the final "no changes". *)
Definition edit_errors (source desired : list string + list pyval) (selected : ManifestIdentity)
    : list string :=
  let parse_errors (p : list string + list pyval) := match p with inl e => e | inr _ => [] end in
  let secrets (p : list string + list pyval) :=
    match p with inl _ => [] | inr docs => secret_safety_errors docs end in
  let errors := parse_errors source ++ parse_errors desired ++ secrets source ++ secrets desired in
  match source, desired with
  | inr source_documents, inr desired_documents =>
      if bool_decide (errors = []) then
        let '(source_identities, source_identity_errors) := manifest_identities source_documents in
        let '(desired_identities, desired_identity_errors) :=
          manifest_identities desired_documents in
        errors ++ source_identity_errors ++ desired_identity_errors
        ++ err_when (negb (bool_decide (source_identities = desired_identities))) identities_error
        ++ err_when (negb (selected_identity_present selected source_identities))
             not_declared_error
        ++ server_owned_field_errors source_documents desired_documents
      else errors
  | _, _ => errors
  end.

Definition validate_manifest_edit (source desired : string) (selected : ManifestIdentity)
    : res ManifestEditValidation :=
  parsed_source ← parse_documents source "source";
  parsed_desired ← parse_documents desired "edited";
  let changed := negb (str_eqb source desired) in
  let errors := edit_errors parsed_source parsed_desired selected
                ++ err_when (negb changed) no_changes_error in
  let safe_to_render := negb (existsb (fun e => contains "secret" (casefold e)) errors) in
  let rendered_diff := if safe_to_render && changed then unified_diff source desired else "" in
  Ok {| valid := bool_decide (errors = []);
        changed := changed;
        source_sha256 := manifest_sha256 source;
        desired_sha256 := manifest_sha256 desired;
        diff := if bool_decide (errors = []) then rendered_diff else "";
        errors := unique_first errors;
        warnings := ["Safe PR 또는 직접 적용을 선택하기 전에 변경 diff와 영향을 확인하세요."] |}.

(** ** Reference notions for the theorems *)

(** [sub_value w v]: [w] occurs in [v]. *)
Inductive sub_value : pyval -> pyval -> Prop :=
  | sub_refl v : sub_value v v
  | sub_list w x l : x ∈ l -> sub_value w x -> sub_value w (VList l)
  | sub_dict w k x d : (k, x) ∈ d -> sub_value w x -> sub_value w (VDict d).

(** Somewhere in [v] a mapping spells a secret out: as an environment entry
    or under a secret-like key. *)
Definition exposes_secret (v : pyval) : Prop :=
  exists d, sub_value (VDict d) v /\
    (sensitive_env d = true \/ exists k x, (k, x) ∈ d /\ sensitive_entry k x = true).

(** No resource of the documents is a Secret or exposes one. *)
Definition secret_free (documents : list pyval) : Prop :=
  forall r, r ∈ resources documents -> is_secret_kind r = false /\ ~ exposes_secret (VDict r).

(** Every resource has an identity, and no two have the same. *)
Definition named_once (documents : list pyval) (ids : list ManifestIdentity) : Prop :=
  manifest_identity <$> resources documents = Some <$> ids /\ NoDup ids.

(** Two versions of a resource with the same server-owned fields. *)
Definition owned_agree (r r' : dict) : Prop :=
  py_eqb (get r "status") (get r' "status") = true /\
  forall field, field ∈ SERVER_OWNED_METADATA ->
    py_eqb (get (mapping (get r "metadata")) field)
           (get (mapping (get r' "metadata")) field) = true.

(** ** Lemmas: secrets *)

Lemma contains_sensitive_literal_sub v w :
  sub_value w v -> contains_sensitive_literal w = true -> contains_sensitive_literal v = true.
Proof.
  induction 1 as [|w x l Hin _ IH|w k x d Hin _ IH]; [done|..]; intros Hw; cbn.
  - apply existsb_elem. eauto.
  - apply orb_true_iff. right. apply existsb_elem. exists (k, x). split; [done|]. cbn.
    rewrite IH by done. apply orb_true_r.
Qed.

Lemma contains_sensitive_literal_spec v :
  contains_sensitive_literal v = true <-> exposes_secret v.
Proof.
  split.
  - induction v as [|b|z|f|s|t|l IH|d IH] using pyval_nested_ind; cbn; try done.
    + intros (x & Hin & Hx)%existsb_elem. rewrite Forall_forall in IH.
      destruct (IH x Hin Hx) as (d & Hd & Hs). exists d. split; [|done]. by eapply sub_list.
    + intros [Henv|((k & x) & Hin & Hx)%existsb_elem]%orb_true_iff.
      * exists d. split; [constructor|by left].
      * cbn in Hx. apply orb_true_iff in Hx as [Hx|Hx].
        -- exists d. split; [constructor|right; eauto].
        -- rewrite Forall_forall in IH. destruct (IH _ Hin Hx) as (e & He & Hs).
           exists e. split; [|done]. by eapply sub_dict.
  - intros (d & Hsub & Hd). eapply contains_sensitive_literal_sub; [exact Hsub|]. cbn.
    apply orb_true_iff. destruct Hd as [->|(k & x & Hin & Hx)]; [by left|right].
    apply existsb_elem. exists (k, x). split; [done|]. cbn. by rewrite Hx.
Qed.

Lemma contains_sensitive_literal_false v :
  contains_sensitive_literal v = false <-> ~ exposes_secret v.
Proof.
  rewrite <- contains_sensitive_literal_spec. symmetry. apply not_true_iff_false.
Qed.

Lemma secret_safety_errors_nil documents :
  secret_safety_errors documents = [] <-> secret_free documents.
Proof.
  unfold secret_safety_errors, secret_free.
  induction (resources documents) as [|r rs IH]; cbn [first_secret_error]; [set_solver|].
  destruct (is_secret_kind r) eqn:Hk.
  - split; [done|]. intros Hall. destruct (Hall r) as [? _]; [set_solver|congruence].
  - destruct (contains_sensitive_literal (VDict r)) eqn:Hc.
    + split; [done|]. intros Hall. destruct (Hall r) as [_ Hn]; [set_solver|].
      by apply contains_sensitive_literal_false in Hn; rewrite Hc in Hn.
    + apply contains_sensitive_literal_false in Hc. rewrite IH. set_solver.
Qed.

(** ** Lemmas: identities *)

Lemma all_identified (rs : list dict) :
  keep (fun r => bool_decide (manifest_identity r = None)) rs = [] <->
  manifest_identity <$> rs = Some <$> omap manifest_identity rs.
Proof.
  induction rs as [|r rs IH]; cbn; [done|].
  destruct (manifest_identity r) as [i|] eqn:E; cbn.
  - rewrite IH. split; [by intros ->|congruence].
  - split; [done|]. intros H2.
    assert (None ∈ Some <$> omap manifest_identity rs) as Hin by (rewrite <- H2; set_solver).
    apply list_elem_of_fmap in Hin as (? & ? & ?). done.
Qed.

Lemma identified_inj (rs : list dict) (ids : list ManifestIdentity) :
  manifest_identity <$> rs = Some <$> ids -> omap manifest_identity rs = ids.
Proof.
  revert ids. induction rs as [|r rs IH]; intros [|i ids]; cbn; try done.
  intros [= E ?]. rewrite E. f_equal. by apply IH.
Qed.

Lemma manifest_identities_clean documents ids :
  manifest_identities documents = (ids, []) ->
  exists l, named_once documents l /\ ids = list_to_set l.
Proof.
  unfold manifest_identities, named_once. intros [= <- [Hu Hd]%app_eq_nil].
  apply fmap_nil_inv in Hu. apply all_identified in Hu.
  destruct (no_dup _) eqn:E; [|done]. apply no_dup_spec in E. eauto.
Qed.

Lemma manifest_identities_named documents l :
  named_once documents l -> manifest_identities documents = (list_to_set l, []).
Proof.
  intros [Hl Hnd]. unfold manifest_identities. pose proof (identified_inj _ _ Hl) as <-.
  apply all_identified in Hl. rewrite Hl. cbn. apply no_dup_spec in Hnd. by rewrite Hnd.
Qed.

(** ** Lemmas: server-owned fields *)

Lemma identity_get_NoDup {A} (m : list (ManifestIdentity * A)) i x :
  NoDup m.*1 -> identity_get m i = Some x <-> (i, x) ∈ m.
Proof.
  induction m as [|[j y] m IH]; cbn; [set_solver|]. intros [Hj Hnd]%NoDup_cons.
  destruct (bool_decide (j = i)) eqn:E; bool_simpl.
  - subst j. split; [intros [= ->]; set_solver|].
    intros [[= ->]|Hin]%elem_of_cons; [done|].
    destruct Hj. apply list_elem_of_fmap. by exists (i, x).
  - rewrite IH, elem_of_cons by done. split; [tauto|]. intros [[= -> ->]|?]; done.
Qed.

Lemma identity_set_fresh {A} (m : list (ManifestIdentity * A)) i x :
  i ∉ m.*1 -> identity_set m i x = m ++ [(i, x)].
Proof.
  induction m as [|[j y] m IH]; cbn; [done|]. intros [Hne Hi]%not_elem_of_cons.
  rewrite bool_decide_false by done. by rewrite IH.
Qed.

Lemma resource_map_named (rs : list dict) (ids : list ManifestIdentity) acc :
  manifest_identity <$> rs = Some <$> ids -> NoDup (acc.*1 ++ ids) ->
  fold_left (fun result resource =>
      match manifest_identity resource with
      | Some identity => identity_set result identity resource
      | None => result
      end) rs acc = acc ++ zip ids rs.
Proof.
  revert ids acc. induction rs as [|r rs IH]; intros [|i ids] acc; try done; cbn.
  - intros _ _. by rewrite app_nil_r.
  - intros [= E Hids] Hnd. rewrite E. rewrite identity_set_fresh.
    + rewrite (IH ids) by (try done; rewrite fmap_app; cbn; by rewrite <- app_assoc).
      by rewrite <- app_assoc.
    + apply NoDup_app in Hnd as (_ & Hd & _). set_solver.
Qed.

Lemma named_pairs documents ids i r :
  named_once documents ids ->
  (i, r) ∈ zip ids (resources documents) <->
  r ∈ resources documents /\ manifest_identity r = Some i.
Proof.
  intros [Hids _]. revert ids Hids.
  induction (resources documents) as [|r0 rs IH]; intros [|i0 ids]; cbn; try done; [set_solver|].
  intros [= E Hids]. rewrite !elem_of_cons, IH by done. split.
  - intros [[= -> ->]|[? ?]]; tauto.
  - intros [[->|?] ?]; [left; congruence|tauto].
Qed.

Lemma metadata_differs_identified r r' i :
  manifest_identity r = Some i -> manifest_identity r' = Some i ->
  (py_eqb (get r "status") (get r' "status") = true /\ metadata_differs r r' = false) <->
  owned_agree r r'.
Proof.
  unfold owned_agree, metadata_differs, manifest_identity. intros Hr Hr'.
  destruct (get r "metadata") as [| | | | | | |sm]; try done.
  destruct (get r' "metadata") as [| | | | | | |dm]; try done. cbn [mapping].
  rewrite <- not_true_iff_false, existsb_elem.
  split; intros [Hs Hm]; (split; [done|]).
  - intros f Hf. destruct (py_eqb (get sm f) (get dm f)) eqn:E; [done|].
    destruct Hm. exists f. by rewrite E.
  - intros (f & Hf & Hne). by rewrite (Hm f Hf) in Hne.
Qed.

Lemma first_owned_error_nil source desired :
  first_owned_error source desired = [] <->
  forall i r r', (i, r) ∈ source -> identity_get desired i = Some r' ->
    py_eqb (get r "status") (get r' "status") = true /\ metadata_differs r r' = false.
Proof.
  induction source as [|[i r] source IH]; cbn; [set_solver|].
  destruct (identity_get desired i) as [r'|] eqn:E.
  - destruct (py_eqb (get r "status") (get r' "status")) eqn:Es; cbn.
    + destruct (metadata_differs r r') eqn:Em.
      * split; [done|]. intros Hall. specialize (Hall i r r' ltac:(set_solver) E). intuition congruence.
      * rewrite IH. split; [|set_solver].
        intros Hall j q q' [[= -> ->]|?]%elem_of_cons Hq; [|by eapply Hall].
        rewrite E in Hq. injection Hq as <-. done.
    + split; [done|]. intros Hall. specialize (Hall i r r' ltac:(set_solver) E). intuition congruence.
  - rewrite IH. split; [|set_solver].
    intros Hall j q q' [[= -> ->]|?]%elem_of_cons Hq; [congruence|by eapply Hall].
Qed.

Lemma server_owned_field_errors_nil source desired ids ids' :
  named_once source ids -> named_once desired ids' ->
  server_owned_field_errors source desired = [] <->
  forall r r', r ∈ resources source -> r' ∈ resources desired ->
    manifest_identity r = manifest_identity r' -> owned_agree r r'.
Proof.
  intros Hs Hd. unfold server_owned_field_errors, resource_map.
  rewrite (resource_map_named _ ids), (resource_map_named _ ids') by (try apply Hs; apply Hd).
  rewrite !app_nil_l, first_owned_error_nil.
  assert (forall i r', identity_get (zip ids' (resources desired)) i = Some r' <->
            r' ∈ resources desired /\ manifest_identity r' = Some i) as Hget.
  { intros i r'. rewrite identity_get_NoDup; [by apply named_pairs|].
    destruct Hd as [Hl Hnd]. rewrite fst_zip; [done|].
    apply (f_equal length) in Hl. rewrite !length_fmap in Hl. lia. }
  assert (forall r, r ∈ resources source -> exists i, manifest_identity r = Some i) as Hnamed.
  { intros r Hr. destruct Hs as [Hl _].
    assert (manifest_identity r ∈ Some <$> ids) as Hin.
    { rewrite <- Hl. apply list_elem_of_fmap. eauto. }
    apply list_elem_of_fmap in Hin as (i & ? & _). eauto. }
  split; intros Hall.
  - intros r r' Hr Hr' Heq. destruct (Hnamed r Hr) as [i Hi].
    eapply (metadata_differs_identified r r' i); [done|congruence|].
    apply (Hall i); [by apply (named_pairs _ _ _ _ Hs)|apply Hget; split; congruence].
  - intros i r r' Hr Hr'. apply (named_pairs _ _ _ _ Hs) in Hr as [Hr Hi].
    apply Hget in Hr' as [Hr' Hi']. eapply metadata_differs_identified; [done..|].
    apply Hall; congruence.
Qed.

Lemma err_when_nil b e : err_when b e = [] <-> b = false.
Proof. by destruct b. Qed.

(** What the editor accepts: two readable sources that are not the same text,
    free of secrets, whose resources are named and the same, which declare the
    selected resource and agree on the server-owned fields. *)
Definition acceptable_edit (source desired : string) (selected : ManifestIdentity) : Prop :=
  source <> desired /\
  exists old new ids ids',
    parse_documents source "source" = Ok (inr old) /\
    parse_documents desired "edited" = Ok (inr new) /\
    secret_free old /\ secret_free new /\
    named_once old ids /\ named_once new ids' /\ ids ≡ₚ ids' /\
    selected_identity_present selected (list_to_set ids) = true /\
    forall r r', r ∈ resources old -> r' ∈ resources new ->
      manifest_identity r = manifest_identity r' -> owned_agree r r'.

Lemma same_identity_sets (ids ids' : list ManifestIdentity) :
  NoDup ids -> NoDup ids' ->
  (list_to_set ids : gset ManifestIdentity) = list_to_set ids' <-> ids ≡ₚ ids'.
Proof.
  intros H1' H2'. split; [|intros Hp; by apply list_to_set_perm_L].
  intros Heq. apply NoDup_Permutation; [done..|]. intros x.
  rewrite <- !(elem_of_list_to_set (C := gset ManifestIdentity)). by rewrite Heq.
Qed.

Lemma edit_errors_parse_error source desired selected :
  edit_errors source desired selected = [] ->
  match source with inl e => e = [] | inr _ => True end /\
  match desired with inl e => e = [] | inr _ => True end.
Proof.
  unfold edit_errors. destruct source as [e|old], desired as [e'|new]; cbn; [|..|done];
    rewrite ?app_nil; tauto.
Qed.

Lemma edit_errors_documents old new selected :
  edit_errors (inr old) (inr new) selected = [] <->
  secret_free old /\ secret_free new /\
  exists ids ids', named_once old ids /\ named_once new ids' /\ ids ≡ₚ ids' /\
    selected_identity_present selected (list_to_set ids) = true /\
    forall r r', r ∈ resources old -> r' ∈ resources new ->
      manifest_identity r = manifest_identity r' -> owned_agree r r'.
Proof.
  unfold edit_errors. cbn [app]. rewrite <- !secret_safety_errors_nil. case_bool_decide as Hnil.
  2: { split; [|intros (-> & -> & _); done].
       intros Hx. by destruct Hnil. }
  apply app_nil in Hnil as [-> ->]. cbn [app]. split.
  - destruct (manifest_identities old) as [I E] eqn:Ho.
    destruct (manifest_identities new) as [I' E'] eqn:Hn.
    rewrite !app_nil, !err_when_nil, !negb_false_iff, bool_decide_eq_true.
    intros (-> & -> & -> & Hsel & Howned). split; [done|]. split; [done|].
    apply manifest_identities_clean in Ho as (ids & Hids & ->), Hn as (ids' & Hids' & Heq).
    exists ids, ids'. rewrite (same_identity_sets ids ids') in Heq by (apply Hids || apply Hids').
    rewrite (server_owned_field_errors_nil old new ids ids') in Howned by done. done.
  - intros (_ & _ & ids & ids' & Hids & Hids' & Hp & Hsel & Howned).
    rewrite (manifest_identities_named old ids), (manifest_identities_named new ids') by done.
    rewrite <- (same_identity_sets ids ids') in Hp by (apply Hids || apply Hids').
    rewrite (proj2 (server_owned_field_errors_nil old new ids ids' Hids Hids') Howned).
    rewrite Hp, bool_decide_true, <- Hp, Hsel by done. done.
Qed.

(** A parsed source never carries an empty list of errors. *)
Lemma parse_documents_errors content label errs :
  parse_documents content label = Ok (inl errs) -> errs <> [].
Proof. unfold parse_documents. intros Hp. by case_all. Qed.

(** an edit is valid exactly when it is acceptable: both texts parse,
    neither holds a Secret or a secret-like literal, the resources are named,
    unique and the same before and after, the selected one is among them, and
    no server-owned field changes. *)
Theorem edit_valid_iff source desired selected v :
  validate_manifest_edit source desired selected = Ok v ->
  valid v = true <-> acceptable_edit source desired selected.
Proof.
  unfold validate_manifest_edit, acceptable_edit. intros Hv. res_inv.
  rewrite bool_decide_eq_true, app_nil, err_when_nil, !negb_false_iff.
  unfold str_eqb. rewrite negb_true_iff, bool_decide_eq_false. split.
  - intros [Herr Hne]. split; [done|]. pose proof (edit_errors_parse_error _ _ _ Herr) as [Ho Hn].
    destruct x as [e|old]; [subst; by eapply parse_documents_errors in H2|].
    destruct x0 as [e|new]; [subst; by eapply parse_documents_errors in H3|].
    apply edit_errors_documents in Herr as (? & ? & ids & ids' & ?). exists old, new, ids, ids'.
    tauto.
  - intros (Hne & old & new & ids & ids' & Ho & Hn & Hrest). split; [|done].
    rewrite H2 in Ho. rewrite H3 in Hn. injection Ho as ->. injection Hn as ->.
    apply edit_errors_documents. destruct Hrest as (?&?&Hrest).
    split; [done|]. split; [done|]. by exists ids, ids'.
Qed.

(** a diff is only ever rendered for an acceptable edit, so no text with
    a Secret or a secret-like literal is echoed back. *)
Theorem diff_only_when_clean source desired selected v :
  validate_manifest_edit source desired selected = Ok v -> diff v <> "" ->
  exists old new, parse_documents source "source" = Ok (inr old) /\
    parse_documents desired "edited" = Ok (inr new) /\ secret_free old /\ secret_free new.
Proof.
  unfold validate_manifest_edit. intros Hv Hd. res_inv.
  destruct (bool_decide _) eqn:E; [|done]. bool_simpl. apply app_nil in E as [Herr _].
  pose proof (edit_errors_parse_error _ _ _ Herr) as [Ho Hn].
  destruct x as [e|old]; [subst; by eapply parse_documents_errors in H2|].
  destruct x0 as [e|new]; [subst; by eapply parse_documents_errors in H3|].
  apply edit_errors_documents in Herr as (? & ? & _). eauto 6.
Qed.

End Editor.

(** ** Witnesses *)

Definition sample_resource (replicas : Z) : pyval :=
  VDict [("apiVersion", VStr "apps/v1"); ("kind", VStr "Deployment");
         ("metadata", VDict [("name", VStr "api"); ("namespace", VStr "shop")]);
         ("spec", VDict [("replicas", VInt replicas)])].
Definition sample_yaml : YamlLib :=
  Demo.table_yaml [("old", ([], [sample_resource 1])); ("new", ([], [sample_resource 2]))].
Definition sample_selected : ManifestIdentity := Identity "apps/v1" "deployment" (Some "shop") "api".
Definition sample_diff (a b : string) : string := a +:+ b.
Definition sample_validation : ManifestEditValidation :=
  {| valid := true; changed := true; source_sha256 := "sha256:old"; desired_sha256 := "sha256:new";
     diff := "oldnew"; errors := [];
     warnings := ["Safe PR 또는 직접 적용을 선택하기 전에 변경 diff와 영향을 확인하세요."] |}.

Lemma edit_valid_iff_witness :
  @acceptable_edit sample_yaml Demo.plain_repr "old" "new" sample_selected.
Proof.
  apply (@edit_valid_iff sample_yaml Demo.plain_repr Demo.plain_hash sample_diff "old" "new"
    sample_selected sample_validation); vm_compute; reflexivity.
Defined.

Lemma diff_only_when_clean_witness :
  exists old new, @parse_documents sample_yaml "old" "source" = Ok (inr old) /\
    @parse_documents sample_yaml "new" "edited" = Ok (inr new) /\
    @secret_free Demo.plain_repr old /\ @secret_free Demo.plain_repr new.
Proof.
  apply (@diff_only_when_clean sample_yaml Demo.plain_repr Demo.plain_hash sample_diff "old" "new"
    sample_selected sample_validation); [vm_compute; reflexivity|].
  intros E. discriminate E.
Defined.

End ManifestEditor.
