(* ===== verification/RemediationContract.v ===== *)
(** * The remediation source contract

    [src/src/packages/contracts/remediation_source.py]: the strict reader of
    [.remediation.yaml], the repository's own declaration of the places an
    automatic remediation may change. *)
From S2P Require Import Prelude PyStr PyFloat PyVal Libs Demo.

Module RemediationContract.

(** ** Data *)

Definition REMEDIATION_SOURCE_API_VERSION : string := "remediation.kyro.dev/v1alpha1".
Definition REMEDIATION_SOURCE_KIND : string := "RemediationSource".
Definition REMEDIATION_SOURCE_CONTRACT_PATH : string := ".remediation.yaml".
Definition MAX_CONTRACT_BYTES : nat := 65536.
Definition SOURCE_TYPES : list string := ["raw-yaml"; "helm-values"; "kustomize"].
Definition PROBE_FIELD_SUFFIXES : list string :=
  ["readinessProbe.httpGet.path"; "readinessProbe.httpGet.port";
   "readinessProbe.timeoutSeconds"; "livenessProbe.httpGet.path";
   "livenessProbe.httpGet.port"; "livenessProbe.timeoutSeconds"].

(** [any(field.endswith(suffix) for suffix in PROBE_FIELD_SUFFIXES)] *)
Definition is_probe_field (field : string) : bool :=
  existsb (fun suffix => ends_with suffix field) PROBE_FIELD_SUFFIXES.
Arguments is_probe_field : simpl never.

Record RemediationSourceDeclaration := {
  manifest_path : string;
  source_type : string;
  source_path : string;
  image_path : option string;
  image_tag_path : option string;
  image_names : list string;
  replica_path : option string;
  probe_paths : list (string * string);
}.

(** [dict(self.probe_paths).get(semantic_field)]: the last entry wins. *)
Definition probe_path (source : RemediationSourceDeclaration) (semantic_field : string)
    : option string :=
  dict_get (dict_update [] (probe_paths source)) semantic_field.

Record RemediationSourceContract := { sources : list RemediationSourceDeclaration }.

Definition source_for_manifest (c : RemediationSourceContract) (path : string)
    : option RemediationSourceDeclaration :=
  the_one (keep (fun source => str_eqb (manifest_path source) path) (sources c)).

Definition contract_error (msg : string) : exn := RemediationSourceContractError msg.

(** ** Regular expressions *)

(** [[A-Za-z0-9_-]] *)
Definition is_key_char (c : ascii) : bool := is_word c || char_in c "_-".

Fixpoint span_key (s : string) : string * string :=
  match s with
  | EmptyString => ("", "")
  | String c t =>
      if is_key_char c then let '(k, r) := span_key t in (String c k, r) else ("", s)
  end.

(** [[^\[\]]+\]] up to the end of the text. *)
Fixpoint selector_text (s : string) : bool :=
  match s with
  | EmptyString => false
  | String c t =>
      negb (char_in c "[]") &&
      match t with
      | String d EmptyString => bool_decide (d = "]"%char) || selector_text t
      | _ => selector_text t
      end
  end.

(** [^[A-Za-z0-9_-]+(?:\[name=[^\[\]]+\])?$] *)
Definition FIELD_SEGMENT_PATTERN (s : string) : bool :=
  let '(k, r) := span_key s in
  nonempty k && (is_empty r || (starts_with "[name=" r && selector_text (str_drop 6 r))).

(** [^[A-Za-z0-9][A-Za-z0-9._/:+-]*[A-Za-z0-9]$] *)
Fixpoint image_name_tail (s : string) : bool :=
  match s with
  | EmptyString => false
  | String c EmptyString => is_word c
  | String c t => (is_word c || char_in c "._/:+-") && image_name_tail t
  end.
Definition IMAGE_NAME_PATTERN (s : string) : bool :=
  match s with
  | EmptyString => false
  | String c t => is_word c && image_name_tail t
  end.

(** [^[A-Za-z0-9._/-]+$] *)
Definition REPO_PATH_PATTERN (s : string) : bool :=
  nonempty s && all_chars (fun c => is_word c || char_in c "._/-") s.

(** ** Fields of an entry *)

Definition safe_repo_path (value : pyval) (field : string) : res string :=
  match value with
  | VStr s =>
      _ ← raise_if
        (is_empty s
         || negb (str_eqb (strip s) s)
         || starts_with "/" s
         || ends_with "/" s
         || starts_with "./" s
         || contains "//" s
         || contains "\" s
         || contains (String "000" "") s
         || negb (REPO_PATH_PATTERN s)
         || bool_decide (".." ∈ path_parts s)
         || existsb (fun part => bool_decide (part ∈ [""; "."])) (path_parts s))
        (contract_error ("remediation source " +:+ field +:+ " is unsafe"));
      Ok s
  | _ => Err (contract_error ("remediation source " +:+ field +:+ " must be text"))
  end.

Definition valid_field_path (value : string) : bool :=
  nonempty value && forallb FIELD_SEGMENT_PATTERN (split_char "." value).

Definition optional_field_path (value : pyval) (field : string) : res (option string) :=
  match value with
  | VNone => Ok None
  | VStr s =>
      if valid_field_path s then Ok (Some s)
      else Err (contract_error ("remediation source " +:+ field +:+ " is invalid"))
  | _ => Err (contract_error ("remediation source " +:+ field +:+ " is invalid"))
  end.

Definition parse_probe_entry (entry : string * pyval) : res (string * string) :=
  let '(semantic_field, path) := entry in
  let unsupported := contract_error "remediation source probe field is unsupported" in
  _ ← raise_if
    (negb (valid_field_path semantic_field)
     || negb (is_probe_field semantic_field))
    unsupported;
  path ← raise_none (as_str path) unsupported;
  _ ← raise_if (negb (valid_field_path path))
    (contract_error "remediation source probePaths is invalid");
  Ok (semantic_field, path).

Definition parse_probe_paths (value : pyval) : res (list (string * string)) :=
  match value with
  | VNone => Ok []
  | VDict ((_ :: _) as d) => mapr parse_probe_entry d
  | _ => Err (contract_error "remediation source probePaths is invalid")
  end.

Definition parse_image_entry (item : pyval) : res string :=
  d ← raise_none (as_dict item) (contract_error "remediation source image entry is invalid");
  _ ← raise_if (negb (keys_are d ["name"]))
    (contract_error "remediation source image entry is invalid");
  name ← raise_none (as_str (get d "name"))
    (contract_error "remediation source image name is invalid");
  _ ← raise_if (contains "@" name || negb (IMAGE_NAME_PATTERN name))
    (contract_error "remediation source image name is invalid");
  Ok name.

Definition parse_image_names (value : pyval) : res (list string) :=
  match value with
  | VNone => Ok []
  | VList ((_ :: _) as items) =>
      names ← mapr parse_image_entry items;
      _ ← raise_if (negb (no_dup names))
        (contract_error "remediation source image name is duplicated");
      Ok names
  | _ => Err (contract_error "remediation source images are invalid")
  end.

Definition COMMON_KEYS : list string := ["manifestPath"; "sourceType"; "path"].
Definition allowed_by_type (source_type : string) : list string :=
  COMMON_KEYS ++
  (if str_eqb source_type "raw-yaml" then ["imagePath"; "replicaPath"; "probePaths"]
   else if str_eqb source_type "helm-values" then ["imageTagPath"; "replicaPath"; "probePaths"]
   else ["images"]).

(** [bool(path)] of an optional path. *)
Definition declared (path : option string) : bool :=
  match path with Some s => nonempty s | None => false end.

Definition parse_source (value : pyval) : res RemediationSourceDeclaration :=
  d ← raise_none (as_dict value) (contract_error "remediation source entry is invalid");
  (* [source_type not in SOURCE_TYPES] hashes the value first *)
  _ ← raise_if (is_mapping (get d "sourceType") || is_list (get d "sourceType")) TypeError;
  source_type ← raise_none (as_str (get d "sourceType"))
    (contract_error "remediation source type is unsupported");
  _ ← raise_if (negb (bool_decide (source_type ∈ SOURCE_TYPES)))
    (contract_error "remediation source type is unsupported");
  _ ← raise_if
    (negb (forallb (has_key d) COMMON_KEYS)
     || negb (forallb (fun k => bool_decide (k ∈ allowed_by_type source_type)) d.*1))
    (contract_error "remediation source entry keys are invalid");
  manifest_path ← safe_repo_path (get d "manifestPath") "manifestPath";
  source_path ← safe_repo_path (get d "path") "path";
  _ ← raise_if (str_eqb source_path REMEDIATION_SOURCE_CONTRACT_PATH)
    (contract_error "remediation source contract cannot patch itself");
  image_path ← optional_field_path (get d "imagePath") "imagePath";
  image_tag_path ← optional_field_path (get d "imageTagPath") "imageTagPath";
  replica_path ← optional_field_path (get d "replicaPath") "replicaPath";
  probe_paths ← parse_probe_paths (get d "probePaths");
  image_names ← parse_image_names (get d "images");
  let declared_paths :=
    option_list image_path ++ option_list image_tag_path ++ option_list replica_path
    ++ probe_paths.*2 in
  _ ← raise_if (negb (no_dup declared_paths))
    (contract_error "remediation source field path is duplicated");
  let has_probes := negb (bool_decide (probe_paths = [])) in
  _ ← raise_if
    (str_eqb source_type "raw-yaml"
     && negb (declared image_path || declared replica_path || has_probes))
    (contract_error "raw remediation source declares no fields");
  _ ← raise_if
    (str_eqb source_type "helm-values"
     && negb (declared image_tag_path || declared replica_path || has_probes))
    (contract_error "Helm remediation source declares no fields");
  _ ← raise_if (str_eqb source_type "kustomize" && bool_decide (image_names = []))
    (contract_error "Kustomize remediation source declares no images");
  Ok {| manifest_path := manifest_path;
        source_type := source_type;
        source_path := source_path;
        image_path := image_path;
        image_tag_path := image_tag_path;
        image_names := image_names;
        replica_path := replica_path;
        probe_paths := probe_paths |}.

Definition scalar_text (n : node) : option string :=
  match n with ScalarNode value _ _ _ => Some value | _ => None end.

(** [_reject_duplicate_mapping_keys]: [true] when it returns. *)
Fixpoint unique_mapping_keys (n : node) : bool :=
  match n with
  | MappingNode pairs =>
      (fix go (seen : list string) (pairs : list (node * node)) : bool :=
         match pairs with
         | [] => true
         | (key_node, value_node) :: pairs =>
             match scalar_text key_node with
             | None => false
             | Some key =>
                 negb (bool_decide (key ∈ seen)) && unique_mapping_keys value_node
                 && go (key :: seen) pairs
             end
         end) [] pairs
  | SequenceNode items => forallb unique_mapping_keys items
  | ScalarNode _ _ _ _ => true
  end.

(** ** Reference notions for the theorems *)

(** A path inside the repository: relative, without empty, [.] or [..]
    components, made of harmless characters. *)
Definition repo_path (s : string) : Prop :=
  s <> "" /\ starts_with "/" s = false /\ ".." ∉ path_parts s /\ "." ∉ path_parts s /\
  all_chars (fun c => is_word c || char_in c "._/-") s = true.

(** All field paths a declaration names. *)
Definition declared_paths (d : RemediationSourceDeclaration) : list string :=
  option_list (image_path d) ++ option_list (image_tag_path d) ++ option_list (replica_path d)
  ++ (probe_paths d).*2.

(** What one entry of an accepted contract may say. *)
Record well_declared (d : RemediationSourceDeclaration) : Prop := {
  wd_type : source_type d ∈ SOURCE_TYPES;
  wd_manifest : repo_path (manifest_path d);
  wd_source : repo_path (source_path d);
  wd_not_self : source_path d <> REMEDIATION_SOURCE_CONTRACT_PATH;
  wd_paths_valid : forall p, p ∈ declared_paths d -> valid_field_path p = true;
  wd_paths_once : NoDup (declared_paths d);
  wd_probes : forall f p, (f, p) ∈ probe_paths d ->
    exists suffix, suffix ∈ PROBE_FIELD_SUFFIXES /\ ends_with suffix f = true;
  wd_images : forall n, n ∈ image_names d -> IMAGE_NAME_PATTERN n = true;
  wd_some : declared_paths d <> [] \/ image_names d <> [];
  wd_kustomize : source_type d = "kustomize" -> declared_paths d = [];
  wd_images_kustomize : source_type d <> "kustomize" -> image_names d = [];
}.

(** ** Lemmas: the fields of an entry *)

Lemma safe_repo_path_spec v field s : safe_repo_path v field = Ok s -> repo_path s.
Proof.
  unfold safe_repo_path, repo_path. intros Hs. destruct v; try done. res_inv. bool_simpl.
  repeat split; try done.
  - intros ->. done.
  - intros Hin. match goal with H : existsb _ _ = false |- _ =>
      rewrite <- not_true_iff_false, existsb_elem in H; destruct H end.
    exists ".". split; [done|]. apply bool_decide_eq_true. set_solver.
  - unfold REPO_PATH_PATTERN in *. by bool_simpl.
Qed.

Lemma optional_field_path_spec v field o p :
  optional_field_path v field = Ok o -> o = Some p -> valid_field_path p = true.
Proof. unfold optional_field_path. intros Ho ->. by case_all. Qed.

Lemma optional_field_path_absent d k field o :
  optional_field_path (get d k) field = Ok o -> dict_get d k = None -> o = None.
Proof. unfold get. intros Ho E. rewrite E in Ho. cbn in Ho. by simplify_eq. Qed.

Lemma parse_probe_entry_spec e f p :
  parse_probe_entry e = Ok (f, p) ->
  valid_field_path p = true /\
  exists suffix, suffix ∈ PROBE_FIELD_SUFFIXES /\ ends_with suffix f = true.
Proof.
  unfold parse_probe_entry. destruct e as [f' v]. intros He. res_inv. bool_simpl.
  split; [done|]. by apply existsb_elem.
Qed.

Lemma parse_probe_paths_spec v ps f p :
  parse_probe_paths v = Ok ps -> (f, p) ∈ ps ->
  valid_field_path p = true /\
  exists suffix, suffix ∈ PROBE_FIELD_SUFFIXES /\ ends_with suffix f = true.
Proof.
  unfold parse_probe_paths. intros Hps Hin. destruct v as [| | | | | | |[|e d]]; try done.
  - simplify_eq. set_solver.
  - apply (mapr_elem_r _ _ _ _ Hps) in Hin as (x & _ & Hx).
    by eapply parse_probe_entry_spec.
Qed.

Lemma parse_image_names_spec v ns n :
  parse_image_names v = Ok ns -> n ∈ ns -> IMAGE_NAME_PATTERN n = true.
Proof.
  unfold parse_image_names. intros Hns Hin. destruct v as [| | | | | |[|x l]|]; try done.
  - simplify_eq. set_solver.
  - apply bind_Ok in Hns as (names & Hm & (? & _ & [= ->])%bind_Ok).
    apply (mapr_elem_r _ _ _ _ Hm) in Hin as (y & _ & Hy).
    unfold parse_image_entry in Hy. res_inv. by bool_simpl.
Qed.

Lemma allowed_absent d t k :
  forallb (fun k => bool_decide (k ∈ allowed_by_type t)) (d : dict).*1 = true ->
  k ∉ allowed_by_type t -> dict_get d k = None.
Proof.
  intros Hall Hk. apply dict_get_None. intros Hin. rewrite forallb_elem in Hall.
  specialize (Hall k Hin). by apply bool_decide_eq_true in Hall.
Qed.

Lemma absent_probes d ps :
  parse_probe_paths (get d "probePaths") = Ok ps -> dict_get d "probePaths" = None -> ps = [].
Proof. unfold get. intros Hp E. rewrite E in Hp. by injection Hp as <-. Qed.

Lemma absent_images d ns :
  parse_image_names (get d "images") = Ok ns -> dict_get d "images" = None -> ns = [].
Proof. unfold get. intros Hp E. rewrite E in Hp. by injection Hp as <-. Qed.

Lemma declared_some (o : option string) : declared o = true -> option_list o <> [].
Proof. by destruct o. Qed.

(** Which of the optional keys an entry may have, by its type. *)
Lemma allowed_keys d t :
  forallb (fun k => bool_decide (k ∈ allowed_by_type t)) (d : dict).*1 = true ->
  t ∈ SOURCE_TYPES ->
  (t = "kustomize" /\ Forall (fun k => dict_get d k = None)
                        ["imagePath"; "imageTagPath"; "replicaPath"; "probePaths"]) \/
  (t <> "kustomize" /\ dict_get d "images" = None).
Proof.
  intros Hall Ht. unfold SOURCE_TYPES in Ht. rewrite !elem_of_cons, elem_of_nil in Ht.
  destruct Ht as [->|[->|[->|[]]]].
  - right. split; [done|]. eapply allowed_absent; [exact Hall|]. vm_compute; set_solver.
  - right. split; [done|]. eapply allowed_absent; [exact Hall|]. vm_compute; set_solver.
  - left. split; [done|].
    repeat constructor; (eapply allowed_absent; [exact Hall|]; vm_compute; set_solver).
Qed.

Lemma declares_something (t : string) (i g r : option string) (ps : list (string * string)) ns :
  t ∈ SOURCE_TYPES ->
  str_eqb t "raw-yaml" && negb (declared i || declared r || negb (bool_decide (ps = []))) = false ->
  str_eqb t "helm-values" && negb (declared g || declared r || negb (bool_decide (ps = []))) = false ->
  str_eqb t "kustomize" && bool_decide (ns = ([] : list string)) = false ->
  option_list i ++ option_list g ++ option_list r ++ ps.*2 <> [] \/ ns <> [].
Proof.
  intros Ht H1 H2 H3. unfold SOURCE_TYPES in Ht. rewrite !elem_of_cons, elem_of_nil in Ht.
  rewrite !app_nil.
  destruct Ht as [->|[->|[->|[]]]]; rewrite str_eqb_refl in *; cbn [andb] in *.
  - left. apply negb_false_iff in H1. rewrite !orb_true_iff in H1.
    destruct H1 as [[?%declared_some|?%declared_some]|?]; [tauto..|].
    bool_simpl. destruct ps; [done|]. intros (_ & _ & _ & ?). done.
  - left. apply negb_false_iff in H2. rewrite !orb_true_iff in H2.
    destruct H2 as [[?%declared_some|?%declared_some]|?]; [tauto..|].
    bool_simpl. destruct ps; [done|]. intros (_ & _ & _ & ?). done.
  - right. by bool_simpl.
Qed.

Lemma declared_paths_valid i g r ps v1 v2 v3 v4 p :
  optional_field_path v1 "imagePath" = Ok i -> optional_field_path v2 "imageTagPath" = Ok g ->
  optional_field_path v3 "replicaPath" = Ok r -> parse_probe_paths v4 = Ok ps ->
  p ∈ option_list i ++ option_list g ++ option_list r ++ ps.*2 -> valid_field_path p = true.
Proof.
  intros Hi Hg Hr Hps. rewrite !elem_of_app, !elem_of_option_list.
  intros [E|[E|[E|Hin]]];
    [exact (optional_field_path_spec _ _ _ _ Hi E)|exact (optional_field_path_spec _ _ _ _ Hg E)|
     exact (optional_field_path_spec _ _ _ _ Hr E)|].
  apply list_elem_of_fmap in Hin as ([f q] & -> & Hin).
  by destruct (parse_probe_paths_spec _ _ _ _ Hps Hin).
Qed.

Lemma absent_paths d i g r ps :
  Forall (fun k => dict_get d k = None) ["imagePath"; "imageTagPath"; "replicaPath"; "probePaths"] ->
  optional_field_path (get d "imagePath") "imagePath" = Ok i ->
  optional_field_path (get d "imageTagPath") "imageTagPath" = Ok g ->
  optional_field_path (get d "replicaPath") "replicaPath" = Ok r ->
  parse_probe_paths (get d "probePaths") = Ok ps ->
  option_list i ++ option_list g ++ option_list r ++ ps.*2 = [].
Proof.
  rewrite !Forall_cons. intros (A1 & A2 & A3 & A4 & _) Hi Hg Hr Hps.
  apply optional_field_path_absent in Hi, Hg, Hr; [|done..]. apply absent_probes in Hps; [|done].
  by subst.
Qed.

Lemma parse_source_well_declared v d : parse_source v = Ok d -> well_declared d.
Proof.
  unfold parse_source. intros Hp. res_inv.
  match goal with H : negb (bool_decide (_ ∈ SOURCE_TYPES)) = false |- _ =>
    apply negb_false_iff, bool_decide_eq_true_1 in H; rename H into Ht end.
  match goal with H : _ || negb (forallb _ _) = false |- _ =>
    apply orb_false_iff in H as [_ Hkeys%negb_false_iff] end.
  pose proof (allowed_keys _ _ Hkeys Ht) as Hcases.
  constructor; cbn.
  - done.
  - by eapply safe_repo_path_spec.
  - by eapply safe_repo_path_spec.
  - intros ->. by rewrite str_eqb_refl in *.
  - intros p. by eapply declared_paths_valid.
  - match goal with H : negb (no_dup _) = false |- _ =>
      by apply negb_false_iff, no_dup_spec in H end.
  - intros f p Hin. by eapply parse_probe_paths_spec.
  - intros n Hn. by eapply parse_image_names_spec.
  - by eapply declares_something.
  - intros ->. destruct Hcases as [[_ Habs]|[? _]]; [|done].
    by eapply absent_paths.
  - intros Hne. destruct Hcases as [[? _]|[_ Habs]]; [done|]. by eapply absent_images.
Qed.

Section Contract.
Context `{YamlLib}.

Definition is_mapping_node (n : node) : bool :=
  match n with MappingNode _ => true | _ => false end.

(** The body of the [try] statement. *)
Definition load_contract (content : string) : res pyval :=
  anchors ← scan_finds_anchor content;
  _ ← raise_if anchors
    (contract_error "remediation source contract anchors and aliases are unsupported");
  documents ← yaml_compose_all content;
  root ← raise_none (the_one documents)
    (contract_error "remediation source contract must contain one mapping");
  _ ← raise_if (negb (is_mapping_node root))
    (contract_error "remediation source contract must contain one mapping");
  _ ← raise_if (negb (unique_mapping_keys root))
    (contract_error "remediation source contract mapping key is duplicated or invalid");
  yaml_safe_load content.

Definition parse_remediation_source_contract (content : string) : res RemediationSourceContract :=
  _ ← raise_if (is_empty content || Nat.ltb MAX_CONTRACT_BYTES (str_len (utf8_encode content)))
    (contract_error "remediation source contract size is invalid");
  payload ← catch (load_contract content) is_YAMLError
    (contract_error "remediation source contract is invalid YAML");
  root ← raise_none (as_dict payload)
    (contract_error "remediation source contract root is invalid");
  _ ← raise_if (negb (keys_are root ["apiVersion"; "kind"; "spec"]))
    (contract_error "remediation source contract root is invalid");
  _ ← raise_if
    (negb (py_eqb (get root "apiVersion") (VStr REMEDIATION_SOURCE_API_VERSION))
     || negb (py_eqb (get root "kind") (VStr REMEDIATION_SOURCE_KIND)))
    (contract_error "remediation source contract version is unsupported");
  spec ← raise_none (as_dict (get root "spec"))
    (contract_error "remediation source contract spec is invalid");
  _ ← raise_if (negb (keys_are spec ["sources"]))
    (contract_error "remediation source contract spec is invalid");
  raw_sources ← raise_none (as_list (get spec "sources"))
    (contract_error "remediation source contract sources are missing");
  _ ← raise_if (bool_decide (raw_sources = []))
    (contract_error "remediation source contract sources are missing");
  sources ← mapr parse_source raw_sources;
  _ ← raise_if (negb (no_dup (manifest_path <$> sources)))
    (contract_error "remediation source manifestPath is duplicated");
  Ok {| sources := sources |}.

(** every entry of a contract that parses names a relative path without
    [..] that is not the contract itself, only well-formed and distinct field
    paths and image names, and only the fields of its source type; no two
    entries are about the same manifest. *)
Theorem contract_entries_safe content c :
  parse_remediation_source_contract content = Ok c ->
  sources c <> [] /\ NoDup (manifest_path <$> sources c) /\ Forall well_declared (sources c).
Proof.
  unfold parse_remediation_source_contract. intros Hp.
  repeat (apply bind_Ok in Hp as (? & ? & Hp)). injection Hp as <-. cbn.
  match goal with H : mapr parse_source ?l = Ok ?ss |- _ => rename H into Hm end.
  repeat split.
  - intros ->. apply mapr_Ok in Hm. inversion Hm; subst. res_inv.
  - res_inv. bool_simpl. by apply no_dup_spec.
  - apply Forall_forall. intros d Hd. apply (mapr_elem_r _ _ _ _ Hm) in Hd as (v & _ & Hv).
    by eapply parse_source_well_declared.
Qed.

(** looking a manifest up in a parsed contract is exact: it finds an
    entry if and only if the contract has it under that path. *)
Theorem source_for_manifest_exact content c path d :
  parse_remediation_source_contract content = Ok c ->
  source_for_manifest c path = Some d <-> (d ∈ sources c /\ manifest_path d = path).
Proof.
  intros Hp. assert (NoDup (manifest_path <$> sources c)) as Hnd.
  { unfold parse_remediation_source_contract in Hp.
    repeat (apply bind_Ok in Hp as (? & ? & Hp)). injection Hp as <-. cbn. res_inv. bool_simpl.
    by apply no_dup_spec. }
  unfold source_for_manifest. rewrite the_one_Some. by apply keep_key_unique.
Qed.

End Contract.

(** A value of [sourceType] that Python cannot hash escapes as a [TypeError],
    which is not the error type the reader promises. *)
Lemma unhashable_source_type_escapes d l :
  get d "sourceType" = VList l -> parse_source (VDict d) = Err TypeError.
Proof. unfold parse_source. cbn [as_dict raise_none mbind res_bind]. intros ->. done. Qed.

(** ** Witnesses *)

Definition sample_entry : pyval :=
  VDict [("manifestPath", VStr "apps/api.yaml"); ("sourceType", VStr "raw-yaml");
         ("path", VStr "apps/api.yaml"); ("replicaPath", VStr "spec.replicas")].
Definition sample_payload : pyval :=
  VDict [("apiVersion", VStr REMEDIATION_SOURCE_API_VERSION); ("kind", VStr REMEDIATION_SOURCE_KIND);
         ("spec", VDict [("sources", VList [sample_entry])])].
Definition sample_yaml : YamlLib :=
  Demo.table_yaml [("contract", ([MappingNode [(Demo.word "spec", Demo.word "x")]], [sample_payload]))].
Definition sample_declaration : RemediationSourceDeclaration :=
  {| manifest_path := "apps/api.yaml"; source_type := "raw-yaml"; source_path := "apps/api.yaml";
     image_path := None; image_tag_path := None; image_names := [];
     replica_path := Some "spec.replicas"; probe_paths := [] |}.
Definition sample_contract : RemediationSourceContract := {| sources := [sample_declaration] |}.

Lemma contract_entries_safe_witness : Forall well_declared (sources sample_contract).
Proof.
  apply (@contract_entries_safe sample_yaml "contract" sample_contract). vm_compute. reflexivity.
Defined.

Lemma source_for_manifest_exact_witness :
  source_for_manifest sample_contract "apps/api.yaml" = Some sample_declaration.
Proof.
  apply (@source_for_manifest_exact sample_yaml "contract" sample_contract);
    [vm_compute; reflexivity|].
  split; [apply elem_of_cons; left; reflexivity|reflexivity].
Defined.

End RemediationContract.
