(* ===== verification/SourceSplice.v ===== *)
(** * Rewriting manifests in place

    [src/src/domains/gitops/source_patch.py], the part that rewrites a source
    text: a patch replaces the text of single scalars, checks that the result
    parses to exactly the expected object, and leaves every other character
    alone.  The targets come from a validated plan, directly or through the
    repository's remediation contract. *)
From S2P Require Import Prelude PyStr PyFloat PyVal Libs Demo SourcePatch.
From S2P Require Import RemediationContract ManifestEditor.

Module SourceSplice.
Import SourcePatch.

Record DeclaredScalarPatch := {
  ds_source_type : string;
  ds_source_path : string;
  ds_replacements : list ScalarFieldReplacement;
  document_identity : option ManifestEditor.ManifestIdentity;
}.

(** A replacement of the text between two marks. *)
Record span := Span { sp_start : nat; sp_end : nat; sp_text : string }.

(** ** Nodes *)

Definition node_text (n : node) : option string :=
  match n with ScalarNode value _ _ _ => Some value | _ => None end.

Definition mapping_value (pairs : list (node * node)) (key : string) : option node :=
  snd <$> find (fun kv => bool_decide (node_text kv.1 = Some key)) pairs.

(** A mapping node whose [name] is the scalar [n]. *)
Definition named_node (n : string) (item : node) : bool :=
  match item with
  | MappingNode pairs =>
      match mapping_value pairs "name" with
      | Some (ScalarNode value _ _ _) => str_eqb value n
      | _ => false
      end
  | _ => false
  end.

Fixpoint node_value_at (root : node) (segments : list FieldPathSegment) : res node :=
  match segments with
  | [] => Ok root
  | segment :: segments =>
      match root with
      | MappingNode pairs =>
          current ← raise_none (mapping_value pairs (seg_key segment)) target_missing;
          current ← match selected_name segment with
                    | None => Ok current
                    | Some n =>
                        match current with
                        | SequenceNode items =>
                            raise_none (the_one (keep (named_node n) items)) target_not_unique
                        | _ => Err target_missing
                        end
                    end;
          node_value_at current segments
      | _ => Err target_missing
      end
  end.

Definition as_mapping_node (n : node) : option (list (node * node)) :=
  match n with MappingNode pairs => Some pairs | _ => None end.

(** The mapping at [spec.template.spec], for nodes and for objects. *)
Definition pod_spec_node (root : list (node * node)) : option (list (node * node)) :=
  spec ← mapping_value root "spec" ≫= as_mapping_node;
  template ← mapping_value spec "template" ≫= as_mapping_node;
  mapping_value template "spec" ≫= as_mapping_node.

Definition container_node (item : node) : option (string * node) :=
  match item with
  | MappingNode pairs =>
      match mapping_value pairs "name", mapping_value pairs "image" with
      | Some (ScalarNode name _ _ _), Some (ScalarNode _ _ _ _ as image) => Some (name, image)
      | _, _ => None
      end
  | _ => None
  end.

Definition deployment_container_nodes (root : list (node * node)) : list (string * node) :=
  match pod_spec_node root with
  | None => []
  | Some pod_spec =>
      flat_map (fun key => match mapping_value pod_spec key with
                           | Some (SequenceNode items) => omap container_node items
                           | _ => []
                           end) CONTAINER_LIST_KEYS
  end.

(** ** Container objects

    [deployment_container_objects] returns the container dictionaries
    themselves, and the patch writes to them.  A container is named here by
    its list and its position in it, so that the write reaches the object. *)

Definition pod_spec_object (root : dict) : option dict :=
  spec ← as_dict (get root "spec");
  template ← as_dict (get spec "template");
  as_dict (get template "spec").

Definition deployment_container_objects (root : dict) : list (string * nat * dict) :=
  match pod_spec_object root with
  | None => []
  | Some pod_spec =>
      flat_map (fun key =>
          match get pod_spec key with
          | VList items =>
              omap (fun ix => match ix.2 with VDict d => Some (key, ix.1, d) | _ => None end)
                (imap (fun i x => (i, x)) items)
          | _ => []
          end) CONTAINER_LIST_KEYS
  end.

(** [container["image"] = image] for the container at a position. *)
Definition set_container_image (root : dict) (key : string) (index : nat) (image : string) : dict :=
  let set_item (v : pyval) :=
    match v with VDict c => VDict (dict_set c "image" (VStr image)) | _ => v end in
  let pod_spec := default [] (pod_spec_object root) in
  let spec := mapping (get root "spec") in
  let template := mapping (get spec "template") in
  match get pod_spec key with
  | VList items =>
      dict_set root "spec" (VDict (dict_set spec "template" (VDict (dict_set template "spec"
        (VDict (dict_set pod_spec key (VList (alter set_item index items))))))))
  | _ => root
  end.

(** ** Tagged images *)

(** [[A-Za-z0-9_][A-Za-z0-9._-]{0,127}] *)
Definition is_image_tag (s : string) : bool :=
  match s with
  | EmptyString => false
  | String c t =>
      (is_word c || char_in c "_") && Nat.leb (str_len t) 127
      && all_chars (fun c => is_word c || char_in c "._-") t
  end.

Definition tagged_image (value : string) : option (string * string) :=
  if is_empty value || contains "@" value || negb (all_chars (fun c => negb (is_space c)) value)
  then None
  else
    let separator := rfind_char ":" value in
    if (separator <=? rfind_char "/" value) || (separator =? Z.of_nat (str_len value) - 1) then None
    else
      let repository := str_take (Z.to_nat separator) value in
      let tag := str_drop (Z.to_nat (separator + 1)) value in
      if is_empty repository || negb (is_image_tag tag) then None else Some (repository, tag).

(** ** Declared patches *)

Definition unsupported (reason : string) : exn :=
  RemediationSourcePatchUnsupported ("remediation source patch unsupported: " +:+ reason).

Import RemediationContract (RemediationSourceDeclaration, RemediationSourceContract,
  image_path, image_tag_path, image_names, replica_path, probe_path, source_for_manifest).

Definition declared_image_replacement (source : RemediationSourceDeclaration)
    (replacement : ScalarFieldReplacement) : res ScalarFieldReplacement :=
  let src_type := RemediationContract.source_type source in
  match current_value replacement, desired_value replacement with
  | VStr current, VStr desired =>
      if str_eqb src_type "raw-yaml" then
        match image_path source with
        | Some p =>
            if str_eqb (field_path replacement) p
            then Ok {| field_path := p; current_value := VStr current;
                       desired_value := VStr desired |}
            else Err (unsupported "raw image field is not declared")
        | None => Err (unsupported "raw image field is not declared")
        end
      else
        match tagged_image current, tagged_image desired with
        | Some (repository, current_tag), Some (desired_repository, desired_tag) =>
            _ ← raise_if (negb (str_eqb repository desired_repository))
              (unsupported "tag adapter cannot change image repository or digest");
            target_path ←
              match image_tag_path source with
              | Some p =>
                  if str_eqb src_type "helm-values" then Ok p
                  else if str_eqb src_type "kustomize"
                          && bool_decide (repository ∈ image_names source)
                  then Ok ("images[name=" +:+ repository +:+ "].newTag")
                  else Err (unsupported "image field is not declared")
              | None =>
                  if str_eqb src_type "kustomize" && bool_decide (repository ∈ image_names source)
                  then Ok ("images[name=" +:+ repository +:+ "].newTag")
                  else Err (unsupported "image field is not declared")
              end;
            Ok {| field_path := target_path; current_value := VStr current_tag;
                  desired_value := VStr desired_tag |}
        | _, _ => Err (unsupported "tag adapter cannot change image repository or digest")
        end
  | _, _ => Err (unsupported "image replacement is not textual")
  end.

Definition at_path (path : string) (replacement : ScalarFieldReplacement) : ScalarFieldReplacement :=
  {| field_path := path; current_value := current_value replacement;
     desired_value := desired_value replacement |}.

Definition declared_replacement (source : RemediationSourceDeclaration) (action : string)
    (replacement : ScalarFieldReplacement) : res ScalarFieldReplacement :=
  if bool_decide (action ∈ ["image_rollback"; "image_tag_fix"]) then
    declared_image_replacement source replacement
  else
    match (if str_eqb action "replica_scale" then replica_path source
           else if str_eqb action "probe_fix" then probe_path source (field_path replacement)
           else None) with
    | Some target => Ok (at_path target replacement)
    | None => Err (unsupported "action field is not declared")
    end.

Definition declared_scalar_patch (plan : ManifestScalarPatchPlan)
    (contract : RemediationSourceContract) : res DeclaredScalarPatch :=
  _ ← validate_scalar_patch_plan plan;
  source ← raise_none (source_for_manifest contract (manifest_path plan))
    (unsupported "manifest path is not declared");
  replacements ← mapr (declared_replacement source (action_type plan)) (replacements plan);
  _ ← raise_if (negb (no_dup (field_path <$> replacements)))
    (unsupported "declared source target is ambiguous");
  Ok {| ds_source_type := RemediationContract.source_type source;
        ds_source_path := RemediationContract.source_path source;
        ds_replacements := replacements;
        document_identity := None |}.

Definition declared_image_patch (plan : ManifestImagePatchPlan)
    (contract : RemediationSourceContract) : res DeclaredScalarPatch :=
  _ ← validate_image_patch_plan plan;
  match ip_replacements plan with
  | [] => Err IndexError
  | replacement :: _ =>
      let semantic_path :=
        "spec.template.spec.containers[name=" +:+ container_name replacement +:+ "].image" in
      let scalar_plan :=
        {| action_type := "image_rollback";
           source_type := ip_source_type plan;
           source_manifest_sha256 := ip_source_manifest_sha256 plan;
           expected_base_sha := ip_expected_base_sha plan;
           manifest_path := ip_manifest_path plan;
           replacements :=
             [{| field_path := semantic_path;
                 current_value := VStr (current_image replacement);
                 desired_value := VStr (previous_image replacement) |}];
           rollback_replacements :=
             [{| field_path := semantic_path;
                 current_value := VStr (previous_image replacement);
                 desired_value := VStr (current_image replacement) |}] |} in
      declared_scalar_patch scalar_plan contract
  end.

(** ** Lemmas: tagged images and declared targets *)

Lemma tagged_image_spec v repository tag :
  tagged_image v = Some (repository, tag) ->
  v = repository +:+ ":" +:+ tag /\ repository <> "" /\ is_image_tag tag = true.
Proof.
  unfold tagged_image. destruct (_ || _ || _); [done|].
  destruct ((_ <=? _) || _) eqn:E; [done|]. bool_simpl.
  destruct (is_empty _ || _) eqn:E'; [done|]. bool_simpl. intros [= <- <-].
  assert (0 <= rfind_char ":" v) as Hpos by (pose proof (rfind_char_lb "/" v); lia).
  split; [by apply rfind_char_split|]. split; [|done].
  intros Hr. by rewrite Hr in *.
Qed.

(** A place the declaration names: a field path, or the tag of a declared
    image. *)
Definition declared_target (d : RemediationSourceDeclaration) (p : string) : Prop :=
  p ∈ RemediationContract.declared_paths d \/
  exists n, n ∈ image_names d /\ p = "images[name=" +:+ n +:+ "].newTag".

(** The replacement at the declared place stands for the semantic one: the
    same values, or the tags of two references to the same image. *)
Definition stands_for (item item' : ScalarFieldReplacement) : Prop :=
  (current_value item' = current_value item /\ desired_value item' = desired_value item) \/
  exists repository t t',
    current_value item = VStr (repository +:+ ":" +:+ t) /\ current_value item' = VStr t /\
    desired_value item = VStr (repository +:+ ":" +:+ t') /\ desired_value item' = VStr t'.

Lemma declared_image_replacement_spec source item item' :
  declared_image_replacement source item = Ok item' ->
  declared_target source (field_path item') /\ stands_for item item'.
Proof.
  unfold declared_image_replacement, declared_target, stands_for, RemediationContract.declared_paths.
  destruct item as [p cv dv]. destruct cv as [|?|?|?|c|?|?|?]; try done.
  destruct dv as [|?|?|?|d|?|?|?]; try done. cbn.
  destruct (str_eqb _ "raw-yaml").
  - destruct (image_path source) as [q|]; [|done]. destruct (str_eqb p q); [|done].
    intros [= <-]. cbn. split; [left; set_solver|by left].
  - destruct (tagged_image c) as [[r t]|] eqn:Ec; [|done].
    destruct (tagged_image d) as [[r' t']|] eqn:Ed; [|done].
    apply tagged_image_spec in Ec as (-> & _ & _), Ed as (-> & _ & _).
    intros (? & Hr%raise_if_Ok & (q & Hq & [= <-])%bind_Ok)%bind_Ok.
    apply negb_false_iff, str_eqb_eq in Hr as <-. cbn. split; [|by right; exists r, t, t'].
    destruct (image_tag_path source) as [g|] eqn:Eg; [destruct (str_eqb _ "helm-values")|].
    + injection Hq as <-. left. cbn. set_solver.
    + destruct (_ && _) eqn:E; [|done]. bool_simpl. injection Hq as <-. eauto.
    + destruct (_ && _) eqn:E; [|done]. bool_simpl. injection Hq as <-. eauto.
Qed.

Lemma probe_path_declared source f p :
  probe_path source f = Some p -> p ∈ (RemediationContract.probe_paths source).*2.
Proof.
  unfold probe_path, dict_update. intros Hp%dict_get_elem.
  assert (forall (l acc : list (string * string)) k q, (k, q) ∈ fold_left (fun acc kv => dict_set acc kv.1 kv.2) l acc ->
            (k, q) ∈ acc \/ q ∈ l.*2) as Hfold.
  { intros l. induction l as [|[i x] l IH]; intros acc k q; cbn; [by left|].
    intros [Hin|?]%IH; [|right; set_solver]. apply dict_set_elem in Hin as [?| ->]; [by left|right; set_solver]. }
  apply Hfold in Hp as [?|?]; [set_solver|done].
Qed.

Lemma declared_replacement_spec source action item item' :
  declared_replacement source action item = Ok item' ->
  declared_target source (field_path item') /\ stands_for item item'.
Proof.
  unfold declared_replacement. destruct (bool_decide _); [apply declared_image_replacement_spec|].
  destruct (if str_eqb action "replica_scale" then _ else _) as [q|] eqn:E; [|done].
  intros [= <-]. split; [|by left]. left. unfold RemediationContract.declared_paths. cbn.
  destruct (str_eqb action "replica_scale"); [rewrite E; set_solver|].
  destruct (str_eqb action "probe_fix"); [|done]. apply probe_path_declared in E. set_solver.
Qed.

(** a declared patch touches only what the repository's contract names:
    the file of the one entry for the plan's manifest, and in it, one by one,
    fields that entry declares, with the plan's values (or the tags of the
    plan's images, whose repository it cannot change). *)
Theorem declared_patch_within_contract plan contract patch :
  declared_scalar_patch plan contract = Ok patch ->
  exists entry,
    source_for_manifest contract (manifest_path plan) = Some entry /\
    ds_source_path patch = RemediationContract.source_path entry /\
    ds_source_type patch = RemediationContract.source_type entry /\
    NoDup (field_path <$> ds_replacements patch) /\
    Forall2 (fun item item' => declared_target entry (field_path item') /\ stands_for item item')
      (replacements plan) (ds_replacements patch).
Proof.
  unfold declared_scalar_patch.
  intros (? & _ & (entry & He%raise_none_Ok & (rs & Hrs%mapr_Ok & Hd)%bind_Ok)%bind_Ok)%bind_Ok.
  apply bind_Ok in Hd as (? & Hnd%raise_if_Ok & [= <-]). exists entry. cbn.
  apply negb_false_iff, no_dup_spec in Hnd. repeat split; try done.
  eapply Forall2_impl; [exact Hrs|]. intros item item'. apply declared_replacement_spec.
Qed.

Section Materialize.
Context `{YamlLib} `{JsonLib} `{ReprLib} `{Sha256}.

(** ** Encoding a scalar *)

Definition single_quoted (s : string) : string := "'" +:+ replace_char "'" "''" s +:+ "'".

Definition encoded_scalar_value (style : option ascii) (value : pyval) : res string :=
  match value with
  | VStr s =>
      match style with
      | Some q =>
          if bool_decide (q = "'"%char) then Ok (single_quoted s) else Ok (json_string s)
      | None =>
          if contains (String "010" "") s then Ok (json_string s)
          else match yaml_safe_load s with
               | Ok v => Ok (if py_eqb v (VStr s) then s else json_string s)
               | Err e => if is_YAMLError e then Ok (json_string s) else Err e
               end
      end
  | _ =>
      match style with
      | Some _ => Err (patch_error "manifest scalar style is not patchable")
      | None => json_scalar value
      end
  end.

Definition encoded_scalar (style : option ascii) (value : string) : res string :=
  match style with
  | None =>
      if PLAIN_IMAGE_PATTERN value then Ok value
      else Err (patch_error "manifest image scalar style is not patchable")
  | Some q =>
      if bool_decide (q = "'"%char) then Ok (single_quoted value)
      else if bool_decide (q = "034"%char) then Ok (json_string value)
      else Err (patch_error "manifest image scalar style is not patchable")
  end.

(** ** Splicing *)

Definition apply_span (text : string) (s : span) : string :=
  str_take (sp_start s) text +:+ sp_text s +:+ str_drop (sp_end s) text.

(** [sorted(spans, reverse=True)]: the spans with equal marks have been
    refused before. *)
Definition span_geb (a b : span) : bool :=
  Nat.ltb (sp_start b) (sp_start a)
  || (Nat.eqb (sp_start b) (sp_start a) && Nat.leb (sp_end b) (sp_end a)).

Definition splice (source : string) (spans : list span) : string :=
  fold_left apply_span (isort span_geb spans) source.

Definition marks_distinct (spans : list span) : bool :=
  no_dup ((fun s => (sp_start s, sp_end s)) <$> spans).

(** ** Reading *)

Definition canonical_manifest_digest (value : dict) : res string :=
  canonical ← json_canonical (VDict value);
  Ok ("sha256:" +:+ sha256_hexdigest (utf8_encode canonical)).

Definition is_decode_error (e : exn) : bool := is_JSONDecodeError e || is_YAMLError e.

Definition parse_single_manifest (source source_type : string) : res dict :=
  _ ← raise_if (negb (bool_decide (source_type ∈ SUPPORTED_SOURCE_TYPES)))
    (patch_error "unsupported manifest source type");
  value ← catch
    (if str_eqb source_type RAW_JSON then json_loads source
     else documents ← yaml_safe_load_all source;
          raise_none (the_one documents)
            (patch_error "manifest source must contain one document"))
    is_decode_error (patch_error "manifest source is invalid");
  raise_none (as_dict value) (patch_error "manifest source must be one object").

(** The tokens and nodes of a source that must hold one mapping. *)
Definition compose_checked (source anchors_msg invalid_msg : string) : res (list node) :=
  catch (anchors ← scan_finds_anchor source;
         _ ← raise_if anchors (patch_error anchors_msg);
         yaml_compose_all source)
    is_YAMLError (patch_error invalid_msg).

Definition compose_one (source : string) : res (list (node * node)) :=
  nodes ← compose_checked source "manifest anchors and aliases are not patchable"
            "manifest source is invalid";
  root ← raise_none (the_one nodes) (patch_error "manifest source must contain one object");
  raise_none (as_mapping_node root) (patch_error "manifest source must contain one object").

(** The common head of the patches of an approved manifest. *)
Definition read_approved (source source_type expected_source_sha256 : string) : res dict :=
  original ← parse_single_manifest source source_type;
  _ ← raise_if (negb (py_eqb (get original "kind") (VStr "Deployment")))
    (patch_error "manifest source must be a Deployment");
  digest ← canonical_manifest_digest original;
  _ ← raise_if (negb (str_eqb digest expected_source_sha256))
    (patch_error "manifest source digest does not match approved artifact");
  Ok original.

(** ** The image patch *)

(** State of the loop: the expected object, the spans (latest first) and the
    names used so far. *)
Definition image_step (node_containers : list (string * node))
    (st : dict * list span * list string) (replacement : ImageScalarReplacement)
    : res (dict * list span * list string) :=
  let '(expected, spans, used_names) := st in
  let name := container_name replacement in
  _ ← raise_if
    (is_empty name
     || is_empty (current_image replacement)
     || is_empty (previous_image replacement)
     || str_eqb (current_image replacement) (previous_image replacement)
     || bool_decide (name ∈ used_names))
    (patch_error "manifest image replacement is ambiguous");
  let node_matches :=
    keep (fun c => str_eqb c.1 name && bool_decide (node_text c.2 = Some (current_image replacement)))
      node_containers in
  let object_matches :=
    keep (fun c => py_eqb (get c.2 "name") (VStr name)
                   && py_eqb (get c.2 "image") (VStr (current_image replacement)))
      (deployment_container_objects expected) in
  match node_matches, object_matches with
  | [(_, ScalarNode _ style start_index end_index)], [(key, index, _)] =>
      encoded ← encoded_scalar style (previous_image replacement);
      Ok (set_container_image expected key index (previous_image replacement),
          Span start_index end_index encoded :: spans,
          name :: used_names)
  | _, _ => Err (patch_error "manifest image target is not unique")
  end.

Definition materialize_image_patch (source source_type expected_source_sha256 : string)
    (replacements : list ImageScalarReplacement) : res string :=
  original ← read_approved source source_type expected_source_sha256;
  _ ← raise_if (bool_decide (replacements = []))
    (patch_error "manifest image replacement is missing");
  root ← compose_one source;
  '(expected, spans, _) ←
    foldr_res (image_step (deployment_container_nodes root)) (original, [], []) replacements;
  _ ← raise_if (negb (marks_distinct spans)) (patch_error "manifest image target overlaps");
  let patched := splice source (rev spans) in
  reread ← parse_single_manifest patched source_type;
  _ ← raise_if (negb (py_eqb (VDict reread) (VDict expected)))
    (patch_error "manifest patch changed fields outside approved images");
  Ok patched.

(** ** The scalar patch *)

Definition scalar_step (original : dict) (root : list (node * node))
    (st : pyval * list span) (replacement : ScalarFieldReplacement) : res (pyval * list span) :=
  let '(expected, spans) := st in
  let segments := field_path_segments (field_path replacement) in
  current ← object_value_at (VDict original) segments;
  _ ← raise_if (negb (same_scalar current (current_value replacement)))
    (patch_error "manifest scalar does not match approved artifact");
  target ← node_value_at (MappingNode root) segments;
  match target with
  | ScalarNode _ style start_index end_index =>
      encoded ← encoded_scalar_value style (desired_value replacement);
      expected ← set_object_value expected segments (desired_value replacement);
      Ok (expected, Span start_index end_index encoded :: spans)
  | _ => Err (patch_error "manifest scalar target is not unique")
  end.

Definition materialize_scalar_replacements (source source_type expected_source_sha256 : string)
    (replacements : list ScalarFieldReplacement) : res string :=
  original ← read_approved source source_type expected_source_sha256;
  root ← compose_one source;
  '(expected, spans) ← foldr_res (scalar_step original root) (VDict original, []) replacements;
  _ ← raise_if (negb (marks_distinct spans)) (patch_error "manifest scalar target overlaps");
  let patched := splice source (rev spans) in
  reread ← parse_single_manifest patched source_type;
  _ ← raise_if (negb (py_eqb (VDict reread) expected))
    (patch_error "manifest patch changed fields outside approved scalars");
  Ok patched.

Definition materialize_scalar_patch (source : string) (plan : ManifestScalarPatchPlan) : res string :=
  _ ← validate_scalar_patch_plan plan;
  materialize_scalar_replacements source (source_type plan) (source_manifest_sha256 plan)
    (replacements plan).

Definition materialize_scalar_rollback (source : string) (plan : ManifestScalarPatchPlan)
    (expected_source_sha256 : string) : res string :=
  _ ← validate_scalar_patch_plan plan;
  _ ← raise_if (negb (is_sha256_digest expected_source_sha256))
    (patch_error "rollback source digest is invalid");
  materialize_scalar_replacements source (source_type plan) expected_source_sha256
    (rollback_replacements plan).

(** ** The declared patch *)

Definition DECLARED_SOURCE_STALE_VALUE_MESSAGE : string :=
  "declared source scalar does not match approved value".

Definition declared_step (allow_already_applied : bool) (original : dict) (root : list (node * node))
    (st : pyval * list span) (replacement : ScalarFieldReplacement) : res (pyval * list span) :=
  let '(expected, spans) := st in
  let segments := field_path_segments (field_path replacement) in
  current ← object_value_at (VDict original) segments;
  if allow_already_applied && same_scalar current (desired_value replacement) then
    expected ← set_object_value expected segments (desired_value replacement);
    Ok (expected, spans)
  else
    _ ← raise_if (negb (same_scalar current (current_value replacement)))
      (patch_error DECLARED_SOURCE_STALE_VALUE_MESSAGE);
    target ← node_value_at (MappingNode root) segments;
    match target with
    | ScalarNode _ style start_index end_index =>
        encoded ← encoded_scalar_value style (desired_value replacement);
        expected ← set_object_value expected segments (desired_value replacement);
        Ok (expected, Span start_index end_index encoded :: spans)
    | _ => Err (patch_error "declared source target is not one scalar")
    end.

(** The index of the document a patch is about. *)
Definition identity_is (identity : ManifestEditor.ManifestIdentity) (document : pyval) : bool :=
  match document with
  | VDict d => bool_decide (ManifestEditor.manifest_identity d = Some identity)
  | _ => false
  end.

Definition document_index (originals : list pyval) (identity : option ManifestEditor.ManifestIdentity)
    : res nat :=
  match identity with
  | None =>
      _ ← raise_if (negb (Nat.eqb (length originals) 1))
        (patch_error "declared source must contain one object");
      Ok 0%nat
  | Some identity =>
      raise_none (the_one (omap (fun ix => if identity_is identity ix.2 then Some ix.1 else None)
                             (imap (fun i x => (i, x)) originals)))
        (patch_error "declared source document is missing or ambiguous")
  end.

Definition DECLARED_SOURCE_TYPES : list string := ["raw-yaml"; "helm-values"; "kustomize"].

Definition materialize_declared_scalar_patch (source : string) (patch : DeclaredScalarPatch)
    (allow_already_applied : bool) : res string :=
  _ ← raise_if (negb (bool_decide (ds_source_type patch ∈ DECLARED_SOURCE_TYPES)))
    (unsupported "declared source adapter is unsupported");
  _ ← raise_if (bool_decide (ds_replacements patch = []))
    (unsupported "declared source has no replacement");
  '(nodes, originals) ← catch
    (anchors ← scan_finds_anchor source;
     _ ← raise_if anchors (patch_error "declared source anchors and aliases are not patchable");
     nodes ← yaml_compose_all source;
     originals ← yaml_safe_load_all source;
     Ok (nodes, originals))
    is_YAMLError (patch_error "declared source is invalid");
  _ ← raise_if (negb (Nat.eqb (length nodes) (length originals)))
    (patch_error "declared source document structure is invalid");
  index ← document_index originals (document_identity patch);
  original ← raise_none (originals !! index ≫= as_dict)
    (patch_error "declared source must contain one object");
  root ← raise_none (nodes !! index ≫= as_mapping_node)
    (patch_error "declared source must contain one object");
  '(expected, spans) ←
    foldr_res (declared_step allow_already_applied original root) (VDict original, [])
      (ds_replacements patch);
  _ ← raise_if (negb (marks_distinct spans)) (patch_error "declared source targets overlap");
  let patched := splice source (rev spans) in
  patched_documents ← catch (yaml_safe_load_all patched) is_YAMLError
    (patch_error "declared patch produced invalid YAML");
  _ ← raise_if
    (negb (py_eqb (VList patched_documents) (VList (<[index := expected]> originals))))
    (patch_error "declared patch changed fields outside approved scalars");
  Ok patched.

(** ** Reference notions for the theorems *)

(** The source with the spans replaced, read from left to right: [source] is
    the text from position [pos] on. *)
Fixpoint weave (pos : nat) (source : string) (spans : list span) : string :=
  match spans with
  | [] => source
  | s :: spans =>
      str_take (sp_start s - pos) source +:+ sp_text s
      +:+ weave (sp_end s) (str_drop (sp_end s - pos) source) spans
  end.

(** Spans in order, without overlap, from [pos] to [len]. *)
Fixpoint chained (pos len : nat) (spans : list span) : Prop :=
  match spans with
  | [] => (pos <= len)%nat
  | s :: spans => (pos <= sp_start s <= sp_end s)%nat /\ chained (sp_end s) len spans
  end.

(** [s] replaces the text of the scalar that [r] names by its new value. *)
Definition target (root : list (node * node)) (r : ScalarFieldReplacement) (s : span) : Prop :=
  exists value style,
    node_value_at (MappingNode root) (field_path_segments (field_path r))
      = Ok (ScalarNode value style (sp_start s) (sp_end s)) /\
    encoded_scalar_value style (desired_value r) = Ok (sp_text s).

(** The writes of a list of replacements. *)
Definition writes (rs : list ScalarFieldReplacement) : list (list FieldPathSegment * pyval) :=
  (fun r => (field_path_segments (field_path r), desired_value r)) <$> rs.

(** The document holds the new value already. *)
Definition applied (original : dict) (r : ScalarFieldReplacement) : bool :=
  match object_value_at (VDict original) (field_path_segments (field_path r)) with
  | Ok v => same_scalar v (desired_value r)
  | Err _ => false
  end.

(** The document holds the approved old value, or, where that is allowed, the
    new one. *)
Definition fresh (allow : bool) (original : dict) (r : ScalarFieldReplacement) : Prop :=
  exists v, object_value_at (VDict original) (field_path_segments (field_path r)) = Ok v /\
    (same_scalar v (current_value r) = true \/ (allow = true /\ same_scalar v (desired_value r) = true)).

(** ** Lemmas: splicing *)

Lemma chained_le pos len spans : chained pos len spans -> (pos <= len)%nat.
Proof.
  revert pos. induction spans as [|s spans IH]; intros pos; cbn; [done|].
  intros [? ?%IH]. lia.
Qed.

Lemma apply_span_app a b s t :
  str_len (a +:+ b) = sp_end s -> (str_len a = sp_start s) ->
  apply_span ((a +:+ b) +:+ t) s = a +:+ sp_text s +:+ t.
Proof.
  intros He Hs. unfold apply_span. rewrite <- He, str_drop_app_length.
  rewrite <- Hs, str_app_assoc, str_take_app_length. done.
Qed.

Lemma fold_weave spans pos prefix rest :
  str_len prefix = pos -> chained pos (str_len (prefix +:+ rest)) spans ->
  foldr (fun s t => apply_span t s) (prefix +:+ rest) spans = prefix +:+ weave pos rest spans.
Proof.
  revert pos prefix rest. induction spans as [|s spans IH]; intros pos prefix rest Hp; cbn; [done|].
  intros [Hs Hch]. pose proof (chained_le _ _ _ Hch) as Hle. rewrite str_app_length in Hle.
  rewrite <- (str_take_drop (sp_end s - pos) rest) at 1. rewrite <- str_app_assoc.
  set (mid := str_take (sp_end s - pos) rest). set (tail := str_drop (sp_end s - pos) rest).
  assert (str_len (prefix +:+ mid) = sp_end s) as Hmid.
  { rewrite str_app_length. unfold mid. rewrite str_len_take by lia. lia. }
  rewrite (IH (sp_end s) (prefix +:+ mid) tail Hmid).
  2: { rewrite str_app_assoc. unfold mid, tail. by rewrite str_take_drop. }
  assert (mid = str_take (sp_start s - pos) rest +:+ str_drop (sp_start s - pos) mid) as Hsplit.
  { rewrite <- (str_take_drop (sp_start s - pos) mid) at 1. f_equal. unfold mid.
    rewrite str_take_take. f_equal. lia. }
  rewrite Hsplit, <- (str_app_assoc prefix). rewrite apply_span_app.
  - by rewrite str_app_assoc.
  - by rewrite str_app_assoc, <- Hsplit.
  - rewrite str_app_length, str_len_take by lia. lia.
Qed.

Lemma fold_left_rev_foldr (f : string -> span -> string) l t :
  fold_left f l t = foldr (fun s t => f t s) t (rev l).
Proof. by rewrite <- fold_left_rev_right. Qed.

Definition mark (s : span) : nat * nat := (sp_start s, sp_end s).

(** Spans from the largest mark to the smallest, with distinct and disjoint
    marks, are chained when read backwards. *)
Lemma sorted_chained len spans :
  StronglySorted (fun a b => span_geb a b = true) spans ->
  NoDup (mark <$> spans) ->
  Forall (fun s => (sp_start s <= sp_end s <= len)%nat) spans ->
  (forall a b, a ∈ spans -> b ∈ spans -> mark a <> mark b -> disjoint_spans (mark a) (mark b)) ->
  chained 0 len (rev spans).
Proof.
  intros Hs Hnd Hle Hdis.
  assert (forall pre pos, chained pos len pre ->
     Forall (fun s => sp_end s <= pos)%nat spans -> chained 0 len (rev spans ++ pre)) as Hgen.
  2: { rewrite <- (app_nil_r (rev spans)). apply (Hgen [] len); [cbn; lia|].
       eapply Forall_impl; [exact Hle|]. cbn. lia. }
  induction Hs as [|s spans Hs IH Hhd]; intros pre pos Hpre Hpos.
  { cbn. clear -Hpre. destruct pre as [|x pre]; cbn in *; [lia|]. intuition lia. }
  cbn. rewrite <- app_assoc. cbn in Hnd. apply NoDup_cons in Hnd as [Hs0 Hnd].
  apply Forall_cons in Hle as [Hle0 Hle], Hpos as [Hpos0 Hpos].
  apply (IH Hnd Hle ltac:(intros; apply Hdis; set_solver) _ (sp_start s)).
  - cbn. split; [lia|].
    destruct pre as [|x pre]; cbn in *; [lia|]. destruct Hpre. split; [lia|done].
  - apply Forall_forall. intros t Ht. rewrite Forall_forall in Hhd, Hle.
    specialize (Hhd t Ht). specialize (Hle t Ht). cbn in Hle.
    assert (mark s <> mark t) as Hne.
    { intros E. destruct Hs0. rewrite E. apply list_elem_of_fmap. eauto. }
    specialize (Hdis s t ltac:(set_solver) ltac:(set_solver) Hne).
    unfold span_geb in Hhd. unfold disjoint_spans, mark in *. cbn in *.
    apply orb_true_iff in Hhd as [E|E]; [apply Nat.ltb_lt in E; lia|].
    apply andb_true_iff in E as [E1%Nat.eqb_eq E2%Nat.leb_le]. destruct Hdis; [|lia].
    exfalso. apply Hne. f_equal; lia.
Qed.

Lemma span_geb_total a b : span_geb a b = true \/ span_geb b a = true.
Proof.
  unfold span_geb. rewrite !orb_true_iff, !andb_true_iff, !Nat.ltb_lt, !Nat.eqb_eq, !Nat.leb_le. lia.
Qed.

Lemma span_geb_trans a b c : span_geb a b = true -> span_geb b c = true -> span_geb a c = true.
Proof.
  unfold span_geb. rewrite !orb_true_iff, !andb_true_iff, !Nat.ltb_lt, !Nat.eqb_eq, !Nat.leb_le. lia.
Qed.

(** ** Lemmas: nodes *)

Lemma mapping_value_spans pairs k n p :
  mapping_value pairs k = Some n -> p ∈ scalar_spans n -> p ∈ scalar_spans (MappingNode pairs).
Proof.
  unfold mapping_value. intros Hm Hp. apply fmap_Some in Hm as (kv & Hf & ->).
  apply find_some in Hf as [Hin _]. cbn. apply list_elem_of_In, in_flat_map.
  exists kv. split; [done|]. apply in_or_app. right. by apply list_elem_of_In.
Qed.

Lemma item_spans items n p :
  n ∈ items -> p ∈ scalar_spans n -> p ∈ scalar_spans (SequenceNode items).
Proof.
  intros Hn Hp. cbn. apply list_elem_of_In, in_flat_map.
  exists n. split; by apply list_elem_of_In.
Qed.

Lemma node_value_at_spans root segs n p :
  node_value_at root segs = Ok n -> p ∈ scalar_spans n -> p ∈ scalar_spans root.
Proof.
  revert root. induction segs as [|g segs IH]; intros root; cbn [node_value_at]; [by intros [= ->]|].
  destruct root as [| |pairs]; try done. intros (c & Hc%raise_none_Ok & Hn)%bind_Ok Hp.
  eapply mapping_value_spans; [exact Hc|]. apply bind_Ok in Hn as (c' & Hc' & Hn).
  specialize (IH c' Hn Hp). destruct (selected_name g) as [x|]; [|by injection Hc' as ->].
  destruct c as [|items|]; try done. apply raise_none_Ok, the_one_Some in Hc'.
  eapply item_spans; [|exact IH].
  assert (c' ∈ keep (named_node x) items) as Hk by (rewrite Hc'; set_solver).
  by apply elem_of_keep in Hk as [? _].
Qed.

(** ** Lemmas: the loop over the replacements *)

Lemma scalar_step_declared original root st r st' :
  scalar_step original root st r = Ok st' -> declared_step false original root st r = Ok st'.
Proof.
  unfold scalar_step, declared_step. destruct st as [e sp].
  intros (c & -> & (? & Hc%raise_if_Ok & Ht)%bind_Ok)%bind_Ok. cbn [mbind res_bind andb].
  rewrite Hc. cbn [raise_if mbind res_bind]. apply bind_Ok in Ht as (t & -> & Ht). cbn [mbind res_bind].
  by destruct t.
Qed.

Lemma scalar_loop_declared original root rs st st' :
  foldr_res (scalar_step original root) st rs = Ok st' ->
  foldr_res (declared_step false original root) st rs = Ok st'.
Proof.
  revert st. induction rs as [|r rs IH]; intros st; cbn; [done|].
  intros (st1 & Hst%scalar_step_declared & Hrest)%bind_Ok. rewrite Hst. cbn. by apply IH.
Qed.

(** The replacements that still change the text. *)
Definition pending (allow : bool) (original : dict) (rs : list ScalarFieldReplacement)
    : list ScalarFieldReplacement :=
  keep (fun r => negb (allow && applied original r)) rs.

Lemma declared_step_spec allow original root e sp r e' sp' :
  declared_step allow original root (e, sp) r = Ok (e', sp') ->
  set_object_value e (field_path_segments (field_path r)) (desired_value r) = Ok e' /\
  fresh allow original r /\
  (if allow && applied original r then sp' = sp
   else exists s, target root r s /\ sp' = s :: sp).
Proof.
  unfold declared_step, fresh, applied. intros (c & -> & Hd)%bind_Ok. cbn in Hd |- *.
  destruct (allow && same_scalar c (desired_value r)) eqn:E.
  - res_inv. apply andb_true_iff in E as [-> E]. eauto 8.
  - apply bind_Ok in Hd as (? & Hc%raise_if_Ok & (t & Ht & Hd)%bind_Ok).
    apply negb_false_iff in Hc. destruct t as [v style a b| |]; try done.
    apply bind_Ok in Hd as (enc & He & (e1 & Hs & [= <- <-])%bind_Ok).
    split; [done|]. split; [eauto|]. exists (Span a b enc). split; [|done]. by exists v, style.
Qed.

Lemma declared_loop_spec allow original root rs e sp e' sp' :
  foldr_res (declared_step allow original root) (e, sp) rs = Ok (e', sp') ->
  set_all e (writes rs) = Ok e' /\ Forall (fresh allow original) rs /\
  exists spans, sp' = rev spans ++ sp /\ Forall2 (target root) (pending allow original rs) spans.
Proof.
  revert e sp. induction rs as [|r rs IH]; intros e sp; cbn.
  - intros [= <- <-]. split; [done|]. split; [constructor|]. by exists [].
  - intros ([e1 sp1] & (Hset & Hfr & Hsp)%declared_step_spec & (Hall & HF & spans & -> & HT)%IH)%bind_Ok.
    rewrite Hset. cbn. split; [done|]. split; [by constructor|].
    destruct (allow && applied original r); cbn.
    + exists spans. by subst.
    + destruct Hsp as (s & Hs & ->). exists (s :: spans). cbn. rewrite <- app_assoc.
      split; [done|by constructor].
Qed.

Lemma pending_strict original rs : pending false original rs = rs.
Proof. by apply keep_true. Qed.

Lemma target_marks root rs spans s :
  Forall2 (target root) rs spans -> s ∈ spans -> mark s ∈ scalar_spans (MappingNode root).
Proof.
  induction 1 as [|r s' rs spans (v & st & Hn & _) _ IH]; [set_solver|].
  intros [->|?]%elem_of_cons; [|by apply IH].
  eapply node_value_at_spans; [exact Hn|]. cbn. set_solver.
Qed.

(** Splicing spans of scalars rewrites the source from left to right. *)
Lemma splice_weave `{!YamlMarks} source nodes root spans :
  yaml_compose_all source = Ok nodes -> MappingNode root ∈ nodes ->
  (forall s, s ∈ spans -> mark s ∈ scalar_spans (MappingNode root)) ->
  marks_distinct spans = true ->
  exists chain, splice source spans = weave 0 source chain /\
    chained 0 (str_len source) chain /\ chain ≡ₚ spans.
Proof.
  intros Hc Hroot Hin Hd. apply no_dup_spec in Hd. fold (mark <$> spans) in Hd.
  set (sorted := isort span_geb spans).
  assert (sorted ≡ₚ spans) as Hperm by apply isort_perm.
  assert (chained 0 (str_len source) (rev sorted)) as Hch.
  { apply sorted_chained.
    - apply isort_sorted; [apply span_geb_total|apply span_geb_trans].
    - by rewrite Hperm.
    - rewrite Hperm. apply Forall_forall. intros s Hs.
      by apply (yaml_marks_inside source nodes (MappingNode root) (mark s)); [..|apply Hin].
    - intros a b. rewrite Hperm. intros Ha Hb Hne.
      eapply yaml_marks_disjoint; [exact Hc|exact Hroot|exact Hroot|by apply Hin..|done]. }
  exists (rev sorted). split; [|split; [done|by rewrite <- Permutation_rev]].
  unfold splice. rewrite fold_left_rev_foldr. by apply (fold_weave _ 0 "").
Qed.

(** ** Lemmas: the patched object *)

Definition paths (rs : list ScalarFieldReplacement) : list (list FieldPathSegment) :=
  (fun r => field_path_segments (field_path r)) <$> rs.

Lemma writes_paths rs : (writes rs).*1 = paths rs.
Proof. unfold writes, paths. by rewrite <- list_fmap_compose. Qed.

Definition current_scalars (rs : list ScalarFieldReplacement) : Prop :=
  Forall (fun r => scalar_value (current_value r) = true) rs.
Definition selections_kept (rs : list ScalarFieldReplacement) : Prop :=
  Forall (fun s => keeps_selection s = true) (paths rs).

(** A fresh target with scalar values is a scalar of the document. *)
Lemma fresh_scalar allow original r :
  scalar_value (current_value r) = true -> scalar_value (desired_value r) = true ->
  fresh allow original r ->
  exists v, object_value_at (VDict original) (field_path_segments (field_path r)) = Ok v /\
    scalar_value v = true.
Proof.
  intros Hc Hd (v & Hv & Hs). exists v. split; [done|].
  destruct Hs as [E|[_ E]]; apply same_scalar_type in E; congruence.
Qed.

Lemma fresh_independent allow original rs :
  NoDup (field_path <$> rs) -> current_scalars rs ->
  Forall (fun r => scalar_value (desired_value r) = true) rs -> selections_kept rs ->
  Forall (fresh allow original) rs -> independent (paths rs).
Proof.
  induction rs as [|r rs IH]; [done|]. cbn. intros [Hr Hnd]%NoDup_cons.
  intros [Hc Hcs]%Forall_cons [Hd Hds]%Forall_cons [Hk Hks]%Forall_cons [Hf Hfs]%Forall_cons.
  split; [done|]. split; [|by apply IH].
  apply Forall_forall. intros t (r' & -> & Hin)%list_elem_of_fmap.
  unfold current_scalars in Hcs. rewrite Forall_forall in Hcs, Hds, Hfs.
  destruct (fresh_scalar _ _ _ Hc Hd Hf) as (v & Hv & Sv).
  destruct (fresh_scalar _ _ _ (Hcs _ Hin) (Hds _ Hin) (Hfs _ Hin)) as (w & Hw & Sw).
  apply (scalars_diverge _ _ _ _ _ Hv Hw Sv Sw). intros E.
  destruct Hr. apply list_elem_of_fmap. exists r'. split; [|done].
  apply field_path_segments_inj; [|done]. intros E'. rewrite E' in Hv. cbn in Hv. by simplify_eq.
Qed.

(** After independent writes, each target holds its new value and every
    path beside the targets reads as before. *)
Lemma writes_read original rs expected :
  set_all (VDict original) (writes rs) = Ok expected -> independent (paths rs) ->
  (forall r, r ∈ rs -> value_at_path expected (field_path r) = Ok (desired_value r)) /\
  (forall t, Forall (fun s => diverge s t = true) (paths rs) ->
     object_value_at expected t = object_value_at (VDict original) t).
Proof.
  intros Hset Hind. rewrite <- writes_paths in *. split.
  - intros r Hr. eapply set_all_read; [exact Hset|done|]. apply list_elem_of_fmap. eauto.
  - intros t Ht. by eapply set_all_frame.
Qed.

Lemma parse_single_manifest_yaml source d :
  parse_single_manifest source RAW_YAML = Ok d -> yaml_safe_load_all source = Ok [VDict d].
Proof.
  unfold parse_single_manifest. change (str_eqb RAW_YAML RAW_JSON) with false.
  intros (? & _ & (v & Hv%catch_Ok & Hd%raise_none_Ok)%bind_Ok)%bind_Ok.
  apply bind_Ok in Hv as (docs & -> & ->%raise_none_Ok%the_one_Some).
  destruct v; simplify_eq/=. done.
Qed.

Lemma read_approved_parse source ty sha original :
  read_approved source ty sha = Ok original -> parse_single_manifest source ty = Ok original.
Proof. unfold read_approved. intros H'. by res_inv. Qed.

Lemma compose_one_nodes source root :
  compose_one source = Ok root -> yaml_compose_all source = Ok [MappingNode root].
Proof.
  unfold compose_one, compose_checked.
  intros (nodes & Hn%catch_Ok & (n & Hn1%raise_none_Ok & Hn2%raise_none_Ok)%bind_Ok)%bind_Ok.
  apply bind_Ok in Hn as (? & _ & (? & _ & ->)%bind_Ok).
  apply the_one_Some in Hn1 as ->. destruct n; simplify_eq/=. done.
Qed.

Lemma materialize_scalar_replacements_spec source ty sha rs patched :
  materialize_scalar_replacements source ty sha rs = Ok patched ->
  exists original root expected spans reread,
    read_approved source ty sha = Ok original /\ compose_one source = Ok root /\
    set_all (VDict original) (writes rs) = Ok expected /\ Forall (fresh false original) rs /\
    Forall2 (target root) rs spans /\ marks_distinct spans = true /\ patched = splice source spans /\
    parse_single_manifest patched ty = Ok reread /\ py_eqb (VDict reread) expected = true.
Proof.
  unfold materialize_scalar_replacements.
  intros (original & Ho & (root & Hr & ([expected sp] & Hl & Hm)%bind_Ok)%bind_Ok)%bind_Ok.
  apply scalar_loop_declared, declared_loop_spec in Hl as (Hset & Hfr & spans & -> & HF).
  rewrite app_nil_r, pending_strict in *. rewrite rev_involutive in Hm.
  apply bind_Ok in Hm as (? & Hd%raise_if_Ok & (reread & Hp & (? & He%raise_if_Ok & [= <-])%bind_Ok)%bind_Ok).
  apply negb_false_iff in He, Hd. apply no_dup_spec in Hd.
  exists original, root, expected, spans, reread. repeat split; try done.
  apply no_dup_spec. by rewrite <- Permutation_rev in Hd.
Qed.

(** The object a patch of a manifest produces, by its reads. *)
Lemma materialize_scalar_replacements_reads `{!YamlDicts} source sha rs patched :
  materialize_scalar_replacements source RAW_YAML sha rs = Ok patched ->
  NoDup (field_path <$> rs) -> current_scalars rs ->
  Forall (fun r => scalar_value (desired_value r) = true) rs -> selections_kept rs ->
  exists original reread,
    read_approved source RAW_YAML sha = Ok original /\
    parse_single_manifest patched RAW_YAML = Ok reread /\ Forall (fresh false original) rs /\
    (forall r, r ∈ rs -> res_equiv (value_at_path (VDict reread) (field_path r)) (Ok (desired_value r))) /\
    (forall t, Forall (fun s => diverge s t = true) (paths rs) ->
       res_equiv (object_value_at (VDict reread) t) (object_value_at (VDict original) t)).
Proof.
  intros Hm Hnd Hc Hd Hk.
  apply materialize_scalar_replacements_spec in Hm
    as (original & root & expected & spans & reread & Ho & _ & Hset & Hfr & _ & _ & _ & Hp & He).
  pose proof (fresh_independent _ _ _ Hnd Hc Hd Hk Hfr) as Hind.
  destruct (writes_read _ _ _ Hset Hind) as [Hw Hf].
  assert (unique_keys (VDict reread) = true) as Hu.
  { eapply yaml_unique_keys; [exact (parse_single_manifest_yaml _ _ Hp)|set_solver]. }
  exists original, reread. repeat split; try done.
  - intros r Hr. rewrite <- (Hw r Hr). by apply read_equiv.
  - intros t Ht. rewrite <- (Hf t Ht). by apply read_equiv.
Qed.

Lemma approved_plan_fields plan :
  approved_plan plan ->
  (current_scalars (replacements plan) /\
   Forall (fun r => scalar_value (desired_value r) = true) (replacements plan)) /\
  (current_scalars (rollback_replacements plan) /\
   Forall (fun r => scalar_value (desired_value r) = true) (rollback_replacements plan)).
Proof.
  intros [Hr Hb]%approved_plan_scalars%Forall_app. unfold current_scalars.
  repeat split; (eapply Forall_impl; [eassumption|]); cbn; tauto.
Qed.

Lemma approved_plan_paths plan :
  approved_plan plan -> paths (rollback_replacements plan) ≡ₚ paths (replacements plan).
Proof.
  intros (rb & Hp & HF)%inverse_perm. unfold paths. rewrite <- Hp.
  replace ((fun r => field_path_segments (field_path r)) <$> rb)
    with ((fun r => field_path_segments (field_path r)) <$> replacements plan); [done|].
  clear Hp. induction HF as [|a b ? ? [E _] _ IH]; cbn; [done|]. by rewrite E, IH.
Qed.

(** ** Properties *)

(** C6: patching a manifest replaces the text of the approved scalars and
    nothing else: the result is the source, read from left to right, with each
    approved scalar's span replaced by its encoded new value, and every other
    character kept. *)
Theorem scalar_patch_text `{!YamlMarks} source plan patched :
  materialize_scalar_patch source plan = Ok patched ->
  exists root spans chain,
    compose_one source = Ok root /\ Forall2 (target root) (replacements plan) spans /\
    chain ≡ₚ spans /\ chained 0 (str_len source) chain /\ patched = weave 0 source chain.
Proof.
  unfold materialize_scalar_patch. intros (? & _ & Hm)%bind_Ok.
  apply materialize_scalar_replacements_spec in Hm
    as (? & root & ? & spans & ? & _ & Hc & _ & _ & HF & Hd & -> & _).
  destruct (splice_weave source _ root spans (compose_one_nodes _ _ Hc) ltac:(set_solver)
    (fun s => target_marks _ _ _ s HF) Hd) as (chain & Hw & Hch & Hp).
  exists root, spans, chain. by rewrite Hw.
Qed.

(** a patched manifest was the approved Deployment, holds the new value
    at every approved path, and reads as before at every path that parts from
    the approved ones. *)
Theorem scalar_patch_frame `{!YamlDicts} source plan patched :
  materialize_scalar_patch source plan = Ok patched -> selections_kept (replacements plan) ->
  exists original reread,
    read_approved source RAW_YAML (source_manifest_sha256 plan) = Ok original /\
    parse_single_manifest patched RAW_YAML = Ok reread /\
    (forall r, r ∈ replacements plan ->
       res_equiv (value_at_path (VDict reread) (field_path r)) (Ok (desired_value r))) /\
    (forall t, Forall (fun s => diverge s t = true) (paths (replacements plan)) ->
       res_equiv (object_value_at (VDict reread) t) (object_value_at (VDict original) t)).
Proof.
  unfold materialize_scalar_patch. intros ([] & Hv%validate_scalar_patch_plan_spec & Hm)%bind_Ok Hk.
  destruct (approved_plan_fields _ Hv) as [[Hc Hd] _]. destruct Hv. rewrite pl_type0 in Hm.
  eapply materialize_scalar_replacements_reads in Hm as (original & reread & ? & ? & _ & ? & ?); eauto 8.
Qed.

(** undoing a patch restores the manifest: after the forward patch and
    the rollback, every approved path and every path beside them reads as in
    the source. *)
Theorem scalar_rollback_restores `{!YamlDicts} source plan patched sha back original :
  materialize_scalar_patch source plan = Ok patched ->
  materialize_scalar_rollback patched plan sha = Ok back ->
  selections_kept (replacements plan) ->
  parse_single_manifest source RAW_YAML = Ok original -> no_floats (VDict original) = true ->
  exists restored, parse_single_manifest back RAW_YAML = Ok restored /\
    forall t, t ∈ paths (replacements plan) \/
              Forall (fun s => diverge s t = true) (paths (replacements plan)) ->
      res_equiv (object_value_at (VDict restored) t) (object_value_at (VDict original) t).
Proof.
  unfold materialize_scalar_patch, materialize_scalar_rollback.
  intros ([] & Hv%validate_scalar_patch_plan_spec & Hm)%bind_Ok (? & _ & (? & _ & Hb)%bind_Ok)%bind_Ok.
  intros Hk Ho Hnf. pose proof (approved_plan_paths _ Hv) as Hpp.
  destruct (inverse_perm _ Hv) as (rb & Hperm & HF).
  destruct (approved_plan_fields _ Hv) as [[Hc Hd] [Hc' Hd']]. destruct Hv. rewrite pl_type0 in *.
  eapply materialize_scalar_replacements_reads in Hm
    as (original' & reread & Ho' & Hre & Hfr & Hw & Hf); [|done..].
  apply read_approved_parse in Ho'. rewrite Ho in Ho'. injection Ho' as <-.
  eapply materialize_scalar_replacements_reads in Hb
    as (reread' & restored & Hre' & Hback & _ & Hw' & Hf'); [|done..|unfold selections_kept; by rewrite Hpp].
  apply read_approved_parse in Hre'. rewrite Hre in Hre'. injection Hre' as <-.
  exists restored. split; [done|]. intros t [Ht|Ht].
  - apply list_elem_of_fmap in Ht as (r & -> & Hr). rewrite Forall_forall in Hfr.
    destruct (Hfr r Hr) as (v & Hv & [Hcur|[? _]]); [|done]. rewrite Hv.
    destruct (Forall2_elem_of_l _ _ _ _ HF Hr) as (b & Hb & Hbp & _ & Hbd).
    rewrite Hperm in Hb. specialize (Hw' b Hb). unfold value_at_path in Hw'. rewrite Hbp in Hw'.
    pose proof (read_no_floats _ _ _ Hnf Hv) as Hnv.
    assert (scalar_value v = true) as Sv.
    { rewrite (same_scalar_type _ _ Hcur). unfold current_scalars in Hc. rewrite Forall_forall in Hc.
      by apply Hc. }
    eapply res_equiv_trans; [by intros ? [= <-]|exact Hw'|]. cbn.
    eapply py_eqb_trans; [done| |by apply same_scalar_sym].
    unfold same_scalar in Hbd. by apply andb_true_iff in Hbd as [_ ?].
  - eapply res_equiv_trans; [|apply Hf'; by rewrite Hpp|by apply Hf].
    intros v Hv. by eapply read_no_floats.
Qed.

(** What a run of the declared patch goes through. *)
Lemma materialize_declared_spec source patch allow patched :
  materialize_declared_scalar_patch source patch allow = Ok patched ->
  exists nodes originals index original root expected spans documents,
    yaml_compose_all source = Ok nodes /\ yaml_safe_load_all source = Ok originals /\
    document_index originals (document_identity patch) = Ok index /\
    originals !! index = Some (VDict original) /\ nodes !! index = Some (MappingNode root) /\
    set_all (VDict original) (writes (ds_replacements patch)) = Ok expected /\
    Forall (fresh allow original) (ds_replacements patch) /\
    Forall2 (target root) (pending allow original (ds_replacements patch)) spans /\
    marks_distinct spans = true /\ patched = splice source spans /\
    yaml_safe_load_all patched = Ok documents /\
    py_eqb (VList documents) (VList (<[index := expected]> originals)) = true.
Proof.
  unfold materialize_declared_scalar_patch.
  intros (? & _ & (? & _ & ([nodes originals] & Hl%catch_Ok & Hm)%bind_Ok)%bind_Ok)%bind_Ok.
  apply bind_Ok in Hl as (? & _ & (? & _ & (ns & Hns & (os & Hos & [= <- <-])%bind_Ok)%bind_Ok)%bind_Ok).
  apply bind_Ok in Hm as (? & _ & (index & Hi & (original & Ho%raise_none_Ok & Hm)%bind_Ok)%bind_Ok).
  apply bind_Ok in Hm as (root & Hr%raise_none_Ok & ([expected sp] & Hloop & Hm)%bind_Ok).
  apply bind_Some in Ho as (o & Ho & Hod), Hr as (n & Hn & Hnm).
  destruct o; simplify_eq/=. destruct n; simplify_eq/=.
  apply declared_loop_spec in Hloop as (Hset & Hfr & spans & -> & HF).
  rewrite app_nil_r, rev_involutive in *.
  apply bind_Ok in Hm as (? & Hd%raise_if_Ok & (docs & Hdocs%catch_Ok & (? & He%raise_if_Ok & [= <-])%bind_Ok)%bind_Ok).
  apply negb_false_iff in He, Hd. apply no_dup_spec in Hd.
  exists ns, os, index, original, root, expected, spans, docs. repeat split; try done.
  apply no_dup_spec. by rewrite <- Permutation_rev in Hd.
Qed.

(** a declared patch fails closed and is minimal: when it succeeds,
    every target held the approved old value (or, on a retry, already the new
    one), the text changes exactly at the targets that still had the old
    value, a source with every value in place comes back unchanged, and every
    other document of the source reads the same. *)
Theorem declared_patch_minimal `{!YamlMarks} source patch allow patched :
  materialize_declared_scalar_patch source patch allow = Ok patched ->
  exists originals index original root spans chain documents,
    yaml_safe_load_all source = Ok originals /\ originals !! index = Some (VDict original) /\
    Forall (fresh allow original) (ds_replacements patch) /\
    Forall2 (target root) (pending allow original (ds_replacements patch)) spans /\
    chain ≡ₚ spans /\ chained 0 (str_len source) chain /\ patched = weave 0 source chain /\
    (pending allow original (ds_replacements patch) = [] -> patched = source) /\
    yaml_safe_load_all patched = Ok documents /\
    (forall j d, j <> index -> originals !! j = Some d ->
       exists d', documents !! j = Some d' /\ py_eqb d' d = true).
Proof.
  intros (nodes & originals & index & original & root & expected & spans & documents & Hc & Ho & _ &
    Hoi & Hn & _ & Hfr & HF & Hd & -> & Hdocs & He)%materialize_declared_spec.
  apply list_elem_of_lookup_2 in Hn as Hroot.
  destruct (splice_weave source nodes root spans Hc Hroot
    (fun s => target_marks _ _ _ s HF) Hd) as (chain & Hw & Hch & Hp).
  exists originals, index, original, root, spans, chain, documents.
  repeat split; try done.
  - intros Hnil. rewrite Hnil in HF. inversion HF; subst. done.
  - intros j d Hj Hjd. rewrite py_eqb_list in He. apply py_list_eqb_Forall2 in He.
    assert (<[index := expected]> originals !! j = Some d) as Hl by (by rewrite list_lookup_insert_ne).
    destruct (Forall2_lookup_r _ _ _ _ _ He Hl) as (d' & ? & ?). eauto.
Qed.

(** ** The image patch *)

(** [s] replaces the image of the one container [r] names, which the source
    holds with [r]'s current image. *)
Definition image_target (root : list (node * node)) (r : ImageScalarReplacement) (s : span) : Prop :=
  exists style,
    (container_name r, ScalarNode (current_image r) style (sp_start s) (sp_end s))
      ∈ deployment_container_nodes root /\
    encoded_scalar style (previous_image r) = Ok (sp_text s).

Lemma pod_spec_node_spans root pod p :
  pod_spec_node root = Some pod -> p ∈ scalar_spans (MappingNode pod) ->
  p ∈ scalar_spans (MappingNode root).
Proof.
  unfold pod_spec_node. intros Hp Hin.
  apply bind_Some in Hp as (spec & (n1 & H1' & E1)%bind_Some & Hp).
  apply bind_Some in Hp as (template & (n2 & H2' & E2)%bind_Some & (n3 & H3' & E3)%bind_Some).
  destruct n1, n2, n3; simplify_eq/=.
  do 3 (eapply mapping_value_spans; [eassumption|]). done.
Qed.

Lemma container_node_spans root name value style a b :
  (name, ScalarNode value style a b) ∈ deployment_container_nodes root ->
  (a, b) ∈ scalar_spans (MappingNode root).
Proof.
  unfold deployment_container_nodes. destruct (pod_spec_node root) as [pod|] eqn:Hp; [|set_solver].
  intros Hin. eapply pod_spec_node_spans; [exact Hp|].
  apply list_elem_of_In, in_flat_map in Hin as (key & _ & Hin%list_elem_of_In).
  destruct (mapping_value pod key) as [[|items|]|] eqn:Hk; try set_solver.
  apply list_elem_of_omap in Hin as (item & Hitem & Hc).
  eapply mapping_value_spans; [exact Hk|]. eapply item_spans; [exact Hitem|].
  unfold container_node in Hc. destruct item as [| |pairs]; try done.
  destruct (mapping_value pairs "name") as [[]|]; try done.
  destruct (mapping_value pairs "image") as [[]|] eqn:Ei; try done. simplify_eq.
  eapply mapping_value_spans; [exact Ei|]. cbn. set_solver.
Qed.

Lemma image_step_spec root st r expected spans names :
  image_step (deployment_container_nodes root) st r = Ok (expected, spans, names) ->
  exists s, image_target root r s /\ spans = s :: st.1.2 /\ names = container_name r :: st.2 /\
    container_name r ∉ st.2 /\ current_image r <> previous_image r.
Proof.
  unfold image_step. destruct st as [[e sp] used]. intros (? & Hg%raise_if_Ok & Hs)%bind_Ok.
  bool_simpl.
  destruct (keep _ (deployment_container_nodes root)) as [|[n0 node] [|? ?]] eqn:Hk; try done;
    [|by destruct node].
  destruct node as [value style a b| |]; try done.
  destruct (keep _ (deployment_container_objects e)) as [|[[key index] ?] [|? ?]]; try done.
  apply bind_Ok in Hs as (enc & Henc & [= <- <- <-]).
  assert ((n0, ScalarNode value style a b) ∈ [(n0, ScalarNode value style a b)]) as Hin by set_solver.
  rewrite <- Hk in Hin. apply elem_of_keep in Hin as [Hin Hm]. cbn in Hm. bool_simpl.
  match goal with H : str_eqb n0 _ = true |- _ => apply str_eqb_eq in H as -> end. simplify_eq.
  exists (Span a b enc). split; [by exists style|]. repeat split; try done.
  intros E. rewrite E, str_eqb_refl in *. done.
Qed.

Lemma image_loop_spec root rs st expected spans names :
  foldr_res (image_step (deployment_container_nodes root)) st rs = Ok (expected, spans, names) ->
  exists ss, spans = rev ss ++ st.1.2 /\ Forall2 (image_target root) rs ss /\
    (NoDup st.2 -> NoDup (rev (container_name <$> rs) ++ st.2)).
Proof.
  revert st. induction rs as [|r rs IH]; intros st; cbn.
  - intros [= ->]. exists []. cbn. done.
  - intros ([[e1 sp1] u1] & (s & Ht & -> & -> & Hu & _)%image_step_spec & (ss & -> & HF & Hnd)%IH)%bind_Ok.
    exists (s :: ss). cbn in *. rewrite <- !app_assoc. split; [done|]. split; [by constructor|].
    intros Hn. cbn. apply Hnd. by constructor.
Qed.

(** patching images replaces the image texts of distinct, uniquely
    matched containers that held the expected image, and keeps every other
    character of the source. *)
Theorem image_patch_text `{!YamlMarks} source ty sha rs patched :
  materialize_image_patch source ty sha rs = Ok patched ->
  NoDup (container_name <$> rs) /\
  exists root spans chain,
    compose_one source = Ok root /\ Forall2 (image_target root) rs spans /\
    chain ≡ₚ spans /\ chained 0 (str_len source) chain /\ patched = weave 0 source chain.
Proof.
  unfold materialize_image_patch.
  intros (original & _ & (? & _ & (root & Hroot & ([[expected sp] names] & Hl & Hm)%bind_Ok)%bind_Ok)%bind_Ok)%bind_Ok.
  apply image_loop_spec in Hl as (spans & Hsp & HF & Hnd). cbn in *. rewrite app_nil_r in *. subst sp.
  apply bind_Ok in Hm as (? & Hd%raise_if_Ok & (reread & _ & (? & _ & [= <-])%bind_Ok)%bind_Ok).
  apply negb_false_iff, no_dup_spec in Hd. rewrite <- Permutation_rev in Hd.
  rewrite rev_involutive. split.
  { rewrite (Permutation_rev (container_name <$> rs)). apply Hnd. constructor. }
  destruct (splice_weave source _ root spans (compose_one_nodes _ _ Hroot)) as (chain & Hw & Hch & Hp).
  - set_solver.
  - intros s Hs. clear -HF Hs. induction HF as [|r s' rs ss (st & Hn & _) _ IH]; [set_solver|].
    apply elem_of_cons in Hs as [->|?]; [by eapply container_node_spans|by apply IH].
  - by apply no_dup_spec.
  - exists root, spans, chain. by rewrite Hw.
Qed.

End Materialize.

(** ** Witnesses *)

Definition sample_object (image : string) (replicas : Z) : pyval :=
  VDict [("kind", VStr "Deployment");
         ("spec", VDict [("replicas", VInt replicas);
           ("template", VDict [("spec", VDict [("containers",
             VList [VDict [("name", VStr "api"); ("image", VStr image)]])])])])].

Definition sample_node (image replicas : string) : node :=
  let w := Demo.word in
  MappingNode [(w "kind", w "Deployment");
    (w "spec", MappingNode [(w "replicas", ScalarNode replicas None 36 37);
      (w "template", MappingNode [(w "spec", MappingNode [(w "containers",
         SequenceNode [MappingNode [(w "name", w "api");
                                    (w "image", ScalarNode image None 89 95)]])])])])].

Definition sample_text (image replicas : string) : string :=
  "{kind: Deployment, spec: {replicas: " +:+ replicas
  +:+ ", template: {spec: {containers: [{name: api, image: " +:+ image +:+ "}]}}}}".

Definition sample_table : Demo.table :=
  [(sample_text "shop:1" "1", ([sample_node "shop:1" "1"], [sample_object "shop:1" 1]));
   (sample_text "shop:1" "3", ([sample_node "shop:1" "3"], [sample_object "shop:1" 3]));
   (sample_text "shop:2" "1", ([sample_node "shop:2" "1"], [sample_object "shop:2" 1]))].

Definition sample_yaml : YamlLib := Demo.table_yaml sample_table.
Definition sample_hash : Sha256 := Demo.constant_hash sample_hex.
#[global] Instance sample_marks : @YamlMarks sample_yaml.
Proof. apply Demo.table_marks. vm_compute. reflexivity. Defined.
#[global] Instance sample_dicts : @YamlDicts sample_yaml.
Proof. apply Demo.table_dicts. vm_compute. reflexivity. Defined.

Lemma scalar_patch_text_witness :
  exists root spans chain,
    @compose_one sample_yaml (sample_text "shop:1" "1") = Ok root /\
    Forall2 (@target sample_yaml Demo.plain_repr root) (replacements sample_scale_plan) spans /\
    chain ≡ₚ spans /\ chained 0 (str_len (sample_text "shop:1" "1")) chain /\
    sample_text "shop:1" "3" = weave 0 (sample_text "shop:1" "1") chain.
Proof.
  apply (@scalar_patch_text sample_yaml Demo.no_json Demo.plain_repr sample_hash sample_marks
    (sample_text "shop:1" "1") sample_scale_plan (sample_text "shop:1" "3")).
  vm_compute. reflexivity.
Defined.

Lemma scalar_patch_frame_witness :
  exists original reread,
    @read_approved sample_yaml Demo.no_json Demo.plain_repr sample_hash
      (sample_text "shop:1" "1") RAW_YAML ("sha256:" +:+ sample_hex) = Ok original /\
    @parse_single_manifest sample_yaml Demo.no_json (sample_text "shop:1" "3") RAW_YAML = Ok reread /\
    (forall r, r ∈ replacements sample_scale_plan ->
       res_equiv (value_at_path (VDict reread) (field_path r)) (Ok (desired_value r))) /\
    (forall t, Forall (fun s => diverge s t = true) (paths (replacements sample_scale_plan)) ->
       res_equiv (object_value_at (VDict reread) t) (object_value_at (VDict original) t)).
Proof.
  apply (@scalar_patch_frame sample_yaml Demo.no_json Demo.plain_repr sample_hash sample_dicts
    (sample_text "shop:1" "1") sample_scale_plan (sample_text "shop:1" "3")).
  - vm_compute. reflexivity.
  - repeat constructor.
Defined.

Lemma scalar_rollback_restores_witness :
  exists restored,
    @parse_single_manifest sample_yaml Demo.no_json (sample_text "shop:1" "1") RAW_YAML = Ok restored /\
    forall t, t ∈ paths (replacements sample_scale_plan) \/
              Forall (fun s => diverge s t = true) (paths (replacements sample_scale_plan)) ->
      res_equiv (object_value_at (VDict restored) t) (object_value_at (sample_object "shop:1" 1) t).
Proof.
  apply (@scalar_rollback_restores sample_yaml Demo.no_json Demo.plain_repr sample_hash sample_dicts
    (sample_text "shop:1" "1") sample_scale_plan (sample_text "shop:1" "3")
    ("sha256:" +:+ sample_hex) (sample_text "shop:1" "1")
    (mapping (sample_object "shop:1" 1))).
  - vm_compute. reflexivity.
  - vm_compute. reflexivity.
  - repeat constructor.
  - vm_compute. reflexivity.
  - reflexivity.
Defined.

Definition sample_image_change : ImageScalarReplacement :=
  {| container_name := "api"; current_image := "shop:1"; previous_image := "shop:2" |}.

Lemma image_patch_text_witness :
  NoDup (container_name <$> [sample_image_change]).
Proof.
  apply (@image_patch_text sample_yaml Demo.no_json Demo.plain_repr sample_hash sample_marks
    (sample_text "shop:1" "1") RAW_YAML ("sha256:" +:+ sample_hex) [sample_image_change]
    (sample_text "shop:2" "1")).
  vm_compute. reflexivity.
Defined.

Definition sample_declared : DeclaredScalarPatch :=
  {| ds_source_type := "raw-yaml"; ds_source_path := "apps/api.yaml";
     ds_replacements := [{| field_path := "spec.replicas"; current_value := VInt 1;
                            desired_value := VInt 3 |}];
     document_identity := None |}.

Lemma declared_patch_within_contract_witness :
  exists entry,
    source_for_manifest RemediationContract.sample_contract "apps/api.yaml" = Some entry /\
    ds_source_path sample_declared = RemediationContract.source_path entry.
Proof.
  destruct (declared_patch_within_contract sample_scale_plan RemediationContract.sample_contract
    sample_declared ltac:(vm_compute; reflexivity)) as (entry & H1 & H2 & _).
  exists entry. split; [exact H1|exact H2].
Defined.

Lemma declared_patch_minimal_witness :
  exists originals index original, @yaml_safe_load_all sample_yaml (sample_text "shop:1" "1") = Ok originals /\
    originals !! index = Some (VDict original) /\
    Forall (fresh true original) (ds_replacements sample_declared).
Proof.
  destruct (@declared_patch_minimal sample_yaml Demo.plain_repr sample_marks
    (sample_text "shop:1" "1") sample_declared true (sample_text "shop:1" "3")
    ltac:(vm_compute; reflexivity))
    as (originals & index & original & ? & ? & ? & ? & H1 & H2 & H3 & _).
  exists originals, index, original. split; [exact H1|split; [exact H2|exact H3]].
Defined.

End SourceSplice.
