(* ===== verification/EventStore.v ===== *)
(** * The event tables

    The rows and statements of the event pipeline:
    [src/src/packages/storage/repositories/event.py] (the processing ledger),
    [outbox.py] (the transactional outbox), [dead_letter.py] (the dead letter
    queue), with the envelope of
    [src/src/packages/contracts/event_bus/interfaces.py] and the statuses of
    [processing.py].  A statement is a function on the tables; times are
    microseconds.  [func.now()] is the start of the enclosing transaction and
    is an argument. *)
From S2P Require Import Prelude PyStr PyFloat PyVal Libs.

Module EventStore.

(** ** Data *)

Definition ENVELOPE_SCHEMA_VERSION : Z := 1.

Record EventEnvelope := {
  event_id : string;
  subject : string;
  source : string;
  correlation_id : string;
  causation_id : option string;
  created_at : string;
  payload : dict;
  schema_version : Z;
  workspace_id : option string;
}.

#[global] Instance envelope_eq_dec : EqDecision EventEnvelope.
Proof. solve_decision. Defined.

Inductive EventProcessingStatus := PROCESSING | PROCESSED | RETRYING | DEAD_LETTERED.

#[global] Instance status_eq_dec : EqDecision EventProcessingStatus.
Proof. solve_decision. Defined.

Definition TERMINAL_STATUSES : list EventProcessingStatus := [PROCESSED; DEAD_LETTERED].
Definition terminal (s : EventProcessingStatus) : bool :=
  match s with PROCESSED | DEAD_LETTERED => true | _ => false end.

(** The status of an [EventProcessingRecord]: a stored one, the derived signal
    [CLAIM_BLOCKED], or ["unknown"]. *)
Inductive claim_status := Stored (s : EventProcessingStatus) | CLAIM_BLOCKED | Unknown.

Record EventProcessingRecord := { rec_status : claim_status; rec_attempts : Z }.

(** A row of [event_processing]; its key is (event id, consumer). *)
Record processing_row := {
  pr_subject : string;
  pr_correlation_id : string;
  pr_status : EventProcessingStatus;
  pr_attempts : Z;
  pr_last_error : option string;
  pr_updated_at : Z;
  pr_duration_ms : option Z;
}.

(** A row of [outbox], in the order of its serial key. *)
Record outbox_row := {
  ob_event : EventEnvelope;
  ob_lease_id : option string;
  ob_leased_until : option Z;
  ob_sent_at : option Z;
}.

Inductive dead_letter_status := Open | Replayed.

#[global] Instance dead_letter_status_eq_dec : EqDecision dead_letter_status.
Proof. solve_decision. Defined.

(** A row of [event_dead_letters]; its id is its position. *)
Record dead_letter_row := {
  dl_event_id : string;
  dl_subject : string;
  dl_consumer : string;
  dl_correlation_id : string;
  dl_attempts : Z;
  dl_error : string;
  dl_payload : dict;
  dl_status : dead_letter_status;
  dl_replayed_at : option Z;
  dl_replay_event_id : option string;
}.

(** A row of [events]; its key is the event id, and it has no workspace. *)
Record event_row := {
  er_subject : string;
  er_source : string;
  er_correlation_id : string;
  er_causation_id : option string;
  er_payload : dict;
  er_schema_version : Z;
}.

Definition event_row_of (evt : EventEnvelope) (schema_version : Z) : event_row :=
  {| er_subject := subject evt; er_source := source evt; er_correlation_id := correlation_id evt;
     er_causation_id := causation_id evt; er_payload := payload evt; er_schema_version := schema_version |}.

Record store := {
  events : gmap string event_row;
  processing : gmap (string * string) processing_row;
  outbox : list outbox_row;
  dead_letters : list dead_letter_row;
}.

Definition empty_store : store :=
  {| events := ∅; processing := ∅; outbox := []; dead_letters := [] |}.

Definition set_processing (st : store) (m : gmap (string * string) processing_row) : store :=
  {| events := events st; processing := m; outbox := outbox st; dead_letters := dead_letters st |}.
Definition set_outbox (st : store) (o : list outbox_row) : store :=
  {| events := events st; processing := processing st; outbox := o;
     dead_letters := dead_letters st |}.
Definition set_dead_letters (st : store) (l : list dead_letter_row) : store :=
  {| events := events st; processing := processing st; outbox := outbox st; dead_letters := l |}.

Definition ERROR_MESSAGE_LIMIT : nat := 2000.
Definition compact_error (error : string) : string := str_take ERROR_MESSAGE_LIMIT error.

(** ** The ledger *)

Definition seconds (n : Z) : Z := n * 1000000.

(** [insert ... on conflict do nothing] *)
Definition record_event (st : store) (evt : EventEnvelope) : store :=
  {| events := match events st !! event_id evt with
               | Some _ => events st
               | None => <[event_id evt := event_row_of evt (schema_version evt)]> (events st)
               end;
     processing := processing st; outbox := outbox st; dead_letters := dead_letters st |}.

(** The [where] of the upsert: the claim may be taken over. *)
Definition reclaimable (stale_seconds now : Z) (row : processing_row) : bool :=
  negb (terminal (pr_status row))
  && (negb (bool_decide (pr_status row = PROCESSING))
      || (pr_updated_at row <? now - seconds stale_seconds)).

Definition fresh_claim (evt : EventEnvelope) (now : Z) : processing_row :=
  {| pr_subject := subject evt; pr_correlation_id := correlation_id evt;
     pr_status := PROCESSING; pr_attempts := 1; pr_last_error := None;
     pr_updated_at := now; pr_duration_ms := None |}.

Definition reclaim (row : processing_row) (now : Z) : processing_row :=
  {| pr_subject := pr_subject row; pr_correlation_id := pr_correlation_id row;
     pr_status := PROCESSING; pr_attempts := pr_attempts row + 1; pr_last_error := None;
     pr_updated_at := now; pr_duration_ms := pr_duration_ms row |}.

(** The new tables and the row that [returning] yields. *)
Definition claim_event_processing (stale_seconds now : Z) (st : store) (evt : EventEnvelope)
    (consumer : string) : store * option processing_row :=
  let key := (event_id evt, consumer) in
  match processing st !! key with
  | None =>
      let row := fresh_claim evt now in
      (set_processing st (<[key := row]> (processing st)), Some row)
  | Some row =>
      if reclaimable stale_seconds now row then
        let row' := reclaim row now in
        (set_processing st (<[key := row']> (processing st)), Some row')
      else (st, None)
  end.

Definition get_event_processing (st : store) (evt : EventEnvelope) (consumer : string)
    : option processing_row := processing st !! (event_id evt, consumer).

Definition begin_event_processing (stale_seconds now : Z) (st : store) (evt : EventEnvelope)
    (consumer : string) : store * EventProcessingRecord :=
  match claim_event_processing stale_seconds now st evt consumer with
  | (st', Some row) => (st', {| rec_status := Stored (pr_status row); rec_attempts := pr_attempts row |})
  | (st', None) =>
      (st', match get_event_processing st' evt consumer with
            | Some row =>
                {| rec_status := if bool_decide (pr_status row = PROCESSING) then CLAIM_BLOCKED
                                 else Stored (pr_status row);
                   rec_attempts := pr_attempts row |}
            | None => {| rec_status := Unknown; rec_attempts := 0 |}
            end)
  end.

(** [max(0, int(duration_ms))] when it is given. *)
Definition new_duration (old duration_ms : option Z) : option Z :=
  match duration_ms with Some d => Some (Z.max 0 d) | None => old end.

(** The [update] of one row, which does nothing when it is missing. *)
Definition settle_row (s : EventProcessingStatus) (error : option string) (now : Z)
    (duration_ms : option Z) (row : processing_row) : processing_row :=
  {| pr_subject := pr_subject row; pr_correlation_id := pr_correlation_id row;
     pr_status := s; pr_attempts := pr_attempts row; pr_last_error := error;
     pr_updated_at := now; pr_duration_ms := new_duration (pr_duration_ms row) duration_ms |}.

Definition finish_event_processing (now : Z) (st : store) (evt : EventEnvelope) (consumer : string)
    (duration_ms : option Z) : store :=
  set_processing st
    (alter (settle_row PROCESSED None now duration_ms) (event_id evt, consumer) (processing st)).

Definition fail_event_processing (now : Z) (st : store) (evt : EventEnvelope)
    (consumer error : string) (s : EventProcessingStatus) (duration_ms : option Z) : store :=
  set_processing st
    (alter (settle_row s (Some (compact_error error)) now duration_ms)
       (event_id evt, consumer) (processing st)).

(** ** The outbox *)

Definition has_outbox (st : store) (id : string) : bool :=
  existsb (fun r => str_eqb (event_id (ob_event r)) id) (outbox st).

Definition unsent (evt : EventEnvelope) : outbox_row :=
  {| ob_event := evt; ob_lease_id := None; ob_leased_until := None; ob_sent_at := None |}.

(** [insert ... on conflict (event_id) do nothing], row by row. *)
Definition stage_event (st : store) (evt : EventEnvelope) : store :=
  if has_outbox st (event_id evt) then st else set_outbox st (outbox st ++ [unsent evt]).
Definition stage_events (st : store) (evts : list EventEnvelope) : store :=
  fold_left stage_event evts st.

Definition DEFAULT_OUTBOX_LEASE_SECONDS : Z := 60.

Definition is_none {A} (o : option A) : bool := match o with None => true | Some _ => false end.

Definition claimable (now : Z) (src : option string) (r : outbox_row) : bool :=
  is_none (ob_sent_at r)
  && (is_none (ob_lease_id r)
      || match ob_leased_until r with Some t => t <? now | None => false end)
  && match src with Some s => str_eqb (source (ob_event r)) s | None => true end.

Definition lease (lease_id : string) (until : Z) (r : outbox_row) : outbox_row :=
  {| ob_event := ob_event r; ob_lease_id := Some lease_id; ob_leased_until := Some until;
     ob_sent_at := ob_sent_at r |}.

(** Lease the first [limit] claimable rows. *)
Fixpoint lease_rows (now : Z) (src : option string) (lease_id : string) (until : Z) (limit : nat)
    (rows : list outbox_row) : list outbox_row * list EventEnvelope :=
  match limit, rows with
  | O, _ | _, [] => (rows, [])
  | S limit', r :: rows' =>
      if claimable now src r then
        let '(rest, taken) := lease_rows now src lease_id until limit' rows' in
        (lease lease_id until r :: rest, ob_event r :: taken)
      else
        let '(rest, taken) := lease_rows now src lease_id until limit rows' in (r :: rest, taken)
  end.

(** [now] is the database's clock, [local_now] the caller's, and [lease_id]
    the fresh identifier of the call. *)
Definition unsent_events (now local_now : Z) (lease_id : string) (st : store) (limit : nat)
    (src : option string) : store * list EventEnvelope :=
  let '(rows, taken) :=
    lease_rows now src lease_id (local_now + seconds DEFAULT_OUTBOX_LEASE_SECONDS) limit
      (outbox st) in
  (set_outbox st rows, taken).

Definition sent (now : Z) (r : outbox_row) : outbox_row :=
  {| ob_event := ob_event r; ob_lease_id := None; ob_leased_until := None;
     ob_sent_at := Some now |}.

Definition mark_events_sent (now : Z) (st : store) (ids : list string) : store :=
  set_outbox st
    ((fun r => if bool_decide (event_id (ob_event r) ∈ ids) then sent now r else r) <$> outbox st).

(** ** Dead letters *)

Definition dead_letter_of (evt : EventEnvelope) (consumer error : string) (attempts : Z)
    : dead_letter_row :=
  {| dl_event_id := event_id evt; dl_subject := subject evt; dl_consumer := consumer;
     dl_correlation_id := correlation_id evt; dl_attempts := attempts;
     dl_error := compact_error error; dl_payload := payload evt; dl_status := Open;
     dl_replayed_at := None; dl_replay_event_id := None |}.

Definition record_dead_letter (st : store) (evt : EventEnvelope) (consumer error : string)
    (attempts : Z) : store :=
  set_dead_letters st (dead_letters st ++ [dead_letter_of evt consumer error attempts]).

Definition RAW_DEAD_LETTER_SUBJECT : string := "__decode_failed__".

(** [raw] is the text the bytes decode to, [uid] the fresh identifier. *)
Definition record_raw_dead_letter (st : store) (uid raw consumer error : string) : store :=
  let id := "decode-failure:" +:+ uid in
  set_dead_letters st
    (dead_letters st ++
     [{| dl_event_id := id; dl_subject := RAW_DEAD_LETTER_SUBJECT; dl_consumer := consumer;
         dl_correlation_id := id; dl_attempts := 1; dl_error := compact_error error;
         dl_payload := [("raw", VStr raw)]; dl_status := Open; dl_replayed_at := None;
         dl_replay_event_id := None |}]).

Definition mark_events_dead_lettered (now : Z) (st : store) (evts : list EventEnvelope)
    (consumer error : string) : store :=
  if bool_decide (evts = []) then st
  else mark_events_sent now
         (set_dead_letters st
            (dead_letters st ++ ((fun evt => dead_letter_of evt consumer error 1) <$> evts)))
         (event_id <$> evts).

(** The new tables, and whether this call was the one that replayed it. *)
Definition mark_dead_letter_replayed (now : Z) (st : store) (id : nat) (replay_event_id : string)
    : store * bool :=
  match dead_letters st !! id with
  | Some row =>
      if bool_decide (dl_status row = Open) then
        (set_dead_letters st
           (<[id := {| dl_event_id := dl_event_id row; dl_subject := dl_subject row;
                       dl_consumer := dl_consumer row; dl_correlation_id := dl_correlation_id row;
                       dl_attempts := dl_attempts row; dl_error := dl_error row;
                       dl_payload := dl_payload row; dl_status := Replayed;
                       dl_replayed_at := Some now;
                       dl_replay_event_id := Some replay_event_id |}]> (dead_letters st)), true)
      else (st, false)
  | None => (st, false)
  end.

Definition open_dead_letter_count (st : store) : nat :=
  length (keep (fun r => bool_decide (dl_status r = Open)) (dead_letters st)).
Definition outbox_pending_count (st : store) : nat :=
  length (keep (fun r => is_none (ob_sent_at r)) (outbox st)).

(** ** Lemmas *)

Lemma claim_cases stale now st evt consumer st' o :
  claim_event_processing stale now st evt consumer = (st', o) ->
  match o with
  | Some row => pr_status row = PROCESSING /\ pr_updated_at row = now /\
      processing st' = <[(event_id evt, consumer) := row]> (processing st) /\
      events st' = events st /\ outbox st' = outbox st /\ dead_letters st' = dead_letters st /\
      match processing st !! (event_id evt, consumer) with
      | None => pr_attempts row = 1
      | Some old => reclaimable stale now old = true /\ pr_attempts row = pr_attempts old + 1
      end
  | None => st' = st /\ exists old, processing st !! (event_id evt, consumer) = Some old /\
      reclaimable stale now old = false
  end.
Proof.
  unfold claim_event_processing. destruct (processing st !! _) as [old|] eqn:E.
  - destruct (reclaimable stale now old) eqn:R; intros [= <- <-]; [done|eauto].
  - by intros [= <- <-].
Qed.

(** What a caller of [begin_event_processing] learns. *)
Lemma begin_cases stale now st evt consumer st' r :
  begin_event_processing stale now st evt consumer = (st', r) ->
  (rec_status r = Stored PROCESSING /\
   exists row, claim_event_processing stale now st evt consumer = (st', Some row) /\
     rec_attempts r = pr_attempts row) \/
  (st' = st /\ exists old, processing st !! (event_id evt, consumer) = Some old /\
     reclaimable stale now old = false /\
     ((terminal (pr_status old) = true /\ rec_status r = Stored (pr_status old)) \/
      (pr_status old = PROCESSING /\ rec_status r = CLAIM_BLOCKED))).
Proof.
  unfold begin_event_processing.
  destruct (claim_event_processing stale now st evt consumer) as [st1 o] eqn:E.
  pose proof (claim_cases _ _ _ _ _ _ _ E) as C. destruct o as [row|].
  - intros [= <- <-]. left. cbn. destruct C as [-> _]. eauto.
  - destruct C as [-> (old & Ho & R)]. unfold get_event_processing. rewrite Ho.
    intros [= <- <-]. right. cbn. split; [done|]. exists old. repeat split; try done.
    unfold reclaimable in R. destruct (pr_status old); cbn in *; eauto.
Qed.

End EventStore.
