(* ===== verification/EventWorker.v ===== *)
(** * The event worker

    [src/src/packages/runtime/worker.py] and [ledger.py]: one delivery is
    claimed in a transaction of its own, handled in a second one that also
    stages the next events and closes the ledger, and settled afterwards.
    Deliveries repeat, workers overlap and crash; the transition system below
    interleaves them, and the theorems show that an event still takes effect
    at most once per consumer and is only acknowledged when it is settled,
    unless a worker wrote the event's ledger row under a claim that was
    already old enough to be taken over. *)
From S2P Require Import Prelude PyStr PyFloat PyVal Libs EventStore.

Module EventWorker.
Import EventStore.

(** ** Policy and handler specification *)

Record EventRetryPolicy := {
  max_attempts : Z;
  retry_delay_seconds : Z;
  fetch_batch_size : Z;
  handler_timeout_seconds : Z;
  dead_letter_timeout_seconds : Z;
  max_concurrency : Z;
}.

Record EventHandlerSpec := {
  service_name : string;
  subjects : list string;
  durable_name_of : option string;
  retry_policy : EventRetryPolicy;
  consumers : list (string * string);
}.

Definition durable_name (service : string) (n : option string) : string :=
  match n with None => service | Some n => service +:+ "-" +:+ n end.

Definition durable (spec : EventHandlerSpec) : string :=
  durable_name (service_name spec) (durable_name_of spec).

(** [dict(self.consumers)] *)
Definition consumer_dict (spec : EventHandlerSpec) : list (string * string) :=
  dict_update [] (consumers spec).

Definition consumer_for (spec : EventHandlerSpec) (subject : string) : string :=
  default (service_name spec) (dict_get (consumer_dict spec) subject).

Definition durable_for (spec : EventHandlerSpec) (subject : string) : string :=
  match dict_get (consumer_dict spec) subject with
  | Some pinned => durable_name pinned (durable_name_of spec)
  | None =>
      if Nat.leb (length (subjects spec)) 1 then durable spec
      else
        let slug := replace_char "*" "any" (replace_char ">" "all" (replace_char "." "-" subject)) in
        durable spec +:+ "-" +:+ slug
  end.

(** [handler_timeout < ack_wait < processing_stale], or the worker does not start. *)
Definition validate_event_timing_contract (handler_timeout ack_wait stale : Z) : res unit :=
  raise_if (negb ((handler_timeout <? ack_wait) && (ack_wait <? stale))) ValueError.

(** ** One delivery *)

(** A call that returns or raises, with the text of the exception. *)
Inductive run (A : Type) := Returns (a : A) | Raises (error : string).
Arguments Returns {_} _.
Arguments Raises {_} _.

(** What becomes of the message: [None] when [process] raised, and the
    consuming loop asks for redelivery. *)
Inductive settle := Ack | Nak (delay : Z).

(** The dead letter capture: it returned, or it raised or timed out, with the
    row already written or not. *)
Inductive capture := Captured | CaptureFailed (row_written : bool).

Section Worker.
(** The state of the application's own tables, and the handler: it reads and
    writes them inside the transaction and yields the next events. *)
Context {B : Type} (handler : EventEnvelope -> B -> run (B * list EventEnvelope)).
(** [PROCESSING_STALE_SECONDS] *)
Context (stale : Z) (policy : EventRetryPolicy).

Record world := { db : store; business : B }.

(** What one run meets: the times of its transactions, whether the handler
    finished in time, a failing commit, the capture's fate. *)
Record circumstances := {
  c_claim_error : bool;
  c_claim_time : Z;
  c_in_time : bool;
  c_transaction_time : Z;
  c_commit_error : option string;
  c_elapsed_ms : Z;
  c_capture : capture;
  c_fail_time : Z;
  c_uid : string;
}.

Definition begin (now : Z) (st : store) (evt : EventEnvelope) (consumer : string)
    : store * EventProcessingRecord :=
  begin_event_processing stale now (record_event st evt) evt consumer.

(** The body of the second transaction: business writes, outbox, ledger. *)
Definition transaction (c : circumstances) (w : world) (evt : EventEnvelope) (consumer : string)
    : run world :=
  match (if c_in_time c then handler evt (business w) else Raises "") with
  | Raises error => Raises error
  | Returns (b, outbox_events) =>
      match c_commit_error c with
      | Some error => Raises error
      | None =>
          Returns {| db := finish_event_processing (c_transaction_time c)
                             (stage_events (db w) outbox_events) evt consumer
                             (Some (c_elapsed_ms c));
                     business := b |}
      end
  end.

Definition retry (c : circumstances) (st : store) (evt : EventEnvelope) (consumer error : string)
    : store :=
  fail_event_processing (c_fail_time c) st evt consumer error RETRYING (Some (c_elapsed_ms c)).
Definition dead_letter (c : circumstances) (st : store) (evt : EventEnvelope)
    (consumer error : string) : store :=
  fail_event_processing (c_fail_time c) st evt consumer error DEAD_LETTERED (Some (c_elapsed_ms c)).

Definition capture_rows (written : bool) (st : store) (evt : EventEnvelope)
    (consumer error : string) (attempts : Z) : store :=
  if written then record_dead_letter st evt consumer error attempts else st.

Definition fail (c : circumstances) (st : store) (evt : EventEnvelope)
    (consumer error : string) (attempts : Z) : store * settle :=
  if max_attempts policy <=? attempts then
    match c_capture c with
    | CaptureFailed written =>
        (retry c (capture_rows written st evt consumer error attempts) evt consumer error,
         Nak (retry_delay_seconds policy))
    | Captured =>
        (dead_letter c (capture_rows true st evt consumer error attempts) evt consumer error, Ack)
    end
  else (retry c st evt consumer error, Nak (retry_delay_seconds policy)).

(** The part of [process] after a message has been decoded. *)
Definition process_event (c : circumstances) (w : world) (evt : EventEnvelope) (consumer : string)
    : world * option settle :=
  if c_claim_error c then (w, None)
  else
    let '(st, processing) := begin (c_claim_time c) (db w) evt consumer in
    let w1 := {| db := st; business := business w |} in
    match rec_status processing with
    | Stored PROCESSING =>
        match transaction c w1 evt consumer with
        | Returns w2 => (w2, Some Ack)
        | Raises error =>
            let '(st2, s) := fail c st evt consumer error (rec_attempts processing) in
            ({| db := st2; business := business w |}, Some s)
        end
    | Stored PROCESSED | Stored DEAD_LETTERED => (w1, Some Ack)
    | _ => (w1, Some (Nak (retry_delay_seconds policy)))
    end.

(** [process]: a message that does not decode goes to the dead letters. *)
Definition process (spec : EventHandlerSpec) (c : circumstances) (w : world)
    (decoded : run EventEnvelope) (raw : string) : world * option settle :=
  match decoded with
  | Raises error =>
      match c_capture c with
      | CaptureFailed written =>
          let st := if written then record_raw_dead_letter (db w) (c_uid c) raw (service_name spec) error
                    else db w in
          ({| db := st; business := business w |}, Some (Nak (retry_delay_seconds policy)))
      | Captured =>
          ({| db := record_raw_dead_letter (db w) (c_uid c) raw (service_name spec) error;
              business := business w |}, Some Ack)
      end
  | Returns evt => process_event c w evt (consumer_for spec (subject evt))
  end.

(** The loop asks for redelivery of a message that is not processed, because
    it raised or because the worker is stopping. *)
Definition consume (spec : EventHandlerSpec) (stopping : bool) (c : circumstances) (w : world)
    (decoded : run EventEnvelope) (raw : string) : world * settle :=
  if stopping then (w, Nak (retry_delay_seconds policy))
  else match process spec c w decoded raw with
       | (w', Some s) => (w', s)
       | (w', None) => (w', Nak (retry_delay_seconds policy))
       end.

(** ** Interleaved deliveries

    A task is one run of [process_event] that holds a claim.  Its
    transactions are the steps; between them others run, time passes and the
    task may be lost.  Nothing bounds the time a task takes between its
    steps: neither the commit nor [fail] looks at the age of the claim again.
    The system records where that happens: [overdue] holds the keys whose
    ledger row was written by a task whose claim had become stale. *)

Inductive phase :=
  | Handling
  | Capturing (failed_at : Z) (row_written : bool).

Record task := {
  t_evt : EventEnvelope;
  t_consumer : string;
  t_attempts : Z;
  t_claimed : Z;
  t_phase : phase;
}.

Record sys := {
  w : world;
  now : Z;
  tasks : gmap nat task;
  acked : gset (string * string);
  effects : list (EventEnvelope * string);
  (** history: keys whose row was written under a stale claim *)
  overdue : gset (string * string);
}.

Definition key (t : task) : string * string := (event_id (t_evt t), t_consumer t).
Definition effect_key (e : EventEnvelope * string) : string * string := (event_id e.1, e.2).

(** The claim of the task cannot have been taken over yet. *)
Definition live (s : sys) (t : task) : Prop := now s <= t_claimed t + seconds stale.
#[global] Instance live_dec s t : Decision (live s t).
Proof. unfold live. apply _. Defined.

(** The task writes its ledger row: whether the claim is still fresh is
    remembered, not checked. *)
Definition written_by (s : sys) (t : task) : gset (string * string) :=
  if decide (live s t) then overdue s else {[ key t ]} ∪ overdue s.

Definition with_db (s : sys) (st : store) : world := {| db := st; business := business (w s) |}.
Definition set_phase (t : task) (p : phase) : task :=
  {| t_evt := t_evt t; t_consumer := t_consumer t; t_attempts := t_attempts t;
     t_claimed := t_claimed t; t_phase := p |}.

Inductive step : sys -> sys -> Prop :=
  | step_time s t : now s <= t ->
      step s {| w := w s; now := t; tasks := tasks s; acked := acked s; effects := effects s; overdue := overdue s |}
  | step_claim s evt consumer st r i :
      begin (now s) (db (w s)) evt consumer = (st, r) -> rec_status r = Stored PROCESSING ->
      tasks s !! i = None ->
      step s {| w := with_db s st; now := now s;
                tasks := <[i := {| t_evt := evt; t_consumer := consumer;
                                   t_attempts := rec_attempts r; t_claimed := now s;
                                   t_phase := Handling |}]> (tasks s);
                acked := acked s; effects := effects s; overdue := overdue s |}
  | step_duplicate s evt consumer st r p :
      begin (now s) (db (w s)) evt consumer = (st, r) -> rec_status r = Stored p ->
      terminal p = true ->
      step s {| w := with_db s st; now := now s; tasks := tasks s;
                acked := {[ (event_id evt, consumer) ]} ∪ acked s; effects := effects s; overdue := overdue s |}
  | step_blocked s evt consumer st r :
      begin (now s) (db (w s)) evt consumer = (st, r) -> rec_status r = CLAIM_BLOCKED ->
      step s {| w := with_db s st; now := now s; tasks := tasks s; acked := acked s;
                effects := effects s; overdue := overdue s |}
  | step_commit s i t b evts at_time ms (ack_arrives : bool) :
      tasks s !! i = Some t -> t_phase t = Handling ->
      handler (t_evt t) (business (w s)) = Returns (b, evts) ->
      step s {| w := {| db := finish_event_processing at_time (stage_events (db (w s)) evts)
                                (t_evt t) (t_consumer t) (Some ms);
                        business := b |};
                now := now s; tasks := delete i (tasks s);
                acked := (if ack_arrives then {[ key t ]} else ∅) ∪ acked s;
                effects := effects s ++ [(t_evt t, t_consumer t)]; overdue := written_by s t |}
  | step_retry s i t error ms :
      tasks s !! i = Some t -> t_phase t = Handling ->
      t_attempts t < max_attempts policy ->
      step s {| w := with_db s (fail_event_processing (now s) (db (w s)) (t_evt t) (t_consumer t)
                                  error RETRYING (Some ms));
                now := now s; tasks := delete i (tasks s); acked := acked s; effects := effects s; overdue := written_by s t |}
  | step_exhausted s i t :
      tasks s !! i = Some t -> t_phase t = Handling ->
      max_attempts policy <= t_attempts t ->
      step s {| w := w s; now := now s;
                tasks := <[i := set_phase t (Capturing (now s) false)]> (tasks s);
                acked := acked s; effects := effects s; overdue := overdue s |}
  | step_capture s i t f written error :
      tasks s !! i = Some t -> t_phase t = Capturing f written ->
      step s {| w := with_db s (record_dead_letter (db (w s)) (t_evt t) (t_consumer t) error
                                  (t_attempts t));
                now := now s; tasks := <[i := set_phase t (Capturing f true)]> (tasks s);
                acked := acked s; effects := effects s; overdue := overdue s |}
  | step_capture_failed s i t f written error ms :
      tasks s !! i = Some t -> t_phase t = Capturing f written ->
      step s {| w := with_db s (fail_event_processing (now s) (db (w s)) (t_evt t) (t_consumer t)
                                  error RETRYING (Some ms));
                now := now s; tasks := delete i (tasks s); acked := acked s; effects := effects s; overdue := written_by s t |}
  | step_dead_letter s i t f error ms (ack_arrives : bool) :
      tasks s !! i = Some t -> t_phase t = Capturing f true ->
      step s {| w := with_db s (fail_event_processing (now s) (db (w s)) (t_evt t) (t_consumer t)
                                  error DEAD_LETTERED (Some ms));
                now := now s; tasks := delete i (tasks s);
                acked := (if ack_arrives then {[ key t ]} else ∅) ∪ acked s; effects := effects s; overdue := written_by s t |}
  | step_crash s i :
      step s {| w := w s; now := now s; tasks := delete i (tasks s); acked := acked s;
                effects := effects s; overdue := overdue s |}.

Definition initial (b : B) (t : Z) : sys :=
  {| w := {| db := empty_store; business := b |}; now := t; tasks := ∅; acked := ∅; effects := [];
     overdue := ∅ |}.

Definition reachable (b : B) (s : sys) : Prop := exists t, rtc step (initial b t) s.

(** The effects of a list of deliveries, applied in order. *)
Fixpoint replay (log : list (EventEnvelope * string)) (b : B) : option (B * list EventEnvelope) :=
  match log with
  | [] => Some (b, [])
  | (evt, _) :: log =>
      match handler evt b with
      | Returns (b', evts) =>
          match replay log b' with
          | Some (b'', evts') => Some (b'', evts ++ evts')
          | None => None
          end
      | Raises _ => None
      end
  end.

(** ** A run is a sequence of steps *)

Lemma fresh_task (s : sys) : exists i, tasks s !! i = None.
Proof.
  exists (fresh (dom (tasks s))). apply not_elem_of_dom. apply is_fresh.
Qed.

Lemma with_db_eta (s : sys) st : {| db := st; business := business (w s) |} = with_db s st.
Proof. done. Qed.

(** The failing branch: [fail] after the claim of task [i]. *)
Lemma fail_steps s c i t error st' o :
  tasks s !! i = Some t -> t_phase t = Handling ->
  now s <= c_fail_time c ->
  fail c (db (w s)) (t_evt t) (t_consumer t) error (t_attempts t) = (st', o) ->
  exists s', rtc step s s' /\ w s' = with_db s st' /\ (o = Ack -> key t ∈ acked s').
Proof.
  intros Hi Hph Ht Hf.
  set (s1 := {| w := w s; now := c_fail_time c; tasks := tasks s; acked := acked s;
                effects := effects s; overdue := overdue s |}).
  assert (step s s1) as H1 by (apply step_time; apply Ht).
  unfold fail in Hf. destruct (max_attempts policy <=? t_attempts t) eqn:Hm; bool_simpl.
  2: { injection Hf as <- <-. eexists. split; [|split; [|done]].
       - eapply rtc_l; [exact H1|]. apply rtc_once. eapply (step_retry s1 i t); eauto.
       - done. }
  pose proof (step_exhausted s1 i t Hi Hph Hm) as H2.
  match type of H2 with step _ ?x => set (s2 := x) in H2 end.
  set (t2 := set_phase t (Capturing (now s1) false)).
  assert (tasks s2 !! i = Some t2) as Hi2 by (cbn; by rewrite lookup_insert_eq).
  assert (forall written, exists s3 r, rtc step s2 s3 /\ tasks s3 !! i = Some (set_phase t (Capturing (now s1) r)) /\
     now s3 = now s2 /\ r = written /\ acked s3 = acked s2 /\
     w s3 = with_db s (capture_rows written (db (w s)) (t_evt t) (t_consumer t) error (t_attempts t))) as Hcap.
  { intros [].
    - eexists _, true. split; [apply rtc_once, (step_capture s2 i t2 (now s1) false error); done|].
      repeat split. cbn. by rewrite lookup_insert_eq.
    - exists s2, false. repeat split; [apply rtc_refl|done|]. cbn. unfold with_db. by destruct (w s). }
  destruct (c_capture c) as [|written]; injection Hf as <- <-.
  - destruct (Hcap true) as (s3 & r & Hs & Hi3 & Hn & -> & Ha & Hw).
    eexists. split; [|split].
    + eapply rtc_l; [exact H1|]. eapply rtc_l; [exact H2|]. etransitivity; [exact Hs|].
      apply rtc_once. eapply (step_dead_letter s3 i _ (now s1) error (c_elapsed_ms c) true);
        [exact Hi3|done].
    + cbn. unfold with_db, dead_letter. rewrite Hw, Hn. done.
    + intros _. cbn. set_solver.
  - destruct (Hcap written) as (s3 & r & Hs & Hi3 & Hn & -> & Ha & Hw).
    eexists. split; [|split; [|done]].
    + eapply rtc_l; [exact H1|]. eapply rtc_l; [exact H2|]. etransitivity; [exact Hs|].
      apply rtc_once. eapply (step_capture_failed s3 i _ (now s1) written error (c_elapsed_ms c));
        [exact Hi3|done].
    + cbn. unfold with_db, retry. rewrite Hw, Hn. done.
Qed.

(** what [process] does with a decoded message is a sequence of steps
    of the interleaved system, whatever the handler, the commit and the
    capture do; a run that acknowledges the message leaves it acknowledged. *)
Theorem process_event_steps s c evt consumer w' o :
  c_claim_time c = now s -> now s <= c_fail_time c ->
  process_event c (w s) evt consumer = (w', o) ->
  exists s', rtc step s s' /\ w s' = w' /\
    (o = Some Ack -> (event_id evt, consumer) ∈ acked s').
Proof.
  intros Hct Hft. unfold process_event. destruct (c_claim_error c).
  { intros [= <- <-]. exists s. split; [apply rtc_refl|done]. }
  rewrite Hct. destruct (begin (now s) (db (w s)) evt consumer) as [st r] eqn:Hb.
  destruct (rec_status r) as [[]| |] eqn:Hr.
  - destruct (fresh_task s) as [i Hi]. pose proof (step_claim s evt consumer st r i Hb Hr Hi) as H1.
    match type of H1 with step _ ?x => set (s1 := x) in H1 end.
    set (t := {| t_evt := evt; t_consumer := consumer; t_attempts := rec_attempts r;
                 t_claimed := now s; t_phase := Handling |}).
    assert (tasks s1 !! i = Some t) as Hi1 by (cbn; by rewrite lookup_insert_eq).
    destruct (transaction c _ evt consumer) as [w2|error] eqn:Ht.
    + intros [= <- <-]. unfold transaction in Ht. cbn in Ht. destruct (c_in_time c); [|done].
      destruct (handler evt (business (w s))) as [[b evts]|] eqn:Hh; [|done].
      destruct (c_commit_error c); [done|]. injection Ht as <-.
      eexists. split; [|split].
      * eapply rtc_l; [exact H1|]. apply rtc_once.
        eapply (step_commit s1 i t b evts (c_transaction_time c) (c_elapsed_ms c) true); done.
      * done.
      * intros _. cbn. set_solver.
    + destruct (fail c st evt consumer error (rec_attempts r)) as [st2 s0] eqn:Hf. intros [= <- <-].
      destruct (fail_steps s1 c i t error st2 s0 Hi1 eq_refl Hft Hf) as (s' & Hs & Hw & Hack).
      exists s'. split; [by eapply rtc_l|]. split; [done|]. intros [= ->]. by apply Hack.
  - intros [= <- <-]. eexists. split; [apply rtc_once, (step_duplicate s evt consumer st r PROCESSED); done|].
    split; [done|]. intros _. cbn. set_solver.
  - intros [= <- <-]. apply begin_cases in Hb as [(E & _)|[_ (old & _ & _ & [[Ht E]|[_ E]])]];
      rewrite Hr in E; simplify_eq. by rewrite <- E in Ht.
  - intros [= <- <-]. eexists. split; [apply rtc_once, (step_duplicate s evt consumer st r DEAD_LETTERED); done|].
    split; [done|]. intros _. cbn. set_solver.
  - intros [= <- <-]. eexists. split; [apply rtc_once, (step_blocked s evt consumer st r); done|].
    split; [done|]. done.
  - intros [= <- <-]. apply begin_cases in Hb as [(E & _)|[_ (old & _ & _ & [[Ht E]|[_ E]])]];
      rewrite Hr in E; simplify_eq.
Qed.

(** ** The invariant *)

Context (b0 : B).

(** How often a delivery has taken effect. *)
Definition effect_count (s : sys) (k : string * string) : nat :=
  length (keep (fun e => bool_decide (effect_key e = k)) (effects s)).
Arguments effect_count : simpl never.

Definition has_dead_letter (st : store) (k : string * string) : Prop :=
  exists d, d ∈ dead_letters st /\ dl_event_id d = k.1 /\ dl_consumer d = k.2.

(** What the row of a key says about the past. *)
Definition row_ok (s : sys) (k : string * string) : Prop :=
  match processing (db (w s)) !! k with
  | None => effect_count s k = 0%nat /\ k ∉ acked s
  | Some row =>
      effect_count s k = (if bool_decide (pr_status row = PROCESSED) then 1 else 0)%nat /\
      (k ∈ acked s -> terminal (pr_status row) = true) /\
      (pr_status row = DEAD_LETTERED ->
         has_dead_letter (db (w s)) k /\ max_attempts policy <= pr_attempts row)
  end.

Record inv (s : sys) : Prop := {
  (** A live task owns its row. *)
  inv_claim : forall i t, tasks s !! i = Some t -> live s t -> key t ∉ overdue s ->
    exists row, processing (db (w s)) !! key t = Some row /\
      pr_status row = PROCESSING /\ pr_updated_at row = t_claimed t /\ pr_attempts row = t_attempts t;
  (** No two live tasks have the same key. *)
  inv_one : forall i j t t', tasks s !! i = Some t -> tasks s !! j = Some t' ->
    live s t -> live s t' -> key t ∉ overdue s -> key t = key t' -> i = j;
  inv_capturing : forall i t f r, tasks s !! i = Some t -> t_phase t = Capturing f r ->
    max_attempts policy <= t_attempts t /\
    (r = true -> has_dead_letter (db (w s)) (key t));
  inv_row : forall k, k ∉ overdue s -> row_ok s k;
  inv_replay : exists evts, replay (effects s) b0 = Some (business (w s), evts) /\
    outbox (db (w s)) = outbox (stage_events empty_store evts);
}.

Lemma has_dead_letter_mono st st' k :
  (forall d, d ∈ dead_letters st -> d ∈ dead_letters st') ->
  has_dead_letter st k -> has_dead_letter st' k.
Proof. intros Hsub (d & Hd & ? & ?). exists d. auto. Qed.

(** *** Claims *)

Lemma begin_other now0 st evt consumer st' r k :
  begin now0 st evt consumer = (st', r) -> k <> (event_id evt, consumer) ->
  processing st' !! k = processing st !! k.
Proof.
  unfold begin. intros Hb Hk. apply begin_cases in Hb as [(_ & row & Hc & _)|[-> _]]; [|done].
  apply claim_cases in Hc as (_ & _ & -> & _). by rewrite lookup_insert_ne.
Qed.

Lemma begin_frame now0 st evt consumer st' r :
  begin now0 st evt consumer = (st', r) ->
  outbox st' = outbox st /\ dead_letters st' = dead_letters st.
Proof.
  unfold begin. intros Hb. apply begin_cases in Hb as [(_ & row & Hc & _)|[-> _]]; [|done].
  by apply claim_cases in Hc as (_ & _ & _ & _ & -> & -> & _).
Qed.

(** A claim that is granted finds no live task on its key. *)
Lemma claim_exclusive s evt consumer st r i t :
  inv s -> begin (now s) (db (w s)) evt consumer = (st, r) -> rec_status r = Stored PROCESSING ->
  tasks s !! i = Some t -> live s t -> key t ∉ overdue s -> key t <> (event_id evt, consumer).
Proof.
  intros [] Hb Hr Hi Hl Hov Hk. destruct (inv_claim0 i t Hi Hl Hov) as (row & Hrow & Hst & Hup & _).
  rewrite Hk in Hrow. unfold begin in Hb.
  apply begin_cases in Hb as [(_ & new & Hc & _)|[_ (old & _ & _ & [[Ht E]|[_ E]])]];
    [|rewrite E in Hr; injection Hr as Hr; by rewrite Hr in Ht|congruence].
  apply claim_cases in Hc as (_ & _ & _ & _ & _ & _ & Hold). cbn in Hold. rewrite Hrow in Hold.
  destruct Hold as [Hre _]. unfold reclaimable in Hre. rewrite Hst in Hre. cbn in Hre.
  apply Z.ltb_lt in Hre. unfold live, seconds in *. lia.
Qed.

(** The row after a granted claim. *)
Lemma claim_row s evt consumer st r :
  begin (now s) (db (w s)) evt consumer = (st, r) -> rec_status r = Stored PROCESSING ->
  exists row, processing st !! (event_id evt, consumer) = Some row /\ pr_status row = PROCESSING /\
    pr_updated_at row = now s /\ pr_attempts row = rec_attempts r /\
    match processing (db (w s)) !! (event_id evt, consumer) with
    | Some old => terminal (pr_status old) = false
    | None => True
    end.
Proof.
  unfold begin. intros Hb Hr.
  apply begin_cases in Hb as [(_ & new & Hc & Ha)|[_ (old & _ & Hre & [[Ht E]|[_ E]])]];
    [|rewrite E in Hr; injection Hr as Hr; by rewrite Hr in Ht|congruence].
  apply claim_cases in Hc as (Hst & Hup & -> & _ & _ & _ & Hold). cbn in Hold. exists new.
  rewrite lookup_insert_eq. repeat split; try done.
  destruct (processing (db (w s)) !! _) as [old|]; [|done]. destruct Hold as [Hre _].
  unfold reclaimable in Hre. apply andb_true_iff in Hre as [Hre _]. by apply negb_true_iff in Hre.
Qed.

(** *** Steps that keep the rows *)

Lemma row_ok_mono s s' k :
  row_ok s k -> processing (db (w s')) !! k = processing (db (w s)) !! k ->
  (forall d, d ∈ dead_letters (db (w s)) -> d ∈ dead_letters (db (w s'))) ->
  effect_count s' k = effect_count s k -> (k ∈ acked s' -> k ∈ acked s) -> row_ok s' k.
Proof.
  unfold row_ok. intros Hok -> Hd -> Ha. destruct (processing (db (w s)) !! k) as [row|].
  - destruct Hok as (? & ? & Hdl). repeat split; [done|auto|..]; destruct (Hdl ltac:(done)); [|done].
    by eapply has_dead_letter_mono.
  - destruct Hok. split; [done|]. auto.
Qed.

Lemma not_written_by s t k :
  k ∉ written_by s t -> k ∉ overdue s /\ (k = key t -> live s t).
Proof. unfold written_by. case_decide; set_solver. Qed.

(** A task settles its row and goes away. *)
Lemma inv_settle s s' i t :
  inv s -> tasks s !! i = Some t ->
  now s' = now s -> tasks s' = delete i (tasks s) -> overdue s' = written_by s t ->
  (forall k, k <> key t -> processing (db (w s')) !! k = processing (db (w s)) !! k) ->
  (forall d, d ∈ dead_letters (db (w s)) -> d ∈ dead_letters (db (w s'))) ->
  (forall k, k <> key t -> effect_count s' k = effect_count s k) ->
  (forall k, k <> key t -> k ∈ acked s' -> k ∈ acked s) ->
  (live s t -> key t ∉ overdue s -> row_ok s' (key t)) ->
  (exists evts, replay (effects s') b0 = Some (business (w s'), evts) /\
     outbox (db (w s')) = outbox (stage_events empty_store evts)) ->
  inv s'.
Proof.
  intros [] Hi Hnow Htasks Hov Hproc Hdl Heff Hack Hrow Hrep.
  assert (forall j t', tasks s' !! j = Some t' -> j <> i /\ tasks s !! j = Some t') as Hold.
  { intros j t'. rewrite Htasks. intros Hj%lookup_delete_Some. destruct Hj. auto. }
  assert (forall u, live s' u -> live s u) as Hlive by (unfold live; rewrite Hnow; done).
  assert (forall k, k ∉ overdue s' -> k ∉ overdue s /\ (k = key t -> live s t)) as Hov'
    by (intros k; rewrite Hov; apply not_written_by).
  constructor; [..|done].
  - intros j t' [Hne Hj]%Hold Hl'%Hlive [Ho Hown]%Hov'.
    rewrite Hproc; [by eapply inv_claim0|]. intros E. apply Hne, (inv_one0 j i t' t); auto.
  - intros j j' u u' [_ Hj]%Hold [_ Hj']%Hold Hu%Hlive Hu'%Hlive [Ho _]%Hov'. by apply inv_one0.
  - intros j u f r [_ Hj]%Hold Hp. destruct (inv_capturing0 j u f r Hj Hp) as (? & Hr).
    split; [done|]. intros E. by eapply has_dead_letter_mono, Hr.
  - intros k [Ho Hown]%Hov'. destruct (decide (k = key t)) as [->|Hk]; [auto|].
    eapply row_ok_mono; [by apply inv_row0|..]; auto.
Qed.

(** The tables and the log stay as they are for every key but the owner's. *)
Lemma alter_other (f : processing_row -> processing_row) m (k0 k : string * string) :
  k <> k0 -> (alter f k0 m : gmap (string * string) processing_row) !! k = m !! k.
Proof. intros. by rewrite lookup_alter_ne. Qed.

Lemma stage_event_outbox st st' evt :
  outbox st = outbox st' -> outbox (stage_event st evt) = outbox (stage_event st' evt).
Proof.
  intros E. unfold stage_event, has_outbox. rewrite E. by destruct (existsb _ _).
Qed.

Lemma stage_events_outbox st st' evts :
  outbox st = outbox st' -> outbox (stage_events st evts) = outbox (stage_events st' evts).
Proof.
  unfold stage_events. revert st st'. induction evts as [|e evts IH]; intros st st' E; cbn; [done|].
  by apply IH, stage_event_outbox.
Qed.

Lemma stage_events_frame st evts :
  processing (stage_events st evts) = processing st /\
  dead_letters (stage_events st evts) = dead_letters st.
Proof.
  unfold stage_events. revert st. induction evts as [|e evts IH]; intros st; cbn; [done|].
  destruct (IH (stage_event st e)) as [-> ->]. unfold stage_event. by case_match.
Qed.

Lemma replay_snoc log b b1 evts1 evt c b2 evts2 :
  replay log b = Some (b1, evts1) -> handler evt b1 = Returns (b2, evts2) ->
  replay (log ++ [(evt, c)]) b = Some (b2, evts1 ++ evts2).
Proof.
  revert b evts1. induction log as [|[e c'] log IH]; intros b evts1; cbn.
  - intros [= <- <-] ->. by rewrite app_nil_r.
  - destruct (handler e b) as [[b' ev]|]; [|done]. destruct (replay log b') as [[b'' ev']|] eqn:E; [|done].
    intros [= <- <-] Hh. rewrite (IH b' ev' E Hh). by rewrite <- app_assoc.
Qed.

Lemma effect_count_snoc s s' e k :
  effects s' = effects s ++ [e] ->
  effect_count s' k = (effect_count s k + (if bool_decide (effect_key e = k) then 1 else 0))%nat.
Proof.
  intros E. unfold effect_count. rewrite E, keep_app, length_app. cbn.
  by destruct (bool_decide (effect_key e = k)).
Qed.

Lemma inv_commit s i t b evts at_time ms ack_arrives :
  inv s -> tasks s !! i = Some t ->
  handler (t_evt t) (business (w s)) = Returns (b, evts) ->
  inv {| w := {| db := finish_event_processing at_time (stage_events (db (w s)) evts)
                         (t_evt t) (t_consumer t) (Some ms);
                 business := b |};
         now := now s; tasks := delete i (tasks s);
         acked := (if ack_arrives : bool then {[ key t ]} else ∅) ∪ acked s;
         effects := effects s ++ [(t_evt t, t_consumer t)]; overdue := written_by s t |}.
Proof.
  intros Hinv Hi Hh. destruct (stage_events_frame (db (w s)) evts) as [Hp Hd].
  eapply inv_settle; [exact Hinv|exact Hi|done|done|done|..]; cbn.
  - intros k Hk. rewrite alter_other by done. by rewrite Hp.
  - intros d. by rewrite Hd.
  - intros k Hk. rewrite (effect_count_snoc s _ (t_evt t, t_consumer t)) by done. rewrite bool_decide_false; [lia|].
    intros E. by apply Hk.
  - intros k Hk. destruct ack_arrives; set_solver.
  - intros Hl Hov. destruct Hinv. destruct (inv_claim0 i t Hi Hl Hov) as (row & Hrow & Hst & _).
    pose proof (inv_row0 (key t) Hov) as Hok. unfold row_ok in *. cbn. unfold key in *.
    rewrite Hp, lookup_alter_eq, Hrow. rewrite Hrow in Hok. cbn.
    rewrite (effect_count_snoc s _ (t_evt t, t_consumer t)) by done. destruct Hok as (-> & _). rewrite Hst.
    rewrite (bool_decide_true (effect_key _ = _)) by done. done.
  - destruct Hinv. destruct inv_replay0 as (ev0 & Hr & Ho). exists (ev0 ++ evts).
    split; [by eapply replay_snoc|]. unfold stage_events at 2. rewrite fold_left_app.
    by apply stage_events_outbox.
Qed.

Lemma inv_fail s i t error p ms (ack : bool) :
  inv s -> tasks s !! i = Some t ->
  (p = RETRYING /\ ack = false) \/
  (p = DEAD_LETTERED /\ has_dead_letter (db (w s)) (key t) /\ max_attempts policy <= t_attempts t) ->
  inv {| w := with_db s (fail_event_processing (now s) (db (w s)) (t_evt t) (t_consumer t)
                           error p (Some ms));
         now := now s; tasks := delete i (tasks s);
         acked := (if ack then {[ key t ]} else ∅) ∪ acked s; effects := effects s;
         overdue := written_by s t |}.
Proof.
  intros Hinv Hi Hp. eapply inv_settle; [exact Hinv|exact Hi|done|done|done|..]; cbn; try done.
  - intros k Hk. by apply alter_other.
  - intros k Hk. destruct ack; set_solver.
  - intros Hl Hov. destruct Hinv. destruct (inv_claim0 i t Hi Hl Hov) as (row & Hrow & Hst & _ & Hatt).
    pose proof (inv_row0 (key t) Hov) as Hok. unfold row_ok in *. cbn. unfold key in *.
    rewrite lookup_alter_eq, Hrow. rewrite Hrow in Hok. cbn. unfold effect_count in *. cbn.
    destruct Hok as (-> & Hack & _). rewrite Hst in *. cbn in Hack.
    destruct Hp as [[-> ->]|(-> & Hdl & Hmax)]; cbn.
    + split; [done|]. split; [|done]. rewrite union_empty_l_L. intros Hin. by apply Hack in Hin.
    + repeat split; [done|]. lia.
  - by destruct Hinv.
Qed.

(** *** Steps of the claim *)

Lemma inv_claimed s evt consumer st r i :
  inv s -> begin (now s) (db (w s)) evt consumer = (st, r) -> rec_status r = Stored PROCESSING ->
  tasks s !! i = None ->
  inv {| w := with_db s st; now := now s;
         tasks := <[i := {| t_evt := evt; t_consumer := consumer; t_attempts := rec_attempts r;
                            t_claimed := now s; t_phase := Handling |}]> (tasks s);
         acked := acked s; effects := effects s; overdue := overdue s |}.
Proof.
  intros Hinv Hb Hr Hi. pose proof (claim_row _ _ _ _ _ Hb Hr) as (row & Hrow & Hst & Hup & Hatt & Hold).
  pose proof (begin_frame _ _ _ _ _ _ Hb) as [Ho Hd].
  assert (forall j t, tasks s !! j = Some t -> live s t -> key t ∉ overdue s ->
    key t <> (event_id evt, consumer)) as Hex by (intros j t Hj Hl Ho'; by eapply claim_exclusive).
  destruct Hinv. constructor; cbn.
  - intros j t [[<- <-]|[Hne Hj]]%lookup_insert_Some Hl Hov; [by exists row|].
    erewrite begin_other; [by eapply inv_claim0|exact Hb|by eapply Hex].
  - intros j j' t t' [[<- <-]|[Hne Hj]]%lookup_insert_Some [[<- <-]|[Hne' Hj']]%lookup_insert_Some;
      intros Hl Hl' Hov Hk; [done|..].
    + rewrite Hk in Hov. by destruct (Hex j' t' Hj' Hl' Hov).
    + by destruct (Hex j t Hj Hl Hov).
    + by eapply inv_one0.
  - intros j t f rw [[<- <-]|[Hne Hj]]%lookup_insert_Some Hp; [done|].
    destruct (inv_capturing0 j t f rw Hj Hp) as (? & Hdl). split; [done|]. intros E.
    eapply has_dead_letter_mono; [|by apply Hdl]. by rewrite Hd.
  - intros k Hov. specialize (inv_row0 k Hov).
    destruct (decide (k = (event_id evt, consumer))) as [->|Hk].
    + unfold row_ok in *. cbn. rewrite Hrow, Hst. cbn.
      change (effect_count _ (event_id evt, consumer)) with (effect_count s (event_id evt, consumer)).
      destruct (processing (db (w s)) !! (event_id evt, consumer)) as [old|].
      * destruct inv_row0 as (-> & Ha & _). rewrite bool_decide_false by (intros E; by rewrite E in Hold).
        repeat split; [|done..]. intros Hin%Ha. congruence.
      * by destruct inv_row0 as (-> & ?).
    + eapply row_ok_mono; [exact inv_row0| |by cbn; rewrite Hd|done|done]. by eapply begin_other.
  - by rewrite Ho.
Qed.

(** A claim that is refused changes no row. *)
Lemma refused_processing now0 st evt consumer st' r :
  begin now0 st evt consumer = (st', r) -> rec_status r <> Stored PROCESSING ->
  processing st' = processing st /\
  (forall p, rec_status r = Stored p -> exists row,
     processing st !! (event_id evt, consumer) = Some row /\ pr_status row = p).
Proof.
  unfold begin. intros Hb Hr.
  apply begin_cases in Hb as [(E & _)|[-> (old & Ho & _ & [[Ht E]|[_ E]])]]; [done|..];
    (split; [done|]); intros p Hp; rewrite E in Hp; simplify_eq. eauto.
Qed.

Lemma inv_refused s evt consumer st r acked' :
  inv s -> begin (now s) (db (w s)) evt consumer = (st, r) -> rec_status r <> Stored PROCESSING ->
  (forall k, k ∈ acked' -> k ∈ acked s \/
     (k = (event_id evt, consumer) /\ exists p, rec_status r = Stored p /\ terminal p = true)) ->
  inv {| w := with_db s st; now := now s; tasks := tasks s; acked := acked'; effects := effects s;
         overdue := overdue s |}.
Proof.
  intros [] Hb Hr Hack. destruct (refused_processing _ _ _ _ _ _ Hb Hr) as [Hp Hrow].
  pose proof (begin_frame _ _ _ _ _ _ Hb) as [Ho Hd]. constructor; cbn.
  - by rewrite Hp.
  - done.
  - intros j t f rw Hj Hph. destruct (inv_capturing0 j t f rw Hj Hph) as (? & Hdl).
    split; [done|]. intros E. eapply has_dead_letter_mono; [|by apply Hdl]. by rewrite Hd.
  - intros k Hov. specialize (inv_row0 k Hov). unfold row_ok in *. cbn. rewrite Hp.
    change (effect_count _ k) with (effect_count s k).
    destruct (processing (db (w s)) !! k) as [row|] eqn:Ek.
    + destruct inv_row0 as (? & Ha & Hdl). split; [done|]. split.
      * intros [?|(-> & p & Ep & Hterm)]%Hack; [auto|].
        destruct (Hrow p Ep) as (row' & Hrow' & <-). by simplify_eq.
      * intros E. destruct (Hdl E). split; [|done]. eapply has_dead_letter_mono; [|done]. cbn. by rewrite Hd.
    + destruct inv_row0. split; [done|]. intros [?|(-> & p & Ep & _)]%Hack; [done|].
      destruct (Hrow p Ep) as (row' & ? & _). congruence.
  - by rewrite Ho.
Qed.

(** *** Steps of a capture *)

Lemma inv_phase s i t p st :
  inv s -> tasks s !! i = Some t ->
  processing st = processing (db (w s)) -> outbox st = outbox (db (w s)) ->
  (forall d, d ∈ dead_letters (db (w s)) -> d ∈ dead_letters st) ->
  (forall f r, p = Capturing f r ->
     max_attempts policy <= t_attempts t /\ (r = true -> has_dead_letter st (key t))) ->
  inv {| w := with_db s st; now := now s; tasks := <[i := set_phase t p]> (tasks s);
         acked := acked s; effects := effects s; overdue := overdue s |}.
Proof.
  intros [] Hi Hp Ho Hd Hph.
  assert (forall j u, <[i := set_phase t p]> (tasks s) !! j = Some u ->
    exists u', tasks s !! j = Some u' /\ key u = key u' /\ t_claimed u = t_claimed u' /\
      t_attempts u = t_attempts u') as Hold.
  { intros j u [[<- <-]|[_ Hj]]%lookup_insert_Some; [by exists t|by exists u]. }
  constructor; cbn.
  - intros j u (u' & Hj & -> & Hc & ->)%Hold Hl Hov. rewrite Hp, Hc.
    eapply inv_claim0; [exact Hj| |done]. unfold live in *. cbn in Hl. by rewrite <- Hc.
  - intros j j' u u' (v & Hj & -> & Hc & _)%Hold (v' & Hj' & -> & Hc' & _)%Hold Hl Hl' Hov Hk.
    apply (inv_one0 j j' v v'); try done; unfold live in *; cbn in *; congruence.
  - intros j u f r [[<- <-]|[_ Hj]]%lookup_insert_Some E; cbn in *; [by eapply Hph|].
    destruct (inv_capturing0 j u f r Hj E) as (? & Hdl). split; [done|].
    intros Er. by eapply has_dead_letter_mono, Hdl.
  - intros k Hov. eapply row_ok_mono; [by apply inv_row0|..]; cbn; try done. by rewrite Hp.
  - by rewrite Ho.
Qed.

Lemma inv_step s s' : inv s -> step s s' -> inv s'.
Proof.
  intros Hinv Hstep. destruct Hstep as
    [s t Ht|s evt c st r i Hb Hr Hi|s evt c st r p Hb Hr Hp|s evt c st r Hb Hr
    |s i t b evts at_time ms a Hi Hph Hh|s i t e ms Hi Hph Hm|s i t Hi Hph Hm
    |s i t f wr e Hi Hph|s i t f wr e ms Hi Hph|s i t f e ms a Hi Hph|s i].
  - destruct Hinv. assert (forall u, live {| w := w s; now := t; tasks := tasks s; acked := acked s;
      effects := effects s; overdue := overdue s |} u -> live s u) as Hl by (unfold live; cbn; lia).
    constructor; cbn; eauto.
  - by eapply inv_claimed.
  - eapply inv_refused; [done|done|rewrite Hr; intros [= ->]; done|]. intros k. set_solver.
  - eapply inv_refused; [done|done|by rewrite Hr|]. by left.
  - by eapply inv_commit.
  - pose proof (inv_fail s i t e RETRYING ms false Hinv Hi) as HF. cbn in HF.
    rewrite union_empty_l_L in HF. apply HF. by left.
  - pose proof (inv_phase s i t (Capturing (now s) false) (db (w s)) Hinv Hi) as HF.
    assert (with_db s (db (w s)) = w s) as Hw by (unfold with_db; by destruct (w s)).
    rewrite Hw in HF. apply HF; [done..|]. by intros f r [= <- <-].
  - eapply (inv_phase s i t); try done; cbn.
    + intros d Hin. apply elem_of_app. by left.
    + intros f' r' [= <- <-]. destruct Hinv. destruct (inv_capturing0 i t f wr Hi Hph) as (? & _).
      split; [done|]. intros _. eexists. split; [apply elem_of_app; right; by apply list_elem_of_singleton|]. done.
  - pose proof (inv_fail s i t e RETRYING ms false Hinv Hi) as HF. cbn in HF.
    rewrite union_empty_l_L in HF. apply HF. by left.
  - pose proof Hinv as []. destruct (inv_capturing0 i t f true Hi Hph) as (? & Hdl).
    eapply inv_fail; [done..|]. right. auto.
  - destruct Hinv. assert (forall j u, delete i (tasks s) !! j = Some u -> tasks s !! j = Some u) as Hold
      by (intros j u Hj%lookup_delete_Some; tauto).
    constructor; cbn; eauto.
Qed.

Lemma inv_initial t : inv (initial b0 t).
Proof.
  constructor; cbn; try (intros *; rewrite lookup_empty; done).
  - intros k. unfold row_ok. cbn. rewrite lookup_empty. split; [done|]. set_solver.
  - by exists [].
Qed.

Lemma inv_reachable s : reachable b0 s -> inv s.
Proof.
  intros [t Hs]. remember (initial b0 t) as s0 eqn:E. assert (inv s0) as H0 by (subst; apply inv_initial).
  clear E. induction Hs; [done|]. eauto using inv_step.
Qed.

(** ** Properties *)

Lemma row_effects s k : inv s -> k ∉ overdue s -> (effect_count s k <= 1)%nat.
Proof.
  intros [] Hov. specialize (inv_row0 k Hov). unfold row_ok in inv_row0. case_match.
  - destruct inv_row0 as (-> & _). case_match; lia.
  - destruct inv_row0 as [-> _]. lia.
Qed.

(** C9: under repeated and overlapping deliveries, crashes and failures, the
    application's state is always what its handlers make of the recorded
    deliveries, one after the other, and the outbox holds exactly the events
    those handlers yielded; and an event takes effect at most once per
    consumer, provided no worker has written that event's ledger row under a
    claim older than the stale time, when another delivery may have taken the
    claim over.  The code does not check the age of a claim again, and the
    check at start-up does not bound it, so the proviso is part of the claim. *)
Theorem effects_at_most_once s :
  reachable b0 s ->
  (exists evts, replay (effects s) b0 = Some (business (w s), evts) /\
     outbox (db (w s)) = outbox (stage_events empty_store evts)) /\
  forall k, k ∉ overdue s -> (effect_count s k <= 1)%nat.
Proof.
  intros Hinv%inv_reachable. split; [by destruct Hinv|]. intros k. by apply row_effects.
Qed.

(** C30: a message is only acknowledged when its event is settled: either it
    has taken effect, exactly once, or its attempts are used up and it is kept
    as a dead letter.  As above this is for an event whose ledger row no
    worker has written under a claim older than the stale time. *)
Theorem acked_means_settled s k :
  reachable b0 s -> k ∉ overdue s -> k ∈ acked s ->
  exists row, processing (db (w s)) !! k = Some row /\
    ((pr_status row = PROCESSED /\ effect_count s k = 1%nat) \/
     (pr_status row = DEAD_LETTERED /\ effect_count s k = 0%nat /\
      has_dead_letter (db (w s)) k /\ max_attempts policy <= pr_attempts row)).
Proof.
  intros Hinv%inv_reachable Hov Hk. destruct Hinv. specialize (inv_row0 k Hov). unfold row_ok in inv_row0.
  destruct (processing (db (w s)) !! k) as [row|]; [|by destruct inv_row0].
  exists row. split; [done|]. destruct inv_row0 as (Hc & Ht & Hd). specialize (Ht Hk).
  destruct (pr_status row); try done; [by left|]. right. destruct (Hd eq_refl). auto.
Qed.

(** two deliveries of an event to the same consumer are never handled at
    the same time: of the tasks whose claim is fresh, at most one holds the
    event, and the ledger names it. *)
Theorem claims_are_exclusive s i j t t' :
  reachable b0 s -> tasks s !! i = Some t -> tasks s !! j = Some t' ->
  live s t -> live s t' -> key t = key t' -> key t ∉ overdue s ->
  i = j /\ exists row, processing (db (w s)) !! key t = Some row /\
    pr_status row = PROCESSING /\ pr_updated_at row = t_claimed t.
Proof.
  intros Hinv%inv_reachable Hi Hj Hl Hl' Hk Hov. destruct Hinv. split; [by eapply inv_one0|].
  destruct (inv_claim0 i t Hi Hl Hov) as (row & ? & ? & ? & _). eauto.
Qed.

(** A task that writes in time does not find a settled row. *)
Lemma settled_other s i t k row f :
  inv s -> tasks s !! i = Some t -> k ∉ written_by s t ->
  processing (db (w s)) !! k = Some row -> terminal (pr_status row) = true ->
  (alter f (key t) (processing (db (w s))) : gmap (string * string) processing_row) !! k = Some row.
Proof.
  intros [] Hi [Hov Hl]%not_written_by Hrow Ht. rewrite alter_other; [done|]. intros ->.
  destruct (inv_claim0 i t Hi (Hl eq_refl) Hov) as (row' & Hrow' & E & _). simplify_eq. by rewrite E in Ht.
Qed.

(** a settled event stays settled: no later claim, retry or dead letter
    changes the row of an event that is processed or dead lettered, unless
    the write comes from a stale claim. *)
Theorem settled_is_final s s' k row :
  reachable b0 s -> step s s' -> k ∉ overdue s' -> processing (db (w s)) !! k = Some row ->
  terminal (pr_status row) = true -> processing (db (w s')) !! k = Some row.
Proof.
  intros Hinv%inv_reachable Hstep Hov Hrow Ht. destruct Hstep as
    [s t Hn|s evt c st r i Hb Hr Hi|s evt c st r p Hb Hr Hp|s evt c st r Hb Hr
    |s i t b evts at_time ms a Hi Hph Hh|s i t e ms Hi Hph Hm|s i t Hi Hph Hm
    |s i t f wr e Hi Hph|s i t f wr e ms Hi Hph|s i t f e ms a Hi Hph|s i];
    cbn in *; try done; try by eapply settled_other.
  - destruct (decide (k = (event_id evt, c))) as [->|Hk]; [|by erewrite begin_other].
    destruct (claim_row _ _ _ _ _ Hb Hr) as (new & _ & _ & _ & _ & Hold). rewrite Hrow in Hold. congruence.
  - destruct (refused_processing _ _ _ _ _ _ Hb) as [-> _]; [|done]. rewrite Hr. by intros [= ->].
  - destruct (refused_processing _ _ _ _ _ _ Hb) as [-> _]; [by rewrite Hr|done].
  - destruct (stage_events_frame (db (w s)) evts) as [-> _]. by eapply settled_other.
Qed.

End Worker.

(** ** Samples *)

Definition sample_policy : EventRetryPolicy :=
  {| max_attempts := 3; retry_delay_seconds := 2; fetch_batch_size := 1;
     handler_timeout_seconds := 30; dead_letter_timeout_seconds := 10; max_concurrency := 8 |}.
Definition sample_event : EventEnvelope :=
  {| event_id := "e1"; subject := "git.changed"; source := "scm"; correlation_id := "c1";
     causation_id := None; created_at := "2024-01-01T00:00:00+00:00"; payload := [];
     schema_version := 1; workspace_id := None |}.
Definition sample_handler (evt : EventEnvelope) (n : Z) : run (Z * list EventEnvelope) :=
  Returns (n + 1, []).
Definition sample_key : string * string := ("e1", "api").

(** The states a claim, a commit, a failed capture and the clock lead to. *)
Definition at_time (s : sys) (t : Z) : @sys Z :=
  {| w := w s; now := t; tasks := tasks s; acked := acked s; effects := effects s; overdue := overdue s |}.
Definition claimed (stale : Z) (s : sys) (i : nat) : @sys Z :=
  let '(st, r) := begin stale (now s) (db (w s)) sample_event "api" in
  {| w := with_db s st; now := now s;
     tasks := <[i := {| t_evt := sample_event; t_consumer := "api"; t_attempts := rec_attempts r;
                        t_claimed := now s; t_phase := Handling |}]> (tasks s);
     acked := acked s; effects := effects s; overdue := overdue s |}.
Definition committed (s : sys) (i : nat) : @sys Z :=
  {| w := {| db := finish_event_processing (now s) (stage_events (db (w s)) []) sample_event "api"
                     (Some 5);
             business := business (w s) + 1 |};
     now := now s; tasks := delete i (tasks s); acked := {[ sample_key ]} ∪ acked s;
     effects := effects s ++ [(sample_event, "api")]; overdue := overdue s |}.

Lemma claimed_step policy stale s i r :
  (begin stale (now s) (db (w s)) sample_event "api").2 = r -> rec_status r = Stored PROCESSING ->
  tasks s !! i = None -> step sample_handler stale policy s (claimed stale s i).
Proof.
  unfold claimed. destruct (begin stale (now s) (db (w s)) sample_event "api") as [st r'] eqn:E.
  cbn. intros <- Hr Hi. by eapply step_claim.
Qed.

Lemma committed_step policy stale s i t :
  tasks s !! i = Some t -> t_evt t = sample_event -> t_consumer t = "api" -> t_phase t = Handling ->
  live stale s t -> step sample_handler stale policy s (committed s i).
Proof.
  intros Hi He Hc Hp Hl. pose proof (step_commit sample_handler stale policy s i t _ _ (now s) 5 true
    Hi Hp eq_refl) as H. unfold key, written_by in H. rewrite decide_True in H by exact Hl.
  rewrite He, Hc in H. exact H.
Qed.

Definition sample_start : @sys Z := initial 0 0.
Definition sample_done : @sys Z := committed (claimed 90 sample_start 0) 0.

Lemma sample_done_reachable : reachable sample_handler 90 sample_policy 0 sample_done.
Proof.
  exists 0. eapply rtc_l; [by eapply (claimed_step _ _ _ 0)|].
  apply rtc_once. eapply committed_step; [vm_compute; reflexivity|done..].
Qed.

Lemma effects_at_most_once_witness :
  replay sample_handler (effects sample_done) 0 = Some (1, []) /\
  (effect_count sample_done sample_key <= 1)%nat.
Proof.
  destruct (effects_at_most_once sample_handler 90 sample_policy 0 sample_done sample_done_reachable)
    as [_ H].
  split; [vm_compute; reflexivity|]. apply H. intros E. vm_compute in E. discriminate E.
Defined.

Lemma acked_means_settled_witness :
  exists row, processing (db (w sample_done)) !! sample_key = Some row /\
    ((pr_status row = PROCESSED /\ effect_count sample_done sample_key = 1%nat) \/
     (pr_status row = DEAD_LETTERED /\ effect_count sample_done sample_key = 0%nat /\
      has_dead_letter (db (w sample_done)) sample_key /\ 3 <= pr_attempts row)).
Proof.
  apply (acked_means_settled sample_handler 90 sample_policy 0).
  - exact sample_done_reachable.
  - intros E. vm_compute in E. discriminate E.
  - vm_compute. reflexivity.
Defined.

Lemma sample_claimed_reachable :
  reachable sample_handler 90 sample_policy 0 (claimed 90 sample_start 0).
Proof. exists 0. apply rtc_once. by eapply (claimed_step _ _ _ 0). Qed.

Definition sample_task : task :=
  {| t_evt := sample_event; t_consumer := "api"; t_attempts := 1; t_claimed := 0;
     t_phase := Handling |}.

Lemma claims_are_exclusive_witness :
  exists row, processing (db (w (claimed 90 sample_start 0))) !! sample_key = Some row /\
    pr_status row = PROCESSING.
Proof.
  destruct (claims_are_exclusive sample_handler 90 sample_policy 0 (claimed 90 sample_start 0) 0 0 sample_task sample_task sample_claimed_reachable
    ltac:(vm_compute; reflexivity) ltac:(vm_compute; reflexivity)
    ltac:(vm_compute; intros E; discriminate E) ltac:(vm_compute; intros E; discriminate E) eq_refl
    ltac:(intros E; vm_compute in E; discriminate E))
    as [_ (row & H1 & H2 & _)].
  exists row. split; [exact H1|exact H2].
Defined.

Lemma settled_is_final_witness :
  exists row, processing (db (w (at_time sample_done 7))) !! sample_key = Some row.
Proof.
  destruct (processing (db (w sample_done)) !! sample_key) as [row|] eqn:E.
  - exists row. apply (settled_is_final sample_handler 90 sample_policy 0 sample_done (at_time sample_done 7) sample_key row sample_done_reachable).
    + apply step_time. vm_compute. intros F. discriminate F.
    + intros F. vm_compute in F. discriminate F.
    + exact E.
    + vm_compute in E. injection E as <-. reflexivity.
  - vm_compute in E. discriminate E.
Defined.

Definition sample_circumstances : circumstances :=
  {| c_claim_error := false; c_claim_time := 0; c_in_time := true; c_transaction_time := 0;
     c_commit_error := None; c_elapsed_ms := 5; c_capture := Captured; c_fail_time := 0;
     c_uid := "u" |}.

Lemma process_event_steps_witness :
  exists s', rtc (step sample_handler 90 sample_policy) sample_start s' /\
    w s' = (process_event sample_handler 90 sample_policy sample_circumstances (w sample_start)
              sample_event "api").1.
Proof.
  destruct (process_event_steps sample_handler 90 sample_policy sample_start sample_circumstances
    sample_event "api" (process_event sample_handler 90 sample_policy sample_circumstances
      (w sample_start) sample_event "api").1 (Some Ack) eq_refl
    ltac:(vm_compute; intros E; discriminate E) ltac:(vm_compute; reflexivity)) as (s' & H1 & H2 & _).
  exists s'. split; [exact H1|exact H2].
Defined.

(** ** The timing contract alone is not enough

    The worker checks [handler_timeout < ack_wait < stale] when it starts.
    The capture of a dead letter may run for another
    [dead_letter_timeout_seconds] after the handler failed, and
    [fail_event_processing] updates the row whatever its status: a slow
    capture can reopen an event that another worker has processed.  In the
    run below the handler times out after its 30 seconds and the capture
    gives up after 69 of its 70, so every wait keeps to its timeout. *)

Definition slow_policy : EventRetryPolicy :=
  {| max_attempts := 1; retry_delay_seconds := 2; fetch_batch_size := 1;
     handler_timeout_seconds := 30; dead_letter_timeout_seconds := 70; max_concurrency := 8 |}.

Definition exhausted (s : sys) (i : nat) (t : task) : @sys Z :=
  {| w := w s; now := now s; tasks := <[i := set_phase t (Capturing (now s) false)]> (tasks s);
     acked := acked s; effects := effects s; overdue := overdue s |}.
Definition capture_failed (s : sys) (i : nat) : @sys Z :=
  {| w := with_db s (fail_event_processing (now s) (db (w s)) sample_event "api" "" RETRYING (Some 5));
     now := now s; tasks := delete i (tasks s); acked := acked s; effects := effects s;
     overdue := {[ sample_key ]} ∪ overdue s |}.

Definition race1 : @sys Z := at_time (claimed 90 sample_start 0) (seconds 30).
Definition race2 : @sys Z := at_time (exhausted race1 0 sample_task) (seconds 95).
Definition race3 : @sys Z := committed (claimed 90 race2 1) 1.
Definition race4 : @sys Z := capture_failed (at_time race3 (seconds 99)) 0.
Definition race5 : @sys Z := committed (claimed 90 race4 2) 2.

Lemma race5_reachable : reachable sample_handler 90 slow_policy 0 race5.
Proof.
  exists 0. eapply rtc_l; [by eapply (claimed_step _ _ _ 0)|].
  eapply rtc_l; [by apply (step_time _ _ _ _ (seconds 30))|].
  eapply rtc_l; [by apply (step_exhausted _ _ slow_policy race1 0 sample_task)|].
  eapply rtc_l; [by apply (step_time _ _ _ _ (seconds 95))|].
  eapply rtc_l; [by eapply (claimed_step _ _ race2 1)|].
  eapply rtc_l; [eapply (committed_step slow_policy 90 (claimed 90 race2 1) 1); [vm_compute; reflexivity|done..]|].
  eapply rtc_l; [by apply (step_time _ _ _ race3 (seconds 99))|].
  eapply rtc_l; [by apply (step_capture_failed _ _ slow_policy (at_time race3 (seconds 99)) 0
    (set_phase sample_task (Capturing (seconds 30) false)) (seconds 30) false "" 5)|].
  eapply rtc_l; [by eapply (claimed_step _ _ race4 2)|].
  apply rtc_once. eapply (committed_step slow_policy 90 (claimed 90 race4 2) 2); [vm_compute; reflexivity|done..].
Qed.

(** The contract accepts timers under which an event takes effect twice. *)
Theorem timing_contract_not_enough :
  exists (policy : EventRetryPolicy) ack_wait stale (s : @sys Z),
    validate_event_timing_contract (handler_timeout_seconds policy) ack_wait stale = Ok tt /\
    reachable sample_handler stale policy 0 s /\ overdue s = {[ sample_key ]} /\
    effect_count s sample_key = 2%nat.
Proof.
  exists slow_policy, 60, 90, race5. split; [done|]. split; [exact race5_reachable|].
  split; vm_compute; reflexivity.
Qed.

End EventWorker.
