(* ===== verification/OutboxRelay.v ===== *)
(** * The outbox relay

    [src/src/packages/runtime/relay.py] on the outbox of [EventStore]: a batch
    of unsent rows is leased, published one by one, and only what was
    published (or given up as a dead letter) is marked as sent. *)
From S2P Require Import Prelude PyStr PyFloat PyVal Libs EventStore.

Module OutboxRelay.
Import EventStore.

(** What becomes of one publication: it returns, it raises a
    [MaxPayloadError] whose dead letter is then recorded, it raises one whose
    dead letter cannot be recorded, or it raises something else. *)
Inductive publication := Published | Rejected (error : string) | RejectedUnrecorded | Failed.

Record relay := {
  relay_source : option string;
  batch : nat;
}.

Definition relay_consumer_name (r : relay) : string :=
  "outbox-relay:" +:+ match relay_source r with
                      | Some s => if is_empty s then "all" else s
                      | None => "all"
                      end.

(** The loop over the leased rows: the tables, the published ids in order and
    whether it ran to its end. *)
Fixpoint publish_rows (publish : EventEnvelope -> publication) (consumer : string) (now : Z)
    (st : store) (rows : list EventEnvelope) : store * list string * bool :=
  match rows with
  | [] => (st, [], true)
  | evt :: rows =>
      match publish evt with
      | Published =>
          let '(st', ids, finished) := publish_rows publish consumer now st rows in
          (st', event_id evt :: ids, finished)
      | Rejected error =>
          publish_rows publish consumer now
            (mark_events_dead_lettered now st [evt] consumer error) rows
      | RejectedUnrecorded | Failed => (st, [], false)
      end
  end.

(** [run_once]: the tables and the number of published events, [None] when it
    raises.  [mark_fails]: the statement of the [finally] clause raises. *)
Definition run_once (publish : EventEnvelope -> publication) (mark_fails : bool)
    (now local_now : Z) (lease_id : string) (r : relay) (st : store) : store * option nat :=
  let '(st1, rows) := unsent_events now local_now lease_id st (batch r) (relay_source r) in
  let '(st2, published, finished) :=
    publish_rows publish (relay_consumer_name r) now st1 rows in
  if bool_decide (published = []) then (st2, if finished then Some 0%nat else None)
  else if mark_fails then (st2, None)
  else (mark_events_sent now st2 published, if finished then Some (length published) else None).

(** ** Reference notions *)

Definition ids (st : store) : list string := (fun r => event_id (ob_event r)) <$> outbox st.

(** The events the loop reached and published, and those it gave up. *)
Fixpoint reached (publish : EventEnvelope -> publication) (rows : list EventEnvelope)
    : list EventEnvelope :=
  match rows with
  | [] => []
  | evt :: rows =>
      match publish evt with
      | Published | Rejected _ => evt :: reached publish rows
      | _ => []
      end
  end.

(** ** Lemmas: leasing *)

Lemma lease_rows_events now src id until limit rows rows' taken :
  lease_rows now src id until limit rows = (rows', taken) ->
  ob_event <$> rows' = ob_event <$> rows.
Proof.
  revert limit rows' taken. induction rows as [|r rows IH]; intros [|limit] rows' taken; cbn;
    try by intros [= <- <-].
  destruct (claimable now src r).
  - destruct (lease_rows now src id until limit rows) as [rest t] eqn:E. intros [= <- <-]. cbn.
    f_equal. by eapply IH.
  - destruct (lease_rows now src id until (S limit) rows) as [rest t] eqn:E. intros [= <- <-]. cbn.
    f_equal. by eapply IH.
Qed.

(** Which rows change, and how. *)
Lemma lease_rows_spec now src id until limit rows rows' taken :
  lease_rows now src id until limit rows = (rows', taken) ->
  Forall2 (fun r r' => (r' = r /\ (claimable now src r = true -> length taken = limit)) \/
             (r' = lease id until r /\ claimable now src r = true /\ ob_event r ∈ taken)) rows rows' /\
  taken `sublist_of` (ob_event <$> keep (claimable now src) rows) /\ (length taken <= limit)%nat.
Proof.
  revert limit rows' taken. induction rows as [|r rows IH]; intros [|limit] rows' taken; cbn.
  - intros [= <- <-]. repeat split; [constructor|constructor|done].
  - intros [= <- <-]. repeat split; [constructor|constructor|cbn; lia].
  - intros [= <- <-]. split; [|split; [apply sublist_nil_l|done]].
    constructor; [by left|]. clear. induction rows; constructor; [by left|done].
  - destruct (claimable now src r) eqn:Hc.
    + destruct (lease_rows now src id until limit rows) as [rest t] eqn:E. intros [= <- <-].
      destruct (IH _ _ _ E) as (HF & Hsub & Hlen). repeat split; [|by apply sublist_skip|cbn; lia].
      constructor; [right; repeat split; [done|set_solver]|].
      eapply Forall2_impl; [exact HF|]. intros a b [[-> Hl]|(-> & ? & ?)]; [left|right; set_solver].
      split; [done|]. intros Ha. cbn. by rewrite Hl.
    + destruct (lease_rows now src id until (S limit) rows) as [rest t] eqn:E. intros [= <- <-].
      destruct (IH _ _ _ E) as (HF & Hsub & Hlen). repeat split; [|done|done].
      constructor; [left; split; [done|congruence]|done].
Qed.

(** a batch of the relay takes rows from the front of the outbox: only
    unsent, free rows of its source, at most [limit], and when it takes fewer
    there are no others; it leases what it takes and leaves the rest alone. *)
Theorem unsent_events_spec now local_now id st limit src st' taken :
  unsent_events now local_now id st limit src = (st', taken) ->
  taken `sublist_of` (ob_event <$> keep (claimable now src) (outbox st)) /\
  (length taken <= limit)%nat /\
  Forall2 (fun r r' => (r' = r /\ (claimable now src r = true -> length taken = limit)) \/
      (r' = lease id (local_now + seconds DEFAULT_OUTBOX_LEASE_SECONDS) r /\
       claimable now src r = true /\ ob_event r ∈ taken)) (outbox st) (outbox st').
Proof.
  unfold unsent_events. destruct (lease_rows _ _ _ _ _ _) as [rows t] eqn:E. intros [= <- <-].
  apply lease_rows_spec in E as (? & ? & ?). done.
Qed.

(** What was taken is leased now; what is taken was claimable. *)
Lemma lease_rows_leased now src id until limit rows rows' taken e :
  lease_rows now src id until limit rows = (rows', taken) -> e ∈ taken ->
  exists r, r ∈ rows /\ ob_event r = e /\ claimable now src r = true /\ lease id until r ∈ rows'.
Proof.
  revert limit rows' taken. induction rows as [|r rows IH]; intros [|limit] rows' taken; cbn;
    try (intros [= <- <-]; set_solver).
  destruct (claimable now src r) eqn:Hc.
  - destruct (lease_rows now src id until limit rows) as [rest t] eqn:E. intros [= <- <-].
    intros [->|Hin]%elem_of_cons; [exists r; set_solver|].
    destruct (IH _ _ _ E Hin) as (x & ? & ? & ? & ?). exists x. set_solver.
  - destruct (lease_rows now src id until (S limit) rows) as [rest t] eqn:E. intros [= <- <-] Hin.
    destruct (IH _ _ _ E Hin) as (x & ? & ? & ? & ?). exists x. set_solver.
Qed.

Lemma unsent_events_ids now local_now id st limit src st' taken :
  unsent_events now local_now id st limit src = (st', taken) -> ids st' = ids st.
Proof.
  unfold unsent_events, ids. destruct (lease_rows _ _ _ _ _ _) as [rows t] eqn:E. intros [= <- <-].
  cbn. apply lease_rows_events in E. apply (f_equal (fmap event_id)) in E.
  by rewrite <- !list_fmap_compose in E.
Qed.

(** no event is relayed by two batches at a time: a batch claimed while
    the lease of an earlier one runs has no event in common with it. *)
Theorem leases_are_exclusive now1 local1 id1 limit1 src1 now2 local2 id2 limit2 src2
    st st1 st2 taken1 taken2 e1 e2 :
  NoDup (ids st) ->
  unsent_events now1 local1 id1 st limit1 src1 = (st1, taken1) ->
  unsent_events now2 local2 id2 st1 limit2 src2 = (st2, taken2) ->
  now2 <= local1 + seconds DEFAULT_OUTBOX_LEASE_SECONDS ->
  e1 ∈ taken1 -> e2 ∈ taken2 -> event_id e1 <> event_id e2.
Proof.
  intros Hnd H1 H2 Ht He1 He2 Heq. pose proof (unsent_events_ids _ _ _ _ _ _ _ _ H1) as Hids.
  unfold unsent_events in H1, H2.
  destruct (lease_rows now1 _ _ _ _ _) as [rows1 t1] eqn:E1. injection H1 as <- <-.
  destruct (lease_rows now2 _ _ _ _ _) as [rows2 t2] eqn:E2. injection H2 as <- <-. cbn in *.
  apply (lease_rows_leased _ _ _ _ _ _ _ _ _ E1) in He1 as (r1 & _ & <- & _ & Hl1).
  apply (lease_rows_leased _ _ _ _ _ _ _ _ _ E2) in He2 as (r2 & Hr2 & <- & Hc2 & _).
  rewrite <- Hids in Hnd. unfold ids in Hnd. cbn in Hnd.
  assert (lease id1 (local1 + seconds DEFAULT_OUTBOX_LEASE_SECONDS) r1 = r2) as <-.
  { by eapply (NoDup_fmap_fst_eq (fun r => event_id (ob_event r))). }
  unfold claimable in Hc2. cbn in Hc2. apply andb_true_iff in Hc2 as [Hc2 _].
  apply andb_true_iff in Hc2 as [_ Hc2]. apply Z.ltb_lt in Hc2. lia.
Qed.

(** ** Lemmas: marking *)

Lemma mark_rows now st l :
  Forall2 (fun r r' => r' = if bool_decide (event_id (ob_event r) ∈ l) then sent now r else r)
    (outbox st) (outbox (mark_events_sent now st l)).
Proof. cbn. induction (outbox st); cbn; constructor; done. Qed.

(** The relation between the rows before and after the loop: a row is kept, or
    it is sent and the event was given up as a dead letter. *)
Definition given_up (now : Z) (st' : store) (r r' : outbox_row) : Prop :=
  r' = r \/ (r' = sent now r /\
    exists d, d ∈ dead_letters st' /\ dl_event_id d = event_id (ob_event r)).

Lemma mark_dead_lettered_rows now st evt consumer error :
  Forall2 (given_up now (mark_events_dead_lettered now st [evt] consumer error))
    (outbox st) (outbox (mark_events_dead_lettered now st [evt] consumer error)) /\
  (forall d, d ∈ dead_letters st -> d ∈ dead_letters (mark_events_dead_lettered now st [evt] consumer error)) /\
  dead_letter_of evt consumer error 1 ∈ dead_letters (mark_events_dead_lettered now st [evt] consumer error).
Proof.
  unfold mark_events_dead_lettered. rewrite bool_decide_false by done. repeat split; cbn [fmap list_fmap].
  - match goal with |- Forall2 (given_up _ ?x) _ _ => set (st' := x) end.
    pose proof (mark_rows now (set_dead_letters st (dead_letters st ++ [dead_letter_of evt consumer error 1]))
      [event_id evt]) as HF.
    eapply Forall2_impl; [exact HF|]. intros r r' ->. case_bool_decide as Hin; [|by left].
    right. split; [done|]. exists (dead_letter_of evt consumer error 1). split; [cbn; set_solver|].
    apply list_elem_of_singleton in Hin. by rewrite Hin.
  - intros d Hd. cbn. set_solver.
  - cbn. set_solver.
Qed.

Lemma given_up_trans now st1 st2 r r1 r2 :
  (forall d, d ∈ dead_letters st1 -> d ∈ dead_letters st2) ->
  given_up now st1 r r1 -> given_up now st2 r1 r2 -> given_up now st2 r r2.
Proof.
  intros Hsub [->|[-> (d & Hd & E)]]; [done|]. intros [->|[-> (d' & Hd' & E')]]; right;
    (split; [done|]); eauto.
Qed.

Lemma publish_rows_spec publish consumer now st rows st' published finished :
  publish_rows publish consumer now st rows = (st', published, finished) ->
  Forall2 (given_up now st') (outbox st) (outbox st') /\
  (forall d, d ∈ dead_letters st -> d ∈ dead_letters st') /\
  published = event_id <$> keep (fun e => match publish e with Published => true | _ => false end)
                             (reached publish rows) /\
  (forall e error, e ∈ reached publish rows -> publish e = Rejected error ->
     dead_letter_of e consumer error 1 ∈ dead_letters st') /\
  (finished = true -> reached publish rows = rows).
Proof.
  revert st st' published. induction rows as [|evt rows IH]; intros st st' published; cbn.
  - intros [= <- <- <-]. repeat split; try done; [|set_solver].
    induction (outbox st); constructor; [by left|done].
  - destruct (publish evt) as [|error| |] eqn:Hp.
    + destruct (publish_rows publish consumer now st rows) as [[st1 l] f] eqn:E. intros [= <- <- <-].
      destruct (IH _ _ _ E) as (HF & Hd & -> & Hr & Hfin). repeat split; try done.
      * cbn. by rewrite Hp.
      * intros e err [->|Hin]%elem_of_cons; [congruence|]. by apply Hr.
      * intros Hf. by rewrite Hfin.
    + intros E. destruct (IH _ _ _ E) as (HF & Hd & -> & Hr & Hfin).
      destruct (mark_dead_lettered_rows now st evt consumer error) as (HF0 & Hd0 & Hin0).
      repeat split.
      * eapply Forall2_compose; [|exact HF0|exact HF]. intros a b c. by apply given_up_trans.
      * auto.
      * cbn. by rewrite Hp.
      * intros e err [->|Hin]%elem_of_cons He; [|by apply Hr]. rewrite Hp in He. injection He as ->. auto.
      * intros Hf. by rewrite Hfin.
    + intros [= <- <- <-]. repeat split; try done; [|set_solver].
      induction (outbox st); constructor; [by left|done].
    + intros [= <- <- <-]. repeat split; try done; [|set_solver].
      induction (outbox st); constructor; [by left|done].
Qed.

(** A row after a run: the same event, and if it became sent, it was published
    in this run or is kept as a dead letter. *)
Definition accounted (publish : EventEnvelope -> publication) (rows : list EventEnvelope)
    (letters : list dead_letter_row) (x x' : outbox_row) : Prop :=
  ob_event x' = ob_event x /\
  (ob_sent_at x' = ob_sent_at x \/
   (exists e, e ∈ reached publish rows /\ publish e = Published /\
      event_id e = event_id (ob_event x)) \/
   (exists d, d ∈ letters /\ dl_event_id d = event_id (ob_event x))).

Definition published_ids (publish : EventEnvelope -> publication) (rows : list EventEnvelope)
    : list string :=
  event_id <$> keep (fun e => match publish e with Published => true | _ => false end)
                 (reached publish rows).

Lemma elem_of_published_ids publish rows i :
  i ∈ published_ids publish rows <->
  exists e, e ∈ reached publish rows /\ publish e = Published /\ event_id e = i.
Proof.
  unfold published_ids. rewrite list_elem_of_fmap. split.
  - intros (e & -> & [Hin He]%elem_of_keep). exists e. by destruct (publish e).
  - intros (e & Hin & He & <-). exists e. split; [done|]. apply elem_of_keep. by rewrite He.
Qed.

Lemma unsent_events_kept now local_now id st limit src st' taken :
  unsent_events now local_now id st limit src = (st', taken) ->
  Forall2 (fun r r' => ob_event r' = ob_event r /\ ob_sent_at r' = ob_sent_at r)
    (outbox st) (outbox st').
Proof.
  unfold unsent_events. destruct (lease_rows _ _ _ _ _ _) as [rows t] eqn:E. intros [= <- <-].
  apply lease_rows_spec in E as (HF & _). eapply Forall2_impl; [exact HF|].
  by intros r r' [[-> _]|(-> & _)].
Qed.

Lemma mark_accounted publish rows now st0 st l :
  Forall2 (accounted publish rows (dead_letters st)) (outbox st0) (outbox st) ->
  (forall i, i ∈ l -> i ∈ published_ids publish rows) ->
  Forall2 (accounted publish rows (dead_letters st)) (outbox st0) (outbox (mark_events_sent now st l)).
Proof.
  intros HF Hl. eapply Forall2_compose; [|exact HF|apply mark_rows].
  intros x y z [He Hs] ->. case_bool_decide as Hin; [|done].
  split; [done|]. right. left. apply Hl, elem_of_published_ids in Hin. by rewrite <- He.
Qed.

Lemma marked_sent now st l x :
  x ∈ outbox (mark_events_sent now st l) -> event_id (ob_event x) ∈ l -> ob_sent_at x = Some now.
Proof.
  cbn. intros (r & -> & Hr)%list_elem_of_fmap. case_bool_decide; [done|]. intros ?. done.
Qed.

(** the relay loses nothing and never claims a publication that did not
    happen: after a run every outbox row is still there, a row that became
    sent was published in this run or is kept as a dead letter, everything
    published is marked as sent (unless that statement itself failed), and a
    run that returns has dealt with its whole batch. *)
Theorem run_once_accounts publish mark_fails now local_now id r st st1 rows st' o :
  unsent_events now local_now id st (batch r) (relay_source r) = (st1, rows) ->
  run_once publish mark_fails now local_now id r st = (st', o) ->
  Forall2 (accounted publish rows (dead_letters st')) (outbox st) (outbox st') /\
  (mark_fails = false -> forall x, x ∈ outbox st' ->
     event_id (ob_event x) ∈ published_ids publish rows -> ob_sent_at x = Some now) /\
  (forall n, o = Some n -> reached publish rows = rows /\ n = length (published_ids publish rows)).
Proof.
  intros Hu. unfold run_once. rewrite Hu.
  destruct (publish_rows publish (relay_consumer_name r) now st1 rows) as [[st2 pub] fin] eqn:Hp.
  destruct (publish_rows_spec _ _ _ _ _ _ _ _ Hp) as (HF & _ & Hpub & _ & Hfin).
  fold (published_ids publish rows) in Hpub.
  assert (Forall2 (accounted publish rows (dead_letters st2)) (outbox st) (outbox st2)) as HA.
  { eapply Forall2_compose; [|exact (unsent_events_kept _ _ _ _ _ _ _ _ Hu)|exact HF].
    intros x y z [He Hs] [->|[-> (d & Hd & E)]]; [by split; [|left]|].
    split; [done|]. right. right. exists d. by rewrite <- He. }
  case_bool_decide as Hnil; [|destruct mark_fails].
  - intros [= <- <-]. split; [done|]. split.
    + intros _ x _ Hx. rewrite <- Hpub, Hnil in Hx. set_solver.
    + intros n Hn. destruct fin; [|done]. injection Hn as <-. split; [by apply Hfin|].
      by rewrite <- Hpub, Hnil.
  - intros [= <- <-]. done.
  - intros [= <- <-]. split; [|split].
    + apply (mark_accounted publish rows now st st2); [done|]. by rewrite Hpub.
    + intros _ x Hx Hi. eapply marked_sent; [exact Hx|]. by rewrite Hpub.
    + intros n Hn. destruct fin; [|done]. injection Hn as <-. split; [by apply Hfin|by rewrite Hpub].
Qed.

(** ** Staging and replaying *)

Lemma stage_event_ids st evt :
  ids (stage_event st evt) = if bool_decide (event_id evt ∈ ids st) then ids st
                             else ids st ++ [event_id evt].
Proof.
  unfold stage_event, has_outbox, ids. destruct (existsb _ (outbox st)) eqn:E.
  - apply existsb_elem in E as (r & Hr & Hi). apply str_eqb_eq in Hi. rewrite bool_decide_true; [done|].
    rewrite <- Hi. apply list_elem_of_fmap. eauto.
  - rewrite bool_decide_false; [cbn; by rewrite fmap_app|].
    intros (r & Hi & Hr)%list_elem_of_fmap. apply not_true_iff_false in E. destruct E.
    apply existsb_elem. exists r. split; [done|]. by apply str_eqb_eq.
Qed.

(** staging is idempotent on event ids: the ids of the outbox stay
    distinct, every staged event is there afterwards, and nothing else is
    added. *)
Theorem stage_events_unique st evts :
  NoDup (ids st) ->
  NoDup (ids (stage_events st evts)) /\
  (forall i, i ∈ ids (stage_events st evts) <-> i ∈ ids st \/ i ∈ event_id <$> evts).
Proof.
  unfold stage_events. revert st. induction evts as [|e evts IH]; intros st Hnd; cbn; [set_solver|].
  assert (NoDup (ids (stage_event st e)) /\
    (forall i, i ∈ ids (stage_event st e) <-> i ∈ ids st \/ i = event_id e)) as [Hnd' Hin].
  { rewrite stage_event_ids. case_bool_decide as Hi; [set_solver|]. split; [|set_solver].
    apply NoDup_app. split; [done|]. split; [set_solver|apply NoDup_singleton]. }
  destruct (IH _ Hnd') as [? Hall]. split; [done|]. intros i. rewrite Hall, Hin. set_solver.
Qed.

(** a dead letter is replayed at most once: the first request wins, the
    letter remembers it, and every later request is refused and changes
    nothing. *)
Theorem replayed_once now1 now2 st i id1 id2 st1 :
  mark_dead_letter_replayed now1 st i id1 = (st1, true) ->
  mark_dead_letter_replayed now2 st1 i id2 = (st1, false) /\
  exists row, dead_letters st1 !! i = Some row /\ dl_status row = Replayed /\
    dl_replay_event_id row = Some id1 /\ open_dead_letter_count st = S (open_dead_letter_count st1).
Proof.
  unfold mark_dead_letter_replayed. destruct (dead_letters st !! i) as [row|] eqn:E; [|done].
  case_bool_decide as Ho; [|done]. intros [= <-]. cbn.
  apply lookup_lt_Some in E as Hlt. rewrite list_lookup_insert_eq by done. split; [done|].
  eexists. split; [done|]. repeat split. unfold open_dead_letter_count. cbn.
  rewrite <- (take_drop_middle _ _ _ E) at 1. rewrite insert_take_drop by done.
  rewrite !keep_app, !length_app. cbn [keep dl_status].
  rewrite bool_decide_true, bool_decide_false by done. cbn [length]. lia.
Qed.

(** ** Witnesses *)

Definition sample_event (i : string) : EventEnvelope :=
  {| event_id := i; subject := "git.changed"; source := "scm"; correlation_id := "c1";
     causation_id := None; created_at := ""; payload := []; schema_version := 1;
     workspace_id := None |}.
Definition sample_store : store := stage_events empty_store [sample_event "a"; sample_event "b"].
Definition sample_relay : relay := {| relay_source := Some "scm"; batch := 1 |}.
Definition sample_publish (e : EventEnvelope) : publication := Published.

Lemma unsent_events_spec_witness : (length [sample_event "a"] <= 1)%nat.
Proof.
  apply (unsent_events_spec 0 0 "l1" sample_store 1 None
    (unsent_events 0 0 "l1" sample_store 1 None).1 [sample_event "a"]).
  vm_compute. reflexivity.
Defined.

Lemma leases_are_exclusive_witness : event_id (sample_event "a") <> event_id (sample_event "b").
Proof.
  apply (leases_are_exclusive 0 0 "l1" 1 None 5 5 "l2" 1 None sample_store
    (unsent_events 0 0 "l1" sample_store 1 None).1
    (unsent_events 5 5 "l2" (unsent_events 0 0 "l1" sample_store 1 None).1 1 None).1
    [sample_event "a"] [sample_event "b"]).
  - apply no_dup_spec. vm_compute. reflexivity.
  - vm_compute. reflexivity.
  - vm_compute. reflexivity.
  - vm_compute. intros E. discriminate E.
  - apply elem_of_cons; left; reflexivity.
  - apply elem_of_cons; left; reflexivity.
Defined.

Lemma run_once_accounts_witness :
  Forall2 (accounted sample_publish [sample_event "a"]
      (dead_letters (run_once sample_publish false 0 0 "l1" sample_relay sample_store).1))
    (outbox sample_store)
    (outbox (run_once sample_publish false 0 0 "l1" sample_relay sample_store).1).
Proof.
  apply (run_once_accounts sample_publish false 0 0 "l1" sample_relay sample_store
    (unsent_events 0 0 "l1" sample_store 1 (Some "scm")).1 [sample_event "a"] _ (Some 1%nat));
    vm_compute; reflexivity.
Defined.

Lemma stage_events_unique_witness : NoDup (ids sample_store).
Proof. apply (stage_events_unique empty_store). constructor. Defined.

Lemma replayed_once_witness :
  (mark_dead_letter_replayed 2
    (mark_dead_letter_replayed 1 (record_dead_letter empty_store (sample_event "a") "api" "boom" 3) 0 "r1").1
    0 "r2").2 = false.
Proof.
  rewrite (proj1 (replayed_once 1 2 (record_dead_letter empty_store (sample_event "a") "api" "boom" 3)
    0 "r1" "r2" (mark_dead_letter_replayed 1
      (record_dead_letter empty_store (sample_event "a") "api" "boom" 3) 0 "r1").1 eq_refl)).
  reflexivity.
Defined.

End OutboxRelay.
