(* ===== verification/InMemoryBus.v ===== *)
(** * The in-memory event bus

    [src/src/packages/events/in_memory.py]: subjects with wildcards, durable
    subscriptions with explicit acknowledgement, and delayed redelivery.  A
    delayed redelivery is a pending requeue; its timer is a step of the
    environment. *)
From S2P Require Import Prelude PyStr PyFloat PyVal Libs.

Module InMemoryBus.

(** ** Subjects *)

(** [_subject_matches] on the tokens: [i] tokens have been consumed. *)
Fixpoint tokens_match (pattern subject : list string) : bool :=
  match pattern with
  | [] => match subject with [] => true | _ => false end
  | token :: pattern' =>
      if str_eqb token ">" then
        match pattern', subject with [], _ :: _ => true | _, _ => false end
      else match subject with
           | [] => false
           | t :: subject' =>
               if negb (str_eqb token "*") && negb (str_eqb token t) then false
               else tokens_match pattern' subject'
           end
  end.

Definition subject_matches (pattern subject : string) : bool :=
  tokens_match (split_char "." pattern) (split_char "." subject).

(** What a pattern is meant to match: literals, [*] for one token, a final [>]
    for one or more. *)
Inductive covers : list string -> list string -> Prop :=
  | covers_end : covers [] []
  | covers_literal t p s : t <> ">" -> covers p s -> covers (t :: p) (t :: s)
  | covers_any t p s : covers p s -> covers ("*" :: p) (t :: s)
  | covers_rest t s : covers [">"] (t :: s).

(** the matcher implements the wildcard rules: it accepts a subject
    exactly when the pattern covers its tokens. *)
Theorem subject_matches_iff pattern subject :
  subject_matches pattern subject = true <->
  covers (split_char "." pattern) (split_char "." subject).
Proof.
  unfold subject_matches. generalize (split_char "." pattern) (split_char "." subject).
  intros p. induction p as [|t p IH]; intros s; cbn.
  - split; [destruct s; [constructor|done]|by inversion 1].
  - destruct (str_eqb t ">") eqn:E; [apply str_eqb_eq in E as ->|].
    + split; [destruct p, s; try done; constructor|]. inversion 1; subst; done.
    + assert (t <> ">") as Hne by (intros ->; by rewrite str_eqb_refl in E).
      destruct s as [|u s]; [split; [done|by inversion 1]|].
      destruct (str_eqb t "*") eqn:E1; cbn.
      * apply str_eqb_eq in E1 as ->. rewrite IH. split; [by constructor|].
        inversion 1; subst; done.
      * destruct (str_eqb t u) eqn:E2; cbn.
        -- apply str_eqb_eq in E2 as ->. rewrite IH. split; [by constructor|].
           inversion 1; subst; done.
        -- split; [done|]. inversion 1; subst; [by rewrite str_eqb_refl in E2|done|done].
Qed.

(** ** Subscriptions *)

Record stored_event := { se_subject : string; se_data : string }.
#[global] Instance stored_event_eq_dec : EqDecision stored_event.
Proof. solve_decision. Defined.

Record queued_event := { q_stored : stored_event; q_redelivery : bool }.

Record subscription := {
  sub_subject : string;
  sub_durable : string;
  queue : list queued_event;
  in_flight : gmap nat queued_event;
  next_delivery_id : nat;
  redelivered : nat;
  delayed : list queued_event;
  sub_closed : bool;
}.

Definition new_subscription (subject durable : string) : subscription :=
  {| sub_subject := subject; sub_durable := durable; queue := []; in_flight := ∅;
     next_delivery_id := 1; redelivered := 0; delayed := []; sub_closed := false |}.

Definition with_queue (s : subscription) (q : list queued_event) (f : gmap nat queued_event)
    (d : list queued_event) : subscription :=
  {| sub_subject := sub_subject s; sub_durable := sub_durable s; queue := q; in_flight := f;
     next_delivery_id := next_delivery_id s; redelivered := redelivered s; delayed := d;
     sub_closed := sub_closed s |}.

Definition enqueue (s : subscription) (e : stored_event) : subscription :=
  if sub_closed s then s
  else with_queue s (queue s ++ [{| q_stored := e; q_redelivery := false |}]) (in_flight s) (delayed s).

(** A message handed out: its data, its delivery and whether it is settled. *)
Record message := { m_data : string; m_delivery_id : nat; m_settled : bool }.

Definition deliver (s : subscription) (q : queued_event) : subscription * message :=
  let id := next_delivery_id s in
  ({| sub_subject := sub_subject s; sub_durable := sub_durable s; queue := queue s;
      in_flight := <[id := q]> (in_flight s); next_delivery_id := S id;
      redelivered := if q_redelivery q then S (redelivered s) else redelivered s;
      delayed := delayed s; sub_closed := sub_closed s |},
   {| m_data := se_data (q_stored q); m_delivery_id := id; m_settled := false |}).

Fixpoint deliver_all (s : subscription) (qs : list queued_event) : subscription * list message :=
  match qs with
  | [] => (s, [])
  | q :: qs =>
      let '(s1, m) := deliver s q in
      let '(s2, ms) := deliver_all s1 qs in (s2, m :: ms)
  end.

(** [fetch] when an event is ready or the wait is over: an empty queue is a
    [TimeoutError]. *)
Definition fetch (s : subscription) (batch : nat) : res (subscription * list message) :=
  _ ← raise_if (sub_closed s) RuntimeError;
  _ ← raise_if (Nat.ltb batch 1) ValueError;
  _ ← raise_if (bool_decide (queue s = [])) TimeoutError;
  Ok (deliver_all (with_queue s (drop batch (queue s)) (in_flight s) (delayed s))
        (take batch (queue s))).

(** [subscription.ack] and [subscription.nak]. *)
Definition sub_ack (s : subscription) (id : nat) : subscription :=
  with_queue s (queue s) (delete id (in_flight s)) (delayed s).

Definition sub_nak (s : subscription) (id : nat) (delay : Z) : subscription :=
  match in_flight s !! id with
  | None => s
  | Some q =>
      let s1 := sub_ack s id in
      if sub_closed s then s1
      else
        let redelivery := {| q_stored := q_stored q; q_redelivery := true |} in
        if delay =? 0 then with_queue s1 (queue s1 ++ [redelivery]) (in_flight s1) (delayed s1)
        else with_queue s1 (queue s1) (in_flight s1) (delayed s1 ++ [redelivery])
  end.

(** [message.ack] and [message.nak]: the first one settles. *)
Definition ack (s : subscription) (m : message) : subscription * message :=
  if m_settled m then (s, m)
  else (sub_ack s (m_delivery_id m),
        {| m_data := m_data m; m_delivery_id := m_delivery_id m; m_settled := true |}).

Definition nak (s : subscription) (m : message) (delay : Z) : res (subscription * message) :=
  _ ← raise_if (delay <? 0) ValueError;
  Ok (if m_settled m then (s, m)
      else (sub_nak s (m_delivery_id m) delay,
            {| m_data := m_data m; m_delivery_id := m_delivery_id m; m_settled := true |})).

(** [_requeue_after], when the delay of the [i]-th pending requeue is over. *)
Definition requeue (s : subscription) (i : nat) : subscription :=
  match delayed s !! i with
  | None => s
  | Some q =>
      let d := take i (delayed s) ++ drop (S i) (delayed s) in
      if sub_closed s then with_queue s (queue s) (in_flight s) d
      else with_queue s (queue s ++ [q]) (in_flight s) d
  end.

Record consumer_metrics := { pending : nat; ack_pending : nat; redelivered_count : nat }.

Definition metrics (s : subscription) : consumer_metrics :=
  {| pending := length (queue s) + length (delayed s); ack_pending := size (in_flight s);
     redelivered_count := redelivered s |}.

(** Cancelled requeues do not run, but leave the schedule. *)
Definition close (s : subscription) : subscription :=
  {| sub_subject := sub_subject s; sub_durable := sub_durable s; queue := queue s;
     in_flight := in_flight s; next_delivery_id := next_delivery_id s;
     redelivered := redelivered s; delayed := []; sub_closed := true |}.

(** ** The bus *)

Record bus := {
  connected : bool;
  bus_closed : bool;
  events : list stored_event;
  subscriptions : list ((string * string) * subscription);
}.

Definition new_bus : bus :=
  {| connected := false; bus_closed := false; events := []; subscriptions := [] |}.

Definition connect (b : bus) : res bus :=
  _ ← raise_if (bus_closed b) RuntimeError;
  Ok {| connected := true; bus_closed := bus_closed b; events := events b;
        subscriptions := subscriptions b |}.

Definition find_subscription (b : bus) (key : string * string) : option subscription :=
  snd <$> find (fun e => bool_decide (e.1 = key)) (subscriptions b).

(** [data] is the encoded envelope. *)
Definition publish_envelope (b : bus) (subject data : string) : res bus :=
  _ ← raise_if (negb (connected b)) RuntimeError;
  let stored := {| se_subject := subject; se_data := data |} in
  Ok {| connected := connected b; bus_closed := bus_closed b; events := events b ++ [stored];
        subscriptions :=
          (fun e => (e.1, if subject_matches (sub_subject e.2) subject then enqueue e.2 stored else e.2))
          <$> subscriptions b |}.

(** A new subscription starts with every stored event it matches. *)
Definition backlog (b : bus) (subject durable : string) : subscription :=
  fold_left enqueue (keep (fun e => subject_matches subject (se_subject e)) (events b))
    (new_subscription subject durable).

Definition subscribe (b : bus) (subject durable : string) : res (bus * subscription) :=
  _ ← raise_if (negb (connected b)) RuntimeError;
  match find_subscription b (subject, durable) with
  | Some s => Ok (b, s)
  | None =>
      let s := backlog b subject durable in
      Ok ({| connected := connected b; bus_closed := bus_closed b; events := events b;
             subscriptions := subscriptions b ++ [((subject, durable), s)] |}, s)
  end.

Definition bus_metrics (b : bus) (subject durable : string) : res consumer_metrics :=
  _ ← raise_if (negb (connected b)) RuntimeError;
  s ← raise_none (find_subscription b (subject, durable)) LookupError;
  Ok (metrics s).

Definition bus_close (b : bus) : bus :=
  if bus_closed b then b
  else {| connected := false; bus_closed := true; events := events b;
          subscriptions := (fun e => (e.1, close e.2)) <$> subscriptions b |}.

(** ** Conservation

    The life of one open subscription, as a sequence of operations; [given]
    are the events it was given and [acknowledged] the ones it has acknowledged. *)

Record history := { h_sub : subscription; given : list stored_event; acknowledged : list stored_event }.

Inductive op : history -> history -> Prop :=
  | op_enqueue h e :
      op h {| h_sub := enqueue (h_sub h) e; given := given h ++ [e]; acknowledged := acknowledged h |}
  | op_fetch h batch s ms :
      fetch (h_sub h) batch = Ok (s, ms) -> op h {| h_sub := s; given := given h; acknowledged := acknowledged h |}
  | op_ack h m s m' :
      ack (h_sub h) m = (s, m') ->
      op h {| h_sub := s; given := given h;
              acknowledged := acknowledged h ++
                (if m_settled m then []
                 else option_list (q_stored <$> in_flight (h_sub h) !! m_delivery_id m)) |}
  | op_nak h m delay s m' :
      nak (h_sub h) m delay = Ok (s, m') -> op h {| h_sub := s; given := given h; acknowledged := acknowledged h |}
  | op_requeue h i :
      op h {| h_sub := requeue (h_sub h) i; given := given h; acknowledged := acknowledged h |}.

Definition flying (s : subscription) : list stored_event := q_stored <$> (map_to_list (in_flight s)).*2.

(** Everything the subscription holds. *)
Definition held (s : subscription) : list stored_event :=
  (q_stored <$> queue s) ++ flying s ++ (q_stored <$> delayed s).

Record conserved (h : history) : Prop := {
  co_open : sub_closed (h_sub h) = false;
  co_all : given h ≡ₚ held (h_sub h) ++ acknowledged h;
  co_ids : forall i q, in_flight (h_sub h) !! i = Some q -> (i < next_delivery_id (h_sub h))%nat;
}.

(** *** Lemmas *)

(** Permutations of appended lists, by counting. *)
Ltac perm_count :=
  apply (Permutation_count_occ (decide_rel (=))); intros ?;
  repeat (rewrite ?count_occ_app; cbn [count_occ app]);
  repeat match goal with |- context [if ?d then _ else _] => destruct d end; lia.


Lemma flying_insert s i q f :
  in_flight s = f -> f !! i = None ->
  q_stored <$> (map_to_list (<[i := q]> f)).*2 ≡ₚ q_stored q :: flying s.
Proof. intros <- Hi. unfold flying. by rewrite map_to_list_insert. Qed.

Lemma flying_delete s i q :
  in_flight s !! i = Some q ->
  flying s ≡ₚ q_stored q :: (q_stored <$> (map_to_list (delete i (in_flight s))).*2).
Proof. intros Hi. unfold flying. by rewrite <- (map_to_list_delete _ _ _ Hi). Qed.

Definition ids_below (s : subscription) : Prop :=
  forall i q, in_flight s !! i = Some q -> (i < next_delivery_id s)%nat.

Lemma deliver_spec s q s' m :
  deliver s q = (s', m) -> ids_below s ->
  ids_below s' /\ held s' ≡ₚ q_stored q :: held s /\ sub_closed s' = sub_closed s /\ queue s' = queue s.
Proof.
  unfold deliver. intros [= <- <-] Hb. repeat split; cbn.
  - intros i x Hi. cbn in Hi |- *. apply lookup_insert_Some in Hi as [[<- _]|[_ Hi%Hb]]; lia.
  - assert (in_flight s !! next_delivery_id s = None) as Hfresh.
    { destruct (in_flight s !! next_delivery_id s) eqn:E; [apply Hb in E; lia|done]. }
    unfold held, flying at 1. cbn. rewrite (flying_insert s) by done. cbn.
    by rewrite <- Permutation_middle.
Qed.

Lemma deliver_all_spec s qs s' ms :
  deliver_all s qs = (s', ms) -> ids_below s ->
  ids_below s' /\ held s' ≡ₚ (q_stored <$> qs) ++ held s /\ sub_closed s' = sub_closed s.
Proof.
  revert s s' ms. induction qs as [|q qs IH]; intros s s' ms; cbn [deliver_all];
    [by intros [= <- <-]|].
  destruct (deliver s q) as [s1 m] eqn:E1. destruct (deliver_all s1 qs) as [s2 ms2] eqn:E2.
  intros Heq Hb. injection Heq as <- _. destruct (deliver_spec _ _ _ _ E1 Hb) as (Hb1 & Hh1 & Hc1 & _).
  destruct (IH _ _ _ E2 Hb1) as (? & Hh & ?). repeat split; [done| |congruence].
  rewrite Hh, Hh1. cbn. by rewrite <- Permutation_middle.
Qed.

Lemma fetch_spec s batch s' ms :
  fetch s batch = Ok (s', ms) -> ids_below s ->
  ids_below s' /\ held s' ≡ₚ held s /\ sub_closed s' = sub_closed s.
Proof.
  unfold fetch. intros Hf Hb. res_inv.
  match goal with H : _ = (s', ms) |- _ => destruct (deliver_all_spec _ _ _ _ H) as (? & Hh & ?) end; [done|].
  repeat split; try done. rewrite Hh. unfold held, flying. cbn. rewrite app_assoc, <- fmap_app.
  by rewrite take_drop.
Qed.

Lemma nak_spec s m delay s' m' :
  nak s m delay = Ok (s', m') -> sub_closed s = false -> ids_below s ->
  ids_below s' /\ held s' ≡ₚ held s /\ sub_closed s' = false.
Proof.
  unfold nak, sub_nak. intros Hn Hc Hb. apply bind_Ok in Hn as (? & _ & Hn). rewrite Hc in Hn.
  destruct (m_settled m); [by simplify_eq|].
  destruct (in_flight s !! m_delivery_id m) as [q|] eqn:E; [|by simplify_eq].
  assert (forall q' d, ids_below (with_queue (sub_ack s (m_delivery_id m)) q' (delete (m_delivery_id m) (in_flight s)) d)) as Hb'.
  { intros q' d i y Hi. cbn in Hi. apply lookup_delete_Some in Hi as [_ Hi]. by apply Hb in Hi. }
  pose proof (flying_delete _ _ _ E) as Hfl. injection Hn as <- _.
  destruct (delay =? 0); (split; [apply Hb'|]); (split; [|done]); unfold held; rewrite Hfl;
    unfold flying; cbn; rewrite fmap_app; cbn; perm_count.
Qed.

Lemma requeue_spec s i :
  sub_closed s = false -> ids_below s ->
  ids_below (requeue s i) /\ held (requeue s i) ≡ₚ held s /\ sub_closed (requeue s i) = false.
Proof.
  unfold requeue. intros Hc Hb. destruct (delayed s !! i) as [q|] eqn:E; [|done]. rewrite Hc.
  repeat split; [done| |done]. unfold held, flying. cbn. rewrite fmap_app. cbn.
  rewrite <- (take_drop_middle _ _ _ E) at 3. rewrite !fmap_app. cbn.
  perm_count.
Qed.

(** an open subscription neither loses nor duplicates an event: whatever
    the sequence of deliveries, acknowledgements, refusals and delayed
    redeliveries, every event it was given is exactly once in its queue, in
    flight, waiting for redelivery, or acknowledged. *)
Theorem subscription_conserves h h' : conserved h -> op h h' -> conserved h'.
Proof.
  intros [Hc Hall Hb] Hop. destruct Hop as [h e|h batch s ms Hf|h m s m' Ha|h m delay s m' Hn|h i].
  - unfold enqueue. rewrite Hc. constructor; cbn; [done| |done].
    rewrite Hall. unfold held, flying. cbn. rewrite fmap_app. cbn. perm_count.
  - destruct (fetch_spec _ _ _ _ Hf Hb) as (? & Hh & Hcl). constructor; cbn; [congruence| |done].
    by rewrite Hall, Hh.
  - unfold ack in Ha. destruct (m_settled m); injection Ha as <- _; cbn.
    { constructor; cbn; [done| |done]. by rewrite app_nil_r. }
    destruct (in_flight (h_sub h) !! m_delivery_id m) as [q|] eqn:E; cbn.
    + constructor; cbn; [done| |intros i x [_ Hi]%lookup_delete_Some; by apply Hb in Hi].
      rewrite Hall. unfold held. rewrite (flying_delete _ _ _ E). unfold flying. cbn.
      perm_count.
    + unfold sub_ack. rewrite delete_id by done. constructor; cbn; [done| |done]. by rewrite app_nil_r.
  - destruct (nak_spec _ _ _ _ _ Hn Hc Hb) as (? & Hh & ?). constructor; cbn; [done| |done].
    by rewrite Hall, Hh.
  - destruct (requeue_spec (h_sub h) i Hc Hb) as (? & Hh & ?). constructor; cbn; [done| |done].
    by rewrite Hall, Hh.
Qed.

Lemma find_subscription_map b b' f key :
  subscriptions b' = (fun e => (e.1, f e.2)) <$> subscriptions b ->
  find_subscription b' key = f <$> find_subscription b key.
Proof.
  unfold find_subscription. intros ->. induction (subscriptions b) as [|[k s] l IH]; cbn; [done|].
  by case_bool_decide.
Qed.

Lemma find_subscription_snoc b l key s :
  find (fun e => bool_decide (e.1 = key)) l = None ->
  subscriptions b = l ++ [(key, s)] -> find_subscription b key = Some s.
Proof.
  unfold find_subscription. intros Hn ->. induction l as [|[k x] l IH]; cbn in *.
  - by rewrite bool_decide_true.
  - case_bool_decide; [done|]. by apply IH.
Qed.

Lemma backlog_subject b p d : sub_subject (backlog b p d) = p.
Proof.
  unfold backlog. assert (forall l s, sub_subject (fold_left enqueue l s) = sub_subject s) as Hf.
  { intros l. induction l as [|e l IH]; intros s; cbn; [done|]. rewrite IH. unfold enqueue. by case_match. }
  by rewrite Hf.
Qed.

(** it does not matter whether a consumer subscribes before or after an
    event is published: both orders leave it with the same subscription. *)
Theorem subscribe_publish_commute b p d subject data b1 b1' b2 b2' s s' :
  find_subscription b (p, d) = None ->
  subscribe b p d = Ok (b1, s) -> publish_envelope b1 subject data = Ok b1' ->
  publish_envelope b subject data = Ok b2 -> subscribe b2 p d = Ok (b2', s') ->
  find_subscription b1' (p, d) = find_subscription b2' (p, d) /\
  find_subscription b2' (p, d) = Some s'.
Proof.
  intros Hnone Hs1 Hp1 Hp2 Hs2.
  set (stored := {| se_subject := subject; se_data := data |}).
  set (f := fun x => if subject_matches (sub_subject x) subject then enqueue x stored else x).
  unfold subscribe in Hs1, Hs2. unfold publish_envelope in Hp1, Hp2.
  rewrite Hnone in Hs1. apply bind_Ok in Hs1 as (? & _ & [= <- <-]).
  apply bind_Ok in Hp1 as (? & _ & [= <-]). apply bind_Ok in Hp2 as (? & _ & [= <-]).
  apply bind_Ok in Hs2 as (? & _ & Hs2).
  match type of Hs2 with context [find_subscription ?x _] =>
    assert (find_subscription x (p, d) = None) as Hnone2
      by (rewrite (find_subscription_map b x f) by done; by rewrite Hnone) end.
  rewrite Hnone2 in Hs2. injection Hs2 as <- <-.
  assert (backlog {| connected := connected b; bus_closed := bus_closed b; events := events b ++ [stored];
            subscriptions := (fun e => (e.1, f e.2)) <$> subscriptions b |} p d = f (backlog b p d)) as Hback.
  { unfold f. rewrite backlog_subject. unfold backlog. cbn. rewrite keep_app, fold_left_app. cbn.
    by destruct (subject_matches p subject). }
  assert (find (fun e => bool_decide (e.1 = (p, d))) ((fun e => (e.1, f e.2)) <$> subscriptions b) = None) as Hf.
  { unfold find_subscription in Hnone2. cbn in Hnone2. by apply fmap_None in Hnone2. }
  set (l := (fun e => (e.1, f e.2)) <$> subscriptions b) in *.
  rewrite (find_subscription_snoc _ l (p, d) (f (backlog b p d)) Hf) by (cbn; by rewrite fmap_app).
  rewrite (find_subscription_snoc _ l (p, d) (f (backlog b p d)) Hf) by (cbn; by rewrite <- Hback).
  by rewrite <- Hback.
Qed.

(** ** Witnesses *)

Definition sample_history : history :=
  {| h_sub := new_subscription "git.>" "api"; given := []; acknowledged := [] |}.

Lemma subscription_conserves_witness :
  conserved {| h_sub := enqueue (new_subscription "git.>" "api")
                          {| se_subject := "git.changed"; se_data := "x" |};
               given := [{| se_subject := "git.changed"; se_data := "x" |}]; acknowledged := [] |}.
Proof.
  apply (subscription_conserves sample_history).
  - constructor.
    + reflexivity.
    + apply perm_nil.
    + intros i q E. vm_compute in E. destruct i; discriminate E.
  - apply (op_enqueue sample_history {| se_subject := "git.changed"; se_data := "x" |}).
Defined.

Definition sample_bus : bus :=
  {| connected := true; bus_closed := false; events := []; subscriptions := [] |}.
Definition sample_bus1 : bus :=
  {| connected := true; bus_closed := false; events := [];
     subscriptions := [(("git.*", "api"), new_subscription "git.*" "api")] |}.
Definition sample_queued : subscription :=
  enqueue (new_subscription "git.*" "api") {| se_subject := "git.changed"; se_data := "x" |}.
Definition sample_bus2 : bus :=
  {| connected := true; bus_closed := false;
     events := [{| se_subject := "git.changed"; se_data := "x" |}]; subscriptions := [] |}.
Definition sample_bus3 : bus :=
  {| connected := true; bus_closed := false;
     events := [{| se_subject := "git.changed"; se_data := "x" |}];
     subscriptions := [(("git.*", "api"), sample_queued)] |}.

Lemma subscribe_publish_commute_witness :
  find_subscription sample_bus3 ("git.*", "api") = find_subscription sample_bus3 ("git.*", "api") /\
  find_subscription sample_bus3 ("git.*", "api") = Some sample_queued.
Proof.
  apply (subscribe_publish_commute sample_bus "git.*" "api" "git.changed" "x"
    sample_bus1 sample_bus3 sample_bus2 sample_bus3 (new_subscription "git.*" "api") sample_queued);
    vm_compute; reflexivity.
Defined.

End InMemoryBus.
