(* ===== verification/EventBody.v ===== *)
(** * Event bodies

    [src/src/packages/contracts/event_bus/bodies/base.py]: a body class is a
    frozen dataclass whose field names are the wire keys; [to_body] turns an
    object into a wire mapping and [from_body] restores it, strictly or, for
    consumers, ignoring the fields a newer producer has added.  A class is
    described by the list of its fields with their types and defaults, which
    is what [fields] and [get_type_hints] return; the decoder runs on that
    description. *)
From S2P Require Import Prelude PyStr PyFloat PyVal.

Module EventBody.

(** ** Classes *)

(** A field: its attribute name, its wire key ([payload_name] of its metadata,
    the attribute name otherwise) and its default ([default] or the value of
    [default_factory]), if any. *)
Record field_info := Info {
  f_name : string;
  f_payload_name : option string;
  f_default : option pyval;
}.

Definition payload_name (f : field_info) : string := default (f_name f) (f_payload_name f).

(** The annotations, as [_decode_value] tells them apart: [TUnchecked] is any
    type it has no case for ([float], an enum), whose values it returns as they
    are.  The members an enum-typed field is coerced to by [__post_init__] are
    kept with the class. *)
Inductive field_type :=
  | TAny
  | TNoneType
  | TBool
  | TInt
  | TStr
  | TUnchecked
  | TUnion (options : list field_type)
  | TList (item : field_type)
  | TDict
  | TBody (name : string) (enums : list (string * list string))
      (fields : list (field_info * field_type)).

Record body_class := Class_ {
  cls_name : string;
  cls_enums : list (string * list string);
  cls_fields : list (field_info * field_type);
}.

Definition Body (c : body_class) : field_type := TBody (cls_name c) (cls_enums c) (cls_fields c).

(** [t | None], and the three ways a field is declared: without a default, with
    one, and with a wire key of its own. *)
Definition Nullable (t : field_type) : field_type := TUnion [t; TNoneType].
Definition req (name : string) (t : field_type) : field_info * field_type :=
  (Info name None None, t).
Definition opt (name : string) (t : field_type) (v : pyval) : field_info * field_type :=
  (Info name None (Some v), t).
Definition renamed (name key : string) (t : field_type) : field_info * field_type :=
  (Info name (Some key) None, t).

Definition is_NoneType (t : field_type) : bool := match t with TNoneType => true | _ => false end.

(** Values: the plain ones and the objects of body classes, with the values of
    their fields in the order of [fields]. *)
Inductive obj :=
  | ONone
  | OBool (b : bool)
  | OInt (z : Z)
  | OFloat (f : float)
  | OStr (s : string)
  | OTime (t : moment)
  | OList (l : list obj)
  | ODict (d : list (string * obj))
  | OBody (c : body_class) (values : list obj).

(** A wire value as an object. *)
Fixpoint of_wire (v : pyval) : obj :=
  match v with
  | VNone => ONone
  | VBool b => OBool b
  | VInt z => OInt z
  | VFloat f => OFloat f
  | VStr s => OStr s
  | VTime t => OTime t
  | VList l => OList (List.map of_wire l)
  | VDict d => ODict (List.map (fun kv => (kv.1, of_wire kv.2)) d)
  end.

(** ** Encoding *)

(** [_to_body_value]. *)
Fixpoint to_body_value (o : obj) : pyval :=
  match o with
  | ONone => VNone
  | OBool b => VBool b
  | OInt z => VInt z
  | OFloat f => VFloat f
  | OStr s => VStr s
  | OTime t => VTime t
  | OList l => VList (List.map to_body_value l)
  | ODict d => VDict (List.map (fun kv => (kv.1, to_body_value kv.2)) d)
  | OBody c values =>
      VDict (dict_update [] (zip (payload_name <$> (cls_fields c).*1)
                                 (List.map to_body_value values)))
  end.

Definition to_body (o : obj) : dict := mapping (to_body_value o).

(** ** Decoding *)

Definition is_decode_error (e : exn) : bool :=
  match e with EventBodyDecodeError _ => true | _ => false end.

Definition must_be (owner key what : string) : exn :=
  EventBodyDecodeError (owner +:+ ": field " +:+ key +:+ " must be " +:+ what).

(** [__post_init__]: the value of an enum field is one of the members. *)
Definition enum_member (members : list string) (o : obj) : bool :=
  match o with OStr s => bool_decide (s ∈ members) | _ => false end.

Definition post_init_ok (enums : list (string * list string)) (names : list string)
    (values : list obj) : bool :=
  forallb (fun nv => match dict_get enums nv.1 with
                     | Some members => enum_member members nv.2
                     | None => true
                     end) (zip names values).

Definition extra_keys (keys : list string) (raw : dict) : list string :=
  keep (fun k => negb (bool_decide (k ∈ keys))) raw.*1.

Definition unexpected (owner : string) (extra : list string) : exn :=
  EventBodyDecodeError (owner +:+ ": unexpected field(s): " +:+ join ", " (isort String.leb extra)).

(** [_decode_value], with [from_body] in the case of a body class. *)
Fixpoint decode_value (strict : bool) (owner key : string) (t : field_type) (v : pyval) {struct t}
    : res obj :=
  match t with
  | TAny | TNoneType | TUnchecked => Ok (of_wire v)
  | TUnion options =>
      if is_none v && existsb is_NoneType options then Ok ONone
      else
        (fix attempt (options : list field_type) : res obj :=
           match options with
           | [] => Err (EventBodyDecodeError (owner +:+ ": invalid type for field: " +:+ key))
           | option :: options =>
               if is_NoneType option then attempt options
               else match decode_value strict owner key option v with
                    | Ok o => Ok o
                    | Err e => if is_decode_error e then attempt options else Err e
                    end
           end) options
  | TBody name enums fields =>
      match v with
      | VDict raw =>
          _ ← raise_if (strict && negb (bool_decide (extra_keys (payload_name <$> fields.*1) raw = [])))
                (unexpected name (extra_keys (payload_name <$> fields.*1) raw));
          values ← mapr (fun ft =>
              match dict_get raw (payload_name ft.1) with
              | Some v => decode_value strict name (payload_name ft.1) ft.2 v
              | None => raise_none (of_wire <$> f_default ft.1)
                  (EventBodyDecodeError (name +:+ ": missing required field: " +:+ payload_name ft.1))
              end) fields;
          _ ← raise_if (negb (post_init_ok enums (f_name <$> fields.*1) values)) ValueError;
          Ok (OBody (Class_ name enums fields) values)
      | _ => Err (must_be owner key "an object")
      end
  | TList item =>
      match v with
      | VList l => OList <$> mapr (decode_value strict owner (key +:+ "[]") item) l
      | _ => Err (must_be owner key "a list")
      end
  | TDict => match v with VDict _ => Ok (of_wire v) | _ => Err (must_be owner key "an object") end
  | TBool => match v with VBool b => Ok (OBool b) | _ => Err (must_be owner key "bool") end
  | TInt => match v with VInt z => Ok (OInt z) | _ => Err (must_be owner key "int") end
  | TStr => match v with VStr s => Ok (OStr s) | _ => Err (must_be owner key "str") end
  end.

(** [cls.from_body(raw, strict=strict)]. *)
Definition from_body (c : body_class) (strict : bool) (raw : pyval) : res obj :=
  match raw with
  | VDict _ => decode_value strict (cls_name c) "" (Body c) raw
  | _ => Err (EventBodyDecodeError (cls_name c +:+ ": payload must be an object"))
  end.

(** ** Specification *)

(** The descriptions the round trip needs: distinct wire keys, defaults of the
    declared type and unions of one type with [None]. *)
Definition simple_union (options : list field_type) : bool :=
  Nat.eqb (length (keep (fun t => negb (is_NoneType t)) options)) 1.

(** [plain o]: no body object inside. *)
Definition plain (o : obj) : Prop := of_wire (to_body_value o) = o.

(** The objects a field of type [t] holds; of an unchecked annotation that is
    any plain value, since the decoder looks no closer. *)
Fixpoint typed (t : field_type) (o : obj) {struct t} : Prop :=
  match t with
  | TAny | TNoneType | TUnchecked => plain o
  | TBool => exists b, o = OBool b
  | TInt => exists z, o = OInt z
  | TStr => exists s, o = OStr s
  | TDict => plain o /\ exists d, o = ODict d
  | TUnion options =>
      (o = ONone /\ existsb is_NoneType options = true) \/
      (fix some_option (options : list field_type) : Prop :=
         match options with
         | [] => False
         | t :: options => (is_NoneType t = false /\ typed t o) \/ some_option options
         end) options
  | TList item =>
      exists l, o = OList l /\
        (fix all_typed (l : list obj) : Prop :=
           match l with [] => True | x :: l => typed item x /\ all_typed l end) l
  | TBody name enums fields =>
      exists values, o = OBody (Class_ name enums fields) values /\
        post_init_ok enums (f_name <$> fields.*1) values = true /\
        (fix fields_typed (fields : list (field_info * field_type)) (values : list obj) : Prop :=
           match fields, values with
           | [], [] => True
           | (_, t) :: fields, x :: values => typed t x /\ fields_typed fields values
           | _, _ => False
           end) fields values
  end.

(** A type of the model is well formed when its wire keys are distinct and its
    unions are [t | None]. *)
Fixpoint wf_type (t : field_type) : bool :=
  match t with
  | TUnion options => simple_union options && forallb wf_type options
  | TList item => wf_type item
  | TBody _ _ fields =>
      no_dup (payload_name <$> fields.*1) && forallb (fun ft => wf_type ft.2) fields
  | _ => true
  end.

(** The defaults a field of type [t] can have: an empty list where the items
    are typed, no body objects. *)
Fixpoint fits (t : field_type) (v : pyval) : bool :=
  match t, v with
  | (TAny | TNoneType | TUnchecked), _ => true
  | TBool, VBool _ | TInt, VInt _ | TStr, VStr _ | TDict, VDict _ | TList _, VList [] => true
  | TUnion options, VNone => existsb is_NoneType options
  | _, _ => false
  end.

Fixpoint defaults_typed (t : field_type) : bool :=
  match t with
  | TUnion options => forallb defaults_typed options
  | TList item => defaults_typed item
  | TBody _ _ fields =>
      forallb (fun ft => match f_default ft.1 with Some v => fits ft.2 v | None => true end
                         && defaults_typed ft.2) fields
  | _ => true
  end.

(** [later t v w]: [w] is [v] as a newer producer may send it, with more fields
    in the objects of body classes and nothing else changed. *)
Fixpoint later (t : field_type) (v w : pyval) {struct t} : Prop :=
  match t with
  | TUnion options =>
      is_none v = is_none w /\
      (fix all_later (options : list field_type) : Prop :=
         match options with [] => True | t :: options => later t v w /\ all_later options end) options
  | TList item =>
      match v, w with
      | VList l, VList k => Forall2 (later item) l k
      | _, _ => v = w
      end
  | TBody _ _ fields =>
      match v, w with
      | VDict raw, VDict raw' =>
          (fix fields_later (fields : list (field_info * field_type)) : Prop :=
             match fields with
             | [] => True
             | (f, t) :: fields =>
                 match dict_get raw (payload_name f), dict_get raw' (payload_name f) with
                 | Some x, Some y => later t x y
                 | None, None => True
                 | _, _ => False
                 end /\ fields_later fields
             end) fields
      | _, _ => v = w
      end
  | _ => v = w
  end.

(** ** Induction on types *)

Section field_type_induction.
Context (P : field_type -> Prop).
Hypothesis HAny : P TAny.
Hypothesis HNone : P TNoneType.
Hypothesis HBool : P TBool.
Hypothesis HInt : P TInt.
Hypothesis HStr : P TStr.
Hypothesis HUnchecked : P TUnchecked.
Hypothesis HUnion : forall options, Forall P options -> P (TUnion options).
Hypothesis HList : forall item, P item -> P (TList item).
Hypothesis HDict : P TDict.
Hypothesis HBody : forall name enums fields,
  Forall (fun ft => P ft.2) fields -> P (TBody name enums fields).

Fixpoint field_type_nested_ind (t : field_type) : P t :=
  match t with
  | TAny => HAny
  | TNoneType => HNone
  | TBool => HBool
  | TInt => HInt
  | TStr => HStr
  | TUnchecked => HUnchecked
  | TUnion options =>
      HUnion options ((fix go (l : list field_type) : Forall P l :=
        match l with
        | [] => List.Forall_nil _
        | x :: l => List.Forall_cons _ x l (field_type_nested_ind x) (go l)
        end) options)
  | TList item => HList item (field_type_nested_ind item)
  | TDict => HDict
  | TBody name enums fields =>
      HBody name enums fields ((fix go (l : list (field_info * field_type))
          : Forall (fun ft => P ft.2) l :=
        match l with
        | [] => List.Forall_nil _
        | x :: l => List.Forall_cons _ x l (field_type_nested_ind x.2) (go l)
        end) fields)
  end.
End field_type_induction.

(** ** The inner loops by name *)

Definition attempt (strict : bool) (owner key : string) (v : pyval)
    : list field_type -> res obj :=
  fix attempt options :=
    match options with
    | [] => Err (EventBodyDecodeError (owner +:+ ": invalid type for field: " +:+ key))
    | option :: options =>
        if is_NoneType option then attempt options
        else match decode_value strict owner key option v with
             | Ok o => Ok o
             | Err e => if is_decode_error e then attempt options else Err e
             end
    end.

Definition decode_field (strict : bool) (name : string) (raw : dict) (ft : field_info * field_type)
    : res obj :=
  match dict_get raw (payload_name ft.1) with
  | Some v => decode_value strict name (payload_name ft.1) ft.2 v
  | None => raise_none (of_wire <$> f_default ft.1)
              (EventBodyDecodeError (name +:+ ": missing required field: " +:+ payload_name ft.1))
  end.

Lemma decode_union strict owner key options v :
  decode_value strict owner key (TUnion options) v =
  if is_none v && existsb is_NoneType options then Ok ONone else attempt strict owner key v options.
Proof. reflexivity. Qed.

Lemma decode_body strict owner key name enums fields raw :
  decode_value strict owner key (TBody name enums fields) (VDict raw) =
  (_ ← raise_if (strict && negb (bool_decide (extra_keys (payload_name <$> fields.*1) raw = [])))
         (unexpected name (extra_keys (payload_name <$> fields.*1) raw));
   values ← mapr (decode_field strict name raw) fields;
   _ ← raise_if (negb (post_init_ok enums (f_name <$> fields.*1) values)) ValueError;
   Ok (OBody (Class_ name enums fields) values)).
Proof. reflexivity. Qed.

Lemma typed_list item o :
  typed (TList item) o <-> exists l, o = OList l /\ Forall (typed item) l.
Proof.
  cbn [typed]. split; intros (l & -> & Hl); exists l; (split; [done|]);
    (induction l as [|x l IH]; [by constructor|]).
  - destruct Hl as [Hx Hl]. constructor; [done|by apply IH].
  - apply Forall_cons in Hl as [Hx Hl]. split; [done|by apply IH].
Qed.

Lemma typed_union options o :
  typed (TUnion options) o <->
  (o = ONone /\ existsb is_NoneType options = true) \/
  exists t, t ∈ options /\ is_NoneType t = false /\ typed t o.
Proof.
  cbn [typed].
  match goal with |- _ \/ ?F options <-> _ =>
    assert (forall os, F os <-> exists t, t ∈ os /\ is_NoneType t = false /\ typed t o) as E
  end.
  { induction os as [|t os IH]; [split; [done|]; intros (? & ?%elem_of_nil & _); done|].
    rewrite IH. setoid_rewrite elem_of_cons. naive_solver. }
  by rewrite E.
Qed.

Lemma typed_body name enums fields o :
  typed (TBody name enums fields) o <->
  exists values, o = OBody (Class_ name enums fields) values /\
    post_init_ok enums (f_name <$> fields.*1) values = true /\
    Forall2 (fun ft x => typed ft.2 x) fields values.
Proof.
  cbn [typed].
  match goal with |- (exists v, _ /\ _ /\ ?F fields v) <-> _ =>
    assert (forall fs vs, F fs vs <-> Forall2 (fun ft x => typed ft.2 x) fs vs) as E
  end.
  { induction fs as [|[f t] fs IH]; intros [|x vs]; try (split; [done|by inversion 1]).
    by rewrite Forall2_cons, <- IH. }
  by setoid_rewrite E.
Qed.

Lemma to_of_wire v : to_body_value (of_wire v) = v.
Proof.
  induction v as [| | | | | |l IH|d IH] using pyval_nested_ind; cbn; try done; f_equal.
  - induction IH as [|v l Hv _ IHl]; cbn; [done|]. by rewrite Hv, IHl.
  - induction IH as [|[k v] d Hv _ IHd]; cbn in *; [done|]. by rewrite Hv, IHd.
Qed.

Lemma plain_of_wire v : plain (of_wire v).
Proof. unfold plain. by rewrite to_of_wire. Qed.
#[export] Hint Resolve plain_of_wire : core.

(** ** Decoding is typed *)

Lemma fits_typed t v : fits t v = true -> typed t (of_wire v).
Proof.
  destruct t as [| | | | | |options|item| |name enums fields]; intros Hf; try (cbn; by auto);
    destruct v as [|b|z|f|s|m|l|d]; try done; cbn; eauto.
  - destruct l; [|done]. by exists [].
  - split; [apply (plain_of_wire (VDict d))|eauto].
Qed.

Lemma attempt_Ok strict owner key v options o :
  attempt strict owner key v options = Ok o ->
  exists t, t ∈ options /\ is_NoneType t = false /\ decode_value strict owner key t v = Ok o.
Proof.
  induction options as [|t options IH]; cbn; [done|].
  setoid_rewrite elem_of_cons. destruct (is_NoneType t) eqn:Hn; [naive_solver|].
  destruct (decode_value strict owner key t v) as [o'|e] eqn:Hd.
  - intros [= ->]. eauto.
  - destruct (is_decode_error e); [naive_solver|done].
Qed.

Lemma mapr_Forall2 {A B} (f : A -> res B) (P : A -> B -> Prop) l ys :
  mapr f l = Ok ys -> Forall (fun x => forall y, f x = Ok y -> P x y) l -> Forall2 P l ys.
Proof.
  intros HF%mapr_Ok HP. induction HF as [|x y l ys Hx _ IH]; [constructor|].
  inversion HP; subst. constructor; auto.
Qed.

Lemma decode_typed strict t : defaults_typed t = true ->
  forall owner key v o, decode_value strict owner key t v = Ok o -> typed t o.
Proof.
  induction t as [| | | | | |options IH|item IH| |name enums fields IH] using field_type_nested_ind;
    intros Hdef owner key v o Hd; cbn [defaults_typed] in Hdef;
    try (cbn in Hd; destruct v; simplify_eq; cbn; eauto; fail).
  - injection Hd as <-. cbn. auto.
  - injection Hd as <-. cbn. auto.
  - injection Hd as <-. cbn. auto.
  - apply typed_union. rewrite decode_union in Hd.
    destruct (is_none v && existsb is_NoneType options) eqn:E.
    + injection Hd as <-. bool_simpl. auto.
    + apply attempt_Ok in Hd as (t & Ht & Hn & Hd). right. exists t. split; [done|].
      split; [done|]. rewrite Forall_forall in IH. eapply IH; [done| |done].
      by eapply forallb_elem in Hdef.
  - apply typed_list. cbn in Hd. destruct v as [| | | | | |l|]; try done.
    apply fmap_Ok in Hd as (os & Hm & ->). exists os. split; [done|].
    apply Forall_forall. intros o Ho. destruct (mapr_elem_r _ _ _ _ Hm Ho) as (x & _ & Hx). eauto.
  - destruct v; try done. injection Hd as <-. split; [apply (plain_of_wire (VDict d))|cbn; eauto].
  - destruct v as [| | | | | | |raw]; try done. rewrite decode_body in Hd.
    apply bind_Ok in Hd as (_ & _ & (values & Hv & (_ & Hp%raise_if_Ok & [= <-])%bind_Ok)%bind_Ok).
    apply negb_false_iff in Hp. apply typed_body. exists values. split; [done|]. split; [done|].
    eapply mapr_Forall2; [exact Hv|]. rewrite Forall_forall in IH |- *.
    intros ft Hft y. eapply forallb_elem in Hdef; [|exact Hft]. apply andb_true_iff in Hdef as [Hf Ht].
    unfold decode_field. destruct (dict_get raw (payload_name ft.1)) as [w|].
    + intros Hy. by eapply IH.
    + intros Hy%raise_none_Ok. destruct (f_default ft.1) as [w|]; [|done]. injection Hy as <-.
      by apply fits_typed.
Qed.

(** ** Encoding and decoding *)

Lemma decode_VNone strict t : forall owner key o,
  decode_value strict owner key t VNone = Ok o -> o = ONone.
Proof.
  induction t as [| | | | | |options IH|item IH| |name enums fields IH] using field_type_nested_ind;
    intros owner key o Hd; try (cbn in Hd; congruence).
  rewrite decode_union in Hd. destruct (is_none VNone && existsb is_NoneType options); [congruence|].
  apply attempt_Ok in Hd as (t & Ht & _ & Hd). rewrite Forall_forall in IH. by eapply IH.
Qed.

Lemma attempt_simple strict owner key v options t o :
  keep (fun t => negb (is_NoneType t)) options = [t] ->
  decode_value strict owner key t v = Ok o -> attempt strict owner key v options = Ok o.
Proof.
  intros Hk Hd. induction options as [|t' options IH]; [done|]. cbn in Hk |- *.
  destruct (is_NoneType t'); [by apply IH|]. injection Hk as -> _. by rewrite Hd.
Qed.

Lemma simple_union_keep options :
  simple_union options = true -> exists t, keep (fun t => negb (is_NoneType t)) options = [t].
Proof.
  unfold simple_union. destruct (keep _ options) as [|t [|t' l]]; cbn; try done. eauto.
Qed.

Lemma zip_dict_get {A} (to : A -> pyval) (fields : list (field_info * field_type)) values :
  length fields = length values -> NoDup (payload_name <$> fields.*1) ->
  Forall2 (fun ft x =>
    dict_get (zip (payload_name <$> fields.*1) (List.map to values)) (payload_name ft.1) =
    Some (to x)) fields values.
Proof.
  revert values. induction fields as [|ft fields IH]; intros [|x values]; try done.
  intros [= Hl] [Hx Hnd]%NoDup_cons. constructor; [cbn; by rewrite str_eqb_refl|].
  eapply Forall2_impl_elem; [by apply IH|]. intros ft' x' Hin E. cbn.
  destruct (str_eqb (payload_name ft.1) (payload_name ft'.1)) eqn:E'; [|done].
  apply str_eqb_eq in E'. destruct Hx. cbn. rewrite E'.
  by apply list_elem_of_fmap_2, list_elem_of_fmap_2.
Qed.

Lemma zip_keys {A} (fields : list (field_info * field_type)) (values : list A) :
  length fields = length values ->
  (zip (payload_name <$> fields.*1) values).*1 = payload_name <$> fields.*1.
Proof. intros Hl. apply fst_zip. rewrite !length_fmap. lia. Qed.

Lemma no_extra_keys ks raw : raw.*1 = ks -> extra_keys ks raw = [].
Proof.
  intros E. unfold extra_keys. rewrite E. apply keep_false. intros k Hk.
  by rewrite bool_decide_true.
Qed.

Lemma decode_encoded strict t : wf_type t = true -> forall owner key o,
  typed t o -> decode_value strict owner key t (to_body_value o) = Ok o.
Proof.
  induction t as [| | | | | |options IH|item IH| |name enums fields IH] using field_type_nested_ind;
    intros Hwf owner key o Ht; cbn [wf_type] in Hwf;
    try (cbn in Ht |- *; by rewrite Ht); try (by destruct Ht as [? ->]).
  - apply andb_true_iff in Hwf as [(t & Hk)%simple_union_keep Hw].
    apply typed_union in Ht as [[-> Hn]|(t' & Hin & Hn & Ht)].
    { rewrite decode_union. cbn. by rewrite Hn. }
    assert (t' ∈ keep (fun t => negb (is_NoneType t)) options) as Hin'.
    { apply elem_of_keep. by rewrite Hn. }
    rewrite Hk in Hin'. apply list_elem_of_singleton in Hin' as ->.
    assert (decode_value strict owner key t (to_body_value o) = Ok o) as Hd.
    { rewrite Forall_forall in IH. apply IH; [done| |done]. by eapply forallb_elem in Hw. }
    rewrite decode_union. destruct (to_body_value o) eqn:E; cbn [is_none andb];
      try by eapply attempt_simple.
    destruct (existsb is_NoneType options); [|by eapply attempt_simple].
    f_equal. symmetry. by eapply decode_VNone.
  - apply typed_list in Ht as (l & -> & Hl). cbn. fold (to_body_value).
    assert (mapr (decode_value strict owner (key +:+ "[]") item) (List.map to_body_value l) = Ok l)
      as ->; [|done].
    apply mapr_Ok. induction Hl as [|x l Hx _ IHl]; cbn; constructor; auto.
  - destruct Ht as [Hp [d ->]]. change (Ok (of_wire (to_body_value (ODict d))) = Ok (ODict d)). by rewrite Hp.
  - apply andb_true_iff in Hwf as [Hnd%no_dup_spec Hw].
    apply typed_body in Ht as (values & -> & Hp & HF).
    pose proof (Forall2_length _ _ _ HF) as Hl. cbn [to_body_value cls_fields].
    rewrite dict_update_fresh by (rewrite zip_keys; [done|by rewrite length_map]).
    rewrite decode_body, no_extra_keys by (apply zip_keys; by rewrite length_map).
    rewrite bool_decide_true, andb_false_r by done. cbn [raise_if mbind res_bind].
    assert (mapr (decode_field strict name (zip (payload_name <$> fields.*1)
              (List.map to_body_value values))) fields = Ok values) as ->.
    { apply mapr_Ok. eapply Forall2_impl_elem; [apply Forall2_conj; [exact HF|by apply zip_dict_get]|].
      intros ft x Hin [Hx E]. unfold decode_field. rewrite E. rewrite Forall_forall in IH.
      apply IH; [done| |done]. by eapply forallb_elem in Hw. }
    cbn. by rewrite Hp.
Qed.

(** ** Newer producers *)

Definition field_later (raw raw' : dict) (ft : field_info * field_type) : Prop :=
  match dict_get raw (payload_name ft.1), dict_get raw' (payload_name ft.1) with
  | Some x, Some y => later ft.2 x y
  | None, None => True
  | _, _ => False
  end.

Lemma later_union options v w :
  later (TUnion options) v w <-> is_none v = is_none w /\ Forall (fun t => later t v w) options.
Proof.
  cbn [later]. apply and_iff_compat_l. induction options as [|t options IH]; [done|].
  by rewrite Forall_cons, <- IH.
Qed.

Lemma later_body name enums fields raw raw' :
  later (TBody name enums fields) (VDict raw) (VDict raw') <-> Forall (field_later raw raw') fields.
Proof.
  cbn [later]. induction fields as [|[f t] fields IH]; [done|]. by rewrite Forall_cons, <- IH.
Qed.

Lemma decode_later t : forall owner key v w,
  later t v w -> decode_value false owner key t w = decode_value false owner key t v.
Proof.
  induction t as [| | | | | |options IH|item IH| |name enums fields IH] using field_type_nested_ind;
    intros owner key v w Hl; try (cbn in Hl; by subst).
  - apply later_union in Hl as [Hn Hl]. rewrite !decode_union, Hn.
    destruct (_ && _); [done|]. clear Hn.
    induction IH as [|t options Ht _ IHo]; [done|]. apply Forall_cons in Hl as [Hl1 Hl2]. cbn.
    rewrite (Ht _ _ _ _ Hl1), IHo by done. done.
  - cbn in Hl. destruct v as [| | | | | |l|], w as [| | | | | |k|]; try (by subst); cbn; [].
    f_equal. induction Hl as [|x y l k Hxy _ IHl]; [done|]. cbn. by rewrite (IH _ _ _ _ Hxy), IHl.
  - destruct v as [| | | | | | |raw], w as [| | | | | | |raw']; try (cbn in Hl; by subst).
    apply later_body in Hl. rewrite !decode_body. cbn [raise_if andb mbind res_bind].
    assert (mapr (decode_field false name raw') fields = mapr (decode_field false name raw) fields)
      as ->; [|done].
    induction IH as [|ft fields Ht _ IHf]; [done|]. apply Forall_cons in Hl as [Hl1 Hl2].
    cbn. rewrite IHf by done. unfold decode_field, field_later in *.
    destruct (dict_get raw _), (dict_get raw' _); try done. by rewrite (Ht _ _ _ _ Hl1).
Qed.

(** Every exception of the decoder is the one of the contract, or the
    [ValueError] of an enum field. *)
Lemma decode_errors strict t : forall owner key v e,
  decode_value strict owner key t v = Err e -> is_decode_error e = true \/ e = ValueError.
Proof.
  induction t as [| | | | | |options IH|item IH| |name enums fields IH] using field_type_nested_ind;
    intros owner key v e Hd; try (cbn in Hd; destruct v; simplify_eq; by left).
  - rewrite decode_union in Hd. destruct (_ && _); [done|].
    induction IH as [|t options Ht _ IHo]; cbn in Hd; [injection Hd as <-; by left|].
    destruct (is_NoneType t); [by apply IHo|].
    destruct (decode_value strict owner key t v) as [|e'] eqn:E; [done|].
    destruct (is_decode_error e') eqn:E'; [by apply IHo|]. injection Hd as <-. eauto.
  - cbn in Hd. destruct v as [| | | | | |l|]; try (injection Hd as <-; by left).
    induction l as [|x l IHl]; [done|]. cbn in Hd.
    destruct (decode_value _ _ _ _ x) as [o|e'] eqn:E; cbn in Hd; [|injection Hd as <-; eauto].
    apply IHl. by destruct (mapr _ l).
  - destruct v as [| | | | | | |raw]; try (injection Hd as <-; by left).
    rewrite decode_body in Hd.
    apply bind_Err in Hd as [Hd|(_ & _ & Hd)];
      [unfold raise_if in Hd; destruct (_ && _); [injection Hd as <-; by left|done]|].
    apply bind_Err in Hd as [Hd|(values & _ & Hd)].
    + induction IH as [|ft fields Ht _ IHf]; cbn in Hd; [done|].
      destruct (decode_field strict name raw ft) as [o|e'] eqn:E; cbn in Hd.
      * apply IHf. by destruct (mapr _ fields).
      * injection Hd as <-. unfold decode_field in E. destruct (dict_get raw _); [eauto|].
        destruct (f_default ft.1); cbn in E; [done|]. injection E as <-. by left.
    + apply bind_Err in Hd as [Hd|(? & _ & Hd)]; [|done]. unfold raise_if in Hd.
      destruct (negb _); [|done]. injection Hd as <-. by right.
Qed.

End EventBody.
