(* ===== verification/EventBodies.v ===== *)
(** * The event catalogue

    The subjects of [src/src/packages/contracts/event_bus/subjects.py], the
    body classes of the domains and of the platform, and the registry of
    [registry.py] that binds them.  A class is the list of its dataclass
    fields; a field declared twice keeps its first position and takes its last
    type and default, as [dataclass] does. *)
From S2P Require Import Prelude PyStr PyFloat PyVal EventBody InMemoryBus.

Module EventBodies.
Import EventBody.

(** ** Constants of the contracts *)

Definition DEFAULT_WORKSPACE_ID : string := "default".
Definition DEFAULT_CLUSTER_ID : string := "default-target-cluster".
Definition DEFAULT_REPOSITORY_ID : string := "".
Definition DEFAULT_WATCH_TARGET_ID : string := "".
Definition DEFAULT_DEPLOYMENT_BINDING_ID : string := "".
Definition DEFAULT_APPLICATION_ID : string := "".
Definition DEFAULT_WORKFLOW_RUN_ID : string := "".
Definition DEFAULT_ENVIRONMENT : string := "sandbox".
Definition DEFAULT_REPO_REF : string := "".
Definition DEFAULT_REPO_BRANCH : string := "main".
Definition DEFAULT_MANIFEST_PATH : string := "deploy.yaml".
Definition SAFE_PR_KIND_PATCH : string := "safe_pr_patch".
Definition SAFE_PR_DELIVERY_PULL_REQUEST : string := "pull_request".
Definition CAUSE_CANDIDATE_SOURCE_RULE : string := "rule".
Definition RISK_LEVELS : list string :=
  ["sandbox-only"; "non-sandbox-namespace"; "review-required"].

(** ** Subjects *)

Inductive EventSubject :=
  | GIT_WEBHOOK_RECEIVED
  | GIT_CHANGED
  | MANIFEST_RENDERED
  | MANIFEST_INVALID
  | DESIRED_DIFF_DETECTED
  | GITOPS_CHANGE_CONTEXT_DETECTED
  | DIFF_ANALYZED
  | AGENT_CONNECTED
  | CLUSTER_EVIDENCE_RECEIVED
  | COMMAND_REQUESTED
  | COMMAND_REJECTED
  | COMMAND_DISPATCHED
  | COMMAND_QUEUED_FOR_AGENT
  | COMMAND_CANCEL_REQUESTED
  | COMMAND_RETRY_REQUESTED
  | COMMAND_COMPLETED
  | INCIDENT_DETECTED
  | EVIDENCE_BUILT
  | EVIDENCE_BUNDLE_BUILT
  | RCA_CANDIDATES_PLANNED
  | RCA_CANDIDATES_EVALUATED
  | RCA_COMPLETED
  | RCA_ANALYSIS_BLOCKED
  | RCA_FOLLOWUP_REQUIRED
  | RCA_RULE_MISSING
  | RCA_BACKLOG_ITEM_CREATED
  | RCA_AI_FALLBACK_REQUESTED
  | RECOVERY_PLANNED
  | RECOVERY_SELECTION_REQUESTED
  | RECOVERY_ACTION_SELECTED
  | RECOVERY_PR_TRACKED
  | RECOVERY_PR_MERGED
  | RECOVERY_VERIFICATION_STARTED
  | RECOVERY_VERIFICATION_UPDATED
  | RECOVERY_VERIFICATION_FAILED
  | RECOVERY_RETRY_REQUESTED
  | INCIDENT_RESOLVED
  | SAFE_PR_PATCH_PREPARED
  | DIFF_EXPLAINED
  | SAFE_PR_READY_FOR_CREATION
  | APPROVAL_RECOMMENDED
  | RCA_ACTION_REQUIRED
  | SAFE_PR_REQUESTED
  | SAFE_PR_CREATED
  | SAFE_PR_FAILED
  | WORKFLOW_CREATED
  | WORKFLOW_RUN_STARTED
  | WORKFLOW_STEP_RECORDED
  | WORKFLOW_RUN_COMPLETED
  | WORKFLOW_RUN_FAILED
  | APPROVAL_REQUESTED
  | APPROVAL_GRANTED
  | APPROVAL_REJECTED
  | DEAD_LETTER_CREATED
  | PIPELINE_CONTRACT_FAILED.

Definition subject_value (s : EventSubject) : string :=
  match s with
  | GIT_WEBHOOK_RECEIVED => "git.webhook.received"
  | GIT_CHANGED => "git.changed"
  | MANIFEST_RENDERED => "manifest.rendered"
  | MANIFEST_INVALID => "manifest.invalid"
  | DESIRED_DIFF_DETECTED => "desired.diff.detected"
  | GITOPS_CHANGE_CONTEXT_DETECTED => "gitops.change_context.detected"
  | DIFF_ANALYZED => "diff.analyzed"
  | AGENT_CONNECTED => "agent.connected"
  | CLUSTER_EVIDENCE_RECEIVED => "cluster.evidence.received"
  | COMMAND_REQUESTED => "command.requested"
  | COMMAND_REJECTED => "command.rejected"
  | COMMAND_DISPATCHED => "command.dispatched"
  | COMMAND_QUEUED_FOR_AGENT => "command.queued_for_agent"
  | COMMAND_CANCEL_REQUESTED => "command.cancel.requested"
  | COMMAND_RETRY_REQUESTED => "command.retry.requested"
  | COMMAND_COMPLETED => "command.completed"
  | INCIDENT_DETECTED => "incident.detected"
  | EVIDENCE_BUILT => "evidence.built"
  | EVIDENCE_BUNDLE_BUILT => "evidence.bundle.built"
  | RCA_CANDIDATES_PLANNED => "rca.candidates.planned"
  | RCA_CANDIDATES_EVALUATED => "rca.candidates.evaluated"
  | RCA_COMPLETED => "rca.completed"
  | RCA_ANALYSIS_BLOCKED => "rca.analysis_blocked"
  | RCA_FOLLOWUP_REQUIRED => "rca.followup.required"
  | RCA_RULE_MISSING => "rca.rule_missing"
  | RCA_BACKLOG_ITEM_CREATED => "rca.backlog.created"
  | RCA_AI_FALLBACK_REQUESTED => "rca.ai_fallback.requested"
  | RECOVERY_PLANNED => "recovery.planned"
  | RECOVERY_SELECTION_REQUESTED => "recovery.selection_requested"
  | RECOVERY_ACTION_SELECTED => "recovery.action_selected"
  | RECOVERY_PR_TRACKED => "recovery.pr.tracked"
  | RECOVERY_PR_MERGED => "recovery.pr.merged"
  | RECOVERY_VERIFICATION_STARTED => "recovery.verification.started"
  | RECOVERY_VERIFICATION_UPDATED => "recovery.verification.updated"
  | RECOVERY_VERIFICATION_FAILED => "recovery.verification.failed"
  | RECOVERY_RETRY_REQUESTED => "recovery.retry.requested"
  | INCIDENT_RESOLVED => "incident.resolved"
  | SAFE_PR_PATCH_PREPARED => "safe_pr.patch_prepared"
  | DIFF_EXPLAINED => "diff.explained"
  | SAFE_PR_READY_FOR_CREATION => "safe_pr.ready_for_creation"
  | APPROVAL_RECOMMENDED => "approval.recommended"
  | RCA_ACTION_REQUIRED => "rca.action_required"
  | SAFE_PR_REQUESTED => "safe_pr.requested"
  | SAFE_PR_CREATED => "safe_pr.created"
  | SAFE_PR_FAILED => "safe_pr.failed"
  | WORKFLOW_CREATED => "workflow.created"
  | WORKFLOW_RUN_STARTED => "workflow.run.started"
  | WORKFLOW_STEP_RECORDED => "workflow.step.recorded"
  | WORKFLOW_RUN_COMPLETED => "workflow.run.completed"
  | WORKFLOW_RUN_FAILED => "workflow.run.failed"
  | APPROVAL_REQUESTED => "approval.requested"
  | APPROVAL_GRANTED => "approval.granted"
  | APPROVAL_REJECTED => "approval.rejected"
  | DEAD_LETTER_CREATED => "dead_letter.created"
  | PIPELINE_CONTRACT_FAILED => "pipeline.contract_failed"
  end.

Definition EVENT_SUBJECTS : list EventSubject :=
  [GIT_WEBHOOK_RECEIVED; GIT_CHANGED; MANIFEST_RENDERED; MANIFEST_INVALID;
   DESIRED_DIFF_DETECTED; GITOPS_CHANGE_CONTEXT_DETECTED; DIFF_ANALYZED; AGENT_CONNECTED;
   CLUSTER_EVIDENCE_RECEIVED; COMMAND_REQUESTED; COMMAND_REJECTED; COMMAND_DISPATCHED;
   COMMAND_QUEUED_FOR_AGENT; COMMAND_CANCEL_REQUESTED; COMMAND_RETRY_REQUESTED;
   COMMAND_COMPLETED; INCIDENT_DETECTED; EVIDENCE_BUILT; EVIDENCE_BUNDLE_BUILT;
   RCA_CANDIDATES_PLANNED; RCA_CANDIDATES_EVALUATED; RCA_COMPLETED; RCA_ANALYSIS_BLOCKED;
   RCA_FOLLOWUP_REQUIRED; RCA_RULE_MISSING; RCA_BACKLOG_ITEM_CREATED;
   RCA_AI_FALLBACK_REQUESTED; RECOVERY_PLANNED; RECOVERY_SELECTION_REQUESTED;
   RECOVERY_ACTION_SELECTED; RECOVERY_PR_TRACKED; RECOVERY_PR_MERGED;
   RECOVERY_VERIFICATION_STARTED; RECOVERY_VERIFICATION_UPDATED; RECOVERY_VERIFICATION_FAILED;
   RECOVERY_RETRY_REQUESTED; INCIDENT_RESOLVED; SAFE_PR_PATCH_PREPARED; DIFF_EXPLAINED;
   SAFE_PR_READY_FOR_CREATION; APPROVAL_RECOMMENDED; RCA_ACTION_REQUIRED; SAFE_PR_REQUESTED;
   SAFE_PR_CREATED; SAFE_PR_FAILED; WORKFLOW_CREATED; WORKFLOW_RUN_STARTED;
   WORKFLOW_STEP_RECORDED; WORKFLOW_RUN_COMPLETED; WORKFLOW_RUN_FAILED; APPROVAL_REQUESTED;
   APPROVAL_GRANTED; APPROVAL_REJECTED; DEAD_LETTER_CREATED; PIPELINE_CONTRACT_FAILED].

#[global] Instance EventSubject_eq_dec : EqDecision EventSubject.
Proof. solve_decision. Defined.

(** The stream takes every domain of the subjects, and the reserved prefixes. *)
Definition RESERVED_STREAM_SUBJECTS : list string := ["audit.>"].

(** [value.split(".", 1)[0] + ".>"] *)
Definition stream_prefix (value : string) : string :=
  default "" (head (split_char "." value)) +:+ ".>".

Definition STREAM_SUBJECTS : list string :=
  isort String.leb (unique_first ((stream_prefix ∘ subject_value <$> EVENT_SUBJECTS)
                                  ++ RESERVED_STREAM_SUBJECTS)).

(** ** GitOps ([src/src/domains/gitops/events.py]) *)

Definition Manifest : body_class :=
  Class_ "Manifest" []
    [req "app" TStr; req "image" TStr; req "replicas" TInt; req "namespace" TStr;
     opt "manifest_path" TStr (VStr DEFAULT_MANIFEST_PATH)].

Definition RenderedMetadata : body_class :=
  Class_ "RenderedMetadata" []
    [req "name" TStr; req "namespace" TStr].

Definition RenderedSpec : body_class :=
  Class_ "RenderedSpec" []
    [opt "replicas" TInt (VInt 0); opt "image" TStr (VStr "")].

Definition RenderedManifest : body_class :=
  Class_ "RenderedManifest" []
    [renamed "api_version" "apiVersion" TStr; req "kind" TStr;
     req "metadata" (Body RenderedMetadata); req "spec" (Body RenderedSpec);
     opt "resource_class" TStr (VStr "application"); opt "manifest" TDict (VDict []);
     opt "declared_fields" (TList TStr) (VList []); opt "managed_fields" (TList TStr) (VList []);
     opt "ignored_fields" (TList TStr) (VList []); opt "last_approved_snapshot" TDict (VDict []);
     opt "artifact_digest" TStr (VStr "")].

Definition Diff : body_class :=
  Class_ "Diff" [("risk", RISK_LEVELS)]
    [req "resource" TStr; req "namespace" TStr; req "desired_image" TStr;
     req "actual_image" TStr; req "risk" TUnchecked;
     opt "workspace_id" TStr (VStr DEFAULT_WORKSPACE_ID);
     opt "repository_id" TStr (VStr DEFAULT_REPOSITORY_ID);
     opt "watch_target_id" TStr (VStr DEFAULT_WATCH_TARGET_ID);
     opt "binding_id" TStr (VStr DEFAULT_DEPLOYMENT_BINDING_ID);
     opt "application_id" TStr (VStr DEFAULT_APPLICATION_ID);
     opt "workflow_run_id" TStr (VStr DEFAULT_WORKFLOW_RUN_ID);
     opt "environment" TStr (VStr DEFAULT_ENVIRONMENT);
     opt "cluster_id" TStr (VStr DEFAULT_CLUSTER_ID);
     opt "manifest_path" TStr (VStr DEFAULT_MANIFEST_PATH);
     opt "resource_class" TStr (VStr "application"); opt "desired_manifest" TDict (VDict []);
     opt "status" TStr (VStr "legacy_image_diff"); opt "has_changes" TBool (VBool true);
     opt "changes" (TList TDict) (VList []); opt "basis" TDict (VDict [])].

Definition GitWebhookReceivedBody : body_class :=
  Class_ "GitWebhookReceivedBody" []
    [req "commit_sha" TStr; req "image" TStr; req "replicas" TInt;
     opt "correlation_id" TStr (VStr ""); opt "workspace_id" TStr (VStr DEFAULT_WORKSPACE_ID);
     opt "repository_id" TStr (VStr DEFAULT_REPOSITORY_ID);
     opt "repo_ref" TStr (VStr DEFAULT_REPO_REF); opt "branch" TStr (VStr DEFAULT_REPO_BRANCH);
     opt "watch_target_id" TStr (VStr DEFAULT_WATCH_TARGET_ID);
     opt "binding_id" TStr (VStr DEFAULT_DEPLOYMENT_BINDING_ID);
     opt "application_id" TStr (VStr DEFAULT_APPLICATION_ID);
     opt "workflow_run_id" TStr (VStr DEFAULT_WORKFLOW_RUN_ID);
     opt "environment" TStr (VStr DEFAULT_ENVIRONMENT);
     opt "cluster_id" TStr (VStr DEFAULT_CLUSTER_ID);
     opt "manifest_path" TStr (VStr DEFAULT_MANIFEST_PATH); opt "source_type" TStr (VStr "");
     opt "force" TBool (VBool false)].

Definition GitChangedBody : body_class :=
  Class_ "GitChangedBody" []
    [req "commit_sha" TStr; req "image" TStr; req "replicas" TInt;
     opt "workspace_id" TStr (VStr DEFAULT_WORKSPACE_ID);
     opt "repository_id" TStr (VStr DEFAULT_REPOSITORY_ID);
     opt "repo_ref" TStr (VStr DEFAULT_REPO_REF); opt "branch" TStr (VStr DEFAULT_REPO_BRANCH);
     opt "watch_target_id" TStr (VStr DEFAULT_WATCH_TARGET_ID);
     opt "binding_id" TStr (VStr DEFAULT_DEPLOYMENT_BINDING_ID);
     opt "application_id" TStr (VStr DEFAULT_APPLICATION_ID);
     opt "workflow_run_id" TStr (VStr DEFAULT_WORKFLOW_RUN_ID);
     opt "environment" TStr (VStr DEFAULT_ENVIRONMENT);
     opt "cluster_id" TStr (VStr DEFAULT_CLUSTER_ID);
     opt "manifest_path" TStr (VStr DEFAULT_MANIFEST_PATH); opt "source_type" TStr (VStr "")].

Definition ManifestRenderedBody : body_class :=
  Class_ "ManifestRenderedBody" []
    [req "rendered_manifest" (Body RenderedManifest);
     opt "workspace_id" TStr (VStr DEFAULT_WORKSPACE_ID);
     opt "repository_id" TStr (VStr DEFAULT_REPOSITORY_ID);
     opt "watch_target_id" TStr (VStr DEFAULT_WATCH_TARGET_ID);
     opt "binding_id" TStr (VStr DEFAULT_DEPLOYMENT_BINDING_ID);
     opt "application_id" TStr (VStr DEFAULT_APPLICATION_ID);
     opt "workflow_run_id" TStr (VStr DEFAULT_WORKFLOW_RUN_ID);
     opt "environment" TStr (VStr DEFAULT_ENVIRONMENT);
     opt "cluster_id" TStr (VStr DEFAULT_CLUSTER_ID); opt "commit_sha" TStr (VStr "");
     opt "manifest_path" TStr (VStr DEFAULT_MANIFEST_PATH);
     opt "repo_ref" TStr (VStr DEFAULT_REPO_REF); opt "branch" TStr (VStr DEFAULT_REPO_BRANCH)].

Definition ManifestInvalidBody : body_class :=
  Class_ "ManifestInvalidBody" []
    [req "workspace_id" TStr; req "repository_id" TStr; req "watch_target_id" TStr;
     req "binding_id" TStr; req "commit_sha" TStr; req "manifest_path" TStr; req "reason" TStr;
     opt "application_id" TStr (VStr DEFAULT_APPLICATION_ID);
     opt "workflow_run_id" TStr (VStr DEFAULT_WORKFLOW_RUN_ID);
     opt "environment" TStr (VStr DEFAULT_ENVIRONMENT);
     opt "cluster_id" TStr (VStr DEFAULT_CLUSTER_ID)].

Definition DesiredDesiredDiffDetectedBody : body_class :=
  Class_ "DesiredDesiredDiffDetectedBody" []
    [req "diff" (Body Diff)].

Definition GitOpsChangeContextDetectedBody : body_class :=
  Class_ "GitOpsChangeContextDetectedBody" []
    [req "metadata" TDict; opt "workspace_id" TStr (VStr DEFAULT_WORKSPACE_ID);
     opt "repository_id" TStr (VStr DEFAULT_REPOSITORY_ID);
     opt "watch_target_id" TStr (VStr DEFAULT_WATCH_TARGET_ID);
     opt "binding_id" TStr (VStr DEFAULT_DEPLOYMENT_BINDING_ID);
     opt "application_id" TStr (VStr DEFAULT_APPLICATION_ID);
     opt "workflow_run_id" TStr (VStr DEFAULT_WORKFLOW_RUN_ID);
     opt "environment" TStr (VStr DEFAULT_ENVIRONMENT);
     opt "cluster_id" TStr (VStr DEFAULT_CLUSTER_ID); opt "commit_sha" TStr (VStr "");
     opt "manifest_path" TStr (VStr DEFAULT_MANIFEST_PATH);
     opt "repo_ref" TStr (VStr DEFAULT_REPO_REF); opt "branch" TStr (VStr DEFAULT_REPO_BRANCH);
     opt "resource" TStr (VStr "")].

Definition DiffAnalyzedBody : body_class :=
  Class_ "DiffAnalyzedBody" []
    [req "diff" (Body Diff); req "safe" TBool; req "risk" TStr; req "reason" TStr].

Definition WorkflowCreatedBody : body_class :=
  Class_ "WorkflowCreatedBody" []
    [opt "workspace_id" TStr (VStr DEFAULT_WORKSPACE_ID);
     opt "application_id" TStr (VStr DEFAULT_APPLICATION_ID);
     opt "workflow_run_id" TStr (VStr DEFAULT_WORKFLOW_RUN_ID);
     opt "repository_id" TStr (VStr DEFAULT_REPOSITORY_ID);
     opt "watch_target_id" TStr (VStr DEFAULT_WATCH_TARGET_ID);
     opt "binding_id" TStr (VStr DEFAULT_DEPLOYMENT_BINDING_ID);
     opt "environment" TStr (VStr DEFAULT_ENVIRONMENT);
     opt "cluster_id" TStr (VStr DEFAULT_CLUSTER_ID); opt "commit_sha" TStr (VStr "");
     opt "manifest_path" TStr (VStr DEFAULT_MANIFEST_PATH)].

Definition WorkflowRunStartedBody : body_class :=
  Class_ "WorkflowRunStartedBody" []
    [req "workflow_run_id" TStr; req "application_id" TStr;
     opt "workspace_id" TStr (VStr DEFAULT_WORKSPACE_ID);
     opt "repository_id" TStr (VStr DEFAULT_REPOSITORY_ID);
     opt "watch_target_id" TStr (VStr DEFAULT_WATCH_TARGET_ID);
     opt "binding_id" TStr (VStr DEFAULT_DEPLOYMENT_BINDING_ID);
     opt "environment" TStr (VStr DEFAULT_ENVIRONMENT);
     opt "cluster_id" TStr (VStr DEFAULT_CLUSTER_ID); opt "commit_sha" TStr (VStr "");
     opt "manifest_path" TStr (VStr DEFAULT_MANIFEST_PATH); opt "status" TStr (VStr "started");
     opt "current_step" TStr (VStr "git")].

Definition WorkflowStepRecordedBody : body_class :=
  Class_ "WorkflowStepRecordedBody" []
    [req "workflow_run_id" TStr; req "application_id" TStr; req "step" TStr; req "status" TStr;
     opt "workspace_id" TStr (VStr DEFAULT_WORKSPACE_ID);
     opt "binding_id" TStr (VStr DEFAULT_DEPLOYMENT_BINDING_ID);
     opt "environment" TStr (VStr DEFAULT_ENVIRONMENT); opt "message" (Nullable TStr) VNone;
     opt "details" TDict (VDict [])].

Definition ApprovalRequestedBody : body_class :=
  Class_ "ApprovalRequestedBody" []
    [req "approval_id" TStr; req "workflow_run_id" TStr; req "application_id" TStr;
     req "reason" TStr; opt "workspace_id" TStr (VStr DEFAULT_WORKSPACE_ID);
     opt "binding_id" TStr (VStr DEFAULT_DEPLOYMENT_BINDING_ID);
     opt "environment" TStr (VStr DEFAULT_ENVIRONMENT);
     opt "requested_role" TStr (VStr "release_operator"); opt "details" TDict (VDict [])].

Definition ApprovalGrantedBody : body_class :=
  Class_ "ApprovalGrantedBody" []
    [req "approval_id" TStr; req "workflow_run_id" TStr; req "application_id" TStr;
     opt "workspace_id" TStr (VStr DEFAULT_WORKSPACE_ID);
     opt "binding_id" TStr (VStr DEFAULT_DEPLOYMENT_BINDING_ID);
     opt "environment" TStr (VStr DEFAULT_ENVIRONMENT); opt "decided_by" (Nullable TStr) VNone;
     opt "decision" TStr (VStr "granted"); opt "details" TDict (VDict [])].

Definition ApprovalRejectedBody : body_class :=
  Class_ "ApprovalRejectedBody" []
    [req "approval_id" TStr; req "workflow_run_id" TStr; req "application_id" TStr;
     req "reason" TStr; opt "workspace_id" TStr (VStr DEFAULT_WORKSPACE_ID);
     opt "binding_id" TStr (VStr DEFAULT_DEPLOYMENT_BINDING_ID);
     opt "environment" TStr (VStr DEFAULT_ENVIRONMENT); opt "decided_by" (Nullable TStr) VNone;
     opt "details" TDict (VDict [])].

Definition WorkflowRunCompletedBody : body_class :=
  Class_ "WorkflowRunCompletedBody" []
    [req "workflow_run_id" TStr; req "application_id" TStr;
     opt "workspace_id" TStr (VStr DEFAULT_WORKSPACE_ID);
     opt "binding_id" TStr (VStr DEFAULT_DEPLOYMENT_BINDING_ID);
     opt "environment" TStr (VStr DEFAULT_ENVIRONMENT);
     opt "summary" TStr (VStr "workflow succeeded"); opt "details" TDict (VDict [])].

Definition WorkflowRunFailedBody : body_class :=
  Class_ "WorkflowRunFailedBody" []
    [req "workflow_run_id" TStr; req "application_id" TStr; req "reason" TStr;
     opt "workspace_id" TStr (VStr DEFAULT_WORKSPACE_ID);
     opt "binding_id" TStr (VStr DEFAULT_DEPLOYMENT_BINDING_ID);
     opt "environment" TStr (VStr DEFAULT_ENVIRONMENT); opt "details" TDict (VDict [])].

(** ** Commands ([src/src/domains/command/events.py]) *)

Definition CommandRequestedBody : body_class :=
  Class_ "CommandRequestedBody" []
    [req "cluster_id" TStr; req "action" TStr; req "namespace" TStr; req "reason" TStr;
     req "diff" (Body Diff); opt "command_id" (Nullable TStr) VNone;
     opt "workspace_id" TStr (VStr DEFAULT_WORKSPACE_ID);
     opt "application_id" TStr (VStr DEFAULT_APPLICATION_ID);
     opt "workflow_run_id" TStr (VStr DEFAULT_WORKFLOW_RUN_ID);
     opt "binding_id" TStr (VStr DEFAULT_DEPLOYMENT_BINDING_ID);
     opt "environment" TStr (VStr DEFAULT_ENVIRONMENT); opt "priority" TInt (VInt 100);
     opt "requested_by" (Nullable TStr) VNone; opt "actor" (Nullable TDict) VNone;
     opt "approval_ref" (Nullable TStr) VNone; opt "policy_decision_ref" (Nullable TStr) VNone;
     opt "approval_decided_by" (Nullable TStr) VNone;
     opt "approval_expires_at" (Nullable TStr) VNone; opt "direct_execution" TBool (VBool false);
     opt "direct_execution_confirmed" TBool (VBool false); opt "payload" TDict (VDict [])].

Definition LeaseMetadata : body_class :=
  Class_ "LeaseMetadata" []
    [req "lease_seconds" TInt; req "heartbeat_interval_seconds" TInt].

Definition RetryPolicy : body_class :=
  Class_ "RetryPolicy" []
    [req "max_attempts" TInt; req "retry_delay_seconds" TInt].

Definition RoutingConstraint : body_class :=
  Class_ "RoutingConstraint" []
    [req "channel" TStr; req "cluster_id" TStr; req "workspace_id" TStr;
     req "required_capability" TStr].

Definition Plan : body_class :=
  Class_ "Plan" []
    [req "command_id" TStr; req "idempotency_key" TStr; req "cluster_id" TStr; req "action" TStr;
     req "namespace" TStr; req "diff" TDict; req "payload" TDict; req "steps" (TList TStr);
     req "lease" (Body LeaseMetadata); req "retry_policy" (Body RetryPolicy);
     req "routing_constraint" (Body RoutingConstraint);
     opt "workspace_id" TStr (VStr DEFAULT_WORKSPACE_ID);
     opt "application_id" TStr (VStr DEFAULT_APPLICATION_ID);
     opt "workflow_run_id" TStr (VStr DEFAULT_WORKFLOW_RUN_ID);
     opt "binding_id" TStr (VStr DEFAULT_DEPLOYMENT_BINDING_ID);
     opt "environment" TStr (VStr DEFAULT_ENVIRONMENT); opt "priority" TInt (VInt 100);
     opt "approval_ref" (Nullable TStr) VNone; opt "policy_decision_ref" (Nullable TStr) VNone;
     opt "approval_decided_by" (Nullable TStr) VNone;
     opt "approval_expires_at" (Nullable TStr) VNone; opt "direct_execution" TBool (VBool false);
     opt "direct_execution_confirmed" TBool (VBool false)].

Definition Route : body_class :=
  Class_ "Route" []
    [req "channel" TStr; req "cluster_id" TStr].

Definition CommandDispatchedBody : body_class :=
  Class_ "CommandDispatchedBody" []
    [req "plan" (Body Plan); req "route" (Body Route)].

Definition CommandQueuedForAgentBody : body_class :=
  Class_ "CommandQueuedForAgentBody" []
    [req "command_id" TStr; req "cluster_id" TStr;
     opt "workspace_id" TStr (VStr DEFAULT_WORKSPACE_ID);
     opt "application_id" TStr (VStr DEFAULT_APPLICATION_ID);
     opt "workflow_run_id" TStr (VStr DEFAULT_WORKFLOW_RUN_ID);
     opt "binding_id" TStr (VStr DEFAULT_DEPLOYMENT_BINDING_ID);
     opt "environment" TStr (VStr DEFAULT_ENVIRONMENT); opt "priority" TInt (VInt 100);
     opt "approval_ref" (Nullable TStr) VNone; opt "policy_decision_ref" (Nullable TStr) VNone;
     opt "approval_decided_by" (Nullable TStr) VNone;
     opt "approval_expires_at" (Nullable TStr) VNone; opt "direct_execution" TBool (VBool false);
     opt "direct_execution_confirmed" TBool (VBool false)].

Definition CommandRejectedBody : body_class :=
  Class_ "CommandRejectedBody" []
    [req "reason" TStr; req "requested" TDict; opt "reason_code" (Nullable TStr) VNone].

Definition CommandCancelRequestedBody : body_class :=
  Class_ "CommandCancelRequestedBody" []
    [req "command_id" TStr; req "workspace_id" TStr; opt "reason" (Nullable TStr) VNone;
     opt "requested_by" (Nullable TStr) VNone; opt "actor" (Nullable TDict) VNone].

Definition CommandRetryRequestedBody : body_class :=
  Class_ "CommandRetryRequestedBody" []
    [req "command_id" TStr; req "workspace_id" TStr; opt "reason" (Nullable TStr) VNone;
     opt "requested_by" (Nullable TStr) VNone; opt "actor" (Nullable TDict) VNone].

Definition CommandCompletedBody : body_class :=
  Class_ "CommandCompletedBody" []
    [req "command_id" TStr; req "result" TDict].

(** ** Source control ([src/src/domains/scm/events.py]) *)

Definition SafePrFilePatch : body_class :=
  Class_ "SafePrFilePatch" []
    [req "path" TStr; req "content" TStr; opt "description" TStr (VStr "")].

Definition SafePrRequestedBody : body_class :=
  Class_ "SafePrRequestedBody" []
    [req "title" TStr; req "body" TStr; req "provider" TStr;
     opt "patches" (TList (Body SafePrFilePatch)) (VList []);
     opt "pr_kind" TStr (VStr SAFE_PR_KIND_PATCH);
     opt "workspace_id" TStr (VStr DEFAULT_WORKSPACE_ID);
     opt "repository_id" TStr (VStr DEFAULT_REPOSITORY_ID);
     opt "binding_id" TStr (VStr DEFAULT_DEPLOYMENT_BINDING_ID);
     opt "application_id" TStr (VStr DEFAULT_APPLICATION_ID);
     opt "workflow_run_id" TStr (VStr DEFAULT_WORKFLOW_RUN_ID);
     opt "environment" TStr (VStr DEFAULT_ENVIRONMENT);
     opt "manifest_path" TStr (VStr DEFAULT_MANIFEST_PATH);
     opt "repo_ref" TStr (VStr DEFAULT_REPO_REF); opt "base_branch" TStr (VStr "");
     opt "commit_sha" TStr (VStr ""); opt "cluster_id" TStr (VStr "");
     opt "target_namespace" TStr (VStr ""); opt "target_resource" TStr (VStr "");
     opt "target_authority" TStr (VStr ""); opt "patch_sha256" TStr (VStr "");
     opt "approval_ref" (Nullable TStr) VNone; opt "policy_decision_ref" (Nullable TStr) VNone;
     opt "evidence_ref" TStr (VStr ""); opt "delivery" TStr (VStr SAFE_PR_DELIVERY_PULL_REQUEST)].

Definition SafePrCreatedBody : body_class :=
  Class_ "SafePrCreatedBody" []
    [req "pr_url" TStr; req "provider" TStr; req "mode" TStr;
     opt "workspace_id" TStr (VStr DEFAULT_WORKSPACE_ID);
     opt "repository_id" TStr (VStr DEFAULT_REPOSITORY_ID);
     opt "binding_id" TStr (VStr DEFAULT_DEPLOYMENT_BINDING_ID);
     opt "application_id" TStr (VStr DEFAULT_APPLICATION_ID);
     opt "workflow_run_id" TStr (VStr DEFAULT_WORKFLOW_RUN_ID);
     opt "environment" TStr (VStr DEFAULT_ENVIRONMENT);
     opt "manifest_path" TStr (VStr DEFAULT_MANIFEST_PATH);
     opt "repo_ref" TStr (VStr DEFAULT_REPO_REF); opt "base_branch" TStr (VStr "");
     opt "commit_sha" TStr (VStr ""); opt "patch_sha256" TStr (VStr "");
     opt "pr_number" (Nullable TInt) VNone; opt "pr_node_id" TStr (VStr "");
     opt "head_ref" TStr (VStr ""); opt "head_sha" TStr (VStr "")].

Definition SafePrReadyForCreationBody : body_class :=
  Class_ "SafePrReadyForCreationBody" []
    [req "request" (Body SafePrRequestedBody); req "summary" TStr; req "risk" TStr;
     opt "details" TDict (VDict []); opt "workspace_id" TStr (VStr DEFAULT_WORKSPACE_ID)].

Definition SafePrFailedBody : body_class :=
  Class_ "SafePrFailedBody" []
    [req "provider" TStr; req "title" TStr; req "reason" TStr;
     opt "workspace_id" TStr (VStr DEFAULT_WORKSPACE_ID);
     opt "repository_id" TStr (VStr DEFAULT_REPOSITORY_ID);
     opt "binding_id" TStr (VStr DEFAULT_DEPLOYMENT_BINDING_ID);
     opt "application_id" TStr (VStr DEFAULT_APPLICATION_ID);
     opt "workflow_run_id" TStr (VStr DEFAULT_WORKFLOW_RUN_ID);
     opt "environment" TStr (VStr DEFAULT_ENVIRONMENT);
     opt "manifest_path" TStr (VStr DEFAULT_MANIFEST_PATH);
     opt "repo_ref" TStr (VStr DEFAULT_REPO_REF); opt "base_branch" TStr (VStr "");
     opt "commit_sha" TStr (VStr ""); opt "patch_sha256" TStr (VStr "");
     opt "reason_code" TStr (VStr "safe_pr_failed"); opt "stage" TStr (VStr "scm");
     opt "evidence_ref" TStr (VStr ""); opt "details" TDict (VDict [])].

(** ** Target clusters ([src/src/domains/target/events.py]) *)

Definition AgentConnectedBody : body_class :=
  Class_ "AgentConnectedBody" []
    [req "cluster_id" TStr; req "agent_id" TStr; opt "capabilities" (TList TStr) (VList []);
     opt "workspace_id" TStr (VStr DEFAULT_WORKSPACE_ID)].

(** ** Root cause analysis and recovery ([src/src/domains/rca/events.py]) *)

Definition ClusterEvidenceReceivedBody : body_class :=
  Class_ "ClusterEvidenceReceivedBody" []
    [req "cluster_id" TStr; req "kubernetes" TDict; req "metrics" TDict;
     req "logs" (TList TDict); req "traces" TDict;
     opt "workspace_id" TStr (VStr DEFAULT_WORKSPACE_ID); opt "agent_id" (Nullable TStr) VNone;
     opt "source_id" (Nullable TStr) VNone; opt "window_start" (Nullable TStr) VNone;
     opt "evidence_key" (Nullable TStr) VNone; opt "workflow_run_id" (Nullable TStr) VNone;
     opt "release_context" TDict (VDict []); opt "collection_status" TDict (VDict []);
     opt "metadata" TDict (VDict []); opt "correlation_id" (Nullable TStr) VNone;
     opt "kind" (Nullable TStr) VNone; opt "payload_size" (Nullable TInt) VNone;
     opt "summary" TDict (VDict [])].

Definition Evidence : body_class :=
  Class_ "Evidence" []
    [req "cluster_id" TStr; req "kubernetes" TDict; req "metrics" TDict;
     req "logs" (TList TDict); req "traces" TDict; req "object_ref" TStr;
     opt "metadata" TDict (VDict []); opt "workspace_id" TStr (VStr DEFAULT_WORKSPACE_ID)].

Definition IncidentRecord : body_class :=
  Class_ "IncidentRecord" []
    [req "incident_id" TStr; req "cluster_id" TStr; req "resource_kind" TStr;
     req "resource_name" TStr; req "namespace" (Nullable TStr); req "symptom" TStr;
     req "severity" TStr; req "first_seen_at" (Nullable TStr); req "summary" TStr;
     opt "category" (Nullable TStr) VNone; opt "workspace_id" TStr (VStr DEFAULT_WORKSPACE_ID);
     opt "secondary_symptoms" (TList TStr) (VList [])].

Definition IncidentDetectedBody : body_class :=
  Class_ "IncidentDetectedBody" []
    [req "cluster_id" TStr; req "detected" TBool; req "reason" TStr;
     opt "workspace_id" TStr (VStr DEFAULT_WORKSPACE_ID); opt "severity" (Nullable TStr) VNone;
     opt "affected" (Nullable (TList TDict)) VNone;
     opt "evidence" (Nullable (Body Evidence)) VNone;
     opt "incident" (Nullable (Body IncidentRecord)) VNone].

Definition EvidenceBuiltBody : body_class :=
  Class_ "EvidenceBuiltBody" []
    [req "evidence" (Body Evidence); opt "correlation_id" (Nullable TStr) VNone;
     opt "kind" (Nullable TStr) VNone; opt "payload_size" (Nullable TInt) VNone;
     opt "summary" TDict (VDict [])].

Definition EvidenceReference : body_class :=
  Class_ "EvidenceReference" []
    [req "evidence_ref" TStr; req "source" TStr; req "name" TStr; req "check_id" TStr;
     req "summary" TStr; opt "query" (Nullable TStr) VNone].

Definition EvidenceItem : body_class :=
  Class_ "EvidenceItem" []
    [req "source" TStr; req "name" TStr; req "value" TDict; req "summary" TStr;
     opt "evidence_ref" TStr (VStr ""); opt "check_id" TStr (VStr "");
     opt "query" (Nullable TStr) VNone].

Definition MissingEvidenceCheck : body_class :=
  Class_ "MissingEvidenceCheck" []
    [req "check_id" TStr; req "source" TStr; req "status" TStr; req "reason" TStr].

Definition EvidenceBundle : body_class :=
  Class_ "EvidenceBundle" []
    [req "incident_id" TStr; req "items" (TList (Body EvidenceItem));
     req "missing_evidence" (TList TStr); req "complete" TBool;
     opt "missing_evidence_checks" (TList (Body MissingEvidenceCheck)) (VList [])].

Definition EvidenceBundleBuiltBody : body_class :=
  Class_ "EvidenceBundleBuiltBody" []
    [req "evidence" (Body Evidence); req "incident" (Body IncidentRecord);
     req "evidence_bundle" (Body EvidenceBundle)].

Definition CauseCandidate : body_class :=
  Class_ "CauseCandidate" []
    [req "candidate_id" TStr; req "title" TStr; req "description" TStr;
     req "expected_evidence" (TList TStr); req "checks" (TList TStr);
     opt "signals" (TList TDict) (VList []); opt "source" TStr (VStr CAUSE_CANDIDATE_SOURCE_RULE)].

Definition CauseEvaluation : body_class :=
  Class_ "CauseEvaluation" []
    [req "candidate_id" TStr; req "score" TUnchecked; req "checks" (TList TStr);
     req "supporting_evidence" (TList TStr); req "missing_evidence" (TList TStr);
     req "reason" TStr;
     opt "supporting_evidence_refs" (TList (Body EvidenceReference)) (VList []);
     opt "missing_evidence_checks" (TList (Body MissingEvidenceCheck)) (VList []);
     opt "matched_signal_count" TInt (VInt 0); opt "required_signal_count" TInt (VInt 0)].

Definition RcaReportDetail : body_class :=
  Class_ "RcaReportDetail" []
    [req "root_cause" TStr; req "confidence" TUnchecked; req "selected_candidate_id" TStr;
     req "supporting_evidence" (TList TStr); req "missing_evidence" (TList TStr);
     req "reason" TStr;
     opt "missing_evidence_checks" (TList (Body MissingEvidenceCheck)) (VList []);
     opt "supporting_evidence_refs" (TList (Body EvidenceReference)) (VList [])].

Definition RcaRuleMissing : body_class :=
  Class_ "RcaRuleMissing" []
    [req "incident_id" TStr; req "symptom" TStr; req "evidence_ref" TStr;
     req "missing_evidence" (TList TStr); req "message" TStr;
     opt "workspace_id" TStr (VStr DEFAULT_WORKSPACE_ID)].

Definition RcaRuleMissingBody : body_class :=
  Class_ "RcaRuleMissingBody" []
    [req "rule_missing" (Body RcaRuleMissing); req "incident" (Body IncidentRecord)].

Definition RcaBacklogItemCreatedBody : body_class :=
  Class_ "RcaBacklogItemCreatedBody" []
    [req "backlog_id" TStr; req "title" TStr; req "reason" TStr; req "evidence_ref" TStr;
     req "incident_id" TStr; req "symptom" TStr; req "missing_evidence" (TList TStr);
     req "status" TStr; req "payload" TDict; opt "workspace_id" TStr (VStr DEFAULT_WORKSPACE_ID)].

Definition RcaAiFallbackRequestedBody : body_class :=
  Class_ "RcaAiFallbackRequestedBody" []
    [req "reason" TStr; req "evidence_ref" TStr; req "incident" (Body IncidentRecord);
     req "evidence_bundle" (Body EvidenceBundle); req "missing_evidence" (TList TStr);
     opt "workspace_id" TStr (VStr DEFAULT_WORKSPACE_ID);
     opt "evidence" (Nullable (Body Evidence)) VNone].

Definition RcaCandidatesPlannedBody : body_class :=
  Class_ "RcaCandidatesPlannedBody" []
    [req "candidate_count" TInt; req "evidence_ref" TStr;
     req "candidates" (TList (Body CauseCandidate));
     opt "workspace_id" TStr (VStr DEFAULT_WORKSPACE_ID);
     opt "evidence" (Nullable (Body Evidence)) VNone;
     opt "incident" (Nullable (Body IncidentRecord)) VNone;
     opt "evidence_bundle" (Nullable (Body EvidenceBundle)) VNone;
     opt "rule_missing" (Nullable (Body RcaRuleMissing)) VNone].

Definition RcaCandidatesEvaluatedBody : body_class :=
  Class_ "RcaCandidatesEvaluatedBody" []
    [req "candidate_count" TInt; req "evidence_ref" TStr;
     req "candidates" (TList (Body CauseCandidate));
     req "evaluations" (TList (Body CauseEvaluation));
     opt "workspace_id" TStr (VStr DEFAULT_WORKSPACE_ID);
     opt "evidence" (Nullable (Body Evidence)) VNone;
     opt "incident" (Nullable (Body IncidentRecord)) VNone;
     opt "evidence_bundle" (Nullable (Body EvidenceBundle)) VNone;
     opt "rule_missing" (Nullable (Body RcaRuleMissing)) VNone].

Definition RcaAnalysisBlockedBody : body_class :=
  Class_ "RcaAnalysisBlockedBody" []
    [req "reason_code" TStr; req "reason" TStr; req "evidence_ref" TStr;
     req "rca_detail" (Body RcaReportDetail);
     opt "workspace_id" TStr (VStr DEFAULT_WORKSPACE_ID);
     opt "evidence" (Nullable (Body Evidence)) VNone;
     opt "incident" (Nullable (Body IncidentRecord)) VNone;
     opt "evidence_bundle" (Nullable (Body EvidenceBundle)) VNone;
     opt "candidates" (TList (Body CauseCandidate)) (VList []);
     opt "evaluations" (TList (Body CauseEvaluation)) (VList []);
     opt "rule_missing" (Nullable (Body RcaRuleMissing)) VNone;
     opt "missing_evidence" (TList TStr) (VList []); opt "next_actions" (TList TDict) (VList []);
     opt "diagnostics" TDict (VDict []); opt "severity" TStr (VStr "warning")].

Definition RcaFollowupRequiredBody : body_class :=
  Class_ "RcaFollowupRequiredBody" []
    [req "reason_code" TStr; req "summary" TStr; req "evidence_ref" TStr;
     opt "workspace_id" TStr (VStr DEFAULT_WORKSPACE_ID); opt "severity" TStr (VStr "warning");
     opt "incident" (Nullable (Body IncidentRecord)) VNone;
     opt "missing_evidence" (TList TStr) (VList []); opt "next_actions" (TList TDict) (VList []);
     opt "diagnostics" TDict (VDict [])].

Definition RcaCompletedBody : body_class :=
  Class_ "RcaCompletedBody" []
    [req "root_cause" TStr; req "action" TStr; req "evidence_ref" TStr;
     opt "workspace_id" TStr (VStr DEFAULT_WORKSPACE_ID);
     opt "evidence" (Nullable (Body Evidence)) VNone;
     opt "incident" (Nullable (Body IncidentRecord)) VNone;
     opt "evidence_bundle" (Nullable (Body EvidenceBundle)) VNone;
     opt "candidates" (Nullable (TList (Body CauseCandidate))) VNone;
     opt "evaluations" (Nullable (TList (Body CauseEvaluation))) VNone;
     opt "rca_detail" (Nullable (Body RcaReportDetail)) VNone;
     opt "rule_missing" (Nullable (Body RcaRuleMissing)) VNone].

Definition RcaActionRequiredBody : body_class :=
  Class_ "RcaActionRequiredBody" []
    [req "reason" TStr; req "evidence_ref" TStr;
     opt "workspace_id" TStr (VStr DEFAULT_WORKSPACE_ID);
     opt "reason_code" TStr (VStr "action_required"); opt "severity" TStr (VStr "warning");
     opt "missing_evidence" (TList TStr) (VList []); opt "next_actions" (TList TDict) (VList []);
     opt "diagnostics" TDict (VDict [])].

Definition HealingActionDraft : body_class :=
  Class_ "HealingActionDraft" []
    [req "action_type" TStr; req "namespace" TStr; req "resource_kind" TStr;
     req "resource_name" TStr; req "reason" TStr; req "risk_level" TStr; req "dry_run" TBool;
     req "source_evidence" (TList TStr); req "params" TDict].

Definition RecoveryActionCandidate : body_class :=
  Class_ "RecoveryActionCandidate" []
    [req "action_id" TStr; req "title" TStr; req "description" TStr;
     req "draft" (Body HealingActionDraft); req "route" TStr; req "rank" TInt;
     req "score" TUnchecked; req "risk_level" TStr; req "blast_radius" TStr;
     req "approval_required" TBool; req "prerequisites" (TList TStr);
     req "validation_checks" (TList TStr); req "rollback_plan" TStr;
     req "evidence_refs" (TList TStr); opt "recommendation_reason" TStr (VStr "");
     opt "expected_outcome" TStr (VStr ""); opt "risk_explanation" TStr (VStr "");
     opt "rollback_reason" TStr (VStr ""); opt "executable" TBool (VBool true);
     opt "blocked_reason_code" (Nullable TStr) VNone; opt "blocked_reason" (Nullable TStr) VNone].

Definition RecoveryPlan : body_class :=
  Class_ "RecoveryPlan" []
    [req "plan_id" TStr; req "incident_id" TStr; req "evidence_ref" TStr; req "summary" TStr;
     req "target" TDict; req "recommended_action_id" TStr; req "execution_route" TStr;
     req "selection_required" TBool; req "candidates" (TList (Body RecoveryActionCandidate));
     opt "lifecycle" TDict (VDict [])].

Definition RecoveryPlannedBody : body_class :=
  Class_ "RecoveryPlannedBody" []
    [req "draft" (Body HealingActionDraft); opt "plan" (Nullable (Body RecoveryPlan)) VNone;
     opt "workspace_id" TStr (VStr DEFAULT_WORKSPACE_ID)].

Definition RecoverySelectionRequestedBody : body_class :=
  Class_ "RecoverySelectionRequestedBody" []
    [req "plan" (Body RecoveryPlan); req "reason" TStr;
     opt "workspace_id" TStr (VStr DEFAULT_WORKSPACE_ID)].

Definition RecoveryActionSelectedBody : body_class :=
  Class_ "RecoveryActionSelectedBody" []
    [req "plan" (Body RecoveryPlan); req "selected" (Body RecoveryActionCandidate);
     req "selected_by" TStr; req "auto_selected" TBool; req "reason" TStr;
     opt "workspace_id" TStr (VStr DEFAULT_WORKSPACE_ID)].

Definition RecoveryPrTrackedBody : body_class :=
  Class_ "RecoveryPrTrackedBody" []
    [req "plan_id" TStr; req "incident_id" TStr; req "pr_url" TStr; req "repository_id" TStr;
     req "repo_ref" TStr; req "binding_id" TStr; req "application_id" TStr;
     req "base_branch" TStr; opt "workspace_id" TStr (VStr DEFAULT_WORKSPACE_ID)].

Definition RecoveryPrMergedBody : body_class :=
  Class_ "RecoveryPrMergedBody" []
    [req "plan_id" TStr; req "incident_id" TStr; req "pr_url" TStr; req "merge_commit_sha" TStr;
     req "repository_id" TStr; req "repo_ref" TStr; req "binding_id" TStr;
     req "application_id" TStr; req "workflow_run_id" TStr; req "cluster_id" TStr;
     opt "workspace_id" TStr (VStr DEFAULT_WORKSPACE_ID)].

Definition RecoveryVerificationStartedBody : body_class :=
  Class_ "RecoveryVerificationStartedBody" []
    [req "plan_id" TStr; req "incident_id" TStr; req "workflow_run_id" TStr;
     req "started_at" TStr; req "deadline_at" TStr; req "expected" TDict; req "before" TDict;
     opt "workspace_id" TStr (VStr DEFAULT_WORKSPACE_ID)].

Definition RecoveryVerificationUpdatedBody : body_class :=
  Class_ "RecoveryVerificationUpdatedBody" []
    [req "plan_id" TStr; req "incident_id" TStr; req "status" TStr; req "reason_code" TStr;
     req "reason" TStr; req "evidence_ref" TStr; req "before" TDict; req "after" TDict;
     opt "workspace_id" TStr (VStr DEFAULT_WORKSPACE_ID)].

Definition RecoveryVerificationFailedBody : body_class :=
  Class_ "RecoveryVerificationFailedBody" []
    [req "plan_id" TStr; req "incident_id" TStr; req "reason_code" TStr; req "reason" TStr;
     req "evidence_ref" TStr; opt "before" TDict (VDict []); opt "after" TDict (VDict []);
     opt "workspace_id" TStr (VStr DEFAULT_WORKSPACE_ID)].

Definition RecoveryRetryRequestedBody : body_class :=
  Class_ "RecoveryRetryRequestedBody" []
    [req "plan_id" TStr; req "incident_id" TStr; req "action_id" TStr; req "retry_stage" TStr;
     req "attempt" TInt; req "requested_by" TStr; req "reason" TStr;
     opt "workflow_run_id" (Nullable TStr) VNone;
     opt "workspace_id" TStr (VStr DEFAULT_WORKSPACE_ID)].

Definition IncidentResolvedBody : body_class :=
  Class_ "IncidentResolvedBody" []
    [req "incident_id" TStr; req "cluster_id" TStr; req "reason" TStr; req "evidence_ref" TStr;
     req "recovery_plan_id" TStr; req "before" TDict; req "after" TDict;
     opt "workspace_id" TStr (VStr DEFAULT_WORKSPACE_ID)].

Definition SafePrPatchPreparedBody : body_class :=
  Class_ "SafePrPatchPreparedBody" []
    [req "title" TStr; req "body" TStr; req "patch" TDict; req "provider" TStr;
     opt "request" TDict (VDict []); opt "workspace_id" TStr (VStr DEFAULT_WORKSPACE_ID);
     opt "repository_id" TStr (VStr DEFAULT_REPOSITORY_ID);
     opt "binding_id" TStr (VStr DEFAULT_DEPLOYMENT_BINDING_ID);
     opt "application_id" TStr (VStr DEFAULT_APPLICATION_ID);
     opt "workflow_run_id" TStr (VStr DEFAULT_WORKFLOW_RUN_ID);
     opt "environment" TStr (VStr DEFAULT_ENVIRONMENT);
     opt "manifest_path" TStr (VStr DEFAULT_MANIFEST_PATH);
     opt "pr_kind" TStr (VStr "safe_pr_patch"); opt "approval_ref" (Nullable TStr) VNone;
     opt "policy_decision_ref" (Nullable TStr) VNone].

Definition DiffExplainedBody : body_class :=
  Class_ "DiffExplainedBody" []
    [req "summary" TStr; req "risk" TStr; req "details" TDict;
     opt "workspace_id" TStr (VStr DEFAULT_WORKSPACE_ID);
     opt "ready_for_creation" TBool (VBool false); opt "reason" TStr (VStr "")].

Definition ApprovalRecommendedBody : body_class :=
  Class_ "ApprovalRecommendedBody" []
    [req "recommendation" TStr; req "reason" TStr; req "details" TDict;
     opt "workspace_id" TStr (VStr DEFAULT_WORKSPACE_ID)].

(** ** Platform ([src/src/packages/contracts/event_bus/bodies/platform.py]) *)

Definition DeadLetterCreatedBody : body_class :=
  Class_ "DeadLetterCreatedBody" []
    [req "dead_letter_id" TInt; req "original_event_id" TStr; req "original_subject" TStr;
     req "consumer" TStr; req "attempts" TInt; req "error" TStr; req "created_at" TStr;
     req "status" TStr; req "correlation_id" TStr; opt "payload" (Nullable TDict) VNone].

Definition PipelineContractFailedBody : body_class :=
  Class_ "PipelineContractFailedBody" []
    [req "contract" TStr; req "reason" TStr; req "consumer" TStr; req "payload" TDict;
     req "workspace_id" TStr; opt "evidence_ref" (Nullable TStr) VNone;
     opt "severity" TStr (VStr "warning"); opt "diagnostics" TDict (VDict [])].

(** ** The registry *)

(** [@event(SUBJECT)] on the classes, in the order of the modules. *)
Definition DEFINITIONS : list (EventSubject * body_class) :=
  [(GIT_WEBHOOK_RECEIVED, GitWebhookReceivedBody);
   (GIT_CHANGED, GitChangedBody);
   (MANIFEST_RENDERED, ManifestRenderedBody);
   (MANIFEST_INVALID, ManifestInvalidBody);
   (DESIRED_DIFF_DETECTED, DesiredDesiredDiffDetectedBody);
   (GITOPS_CHANGE_CONTEXT_DETECTED, GitOpsChangeContextDetectedBody);
   (DIFF_ANALYZED, DiffAnalyzedBody);
   (WORKFLOW_CREATED, WorkflowCreatedBody);
   (WORKFLOW_RUN_STARTED, WorkflowRunStartedBody);
   (WORKFLOW_STEP_RECORDED, WorkflowStepRecordedBody);
   (APPROVAL_REQUESTED, ApprovalRequestedBody);
   (APPROVAL_GRANTED, ApprovalGrantedBody);
   (APPROVAL_REJECTED, ApprovalRejectedBody);
   (WORKFLOW_RUN_COMPLETED, WorkflowRunCompletedBody);
   (WORKFLOW_RUN_FAILED, WorkflowRunFailedBody);
   (COMMAND_REQUESTED, CommandRequestedBody);
   (COMMAND_DISPATCHED, CommandDispatchedBody);
   (COMMAND_QUEUED_FOR_AGENT, CommandQueuedForAgentBody);
   (COMMAND_REJECTED, CommandRejectedBody);
   (COMMAND_CANCEL_REQUESTED, CommandCancelRequestedBody);
   (COMMAND_RETRY_REQUESTED, CommandRetryRequestedBody);
   (COMMAND_COMPLETED, CommandCompletedBody);
   (SAFE_PR_REQUESTED, SafePrRequestedBody);
   (SAFE_PR_CREATED, SafePrCreatedBody);
   (SAFE_PR_READY_FOR_CREATION, SafePrReadyForCreationBody);
   (SAFE_PR_FAILED, SafePrFailedBody);
   (AGENT_CONNECTED, AgentConnectedBody);
   (CLUSTER_EVIDENCE_RECEIVED, ClusterEvidenceReceivedBody);
   (INCIDENT_DETECTED, IncidentDetectedBody);
   (EVIDENCE_BUILT, EvidenceBuiltBody);
   (EVIDENCE_BUNDLE_BUILT, EvidenceBundleBuiltBody);
   (RCA_RULE_MISSING, RcaRuleMissingBody);
   (RCA_BACKLOG_ITEM_CREATED, RcaBacklogItemCreatedBody);
   (RCA_AI_FALLBACK_REQUESTED, RcaAiFallbackRequestedBody);
   (RCA_CANDIDATES_PLANNED, RcaCandidatesPlannedBody);
   (RCA_CANDIDATES_EVALUATED, RcaCandidatesEvaluatedBody);
   (RCA_ANALYSIS_BLOCKED, RcaAnalysisBlockedBody);
   (RCA_FOLLOWUP_REQUIRED, RcaFollowupRequiredBody);
   (RCA_COMPLETED, RcaCompletedBody);
   (RCA_ACTION_REQUIRED, RcaActionRequiredBody);
   (RECOVERY_PLANNED, RecoveryPlannedBody);
   (RECOVERY_SELECTION_REQUESTED, RecoverySelectionRequestedBody);
   (RECOVERY_ACTION_SELECTED, RecoveryActionSelectedBody);
   (RECOVERY_PR_TRACKED, RecoveryPrTrackedBody);
   (RECOVERY_PR_MERGED, RecoveryPrMergedBody);
   (RECOVERY_VERIFICATION_STARTED, RecoveryVerificationStartedBody);
   (RECOVERY_VERIFICATION_UPDATED, RecoveryVerificationUpdatedBody);
   (RECOVERY_VERIFICATION_FAILED, RecoveryVerificationFailedBody);
   (RECOVERY_RETRY_REQUESTED, RecoveryRetryRequestedBody);
   (INCIDENT_RESOLVED, IncidentResolvedBody);
   (SAFE_PR_PATCH_PREPARED, SafePrPatchPreparedBody);
   (DIFF_EXPLAINED, DiffExplainedBody);
   (APPROVAL_RECOMMENDED, ApprovalRecommendedBody);
   (DEAD_LETTER_CREATED, DeadLetterCreatedBody);
   (PIPELINE_CONTRACT_FAILED, PipelineContractFailedBody)].

(** [EventRegistry]: the definitions, and the handlers noted for the table. *)
Record registry := Registry {
  defs : list (EventSubject * body_class);
  handlers : list (EventSubject * list (string * string));
  raw_handlers : list (string * string);
}.

Definition empty_registry : registry := Registry [] [] [].

Fixpoint subject_get {A} (d : list (EventSubject * A)) (s : EventSubject) : option A :=
  match d with
  | [] => None
  | (s', a) :: d => if bool_decide (s' = s) then Some a else subject_get d s
  end.

Fixpoint subject_set {A} (d : list (EventSubject * A)) (s : EventSubject) (a : A)
    : list (EventSubject * A) :=
  match d with
  | [] => [(s, a)]
  | (s', b) :: d => if bool_decide (s' = s) then (s', a) :: d else (s', b) :: subject_set d s a
  end.

Definition define (r : registry) (s : EventSubject) (c : body_class) : registry :=
  Registry (subject_set (defs r) s c) (handlers r) (raw_handlers r).

Definition add_new (b : string * string) (l : list (string * string)) : list (string * string) :=
  if bool_decide (b ∈ l) then l else l ++ [b].

Definition note_handler (r : registry) (service : string) (s : EventSubject) (fn : string)
    : registry :=
  let hs := default [] (subject_get (handlers r) s) in
  Registry (defs r) (subject_set (handlers r) s (add_new (service, fn) hs)) (raw_handlers r).

Definition note_raw_handler (r : registry) (service fn : string) : registry :=
  Registry (defs r) (handlers r) (add_new (service, fn) (raw_handlers r)).

Definition events : registry :=
  fold_left (fun r d => define r d.1 d.2) DEFINITIONS empty_registry.

(** The class registered for a subject. *)
Definition body_type (s : EventSubject) : option body_class := subject_get (defs events) s.

(** ** Lemmas *)

Lemma EVENT_SUBJECTS_all s : s ∈ EVENT_SUBJECTS.
Proof. destruct s; set_solver. Qed.

(** A check of every subject is a check of the list. *)
Lemma every_subject (p : EventSubject -> bool) :
  forallb p EVENT_SUBJECTS = true -> forall s, p s = true.
Proof. intros Hp s. eapply forallb_elem; [exact Hp|apply EVENT_SUBJECTS_all]. Qed.

#[global] Instance subject_value_inj : Inj (=) (=) subject_value.
Proof.
  intros s s'. apply (NoDup_fmap_fst_eq subject_value EVENT_SUBJECTS); auto using EVENT_SUBJECTS_all.
  apply no_dup_spec. vm_compute. reflexivity.
Qed.

Definition well_described (c : body_class) : bool := wf_type (Body c) && defaults_typed (Body c).

Lemma body_type_well_described s c : body_type s = Some c -> well_described c = true.
Proof.
  intros Hc. pose proof (every_subject (fun s => match body_type s with
    | Some c => well_described c | None => false end)) as H.
  specialize (H ltac:(vm_compute; reflexivity) s). cbn beta in H. by rewrite Hc in H.
Qed.

(** ** Theorems *)

Lemma well_described_wf c : well_described c = true -> wf_type (Body c) = true.
Proof. by intros [? _]%andb_true_iff. Qed.

Lemma from_body_mapping c strict o :
  typed (Body c) o ->
  from_body c strict (VDict (to_body o)) = decode_value strict (cls_name c) "" (Body c) (to_body_value o).
Proof. intros (values & -> & _)%typed_body. done. Qed.

(** C31: a body of any registered class survives the wire: what [to_body]
    sends, [from_body] restores, strictly or not, for every subject of the
    catalogue and every object of its class. *)
Theorem registered_body_round_trip s c strict o :
  body_type s = Some c -> typed (Body c) o -> from_body c strict (VDict (to_body o)) = Ok o.
Proof.
  intros Hc%body_type_well_described%well_described_wf Ho.
  rewrite from_body_mapping by done. by apply decode_encoded.
Qed.

(** a consumer is not disturbed by a newer producer: fields added to a
    body, at any depth where the contract has body classes, are ignored by the
    decoder of the workers ([strict=False]) and the object is the one sent. *)
Theorem newer_producer_is_understood s c o raw :
  body_type s = Some c -> typed (Body c) o ->
  later (Body c) (to_body_value o) (VDict raw) ->
  from_body c false (VDict raw) = Ok o.
Proof.
  intros Hc%body_type_well_described%well_described_wf Ho Hl. cbn [from_body].
  rewrite (decode_later _ _ _ _ _ Hl). by apply decode_encoded.
Qed.

(** The fields below a type that the decoder leaves unchecked: those annotated
    with a type it has no case for, unless they are the members of an enum,
    which [__post_init__] checks.  [field] is the class and the name of the
    field that is looked at. *)
Fixpoint unchecked_fields (field : string * string) (t : field_type) : list (string * string) :=
  match t with
  | TUnchecked => [field]
  | TUnion options => List.concat (List.map (unchecked_fields field) options)
  | TList item => unchecked_fields field item
  | TBody name enums fields =>
      List.concat (List.map (fun ft => if bool_decide (is_Some (dict_get enums (f_name ft.1))) then []
                                       else unchecked_fields (name, f_name ft.1) ft.2) fields)
  | _ => []
  end.

Definition FLOAT_FIELDS : list (string * string) :=
  [("CauseEvaluation", "score"); ("RcaReportDetail", "confidence"); ("RecoveryActionCandidate", "score")].

Definition is_float_field (f : string * string) : bool :=
  existsb (fun x => str_eqb f.1 x.1 && str_eqb f.2 x.2) FLOAT_FIELDS.

Lemma only_floats_are_unchecked s c f :
  body_type s = Some c -> f ∈ unchecked_fields (cls_name c, "") (Body c) -> f ∈ FLOAT_FIELDS.
Proof.
  intros Hc Hf. pose proof (every_subject (fun s => match body_type s with
    | Some c => forallb is_float_field (unchecked_fields (cls_name c, "") (Body c))
    | None => true end) ltac:(vm_compute; reflexivity) s) as Hs.
  cbn beta in Hs. rewrite Hc in Hs. pose proof (proj1 (forallb_elem _ _) Hs f Hf) as Hx.
  apply existsb_elem in Hx as ([cls field] & Hin & [E1%str_eqb_eq E2%str_eqb_eq]%andb_true_iff).
  destruct f. cbn in E1, E2. by subst.
Qed.

(** C32: decoding checks every annotation but [float].  For every registered
    class and any payload the decoder returns only objects of the class whose
    fields, at any depth, have their declared types - texts, integers,
    booleans, mappings, lists, nested bodies, [None] where it is allowed and,
    for the risk level, one of its members; the only fields it does not check,
    and that hold any value of the wire, are the three declared [float]: the
    score of a cause evaluation, the confidence of a report and the score of a
    recovery candidate.  The only exceptions that escape it are
    [EventBodyDecodeError] and the [ValueError] of an unknown risk level. *)
Theorem decoded_body_is_typed s c strict raw :
  body_type s = Some c ->
  match from_body c strict raw with
  | Ok o => typed (Body c) o /\
      forall cls field, (cls, field) ∈ unchecked_fields (cls_name c, "") (Body c) ->
        (cls, field) ∈ [("CauseEvaluation", "score"); ("RcaReportDetail", "confidence");
                        ("RecoveryActionCandidate", "score")]
  | Err e => is_decode_error e = true \/ e = ValueError
  end.
Proof.
  intros Hc. pose proof (fun f => only_floats_are_unchecked s c f Hc) as Hf.
  apply body_type_well_described, andb_true_iff in Hc as [_ Hd].
  destruct (from_body c strict raw) as [o|e] eqn:E; destruct raw; try done;
    try (injection E as <-; by left); cbn [from_body] in E.
  - split; [by eapply decode_typed|]. intros cls field. apply Hf.
  - by eapply decode_errors.
Qed.

(** nothing the services publish is outside the stream: every subject of
    the catalogue is matched by one of the derived stream subjects, has a body
    class, and no two subjects share a wire name. *)
Theorem stream_captures_every_subject s :
  (exists p, p ∈ STREAM_SUBJECTS /\ InMemoryBus.subject_matches p (subject_value s) = true) /\
  (exists c, body_type s = Some c) /\
  forall s', subject_value s' = subject_value s -> s' = s.
Proof.
  repeat split.
  - pose proof (every_subject (fun s => existsb (fun p =>
      InMemoryBus.subject_matches p (subject_value s)) STREAM_SUBJECTS)
      ltac:(vm_compute; reflexivity) s) as H. cbn beta in H. by apply existsb_elem in H.
  - pose proof (every_subject (fun s => match body_type s with Some _ => true | None => false end)
      ltac:(vm_compute; reflexivity) s) as H. cbn beta in H. destruct (body_type s); [eauto|done].
  - intros s'. apply subject_value_inj.
Qed.

(** ** Samples *)

Definition sample_command : obj :=
  OBody CommandQueuedForAgentBody
    (OStr "cmd-1" :: OStr "cluster-1" :: (of_wire <$> [VStr "default"; VStr ""; VStr ""; VStr "";
      VStr "sandbox"; VInt 100; VNone; VStr "policy-1"; VNone; VNone; VBool false; VBool true])).

(** The body as a later version of its producer might send it. *)
Definition sample_newer : dict := to_body sample_command ++ [("requested_region", VStr "eu")].

Lemma sample_command_typed : typed (Body CommandQueuedForAgentBody) sample_command.
Proof.
  eexists. split; [reflexivity|]. split; [vm_compute; reflexivity|].
  repeat split; try (eexists; reflexivity); try (right; left; split; [reflexivity|eexists; reflexivity]);
    (left; split; reflexivity) || (right; left; split; [reflexivity|eexists; reflexivity]).
Qed.

Lemma registered_body_round_trip_witness :
  from_body CommandQueuedForAgentBody true (VDict (to_body sample_command)) = Ok sample_command.
Proof.
  apply (registered_body_round_trip COMMAND_QUEUED_FOR_AGENT);
    [vm_compute; reflexivity|exact sample_command_typed].
Defined.

Lemma newer_producer_is_understood_witness :
  from_body CommandQueuedForAgentBody true (VDict sample_newer) <> Ok sample_command /\
  from_body CommandQueuedForAgentBody false (VDict sample_newer) = Ok sample_command.
Proof.
  split; [vm_compute; discriminate|].
  apply (newer_producer_is_understood COMMAND_QUEUED_FOR_AGENT);
    [vm_compute; reflexivity|exact sample_command_typed|vm_compute; tauto].
Defined.

Lemma decoded_body_is_typed_witness :
  exists e, from_body CommandQueuedForAgentBody true (VDict sample_newer) = Err e /\
    is_decode_error e = true.
Proof.
  pose proof (decoded_body_is_typed COMMAND_QUEUED_FOR_AGENT CommandQueuedForAgentBody true
                (VDict sample_newer) ltac:(vm_compute; reflexivity)) as H.
  eexists. split; [vm_compute; reflexivity|]. destruct H as [H|H]; [exact H|vm_compute; reflexivity].
Defined.

(** The decoder takes a text for the score of a cause evaluation. *)
Lemma float_fields_are_unchecked :
  exists o, from_body CauseEvaluation true (VDict
    [("candidate_id", VStr "c-1"); ("score", VStr "abc"); ("checks", VList []);
     ("supporting_evidence", VList []); ("missing_evidence", VList []); ("reason", VStr "")]) = Ok o.
Proof. eexists. vm_compute. reflexivity. Qed.

(** ** A field declared twice

    [GitWebhookReceivedBody] declares [correlation_id] as [str | None] and
    again as [str]; the second declaration wins.  The webhook route builds the
    body of a plain push with the [None] that the first one allows, and no
    consumer can decode it. *)
Theorem push_webhook_body_is_undecodable strict commit image replicas rest :
  length rest = 13%nat ->
  from_body GitWebhookReceivedBody strict (VDict (to_body (OBody GitWebhookReceivedBody
    (OStr commit :: OStr image :: OInt replicas :: ONone :: rest)))) =
  Err (must_be "GitWebhookReceivedBody" "correlation_id" "str").
Proof.
  intros Hl. do 13 (destruct rest as [|? rest]; [done|]). destruct rest; [|done].
  destruct strict; reflexivity.
Qed.

End EventBodies.
