(* ===== verification/Dispatch.v ===== *)
(** * Declaring and dispatching handlers

    [src/src/packages/runtime/app.py] and [dispatch.py], with the envelope
    builder of [packages/events/envelope.py]: a service subscribes functions
    to body classes, the router picks the function of an event's subject, the
    payload is decoded without strictness and what the function yields is
    wrapped into the next events of the same flow.  The theorems show that a
    service that could be declared routes every subject it asked for to the
    one function it declared, and that every event a handler yields is
    understood by the handlers of its subject. *)
From S2P Require Import Prelude PyStr PyFloat PyVal EventBody EventBodies EventStore.

Module Dispatch.
Import EventBody EventBodies EventStore.

(** ** Envelopes *)

Definition normalized_workspace_id (value : pyval) : option string :=
  match value with
  | VStr s => let n := strip s in if is_empty n then None else Some n
  | _ => None
  end.

Definition text_of (o : option string) : pyval :=
  match o with Some s => VStr s | None => VNone end.

(** [a or b] on optional text. *)
Definition or_text (a b : option string) : option string :=
  match a with Some s => if is_empty s then b else Some s | None => b end.

(** [event(...)]: [uuid] and [now] are what [uuid4] and [now_iso] return,
    [current] is the workspace of the request context.  The correlation id of a
    payload is text: [correlation_is_text] checks it for every class. *)
Definition event (uuid now : string) (current : option string) (subject source : string)
    (payload : dict) (correlation causation workspace : option string) : EventEnvelope :=
  let from_payload := match get payload "correlation_id" with VStr s => Some s | _ => None end in
  {| event_id := uuid; EventStore.subject := subject; EventStore.source := source;
     correlation_id := default uuid (or_text correlation (or_text from_payload None));
     causation_id := causation; created_at := now; EventStore.payload := payload;
     schema_version := ENVELOPE_SCHEMA_VERSION;
     workspace_id := match normalized_workspace_id (text_of workspace) with
                     | Some w => Some w
                     | None => current
                     end |}.

(** ** Handlers *)

Record EventContext := Context_ {
  ctx_event_id : string;
  ctx_subject : string;
  ctx_correlation_id : string;
  ctx_causation_id : option string;
  ctx_source : string;
  ctx_created_at : string;
  ctx_workspace_id : option string;
}.

Definition context_of (evt : EventEnvelope) : EventContext :=
  {| ctx_event_id := event_id evt; ctx_subject := subject evt;
     ctx_correlation_id := correlation_id evt; ctx_causation_id := causation_id evt;
     ctx_source := source evt; ctx_created_at := created_at evt;
     ctx_workspace_id := workspace_id evt |}.

(** What calling a handler gives: an async generator or an awaitable. *)
Inductive result := AsyncGen (items : list obj) | Awaited (value : obj).

(** [_iter_results] *)
Definition iter_results (r : result) : list obj :=
  match r with
  | AsyncGen items => items
  | Awaited ONone => []
  | Awaited (OList l) => l
  | Awaited o => [o]
  end.

(** [body.__subject__], set on the class by the registry. *)
Definition subject_of_class (c : body_class) : option EventSubject :=
  fst <$> find (fun d => str_eqb (cls_name d.2) (cls_name c)) (defs EventBodies.events).

Definition subject_of (o : obj) : res EventSubject :=
  match o with
  | OBody c _ => raise_none (subject_of_class c) AttributeError
  | _ => Err AttributeError
  end.

Section handlers.
(** The tables of the service, and the identities and times of the events one
    run creates. *)
Context {B : Type} (uuid now : nat -> string) (current : option string).

(** A handler function: the context is passed if the signature has a second
    parameter. *)
Record handler_fn := Fn {
  fn_name : string;
  fn_params : nat;
  fn_call : obj -> option EventContext -> B -> res (B * result);
}.

Record raw_fn := RawFn {
  raw_name : string;
  raw_params : nat;
  raw_call : EventEnvelope -> option EventContext -> B -> res (B * result);
}.

(** [_collect] *)
Definition collect_one (source_ : string) (evt : EventEnvelope) (i : nat) (body : obj)
    : res EventEnvelope :=
  s ← subject_of body;
  Ok (event (uuid i) (now i) current (subject_value s) source_ (to_body body)
        (Some (correlation_id evt)) (Some (event_id evt)) (workspace_id evt)).

Fixpoint collect_from (source_ : string) (evt : EventEnvelope) (i : nat) (bodies : list obj)
    : res (list EventEnvelope) :=
  match bodies with
  | [] => Ok []
  | body :: bodies =>
      e ← collect_one source_ evt i body;
      es ← collect_from source_ evt (S i) bodies;
      Ok (e :: es)
  end.

Definition collect (source_ : string) (evt : EventEnvelope) (r : result)
    : res (list EventEnvelope) :=
  collect_from source_ evt 0 (iter_results r).

Record Subscription := Sub {
  sub_subject : EventSubject;
  sub_body_type : body_class;
  sub_fn : handler_fn;
  sub_wants_ctx : bool;
}.

Definition handler := EventEnvelope -> B -> res (B * list EventEnvelope).

Definition make_event_handler (sub : Subscription) (source_ : string) : handler :=
  fun evt b =>
    body ← from_body (sub_body_type sub) false (VDict (payload evt));
    '(b', r) ← fn_call (sub_fn sub) body
                 (if sub_wants_ctx sub then Some (context_of evt) else None) b;
    es ← collect source_ evt r;
    Ok (b', es).

Definition make_raw_handler (fn : raw_fn) (wants_ctx : bool) (source_ : string) : handler :=
  fun evt b =>
    '(b', r) ← raw_call fn evt (if wants_ctx then Some (context_of evt) else None) b;
    es ← collect source_ evt r;
    Ok (b', es).

Definition ALL_EVENTS_SUBJECT : string := ">".

Definition make_router (handlers : list (string * handler)) : handler :=
  fun evt b =>
    match match dict_get handlers (subject evt) with
          | Some h => Some h
          | None => dict_get handlers ALL_EVENTS_SUBJECT
          end with
    | None => Err RuntimeError
    | Some h => h evt b
    end.

(** ** Services *)

Record App := MkApp {
  app_name : string;
  app_handlers : list (EventSubject * Subscription);
  app_raw : option (raw_fn * bool);
  app_consumers : list (EventSubject * string);
}.

(** [ServiceSpec(name=...)] refuses a blank name. *)
Definition new_app (name : string) : res App :=
  _ ← raise_if (is_empty (strip name)) ValueError;
  Ok (MkApp name [] None []).

(** [require(condition, message, error)]. *)
Definition require (condition : bool) (e : exn) : res unit := raise_if (negb condition) e.

Definition ensure_registered (c : body_class) : res EventSubject :=
  raise_none (subject_of_class c) TypeError.

Definition ensure_handler_signature (params : nat) : res bool :=
  _ ← require (Nat.leb 1 params && Nat.leb params 2) TypeError;
  Ok (Nat.eqb params 2).

Definition ensure_unique_handler (handlers : list (EventSubject * Subscription)) (s : EventSubject)
    : res unit :=
  match subject_get handlers s with Some _ => Err TypeError | None => Ok tt end.

Definition ensure_has_handler (handlers : list (EventSubject * Subscription)) : res unit :=
  require (Nat.leb 1 (length handlers)) RuntimeError.

Definition no_raw (a : App) : bool := match app_raw a with None => true | Some _ => false end.

(** [@app.on(body_type, consumer=consumer)] on [fn]. *)
Definition on (a : App) (c : body_class) (consumer : option string) (fn : handler_fn) : res App :=
  _ ← require (no_raw a) TypeError;
  s ← ensure_registered c;
  _ ← ensure_unique_handler (app_handlers a) s;
  wants_ctx ← ensure_handler_signature (fn_params fn);
  Ok (MkApp (app_name a) (subject_set (app_handlers a) s (Sub s c fn wants_ctx)) (app_raw a)
        (match consumer with
         | Some n => subject_set (app_consumers a) s n
         | None => app_consumers a
         end)).

(** [@app.on_any] on [fn]. *)
Definition on_any (a : App) (fn : raw_fn) : res App :=
  _ ← require (bool_decide (length (app_handlers a) = 0%nat) && no_raw a) TypeError;
  wants_ctx ← ensure_handler_signature (raw_params fn);
  Ok (MkApp (app_name a) (app_handlers a) (Some (fn, wants_ctx)) (app_consumers a)).

Definition subscriptions (a : App) : list Subscription := (app_handlers a).*2.

Definition consumer_pins (a : App) : list (string * string) :=
  (fun p => (subject_value p.1, p.2)) <$> app_consumers a.

(** [_resolve]: the subjects to subscribe and the handler of the worker. *)
Definition resolve (a : App) : res (list string * handler) :=
  match app_raw a with
  | Some (fn, wants_ctx) => Ok ([ALL_EVENTS_SUBJECT], make_raw_handler fn wants_ctx (app_name a))
  | None =>
      _ ← ensure_has_handler (app_handlers a);
      Ok ((fun s => subject_value (sub_subject s)) <$> subscriptions a,
          make_router (dict_update [] ((fun s => (subject_value (sub_subject s),
                                         make_event_handler s (app_name a))) <$> subscriptions a)))
  end.

(** The declarations of a service, in order. *)
Inductive declaration :=
  | On (c : body_class) (consumer : option string) (fn : handler_fn)
  | OnAny (fn : raw_fn).

Definition declare (a : App) (d : declaration) : res App :=
  match d with On c n fn => on a c n fn | OnAny fn => on_any a fn end.

Definition declare_all (a : App) (ds : list declaration) : res App := foldr_res declare a ds.


(** ** Lemmas *)

Lemma subject_get_set {A} (d : list (EventSubject * A)) s a s' :
  subject_get (subject_set d s a) s' = if bool_decide (s = s') then Some a else subject_get d s'.
Proof.
  induction d as [|[t b] d IH]; cbn; [done|].
  repeat case_bool_decide; cbn; subst; repeat case_bool_decide; congruence.
Qed.

Lemma subject_get_None {A} (d : list (EventSubject * A)) s :
  subject_get d s = None <-> s ∉ d.*1.
Proof.
  induction d as [|[t b] d IH]; cbn; [split; [by intros _ ?%elem_of_nil|done]|].
  rewrite elem_of_cons. case_bool_decide; [naive_solver|]. rewrite IH. naive_solver.
Qed.

Lemma subject_set_fresh {A} (d : list (EventSubject * A)) s a :
  subject_get d s = None -> subject_set d s a = d ++ [(s, a)].
Proof.
  induction d as [|[t b] d IH]; cbn; [done|]. case_bool_decide; [done|]. intros ?. by rewrite IH.
Qed.

(** The classes have names of their own. *)
Lemma subject_of_registered s c : body_type s = Some c -> subject_of_class c = Some s.
Proof.
  intros Hc. pose proof (every_subject (fun s => match body_type s with
    | Some c => match subject_of_class c with
                | Some s' => str_eqb (subject_value s') (subject_value s) | None => false end
    | None => false end) ltac:(vm_compute; reflexivity) s) as H. cbn beta in H.
  rewrite Hc in H. destruct (subject_of_class c) as [s'|]; [|done].
  apply str_eqb_eq in H. f_equal. by apply (inj subject_value).
Qed.

(** A service under declaration: one subscription per subject, each for the
    subject of its class, and nothing beside an all-events handler. *)
Definition declared (ds : list declaration) (a : App) : Prop :=
  NoDup (app_handlers a).*1 /\
  (forall s sub, (s, sub) ∈ app_handlers a ->
     sub_subject sub = s /\ subject_of_class (sub_body_type sub) = Some s) /\
  (forall c n fn, On c n fn ∈ ds -> exists s, subject_of_class c = Some s /\
     (s, Sub s c fn (Nat.eqb (fn_params fn) 2)) ∈ app_handlers a) /\
  (forall raw, app_raw a = Some raw -> app_handlers a = []).

Lemma declare_declared ds a d a' :
  declared ds a -> declare a d = Ok a' -> declared (ds ++ [d]) a' /\ app_name a' = app_name a.
Proof.
  intros (Hnd & Hsub & Hon & Hraw). destruct d as [c n fn|fn]; cbn; intros Hd.
  - unfold on in Hd.
    apply bind_Ok in Hd as (_ & Hr%raise_if_Ok & (s & Hs%raise_none_Ok &
      (u & Hu & (w & Hw & [= <-])%bind_Ok)%bind_Ok)%bind_Ok).
    apply bind_Ok in Hw as (_ & _ & [= <-]). unfold ensure_unique_handler in Hu.
    destruct (subject_get (app_handlers a) s) as [|] eqn:Hg; [done|].
    split; [|done]. unfold declared. cbn. rewrite subject_set_fresh by done.
    apply subject_get_None in Hg. rewrite fmap_app. cbn. repeat split.
    + apply NoDup_app. split; [done|]. split; [set_solver|apply NoDup_singleton].
    + apply elem_of_app in H as [H|H%list_elem_of_singleton]; [by apply Hsub|].
      by injection H as -> ->.
    + apply elem_of_app in H as [H|H%list_elem_of_singleton]; [by apply Hsub|].
      by injection H as -> ->.
    + intros c' n' fn' [H|H%list_elem_of_singleton]%elem_of_app.
      * destruct (Hon _ _ _ H) as (s' & ? & ?). exists s'. split; [done|]. set_solver.
      * injection H as -> -> ->. exists s. split; [done|]. set_solver.
    + intros raw Hr'. unfold no_raw in Hr. by rewrite Hr' in Hr.
  - unfold on_any in Hd.
    apply bind_Ok in Hd as (_ & Hr%raise_if_Ok & (w & _ & [= <-])%bind_Ok).
    apply negb_false_iff, andb_true_iff in Hr as [Hl%bool_decide_eq_true _].
    split; [|done]. repeat split; cbn; try done; try (by apply Hsub).
    + intros c n fn' [H|H%list_elem_of_singleton]%elem_of_app; [eauto|done].
    + intros _ _. by apply nil_length_inv.
Qed.

Lemma declare_all_declared ds0 ds a a' :
  declared ds0 a -> declare_all a ds = Ok a' ->
  declared (ds0 ++ ds) a' /\ app_name a' = app_name a.
Proof.
  revert ds0 a. induction ds as [|d ds IH]; intros ds0 a Ha; cbn.
  - intros [= <-]. by rewrite app_nil_r.
  - intros (a1 & Hd & Hrest)%bind_Ok. destruct (declare_declared _ _ _ _ Ha Hd) as [H1 <-].
    destruct (IH _ _ H1 Hrest) as [H2 ?]. by rewrite <- app_assoc in H2.
Qed.

Lemma new_app_declared name a : new_app name = Ok a -> declared [] a /\ app_name a = name.
Proof.
  intros (_ & _ & [= <-])%bind_Ok. split; [|done]. unfold declared. cbn.
  split; [by apply NoDup_nil|]. split; [by intros * ?%elem_of_nil|].
  split; [by intros * ?%elem_of_nil|]. done.
Qed.

(** The router of a declared service. *)
Lemma resolve_routes ds a subjects h s c n fn :
  declared ds a -> resolve a = Ok (subjects, h) -> On c n fn ∈ ds -> subject_of_class c = Some s ->
  subject_value s ∈ subjects /\
  forall evt st, subject evt = subject_value s ->
    h evt st = make_event_handler (Sub s c fn (Nat.eqb (fn_params fn) 2)) (app_name a) evt st.
Proof.
  intros (Hnd & Hsub & Hon & Hraw) Hr Hin Hs.
  destruct (Hon _ _ _ Hin) as (s' & Hs' & Hmem). rewrite Hs in Hs'. injection Hs' as <-.
  unfold resolve in Hr. destruct (app_raw a) as [raw|] eqn:Hraw'.
  { rewrite (Hraw _ eq_refl) in Hmem. by apply elem_of_nil in Hmem. }
  apply bind_Ok in Hr as (_ & _ & [= <- <-]).
  pose proof (list_elem_of_fmap_2 snd _ _ Hmem) as Hsub'. cbn in Hsub'.
  split.
  - apply (list_elem_of_fmap_2 (fun x => subject_value (sub_subject x)) _ _ Hsub').
  - intros evt st E. unfold make_router. rewrite E.
    assert (NoDup ((fun x => (subject_value (sub_subject x), make_event_handler x (app_name a)))
              <$> subscriptions a).*1) as Hkeys.
    { rewrite <- list_fmap_compose. unfold subscriptions. rewrite <- list_fmap_compose.
      rewrite (list_fmap_ext _ (subject_value ∘ fst)).
      - rewrite list_fmap_compose. by apply NoDup_fmap_2; [apply _|].
      - intros i [t sub] Hi. cbn.
        by rewrite (proj1 (Hsub t sub (list_elem_of_lookup_2 _ _ _ Hi))). }
    rewrite dict_update_fresh by done.
    rewrite (dict_get_NoDup _ _ (make_event_handler (Sub s c fn (Nat.eqb (fn_params fn) 2))
               (app_name a)) Hkeys); [done|].
    apply (list_elem_of_fmap_2 (fun x => (subject_value (sub_subject x),
             make_event_handler x (app_name a))) _ _ Hsub').
Qed.


(** Every registered body that a handler yields becomes one event. *)
Lemma collect_registered source_ evt i s c o :
  body_type s = Some c -> typed (Body c) o ->
  collect_one source_ evt i o =
  Ok (event (uuid i) (now i) current (subject_value s) source_ (to_body o)
        (Some (correlation_id evt)) (Some (event_id evt)) (workspace_id evt)).
Proof.
  intros Hc Ho. unfold collect_one. pose proof (subject_of_registered _ _ Hc) as Hs.
  apply typed_body in Ho as (values & -> & _). cbn [subject_of].
  destruct c as [cn ce cf]. cbn in *. by rewrite Hs.
Qed.

(** a service that can be declared listens to what it asked for: each
    [@app.on] of its declaration is subscribed, and every event of that
    subject is handled by that function alone. *)
Theorem declared_handlers_are_routed name a0 ds a subjects h c n fn :
  new_app name = Ok a0 -> declare_all a0 ds = Ok a -> resolve a = Ok (subjects, h) ->
  On c n fn ∈ ds ->
  exists s, subject_of_class c = Some s /\ subject_value s ∈ subjects /\
    forall evt st, subject evt = subject_value s ->
      h evt st = make_event_handler (Sub s c fn (Nat.eqb (fn_params fn) 2)) name evt st.
Proof.
  intros [H0 Hn]%new_app_declared Hd Hr Hin.
  destruct (declare_all_declared _ _ _ _ H0 Hd) as [Ha Hna]. cbn in Ha.
  pose proof Ha as (_ & _ & Hon & _). destruct (Hon _ _ _ Hin) as (s & Hs & _).
  exists s. split; [done|]. rewrite <- Hn, <- Hna. by eapply resolve_routes.
Qed.

(** the services fit together: a body one handler yields becomes an
    event of the same flow, caused by the event being handled, and a service
    that subscribed to the class runs its function on exactly that body. *)
Theorem yielded_event_is_handled s c o source_ evt i e name a0 ds a subjects h n fn st :
  body_type s = Some c -> typed (Body c) o -> collect_one source_ evt i o = Ok e ->
  new_app name = Ok a0 -> declare_all a0 ds = Ok a -> resolve a = Ok (subjects, h) ->
  On c n fn ∈ ds ->
  causation_id e = Some (event_id evt) /\
  (correlation_id evt <> "" -> correlation_id e = correlation_id evt) /\
  subject e ∈ subjects /\
  h e st = ('(st', r) ← fn_call fn o
                (if Nat.eqb (fn_params fn) 2 then Some (context_of e) else None) st;
            es ← collect name e r;
            Ok (st', es)).
Proof.
  intros Hc Ho He [H0 Hn]%new_app_declared Hd Hr Hin.
  destruct (declare_all_declared _ _ _ _ H0 Hd) as [Ha Hna]. cbn in Ha.
  rewrite (collect_registered _ _ _ _ _ _ Hc Ho) in He. injection He as <-.
  destruct (resolve_routes _ _ _ _ s _ _ _ Ha Hr Hin (subject_of_registered _ _ Hc)) as [Hmem Hh].
  cbn. split; [done|]. split.
  { intros Hne. destruct (is_empty (correlation_id evt)) eqn:E; [by apply is_empty_eq in E|done]. }
  split; [done|]. rewrite Hh by done. unfold make_event_handler. cbn [sub_body_type payload event].
  rewrite from_body_mapping by done.
  rewrite decode_encoded; [|by apply well_described_wf, (body_type_well_described s)|done].
  cbn [mbind res_bind sub_fn sub_wants_ctx]. by rewrite Hna, Hn.
Qed.

End handlers.

(** The correlation id of a payload is text or absent in every class. *)
Definition text_field (t : field_type) : bool :=
  match t with TStr | TUnion [TStr; TNoneType] => true | _ => false end.

Lemma correlation_is_text s c f t :
  body_type s = Some c -> (f, t) ∈ cls_fields c -> payload_name f = "correlation_id" ->
  text_field t = true.
Proof.
  intros Hc Hf Hn. pose proof (every_subject (fun s => match body_type s with
    | Some c => forallb (fun ft => negb (str_eqb (payload_name ft.1) "correlation_id")
                                   || text_field ft.2) (cls_fields c)
    | None => false end) ltac:(vm_compute; reflexivity) s) as H. cbn beta in H.
  rewrite Hc, forallb_elem in H. specialize (H _ Hf). cbn in H. by rewrite Hn in H.
Qed.

(** ** Samples: a service that answers each queued command with its completion *)

Definition sample_fn : handler_fn (B := nat) :=
  Fn "on_queued" 2 (fun body _ st => Ok (S st, AsyncGen [OBody CommandCompletedBody
    [match body with OBody _ (x :: _) => x | _ => ONone end; ODict []]])).

Definition sample_ids (i : nat) : string := "id-" +:+ str_of_int (Z.of_nat i).
Definition sample_evt : EventEnvelope :=
  event "evt-1" "2026-01-01T00:00:00Z" None (subject_value COMMAND_DISPATCHED) "command-worker" []
    (Some "flow-1") None (Some "default").

Definition sample_app : App (B := nat) :=
  match new_app "agent-worker" with
  | Ok a => match declare_all a [On CommandQueuedForAgentBody None sample_fn] with
            | Ok a => a | Err _ => a end
  | Err _ => MkApp "" [] None []
  end.
Definition sample_handler : handler (B := nat) :=
  match resolve sample_ids sample_ids None sample_app with
  | Ok (_, h) => h | Err _ => fun _ _ => Err RuntimeError end.
Definition sample_event : EventEnvelope :=
  match collect_one sample_ids sample_ids None "command-worker" sample_evt 0 sample_command with
  | Ok e => e | Err _ => sample_evt end.

Lemma declared_handlers_are_routed_witness :
  exists s, subject_of_class CommandQueuedForAgentBody = Some s /\
    subject_value s ∈ ["command.queued_for_agent"].
Proof.
  destruct (declared_handlers_are_routed sample_ids sample_ids None "agent-worker"
    (MkApp "agent-worker" [] None []) [On CommandQueuedForAgentBody None sample_fn] sample_app
    ["command.queued_for_agent"] sample_handler CommandQueuedForAgentBody None sample_fn)
    as (s & Hs & Hin & _); [reflexivity|vm_compute; reflexivity|vm_compute; reflexivity|left|].
  exists s. exact (conj Hs Hin).
Defined.

Lemma yielded_event_is_handled_witness :
  correlation_id sample_event = "flow-1" /\
  exists es, sample_handler sample_event 4%nat = Ok (5%nat, es) /\
    (subject <$> es) = ["command.completed"].
Proof.
  destruct (yielded_event_is_handled sample_ids sample_ids None COMMAND_QUEUED_FOR_AGENT
    CommandQueuedForAgentBody sample_command "command-worker" sample_evt 0 sample_event
    "agent-worker" (MkApp "agent-worker" [] None [])
    [On CommandQueuedForAgentBody None sample_fn] sample_app
    ["command.queued_for_agent"] sample_handler None sample_fn 4%nat)
    as (_ & Hc & _ & Hh);
    [vm_compute; reflexivity|exact sample_command_typed|vm_compute; reflexivity|reflexivity
    |vm_compute; reflexivity|vm_compute; reflexivity|left|].
  split; [apply Hc; vm_compute; discriminate|]. rewrite Hh.
  eexists. split; vm_compute; reflexivity.
Defined.

End Dispatch.
