(* ===== verification/RecoveryMerge.v ===== *)
(** * Authorising the deployment of a merged recovery

    [src/src/domains/gitops/recovery_merge.py]: when an operator has merged a
    recovery pull request, the deployment that follows may reuse that review
    instead of asking again, but only if the diff about to be applied is the
    approved change of scalars and nothing else, and if plan, pull request,
    merge, workflow and stored request agree on every identity.  The theorems
    state what an authorisation guarantees. *)
From S2P Require Import Prelude PyStr PyFloat PyVal SourcePatch EventBody EventBodies.

Module RecoveryMerge.
Import SourcePatch EventBody.

Definition RECOVERY_DEPLOY_PENDING : string := "deploy_pending".
Definition RECOVERY_SAFE_PR_ROUTE : string := "safe_pr".
Definition ALREADY_CONVERGED : string := "already_converged".
Definition INTENDED_CHANGE : string := "intended_change".
Definition REPLICA_FIELD_PATH : string := "spec.replicas".

(** The fields of a [Diff] that are read here. *)
Record Diff := {
  resource : string;
  namespace : string;
  workspace_id : string;
  repository_id : string;
  binding_id : string;
  application_id : string;
  workflow_run_id : string;
  environment : string;
  cluster_id : string;
  manifest_path : string;
  desired_manifest : dict;
  diff_status : string;
  has_changes : bool;
  changes : list pyval;
}.

Record RecoveryMergeAuthorization := {
  tracked : bool;
  request : option obj;
}.

Section merge.
Context `{ReprLib}.

(** [str(value or "").strip()] *)
Definition text (value : pyval) : string :=
  if truthy value then strip (py_str value) else "".

Definition positive_int (value : pyval) : option Z :=
  match value with VInt z => if 0 <? z then Some z else None | _ => None end.

(** ** The approved changes *)

Notation changes_by_path := (list (string * (pyval * pyval))).

(** One entry of the contract, [None] when the function returns early. *)
Definition approve_change (approved : option changes_by_path) (item : pyval)
    : option changes_by_path :=
  match approved, item with
  | Some approved, VDict d =>
      let path := text (get d "field_path") in
      let current := get d "current_value" in
      let desired := get d "desired_value" in
      if is_empty path || has_key approved path
         || bool_decide (field_path_segments path = [])
         || negb (scalar_value current) || negb (scalar_value desired)
         || same_scalar current desired
      then None else Some (dict_set approved path (current, desired))
  | _, _ => None
  end.

Definition approved_change_contract (payload : dict) : option changes_by_path :=
  let lifecycle := mapping (get payload "lifecycle") in
  let authorization := mapping (get lifecycle "authorization") in
  match get authorization "changes" with
  | VList raw_changes =>
      if Nat.leb 1 (length raw_changes) && Nat.leb (length raw_changes) 4
      then fold_left approve_change raw_changes (Some [])
      else None
  | _ => None
  end.

Definition approved_replica_count (payload : dict) : option Z :=
  match approved_change_contract payload with
  | None => None
  | Some approved =>
      match dict_get approved REPLICA_FIELD_PATH with
      | Some (_, desired) => positive_int desired
      | None => None
      end
  end.

(** ** Matching one change of the diff *)

Definition project_step (prefix : string) (projected : pyval)
    (entry : string * (pyval * pyval)) : res pyval :=
  let '(path, (current, desired)) := entry in
  if negb (starts_with prefix path) then Ok projected
  else
    let segments := field_path_segments (str_drop (String.length prefix) path) in
    _ ← raise_if (bool_decide (segments = []))
          (patch_error "approved parent change does not match current value");
    v ← object_value_at projected segments;
    _ ← raise_if (negb (same_scalar v current))
          (patch_error "approved parent change does not match current value");
    set_object_value projected segments desired.

Definition projected_parent_value (source : pyval) (parent_path : string)
    (approved : changes_by_path) : res pyval :=
  match source with
  | VDict _ => foldr_res (project_step (parent_path +:+ ".")) source approved
  | _ => Err (patch_error "approved parent change is not an object")
  end.

(** [except (KeyError, ManifestSourcePatchError, TypeError): return None] *)
Definition or_invalid (m : res bool) : res bool :=
  match m with
  | Ok b => Ok b
  | Err KeyError | Err TypeError => Ok false
  | Err e => if is_patch_error e then Ok false else Err e
  end.

Definition exact_change_valid (classification : string) (change : dict) (current desired : pyval)
    : bool :=
  if str_eqb classification INTENDED_CHANGE then
    same_scalar (get change "old_desired") current
    && same_scalar (get change "before") current
    && same_scalar (get change "after") desired
  else
    same_scalar (get change "old_desired") current
    && same_scalar (get change "before") desired
    && same_scalar (get change "after") desired.

Definition parent_change_valid (classification : string) (change : dict) (parent_path : string)
    (scoped : changes_by_path) : res bool :=
  let old_desired := get change "old_desired" in
  let before := get change "before" in
  let after := get change "after" in
  if str_eqb classification INTENDED_CHANGE then
    and_res (py_eqb old_desired before)
      (projected ← projected_parent_value before parent_path scoped; Ok (py_eqb projected after))
  else
    projected ← projected_parent_value old_desired parent_path scoped;
    Ok (py_eqb projected before && py_eqb before after).

Definition scope_of (approved : changes_by_path) (paths : list string) : changes_by_path :=
  omap (fun p => (fun e => (p, e)) <$> dict_get approved p) paths.

(** The paths at or below a change of the diff. *)
Definition matched_paths (path : string) (approved : changes_by_path) : list string :=
  keep (fun p => str_eqb p path || starts_with (path +:+ ".") p) approved.*1.

(** The order in which [{path: approved[path] for path in matched}] goes
    through the set is not specified: [order] is the one of this run. *)
Context (order : list string -> list string).

Definition approved_change_matches_diff (change : dict) (approved : changes_by_path)
    : res (option (list string)) :=
  let path := text (get change "field_path") in
  let classification := text (get change "classification") in
  let matched := matched_paths path approved in
  if bool_decide (matched = []) then
    Ok (if str_eqb classification ALREADY_CONVERGED then Some [] else None)
  else if negb (bool_decide (classification ∈ [INTENDED_CHANGE; ALREADY_CONVERGED])) then Ok None
  else if bool_decide (matched = [path]) then
    match dict_get approved path with
    | Some (current, desired) =>
        Ok (if exact_change_valid classification change current desired then Some matched else None)
    | None => Err KeyError
    end
  else
    valid ← or_invalid (parent_change_valid classification change path
                          (scope_of approved (order matched)));
    Ok (if valid : bool then Some matched else None).

(** ** The whole diff *)

Definition desired_value_holds (desired : dict) (entry : string * (pyval * pyval)) : bool :=
  match object_value_at (VDict desired) (field_path_segments entry.1) with
  | Ok v => same_scalar v entry.2.2
  | Err _ => false
  end.

(** The loop over the changes: the paths covered and the intended changes, or
    [None] when the function returns [False]. *)
Fixpoint match_changes (approved : changes_by_path) (raw_changes : list pyval)
    (covered : list string) (intended : Z) : res (option (list string * Z)) :=
  match raw_changes with
  | [] => Ok (Some (covered, intended))
  | VDict change :: raw_changes =>
      m ← approved_change_matches_diff change approved;
      match m with
      | None => Ok None
      | Some matched =>
          let intended :=
            if negb (bool_decide (matched = []))
               && str_eqb (text (get change "classification")) INTENDED_CHANGE
            then intended + 1 else intended in
          match_changes approved raw_changes (covered ++ matched) intended
      end
  | _ :: _ => Ok None
  end.

Definition same_set (a b : list string) : bool :=
  forallb (fun x => bool_decide (x ∈ b)) a && forallb (fun x => bool_decide (x ∈ a)) b.

Definition converged_change (raw : pyval) : bool :=
  match raw with
  | VDict d => str_eqb (text (get d "classification")) ALREADY_CONVERGED
  | _ => false
  end.

Definition target_matches (target : dict) (diff : Diff) : bool :=
  let ns := text (get target "namespace") in
  let kind := text (get target "resource_kind") in
  let name := text (get target "resource_name") in
  let '(diff_kind, separator, diff_name) := partition_char "/" (strip (resource diff)) in
  nonempty ns && nonempty kind && nonempty name
  && str_eqb (namespace diff) ns && separator
  && str_eqb (casefold diff_kind) (casefold kind) && str_eqb diff_name name
  && let desired := desired_manifest diff in
     let metadata := mapping (get desired "metadata") in
     let manifest_namespace := text (get metadata "namespace") in
     str_eqb (casefold (text (get desired "kind"))) (casefold kind)
     && str_eqb (text (get metadata "name")) name
     && (is_empty manifest_namespace || str_eqb manifest_namespace ns).

Definition recovery_diff_matches_approved_scope (payload : dict) (diff : Diff) : res bool :=
  let lifecycle := mapping (get payload "lifecycle") in
  let authorization := mapping (get lifecycle "authorization") in
  let target := mapping (get authorization "target") in
  match approved_change_contract payload with
  | None => Ok false
  | Some approved =>
      if negb (target_matches target diff) then Ok false
      else if negb (forallb (desired_value_holds (desired_manifest diff)) approved) then Ok false
      else if negb (has_changes diff) then
        Ok (bool_decide (diff_status diff ∈ ["already_converged"; "no_change"])
            && forallb converged_change (changes diff))
      else
        o ← match_changes approved (changes diff) [] 0;
        Ok match o with
           | Some (covered, intended) => (0 <? intended) && same_set covered approved.*1
           | None => false
           end
  end.

(** ** The stored request *)

(** An attribute of a decoded body. *)
Definition attribute (o : obj) (name : string) : obj :=
  match o with
  | OBody c values =>
      default ONone (dict_get (zip (f_name <$> (cls_fields c).*1) values) name)
  | _ => ONone
  end.
Definition attr_str (o : obj) (name : string) : string :=
  match attribute o name with OStr s => s | _ => "" end.

Definition request_usable (request : obj) (approved_replicas : option Z) : bool :=
  match attribute request "force" with OBool b => b | _ => false end
  && nonempty (strip (attr_str request "image"))
  && match attribute request "replicas" with
     | OInt n => (0 <? n) && match approved_replicas with Some a => n =? a | None => true end
     | _ => false
     end.

Definition LIVE_WORKFLOW_STATUSES : list string :=
  ["started"; "rendering"; "diffing"; "policy_checking"; "waiting_for_approval"].

Definition expected_pairs (diff : Diff) (record pr merge workflow : dict) (request : obj)
    : list (string * string) :=
  let r := attr_str request in
  [(text (get record "workspace_id"), workspace_id diff);
   (text (get record "correlation_id"), r "correlation_id");
   (text (get merge "pr_url"), text (get pr "url"));
   (text (get merge "head_sha"), text (get pr "head_sha"));
   (text (get merge "merge_commit_sha"), r "commit_sha");
   (text (get merge "workflow_run_id"), r "workflow_run_id");
   (text (get merge "repository_id"), r "repository_id");
   (text (get merge "binding_id"), r "binding_id");
   (text (get merge "application_id"), r "application_id");
   (text (get merge "cluster_id"), r "cluster_id");
   (text (get pr "repository_id"), r "repository_id");
   (casefold (text (get pr "repo_ref")), casefold (r "repo_ref"));
   (text (get pr "base_branch"), r "branch");
   (text (get pr "binding_id"), r "binding_id");
   (text (get pr "application_id"), r "application_id");
   (text (get pr "environment"), r "environment");
   (text (get pr "cluster_id"), r "cluster_id");
   (text (get pr "manifest_path"), r "manifest_path");
   (r "workspace_id", workspace_id diff);
   (r "repository_id", repository_id diff);
   (r "binding_id", binding_id diff);
   (r "application_id", application_id diff);
   (r "workflow_run_id", workflow_run_id diff);
   (r "environment", environment diff);
   (r "cluster_id", cluster_id diff);
   (r "manifest_path", manifest_path diff);
   (text (get workflow "workflow_run_id"), r "workflow_run_id");
   (text (get workflow "workspace_id"), r "workspace_id");
   (text (get workflow "binding_id"), r "binding_id");
   (text (get workflow "application_id"), r "application_id");
   (text (get workflow "environment"), r "environment");
   (text (get workflow "cluster_id"), r "cluster_id");
   (text (get workflow "commit_sha"), r "commit_sha")].

Definition agrees (pair : string * string) : bool := nonempty pair.1 && str_eqb pair.1 pair.2.

(** The readers of the database, absent when it has no such method. *)
Record db_readers := {
  get_recovery_plan_for_workflow : option (string -> string -> string -> string -> pyval);
  get_workflow_run : option (string -> pyval);
}.

Definition plan_ready (record payload lifecycle : dict) : bool :=
  str_eqb (text (get record "status")) RECOVERY_DEPLOY_PENDING
  && nonempty (text (get record "selected_action_id"))
  && str_eqb (text (get payload "execution_route")) RECOVERY_SAFE_PR_ROUTE
  && str_eqb (text (get lifecycle "phase")) RECOVERY_DEPLOY_PENDING.

Definition exact_merged_recovery_request (db : db_readers) (diff : Diff) : res (option obj) :=
  match get_recovery_plan_for_workflow db, get_workflow_run db with
  | Some plan_reader, Some workflow_reader =>
      match plan_reader (workspace_id diff) (workflow_run_id diff) (binding_id diff)
              (application_id diff) with
      | VDict record =>
          let payload := mapping (get record "payload") in
          let lifecycle := mapping (get payload "lifecycle") in
          let pr := mapping (get lifecycle "pr") in
          let merge := mapping (get lifecycle "merge") in
          let raw_request := mapping (get merge "deployment_request") in
          if negb (plan_ready record payload lifecycle) then Ok None
          else
            in_scope ← recovery_diff_matches_approved_scope payload diff;
            if negb in_scope then Ok None
            else
              match from_body EventBodies.GitWebhookReceivedBody true (VDict raw_request) with
              | Err e =>
                  match e with
                  | TypeError | ValueError | EventBodyDecodeError _ => Ok None
                  | e => Err e
                  end
              | Ok request =>
                  match workflow_reader (workflow_run_id diff) with
                  | VDict workflow =>
                      if negb (request_usable request (approved_replica_count payload))
                         || is_empty (text (get pr "url")) || is_empty (text (get pr "head_sha"))
                         || is_empty (text (get merge "merge_commit_sha"))
                         || negb (bool_decide (text (get workflow "status") ∈ LIVE_WORKFLOW_STATUSES))
                         || negb (forallb agrees (expected_pairs diff record pr merge workflow request))
                      then Ok None else Ok (Some request)
                  | _ => Ok None
                  end
              end
      | _ => Ok None
      end
  | _, _ => Ok None
  end.

(** The plan is read twice: [db] answers the first read, [db'] the second. *)
Definition recovery_merge_authorization (db db' : db_readers) (diff : Diff)
    : res RecoveryMergeAuthorization :=
  match get_recovery_plan_for_workflow db with
  | None => Ok {| tracked := false; request := None |}
  | Some plan_reader =>
      match plan_reader (workspace_id diff) (workflow_run_id diff) (binding_id diff)
              (application_id diff) with
      | VDict _ =>
          r ← exact_merged_recovery_request db' diff;
          Ok {| tracked := true; request := r |}
      | _ => Ok {| tracked := false; request := None |}
      end
  end.

(** ** Lemmas on the contract *)

(** Distinct parsable paths, each from one scalar to a different one. *)
Definition contract_ok (approved : changes_by_path) : Prop :=
  NoDup approved.*1 /\
  forall p c d, (p, (c, d)) ∈ approved ->
    field_path_segments p <> [] /\ scalar_value c = true /\ scalar_value d = true /\
    same_scalar c d = false.

Lemma approve_none items : fold_left approve_change items None = None.
Proof. by induction items. Qed.

Lemma approve_some approved item approved' :
  contract_ok approved -> approve_change (Some approved) item = Some approved' ->
  contract_ok approved' /\ length approved' = S (length approved).
Proof.
  intros [Hnd Hall]. destruct item as [| | | | | | |d]; try done. cbn [approve_change].
  destruct (_ || _) eqn:E; [done|]. intros [= <-].
  apply orb_false_iff in E as [E Hss]. apply orb_false_iff in E as [E Hd%negb_false_iff].
  apply orb_false_iff in E as [E Hc%negb_false_iff]. apply orb_false_iff in E as [E Hseg].
  apply orb_false_iff in E as [_ Hk]. apply bool_decide_eq_false in Hseg.
  assert (text (get d "field_path") ∉ approved.*1) as Hfresh by (rewrite <- has_key_elem, Hk; done).
  rewrite dict_set_fresh by done. split; [split|rewrite length_app; cbn; lia].
  - rewrite fmap_app. apply NoDup_app. split; [done|]. split; [set_solver|apply NoDup_singleton].
  - intros p c d' [Hin|[= -> -> ->]%list_elem_of_singleton]%elem_of_app; [by apply Hall|done].
Qed.

Lemma approve_all items approved approved' :
  contract_ok approved -> fold_left approve_change items (Some approved) = Some approved' ->
  contract_ok approved' /\ length approved' = (length approved + length items)%nat.
Proof.
  revert approved. induction items as [|item items IH]; intros approved Hok; cbn [fold_left].
  - intros [= <-]. split; [done|cbn; lia].
  - destruct (approve_change (Some approved) item) as [a|] eqn:E; [|by rewrite approve_none].
    destruct (approve_some _ _ _ Hok E) as [Ha Hl]. intros H'. destruct (IH _ Ha H'). split; [done|cbn; lia].
Qed.

Lemma contract_of_payload payload approved :
  approved_change_contract payload = Some approved ->
  contract_ok approved /\ (1 <= length approved <= 4)%nat.
Proof.
  unfold approved_change_contract. destruct (get _ "changes") as [| | | | | |items|]; try done.
  destruct (_ && _) eqn:E; [|done]. apply andb_true_iff in E as [E1%Nat.leb_le E2%Nat.leb_le].
  intros H'. apply approve_all in H' as [? Hl]; [cbn in Hl; split; [done|lia]|].
  split; [apply NoDup_nil; done|by intros * ?%elem_of_nil].
Qed.

(** ** Lemmas on the projection *)

(** The path of an entry below [prefix]. *)
Definition below (prefix p : string) : list FieldPathSegment :=
  field_path_segments (str_drop (String.length prefix) p).

Definition under (prefix : string) (entries : changes_by_path) : changes_by_path :=
  keep (fun e => starts_with prefix e.1) entries.

Definition projection (prefix : string) (entries : changes_by_path)
    : list (list FieldPathSegment * pyval) :=
  (fun e => (below prefix e.1, e.2.2)) <$> under prefix entries.

Definition holds_current (root : pyval) (prefix : string) (e : string * (pyval * pyval)) : Prop :=
  exists v, object_value_at root (below prefix e.1) = Ok v /\ same_scalar v e.2.1 = true.

Lemma project_step_Ok prefix root e root' :
  project_step prefix root e = Ok root' ->
  (starts_with prefix e.1 = false /\ root' = root) \/
  (starts_with prefix e.1 = true /\ below prefix e.1 <> [] /\ holds_current root prefix e /\
   set_object_value root (below prefix e.1) e.2.2 = Ok root').
Proof.
  destruct e as [p [c d]]. cbn. destruct (starts_with prefix p); cbn; [|intros [= <-]; by left].
  intros (_ & Hs%raise_if_Ok & (v & Hv & (_ & Hc%raise_if_Ok & Hw)%bind_Ok)%bind_Ok)%bind_Ok.
  right. apply bool_decide_eq_false in Hs. apply negb_false_iff in Hc. repeat split; [done| |done].
  by exists v.
Qed.

Lemma under_cons prefix e entries :
  under prefix (e :: entries) =
  if starts_with prefix e.1 then e :: under prefix entries else under prefix entries.
Proof. done. Qed.

Lemma fold_projection prefix entries root root' :
  foldr_res (project_step prefix) root entries = Ok root' ->
  set_all root (projection prefix entries) = Ok root'.
Proof.
  revert root. induction entries as [|e entries IH]; intros root; cbn [foldr_res]; [done|].
  intros (r & Hr & Hrest)%bind_Ok. apply IH in Hrest. unfold projection in *. rewrite under_cons.
  destruct (project_step_Ok _ _ _ _ Hr) as [[-> ->]|(-> & _ & _ & Hw)]; [done|]. cbn. by rewrite Hw.
Qed.

Lemma below_inj prefix p q :
  starts_with prefix p = true -> starts_with prefix q = true ->
  below prefix p <> [] -> below prefix p = below prefix q -> p = q.
Proof.
  intros [a ->]%starts_with_spec [b ->]%starts_with_spec. unfold below.
  rewrite !str_drop_app_length. intros Hne E. f_equal. by apply field_path_segments_inj.
Qed.

(** The writes of a projection do not disturb each other, and every one of
    them found its current value in the original document. *)
Lemma projection_independent prefix entries root root' :
  contract_ok entries -> Forall (fun e => keeps_selection (below prefix e.1) = true) entries ->
  foldr_res (project_step prefix) root entries = Ok root' ->
  independent (projection prefix entries).*1 /\
  Forall (fun e => holds_current root prefix e /\ below prefix e.1 <> []) (under prefix entries).
Proof.
  revert root. induction entries as [|e entries IH]; intros root Hok Hk; cbn [foldr_res]; [done|].
  intros (r & Hr & Hrest)%bind_Ok. apply Forall_cons in Hk as [Hk Hks].
  destruct Hok as [[Hnd1 Hnd]%NoDup_cons Hall].
  assert (contract_ok entries) as Hok'.
  { split; [done|]. intros * Hin. eapply Hall. right. exact Hin. }
  destruct (IH r Hok' Hks Hrest) as [Hind Hcur]. unfold projection in *. rewrite under_cons.
  destruct (project_step_Ok _ _ _ _ Hr) as [[-> ->]|(Hp & Hne & Hc & Hw)]; [done|]. rewrite Hp.
  apply set_object_value_writes in Hw.
  destruct e as [p [c d]]. cbn in *. destruct (Hall p c d ltac:(left)) as (_ & Sc & Sd & _).
  assert (forall e', e' ∈ under prefix entries -> diverge (below prefix p) (below prefix e'.1) = true)
    as Hdiv.
  { intros [q [c' d']] Hin. rewrite Forall_forall in Hcur.
    destruct (Hcur _ Hin) as [(w & Hw' & Hs) Hne']. cbn in *.
    apply elem_of_keep in Hin as [Hin Hq]. cbn in Hq.
    destruct (Hall q c' d' ltac:(by right)) as (_ & Sc' & _ & _).
    eapply (scalars_diverge r); [by eapply read_after_write|exact Hw'|done| |].
    - apply same_scalar_type in Hs. congruence.
    - intros E. apply below_inj in E; [|done..]. subst q.
      apply Hnd1. apply (list_elem_of_fmap_2 fst _ _ Hin). }
  split.
  - cbn. split; [done|]. split; [|done].
    apply Forall_forall. rewrite <- list_fmap_compose.
    intros t (e' & -> & Hin)%list_elem_of_fmap. by apply Hdiv.
  - constructor; [done|]. rewrite Forall_forall in Hcur |- *. intros e' Hin.
    destruct (Hcur _ Hin) as [(w & Hw' & Hs) ?]. split; [|done]. exists w. split; [|done].
    rewrite <- Hw'. symmetry. eapply read_other_after_write; [exact Hw|done|by apply Hdiv].
Qed.

(** ** Lemmas on the scope of a change *)

Lemma elem_of_scope approved ps p e :
  (p, e) ∈ scope_of approved ps <-> p ∈ ps /\ dict_get approved p = Some e.
Proof.
  unfold scope_of. rewrite list_elem_of_omap. split.
  - intros (q & Hq & E). destruct (dict_get approved q) as [e'|] eqn:Hg; [|done].
    injection E as -> ->. done.
  - intros [Hp Hg]. exists p. split; [done|]. by rewrite Hg.
Qed.

Lemma scope_contract approved ps :
  contract_ok approved -> NoDup ps -> contract_ok (scope_of approved ps).
Proof.
  intros [_ Hall] Hnd. split.
  - induction Hnd as [|p ps Hp Hnd IH]; [apply NoDup_nil; done|]. cbn.
    destruct (dict_get approved p) as [e|]; cbn; [|done]. apply NoDup_cons. split; [|done].
    intros ([q e'] & E & Hin)%list_elem_of_fmap. cbn in E. subst q.
    apply elem_of_scope in Hin as [? _]. done.
  - intros p c d [_ Hg%dict_get_elem]%elem_of_scope. by apply Hall.
Qed.

Lemma matched_NoDup path approved : NoDup approved.*1 -> NoDup (matched_paths path approved).
Proof.
  unfold matched_paths. generalize (approved.*1). intros l Hnd.
  induction Hnd as [|p l Hp Hnd IH]; cbn; [apply NoDup_nil; done|].
  destruct (_ || _); [|done]. apply NoDup_cons. split; [|done]. by rewrite elem_of_keep; intros [? _].
Qed.

Lemma matched_get path approved p :
  p ∈ matched_paths path approved -> exists c d, dict_get approved p = Some (c, d).
Proof.
  intros [Hin _]%elem_of_keep. apply has_key_elem in Hin. unfold has_key in Hin.
  destruct (dict_get approved p) as [[c d]|]; [eauto|done].
Qed.

(** From [before] to [after], the fields at [paths] below [prefix] go from
    their approved current value to their approved desired value, and every
    path beside them reads the same. *)
Definition moves_exactly (approved : changes_by_path) (prefix : string) (paths : list string)
    (before after : pyval) : Prop :=
  (forall p, p ∈ paths -> starts_with prefix p = true ->
     exists c d v w, dict_get approved p = Some (c, d) /\
       object_value_at before (below prefix p) = Ok v /\ same_scalar v c = true /\
       object_value_at after (below prefix p) = Ok w /\ py_eqb d w = true) /\
  (forall t, (forall p, p ∈ paths -> starts_with prefix p = true ->
                diverge (below prefix p) t = true) ->
     res_equiv (object_value_at before t) (object_value_at after t)).

Lemma projected_moves approved prefix ps before projected after :
  contract_ok approved -> NoDup ps ->
  Forall (fun p => keeps_selection (below prefix p) = true) ps -> unique_keys before = true ->
  (forall p, p ∈ ps -> exists c d, dict_get approved p = Some (c, d)) ->
  foldr_res (project_step prefix) before (scope_of approved ps) = Ok projected ->
  py_eqb projected after = true -> moves_exactly approved prefix ps before after.
Proof.
  intros Hok Hnd Hkeep Hu Hget Hfold Heq.
  pose proof (scope_contract _ _ Hok Hnd) as Hsc.
  assert (Forall (fun e => keeps_selection (below prefix e.1) = true) (scope_of approved ps)) as Hk.
  { apply Forall_forall. intros [p e] [Hp _]%elem_of_scope. rewrite Forall_forall in Hkeep. by apply Hkeep. }
  destruct (projection_independent _ _ _ _ Hsc Hk Hfold) as [Hind Hcur].
  apply fold_projection in Hfold.
  assert (unique_keys projected = true) as Hup.
  { eapply set_all_unique_keys; [exact Hfold| |done]. apply Forall_forall.
    intros w (e & -> & [He _]%elem_of_keep)%list_elem_of_fmap. destruct e as [p [c d]].
    destruct (proj2 Hsc _ _ _ He) as (_ & _ & Sd & _). cbn. by apply scalar_unique_keys. }
  assert (forall e, e ∈ scope_of approved ps -> starts_with prefix e.1 = true ->
            (below prefix e.1, e.2.2) ∈ projection prefix (scope_of approved ps)) as Hproj.
  { intros e He Hst. unfold projection, under.
    apply (list_elem_of_fmap_2 (fun e => (below prefix e.1, e.2.2))), elem_of_keep. done. }
  split.
  - intros p Hp Hst. destruct (Hget p Hp) as (c & d & Hg). exists c, d.
    assert ((p, (c, d)) ∈ scope_of approved ps) as Hin by (by apply elem_of_scope).
    assert ((p, (c, d)) ∈ under prefix (scope_of approved ps)) as Hin' by (by apply elem_of_keep).
    rewrite Forall_forall in Hcur. destruct (Hcur _ Hin') as [(v & Hv & Hs) _].
    pose proof (set_all_read _ _ _ _ _ Hfold Hind (Hproj _ Hin Hst)) as Hr. cbn in Hr.
    pose proof (read_equiv _ _ (below prefix p) Heq Hup) as Hre. rewrite Hr in Hre.
    destruct (object_value_at after (below prefix p)) as [w|]; [|done]. by exists v, w.
  - intros t Ht. rewrite <- (set_all_frame _ _ _ t Hfold Hind).
    + by apply read_equiv.
    + apply Forall_forall. unfold projection. rewrite <- list_fmap_compose.
      intros u ([p e] & -> & [[Hin _]%elem_of_scope Hst]%elem_of_keep)%list_elem_of_fmap. by apply Ht.
Qed.

(** The projection of an object onto the approved values is the move, in
    whatever order the set of paths is visited. *)
Lemma parent_moves approved path source projected target :
  (forall l, order l ≡ₚ l) -> contract_ok approved -> unique_keys source = true ->
  Forall (fun p => keeps_selection (below (path +:+ ".") p) = true) (matched_paths path approved) ->
  projected_parent_value source path (scope_of approved (order (matched_paths path approved))) = Ok projected ->
  py_eqb projected target = true ->
  moves_exactly approved (path +:+ ".") (matched_paths path approved) source target.
Proof.
  intros Horder Hok Hu Hkeep Hp Heq. unfold projected_parent_value in Hp.
  destruct source as [| | | | | | |b]; try done.
  pose proof (matched_NoDup path approved (proj1 Hok)) as Hnd. pose proof (Horder (matched_paths path approved)) as HP.
  assert (moves_exactly approved (path +:+ ".") (order (matched_paths path approved)) (VDict b) target) as [H1 H2].
  { eapply projected_moves; [done|by rewrite HP|by rewrite HP|done| |exact Hp|done]. intros p. rewrite HP. apply matched_get. }
  split; [intros p Hin; apply H1; by rewrite HP|].
  intros t Ht. apply H2. intros p Hin. apply Ht. by rewrite <- HP.
Qed.

(** A change of the diff stays within the approved values [approved] and is
    about the approved fields [matched], those at or below its own path.  It
    is one approved field: of what was desired before and what is live, the
    intended change goes from the approved current to the approved desired
    value, and the one that has taken place already has the desired value.  Or
    it is an object: then exactly the approved fields below it move, and every
    other path reads as before. *)
Definition stays_within (approved : changes_by_path) (change : dict) (matched : list string) : Prop :=
  let path := text (get change "field_path") in
  let classification := text (get change "classification") in
  let old := get change "old_desired" in
  let before := get change "before" in
  let after := get change "after" in
  let exact from to := unique_keys from = true ->
    Forall (fun p => keeps_selection (below (path +:+ ".") p) = true) matched ->
    moves_exactly approved (path +:+ ".") matched from to in
  (forall p, p ∈ matched <-> p ∈ approved.*1 /\ (p = path \/ starts_with (path +:+ ".") p = true)) /\
  ((matched = [] /\ classification = "already_converged") \/
   (exists c d, matched = [path] /\ dict_get approved path = Some (c, d) /\
      same_scalar old c = true /\ same_scalar after d = true /\
      ((classification = "intended_change" /\ same_scalar before c = true) \/
       (classification = "already_converged" /\ same_scalar before d = true))) \/
   (classification = "intended_change" /\ py_eqb old before = true /\ exact before after) \/
   (classification = "already_converged" /\ py_eqb before after = true /\ exact old before)).

Lemma parent_valid_within approved change path classification :
  (forall l, order l ≡ₚ l) -> contract_ok approved ->
  classification ∈ [INTENDED_CHANGE; ALREADY_CONVERGED] ->
  or_invalid (parent_change_valid classification change path (scope_of approved (order (matched_paths path approved)))) = Ok true ->
  let exact from to := unique_keys from = true ->
    Forall (fun p => keeps_selection (below (path +:+ ".") p) = true) (matched_paths path approved) ->
    moves_exactly approved (path +:+ ".") (matched_paths path approved) from to in
  (classification = "intended_change" /\ py_eqb (get change "old_desired") (get change "before") = true /\
     exact (get change "before") (get change "after")) \/
  (classification = "already_converged" /\ py_eqb (get change "before") (get change "after") = true /\
     exact (get change "old_desired") (get change "before")).
Proof.
  intros Horder Hok Hcl Hv exact. unfold or_invalid in Hv.
  destruct (parent_change_valid _ _ _ _) as [b|e] eqn:E; [injection Hv as ->|by destruct e].
  unfold parent_change_valid in E. apply elem_of_cons in Hcl as [->|Hcl%list_elem_of_singleton]; [|subst classification].
  - left. rewrite str_eqb_refl in E. apply and_res_true in E as [Hob (projected & Hp & [= Heq])%bind_Ok].
    split_and!; [done..|]. intros Hu Hk. by eapply parent_moves.
  - right. change (str_eqb ALREADY_CONVERGED INTENDED_CHANGE) with false in E. cbn beta iota in E.
    apply bind_Ok in E as (projected & Hp & [= [Heq Hba]%andb_true_iff]).
    split_and!; [done..|]. intros Hu Hk. by eapply parent_moves.
Qed.

Lemma accepted_stays_within approved change matched :
  (forall l, order l ≡ₚ l) -> contract_ok approved ->
  approved_change_matches_diff change approved = Ok (Some matched) -> stays_within approved change matched.
Proof.
  intros Horder Hok Hm. unfold approved_change_matches_diff in Hm. unfold stays_within. cbv zeta.
  set (path := text (get change "field_path")) in *. set (cl := text (get change "classification")) in *.
  assert (matched = matched_paths path approved ->
    forall p, p ∈ matched <-> p ∈ approved.*1 /\ (p = path \/ starts_with (path +:+ ".") p = true)) as Hmem.
  { intros -> p. unfold matched_paths. by rewrite elem_of_keep, orb_true_iff, str_eqb_eq. }
  case_bool_decide as Em.
  { destruct (str_eqb cl ALREADY_CONVERGED) eqn:Ec; [|done]. apply str_eqb_eq in Ec. injection Hm as <-.
    split; [apply Hmem; congruence|by left]. }
  destruct (bool_decide (cl ∈ _)) eqn:Ec; cbn [negb] in Hm; [|done]. apply bool_decide_eq_true in Ec. case_bool_decide as Ep.
  - destruct (dict_get approved path) as [[c d]|]; [|done]. destruct (exact_change_valid _ _ _ _) eqn:Ev; [|done].
    injection Hm as <-. split; [by apply Hmem|]. right. left. exists c, d. unfold exact_change_valid in Ev.
    apply elem_of_cons in Ec as [Ec|Ec%list_elem_of_singleton]; rewrite Ec in Ev |- *;
      [rewrite str_eqb_refl in Ev|change (str_eqb ALREADY_CONVERGED INTENDED_CHANGE) with false in Ev];
      apply andb_true_iff in Ev as [[? ?]%andb_true_iff ?]; split_and!; try done; [by left|by right].
  - apply bind_Ok in Hm as (valid & Hv & Hm). destruct valid; [|done]. injection Hm as <-.
    split; [by apply Hmem|]. right. right. by apply parent_valid_within.
Qed.

(** ** Lemmas on the errors *)

Definition caught (e : exn) : Prop := e = KeyError \/ e = TypeError \/ is_patch_error e = true.

Lemma project_errors prefix entries root e :
  foldr_res (project_step prefix) root entries = Err e -> caught e.
Proof.
  revert root. induction entries as [|[p [c d]] entries IH]; intros root; cbn [foldr_res]; [done|].
  intros [Hs|(r & _ & Hr)]%bind_Err; [|eauto]. unfold caught. cbn in Hs.
  destruct (starts_with prefix p); [|done]. cbn in Hs. unfold raise_if in Hs.
  destruct (bool_decide _) eqn:Eb; cbn in Hs; [injection Hs as <-; tauto|].
  destruct (object_value_at _ _) as [v|e'] eqn:Ev; cbn in Hs.
  - destruct (same_scalar v c); cbn in Hs; [|injection Hs as <-; tauto].
    apply bool_decide_eq_false in Eb. by eapply set_object_value_errors.
  - injection Hs as <-. apply object_value_at_errors in Ev. tauto.
Qed.

Lemma projected_errors source parent approved e :
  projected_parent_value source parent approved = Err e -> caught e.
Proof.
  unfold projected_parent_value. destruct source; try (intros [= <-]; unfold caught; tauto).
  apply project_errors.
Qed.

Lemma or_invalid_total m : (forall e, m = Err e -> caught e) -> is_ok (or_invalid m) = true.
Proof.
  destruct m as [b|e]; [done|]. intros Hc.
  destruct (Hc e eq_refl) as [->|[->|Hp]]; [done..|]. by destruct e.
Qed.

Lemma matches_total change approved :
  is_ok (approved_change_matches_diff change approved) = true.
Proof.
  unfold approved_change_matches_diff. case_bool_decide as Em; [done|].
  destruct (negb _); [done|]. case_bool_decide as Ep.
  - destruct (matched_get (text (get change "field_path")) approved (text (get change "field_path")))
      as (c & d & ->); [rewrite Ep; set_solver|done].
  - match goal with |- context [or_invalid ?m] => pose proof (or_invalid_total m) as Ho end.
    destruct (or_invalid _); [done|]. cbn in Ho. exfalso. enough (false = true) by done. apply Ho. clear.
    intros e He. unfold parent_change_valid in He. destruct (str_eqb _ _).
    + unfold and_res in He. destruct (py_eqb _ _); [|done].
      apply bind_Err in He as [He|(? & _ & ?)]; [by eapply projected_errors|done].
    + apply bind_Err in He as [He|(? & _ & ?)]; [by eapply projected_errors|done].
Qed.

Lemma match_changes_total approved raws covered intended :
  is_ok (match_changes approved raws covered intended) = true.
Proof.
  revert covered intended. induction raws as [|raw raws IH]; intros covered intended; [done|].
  destruct raw; try done. cbn [match_changes]. pose proof (matches_total d approved) as Ht.
  destruct (approved_change_matches_diff d approved) as [[m|]|]; cbn; [apply IH|done|done].
Qed.

Lemma scope_total payload diff : is_ok (recovery_diff_matches_approved_scope payload diff) = true.
Proof.
  unfold recovery_diff_matches_approved_scope. destruct (approved_change_contract payload) as [approved|]; [|done].
  destruct (negb _); [done|]. destruct (negb _); [done|]. destruct (negb _); [done|].
  pose proof (match_changes_total approved (changes diff) [] 0) as Ht.
  by destruct (match_changes approved (changes diff) [] 0).
Qed.

(** ** The scope of a diff *)

(** A change the check accepts. *)
Definition accepted (approved : changes_by_path) (raw : pyval) (matched : list string) : Prop :=
  exists change, raw = VDict change /\
    approved_change_matches_diff change approved = Ok (Some matched).

Lemma match_changes_spec approved raws covered intended covered' intended' :
  match_changes approved raws covered intended = Ok (Some (covered', intended')) ->
  (forall raw, raw ∈ raws -> exists matched, accepted approved raw matched) /\
  (forall p, p ∈ covered' ->
     p ∈ covered \/ exists raw matched, raw ∈ raws /\ accepted approved raw matched /\ p ∈ matched) /\
  (intended < intended' -> exists change matched, VDict change ∈ raws /\
     accepted approved (VDict change) matched /\ matched <> [] /\
     text (get change "classification") = INTENDED_CHANGE).
Proof.
  revert covered intended. induction raws as [|raw raws IH]; intros covered intended.
  - cbn. intros [= <- <-]. repeat split; [by intros ? ?%elem_of_nil|auto|lia].
  - destruct raw as [| | | | | | |change]; try done. cbn [match_changes].
    intros ([matched|] & Hm & Hrest)%bind_Ok; [|done].
    assert (accepted approved (VDict change) matched) as Hacc by (by exists change).
    apply IH in Hrest as (H1 & H2 & H3). repeat split.
    + intros raw [->|Hin]%elem_of_cons; [eauto|by apply H1].
    + intros p Hp. destruct (H2 p Hp) as [[?|?]%elem_of_app|(raw & m & ? & ? & ?)]; [by left| |];
        right; [exists (VDict change), matched|exists raw, m]; set_solver.
    + intros Hlt. destruct (negb _ && _) eqn:E in H3.
      * apply andb_true_iff in E as [Hne%negb_true_iff%bool_decide_eq_false Hc%str_eqb_eq].
        exists change, matched. repeat split; [set_solver|done..].
      * destruct (H3 Hlt) as (ch & m & ? & ? & ? & ?). exists ch, m. repeat split; [set_solver|done..].
Qed.

Lemma same_set_spec a b : same_set a b = true <-> forall x, x ∈ a <-> x ∈ b.
Proof.
  unfold same_set. rewrite andb_true_iff, !forallb_elem. setoid_rewrite bool_decide_eq_true.
  naive_solver.
Qed.

(** The approved values are those that the plan lists. *)
Lemma approve_listed items approved approved' :
  fold_left approve_change items (Some approved) = Some approved' ->
  forall p c d, (p, (c, d)) ∈ approved' -> (p, (c, d)) ∈ approved \/
    exists item, VDict item ∈ items /\ p = text (get item "field_path") /\ c = get item "current_value" /\
      d = get item "desired_value".
Proof.
  revert approved. induction items as [|item items IH]; intros approved; cbn [fold_left]; [intros [= <-]; auto|].
  destruct (approve_change (Some approved) item) as [a|] eqn:E; [|by rewrite approve_none].
  intros H' p c d Hin. destruct (IH _ H' p c d Hin) as [Ha|(i & Hi & Hp)]; [|right; exists i; set_solver].
  destruct item as [| | | | | | |x]; try done. cbn [approve_change] in E.
  destruct (is_empty _) eqn:E1; [done|]. destruct (has_key approved _) eqn:E2; [done|]. cbn [orb] in E.
  destruct (_ || _); [done|]. injection E as <-.
  assert (text (get x "field_path") ∉ approved.*1) as Hfresh by (rewrite <- has_key_elem, E2; done).
  rewrite dict_set_fresh in Ha by done. apply elem_of_app in Ha as [Ha|[= -> -> ->]%list_elem_of_singleton]; [by left|].
  right. exists x. set_solver.
Qed.

Lemma contract_listed payload approved :
  approved_change_contract payload = Some approved ->
  exists items, get (mapping (get (mapping (get payload "lifecycle")) "authorization")) "changes" = VList items /\
    length items = length approved /\
    forall p c d, (p, (c, d)) ∈ approved -> exists item, VDict item ∈ items /\ p = text (get item "field_path") /\
      c = get item "current_value" /\ d = get item "desired_value".
Proof.
  unfold approved_change_contract. destruct (get _ "changes") as [| | | | | |items|]; try done.
  destruct (_ && _); [|done]. intros H'. exists items. split; [done|]. split.
  - apply approve_all in H' as [_ Hl]; [cbn in Hl; lia|]. split; [constructor|]. by intros ? ? ? ?%not_elem_of_nil.
  - intros p c d Hin. by destruct (approve_listed _ _ _ H' p c d Hin) as [?%not_elem_of_nil|].
Qed.

Lemma partition_found c s l r : partition_char c s = (l, true, r) -> s = l +:+ String c r.
Proof.
  revert l. induction s as [|a s IH]; intros l; cbn; [done|]. case_bool_decide as E.
  - intros [= <- <-]. by rewrite E.
  - destruct (partition_char c s) as [[l' f] r']. intros [= <- -> ->]. cbn. f_equal. by apply IH.
Qed.

(** The diff is about the approved workload: the resource it names, its
    namespace and the desired manifest. *)
Definition about_target (target : dict) (diff : Diff) : Prop :=
  let ns := text (get target "namespace") in
  let kind := text (get target "resource_kind") in
  let name := text (get target "resource_name") in
  let metadata := mapping (get (desired_manifest diff) "metadata") in
  ns <> "" /\ kind <> "" /\ name <> "" /\ namespace diff = ns /\
  (exists diff_kind, strip (resource diff) = diff_kind +:+ "/" +:+ name /\ casefold diff_kind = casefold kind) /\
  casefold (text (get (desired_manifest diff) "kind")) = casefold kind /\
  text (get metadata "name") = name /\
  (text (get metadata "namespace") = "" \/ text (get metadata "namespace") = ns).

Lemma target_matches_about target diff : target_matches target diff = true -> about_target target diff.
Proof.
  unfold target_matches, about_target. cbv zeta.
  destruct (partition_char "/" (strip (resource diff))) as [[k sep] n] eqn:Ep.
  rewrite !andb_true_iff, orb_true_iff, !str_eqb_eq. unfold nonempty. rewrite !negb_true_iff.
  intros (((((((Hns & Hk) & Hn) & Hnsd) & ->) & Hkind) & Hname) & ((Hmk & Hmn) & Hmns)).
  apply partition_found in Ep. rewrite Hname in Ep. cbn [String.append].
  split_and!; try done; try by (intros E0; rewrite E0 in *). 
  - by exists k.
  - destruct Hmns as [Hmns|?]; [left; by destruct (text (get (mapping _) "namespace"))|by right].
Qed.

(** C26: a deployment stays within the approval.  If the check says that the
    diff is in scope, then the plan lists one to four changes of scalar
    fields with distinct paths; the diff is about the workload that was
    approved, by namespace, kind and name, and so is its desired manifest,
    which holds every approved value; and, where the diff has changes, each of
    them only does what was approved: it moves approved fields from their
    approved current to their approved desired value and nothing else, or has
    taken place already; every approved field is in one of them, and at least
    one is intended.  For a change given as a whole object this supposes
    objects without repeated keys, and approved paths that do not alter the
    entries they select by. *)
Theorem in_scope_diff_is_approved payload diff :
  (forall l, order l ≡ₚ l) ->
  recovery_diff_matches_approved_scope payload diff = Ok true ->
  let authorization := mapping (get (mapping (get payload "lifecycle")) "authorization") in
  exists items approved,
    get authorization "changes" = VList items /\ (1 <= length items <= 4)%nat /\ length items = length approved /\
    NoDup approved.*1 /\
    (forall p c d, (p, (c, d)) ∈ approved ->
       (exists item, VDict item ∈ items /\ p = text (get item "field_path") /\ c = get item "current_value" /\
          d = get item "desired_value") /\
       scalar_value c = true /\ scalar_value d = true /\ same_scalar c d = false /\
       exists v, object_value_at (VDict (desired_manifest diff)) (field_path_segments p) = Ok v /\ same_scalar v d = true) /\
    about_target (mapping (get authorization "target")) diff /\
    (has_changes diff = false -> forall raw, raw ∈ changes diff ->
       exists change, raw = VDict change /\ text (get change "classification") = "already_converged") /\
    (has_changes diff = true ->
       (forall raw, raw ∈ changes diff -> exists change matched, raw = VDict change /\ stays_within approved change matched) /\
       (forall p, p ∈ approved.*1 -> exists change matched,
          VDict change ∈ changes diff /\ stays_within approved change matched /\ p ∈ matched) /\
       exists change matched, VDict change ∈ changes diff /\ stays_within approved change matched /\ matched <> [] /\
         text (get change "classification") = "intended_change").
Proof.
  intros Horder. unfold recovery_diff_matches_approved_scope.
  destruct (approved_change_contract payload) as [approved|] eqn:Ha; [|done].
  destruct (target_matches _ diff) eqn:Ht; cbn [negb]; [|done]. apply target_matches_about in Ht.
  destruct (forallb _ approved) eqn:Hd; cbn [negb]; [|done]. intros Hs. cbv zeta.
  destruct (contract_of_payload _ _ Ha) as [Hok Hlen]. destruct (contract_listed _ _ Ha) as (items & Hi & Hl & Hlist).
  assert (forall raw matched, accepted approved raw matched ->
    exists change, raw = VDict change /\ stays_within approved change matched) as Hin
    by (intros raw matched (change & -> & Hm); exists change; split; [done|by apply accepted_stays_within]).
  exists items, approved. split_and!; [done|lia|lia|done|apply Hok| |done| |].
  - intros p c d Hpin. split; [by apply Hlist|]. destruct (proj2 Hok p c d Hpin) as (_ & ? & ? & ?). split_and!; [done..|].
    rewrite forallb_elem in Hd. specialize (Hd _ Hpin). unfold desired_value_holds in Hd. cbn in Hd.
    destruct (object_value_at _ _) as [v|]; [eauto|done].
  - intros Hc. rewrite Hc in Hs. cbn [negb] in Hs. injection Hs as Hs. apply andb_true_iff in Hs as [_ Hs].
    rewrite forallb_elem in Hs. intros raw Hraw%Hs. destruct raw as [| | | | | | |x]; try done. exists x. split; [done|].
    by apply str_eqb_eq in Hraw.
  - intros Hc. rewrite Hc in Hs. cbn [negb] in Hs. apply bind_Ok in Hs as ([[covered intended]|] & Hm & Hs); [|done].
    apply match_changes_spec in Hm as (H1 & H2 & H3).
    injection Hs as Hs. apply andb_true_iff in Hs as [Hint%Z.ltb_lt Hset]. rewrite same_set_spec in Hset. split_and!.
    + intros raw Hraw. destruct (H1 raw Hraw) as [matched (change & -> & Hst)%Hin]. eauto.
    + intros p Hp. apply Hset, H2 in Hp as [?%elem_of_nil|(raw & m & Hraw & (change & -> & Hst)%Hin & Hpm)]; [done|eauto].
    + destruct (H3 Hint) as (change & m & Hraw & (x & [= <-] & Hst)%Hin & Hne & Hcl). eauto 6.
Qed.

(** the check always answers: whatever the stored plan, the diff and the
    stored request look like, it returns a verdict and raises nothing; a diff
    it does not track is never authorised. *)
Theorem merge_authorization_total db db' diff :
  exists a, recovery_merge_authorization db db' diff = Ok a /\
    (tracked a = false -> request a = None).
Proof.
  unfold recovery_merge_authorization.
  destruct (get_recovery_plan_for_workflow db) as [reader|]; [|by eexists].
  destruct (reader _ _ _ _) as [| | | | | | |first]; try (by eexists).
  assert (exists r, exact_merged_recovery_request db' diff = Ok r) as [r ->]; [|by eexists].
  unfold exact_merged_recovery_request.
  destruct (get_recovery_plan_for_workflow db') as [reader'|]; [|by eexists].
  destruct (get_workflow_run db') as [wf|]; [|by eexists].
  destruct (reader' _ _ _ _) as [| | | | | | |record]; try (by eexists).
  destruct (negb _); [by eexists|].
  pose proof (scope_total (mapping (get record "payload")) diff) as Ht.
  destruct (recovery_diff_matches_approved_scope _ diff) as [b|]; [|done]. cbn [mbind res_bind].
  destruct (negb b); [by eexists|].
  pose proof (fun e => decode_errors true (Body EventBodies.GitWebhookReceivedBody)
    (cls_name EventBodies.GitWebhookReceivedBody) "" (VDict (mapping (get (mapping (get (mapping
      (get (mapping (get record "payload")) "lifecycle")) "merge")) "deployment_request"))) e) as He.
  unfold from_body. destruct (decode_value _ _ _ _ _) as [req|e].
  - destruct (wf _); try (by eexists). destruct (_ || _); by eexists.
  - destruct (He e eq_refl) as [Hd| ->]; [destruct e; try done|]; by eexists.
Qed.

(** The route that the planner gives to its plans is not the one this function
    asks for, so no such plan is ever authorised. *)
Lemma draft_pr_plan_is_never_authorised db diff reader record :
  get_recovery_plan_for_workflow db = Some reader ->
  reader (workspace_id diff) (workflow_run_id diff) (binding_id diff) (application_id diff) = VDict record ->
  get (mapping (get record "payload")) "execution_route" = VStr "draft_pr" ->
  exact_merged_recovery_request db diff = Ok None.
Proof.
  intros Hr Hrec Hroute. unfold exact_merged_recovery_request. rewrite Hr, Hrec.
  destruct (get_workflow_run db); [|done]. unfold plan_ready. rewrite Hroute.
  change (str_eqb (text (VStr "draft_pr")) RECOVERY_SAFE_PR_ROUTE) with false.
  by rewrite andb_false_r.
Qed.

(** an authorised request is the one the reviewed merge stored, for this
    very diff: the plan waits for its deployment, the diff is in the approved
    scope, the request decodes to a forced deployment of a positive replica
    count, the approved one where replicas were approved, and plan, pull
    request, merge, workflow and diff agree on every identity with it. *)
Theorem authorized_request_agrees db diff request :
  exact_merged_recovery_request db diff = Ok (Some request) ->
  exists plan_reader workflow_reader record workflow,
    get_recovery_plan_for_workflow db = Some plan_reader /\
    get_workflow_run db = Some workflow_reader /\
    plan_reader (workspace_id diff) (workflow_run_id diff) (binding_id diff) (application_id diff)
      = VDict record /\
    workflow_reader (workflow_run_id diff) = VDict workflow /\
    let payload := mapping (get record "payload") in
    let lifecycle := mapping (get payload "lifecycle") in
    let pr := mapping (get lifecycle "pr") in
    let merge := mapping (get lifecycle "merge") in
    text (get record "status") = RECOVERY_DEPLOY_PENDING /\
    recovery_diff_matches_approved_scope payload diff = Ok true /\
    from_body EventBodies.GitWebhookReceivedBody true
      (VDict (mapping (get merge "deployment_request"))) = Ok request /\
    typed (Body EventBodies.GitWebhookReceivedBody) request /\
    attribute request "force" = OBool true /\
    (exists n, attribute request "replicas" = OInt n /\ 0 < n /\
       forall a, approved_replica_count payload = Some a -> n = a) /\
    text (get workflow "status") ∈ LIVE_WORKFLOW_STATUSES /\
    (forall pair, pair ∈ expected_pairs diff record pr merge workflow request ->
       pair.1 <> "" /\ pair.1 = pair.2).
Proof.
  unfold exact_merged_recovery_request.
  destruct (get_recovery_plan_for_workflow db) as [pr_|]; [|done].
  destruct (get_workflow_run db) as [wr|]; [|done].
  destruct (pr_ _ _ _ _) as [| | | | | | |record] eqn:Er; try done.
  destruct (plan_ready _ _ _) eqn:Hready; cbn [negb]; [|done].
  intros (b & Hs & H')%bind_Ok. destruct b; cbn [negb] in H'; [|done].
  destruct (from_body _ _ _) as [req|e] eqn:Hb; [|destruct e; done].
  destruct (wr _) as [| | | | | | |workflow] eqn:Ew; try done.
  destruct (_ || _) eqn:E; [done|]. injection H' as ->.
  apply orb_false_iff in E as [E Hpairs%negb_false_iff].
  apply orb_false_iff in E as [E Hlive%negb_false_iff%bool_decide_eq_true].
  apply orb_false_iff in E as [E _]. apply orb_false_iff in E as [E _].
  apply orb_false_iff in E as [Huse%negb_false_iff _].
  apply andb_true_iff in Huse as [[Hforce _]%andb_true_iff Hrep].
  exists pr_, wr, record, workflow. cbn zeta. split; [done|]. split; [done|].
  split; [done|]. split; [done|]. split.
  { apply andb_true_iff in Hready as [[[?%str_eqb_eq _]%andb_true_iff _]%andb_true_iff _]. done. }
  split; [done|]. split; [done|]. split.
  { eapply decode_typed; [|exact Hb]. vm_compute. reflexivity. }
  split; [by destruct (attribute request "force") as [|[]| | | | | | |]|]. split.
  { destruct (attribute request "replicas") as [| |n| | | | | |]; try done. exists n.
    apply andb_true_iff in Hrep as [?%Z.ltb_lt Ha]. split; [done|]. split; [done|].
    intros a Hr. rewrite Hr in Ha. by apply Z.eqb_eq. }
  split; [done|]. intros pair Hin. rewrite forallb_elem in Hpairs.
  specialize (Hpairs _ Hin). apply andb_true_iff in Hpairs as [Hne ?%str_eqb_eq].
  split; [|done]. intros E. by rewrite E in Hne.
Qed.

End merge.

(** ** Samples: a merged recovery that raises replicas and rolls an image back *)

Module Sample.

Definition spec (replicas : Z) (image : string) : pyval :=
  VDict [("replicas", VInt replicas);
         ("paused", VBool false);
         ("template", VDict [("spec", VDict [("containers", VList
           [VDict [("name", VStr "app"); ("image", VStr image)]])])])].

Definition approved_changes : pyval :=
  VList [VDict [("field_path", VStr "spec.replicas"); ("current_value", VInt 2);
                ("desired_value", VInt 3)];
         VDict [("field_path", VStr "spec.template.spec.containers[name=app].image");
                ("current_value", VStr "app:2"); ("desired_value", VStr "app:1")]].

Definition change : dict :=
  [("field_path", VStr "spec"); ("classification", VStr "intended_change");
   ("old_desired", spec 2 "app:2"); ("before", spec 2 "app:2"); ("after", spec 3 "app:1")].

Definition diff : Diff :=
  {| resource := "Deployment/web"; namespace := "prod"; workspace_id := "w"; repository_id := "r";
     binding_id := "b"; application_id := "a"; workflow_run_id := "run"; environment := "production";
     cluster_id := "c"; manifest_path := "deploy.yaml";
     desired_manifest := [("kind", VStr "Deployment");
       ("metadata", VDict [("name", VStr "web"); ("namespace", VStr "prod")]);
       ("spec", spec 3 "app:1")];
     diff_status := "changed"; has_changes := true; changes := [VDict change] |}.

Definition request : dict :=
  [("commit_sha", VStr "abc"); ("image", VStr "app:1"); ("replicas", VInt 3);
   ("correlation_id", VStr "flow"); ("workspace_id", VStr "w"); ("repository_id", VStr "r");
   ("repo_ref", VStr "org/repo"); ("branch", VStr "main"); ("binding_id", VStr "b");
   ("application_id", VStr "a"); ("workflow_run_id", VStr "run");
   ("environment", VStr "production"); ("cluster_id", VStr "c");
   ("manifest_path", VStr "deploy.yaml"); ("force", VBool true)].

Definition identities : dict :=
  [("workflow_run_id", VStr "run"); ("repository_id", VStr "r"); ("repo_ref", VStr "Org/Repo");
   ("binding_id", VStr "b"); ("application_id", VStr "a"); ("environment", VStr "production");
   ("cluster_id", VStr "c"); ("manifest_path", VStr "deploy.yaml"); ("workspace_id", VStr "w");
   ("base_branch", VStr "main"); ("commit_sha", VStr "abc"); ("head_sha", VStr "def")].

Definition payload : dict :=
  [("execution_route", VStr "safe_pr");
   ("lifecycle", VDict
     [("phase", VStr "deploy_pending");
      ("authorization", VDict
        [("changes", approved_changes);
         ("target", VDict [("namespace", VStr "prod"); ("resource_kind", VStr "deployment");
                           ("resource_name", VStr "web")])]);
      ("pr", VDict (("url", VStr "https://pr/1") :: identities));
      ("merge", VDict (("pr_url", VStr "https://pr/1") :: ("merge_commit_sha", VStr "abc")
                       :: ("deployment_request", VDict request) :: identities))])].

Definition record : dict :=
  [("status", VStr "deploy_pending"); ("selected_action_id", VStr "act");
   ("workspace_id", VStr "w"); ("correlation_id", VStr "flow"); ("payload", VDict payload)].

Definition readers : db_readers :=
  {| get_recovery_plan_for_workflow := Some (fun _ _ _ _ => VDict record);
     get_workflow_run := Some (fun _ => VDict (("status", VStr "diffing") :: identities)) |}.

(** Text of the values that the sample does not contain. *)
Definition repr : ReprLib := {| repr_other := fun _ => "" |}.

Definition approved : list (string * (pyval * pyval)) :=
  default [] (@approved_change_contract repr payload).
Definition matched : list string := approved.*1.
Definition authorized : obj :=
  match @exact_merged_recovery_request repr (@rev string) readers diff with
  | Ok (Some r) => r | _ => ONone end.

End Sample.

Lemma in_scope_diff_is_approved_witness :
  exists approved change matched, VDict change ∈ changes Sample.diff /\
    @stays_within Sample.repr approved change matched /\ @text Sample.repr (get change "classification") = "intended_change".
Proof.
  destruct (@in_scope_diff_is_approved Sample.repr (@rev string) Sample.payload Sample.diff)
    as (items & approved & _ & _ & _ & _ & _ & _ & _ & Hch).
  - intros l. symmetry. apply Permutation_rev.
  - vm_compute. reflexivity.
  - destruct (Hch eq_refl) as (_ & _ & change & matched & Hin & Hst & _ & Hcl). exists approved, change, matched.
    split; [exact Hin|]. split; [exact Hst|exact Hcl].
Defined.

Lemma authorized_request_agrees_witness :
  attribute Sample.authorized "replicas" = OInt 3 /\
  typed (Body EventBodies.GitWebhookReceivedBody) Sample.authorized.
Proof.
  split; [vm_compute; reflexivity|].
  destruct (@authorized_request_agrees Sample.repr (@rev string) Sample.readers Sample.diff Sample.authorized)
    as (pr & wr & r & w & _ & _ & _ & _ & _ & _ & _ & H & _); [vm_compute; reflexivity|exact H].
Defined.

End RecoveryMerge.
