(* ===== verification/WorkloadTarget.v ===== *)
(** * Promoting an observed resource to the workload that owns it

    [src/src/services/ai/agent/workload_target.py]: an incident is observed on
    a Pod or a ReplicaSet, a repository manages the Deployment.  The target is
    promoted only when exactly one workload snapshot says that it owns the
    resource, or when the plan carries such a resolution along. *)
From S2P Require Import Prelude PyStr PyFloat PyVal.

Module WorkloadTarget.

Definition AUTHORITY_TARGET_KEY : string := "gitops_target".
Definition ORIGINAL_TARGET_KEY : string := "original_target".
Definition TARGET_RESOLUTION_KEY : string := "gitops_target_resolution".
Definition WORKLOAD_SNAPSHOT_SOURCE : string := "metadata:current_workload_snapshots".
Definition CONTROLLER_RESOLUTION_KINDS : list string := ["pod"; "replicaset"].

Record WorkloadTarget := Target {
  namespace : string;
  resource_kind : string;
  resource_name : string;
  original_namespace : string;
  original_resource_kind : string;
  original_resource_name : string;
  resolution_source : string;
}.

#[global] Instance WorkloadTarget_eq_dec : EqDecision WorkloadTarget.
Proof. solve_decision. Defined.

Definition resolved (t : WorkloadTarget) : bool := nonempty (resolution_source t).

Definition identity (t : WorkloadTarget) : dict :=
  [("namespace", VStr (namespace t)); ("resource_kind", VStr (resource_kind t));
   ("resource_name", VStr (resource_name t))].

Definition original_identity (t : WorkloadTarget) : dict :=
  [("namespace", VStr (original_namespace t)); ("resource_kind", VStr (original_resource_kind t));
   ("resource_name", VStr (original_resource_name t))].

Definition resolution_metadata (t : WorkloadTarget) : dict :=
  if negb (resolved t) then []
  else [(AUTHORITY_TARGET_KEY, VDict (identity t)); (ORIGINAL_TARGET_KEY, VDict (original_identity t));
        (TARGET_RESOLUTION_KEY, VStr (resolution_source t))].

Definition normalized_text (v : pyval) : string := match v with VStr s => strip s | _ => "" end.

(** The resource itself, not promoted. *)
Definition observed (ns kind name : string) : WorkloadTarget := Target ns kind name ns kind name "".

Definition promoted (original : WorkloadTarget) (ns name : string) : WorkloadTarget :=
  Target ns "Deployment" name (namespace original) (resource_kind original) (resource_name original)
    WORKLOAD_SNAPSHOT_SOURCE.

Definition promotable (t : WorkloadTarget) : bool :=
  bool_decide (casefold (resource_kind t) ∈ CONTROLLER_RESOLUTION_KINDS).

(** [raw if isinstance(raw, list) else other] *)
Definition or_list (raw other : pyval) : pyval := if is_list raw then raw else other.

Definition workload_snapshots (metadata : pyval) : list dict :=
  match metadata with
  | VDict m =>
      let raw := get m "current_workload_snapshots" in
      let raw := or_list raw (match get m "change_context" with
                              | VDict c => get c "current_workload_snapshots"
                              | _ => raw
                              end) in
      let raw := or_list raw (get m "items") in
      let raw := or_list raw (get m "workloads") in
      match raw with VList l => omap as_dict l | _ => [] end
  | _ => []
  end.

Definition ownership_key (kind : string) : string :=
  if str_eqb (casefold kind) "replicaset" then "replicaset_revisions" else "pod_statuses".

Definition names_resource (name : string) (item : pyval) : bool :=
  match item with VDict d => str_eqb (normalized_text (get d "name")) name | _ => false end.

Definition deployment_owner_from_snapshot (snapshot : dict) (ns kind name : string)
    : option (string * string) :=
  match get snapshot "workload" with
  | VDict workload =>
      let workload_kind := normalized_text (get workload "kind") in
      let workload_namespace := normalized_text (get workload "namespace") in
      let workload_name := normalized_text (get workload "name") in
      if negb (str_eqb (casefold workload_kind) "deployment")
         || negb (str_eqb workload_namespace ns) || is_empty workload_name
      then None
      else
        match get snapshot (ownership_key kind) with
        | VList owned =>
            match the_one (keep (names_resource name) owned) with
            | Some _ => Some (workload_namespace, workload_name)
            | None => None
            end
        | _ => None
        end
  | _ => None
  end.

Definition resolve_workload_target (ns kind name : pyval) (metadata : pyval) : WorkloadTarget :=
  let original := observed (normalized_text ns) (normalized_text kind) (normalized_text name) in
  if negb (promotable original)
     || negb (nonempty (namespace original) && nonempty (resource_kind original)
              && nonempty (resource_name original))
  then original
  else
    match the_one (omap (fun snapshot => deployment_owner_from_snapshot snapshot
                     (namespace original) (resource_kind original) (resource_name original))
                   (workload_snapshots metadata)) with
    | Some (ns', name') => promoted original ns' name'
    | None => original
    end.

Definition same_original (original : WorkloadTarget) (declared : dict) : bool :=
  str_eqb (normalized_text (get declared "namespace")) (namespace original)
  && str_eqb (casefold (normalized_text (get declared "resource_kind")))
       (casefold (resource_kind original))
  && str_eqb (normalized_text (get declared "resource_name")) (resource_name original).

Definition declared_resolved_target (original : WorkloadTarget) (metadata : pyval)
    : option WorkloadTarget :=
  match metadata with
  | VDict m =>
      if negb (str_eqb (normalized_text (get m TARGET_RESOLUTION_KEY)) WORKLOAD_SNAPSHOT_SOURCE)
      then None
      else
        match get m ORIGINAL_TARGET_KEY, get m AUTHORITY_TARGET_KEY with
        | VDict declared_original, VDict declared_target =>
            let ns := normalized_text (get declared_target "namespace") in
            let kind := normalized_text (get declared_target "resource_kind") in
            let name := normalized_text (get declared_target "resource_name") in
            if negb (same_original original declared_original)
               || negb (promotable original) || negb (str_eqb ns (namespace original))
               || negb (str_eqb (casefold kind) "deployment") || is_empty name
            then None else Some (promoted original ns name)
        | _, _ => None
        end
  | _ => None
  end.

(** What one metadata value says about the target. *)
Definition target_from (original : WorkloadTarget) (metadata : pyval) : WorkloadTarget :=
  match declared_resolved_target original metadata with
  | Some t => t
  | None => resolve_workload_target (VStr (namespace original)) (VStr (resource_kind original))
              (VStr (resource_name original)) metadata
  end.

Definition identity_key (t : WorkloadTarget) : string * string * string :=
  (namespace t, casefold (resource_kind t), resource_name t).

Definition resolved_target_from_metadata (ns kind name : pyval) (metadata_values : list pyval)
    : WorkloadTarget :=
  let original := resolve_workload_target ns kind name VNone in
  let candidates := keep resolved (target_from original <$> metadata_values) in
  match candidates with
  | first :: _ =>
      if Nat.eqb (length (unique_first (identity_key <$> candidates))) 1 then first else original
  | [] => original
  end.

(** ** What a promotion rests on *)

(** The snapshot says that it is the Deployment [owner] of the namespace and
    lists the resource exactly once. *)
Definition owns (snapshot : dict) (ns kind name owner : string) : Prop :=
  exists workload owned item, get snapshot "workload" = VDict workload /\
    casefold (normalized_text (get workload "kind")) = "deployment" /\
    normalized_text (get workload "namespace") = ns /\
    normalized_text (get workload "name") = owner /\ owner <> "" /\
    get snapshot (ownership_key kind) = VList owned /\ keep (names_resource name) owned = [item].

(** The plan carries the resolution of this very resource. *)
Definition declares (m : dict) (ns kind name owner : string) : Prop :=
  exists declared_original declared_target,
    normalized_text (get m TARGET_RESOLUTION_KEY) = WORKLOAD_SNAPSHOT_SOURCE /\
    get m ORIGINAL_TARGET_KEY = VDict declared_original /\
    get m AUTHORITY_TARGET_KEY = VDict declared_target /\
    normalized_text (get declared_original "namespace") = ns /\
    casefold (normalized_text (get declared_original "resource_kind")) = casefold kind /\
    normalized_text (get declared_original "resource_name") = name /\
    normalized_text (get declared_target "namespace") = ns /\
    casefold (normalized_text (get declared_target "resource_kind")) = "deployment" /\
    normalized_text (get declared_target "resource_name") = owner /\ owner <> "".

Lemma owner_spec snapshot ns kind name r :
  deployment_owner_from_snapshot snapshot ns kind name = Some r <->
  r.1 = ns /\ owns snapshot ns kind name r.2.
Proof.
  unfold deployment_owner_from_snapshot, owns. split.
  - destruct (get snapshot "workload") as [| | | | | | |w] eqn:Ew; try done.
    destruct (_ || _) eqn:E; [done|].
    apply orb_false_iff in E as [[E1%negb_false_iff%str_eqb_eq E2%negb_false_iff%str_eqb_eq]%orb_false_iff E3].
    destruct (get snapshot (ownership_key kind)) as [| | | | | |owned|] eqn:Eo; try done.
    destruct (the_one _) as [item|] eqn:Ei; [|done]. intros [= <-]. cbn. split; [done|].
    exists w, owned, item. apply the_one_Some in Ei. repeat split; try done.
    intros Hn. by rewrite Hn in E3.
  - destruct r as [ns' owner]. cbn. intros (-> & w & owned & item & -> & -> & Hns & Hn & Hne & -> & Hk).
    rewrite Hns, Hn, !str_eqb_refl, (proj2 (the_one_Some _ item)) by done. cbn.
    destruct (is_empty owner) eqn:E; [by apply is_empty_eq in E|done].
Qed.

Lemma the_one_omap {A B} (f : A -> option B) l y :
  the_one (omap f l) = Some y ->
  exists x, x ∈ l /\ f x = Some y /\ forall x' y', x' ∈ l -> f x' = Some y' -> y' = y.
Proof.
  intros Hy%the_one_Some.
  assert (y ∈ omap f l) as (x & Hx & Hf)%list_elem_of_omap by (rewrite Hy; set_solver).
  exists x. split; [done|]. split; [done|]. intros x' y' Hx' Hf'.
  assert (y' ∈ omap f l) as Hin by (apply list_elem_of_omap; eauto). rewrite Hy in Hin. set_solver.
Qed.

Lemma resolve_spec ns kind name metadata t :
  resolve_workload_target (VStr ns) (VStr kind) (VStr name) metadata = t -> resolved t = true ->
  promotable (observed (strip ns) (strip kind) (strip name)) = true /\
  exists owner snapshot, t = promoted (observed (strip ns) (strip kind) (strip name)) (strip ns) owner /\
    snapshot ∈ workload_snapshots metadata /\
    owns snapshot (strip ns) (strip kind) (strip name) owner.
Proof.
  unfold resolve_workload_target. cbn [normalized_text]. intros <-.
  destruct (_ || _) eqn:E; [done|]. apply orb_false_iff in E as [E _]. apply negb_false_iff in E.
  destruct (the_one _) as [[ns' owner]|] eqn:Eo; [|done]. intros _. split; [done|].
  apply the_one_omap in Eo as (snapshot & Hin & Hs%owner_spec & _). destruct Hs as [Hns Hown].
  cbn in Hns. subst ns'. by exists owner, snapshot.
Qed.

Lemma declared_spec original metadata t :
  declared_resolved_target original metadata = Some t ->
  promotable original = true /\
  exists m owner, metadata = VDict m /\ t = promoted original (namespace original) owner /\
    declares m (namespace original) (resource_kind original) (resource_name original) owner.
Proof.
  unfold declared_resolved_target. destruct metadata as [| | | | | | |m]; try done.
  destruct (str_eqb (normalized_text _) _) eqn:Es; cbn [negb]; [|done].
  destruct (get m ORIGINAL_TARGET_KEY) as [| | | | | | |dor] eqn:Eo; try done.
  destruct (get m AUTHORITY_TARGET_KEY) as [| | | | | | |dt] eqn:Et; try done.
  destruct (_ || _) eqn:E; [done|].
  apply orb_false_iff in E as [[[[E1%negb_false_iff E2%negb_false_iff]%orb_false_iff
    E3%negb_false_iff%str_eqb_eq]%orb_false_iff E4%negb_false_iff%str_eqb_eq]%orb_false_iff E5].
  intros [= <-]. split; [done|]. exists m, (normalized_text (get dt "resource_name")).
  rewrite E3. split; [done|]. split; [done|]. exists dor, dt. unfold same_original in E1.
  apply andb_true_iff in E1 as [[?%str_eqb_eq ?%str_eqb_eq]%andb_true_iff ?%str_eqb_eq].
  apply str_eqb_eq in Es. repeat split; try done. intros Hn. by rewrite Hn in E5.
Qed.

(** a target is never guessed: what [resolved_target_from_metadata]
    returns is either the observed resource itself or, for a Pod or a
    ReplicaSet, a Deployment of the same namespace that one of the metadata
    values names, as the only snapshot owning the resource or as a carried
    resolution of it; and all metadata values that resolve the resource agree
    on that Deployment. *)
Theorem promotion_is_evidenced ns kind name metadata_values :
  let t := resolved_target_from_metadata (VStr ns) (VStr kind) (VStr name) metadata_values in
  let original := observed (strip ns) (strip kind) (strip name) in
  t = original \/
  (promotable original = true /\
   exists owner metadata, t = promoted original (strip ns) owner /\ metadata ∈ metadata_values /\
     ((exists snapshot, snapshot ∈ workload_snapshots metadata /\
         owns snapshot (strip ns) (strip kind) (strip name) owner) \/
      (exists m, metadata = VDict m /\ declares m (strip ns) (strip kind) (strip name) owner)) /\
     forall m', m' ∈ metadata_values -> resolved (target_from original m') = true ->
       identity_key (target_from original m') = identity_key t).
Proof.
  cbn zeta. unfold resolved_target_from_metadata.
  assert (resolve_workload_target (VStr ns) (VStr kind) (VStr name) VNone =
          observed (strip ns) (strip kind) (strip name)) as ->.
  { unfold resolve_workload_target. cbn. destruct (_ || _); done. }
  set (original := observed (strip ns) (strip kind) (strip name)).
  destruct (keep resolved (target_from original <$> metadata_values)) as [|t l] eqn:Ek; [by left|].
  destruct (Nat.eqb _ 1) eqn:En; [|by left]. right.
  assert (t ∈ keep resolved (target_from original <$> metadata_values)) as
    [(metadata & Ht & Hin)%list_elem_of_fmap Hr]%elem_of_keep by (rewrite Ek; set_solver).
  assert (promotable original = true /\ exists owner, t = promoted original (strip ns) owner /\
    ((exists snapshot, snapshot ∈ workload_snapshots metadata /\
         owns snapshot (strip ns) (strip kind) (strip name) owner) \/
      (exists m, metadata = VDict m /\ declares m (strip ns) (strip kind) (strip name) owner)))
    as [Hp (owner & Hto & Hev)].
  { unfold target_from in Ht. destruct (declared_resolved_target original metadata) as [t'|] eqn:Ed.
    - subst t'. apply declared_spec in Ed as (? & m & owner & -> & -> & Hd). split; [done|].
      exists owner. split; [done|]. right. by exists m.
    - symmetry in Ht. cbn [original observed namespace resource_kind resource_name] in Ht.
      apply resolve_spec in Ht as (Hp & owner & snapshot & -> & Hs & Hown); [|done].
      rewrite !strip_idemp in *. split; [done|]. exists owner. split; [done|]. left. by exists snapshot. }
  split; [done|]. exists owner, metadata. split; [done|]. split; [done|]. split; [done|].
  intros m' Hm' Hr'. apply Nat.eqb_eq in En.
  destruct (unique_first (identity_key <$> (t :: l))) as [|k [|? ?]] eqn:Eu; try done.
  assert (forall x, x ∈ t :: l -> identity_key x = k) as Hall.
  { intros x Hx. assert (identity_key x ∈ unique_first (identity_key <$> (t :: l))) as Hk.
    { apply elem_of_unique_first. by apply list_elem_of_fmap_2. }
    rewrite Eu in Hk. set_solver. }
  rewrite (Hall t) by set_solver. apply Hall. rewrite <- Ek. apply elem_of_keep. split; [|done].
  by apply list_elem_of_fmap_2.
Qed.

End WorkloadTarget.
