(* ===== verification/DeleteScope.v ===== *)
(** * Deletion scopes of a partial inventory

    [src/src/domains/inventory/coverage.py]: a snapshot of the cluster is
    partial, so a resource that is missing from it has only been deleted when
    a collection that was observed completely proves it. *)
From S2P Require Import Prelude PyStr PyFloat PyVal Libs Demo.

Module DeleteScope.

(** ** Data *)

Definition COLLECTION_COVERAGE_SUMMARY_KEY : string := "collection_coverage".

Definition RESOURCE_TYPES_BY_COLLECTION : list (string * list string) :=
  [("pods", ["pod"]); ("nodes", ["node"]); ("workloads", ["workload"]);
   ("workload_revisions", ["workload_revision"]); ("services", ["service"]);
   ("ingresses", ["ingress"]); ("resourcequotas", ["resourcequota"]);
   ("endpoints", ["endpoint"]); ("events", ["event"]);
   ("custom_resources", ["custom_resource"])].
Definition NAMESPACED_COLLECTIONS : list string :=
  ["pods"; "workloads"; "workload_revisions"; "services"; "ingresses"; "resourcequotas";
   "endpoints"; "events"].
Definition CLUSTER_COLLECTIONS : list string := ["nodes"].
Definition DELETE_SAFE_COLLECTIONS : list string :=
  ["pods"; "nodes"; "workloads"; "workload_revisions"; "services"; "ingresses";
   "resourcequotas"; "endpoints"].

Record InventoryDeleteScope := Scope { resource_type : string; namespace : option string }.

#[global] Instance scope_eq_dec : EqDecision InventoryDeleteScope.
Proof. solve_decision. Defined.

(** The key [sorted] uses. *)
Definition scope_leb (a b : InventoryDeleteScope) : bool :=
  if str_eqb (resource_type a) (resource_type b)
  then String.leb (default "" (namespace a)) (default "" (namespace b))
  else String.leb (resource_type a) (resource_type b).

Section Scopes.
Context `{ReprLib}.

Definition text (value : pyval) : string :=
  match value with VNone => "" | _ => strip (py_str value) end.

(** Only an actual empty sequence means that there are no reasons. *)
Definition no_reasons (value : pyval) : bool :=
  match value with VList [] => true | _ => false end.

Definition delete_authoritative_entry (entry : dict) : bool :=
  is_true (get entry "complete")
  && is_true (get entry "delete_safe")
  && is_true (get entry "observed")
  && negb (is_true (get entry "truncated"))
  && is_empty (text (get entry "label_selector"))
  && no_reasons (get entry "reason_codes").

(** The scopes one entry adds. *)
Definition entry_scopes (raw_entry : pyval) : list InventoryDeleteScope :=
  match raw_entry with
  | VDict entry =>
      let collection := text (get entry "collection") in
      match dict_get RESOURCE_TYPES_BY_COLLECTION collection with
      | None | Some [] => []
      | Some resource_types =>
          if negb (bool_decide (collection ∈ DELETE_SAFE_COLLECTIONS)) then []
          else if negb (delete_authoritative_entry entry) then []
          else
            let scope := text (get entry "scope") in
            let namespace := text (get entry "namespace") in
            if bool_decide (collection ∈ NAMESPACED_COLLECTIONS) && str_eqb scope "namespace"
               && nonempty namespace
            then (fun t => Scope t (Some namespace)) <$> resource_types
            else if bool_decide (collection ∈ CLUSTER_COLLECTIONS) && str_eqb scope "cluster"
            then (fun t => Scope t None) <$> resource_types
            else []
      end
  | _ => []
  end.

Definition inventory_deletion_scopes (source_summary : dict) : list InventoryDeleteScope :=
  if negb (is_true (get source_summary "live_inventory")) then []
  else match get source_summary COLLECTION_COVERAGE_SUMMARY_KEY with
       | VList raw_entries =>
           isort scope_leb (unique_first (flat_map entry_scopes raw_entries))
       | _ => []
       end.

Definition inventory_row_in_deletion_scopes (row : dict) (scopes : list InventoryDeleteScope) : bool :=
  let rt := text (get row "resource_type") in
  let normalized_namespace :=
    match get row "namespace" with VNone => None | v => Some (py_str v) end in
  existsb (fun s => str_eqb (resource_type s) rt
                    && bool_decide (namespace s = normalized_namespace)) scopes.

(** The SQL expression, on the columns of a row: comparing a null namespace
    with a text is not true. *)
Definition inventory_delete_scope_predicate (scopes : list InventoryDeleteScope)
    (row_type : string) (row_namespace : option string) : bool :=
  existsb (fun s =>
      str_eqb row_type (resource_type s) &&
      match namespace s with
      | None => match row_namespace with None => true | Some _ => false end
      | Some n => match row_namespace with Some m => str_eqb m n | None => false end
      end) scopes.

(** ** Reference notions *)

(** An entry that proves deletions in a scope: it was observed completely,
    without truncation, selector or caveat, and covers that scope. *)
Record proves (entry : dict) (s : InventoryDeleteScope) : Prop := {
  pv_complete : is_true (get entry "complete") = true;
  pv_delete_safe : is_true (get entry "delete_safe") = true;
  pv_observed : is_true (get entry "observed") = true;
  pv_whole : is_true (get entry "truncated") = false;
  pv_unfiltered : text (get entry "label_selector") = "";
  pv_reasons : get entry "reason_codes" = VList [];
  pv_collection : text (get entry "collection") ∈ DELETE_SAFE_COLLECTIONS;
  pv_covers :
    exists types, dict_get RESOURCE_TYPES_BY_COLLECTION (text (get entry "collection")) = Some types /\
      resource_type s ∈ types /\
      ((text (get entry "scope") = "namespace" /\ text (get entry "collection") <> "nodes" /\
        namespace s = Some (text (get entry "namespace")) /\ text (get entry "namespace") <> "") \/
       (text (get entry "scope") = "cluster" /\ text (get entry "collection") = "nodes" /\
        namespace s = None));
}.

Lemma authoritative_spec entry :
  delete_authoritative_entry entry = true <->
  is_true (get entry "complete") = true /\ is_true (get entry "delete_safe") = true /\
  is_true (get entry "observed") = true /\ is_true (get entry "truncated") = false /\
  text (get entry "label_selector") = "" /\ get entry "reason_codes" = VList [].
Proof.
  unfold delete_authoritative_entry. rewrite !andb_true_iff, negb_true_iff, is_empty_eq.
  assert (no_reasons (get entry "reason_codes") = true <-> get entry "reason_codes" = VList []) as ->.
  { unfold no_reasons. split; [by case_all|by intros ->]. }
  tauto.
Qed.

(** The delete-safe collections: the namespaced ones but the events, and the
    nodes. *)
Lemma safe_namespaced c :
  c ∈ DELETE_SAFE_COLLECTIONS -> c ∈ NAMESPACED_COLLECTIONS <-> c <> "nodes".
Proof.
  unfold DELETE_SAFE_COLLECTIONS, NAMESPACED_COLLECTIONS. intros Hc. split; [intros ? ->; set_solver|].
  set_solver.
Qed.

Lemma entry_scopes_spec raw s :
  s ∈ entry_scopes raw <-> exists entry, raw = VDict entry /\ proves entry s.
Proof.
  unfold entry_scopes. split.
  - destruct raw as [| | | | | | |entry]; try by intros ?%elem_of_nil.
    destruct (dict_get _ _) as [[|t types]|] eqn:Ht; try by intros ?%elem_of_nil.
    destruct (negb (bool_decide (_ ∈ DELETE_SAFE_COLLECTIONS))) eqn:Hs; [by intros ?%elem_of_nil|].
    destruct (negb (delete_authoritative_entry entry)) eqn:Ha; [by intros ?%elem_of_nil|]. bool_simpl.
    apply authoritative_spec in Ha as (?&?&?&?&?&?). 
    destruct (_ && _ && nonempty _) eqn:En;
      [|destruct (bool_decide (_ ∈ CLUSTER_COLLECTIONS) && _) eqn:Ec; [|by intros ?%elem_of_nil]];
      intros Hin; exists entry; (split; [done|]).
    + rewrite !andb_true_iff, bool_decide_eq_true, str_eqb_eq in En. destruct En as [[Hn Hsc] Hne].
      apply list_elem_of_fmap in Hin as (ty & -> & Hty). constructor; try done.
      exists (t :: types). split; [done|]. split; [done|]. left. cbn.
      apply safe_namespaced in Hn; [|done]. repeat split; try done. intros E. by rewrite E in Hne.
    + clear En. bool_simpl.
      apply list_elem_of_fmap in Hin as (ty & -> & Hty). constructor; try done.
      exists (t :: types). split; [done|]. split; [done|]. right. cbn. 
      unfold CLUSTER_COLLECTIONS in *. rewrite str_eqb_eq in *. set_solver.
  - intros (entry & -> & []). destruct pv_covers0 as (types & Ht & Hty & Hcov). rewrite Ht.
    destruct types as [|t types]; [set_solver|]. rewrite bool_decide_true by done. cbn [negb].
    rewrite (proj2 (authoritative_spec entry)) by done. cbn [negb].
    destruct s as [ty ns]. cbn [resource_type namespace] in *. destruct Hcov as [(Hsc & Hn & -> & Hne)|(Hsc & Hn & ->)].
    + rewrite (bool_decide_true (_ ∈ NAMESPACED_COLLECTIONS)) by (by apply safe_namespaced).
      rewrite Hsc, str_eqb_refl. destruct (nonempty _) eqn:E.
      * apply list_elem_of_fmap. eauto.
      * unfold nonempty in E. apply negb_false_iff, is_empty_eq in E. done.
    + rewrite (bool_decide_false (_ ∈ NAMESPACED_COLLECTIONS)) by (rewrite safe_namespaced; tauto).
      rewrite Hsc, Hn, str_eqb_refl. cbn [andb].
      rewrite (bool_decide_true ("nodes" ∈ CLUSTER_COLLECTIONS)) by set_solver.
      apply list_elem_of_fmap. eauto.
Qed.

(** ** Properties *)

(** a scope is open for deletion exactly when the snapshot is a live
    inventory and one of its coverage entries proves that scope. *)
Theorem deletion_scopes_iff summary s :
  s ∈ inventory_deletion_scopes summary <->
  is_true (get summary "live_inventory") = true /\
  exists entries entry, get summary COLLECTION_COVERAGE_SUMMARY_KEY = VList entries /\
    VDict entry ∈ entries /\ proves entry s.
Proof.
  unfold inventory_deletion_scopes. destruct (is_true (get summary "live_inventory")); cbn [negb].
  2: { split; [by intros ?%elem_of_nil|]. by intros [? _]. }
  destruct (get summary COLLECTION_COVERAGE_SUMMARY_KEY) as [| | | | | |entries|];
    try (split; [by intros ?%elem_of_nil|by intros (_ & ? & ? & ? & _)]).
  rewrite elem_of_isort, elem_of_unique_first, list_elem_of_In, in_flat_map. split.
  - intros (raw & Hraw%list_elem_of_In & Hs%list_elem_of_In).
    apply entry_scopes_spec in Hs as (entry & -> & Hp). eauto 6.
  - intros (_ & es & entry & [= <-] & Hin & Hp). exists (VDict entry).
    split; apply list_elem_of_In; [done|]. apply entry_scopes_spec. eauto.
Qed.

Lemma proves_safe_type entry s :
  proves entry s -> resource_type s ∈ ["pod"; "node"; "workload"; "workload_revision"; "service";
    "ingress"; "resourcequota"; "endpoint"] /\ (resource_type s = "node" <-> namespace s = None).
Proof.
  intros []. destruct pv_covers0 as (types & Ht & Hty & Hcov). unfold DELETE_SAFE_COLLECTIONS in *.
  revert Ht Hcov. generalize dependent (text (get entry "collection")). intros c Hc Ht Hcov.
  repeat (apply elem_of_cons in Hc as [->|Hc]; [
    vm_compute in Ht; injection Ht as <-; apply list_elem_of_singleton in Hty;
    rewrite Hty; (split; [set_solver|]);
    destruct Hcov as [(_ & ? & E & _)|(_ & ? & E)]; rewrite E; try done; split; done|]).
  by apply elem_of_nil in Hc.
Qed.

(** whatever a snapshot says, events and custom resources are never
    deleted by absence, a namespaced kind only within one named namespace, and
    only nodes for the whole cluster. *)
Theorem deletion_scopes_bounded summary s :
  s ∈ inventory_deletion_scopes summary ->
  resource_type s <> "event" /\ resource_type s <> "custom_resource" /\
  (resource_type s = "node" <-> namespace s = None).
Proof.
  unfold inventory_deletion_scopes. case_match; [by intros ?%elem_of_nil|].
  case_match; try by intros ?%elem_of_nil.
  rewrite elem_of_isort, elem_of_unique_first, list_elem_of_In, in_flat_map.
  intros (raw & _ & Hs%list_elem_of_In). apply entry_scopes_spec in Hs as (entry & _ & Hp).
  apply proves_safe_type in Hp as [Hin Hn]. repeat split; try apply Hn; intros E; rewrite E in Hin; set_solver.
Qed.

(** the row filter in Python and the SQL predicate select the same
    rows, for rows as the table stores them. *)
Theorem scope_predicates_agree scopes row_type row_namespace :
  strip row_type = row_type ->
  inventory_row_in_deletion_scopes
    [("resource_type", VStr row_type);
     ("namespace", match row_namespace with Some n => VStr n | None => VNone end)] scopes
  = inventory_delete_scope_predicate scopes row_type row_namespace.
Proof.
  intros Hstrip. unfold inventory_row_in_deletion_scopes, inventory_delete_scope_predicate.
  change (get _ "resource_type") with (VStr row_type).
  assert (text (VStr row_type) = row_type) as -> by exact Hstrip.
  change (get _ "namespace") with (match row_namespace with Some n => VStr n | None => VNone end).
  induction scopes as [|s scopes IH]; [done|]. cbn [existsb]. rewrite IH. f_equal.
  unfold str_eqb. rewrite (bool_decide_ext (resource_type s = row_type) (row_type = resource_type s)) by done.
  f_equal. destruct (namespace s) as [n|], row_namespace as [m|]; cbn; try done.
  apply bool_decide_ext. split; [by intros [= ->]|by intros ->].
Qed.

End Scopes.

(** ** Witnesses *)

Definition sample_entry : dict :=
  [("collection", VStr "pods"); ("scope", VStr "namespace"); ("namespace", VStr "shop");
   ("complete", VBool true); ("delete_safe", VBool true); ("observed", VBool true);
   ("truncated", VBool false); ("label_selector", VStr ""); ("reason_codes", VList [])].
Definition sample_summary : dict :=
  [("live_inventory", VBool true); ("collection_coverage", VList [VDict sample_entry])].

Lemma deletion_scopes_bounded_witness : resource_type (Scope "pod" (Some "shop")) <> "event".
Proof.
  apply (@deletion_scopes_bounded Demo.plain_repr sample_summary (Scope "pod" (Some "shop"))).
  vm_compute. apply elem_of_cons. left. reflexivity.
Defined.

Lemma scope_predicates_agree_witness :
  @inventory_row_in_deletion_scopes Demo.plain_repr
    [("resource_type", VStr "pod"); ("namespace", VStr "shop")] [Scope "pod" (Some "shop")]
  = inventory_delete_scope_predicate [Scope "pod" (Some "shop")] "pod" (Some "shop").
Proof.
  apply (@scope_predicates_agree Demo.plain_repr [Scope "pod" (Some "shop")] "pod" (Some "shop")).
  reflexivity.
Defined.

End DeleteScope.
