(* ===== verification/Signals.v ===== *)
(** * RCA signals

    [services/ai/agent/causes/signals.py] and the evidence records of
    [domains/rca/events.py]: the facts, log lines and event texts extracted
    from an evidence bundle, and the matchers of the signal groups a cause
    candidate declares.

    The set of facts is a [gset]; the collector, which the functions of the
    source mutate, is threaded through them.  A signal group is a decoded JSON
    value, so a method call on anything but a mapping raises
    [AttributeError]. *)
From S2P Require Import Prelude PyStr PyFloat PyVal.

Module Signals.

(** ** Data *)

Record EvidenceReference := {
  r_evidence_ref : string;
  r_source : string;
  r_name : string;
  r_check_id : string;
  r_summary : string;
  r_query : option string;
}.

Record EvidenceItem := {
  source : string;
  name : string;
  value : dict;
  summary : string;
  evidence_ref : string;
  check_id : string;
  query : option string;
}.

(** [EvidenceItem.reference]. *)
Definition reference (i : EvidenceItem) : EvidenceReference :=
  {| r_evidence_ref := evidence_ref i; r_source := source i; r_name := name i;
     r_check_id := check_id i; r_summary := summary i; r_query := query i |}.

Record MissingEvidenceCheck := {
  mc_check_id : string;
  mc_source : string;
  mc_status : string;
  mc_reason : string;
}.

Record EvidenceBundle := {
  eb_incident_id : string;
  items : list EvidenceItem;
  eb_missing_evidence : list string;
  complete : bool;
  eb_missing_evidence_checks : list MissingEvidenceCheck;
}.

(** [BundleSignals] and the mutable [_SignalCollector] have the same fields. *)
Record BundleSignals := {
  facts : gset string;
  log_lines : list string;
  event_texts : list string;
}.

Definition no_signals : BundleSignals := {| facts := ∅; log_lines := []; event_texts := [] |}.

Definition add_fact (f : string) (c : BundleSignals) : BundleSignals :=
  {| facts := {[f]} ∪ facts c; log_lines := log_lines c; event_texts := event_texts c |}.
Definition add_log_line (l : string) (c : BundleSignals) : BundleSignals :=
  {| facts := facts c; log_lines := log_lines c ++ [l]; event_texts := event_texts c |}.
Definition add_event_text (t : string) (c : BundleSignals) : BundleSignals :=
  {| facts := facts c; log_lines := log_lines c; event_texts := event_texts c ++ [t] |}.

Definition FACT_EXIT_CODE_NON_OOM : string := "exit_code=non_oom".
Definition OOM_EXIT_CODE : Z := 137.
Definition MATCHER_KEYS : list string := ["fact"; "log_pattern"; "event_pattern"].

(** [v or s], for a string literal [s]. *)
Definition or_str (v : pyval) (s : string) : pyval := if truthy v then v else VStr s.

Definition dict_items (v : pyval) : list dict :=
  match v with VList l => omap as_dict l | _ => [] end.

Section signals.
Context `{ReprLib}.

Definition text_items (v : pyval) : list string :=
  match v with VList l => py_str <$> keep truthy l | _ => [] end.

(** ** Extraction *)

(** One iteration of the loop over [exit_code] and [last_exit_code]: the
    [except] clause catches [TypeError] and [ValueError] only. *)
Definition add_exit_code_fact (container : dict) (c : BundleSignals) (key : string)
    : res BundleSignals :=
  match get container key with
  | VNone | VBool _ => Ok c
  | raw =>
      match py_int raw with
      | Ok code =>
          let c := add_fact ("exit_code=" +:+ str_of_int code) c in
          Ok (if (code =? 0) || (code =? OOM_EXIT_CODE) then c
              else add_fact FACT_EXIT_CODE_NON_OOM c)
      | Err TypeError | Err ValueError => Ok c
      | Err e => Err e
      end
  end.

Definition add_exit_code_facts (c : BundleSignals) (container : dict) : res BundleSignals :=
  foldr_res (add_exit_code_fact container) c ["exit_code"; "last_exit_code"].

Definition add_label (c : BundleSignals) (kv : string * pyval) : BundleSignals :=
  let key := strip kv.1 in
  let label_value := strip (py_str kv.2) in
  if nonempty key && nonempty label_value
  then add_fact ("pod_label:" +:+ key +:+ "=" +:+ label_value) c else c.

Definition collect_pod (c : BundleSignals) (pod : dict) : res BundleSignals :=
  let c := match get pod "labels" with
           | VDict labels => fold_left add_label labels c
           | _ => c
           end in
  let c := fold_left (fun c r => add_fact ("waiting_reason=" +:+ r) c)
             (text_items (get pod "waiting_reasons")) c in
  let c := fold_left (fun c r => add_fact ("terminated_reason=" +:+ r) c)
             (text_items (get pod "terminated_reasons")) c in
  foldr_res add_exit_code_facts c (dict_items (get pod "containers")).

Definition collect_event (c : BundleSignals) (event : dict) : BundleSignals :=
  let reason := strip (py_str (or_str (get event "reason") "")) in
  let message := strip (py_str (or_str (get event "message") "")) in
  let c := if nonempty reason then add_fact ("event_reason=" +:+ reason) c else c in
  if nonempty reason || nonempty message
  then add_event_text (strip (reason +:+ " " +:+ message)) c else c.

Definition collect_kubernetes_signals (v : dict) (c : BundleSignals) : res BundleSignals :=
  c ← foldr_res collect_pod c (dict_items (get v "pods"));
  Ok (fold_left collect_event (dict_items (get v "events")) c).

(** [if isinstance(line, str) and line: collector.log_lines.append(line)]. *)
Definition add_line (v : pyval) (c : BundleSignals) : BundleSignals :=
  match v with VStr l => if nonempty l then add_log_line l c else c | _ => c end.

Definition collect_entry (c : BundleSignals) (entry : dict) : BundleSignals :=
  let c := add_line (get entry "line") c in
  fold_left (fun c stream =>
    fold_left (fun c sample => add_line (get sample "line") c)
      (dict_items (get stream "values")) c)
    (dict_items (get entry "streams")) c.

Definition collect_log_lines (v : dict) (c : BundleSignals) : BundleSignals :=
  fold_left collect_entry (dict_items (get v "entries")) c.

Definition collect_alert (c : BundleSignals) (alert : dict) : BundleSignals :=
  if negb (str_eqb (py_str (or_str (get alert "status") "firing")) "firing") then c
  else match get alert "labels" with
       | VDict labels =>
           let name := strip (py_str (or_str (get labels "alertname") "")) in
           if nonempty name then add_fact ("alert_name=" +:+ name) c else c
       | _ => c
       end.

Definition collect_alert_facts (v : dict) (c : BundleSignals) : BundleSignals :=
  match get v "alertmanager" with
  | VDict alertmanager => fold_left collect_alert (dict_items (get alertmanager "alerts")) c
  | _ => c
  end.

Definition collect_item (c : BundleSignals) (item : EvidenceItem) : res BundleSignals :=
  if str_eqb (source item) "kubernetes" then collect_kubernetes_signals (value item) c
  else if str_eqb (source item) "logs" then Ok (collect_log_lines (value item) c)
  else if str_eqb (source item) "metrics" then Ok (collect_alert_facts (value item) c)
  else Ok c.

Definition extract_bundle_signals (b : EvidenceBundle) : res BundleSignals :=
  foldr_res collect_item no_signals (items b).

(** ** Matching *)

Definition match_one (matcher : dict) (s : BundleSignals) : bool :=
  match get matcher "fact" with
  | VStr fact => bool_decide (fact ∈ facts s)
  | _ =>
      match get matcher "log_pattern" with
      | VStr p => existsb (fun line => contains (casefold p) (casefold line)) (log_lines s)
      | _ =>
          match get matcher "event_pattern" with
          | VStr p => existsb (fun text => contains (casefold p) (casefold text)) (event_texts s)
          | _ => false
          end
      end
  end.

Definition match_signal_group (group : pyval) (s : BundleSignals) : res bool :=
  matchers ← attr_get group "any_of";
  Ok match matchers with
     | VList l => existsb (fun m => match m with VDict d => match_one d s | _ => false end) l
     | _ => false
     end.

Fixpoint split_signal_groups (groups : list pyval) (s : BundleSignals)
    : res (list pyval * list pyval) :=
  match groups with
  | [] => Ok ([], [])
  | group :: groups =>
      b ← match_signal_group group s;
      '(matched, unmatched) ← split_signal_groups groups s;
      Ok (if (b : bool) then (group :: matched, unmatched) else (matched, group :: unmatched))
  end.

Definition signal_group_id (group : pyval) : res string :=
  v ← attr_get group "id"; Ok (py_str (or_str v "unnamed")).

Definition signal_missing_token (group : pyval) : res string :=
  i ← signal_group_id group; Ok ("signal:" +:+ i).

(** The values a [for] statement draws from [group.get("any_of") or []]; the
    characters of a string and the keys of a mapping are strings, which the
    loop skips. *)
Definition iterable (v : pyval) : res (list pyval) :=
  if truthy v then
    match v with
    | VList l => Ok l
    | VStr s => Ok ((fun c => VStr (String c "")) <$> chars s)
    | VDict d => Ok ((fun kv => VStr kv.1) <$> d)
    | _ => Err TypeError
    end
  else Ok [].

Definition matcher_parts (m : pyval) : list string :=
  match m with
  | VDict d =>
      omap (fun key => match get d key with VStr v => Some (key +:+ ":" +:+ v) | _ => None end)
        MATCHER_KEYS
  | _ => []
  end.

Definition describe_signal_group (group : pyval) : res string :=
  any_of ← attr_get group "any_of";
  ms ← iterable any_of;
  let parts := flat_map matcher_parts ms in
  Ok match parts with
     | [] => "정의된 matcher 없음"
     | _ => join " | " parts
     end.

(** ** Lemmas *)

(** A group is satisfied when one of its matchers is. *)
Lemma match_signal_group_true group s :
  match_signal_group group s = Ok true <->
  exists d l m, group = VDict d /\ get d "any_of" = VList l /\ VDict m ∈ l /\ match_one m s = true.
Proof.
  unfold match_signal_group. rewrite bind_Ok. split.
  - intros (v & Hv & [= Hm]). destruct group as [| | | | | | |d]; try done. cbn in Hv.
    injection Hv as <-. destruct (get d "any_of") as [| | | | | |l|] eqn:El; try done.
    apply existsb_elem in Hm as ([| | | | | | |m] & Hin & Hm); try done. eauto 10.
  - intros (d & l & m & -> & El & Hin & Hm). exists (VList l). cbn. rewrite El. split; [done|].
    f_equal. apply existsb_elem. by exists (VDict m).
Qed.

Lemma split_signal_groups_spec groups s matched unmatched :
  split_signal_groups groups s = Ok (matched, unmatched) ->
  matched ++ unmatched ≡ₚ groups /\
  (forall g, g ∈ matched -> match_signal_group g s = Ok true) /\
  (forall g, g ∈ unmatched -> match_signal_group g s = Ok false).
Proof.
  revert matched unmatched. induction groups as [|g groups IH]; intros matched unmatched; cbn.
  - intros [= <- <-]. split; [done|]. split; intros ? ?%elem_of_nil; done.
  - rewrite bind_Ok. intros (b & Hb & ([m u] & Hs & Hout)%bind_Ok). injection Hout as Hout.
    destruct (IH _ _ Hs) as (Hp & Hm & Hu). destruct b; simplify_eq/=.
    + split; [by rewrite Hp|]. split; [|done]. intros ? [->|?]%elem_of_cons; auto.
    + split; [by rewrite <- Permutation_middle, Hp|]. split; [done|].
      intros ? [->|?]%elem_of_cons; auto.
Qed.

(** An exit code that the JSON decoder reads as an infinite float ([1e999])
    raises [OverflowError] in [int(raw)], which the [except] clause does not
    catch: the extraction fails as a whole. *)
Lemma infinite_exit_code_escapes c :
  add_exit_code_facts c [("exit_code", VFloat (SpecFloat.S754_infinity false))] = Err OverflowError.
Proof. done. Qed.

End signals.
End Signals.
