(* ===== verification/CauseEngine.v ===== *)
(** * The root-cause engine

    [services/ai/agent/causes/engine.py], the rule records of
    [services/ai/agent/playbooks/cause.py], the registry of
    [services/ai/agent/causes/loader.py] and the decision that blocks or
    completes an analysis ([block_reason_code] of
    [services/ai/agent/pipeline/causes.py]).

    [CauseRule] and [EvidenceRequirementRule] are protocols in the source:
    here records of the two methods, so that the theorems on plans hold for
    every rule.  Scores are binary64 floats.  Parsing the YAML catalogue is a
    parameter of the loader: each file comes with the profiles it parses to,
    or with the exception that stops the load. *)
From S2P Require Import Prelude PyStr PyFloat PyVal Libs Demo Signals.

Module CauseEngine.
Import Signals.

(** ** Data *)

Record IncidentRecord := {
  incident_id : string;
  cluster_id : string;
  resource_kind : string;
  resource_name : string;
  namespace : option string;
  symptom : string;
  severity : string;
  first_seen_at : option string;
  i_summary : string;
  category : option string;
  workspace_id : string;
  secondary_symptoms : list string;
}.

Record CauseCandidate := {
  candidate_id : string;
  title : string;
  description : string;
  expected_evidence : list string;
  checks : list string;
  signals : list pyval;
  c_source : string;
}.

Record CauseEvaluation := {
  e_candidate_id : string;
  score : float;
  e_checks : list string;
  supporting_evidence : list string;
  missing_evidence : list string;
  e_reason : string;
  supporting_evidence_refs : list EvidenceReference;
  missing_evidence_checks_of : list MissingEvidenceCheck;
  matched_signal_count : Z;
  required_signal_count : Z;
}.

Record RcaReportDetail := {
  root_cause : string;
  confidence : float;
  selected_candidate_id : string;
  d_supporting_evidence : list string;
  d_missing_evidence : list string;
  d_reason : string;
  d_missing_evidence_checks : list MissingEvidenceCheck;
  d_supporting_evidence_refs : list EvidenceReference;
}.

Record RcaRuleMissing := {
  rm_incident_id : string;
  rm_symptom : string;
  rm_evidence_ref : string;
  rm_missing_evidence : list string;
  rm_message : string;
  rm_workspace_id : string;
}.

Record CausePlan := {
  candidates : list CauseCandidate;
  rule_missing : option RcaRuleMissing;
}.

Definition candidate_count (p : CausePlan) : nat := length (candidates p).

Definition DEFAULT_REQUIRED_EVIDENCE : list string := ["kubernetes"].
Definition MATCHING_CAUSE_RULE_EVIDENCE : string := "matching_cause_rule".
Definition NO_MATCHING_RULE_MESSAGE : string := "정의된 RCA rule 없음".
Definition UNKNOWN_EVALUATION_ID : string := "unknown".
Definition CAUSE_CANDIDATE_SOURCE_RULE : string := "rule".

(** ** Rules *)

Record EvidenceRequirementRule := {
  er_matches : IncidentRecord -> bool;
  er_required_sources : IncidentRecord -> list string;
}.

Record CauseRule := {
  cr_matches : IncidentRecord -> EvidenceBundle -> bool;
  cr_candidates : IncidentRecord -> EvidenceBundle -> list CauseCandidate;
}.

Record CauseCandidateSpec := {
  cs_candidate_id : string;
  cs_title : string;
  cs_description : string;
  cs_expected_evidence : list string;
  cs_checks : list string;
  cs_signals : list dict;
}.

Definition to_candidate (s : CauseCandidateSpec) : CauseCandidate :=
  {| candidate_id := cs_candidate_id s; title := cs_title s; description := cs_description s;
     expected_evidence := cs_expected_evidence s; checks := cs_checks s;
     signals := VDict <$> cs_signals s; c_source := CAUSE_CANDIDATE_SOURCE_RULE |}.

Definition SymptomEvidenceRequirementRule (symptoms sources : list string)
    : EvidenceRequirementRule :=
  {| er_matches := fun incident => bool_decide (symptom incident ∈ symptoms);
     er_required_sources := fun _ => sources |}.

Definition SymptomCauseRule (symptoms : list string) (specs : list CauseCandidateSpec) : CauseRule :=
  {| cr_matches := fun incident _ => bool_decide (symptom incident ∈ symptoms);
     cr_candidates := fun _ _ => to_candidate <$> specs |}.

Record CauseProfile := {
  symptoms : list string;
  required_sources : list string;
  candidate_specs : list CauseCandidateSpec;
  rule_id : option string;
}.

Definition evidence_rule (p : CauseProfile) : EvidenceRequirementRule :=
  SymptomEvidenceRequirementRule (symptoms p) (required_sources p).
Definition cause_rule (p : CauseProfile) : CauseRule :=
  SymptomCauseRule (symptoms p) (candidate_specs p).
Definition evidence_rules (profiles : list CauseProfile) : list EvidenceRequirementRule :=
  evidence_rule <$> profiles.
Definition cause_rules (profiles : list CauseProfile) : list CauseRule := cause_rule <$> profiles.

(** ** The registry [CAUSE_PROFILES] *)

Definition has_rule_id (i : string) (p : CauseProfile) : bool := bool_decide (rule_id p = Some i).

(** The decorator [causes_for], on the registry. *)
Definition causes_for (symptoms required_sources : list string)
    (specs : list CauseCandidateSpec) (i : option string) (registry : list CauseProfile)
    : res (list CauseProfile) :=
  _ ← raise_if (match i with Some i => existsb (has_rule_id i) registry | None => false end)
        ValueError;
  Ok (registry ++ [{| symptoms := symptoms; required_sources := required_sources;
                      candidate_specs := specs; rule_id := i |}]).

(** One profile of a file: [seen_ids] maps the ids loaded so far to their
    files. *)
Definition load_profile (path : string) (st : list (string * string) * list CauseProfile)
    (p : CauseProfile) : res (list (string * string) * list CauseProfile) :=
  let '(seen_ids, profiles) := st in
  i ← raise_none (rule_id p) AssertionError;
  _ ← raise_if (has_key seen_ids i) CauseCatalogError;
  Ok (dict_set seen_ids i path, profiles ++ [p]).

Definition load_file (st : list (string * string) * list CauseProfile)
    (f : string * res (list CauseProfile)) : res (list (string * string) * list CauseProfile) :=
  parsed ← f.2;
  foldr_res (load_profile f.1) st parsed.

(** [load_catalog_profiles]: the files in the order of their paths, each with
    the outcome of [parse_catalog_file]. *)
Definition load_catalog_profiles (files : list (string * res (list CauseProfile)))
    : res (list CauseProfile) :=
  st ← foldr_res load_file ([], []) files; Ok (st.2).

Definition register_catalog_profiles (files : list (string * res (list CauseProfile)))
    (registry : list CauseProfile) : res (list CauseProfile) :=
  profiles ← load_catalog_profiles files;
  let existing_ids := omap rule_id registry in
  _ ← raise_if (existsb (fun p => match rule_id p with
                                  | Some i => bool_decide (i ∈ existing_ids)
                                  | None => false
                                  end) profiles) CauseCatalogError;
  Ok (registry ++ profiles).

(** ** Planning *)

Definition unique_ordered (values : list string) : list string := unique_first values.

Definition required_evidence_sources (incident : IncidentRecord)
    (rules : list EvidenceRequirementRule) : list string :=
  let sources := flat_map (fun rule =>
    if er_matches rule incident then er_required_sources rule incident else []) rules in
  match sources with
  | [] => DEFAULT_REQUIRED_EVIDENCE
  | _ => unique_ordered sources
  end.

Section engine.
Context `{ReprLib}.

(** [str(group.get("id")) if isinstance(group, dict) else None]. *)
Definition group_key (group : pyval) : option string :=
  match group with VDict d => Some (py_str (get d "id")) | _ => None end.

Fixpoint merge_incoming (seen_ids : list string) (incoming : list pyval) : list pyval :=
  match incoming with
  | [] => []
  | group :: incoming =>
      match group_key group with
      | Some i => if bool_decide (i ∈ seen_ids) then merge_incoming seen_ids incoming
                  else group :: merge_incoming (i :: seen_ids) incoming
      | None => group :: merge_incoming seen_ids incoming
      end
  end.

Definition merge_signal_groups (existing incoming : list pyval) : list pyval :=
  existing ++ merge_incoming (omap group_key existing) incoming.

(** The candidate an existing one and a later one with the same id merge to. *)
Definition merge_pair (existing candidate : CauseCandidate) : CauseCandidate :=
  {| candidate_id := candidate_id existing;
     title := title existing;
     description := description existing;
     expected_evidence :=
       unique_ordered (expected_evidence existing ++ expected_evidence candidate);
     checks := unique_ordered (checks existing ++ checks candidate);
     signals := merge_signal_groups (signals existing) (signals candidate);
     c_source := c_source existing |}.

Definition merge_step (by_id : list (string * CauseCandidate)) (candidate : CauseCandidate)
    : list (string * CauseCandidate) :=
  dict_set by_id (candidate_id candidate)
    match dict_get by_id (candidate_id candidate) with
    | None => candidate
    | Some existing => merge_pair existing candidate
    end.

Definition merge_candidates (cs : list CauseCandidate) : list CauseCandidate :=
  (fold_left merge_step cs []).*2.

Definition build_rule_missing (incident : IncidentRecord) (evidence_ref : string) : RcaRuleMissing :=
  {| rm_incident_id := incident_id incident; rm_symptom := symptom incident;
     rm_evidence_ref := evidence_ref; rm_missing_evidence := [MATCHING_CAUSE_RULE_EVIDENCE];
     rm_message := NO_MATCHING_RULE_MESSAGE; rm_workspace_id := workspace_id incident |}.

(** The candidates of the rules that match, in order. *)
Definition planned (incident : IncidentRecord) (b : EvidenceBundle) (rules : list CauseRule)
    : list CauseCandidate :=
  flat_map (fun rule =>
    if cr_matches rule incident b then cr_candidates rule incident b else []) rules.

Definition plan_causes (incident : IncidentRecord) (b : EvidenceBundle) (evidence_ref : string)
    (rules : list CauseRule) : CausePlan :=
  match merge_candidates (planned incident b rules) with
  | [] => {| candidates := []; rule_missing := Some (build_rule_missing incident evidence_ref) |}
  | merged => {| candidates := merged; rule_missing := None |}
  end.

(** ** Evaluation *)

Definition evidence_key (source name : string) : string := source +:+ ":" +:+ name.

Definition evidence_keys (b : EvidenceBundle) : list string :=
  flat_map (fun item => [source item; evidence_key (source item) (name item)]) (items b).

Definition evidence_refs_for_keys (b : EvidenceBundle) (keys : list string)
    : list EvidenceReference :=
  reference <$> keep (fun item =>
    bool_decide (source item ∈ keys) || bool_decide (evidence_key (source item) (name item) ∈ keys))
    (items b).

Definition missing_evidence_reason (source : string) (candidate_checks : list string) : string :=
  match candidate_checks with
  | [] => source +:+ " evidence query/check must complete before RCA can be finalized."
  | _ => source +:+ " evidence is required to evaluate checks: " +:+ join ", " candidate_checks
  end.

Definition missing_evidence_checks (missing candidate_checks : list string)
    : list MissingEvidenceCheck :=
  (fun source =>
     {| mc_check_id := "evidence:" +:+ source +:+ ":required"; mc_source := source;
        mc_status := "missing"; mc_reason := missing_evidence_reason source candidate_checks |})
  <$> missing.

Definition missing_signal_checks (unmatched_groups : list pyval) : res (list MissingEvidenceCheck) :=
  mapr (fun group =>
    token ← signal_missing_token group;
    described ← describe_signal_group group;
    Ok {| mc_check_id := token; mc_source := "signals"; mc_status := "missing";
          mc_reason := "판별 신호 미충족 — 다음 중 하나가 관측되어야 합니다: " +:+ described |})
    unmatched_groups.

Definition count_str (n : Z) : string := str_of_int n.

Definition build_evaluation_reason (expected supporting signal matched : Z) : string :=
  let reason := "필요한 근거 " +:+ count_str expected +:+ "개 중 " +:+ count_str supporting
                  +:+ "개가 수집되었습니다." in
  if signal =? 0 then reason
  else reason +:+ " 판별 신호 " +:+ count_str signal +:+ "개 중 " +:+ count_str matched
         +:+ "개가 확인되었습니다.".

Definition len {A} (l : list A) : Z := Z.of_nat (length l).

Definition evaluate_candidate (b : EvidenceBundle) (bundle_signals : BundleSignals)
    (candidate : CauseCandidate) : res CauseEvaluation :=
  let actual := evidence_keys b in
  let expected := unique_first (expected_evidence candidate) in
  let supporting := isort String.leb (keep (fun e => bool_decide (e ∈ actual)) expected) in
  let missing_sources :=
    isort String.leb (keep (fun e => negb (bool_decide (e ∈ actual))) expected) in
  '(matched_groups, unmatched_groups) ← split_signal_groups (signals candidate) bundle_signals;
  tokens ← mapr signal_missing_token unmatched_groups;
  let denominator := len expected + len (signals candidate) in
  signal_checks ← missing_signal_checks unmatched_groups;
  Ok {| e_candidate_id := candidate_id candidate;
        score := if denominator =? 0 then fzero
                 else int_div (len supporting + len matched_groups) denominator;
        e_checks := checks candidate;
        supporting_evidence := supporting;
        missing_evidence := missing_sources ++ tokens;
        e_reason := build_evaluation_reason (len expected) (len supporting)
                      (len (signals candidate)) (len matched_groups);
        supporting_evidence_refs := evidence_refs_for_keys b supporting;
        missing_evidence_checks_of :=
          missing_evidence_checks missing_sources (checks candidate) ++ signal_checks;
        matched_signal_count := len matched_groups;
        required_signal_count := len (signals candidate) |}.

Definition evaluate_causes (cs : list CauseCandidate) (b : EvidenceBundle)
    (rm : option RcaRuleMissing) : res (list CauseEvaluation) :=
  match rm with
  | Some rm =>
      Ok [{| e_candidate_id := UNKNOWN_EVALUATION_ID; score := fzero;
             e_checks := [MATCHING_CAUSE_RULE_EVIDENCE]; supporting_evidence := [];
             missing_evidence := rm_missing_evidence rm; e_reason := NO_MATCHING_RULE_MESSAGE;
             supporting_evidence_refs := []; missing_evidence_checks_of := [];
             matched_signal_count := 0; required_signal_count := 0 |}]
  | None =>
      bundle_signals ← extract_bundle_signals b;
      mapr (evaluate_candidate b bundle_signals) cs
  end.

(** ** Selection *)

Definition build_root_cause_reason (selected : CauseEvaluation) : string :=
  if str_eqb (e_candidate_id selected) UNKNOWN_EVALUATION_ID then NO_MATCHING_RULE_MESSAGE
  else e_candidate_id selected +:+ " 후보가 가장 높은 점수로 평가되었고, " +:+
       "누락 근거 " +:+ count_str (len (missing_evidence selected)) +:+ "개, " +:+
       "충족 근거 " +:+ count_str (len (supporting_evidence selected)) +:+
       "개를 기준으로 최종 원인으로 선택했습니다.".

Definition unknown_root_cause (e : CauseEvaluation) : RcaReportDetail :=
  let missing := unique_ordered (MATCHING_CAUSE_RULE_EVIDENCE :: missing_evidence e) in
  {| root_cause := UNKNOWN_EVALUATION_ID; confidence := fzero;
     selected_candidate_id := UNKNOWN_EVALUATION_ID; d_supporting_evidence := [];
     d_missing_evidence := missing; d_reason := NO_MATCHING_RULE_MESSAGE;
     d_missing_evidence_checks := missing_evidence_checks missing [];
     d_supporting_evidence_refs := supporting_evidence_refs e |}.

Definition insufficient_evidence_root_cause (es : list CauseEvaluation) : RcaReportDetail :=
  let missing := unique_ordered (flat_map missing_evidence es) in
  {| root_cause := "insufficient_evidence"; confidence := fzero;
     selected_candidate_id := "none"; d_supporting_evidence := [];
     d_missing_evidence := missing;
     d_reason := "후보는 생성됐지만 매칭된 근거가 없어 최종 원인을 확정하지 않았습니다.";
     d_missing_evidence_checks := missing_evidence_checks missing [];
     d_supporting_evidence_refs := [] |}.

Definition no_candidates_root_cause : RcaReportDetail :=
  {| root_cause := "분석 가능한 원인 후보 없음"; confidence := fzero;
     selected_candidate_id := "none"; d_supporting_evidence := []; d_missing_evidence := [];
     d_reason := "평가된 원인 후보가 없어 최종 원인을 선택할 수 없습니다.";
     d_missing_evidence_checks := []; d_supporting_evidence_refs := [] |}.

Definition discriminator_eligible (e : CauseEvaluation) : bool :=
  (required_signal_count e =? 0) || (matched_signal_count e =? required_signal_count e).

Definition supported (es : list CauseEvaluation) : list CauseEvaluation :=
  keep (fun e => negb (bool_decide (supporting_evidence e = []))) (keep discriminator_eligible es).

(** The key tuple of [min], and Python's order on it: the first component that
    differs decides. *)
Definition selection_key (e : CauseEvaluation) : float * Z * Z :=
  (fopp (score e), - matched_signal_count e, len (missing_evidence e)).

Definition key_ltb (a b : float * Z * Z) : bool :=
  let '(s, m, n) := a in let '(s', m', n') := b in
  if negb (feqb s s') then fltb s s'
  else if negb (m =? m') then m <? m'
  else n <? n'.

(** [min(e :: es, key=...)]: the first of the smallest. *)
Definition min_by_key (e : CauseEvaluation) (es : list CauseEvaluation) : CauseEvaluation :=
  fold_left (fun best x => if key_ltb (selection_key x) (selection_key best) then x else best) es e.

Definition selected_detail (e : CauseEvaluation) : RcaReportDetail :=
  {| root_cause := e_candidate_id e; confidence := score e;
     selected_candidate_id := e_candidate_id e; d_supporting_evidence := supporting_evidence e;
     d_missing_evidence := missing_evidence e; d_reason := build_root_cause_reason e;
     d_missing_evidence_checks := missing_evidence_checks_of e;
     d_supporting_evidence_refs := supporting_evidence_refs e |}.

Definition analyze_root_cause (es : list CauseEvaluation) : RcaReportDetail :=
  match es with
  | [] => no_candidates_root_cause
  | first :: _ =>
      if str_eqb (e_candidate_id first) UNKNOWN_EVALUATION_ID then unknown_root_cause first
      else match supported es with
           | [] => insufficient_evidence_root_cause es
           | e :: rest => selected_detail (min_by_key e rest)
           end
  end.

(** [block_reason_code(evt, detail)]; of the event it reads [rule_missing]. *)
Definition block_reason_code (rm : option RcaRuleMissing) (d : RcaReportDetail) : option string :=
  if bool_decide (rm <> None) || str_eqb (root_cause d) "unknown" then Some "rule_missing"
  else if str_eqb (root_cause d) "insufficient_evidence" then Some "insufficient_evidence"
  else if str_eqb (selected_candidate_id d) "none" then Some "no_evaluation"
  else if negb (bool_decide (d_missing_evidence d = [])) then Some "insufficient_evidence"
  else None.

(** ** Lemmas on merging *)

(** Two signal groups count as one: they are equal, or have the same id. *)
Definition same_group (g g' : pyval) : Prop :=
  g = g' \/ exists i, group_key g = Some i /\ group_key g' = Some i.

(** What [merge_candidates] knows after the candidates [cs]: an entry per id,
    in the order of first occurrence, with the title, description, source and
    signal groups of the first candidate, the evidence and the checks of all,
    and a group of the same id for every signal group of the others. *)
Definition with_id (i : string) (cs : list CauseCandidate) : list CauseCandidate :=
  keep (fun c => str_eqb (candidate_id c) i) cs.

Definition merged_from (cs : list CauseCandidate) (m : CauseCandidate) : Prop :=
  (exists c rest, with_id (candidate_id m) cs = c :: rest /\
     title m = title c /\ description m = description c /\ c_source m = c_source c /\
     forall g, g ∈ signals c -> g ∈ signals m) /\
  (forall e, e ∈ expected_evidence m <->
     exists c, c ∈ with_id (candidate_id m) cs /\ e ∈ expected_evidence c) /\
  (forall k, k ∈ checks m <-> exists c, c ∈ with_id (candidate_id m) cs /\ k ∈ checks c) /\
  (forall c g, c ∈ with_id (candidate_id m) cs -> g ∈ signals c ->
     exists g', g' ∈ signals m /\ same_group g g') /\
  (forall g, g ∈ signals m -> exists c, c ∈ with_id (candidate_id m) cs /\ g ∈ signals c).

Lemma merge_incoming_elem seen incoming :
  (forall g, g ∈ merge_incoming seen incoming -> g ∈ incoming) /\
  (forall g, g ∈ incoming -> (exists i, group_key g = Some i /\ i ∈ seen) \/
     exists g', g' ∈ merge_incoming seen incoming /\ same_group g g').
Proof.
  revert seen. induction incoming as [|x l IH]; intros seen; [split; by intros g ?%not_elem_of_nil|].
  cbn. destruct (group_key x) as [i|] eqn:Ek; [case_bool_decide as Hi|].
  - destruct (IH seen) as [H1 H2]. split; [set_solver|].
    intros g [->|Hg]%elem_of_cons; [left; eauto|by apply H2].
  - destruct (IH (i :: seen)) as [H1 H2]. split; [set_solver|].
    intros g [->|Hg]%elem_of_cons; [right; exists x; split; [set_solver|by left]|].
    destruct (H2 g Hg) as [(j & Hj & [->|Hs]%elem_of_cons)|(g' & Hg' & Hs)]; [|by left; eauto|].
    + right. exists x. split; [set_solver|]. right. eauto.
    + right. exists g'. split; [set_solver|done].
  - destruct (IH seen) as [H1 H2]. split; [set_solver|].
    intros g [->|Hg]%elem_of_cons; [right; exists x; split; [set_solver|by left]|].
    destruct (H2 g Hg) as [?|(g' & Hg' & Hs)]; [by left|]. right. exists g'. split; [set_solver|done].
Qed.

Lemma merge_signal_groups_elem existing incoming :
  (forall g, g ∈ existing -> g ∈ merge_signal_groups existing incoming) /\
  (forall g, g ∈ merge_signal_groups existing incoming -> g ∈ existing \/ g ∈ incoming) /\
  (forall g, g ∈ incoming -> exists g', g' ∈ merge_signal_groups existing incoming /\ same_group g g').
Proof.
  unfold merge_signal_groups. destruct (merge_incoming_elem (omap group_key existing) incoming) as [H1 H2].
  split_and!; [set_solver..|]. intros g Hg.
  destruct (H2 g Hg) as [(i & Hi & (g' & Hg' & Hk)%list_elem_of_omap)|(g' & Hg' & Hs)]; exists g'.
  - split; [set_solver|]. right. eauto.
  - split; [set_solver|done].
Qed.

Lemma with_id_snoc i cs c :
  with_id i (cs ++ [c]) = with_id i cs ++ (if str_eqb (candidate_id c) i then [c] else []).
Proof. unfold with_id. rewrite keep_app. cbn. by destruct (str_eqb _ _). Qed.

Lemma with_id_nil i cs : i ∉ candidate_id <$> cs -> with_id i cs = [].
Proof.
  intros Hi. apply keep_false. intros c Hc. destruct (str_eqb _ _) eqn:E; [|done].
  apply str_eqb_eq in E as <-. exfalso. apply Hi. apply list_elem_of_fmap. by exists c.
Qed.

Lemma merged_from_other cs c m :
  candidate_id c <> candidate_id m -> merged_from cs m -> merged_from (cs ++ [c]) m.
Proof.
  intros Hne. unfold merged_from. rewrite with_id_snoc.
  destruct (str_eqb _ _) eqn:E; [by apply str_eqb_eq in E|]. by rewrite app_nil_r.
Qed.

Lemma merged_from_fresh cs c :
  candidate_id c ∉ candidate_id <$> cs -> merged_from (cs ++ [c]) c.
Proof.
  intros Hc. unfold merged_from. rewrite with_id_snoc, str_eqb_refl, with_id_nil by done. cbn.
  split; [by exists c, []|]. setoid_rewrite list_elem_of_singleton. split_and!.
  1-2: intros ?; split; [by eauto|by intros (? & -> & ?)].
  - intros c' g -> Hg. exists g. split; [done|by left].
  - eauto.
Qed.

Lemma merged_from_pair cs c m :
  candidate_id c = candidate_id m -> merged_from cs m -> merged_from (cs ++ [c]) (merge_pair m c).
Proof.
  intros Hid ((c0 & rest & Hw & Ht & Hd & Hs & Hg0) & He & Hk & Hg & Hfrom). unfold merged_from. cbn.
  destruct (merge_signal_groups_elem (signals m) (signals c)) as (Hold & Hboth & Hnew).
  set (ms := merge_signal_groups (signals m) (signals c)) in *. clearbody ms.
  rewrite with_id_snoc, Hid, str_eqb_refl. unfold unique_ordered.
  setoid_rewrite elem_of_unique_first. setoid_rewrite elem_of_app.
  setoid_rewrite list_elem_of_singleton. split_and!.
  - exists c0, (rest ++ [c]). rewrite Hw. split_and!; eauto.
  - intros e. rewrite He. split; [intros [(c' & ? & ?)|?]; eauto|]. intros (c' & [?| ->] & ?); eauto.
  - intros e. rewrite Hk. split; [intros [(c' & ? & ?)|?]; eauto|]. intros (c' & [?| ->] & ?); eauto.
  - intros c' g [Hc| ->] Hin; [|by apply Hnew].
    destruct (Hg c' g Hc Hin) as (g' & Hg' & Hsame). exists g'. auto.
  - intros g [Hin|Hin]%Hboth; [|by eauto]. destruct (Hfrom g Hin) as (c' & ? & ?). eauto.
Qed.

Lemma merge_fold cs :
  let by_id := fold_left merge_step cs [] in
  by_id.*1 = unique_first (candidate_id <$> cs) /\
  forall i m, (i, m) ∈ by_id -> candidate_id m = i /\ merged_from cs m.
Proof.
  induction cs as [|c cs IH] using rev_ind; [split; [done|]; intros ?? ?%elem_of_nil; done|].
  cbn in *. destruct IH as [Hk IH].
  rewrite fold_left_app, fmap_app. cbn. unfold merge_step at 1 3.
  set (by_id := fold_left merge_step cs []) in *.
  assert (NoDup by_id.*1) as Hnd by (rewrite Hk; apply NoDup_unique_first).
  rewrite unique_first_snoc. destruct (dict_get by_id (candidate_id c)) as [m|] eqn:E.
  - pose proof (dict_get_elem _ _ _ E) as Hin.
    assert (candidate_id c ∈ candidate_id <$> cs) as Hc.
    { rewrite <- elem_of_unique_first, <- Hk. apply list_elem_of_fmap. by exists (candidate_id c, m). }
    rewrite dict_set_keys, bool_decide_eq_true_2, app_nil_r
      by (done || by unfold has_key; rewrite E).
    split; [done|]. intros i m' Hm'.
    apply dict_get_NoDup in Hm'; [|by rewrite dict_set_keys by (unfold has_key; by rewrite E)].
    destruct (decide (i = candidate_id c)) as [->|Hne].
    + rewrite dict_get_set_eq in Hm'. injection Hm' as <-. destruct (IH _ _ Hin) as [Hid Hm].
      split; [done|]. by apply merged_from_pair.
    + rewrite dict_get_set_ne in Hm' by done. pose proof (dict_get_elem _ _ _ Hm') as Hold.
      destruct (IH _ _ Hold) as [<- Hm]. split; [done|]. by apply merged_from_other.
  - apply dict_get_None in E. rewrite dict_set_fresh by done.
    assert (candidate_id c ∉ candidate_id <$> cs) as Hc.
    { by rewrite <- elem_of_unique_first, <- Hk. }
    rewrite bool_decide_eq_false_2, fmap_app by done. cbn. rewrite Hk. split; [done|].
    intros i m [Hm|[= -> ->]%list_elem_of_singleton]%elem_of_app.
    + destruct (IH _ _ Hm) as [<- Hmf]. split; [done|]. apply merged_from_other; [|done].
      intros Heq. apply Hc. rewrite Heq, <- elem_of_unique_first, <- Hk.
      apply list_elem_of_fmap. by exists (candidate_id m, m).
    + split; [done|]. by apply merged_from_fresh.
Qed.

(** merging keeps exactly one candidate per id, in the order the ids
    first occur; each merged candidate carries the title, description and
    source of the first candidate with its id, and expects precisely the
    evidence, and lists precisely the checks, that some candidate with that id
    does; every signal group of such a candidate is there under its id. *)
Theorem merge_candidates_spec cs :
  candidate_id <$> merge_candidates cs = unique_first (candidate_id <$> cs) /\
  forall m, m ∈ merge_candidates cs -> merged_from cs m.
Proof.
  destruct (merge_fold cs) as [Hk Hm]. unfold merge_candidates.
  set (by_id := fold_left merge_step cs []) in *. split.
  - rewrite <- Hk, <- list_fmap_compose. apply list_fmap_ext. intros i [j m] Hj.
    apply (Hm j m). by apply list_elem_of_lookup_2 with i.
  - intros m ([i m'] & -> & Hin)%list_elem_of_fmap. by apply (Hm i).
Qed.

Lemma merge_candidates_nil cs : merge_candidates cs = [] <-> cs = [].
Proof.
  split; [|by intros ->]. intros Hm. destruct (merge_fold cs) as [Hk _].
  unfold merge_candidates in Hm. apply fmap_nil_inv in Hm. rewrite Hm in Hk. cbn in Hk.
  destruct cs as [|c cs]; [done|]. exfalso.
  assert (candidate_id c ∈ unique_first (candidate_id <$> c :: cs)) as Hin
    by (apply elem_of_unique_first; set_solver).
  rewrite <- Hk in Hin. by apply elem_of_nil in Hin.
Qed.

(** ** Lemmas on planning *)

Lemma planned_nil incident b rules :
  planned incident b rules = [] <->
  forall r, r ∈ rules -> cr_matches r incident b = true -> cr_candidates r incident b = [].
Proof.
  unfold planned. induction rules as [|r rules IH]; cbn; [set_solver|].
  rewrite app_nil, IH. setoid_rewrite elem_of_cons. split.
  - intros [Hr Hall] r' [->|Hin] Hm; [by rewrite Hm in Hr | by apply Hall].
  - intros Hall. split; [|auto]. destruct (cr_matches r incident b) eqn:E; [|done].
    apply Hall; auto.
Qed.

(** a plan records a missing rule precisely when it has no candidate,
    which is precisely when no rule that matches the incident proposes one;
    the pipeline then never completes: the evaluation returns, the reported
    cause has confidence zero and the analysis is blocked as [rule_missing]. *)
Theorem unmatched_incident_is_blocked incident b evidence_ref rules :
  let plan := plan_causes incident b evidence_ref rules in
  (rule_missing plan = None <-> candidates plan <> []) /\
  (candidates plan = [] <->
   forall r, r ∈ rules -> cr_matches r incident b = true -> cr_candidates r incident b = []) /\
  (rule_missing plan <> None ->
   exists es, evaluate_causes (candidates plan) b (rule_missing plan) = Ok es /\
     confidence (analyze_root_cause es) = fzero /\
     MATCHING_CAUSE_RULE_EVIDENCE ∈ d_missing_evidence (analyze_root_cause es) /\
     block_reason_code (rule_missing plan) (analyze_root_cause es) = Some "rule_missing").
Proof.
  cbn zeta. rewrite <- planned_nil. pose proof (merge_candidates_nil (planned incident b rules)) as Hn.
  unfold plan_causes. destruct (merge_candidates _) as [|c cs] eqn:E; cbn.
  - split; [done|]. split; [tauto|]. intros _. eexists. split; [done|].
    split; [done|]. split; [|done]. cbn. apply elem_of_unique_first. set_solver.
  - split; [done|]. split; [|by intros []]. rewrite <- Hn. done.
Qed.

(** ** Lemmas on selection *)

Definition key_nan (k : float * Z * Z) : bool := is_nan k.1.1.

Definition key_lt (a b : float * Z * Z) : Prop :=
  let '(s, m, n) := a in let '(s', m', n') := b in
  let '(x, y, z) := rank s in let '(x', y', z') := rank s' in
  x < x' \/ (x = x' /\ (y < y' \/ (y = y' /\ (z < z' \/ (z = z' /\
    (m < m' \/ (m = m' /\ n < n'))))))).

(** On keys without NaN the tuple order is a lexicographic one. *)
Lemma key_ltb_spec a b :
  key_nan a = false -> key_nan b = false -> key_ltb a b = true <-> key_lt a b.
Proof.
  destruct a as [[s m] n], b as [[s' m'] n']. unfold key_nan, key_lt. cbn. intros Ha Hb.
  pose proof (feqb_rank s s' Ha Hb) as He. pose proof (fltb_rank s s' Ha Hb) as Hl.
  destruct (feqb s s'); cbn.
  - rewrite (proj1 He eq_refl). destruct (rank s') as [[??]?].
    destruct (Z.eqb_spec m m'); cbn; lia.
  - rewrite Hl. assert (rank s <> rank s') as Hne by (intros Hr; by apply He in Hr).
    destruct (rank s) as [[x y] z], (rank s') as [[x' y'] z']. cbn.
    assert (x <> x' \/ y <> y' \/ z <> z'); [|lia].
    destruct (decide (x = x')) as [->|]; [|lia]. destruct (decide (y = y')) as [->|]; [|lia].
    destruct (decide (z = z')) as [->|]; [done|lia].
Qed.

Lemma key_lt_trans a b c : key_lt a b -> key_lt b c -> key_lt a c.
Proof.
  destruct a as [[s m] n], b as [[s' m'] n'], c as [[s'' m''] n'']. unfold key_lt.
  destruct (rank s) as [[??]?], (rank s') as [[??]?], (rank s'') as [[??]?]. lia.
Qed.

Lemma key_lt_le_trans a b c : key_lt a b -> ~ key_lt c b -> key_lt a c.
Proof.
  destruct a as [[s m] n], b as [[s' m'] n'], c as [[s'' m''] n'']. unfold key_lt.
  destruct (rank s) as [[??]?], (rank s') as [[??]?], (rank s'') as [[??]?]. lia.
Qed.

(** [x] beats [y] in [min]. *)
Definition better (x y : CauseEvaluation) : Prop := key_lt (selection_key x) (selection_key y).
Definition finite_score (e : CauseEvaluation) : Prop := is_nan (score e) = false.

Lemma better_spec x y :
  finite_score x -> finite_score y ->
  key_ltb (selection_key x) (selection_key y) = true <-> better x y.
Proof. intros Hx Hy. apply key_ltb_spec; unfold key_nan; cbn; by rewrite is_nan_fopp. Qed.

Lemma min_by_key_spec e es :
  Forall finite_score (e :: es) ->
  exists pre post, e :: es = pre ++ min_by_key e es :: post /\
    Forall (fun x => better (min_by_key e es) x) pre /\
    Forall (fun x => ~ better x (min_by_key e es)) post.
Proof.
  intros Hall. induction es as [|x es IH] using rev_ind; [by exists [], []|].
  rewrite Forall_cons, Forall_app, Forall_singleton in Hall. destruct Hall as (He & Hes & Hx).
  destruct IH as (pre & post & Heq & Hpre & Hpost); [by constructor|].
  unfold min_by_key in *. rewrite fold_left_app. cbn [fold_left].
  set (best := fold_left _ es e) in *.
  assert (finite_score best) as Hb.
  { apply (Forall_forall finite_score (e :: es)); [by constructor|]. rewrite Heq. set_solver. }
  pose proof (better_spec x best Hx Hb) as Hlt. destruct (key_ltb _ _).
  - exists (e :: es), []. split; [done|]. split; [|done]. rewrite Heq.
    assert (better x best) as Hxb by by apply Hlt.
    apply Forall_app. split; [|constructor; [done|]].
    + eapply Forall_impl; [exact Hpre|]. intros y Hy. by eapply key_lt_trans.
    + eapply Forall_impl; [exact Hpost|]. intros y Hy. by eapply key_lt_le_trans.
  - exists pre, (post ++ [x]). split; [by rewrite app_comm_cons, Heq, <- app_assoc|].
    split; [done|]. apply Forall_app. split; [done|]. constructor; [|done].
    intros Hxb. by apply Hlt in Hxb.
Qed.

(** when some evaluation has evidence and all its discriminating signals,
    the analysis reports the best of those, in the order the code states
    (higher score, then more matched signals, then less missing evidence): it
    beats every such evaluation listed before it and none listed after it
    beats it; evaluations with an unmatched signal are never chosen. *)
Theorem analysis_selects_best first es :
  Forall finite_score (first :: es) ->
  e_candidate_id first <> UNKNOWN_EVALUATION_ID ->
  supported (first :: es) <> [] ->
  exists pre best post,
    supported (first :: es) = pre ++ best :: post /\
    analyze_root_cause (first :: es) = selected_detail best /\
    Forall (better best) pre /\ Forall (fun x => ~ better x best) post /\
    supporting_evidence best <> [] /\
    (required_signal_count best = 0 \/ matched_signal_count best = required_signal_count best).
Proof.
  intros Hall Hid Hsup. cbn [analyze_root_cause].
  destruct (str_eqb _ _) eqn:E; [by apply str_eqb_eq in E|]. clear E Hid.
  assert (forall x, x ∈ supported (first :: es) -> x ∈ first :: es /\
    discriminator_eligible x = true /\ supporting_evidence x <> []) as Hin.
  { intros x [[? ?]%elem_of_keep Hs]%elem_of_keep. bool_simpl. done. }
  destruct (supported (first :: es)) as [|e rest] eqn:E; [done|].
  destruct (min_by_key_spec e rest) as (pre & post & Heq & Hpre & Hpost).
  { apply Forall_forall. intros x Hx. rewrite Forall_forall in Hall. by apply Hall, Hin. }
  exists pre, (min_by_key e rest), post. do 4 (split; [done|]).
  destruct (Hin (min_by_key e rest)) as (_ & Hd & Hs); [rewrite Heq; set_solver|].
  split; [done|]. unfold discriminator_eligible in Hd. lia.
Qed.

(** ** Lemmas on evaluation *)

Lemma evaluate_candidate_id b sig c e :
  evaluate_candidate b sig c = Ok e -> e_candidate_id e = candidate_id c.
Proof.
  unfold evaluate_candidate. intros ([m u] & _ & (t & _ & (k & _ & [= <-])%bind_Ok)%bind_Ok)%bind_Ok.
  done.
Qed.

Lemma mapr_nil_inv {A B} (f : A -> res B) l : mapr f l = Ok [] -> l = [].
Proof. intros Hf%mapr_Ok. by inversion Hf. Qed.

(** An evaluation that misses nothing: all the expected evidence is in the
    bundle, every signal group is matched and the score is exactly one. *)
Lemma nothing_missing b sig c e :
  evaluate_candidate b sig c = Ok e -> missing_evidence e = [] -> supporting_evidence e <> [] ->
  (forall k, k ∈ expected_evidence c -> k ∈ evidence_keys b) /\
  (forall g, g ∈ signals c -> match_signal_group g sig = Ok true) /\
  score e = flit "1.0".
Proof.
  unfold evaluate_candidate.
  intros ([m u] & Hsplit & (t & Ht & (k & _ & [= <-])%bind_Ok)%bind_Ok)%bind_Ok. cbn -[flit].
  intros [Hms ->]%app_nil Hsup. apply mapr_nil_inv in Ht as ->.
  apply split_signal_groups_spec in Hsplit as (Hp & Hm & _). rewrite app_nil_r in Hp.
  set (expected := unique_first (expected_evidence c)) in *.
  set (actual := evidence_keys b) in *.
  assert (forall x, x ∈ expected -> x ∈ actual) as Hall.
  { intros x Hx. destruct (decide (x ∈ actual)) as [|Hn]; [done|]. exfalso.
    assert (x ∈ isort String.leb (keep (fun e => negb (bool_decide (e ∈ actual))) expected)) as Hbad.
    { apply elem_of_isort, elem_of_keep. split; [done|]. by rewrite bool_decide_eq_false_2. }
    rewrite Hms in Hbad. by apply elem_of_nil in Hbad. }
  rewrite (keep_true (fun e => bool_decide (e ∈ actual)) expected) in *
    by (intros x Hx; by apply bool_decide_eq_true_2, Hall).
  split; [intros x Hx; by apply Hall, elem_of_unique_first|].
  split; [intros g Hg; apply Hm; by rewrite Hp|].
  unfold len. rewrite length_isort, (Permutation_length Hp).
  assert (length expected <> 0%nat).
  { intros H0%nil_length_inv. by rewrite H0 in Hsup. }
  destruct (Z.eqb_spec (Z.of_nat (length expected) + Z.of_nat (length (signals c))) 0); [lia|].
  apply int_div_self. lia.
Qed.

Lemma evaluate_causes_None cs b es :
  evaluate_causes cs b None = Ok es ->
  exists sig, extract_bundle_signals b = Ok sig /\
    forall e, e ∈ es -> exists c, c ∈ cs /\ evaluate_candidate b sig c = Ok e.
Proof.
  cbn. intros (sig & Hsig & Hes)%bind_Ok. exists sig. split; [done|].
  intros e He. by eapply mapr_elem_r.
Qed.

Lemma min_by_key_elem e es : min_by_key e es ∈ e :: es.
Proof.
  unfold min_by_key. revert e. induction es as [|x es IH]; intros e; cbn [fold_left]; [set_solver|].
  destruct (key_ltb _ _); [specialize (IH x)|specialize (IH e)]; set_solver.
Qed.

(** What the analysis reports: a literal, or one of the supported evaluations. *)
Lemma analyze_cases es :
  block_reason_code None (analyze_root_cause es) = None ->
  exists e, e ∈ es /\ supporting_evidence e <> [] /\ missing_evidence e = [] /\
    analyze_root_cause es = selected_detail e.
Proof.
  destruct es as [|first es]; [done|]. cbn [analyze_root_cause].
  destruct (str_eqb _ _); [done|].
  destruct (supported (first :: es)) as [|e rest] eqn:E; [done|].
  pose proof (min_by_key_elem e rest) as Hin. rewrite <- E in Hin.
  apply elem_of_keep in Hin as [[Hin _]%elem_of_keep Hs]. intros Hb.
  exists (min_by_key e rest). split; [done|]. split; [bool_simpl; done|]. split; [|done].
  unfold block_reason_code in Hb. case_all. bool_simpl. done.
Qed.

(** C10: an analysis completes only on a proved cause.  If evaluating the
    candidates and analysing the evaluations is not blocked, then no rule was
    missing and the reported cause is a candidate all of whose expected
    evidence is in the bundle, each of whose signal groups is matched by the
    bundle's signals, and whose confidence is exactly 1.0. *)
Theorem completed_means_proved cs b rm es :
  evaluate_causes cs b rm = Ok es ->
  block_reason_code rm (analyze_root_cause es) = None ->
  rm = None /\
  exists c sig, c ∈ cs /\ extract_bundle_signals b = Ok sig /\
    root_cause (analyze_root_cause es) = candidate_id c /\
    selected_candidate_id (analyze_root_cause es) = candidate_id c /\
    (forall k, k ∈ expected_evidence c -> k ∈ evidence_keys b) /\
    (forall g, g ∈ signals c -> match_signal_group g sig = Ok true) /\
    confidence (analyze_root_cause es) = flit "1.0".
Proof.
  intros Hev Hb. destruct rm as [rm|]; [done|]. split; [done|].
  destruct (analyze_cases _ Hb) as (e & He & Hs & Hm & ->).
  destruct (evaluate_causes_None _ _ _ Hev) as (sig & Hsig & Hall).
  destruct (Hall e He) as (c & Hc & Hcand).
  destruct (nothing_missing _ _ _ _ Hcand Hm Hs) as (H1 & H2 & H3).
  pose proof (evaluate_candidate_id _ _ _ _ Hcand). exists c, sig. done.
Qed.

End engine.

(** ** The registry *)

(** The ids of the registered rules are pairwise distinct. *)
Definition unique_rule_ids (registry : list CauseProfile) : Prop := NoDup (omap rule_id registry).

(** The registrations the module performs when it is imported. *)
Inductive registered : list CauseProfile -> Prop :=
  | registered_none : registered []
  | registered_code symptoms required specs i registry registry' :
      registered registry -> causes_for symptoms required specs i registry = Ok registry' ->
      registered registry'
  | registered_catalog files registry registry' :
      registered registry -> register_catalog_profiles files registry = Ok registry' ->
      registered registry'.

Lemma causes_for_unique sy rq sp i registry registry' :
  causes_for sy rq sp i registry = Ok registry' ->
  unique_rule_ids registry -> unique_rule_ids registry'.
Proof.
  unfold causes_for, unique_rule_ids. intros (u & Hu & [= <-])%bind_Ok Hnd.
  apply raise_if_Ok in Hu. rewrite omap_app. apply NoDup_app. split; [done|].
  destruct i as [i|]; cbn; [|split; [set_solver|constructor]].
  split; [|apply NoDup_singleton]. intros j Hj ->%list_elem_of_singleton.
  apply list_elem_of_omap in Hj as (p & Hp & Hi).
  apply not_true_iff_false in Hu. apply Hu. apply existsb_elem. exists p. split; [done|].
  by apply bool_decide_eq_true_2.
Qed.

(** The profiles loaded so far have the ids of [seen_ids], in order. *)
Definition loaded (st : list (string * string) * list CauseProfile) : Prop :=
  Some <$> st.1.*1 = rule_id <$> st.2 /\ NoDup st.1.*1.

Lemma load_profile_loaded path st p st' :
  load_profile path st p = Ok st' -> loaded st -> loaded st'.
Proof.
  destruct st as [seen profiles]. unfold load_profile.
  intros (i & Hi%raise_none_Ok & (u & Hu%raise_if_Ok & [= <-])%bind_Ok)%bind_Ok [Heq Hnd].
  cbn in *. assert (i ∉ seen.*1) as Hni by (rewrite <- has_key_elem, Hu; done).
  unfold loaded. cbn. rewrite dict_set_fresh, !fmap_app, Heq by done. cbn. rewrite Hi.
  split; [done|]. apply NoDup_app. split; [done|]. split; [set_solver|apply NoDup_singleton].
Qed.

Lemma load_catalog_unique files profiles :
  load_catalog_profiles files = Ok profiles ->
  NoDup (omap rule_id profiles) /\ forall p, p ∈ profiles -> rule_id p <> None.
Proof.
  unfold load_catalog_profiles. intros (st & Hst & [= <-])%bind_Ok.
  assert (loaded st) as [Heq Hnd].
  { eapply (foldr_res_inv load_file loaded); [|exact Hst|split; [done|constructor]].
    intros b [path parsed] b' _ (l & _ & Hl)%bind_Ok Hb.
    eapply (foldr_res_inv (load_profile path) loaded); [|exact Hl|done].
    intros ??? _. apply load_profile_loaded. }
  assert (omap rule_id st.2 = st.1.*1) as ->.
  { generalize dependent Heq. generalize (st.1.*1) (st.2). clear.
    intros l ps. revert l. induction ps as [|p ps IH]; intros [|i l]; cbn; try done.
    intros [= <- Heq]. by rewrite (IH l). }
  split; [done|]. intros p Hp Hnone.
  assert (None ∈ Some <$> st.1.*1) as Hbad.
  { rewrite Heq. apply list_elem_of_fmap. by exists p. }
  by apply list_elem_of_fmap in Hbad as (? & ? & _).
Qed.

(** whatever code rules and catalogue files are registered, in whatever
    order, no two rules of the registry share an id: the registrations that
    would break this raise instead. *)
Theorem registry_rule_ids_unique registry :
  registered registry -> unique_rule_ids registry.
Proof.
  induction 1 as [|????? registry' _ IH Hf|files registry registry' _ IH Hf]; [constructor| |].
  - by eapply causes_for_unique.
  - unfold register_catalog_profiles in Hf.
    apply bind_Ok in Hf as (ps & Hps & (u & Hu%raise_if_Ok & [= <-])%bind_Ok).
    apply load_catalog_unique in Hps as [Hnd _]. unfold unique_rule_ids. rewrite omap_app.
    apply NoDup_app. split; [done|]. split; [|done]. intros i Hi Hj.
    apply list_elem_of_omap in Hj as (p & Hp & Hpi). apply not_true_iff_false in Hu. apply Hu.
    apply existsb_elem. exists p. split; [done|]. rewrite Hpi. by apply bool_decide_eq_true_2.
Qed.

(** ** Concrete instances *)

Definition oom_group : pyval :=
  VDict [("id", VStr "oom"); ("any_of", VList [VDict [("fact", VStr "terminated_reason=OOMKilled")]])].
Definition oom_candidate : CauseCandidate :=
  {| candidate_id := "oom_killed"; title := "OOM"; description := "";
     expected_evidence := ["kubernetes"]; checks := []; signals := [oom_group];
     c_source := CAUSE_CANDIDATE_SOURCE_RULE |}.
Definition vague_candidate : CauseCandidate :=
  {| candidate_id := "crash"; title := "Crash"; description := "";
     expected_evidence := ["kubernetes"; "logs"]; checks := []; signals := [];
     c_source := CAUSE_CANDIDATE_SOURCE_RULE |}.
Definition oom_bundle : EvidenceBundle :=
  {| eb_incident_id := "i-1";
     items := [{| source := "kubernetes"; name := "pods";
                  value := [("pods", VList [VDict
                    [("terminated_reasons", VList [VStr "OOMKilled"]);
                     ("containers", VList [VDict [("exit_code", VInt 137)]])]])];
                  summary := ""; evidence_ref := "e-1"; check_id := ""; query := None |}];
     eb_missing_evidence := []; complete := true; eb_missing_evidence_checks := [] |}.
Definition oom_evaluations : list CauseEvaluation :=
  match @evaluate_causes Demo.plain_repr [vague_candidate; oom_candidate] oom_bundle None with
  | Ok es => es
  | Err _ => []
  end.

Lemma analysis_selects_best_witness :
  exists pre best post,
    supported oom_evaluations = pre ++ best :: post /\
    analyze_root_cause oom_evaluations = selected_detail best /\
    Forall (better best) pre /\ Forall (fun x => ~ better x best) post /\
    supporting_evidence best <> [] /\
    (required_signal_count best = 0 \/ matched_signal_count best = required_signal_count best).
Proof.
  assert (exists first es, oom_evaluations = first :: es /\
    Forall finite_score (first :: es) /\ e_candidate_id first <> UNKNOWN_EVALUATION_ID /\
    supported (first :: es) <> []) as (first & es & -> & H1 & H2 & H3).
  { eexists _, _. split; [vm_compute; reflexivity|]. split; [repeat constructor|].
    split; [done|]. vm_compute. done. }
  apply (analysis_selects_best first es H1 H2 H3).
Defined.

Lemma completed_means_proved_witness :
  root_cause (analyze_root_cause oom_evaluations) = "oom_killed" /\
  exists c sig, c ∈ [vague_candidate; oom_candidate] /\
    @extract_bundle_signals Demo.plain_repr oom_bundle = Ok sig /\
    root_cause (analyze_root_cause oom_evaluations) = candidate_id c /\
    selected_candidate_id (analyze_root_cause oom_evaluations) = candidate_id c /\
    (forall k, k ∈ expected_evidence c -> k ∈ evidence_keys oom_bundle) /\
    (forall g, g ∈ signals c -> match_signal_group g sig = Ok true) /\
    confidence (analyze_root_cause oom_evaluations) = flit "1.0".
Proof.
  split; [vm_compute; reflexivity|].
  apply (@completed_means_proved Demo.plain_repr [vague_candidate; oom_candidate] oom_bundle None
           oom_evaluations); vm_compute; reflexivity.
Defined.

Lemma registry_rule_ids_unique_witness :
  unique_rule_ids [{| symptoms := ["OOMKilled"]; required_sources := ["kubernetes"];
                      candidate_specs := []; rule_id := Some "oom" |}].
Proof.
  apply registry_rule_ids_unique.
  eapply (registered_code ["OOMKilled"] ["kubernetes"] [] (Some "oom")); [apply registered_none|].
  vm_compute. reflexivity.
Defined.

End CauseEngine.
