(* ===== verification/RecoveryChecks.v ===== *)
(** * What a recovery is checked against

    The observations and checks of [domains/rca/recovery_verification.py]: the
    two SLI metrics, the target Deployment's replicas, the protected
    workloads and their active sessions, the Alertmanager occurrence.  The
    decision built on them is in [RecoveryVerification].

    Evidence, plans and alerts are decoded JSON.  [float] and [int] let
    [OverflowError] escape, which [finite_float] and [nonnegative_int] do not
    catch, so every reader of a number is a computation that can raise.  A
    [dict] keyed by a tuple is a [gmap]; the code only sorts or counts its
    keys. *)
From S2P Require Import Prelude PyStr PyFloat PyVal PyTime.

Module RecoveryChecks.

Definition STANDARD_FAILURE_RATIO_METRIC : string := "kyro_sli_failure_ratio".
Definition STANDARD_REQUEST_RATE_METRIC : string := "kyro_sli_request_rate".
Definition STANDARD_SLI_ALERT_NAME : string := "KyroSliFailureRatioHigh".
Definition CONTINUITY_ACTIVE_SESSIONS_METRIC : string := "kyro_continuity_active_sessions".
Definition CONTINUITY_SAMPLE_MAX_AGE_SECONDS : Z := 30.
Definition STANDARD_SLI_IDENTITY_LABELS : list string :=
  ["namespace"; "resource_kind"; "resource_name"; "service"; "sli"; "symptom"].
Definition RECOVERY_CONTINUITY_LABEL : string := "kyro.dev/recovery-continuity".
Definition RECOVERY_CONTINUITY_PROTECTED_VALUE : string := "protected".

(** ** Scalars *)

Definition text (v : pyval) : string := match v with VStr s => strip s | _ => "" end.

(** [except (TypeError, ValueError): return None]. *)
Definition or_none {A} (m : res A) : res (option A) :=
  match m with
  | Ok a => Ok (Some a)
  | Err TypeError | Err ValueError => Ok None
  | Err e => Err e
  end.

Definition finite_float (v : pyval) : res (option float) :=
  match v with
  | VBool _ => Ok None
  | _ => parsed ← or_none (py_float v);
         Ok (match parsed with
             | Some f => if is_finite f then Some f else None
             | None => None
             end)
  end.

Definition nonnegative_int (v : pyval) : res (option Z) :=
  match v with
  | VBool _ => Ok None
  | _ => parsed ← or_none (py_int v);
         Ok (match parsed with
             | Some z => if 0 <=? z then Some z else None
             | None => None
             end)
  end.

Definition bounded_seconds (v : pyval) (default minimum maximum : Z) : res Z :=
  parsed ← nonnegative_int v;
  Ok (match parsed with
      | Some z => Z.max minimum (Z.min z maximum)
      | None => default
      end).

Definition opt_int (o : option Z) : pyval := match o with Some z => VInt z | None => VNone end.
Definition opt_float (o : option float) : pyval :=
  match o with Some f => VFloat f | None => VNone end.
Definition opt_bool (o : option bool) : pyval :=
  match o with Some b => VBool b | None => VNone end.
Definition opt_dict (o : option dict) : pyval := match o with Some d => VDict d | None => VNone end.
Definition opt_dicts (o : option (list dict)) : pyval :=
  match o with Some l => VList (VDict <$> l) | None => VNone end.

(** [[item for item in value if isinstance(item, Mapping)]] of a list. *)
Definition dicts_of (l : list pyval) : list dict := omap as_dict l.

(** ** The target *)

(** [target.get(k, "")]; a stored target may hold any value. *)
Definition tget (target : dict) (k : string) : pyval := default (VStr "") (dict_get target k).
Definition eq_str (s : string) (v : pyval) : bool := py_eqb (VStr s) v.
Definition py_casefold (v : pyval) : res string :=
  match v with VStr s => Ok (casefold s) | _ => Err AttributeError end.

Definition alert_matches_target (alert target : dict) : res bool :=
  let subject := mapping (get alert "subject") in
  and_res (eq_str (text (get subject "cluster")) (tget target "cluster_id"))
    (and_res (eq_str (text (get subject "namespace")) (tget target "namespace"))
       (kind ← py_casefold (tget target "resource_kind");
        Ok (str_eqb (casefold (text (get subject "kind"))) kind &&
            eq_str (text (get subject "name")) (tget target "resource_name")))).

Definition metric_labels_match_target (labels target : dict) : res bool :=
  and_res (eq_str (text (get labels "namespace")) (tget target "namespace"))
    (kind ← py_casefold (tget target "resource_kind");
     Ok (str_eqb (casefold (text (get labels "resource_kind"))) kind &&
         eq_str (text (get labels "resource_name")) (tget target "resource_name"))).

(** The action whose id the plan recommends, [{}] when there is none. *)
Definition recommended_candidate (plan_payload : dict) : dict :=
  let selected_id := text (get plan_payload "recommended_action_id") in
  match get plan_payload "candidates" with
  | VList l =>
      default [] (head (keep (fun c => str_eqb (text (get c "action_id")) selected_id) (dicts_of l)))
  | _ => []
  end.

Definition or_text (a b : string) : string := if nonempty a then a else b.

Definition recovery_target (plan_payload : dict) : dict :=
  let target := mapping (get plan_payload "target") in
  let draft := mapping (get (recommended_candidate plan_payload) "draft") in
  let either k := VStr (or_text (text (get target k)) (text (get draft k))) in
  [("cluster_id", VStr (text (get target "cluster_id")));
   ("namespace", either "namespace");
   ("resource_kind", either "resource_kind");
   ("resource_name", either "resource_name")].

(** ** Metrics *)

(** The six labels of the standard SLI, stripped; [None] when one is empty. *)
Definition metric_identity (labels : dict) : option dict :=
  if forallb (fun k => nonempty (text (get labels k))) STANDARD_SLI_IDENTITY_LABELS
  then Some ((fun k => (k, VStr (text (get labels k)))) <$> STANDARD_SLI_IDENTITY_LABELS)
  else None.

Definition standard_sli_series_identity (v : pyval) : option dict := metric_identity (mapping v).

Definition exact_standard_sli_label_set (labels : dict) (metric_name : string) : bool :=
  keys_are labels STANDARD_SLI_IDENTITY_LABELS ||
  (keys_are labels (STANDARD_SLI_IDENTITY_LABELS ++ ["__name__"]) &&
   str_eqb (text (get labels "__name__")) metric_name).

Definition sample_match (metric_name : string) (target expected_identity : dict) (sample : dict)
    : res (option (float * dict)) :=
  let labels := mapping (get sample "metric") in
  if negb (exact_standard_sli_label_set labels metric_name) then Ok None
  else
    matches ← metric_labels_match_target labels target;
    if negb matches then Ok None
    else match metric_identity labels with
         | None => Ok None
         | Some identity =>
             if existsb (fun kv => negb (str_eqb (text (get identity kv.1)) (text kv.2)))
                  expected_identity then Ok None
             else
               value ← finite_float (get sample "value");
               Ok (match value with Some f => Some (f, identity) | None => None end)
         end.

Definition metric_sample_with_identity (evidence : dict) (metric_name : string)
    (target expected_identity : dict) : res (option (float * dict)) :=
  let metrics := mapping (get evidence "metrics") in
  let result := mapping (get (mapping (get metrics "results")) metric_name) in
  match get result "samples" with
  | VList samples =>
      matched ← omapr (sample_match metric_name target expected_identity) (dicts_of samples);
      Ok (the_one matched)
  | _ => Ok None
  end.

Definition metric_sample (evidence : dict) (metric_name : string) (target expected_identity : dict)
    : res (option float) :=
  found ← metric_sample_with_identity evidence metric_name target expected_identity;
  Ok (match found with Some (f, _) => Some f | None => None end).

(** ** Workload snapshots *)

Definition workload_snapshots (evidence : dict) : option (list pyval) :=
  let metadata := mapping (get evidence "metadata") in
  match get metadata "current_workload_snapshots" with
  | VList l => Some l
  | _ => as_list (get (mapping (get metadata "change_context")) "current_workload_snapshots")
  end.

Definition snapshot_replicas (target : dict) (snapshot : dict) : res (option dict) :=
  let workload := mapping (get snapshot "workload") in
  kind ← py_casefold (tget target "resource_kind");
  if negb (str_eqb (casefold (text (get workload "kind"))) kind)
     || negb (eq_str (text (get workload "namespace")) (tget target "namespace"))
     || negb (eq_str (text (get workload "name")) (tget target "resource_name"))
  then Ok None
  else
    let status := mapping (get snapshot "deployment_status") in
    generation ← nonnegative_int (get workload "generation");
    observed ← nonnegative_int (get status "observed_generation");
    desired ← nonnegative_int (get status "desired_replicas");
    ready ← nonnegative_int (get status "ready_replicas");
    updated ← nonnegative_int (get status "updated_replicas");
    available ← nonnegative_int (get status "available_replicas");
    unavailable ← nonnegative_int (get status "unavailable_replicas");
    Ok (Some [("generation", opt_int generation);
              ("observed_generation", opt_int observed);
              ("desired_replicas", opt_int desired);
              ("ready_replicas", opt_int ready);
              ("updated_replicas", opt_int updated);
              ("available_replicas", opt_int available);
              ("unavailable_replicas", opt_int unavailable);
              ("unavailable_replicas_omitted",
                VBool (negb (has_key status "unavailable_replicas")))]).

Definition deployment_replicas (evidence target : dict) : res (option dict) :=
  match workload_snapshots evidence with
  | None => Ok None
  | Some snapshots =>
      matches ← omapr (snapshot_replicas target) (dicts_of snapshots);
      Ok (the_one matches)
  end.

(** ** Protected workloads *)

(** [(kind.casefold(), namespace, name)]. *)
Definition workload_identity (d : dict) : string * string * string :=
  (casefold (text (get d "kind")), text (get d "namespace"), text (get d "name")).

Definition labelled_protected (labels : dict) : bool :=
  str_eqb (casefold (text (get labels RECOVERY_CONTINUITY_LABEL))) RECOVERY_CONTINUITY_PROTECTED_VALUE.

(** The guards of the loop: a Deployment of the target's namespace other than
    the target, listed in the baseline or opted in by its labels. *)
Definition workload_selected (target : dict)
    (expected_identities : option (list (string * string * string))) (snapshot : dict) : res bool :=
  let workload := mapping (get snapshot "workload") in
  let '(kind, namespace, name) := workload_identity workload in
  if negb (eq_str namespace (tget target "namespace")) || negb (str_eqb kind "deployment")
  then Ok false
  else
    target_kind ← py_casefold (tget target "resource_kind");
    if str_eqb kind target_kind && eq_str name (tget target "resource_name") then Ok false
    else Ok match expected_identities with
            | Some ids => bool_decide ((kind, namespace, name) ∈ ids)
            | None => labelled_protected (mapping (get snapshot "deployment_labels")) &&
                      labelled_protected (mapping (get snapshot "pod_template_labels"))
            end.

(** The ready Pods that are not being deleted. *)
Definition serving_pods (snapshot : dict) : list dict :=
  match get snapshot "pod_statuses" with
  | VList pods =>
      keep (fun pod => is_true (get pod "ready") && is_empty (text (get pod "deletion_timestamp")))
        (dicts_of pods)
  | _ => []
  end.

(** [sorted(text(pod.get(k)) for pod in pods if text(pod.get(k)))]. *)
Definition sorted_texts (k : string) (pods : list dict) : list pyval :=
  VStr <$> isort String.leb (keep nonempty ((fun pod => text (get pod k)) <$> pods)).

(** [desired is not None and desired > 0 and ready is not None and ...]. *)
Definition enough (desired ready available : option Z) (serving : Z) (truncated : pyval) : bool :=
  match desired, ready, available with
  | Some d, Some r, Some a =>
      (0 <? d) && (d <=? r) && (d <=? a) && (d <=? serving) && negb (is_true truncated)
  | _, _, _ => false
  end.

Definition workload_entry (snapshot : dict) : res dict :=
  let workload := mapping (get snapshot "workload") in
  let status := mapping (get snapshot "deployment_status") in
  desired ← nonnegative_int (get status "desired_replicas");
  ready ← nonnegative_int (get status "ready_replicas");
  available ← nonnegative_int (get status "available_replicas");
  let pods := serving_pods snapshot in
  restarts ← mapr (fun pod => nonnegative_int (get pod "restart_count")) pods;
  Ok [("kind", VStr (text (get workload "kind")));
      ("namespace", VStr (text (get workload "namespace")));
      ("name", VStr (text (get workload "name")));
      ("uid", get workload "uid");
      ("pod_uids", VList (sorted_texts "uid" pods));
      ("pod_start_times", VList (sorted_texts "start_time" pods));
      ("restart_count", VInt (foldr Z.add 0 (default 0 <$> restarts)));
      ("healthy", VBool (enough desired ready available (Z.of_nat (length pods))
                           (get snapshot "pod_statuses_truncated")))].

(** The lexicographic order of tuples of strings. *)
Fixpoint strings_leb (a b : list string) : bool :=
  match a, b with
  | [], _ => true
  | _ :: _, [] => false
  | x :: a, y :: b => if str_eqb x y then strings_leb a b else String.leb x y
  end.

(** The fields are stripped strings, so [text] reads them back as they are. *)
Definition workload_leb (a b : dict) : bool :=
  let key d := [text (get d "namespace"); text (get d "kind"); text (get d "name")] in
  strings_leb (key a) (key b).

Definition protected_workloads (evidence target : dict) (baseline : pyval)
    : res (option (list dict)) :=
  match workload_snapshots evidence with
  | None => Ok None
  | Some snapshots =>
      let expected_identities :=
        match baseline with VList l => Some (workload_identity <$> dicts_of l) | _ => None end in
      workloads ← omapr (fun snapshot =>
        selected ← workload_selected target expected_identities snapshot;
        if (selected : bool) then entry ← workload_entry snapshot; Ok (Some entry) else Ok None)
        (dicts_of snapshots);
      Ok (Some (isort workload_leb workloads))
  end.

(** The identity and the counters a rollout must not change. *)
Definition continuity_fields : list string :=
  ["name"; "kind"; "namespace"; "uid"; "pod_uids"; "pod_start_times"; "restart_count"].
Definition normalized (l : list pyval) : pyval :=
  VList ((fun d => VDict ((fun k => (k, get d k)) <$> continuity_fields)) <$> dicts_of l).

Definition protected_workloads_unchanged (baseline current : pyval) : option bool :=
  match current, baseline with
  | VList _, VList [] => None
  | VList cur, VList base => Some (py_eqb (normalized base) (normalized cur))
  | _, _ => None
  end.

Definition baseline_entry (workload : dict) : dict :=
  (fun k => (k, get workload k)) <$>
    ["kind"; "namespace"; "name"; "uid"; "pod_uids"; "pod_start_times"; "restart_count"].

Definition item_pod_uids (item : dict) : list pyval :=
  match get item "pod_uids" with VList l => l | _ => [] end.

Definition valid_pod_metadata (item : dict) : res bool :=
  match get item "pod_uids", get item "pod_start_times" with
  | VList uids, VList starts =>
      and_res (negb (bool_decide (uids = [])) &&
               bool_decide (length starts = length uids) &&
               forallb (fun v => nonempty (text v)) starts)
        (count ← nonnegative_int (get item "restart_count");
         Ok (match count with Some _ => true | None => false end))
  | _, _ => Ok false
  end.

Definition protected_workload_baseline (workloads : list dict) : res (list dict) :=
  let baseline := baseline_entry <$> keep (fun w => is_true (get w "healthy")) workloads in
  let identities := workload_identity <$> baseline in
  let workload_uids := (fun item => text (get item "uid")) <$> baseline in
  let pod_uids := text <$> flat_map item_pod_uids baseline in
  valid ← allr valid_pod_metadata baseline;
  Ok (if bool_decide (baseline = [])
         || existsb (fun '(k, ns, n) => is_empty k || is_empty ns || is_empty n) identities
         || negb (no_dup identities)
         || existsb is_empty workload_uids
         || negb (no_dup workload_uids)
         || existsb is_empty pod_uids
         || negb (no_dup pod_uids)
         || negb valid
      then [] else baseline).

(** ** Active sessions of the protected workloads *)

(** [(namespace, kind.casefold(), name)], and the same with [continuity_id] and
    [pod_uid]. *)
Definition wkey : Type := string * string * string.
Definition skey : Type := string * string * string * string * string.

Definition wkey_of (kind_field name_field : string) (d : dict) : wkey :=
  (text (get d "namespace"), casefold (text (get d kind_field)), text (get d name_field)).
Definition skey_of (kind_field name_field : string) (d : dict) : skey :=
  (wkey_of kind_field name_field d, text (get d "continuity_id"), text (get d "pod_uid")).
Definition skey_workload (k : skey) : wkey := k.1.1.
Definition skey_continuity (k : skey) : string := k.1.2.
Definition skey_pod (k : skey) : string := k.2.

Definition protected_by_workload (l : list pyval) : gmap wkey dict :=
  fold_left (fun m d => <[wkey_of "kind" "name" d := d]> m) (dicts_of l) ∅.

(** The dict comprehensions over the stored samples: the entries whose [field]
    is a finite number. *)
Definition keyed_floats (field : string) (l : list pyval) : res (gmap skey float) :=
  foldr_res (fun m d =>
    value ← finite_float (get d field);
    Ok (match value with Some f => <[skey_of "kind" "name" d := f]> m | None => m end))
    ∅ (dicts_of l).

Definition keyed_floats_of (field : string) (v : pyval) : res (option (gmap skey float)) :=
  match v with
  | VList l => m ← keyed_floats field l; Ok (Some m)
  | _ => Ok None
  end.

Definition keys {K A} `{Countable K} (m : gmap K A) : list K := (map_to_list m).*1.

(** [len({f(k) for k in m}) == len(m)]. *)
Definition distinct_on {K A B} `{Countable K} `{EqDecision B} (f : K -> B) (m : gmap K A) : bool :=
  no_dup (f <$> keys m).

Definition same_keys {K A B} `{Countable K} (m : gmap K A) (m' : gmap K B) : bool :=
  bool_decide (dom m = dom m').

(** The stored baseline is usable: no entry was dropped or merged, its
    continuity ids and Pod uids are distinct, and the previous samples have
    the same series. *)
Definition expected_usable (entries : nat) (expected : gmap skey float)
    (previous : option (gmap skey float)) : bool :=
  bool_decide (size expected = entries) &&
  distinct_on skey_continuity expected && distinct_on skey_pod expected &&
  match previous with Some p => same_keys p expected | None => false end.

(** One sample of the gauge; [observed] is the start of the evidence window. *)
Definition add_sample (by_workload : gmap wkey dict) (expected previous : option (gmap skey float))
    (observed max_age : Z) (matches : gmap skey (list (float * float))) (sample : dict)
    : res (gmap skey (list (float * float))) :=
  let labels := mapping (get sample "metric") in
  let identity := skey_of "resource_kind" "resource_name" labels in
  let known :=
    match by_workload !! skey_workload identity with
    | Some protected =>
        match get protected "pod_uids" with
        | VList uids => bool_decide (skey_pod identity ∈ text <$> uids)
        | _ => false
        end
    | None => false
    end in
  if negb known || is_empty (skey_continuity identity) || is_empty (skey_pod identity)
     || match expected with
        | Some e => bool_decide (e !! identity = None)
        | None => false
        end
  then Ok matches
  else
    value ← finite_float (get sample "value");
    timestamp ← finite_float (get sample "timestamp");
    match value, timestamp with
    | Some value, Some timestamp =>
        if fleb value fzero || negb (float_is_integer value) then Ok matches
        else match fromtimestamp timestamp with
             | None => Ok matches
             | Some sample_time =>
                 if fltb (nearest_float max_age) (fabs (total_seconds (observed - sample_time)))
                 then Ok matches
                 else if match previous ≫= lookup identity with
                         | Some last => fltb timestamp last
                         | None => false
                         end
                 then Ok matches
                 else Ok (<[identity := default [] (matches !! identity) ++ [(value, timestamp)]]>
                            matches)
             end
    | _, _ => Ok matches
    end.

Definition skey_strings (k : skey) : list string :=
  let '(ns, kind, name, cid, pod) := k in [ns; kind; name; cid; pod].

(** The rows of the result, in the order of their keys. *)
Definition session_row (by_workload : gmap wkey dict) (matches : gmap skey (list (float * float)))
    (k : skey) : dict :=
  let '(ns, kind, name, cid, pod) := k in
  let '(value, timestamp) := default (fzero, fzero) (default [] (matches !! k) !! 0%nat) in
  [("namespace", VStr ns);
   ("kind", VStr (text (get (default [] (by_workload !! (ns, kind, name))) "kind")));
   ("name", VStr name);
   ("continuity_id", VStr cid);
   ("pod_uid", VStr pod);
   ("value", VFloat value);
   ("sample_timestamp", VFloat timestamp)].

Definition session_rows (by_workload : gmap wkey dict) (expected : option (gmap skey float))
    (matches : gmap skey (list (float * float))) : option (list dict) :=
  if existsb (fun vs => negb (Nat.eqb (length vs) 1)) (map_to_list matches).*2 then None
  else if negb match expected with
               | Some e => same_keys matches e
               | None =>
                   bool_decide (list_to_set (skey_workload <$> keys matches) =@{gset wkey}
                                dom by_workload) &&
                   bool_decide (size matches = size by_workload)
               end then None
  else if negb (distinct_on skey_continuity matches) || negb (distinct_on skey_pod matches)
  then None
  else Some (session_row by_workload matches <$>
               isort (fun a b => strings_leb (skey_strings a) (skey_strings b)) (keys matches)).

Definition protected_active_session_series (evidence : dict) (protected_baseline : pyval)
    (expected_baseline previous_samples : pyval) (observed max_age : option Z)
    : res (option (list dict)) :=
  match protected_baseline with
  | VList (first :: rest) =>
      let base := first :: rest in
      let by_workload := protected_by_workload base in
      if negb (bool_decide (size by_workload = length base)) then Ok None
      else
        expected ← keyed_floats_of "value" expected_baseline;
        previous ← keyed_floats_of "sample_timestamp" previous_samples;
        match observed, max_age with
        | Some observed, Some max_age =>
            if max_age <=? 0 then Ok None
            else if negb match expected, expected_baseline with
                         | Some e, VList l => expected_usable (length l) e previous
                         | _, _ => true
                         end then Ok None
            else
              let results := mapping (get (mapping (get evidence "metrics")) "results") in
              match get (mapping (get results CONTINUITY_ACTIVE_SESSIONS_METRIC)) "samples" with
              | VList samples =>
                  matches ← foldr_res (add_sample by_workload expected previous observed max_age)
                              ∅ (dicts_of samples);
                  Ok (session_rows by_workload expected matches)
              | _ => Ok None
              end
        | _, _ => Ok None
        end
  | _ => Ok None
  end.

(** The inner [values] of [protected_active_sessions_maintained]. *)
Fixpoint session_values (parsed : gmap skey float) (l : list pyval)
    : res (option (gmap skey float)) :=
  match l with
  | [] => Ok (Some parsed)
  | VDict d :: l =>
      let identity := skey_of "kind" "name" d in
      value ← finite_float (get d "value");
      match value with
      | Some value =>
          if forallb nonempty (skey_strings identity) && bool_decide (parsed !! identity = None)
          then session_values (<[identity := value]> parsed) l
          else Ok None
      | None => Ok None
      end
  | _ :: _ => Ok None
  end.

Definition protected_active_sessions_maintained (baseline current : pyval) : res (option bool) :=
  match baseline, current with
  | VList (first :: rest), VList cur =>
      before ← session_values ∅ (first :: rest);
      after ← session_values ∅ cur;
      Ok match before, after with
         | Some before, Some after =>
             if same_keys before after then
               Some (forallb (fun '(k, value) =>
                       match after !! k with Some v => fleb value v | None => false end)
                       (map_to_list before))
             else None
         | _, _ => None
         end
  | _, _ => Ok None
  end.

(** ** Alerts *)

Definition opt_dict_eqb (a b : option dict) : bool :=
  match a, b with
  | Some a, Some b => py_eqb (VDict a) (VDict b)
  | None, None => true
  | _, _ => false
  end.

Definition alert_matches_original_series (alert before target : dict) : res bool :=
  matches ← alert_matches_target alert target;
  if negb matches then Ok false
  else
    let expected := standard_sli_series_identity (get before "series_identity") in
    let current := standard_sli_series_identity (get alert "series_identity") in
    if str_eqb (text (get before "rule_name")) STANDARD_SLI_ALERT_NAME &&
       (match expected with None => true | Some _ => negb (opt_dict_eqb current expected) end)
    then Ok false
    else Ok (forallb (fun field =>
               is_empty (text (get before field)) ||
               str_eqb (text (get alert field)) (text (get before field)))
               ["rule_id"; "rule_name"; "source"; "subject_key"]).

Section alerts.
Context `{IsoTime}.

(** One iteration of [alert_checks]: the original occurrence seen so far and
    whether a new one fired. *)
Definition alert_step (before target : dict) (started : option Z)
    (st : option dict * bool) (alert : dict) : res (option dict * bool) :=
  let '(original, refired) := st in
  matches ← alert_matches_original_series alert before target;
  if negb matches then Ok st
  else
    let original_id := text (get before "alert_event_id") in
    let event_id := text (get alert "event_id") in
    if nonempty original_id && str_eqb event_id original_id then Ok (Some alert, refired)
    else
      fired_at ← parse_datetime (get alert "fired_at");
      Ok (original, match started, fired_at with
                    | Some s, Some f => (s <=? f) || refired
                    | _, _ => refired
                    end).

Definition alert_checks (alerts : list dict) (before target : dict) (started : option Z)
    : res (option bool * option bool) :=
  st ← foldr_res (alert_step before target started) (None, false) alerts;
  let '(original, refired) := st in
  match original with
  | None => Ok (None, if (refired : bool) then Some false else None)
  | Some original =>
      resolved ← and_res (str_eqb (casefold (text (get original "status"))) "resolved")
        (resolved_at ← parse_datetime (get original "resolved_at");
         Ok (match resolved_at with Some _ => true | None => false end));
      Ok (Some resolved, Some (negb refired))
  end.

(** The conditions one alert has to meet to be the occurrence before the
    recovery. *)
Definition chronology_complete (alert : dict) : res bool :=
  let status := casefold (text (get alert "status")) in
  if negb (bool_decide (status ∈ ["firing"; "acked"; "resolved"])) then Ok false
  else if str_eqb status "resolved" then
    fired_at ← parse_datetime (get alert "fired_at");
    resolved_at ← parse_datetime (get alert "resolved_at");
    Ok (match fired_at, resolved_at with Some f, Some r => f <=? r | _, _ => false end)
  else
    fired_at ← parse_datetime (get alert "fired_at");
    Ok (match fired_at with Some _ => true | None => false end).

Definition above_threshold (alert : dict) : res bool :=
  observed ← finite_float (get alert "observed_value");
  threshold ← finite_float (get alert "threshold");
  Ok (match observed, threshold with Some o, Some t => negb (fleb o t) | _, _ => false end).

Definition snapshot_match (target : dict) (correlation_id incident_id : string)
    (expected_identity : option dict) (alert : dict) : res bool :=
  matches ← alert_matches_target alert target;
  and_res (matches &&
           (str_eqb (text (get alert "incident_id")) correlation_id ||
            str_eqb (text (get alert "incident_id")) incident_id) &&
           str_eqb (casefold (text (get alert "source"))) "alertmanager" &&
           str_eqb (text (get alert "rule_name")) STANDARD_SLI_ALERT_NAME)
    (complete ← chronology_complete alert;
     and_res complete
       (above ← above_threshold alert;
        and_res above
          match standard_sli_series_identity (get alert "series_identity") with
          | None => Ok false
          | Some series =>
              same ← metric_labels_match_target series target;
              Ok (same && match expected_identity with
                          | None => true
                          | Some e => py_eqb (VDict series) (VDict e)
                          end)
          end)).

Definition unavailable (reason_code : string) : dict :=
  [("available", VBool false); ("reason_code", VStr reason_code)].

Definition alert_snapshot (alert : dict) : dict :=
  [("available", VBool true);
   ("alert_event_id", get alert "event_id");
   ("rule_id", get alert "rule_id");
   ("rule_name", get alert "rule_name");
   ("source", get alert "source");
   ("subject_key", get alert "subject_key");
   ("series_identity", get alert "series_identity");
   ("observed_value", get alert "observed_value");
   ("threshold", get alert "threshold");
   ("fired_at", get alert "fired_at");
   ("subject", get alert "subject")].

Definition before_alert_snapshot (alerts : list dict) (target : dict)
    (correlation_id incident_id : string) (expected_series_identity : option pyval) : res dict :=
  let expected_identity := expected_series_identity ≫= standard_sli_series_identity in
  if bool_decide (is_Some expected_series_identity) && bool_decide (expected_identity = None)
  then Ok (unavailable "pre_recovery_alert_missing")
  else
    matches ← omapr (fun alert =>
      b ← snapshot_match target correlation_id incident_id expected_identity alert;
      Ok (if (b : bool) then Some alert else None)) alerts;
    Ok (match matches with
        | [alert] => alert_snapshot alert
        | [] => unavailable "pre_recovery_alert_missing"
        | _ => unavailable "pre_recovery_alert_ambiguous"
        end).

End alerts.

(** ** Lemmas on sessions *)

Definition session_id (d : dict) : skey := skey_of "kind" "name" d.
Definition session_value (d : dict) (v : float) : Prop :=
  finite_float (get d "value") = Ok (Some v).

Lemma session_values_spec parsed l parsed' :
  session_values parsed l = Ok (Some parsed') ->
  exists ds, l = VDict <$> ds /\ NoDup (session_id <$> ds) /\
    (forall d, d ∈ ds -> parsed !! session_id d = None /\ exists v, session_value d v) /\
    (forall k v, parsed' !! k = Some v <->
       parsed !! k = Some v \/ exists d, d ∈ ds /\ session_id d = k /\ session_value d v).
Proof.
  revert parsed. induction l as [|x l IH]; intros parsed; cbn [session_values].
  { intros [= <-]. exists []. split; [done|]. split; [constructor|]. split; [set_solver|].
    intros k v. split; [tauto|]. intros [?|(? & ?%elem_of_nil & _)]; done. }
  destruct x as [| | | | | | |d]; try done. fold (session_id d).
  intros ([value|] & Hv & Hrest)%bind_Ok; [|done].
  destruct (forallb nonempty (skey_strings (session_id d)) && _) eqn:E; [|done].
  apply andb_true_iff in E as [_ Hfresh%bool_decide_eq_true].
  destruct (IH _ Hrest) as (ds & -> & Hnd & Hnew & Hiff). exists (d :: ds). split; [done|].
  assert (session_id d ∉ session_id <$> ds) as Hd.
  { intros (d' & Heq & Hd')%list_elem_of_fmap. destruct (Hnew d' Hd') as [Hbad _].
    by rewrite <- Heq, lookup_insert_eq in Hbad. }
  split; [by constructor|]. split.
  { intros d' [->|Hd']%elem_of_cons; [by eauto|]. destruct (Hnew d' Hd') as [Hn ?].
    by apply lookup_insert_None in Hn as [? _]. }
  intros k v. rewrite Hiff. setoid_rewrite elem_of_cons. split.
  - intros [[(<- & ->)|[_ ?]]%lookup_insert_Some|(d' & ? & ? & ?)]; eauto 7.
  - intros [Hk|(d' & [->|Hin] & <- & Hv')].
    + left. rewrite lookup_insert_ne; [done|]. intros <-. congruence.
    + left. unfold session_value in Hv'. rewrite Hv in Hv'. injection Hv' as ->.
      apply lookup_insert_eq.
    + right. eauto.
Qed.

(** The keys of the parsed map are the identities of the list. *)
Lemma session_values_keys (ds : list dict) (parsed : gmap skey float) :
  (forall d, d ∈ ds -> exists v, session_value d v) ->
  (forall k v, parsed !! k = Some v <-> exists d, d ∈ ds /\ session_id d = k /\ session_value d v) ->
  forall k, k ∈ dom parsed <-> k ∈ session_id <$> ds.
Proof.
  intros Hv Hiff k. rewrite elem_of_dom, list_elem_of_fmap. unfold is_Some.
  setoid_rewrite Hiff. split; [naive_solver|]. intros (d & -> & Hd).
  destruct (Hv d Hd) as [v ?]. eauto.
Qed.

(** when the code reports that the protected sessions are maintained,
    both the baseline and the current list hold one complete entry per
    session identity, the two lists have the same identities, and no session
    has fewer active sessions than before the recovery. *)
Theorem sessions_maintained_sound b c :
  protected_active_sessions_maintained (VList b) (VList c) = Ok (Some true) ->
  b <> [] /\
  exists before after,
    b = VDict <$> before /\ c = VDict <$> after /\
    NoDup (session_id <$> before) /\ NoDup (session_id <$> after) /\
    (session_id <$> before ≡ₚ session_id <$> after) /\
    forall d d', d ∈ before -> d' ∈ after -> session_id d = session_id d' ->
      exists x y, session_value d x /\ session_value d' y /\ fleb x y = true.
Proof.
  unfold protected_active_sessions_maintained.
  destruct b as [|b0 b]; [done|]. intros ([before|] & Hb & Hm)%bind_Ok;
    apply bind_Ok in Hm as ([after|] & Ha & [= Hm]); try done.
  split; [done|]. destruct (same_keys before after) eqn:Hk; [|done].
  apply bool_decide_eq_true in Hk. injection Hm as Hm.
  pose proof (session_values_spec _ _ _ Hb) as (ds & Hds & Hnd & Hv & Hbi).
  pose proof (session_values_spec _ _ _ Ha) as (ds' & Hds' & Hnd' & Hv' & Hai).
  exists ds, ds'. do 4 (split; [done|]).
  assert (forall k v, before !! k = Some v <->
    exists d, d ∈ ds /\ session_id d = k /\ session_value d v) as Hbi'.
  { intros k v. rewrite Hbi, lookup_empty. naive_solver. }
  assert (forall k v, after !! k = Some v <->
    exists d, d ∈ ds' /\ session_id d = k /\ session_value d v) as Hai'.
  { intros k v. rewrite Hai, lookup_empty. naive_solver. }
  split.
  - apply NoDup_Permutation; [done..|]. intros k.
    rewrite <- (session_values_keys ds before), <- (session_values_keys ds' after), Hk;
      [done|by intros; apply Hv'|done|by intros; apply Hv|done].
  - intros d d' Hd Hd' Heq. destruct (Hv d Hd) as [_ [x Hx]]. destruct (Hv' d' Hd') as [_ [y Hy]].
    exists x, y. split; [done|]. split; [done|].
    assert ((session_id d, x) ∈ map_to_list before) as Hin by (apply elem_of_map_to_list, Hbi'; eauto).
    rewrite forallb_forall in Hm. apply list_elem_of_In, Hm in Hin.
    assert (after !! session_id d = Some y) as Hy' by (apply Hai'; eauto).
    by rewrite Hy' in Hin.
Qed.

(** ** Lemmas on the alert before the recovery *)

Section snapshots.
Context `{IsoTime}.

(** The loops that keep the elements a fallible predicate accepts. *)
Definition keepr {A} (p : A -> res bool) : list A -> res (list A) :=
  omapr (fun x => b ← p x; Ok (if (b : bool) then Some x else None)).

Lemma keepr_nil {A} (p : A -> res bool) l :
  keepr p l = Ok [] -> forall x, x ∈ l -> p x = Ok false.
Proof.
  unfold keepr. induction l as [|y l IH]; cbn; [set_solver|].
  intros (o & (b & Hb & [= <-])%bind_Ok & (ys & Hys & [= Heq])%bind_Ok)%bind_Ok.
  destruct b; [done|]. subst ys. intros x [->|Hx]%elem_of_cons; auto.
Qed.

Lemma keepr_one {A} (p : A -> res bool) l a :
  keepr p l = Ok [a] ->
  exists pre post, l = pre ++ a :: post /\ p a = Ok true /\
    forall x, x ∈ pre ++ post -> p x = Ok false.
Proof.
  unfold keepr. induction l as [|y l IH]; cbn; [done|].
  intros (o & (b & Hb & [= <-])%bind_Ok & (ys & Hys & [= Heq])%bind_Ok)%bind_Ok. destruct b.
  - injection Heq as -> ->. exists [], l. split; [done|]. split; [done|]. by apply keepr_nil.
  - subst ys. destruct (IH Hys) as (pre & post & -> & Ha & Hrest).
    exists (y :: pre), post. split; [done|]. split; [done|].
    intros x [->|Hx]%elem_of_cons; auto.
Qed.

(** What the code requires of the occurrence it records. *)
Definition alert_qualifies (target : dict) (correlation_id incident_id : string)
    (expected_identity : option dict) (a : dict) : Prop :=
  alert_matches_target a target = Ok true /\
  (text (get a "incident_id") = correlation_id \/ text (get a "incident_id") = incident_id) /\
  casefold (text (get a "source")) = "alertmanager" /\
  text (get a "rule_name") = STANDARD_SLI_ALERT_NAME /\
  (exists fired, parse_datetime (get a "fired_at") = Ok (Some fired) /\
     (casefold (text (get a "status")) = "resolved" ->
      exists resolved, parse_datetime (get a "resolved_at") = Ok (Some resolved) /\
        fired <= resolved)) /\
  (exists observed threshold, finite_float (get a "observed_value") = Ok (Some observed) /\
     finite_float (get a "threshold") = Ok (Some threshold) /\ fleb observed threshold = false) /\
  (exists series, standard_sli_series_identity (get a "series_identity") = Some series /\
     metric_labels_match_target series target = Ok true /\
     forall e, expected_identity = Some e -> py_eqb (VDict series) (VDict e) = true).

Lemma chronology_complete_true a :
  chronology_complete a = Ok true ->
  exists fired, parse_datetime (get a "fired_at") = Ok (Some fired) /\
    (casefold (text (get a "status")) = "resolved" ->
     exists resolved, parse_datetime (get a "resolved_at") = Ok (Some resolved) /\ fired <= resolved).
Proof.
  unfold chronology_complete. destruct (negb _); [done|]. destruct (str_eqb _ "resolved") eqn:E.
  - intros (f & Hf & (r & Hr & [= Hle])%bind_Ok)%bind_Ok. destruct f as [f|], r as [r|]; try done.
    exists f. split; [done|]. intros _. exists r. split; [done|lia].
  - intros (f & Hf & [= Hs])%bind_Ok. destruct f as [f|]; [|done]. exists f. split; [done|].
    intros Hres. by rewrite Hres in E.
Qed.

Lemma above_threshold_true a :
  above_threshold a = Ok true ->
  exists observed threshold, finite_float (get a "observed_value") = Ok (Some observed) /\
    finite_float (get a "threshold") = Ok (Some threshold) /\ fleb observed threshold = false.
Proof.
  unfold above_threshold. intros (o & Ho & (t & Ht & [= Hle])%bind_Ok)%bind_Ok.
  destruct o as [o|], t as [t|]; try done. exists o, t. by apply negb_true_iff in Hle.
Qed.

Lemma snapshot_match_true target cid iid e a :
  snapshot_match target cid iid e a = Ok true -> alert_qualifies target cid iid e a.
Proof.
  unfold snapshot_match. intros (m & Hm & Hrest)%bind_Ok.
  apply and_res_true in Hrest as [Hguards (c & Hc & Hrest)%bind_Ok].
  apply and_res_true in Hrest as [-> (ab & Hab & Hrest)%bind_Ok].
  apply and_res_true in Hrest as [-> Hrest].
  rewrite !andb_true_iff, orb_true_iff, !str_eqb_eq in Hguards.
  destruct Hguards as [[[-> Hid] Hsrc] Hrule].
  destruct (standard_sli_series_identity _) as [series|] eqn:Es; [|done].
  apply bind_Ok in Hrest as (same & Hsame & [= Hrest]). apply andb_true_iff in Hrest as [-> He].
  split; [done|]. split; [done|]. split; [done|]. split; [done|].
  split; [by apply chronology_complete_true|]. split; [by apply above_threshold_true|].
  exists series. split; [done|]. split; [done|]. intros e' ->. done.
Qed.

(** the alert recorded before a recovery is unambiguous.  A snapshot is
    marked available only if exactly one of the alerts qualifies: it is a
    standard SLI alert of Alertmanager on the recovery's target and incident,
    fired (and, if resolved, resolved no earlier than it fired), was above its
    threshold, and carries the complete series identity that was expected; the
    snapshot is then the copy of that alert. *)
Theorem alert_snapshot_unambiguous alerts target correlation_id incident_id expected snapshot :
  before_alert_snapshot alerts target correlation_id incident_id expected = Ok snapshot ->
  get snapshot "available" = VBool true ->
  exists pre a post,
    alerts = pre ++ a :: post /\ snapshot = alert_snapshot a /\
    alert_qualifies target correlation_id incident_id
      (expected ≫= standard_sli_series_identity) a /\
    (forall v, expected = Some v -> is_Some (standard_sli_series_identity v)) /\
    forall x, x ∈ pre ++ post ->
      snapshot_match target correlation_id incident_id
        (expected ≫= standard_sli_series_identity) x = Ok false.
Proof.
  unfold before_alert_snapshot. destruct (bool_decide _ && _) eqn:E; [by intros [= <-]|].
  intros (ms & Hms & [= <-])%bind_Ok Hav. destruct ms as [|a [|]]; try done.
  destruct (keepr_one _ _ _ Hms) as (pre & post & -> & Ha & Hrest).
  exists pre, a, post. split; [done|]. split; [done|].
  split; [by apply snapshot_match_true|]. split; [|done].
  intros v ->. apply andb_false_iff in E as [E|E]; apply bool_decide_eq_false in E.
  - by destruct E.
  - cbn in E. destruct (standard_sli_series_identity v); [done|]. by destruct E.
Qed.

End snapshots.
End RecoveryChecks.
