(* ===== verification/RecoveryVerification.v ===== *)
(** * The post-deploy verification of a recovery

    [evaluate_recovery_evidence], [observed_after], [verification_checks],
    [verification_deadline] and [trusted_evidence_window_start] of
    [domains/rca/recovery_verification.py].  An instant is a number of
    microseconds in UTC ([PyTime]); the caller passes the current time, so the
    decision is a function of the stored lifecycle, one evidence window and
    the alerts. *)
From S2P Require Import Prelude PyStr PyFloat PyVal PyTime RecoveryChecks.

Module RecoveryVerification.
Import RecoveryChecks.

Definition DEFAULT_MINIMUM_SECONDS : Z := 300.
Definition DEFAULT_MAXIMUM_SECONDS : Z := 600.

Record VerificationDecision := {
  status : string;
  reason_code : string;
  reason : string;
  after : dict;
  healthy_since : option string;
  last_healthy_observed_at : option string;
  distinct_evidence_count : Z;
  last_evidence_key : option string;
}.

Definition verification_deadline (started_at maximum_seconds : Z) : res Z :=
  add_seconds started_at maximum_seconds.

Section verification.
Context `{IsoTime}.

(** ** Observation *)

Definition observed_after (evidence target expected : dict)
    (protected_baseline protected_session_baseline previous_session_samples : pyval) : res dict :=
  failure_ratio ← metric_sample evidence STANDARD_FAILURE_RATIO_METRIC target
    (mapping (get expected "failure_ratio_metric_identity"));
  request_rate ← metric_sample evidence STANDARD_REQUEST_RATE_METRIC target
    (mapping (get expected "request_rate_metric_identity"));
  deployment ← deployment_replicas evidence target;
  workloads ← protected_workloads evidence target protected_baseline;
  observed ← parse_datetime (get evidence "window_start");
  sessions ← protected_active_session_series evidence protected_baseline
    protected_session_baseline
    (if truthy previous_session_samples then previous_session_samples
     else protected_session_baseline)
    observed (Some CONTINUITY_SAMPLE_MAX_AGE_SECONDS);
  Ok [("failure_ratio", opt_float failure_ratio);
      ("request_rate", opt_float request_rate);
      ("deployment", opt_dict deployment);
      ("protected_workloads", opt_dicts workloads);
      ("protected_active_sessions", opt_dicts sessions)].

(** ** Checks *)

(** [a == b if a is not None and b is not None else None]. *)
Definition same_count (a b : option Z) : option bool :=
  match a, b with Some a, Some b => Some (a =? b) | _, _ => None end.

Definition list_len (v : pyval) : option Z :=
  match v with VList l => Some (Z.of_nat (length l)) | _ => None end.

Definition ratio_below (ratio ratio_max : option float) : option bool :=
  match ratio, ratio_max with Some r, Some m => Some (fleb r m) | _, _ => None end.

Definition rate_near (rate baseline tolerance : option float) : option bool :=
  match rate, baseline, tolerance with
  | Some r, Some b, Some t =>
      if fltb fzero b && fleb fzero t && fltb t (flit "1.0")
      then Some (fleb (fabs (fsub r b)) (fmul b t)) else None
  | _, _, _ => None
  end.

(** The replica counters of the observed Deployment. *)
Record deployment_counts := {
  desired : option Z;
  ready : option Z;
  updated : option Z;
  available : option Z;
  unavailable_replicas : option Z;
  unavailable_omitted : bool;
  generation : option Z;
  observed_generation : option Z;
}.

Definition read_deployment (deployment : dict) : res deployment_counts :=
  desired ← nonnegative_int (get deployment "desired_replicas");
  ready ← nonnegative_int (get deployment "ready_replicas");
  updated ← nonnegative_int (get deployment "updated_replicas");
  available ← nonnegative_int (get deployment "available_replicas");
  unavailable ← nonnegative_int (get deployment "unavailable_replicas");
  generation ← nonnegative_int (get deployment "generation");
  observed_generation ← nonnegative_int (get deployment "observed_generation");
  Ok {| desired := desired; ready := ready; updated := updated; available := available;
        unavailable_replicas := unavailable;
        unavailable_omitted := is_true (get deployment "unavailable_replicas_omitted");
        generation := generation; observed_generation := observed_generation |}.

Definition omitted_unavailable_means_zero (d : deployment_counts) (replicas : option Z) : bool :=
  unavailable_omitted d && bool_decide (unavailable_replicas d = None) &&
  match replicas with
  | Some r =>
      bool_decide (desired d = Some r) && bool_decide (ready d = Some r) &&
      bool_decide (updated d = Some r) && bool_decide (available d = Some r) &&
      match generation d, observed_generation d with
      | Some g, Some o => g <=? o
      | _, _ => false
      end
  | None => false
  end.

Definition unavailable_zero (d : deployment_counts) (replicas : option Z) : option bool :=
  match unavailable_replicas d with
  | Some u => Some (u =? 0)
  | None => if omitted_unavailable_means_zero d replicas then Some true else None
  end.

(** [v if protected_expected > 0 else True]. *)
Definition when_protected (expected : Z) (v : option bool) : option bool :=
  if 0 <? expected then v else Some true.

Definition checks := list (string * option bool).

Definition verification_checks (after : dict) (alerts : list dict) (before target expected : dict)
    (protected_baseline protected_session_baseline : pyval) (started : option Z) : res checks :=
  failure_ratio ← finite_float (get after "failure_ratio");
  request_rate ← finite_float (get after "request_rate");
  failure_ratio_max ← finite_float (get expected "failure_ratio_max");
  request_rate_baseline ← finite_float (get expected "request_rate_baseline");
  tolerance ← finite_float (get expected "request_rate_tolerance_ratio");
  replicas ← nonnegative_int (get expected "replicas");
  d ← read_deployment (mapping (get after "deployment"));
  protected_expected ← nonnegative_int (get expected "protected_workloads");
  let protected_expected := default 0 protected_expected in
  let protected := get after "protected_workloads" in
  let protected_count := list_len protected in
  protected_healthy ← match protected with
    | VList l => b ← allr (fun item => h ← attr_get item "healthy"; Ok (is_true h)) l;
                 Ok (Some b)
    | _ => Ok None
    end;
  let protected_unchanged := protected_workloads_unchanged protected_baseline protected in
  let session_expected := list_len protected_session_baseline in
  let sessions := get after "protected_active_sessions" in
  maintained ← protected_active_sessions_maintained protected_session_baseline sessions;
  '(alert_resolved, no_refire) ← alert_checks alerts before target started;
  Ok [("failure_ratio_below_threshold", ratio_below failure_ratio failure_ratio_max);
      ("request_rate_near_baseline", rate_near request_rate request_rate_baseline tolerance);
      ("desired_replicas_restored", same_count (desired d) replicas);
      ("ready_replicas_restored", same_count (ready d) replicas);
      ("updated_replicas_restored", same_count (updated d) replicas);
      ("available_replicas_restored", same_count (available d) replicas);
      ("unavailable_replicas_zero", unavailable_zero d replicas);
      ("deployment_generation_observed", same_count (observed_generation d) (generation d));
      ("protected_workloads_present",
        when_protected protected_expected
          ((fun c => protected_expected <=? c) <$> protected_count));
      ("protected_workloads_healthy", when_protected protected_expected protected_healthy);
      ("protected_workloads_uninterrupted", when_protected protected_expected protected_unchanged);
      ("protected_active_session_series_present",
        when_protected protected_expected (same_count (list_len sessions) session_expected));
      ("protected_active_sessions_maintained", when_protected protected_expected maintained);
      ("alertmanager_resolved", alert_resolved);
      ("alertmanager_no_refire", no_refire)].

(** [[name for name, value in checks.items() if value is b]]. *)
Definition check_names (b : option bool) (c : checks) : list string :=
  (keep (fun kv => bool_decide (kv.2 = b)) c).*1.

Definition checks_dict (c : checks) : dict := (fun kv => (kv.1, opt_bool kv.2)) <$> c.

(** ** The decision *)

Definition opt_text (s : string) : option string := if nonempty s then Some s else None.

(** What one call reads before it decides. *)
Record window := {
  w_after : dict;
  w_checks : checks;
  w_key : string;
  w_previous_key : string;
  w_observed : option Z;
  w_started : option Z;
  w_deadline : option Z;
  w_minimum : Z;
  w_previous_observed : option Z;
  w_distinct : Z;
}.

Definition read_window (plan_payload verification evidence : dict) (alerts : list dict) (now : Z)
    : res window :=
  let expected := mapping (get verification "expected") in
  let stored := mapping (get verification "target") in
  let target := match stored with [] => recovery_target plan_payload | _ => stored end in
  started ← parse_datetime (get verification "started_at");
  deadline ← parse_datetime (get verification "deadline_at");
  minimum ← bounded_seconds (get verification "minimum_seconds") DEFAULT_MINIMUM_SECONDS
    DEFAULT_MINIMUM_SECONDS DEFAULT_MAXIMUM_SECONDS;
  let key := text (get evidence "evidence_key") in
  observed ← parse_datetime (get evidence "window_start");
  let protected_baseline := get verification "protected_baseline" in
  let session_baseline := get verification "protected_session_baseline" in
  after ← observed_after evidence target expected protected_baseline session_baseline
    (get verification "last_session_samples");
  checks ← verification_checks after alerts (mapping (get verification "before")) target expected
    protected_baseline session_baseline started;
  let after := dict_set after "checks" (VDict (checks_dict checks)) in
  let after := dict_set after "observed_at" (VStr (isoformat now)) in
  let after := match observed with
               | Some t => dict_set after "evidence_observed_at" (VStr (isoformat t))
               | None => after
               end in
  let after := if nonempty key then dict_set after "evidence_ref" (VStr key) else after in
  previous_observed ← parse_datetime (get verification "last_healthy_observed_at");
  distinct ← nonnegative_int (get verification "distinct_evidence_count");
  Ok {| w_after := after; w_checks := checks; w_key := key;
        w_previous_key := text (get verification "last_evidence_key");
        w_observed := observed; w_started := started; w_deadline := deadline;
        w_minimum := minimum; w_previous_observed := previous_observed;
        w_distinct := default 0 distinct |}.

(** The decisions that leave the stabilisation as it was. *)
Definition unchanged (verification : dict) (w : window) (code message : string)
    : VerificationDecision :=
  {| status := "pending"; reason_code := code; reason := message; after := w_after w;
     healthy_since := opt_text (text (get verification "healthy_since"));
     last_healthy_observed_at := isoformat <$> w_previous_observed w;
     distinct_evidence_count := w_distinct w;
     last_evidence_key := opt_text (w_previous_key w) |}.

(** The decisions that start it over. *)
Definition restarted (w : window) (st code message : string) : VerificationDecision :=
  {| status := st; reason_code := code; reason := message; after := w_after w;
     healthy_since := None; last_healthy_observed_at := None; distinct_evidence_count := 0;
     last_evidence_key := opt_text (or_text (w_key w) (w_previous_key w)) |}.

(** The decisions that extend it to the window at [t]. *)
Definition extended (w : window) (st code message : string) (after : dict)
    (stable_from t count : Z) : VerificationDecision :=
  {| status := st; reason_code := code; reason := message; after := after;
     healthy_since := Some (isoformat stable_from);
     last_healthy_observed_at := Some (isoformat t); distinct_evidence_count := count;
     last_evidence_key := opt_text (or_text (w_key w) (w_previous_key w)) |}.

Definition past_deadline (w : window) (now : Z) : bool :=
  match w_deadline w with Some d => d <=? now | None => false end.

Definition is_stale (w : window) (now : Z) : bool :=
  match w_observed w, w_started w with
  | Some t, Some s => (t <? s) || (now <? t)
  | _, _ => true
  end.

Definition decide_unhealthy (w : window) (failed missing : list string) (now : Z)
    : VerificationDecision :=
  let '(code, message) :=
    match failed with
    | [] => ("verification_evidence_missing",
             "복구 검증 근거가 아직 없습니다: " +:+ join ", " missing)
    | _ => ("verification_regressed",
            "복구 검증 조건이 충족되지 않았습니다: " +:+ join ", " failed)
    end in
  if past_deadline w now then
    restarted w "failed" "verification_window_expired"
      ("최대 검증 시간 안에 정상화 근거를 확보하지 못했습니다. " +:+ message)
  else restarted w "pending" code message.

(** [gap_seconds <= 0 or gap_seconds > max_gap_seconds]. *)
Definition gap_broken (max_gap : float) (previous t : Z) : bool :=
  let gap := total_seconds (t - previous) in fleb gap fzero || fltb max_gap gap.

(** The start and the number of windows of the stabilisation, the window at [t]
    included. *)
Definition extend (max_gap : float) (previous : option Z) (since : option Z) (count t : Z) : Z * Z :=
  let broken := match previous with Some p => gap_broken max_gap p t | None => false end in
  let since := if broken then None else since in
  let count := if broken then 0 else count in
  (default t since, count + 1).

(** [max(0.0, x)]. *)
Definition fmax0 (x : float) : float := if fltb fzero x then x else fzero.

Definition minimum_distinct (minimum cadence : Z) : res Z :=
  n ← ceil_float (int_div minimum cadence); Ok (Z.max 2 (n + 1)).

Definition decide_healthy (w : window) (since : option Z) (cadence t now : Z)
    : res VerificationDecision :=
  cadence_float ← float_of_int cadence;
  let max_gap := fmul cadence_float (flit "1.5") in
  let '(stable_from, count) := extend max_gap (w_previous_observed w) since (w_distinct w) t in
  let stable_seconds := fmax0 (total_seconds (t - stable_from)) in
  let after := dict_set (w_after w) "healthy_since" (VStr (isoformat stable_from)) in
  let after := dict_set after "stable_seconds" (VFloat stable_seconds) in
  let after := dict_set after "distinct_evidence_count" (VInt count) in
  needed ← minimum_distinct (w_minimum w) cadence;
  if fltb stable_seconds (nearest_float (w_minimum w)) || (count <? needed) then
    if past_deadline w now then
      Ok (extended w "failed" "verification_window_expired"
            "최대 검증 시간 안에 최소 연속 정상화 시간을 충족하지 못했습니다."
            after stable_from t count)
    else
      whole ← int_of_float stable_seconds;
      Ok (extended w "pending" "stabilization_window_in_progress"
            ("정상화 조건이 " +:+ str_of_int whole +:+ "초 유지됐습니다. " +:+
             "최소 " +:+ str_of_int (w_minimum w) +:+ "초 연속 관측 후 완료합니다.")
            after stable_from t count)
  else
    Ok (extended w "completed" "recovery_verified"
          ("동일 부하에서 실패율·Deployment replica·Alertmanager 해소 상태가 " +:+
           str_of_int (w_minimum w) +:+ "초 이상 안정적으로 유지됐습니다.")
          after stable_from t count).

Definition evaluate_recovery_evidence (plan_payload lifecycle evidence : dict)
    (alerts : list dict) (now : Z) : res VerificationDecision :=
  let verification := mapping (get lifecycle "verification") in
  w ← read_window plan_payload verification evidence alerts now;
  if nonempty (w_key w) && str_eqb (w_key w) (w_previous_key w) then
    Ok (unchanged verification w "duplicate_evidence_window"
          "이미 판정한 evidence 창의 재전달은 안정화 시간에 포함하지 않습니다.")
  else if is_stale w now then
    Ok (unchanged verification w "stale_evidence_window"
          "검증 시작 이후의 trusted window_start를 가진 evidence만 사용합니다.")
  else
    let failed := check_names (Some false) (w_checks w) in
    let missing := check_names None (w_checks w) in
    since ← parse_datetime (get verification "healthy_since");
    if negb (bool_decide (failed = [])) || negb (bool_decide (missing = []))
    then Ok (decide_unhealthy w failed missing now)
    else
      cadence ← nonnegative_int (get (mapping (get verification "expected"))
                                     "evidence_cadence_seconds");
      match cadence, w_observed w with
      | Some cadence, Some t =>
          if cadence <=? 0 then
            Ok (restarted w "pending" "verification_evidence_missing"
                  "설치 정책의 evidence 수집 주기를 확인할 수 없어 안정화 시간을 계산하지 않습니다.")
          else decide_healthy w since cadence t now
      | _, _ =>
          Ok (restarted w "pending" "verification_evidence_missing"
                "설치 정책의 evidence 수집 주기를 확인할 수 없어 안정화 시간을 계산하지 않습니다.")
      end.

(** ** The trusted window of persisted evidence *)

Definition lineage_of (v : pyval) : list dict :=
  match v with
  | VDict d => match get d "_lineage" with VDict l => [l] | _ => [] end
  | _ => []
  end.

Definition evidence_source_lineages (evidence : dict) : list dict :=
  flat_map (fun source => lineage_of (get evidence source))
    ["kubernetes"; "metrics"; "traces"; "metadata"] ++
  match get evidence "logs" with VList l => flat_map lineage_of l | _ => [] end.

(** The identity of one lineage, [None] when a part is missing. *)
Definition lineage_identity (lineage : dict) : res (option (string * string * string * Z)) :=
  window_start ← parse_datetime (get lineage "window_start");
  let workspace := text (get lineage "workspace_id") in
  let cluster := text (get lineage "cluster_id") in
  let key := text (get lineage "evidence_key") in
  Ok (match window_start with
      | Some t => if nonempty workspace && nonempty cluster && nonempty key
                  then Some (workspace, cluster, key, t) else None
      | None => None
      end).

(** The loop over the lineages, which returns at the first incomplete one. *)
Fixpoint lineage_identities (l : list dict) : res (option (list (string * string * string * Z))) :=
  match l with
  | [] => Ok (Some [])
  | d :: l =>
      i ← lineage_identity d;
      match i with
      | None => Ok None
      | Some i => rest ← lineage_identities l;
                  Ok (match rest with Some rest => Some (i :: rest) | None => None end)
      end
  end.

(** [expected and actual != expected]. *)
Definition differs (expected actual : string) : bool :=
  nonempty expected && negb (str_eqb actual expected).

Definition trusted_evidence_window_start (evidence : dict)
    (expected_workspace_id expected_cluster_id : string) : res (option Z) :=
  top_window ← parse_datetime (get evidence "window_start");
  let top_workspace := text (get evidence "workspace_id") in
  let top_cluster := text (get evidence "cluster_id") in
  let top_key := text (get evidence "evidence_key") in
  if (nonempty top_workspace && differs expected_workspace_id top_workspace)
     || (nonempty top_cluster && differs expected_cluster_id top_cluster) then Ok None
  else
    match evidence_source_lineages evidence with
    | [] =>
        Ok (match top_window with
            | Some t => if differs expected_workspace_id top_workspace
                           || differs expected_cluster_id top_cluster then None else Some t
            | None => None
            end)
    | lineages =>
        match mapping (get (mapping (get evidence "metrics")) "_lineage") with
        | [] => Ok None
        | _ =>
            ids ← lineage_identities lineages;
            Ok (match ids with
                | Some ids =>
                    match unique_first ids with
                    | [(workspace, cluster, key, t)] =>
                        if differs expected_workspace_id workspace
                           || differs expected_cluster_id cluster
                           || differs top_workspace workspace || differs top_cluster cluster
                           || differs top_key key
                           || match top_window with Some t' => negb (t =? t') | None => false end
                        then None else Some t
                    | _ => None
                    end
                | None => None
                end)
        end
    end.

(** ** Lemmas on the decision *)

Definition all_true (c : checks) : Prop := Forall (fun kv => kv.2 = Some true) c.

Lemma check_names_nil b c : check_names b c = [] <-> Forall (fun kv => kv.2 <> b) c.
Proof.
  unfold check_names. rewrite Forall_forall. split.
  - intros Hn kv Hkv Hb. apply fmap_nil_inv in Hn.
    assert (kv ∈ keep (fun kv => bool_decide (kv.2 = b)) c) as Hin.
    { apply elem_of_keep. split; [done|]. by apply bool_decide_eq_true_2. }
    rewrite Hn in Hin. by apply elem_of_nil in Hin.
  - intros Hall. rewrite keep_false; [done|]. intros kv Hkv.
    by apply bool_decide_eq_false_2, Hall.
Qed.

Lemma all_true_names c :
  check_names (Some false) c = [] /\ check_names None c = [] <-> all_true c.
Proof.
  rewrite !check_names_nil. unfold all_true. rewrite !Forall_forall. split.
  - intros [Hf Hn] kv Hkv. destruct (kv.2) as [[]|] eqn:E; [done| |].
    + by destruct (Hf kv Hkv).
    + by destruct (Hn kv Hkv).
  - intros Hall. split; intros kv Hkv E; by rewrite Hall in E.
Qed.

(** A window that counts: its key is new and its time lies between the start
    of the verification and now. *)
Definition counted (w : window) (now : Z) : Prop :=
  ~ (w_key w <> "" /\ w_key w = w_previous_key w) /\ is_stale w now = false.

Definition cadence_of (verification : dict) : res (option Z) :=
  nonnegative_int (get (mapping (get verification "expected")) "evidence_cadence_seconds").

(** The three kinds of decision, with what the code established for each. *)
Inductive verdict (verification : dict) (w : window) (now : Z) : VerificationDecision -> Prop :=
  | Ignored code message :
      ~ counted w now ->
      verdict verification w now (unchanged verification w code message)
  | Restarted st code message :
      counted w now ->
      ~ all_true (w_checks w) \/ ~ (exists c, cadence_of verification = Ok (Some c) /\ 0 < c) ->
      (st = "pending" \/ (st = "failed" /\ past_deadline w now = true)) ->
      verdict verification w now (restarted w st code message)
  | Extended st code message after' since cadence cadence_float t stable_from count :
      counted w now ->
      all_true (w_checks w) ->
      parse_datetime (get verification "healthy_since") = Ok since ->
      cadence_of verification = Ok (Some cadence) -> 0 < cadence ->
      float_of_int cadence = Ok cadence_float ->
      w_observed w = Some t ->
      extend (fmul cadence_float (flit "1.5")) (w_previous_observed w) since (w_distinct w) t
        = (stable_from, count) ->
      (st = "pending" \/ (st = "failed" /\ past_deadline w now = true) \/
       (st = "completed" /\
        fltb (fmax0 (total_seconds (t - stable_from))) (nearest_float (w_minimum w)) = false /\
        exists needed, minimum_distinct (w_minimum w) cadence = Ok needed /\ needed <= count)) ->
      verdict verification w now (extended w st code message after' stable_from t count).

Lemma decide_healthy_verdict verification w since cadence t now d :
  counted w now -> all_true (w_checks w) ->
  parse_datetime (get verification "healthy_since") = Ok since ->
  cadence_of verification = Ok (Some cadence) -> 0 < cadence -> w_observed w = Some t ->
  decide_healthy w since cadence t now = Ok d -> verdict verification w now d.
Proof.
  intros Hc Ha Hs Hcad Hpos Ht. unfold decide_healthy.
  intros (cf & Hcf & Hd)%bind_Ok. cbn zeta in Hd.
  destruct (extend _ _ _ _ _) as [stable_from count] eqn:He.
  apply bind_Ok in Hd as (needed & Hn & Hd).
  destruct (fltb _ _ || _) eqn:E; [destruct (past_deadline w now) eqn:Hp|].
  - injection Hd as <-. eapply Extended; eauto.
  - apply bind_Ok in Hd as (whole & _ & [= <-]). eapply Extended; eauto.
  - injection Hd as <-. apply orb_false_iff in E as [E1 E2]. eapply Extended; eauto.
    right; right. split; [done|]. split; [done|]. exists needed. split; [done|lia].
Qed.

Lemma evaluate_verdict plan_payload lifecycle evidence alerts now d :
  evaluate_recovery_evidence plan_payload lifecycle evidence alerts now = Ok d ->
  exists w,
    read_window plan_payload (mapping (get lifecycle "verification")) evidence alerts now = Ok w /\
    verdict (mapping (get lifecycle "verification")) w now d.
Proof.
  unfold evaluate_recovery_evidence. set (v := mapping (get lifecycle "verification")).
  intros (w & Hw & Hd)%bind_Ok. exists w. split; [done|].
  destruct (nonempty (w_key w) && str_eqb _ _) eqn:Edup.
  { injection Hd as <-. apply Ignored. intros [Hdup _]. apply Hdup.
    apply andb_true_iff in Edup as [Hk He]. apply str_eqb_eq in He.
    split; [|done]. by destruct (w_key w). }
  destruct (is_stale w now) eqn:Est.
  { injection Hd as <-. apply Ignored. intros [_ Hs]. congruence. }
  assert (counted w now) as Hc.
  { split; [|done]. intros [Hk He]. rewrite He, str_eqb_refl, andb_true_r in Edup.
    rewrite He in Hk. by destruct (w_previous_key w). }
  apply bind_Ok in Hd as (since & Hsince & Hd).
  destruct (negb _ || negb _) eqn:Ebad.
  - injection Hd as <-. unfold decide_unhealthy.
    assert (~ all_true (w_checks w)) as Hbad.
    { intros [Hf Hm]%all_true_names. rewrite Hf, Hm in Ebad. done. }
    destruct (check_names (Some false) (w_checks w)), (past_deadline w now) eqn:Hp;
      apply Restarted; auto.
  - assert (all_true (w_checks w)) as Ha.
    { apply all_true_names. apply orb_false_iff in Ebad as [E1 E2].
      apply negb_false_iff, bool_decide_eq_true in E1, E2. done. }
    apply bind_Ok in Hd as (cadence & Hcad & Hd).
    assert (is_Some (w_observed w)) as [t Ht].
    { unfold is_stale in Est. destruct (w_observed w); [done|done]. }
    rewrite Ht in Hd. destruct cadence as [cadence|].
    + destruct (Z.leb_spec cadence 0).
      * injection Hd as <-. apply Restarted; [done| |by left]. right.
        intros (c & Hc' & ?). unfold cadence_of in Hc'. rewrite Hcad in Hc'. simplify_eq. lia.
      * by eapply decide_healthy_verdict.
    + injection Hd as <-. apply Restarted; [done| |by left]. right.
      intros (c & Hc' & ?). unfold cadence_of in Hc'. by rewrite Hcad in Hc'.
Qed.

Lemma bounded_seconds_range v default minimum maximum n :
  minimum <= default <= maximum ->
  bounded_seconds v default minimum maximum = Ok n -> minimum <= n <= maximum.
Proof.
  intros Hd. unfold bounded_seconds. intros (o & _ & [= <-])%bind_Ok. destruct o; lia.
Qed.

Lemma read_window_minimum plan_payload v evidence alerts now w :
  read_window plan_payload v evidence alerts now = Ok w ->
  DEFAULT_MINIMUM_SECONDS <= w_minimum w <= DEFAULT_MAXIMUM_SECONDS.
Proof.
  unfold read_window. cbn zeta. intros Hw. repeat (apply bind_Ok in Hw as (? & ? & Hw)).
  injection Hw as <-. cbn. eapply bounded_seconds_range; [|eassumption].
  unfold DEFAULT_MINIMUM_SECONDS, DEFAULT_MAXIMUM_SECONDS. lia.
Qed.

Lemma counted_inside w now :
  counted w now -> exists s t, w_started w = Some s /\ w_observed w = Some t /\ s <= t <= now.
Proof.
  intros [_ Hf]. unfold is_stale in Hf. destruct (w_observed w) as [t|]; [|done].
  destruct (w_started w) as [s|]; [|done].
  apply orb_false_iff in Hf as [?%Z.ltb_ge ?%Z.ltb_ge]. by exists s, t.
Qed.

(** what one evidence window can decide.  It completes the recovery only
    if the window is new and inside the verification, every check on it is
    true, the healthy time since the stabilisation began is at least the
    configured minimum, itself between 300 and 600 seconds, and enough
    distinct windows were seen; it fails the recovery only past the deadline;
    and a window that counts but has a false or a missing check restarts the
    stabilisation and never completes. *)
Theorem verification_decision_sound plan_payload lifecycle evidence alerts now d :
  evaluate_recovery_evidence plan_payload lifecycle evidence alerts now = Ok d ->
  exists w,
    read_window plan_payload (mapping (get lifecycle "verification")) evidence alerts now = Ok w /\
    (status d = "pending" \/ status d = "failed" \/ status d = "completed") /\
    (status d = "failed" -> past_deadline w now = true) /\
    (status d = "completed" ->
       counted w now /\ all_true (w_checks w) /\
       300 <= w_minimum w <= 600 /\
       exists stable_from s t cadence needed,
         w_started w = Some s /\ w_observed w = Some t /\ s <= t <= now /\
         healthy_since d = Some (isoformat stable_from) /\
         fltb (fmax0 (total_seconds (t - stable_from))) (nearest_float (w_minimum w)) = false /\
         cadence_of (mapping (get lifecycle "verification")) = Ok (Some cadence) /\
         minimum_distinct (w_minimum w) cadence = Ok needed /\
         needed <= distinct_evidence_count d) /\
    (counted w now -> ~ all_true (w_checks w) ->
       status d <> "completed" /\ healthy_since d = None /\
       last_healthy_observed_at d = None /\ distinct_evidence_count d = 0).
Proof.
  intros (w & Hw & Hv)%evaluate_verdict. exists w. split; [done|].
  pose proof (read_window_minimum _ _ _ _ _ _ Hw) as Hmin.
  destruct Hv as [code msg Hn|st code msg Hc Hbad Hst|
                  st code msg a since cad cf t sf n Hc Ha Hs Hcad Hpos Hcf Ht He Hst]; cbn.
  - split; [auto|]. done.
  - destruct Hst as [->|[-> Hp]]; (split; [auto|]); done.
  - split; [naive_solver|]. split; [naive_solver|]. split; [|done].
    intros ->. destruct Hst as [?|[[? _]|(_ & Hlt & needed & Hneed & Hle)]]; [done|done|].
    destruct (counted_inside _ _ Hc) as (s & t' & Hs' & Ht' & Hb). simplify_eq.
    split; [done|]. split; [done|]. split; [done|]. by exists sf, s, t, cad, needed.
Qed.

(** ** Lemmas on the checks *)

(** The alert is the occurrence recorded before the recovery. *)
Definition is_original (before target alert : dict) : Prop :=
  alert_matches_original_series alert before target = Ok true /\
  text (get before "alert_event_id") <> "" /\
  text (get alert "event_id") = text (get before "alert_event_id").

(** Another occurrence of the same series fired since the verification began. *)
Definition is_refire (before target : dict) (started : option Z) (alert : dict) : Prop :=
  alert_matches_original_series alert before target = Ok true /\
  ~ is_original before target alert /\
  exists s f, started = Some s /\ parse_datetime (get alert "fired_at") = Ok (Some f) /\ s <= f.

Lemma alert_step_spec before target started st alert st' :
  alert_step before target started st alert = Ok st' ->
  (is_original before target alert /\ st' = (Some alert, st.2)) \/
  (~ is_original before target alert /\ st'.1 = st.1 /\
   (st'.2 = true <-> st.2 = true \/ is_refire before target started alert)).
Proof.
  destruct st as [original refired]. unfold alert_step.
  intros (m & Hm & Hst)%bind_Ok. destruct m; cbn [negb] in Hst.
  - destruct (nonempty _ && _) eqn:E.
    + left. injection Hst as <-. apply andb_true_iff in E as [Hn He]. apply str_eqb_eq in He.
      split; [|done]. split; [done|]. split; [|done]. by intros Hz; rewrite Hz in Hn.
    + right. apply bind_Ok in Hst as (fired & Hf & [= <-]). cbn.
      assert (~ is_original before target alert) as Hno.
      { intros (_ & Hne & He). rewrite He, str_eqb_refl, andb_true_r in E.
        by destruct (text (get before _)). }
      split; [done|]. split; [done|]. unfold is_refire. rewrite Hf. split.
      * destruct started as [s|], fired as [f|]; [|tauto..].
        intros [Hle| ->]%orb_true_iff; [|tauto]. right. split; [done|]. split; [done|].
        exists s, f. split; [done|]. split; [done|lia].
      * intros [->|(_ & _ & s & f & -> & [= ->] & Hle)]; [|apply orb_true_iff; left; lia].
        destruct started, fired; try done. apply orb_true_r.
  - right. injection Hst as <-. cbn. split; [intros [Ho _]; congruence|]. split; [done|].
    split; [tauto|]. intros [?|[Ho _]]; [done|congruence].
Qed.

Lemma alert_fold_spec before target started alerts st st' :
  foldr_res (alert_step before target started) st alerts = Ok st' ->
  (st'.2 = true <-> st.2 = true \/ exists a, a ∈ alerts /\ is_refire before target started a) /\
  (st'.1 = st.1 \/ exists a, a ∈ alerts /\ is_original before target a /\ st'.1 = Some a).
Proof.
  revert st. induction alerts as [|a alerts IH]; intros st; cbn.
  - intros [= <-]. split; [|by left]. split; [tauto|]. intros [?|(? & ?%elem_of_nil & _)]; done.
  - intros (st1 & H1 & H2)%bind_Ok. destruct (IH _ H2) as [Hr Ho]. clear IH.
    setoid_rewrite elem_of_cons.
    destruct (alert_step_spec _ _ _ _ _ _ H1) as [[Horig ->]|(Hno & Heq & Hiff)]; cbn in Hr, Ho.
    + split; [|right; destruct Ho as [->|(x & ? & ? & ->)]; eauto 6].
      rewrite Hr. split; [naive_solver|]. intros [?|(x & [->|?] & Hx)]; [auto| |eauto].
      by destruct Hx as (_ & [] & _).
    + split; [rewrite Hr, Hiff; naive_solver|]. rewrite <- Heq. naive_solver.
Qed.

Lemma alert_checks_true alerts before target started :
  alert_checks alerts before target started = Ok (Some true, Some true) ->
  (exists a t, a ∈ alerts /\ is_original before target a /\
     casefold (text (get a "status")) = "resolved" /\
     parse_datetime (get a "resolved_at") = Ok (Some t)) /\
  (forall a, a ∈ alerts -> ~ is_refire before target started a).
Proof.
  unfold alert_checks. intros ([original refired] & Hf & Hd)%bind_Ok.
  destruct (alert_fold_spec _ _ _ _ _ _ Hf) as [Hr Ho]. cbn in Hr, Ho.
  destruct original as [o|]; [|done].
  apply bind_Ok in Hd as (res & Hres & [= -> Href]). apply negb_true_iff in Href as ->.
  apply and_res_true in Hres as [Hs (t & Ht & Hsome)%bind_Ok]. apply str_eqb_eq in Hs.
  split.
  - destruct Ho as [Hbad|(a & Ha & Hor & [= ->])]; [done|].
    destruct t as [t|]; [|done]. by exists a, t.
  - intros a Ha Hre. assert (false = true) by (apply Hr; eauto). done.
Qed.

Lemma same_count_true a b : same_count a b = Some true <-> exists n, a = Some n /\ b = Some n.
Proof.
  destruct a as [x|], b as [y|]; cbn; split; try (intros (? & ? & ?)); try done; simplify_eq.
  - intros [= ->%Z.eqb_eq]. eauto.
  - by rewrite Z.eqb_refl.
Qed.

Lemma when_protected_true n v : when_protected n v = Some true <-> (0 < n -> v = Some true).
Proof. unfold when_protected. destruct (Z.ltb_spec 0 n); naive_solver lia. Qed.

(** what it means that every check of a window is true.  The failure
    ratio is at most the alert threshold and the request rate within the
    tolerance of the baseline; the target Deployment has observed its current
    generation and its desired, ready, updated and available replicas are all
    the approved number; the occurrence recorded before the recovery is
    resolved and no other occurrence of its series fired since the
    verification began; and when workloads are protected, enough are present,
    all are healthy, none was restarted or replaced, and their active
    sessions did not drop. *)
Theorem healthy_window_meaning after alerts before target expected protected_baseline
    session_baseline started c :
  verification_checks after alerts before target expected protected_baseline session_baseline
    started = Ok c ->
  all_true c ->
  (exists ratio ratio_max,
     finite_float (get after "failure_ratio") = Ok (Some ratio) /\
     finite_float (get expected "failure_ratio_max") = Ok (Some ratio_max) /\
     fleb ratio ratio_max = true) /\
  (exists rate baseline tolerance,
     finite_float (get after "request_rate") = Ok (Some rate) /\
     finite_float (get expected "request_rate_baseline") = Ok (Some baseline) /\
     finite_float (get expected "request_rate_tolerance_ratio") = Ok (Some tolerance) /\
     fltb fzero baseline = true /\ fltb tolerance (flit "1.0") = true /\
     fleb (fabs (fsub rate baseline)) (fmul baseline tolerance) = true) /\
  (exists d replicas g,
     read_deployment (mapping (get after "deployment")) = Ok d /\
     nonnegative_int (get expected "replicas") = Ok (Some replicas) /\
     desired d = Some replicas /\ ready d = Some replicas /\ updated d = Some replicas /\
     available d = Some replicas /\ generation d = Some g /\ observed_generation d = Some g /\
     (unavailable_replicas d = Some 0 \/
      (unavailable_replicas d = None /\ unavailable_omitted d = true))) /\
  ((exists a t, a ∈ alerts /\ is_original before target a /\
      casefold (text (get a "status")) = "resolved" /\
      parse_datetime (get a "resolved_at") = Ok (Some t)) /\
   (forall a, a ∈ alerts -> ~ is_refire before target started a)) /\
  (forall n, nonnegative_int (get expected "protected_workloads") = Ok (Some n) -> 0 < n ->
     exists workloads,
       get after "protected_workloads" = VList workloads /\ n <= Z.of_nat (length workloads) /\
       (forall item, item ∈ workloads -> attr_get item "healthy" = Ok (VBool true)) /\
       protected_workloads_unchanged protected_baseline (VList workloads) = Some true /\
       protected_active_sessions_maintained session_baseline
         (get after "protected_active_sessions") = Ok (Some true)).
Proof.
  unfold verification_checks. cbn zeta. intros Hc Hall.
  apply bind_Ok in Hc as (ratio & Hratio & Hc). apply bind_Ok in Hc as (rate & Hrate & Hc).
  apply bind_Ok in Hc as (ratio_max & Hmax & Hc). apply bind_Ok in Hc as (base & Hbase & Hc).
  apply bind_Ok in Hc as (tol & Htol & Hc). apply bind_Ok in Hc as (replicas & Hrep & Hc).
  apply bind_Ok in Hc as (d & Hd & Hc). apply bind_Ok in Hc as (n & Hn & Hc).
  apply bind_Ok in Hc as (healthy & Hhealthy & Hc).
  apply bind_Ok in Hc as (maintained & Hmaint & Hc).
  apply bind_Ok in Hc as ([resolved norefire] & Halert & [= <-]).
  unfold all_true in Hall. rewrite !Forall_cons in Hall. cbn in Hall.
  destruct Hall as (C1 & C2 & C3 & C4 & C5 & C6 & C7 & C8 & C9 & C10 & C11 & _ & C13 & -> & -> & _).
  apply same_count_true in C3 as (r & Hdes & ->), C4 as (r4 & Hready & [= <-]),
    C5 as (r5 & Hupd & [= <-]), C6 as (r6 & Hav & [= <-]), C8 as (g & Hog & Hg).
  rewrite when_protected_true in C9, C10, C11, C13.
  split; [|split; [|split; [|split]]].
  - destruct ratio as [x|], ratio_max as [m|]; try done. exists x, m. by injection C1.
  - destruct rate as [x|], base as [b|], tol as [t|]; try done. cbn in C2.
    destruct (fltb fzero b) eqn:E1, (fleb fzero t) eqn:E2, (fltb t (flit "1.0")) eqn:E3;
      cbn in C2; try done. injection C2 as C2. exists x, b, t. done.
  - exists d, r, g. repeat (split; [done|]). unfold unavailable_zero in C7.
    destruct (unavailable_replicas d) as [u|]; [left; injection C7 as C7; f_equal; lia|].
    right. split; [done|]. unfold omitted_unavailable_means_zero in C7.
    by destruct (unavailable_omitted d).
  - by apply alert_checks_true.
  - intros n' Hn' Hpos. rewrite Hn in Hn'. injection Hn' as ->. cbn in *.
    specialize (C9 Hpos). specialize (C10 Hpos). specialize (C11 Hpos). specialize (C13 Hpos).
    destruct (get after "protected_workloads") as [| | | | | |l|]; try done. cbn in C9.
    exists l. split; [done|]. split; [injection C9; lia|].
    split; [|split; [done|by rewrite Hmaint, C13]].
    apply bind_Ok in Hhealthy as (b & Hb & [= Heq]). rewrite C10 in Heq. injection Heq as ->.
    intros item Hitem. rewrite allr_true in Hb. apply Hb in Hitem.
    apply bind_Ok in Hitem as (h & -> & [= Ht]). destruct h as [|[]| | | | | |]; done.
Qed.

End verification.
(** ** A concrete recovery

    A Deployment scaled to two replicas, verified every 300 seconds. *)
Module Sample.

Definition at_second (n : Z) : pyval := VTime (Moment (n * SECOND) (Some 0)).
Definition iso (n : Z) : pyval := VStr (@isoformat coded_iso (n * SECOND)).

Definition labels : dict :=
  [("namespace", VStr "shop"); ("resource_kind", VStr "Deployment"); ("resource_name", VStr "web");
   ("service", VStr "web"); ("sli", VStr "http"); ("symptom", VStr "errors")].
Definition target : dict :=
  [("cluster_id", VStr "c-1"); ("namespace", VStr "shop"); ("resource_kind", VStr "Deployment");
   ("resource_name", VStr "web")].
Definition sample (v : string) : pyval :=
  VDict [("samples", VList [VDict [("metric", VDict labels); ("value", VFloat (flit v))]])].
Definition snapshot : pyval :=
  VDict [("workload", VDict [("kind", VStr "Deployment"); ("namespace", VStr "shop");
                             ("name", VStr "web"); ("generation", VInt 3)]);
         ("deployment_status", VDict
           [("observed_generation", VInt 3); ("desired_replicas", VInt 2);
            ("ready_replicas", VInt 2); ("updated_replicas", VInt 2);
            ("available_replicas", VInt 2); ("unavailable_replicas", VInt 0)])].
Definition evidence (key : string) (second : Z) : dict :=
  [("evidence_key", VStr key); ("window_start", at_second second);
   ("metrics", VDict [("results", VDict
      [(STANDARD_FAILURE_RATIO_METRIC, sample "0.01"); (STANDARD_REQUEST_RATE_METRIC, sample "10.5")])]);
   ("metadata", VDict [("current_workload_snapshots", VList [snapshot])])].
Definition subject : pyval :=
  VDict [("cluster", VStr "c-1"); ("namespace", VStr "shop"); ("kind", VStr "Deployment");
         ("name", VStr "web")].
Definition alert : dict :=
  [("event_id", VStr "a-1"); ("rule_name", VStr STANDARD_SLI_ALERT_NAME);
   ("source", VStr "alertmanager"); ("subject_key", VStr "s-1"); ("subject", subject);
   ("incident_id", VStr "i-1"); ("series_identity", VDict labels);
   ("observed_value", VFloat (flit "0.4")); ("threshold", VFloat (flit "0.05"));
   ("status", VStr "resolved"); ("fired_at", at_second 10); ("resolved_at", at_second 900)].
Definition expected : dict :=
  [("failure_ratio_max", VFloat (flit "0.05")); ("request_rate_baseline", VFloat (flit "10.0"));
   ("request_rate_tolerance_ratio", VFloat (flit "0.2")); ("replicas", VInt 2);
   ("evidence_cadence_seconds", VInt 300); ("protected_workloads", VInt 0)].
Definition before : dict := alert_snapshot alert.
Definition verification (fields : dict) : dict :=
  [("minimum_seconds", VInt 300); ("maximum_seconds", VInt 600); ("expected", VDict expected);
   ("before", VDict before); ("target", VDict target); ("started_at", iso 1000);
   ("deadline_at", iso 1600)] ++ fields.
Definition lifecycle (fields : dict) : dict := [("verification", VDict (verification fields))].
Definition one_window : dict :=
  [("healthy_since", iso 1100); ("last_healthy_observed_at", iso 1100);
   ("distinct_evidence_count", VInt 1); ("last_evidence_key", VStr "k-1")].

Definition session (v : string) : pyval :=
  VDict [("namespace", VStr "shop"); ("kind", VStr "Deployment"); ("name", VStr "cart");
         ("continuity_id", VStr "x"); ("pod_uid", VStr "p-1"); ("value", VFloat (flit v))].

End Sample.

Definition value_of {A} (default : A) (m : res A) : A :=
  match m with Ok a => a | Err _ => default end.

Definition no_decision : VerificationDecision :=
  {| status := ""; reason_code := ""; reason := ""; after := []; healthy_since := None;
     last_healthy_observed_at := None; distinct_evidence_count := 0; last_evidence_key := None |}.

Definition sample_decision : VerificationDecision :=
  value_of no_decision
    (@evaluate_recovery_evidence coded_iso [] (Sample.lifecycle Sample.one_window)
       (Sample.evidence "k-2" 1400) [Sample.alert] (1410 * SECOND)).

Lemma verification_decision_sound_witness :
  status sample_decision = "completed" /\
  exists w, counted w (1410 * SECOND) /\ all_true (w_checks w) /\ 300 <= w_minimum w <= 600.
Proof.
  assert (status sample_decision = "completed") as Hs by (vm_compute; reflexivity).
  split; [exact Hs|].
  destruct (@verification_decision_sound coded_iso [] (Sample.lifecycle Sample.one_window)
              (Sample.evidence "k-2" 1400) [Sample.alert] (1410 * SECOND) sample_decision)
    as (w & _ & _ & _ & Hc & _); [vm_compute; reflexivity|].
  destruct (Hc Hs) as (H1 & H2 & H3 & _). exists w. exact (conj H1 (conj H2 H3)).
Defined.

Definition sample_after : dict :=
  value_of [] (@observed_after coded_iso (Sample.evidence "k-2" 1400) Sample.target Sample.expected
                 VNone VNone VNone).
Definition sample_checks : checks :=
  value_of [] (@verification_checks coded_iso sample_after [Sample.alert] Sample.before
                 Sample.target Sample.expected VNone VNone (Some (1000 * SECOND))).

Lemma all_trueb c : forallb (fun kv => bool_decide (kv.2 = Some true)) c = true -> all_true c.
Proof.
  intros Hc. apply Forall_forall. intros kv Hkv. rewrite forallb_elem in Hc.
  by apply Hc, bool_decide_eq_true in Hkv.
Qed.

Lemma healthy_window_meaning_witness :
  sample_checks <> [] /\
  exists d replicas, read_deployment (mapping (get sample_after "deployment")) = Ok d /\
    nonnegative_int (get Sample.expected "replicas") = Ok (Some replicas) /\
    ready d = Some replicas.
Proof.
  split; [vm_compute; discriminate|].
  destruct (@healthy_window_meaning coded_iso sample_after [Sample.alert] Sample.before
              Sample.target Sample.expected VNone VNone (Some (1000 * SECOND)) sample_checks)
    as (_ & _ & (d & r & g & Hd & Hr & _ & Hready & _) & _);
    [vm_compute; reflexivity|apply all_trueb; vm_compute; reflexivity|].
  exists d, r. exact (conj Hd (conj Hr Hready)).
Defined.

Lemma sessions_maintained_sound_witness :
  exists before after,
    [Sample.session "2.0"] = VDict <$> before /\ [Sample.session "3.0"] = VDict <$> after /\
    session_id <$> before ≡ₚ session_id <$> after.
Proof.
  destruct (sessions_maintained_sound [Sample.session "2.0"] [Sample.session "3.0"])
    as (_ & b & a & ? & ? & _ & _ & ? & _); [vm_compute; reflexivity|].
  exists b, a. done.
Defined.

Lemma alert_snapshot_unambiguous_witness :
  exists pre a post, [Sample.alert] = pre ++ a :: post /\
    alert_snapshot Sample.alert = alert_snapshot a /\
    @alert_qualifies coded_iso Sample.target "i-1" "i-1" (Some Sample.labels) a.
Proof.
  destruct (@alert_snapshot_unambiguous coded_iso [Sample.alert] Sample.target "i-1" "i-1"
              (Some (VDict Sample.labels)) (alert_snapshot Sample.alert))
    as (pre & a & post & ? & ? & ? & _); [vm_compute; reflexivity|reflexivity|].
  exists pre, a, post. done.
Defined.

End RecoveryVerification.
