(* ===== verification/RecoveryLifecycle.v ===== *)
(** * The lifecycle of a recovery plan

    The handlers of [services/ai/rca-feedback-worker/app.py] that move a
    recovery through deployment and verification, the repository operations
    they use ([update_recovery_plan_lifecycle_if_status],
    [get_recovery_plan_for_workflow], [list_recovery_verification_plans],
    [expire_recovery_verifications] of [domains/rca/repository.py]) and the
    retry of an expired verification ([domains/rca/router.py]).

    The table is a map keyed by its unique constraint [(workspace_id,
    plan_id)]; a handler that raises leaves it unchanged, so a handler is a
    function from the table to [res] of the new table and the events it
    yields.  The reads of other tables (workflow runs, alerts, evidence
    windows) are arguments. *)
From S2P Require Import Prelude PyStr PyFloat PyVal PyTime Libs Demo.
From S2P Require Import RecoveryChecks RecoveryVerification.

Module RecoveryLifecycle.
Import RecoveryChecks RecoveryVerification.

Definition RECOVERY_STATUS_DEPLOY_PENDING : string := "deploy_pending".
Definition RECOVERY_STATUS_VERIFICATION_PENDING : string := "verification_pending".
Definition RECOVERY_STATUS_COMPLETED : string := "completed".
Definition RECOVERY_STATUS_FAILED : string := "failed".

(** ** The table *)

Record plan_row := {
  row_id : Z;
  plan_id : string;
  workspace_id : string;
  correlation_id : string;
  incident_id : string;
  row_evidence_ref : string;
  row_status : string;
  selected_action_id : option string;
  selected_by : option string;
  payload : dict;
  updated_at : Z;
}.

Definition row_key (r : plan_row) : string * string := (workspace_id r, plan_id r).

Notation table := (gmap (string * string) plan_row).

Definition lifecycle_of (r : plan_row) : dict := mapping (get (payload r) "lifecycle").
Definition verification_of (r : plan_row) : dict := mapping (get (lifecycle_of r) "verification").

(** The [UPDATE] of [update_recovery_plan_lifecycle_if_status]. *)
Definition with_lifecycle (r : plan_row) (status : string) (lifecycle : dict)
    (clear_selection : bool) (now : Z) : plan_row :=
  {| row_id := row_id r; plan_id := plan_id r; workspace_id := workspace_id r;
     correlation_id := correlation_id r; incident_id := incident_id r;
     row_evidence_ref := row_evidence_ref r; row_status := status;
     selected_action_id := if clear_selection then None else selected_action_id r;
     selected_by := if clear_selection then None else selected_by r;
     payload := dict_set (payload r) "lifecycle" (VDict lifecycle); updated_at := now |}.

Definition update_recovery_plan_lifecycle_if_status (t : table) (plan_id workspace_id : string)
    (expected_statuses : list string) (status : string) (lifecycle : dict)
    (clear_selection : bool) (now : Z) : table * option plan_row :=
  match t !! (workspace_id, plan_id) with
  | Some r =>
      if bool_decide (row_status r ∈ expected_statuses) then
        let r' := with_lifecycle r status lifecycle clear_selection now in
        (<[(workspace_id, plan_id) := r']> t, Some r')
      else (t, None)
  | None => (t, None)
  end.

(** [column["k"].astext == s] on a JSON string. *)
Definition astext_eq (v : pyval) (s : string) : bool := py_eqb v (VStr s).

Definition get_recovery_plan_for_workflow (t : table) (workspace_id workflow_run_id binding_id
    application_id : string) : option plan_row :=
  the_one (keep (fun r =>
    str_eqb (RecoveryLifecycle.workspace_id r) workspace_id &&
    bool_decide (row_status r ∈ [RECOVERY_STATUS_DEPLOY_PENDING;
      RECOVERY_STATUS_VERIFICATION_PENDING; RECOVERY_STATUS_COMPLETED; RECOVERY_STATUS_FAILED]) &&
    (let merge := mapping (get (lifecycle_of r) "merge") in
     astext_eq (get merge "workflow_run_id") workflow_run_id &&
     astext_eq (get merge "binding_id") binding_id &&
     astext_eq (get merge "application_id") application_id)) (map_to_list t).*2).

Definition row_leb (a b : plan_row) : bool :=
  (updated_at a <? updated_at b) || ((updated_at a =? updated_at b) && (row_id a <=? row_id b)).

Definition list_recovery_verification_plans (t : table) (workspace_id cluster_id : string)
    (limit : nat) : list plan_row :=
  take (1 `max` (limit `min` 500)) (isort row_leb (keep (fun r =>
    str_eqb (RecoveryLifecycle.workspace_id r) workspace_id &&
    str_eqb (row_status r) RECOVERY_STATUS_VERIFICATION_PENDING &&
    astext_eq (get (mapping (get (payload r) "target")) "cluster_id") cluster_id) (map_to_list t).*2)).

(** ** Events *)

Inductive event :=
  | RecoveryVerificationStarted (plan incident workflow started_at deadline_at : string)
      (expected before : dict) (workspace : string)
  | RecoveryVerificationUpdated (plan incident status reason_code reason evidence_ref : string)
      (before after : dict) (workspace : string)
  | RecoveryVerificationFailed (plan incident reason_code reason evidence_ref : string)
      (before after : dict) (workspace : string)
  | IncidentResolved (incident : string) (cluster : pyval) (reason evidence_ref plan : string)
      (before after : dict) (workspace : string).

(** ** Starting the verification *)

Section handlers.
Context `{IsoTime} `{ReprLib}.

(** [text_value] of the worker is [text]. *)
Definition workflow_matches (merge workflow : dict) (workspace_id workflow_run_id binding_id
    application_id : string) : bool :=
  str_eqb (text (get merge "workflow_run_id")) workflow_run_id &&
  str_eqb (text (get merge "binding_id")) binding_id &&
  str_eqb (text (get merge "application_id")) application_id &&
  str_eqb (text (get merge "merge_commit_sha")) (text (get workflow "commit_sha")) &&
  str_eqb (text (get merge "cluster_id")) (text (get workflow "cluster_id")) &&
  str_eqb (text (get workflow "workspace_id")) workspace_id &&
  str_eqb (text (get workflow "binding_id")) binding_id &&
  str_eqb (text (get workflow "application_id")) application_id &&
  str_eqb (text (get workflow "status")) "succeeded".

(** [int(verification.get("maximum_seconds") or DEFAULT_MAXIMUM_SECONDS)]. *)
Definition maximum_seconds_of (verification : dict) : res Z :=
  let v := get verification "maximum_seconds" in
  py_int (if truthy v then v else VInt DEFAULT_MAXIMUM_SECONDS).

Definition start_recovery_verification (t : table) (workspace_id workflow_run_id binding_id
    application_id : string) (workflow : pyval) (now : Z) : res (table * option event) :=
  match get_recovery_plan_for_workflow t workspace_id workflow_run_id binding_id application_id with
  | None => Ok (t, None)
  | Some record =>
      let lifecycle := lifecycle_of record in
      let merge := mapping (get lifecycle "merge") in
      match workflow with
      | VDict workflow =>
          if str_eqb (row_status record) RECOVERY_STATUS_DEPLOY_PENDING &&
             workflow_matches merge workflow workspace_id workflow_run_id binding_id application_id
          then
            let verification := verification_of record in
            maximum ← maximum_seconds_of verification;
            deadline ← verification_deadline now maximum;
            let verification := dict_update verification
              [("status", VStr RECOVERY_STATUS_VERIFICATION_PENDING);
               ("started_at", VStr (isoformat now));
               ("deadline_at", VStr (isoformat deadline));
               ("healthy_since", VNone);
               ("last_reason_code", VStr "waiting_for_post_deploy_evidence");
               ("last_reason", VStr "배포 성공 후 첫 정상화 evidence 창을 기다립니다.")] in
            let lifecycle := dict_update lifecycle
              [("phase", VStr RECOVERY_STATUS_VERIFICATION_PENDING);
               ("verification", VDict verification)] in
            let '(t, saved) := update_recovery_plan_lifecycle_if_status t (plan_id record)
              workspace_id [RECOVERY_STATUS_DEPLOY_PENDING] RECOVERY_STATUS_VERIFICATION_PENDING
              lifecycle false now in
            Ok (t, match saved with
                   | None => None
                   | Some _ =>
                       Some (RecoveryVerificationStarted (plan_id record) (incident_id record)
                         workflow_run_id (isoformat now) (isoformat deadline)
                         (mapping (get verification "expected"))
                         (mapping (get verification "before")) workspace_id)
                   end)
          else Ok (t, None)
      | _ => Ok (t, None)
      end
  end.

Definition on_recovery_deploy_failed (t : table) (workspace_id workflow_run_id binding_id
    application_id reason : string) (now : Z) : table * list event :=
  match get_recovery_plan_for_workflow t workspace_id workflow_run_id binding_id application_id with
  | None => (t, [])
  | Some record =>
      if str_eqb (row_status record) RECOVERY_STATUS_DEPLOY_PENDING then
        let lifecycle := dict_set (lifecycle_of record) "phase" (VStr RECOVERY_STATUS_FAILED) in
        let lifecycle := dict_set lifecycle "failure"
          (VDict [("reason_code", VStr "recovery_deploy_failed"); ("reason", VStr reason);
                  ("workflow_run_id", VStr workflow_run_id)]) in
        let '(t, saved) := update_recovery_plan_lifecycle_if_status t (plan_id record)
          workspace_id [RECOVERY_STATUS_DEPLOY_PENDING] RECOVERY_STATUS_FAILED lifecycle false now in
        (t, match saved with
            | None => []
            | Some _ =>
                [RecoveryVerificationFailed (plan_id record) (incident_id record)
                   "recovery_deploy_failed" reason
                   (if nonempty (row_evidence_ref record) then row_evidence_ref record else "unknown")
                   (mapping (get (mapping (get lifecycle "verification")) "before")) [] workspace_id]
            end)
      else (t, [])
  end.

(** ** Evidence during the verification *)

Definition opt_str (o : option string) : pyval := match o with Some s => VStr s | None => VNone end.

(** [d.pop(k, None)]. *)
Fixpoint dict_pop (d : dict) (k : string) : dict :=
  match d with
  | [] => []
  | (k', v) :: d => if str_eqb k' k then d else (k', v) :: dict_pop d k
  end.

Definition apply_decision (verification : dict) (d : VerificationDecision) : dict :=
  let verification := dict_update verification
    [("status", VStr (status d));
     ("healthy_since", opt_str (healthy_since d));
     ("last_healthy_observed_at", opt_str (last_healthy_observed_at d));
     ("distinct_evidence_count", VInt (distinct_evidence_count d));
     ("last_evidence_key", opt_str (last_evidence_key d));
     ("last_reason_code", VStr (reason_code d));
     ("last_reason", VStr (reason d));
     ("after", VDict (after d))] in
  match get (after d) "protected_active_sessions" with
  | VList samples =>
      dict_set verification "last_session_samples" (VList (VDict <$> dicts_of samples))
  | _ => verification
  end.

Definition apply_verification_terminal_state (lifecycle : dict) (d : VerificationDecision)
    (evidence_ref : string) : dict :=
  if str_eqb (status d) "failed" then
    dict_set lifecycle "failure"
      (VDict [("reason_code", VStr (reason_code d)); ("reason", VStr (reason d));
              ("evidence_ref", VStr evidence_ref)])
  else if str_eqb (status d) "completed" then dict_pop lifecycle "failure"
  else lifecycle.

Definition target_status (d : VerificationDecision) : string :=
  if str_eqb (status d) "completed" then RECOVERY_STATUS_COMPLETED
  else if str_eqb (status d) "failed" then RECOVERY_STATUS_FAILED
  else RECOVERY_STATUS_VERIFICATION_PENDING.

Definition next_lifecycle (lifecycle : dict) (d : VerificationDecision) (evidence_ref : string)
    : dict :=
  let verification := apply_decision (mapping (get lifecycle "verification")) d in
  let lifecycle := dict_set lifecycle "verification" (VDict verification) in
  let lifecycle := dict_set lifecycle "phase" (VStr (target_status d)) in
  apply_verification_terminal_state lifecycle d evidence_ref.

(** [str(v or "")]. *)
Definition str_or_empty (v : pyval) : string := if truthy v then py_str v else "".

(** The reads of [list_alert_events]: the occurrence with an id, and the
    standard SLI occurrences of a subject since a time. *)
Record alert_reader := {
  alerts_by_event : string -> list dict;
  alerts_since : Z -> string -> list dict;
}.

Definition alerts_for (reader : alert_reader) (verification : dict) : res (list dict) :=
  let before := mapping (get verification "before") in
  let original_event_id := str_or_empty (get before "alert_event_id") in
  let subject_key := str_or_empty (get before "subject_key") in
  started ← parse_datetime (get verification "started_at");
  Ok (match started with
      | Some started =>
          if nonempty original_event_id && nonempty subject_key then
            (fold_left (fun by_id alert =>
               let i := str_or_empty (get alert "event_id") in
               if nonempty i then dict_set by_id i alert else by_id)
               (take 1 (alerts_by_event reader original_event_id) ++
                take 500 (alerts_since reader started subject_key)) []).*2
          else []
      | None => []
      end).

(** The decision on one record, as read at the start of the handler. *)
Definition verify_record (reader : alert_reader) (evidence : dict) (now : Z) (record : plan_row)
    : res VerificationDecision :=
  let lifecycle := lifecycle_of record in
  alerts ← alerts_for reader (mapping (get lifecycle "verification"));
  evaluate_recovery_evidence (payload record) lifecycle evidence alerts now.

(** The write of one record and the events it yields. *)
Definition commit_record (t : table) (evt_workspace evidence_key : string) (now : Z)
    (record : plan_row) (d : VerificationDecision) : res (table * list event) :=
  let lifecycle := next_lifecycle (lifecycle_of record) d evidence_key in
  let '(t, saved) := update_recovery_plan_lifecycle_if_status t (plan_id record) evt_workspace
    [RECOVERY_STATUS_VERIFICATION_PENDING] (target_status d) lifecycle false now in
  match saved with
  | None => Ok (t, [])
  | Some _ =>
      let verification := mapping (get lifecycle "verification") in
      let before := mapping (get verification "before") in
      let updated := RecoveryVerificationUpdated (plan_id record) (incident_id record) (status d)
        (reason_code d) (reason d) evidence_key before (after d) evt_workspace in
      if str_eqb (status d) "failed" then
        Ok (t, [updated; RecoveryVerificationFailed (plan_id record) (incident_id record)
                           (reason_code d) (reason d) evidence_key before (after d) evt_workspace])
      else if str_eqb (status d) "completed" then
        let stored := mapping (get verification "target") in
        let target := match stored with [] => recovery_target (payload record) | _ => stored end in
        cluster ← raise_none (dict_get target "cluster_id") KeyError;
        Ok (t, [updated; IncidentResolved (incident_id record) cluster (reason d) evidence_key
                           (plan_id record) before (after d) evt_workspace])
      else Ok (t, [updated])
  end.

Definition on_recovery_verification_evidence (t : table) (reader : alert_reader)
    (evt_workspace evt_cluster evidence_key : string) (evidence : pyval) (now : Z)
    : res (table * list event) :=
  if is_empty evidence_key then Ok (t, [])
  else match evidence with
       | VDict evidence =>
           foldr_res (fun '(t, out) record =>
             d ← verify_record reader evidence now record;
             '(t, events) ← commit_record t evt_workspace evidence_key now record d;
             Ok (t, out ++ events))
             (t, []) (list_recovery_verification_plans t evt_workspace evt_cluster 100)
       | _ => Ok (t, [])
       end.

(** ** Expiry and retry *)

Definition EXPIRED_REASON : string :=
  "최대 검증 시간 안에 연속 정상화 근거가 충족되지 않아 " +:+ "복구 완료로 판정하지 않았습니다.".

(** The row the janitor writes for an overdue verification. *)
Definition expire_row (now : Z) (r : plan_row) : plan_row :=
  let verification := dict_update (verification_of r)
    [("status", VStr RECOVERY_STATUS_FAILED);
     ("last_reason_code", VStr "verification_window_expired");
     ("last_reason", VStr EXPIRED_REASON);
     ("expired_at", VStr (isoformat now))] in
  let lifecycle := dict_update (lifecycle_of r)
    [("phase", VStr RECOVERY_STATUS_FAILED);
     ("verification", VDict verification);
     ("failure", VDict [("reason_code", VStr "verification_window_expired");
                        ("reason", VStr EXPIRED_REASON)])] in
  with_lifecycle r RECOVERY_STATUS_FAILED lifecycle false now.

(** The stored deadline; the worker wrote it with [isoformat]. *)
Definition deadline_of (r : plan_row) : option Z :=
  match parse_datetime (get (verification_of r) "deadline_at") with
  | Ok o => o
  | Err _ => None
  end.

(** [status == verification_pending AND deadline <= now]. *)
Definition overdue (now : Z) (r : plan_row) : bool :=
  str_eqb (row_status r) RECOVERY_STATUS_VERIFICATION_PENDING &&
  match deadline_of r with Some deadline => deadline <=? now | None => false end.

Definition deadline_leb (a b : plan_row) : bool :=
  let d r := default 0 (deadline_of r) in
  (d a <? d b) || ((d a =? d b) && (row_id a <=? row_id b)).

Definition expire_recovery_verifications (t : table) (now : Z) (limit : nat) : table * list event :=
  let rows := take (1 `max` (limit `min` 500))
    (isort deadline_leb (keep (overdue now) (map_to_list t).*2)) in
  (fold_left (fun t r => <[row_key r := expire_row now r]> t) rows t,
   (fun r => RecoveryVerificationFailed (plan_id r) (incident_id r) "verification_window_expired"
               EXPIRED_REASON (row_evidence_ref r)
               (mapping (get (verification_of r) "before"))
               (mapping (get (verification_of r) "after")) (workspace_id r)) <$> rows).

Definition recovery_retry_number (container : dict) : Z :=
  match get container "retry_attempt" with
  | VInt z => if 0 <=? z then z + 1 else 1
  | _ => 1
  end.

Definition recovery_workflow_matches (workflow : pyval) (workspace_id workflow_run_id binding_id
    application_id cluster_id commit_sha status : string) : bool :=
  let row := mapping workflow in
  nonempty workflow_run_id && nonempty binding_id && nonempty application_id &&
  nonempty cluster_id && nonempty commit_sha &&
  str_eqb (text (get row "workflow_run_id")) workflow_run_id &&
  str_eqb (text (get row "workspace_id")) workspace_id &&
  str_eqb (text (get row "binding_id")) binding_id &&
  str_eqb (text (get row "application_id")) application_id &&
  str_eqb (text (get row "cluster_id")) cluster_id &&
  str_eqb (text (get row "commit_sha")) commit_sha &&
  str_eqb (text (get row "status")) status.

Definition verification_retry_lifecycle (workspace_id : string) (lifecycle : dict)
    (workflow : pyval) (now : Z) (requested_by reason : string) : res (option (dict * Z)) :=
  let merge := mapping (get lifecycle "merge") in
  let verification := mapping (get lifecycle "verification") in
  let workflow_run_id := text (get merge "workflow_run_id") in
  if negb (recovery_workflow_matches workflow (strip workspace_id) workflow_run_id
             (text (get merge "binding_id")) (text (get merge "application_id"))
             (text (get merge "cluster_id")) (text (get merge "merge_commit_sha")) "succeeded")
  then Ok None
  else
    let maximum :=
      match get verification "maximum_seconds" with
      | VInt z => if (0 <? z) && (z <=? DEFAULT_MAXIMUM_SECONDS) then z else DEFAULT_MAXIMUM_SECONDS
      | _ => DEFAULT_MAXIMUM_SECONDS
      end in
    let attempt := recovery_retry_number verification in
    deadline ← verification_deadline now maximum;
    let verification' := dict_update verification
      [("status", VStr RECOVERY_STATUS_VERIFICATION_PENDING);
       ("started_at", VStr (isoformat now));
       ("deadline_at", VStr (isoformat deadline));
       ("healthy_since", VNone);
       ("last_healthy_observed_at", VNone);
       ("distinct_evidence_count", VInt 0);
       ("last_evidence_key", VNone);
       ("last_session_samples", get verification "protected_session_baseline");
       ("after", VDict []);
       ("last_reason_code", VStr "waiting_for_post_deploy_evidence");
       ("last_reason", VStr "동일 배포 identity로 안정화 검증을 다시 시작했습니다.");
       ("retry_attempt", VInt attempt)] in
    Ok (Some (dict_update (dict_pop lifecycle "failure")
      [("phase", VStr RECOVERY_STATUS_VERIFICATION_PENDING);
       ("verification", VDict verification');
       ("retry", VDict [("stage", VStr "verification"); ("attempt", VInt attempt);
                        ("requested_by", VStr requested_by);
                        ("requested_at", VStr (isoformat now)); ("reason", VStr reason);
                        ("workflow_run_id", VStr workflow_run_id)])], attempt)).

(** ** The status machine *)

(** The table is keyed by its unique constraint. *)
Definition keyed (t : table) : Prop := forall k r, t !! k = Some r -> row_key r = k.

Definition is_completed (t : table) (k : string * string) : nat :=
  match t !! k with
  | Some r => if str_eqb (row_status r) RECOVERY_STATUS_COMPLETED then 1 else 0
  | None => 0
  end.

Definition resolves (k : string * string) (e : event) : bool :=
  match e with
  | IncidentResolved _ _ _ _ plan _ _ workspace => bool_decide (k = (workspace, plan))
  | _ => false
  end.
Definition resolved_count (k : string * string) (es : list event) : nat :=
  length (keep (resolves k) es).

(** The outcome of a recovery: its status, its decision and its payload with
    the lifecycle in it. *)
Definition same_outcome (r r' : plan_row) : Prop :=
  row_status r' = row_status r /\ payload r' = payload r /\
  selected_action_id r' = selected_action_id r /\ selected_by r' = selected_by r.

(** What every operation guarantees: it keeps the keys, it leaves the outcome
    of completed plans alone, and each resolution it reports is a plan it
    completes. *)
Definition sound_step (t t' : table) (es : list event) : Prop :=
  (keyed t -> keyed t') /\
  (forall k r, t !! k = Some r -> row_status r = RECOVERY_STATUS_COMPLETED ->
     exists r', t' !! k = Some r' /\ same_outcome r r') /\
  (forall k, (resolved_count k es + is_completed t k <= is_completed t' k)%nat).

Lemma resolved_count_app k es es' :
  resolved_count k (es ++ es') = (resolved_count k es + resolved_count k es')%nat.
Proof. unfold resolved_count. by rewrite keep_app, length_app. Qed.

Lemma same_outcome_refl r : same_outcome r r.
Proof. done. Qed.

Lemma sound_step_quiet t es : (forall k, resolved_count k es = 0%nat) -> sound_step t t es.
Proof.
  intros Hes. split; [done|]. split; [eauto using same_outcome_refl|]. intros k. by rewrite Hes.
Qed.

Lemma sound_step_refl t : sound_step t t [].
Proof. by apply sound_step_quiet. Qed.

Lemma sound_step_trans t1 t2 t3 es es' :
  sound_step t1 t2 es -> sound_step t2 t3 es' -> sound_step t1 t3 (es ++ es').
Proof.
  intros (Hk & Hc & Hr) (Hk' & Hc' & Hr'). split; [auto|]. split.
  - intros k r Hl Hst. destruct (Hc k r Hl Hst) as (r1 & Hl1 & Hs1 & Hp1 & Ha1 & Hb1).
    destruct (Hc' k r1 Hl1) as (r2 & Hl2 & Hs2 & Hp2 & Ha2 & Hb2); [congruence|].
    exists r2. split; [done|]. split_and!; congruence.
  - intros k. rewrite resolved_count_app. specialize (Hr k). specialize (Hr' k). lia.
Qed.

(** A write to one row that was not completed. *)
Lemma sound_step_write t k r r' es :
  t !! k = Some r -> row_status r <> RECOVERY_STATUS_COMPLETED -> row_key r' = row_key r ->
  (forall k', k' <> k -> resolved_count k' es = 0%nat) ->
  (resolved_count k es <=
     (if str_eqb (row_status r') RECOVERY_STATUS_COMPLETED then 1 else 0))%nat ->
  sound_step t (<[k := r']> t) es.
Proof.
  intros Hr Hns Hkey Hother Hk. split; [|split].
  - intros Hkeyed k' x [[<- <-]|[_ ?]]%lookup_insert_Some; [|auto].
    rewrite Hkey. by apply Hkeyed.
  - intros k' x Hx Hcx. exists x. split; [|apply same_outcome_refl].
    rewrite lookup_insert_ne; [done|]. intros ->. congruence.
  - intros k'. unfold is_completed. destruct (decide (k' = k)) as [->|Hne].
    + rewrite Hr, lookup_insert_eq. destruct (str_eqb (row_status r) _) eqn:E; [|lia].
      by apply str_eqb_eq in E.
    + rewrite lookup_insert_ne by done. by rewrite (Hother k' Hne).
Qed.

Lemma cas_cases t plan ws expected st lc clear now t' saved :
  update_recovery_plan_lifecycle_if_status t plan ws expected st lc clear now = (t', saved) ->
  (t' = t /\ saved = None) \/
  exists r, t !! (ws, plan) = Some r /\ row_status r ∈ expected /\
    saved = Some (with_lifecycle r st lc clear now) /\
    t' = <[(ws, plan) := with_lifecycle r st lc clear now]> t.
Proof.
  unfold update_recovery_plan_lifecycle_if_status.
  destruct (t !! (ws, plan)) as [r|]; [|naive_solver].
  case_bool_decide; intros [= <- <-]; eauto 10.
Qed.

(** A compare-and-set away from a status other than completed, with events
    that resolve nothing. *)
Lemma cas_sound t plan ws expected st lc clear now t' saved es :
  update_recovery_plan_lifecycle_if_status t plan ws expected st lc clear now = (t', saved) ->
  RECOVERY_STATUS_COMPLETED ∉ expected -> (forall k, resolved_count k es = 0%nat) ->
  sound_step t t' es.
Proof.
  intros [[-> _]|(r & Hr & Hin & _ & ->)]%cas_cases Hno Hes.
  - by apply sound_step_quiet.
  - eapply sound_step_write; [done| |done| |]; [by intros Heq; rewrite Heq in Hin|by intros..|].
    rewrite Hes. lia.
Qed.

Lemma commit_record_sound t ws key now record d t' es :
  commit_record t ws key now record d = Ok (t', es) -> sound_step t t' es.
Proof.
  unfold commit_record.
  destruct (update_recovery_plan_lifecycle_if_status _ _ _ _ _ _ _ _) as [t1 saved] eqn:Ecas.
  destruct (cas_cases _ _ _ _ _ _ _ _ _ _ Ecas) as [[-> ->]|(r & Hr & Hin & -> & ->)].
  { intros [= <- <-]. apply sound_step_refl. }
  assert (row_status r <> RECOVERY_STATUS_COMPLETED) as Hst.
  { apply list_elem_of_singleton in Hin as ->. done. }
  unfold target_status. destruct (str_eqb (status d) "failed") eqn:Ef.
  { intros [= <- <-]. eapply sound_step_write; [done..| |]; [by intros|]. cbn. lia. }
  destruct (str_eqb (status d) "completed") eqn:Ec.
  - intros (cluster & _ & [= <- <-])%bind_Ok. eapply sound_step_write; [done..| |].
    + intros k' Hne. unfold resolved_count. cbn. by rewrite bool_decide_eq_false_2.
    + unfold resolved_count. cbn. by rewrite bool_decide_eq_true_2.
  - intros [= <- <-]. eapply sound_step_write; [done..| |]; [by intros|]. cbn. lia.
Qed.

Lemma evidence_sound t reader ws cluster key evidence now t' es :
  on_recovery_verification_evidence t reader ws cluster key evidence now = Ok (t', es) ->
  sound_step t t' es.
Proof.
  unfold on_recovery_verification_evidence. destruct (is_empty key).
  { intros [= <- <-]. apply sound_step_refl. }
  destruct evidence as [| | | | | | |evidence];
    try (intros [= <- <-]; apply sound_step_refl).
  intros Hfold.
  eapply (foldr_res_inv _ (fun st => sound_step t st.1 st.2)) in Hfold;
    [exact Hfold| |apply sound_step_refl].
  intros [t1 out] record [t2 out'] _ Hrec Hsound.
  apply bind_Ok in Hrec as (d & _ & ([t3 evs] & Hc & [= <- <-])%bind_Ok).
  eapply sound_step_trans; [exact Hsound|]. by eapply commit_record_sound.
Qed.

(** Every row of [rows] stands for an open plan of the table. *)
Definition open_rows (t : table) (rows : list plan_row) : Prop :=
  forall r, r ∈ rows -> exists x, t !! row_key r = Some x /\
    row_status x <> RECOVERY_STATUS_COMPLETED /\ row_key x = row_key r.

Lemma expire_fold_sound now rows t es :
  open_rows t rows -> (forall k, resolved_count k es = 0%nat) ->
  sound_step t (fold_left (fun t r => <[row_key r := expire_row now r]> t) rows t) es.
Proof.
  revert t es. induction rows as [|r rows IH]; intros t es Hopen Hes; cbn [fold_left].
  { by apply sound_step_quiet. }
  destruct (Hopen r) as (x & Hx & Hst & Hkey); [set_solver|].
  change es with ([] ++ es).
  apply (sound_step_trans _ (<[row_key r := expire_row now r]> t)).
  - eapply sound_step_write; [exact Hx|done|by rewrite Hkey|by intros|]. cbn. lia.
  - apply IH; [|done]. intros r' Hr'.
    destruct (decide (row_key r' = row_key r)) as [Heq|Hne].
    + exists (expire_row now r). rewrite Heq, lookup_insert_eq. done.
    + rewrite lookup_insert_ne by done. apply Hopen. set_solver.
Qed.

Lemma expire_sound t now limit t' es :
  keyed t -> expire_recovery_verifications t now limit = (t', es) -> sound_step t t' es.
Proof.
  intros Hkeyed. unfold expire_recovery_verifications. intros [= <- <-].
  apply expire_fold_sound.
  - intros r (i & Hi & _)%elem_of_take.
    apply list_elem_of_lookup_2, elem_of_isort, elem_of_keep in Hi as [Hin Hover].
    apply list_elem_of_fmap in Hin as ([k r'] & -> & Hin%elem_of_map_to_list). cbn in *.
    exists r'. rewrite (Hkeyed _ _ Hin). split; [done|]. split; [|done].
    intros Hc. unfold overdue in Hover. by rewrite Hc in Hover.
  - intros k. unfold resolved_count. rewrite keep_false; [done|].
    intros e (r & -> & _)%list_elem_of_fmap. done.
Qed.

Lemma start_sound t ws run binding application workflow now t' e :
  start_recovery_verification t ws run binding application workflow now = Ok (t', e) ->
  sound_step t t' (option_list e).
Proof.
  unfold start_recovery_verification. destruct (get_recovery_plan_for_workflow _ _ _ _ _) as [r|];
    [|intros [= <- <-]; apply sound_step_refl].
  destruct workflow as [| | | | | | |workflow]; try (intros [= <- <-]; apply sound_step_refl).
  destruct (str_eqb _ _ && _); [|intros [= <- <-]; apply sound_step_refl].
  intros (m & _ & (dl & _ & Hd)%bind_Ok)%bind_Ok.
  destruct (update_recovery_plan_lifecycle_if_status _ _ _ _ _ _ _ _) as [t1 saved] eqn:Ecas.
  injection Hd as <- <-. eapply cas_sound; [exact Ecas|by intros ?%list_elem_of_singleton|].
  intros k. by destruct saved.
Qed.

Lemma deploy_failed_sound t ws run binding application why now t' es :
  on_recovery_deploy_failed t ws run binding application why now = (t', es) ->
  sound_step t t' es.
Proof.
  unfold on_recovery_deploy_failed. destruct (get_recovery_plan_for_workflow _ _ _ _ _) as [r|];
    [|intros [= <- <-]; apply sound_step_refl].
  destruct (str_eqb _ _); [|intros [= <- <-]; apply sound_step_refl].
  destruct (update_recovery_plan_lifecycle_if_status _ _ _ _ _ _ _ _) as [t1 saved] eqn:Ecas.
  intros [= <- <-]. eapply cas_sound; [exact Ecas|by intros ?%list_elem_of_singleton|].
  intros k. by destruct saved.
Qed.

End handlers.

(** ** The stabilisation over many windows *)

(** How a window counted. *)
Inductive outcome := Skipped | Unhealthy | Healthy (t : Z).

Definition healthy_time (o : outcome) : option Z :=
  match o with Healthy t => Some t | _ => None end.

Section stabilisation.
Context `{IsoRoundTrip} `{ReprLib}.

(** The outcome of a window, by the decision rules of the code. *)
Inductive outcome_of (verification : dict) (w : window) (now : Z) : outcome -> Prop :=
  | outcome_skipped : ~ counted w now -> outcome_of verification w now Skipped
  | outcome_unhealthy :
      counted w now ->
      ~ all_true (w_checks w) \/ ~ (exists c, cadence_of verification = Ok (Some c) /\ 0 < c) ->
      outcome_of verification w now Unhealthy
  | outcome_healthy c t :
      counted w now -> all_true (w_checks w) ->
      cadence_of verification = Ok (Some c) -> 0 < c -> w_observed w = Some t ->
      outcome_of verification w now (Healthy t).

(** A verification that has seen no healthy window. *)
Definition fresh (verification : dict) : Prop :=
  get verification "healthy_since" = VNone /\
  get verification "last_healthy_observed_at" = VNone /\
  (get verification "distinct_evidence_count" = VNone \/
   get verification "distinct_evidence_count" = VInt 0).

(** The evidence handlers of one plan, one after the other, from the start of
    the verification: the outcomes so far and the stored lifecycle.  The
    times of the windows are datetimes, so within the range of years. *)
Inductive stabilising : list outcome -> dict -> Prop :=
  | stabilising_start lifecycle :
      fresh (mapping (get lifecycle "verification")) -> stabilising [] lifecycle
  | stabilising_window os lifecycle plan_payload evidence alerts now key w o d :
      stabilising os lifecycle ->
      read_window plan_payload (mapping (get lifecycle "verification")) evidence alerts now = Ok w ->
      (forall t, w_observed w = Some t -> in_years t = true) ->
      outcome_of (mapping (get lifecycle "verification")) w now o ->
      evaluate_recovery_evidence plan_payload lifecycle evidence alerts now = Ok d ->
      stabilising (os ++ [o]) (next_lifecycle lifecycle d key).

(** Consecutive windows no further apart than one and a half cadences, in
    increasing order. *)
Definition linked (max_gap : float) : list Z -> Prop :=
  Sorted (fun a b => gap_broken max_gap a b = false).

(** The stored fields describe the healthy windows [ts]. *)
Definition describes (verification : dict) (ts : list Z) : Prop :=
  match ts with
  | [] => fresh verification
  | t0 :: _ =>
      get verification "healthy_since" = VStr (isoformat t0) /\
      (exists t, last ts = Some t /\
         get verification "last_healthy_observed_at" = VStr (isoformat t)) /\
      get verification "distinct_evidence_count" = VInt (Z.of_nat (length ts))
  end.

Definition max_gap_of (verification : dict) (g : float) : Prop :=
  exists c f, cadence_of verification = Ok (Some c) /\ float_of_int c = Ok f /\
    g = fmul f (flit "1.5").

(** The healthy windows since the last unhealthy one. *)
Definition streak (os : list outcome) (ts : list Z) : Prop :=
  exists pre suf, os = pre ++ suf /\ Unhealthy ∉ suf /\ ts = omap healthy_time suf.

Definition stable_state (os : list outcome) (verification : dict) : Prop :=
  exists ts, streak os ts /\ describes verification ts /\
    Forall (fun t => in_years t = true) ts /\
    (forall g, max_gap_of verification g -> linked g ts).

(** *** What the handler writes *)

Lemma get_update d es k :
  k ∉ es.*1 -> get (dict_update d es) k = get d k.
Proof.
  unfold dict_update. revert d. induction es as [|[k' v] es IH]; intros d; [done|].
  cbn [fold_left fst snd fmap list_fmap]. intros [Hne Hk]%not_elem_of_cons. rewrite IH by done. by apply get_set_ne.
Qed.

Lemma get_update_last d es k v es' :
  k ∉ es'.*1 -> get (dict_update d (es ++ (k, v) :: es')) k = v.
Proof.
  intros Hk. unfold dict_update. rewrite fold_left_app. cbn [fold_left fst snd].
  fold (dict_update d es). fold (dict_update (dict_set (dict_update d es) k v) es').
  rewrite get_update by done. apply get_set_eq.
Qed.

Lemma dict_pop_get_ne d k k' : k <> k' -> get (dict_pop d k) k' = get d k'.
Proof.
  intros Hne. unfold get. induction d as [|[i v] d IH]; cbn; [done|].
  destruct (str_eqb i k) eqn:E; cbn; [|by destruct (str_eqb i k')].
  apply str_eqb_eq in E as ->. destruct (str_eqb k k') eqn:E'; [by apply str_eqb_eq in E'|done].
Qed.

Lemma next_verification lifecycle d key :
  mapping (get (next_lifecycle lifecycle d key) "verification") =
  apply_decision (mapping (get lifecycle "verification")) d.
Proof.
  unfold next_lifecycle, apply_verification_terminal_state. cbn zeta.
  assert (forall lc v, get (dict_set (dict_set lc "verification" (VDict v)) "phase"
            (VStr (target_status d))) "verification" = VDict v) as Hget.
  { intros lc v. by rewrite get_set_ne, get_set_eq. }
  destruct (str_eqb (status d) "failed"); [by rewrite get_set_ne, Hget|].
  destruct (str_eqb (status d) "completed"); [by rewrite dict_pop_get_ne, Hget|].
  by rewrite Hget.
Qed.

Lemma apply_decision_fields v d :
  get (apply_decision v d) "healthy_since" = opt_str (healthy_since d) /\
  get (apply_decision v d) "last_healthy_observed_at" = opt_str (last_healthy_observed_at d) /\
  get (apply_decision v d) "distinct_evidence_count" = VInt (distinct_evidence_count d) /\
  get (apply_decision v d) "expected" = get v "expected".
Proof.
  unfold apply_decision.
  assert (forall k (b : dict) x, "last_session_samples" <> k ->
    get (match get (after d) "protected_active_sessions" with
         | VList samples => dict_set b "last_session_samples" (VList (VDict <$> dicts_of samples))
         | _ => b end) k = x <-> get b k = x) as Hk.
  { intros k b x Hne. destruct (get (after d) _); try done. by rewrite get_set_ne. }
  rewrite !Hk by done. split; [|split; [|split]].
  - apply (get_update_last v [_] "healthy_since" _ [_; _; _; _; _; _]). set_solver.
  - apply (get_update_last v [_; _] "last_healthy_observed_at" _ [_; _; _; _; _]). set_solver.
  - apply (get_update_last v [_; _; _] "distinct_evidence_count" _ [_; _; _; _]). set_solver.
  - apply get_update. set_solver.
Qed.

(** *** What the handler reads back *)

Lemma read_window_fields plan_payload v evidence alerts now w :
  read_window plan_payload v evidence alerts now = Ok w ->
  parse_datetime (get v "last_healthy_observed_at") = Ok (w_previous_observed w) /\
  exists o, nonnegative_int (get v "distinct_evidence_count") = Ok o /\ w_distinct w = default 0 o.
Proof.
  unfold read_window. cbn zeta. intros Hw. repeat (apply bind_Ok in Hw as (? & ? & Hw)).
  injection Hw as <-. cbn. eauto.
Qed.

Lemma describes_read plan_payload v evidence alerts now w ts :
  describes v ts -> Forall (fun t => in_years t = true) ts ->
  read_window plan_payload v evidence alerts now = Ok w ->
  parse_datetime (get v "healthy_since") = Ok (head ts) /\
  w_previous_observed w = last ts /\ w_distinct w = Z.of_nat (length ts).
Proof.
  intros Hd Hy (Hp & o & Ho & Hn)%read_window_fields. rewrite Hn. destruct ts as [|t0 ts].
  - destruct Hd as (Hs & Hl & Hc). rewrite Hs, Hl in *. cbn in Hp. injection Hp as <-.
    split; [done|]. split; [done|]. destruct Hc as [Hc|Hc]; rewrite Hc in Ho; cbn in Ho;
      by injection Ho as <-.
  - destruct Hd as (Hs & (t & Hlast & Hl) & Hc).
    assert (in_years t = true) as Ht.
    { rewrite Forall_forall in Hy. apply Hy. apply last_Some in Hlast as [l ->]. set_solver. }
    rewrite Hs, Hl, Hc in *. rewrite parse_isoformat in Hp by done. injection Hp as <-.
    apply Forall_cons in Hy as [Hy0 _]. rewrite parse_isoformat by done.
    split; [done|]. split; [done|]. cbn [nonnegative_int py_int or_none] in Ho.
    destruct (Z.leb_spec 0 (Z.of_nat (length (t0 :: ts)))); [|lia].
    cbn [mbind res_bind] in Ho. rewrite (proj2 (Z.leb_le _ _)) in Ho by lia.
    by injection Ho as <-.
Qed.

(** *** One window *)

(** The streak after a healthy window at [t]. *)
Definition next_streak (g : float) (ts : list Z) (t : Z) : list Z :=
  match last ts with
  | Some p => if gap_broken g p t then [t] else ts ++ [t]
  | None => [t]
  end.

Lemma extend_streak g ts t :
  extend g (last ts) (head ts) (Z.of_nat (length ts)) t =
  (default t (head (next_streak g ts t)), Z.of_nat (length (next_streak g ts t))).
Proof.
  unfold extend, next_streak. destruct ts as [|t0 ts]; [done|].
  destruct (last (t0 :: ts)) as [p|] eqn:E; [|by apply last_None in E].
  destruct (gap_broken g p t); [done|]. rewrite length_app. cbn. f_equal. lia.
Qed.

Lemma linked_snoc g ts p t :
  linked g ts -> last ts = Some p -> gap_broken g p t = false -> linked g (ts ++ [t]).
Proof.
  unfold linked. induction ts as [|a ts IH]; [done|]. intros Hs Hl Hg.
  apply Sorted_inv in Hs as [Hs Hhd]. destruct ts as [|b ts].
  - injection Hl as ->. repeat constructor. done.
  - cbn [app]. constructor; [by apply IH|]. inversion Hhd; subst. by constructor.
Qed.

(** Linked windows are in increasing order. *)
Lemma linked_increasing g ts : linked g ts -> Sorted Z.lt ts.
Proof.
  unfold linked. induction 1 as [|a ts _ IH Hhd]; constructor; [done|].
  inversion Hhd as [|b ts' Hg]; subst; constructor. unfold gap_broken in Hg.
  apply orb_false_iff in Hg as [Hg _]. apply int_div_positive in Hg. lia.
Qed.

Lemma next_streak_linked g ts t : linked g ts -> linked g (next_streak g ts t).
Proof.
  intros Hl. unfold next_streak. destruct (last ts) as [p|] eqn:E; [|repeat constructor].
  destruct (gap_broken g p t) eqn:Eg; [repeat constructor|]. by eapply linked_snoc.
Qed.

Lemma next_streak_last g ts t : last (next_streak g ts t) = Some t.
Proof.
  unfold next_streak. destruct (last ts); [|done]. destruct (gap_broken _ _ _); [done|].
  apply last_snoc.
Qed.

Lemma next_streak_streak g os ts t :
  streak os ts -> streak (os ++ [Healthy t]) (next_streak g ts t).
Proof.
  intros (pre & suf & -> & Hu & Hts). unfold next_streak.
  assert (streak ((pre ++ suf) ++ [Healthy t]) [t]) as Hone.
  { exists (pre ++ suf), [Healthy t]. split; [done|]. split; [set_solver|done]. }
  destruct (last ts) as [p|]; [|done]. destruct (gap_broken _ _ _); [done|].
  exists pre, (suf ++ [Healthy t]). split; [by rewrite app_assoc|]. split; [set_solver|].
  by rewrite omap_app, Hts.
Qed.

Lemma describes_extended v w st code msg a g ts t sf n :
  (sf, n) = (default t (head (next_streak g ts t)), Z.of_nat (length (next_streak g ts t))) ->
  describes (apply_decision v (extended w st code msg a sf t n)) (next_streak g ts t).
Proof.
  intros [= -> ->].
  destruct (apply_decision_fields v (extended w st code msg a
    (default t (head (next_streak g ts t))) t (Z.of_nat (length (next_streak g ts t)))))
    as (Hs & Hl & Hc & _).
  pose proof (next_streak_last g ts t) as Hlast. destruct (next_streak g ts t) as [|t0 rest]; [done|].
  cbn [describes]. split; [exact Hs|]. split; [exists t; split; [done|exact Hl]|exact Hc].
Qed.

Lemma describes_unchanged plan_payload v evidence alerts now w ts code msg :
  describes v ts -> Forall (fun t => in_years t = true) ts ->
  read_window plan_payload v evidence alerts now = Ok w ->
  describes (apply_decision v (unchanged v w code msg)) ts.
Proof.
  intros Hd Hy Hw. destruct (describes_read _ _ _ _ _ _ _ Hd Hy Hw) as (_ & Hp & Hn).
  destruct (apply_decision_fields v (unchanged v w code msg)) as (Hs & Hl & Hc & _).
  cbn in Hs, Hl, Hc. rewrite Hp in Hl. rewrite Hn in Hc. destruct ts as [|t0 ts].
  - destruct Hd as (Hs0 & _ & _). rewrite Hs0 in Hs. split; [done|]. split; [done|]. by right.
  - destruct Hd as (Hs0 & (t & Hlast & _) & _). rewrite Hs0 in Hs. cbn [text] in Hs.
    rewrite iso_stripped in Hs. rewrite Hlast in Hl. cbn [describes].
    split; [|split; [by exists t|done]].
    rewrite Hs. unfold opt_text. pose proof (iso_nonempty t0). by destruct (isoformat t0).
Qed.

Lemma describes_restarted v w st code msg : describes (apply_decision v (restarted w st code msg)) [].
Proof.
  destruct (apply_decision_fields v (restarted w st code msg)) as (Hs & Hl & Hc & _).
  split; [done|]. split; [done|]. by right.
Qed.

Lemma cadence_preserved v d : cadence_of (apply_decision v d) = cadence_of v.
Proof. unfold cadence_of. by destruct (apply_decision_fields v d) as (_ & _ & _ & ->). Qed.

Lemma stable_state_step plan_payload lifecycle evidence alerts now os w o d :
  stable_state os (mapping (get lifecycle "verification")) ->
  read_window plan_payload (mapping (get lifecycle "verification")) evidence alerts now = Ok w ->
  (forall t, w_observed w = Some t -> in_years t = true) ->
  outcome_of (mapping (get lifecycle "verification")) w now o ->
  evaluate_recovery_evidence plan_payload lifecycle evidence alerts now = Ok d ->
  stable_state (os ++ [o]) (apply_decision (mapping (get lifecycle "verification")) d).
Proof.
  set (v := mapping (get lifecycle "verification")).
  intros (ts & Hstreak & Hd & Hy & Hl) Hw Hyw Ho (w' & Hw' & Hv)%evaluate_verdict.
  fold v in Hw', Hv. rewrite Hw in Hw'. injection Hw' as <-.
  assert (forall g, max_gap_of (apply_decision v d) g -> max_gap_of v g) as Hmg.
  { intros g (c & f & Hc & Hf & ->). rewrite cadence_preserved in Hc. by exists c, f. }
  destruct Hv as [code msg Hn|st code msg Hc Hbad _|
                  st code msg a since cad cf t sf n Hc Ha Hs Hcad Hpos Hcf Ht He _].
  - exists ts. destruct Ho as [| |]; [|done..]. split.
    + destruct Hstreak as (pre & suf & -> & Hu & ->). exists pre, (suf ++ [Skipped]).
      rewrite app_assoc, omap_app, app_nil_r. split; [done|]. split; [set_solver|done].
    + split; [by eapply describes_unchanged|]. split; [done|]. auto.
  - exists []. split; [|split; [apply describes_restarted|split; [done|intros; constructor]]].
    exists (os ++ [o]), []. rewrite app_nil_r. split; [done|]. split; [set_solver|done].
  - destruct (describes_read _ _ _ _ _ _ _ Hd Hy Hw) as (Hs' & Hp & Hn).
    rewrite Hs in Hs'. injection Hs' as ->. rewrite Hp, Hn, extend_streak in He.
    set (g := fmul cf (flit "1.5")) in *. exists (next_streak g ts t).
    destruct Ho as [|_ [Hno|Hno]|c' t' _ _ _ _ Ht']; [done|done|by destruct Hno; eauto|].
    rewrite Ht in Ht'. injection Ht' as <-.
    split; [by apply next_streak_streak|]. split; [by apply describes_extended|].
    assert (max_gap_of v g) as Hg by (by exists cad, cf).
    split.
    + assert (in_years t = true) by auto. unfold next_streak.
      destruct (last ts); [|by repeat constructor]. destruct (gap_broken _ _ _); [by repeat constructor|].
      apply Forall_app. split; [done|]. by repeat constructor.
    + intros g' Hg'%Hmg. destruct Hg' as (c2 & f2 & Hc2 & Hf2 & ->).
      rewrite Hcad in Hc2. injection Hc2 as <-. rewrite Hcf in Hf2. injection Hf2 as <-.
      by apply next_streak_linked, Hl.
Qed.

Lemma stabilising_state os lifecycle :
  stabilising os lifecycle -> stable_state os (mapping (get lifecycle "verification")).
Proof.
  induction 1 as [lc Hf|os lc pp ev al now key w o d _ IH Hw Hy Ho Hd].
  - exists []. split; [|split; [done|split; [done|intros; constructor]]].
    exists [], []. split; [done|]. split; [set_solver|done].
  - rewrite next_verification. by eapply stable_state_step.
Qed.

(** C8: a recovery is declared complete only after a continuous healthy
    period.  When the handlers of a plan process its windows one after the
    other and one of them decides [completed], the windows processed up to it
    end in a stretch without any unhealthy window, whose healthy windows are
    in increasing order with gaps of at most one and a half cadences; they
    include the last one, they are at least as many as the minimum number of
    distinct windows, and from the first to the last at least the minimum
    time, itself at least 300 seconds, has passed.  Repeated and stale windows
    count for nothing. *)
Theorem completion_needs_continuous_health os lifecycle plan_payload evidence alerts now w o d :
  stabilising os lifecycle ->
  read_window plan_payload (mapping (get lifecycle "verification")) evidence alerts now = Ok w ->
  (forall t, w_observed w = Some t -> in_years t = true) ->
  outcome_of (mapping (get lifecycle "verification")) w now o ->
  evaluate_recovery_evidence plan_payload lifecycle evidence alerts now = Ok d ->
  status d = "completed" ->
  exists g cadence needed ts first final,
    max_gap_of (mapping (get lifecycle "verification")) g /\
    cadence_of (mapping (get lifecycle "verification")) = Ok (Some cadence) /\
    minimum_distinct (w_minimum w) cadence = Ok needed /\
    streak (os ++ [o]) ts /\ linked g ts /\ Sorted Z.lt ts /\
    head ts = Some first /\ last ts = Some final /\ w_observed w = Some final /\
    needed <= Z.of_nat (length ts) /\
    300 <= w_minimum w /\
    fltb (fmax0 (total_seconds (final - first))) (nearest_float (w_minimum w)) = false.
Proof.
  set (v := mapping (get lifecycle "verification")).
  intros (ts & Hstreak & Hd & Hy & Hl)%stabilising_state Hw _ Ho Hev Hst.
  pose proof (read_window_minimum _ _ _ _ _ _ Hw) as [Hmin _].
  destruct (evaluate_verdict _ _ _ _ _ _ Hev) as (w' & Hw' & Hv). fold v in Hd, Hl, Hw', Hv.
  rewrite Hw in Hw'. injection Hw' as <-.
  destruct Hv as [|st ? ? _ _ [-> |[-> _]]|
                  st code msg a since cad cf t sf n Hc Ha Hs Hcad Hpos Hcf Ht He Hok];
    [done..|]. cbn in Hst. subst st.
  destruct Hok as [?|[[? _]|(_ & Hlt & needed & Hneed & Hle)]]; [done|done|].
  destruct (describes_read _ _ _ _ _ _ _ Hd Hy Hw) as (Hs' & Hp & Hn).
  rewrite Hs in Hs'. injection Hs' as ->. rewrite Hp, Hn, extend_streak in He.
  set (g := fmul cf (flit "1.5")) in *.
  destruct Ho as [|_ [Hno|Hno]|c' t' _ _ _ _ Ht']; [done|done|by destruct Hno; eauto|].
  rewrite Ht in Ht'. injection Ht' as <-.
  assert (max_gap_of v g) as Hg by (by exists cad, cf).
  pose proof (next_streak_last g ts t) as Hlast.
  assert (exists first, head (next_streak g ts t) = Some first) as [first Hfirst].
  { destruct (next_streak g ts t); [done|]. eauto. }
  rewrite Hfirst in He. injection He as <- <-.
  exists g, cad, needed, (next_streak g ts t), first, t.
  do 3 (split; [done|]). split; [by apply next_streak_streak|].
  split; [by apply next_streak_linked, Hl|].
  split; [by eapply linked_increasing, next_streak_linked, Hl|]. repeat (split; [done|]). done.
Qed.

End stabilisation.

(** ** Concrete runs *)
Module Runs.

#[local] Existing Instance coded_iso.
#[local] Existing Instance Demo.plain_repr.

(** Two healthy windows 300 seconds apart, from the start of the verification. *)
Definition no_window : window :=
  {| w_after := []; w_checks := []; w_key := ""; w_previous_key := ""; w_observed := None;
     w_started := None; w_deadline := None; w_minimum := 0; w_previous_observed := None;
     w_distinct := 0 |}.
Definition first_window : window :=
  value_of no_window (read_window [] (mapping (get (Sample.lifecycle []) "verification"))
    (Sample.evidence "k-1" 1100) [Sample.alert] (1110 * SECOND)).
Definition first_decision : VerificationDecision :=
  value_of no_decision (evaluate_recovery_evidence [] (Sample.lifecycle [])
    (Sample.evidence "k-1" 1100) [Sample.alert] (1110 * SECOND)).
Definition after_first : dict := next_lifecycle (Sample.lifecycle []) first_decision "k-1".
Definition second_window : window :=
  value_of no_window (read_window [] (mapping (get after_first "verification"))
    (Sample.evidence "k-2" 1400) [Sample.alert] (1410 * SECOND)).
Definition second_decision : VerificationDecision :=
  value_of no_decision (evaluate_recovery_evidence [] after_first
    (Sample.evidence "k-2" 1400) [Sample.alert] (1410 * SECOND)).

(** A plan under verification that has seen one healthy window, and two
    windows read for it at the same time: one with a failure ratio of 0.9 and
    a later healthy one. *)
Definition row : plan_row :=
  {| row_id := 1; plan_id := "p-1"; workspace_id := "w-1"; correlation_id := "c-1";
     incident_id := "i-1"; row_evidence_ref := "e-1";
     row_status := RECOVERY_STATUS_VERIFICATION_PENDING; selected_action_id := None;
     selected_by := None;
     payload := [("lifecycle", VDict (Sample.lifecycle Sample.one_window));
                 ("target", VDict Sample.target)];
     updated_at := 0 |}.
Definition plans : table := {[ ("w-1", "p-1") := row ]}.
Definition reader : alert_reader :=
  {| alerts_by_event _ := [Sample.alert]; alerts_since _ _ := [] |}.
Definition bad_evidence : dict :=
  dict_set (Sample.evidence "k-bad" 1250) "metrics"
    (VDict [("results", VDict
      [(STANDARD_FAILURE_RATIO_METRIC, Sample.sample "0.9");
       (STANDARD_REQUEST_RATE_METRIC, Sample.sample "10.5")])]).
Definition bad_decision : VerificationDecision :=
  value_of no_decision (verify_record reader bad_evidence (1260 * SECOND) row).
Definition good_decision : VerificationDecision :=
  value_of no_decision (verify_record reader (Sample.evidence "k-2" 1400) (1410 * SECOND) row).
Definition after_bad : table * list event :=
  value_of (plans, []) (commit_record plans "w-1" "k-bad" (1260 * SECOND) row bad_decision).
Definition after_good : table * list event :=
  value_of (plans, []) (commit_record after_bad.1 "w-1" "k-2" (1410 * SECOND) row good_decision).
(** The same two windows handled one after the other. *)
Definition in_sequence : VerificationDecision :=
  value_of no_decision
    (verify_record reader (Sample.evidence "k-2" 1400) (1410 * SECOND)
       (default row (after_bad.1 !! ("w-1", "p-1")))).

End Runs.

Lemma completion_needs_continuous_health_witness :
  status Runs.second_decision = "completed" /\
  exists ts first final, streak ([Healthy (1100 * SECOND)] ++ [Healthy (1400 * SECOND)]) ts /\
    Sorted Z.lt ts /\ head ts = Some first /\ last ts = Some final.
Proof.
  assert (status Runs.second_decision = "completed") as Hst by (vm_compute; reflexivity).
  split; [exact Hst|].
  destruct (@completion_needs_continuous_health coded_iso _ [Healthy (1100 * SECOND)]
    Runs.after_first [] (Sample.evidence "k-2" 1400) [Sample.alert] (1410 * SECOND)
    Runs.second_window (Healthy (1400 * SECOND)) Runs.second_decision)
    as (g & c & n & ts & first & final & _ & _ & _ & Hs & _ & Hl & Hh & Hf & _).
  - apply (@stabilising_window coded_iso [] (Sample.lifecycle []) []
      (Sample.evidence "k-1" 1100) [Sample.alert] (1110 * SECOND) "k-1" Runs.first_window
      (Healthy (1100 * SECOND)) Runs.first_decision).
    + apply stabilising_start. split; [reflexivity|]. split; [reflexivity|]. left. reflexivity.
    + vm_compute. reflexivity.
    + intros t Ht. vm_compute in Ht. injection Ht as <-. reflexivity.
    + apply (outcome_healthy _ _ _ 300); [split; vm_compute; [intros [_ ?]; discriminate|reflexivity]
        |apply all_trueb; vm_compute; reflexivity|vm_compute; reflexivity|lia|vm_compute; reflexivity].
    + vm_compute. reflexivity.
  - vm_compute. reflexivity.
  - intros t Ht. vm_compute in Ht. injection Ht as <-. reflexivity.
  - apply (outcome_healthy _ _ _ 300); [split; vm_compute; [intros [_ ?]; discriminate|reflexivity]
      |apply all_trueb; vm_compute; reflexivity|vm_compute; reflexivity|lia|vm_compute; reflexivity].
  - vm_compute. reflexivity.
  - exact Hst.
  - exists ts, first, final. exact (conj Hs (conj Hl (conj Hh Hf))).
Defined.

(** The write of the evidence handler compares the status only, not the
    lifecycle it was computed from.  Two handlers that read the plan before
    either writes lose the first one's reset: an unhealthy window restarts the
    stabilisation, yet the write of the other handler completes the recovery
    and resolves the incident; handled in sequence, the same windows leave the
    plan pending. *)
Theorem concurrent_reset_is_lost :
  status Runs.bad_decision = "pending" /\ healthy_since Runs.bad_decision = None /\
  is_completed Runs.after_good.1 ("w-1", "p-1") = 1%nat /\
  resolved_count ("w-1", "p-1") Runs.after_good.2 = 1%nat /\
  status Runs.in_sequence = "pending".
Proof. repeat split; vm_compute; reflexivity. Qed.

End RecoveryLifecycle.
