(* ===== verification/RecoveryAuthority.v ===== *)
(** * The GitOps authority behind a recovery

    [src/src/services/ai/agent/recovery/authority.py] and the contract types of
    [src/src/packages/contracts/gitops_authority.py]: before a recovery may
    propose a change, the rows that describe the deployment (change evidence or
    approved snapshot, workflow run, resource diff, application, binding,
    repository, artifact provenance) are read and compared; one disagreement
    and there is no authority.

    The database is the record [authority_db] of the readers the source calls;
    a reader returns [VNone] for a missing row. *)
From S2P Require Import Prelude PyStr PyFloat PyVal Libs SourcePatch SourceSplice Demo WorkloadTarget.

Module RecoveryAuthority.
Import SourcePatch SourceSplice.

Definition GITOPS_CHANGE_CONTEXT_EVIDENCE_KIND : string := "gitops_change_context".
Definition RCA_EVIDENCE_KIND : string := "rca_bundle".
Definition TRUSTED_SOURCE_ORIGINS : list string :=
  ["git_cache"; "github_contents"; "github_tree"; "git_repo_path"].
Definition KUSTOMIZE : string := "kustomize".

Record GitOpsAuthorityQuery := Query {
  q_correlation_id : string;
  q_workspace_id : string;
  q_incident_id : string;
  q_cluster_id : string;
  q_namespace : string;
  q_resource_kind : string;
  q_resource_name : string;
}.

Record GitOpsAuthorityContext := Authority {
  workspace_id : string;
  repository_id : string;
  binding_id : string;
  application_id : string;
  workflow_run_id : string;
  environment : string;
  cluster_id : string;
  manifest_path : string;
  repo_ref : string;
  base_branch : string;
  commit_sha : string;
  source_type : string;
  source_manifest_sha256 : string;
  resource : string;
  desired_manifest : dict;
  changes : list dict;
  evidence : dict;
}.

(** The readers; the three optional ones are looked up with [getattr]. *)
Record authority_db := {
  get_evidence_payload : string -> string -> string -> pyval;
  get_workflow_run : string -> pyval;
  get_completed_workload_resource_diff :
    string -> string -> string -> string -> string -> string -> string -> pyval;
  get_application : string -> string -> pyval;
  get_deployment_binding : string -> string -> pyval;
  get_repository_by_ref : string -> string -> pyval;
  get_manifest_artifact_provenance :
    string -> string -> string -> string -> string -> string -> pyval;
  list_active_github_poll_targets : option (string -> Z -> pyval);
  get_last_approved_resource_snapshot :
    option (string -> string -> string -> string -> string -> pyval);
  list_recent_completed_workload_resource_diffs :
    option (string -> string -> string -> string -> string -> string -> Z -> pyval);
}.

(** ** Reading rows *)

Definition text (value : dict) (key : string) : string :=
  match get value key with VStr s => strip s | _ => "" end.

Definition same_text (value : dict) (key expected : string) : bool :=
  str_eqb (text value key) expected.

Definition same_folded (a b : string) : bool := str_eqb (casefold a) (casefold b).

(** [value.get(key, value.get(other))] *)
Definition get_or (value : dict) (key other : string) : pyval :=
  default (get value other) (dict_get value key).

Definition scalar_int (value : pyval) : res (option Z) :=
  match value with
  | VInt z => Ok (Some z)
  | VStr s => if isdigit (strip s) then z ← raise_none (int_of_str (strip s)) ValueError; Ok (Some z)
              else Ok None
  | _ => Ok None
  end.

Fixpoint nested_get (current : pyval) (path : list string) : option pyval :=
  match path with
  | [] => Some current
  | key :: path => match current with VDict d => nested_get (get d key) path | _ => None end
  end.

Definition nested_int (value : dict) (path : list string) : res (option Z) :=
  match nested_get (VDict value) path with Some v => scalar_int v | None => Ok None end.

Definition resource_refs_equal (left right : string) : bool :=
  let '(left_kind, left_separator, left_name) := partition_char "/" left in
  let '(right_kind, right_separator, right_name) := partition_char "/" right in
  left_separator && right_separator && same_folded left_kind right_kind
  && nonempty left_name && str_eqb left_name right_name.

(** [f"{query.resource_kind}/{query.resource_name}"] *)
Definition query_resource (q : GitOpsAuthorityQuery) : string :=
  q_resource_kind q +:+ "/" +:+ q_resource_name q.

(** ** Matching a row against the identity *)

Definition historical_diff_matches_identity (record identity : dict) (q : GitOpsAuthorityQuery) : bool :=
  same_text record "workspace_id" (q_workspace_id q)
  && same_text record "binding_id" (text identity "binding_id")
  && same_text record "cluster_id" (q_cluster_id q)
  && same_text record "namespace" (q_namespace q)
  && same_folded (text record "resource_kind") (q_resource_kind q)
  && same_text record "resource_name" (q_resource_name q)
  && same_text record "repository_id" (text identity "repository_id")
  && same_text record "manifest_path" (text identity "manifest_path").

Definition completed_resource_diff_matches_identity (record identity : dict)
    (q : GitOpsAuthorityQuery) : bool :=
  same_text record "workspace_id" (q_workspace_id q)
  && same_text record "workflow_run_id" (text identity "workflow_run_id")
  && same_text record "binding_id" (text identity "binding_id")
  && same_text record "cluster_id" (q_cluster_id q)
  && same_text record "namespace" (q_namespace q)
  && same_folded (text record "resource_kind") (q_resource_kind q)
  && same_text record "resource_name" (q_resource_name q)
  && same_text record "repository_id" (text identity "repository_id")
  && same_text record "manifest_path" (text identity "manifest_path")
  && same_text record "commit_sha" (text identity "commit_sha").

Definition approved_snapshot_matches_query (snapshot : dict) (q : GitOpsAuthorityQuery)
    (binding : string) : bool :=
  let body := mapping (get snapshot "snapshot") in
  let '(kind, separator, name) := partition_char "/" (text body "resource") in
  same_text snapshot "workspace_id" (q_workspace_id q)
  && same_text snapshot "binding_id" binding
  && same_text snapshot "cluster_id" (q_cluster_id q)
  && same_text snapshot "namespace" (q_namespace q)
  && same_folded (text snapshot "resource_kind") (q_resource_kind q)
  && same_text snapshot "resource_name" (q_resource_name q)
  && separator
  && same_folded kind (q_resource_kind q)
  && str_eqb name (q_resource_name q)
  && same_text body "namespace" (q_namespace q)
  && forallb (fun key => nonempty (text snapshot key)) ["workflow_run_id"; "commit_sha"]
  && nonempty (text snapshot "artifact_digest").

Definition identity_matches_query (identity : dict) (q : GitOpsAuthorityQuery) : bool :=
  let '(kind, _, name) := partition_char "/" (text identity "resource") in
  same_text identity "workspace_id" (q_workspace_id q)
  && same_text identity "cluster_id" (q_cluster_id q)
  && (is_empty (text identity "namespace") || same_text identity "namespace" (q_namespace q))
  && same_folded kind (q_resource_kind q)
  && str_eqb name (q_resource_name q)
  && forallb (fun key => nonempty (text identity key))
       ["repository_id"; "binding_id"; "workflow_run_id"; "commit_sha"; "manifest_path"; "repo_ref"].

(** ** The identity of a deployment *)

Definition identity_from_evidence (payload : dict) : dict :=
  (fun key => (key, get payload key)) <$>
    ["workspace_id"; "repository_id"; "binding_id"; "application_id"; "workflow_run_id";
     "environment"; "cluster_id"; "commit_sha"; "manifest_path"; "repo_ref"; "branch"; "resource"].

Record target := { t_namespace : string; t_kind : string; t_name : string }.

Definition normalized_target (value : pyval) : target :=
  let d := mapping value in
  {| t_namespace := text d "namespace"; t_kind := text d "resource_kind";
     t_name := text d "resource_name" |}.

Definition targets_equal (left right : target) : bool :=
  nonempty (t_namespace left) && str_eqb (t_namespace left) (t_namespace right)
  && same_folded (t_kind left) (t_kind right)
  && nonempty (t_name left) && str_eqb (t_name left) (t_name right).

Definition target_any (t : target) : bool :=
  nonempty (t_namespace t) || nonempty (t_kind t) || nonempty (t_name t).
Definition target_all (t : target) : bool :=
  nonempty (t_namespace t) && nonempty (t_kind t) && nonempty (t_name t).

Definition rca_target_lineage_is_consistent (payload change_context gitops : dict) : bool :=
  let gitops_target := normalized_target (VDict gitops) in
  if negb (target_all gitops_target) then false
  else
    let kubernetes_resource := mapping (get (mapping (get payload "kubernetes")) "resource") in
    let incident_target :=
      {| t_namespace := text kubernetes_resource "namespace";
         t_kind := text kubernetes_resource "kind"; t_name := text kubernetes_resource "name" |} in
    let declared_target := normalized_target (get change_context "gitops_target") in
    let declared_original := normalized_target (get change_context "original_target") in
    let resolution := text change_context "gitops_target_resolution" in
    if nonempty resolution || target_any declared_target || target_any declared_original then
      let trusted := WorkloadTarget.resolve_workload_target (VStr (t_namespace incident_target))
        (VStr (t_kind incident_target)) (VStr (t_name incident_target))
        (VDict (mapping (get payload "metadata"))) in
      str_eqb resolution WorkloadTarget.WORKLOAD_SNAPSHOT_SOURCE
      && WorkloadTarget.resolved trusted
      && targets_equal (normalized_target (VDict (WorkloadTarget.identity trusted))) declared_target
      && targets_equal declared_target gitops_target
      && targets_equal declared_original incident_target
      && str_eqb (t_namespace declared_original) (t_namespace declared_target)
      && bool_decide (casefold (t_kind declared_original) ∈ ["pod"; "replicaset"])
      && str_eqb (casefold (t_kind declared_target)) "deployment"
    else targets_equal gitops_target incident_target.

Definition rca_gitops (payload : dict) : dict :=
  mapping (get (mapping (get (mapping (get payload "metadata")) "change_context")) "gitops").

Definition identity_from_rca_evidence (payload : dict) : dict :=
  let change_context := mapping (get (mapping (get payload "metadata")) "change_context") in
  let gitops := mapping (get change_context "gitops") in
  if bool_decide (gitops = []) || negb (rca_target_lineage_is_consistent payload change_context gitops)
  then []
  else
    ((fun key => (key, get gitops key)) <$>
       ["workspace_id"; "repository_id"; "binding_id"; "workflow_run_id"; "cluster_id";
        "commit_sha"; "manifest_path"; "repo_ref"])
    ++ [("resource", VStr (text gitops "resource_kind" +:+ "/" +:+ text gitops "resource_name"));
        ("namespace", get gitops "namespace")].

Definition rca_evidence_has_gitops_identity (payload : dict) : bool :=
  negb (bool_decide (rca_gitops payload = [])).

Definition enrich_key (row : dict) (enriched : dict) (keys : string * string) : dict :=
  if is_empty (text enriched keys.1) then dict_set enriched keys.1 (get row keys.2) else enriched.

Definition enriched_identity (identity row : dict) : dict :=
  fold_left (enrich_key row)
    [("application_id", "application_id"); ("environment", "environment");
     ("branch", "default_branch")] identity.

Section authority.
Context `{ReprLib} `{Sha256}.

(** ** Comparing the rows *)

Definition exact_fields (q : GitOpsAuthorityQuery) (identity : dict) : list (string * string) :=
  ("workspace_id", q_workspace_id q)
  :: ((fun key => (key, text identity key)) <$>
        ["repository_id"; "binding_id"; "application_id"; "workflow_run_id"; "environment";
         "commit_sha"; "manifest_path"]).

(** [all(text(row, key) == value for key, value in fields.items())] *)
Definition agrees_on (row : dict) (fields : list (string * string)) : bool :=
  forallb (fun kv => same_text row kv.1 kv.2) fields.

Definition trusted_source_shape (provenance : dict) : bool :=
  match get provenance "source_document_count", get provenance "artifact_count" with
  | VInt source_count, VInt artifact_count =>
      (same_text provenance "source_type" RAW_YAML && is_true (get provenance "source_is_file")
       && (source_count =? 1) && (artifact_count =? 1))
      || (same_text provenance "source_type" KUSTOMIZE && is_false (get provenance "source_is_file")
          && (1 <=? source_count) && (artifact_count =? source_count))
  | _, _ => false
  end.

Definition rows_agree (q : GitOpsAuthorityQuery)
    (identity run diff application binding repository provenance : dict)
    (artifact_digest : string) : bool :=
  let exact := exact_fields q identity in
  let field key := text identity key in
  py_eqb (get (mapping (get diff "basis")) "old_desired_source") (VStr "last_approved_snapshot")
  && resource_refs_equal (text diff "resource") (field "resource")
  && same_text diff "namespace" (q_namespace q)
  && agrees_on run (keep (fun kv => has_key run kv.1) exact)
  && agrees_on diff (keep (fun kv => has_key diff kv.1) exact)
  && same_text application "application_id" (field "application_id")
  && same_text application "workspace_id" (q_workspace_id q)
  && same_text application "repository_id" (field "repository_id")
  && same_text application "status" "active"
  && same_text application "repo_ref" (field "repo_ref")
  && same_text application "default_branch" (field "branch")
  && same_text binding "workspace_id" (q_workspace_id q)
  && same_text binding "binding_id" (field "binding_id")
  && same_text binding "repository_id" (field "repository_id")
  && same_text binding "cluster_id" (q_cluster_id q)
  && same_text binding "namespace" (q_namespace q)
  && same_text binding "manifest_path" (field "manifest_path")
  && same_text binding "environment" (field "environment")
  && same_text binding "status" "active"
  && same_text repository "workspace_id" (q_workspace_id q)
  && same_text repository "repository_id" (field "repository_id")
  && same_text repository "repo_ref" (field "repo_ref")
  && same_text repository "default_branch" (field "branch")
  && same_text repository "status" "active"
  && agrees_on provenance exact
  && same_text provenance "artifact_digest" artifact_digest
  && same_text provenance "repo_ref" (field "repo_ref")
  && same_text provenance "branch" (field "branch")
  && bool_decide (text provenance "source_origin" ∈ TRUSTED_SOURCE_ORIGINS)
  && trusted_source_shape provenance
  && is_sha256_digest (text provenance "source_manifest_sha256").

Definition authority_rows_match (q : GitOpsAuthorityQuery)
    (identity run diff application binding repository provenance desired : dict)
    (artifact_digest : string) : res bool :=
  and_res (same_folded (text desired "kind") (q_resource_kind q))
    (digest ← canonical_manifest_digest desired;
     Ok (str_eqb digest artifact_digest
         && rows_agree q identity run diff application binding repository provenance artifact_digest)).

(** ** The approved snapshot of the current binding *)

Definition snapshot_identity (q : GitOpsAuthorityQuery) (tgt snapshot : dict) (binding : string) : dict :=
  [("workspace_id", VStr (q_workspace_id q)); ("repository_id", get tgt "repository_id");
   ("binding_id", VStr binding); ("application_id", get tgt "application_id");
   ("workflow_run_id", get snapshot "workflow_run_id"); ("environment", get tgt "environment");
   ("cluster_id", VStr (q_cluster_id q)); ("commit_sha", get snapshot "commit_sha");
   ("manifest_path", get tgt "manifest_path"); ("repo_ref", get tgt "repo_ref");
   ("branch", get tgt "branch"); ("namespace", VStr (q_namespace q));
   ("resource", VStr (query_resource q)); ("artifact_digest", get snapshot "artifact_digest");
   ("authority_source", VStr "approved_snapshot")].

(** One pass of the loop over the poll targets. *)
Definition target_identity (get_snapshot : string -> string -> string -> string -> string -> pyval)
    (q : GitOpsAuthorityQuery) (raw_target : pyval) : option dict :=
  match raw_target with
  | VDict tgt =>
      let binding := text tgt "binding_id" in
      if negb (same_text tgt "workspace_id" (q_workspace_id q))
         || negb (same_text tgt "cluster_id" (q_cluster_id q)) || is_empty binding
      then None
      else
        match get_snapshot (q_workspace_id q) binding (q_cluster_id q) (q_namespace q)
                (query_resource q) with
        | VDict snapshot =>
            let identity := snapshot_identity q tgt snapshot binding in
            if approved_snapshot_matches_query snapshot q binding && identity_matches_query identity q
            then Some identity else None
        | _ => None
        end
  | _ => None
  end.

Definition load_approved_snapshot_identity (db : authority_db) (q : GitOpsAuthorityQuery) : dict :=
  match list_active_github_poll_targets db, get_last_approved_resource_snapshot db with
  | Some list_targets, Some get_snapshot =>
      match list_targets (q_workspace_id q) 1000 with
      | VList raw_targets =>
          default [] (the_one (omap (target_identity get_snapshot q) raw_targets))
      | _ => []
      end
  | _, _ => []
  end.

(** ** The last change of the replicas *)

Definition is_replica_change (change : dict) : bool :=
  ends_with "spec.replicas" (text change "field_path").

(** The loop over the recent diffs: the first that has a replica change
    decides. *)
Fixpoint recent_replica_changes (q : GitOpsAuthorityQuery) (identity : dict) (current : Z)
    (rows : list pyval) : res (list dict) :=
  match rows with
  | [] => Ok []
  | VDict row :: rows =>
      if negb (historical_diff_matches_identity row identity q)
      then recent_replica_changes q identity current rows
      else
        match get (mapping (get row "diff_details")) "changes" with
        | VList raw_changes =>
            match keep is_replica_change (omap as_dict raw_changes) with
            | [] => recent_replica_changes q identity current rows
            | [change] =>
                before ← scalar_int (get_or change "old_desired" "before");
                after ← scalar_int (get_or change "new_desired" "after");
                Ok (match before with
                    | None => []
                    | Some b =>
                        if negb (bool_decide (after = Some current)) || (b =? current) then []
                        else [change]
                    end)
            | _ => Ok []
            end
        | _ => recent_replica_changes q identity current rows
        end
  | _ :: rows => recent_replica_changes q identity current rows
  end.

Definition load_recent_replica_changes (db : authority_db) (q : GitOpsAuthorityQuery)
    (identity desired : dict) : res (list dict) :=
  current ← nested_int desired ["spec"; "replicas"];
  match list_recent_completed_workload_resource_diffs db, current with
  | Some list_diffs, Some current =>
      match list_diffs (q_workspace_id q) (text identity "binding_id") (q_cluster_id q)
              (q_namespace q) (q_resource_kind q) (q_resource_name q) 20 with
      | VList rows => recent_replica_changes q identity current rows
      | _ => Ok []
      end
  | _, _ => Ok []
  end.

(** ** Loading the authority *)

(** The identity, [None] where the method returns early. *)
Definition load_identity (db : authority_db) (q : GitOpsAuthorityQuery) (evidence : dict)
    : option dict :=
  match get_evidence_payload db (q_workspace_id q) (q_correlation_id q)
          GITOPS_CHANGE_CONTEXT_EVIDENCE_KIND with
  | VDict exact =>
      let identity := identity_from_evidence exact in
      if forallb (fun key => nonempty (text identity key)) ["application_id"; "environment"; "branch"]
      then Some identity else None
  | _ =>
      let identity := identity_from_rca_evidence evidence in
      if negb (bool_decide (identity = [])) then Some identity
      else if rca_evidence_has_gitops_identity evidence then None
      else Some (load_approved_snapshot_identity db q)
  end.

Definition from_snapshot (identity : dict) : bool :=
  same_text identity "authority_source" "approved_snapshot".

Definition run_row (db : authority_db) (identity : dict) : option dict :=
  match get_workflow_run db (text identity "workflow_run_id") with
  | VDict run => Some run
  | _ =>
      if from_snapshot identity
      then Some ((fun key => (key, get identity key)) <$>
             ["workspace_id"; "application_id"; "binding_id"; "workflow_run_id"; "environment";
              "cluster_id"; "commit_sha"])
      else None
  end.

(** The diff, the desired manifest, the resource and the artifact's digest;
    the diff is empty when the approved snapshot stands in for it. *)
Definition diff_source (db : authority_db) (q : GitOpsAuthorityQuery) (identity : dict)
    : option (dict * dict * string * string) :=
  match get_completed_workload_resource_diff db (q_workspace_id q)
          (text identity "workflow_run_id") (text identity "binding_id") (q_cluster_id q)
          (q_namespace q) (q_resource_kind q) (q_resource_name q) with
  | VDict resource_diff =>
      let diff := mapping (get resource_diff "diff_details") in
      if completed_resource_diff_matches_identity resource_diff identity q
      then Some (diff, mapping (get diff "desired_manifest"), text diff "resource",
                 text (mapping (get diff "basis")) "artifact_digest")
      else None
  | _ =>
      if from_snapshot identity
      then Some ([], [], query_resource q, text identity "artifact_digest")
      else None
  end.

Definition snapshot_diff (q : GitOpsAuthorityQuery) (identity : dict) (res_ref : string)
    (desired : dict) (artifact_digest : string) (historical_changes : list dict) : dict :=
  dict_update identity
    [("namespace", VStr (q_namespace q)); ("resource", VStr res_ref);
     ("desired_manifest", VDict desired);
     ("basis", VDict [("artifact_digest", VStr artifact_digest);
                      ("old_desired_source", VStr "last_approved_snapshot")]);
     ("changes", VList (VDict <$> historical_changes))].

(** The last part of [load_authority], once every row has been read;
    [application_ref] is the application id the row was read with. *)
Definition authority_context (q : GitOpsAuthorityQuery)
    (identity run diff application binding repository provenance desired : dict)
    (application_ref res_ref artifact_digest : string) (evidence : dict)
    : res (option GitOpsAuthorityContext) :=
  matches ← authority_rows_match q identity run diff application binding repository provenance
              desired artifact_digest;
  Ok (match (matches : bool), get diff "changes" with
      | true, VList changes =>
          let source_type := text provenance "source_type" in
          Some {| workspace_id := q_workspace_id q;
                  repository_id := text identity "repository_id";
                  binding_id := text identity "binding_id";
                  application_id := application_ref;
                  workflow_run_id := text identity "workflow_run_id";
                  environment := text identity "environment";
                  cluster_id := q_cluster_id q;
                  manifest_path := text identity "manifest_path";
                  repo_ref := text identity "repo_ref";
                  base_branch := text identity "branch";
                  commit_sha := text identity "commit_sha";
                  source_type := if str_eqb source_type KUSTOMIZE then RAW_YAML else source_type;
                  source_manifest_sha256 := text provenance "source_manifest_sha256";
                  resource := res_ref;
                  desired_manifest := desired;
                  changes := omap as_dict changes;
                  evidence := evidence |}
      | _, _ => None
      end).

(** The rows read after the identity. *)
Definition load_rows (db : authority_db) (q : GitOpsAuthorityQuery) (identity evidence : dict)
    : res (option GitOpsAuthorityContext) :=
  match run_row db identity with
  | None => Ok None
  | Some run =>
      let identity := enriched_identity identity run in
      match get_application db (q_workspace_id q) (text identity "application_id"),
            get_deployment_binding db (q_workspace_id q) (text identity "binding_id") with
      | VDict application, VDict binding =>
          let application_ref := text identity "application_id" in
          let identity := enriched_identity identity application in
          match get_repository_by_ref db (q_workspace_id q) (text identity "repo_ref"),
                diff_source db q identity with
          | VDict repository, Some (diff, desired, res_ref, artifact_digest) =>
              if is_empty artifact_digest then Ok None
              else
                match get_manifest_artifact_provenance db (q_workspace_id q)
                        (text identity "binding_id") (text identity "commit_sha")
                        (text identity "manifest_path")
                        (casefold (q_resource_kind q) +:+ "/" +:+ q_resource_name q)
                        artifact_digest with
                | VDict provenance =>
                    if negb (bool_decide (diff = [])) then
                      authority_context q identity run diff application binding repository
                        provenance desired application_ref res_ref artifact_digest evidence
                    else
                      let desired := mapping (get provenance "desired_manifest") in
                      historical_changes ← load_recent_replica_changes db q identity desired;
                      authority_context q identity run
                        (snapshot_diff q identity res_ref desired artifact_digest historical_changes)
                        application binding repository provenance desired application_ref res_ref
                        artifact_digest evidence
                | _ => Ok None
                end
          | _, _ => Ok None
          end
      | _, _ => Ok None
      end
  end.

Definition load_authority (db : option authority_db) (q : GitOpsAuthorityQuery)
    : res (option GitOpsAuthorityContext) :=
  match db with
  | None => Ok None
  | Some db =>
      let evidence :=
        mapping (get_evidence_payload db (q_workspace_id q) (q_correlation_id q) RCA_EVIDENCE_KIND) in
      match load_identity db q evidence with
      | Some identity => if identity_matches_query identity q then load_rows db q identity evidence
                         else Ok None
      | None => Ok None
      end
  end.

(** ** What an authority guarantees *)

(** The row has these texts. *)
Definition row_has (row : dict) (fields : list (string * string)) : Prop :=
  Forall (fun kv => text row kv.1 = kv.2) fields.

(** The row has these texts where it has the keys. *)
Definition row_records (row : dict) (fields : list (string * string)) : Prop :=
  forall k v, (k, v) ∈ fields -> has_key row k = true -> text row k = v.

(** The fields of a context that a run and a diff may repeat. *)
Definition deployed_as (c : GitOpsAuthorityContext) : list (string * string) :=
  [("workspace_id", workspace_id c); ("repository_id", repository_id c); ("binding_id", binding_id c);
   ("workflow_run_id", workflow_run_id c); ("environment", environment c); ("commit_sha", commit_sha c);
   ("manifest_path", manifest_path c)].

Record backed (db : authority_db) (q : GitOpsAuthorityQuery) (c : GitOpsAuthorityContext) : Prop := {
  bk_scope : workspace_id c = q_workspace_id q /\ cluster_id c = q_cluster_id q;
  bk_resource : exists kind, partition_char "/" (strip (resource c)) = (kind, true, q_resource_name q) /\
    casefold kind = casefold (q_resource_kind q) /\ q_resource_name q <> "";
  bk_named : Forall (fun s => s <> "")
    [repository_id c; binding_id c; workflow_run_id c; commit_sha c; manifest_path c; repo_ref c];
  bk_application : exists row,
    get_application db (workspace_id c) (application_id c) = VDict row /\
    row_has row [("workspace_id", workspace_id c); ("repository_id", repository_id c);
                 ("status", "active"); ("repo_ref", repo_ref c); ("default_branch", base_branch c)] /\
    (application_id c <> "" -> text row "application_id" = application_id c);
  bk_binding : exists row, get_deployment_binding db (workspace_id c) (binding_id c) = VDict row /\
    row_has row [("workspace_id", workspace_id c); ("binding_id", binding_id c);
                 ("repository_id", repository_id c); ("cluster_id", cluster_id c);
                 ("namespace", q_namespace q); ("manifest_path", manifest_path c);
                 ("environment", environment c); ("status", "active")];
  bk_repository : exists row, get_repository_by_ref db (workspace_id c) (repo_ref c) = VDict row /\
    row_has row [("workspace_id", workspace_id c); ("repository_id", repository_id c);
                 ("repo_ref", repo_ref c); ("default_branch", base_branch c); ("status", "active")];
  bk_artifact : exists row digest,
    get_manifest_artifact_provenance db (workspace_id c) (binding_id c) (commit_sha c)
      (manifest_path c) (casefold (q_resource_kind q) +:+ "/" +:+ q_resource_name q) digest
      = VDict row /\
    canonical_manifest_digest (desired_manifest c) = Ok digest /\
    row_has row [("workspace_id", workspace_id c); ("repository_id", repository_id c);
                 ("binding_id", binding_id c); ("workflow_run_id", workflow_run_id c);
                 ("environment", environment c); ("commit_sha", commit_sha c);
                 ("manifest_path", manifest_path c); ("repo_ref", repo_ref c);
                 ("branch", base_branch c); ("artifact_digest", digest);
                 ("source_manifest_sha256", source_manifest_sha256 c)] /\
    text row "source_origin" ∈ TRUSTED_SOURCE_ORIGINS /\ trusted_source_shape row = true;
  bk_run : forall row, get_workflow_run db (workflow_run_id c) = VDict row -> row_records row (deployed_as c);
  bk_diff : forall row,
    get_completed_workload_resource_diff db (workspace_id c) (workflow_run_id c) (binding_id c) (cluster_id c)
      (q_namespace q) (q_resource_kind q) (q_resource_name q) = VDict row ->
    forall diff, mapping (get row "diff_details") = diff -> diff <> [] ->
      row_records diff (deployed_as c) /\ text diff "namespace" = q_namespace q /\
      py_eqb (get (mapping (get diff "basis")) "old_desired_source") (VStr "last_approved_snapshot") = true;
  bk_kind : casefold (text (desired_manifest c) "kind") = casefold (q_resource_kind q);
  bk_source : source_type c = RAW_YAML /\ is_sha256_digest (source_manifest_sha256 c) = true;
}.

Lemma same_text_eq d k s : same_text d k s = true <-> text d k = s.
Proof. apply str_eqb_eq. Qed.

Lemma same_folded_eq a b : same_folded a b = true <-> casefold a = casefold b.
Proof. apply str_eqb_eq. Qed.

Lemma nonempty_iff s : nonempty s = true <-> s <> "".
Proof. by destruct s. Qed.

Lemma text_set_ne d k k' v : k <> k' -> text (dict_set d k v) k' = text d k'.
Proof. intros. unfold text. by rewrite get_set_ne. Qed.

Lemma enriched_text identity row k :
  k ∉ ["application_id"; "environment"; "branch"] \/ text identity k <> "" ->
  text (enriched_identity identity row) k = text identity k.
Proof.
  assert (forall keys d, (k <> keys.1 \/ text d k <> "") -> text (enrich_key row d keys) k = text d k)
    as Hone.
  { intros [k1 k2] d Hk. unfold enrich_key. cbn [fst snd] in *. destruct (is_empty (text d k1)) eqn:E; [|done].
    destruct (decide (k1 = k)) as [->|]; [|by apply text_set_ne].
    apply is_empty_eq in E. destruct Hk as [Hk|Hk]; congruence. }
  intros Hk. unfold enriched_identity.
  assert (forall l d, (k ∉ l.*1 \/ text d k <> "") -> text (fold_left (enrich_key row) l d) k = text d k)
    as Hall; [|by apply Hall].
  clear identity Hk. induction l as [|keys l IH]; intros d Hk; cbn; [done|].
  assert (k <> keys.1 \/ text d k <> "") as Hk1 by (destruct Hk as [Hk|]; [left; set_solver|auto]).
  rewrite IH; [by apply Hone|]. rewrite Hone by done. destruct Hk; [left; set_solver|auto].
Qed.

Lemma row_has_cons row k v l : row_has row ((k, v) :: l) <-> text row k = v /\ row_has row l.
Proof. unfold row_has. by rewrite Forall_cons. Qed.

Lemma trusted_shape_type row :
  trusted_source_shape row = true ->
  (if str_eqb (text row "source_type") KUSTOMIZE then RAW_YAML else text row "source_type") = RAW_YAML.
Proof.
  unfold trusted_source_shape. destruct (get row "source_document_count"), (get row "artifact_count"); try done.
  unfold same_text. destruct (str_eqb (text row "source_type") KUSTOMIZE); [done|].
  destruct (str_eqb (text row "source_type") RAW_YAML) eqn:E; [|done]. intros _. by apply str_eqb_eq.
Qed.

(** A comparison of the keys a row has. *)
Lemma agreed_records row fields fields' :
  agrees_on row (keep (fun kv => has_key row kv.1) fields) = true -> fields' ⊆ fields -> row_records row fields'.
Proof.
  unfold agrees_on. rewrite forallb_elem. intros Hall Hsub k v Hkv Hk. apply same_text_eq.
  apply (Hall (k, v)), elem_of_keep. auto.
Qed.

(** What the comparison of the rows establishes of the context. *)
Lemma authority_context_backed db q identity run diff application binding repository provenance
    desired application_ref res_ref digest evidence c :
  authority_context q identity run diff application binding repository provenance desired
    application_ref res_ref digest evidence = Ok (Some c) ->
  identity_matches_query identity q = true ->
  (application_ref <> "" -> text identity "application_id" = application_ref) ->
  text diff "resource" = strip res_ref ->
  get_application db (q_workspace_id q) application_ref = VDict application ->
  get_deployment_binding db (q_workspace_id q) (text identity "binding_id") = VDict binding ->
  get_repository_by_ref db (q_workspace_id q) (text identity "repo_ref") = VDict repository ->
  get_manifest_artifact_provenance db (q_workspace_id q) (text identity "binding_id")
    (text identity "commit_sha") (text identity "manifest_path")
    (casefold (q_resource_kind q) +:+ "/" +:+ q_resource_name q) digest = VDict provenance ->
  (forall row, get_workflow_run db (text identity "workflow_run_id") = VDict row -> row = run) ->
  (forall row, get_completed_workload_resource_diff db (q_workspace_id q) (text identity "workflow_run_id")
      (text identity "binding_id") (q_cluster_id q) (q_namespace q) (q_resource_kind q) (q_resource_name q) = VDict row ->
    mapping (get row "diff_details") <> [] -> mapping (get row "diff_details") = diff) ->
  backed db q c.
Proof.
  intros (m & Hm & [= Hc])%bind_Ok Hid Happ Hres Ha Hb Hr Hp Hrun Hdiff.
  destruct m; [|done]. destruct (get diff "changes") as [| | | | | |chs|]; try done.
  injection Hc as <-. unfold authority_rows_match in Hm.
  apply and_res_true in Hm as [Hkind%same_folded_eq (dg & Hdg & [= Hrows])%bind_Ok].
  apply andb_true_iff in Hrows as [->%str_eqb_eq Hrows]. unfold rows_agree in Hrows.
  repeat match type of Hrows with _ && _ = true => apply andb_true_iff in Hrows as [Hrows ?] end.
  unfold identity_matches_query in Hid.
  destruct (partition_char "/" (text identity "resource")) as [[ik isep] iname] eqn:Ei.
  repeat match type of Hid with _ && _ = true => apply andb_true_iff in Hid as [Hid ?] end.
  repeat match goal with E : same_text _ _ _ = true |- _ => apply same_text_eq in E
    | E : str_eqb _ _ = true |- _ => apply str_eqb_eq in E
    | E : same_folded _ _ = true |- _ => apply same_folded_eq in E
    | E : bool_decide _ = true |- _ => apply bool_decide_eq_true in E end.
  match goal with |- backed _ _ ?ctx => assert (deployed_as ctx ⊆ exact_fields q identity) as Hsub end.
  { intros kv. unfold deployed_as, exact_fields. cbn [fmap list_fmap]. rewrite !elem_of_cons. tauto. }
  constructor; cbn -[strip partition_char casefold String.append deployed_as].
  - done.
  - match goal with E : resource_refs_equal _ _ = true |- _ => revert E end.
    unfold resource_refs_equal. rewrite Hres, Ei.
    destruct (partition_char "/" (strip res_ref)) as [[k sep] n]. intros E.
    apply andb_true_iff in E as [[[[-> ->]%andb_true_iff Ek%same_folded_eq]%andb_true_iff En]%andb_true_iff
      ->%str_eqb_eq]. exists k. subst iname. split; [done|]. split; [congruence|].
    intros En'. by rewrite En' in En.
  - match goal with E : forallb (fun key => nonempty (text identity key)) _ = true |- _ =>
      cbn in E; rewrite !andb_true_iff, !nonempty_iff in E end.
    repeat constructor; tauto.
  - exists application. split; [done|]. rewrite !row_has_cons. split; [|intros ?%Happ; congruence].
    repeat split; try done. constructor.
  - exists binding. rewrite !row_has_cons. repeat split; try done. constructor.
  - exists repository. rewrite !row_has_cons. repeat split; try done. constructor.
  - exists provenance, digest. rewrite !row_has_cons.
    match goal with E : agrees_on provenance _ = true |- _ =>
      unfold agrees_on, exact_fields in E; cbn in E; rewrite !andb_true_iff, !same_text_eq in E;
      destruct E as (? & ? & ? & ? & ? & ? & ? & ? & _) end.
    repeat split; try done. constructor.
  - intros row ->%Hrun. eapply agreed_records; [done|exact Hsub].
  - intros row Hrow d <- Hd. rewrite (Hdiff row Hrow Hd). split; [eapply agreed_records; [done|exact Hsub]|done].
  - done.
  - split; [by apply trusted_shape_type|done].
Qed.

(** The fields that name a deployment. *)
Definition deployment_of (c : GitOpsAuthorityContext) : list (string * string) :=
  [("repository_id", repository_id c); ("binding_id", binding_id c);
   ("workflow_run_id", workflow_run_id c); ("commit_sha", commit_sha c);
   ("manifest_path", manifest_path c); ("repo_ref", repo_ref c)].

Ltac enriched_away := rewrite !enriched_text by (left; by apply (bool_decide_unpack _)).

Ltac same_fields :=
  unfold deployment_of; rewrite !row_has_cons; try enriched_away; intros; split_and!; try tauto; constructor.

Lemma identity_matches_enriched identity row q :
  identity_matches_query (enriched_identity identity row) q = identity_matches_query identity q.
Proof. unfold identity_matches_query, same_text. cbn [forallb]. by enriched_away. Qed.

Lemma context_deployment q identity run diff application binding repository provenance
    desired application_ref res_ref digest evidence c :
  authority_context q identity run diff application binding repository provenance desired
    application_ref res_ref digest evidence = Ok (Some c) ->
  row_has identity (deployment_of c).
Proof.
  intros (m & _ & [= Hc])%bind_Ok. destruct m; [|done]. destruct (get diff "changes"); try done.
  injection Hc as <-. repeat constructor.
Qed.

Lemma snapshot_diff_resource q identity res_ref desired digest hist :
  text (snapshot_diff q identity res_ref desired digest hist) "resource" = strip res_ref.
Proof.
  unfold snapshot_diff, dict_update. cbn [fold_left]. rewrite !text_set_ne by done.
  unfold text. by rewrite get_set_eq.
Qed.

Lemma diff_source_resource db q identity diff desired res_ref digest :
  diff_source db q identity = Some (diff, desired, res_ref, digest) -> diff <> [] ->
  text diff "resource" = strip res_ref.
Proof.
  unfold diff_source. intros Hs Hd. case_all; try done. unfold text.
  destruct (get _ "resource"); try done. by rewrite strip_idemp.
Qed.

Lemma load_rows_backed db q identity evidence c :
  load_rows db q identity evidence = Ok (Some c) -> identity_matches_query identity q = true ->
  backed db q c /\ row_has identity (deployment_of c).
Proof.
  unfold load_rows. intros Hl Hid. destruct (run_row db identity) as [run|] eqn:Erun; [|done].
  destruct (get_application _ _ _) as [| | | | | | |application] eqn:Ea; try done.
  destruct (get_deployment_binding _ _ _) as [| | | | | | |binding] eqn:Eb; try done.
  destruct (get_repository_by_ref _ _ _) as [| | | | | | |repository] eqn:Er; try done.
  destruct (diff_source _ _ _) as [[[[diff desired] res_ref] digest]|] eqn:Ed; [|done].
  destruct (is_empty digest); [done|].
  destruct (get_manifest_artifact_provenance _ _ _ _ _ _ _) as [| | | | | | |provenance] eqn:Ep; try done.
  set (identity1 := enriched_identity identity run) in *.
  set (identity2 := enriched_identity identity1 application) in *.
  assert (identity_matches_query identity2 q = true) as Hid2.
  { unfold identity2, identity1. by rewrite !identity_matches_enriched. }
  assert (text identity1 "binding_id" = text identity2 "binding_id") as Eb2.
  { unfold identity2. by enriched_away. }
  rewrite Eb2 in Eb.
  assert (text identity1 "application_id" <> "" ->
          text identity2 "application_id" = text identity1 "application_id") as Happ.
  { intros Hne. unfold identity2. apply enriched_text. by right. }
  assert (forall fields c', row_has identity2 (deployment_of c') -> fields = deployment_of c' ->
            row_has identity fields) as Hfields.
  { intros fields c' Hrow ->. revert Hrow. unfold identity2, identity1. same_fields. }
  assert (forall row, get_workflow_run db (text identity2 "workflow_run_id") = VDict row -> row = run) as Hrun.
  { intros row. replace (text identity2 "workflow_run_id") with (text identity "workflow_run_id")
      by (unfold identity2, identity1; by enriched_away).
    unfold run_row in Erun. intros E. rewrite E in Erun. congruence. }
  assert (forall row, get_completed_workload_resource_diff db (q_workspace_id q) (text identity2 "workflow_run_id")
      (text identity2 "binding_id") (q_cluster_id q) (q_namespace q) (q_resource_kind q) (q_resource_name q) = VDict row ->
    mapping (get row "diff_details") = diff) as Hdiff.
  { intros row E. unfold diff_source in Ed. rewrite E in Ed. by destruct (completed_resource_diff_matches_identity _ _ _); simplify_eq. }
  destruct (bool_decide (diff = [])) eqn:Edf; cbn [negb] in Hl.
  - apply bind_Ok in Hl as (hist & _ & Hl). split.
    + eapply authority_context_backed; try done; [apply snapshot_diff_resource|].
      intros row Hrow. apply bool_decide_eq_true in Edf. by rewrite (Hdiff row Hrow).
    + eapply Hfields; [|done]. by eapply context_deployment.
  - apply bool_decide_eq_false in Edf. split.
    + eapply authority_context_backed; try done; [by eapply diff_source_resource|]. auto.
    + eapply Hfields; [|done]. by eapply context_deployment.
Qed.

Lemma load_authority_backed db q c :
  load_authority (Some db) q = Ok (Some c) -> backed db q c.
Proof.
  unfold load_authority. destruct (load_identity _ _ _) as [identity|]; [|done].
  destruct (identity_matches_query identity q) eqn:Hid; [|done].
  intros Hl. by apply (load_rows_backed _ _ _ _ _ Hl).
Qed.

(** an authority is never assembled from rows that disagree: when
    [load_authority] returns a context, the application, the binding, the
    repository and the artifact provenance stored under the context's own ids
    exist, are active and carry the context's workspace, repository, cluster,
    namespace, path, branch, environment and commit; the digest the artifact
    is stored under is the digest of the desired manifest; the source is
    trusted and digested; and the resource is the queried one. *)
Theorem authority_is_backed db q c :
  load_authority (Some db) q = Ok (Some c) -> backed db q c.
Proof. apply load_authority_backed. Qed.

Lemma identity_from_evidence_row exact c :
  row_has (identity_from_evidence exact) (deployment_of c) -> row_has exact (deployment_of c).
Proof. same_fields. Qed.

Lemma identity_from_rca_row payload c :
  identity_from_rca_evidence payload <> [] ->
  row_has (identity_from_rca_evidence payload) (deployment_of c) ->
  rca_target_lineage_is_consistent payload
    (mapping (get (mapping (get payload "metadata")) "change_context")) (rca_gitops payload) = true /\
  row_has (rca_gitops payload) (deployment_of c).
Proof.
  unfold identity_from_rca_evidence. fold (rca_gitops payload).
  destruct (_ || _) eqn:E; [done|].
  apply orb_false_iff in E as [_ E%negb_false_iff]. intros _ Hrow. split; [done|].
  revert Hrow. same_fields.
Qed.

(** The deployment the incident's evidence embeds, or the one the only
    matching approved snapshot names. *)
Definition fallback_origin (db : authority_db) (q : GitOpsAuthorityQuery) (c : GitOpsAuthorityContext)
    (rca : dict) : Prop :=
  if rca_evidence_has_gitops_identity rca then
    row_has (rca_gitops rca) (deployment_of c) /\
    rca_target_lineage_is_consistent rca
      (mapping (get (mapping (get rca "metadata")) "change_context")) (rca_gitops rca) = true
  else
    exists list_targets get_snapshot raw_targets identity,
      list_active_github_poll_targets db = Some list_targets /\
      get_last_approved_resource_snapshot db = Some get_snapshot /\
      list_targets (q_workspace_id q) 1000 = VList raw_targets /\
      omap (target_identity get_snapshot q) raw_targets = [identity] /\
      row_has identity (deployment_of c).

Lemma snapshot_identity_origin db q identity :
  load_approved_snapshot_identity db q = identity -> identity <> [] ->
  exists list_targets get_snapshot raw_targets,
    list_active_github_poll_targets db = Some list_targets /\
    get_last_approved_resource_snapshot db = Some get_snapshot /\
    list_targets (q_workspace_id q) 1000 = VList raw_targets /\
    omap (target_identity get_snapshot q) raw_targets = [identity].
Proof.
  unfold load_approved_snapshot_identity. intros <- Hne.
  destruct (list_active_github_poll_targets db) as [list_targets|]; [|done].
  destruct (get_last_approved_resource_snapshot db) as [get_snapshot|]; [|done].
  destruct (list_targets _ _) as [| | | | | |raw|] eqn:Er; try done.
  destruct (the_one _) as [x|] eqn:Eo; [|done]. apply the_one_Some in Eo.
  by exists list_targets, get_snapshot, raw.
Qed.

Lemma fallback_identity db q identity rca c :
  (if negb (bool_decide (identity_from_rca_evidence rca = []))
   then Some (identity_from_rca_evidence rca)
   else if rca_evidence_has_gitops_identity rca then None
   else Some (load_approved_snapshot_identity db q)) = Some identity ->
  identity_matches_query identity q = true -> row_has identity (deployment_of c) ->
  fallback_origin db q c rca.
Proof.
  unfold fallback_origin. intros Hi Hid Hrow.
  destruct (bool_decide (identity_from_rca_evidence rca = [])) eqn:E; cbn [negb] in Hi.
  - destruct (rca_evidence_has_gitops_identity rca); [done|]. injection Hi as Hs.
    apply snapshot_identity_origin in Hs as (lt & gs & raw & ? & ? & ? & ?); [by exists lt, gs, raw, identity|].
    intros ->. unfold identity_matches_query in Hid. cbn in Hid. by rewrite andb_false_r in Hid.
  - apply bool_decide_eq_false in E. injection Hi as <-.
    apply identity_from_rca_row in Hrow as [? ?]; [|done].
    assert (rca_evidence_has_gitops_identity rca = true) as ->; [|done].
    unfold rca_evidence_has_gitops_identity. destruct (bool_decide (rca_gitops rca = [])) eqn:Eg; [|done].
    destruct E. unfold identity_from_rca_evidence. fold (rca_gitops rca). by rewrite Eg.
Qed.

(** the record of the change itself comes first and is never bypassed.
    When such a record exists, an authority names the deployment of that
    record, which must be complete; otherwise, when the incident's evidence
    embeds a deployment, the authority names that one and its lineage to the
    incident's resource is consistent; only when neither exists does the
    approved snapshot decide, and then exactly one active binding of the
    workspace and cluster claims the workload. *)
Theorem authority_origin db q c :
  load_authority (Some db) q = Ok (Some c) ->
  match get_evidence_payload db (q_workspace_id q) (q_correlation_id q)
          GITOPS_CHANGE_CONTEXT_EVIDENCE_KIND with
  | VDict exact =>
      row_has exact (deployment_of c) /\
      forall key, key ∈ ["application_id"; "environment"; "branch"] -> text exact key <> ""
  | _ => fallback_origin db q c
           (mapping (get_evidence_payload db (q_workspace_id q) (q_correlation_id q) RCA_EVIDENCE_KIND))
  end.
Proof.
  unfold load_authority. set (rca := mapping (get_evidence_payload db _ _ RCA_EVIDENCE_KIND)).
  destruct (load_identity db q rca) as [identity|] eqn:Ei; [|done].
  destruct (identity_matches_query identity q) eqn:Hid; [|done].
  intros [_ Hrow]%load_rows_backed; [|done]. unfold load_identity in Ei.
  destruct (get_evidence_payload db _ _ GITOPS_CHANGE_CONTEXT_EVIDENCE_KIND) as [| | | | | | |exact];
    try (by eapply fallback_identity).
  destruct (forallb _ _) eqn:E; [|done]. injection Ei as <-. split; [by apply identity_from_evidence_row|].
  intros key Hkey. apply (proj1 (forallb_elem _ _)) with (x := key) in E; [|done].
  apply nonempty_iff in E. intros Hne. apply E.
  rewrite !elem_of_cons in Hkey. by destruct Hkey as [->|[->|[->|?%elem_of_nil]]].
Qed.

End authority.
(** ** A deployment with an approved snapshot *)

Module Sample.

Definition repr : ReprLib := Demo.plain_repr.
Definition sha : Sha256 := Demo.constant_hash sample_hex.

Definition q : GitOpsAuthorityQuery := Query "c-1" "w-1" "i-1" "k-1" "shop" "Deployment" "web".
Definition digest : string := "sha256:" +:+ sample_hex.
Definition commit : string := "0123456789abcdef0123456789abcdef01234567".

Definition manifest (replicas : Z) : dict :=
  [("kind", VStr "Deployment"); ("metadata", VDict [("namespace", VStr "shop")]);
   ("spec", VDict [("replicas", VInt replicas)])].

Definition strs (fields : list (string * string)) : dict := (fun kv => (kv.1, VStr kv.2)) <$> fields.

Definition target_row : dict := strs
  [("workspace_id", "w-1"); ("cluster_id", "k-1"); ("binding_id", "b-1"); ("repository_id", "r-1");
   ("application_id", "a-1"); ("environment", "prod"); ("manifest_path", "apps/web.yaml");
   ("repo_ref", "acme/shop"); ("branch", "main")].
Definition snapshot_row : dict :=
  strs [("workspace_id", "w-1"); ("binding_id", "b-1"); ("cluster_id", "k-1"); ("namespace", "shop");
        ("resource_kind", "deployment"); ("resource_name", "web"); ("workflow_run_id", "run-1");
        ("commit_sha", commit); ("artifact_digest", digest)]
  ++ [("snapshot", VDict (strs [("resource", "Deployment/web"); ("namespace", "shop")]))].
Definition application_row : dict := strs
  [("application_id", "a-1"); ("workspace_id", "w-1"); ("repository_id", "r-1"); ("status", "active");
   ("repo_ref", "acme/shop"); ("default_branch", "main")].
Definition binding_row : dict := strs
  [("workspace_id", "w-1"); ("binding_id", "b-1"); ("repository_id", "r-1"); ("cluster_id", "k-1");
   ("namespace", "shop"); ("manifest_path", "apps/web.yaml"); ("environment", "prod");
   ("status", "active")].
Definition repository_row : dict := strs
  [("workspace_id", "w-1"); ("repository_id", "r-1"); ("repo_ref", "acme/shop");
   ("default_branch", "main"); ("status", "active")].
Definition provenance_row : dict :=
  strs [("workspace_id", "w-1"); ("repository_id", "r-1"); ("binding_id", "b-1");
        ("application_id", "a-1"); ("workflow_run_id", "run-1"); ("environment", "prod");
        ("commit_sha", commit); ("manifest_path", "apps/web.yaml"); ("artifact_digest", digest);
        ("repo_ref", "acme/shop"); ("branch", "main"); ("source_origin", "git_cache");
        ("source_type", "kustomize"); ("source_manifest_sha256", digest)]
  ++ [("source_is_file", VBool false); ("source_document_count", VInt 2); ("artifact_count", VInt 2);
      ("desired_manifest", VDict (manifest 1))].
(** A run since removed, a workload last scaled from 3 to 1. *)
Definition history : pyval := VList [VDict (
  strs [("workspace_id", "w-1"); ("binding_id", "b-1"); ("cluster_id", "k-1"); ("namespace", "shop");
        ("resource_kind", "Deployment"); ("resource_name", "web"); ("repository_id", "r-1");
        ("manifest_path", "apps/web.yaml")]
  ++ [("diff_details", VDict [("changes", VList [VDict
         [("field_path", VStr "spec.replicas"); ("old_desired", VStr "3"); ("new_desired", VInt 1)]])])])].

Definition db : authority_db := {|
  get_evidence_payload := fun _ _ _ => VNone;
  get_workflow_run := fun _ => VNone;
  get_completed_workload_resource_diff := fun _ _ _ _ _ _ _ => VNone;
  get_application := fun _ _ => VDict application_row;
  get_deployment_binding := fun _ _ => VDict binding_row;
  get_repository_by_ref := fun _ _ => VDict repository_row;
  get_manifest_artifact_provenance := fun _ _ _ _ _ _ => VDict provenance_row;
  list_active_github_poll_targets := Some (fun _ _ => VList [VDict target_row]);
  get_last_approved_resource_snapshot := Some (fun _ _ _ _ _ => VDict snapshot_row);
  list_recent_completed_workload_resource_diffs := Some (fun _ _ _ _ _ _ _ => history);
|}.

Definition context : GitOpsAuthorityContext := {|
  workspace_id := "w-1"; repository_id := "r-1"; binding_id := "b-1"; application_id := "a-1";
  workflow_run_id := "run-1"; environment := "prod"; cluster_id := "k-1";
  manifest_path := "apps/web.yaml"; repo_ref := "acme/shop"; base_branch := "main";
  commit_sha := commit; source_type := RAW_YAML; source_manifest_sha256 := digest;
  resource := "Deployment/web"; desired_manifest := manifest 1;
  changes := [[("field_path", VStr "spec.replicas"); ("old_desired", VStr "3"); ("new_desired", VInt 1)]];
  evidence := [] |}.

Lemma loaded : @load_authority repr sha (Some db) q = Ok (Some context).
Proof. vm_compute. reflexivity. Qed.

End Sample.

Lemma authority_is_backed_witness : @backed Sample.repr Sample.sha Sample.db Sample.q Sample.context.
Proof. apply (@authority_is_backed Sample.repr Sample.sha). exact Sample.loaded. Defined.

Lemma authority_origin_witness :
  fallback_origin Sample.db Sample.q Sample.context [].
Proof. exact (@authority_origin Sample.repr Sample.sha _ _ _ Sample.loaded). Defined.

End RecoveryAuthority.
