(* ===== verification/RecoveryReplacements.v ===== *)
(** * The scalar changes a recovery proposes

    The second half of [src/src/services/ai/agent/recovery/dispatch.py]: from
    the authority's desired manifest and its approved changes to the scalar
    replacements of the selected action, and from those to the structured
    patch of the pull request. *)
From S2P Require Import Prelude PyStr PyFloat PyVal Libs Demo SourcePatch RecoveryAuthority.

Module RecoveryReplacements.
Import RecoveryAuthority.
Import SourcePatch(ScalarFieldReplacement, field_path, current_value, desired_value, Build_ScalarFieldReplacement).

Definition SAFE_PR_STRUCTURED_PATCH_DIR : string := ".gitops/safe-pr/patches".

(** The fields of [HealingActionDraft] and [RecoveryActionCandidate] that are
    read here and in the dispatcher. *)
Record HealingActionDraft := {
  action_type : string;
  d_namespace : string;
  d_resource_kind : string;
  d_resource_name : string;
  params : dict;
}.

Record RecoveryActionCandidate := {
  action_id : string;
  title : string;
  description : string;
  draft : HealingActionDraft;
  route : string;
  risk_level : string;
  blast_radius : string;
  validation_checks : list string;
  rollback_plan : string;
}.

Record SafePrFilePatch := { patch_path : string; content : string; patch_description : string }.

Definition replacement (path : string) (current desired : pyval) : ScalarFieldReplacement :=
  {| field_path := path; current_value := current; desired_value := desired |}.

(** ** Reading values *)

Fixpoint first_str (values : list pyval) : string :=
  match values with
  | [] => ""
  | VStr s :: values => if nonempty (strip s) then strip s else first_str values
  | _ :: values => first_str values
  end.

Definition nested_value (value : pyval) (keys : list string) : pyval :=
  default VNone (nested_get value keys).

(** The same function as the inner [as_int] of [previous_replicas_from_changes]. *)
Definition as_int : pyval -> res (option Z) := scalar_int.

(** [type(v) in {int, float} and math.isfinite(float(v))], and then [float(v)]. *)
Definition finite_number (v : pyval) : res (option float) :=
  match v with
  | VInt z => f ← float_of_int z; Ok (Some f)
  | VFloat f => Ok (if is_finite f then Some f else None)
  | _ => Ok None
  end.

(** The first value that a search finds. *)
Definition first_found {A B} (f : A -> res (option B)) : list A -> res (option B) :=
  fix go (l : list A) : res (option B) :=
    match l with
    | [] => Ok None
    | x :: l => found ← f x; match found with Some y => Ok (Some y) | None => go l end
    end.

Fixpoint numeric_evidence_value (value : pyval) (key : string) : res (option float) :=
  match value with
  | VDict d =>
      candidate ← finite_number (get d key);
      match candidate with
      | Some f => Ok (Some f)
      | None => first_found (fun kv => numeric_evidence_value kv.2 key) d
      end
  | VList l => first_found (fun item => numeric_evidence_value item key) l
  | _ => Ok None
  end.

(** A final newline, which [$] looks over. *)
Definition newline : ascii := "010"%char.
Fixpoint without_final_newline (s : string) : string :=
  match s with
  | EmptyString => ""
  | String c EmptyString => if bool_decide (c = newline) then "" else s
  | String c s => String c (without_final_newline s)
  end.

Definition is_suffix (lo hi : nat) (p : ascii -> bool) (s : string) : bool :=
  Nat.leb lo (str_len s) && Nat.leb (str_len s) hi && all_chars p s.

Definition is_dot (c : ascii) : bool := negb (bool_decide (c = newline)).

(** The group [(.+)] in front of the suffixes, [""] when nothing matches. *)
Definition group_of (words : list string) : string :=
  let s := join "-" words in if all_chars is_dot s then s else "".

(** [^(.+)-[a-f0-9]{8,10}-[a-z0-9]{5}$] *)
Definition deployment_from_pod_name (name : string) : string :=
  match reverse (split_char "-" (without_final_newline name)) with
  | pod :: hash :: rest =>
      if is_suffix 5 5 (fun c => is_lower c || is_digit c) pod && is_suffix 8 10 is_hex hash
      then group_of (reverse rest) else ""
  | _ => ""
  end.

(** [^(.+)-[a-f0-9]{8,10}$] *)
Definition deployment_from_replicaset_name (name : string) : string :=
  match reverse (split_char "-" (without_final_newline name)) with
  | hash :: rest => if is_suffix 8 10 is_hex hash then group_of (reverse rest) else ""
  | _ => ""
  end.

Section replacements.
Context `{ReprLib}.

(** [str(change.get("field_path") or "")] *)
Definition path_of (change : dict) : string :=
  let v := get change "field_path" in if truthy v then py_str v else "".

Definition or_else (a b : string) : string := if nonempty a then a else b.

Definition target_container (manifest : dict) (resource_name : string) : option dict :=
  match nested_value (VDict manifest) ["spec"; "template"; "spec"; "containers"] with
  | VList containers =>
      let values := omap as_dict containers in
      match values with
      | [value] => Some value
      | _ =>
          let deployment := or_else (deployment_from_pod_name resource_name)
            (or_else (deployment_from_replicaset_name resource_name) resource_name) in
          the_one (keep (fun item => py_eqb (get item "name") (VStr deployment)) values)
      end
  | _ => None
  end.

Definition container_path (name suffix : string) : string :=
  "spec.template.spec.containers[name=" +:+ name +:+ "]" +:+ suffix.

(** ** The actions *)

Definition image_change (suffix current_image : string) (change : dict) : bool :=
  let previous := first_str [get change "old_desired"] in
  ends_with suffix (path_of change)
  && str_eqb (first_str [get change "new_desired"; get change "after"]) current_image
  && nonempty previous && negb (str_eqb previous current_image).

Definition image_replacements (authority : GitOpsAuthorityContext) (container : option dict)
    : list ScalarFieldReplacement :=
  match container with
  | None => []
  | Some container =>
      let container_name := first_str [get container "name"] in
      let current_image := first_str [get container "image"] in
      let suffix := "containers[name=" +:+ container_name +:+ "].image" in
      match keep (image_change suffix current_image) (changes authority) with
      | [change] =>
          [replacement (container_path container_name ".image") (VStr current_image)
             (VStr (first_str [get change "old_desired"]))]
      | _ => []
      end
  end.

(** The condition of the comprehension of [previous_replicas_from_changes]. *)
Definition replica_drop (current_replicas : Z) (change : dict) : res bool :=
  and_res (ends_with "spec.replicas" (path_of change))
    (after ← as_int (get_or change "new_desired" "after");
     and_res (bool_decide (after = Some current_replicas))
       (previous ← as_int (get change "old_desired");
        Ok match previous with Some p => current_replicas <? p | None => false end)).

Definition previous_replicas_from_changes (authority : GitOpsAuthorityContext) (current_replicas : Z)
    : res (option Z) :=
  matches ← omapr (fun change =>
    b ← replica_drop current_replicas change; Ok (if (b : bool) then Some change else None))
    (changes authority);
  match matches with
  | [change] => as_int (get change "old_desired")
  | _ => Ok None
  end.

Definition replica_replacements (candidate : RecoveryActionCandidate)
    (authority : GitOpsAuthorityContext) : res (list ScalarFieldReplacement) :=
  match nested_value (VDict (desired_manifest authority)) ["spec"; "replicas"] with
  | VInt replicas =>
      if negb ((1 <=? replicas) && (replicas <? 10)) then Ok []
      else
        previous ← previous_replicas_from_changes authority replicas;
        let strategy := first_str [get (params (draft candidate)) "strategy"] in
        let allow_scale_out := is_true (get (params (draft candidate)) "allow_bounded_scale_out") in
        if str_eqb strategy "last_approved_snapshot" && bool_decide (previous = None)
           && negb allow_scale_out
        then Ok []
        else
          let desired := default (replicas + 1) previous in
          if (desired =? replicas) || negb ((1 <=? desired) && (desired <? 10)) then Ok []
          else Ok [replacement "spec.replicas" (VInt replicas) (VInt desired)]
  | _ => Ok []
  end.

Definition MIB : Z := 1024 ^ 2.

(** [math.ceil(bytes * factor / mib)] *)
Definition scaled_mib (bytes factor : float) : res Z :=
  mib ← float_of_int MIB; ceil_of_float (fdiv (fmul bytes factor) mib).

(** [f"{n}Mi"] and its size. *)
Definition mebibytes (n : Z) : string := str_of_int n +:+ "Mi".
Definition exceeds (quantity : string) (bytes : Z) : res bool :=
  size ← SourcePatch.memory_quantity_bytes (VStr quantity);
  match size with Some b => Ok (bytes <? b) | None => Err TypeError end.

(** Appending a replacement when the quantity grows. *)
Definition when_exceeds (quantity : string) (bytes : Z) (path : string) (current : pyval)
    : res (list ScalarFieldReplacement) :=
  grows ← exceeds quantity bytes;
  Ok (if (grows : bool) then [replacement path current (VStr quantity)] else []).

Definition oom_memory_replacements (authority : GitOpsAuthorityContext) (container : option dict)
    : res (list ScalarFieldReplacement) :=
  match container with
  | None => Ok []
  | Some container =>
      let container_name := first_str [get container "name"] in
      let request := nested_value (VDict container) ["resources"; "requests"; "memory"] in
      let limit := nested_value (VDict container) ["resources"; "limits"; "memory"] in
      request_size ← SourcePatch.memory_quantity_bytes request;
      limit_size ← SourcePatch.memory_quantity_bytes limit;
      usage ← numeric_evidence_value (VDict (evidence authority)) "container_memory_working_set_bytes";
      match request_size, limit_size, usage with
      | Some request_bytes, Some limit_bytes, Some usage_bytes =>
          if is_empty container_name || fleb usage_bytes fzero then Ok []
          else
            limit_float ← float_of_int limit_bytes;
            limit_growth ← scaled_mib limit_float (flit "1.25");
            limit_usage ← scaled_mib usage_bytes (flit "1.25");
            request_float ← float_of_int request_bytes;
            request_growth ← scaled_mib request_float (flit "1.25");
            request_usage ← scaled_mib usage_bytes (flit "0.8");
            let desired_limit_mib := Z.max limit_growth limit_usage in
            if 4096 <? desired_limit_mib then Ok []
            else
              let desired_request_mib := Z.min (Z.max request_growth request_usage) desired_limit_mib in
              requests ← when_exceeds (mebibytes desired_request_mib) request_bytes
                (container_path container_name ".resources.requests.memory") request;
              limits ← when_exceeds (mebibytes desired_limit_mib) limit_bytes
                (container_path container_name ".resources.limits.memory") limit;
              Ok (requests ++ limits)
      | _, _, _ => Ok []
      end
  end.

Definition PROBE_NAMES : list string := ["readinessProbe"; "livenessProbe"].

(** The fields of a probe that an approved change may restore. *)
Definition probe_fields (probe_name : string) (probe : dict) : list (string * pyval) :=
  [(probe_name +:+ ".httpGet.path", nested_value (VDict probe) ["httpGet"; "path"]);
   (probe_name +:+ ".httpGet.port", nested_value (VDict probe) ["httpGet"; "port"]);
   (probe_name +:+ ".timeoutSeconds", get probe "timeoutSeconds")].

Definition restores (path : string) (current : pyval) (change : dict) : bool :=
  let after := get_or change "new_desired" "after" in
  let before := get change "old_desired" in
  py_eqb (get change "field_path") (VStr path) && same_type after current && py_eqb after current
  && same_type before current && negb (py_eqb before current).

Definition approved_probe_change (authority : GitOpsAuthorityContext) (container_name : string)
    (field : string * pyval) : option ScalarFieldReplacement :=
  let path := container_path container_name ("." +:+ field.1) in
  match keep (restores path field.2) (changes authority) with
  | [change] => Some (replacement path field.2 (get change "old_desired"))
  | _ => None
  end.

Definition probe_of (container : dict) (probe_name : string) : list (string * dict) :=
  match get container probe_name with VDict probe => [(probe_name, probe)] | _ => [] end.

Definition longer_timeout (container_name : string) (entry : string * dict)
    : option ScalarFieldReplacement :=
  match get entry.2 "timeoutSeconds" with
  | VInt timeout =>
      if (1 <=? timeout) && (timeout <? 30)
      then Some (replacement (container_path container_name ("." +:+ entry.1 +:+ ".timeoutSeconds"))
                   (VInt timeout) (VInt (Z.min (timeout + 2) 30)))
      else None
  | _ => None
  end.

Definition probe_replacements (container : option dict) (authority : GitOpsAuthorityContext)
    : list ScalarFieldReplacement :=
  match container with
  | None => []
  | Some container =>
      let container_name := first_str [get container "name"] in
      let probes := flat_map (probe_of container) PROBE_NAMES in
      match omap (approved_probe_change authority container_name)
              (flat_map (fun entry => probe_fields entry.1 entry.2) probes) with
      | [approved] => [approved]
      | _ => option_list (head (omap (longer_timeout container_name) probes))
      end
  end.

(** [re.fullmatch(r"[A-Za-z0-9_-]+", str(key))] *)
Definition is_label_key (key : string) : bool := nonempty key && all_chars SourcePatch.is_key_char key.

Definition selector_mismatch (labels : dict) (entry : string * pyval)
    : option ScalarFieldReplacement :=
  match entry.2, get labels entry.1 with
  | VStr current, VStr desired =>
      if is_label_key entry.1 && negb (str_eqb current desired)
      then Some (replacement ("spec.selector.matchLabels." +:+ entry.1) (VStr current) (VStr desired))
      else None
  | _, _ => None
  end.

Definition selector_replacements (manifest : dict) : list ScalarFieldReplacement :=
  match nested_value (VDict manifest) ["spec"; "selector"; "matchLabels"],
        nested_value (VDict manifest) ["spec"; "template"; "metadata"; "labels"] with
  | VDict selector, VDict labels => option_list (the_one (omap (selector_mismatch labels) selector))
  | _, _ => []
  end.

Definition scalar_replacements_for (action : string) (candidate : RecoveryActionCandidate)
    (authority : GitOpsAuthorityContext) : res (list ScalarFieldReplacement) :=
  let manifest := desired_manifest authority in
  let container := target_container manifest (d_resource_name (draft candidate)) in
  if bool_decide (action ∈ ["image_rollback"; "image_tag_fix"]) then
    Ok (image_replacements authority container)
  else if str_eqb action "replica_scale" then replica_replacements candidate authority
  else if str_eqb action "oom_memory" then oom_memory_replacements authority container
  else if str_eqb action "probe_fix" then Ok (probe_replacements container authority)
  else if str_eqb action "selector_fix" then Ok (selector_replacements manifest)
  else Ok [].

(** ** The structured patch *)

Definition inverse (item : ScalarFieldReplacement) : ScalarFieldReplacement :=
  replacement (field_path item) (desired_value item) (current_value item).

Definition patch_plan (action : string) (authority : GitOpsAuthorityContext)
    (replacements : list ScalarFieldReplacement) : SourcePatch.ManifestScalarPatchPlan :=
  {| SourcePatch.action_type := action;
     SourcePatch.source_type := source_type authority;
     SourcePatch.source_manifest_sha256 := source_manifest_sha256 authority;
     SourcePatch.expected_base_sha := commit_sha authority;
     SourcePatch.manifest_path := manifest_path authority;
     SourcePatch.replacements := replacements;
     SourcePatch.rollback_replacements := inverse <$> replacements |}.

Context `{YamlLib} `{Sha256}.

Definition authority_safe_pr_patches (candidate : RecoveryActionCandidate)
    (authority : GitOpsAuthorityContext) : res (list SafePrFilePatch) :=
  let action := action_type (draft candidate) in
  replacements ← scalar_replacements_for action candidate authority;
  if bool_decide (replacements = []) then Ok []
  else
    let token := str_take 24
      (sha256_hexdigest (utf8_encode (action_id candidate +:+ ":" +:+ commit_sha authority))) in
    text ← SourcePatch.scalar_patch_content (patch_plan action authority replacements);
    Ok [{| patch_path := SAFE_PR_STRUCTURED_PATCH_DIR +:+ "/" +:+ token +:+ ".yaml";
           content := text;
           patch_description := title candidate +:+ " (exact-base patch + inverse rollback)" |}].

(** ** What is proposed *)

Lemma patches_inv candidate authority ps :
  authority_safe_pr_patches candidate authority = Ok ps -> ps <> [] ->
  exists rs p, ps = [p] /\
    scalar_replacements_for (action_type (draft candidate)) candidate authority = Ok rs /\
    SourcePatch.scalar_patch_content (patch_plan (action_type (draft candidate)) authority rs)
      = Ok (content p).
Proof.
  unfold authority_safe_pr_patches. intros (rs & Hr & Hp)%bind_Ok Hne.
  destruct (bool_decide (rs = [])); [by injection Hp as <-|].
  apply bind_Ok in Hp as (t & Ht & [= <-]). eexists rs, _. split; [done|]. by split.
Qed.

(** C27: what a recovery puts into a pull request is one structured patch
    that the reviewer's side reads back as exactly the proposed plan, and that
    plan is an approved one: based on the authority's commit, digest and path,
    its changes are those computed for the action, each allowed for it, and
    its rollback inverts them one by one. *)
Theorem proposed_patch_is_approved `{!YamlRoundTrip} candidate authority ps :
  authority_safe_pr_patches candidate authority = Ok ps -> ps <> [] ->
  exists rs p, ps = [p] /\
    let plan := patch_plan (action_type (draft candidate)) authority rs in
    scalar_replacements_for (action_type (draft candidate)) candidate authority = Ok rs /\
    SourcePatch.parse_scalar_patch_plan (content p) = Ok (Some plan) /\
    SourcePatch.approved_plan plan.
Proof.
  intros Hp Hne. apply patches_inv in Hp as (rs & p & -> & Hr & Hc); [|done]. exists rs, p. cbn zeta.
  split; [done|].
  split; [done|]. split; [by apply SourcePatch.scalar_patch_document_read|].
  apply bind_Ok in Hc as ([] & Hv & _). by apply SourcePatch.validate_scalar_patch_plan_spec.
Qed.

(** *** Replicas *)

Lemma previous_replicas_spec authority r p :
  previous_replicas_from_changes authority r = Ok (Some p) ->
  r < p /\ exists change, change ∈ changes authority /\
    ends_with "spec.replicas" (path_of change) = true /\
    as_int (get_or change "new_desired" "after") = Ok (Some r) /\
    as_int (get change "old_desired") = Ok (Some p).
Proof.
  unfold previous_replicas_from_changes. intros (ms & Hm & Hp)%bind_Ok.
  destruct ms as [|change [|? ?]]; try done.
  assert (change ∈ changes authority /\ replica_drop r change = Ok true) as [Hin Hd].
  { apply omapr_elem with (y := change) in Hm as (x & Hx & (b & Hb & [= Hbx])%bind_Ok); [|set_solver].
    destruct b; [|done]. by injection Hbx as ->. }
  unfold replica_drop in Hd. apply and_res_true in Hd as [Hpath (after & Ha & Hd)%bind_Ok].
  apply and_res_true in Hd as [->%bool_decide_eq_true (pv & Hpv & [= Hlt])%bind_Ok].
  rewrite Hp in Hpv. injection Hpv as <-. split; [lia|]. by exists change.
Qed.

(** a replica proposal only scales up and stays below ten: from the
    count of the desired manifest either by one, or back to the count before
    the only approved reduction to it. *)
Theorem replica_proposal_bounds candidate authority rs :
  scalar_replacements_for "replica_scale" candidate authority = Ok rs ->
  rs = [] \/ exists r d, rs = [replacement "spec.replicas" (VInt r) (VInt d)] /\
    nested_value (VDict (desired_manifest authority)) ["spec"; "replicas"] = VInt r /\
    1 <= r < d /\ d < 10 /\
    (d = r + 1 \/ exists change, change ∈ changes authority /\
       ends_with "spec.replicas" (path_of change) = true /\
       as_int (get_or change "new_desired" "after") = Ok (Some r) /\
       as_int (get change "old_desired") = Ok (Some d)).
Proof.
  change (scalar_replacements_for "replica_scale" candidate authority)
    with (replica_replacements candidate authority).
  unfold replica_replacements. destruct (nested_value _ _) as [| |r| | | | |]; try (intros [= <-]; by left).
  destruct (negb _) eqn:Er; [intros [= <-]; by left|]. intros (p & Hp & H')%bind_Ok.
  destruct (_ && negb _); [injection H' as <-; by left|].
  destruct (_ || negb _) eqn:Ed; [injection H' as <-; by left|]. injection H' as <-. right.
  exists r, (default (r + 1) p). split; [done|]. split; [done|]. bool_simpl.
  destruct p as [p|]; cbn [default from_option id] in *.
  - apply previous_replicas_spec in Hp as [Hlt Hch]. split; [lia|]. split; [lia|]. by right.
  - split; [lia|]. split; [lia|]. by left.
Qed.

(** *** The current values are the manifest's *)

(** The names Kubernetes gives to containers. *)
Definition dns_label (s : string) : bool :=
  nonempty s && all_chars (fun c => is_lower c || is_digit c || bool_decide (c = "-"%char)) s.

Definition plain_char (c : ascii) : bool :=
  negb (bool_decide (c = "["%char)) && negb (bool_decide (c = "]"%char))
  && negb (bool_decide (c = "."%char)) && negb (is_space c).

Lemma dns_plain s : dns_label s = true -> all_chars plain_char s = true.
Proof.
  unfold dns_label. intros [_ Hs]%andb_true_iff. revert Hs. apply all_chars_impl.
  intros c. destruct c as [[] [] [] [] [] [] [] []]; vm_compute; congruence.
Qed.

(** A run of plain characters is taken up whole. *)
Lemma parts_go_plain n rest depth cur :
  all_chars plain_char n = true ->
  SourcePatch.field_path_parts_go (n +:+ rest) depth cur
  = SourcePatch.field_path_parts_go rest depth (cur +:+ n).
Proof.
  revert cur. induction n as [|c n IH]; intros cur; cbn [all_chars String.append].
  { intros _. by rewrite str_app_nil_r. }
  intros [Hc Hn]%andb_true_iff. unfold plain_char in Hc. rewrite !andb_true_iff, !negb_true_iff in Hc.
  destruct Hc as [[[H1' H2'] H3'] _]. cbn [SourcePatch.field_path_parts_go].
  rewrite H1', H2', H3'. cbn [andb]. rewrite IH by done. by rewrite str_app_assoc.
Qed.

Lemma selector_name_plain n :
  all_chars plain_char n = true -> SourcePatch.selector_name (n +:+ "]") = Some n.
Proof.
  induction n as [|c n IH]; cbn; [done|]. intros [Hc Hn]%andb_true_iff.
  unfold plain_char in Hc. rewrite !andb_true_iff, !negb_true_iff in Hc. destruct Hc as [[[_ H2'] _] _].
  rewrite H2', IH by done. done.
Qed.

(** The segments of a field of the named container; [tail] is one of the
    literal suffixes. *)
Lemma container_path_segments n tail parts segs :
  dns_label n = true ->
  SourcePatch.field_path_parts_go tail 0 "" = Some parts ->
  SourcePatch.segments_of_parts parts = Some segs ->
  SourcePatch.field_path_segments (container_path n (String "." tail)) =
    [SourcePatch.Segment "spec" None; SourcePatch.Segment "template" None;
     SourcePatch.Segment "spec" None; SourcePatch.Segment "containers" (Some n)] ++ segs.
Proof.
  intros Hn Hp Hs. pose proof (dns_plain _ Hn) as Hpl.
  assert (strip n = n) as Hstrip.
  { apply strip_no_space. revert Hpl. apply all_chars_impl. intros c. unfold plain_char.
    intros [_ Hc]%andb_true_iff. done. }
  unfold SourcePatch.field_path_segments, SourcePatch.field_path_parts, container_path.
  pose (next k o := match o with Some p => Some (k :: p) | None => @None (list string) end).
  change (SourcePatch.field_path_parts_go
            ("spec.template.spec.containers[name=" +:+ n +:+ "]" +:+ String "." tail) 0 "")
    with (next "spec" (next "template" (next "spec"
            (SourcePatch.field_path_parts_go (n +:+ "]" +:+ String "." tail) 1 "containers[name=")))).
  rewrite parts_go_plain by done.
  change (SourcePatch.field_path_parts_go ("]" +:+ String "." tail) 1 ("containers[name=" +:+ n))
    with (next (("containers[name=" +:+ n) +:+ "]") (SourcePatch.field_path_parts_go tail 0 "")).
  rewrite Hp. cbn [next default from_option id SourcePatch.segments_of_parts].
  change (SourcePatch.FIELD_PATH_SEGMENT_PATTERN "spec") with (Some ("spec", None : option string)).
  change (SourcePatch.FIELD_PATH_SEGMENT_PATTERN "template") with (Some ("template", None : option string)).
  assert (SourcePatch.FIELD_PATH_SEGMENT_PATTERN (("containers[name=" +:+ n) +:+ "]")
          = Some ("containers", Some n)) as ->.
  { rewrite str_app_assoc. unfold SourcePatch.FIELD_PATH_SEGMENT_PATTERN.
    change (SourcePatch.span_key ("containers[name=" +:+ n +:+ "]")) with ("containers", "[name=" +:+ n +:+ "]").
    cbn [is_empty]. change (starts_with "[name=" ("[name=" +:+ n +:+ "]")) with (starts_with "" (n +:+ "]")).
    change (str_drop 6 ("[name=" +:+ n +:+ "]")) with (str_drop 0 (n +:+ "]")).
    assert (forall t, starts_with "" t = true) as -> by (by intros []).
    assert (forall t, str_drop 0 t = t) as -> by (by intros []).
    rewrite selector_name_plain by done. unfold dns_label, nonempty in Hn.
    apply andb_true_iff in Hn as [->%negb_true_iff _]. done. }
  rewrite Hstrip. unfold dns_label, nonempty in Hn. apply andb_true_iff in Hn as [->%negb_true_iff _].
  by rewrite Hs.
Qed.

Definition keys (ks : list string) : list SourcePatch.FieldPathSegment :=
  (fun k => SourcePatch.Segment k None) <$> ks.

Lemma nested_value_cons v k ks :
  nested_value v (k :: ks) = match v with VDict d => nested_value (get d k) ks | _ => VNone end.
Proof. unfold nested_value. cbn. by destruct v. Qed.

Lemma nested_read v ks w :
  nested_value v ks = w -> w <> VNone -> SourcePatch.object_value_at v (keys ks) = Ok w.
Proof.
  revert v. induction ks as [|k ks IH]; intros v Hv Hw; [by rewrite <- Hv|].
  rewrite nested_value_cons in Hv. destruct v as [| | | | | | |d]; try congruence. cbn.
  destruct (dict_get d k) as [x|] eqn:E.
  - cbn. apply IH; [|done]. revert Hv. unfold get. by rewrite E.
  - exfalso. apply Hw. rewrite <- Hv. unfold get. rewrite E. cbn. unfold nested_value. by destruct ks.
Qed.

Lemma read_app root s t v :
  SourcePatch.object_value_at root s = Ok v ->
  SourcePatch.object_value_at root (s ++ t) = SourcePatch.object_value_at v t.
Proof.
  revert root. induction s as [|g s IH]; intros root; cbn; [by intros [= ->]|].
  destruct root as [| | | | | | |d]; try done.
  intros (x & Hx & (y & Hy & Hr)%bind_Ok)%bind_Ok. rewrite Hx. cbn. rewrite Hy. cbn. by apply IH.
Qed.

Lemma keep_named n l :
  keep (SourcePatch.named n) l =
  VDict <$> keep (fun item => py_eqb (get item "name") (VStr n)) (omap as_dict l).
Proof.
  induction l as [|v l IH]; [done|]. destruct v as [| | | | | | |d]; cbn; try exact IH.
  rewrite IH. by destruct (py_eqb (get d "name") (VStr n)).
Qed.

(** The container found is the one its own name selects. *)
Lemma target_container_read manifest rn c n :
  target_container manifest rn = Some c -> get c "name" = VStr n ->
  SourcePatch.object_value_at (VDict manifest)
    [SourcePatch.Segment "spec" None; SourcePatch.Segment "template" None;
     SourcePatch.Segment "spec" None; SourcePatch.Segment "containers" (Some n)] = Ok (VDict c).
Proof.
  unfold target_container. intros Ht Hn.
  destruct (nested_value _ _) as [| | | | | |l|] eqn:El; try done.
  assert (keep (SourcePatch.named n) l = [VDict c]) as Hk.
  { rewrite keep_named. destruct (omap as_dict l) as [|x [|y xs]] eqn:Eo.
    - cbn in Ht. done.
    - injection Ht as ->. cbn. by rewrite Hn, (proj2 (py_eqb_VStr _ n)).
    - apply the_one_Some in Ht as Hone. rewrite <- Eo in *.
      assert (c ∈ keep (fun item => py_eqb (get item "name") (VStr (or_else (deployment_from_pod_name rn)
        (or_else (deployment_from_replicaset_name rn) rn)))) (omap as_dict l)) as [_ Hc]%elem_of_keep
        by (rewrite Hone; set_solver).
      apply py_eqb_VStr in Hc. rewrite Hn in Hc. injection Hc as ->. by rewrite Hone. }
  apply nested_read in El; [|done]. revert El. cbn.
  destruct (dict_get manifest "spec") as [[| | | | | | |d1]|]; try done. cbn.
  destruct (dict_get d1 "template") as [[| | | | | | |d2]|]; try done. cbn.
  destruct (dict_get d2 "spec") as [[| | | | | | |d3]|]; try done. cbn.
  destruct (dict_get d3 "containers") as [v|]; try done. cbn. intros [= ->]. cbn.
  unfold SourcePatch.select_named. by rewrite Hk.
Qed.

Lemma container_field_read manifest rn c n tail parts ks v :
  target_container manifest rn = Some c -> get c "name" = VStr n -> dns_label n = true ->
  SourcePatch.field_path_parts_go tail 0 "" = Some parts ->
  SourcePatch.segments_of_parts parts = Some (keys ks) ->
  nested_value (VDict c) ks = v -> v <> VNone ->
  SourcePatch.value_at_path (VDict manifest) (container_path n (String "." tail)) = Ok v.
Proof.
  intros Hc Hn Hl Hp Hs Hv Hne. unfold SourcePatch.value_at_path.
  rewrite (container_path_segments n tail parts (keys ks)) by done.
  rewrite (read_app _ _ _ (VDict c)) by (by eapply target_container_read). by apply nested_read.
Qed.

(** The selected container, if any, has a Kubernetes name and an image
    reference without surrounding space. *)
Definition clean_container (manifest : dict) (rn : string) : Prop :=
  forall c, target_container manifest rn = Some c ->
    exists n, get c "name" = VStr n /\ dns_label n = true /\
      forall i, get c "image" = VStr i -> strip i = i.

Definition text_nonempty (v : pyval) : Prop := match v with VStr s => s <> "" | _ => False end.

Definition reads (manifest : dict) (item : ScalarFieldReplacement) : Prop :=
  SourcePatch.value_at_path (VDict manifest) (field_path item) = Ok (current_value item).

Lemma dns_first_str n : dns_label n = true -> first_str [VStr n] = n.
Proof.
  intros Hn. assert (strip n = n) as Hs.
  { apply strip_no_space. eapply all_chars_impl; [|exact (dns_plain _ Hn)].
    intros c. unfold plain_char. by intros [_ Hc]%andb_true_iff. }
  cbn [first_str]. rewrite Hs. unfold dns_label in Hn. by apply andb_true_iff in Hn as [-> _].
Qed.

Lemma first_str_nonempty v : first_str [v] <> "" -> exists s, v = VStr s /\ first_str [v] = strip s.
Proof.
  destruct v as [| | | |s| | |]; try done. cbn. destruct (nonempty (strip s)) eqn:E; [|done].
  by exists s.
Qed.

Lemma image_reads authority rn rs item :
  clean_container (desired_manifest authority) rn ->
  rs = image_replacements authority (target_container (desired_manifest authority) rn) ->
  item ∈ rs -> text_nonempty (current_value item) ->
  reads (desired_manifest authority) item.
Proof.
  intros Hclean -> Hin Hne. destruct (target_container _ rn) as [c|] eqn:Ec; [|by apply elem_of_nil in Hin].
  destruct (Hclean c Ec) as (n & Hn & Hdns & Himg). cbn [image_replacements] in Hin.
  rewrite Hn, dns_first_str in Hin by done.
  destruct (keep _ _) as [|change [|? ?]]; try by apply elem_of_nil in Hin.
  apply list_elem_of_singleton in Hin as ->. unfold reads. cbn [field_path current_value replacement text_nonempty] in *.
  destruct (first_str_nonempty _ Hne) as (s & Hs & ->). rewrite (Himg s Hs).
  eapply (container_field_read _ _ _ _ "image" _ ["image"]); try done.
Qed.

Lemma when_exceeds_elem quantity bytes path current rs item :
  when_exceeds quantity bytes path current = Ok rs -> item ∈ rs ->
  item = replacement path current (VStr quantity).
Proof.
  unfold when_exceeds. intros (b & _ & [= <-])%bind_Ok Hin.
  destruct b; [by apply list_elem_of_singleton in Hin|by apply elem_of_nil in Hin].
Qed.

Lemma quantity_not_none v b : SourcePatch.memory_quantity_bytes v = Ok (Some b) -> v <> VNone.
Proof. by destruct v. Qed.

Lemma oom_reads authority rn rs item :
  clean_container (desired_manifest authority) rn ->
  oom_memory_replacements authority (target_container (desired_manifest authority) rn) = Ok rs ->
  item ∈ rs -> reads (desired_manifest authority) item.
Proof.
  intros Hclean Hr Hin. destruct (target_container _ rn) as [c|] eqn:Ec;
    [|injection Hr as <-; by apply elem_of_nil in Hin].
  destruct (Hclean c Ec) as (n & Hn & Hdns & _). cbn [oom_memory_replacements] in Hr.
  rewrite Hn, dns_first_str in Hr by done.
  apply bind_Ok in Hr as ([rb|] & Hrb & (lb' & Hlb & (u' & _ & Hr)%bind_Ok)%bind_Ok);
    [|injection Hr as <-; by apply elem_of_nil in Hin].
  destruct lb' as [lb|], u' as [u|]; try (injection Hr as <-; by apply elem_of_nil in Hin).
  destruct (is_empty n || _); [injection Hr as <-; by apply elem_of_nil in Hin|].
  apply bind_Ok in Hr as (? & _ & (? & _ & (? & _ & (? & _ & (? & _ & (? & _ & Hr)%bind_Ok)%bind_Ok)%bind_Ok)%bind_Ok)%bind_Ok).
  destruct (4096 <? _); [injection Hr as <-; by apply elem_of_nil in Hin|].
  apply bind_Ok in Hr as (r1 & H1' & (r2 & H2' & [= <-])%bind_Ok).
  apply elem_of_app in Hin as [Hin|Hin]; eapply when_exceeds_elem in Hin as ->; try done;
    unfold reads; cbn [field_path current_value replacement].
  - eapply (container_field_read _ _ _ _ "resources.requests.memory" _ ["resources"; "requests"; "memory"]);
      try done. by eapply quantity_not_none.
  - eapply (container_field_read _ _ _ _ "resources.limits.memory" _ ["resources"; "limits"; "memory"]);
      try done. by eapply quantity_not_none.
Qed.

Lemma restores_not_none path current change : restores path current change = true -> current <> VNone.
Proof.
  unfold restores. intros [[_ Ht]%andb_true_iff Hne]%andb_true_iff ->.
  by destruct (get change "old_desired").
Qed.

(** The probe fields lie where their paths say. *)
Lemma probe_field_read manifest rn c n probe_name probe field :
  target_container manifest rn = Some c -> get c "name" = VStr n -> dns_label n = true ->
  probe_name ∈ PROBE_NAMES -> get c probe_name = VDict probe ->
  field ∈ probe_fields probe_name probe -> field.2 <> VNone ->
  SourcePatch.value_at_path (VDict manifest) (container_path n ("." +:+ field.1)) = Ok field.2.
Proof.
  intros Hc Hn Hdns Hname Hp Hf Hne.
  assert (forall ks, nested_value (VDict c) (probe_name :: ks) = nested_value (VDict probe) ks) as Hnest.
  { intros ks. rewrite nested_value_cons. by rewrite Hp. }
  assert (get probe "timeoutSeconds" = nested_value (VDict probe) ["timeoutSeconds"]) as Ht by done.
  unfold PROBE_NAMES in Hname. rewrite !elem_of_cons in Hname.
  unfold probe_fields in Hf. rewrite !elem_of_cons in Hf.
  destruct Hf as [->|[->|[->|?%elem_of_nil]]]; [| | |done]; cbn [fst snd] in *; rewrite ?Ht in *;
    rewrite <- Hnest in *;
    (destruct Hname as [->|[->|?%elem_of_nil]]; [| |done]);
    (eapply container_field_read; [exact Hc|exact Hn|exact Hdns|reflexivity| |reflexivity|exact Hne]);
    reflexivity.
Qed.

Lemma probe_reads authority rn rs item :
  clean_container (desired_manifest authority) rn ->
  rs = probe_replacements (target_container (desired_manifest authority) rn) authority ->
  item ∈ rs -> reads (desired_manifest authority) item.
Proof.
  intros Hclean -> Hin. destruct (target_container _ rn) as [c|] eqn:Ec; [|by apply elem_of_nil in Hin].
  destruct (Hclean c Ec) as (n & Hn & Hdns & _). cbn [probe_replacements] in Hin.
  rewrite Hn, dns_first_str in Hin by done. set (probes := flat_map (probe_of c) PROBE_NAMES) in *.
  assert (forall name probe, (name, probe) ∈ probes -> name ∈ PROBE_NAMES /\ get c name = VDict probe)
    as Hprobes.
  { intros name probe Hp. unfold probes in Hp. apply list_elem_of_In, in_flat_map in Hp as (x & Hx & Hp).
    unfold probe_of in Hp. destruct (get c x) as [| | | | | | |d] eqn:Ex; try done.
    destruct Hp as [[= -> ->]|[]]. split; [by apply list_elem_of_In|done]. }
  assert (item ∈ omap (approved_probe_change authority n)
            (flat_map (fun entry => probe_fields entry.1 entry.2) probes)
          \/ item ∈ omap (longer_timeout n) probes) as [Hi|Hi].
  { destruct (omap (approved_probe_change _ _) _) as [|a [|? ?]]; [right|left; done|right];
      destruct (omap (longer_timeout n) probes); cbn in Hin; set_solver. }
  - apply list_elem_of_omap in Hi as (field & Hf & Ha).
    apply list_elem_of_In, in_flat_map in Hf as ([name probe] & Hp%list_elem_of_In%Hprobes & Hf%list_elem_of_In).
    destruct Hp as [Hname Hget]. unfold approved_probe_change in Ha.
    destruct (keep _ _) as [|change [|? ?]] eqn:Ek; try done. injection Ha as <-.
    assert (change ∈ keep (restores (container_path n ("." +:+ field.1)) field.2) (changes authority))
      as [_ Hr]%elem_of_keep by (rewrite Ek; set_solver).
    eapply probe_field_read; try done. by eapply restores_not_none.
  - apply list_elem_of_omap in Hi as ([name probe] & [Hname Hget]%Hprobes & Ha).
    unfold longer_timeout in Ha. cbn [fst snd] in Ha.
    destruct (get probe "timeoutSeconds") as [| |t| | | | |] eqn:Et; try done.
    destruct (_ && _); [|done]. injection Ha as <-.
    apply (probe_field_read _ rn c n name probe (name +:+ ".timeoutSeconds", VInt t)); try done.
    unfold probe_fields. rewrite Et. set_solver.
Qed.

Lemma label_key_segments key :
  is_label_key key = true ->
  SourcePatch.field_path_segments ("spec.selector.matchLabels." +:+ key) =
    keys ["spec"; "selector"; "matchLabels"; key].
Proof.
  unfold is_label_key. intros [Hne Hk]%andb_true_iff.
  assert (all_chars plain_char key = true) as Hp.
  { revert Hk. apply all_chars_impl. intros c. destruct c as [[] [] [] [] [] [] [] []]; vm_compute; congruence. }
  unfold SourcePatch.field_path_segments, SourcePatch.field_path_parts.
  pose (next k o := match o with Some p => Some (k :: p) | None => @None (list string) end).
  change (SourcePatch.field_path_parts_go ("spec.selector.matchLabels." +:+ key) 0 "")
    with (next "spec" (next "selector" (next "matchLabels" (SourcePatch.field_path_parts_go key 0 "")))).
  rewrite <- (str_app_nil_r key) at 1. rewrite parts_go_plain by done. cbn.
  assert (SourcePatch.FIELD_PATH_SEGMENT_PATTERN key = Some (key, None)) as ->; [|done].
  unfold SourcePatch.FIELD_PATH_SEGMENT_PATTERN.
  assert (SourcePatch.span_key key = (key, "")) as ->; [|by destruct key].
  clear Hne Hp. induction key as [|c key IH]; [done|]. cbn in *.
  apply andb_true_iff in Hk as [-> Hk]. by rewrite IH.
Qed.

Lemma nested_unique v ks w :
  unique_keys v = true -> nested_value v ks = w -> unique_keys w = true.
Proof.
  revert v. induction ks as [|k ks IH]; intros v Hv; [by intros <-|]. rewrite nested_value_cons.
  destruct v as [| | | | | | |d]; try by intros <-. apply IH. unfold get.
  destruct (dict_get d k) eqn:E; [by eapply unique_keys_get|done].
Qed.

Lemma selector_reads manifest rs item :
  unique_keys (VDict manifest) = true -> rs = selector_replacements manifest -> item ∈ rs ->
  reads manifest item.
Proof.
  unfold selector_replacements. intros Hu -> Hin.
  destruct (nested_value _ ["spec"; "selector"; "matchLabels"]) as [| | | | | | |sel] eqn:Es;
    try by apply elem_of_nil in Hin.
  destruct (nested_value _ ["spec"; "template"; "metadata"; "labels"]) as [| | | | | | |labels];
    try by apply elem_of_nil in Hin.
  apply elem_of_option_list, the_one_Some in Hin.
  assert (item ∈ omap (selector_mismatch labels) sel) as ([k v] & Hkv & Hm)%list_elem_of_omap
    by (rewrite Hin; set_solver).
  unfold selector_mismatch in Hm. cbn [fst snd] in Hm. destruct v as [| | | |cur| | |]; try done.
  destruct (get labels k) as [| | | |des| | |]; try done.
  destruct (is_label_key k) eqn:Ek; [|done]. cbn [andb] in Hm. destruct (negb _); [|done].
  injection Hm as <-.
  change (SourcePatch.object_value_at (VDict manifest)
            (SourcePatch.field_path_segments ("spec.selector.matchLabels." +:+ k)) = Ok (VStr cur)).
  rewrite label_key_segments by done.
  apply (nested_read _ ["spec"; "selector"; "matchLabels"; k]); [|done].
  assert (nested_value (VDict manifest) ["spec"; "selector"; "matchLabels"; k] = get sel k) as ->.
  { rewrite !nested_value_cons in *. destruct (get manifest "spec") as [| | | | | | |d1]; try done.
    rewrite !nested_value_cons in *. destruct (get d1 "selector") as [| | | | | | |d2]; try done.
    rewrite !nested_value_cons in *. unfold nested_value in Es. cbn in Es. by rewrite Es. }
  unfold get. eapply nested_unique in Hu; [|exact Es]. apply unique_keys_dict in Hu as [Hnd _].
  by rewrite (dict_get_NoDup _ _ _ Hnd Hkv).
Qed.

Lemma replica_reads candidate authority rs item :
  replica_replacements candidate authority = Ok rs -> item ∈ rs ->
  reads (desired_manifest authority) item.
Proof.
  unfold replica_replacements. intros Hr Hin.
  destruct (nested_value _ _) as [| |r| | | | |] eqn:En; try (injection Hr as <-; by apply elem_of_nil in Hin).
  destruct (negb _); [injection Hr as <-; by apply elem_of_nil in Hin|].
  apply bind_Ok in Hr as (p & _ & Hr).
  destruct (_ && negb _); [injection Hr as <-; by apply elem_of_nil in Hin|].
  destruct (_ || negb _); injection Hr as <-; [by apply elem_of_nil in Hin|].
  apply list_elem_of_singleton in Hin as ->. by apply (nested_read _ ["spec"; "replicas"]).
Qed.

Lemma item_reads candidate authority rs item rollback :
  scalar_replacements_for (action_type (draft candidate)) candidate authority = Ok rs ->
  clean_container (desired_manifest authority) (d_resource_name (draft candidate)) ->
  unique_keys (VDict (desired_manifest authority)) = true -> item ∈ rs ->
  SourcePatch.approved (action_type (draft candidate)) rollback item ->
  reads (desired_manifest authority) item.
Proof.
  unfold scalar_replacements_for. intros Hr Hclean Hu Hin Hap.
  case_bool_decide as Himg.
  { injection Hr as Hr. eapply image_reads; try done. pose proof (SourcePatch.ap_allowed _ _ _ Hap) as Ha.
    unfold SourcePatch.action_allows_replacement in Ha. rewrite bool_decide_true in Ha by done.
    injection Ha as [_ [Hc _]%andb_true_iff]%andb_true_iff. unfold SourcePatch.text_scalar in Hc.
    destruct (current_value item); try done. by intros ->. }
  destruct (str_eqb _ "replica_scale"); [by eapply replica_reads|].
  destruct (str_eqb _ "oom_memory"); [by eapply oom_reads|].
  destruct (str_eqb _ "probe_fix"); [injection Hr as Hr; by eapply probe_reads|].
  destruct (str_eqb _ "selector_fix"); [injection Hr as Hr; by eapply selector_reads|].
  injection Hr as <-. by apply elem_of_nil in Hin.
Qed.

(** A rollback that inverts each item compares the item with itself. *)
Lemma inverse_self_scalar action authority rs item :
  SourcePatch.approved_plan (patch_plan action authority rs) -> item ∈ rs ->
  SourcePatch.same_scalar (current_value item) (current_value item) = true.
Proof.
  intros Hp Hin. pose proof (SourcePatch.pl_targets _ Hp) as Hnd. cbn in Hnd.
  pose proof (SourcePatch.pl_items _ Hp) as Hall. rewrite Forall_forall in Hall.
  destruct (Hall item Hin) as [_ _ _ _ _ (r & Hr & Hpath & _ & Hs)].
  cbn in Hr. apply list_elem_of_fmap in Hr as (item' & -> & Hin'). cbn in Hpath, Hs.
  assert (item' = item) as ->; [|done]. by eapply NoDup_fmap_fst_eq.
Qed.

(** a proposed patch fits the manifest it was computed from: every
    current value it claims is the value the desired manifest holds at the
    claimed path, for all six actions, so that the same check on the
    repository's side succeeds for an unchanged source. *)
Theorem proposal_fits_manifest candidate authority rs :
  let plan := patch_plan (action_type (draft candidate)) authority rs in
  scalar_replacements_for (action_type (draft candidate)) candidate authority = Ok rs ->
  SourcePatch.validate_scalar_patch_plan plan = Ok tt ->
  clean_container (desired_manifest authority) (d_resource_name (draft candidate)) ->
  unique_keys (VDict (desired_manifest authority)) = true ->
  SourcePatch.scalar_patch_matches_manifest plan (VDict (desired_manifest authority)) = Ok true.
Proof.
  cbn zeta. intros Hr Hv Hclean Hu. unfold SourcePatch.scalar_patch_matches_manifest. rewrite Hv.
  cbn [mbind res_bind SourcePatch.replacements patch_plan].
  pose proof (proj1 (SourcePatch.validate_scalar_patch_plan_spec _) Hv) as Hp.
  assert (forall items, (forall x, x ∈ items -> x ∈ rs) ->
    SourcePatch.all_current (VDict (desired_manifest authority)) items = Ok true) as Hall.
  { induction items as [|item items IH]; intros Hsub; [done|]. cbn [SourcePatch.all_current].
    assert (item ∈ rs) as Hin by set_solver. pose proof (SourcePatch.pl_items _ Hp) as Ha.
    rewrite Forall_forall in Ha. pose proof (Ha item Hin) as Hi.
    rewrite (item_reads _ _ _ _ _ Hr Hclean Hu Hin Hi). cbn [mbind res_bind].
    rewrite (inverse_self_scalar _ _ _ _ Hp Hin). apply IH. set_solver. }
  by rewrite Hall.
Qed.

Lemma no_replica_history authority r :
  Forall (fun change => ends_with "spec.replicas" (path_of change) = false) (changes authority) ->
  previous_replicas_from_changes authority r = Ok None.
Proof.
  intros Hall. unfold previous_replicas_from_changes.
  assert (omapr (fun change => b ← replica_drop r change; Ok (if (b : bool) then Some change else None))
            (changes authority) = Ok []) as ->; [|done].
  induction Hall as [|change l Hc _ IH]; [done|]. cbn [omapr].
  assert (replica_drop r change = Ok false) as -> by (unfold replica_drop; by rewrite Hc).
  cbn [mbind res_bind]. by rewrite IH.
Qed.

Lemma scale_out_approved r :
  1 <= r <= 8 ->
  let item := replacement "spec.replicas" (VInt r) (VInt (r + 1)) in
  SourcePatch.approved "replica_scale" [inverse item] item.
Proof.
  intros Hr item.
  assert (forall z w, SourcePatch.same_scalar (VInt z) (VInt w) = (z =? w)) as Hsame by done.
  constructor.
  - vm_compute. done.
  - reflexivity.
  - reflexivity.
  - unfold item. cbn [current_value desired_value replacement]. rewrite Hsame. apply Z.eqb_neq. lia.
  - change (SourcePatch.action_allows_replacement "replica_scale" item)
      with (Ok (SourcePatch.int_between 1 (VInt r) (VInt (r + 1)) 10)).
    unfold SourcePatch.int_between.
    rewrite (proj2 (Z.leb_le 1 r)), (proj2 (Z.ltb_lt r (r + 1))), (proj2 (Z.leb_le (r + 1) 10)) by lia. done.
  - exists (inverse item). split; [set_solver|]. unfold SourcePatch.inverse_of, item, inverse.
    cbn [field_path current_value desired_value replacement]. by rewrite !Hsame, !Z.eqb_refl.
Qed.

(** a saturated workload always gets its proposal: for a source with a
    well-formed digest, commit and path, between one and eight replicas, no
    recorded replica change and scaling out allowed, the patch that adds one
    replica is produced. *)
Theorem scale_out_is_proposed candidate authority r :
  action_type (draft candidate) = "replica_scale" ->
  source_type authority = SourcePatch.RAW_YAML ->
  SourcePatch.is_sha256_digest (source_manifest_sha256 authority) = true ->
  SourcePatch.is_git_sha (commit_sha authority) = true ->
  SourcePatch.safe_manifest_path (manifest_path authority) = true ->
  nested_value (VDict (desired_manifest authority)) ["spec"; "replicas"] = VInt r -> 1 <= r <= 8 ->
  Forall (fun change => ends_with "spec.replicas" (path_of change) = false) (changes authority) ->
  get (params (draft candidate)) "allow_bounded_scale_out" = VBool true ->
  exists p, authority_safe_pr_patches candidate authority = Ok [p] /\
    SourcePatch.scalar_patch_content (patch_plan "replica_scale" authority
      [replacement "spec.replicas" (VInt r) (VInt (r + 1))]) = Ok (content p).
Proof.
  intros Ha Hty Hd Hg Hs Hn Hr Hall Hallow. unfold authority_safe_pr_patches. rewrite Ha.
  change (scalar_replacements_for "replica_scale" candidate authority)
    with (replica_replacements candidate authority).
  unfold replica_replacements. rewrite Hn, no_replica_history, Hallow by done.
  rewrite (proj2 (Z.leb_le 1 r)), (proj2 (Z.ltb_lt r 10)) by lia.
  cbn [negb andb mbind res_bind is_true default from_option id]. rewrite !andb_false_r.
  rewrite (proj2 (Z.eqb_neq (r + 1) r)), (proj2 (Z.leb_le 1 (r + 1))), (proj2 (Z.ltb_lt (r + 1) 10)) by lia.
  cbn [negb andb orb mbind res_bind]. rewrite bool_decide_false by done.
  unfold SourcePatch.scalar_patch_content.
  rewrite (proj2 (SourcePatch.validate_scalar_patch_plan_spec _)); [eexists; by split|].
  constructor; cbn; try done.
  - set_solver.
  - lia.
  - apply NoDup_singleton.
  - apply NoDup_singleton.
  - apply Forall_singleton. by apply scale_out_approved.
Qed.

End replacements.
(** ** A workload with one container *)

Module Sample.

Definition manifest (replicas : Z) (image : string) : dict :=
  [("kind", VStr "Deployment"); ("metadata", VDict [("namespace", VStr "shop")]);
   ("spec", VDict
      [("replicas", VInt replicas);
       ("template", VDict [("spec", VDict [("containers", VList [VDict
          [("name", VStr "web"); ("image", VStr image)]])])])])].

Definition authority (changes : list dict) : GitOpsAuthorityContext :=
  {| workspace_id := "w-1"; repository_id := "r-1"; binding_id := "b-1"; application_id := "a-1";
     workflow_run_id := "run-1"; environment := "prod"; cluster_id := "k-1";
     manifest_path := "apps/web.yaml"; repo_ref := "acme/shop"; base_branch := "main";
     commit_sha := RecoveryAuthority.Sample.commit; source_type := SourcePatch.RAW_YAML;
     source_manifest_sha256 := RecoveryAuthority.Sample.digest; resource := "Deployment/web";
     desired_manifest := manifest 1 "shop:2"; changes := changes; evidence := [] |}.

Definition rolled_image : dict :=
  [("field_path", VStr "spec.template.spec.containers[name=web].image");
   ("old_desired", VStr "shop:1"); ("new_desired", VStr "shop:2")].

Definition candidate (action : string) : RecoveryActionCandidate :=
  {| action_id := "e-1:" +:+ action; title := "recover"; description := "";
     draft := {| action_type := action; d_namespace := "shop"; d_resource_kind := "Deployment";
                 d_resource_name := "web"; params := [("allow_bounded_scale_out", VBool true)] |};
     route := "draft_pr"; risk_level := "low"; blast_radius := ""; validation_checks := [];
     rollback_plan := "" |}.

Definition rollback : list ScalarFieldReplacement :=
  [replacement "spec.template.spec.containers[name=web].image" (VStr "shop:2") (VStr "shop:1")].

End Sample.

Lemma proposed_patch_is_approved_witness :
  exists p, SourcePatch.approved_plan (patch_plan "image_rollback"
      (Sample.authority [Sample.rolled_image]) Sample.rollback) /\
    @SourcePatch.parse_scalar_patch_plan Demo.coded_yaml (content p)
      = Ok (Some (patch_plan "image_rollback" (Sample.authority [Sample.rolled_image]) Sample.rollback)).
Proof.
  destruct (@authority_safe_pr_patches Demo.plain_repr Demo.coded_yaml Demo.plain_hash
    (Sample.candidate "image_rollback") (Sample.authority [Sample.rolled_image])) as [ps|e] eqn:E;
    [|vm_compute in E; discriminate E].
  assert (ps <> []) as Hne by (intros ->; vm_compute in E; discriminate E).
  destruct (@proposed_patch_is_approved Demo.plain_repr Demo.coded_yaml Demo.plain_hash
    Demo.coded_yaml_round_trip _ _ _ E Hne) as (rs & p & _ & Hr & Hp & Ha).
  assert (rs = Sample.rollback) as -> by (vm_compute in Hr; by injection Hr as <-).
  exists p. by split.
Defined.

Lemma replica_proposal_bounds_witness :
  let rs := [replacement "spec.replicas" (VInt 1) (VInt 2)] in
  rs = [] \/ exists r d, rs = [replacement "spec.replicas" (VInt r) (VInt d)] /\
    nested_value (VDict (Sample.manifest 1 "shop:2")) ["spec"; "replicas"] = VInt r /\
    1 <= r < d /\ d < 10 /\
    (d = r + 1 \/ exists change, change ∈ changes (Sample.authority []) /\
       ends_with "spec.replicas" (@path_of Demo.plain_repr change) = true /\
       as_int (get_or change "new_desired" "after") = Ok (Some r) /\
       as_int (get change "old_desired") = Ok (Some d)).
Proof.
  apply (@replica_proposal_bounds Demo.plain_repr (Sample.candidate "replica_scale") (Sample.authority [])).
  vm_compute. reflexivity.
Defined.

Lemma proposal_fits_manifest_witness :
  SourcePatch.scalar_patch_matches_manifest
    (patch_plan "image_rollback" (Sample.authority [Sample.rolled_image]) Sample.rollback)
    (VDict (Sample.manifest 1 "shop:2")) = Ok true.
Proof.
  apply (@proposal_fits_manifest Demo.plain_repr (Sample.candidate "image_rollback")
    (Sample.authority [Sample.rolled_image])).
  - vm_compute. reflexivity.
  - vm_compute. reflexivity.
  - intros c Hc. exists "web". vm_compute in Hc. injection Hc as <-. split; [reflexivity|].
    split; [reflexivity|]. intros i. cbn. intros [= <-]. reflexivity.
  - vm_compute. reflexivity.
Defined.

Lemma scale_out_is_proposed_witness :
  exists p, @authority_safe_pr_patches Demo.plain_repr Demo.coded_yaml Demo.plain_hash
      (Sample.candidate "replica_scale") (Sample.authority []) = Ok [p] /\
    @SourcePatch.scalar_patch_content Demo.coded_yaml (patch_plan "replica_scale" (Sample.authority [])
      [replacement "spec.replicas" (VInt 1) (VInt 2)]) = Ok (content p).
Proof.
  apply (@scale_out_is_proposed Demo.plain_repr Demo.coded_yaml Demo.plain_hash
    (Sample.candidate "replica_scale") (Sample.authority []) 1); try reflexivity.
  - split; vm_compute; congruence.
  - constructor.
Defined.

End RecoveryReplacements.
