(* ===== verification/RecoveryDispatch.v ===== *)
(** * Dispatching the selected recovery

    The first half of [src/src/services/ai/agent/recovery/dispatch.py]: the
    dispatcher of [services/ai/recovery-worker] turns a selected action into a
    pull request or into a request for a person, and the preflight of the HTTP
    selection runs the same contract before the selection is stored.

    The title and the body of the pull request are prose for the reader and
    are left out of [SafePrRequestedBody]; Korean texts are the bytes of their
    UTF-8 encoding and only ever concatenated. *)
From S2P Require Import Prelude PyStr PyFloat PyVal PyTime Libs Demo SourcePatch WorkloadTarget RecoveryChecks RecoveryVerification RecoveryAuthority RecoveryReplacements.

Module RecoveryDispatch.
Import RecoveryAuthority RecoveryReplacements.

Definition UNKNOWN_ROUTE_REASON : string := "선택된 복구 후보의 route를 처리할 수 없습니다.".
Definition MISSING_SAFE_PR_PATCH_REASON : string := "Safe PR에 적용할 구체적인 파일 패치가 없습니다.".
Definition SAFE_PR_FALLBACK_PATCH_DIR : string := ".gitops/recovery".
Definition GITOPS_REVIEW_ACTION : string := "gitops_recovery_review".
Definition RESOURCE_REQUEST_TUNING_ACTION : string := "resource_request_tuning".
Definition CONFIG_FIX_ACTION : string := "config_fix".
Definition SCHEDULING_CONSTRAINT_FIX_ACTION : string := "scheduling_constraint_fix".
Definition REVIEW_DOC_ACTIONS : list string :=
  [GITOPS_REVIEW_ACTION; RESOURCE_REQUEST_TUNING_ACTION; CONFIG_FIX_ACTION;
   SCHEDULING_CONSTRAINT_FIX_ACTION].
Definition RESOURCE_REQUEST_MIN_CPU : string := "100m".
Definition RESOURCE_REQUEST_MIN_MEMORY : string := "256Mi".
Definition AUTHORITY_PATCH_ACTIONS : list string :=
  ["oom_memory"; "image_rollback"; "image_tag_fix"; "replica_scale"; "probe_fix"; "selector_fix"].
Definition PROTECTED_WORKLOAD_CONTINUITY_CONTRACT : string := "protected_workload_continuity".
Definition SAFE_PR_KIND_PATCH : string := "safe_pr_patch".
Definition SAFE_PR_KIND_REVIEW_DOC : string := "safe_pr_review_doc".
Definition SAFE_PR_DELIVERY_PULL_REQUEST : string := "pull_request".
Definition PROVIDER : string := "github".

(** [ActionRoutes] *)
Definition safe_pr_route : string := "draft_pr".
Definition approval_required_route : string := "approval_required".
Definition forbidden_route : string := "forbidden".

Record approval_context := {
  c_reason_code : string; c_label : string; c_reason : string; c_next_action : string;
}.

Definition APPROVAL_REQUIRED_CONTEXTS : list (string * approval_context) :=
  [("image_pull_secret_fix",
    {| c_reason_code := "security_boundary";
       c_label := "보안 경계 확인";
       c_reason := "registry 인증 정보나 Secret 참조 변경은 자동으로 결정하지 않고 운영자 확인이 필요합니다.";
       c_next_action := "verify_image_pull_secret" |});
   ("registry_recovery",
    {| c_reason_code := "external_dependency";
       c_label := "외부 의존성 확인";
       c_reason := "외부 registry 장애 또는 mirror 전환은 플랫폼 밖 상태와 운영 정책 확인이 필요합니다.";
       c_next_action := "verify_registry_status" |});
   ("container_port_review",
    {| c_reason_code := "configuration_boundary";
       c_label := "포트 설정 확인";
       c_reason := "컨테이너 포트 충돌은 manifest, service, probe 설정을 함께 확인한 뒤 수정해야 합니다.";
       c_next_action := "verify_container_port_config" |});
   ("startup_security_context_review",
    {| c_reason_code := "security_boundary";
       c_label := "보안 컨텍스트 확인";
       c_reason := "권한 오류 복구는 securityContext, volume 권한, 실행 사용자 정책 확인이 필요합니다.";
       c_next_action := "verify_startup_security_context" |});
   ("config_key_review",
    {| c_reason_code := "configuration_boundary";
       c_label := "설정 key 확인";
       c_reason := "누락된 ConfigMap key는 기대 값과 배포 정책을 운영자가 확인해야 합니다.";
       c_next_action := "verify_config_key_reference" |});
   ("secret_reference_fix",
    {| c_reason_code := "security_boundary";
       c_label := "Secret 참조 확인";
       c_reason := "Secret 참조 보정은 민감 정보 경계와 namespace 권한 확인이 필요합니다.";
       c_next_action := "verify_secret_reference" |});
   ("service_reference_review",
    {| c_reason_code := "traffic_routing";
       c_label := "Service 참조 확인";
       c_reason := "Service 이름이나 namespace 보정은 트래픽 라우팅 대상 변경이므로 운영자 확인이 필요합니다.";
       c_next_action := "verify_service_reference" |});
   ("network_policy_review",
    {| c_reason_code := "traffic_routing";
       c_label := "NetworkPolicy 확인";
       c_reason := "NetworkPolicy 변경은 namespace 간 통신 허용 범위를 바꿀 수 있어 운영자 판단이 필요합니다.";
       c_next_action := "verify_network_policy" |});
   ("autoscaling_metrics_recovery",
    {| c_reason_code := "platform_dependency";
       c_label := "Autoscaling metrics 확인";
       c_reason := "metrics-server 또는 custom metrics adapter 상태는 플랫폼 의존성 확인이 필요합니다.";
       c_next_action := "verify_autoscaling_metrics" |});
   ("dependency_connection_review",
    {| c_reason_code := "external_dependency";
       c_label := "외부 의존성 연결 확인";
       c_reason := "DB 연결 복구는 애플리케이션 밖의 endpoint, 네트워크, pool 상태 확인이 필요합니다.";
       c_next_action := "verify_dependency_connectivity" |});
   ("dependency_config_review",
    {| c_reason_code := "external_dependency";
       c_label := "외부 의존성 설정 확인";
       c_reason := "DB 인증/설정 복구는 Secret/ConfigMap 참조와 외부 서비스 설정 확인이 필요합니다.";
       c_next_action := "verify_dependency_config" |});
   ("pvc_binding_fix",
    {| c_reason_code := "data_safety";
       c_label := "데이터 안전성 확인";
       c_reason := "PVC와 StorageClass 변경은 데이터 보존과 바인딩 정책에 영향을 줄 수 있어 운영자 판단이 필요합니다.";
       c_next_action := "verify_storage_binding" |});
   ("manual_analysis",
    {| c_reason_code := "manual_only";
       c_label := "수동 분석 필요";
       c_reason := "자동 복구 후보가 충분하지 않아 운영자 RCA 검토가 필요합니다.";
       c_next_action := "review_rca_findings" |})].

Definition DEFAULT_APPROVAL_REQUIRED_CONTEXT : approval_context :=
    {| c_reason_code := "manual_review_required";
       c_label := "운영자 승인 필요";
       c_reason := "선택된 복구 조치는 자동 실행 조건을 충족하지 않아 운영자 확인이 필요합니다.";
       c_next_action := "review_recovery_action" |}.

(** The fields of [RecoveryPlan] that are read here. *)
Record RecoveryPlan := {
  plan_id : string;
  incident_id : string;
  plan_evidence_ref : string;
  target : dict;
}.

Record RecoveryActionSelectedBody := {
  plan : RecoveryPlan;
  selected : RecoveryActionCandidate;
  evt_workspace_id : string;
}.

Record RcaActionRequiredBody := {
  ar_reason : string;
  ar_evidence_ref : string;
  ar_workspace_id : string;
  ar_reason_code : string;
  ar_missing_evidence : list string;
  ar_next_actions : list dict;
  ar_diagnostics : dict;
}.

Record SafePrRequestedBody := {
  provider : string;
  patches : list SafePrFilePatch;
  delivery : string;
  pr_kind : string;
  r_workspace_id : string;
  r_repository_id : string;
  r_binding_id : string;
  r_application_id : string;
  r_workflow_run_id : string;
  r_environment : string;
  r_manifest_path : string;
  r_repo_ref : string;
  r_base_branch : string;
  r_commit_sha : string;
  r_cluster_id : string;
  target_namespace : string;
  target_resource : string;
  target_authority : string;
  approval_ref : option string;
  policy_decision_ref : option string;
  evidence_ref : string;
}.

(** What the dispatcher returns. *)
Inductive outcome :=
  | Requested (r : SafePrRequestedBody)
  | ActionRequired (b : RcaActionRequiredBody).

(** ** Requests for a person *)

Definition action_required (reason : string) (evt : RecoveryActionSelectedBody) : RcaActionRequiredBody :=
  {| ar_reason := reason; ar_evidence_ref := plan_evidence_ref (plan evt);
     ar_workspace_id := evt_workspace_id evt; ar_reason_code := "action_required";
     ar_missing_evidence := []; ar_next_actions := []; ar_diagnostics := [] |}.

Definition next_action (action reason : string) (tgt : pyval) : dict :=
  [("action_type", VStr action); ("reason", VStr reason); ("target", tgt)].

Definition authority_required_body (evt : RecoveryActionSelectedBody) (reason_code reason : string)
    (missing : list string) : RcaActionRequiredBody :=
  {| ar_reason := reason; ar_evidence_ref := plan_evidence_ref (plan evt);
     ar_workspace_id := evt_workspace_id evt; ar_reason_code := reason_code;
     ar_missing_evidence := missing;
     ar_next_actions := [next_action "collect_gitops_authority" reason (VDict (target (plan evt)))];
     ar_diagnostics :=
       [("plan_id", VStr (plan_id (plan evt))); ("action_id", VStr (action_id (selected evt)));
        ("action_type", VStr (action_type (draft (selected evt))))] |}.

Definition approval_required_body (evt : RecoveryActionSelectedBody) : RcaActionRequiredBody :=
  let sel := selected evt in
  let context := default DEFAULT_APPROVAL_REQUIRED_CONTEXT
    (dict_get APPROVAL_REQUIRED_CONTEXTS (action_type (draft sel))) in
  {| ar_reason := "승인 필요(" +:+ c_label context +:+ "): " +:+ title sel +:+ ". " +:+ c_reason context;
     ar_evidence_ref := plan_evidence_ref (plan evt);
     ar_workspace_id := evt_workspace_id evt;
     ar_reason_code := c_reason_code context;
     ar_missing_evidence := [];
     ar_next_actions :=
       [next_action (c_next_action context) (c_reason context) (VDict (target (plan evt)))];
     ar_diagnostics :=
       [("plan_id", VStr (plan_id (plan evt))); ("incident_id", VStr (incident_id (plan evt)));
        ("action_id", VStr (action_id sel)); ("action_type", VStr (action_type (draft sel)));
        ("route", VStr (route sel)); ("risk_level", VStr (risk_level sel));
        ("blast_radius", VStr (blast_radius sel));
        ("approval_reason", VStr (c_reason_code context));
        ("approval_label", VStr (c_label context))] |}.

(** ** Review documents *)

Definition segment_char (c : ascii) : bool := is_word c || char_in c "._-".

(** [re.sub(r"[^a-zA-Z0-9._-]+", "-", s)] *)
Fixpoint dash_runs (in_run : bool) (s : string) : string :=
  match s with
  | EmptyString => ""
  | String c s =>
      if segment_char c then String c (dash_runs false s)
      else if in_run then dash_runs true s else String "-" (dash_runs true s)
  end.

(** [s.strip("-._")] *)
Fixpoint lstrip_dashes (s : string) : string :=
  match s with
  | EmptyString => ""
  | String c t => if char_in c "-._" then lstrip_dashes t else s
  end.
Fixpoint rstrip_dashes (s : string) : string :=
  match s with
  | EmptyString => ""
  | String c t =>
      match rstrip_dashes t with
      | EmptyString => if char_in c "-._" then "" else String c ""
      | t => String c t
      end
  end.

Definition safe_path_segment (value : string) : string :=
  let cleaned := rstrip_dashes (lstrip_dashes (dash_runs false (strip value))) in
  or_else cleaned "recovery".

Definition nl : string := String newline "".

(** [value in (None, "")], otherwise [str(value)] *)
Definition as_optional_str `{ReprLib} (value : pyval) : option string :=
  match value with
  | VNone => None
  | VStr s => if is_empty s then None else Some s
  | v => Some (py_str v)
  end.

Definition safe_pr_kind (sel : RecoveryActionCandidate) : string :=
  if bool_decide (action_type (draft sel) ∈ REVIEW_DOC_ACTIONS)
  then SAFE_PR_KIND_REVIEW_DOC else SAFE_PR_KIND_PATCH.

Section dispatch.
Context `{ReprLib} `{Sha256}.

Definition fallback_recovery_patch (sel : RecoveryActionCandidate) : SafePrFilePatch :=
  let d := draft sel in
  let token := str_take 16 (sha256_hexdigest (utf8_encode (action_id sel))) in
  let action := safe_path_segment (or_else (action_type d) "recovery") in
  let tgt := d_namespace d +:+ "/" +:+ d_resource_kind d +:+ "/" +:+ d_resource_name d in
  let checks := or_else (join nl ((fun check => "- " +:+ check) <$> validation_checks sel)) "- 상태 확인" in
  let base :=
    "# " +:+ title sel +:+ nl +:+ nl +:+ "## 대상" +:+ nl +:+ nl +:+
    "- 리소스: `" +:+ tgt +:+ "`" +:+ nl +:+
    "- 원인: `" +:+ py_str (default (VStr "") (dict_get (params d) "root_cause")) +:+ "`" +:+ nl +:+
    "- 위험도: `" +:+ risk_level sel +:+ "`" +:+ nl +:+
    "- 영향 범위: `" +:+ blast_radius sel +:+ "`" +:+ nl +:+ nl +:+
    "## 조치" +:+ nl +:+ nl +:+ description sel +:+ nl +:+ nl +:+
    "## 검증" +:+ nl +:+ nl +:+ checks +:+ nl +:+ nl +:+
    "## 롤백" +:+ nl +:+ nl +:+ rollback_plan sel +:+ nl in
  let tuned :=
    if str_eqb (action_type d) RESOURCE_REQUEST_TUNING_ACTION then
      base +:+ nl +:+ nl +:+ "## 참고 제안값" +:+ nl +:+ nl +:+
      "- CPU request: `" +:+ RESOURCE_REQUEST_MIN_CPU +:+ "`" +:+ nl +:+
      "- Memory request: `" +:+ RESOURCE_REQUEST_MIN_MEMORY +:+ "`" +:+ nl +:+ nl +:+
      "이 값은 Kubernetes Safe PR v1의 최소 참고값이며 자동 적용값이 아닙니다. " +:+
      "운영자는 실제 workload 부하, namespace quota, node capacity를 확인한 뒤 " +:+
      "manifest에 적절한 값을 직접 반영해야 합니다." +:+ nl
    else base in
  {| patch_path := SAFE_PR_FALLBACK_PATCH_DIR +:+ "/" +:+ token +:+ "-" +:+ action +:+ ".md";
     content := tuned; patch_description := title sel +:+ " 복구 검토 기록" |}.

(** ** The request *)

Definition build_safe_pr_request_body (pl : RecoveryPlan) (sel : RecoveryActionCandidate)
    (ws : string) (files : list SafePrFilePatch) (authority : option GitOpsAuthorityContext) : outcome :=
  let diagnostics :=
    [("plan_id", VStr (plan_id pl)); ("action_id", VStr (action_id sel)); ("route", VStr (route sel))] in
  match authority with
  | None =>
      ActionRequired
        {| ar_reason := "Safe PR 생성에 필요한 GitOps 권위 context가 없습니다.";
           ar_evidence_ref := plan_evidence_ref pl; ar_workspace_id := ws;
           ar_reason_code := "gitops_authority_unavailable";
           ar_missing_evidence := ["gitops_authority_context"];
           ar_next_actions := [next_action "collect_gitops_authority"
             "repository·binding·manifest 권위를 먼저 확인해야 합니다." (VDict (target pl))];
           ar_diagnostics := diagnostics |}
  | Some authority =>
      if bool_decide (files = []) then
        ActionRequired
          {| ar_reason := MISSING_SAFE_PR_PATCH_REASON +:+ ": " +:+ title sel;
             ar_evidence_ref := plan_evidence_ref pl; ar_workspace_id := ws;
             ar_reason_code := "safe_pr_patch_missing";
             ar_missing_evidence := ["manifest_patch"];
             ar_next_actions := [next_action "collect_manifest_context"
               "Recovery Safe PR requires concrete file patches before PR creation."
               (VDict (params (draft sel)))];
             ar_diagnostics := diagnostics |}
      else
        Requested
          {| provider := PROVIDER; patches := files; delivery := SAFE_PR_DELIVERY_PULL_REQUEST;
             pr_kind := safe_pr_kind sel; r_workspace_id := ws;
             r_repository_id := repository_id authority; r_binding_id := binding_id authority;
             r_application_id := application_id authority;
             r_workflow_run_id := workflow_run_id authority;
             r_environment := environment authority; r_manifest_path := manifest_path authority;
             r_repo_ref := repo_ref authority; r_base_branch := base_branch authority;
             r_commit_sha := commit_sha authority; r_cluster_id := cluster_id authority;
             target_namespace := first_str
               [nested_value (VDict (desired_manifest authority)) ["metadata"; "namespace"]];
             target_resource := resource authority;
             target_authority := "completed_workload_change";
             approval_ref := as_optional_str (get (params (draft sel)) "approval_ref");
             policy_decision_ref := as_optional_str (get (params (draft sel)) "policy_decision_ref");
             evidence_ref := plan_evidence_ref pl |}
  end.

(** [str(target.get(key) or fallback)] *)
Definition str_or (d : dict) (key fallback : string) : string :=
  let v := get d key in if truthy v then py_str v else fallback.

Definition authority_query (evt : RecoveryActionSelectedBody) (correlation_id : string)
    : GitOpsAuthorityQuery :=
  let tgt := target (plan evt) in
  let d := draft (selected evt) in
  let resolved := WorkloadTarget.resolved_target_from_metadata
    (VStr (str_or tgt "namespace" (d_namespace d)))
    (VStr (str_or tgt "resource_kind" (d_resource_kind d)))
    (VStr (str_or tgt "resource_name" (d_resource_name d))) [VDict tgt; VDict (params d)] in
  {| q_correlation_id := correlation_id; q_workspace_id := evt_workspace_id evt;
     q_incident_id := incident_id (plan evt); q_cluster_id := str_or tgt "cluster_id" "";
     q_namespace := WorkloadTarget.namespace resolved;
     q_resource_kind := WorkloadTarget.resource_kind resolved;
     q_resource_name := WorkloadTarget.resource_name resolved |}.

Definition authority_matches_query (authority : GitOpsAuthorityContext) (q : GitOpsAuthorityQuery) : bool :=
  let '(kind, _, name) := partition_char "/" (resource authority) in
  str_eqb (workspace_id authority) (q_workspace_id q)
  && str_eqb (cluster_id authority) (q_cluster_id q)
  && same_folded kind (q_resource_kind q)
  && str_eqb name (q_resource_name q)
  && forallb nonempty
       [repository_id authority; binding_id authority; application_id authority;
        workflow_run_id authority; manifest_path authority; repo_ref authority;
        base_branch authority; commit_sha authority; source_manifest_sha256 authority].

Context `{YamlLib}.

(** [except ManifestSourcePatchError: patches = []] *)
Definition patches_or_none (m : res (list SafePrFilePatch)) : res (list SafePrFilePatch) :=
  match m with
  | Err e => if SourcePatch.is_patch_error e then Ok [] else Err e
  | Ok ps => Ok ps
  end.

(** An authority port answers a query or raises; [None] when there is no port. *)
Notation port := (GitOpsAuthorityQuery -> res (option GitOpsAuthorityContext)).

Definition dispatch_safe_pr_body (evt : RecoveryActionSelectedBody) (authority_port : option port)
    (correlation_id : string) : res outcome :=
  let sel := selected evt in
  let action := action_type (draft sel) in
  match authority_port with
  | None => Ok (ActionRequired (authority_required_body evt "gitops_authority_unavailable"
      "patch 생성 시점의 GitOps 권위 context를 조회할 수 없습니다." ["gitops_authority_context"]))
  | Some load =>
      if is_empty correlation_id then
        Ok (ActionRequired (authority_required_body evt "gitops_authority_unavailable"
          "patch 생성 시점의 GitOps 권위 context를 조회할 수 없습니다." ["gitops_authority_context"]))
      else
        let q := authority_query evt correlation_id in
        loaded ← load q;
        match loaded with
        | None => Ok (ActionRequired (authority_required_body evt "gitops_authority_unavailable"
            "승인 snapshot·binding·repository 권위 context를 확보하지 못했습니다."
            ["gitops_authority_context"]))
        | Some authority =>
            if negb (authority_matches_query authority q) then
              Ok (ActionRequired (authority_required_body evt "gitops_authority_mismatch"
                "조회된 GitOps 권위 context가 선택된 recovery target과 일치하지 않습니다."
                ["matching_gitops_authority_context"]))
            else if bool_decide (action ∈ REVIEW_DOC_ACTIONS) then
              Ok (build_safe_pr_request_body (plan evt) sel (evt_workspace_id evt)
                    [fallback_recovery_patch sel] (Some authority))
            else if negb (bool_decide (action ∈ AUTHORITY_PATCH_ACTIONS)) then
              Ok (ActionRequired (authority_required_body evt "safe_pr_patch_unsupported"
                ("지원하지 않는 recovery patch action입니다: " +:+ action) ["supported_patch_action"]))
            else
              files ← patches_or_none (authority_safe_pr_patches sel authority);
              if bool_decide (files = []) then
                Ok (ActionRequired (authority_required_body evt "safe_pr_patch_unsupported"
                  "권위 snapshot에서 정책 범위 안의 실제 manifest patch를 만들 수 없습니다."
                  ["patchable_authority_snapshot"]))
              else Ok (build_safe_pr_request_body (plan evt) sel (evt_workspace_id evt) files
                         (Some authority))
        end
  end.

Definition dispatch_body (evt : RecoveryActionSelectedBody) (authority_port : option port)
    (correlation_id : string) : res outcome :=
  let sel := selected evt in
  if str_eqb (route sel) safe_pr_route then dispatch_safe_pr_body evt authority_port correlation_id
  else if str_eqb (route sel) approval_required_route then Ok (ActionRequired (approval_required_body evt))
  else if str_eqb (route sel) forbidden_route then
    Ok (ActionRequired (action_required ("자동 조치 차단: " +:+ title sel) evt))
  else Ok (ActionRequired (action_required (UNKNOWN_ROUTE_REASON +:+ ": " +:+ route sel) evt)).

(** [on_recovery_action_selected] of the recovery worker. *)
Definition on_recovery_action_selected (evt : RecoveryActionSelectedBody) (db : option authority_db)
    (correlation_id : string) : res outcome :=
  let authority := match db with Some db => Some (load_authority (Some db)) | None => None end in
  dispatch_body evt authority correlation_id.

(** ** The preflight *)

Record RecoveryEvidenceReadPort := {
  p_evidence_payload : string -> string -> string -> pyval;
  p_cluster_registration : string -> string -> pyval;
  p_alert_events : string -> string -> string -> list string -> Z -> list dict;
}.

Inductive prepared :=
  | Prepared (c : RecoveryActionCandidate)
  | Rejected (b : RcaActionRequiredBody).

(** [str(a or b or ... or "")] over fields of mappings. *)
Fixpoint first_truthy (values : list pyval) : string :=
  match values with
  | [] => ""
  | v :: values => if truthy v then py_str v else first_truthy values
  end.

Definition verification_target (evt : RecoveryActionSelectedBody) : dict :=
  let p := params (draft (selected evt)) in
  let tgt := target (plan evt) in
  let both k := VStr (first_truthy [get p k; get tgt k]) in
  [("cluster_id", VStr (first_truthy [get p "cluster_id"; get p "cluster"; get tgt "cluster_id"]));
   ("namespace", both "namespace"); ("resource_kind", both "resource_kind");
   ("resource_name", both "resource_name")].

Definition authorized_change (item : SourcePatch.ScalarFieldReplacement) : pyval :=
  VDict [("field_path", VStr (SourcePatch.field_path item));
         ("current_value", SourcePatch.current_value item);
         ("desired_value", SourcePatch.desired_value item)].

(** The replica count a replica action authorises. *)
Definition authorized_replicas (action : string) (replacements : list SourcePatch.ScalarFieldReplacement)
    : option Z :=
  match str_eqb action "replica_scale", replacements with
  | true, [item] =>
      match str_eqb (SourcePatch.field_path item) "spec.replicas", SourcePatch.desired_value item with
      | true, VInt z => if 0 <? z then Some z else None
      | _, _ => None
      end
  | _, _ => None
  end.

(** The replacements behind the dispatched request. *)
Definition authorized_replacements (evt : RecoveryActionSelectedBody) (authority_port : option port)
    (correlation_id : string) : res (list SourcePatch.ScalarFieldReplacement) :=
  match authority_port with
  | None => Ok []
  | Some load =>
      let q := authority_query evt correlation_id in
      loaded ← load q;
      match loaded with
      | Some authority =>
          if authority_matches_query authority q
          then scalar_replacements_for (action_type (draft (selected evt))) (selected evt) authority
          else Ok []
      | None => Ok []
      end
  end.

Definition when (c : bool) (blocker : string) : list string := if c then [blocker] else [].

Definition is_none_or {A} (o : option A) (p : A -> bool) : bool :=
  match o with None => true | Some a => p a end.

Context `{IsoTime}.

(** The continuity contract: what the verification after the deployment will
    be measured against, and what is missing for it. *)
Definition continuity_params (evt : RecoveryActionSelectedBody) (port : option RecoveryEvidenceReadPort)
    (correlation_id : string) (expected_replicas : option Z) : res dict :=
  let tgt := verification_target evt in
  let ws := evt_workspace_id evt in
  let cluster := first_truthy [get tgt "cluster_id"] in
  let evidence := match port with
                  | Some p => mapping (p_evidence_payload p ws correlation_id "rca_bundle")
                  | None => [] end in
  let has_evidence := negb (bool_decide (evidence = [])) in
  observed ← (if has_evidence then RecoveryChecks.protected_workloads evidence tgt VNone else Ok None);
  let observed := default [] observed in
  baseline ← RecoveryChecks.protected_workload_baseline observed;
  let unusable := bool_decide (observed = [])
                  || existsb (fun w => negb (is_true (get w "healthy"))) observed
                  || negb (Nat.eqb (length baseline) (length observed)) in
  let baseline := if unusable then [] else baseline in
  observed_at ← (if has_evidence
                 then RecoveryVerification.trusted_evidence_window_start evidence ws cluster
                 else Ok None);
  session_baseline ←
    (if negb (bool_decide (baseline = [])) && bool_decide (is_Some observed_at)
     then RecoveryChecks.protected_active_session_series evidence (VList (VDict <$> baseline)) VNone VNone
            observed_at (Some RecoveryChecks.CONTINUITY_SAMPLE_MAX_AGE_SECONDS)
     else Ok (Some []));
  failure ← RecoveryChecks.metric_sample_with_identity evidence "kyro_sli_failure_ratio" tgt [];
  rate ← RecoveryChecks.metric_sample_with_identity evidence "kyro_sli_request_rate" tgt [];
  let sli_missing := negb (bool_decide (is_Some failure)) || is_none_or rate (fun r => fleb r.1 fzero) in
  let incident_ids :=
    isort String.leb (unique_first (keep nonempty [correlation_id; incident_id (plan evt)])) in
  let alerts := match port with
                | Some p => p_alert_events p ws RecoveryChecks.STANDARD_SLI_ALERT_NAME "alertmanager"
                              incident_ids 10
                | None => [] end in
  alert_before ← RecoveryChecks.before_alert_snapshot alerts tgt correlation_id
                   (incident_id (plan evt)) ((fun f => VDict f.2) <$> failure);
  threshold ← RecoveryChecks.finite_float (get alert_before "threshold");
  let registration := match port with Some p => p_cluster_registration p ws cluster | None => VNone end in
  let settings := mapping (get (mapping registration) "settings") in
  cadence ← RecoveryChecks.nonnegative_int (get settings "evidence_interval_seconds");
  let blockers :=
    when (bool_decide (port = None)) "metadata:current_workload_snapshots"
    ++ when unusable "metadata:current_workload_snapshots"
    ++ when (is_none_or session_baseline (fun l => bool_decide (l = [])))
         "metrics:kyro_continuity_active_sessions"
    ++ (if sli_missing then ["metrics:kyro_sli_failure_ratio"; "metrics:kyro_sli_request_rate"] else [])
    ++ when (negb (is_true (get alert_before "available")) || bool_decide (threshold = None))
         "alertmanager:original_exact_alert"
    ++ when (is_none_or cadence (fun c => c <=? 0)) "cluster:evidence_cadence"
    ++ when (bool_decide (expected_replicas = None)) "gitops:approved_replica_baseline" in
  Ok ([("protected_baseline", VList (VDict <$> baseline));
       ("protected_session_baseline", RecoveryChecks.opt_dicts session_baseline);
       ("verification_failure_ratio_before", RecoveryChecks.opt_float (fst <$> failure));
       ("verification_failure_ratio_metric_identity", RecoveryChecks.opt_dict (snd <$> failure));
       ("verification_request_rate_baseline", RecoveryChecks.opt_float (fst <$> rate));
       ("verification_request_rate_metric_identity", RecoveryChecks.opt_dict (snd <$> rate));
       ("verification_alert_before", VDict alert_before);
       ("verification_evidence_cadence_seconds", RecoveryChecks.opt_int cadence);
       ("expected_replicas", RecoveryChecks.opt_int expected_replicas)]
      ++ (if bool_decide (blockers = []) then []
          else [("verification_blockers", VList (VStr <$> isort String.leb (unique_first blockers)));
                ("verification_merge_blocked", VBool true)])).

Definition request_params (r : SafePrRequestedBody) : dict :=
  [("workspace_id", VStr (r_workspace_id r)); ("repository_id", VStr (r_repository_id r));
   ("binding_id", VStr (r_binding_id r)); ("application_id", VStr (r_application_id r));
   ("workflow_run_id", VStr (r_workflow_run_id r)); ("environment", VStr (r_environment r));
   ("manifest_path", VStr (r_manifest_path r)); ("repo_ref", VStr (r_repo_ref r));
   ("base_branch", VStr (r_base_branch r)); ("commit_sha", VStr (r_commit_sha r))].

(** [replace(candidate, draft=replace(draft, params=...))] *)
Definition with_params (c : RecoveryActionCandidate) (p : dict) : RecoveryActionCandidate :=
  {| action_id := action_id c; title := title c; description := description c;
     draft := {| action_type := action_type (draft c); d_namespace := d_namespace (draft c);
                 d_resource_kind := d_resource_kind (draft c);
                 d_resource_name := d_resource_name (draft c); params := p |};
     route := route c; risk_level := risk_level c; blast_radius := blast_radius c;
     validation_checks := validation_checks c; rollback_plan := rollback_plan c |}.

Definition prepare (authority_port : option port) (port : option RecoveryEvidenceReadPort)
    (evt : RecoveryActionSelectedBody) (correlation_id : string) : res prepared :=
  let sel := selected evt in
  if negb (str_eqb (route sel) safe_pr_route) then Ok (Prepared sel)
  else
    result ← dispatch_safe_pr_body evt authority_port correlation_id;
    match result with
    | ActionRequired b => Ok (Rejected b)
    | Requested r =>
        replacements ← authorized_replacements evt authority_port correlation_id;
        let changes_params := if bool_decide (replacements = []) then []
                              else [("authorized_changes", VList (authorized_change <$> replacements))] in
        continuity ←
          (if py_eqb (get (params (draft sel)) "verification_contract")
                (VStr PROTECTED_WORKLOAD_CONTINUITY_CONTRACT)
           then continuity_params evt port correlation_id
                  (authorized_replicas (action_type (draft sel)) replacements)
           else Ok []);
        Ok (Prepared (with_params sel
          (dict_update (params (draft sel)) (request_params r ++ changes_params ++ continuity))))
    end.

(** ** What is dispatched *)

(** The request speaks for the authority and for the event. *)
Definition speaks_for (r : SafePrRequestedBody) (evt : RecoveryActionSelectedBody)
    (a : GitOpsAuthorityContext) : Prop :=
  r_workspace_id r = evt_workspace_id evt /\ r_workspace_id r = workspace_id a /\
  r_repository_id r = repository_id a /\ r_binding_id r = binding_id a /\
  r_application_id r = application_id a /\ r_workflow_run_id r = workflow_run_id a /\
  r_environment r = environment a /\ r_manifest_path r = manifest_path a /\
  r_repo_ref r = repo_ref a /\ r_base_branch r = base_branch a /\ r_commit_sha r = commit_sha a /\
  r_cluster_id r = cluster_id a /\ target_resource r = resource a /\
  evidence_ref r = plan_evidence_ref (plan evt).

(** The request proposes a review document, or one approved scalar patch. *)
Definition proposes (r : SafePrRequestedBody) (evt : RecoveryActionSelectedBody)
    (a : GitOpsAuthorityContext) : Prop :=
  let sel := selected evt in
  let action := action_type (draft sel) in
  (action ∈ REVIEW_DOC_ACTIONS /\ patches r = [fallback_recovery_patch sel]
   /\ pr_kind r = SAFE_PR_KIND_REVIEW_DOC) \/
  (action ∈ AUTHORITY_PATCH_ACTIONS /\ pr_kind r = SAFE_PR_KIND_PATCH /\
   exists rs p, patches r = [p] /\ scalar_replacements_for action sel a = Ok rs /\
     SourcePatch.scalar_patch_content (patch_plan action a rs) = Ok (content p) /\
     SourcePatch.approved_plan (patch_plan action a rs)).

Lemma build_request pl sel ws files a r :
  build_safe_pr_request_body pl sel ws files (Some a) = Requested r ->
  patches r = files /\ delivery r = SAFE_PR_DELIVERY_PULL_REQUEST /\ pr_kind r = safe_pr_kind sel /\
  r_workspace_id r = ws /\ forall evt, plan evt = pl -> evt_workspace_id evt = ws ->
    workspace_id a = ws -> speaks_for r evt a.
Proof.
  cbn [build_safe_pr_request_body]. destruct (bool_decide (files = [])); [done|]. intros [= <-].
  do 4 (split; [done|]). intros evt <- <- Hws. unfold speaks_for. cbn. by split_and!.
Qed.

Lemma authority_matches_scope a q :
  authority_matches_query a q = true ->
  workspace_id a = q_workspace_id q /\ cluster_id a = q_cluster_id q /\ application_id a <> "".
Proof.
  unfold authority_matches_query. destruct (partition_char _ _) as [[k sep] n].
  intros [[[[Hw Hc]%andb_true_iff _]%andb_true_iff _]%andb_true_iff Hall]%andb_true_iff.
  apply str_eqb_eq in Hw, Hc. split; [done|]. split; [done|].
  apply nonempty_iff. apply (proj1 (forallb_elem _ _) Hall). set_solver.
Qed.

Lemma requested_inv evt port correlation_id r :
  dispatch_safe_pr_body evt port correlation_id = Ok (Requested r) ->
  exists load a, port = Some load /\ load (authority_query evt correlation_id) = Ok (Some a) /\
    authority_matches_query a (authority_query evt correlation_id) = true /\
    delivery r = SAFE_PR_DELIVERY_PULL_REQUEST /\ speaks_for r evt a /\ proposes r evt a.
Proof.
  unfold dispatch_safe_pr_body. destruct port as [load|]; [|done].
  destruct (is_empty correlation_id); [done|].
  intros (o & Ho & Hd)%bind_Ok. destruct o as [a|]; [|done].
  destruct (negb _) eqn:Em; [done|]. apply negb_false_iff in Em.
  assert (workspace_id a = evt_workspace_id evt) as Hws by (by apply authority_matches_scope in Em as [-> _]).
  exists load, a. split; [done|]. split; [done|]. split; [done|].
  case_bool_decide as Hdoc.
  { apply Ok_inj, build_request in Hd as (Hp & Hdel & Hk & _ & Hsp). split; [done|]. split; [by apply Hsp|].
    left. split; [done|]. split; [done|]. rewrite Hk. unfold safe_pr_kind. by rewrite bool_decide_true. }
  destruct (negb _) eqn:Ea; [done|]. apply negb_false_iff, bool_decide_eq_true in Ea.
  apply bind_Ok in Hd as (files & Hf & Hd). case_bool_decide as Hne; [done|].
  apply Ok_inj, build_request in Hd as (Hp & Hdel & Hk & _ & Hsp). split; [done|]. split; [by apply Hsp|].
  right. split; [done|]. split. { rewrite Hk. unfold safe_pr_kind. by rewrite bool_decide_false. }
  unfold patches_or_none in Hf.
  destruct (authority_safe_pr_patches (selected evt) a) as [ps|e] eqn:Eps;
    [injection Hf as ->|destruct (SourcePatch.is_patch_error e); [by injection Hf as <-|done]].
  destruct (patches_inv _ _ _ Eps Hne) as (rs & p & -> & Hr & Hc). exists rs, p.
  split; [done|]. split; [done|]. split; [done|]. apply bind_Ok in Hc as ([] & Hv & _).
  by apply SourcePatch.validate_scalar_patch_plan_spec.
Qed.

(** C2: end to end, the recovery worker asks for a pull request only with
    an authority whose rows agree - the application, the binding, the
    repository and the artifact field by field, the workflow run and the
    completed diff on the identities they record: the action's route is the
    pull-request route, the request carries the authority's identities and its commit, is
    delivered as a reviewable pull request, and proposes either a review
    document or one structured patch that the patch validation approves. *)
Theorem dispatched_request_is_authorised evt db correlation_id r :
  on_recovery_action_selected evt (Some db) correlation_id = Ok (Requested r) ->
  route (selected evt) = safe_pr_route /\ delivery r = SAFE_PR_DELIVERY_PULL_REQUEST /\
  exists a, backed db (authority_query evt correlation_id) a /\
    (exists row, get_application db (workspace_id a) (application_id a) = VDict row /\
                 text row "application_id" = application_id a) /\
    speaks_for r evt a /\ proposes r evt a.
Proof.
  unfold on_recovery_action_selected, dispatch_body.
  destruct (str_eqb (route (selected evt)) safe_pr_route) eqn:Er; [|by case_all].
  intros (load & a & [= <-] & Hl & Hm & Hdel & Hsp & Hpr)%requested_inv. apply str_eqb_eq in Er.
  split; [done|]. split; [done|]. exists a. apply load_authority_backed in Hl as Hb. split; [done|].
  split; [|done]. destruct (bk_application _ _ _ Hb) as (row & Hrow & _ & Happ). exists row.
  split; [done|]. apply Happ. by apply authority_matches_scope in Hm as (_ & _ & ?).
Qed.

(** C33: without a database, or for an event without a correlation id, or
    for any other route, the worker never asks for a pull request: it returns
    a request for a person that names the event's evidence and workspace, and
    it does not raise. *)
Theorem dispatch_fails_closed evt db correlation_id :
  db = None \/ correlation_id = "" \/ route (selected evt) <> safe_pr_route ->
  exists b, on_recovery_action_selected evt db correlation_id = Ok (ActionRequired b) /\
    ar_evidence_ref b = plan_evidence_ref (plan evt) /\ ar_workspace_id b = evt_workspace_id evt.
Proof.
  intros Hor. unfold on_recovery_action_selected, dispatch_body.
  destruct (str_eqb (route (selected evt)) safe_pr_route) eqn:Er; [|case_all; by eexists].
  apply str_eqb_eq in Er. unfold dispatch_safe_pr_body.
  destruct db as [db|]; [|by eexists]. destruct Hor as [|[->|]]; [done| |done]. by eexists.
Qed.

(** *** The preflight and the worker agree *)

Definition PREPARED_KEYS : list string :=
  ["workspace_id"; "repository_id"; "binding_id"; "application_id"; "workflow_run_id"; "environment";
   "manifest_path"; "repo_ref"; "base_branch"; "commit_sha"; "authorized_changes";
   "protected_baseline"; "protected_session_baseline"; "verification_failure_ratio_before";
   "verification_failure_ratio_metric_identity"; "verification_request_rate_baseline";
   "verification_request_rate_metric_identity"; "verification_alert_before";
   "verification_evidence_cadence_seconds"; "expected_replicas"; "verification_blockers";
   "verification_merge_blocked"].

Lemma dict_update_get (d e : dict) k : k ∉ e.*1 -> dict_get (dict_update d e) k = dict_get d k.
Proof.
  unfold dict_update. revert d. induction e as [|[j v] e IH]; intros d Hk; [done|]. cbn in *.
  rewrite IH by set_solver. apply dict_get_set_ne. set_solver.
Qed.

(** Two parameter mappings that differ in prepared keys only. *)
Definition same_elsewhere (p p' : dict) : Prop :=
  forall k, k ∉ PREPARED_KEYS -> dict_get p' k = dict_get p k.

Lemma same_elsewhere_get p p' k :
  same_elsewhere p p' -> bool_decide (k ∈ PREPARED_KEYS) = false -> get p' k = get p k.
Proof. intros Hs Hk%bool_decide_eq_false. unfold get. by rewrite Hs. Qed.

Ltac elsewhere Hs := rewrite !(same_elsewhere_get _ _ _ Hs) by (vm_compute; reflexivity).

Lemma target_from_elsewhere original p p' :
  same_elsewhere p p' ->
  WorkloadTarget.target_from original (VDict p') = WorkloadTarget.target_from original (VDict p).
Proof.
  intros Hs. unfold WorkloadTarget.target_from.
  assert (WorkloadTarget.declared_resolved_target original (VDict p')
          = WorkloadTarget.declared_resolved_target original (VDict p)) as ->.
  { unfold WorkloadTarget.declared_resolved_target. by elsewhere Hs. }
  assert (WorkloadTarget.workload_snapshots (VDict p') = WorkloadTarget.workload_snapshots (VDict p)) as Hw.
  { unfold WorkloadTarget.workload_snapshots. by elsewhere Hs. }
  unfold WorkloadTarget.resolve_workload_target. by rewrite Hw.
Qed.

(** The event with another selected candidate. *)
Definition with_selected (evt : RecoveryActionSelectedBody) (c : RecoveryActionCandidate) :=
  {| plan := plan evt; selected := c; evt_workspace_id := evt_workspace_id evt |}.

Lemma dispatch_elsewhere evt p' port correlation_id r :
  same_elsewhere (params (draft (selected evt))) p' ->
  dispatch_safe_pr_body evt port correlation_id = Ok (Requested r) ->
  dispatch_safe_pr_body (with_selected evt (with_params (selected evt) p')) port correlation_id
  = Ok (Requested r).
Proof.
  intros Hs Hd. rewrite <- Hd. set (evt' := with_selected evt _).
  assert (authority_query evt' correlation_id = authority_query evt correlation_id) as Hq.
  { unfold authority_query, WorkloadTarget.resolved_target_from_metadata. cbn -[PREPARED_KEYS str_or].
    by rewrite !(target_from_elsewhere _ _ _ Hs). }
  assert (forall files a, build_safe_pr_request_body (plan evt') (selected evt') (evt_workspace_id evt')
            files (Some a) = Requested r <->
          build_safe_pr_request_body (plan evt) (selected evt) (evt_workspace_id evt) files (Some a)
            = Requested r) as Hb.
  { intros files a. cbn [build_safe_pr_request_body evt' with_selected plan selected with_params draft
      params evt_workspace_id]. destruct (bool_decide (files = [])); [done|]. elsewhere Hs. done. }
  assert (fallback_recovery_patch (selected evt') = fallback_recovery_patch (selected evt)) as Hf.
  { unfold fallback_recovery_patch. cbn [evt' with_selected selected with_params draft params].
    by rewrite (Hs "root_cause") by (by apply (bool_decide_unpack _)). }
  assert (forall a, authority_safe_pr_patches (selected evt') a = authority_safe_pr_patches (selected evt) a) as Hp.
  { intros a. unfold authority_safe_pr_patches, scalar_replacements_for, replica_replacements.
    cbn [evt' with_selected selected with_params draft params action_type d_resource_name action_id title].
    by elsewhere Hs. }
  revert Hd. unfold dispatch_safe_pr_body. rewrite Hq. destruct port as [load|]; [|done].
  destruct (is_empty correlation_id); [done|]. destruct (load _) as [[a|]|]; try done. cbn [mbind res_bind].
  destruct (negb (authority_matches_query a _)); [done|].
  change (action_type (draft (selected evt'))) with (action_type (draft (selected evt))).
  case_bool_decide. { intros Hd. rewrite Hd. apply Ok_inj in Hd. rewrite Hf. f_equal. by apply Hb. }
  destruct (negb _); [done|]. rewrite Hp. destruct (patches_or_none _) as [files|]; [|done].
  cbn [mbind res_bind]. destruct (bool_decide (files = [])); [done|].
  intros Hd. rewrite Hd. apply Ok_inj in Hd. f_equal. by apply Hb.
Qed.

Definition CONTINUITY_KEYS : list string :=
  ["protected_baseline"; "protected_session_baseline"; "verification_failure_ratio_before";
   "verification_failure_ratio_metric_identity"; "verification_request_rate_baseline";
   "verification_request_rate_metric_identity"; "verification_alert_before";
   "verification_evidence_cadence_seconds"; "expected_replicas"].

Lemma continuity_keys evt port correlation_id expected d :
  continuity_params evt port correlation_id expected = Ok d ->
  d.*1 = CONTINUITY_KEYS \/
  d.*1 = CONTINUITY_KEYS ++ ["verification_blockers"; "verification_merge_blocked"].
Proof.
  unfold continuity_params.
  intros (? & _ & (? & _ & (? & _ & (? & _ & (? & _ & (? & _ & (? & _ & (? & _ & (? & _ & Hd)%bind_Ok)%bind_Ok)%bind_Ok)%bind_Ok)%bind_Ok)%bind_Ok)%bind_Ok)%bind_Ok)%bind_Ok.
  apply Ok_inj in Hd. subst d. rewrite fmap_app.
  match goal with |- context [fst <$> (if ?b then [] else ?l)] => destruct b end; [left|right]; reflexivity.
Qed.

Lemma dict_update_in (d e : dict) k v :
  NoDup e.*1 -> (k, v) ∈ e -> dict_get (dict_update d e) k = Some v.
Proof.
  unfold dict_update. revert d. induction e as [|[j w] e IH]; intros d Hnd Hin; [by apply elem_of_nil in Hin|].
  cbn in *. apply NoDup_cons in Hnd as [Hj Hnd]. apply elem_of_cons in Hin as [[= -> ->]|Hin]; [|by apply IH].
  change (dict_get (dict_update (dict_set d j w) e) j = Some w). rewrite dict_update_get by done.
  apply dict_get_set_eq.
Qed.

(** What the preflight adds, and that it only adds prepared keys. *)
Lemma prepare_inv authority_port port evt correlation_id c :
  prepare authority_port port evt correlation_id = Ok (Prepared c) ->
  route (selected evt) = safe_pr_route ->
  exists r rs e, dispatch_safe_pr_body evt authority_port correlation_id = Ok (Requested r) /\
    authorized_replacements evt authority_port correlation_id = Ok rs /\
    c = with_params (selected evt) (dict_update (params (draft (selected evt))) e) /\
    NoDup e.*1 /\ (forall k, k ∈ e.*1 -> k ∈ PREPARED_KEYS) /\
    (forall kv, kv ∈ request_params r -> kv ∈ e) /\
    (rs <> [] -> ("authorized_changes", VList (authorized_change <$> rs)) ∈ e).
Proof.
  unfold prepare. intros Hp Hroute. rewrite Hroute in Hp.
  change (negb (str_eqb safe_pr_route safe_pr_route)) with false in Hp. cbv iota in Hp.
  apply bind_Ok in Hp as (o & Ho & Hp). destruct o as [r|b]; [|done].
  apply bind_Ok in Hp as (rs & Hrs & (continuity & Hc & Hp)%bind_Ok).
  apply Ok_inj in Hp. injection Hp as <-.
  set (changes_params := if bool_decide (rs = []) then [] else _).
  exists r, rs, (request_params r ++ changes_params ++ continuity).
  assert (continuity.*1 = [] \/ continuity.*1 = CONTINUITY_KEYS \/
    continuity.*1 = CONTINUITY_KEYS ++ ["verification_blockers"; "verification_merge_blocked"]) as Hk.
  { destruct (py_eqb _ _); [right; by eapply continuity_keys|]. apply Ok_inj in Hc. subst. by left. }
  assert (changes_params.*1 = [] \/ changes_params.*1 = ["authorized_changes"]) as Hk2
    by (unfold changes_params; destruct (bool_decide _); auto).
  split; [done|]. split; [done|]. split; [done|]. rewrite !fmap_app.
  split; [|split].
  - destruct Hk as [->|[->| ->]], Hk2 as [->| ->]; apply (bool_decide_unpack _); vm_compute; exact I.
  - apply Forall_forall.
    destruct Hk as [->|[->| ->]], Hk2 as [->| ->]; apply (bool_decide_unpack _); vm_compute; exact I.
  - split; [set_solver|]. intros Hne. unfold changes_params. rewrite bool_decide_false by done. set_solver.
Qed.

(** the preflight of the HTTP selection and the worker decide alike.
    When the preflight hands back a candidate, dispatching the event with that
    candidate requests exactly the pull request the preflight saw for the
    original one, the candidate carries the identities of that request, and,
    for a patch, the authorised changes it carries are the replacements of the
    patch; when the preflight rejects, the worker would have returned the same
    request for a person. *)
Theorem preflight_predicts_dispatch authority_port port evt correlation_id :
  route (selected evt) = safe_pr_route ->
  match prepare authority_port port evt correlation_id with
  | Ok (Prepared c) =>
      exists r, dispatch_body evt authority_port correlation_id = Ok (Requested r) /\
        dispatch_body (with_selected evt c) authority_port correlation_id = Ok (Requested r) /\
        (forall k v, (k, v) ∈ request_params r -> get (params (draft c)) k = v) /\
        (pr_kind r = SAFE_PR_KIND_PATCH -> exists a rs p, patches r = [p] /\
           SourcePatch.scalar_patch_content (patch_plan (action_type (draft c)) a rs) = Ok (content p) /\
           get (params (draft c)) "authorized_changes" = VList (authorized_change <$> rs))
  | Ok (Rejected b) => dispatch_body evt authority_port correlation_id = Ok (ActionRequired b)
  | Err _ => True
  end.
Proof.
  intros Hroute. destruct (prepare _ _ _ _) as [[c|b]|e] eqn:Hp; [| |done].
  - destruct (prepare_inv _ _ _ _ _ Hp Hroute) as (r & rs & e & Hd & Hrs & -> & Hnd & Hkeys & Hreq & Hch).
    exists r. unfold dispatch_body. cbn [with_selected selected with_params route]. rewrite Hroute.
    change (str_eqb safe_pr_route safe_pr_route) with true. cbv iota.
    split; [done|]. split; [|split].
    + apply dispatch_elsewhere; [|done]. intros k Hk. apply dict_update_get. auto.
    + intros k v Hin. unfold get. cbn [with_params draft params].
      by rewrite (dict_update_in _ e k v Hnd (Hreq _ Hin)).
    + intros Hkind. destruct (requested_inv _ _ _ _ Hd) as (load & a & -> & Hl & Hm & _ & _ & Hprop).
      destruct Hprop as [(_ & _ & Hdoc)|(_ & _ & rs' & p & Hpat & Hr & Hc & Hap)]; [by rewrite Hdoc in Hkind|].
      cbn [authorized_replacements] in Hrs. rewrite Hl in Hrs. cbn [mbind res_bind] in Hrs.
      rewrite Hm, Hr in Hrs. apply Ok_inj in Hrs. subst rs'.
      assert (rs <> []) as Hne by (intros ->; pose proof (SourcePatch.pl_count _ Hap); cbn in *; lia).
      exists a, rs, p. split; [done|]. split; [done|]. unfold get. cbn [with_params draft params].
      by rewrite (dict_update_in _ e _ _ Hnd (Hch Hne)).
  - unfold prepare in Hp. unfold dispatch_body. rewrite Hroute in *.
    change (str_eqb safe_pr_route safe_pr_route) with true in *. cbv iota in *. cbn [negb] in Hp.
    apply bind_Ok in Hp as (o & -> & Hp). destruct o as [r|b']; [|by injection Hp as ->].
    by apply bind_Ok in Hp as (? & _ & (? & _ & ?)%bind_Ok).
Qed.

End dispatch.
(** ** Scaling a workload back *)

Module Sample.

Definition evt : RecoveryActionSelectedBody :=
  {| plan := {| plan_id := "p-1"; incident_id := "i-1"; plan_evidence_ref := "e-1";
                target := [("cluster_id", VStr "k-1"); ("namespace", VStr "shop");
                           ("resource_kind", VStr "Deployment"); ("resource_name", VStr "web")] |};
     selected := RecoveryReplacements.Sample.candidate "replica_scale";
     evt_workspace_id := "w-1" |}.

Definition run : res outcome :=
  @on_recovery_action_selected Demo.plain_repr RecoveryAuthority.Sample.sha Demo.coded_yaml evt
    (Some RecoveryAuthority.Sample.db) "c-1".

(** The request the worker makes. *)
Definition request : SafePrRequestedBody :=
  {| provider := PROVIDER;
     patches := match @authority_safe_pr_patches Demo.plain_repr Demo.coded_yaml
                        RecoveryAuthority.Sample.sha (selected evt) RecoveryAuthority.Sample.context with
                | Ok ps => ps | Err _ => [] end;
     delivery := "pull_request"; pr_kind := "safe_pr_patch"; r_workspace_id := "w-1";
     r_repository_id := "r-1"; r_binding_id := "b-1"; r_application_id := "a-1";
     r_workflow_run_id := "run-1"; r_environment := "prod"; r_manifest_path := "apps/web.yaml";
     r_repo_ref := "acme/shop"; r_base_branch := "main";
     r_commit_sha := RecoveryAuthority.Sample.commit; r_cluster_id := "k-1";
     target_namespace := "shop"; target_resource := "Deployment/web";
     target_authority := "completed_workload_change"; approval_ref := None;
     policy_decision_ref := None; evidence_ref := "e-1" |}.

Lemma requested : run = Ok (Requested request).
Proof. vm_compute. reflexivity. Qed.

Definition port : option (GitOpsAuthorityQuery -> res (option GitOpsAuthorityContext)) :=
  Some (@load_authority Demo.plain_repr RecoveryAuthority.Sample.sha (Some RecoveryAuthority.Sample.db)).

End Sample.

Lemma dispatched_request_is_authorised_witness :
  exists a, @backed Demo.plain_repr RecoveryAuthority.Sample.sha RecoveryAuthority.Sample.db
    (@authority_query Demo.plain_repr Sample.evt "c-1") a /\
    speaks_for Sample.request Sample.evt a /\
    @proposes Demo.plain_repr RecoveryAuthority.Sample.sha Demo.coded_yaml Sample.request Sample.evt a.
Proof.
  destruct (@dispatched_request_is_authorised Demo.plain_repr RecoveryAuthority.Sample.sha Demo.coded_yaml
    Sample.evt RecoveryAuthority.Sample.db "c-1" Sample.request Sample.requested) as (_ & _ & a & Hb & _ & Hr).
  exists a. by split.
Defined.

Lemma dispatch_fails_closed_witness :
  exists b, @on_recovery_action_selected Demo.plain_repr RecoveryAuthority.Sample.sha Demo.coded_yaml
      Sample.evt None "c-1" = Ok (ActionRequired b) /\
    ar_evidence_ref b = "e-1" /\ ar_workspace_id b = "w-1".
Proof.
  apply (@dispatch_fails_closed Demo.plain_repr RecoveryAuthority.Sample.sha Demo.coded_yaml Sample.evt None "c-1").
  by left.
Defined.

Lemma preflight_predicts_dispatch_witness :
  exists c r, @prepare Demo.plain_repr RecoveryAuthority.Sample.sha Demo.coded_yaml coded_iso
      Sample.port None Sample.evt "c-1" = Ok (Prepared c) /\
    @dispatch_body Demo.plain_repr RecoveryAuthority.Sample.sha Demo.coded_yaml
      (with_selected Sample.evt c) Sample.port "c-1" = Ok (Requested r) /\ r_binding_id r = "b-1".
Proof.
  pose proof (@preflight_predicts_dispatch Demo.plain_repr RecoveryAuthority.Sample.sha Demo.coded_yaml
    coded_iso Sample.port None Sample.evt "c-1" eq_refl) as Hp.
  destruct (prepare Sample.port None Sample.evt "c-1") as [[c|b]|e] eqn:E.
  - destruct Hp as (r & Hd & Hd' & _). exists c, r. split; [done|]. split; [done|].
    pose proof Sample.requested as Hr. unfold Sample.run, on_recovery_action_selected in Hr.
    change (Some (load_authority (Some RecoveryAuthority.Sample.db))) with Sample.port in Hr.
    rewrite Hd in Hr. by injection Hr as ->.
  - exfalso. pose proof Sample.requested as Hr. unfold Sample.run, on_recovery_action_selected in Hr.
    change (Some (load_authority (Some RecoveryAuthority.Sample.db))) with Sample.port in Hr.
    by rewrite Hp in Hr.
  - vm_compute in E. discriminate E.
Defined.

End RecoveryDispatch.
