(* ===== verification/RecoveryTracking.v ===== *)
(** * Selecting a recovery and tracking its pull request

    The first half of a plan's life: the operations of
    [src/src/domains/rca/repository.py] that store, select and reopen a plan,
    and the handlers of [src/src/services/ai/rca-feedback-worker/app.py] that
    bind the created pull request to the selected action
    ([on_recovery_safe_pr_created]) or record that it could not be created.
    The table is that of [RecoveryLifecycle]; what a handler reads from other
    tables is the record [readers]. *)
From S2P Require Import Prelude PyStr PyFloat PyVal PyTime Libs Demo SourcePatch.
From S2P Require Import RecoveryChecks RecoveryVerification RecoveryLifecycle RecoveryMerge RecoveryAuthority RecoveryReplacements RecoveryDispatch.

Module RecoveryTracking.
Import RecoveryChecks RecoveryLifecycle.

Definition RECOVERY_STATUS_SELECTION_REQUESTED : string := "selection_requested".
Definition RECOVERY_STATUS_SELECTED : string := "selected".
Definition RECOVERY_STATUS_PR_OPEN : string := "pr_open".
Definition RECOVERY_PLAN_MONOTONIC_STATUSES : list string :=
  [RECOVERY_STATUS_SELECTED; RECOVERY_STATUS_PR_OPEN; RECOVERY_STATUS_DEPLOY_PENDING;
   RECOVERY_STATUS_VERIFICATION_PENDING; RECOVERY_STATUS_COMPLETED; RECOVERY_STATUS_FAILED].
Definition OPEN_RECOVERY_PLAN_STATUSES : list string := [RECOVERY_STATUS_SELECTION_REQUESTED].
Definition SAFE_PR_ROUTE : string := RecoveryDispatch.safe_pr_route.

Notation table := (gmap (string * string) plan_row).

(** ** The plan table *)

Section repository.
Context `{ReprLib} `{IsoTime}.

(** [str(plan[key])] *)
Definition required_str (plan : dict) (key : string) : res string :=
  v ← raise_none (dict_get plan key) KeyError; Ok (py_str v).

(** [id] is the identifier the database gives to a new row. *)
Definition upsert_recovery_plan (t : table) (id : Z) (correlation_id workspace_id : string) (plan : dict)
    (status : string) (selected_action_id selected_by : option string) (now : Z) : res table :=
  _ ← raise_if (negb (bool_decide (status ∈ [RECOVERY_STATUS_SELECTION_REQUESTED;
                                             RECOVERY_STATUS_SELECTED]))) ValueError;
  plan_id ← required_str plan "plan_id";
  incident_id ← required_str plan "incident_id";
  evidence_ref ← required_str plan "evidence_ref";
  let row status sel by_ payload id :=
    {| row_id := id; plan_id := plan_id; workspace_id := workspace_id;
       correlation_id := correlation_id; incident_id := incident_id;
       row_evidence_ref := evidence_ref; row_status := status; selected_action_id := sel;
       selected_by := by_; payload := payload; updated_at := now |} in
  Ok (match t !! (workspace_id, plan_id) with
      | None => <[(workspace_id, plan_id) := row status selected_action_id selected_by plan id]> t
      | Some r =>
          if bool_decide (row_status r ∈ RECOVERY_PLAN_MONOTONIC_STATUSES)
          then <[(workspace_id, plan_id) :=
                  row (row_status r) (RecoveryLifecycle.selected_action_id r)
                    (RecoveryLifecycle.selected_by r) (payload r) (row_id r)]> t
          else <[(workspace_id, plan_id) :=
                  row status selected_action_id selected_by plan (row_id r)]> t
      end).

Definition newer (a b : plan_row) : bool := row_leb b a.

Definition get_recovery_plan_by_correlation (t : table) (correlation_id workspace_id : string)
    : option plan_row :=
  head (isort newer (keep (fun r => str_eqb (RecoveryLifecycle.correlation_id r) correlation_id
                                    && str_eqb (RecoveryLifecycle.workspace_id r) workspace_id)
                       (map_to_list t).*2)).

(** [max(0, int(attempt.get("number") or 0)) + 1], 1 when it is no number. *)
Definition attempt_number (attempt : dict) : res Z :=
  let v := get attempt "number" in
  parsed ← or_none (py_int (if truthy v then v else VInt 0));
  Ok (match parsed with Some n => Z.max 0 n + 1 | None => 1 end).

(** [uuid] is the text of the fresh [uuid4()]; [clock] is the process's
    clock, [now] the database's. *)
Definition select_recovery_plan_action_if_open (t : table) (plan_id workspace_id action_id
    selected_by uuid : string) (clock now : Z) : res (table * option plan_row) :=
  match t !! (workspace_id, plan_id) with
  | Some r =>
      if bool_decide (row_status r ∈ OPEN_RECOVERY_PLAN_STATUSES) then
        number ← attempt_number (mapping (get (lifecycle_of r) "attempt"));
        let lifecycle :=
          [("phase", VStr RECOVERY_STATUS_SELECTED);
           ("attempt", VDict
              [("id", VStr ("recovery-attempt-" +:+ uuid)); ("number", VInt number);
               ("action_id", VStr action_id); ("selected_by", VStr selected_by);
               ("selected_at", VStr (isoformat clock))])] in
        let r' :=
          {| row_id := row_id r; plan_id := RecoveryLifecycle.plan_id r;
             workspace_id := RecoveryLifecycle.workspace_id r;
             correlation_id := correlation_id r; incident_id := incident_id r;
             row_evidence_ref := row_evidence_ref r; row_status := RECOVERY_STATUS_SELECTED;
             selected_action_id := Some action_id; selected_by := Some selected_by;
             payload := dict_set (payload r) "lifecycle" (VDict lifecycle); updated_at := now |} in
        Ok (<[(workspace_id, plan_id) := r']> t, Some r')
      else Ok (t, None)
  | None => Ok (t, None)
  end.

Definition reopen_recovery_plan_action (t : table) (plan_id workspace_id action_id : string) (now : Z)
    : table * bool :=
  match t !! (workspace_id, plan_id) with
  | Some r =>
      if str_eqb (row_status r) RECOVERY_STATUS_SELECTED
         && bool_decide (selected_action_id r = Some action_id) then
        (<[(workspace_id, plan_id) :=
            {| row_id := row_id r; plan_id := RecoveryLifecycle.plan_id r;
               workspace_id := RecoveryLifecycle.workspace_id r;
               correlation_id := correlation_id r; incident_id := incident_id r;
               row_evidence_ref := row_evidence_ref r;
               row_status := RECOVERY_STATUS_SELECTION_REQUESTED;
               selected_action_id := None; selected_by := None; payload := payload r;
               updated_at := now |}]> t, true)
      else (t, false)
  | None => (t, false)
  end.

End repository.

(** ** The created pull request *)

Record SafePrCreatedBody := {
  pr_url : string;
  mode : string;
  evt_workspace_id : string;
  repository_id : string;
  binding_id : string;
  application_id : string;
  environment : string;
  manifest_path : string;
  repo_ref : string;
  base_branch : string;
  commit_sha : string;
  patch_sha256 : string;
  pr_number : option Z;
  pr_node_id : string;
  head_ref : string;
  head_sha : string;
}.

Record SafePrFailedBody := {
  f_reason : string;
  f_workspace_id : string;
  f_workflow_run_id : string;
  f_commit_sha : string;
  f_reason_code : string;
  f_stage : string;
  f_evidence_ref : string;
  f_details : dict;
}.

Inductive feedback :=
  | RecoveryPrTracked (plan_id incident_id pr_url repository_id repo_ref binding_id application_id
      base_branch workspace_id : string)
  | RcaFollowupRequired (reason_code summary evidence_ref workspace_id : string)
      (next_actions : list dict) (diagnostics : dict).

(** What the handlers read from other tables and from the environment. *)
Record readers := {
  get_workflow_approval : string -> string -> pyval;
  get_evidence_payload : string -> string -> string -> pyval;
  list_alert_events : string -> string -> string -> list string -> Z -> list dict;
  get_cluster_registration : string -> string -> pyval;
  env : string -> string -> string;
}.

Definition text_value (v : pyval) : string := match v with VStr s => strip s | _ => "" end.
Definition opt_text (o : option string) : string := match o with Some s => strip s | None => "" end.

Definition selected_recovery_candidate (r : plan_row) : dict :=
  let action := opt_text (selected_action_id r) in
  match get (payload r) "candidates" with
  | VList candidates =>
      if is_empty action then []
      else default [] (the_one (keep (fun c => str_eqb (text_value (get c "action_id")) action)
                                  (omap as_dict candidates)))
  | _ => []
  end.

Definition selected_candidate_params (approval : dict) : dict :=
  mapping (get (mapping (get (mapping (get (mapping (get approval "details")) "selected_candidate"))
    "draft")) "params").

(** The loop of [approved_change_contract], [None] where it returns early. *)
Definition contract_step (acc : option (list string * list dict)) (item : pyval)
    : option (list string * list dict) :=
  match acc, item with
  | Some (paths, changes), VDict d =>
      let path := text_value (get d "field_path") in
      if is_empty path || bool_decide (path ∈ paths) || negb (has_key d "current_value")
         || negb (has_key d "desired_value")
      then None
      else Some (path :: paths,
                 changes ++ [[("field_path", VStr path); ("current_value", get d "current_value");
                              ("desired_value", get d "desired_value")]])
  | _, _ => None
  end.

Definition approved_change_contract (value : pyval) : list dict :=
  match value with
  | VList items =>
      match fold_left contract_step items (Some ([], [])) with
      | Some (_, changes) => changes
      | None => []
      end
  | _ => []
  end.

(** The first truthy of three values, as [a or b or c] is. *)
Definition or3 (a b c : pyval) : pyval := if truthy a then a else if truthy b then b else c.

Definition selected_recovery_target (payload selected : dict) : dict :=
  let target := mapping (get payload "target") in
  let draft := mapping (get selected "draft") in
  let params := mapping (get draft "params") in
  (fun key => (key, VStr (text_value (or3 (get params key) (get draft key) (get target key))))) <$>
    ["cluster_id"; "namespace"; "resource_kind"; "resource_name"].

(** [re.compile(r"^[0-9a-f]{40,64}$").fullmatch]: the [$] also matches before
    a final newline, but then [fullmatch] would not reach the end. *)
Definition GITHUB_SHA_RE (s : string) : bool := SourcePatch.is_git_sha s.

Definition pr_incomplete (evt : SafePrCreatedBody) : bool :=
  negb (str_eqb (mode evt) "github_rest")
  || negb (starts_with "https://" (pr_url evt))
  || match pr_number evt with None => true | Some n => n <=? 0 end
  || is_empty (pr_node_id evt) || is_empty (head_ref evt)
  || negb (GITHUB_SHA_RE (head_sha evt)).

Definition expected_identity (evt : SafePrCreatedBody) : list (string * string) :=
  [("repository_id", repository_id evt); ("binding_id", binding_id evt);
   ("application_id", application_id evt); ("repo_ref", repo_ref evt);
   ("base_branch", base_branch evt); ("commit_sha", commit_sha evt)].

Definition safe_pr_identity_error (evt : SafePrCreatedBody) (params : dict) : option string :=
  if pr_incomplete evt
  then Some "생성된 PR의 number/node/head SHA가 없어 merge를 안전하게 추적할 수 없습니다."
  else if existsb (fun kv => negb (str_eqb (text_value (get params kv.1)) kv.2)) (expected_identity evt)
  then Some "생성된 PR identity가 승인된 GitOps 권위 context와 일치하지 않습니다."
  else None.

Definition RECOVERY_VERIFICATION_MIN_SECONDS_ENV : string := "RECOVERY_VERIFICATION_MIN_SECONDS".
Definition RECOVERY_VERIFICATION_MAX_SECONDS_ENV : string := "RECOVERY_VERIFICATION_MAX_SECONDS".
Definition RECOVERY_LOAD_TOLERANCE_RATIO_ENV : string := "RECOVERY_LOAD_TOLERANCE_RATIO".

(** [_bounded_env_seconds] *)
Definition bounded_env_seconds (rd : readers) (name : string) (default lower upper : Z) : Z :=
  let value := match int_of_str (env rd name (str_of_int default)) with
               | Some v => v | None => default end in
  Z.max lower (Z.min value upper).

Definition verification_window_seconds (rd : readers) : Z * Z :=
  let minimum := bounded_env_seconds rd RECOVERY_VERIFICATION_MIN_SECONDS_ENV
    RecoveryVerification.DEFAULT_MINIMUM_SECONDS RecoveryVerification.DEFAULT_MINIMUM_SECONDS
    RecoveryVerification.DEFAULT_MAXIMUM_SECONDS in
  let maximum := bounded_env_seconds rd RECOVERY_VERIFICATION_MAX_SECONDS_ENV
    RecoveryVerification.DEFAULT_MAXIMUM_SECONDS minimum
    RecoveryVerification.DEFAULT_MAXIMUM_SECONDS in
  (minimum, maximum).

(** [max(0.0, min(parsed, 0.5))] *)
Definition bounded_ratio (value : pyval) (default : float) : res float :=
  parsed ← finite_float value;
  Ok (match parsed with
      | None => default
      | Some f =>
          let low := if fltb (flit "0.5") f then flit "0.5" else f in
          if fltb fzero low then low else fzero
      end).

Definition dict_items (v : pyval) : list dict :=
  match v with VList l => omap as_dict l | _ => [] end.

Definition or_collected {A} (approved collected : option A) : option A :=
  match approved with Some a => Some a | None => collected end.

(** The approved identity of a metric when there is one, the collected one
    otherwise. *)
Definition identity_of (approved : dict) (collected : option dict) : option dict :=
  match approved with [] => collected | _ => metric_identity approved end.

Definition missing_identity (identity : option dict) : bool :=
  match identity with None | Some [] => true | _ => false end.

Definition FOLLOWUP_SUMMARIES : list (string * string) :=
  [("rule_missing",
    "대표 증상에 맞는 RCA rule이 없어 자동 원인 확정을 중단했습니다.");
   ("insufficient_evidence",
    "원인 후보는 있지만 필요한 근거가 부족해 자동 RCA 확정을 중단했습니다.");
   ("evidence_missing",
    "원인 후보는 있지만 필요한 근거가 부족해 자동 RCA 확정을 중단했습니다.");
   ("no_evaluation",
    "평가 가능한 원인 후보가 없어 root cause를 선택하지 못했습니다.");
   ("context_missing",
    "worker 간 이벤트 payload에 필수 RCA context가 없어 분석을 진행하지 못했습니다.");
   ("action_required",
    "자동 진행이 차단되어 운영자 조치가 필요합니다.");
   ("ai_fallback_required",
    "대표 증상에 맞는 RCA rule이 없어 AI fallback 검토가 필요합니다.");
   ("gitops_authority_unavailable",
    "Safe PR 생성을 위한 GitOps 권위 context가 없어 운영자 조치가 필요합니다.");
   ("gitops_authority_mismatch",
    "Safe PR 대상과 GitOps 권위 context가 일치하지 않아 운영자 확인이 필요합니다.");
   ("safe_pr_patch_missing",
    "Safe PR에 적용할 구체적인 manifest patch가 없어 운영자 조치가 필요합니다.");
   ("safe_pr_patch_unsupported",
    "선택한 복구 조치를 현재 Safe PR patch로 변환할 수 없습니다.");
   ("recovery_verification_prerequisites_missing",
    "복구 완료 판정에 필요한 사전 근거가 없어 Safe PR 추적을 중단했습니다.")].

Definition MISSING_EVIDENCE_LABELS : list (string * string) :=
  [("kubernetes",
    "Kubernetes 상태 근거");
   ("kubernetes:cluster_resource_state",
    "Kubernetes 상태 근거");
   ("metrics",
    "메트릭 근거");
   ("metrics:telemetry_metrics",
    "메트릭 근거");
   ("logs",
    "관련 Pod 로그");
   ("logs:related_logs",
    "관련 Pod 로그");
   ("traces",
    "trace 근거");
   ("traces:related_traces",
    "trace 근거");
   ("metadata",
    "metadata 근거");
   ("metadata:current_workload_snapshot",
    "대상 Workload 상세 snapshot");
   ("metadata:current_workload_snapshots",
    "Workload snapshot 목록");
   ("metadata:referenced_config_objects",
    "ConfigMap/Secret reference 상태");
   ("metadata:resource_quotas",
    "Namespace ResourceQuota 상태");
   ("metadata:change_context",
    "최근 변경 이력");
   ("matching_cause_rule",
    "대표 증상에 맞는 RCA rule");
   ("gitops_authority_context",
    "GitOps 권위 context");
   ("matching_gitops_authority_context",
    "대상과 일치하는 GitOps 권위 context");
   ("patchable_authority_snapshot",
    "patch 생성 가능한 GitOps snapshot");
   ("supported_patch_action",
    "지원 가능한 Safe PR patch action");
   ("manifest_patch",
    "구체적인 manifest patch")].

Definition RETRYABLE_RECOVERY_REASON_CODES : list string :=
  ["gitops_authority_unavailable";
   "gitops_authority_mismatch";
   "safe_pr_patch_missing";
   "safe_pr_patch_unsupported";
   "safe_pr_preflight_failed";
   "safe_pr_preflight_unavailable";
   "pre_recovery_continuity_baseline_missing";
   "pre_recovery_sli_baseline_missing";
   "recovery_verification_prerequisites_missing"].

Definition followup_summary (reason_code fallback : string) : string :=
  default fallback (dict_get FOLLOWUP_SUMMARIES reason_code).

Definition missing_evidence_label (source : string) : string :=
  match dict_get MISSING_EVIDENCE_LABELS source with
  | Some label => label
  | None =>
      if starts_with "signal:" source
      then "판별 신호(" +:+ replace_char "_" " " (str_drop 7 source) +:+ ")"
      else
        let '(evidence_source, found, evidence_name) := partition_char ":" source in
        if (found : bool)
        then evidence_source +:+ " " +:+ replace_char "_" " " evidence_name +:+ " 근거"
        else source
  end.

Definition collect_actions_for_missing (missing_evidence : list string) : list dict :=
  (fun source =>
     [("action_type", VStr "collect_evidence"); ("source", VStr source);
      ("query_id", VStr ("collect_" +:+ source));
      ("description", VStr (missing_evidence_label source +:+ "를 수집한 뒤 RCA 평가를 재실행합니다."))])
    <$> missing_evidence.

Definition normalize_next_actions (next_actions : list dict) (missing_evidence : list string)
    : list dict :=
  match next_actions, missing_evidence with
  | [], [] =>
      [[("action_type", VStr "manual_review");
        ("description", VStr "자동 후속 조치를 결정할 정보가 부족해 운영자 검토가 필요합니다.")]]
  | [], _ => collect_actions_for_missing missing_evidence
  | _, _ => next_actions
  end.

Section tracking.
Context `{ReprLib} `{IsoTime} `{Sha256}.

Definition recovery_approval_identity (plan_id action_id : string) : string :=
  "approval-" +:+ str_take 32
    (sha256_hexdigest (utf8_encode (plan_id +:+ "|" +:+ action_id +:+ "|recovery-action"))).

Definition recovery_approval_record (rd : readers) (r : plan_row) (ws : string) : dict :=
  let plan := strip (plan_id r) in
  let action := opt_text (selected_action_id r) in
  if is_empty plan || is_empty action then []
  else mapping (get_workflow_approval rd (recovery_approval_identity plan action) ws).

(** The baselines of the verification, from the approved parameters and the
    evidence collected for the incident. *)
Record baselines := {
  failure_ratio : option float;
  failure_identity : option dict;
  request_rate : option float;
  request_identity : option dict;
  load_tolerance : float;
  protected_before : list dict;
  protected_baseline : list dict;
  session_baseline : list dict;
  before : dict;
  threshold : option float;
  expected_replicas : option Z;
  cadence : option Z;
}.

Definition collect_baselines (rd : readers) (ws correlation incident : string) (now : Z)
    (params target : dict) : res baselines :=
  let original := mapping (get_evidence_payload rd ws correlation "rca_bundle") in
  failure ← metric_sample_with_identity original "kyro_sli_failure_ratio" target [];
  rate ← metric_sample_with_identity original "kyro_sli_request_rate" target [];
  approved_failure ← finite_float (get params "verification_failure_ratio_before");
  let failure_ratio := or_collected approved_failure (fst <$> failure) in
  let failure_identity :=
    identity_of (mapping (get params "verification_failure_ratio_metric_identity")) (snd <$> failure) in
  approved_rate ← finite_float (get params "verification_request_rate_baseline");
  let request_rate := or_collected approved_rate (fst <$> rate) in
  let request_identity :=
    identity_of (mapping (get params "verification_request_rate_metric_identity")) (snd <$> rate) in
  tolerance ← bounded_ratio (VStr (env rd RECOVERY_LOAD_TOLERANCE_RATIO_ENV "0.2")) (flit "0.2");
  protected ← protected_workloads original target VNone;
  let protected := default [] protected in
  let sessions := dict_items (get params "protected_session_baseline") in
  before ← (match mapping (get params "verification_alert_before") with
            | [] =>
                let ids := isort String.leb (unique_first (keep nonempty [correlation; incident])) in
                before_alert_snapshot
                  (list_alert_events rd ws STANDARD_SLI_ALERT_NAME "alertmanager" ids 10) target
                  correlation incident (VDict <$> failure_identity)
            | approved => Ok approved
            end);
  let before := dict_update before
    [("captured_at", VStr (isoformat now)); ("failure_ratio", opt_float failure_ratio);
     ("request_rate", opt_float request_rate); ("metrics_evidence_ref", get original "object_ref");
     ("protected_workloads", VList (VDict <$> protected));
     ("protected_active_sessions", VList (VDict <$> sessions))] in
  replicas ← nonnegative_int (get params "expected_replicas");
  approved_cadence ← nonnegative_int (get params "verification_evidence_cadence_seconds");
  cadence ← (match approved_cadence with
             | Some c => Ok (Some c)
             | None =>
                 let registration := get_cluster_registration rd ws (text_value (get target "cluster_id")) in
                 nonnegative_int (get (mapping (get (mapping registration) "settings"))
                                    "evidence_interval_seconds")
             end);
  threshold ← finite_float (get before "threshold");
  Ok {| failure_ratio := failure_ratio; failure_identity := failure_identity;
        request_rate := request_rate; request_identity := request_identity;
        load_tolerance := tolerance; protected_before := protected;
        protected_baseline := dict_items (get params "protected_baseline");
        session_baseline := sessions; before := before; threshold := threshold;
        expected_replicas := replicas; cadence := cadence |}.

Definition requires_continuity (params : dict) : bool :=
  str_eqb (text_value (get params "verification_contract")) "protected_workload_continuity".

Definition missing_prerequisites (b : baselines) (params : dict) (changes : list dict) : list string :=
  let when (c : bool) (s : string) := if c then [s] else [] in
  isort String.leb (unique_first (
    (if requires_continuity params
        && (bool_decide (protected_baseline b = []) || bool_decide (session_baseline b = []))
     then ["metadata:current_workload_snapshots"; "metrics:kyro_continuity_active_sessions"] else [])
    ++ when (bool_decide (failure_ratio b = None)) "metrics:kyro_sli_failure_ratio"
    ++ when (missing_identity (failure_identity b)) "metrics:kyro_sli_failure_ratio_identity"
    ++ when (match request_rate b with None => true | Some f => fleb f fzero end)
         "metrics:kyro_sli_request_rate"
    ++ when (missing_identity (request_identity b)) "metrics:kyro_sli_request_rate_identity"
    ++ when (negb (is_true (get (before b) "available")) || bool_decide (threshold b = None))
         "alertmanager:original_exact_alert"
    ++ when (bool_decide (expected_replicas b = None)) "gitops:approved_replica_baseline"
    ++ when (bool_decide (changes = [])) "gitops:approved_change_contract"
    ++ when (match cadence b with None => true | Some c => c <=? 0 end) "cluster:evidence_cadence")).

Definition pr_lifecycle (evt : SafePrCreatedBody) (target : dict) (now : Z) (attempt_id : string) : dict :=
  [("url", VStr (pr_url evt)); ("number", opt_int (pr_number evt)); ("node_id", VStr (pr_node_id evt));
   ("head_ref", VStr (head_ref evt)); ("head_sha", VStr (head_sha evt));
   ("repo_ref", VStr (repo_ref evt)); ("repository_id", VStr (repository_id evt));
   ("binding_id", VStr (binding_id evt)); ("application_id", VStr (application_id evt));
   ("base_branch", VStr (base_branch evt)); ("manifest_path", VStr (manifest_path evt));
   ("environment", VStr (environment evt)); ("cluster_id", get target "cluster_id");
   ("patch_sha256", VStr (patch_sha256 evt)); ("tracked_at", VStr (isoformat now))]
  ++ (if nonempty attempt_id then [("attempt_id", VStr attempt_id)] else []).

Definition tracked_lifecycle (rd : readers) (evt : SafePrCreatedBody) (current params target : dict)
    (b : baselines) (changes : list dict) (now : Z) : dict :=
  let '(minimum, maximum) := verification_window_seconds rd in
  let attempt := mapping (get current "attempt") in
  let missing := missing_prerequisites b params changes in
  [("phase", VStr RECOVERY_STATUS_PR_OPEN);
   ("attempt", VDict attempt);
   ("pr", VDict (pr_lifecycle evt target now (text_value (get attempt "id"))));
   ("verification", VDict
      [("minimum_seconds", VInt minimum); ("maximum_seconds", VInt maximum);
       ("expected", VDict
          [("failure_ratio_max", opt_float (threshold b));
           ("request_rate_baseline", opt_float (request_rate b));
           ("request_rate_tolerance_ratio", VFloat (load_tolerance b));
           ("replicas", opt_int (expected_replicas b));
           ("failure_ratio_metric_identity", opt_dict (failure_identity b));
           ("request_rate_metric_identity", opt_dict (request_identity b));
           ("evidence_cadence_seconds", opt_int (cadence b));
           ("protected_workloads",
            VInt (if requires_continuity params then Z.of_nat (length (protected_baseline b)) else 0))]);
       ("before", VDict (before b));
       ("protected_baseline", VList (VDict <$> protected_baseline b));
       ("protected_session_baseline", VList (VDict <$> session_baseline b));
       ("target", VDict target);
       ("status", VStr (if bool_decide (missing = []) then "waiting_for_merge" else "merge_blocked"));
       ("blockers", VList (VStr <$> missing))]);
   ("authorization", VDict [("target", VDict target); ("changes", VList (VDict <$> changes))])].

Definition identity_followup (evt : SafePrCreatedBody) (r : plan_row) (summary : string) : feedback :=
  RcaFollowupRequired "safe_pr_identity_incomplete" summary
    (if nonempty (row_evidence_ref r) then row_evidence_ref r else "unknown") (evt_workspace_id evt)
    [[("action_type", VStr "recreate_safe_pr");
      ("description", VStr "GitHub PR immutable identity를 다시 확보한 뒤 복구 PR을 재생성합니다.")]]
    [("plan_id", VStr (plan_id r)); ("action_id", opt_str (selected_action_id r));
     ("pr_url", VStr (pr_url evt)); ("retryable", VBool true)].

(** [now] is the database's clock, read by the handler and set by the update. *)
Definition on_recovery_safe_pr_created (t : table) (rd : readers) (evt : SafePrCreatedBody)
    (correlation : string) (now : Z) : res (table * list feedback) :=
  match get_recovery_plan_by_correlation t correlation (evt_workspace_id evt) with
  | None => Ok (t, [])
  | Some r =>
      let selected := selected_recovery_candidate r in
      if negb (str_eqb (row_status r) RECOVERY_STATUS_SELECTED)
         || bool_decide (selected = [])
         || negb (str_eqb (text_value (get selected "route")) SAFE_PR_ROUTE)
      then Ok (t, [])
      else
        let params := selected_candidate_params (recovery_approval_record rd r (evt_workspace_id evt)) in
        let changes := approved_change_contract (get params "authorized_changes") in
        match safe_pr_identity_error evt params with
        | Some summary =>
            let '(t, reopened) := reopen_recovery_plan_action t (plan_id r) (evt_workspace_id evt)
              (default "" (selected_action_id r)) now in
            Ok (t, if reopened then [identity_followup evt r summary] else [])
        | None =>
            let target := selected_recovery_target (payload r) selected in
            b ← collect_baselines rd (evt_workspace_id evt) correlation (incident_id r) now params target;
            let lifecycle := tracked_lifecycle rd evt (lifecycle_of r) params target b changes now in
            let '(t, saved) := update_recovery_plan_lifecycle_if_status t (plan_id r)
              (evt_workspace_id evt) [RECOVERY_STATUS_SELECTED] RECOVERY_STATUS_PR_OPEN lifecycle
              false now in
            Ok (t, match saved with
                   | None => []
                   | Some _ =>
                       [RecoveryPrTracked (plan_id r) (incident_id r) (pr_url evt) (repository_id evt)
                          (repo_ref evt) (binding_id evt) (application_id evt) (base_branch evt)
                          (evt_workspace_id evt)]
                   end)
        end
  end.

(** ** The pull request that could not be created *)

Definition failed_safe_pr_recovery_identity (t : table) (rd : readers) (evt : SafePrFailedBody)
    (correlation : string) : option (string * string) :=
  let approved :=
    match get (f_details evt) "approval_ref" with
    | VStr s =>
        if nonempty (strip s) then
          let details := mapping (get (mapping (get_workflow_approval rd (strip s) (f_workspace_id evt)))
                                    "details") in
          let plan := text_value (get details "recovery_plan_id") in
          let action := text_value (get details "recovery_action_id") in
          if nonempty plan && nonempty action then Some (plan, action) else None
        else None
    | _ => None
    end in
  match approved with
  | Some identity => Some identity
  | None =>
      match get_recovery_plan_by_correlation t correlation (f_workspace_id evt) with
      | Some r =>
          let plan := strip (plan_id r) in
          let action := opt_text (selected_action_id r) in
          if str_eqb (row_status r) RECOVERY_STATUS_SELECTED && nonempty plan && nonempty action
          then Some (plan, action) else None
      | None => None
      end
  end.

Definition on_recovery_safe_pr_failed (t : table) (rd : readers) (evt : SafePrFailedBody)
    (correlation : string) (now : Z) : table * list feedback :=
  match failed_safe_pr_recovery_identity t rd evt correlation,
        get_recovery_plan_by_correlation t correlation (f_workspace_id evt) with
  | Some (plan, action), Some r =>
      if negb (str_eqb (strip (plan_id r)) plan)
         || negb (str_eqb (row_status r) RECOVERY_STATUS_SELECTED)
         || negb (str_eqb (opt_text (selected_action_id r)) action)
      then (t, [])
      else
        let lifecycle := dict_update (lifecycle_of r)
          [("phase", VStr "failed");
           ("failure", VDict
              [("stage", VStr "safe_pr"); ("reason_code", VStr (f_reason_code evt));
               ("reason", VStr (f_reason evt)); ("provider_stage", VStr (f_stage evt));
               ("approval_ref", VStr (text_value (get (f_details evt) "approval_ref")));
               ("workflow_run_id", VStr (f_workflow_run_id evt));
               ("commit_sha", VStr (f_commit_sha evt)); ("evidence_ref", VStr (f_evidence_ref evt))])] in
        let '(t, failed) := update_recovery_plan_lifecycle_if_status t plan (f_workspace_id evt)
          [RECOVERY_STATUS_SELECTED] RECOVERY_STATUS_FAILED lifecycle false now in
        (t, match failed with
            | None => []
            | Some _ =>
                [RcaFollowupRequired (f_reason_code evt) (followup_summary (f_reason_code evt) (f_reason evt))
                   (if nonempty (f_evidence_ref evt) then f_evidence_ref evt else "unknown")
                   (f_workspace_id evt)
                   [[("action_type", VStr "retry_recovery_action");
                     ("description", VStr "차단 원인을 해결한 뒤 저장된 복구 조치를 최신 권위 context로 다시 시도합니다.")]]
                   (dict_update (f_details evt)
                      [("plan_id", VStr plan); ("action_id", VStr action);
                       ("source_event", VStr "safe_pr.failed"); ("agent_safe", VBool true);
                       ("retryable", VBool true)])]
            end)
  | _, _ => (t, [])
  end.

Definition reopen_recovery_selection (t : table) (workspace correlation : string) (diagnostics : dict)
    (now : Z) : table * bool :=
  let plan := text_value (get diagnostics "plan_id") in
  let action := text_value (get diagnostics "action_id") in
  if is_empty plan || is_empty action then (t, true)
  else
    let '(t, reopened) := reopen_recovery_plan_action t plan workspace action now in
    if (reopened : bool) then (t, true)
    else (t, match get_recovery_plan_by_correlation t correlation workspace with
             | Some r => str_eqb (strip (plan_id r)) plan
                         && str_eqb (row_status r) RECOVERY_STATUS_SELECTION_REQUESTED
                         && bool_decide (selected_action_id r = None)
             | None => false
             end).

Definition on_rca_action_required (t : table) (evt : RecoveryDispatch.RcaActionRequiredBody)
    (correlation : string) (now : Z) : table * list feedback :=
  let ws := RecoveryDispatch.ar_workspace_id evt in
  let code := RecoveryDispatch.ar_reason_code evt in
  let '(t, allowed) :=
    if bool_decide (code ∈ RETRYABLE_RECOVERY_REASON_CODES)
    then reopen_recovery_selection t ws correlation (RecoveryDispatch.ar_diagnostics evt) now
    else (t, true) in
  (t, if (allowed : bool) then
        [RcaFollowupRequired code (followup_summary code (RecoveryDispatch.ar_reason evt))
           (RecoveryDispatch.ar_evidence_ref evt) ws
           (normalize_next_actions (RecoveryDispatch.ar_next_actions evt)
              (RecoveryDispatch.ar_missing_evidence evt))
           (dict_update (RecoveryDispatch.ar_diagnostics evt)
              [("source_event", VStr "rca.action_required"); ("agent_safe", VBool true)])]
      else []).

(** ** The approvals *)

(** The columns of the approval table that matter here
    ([domains/gitops/repository.py]), keyed by [approval_id]. *)
Record approval := { a_workspace : string; a_status : string; a_details : dict }.

Definition GRANTED : string := "granted".
Definition OPEN_APPROVAL_STATUSES : list string := ["requested"; "not_required"].

(** The insert of [request_workflow_approval]; on conflict only an open
    approval is written. *)
Definition request_workflow_approval (approvals : gmap string approval) (approval_id : string)
    (a : approval) : gmap string approval :=
  match approvals !! approval_id with
  | None => <[approval_id := a]> approvals
  | Some old =>
      if bool_decide (a_status old ∈ OPEN_APPROVAL_STATUSES)
      then <[approval_id := {| a_workspace := a_workspace old; a_status := a_status a;
                               a_details := a_details a |}]> approvals
      else approvals
  end.

Definition stored_approval (approvals : gmap string approval) (approval_id ws : string) : pyval :=
  match approvals !! approval_id with
  | Some a =>
      if str_eqb (a_workspace a) ws
      then VDict [("approval_id", VStr approval_id); ("workspace_id", VStr ws);
                  ("status", VStr (a_status a)); ("details", VDict (a_details a))]
      else VNone
  | None => VNone
  end.

(** [recovery_approval_id] and [recovery_retry_approval_id] of the router. *)
Definition recovery_approval_id : string -> string -> string := recovery_approval_identity.
Definition recovery_retry_approval_id (plan_id action_id : string) (attempt : Z) : string :=
  "approval-" +:+ str_take 32 (sha256_hexdigest (utf8_encode
    (plan_id +:+ "|" +:+ action_id +:+ "|safe-pr-retry|" +:+ str_of_int attempt))).

(** The part of [selected.to_body()] that is read back. *)
Definition candidate_body (c : RecoveryReplacements.RecoveryActionCandidate) : dict :=
  let d := RecoveryReplacements.draft c in
  [("action_id", VStr (RecoveryReplacements.action_id c));
   ("route", VStr (RecoveryReplacements.route c));
   ("draft", VDict
      [("action_type", VStr (RecoveryReplacements.action_type d));
       ("namespace", VStr (RecoveryReplacements.d_namespace d));
       ("resource_kind", VStr (RecoveryReplacements.d_resource_kind d));
       ("resource_name", VStr (RecoveryReplacements.d_resource_name d));
       ("params", VDict (RecoveryReplacements.params d))])].

Definition recovery_approval_payload (plan_id ws approval_ref policy_decision_ref : string)
    (c : RecoveryReplacements.RecoveryActionCandidate) : approval :=
  {| a_workspace := ws; a_status := GRANTED;
     a_details :=
       [("approval_ref", VStr approval_ref); ("policy_decision_ref", VStr policy_decision_ref);
        ("recovery_plan_id", VStr plan_id);
        ("recovery_action_id", VStr (RecoveryReplacements.action_id c));
        ("selected_candidate", VDict (candidate_body c))] |}.

(** ** The contract *)

(** A text that neither starts nor ends with space. *)
Definition solid (s : string) : Prop :=
  exists a b c d, s = String a b /\ is_space a = false /\ s = c +:+ String d "" /\ is_space d = false.

Lemma rstrip_last s d : is_space d = false -> rstrip (s +:+ String d "") = s +:+ String d "".
Proof.
  intros Hd. induction s as [|c s IH]; cbn; [by rewrite Hd|]. rewrite IH. by destruct s.
Qed.

Lemma solid_strip s : solid s -> strip s = s.
Proof.
  intros (a & b & c & d & -> & Ha & Hd & Hs). unfold strip. cbn [lstrip]. rewrite Ha, Hd. by apply rstrip_last.
Qed.

Lemma key_chars s k r : SourcePatch.span_key s = (k, r) -> all_chars SourcePatch.is_key_char k = true.
Proof.
  revert k r. induction s as [|c s IH]; intros k r; cbn; [by intros [= <- <-]|].
  destruct (SourcePatch.is_key_char c) eqn:E; [|by intros [= <- <-]].
  destruct (SourcePatch.span_key s) as [k' r'] eqn:Es. intros [= <- <-]. cbn. rewrite E. by eapply IH.
Qed.

Lemma key_char_solid c : SourcePatch.is_key_char c = true -> is_space c = false.
Proof. destruct c as [[] [] [] [] [] [] [] []]; vm_compute; congruence. Qed.

Lemma str_last a b : exists s c, String a b = s +:+ String c "".
Proof.
  revert a. induction b as [|x b IH]; intros a; [by exists "", a|].
  destruct (IH x) as (s & c & ->). by exists (String a s), c.
Qed.

Lemma all_chars_last p s c : all_chars p (s +:+ String c "") = true -> p c = true.
Proof. rewrite all_chars_app. cbn. by intros [_ [? _]%andb_true_iff]%andb_true_iff. Qed.

Lemma segment_solid raw k n : SourcePatch.FIELD_PATH_SEGMENT_PATTERN raw = Some (k, n) -> solid raw.
Proof.
  intros Hp. pose proof (SourcePatch.segment_pattern_print _ _ _ Hp) as Hraw.
  unfold SourcePatch.FIELD_PATH_SEGMENT_PATTERN in Hp.
  destruct (SourcePatch.span_key raw) as [key r] eqn:E. apply key_chars in E.
  destruct (is_empty key) eqn:Ee; [done|].
  assert (k = key) as -> by (case_all; congruence). clear Hp.
  destruct key as [|a b]; [done|].
  assert (is_space a = false) as Ha by (cbn in E; apply andb_true_iff in E as [? _]; by apply key_char_solid).
  unfold SourcePatch.print_segment in Hraw. cbn [SourcePatch.seg_key SourcePatch.selected_name] in Hraw.
  destruct n as [n|]; subst raw.
  - exists a, (b +:+ "[name=" +:+ n +:+ "]"), (String a b +:+ "[name=" +:+ n), "]"%char.
    split; [done|]. split; [done|]. split; [|done]. by rewrite !str_app_assoc.
  - rewrite str_app_nil_r. destruct (str_last a b) as (c & d & Hcd).
    exists a, b, c, d. split; [done|]. split; [done|]. split; [done|].
    apply key_char_solid. apply (all_chars_last _ c). by rewrite <- Hcd.
Qed.

Lemma join_solid ws : ws <> [] -> Forall solid ws -> solid (join "." ws).
Proof.
  intros Hne Hall. induction Hall as [|w ws Hw Hall IH]; [done|]. destruct ws as [|w' ws]; [done|].
  destruct IH as (a' & b' & c' & d' & _ & _ & Hd' & Hs'); [done|].
  destruct Hw as (a & b & c & d & -> & Ha & _ & _).
  change (solid (String a b +:+ "." +:+ join "." (w' :: ws))). rewrite Hd'.
  exists a, (b +:+ "." +:+ c' +:+ String d' ""), (String a b +:+ "." +:+ c'), d'.
  split; [done|]. split; [done|]. split; [|done]. by rewrite !str_app_assoc.
Qed.

Lemma field_path_stripped p : SourcePatch.field_path_segments p <> [] -> strip p = p.
Proof.
  intros Hne. apply solid_strip.
  unfold SourcePatch.field_path_segments, SourcePatch.field_path_parts in Hne.
  destruct (SourcePatch.field_path_parts_go p 0 "") as [parts|] eqn:E; [|done].
  apply SourcePatch.field_path_parts_go_join in E as [Hp Hj]. change ("" +:+ p) with p in Hj.
  rewrite <- Hj. apply join_solid; [done|].
  cbn in Hne. destruct (SourcePatch.segments_of_parts parts) as [segs|] eqn:Es; [|done].
  clear Hp Hne Hj. revert segs Es. induction parts as [|raw parts IH]; intros segs; [by constructor|]. cbn.
  destruct (SourcePatch.FIELD_PATH_SEGMENT_PATTERN raw) as [[k n]|] eqn:Er; [|done].
  case_match; [done|]. destruct (SourcePatch.segments_of_parts parts) as [ss|]; [|done]. intros [= <-].
  constructor; [by eapply segment_solid|by eapply IH].
Qed.

(** One change of the contract, as the lifecycle stores it. *)
Definition change_dict (item : SourcePatch.ScalarFieldReplacement) : dict :=
  [("field_path", VStr (SourcePatch.field_path item));
   ("current_value", SourcePatch.current_value item);
   ("desired_value", SourcePatch.desired_value item)].

Definition contract_entry (item : SourcePatch.ScalarFieldReplacement) : string * (pyval * pyval) :=
  (SourcePatch.field_path item, (SourcePatch.current_value item, SourcePatch.desired_value item)).

Definition paths_ok (rs : list SourcePatch.ScalarFieldReplacement) : Prop :=
  Forall (fun item => SourcePatch.field_path_segments (SourcePatch.field_path item) <> []) rs.

Lemma path_nonempty p : SourcePatch.field_path_segments p <> [] -> p <> "".
Proof. intros Hp ->. by apply Hp. Qed.

Lemma contract_fold rs paths changes :
  paths_ok rs -> NoDup (SourcePatch.field_path <$> rs) ->
  (forall item, item ∈ rs -> SourcePatch.field_path item ∉ paths) ->
  exists paths', fold_left contract_step (RecoveryDispatch.authorized_change <$> rs) (Some (paths, changes))
    = Some (paths', changes ++ (change_dict <$> rs)).
Proof.
  revert paths changes. induction rs as [|item rs IH]; intros paths changes Hok Hnd Hfresh.
  { exists paths. cbn. by rewrite app_nil_r. }
  apply Forall_cons in Hok as [Hp Hok]. cbn in Hnd. apply NoDup_cons in Hnd as [Hni Hnd].
  cbn [fmap list_fmap fold_left]. unfold contract_step at 2, RecoveryDispatch.authorized_change at 2.
  change (text_value (get _ "field_path")) with (strip (SourcePatch.field_path item)).
  rewrite field_path_stripped by done.
  assert (is_empty (SourcePatch.field_path item) = false) as ->
    by (apply not_true_is_false; intros Hx%is_empty_eq; by apply path_nonempty in Hp).
  rewrite bool_decide_false by (apply Hfresh; set_solver). cbn [orb has_key negb].
  destruct (IH (SourcePatch.field_path item :: paths) (changes ++ [change_dict item])) as [ps Hps]; [done|done| |].
  { intros x Hx. apply not_elem_of_cons. split; [|apply Hfresh; set_solver].
    intros Heq. apply Hni. rewrite <- Heq. by apply list_elem_of_fmap_2. }
  exists ps. etransitivity; [exact Hps|]. by rewrite <- app_assoc.
Qed.

(** The worker's reading of the authorised changes keeps them as they are. *)
Lemma contract_of_patch rs :
  paths_ok rs -> NoDup (SourcePatch.field_path <$> rs) ->
  approved_change_contract (VList (RecoveryDispatch.authorized_change <$> rs)) = change_dict <$> rs.
Proof.
  intros Hok Hnd. destruct (contract_fold rs [] [] Hok Hnd) as [ps Hps]; [set_solver|].
  unfold approved_change_contract. by rewrite Hps.
Qed.

Lemma contract_merge_fold rs acc :
  Forall (fun item => SourcePatch.field_path_segments (SourcePatch.field_path item) <> [] /\
    SourcePatch.scalar_value (SourcePatch.current_value item) = true /\
    SourcePatch.scalar_value (SourcePatch.desired_value item) = true /\
    SourcePatch.same_scalar (SourcePatch.current_value item) (SourcePatch.desired_value item) = false) rs ->
  NoDup (acc.*1 ++ (SourcePatch.field_path <$> rs)) ->
  fold_left RecoveryMerge.approve_change (VDict <$> (change_dict <$> rs)) (Some acc)
  = Some (acc ++ (contract_entry <$> rs)).
Proof.
  revert acc. induction rs as [|item rs IH]; intros acc Hall Hnd; cbn [fmap list_fmap fold_left].
  { by rewrite app_nil_r. }
  apply Forall_cons in Hall as [(Hp & Hc & Hd & Hne) Hall]. unfold RecoveryMerge.approve_change at 2.
  change (RecoveryMerge.text (get (change_dict item) "field_path"))
    with (if truthy (VStr (SourcePatch.field_path item)) then strip (SourcePatch.field_path item) else "").
  change (get (change_dict item) "current_value") with (SourcePatch.current_value item).
  change (get (change_dict item) "desired_value") with (SourcePatch.desired_value item).
  rewrite field_path_stripped by done.
  assert (is_empty (SourcePatch.field_path item) = false) as He
    by (apply not_true_is_false; intros Hx%is_empty_eq; by apply path_nonempty in Hp).
  assert (truthy (VStr (SourcePatch.field_path item)) = true) as ->.
  { cbn. destruct (SourcePatch.field_path item); done. }
  assert (SourcePatch.field_path item ∉ acc.*1) as Hni.
  { apply NoDup_app in Hnd as (_ & Hdis & _). intros Hin. eapply Hdis; [exact Hin|]. set_solver. }
  assert (has_key acc (SourcePatch.field_path item) = false) as ->
    by (apply not_true_is_false; by rewrite has_key_elem).
  rewrite He, Hc, Hd, Hne, bool_decide_false by done. cbn [orb negb]. rewrite dict_set_fresh by done.
  rewrite IH; [by rewrite <- app_assoc|done|]. rewrite fmap_app. cbn. by rewrite <- app_assoc.
Qed.

(** The contract the merge authorisation reads from a lifecycle that carries
    the changes of an approved plan. *)
Lemma lifecycle_contract plan payload target lifecycle :
  SourcePatch.approved_plan plan ->
  get payload "lifecycle" = VDict lifecycle ->
  get lifecycle "authorization" = VDict [("target", target);
    ("changes", VList (VDict <$> (change_dict <$> SourcePatch.replacements plan)))] ->
  RecoveryMerge.approved_change_contract payload = Some (contract_entry <$> SourcePatch.replacements plan).
Proof.
  intros Hp Hl Ha. unfold RecoveryMerge.approved_change_contract. rewrite Hl. cbn [mapping]. rewrite Ha.
  cbn [mapping]. change (get (("target", target) :: ?l) "changes") with (get l "changes").
  change (get [("changes", VList (VDict <$> (change_dict <$> SourcePatch.replacements plan)))] "changes")
    with (VList (VDict <$> (change_dict <$> SourcePatch.replacements plan))). cbv iota.
  rewrite !length_fmap. pose proof (SourcePatch.pl_count _ Hp) as [Hlo Hhi].
  rewrite (proj2 (Nat.leb_le 1 _)), (proj2 (Nat.leb_le _ 4)) by done. cbn [andb].
  rewrite contract_merge_fold; [done| |exact (SourcePatch.pl_targets _ Hp)].
  eapply Forall_impl; [exact (SourcePatch.pl_items _ Hp)|]. by intros item [].
Qed.

(** ** What tracking guarantees *)

Lemma by_correlation_elem t correlation ws r :
  get_recovery_plan_by_correlation t correlation ws = Some r ->
  exists k, t !! k = Some r /\ correlation_id r = correlation /\ workspace_id r = ws.
Proof.
  unfold get_recovery_plan_by_correlation. intros Hh.
  assert (r ∈ isort newer (keep (fun r => str_eqb (correlation_id r) correlation
     && str_eqb (workspace_id r) ws) (map_to_list t).*2)) as Hin
    by (destruct (isort newer _); [done|]; cbn in Hh; injection Hh as ->; set_solver).
  apply elem_of_isort, elem_of_keep in Hin as [Hin [?%str_eqb_eq ?%str_eqb_eq]%andb_true_iff].
  apply list_elem_of_fmap in Hin as ([k r'] & -> & Hin%elem_of_map_to_list). by exists k.
Qed.

(** The pull request is the one the approved parameters speak of. *)
Definition pr_bound (evt : SafePrCreatedBody) (params : dict) : Prop :=
  mode evt = "github_rest" /\ starts_with "https://" (pr_url evt) = true /\
  (exists n, pr_number evt = Some n /\ 0 < n) /\ pr_node_id evt <> "" /\ head_ref evt <> "" /\
  SourcePatch.is_git_sha (head_sha evt) = true /\
  Forall (fun kv => text_value (get params kv.1) = kv.2) (expected_identity evt).

Lemma identity_error_None evt params :
  safe_pr_identity_error evt params = None <-> pr_bound evt params.
Proof.
  unfold safe_pr_identity_error, pr_bound, pr_incomplete, GITHUB_SHA_RE. split.
  - destruct (_ || _) eqn:E; [done|].
    rewrite !orb_false_iff, !negb_false_iff, str_eqb_eq in E.
    destruct E as [[[[[-> Hu] Hn] Hnode] Hhead] Hsha].
    destruct (existsb _ _) eqn:Ex; [done|]. intros _. split; [done|]. split; [done|].
    split; [destruct (pr_number evt) as [n|]; [exists n; split; [done|lia]|done]|].
    split; [intros Hx; by rewrite Hx in Hnode|]. split; [intros Hx; by rewrite Hx in Hhead|].
    split; [done|]. apply Forall_forall. intros kv Hkv.
    apply not_true_iff_false in Ex. destruct (str_eqb (text_value (get params kv.1)) kv.2) eqn:Ek;
      [by apply str_eqb_eq|]. destruct Ex. apply existsb_elem. exists kv. by rewrite Ek.
  - intros (-> & -> & (n & -> & Hn) & Hnode & Hhead & -> & Hall).
    rewrite (proj2 (Z.leb_gt n 0)) by lia.
    destruct (pr_node_id evt); [done|]. destruct (head_ref evt); [done|]. cbn [str_eqb negb orb is_empty].
    change (str_eqb "github_rest" "github_rest") with true. cbn [negb orb].
    assert (existsb (fun kv => negb (str_eqb (text_value (get params kv.1)) kv.2)) (expected_identity evt)
            = false) as ->; [|done].
    apply not_true_is_false. intros (kv & Hkv & Hne)%existsb_elem. rewrite Forall_forall in Hall.
    by rewrite (proj2 (str_eqb_eq _ _) (Hall kv Hkv)) in Hne.
Qed.

(** When the handler tracks the pull request: what it read and wrote. *)
Lemma tracked_inv t rd evt correlation now t' plan incident url repo ref binding app base ws rest :
  on_recovery_safe_pr_created t rd evt correlation now
    = Ok (t', RecoveryPrTracked plan incident url repo ref binding app base ws :: rest) ->
  exists r b, get_recovery_plan_by_correlation t correlation (evt_workspace_id evt) = Some r /\
    let selected := selected_recovery_candidate r in
    let params := selected_candidate_params (recovery_approval_record rd r (evt_workspace_id evt)) in
    let target := selected_recovery_target (payload r) selected in
    let lifecycle := tracked_lifecycle rd evt (lifecycle_of r) params target b
      (approved_change_contract (get params "authorized_changes")) now in
    plan = plan_id r /\ row_status r = RECOVERY_STATUS_SELECTED /\
    text_value (get selected "route") = SAFE_PR_ROUTE /\ pr_bound evt params /\ rest = [] /\
    exists r0, t !! (evt_workspace_id evt, plan_id r) = Some r0 /\
      row_status r0 = RECOVERY_STATUS_SELECTED /\
      t' = <[(evt_workspace_id evt, plan_id r) :=
              with_lifecycle r0 RECOVERY_STATUS_PR_OPEN lifecycle false now]> t.
Proof.
  unfold on_recovery_safe_pr_created.
  destruct (get_recovery_plan_by_correlation _ _ _) as [r|]; [|done].
  destruct (_ || _) eqn:E; [done|].
  apply orb_false_iff in E as [[Hst%negb_false_iff%str_eqb_eq _]%orb_false_iff Hroute%negb_false_iff%str_eqb_eq].
  destruct (safe_pr_identity_error _ _) eqn:Ei.
  { destruct (reopen_recovery_plan_action _ _ _ _ _) as [t1 []]; intros [=]. }
  apply identity_error_None in Ei. intros (b & _ & Hu)%bind_Ok.
  destruct (update_recovery_plan_lifecycle_if_status _ _ _ _ _ _ _ _) as [t1 saved] eqn:Ecas.
  destruct (cas_cases _ _ _ _ _ _ _ _ _ _ Ecas) as [[-> ->]|(r0 & Hr0 & Hin & -> & ->)]; [done|].
  injection Hu as <- <- _ _ _ _ _ _ _ _ <-. exists r, b. split; [done|]. cbn zeta.
  do 5 (split; [done|]). exists r0. apply list_elem_of_singleton in Hin. done.
Qed.

(** a pull request is bound to a recovery only when it is the approved
    one: the plan was selected on the pull-request route, the created request
    has a number, a node, a head branch and a full head commit, its repository,
    binding, application, branch and base commit are those of the stored
    approval, and the plan then waits for the merge with exactly this request
    recorded. *)
Theorem tracked_pr_is_approved t rd evt correlation now t' plan incident url repo ref binding app base ws rest :
  on_recovery_safe_pr_created t rd evt correlation now
    = Ok (t', RecoveryPrTracked plan incident url repo ref binding app base ws :: rest) ->
  exists r r', get_recovery_plan_by_correlation t correlation (evt_workspace_id evt) = Some r /\
    row_status r = RECOVERY_STATUS_SELECTED /\
    pr_bound evt (selected_candidate_params (recovery_approval_record rd r (evt_workspace_id evt))) /\
    t' !! (evt_workspace_id evt, plan) = Some r' /\ row_status r' = RECOVERY_STATUS_PR_OPEN /\
    let pr := mapping (get (lifecycle_of r') "pr") in
    get pr "url" = VStr (pr_url evt) /\ get pr "number" = opt_int (pr_number evt) /\
    get pr "node_id" = VStr (pr_node_id evt) /\ get pr "head_sha" = VStr (head_sha evt) /\
    get pr "binding_id" = VStr (binding_id evt) /\ get pr "repo_ref" = VStr (repo_ref evt).
Proof.
  intros (r & b & Hr & -> & Hst & _ & Hb & _ & r0 & _ & _ & ->)%tracked_inv.
  exists r. eexists. split; [done|]. split; [done|]. split; [done|].
  rewrite lookup_insert_eq. split; [done|]. split; [done|].
  cbn zeta. match goal with |- context [lifecycle_of (with_lifecycle ?x ?st ?lc ?cl ?n)] =>
    assert (lifecycle_of (with_lifecycle x st lc cl n) = lc) as ->;
    [unfold lifecycle_of; cbn [payload with_lifecycle]; by rewrite get_set_eq|] end.
  unfold tracked_lifecycle. destruct (verification_window_seconds rd). split_and!; reflexivity.
Qed.

(** C7: what may later be deployed is what was proposed: when the approval
    carries the authorised changes of an approved patch plan, the contract
    that the merge authorisation reads from the tracked plan is, entry by
    entry, the list of replacements of that plan. *)
Theorem tracked_contract_is_the_patch t rd evt correlation now t' pl incident url repo ref binding app base ws rest r plan :
  SourcePatch.approved_plan plan ->
  get_recovery_plan_by_correlation t correlation (evt_workspace_id evt) = Some r ->
  get (selected_candidate_params (recovery_approval_record rd r (evt_workspace_id evt))) "authorized_changes"
    = VList (RecoveryDispatch.authorized_change <$> SourcePatch.replacements plan) ->
  on_recovery_safe_pr_created t rd evt correlation now
    = Ok (t', RecoveryPrTracked pl incident url repo ref binding app base ws :: rest) ->
  exists r', t' !! (evt_workspace_id evt, plan_id r) = Some r' /\
    RecoveryMerge.approved_change_contract (payload r') = Some (contract_entry <$> SourcePatch.replacements plan).
Proof.
  intros Hp Hr Hch (r1 & b & Hr1 & -> & _ & _ & _ & _ & r0 & _ & _ & ->)%tracked_inv.
  rewrite Hr in Hr1. injection Hr1 as <-. rewrite lookup_insert_eq. eexists. split; [done|].
  rewrite Hch, contract_of_patch.
  - eapply (lifecycle_contract plan); [done| |].
    + cbn [payload with_lifecycle]. apply get_set_eq.
    + unfold tracked_lifecycle. destruct (verification_window_seconds rd). reflexivity.
  - eapply Forall_impl; [exact (SourcePatch.pl_items _ Hp)|]. by intros item [].
  - exact (SourcePatch.pl_targets _ Hp).
Qed.

(** *** Which approval is read *)

Lemma stored_params plan ws ref policy c approvals id :
  approvals !! id = Some (recovery_approval_payload plan ws ref policy c) ->
  selected_candidate_params (mapping (stored_approval approvals id ws))
  = RecoveryReplacements.params (RecoveryReplacements.draft c).
Proof.
  intros Ha. unfold stored_approval. rewrite Ha. cbn [a_workspace recovery_approval_payload].
  rewrite str_eqb_refl. reflexivity.
Qed.

(** selecting the same action again does not renew what is tracked.
    The approval of a selection is stored as granted under an id of plan and
    action alone, and a granted approval is never overwritten; the parameters
    the tracking of the next pull request reads are those of the first
    selection, whatever the second selection's preflight computed. *)
Theorem reselection_keeps_first_approval approvals plan action ws ref1 ref2 policy1 policy2 c1 c2 :
  approvals !! recovery_approval_id plan action = None ->
  let id := recovery_approval_id plan action in
  let first := request_workflow_approval approvals id (recovery_approval_payload plan ws ref1 policy1 c1) in
  let second := request_workflow_approval first id (recovery_approval_payload plan ws ref2 policy2 c2) in
  selected_candidate_params (mapping (stored_approval second id ws))
  = RecoveryReplacements.params (RecoveryReplacements.draft c1).
Proof.
  intros Hnone. cbn zeta. set (id := recovery_approval_id plan action) in *.
  assert (request_workflow_approval approvals id (recovery_approval_payload plan ws ref1 policy1 c1)
          = <[id := recovery_approval_payload plan ws ref1 policy1 c1]> approvals) as ->.
  { unfold request_workflow_approval. by rewrite Hnone. }
  unfold request_workflow_approval at 1. rewrite lookup_insert_eq.
  change (bool_decide (a_status (recovery_approval_payload plan ws ref1 policy1 c1) ∈ OPEN_APPROVAL_STATUSES))
    with false. cbv iota. eapply stored_params. by rewrite lookup_insert_eq.
Qed.

End tracking.
(** ** Tracking the pull request that scales a workload back *)

Module Sample.

Definition sha : Sha256 := RecoveryAuthority.Sample.sha.

Definition replacements : list SourcePatch.ScalarFieldReplacement :=
  [RecoveryReplacements.replacement "spec.replicas" (VInt 1) (VInt 3)].
Definition plan : SourcePatch.ManifestScalarPatchPlan :=
  RecoveryReplacements.patch_plan "replica_scale" RecoveryAuthority.Sample.context replacements.

Definition params : dict :=
  RecoveryAuthority.Sample.strs
    [("repository_id", "r-1"); ("binding_id", "b-1"); ("application_id", "a-1");
     ("repo_ref", "acme/shop"); ("base_branch", "main"); ("commit_sha", RecoveryAuthority.Sample.commit)]
  ++ [("authorized_changes", VList (RecoveryDispatch.authorized_change <$> replacements))].

Definition candidate : RecoveryReplacements.RecoveryActionCandidate :=
  RecoveryDispatch.with_params (RecoveryReplacements.Sample.candidate "replica_scale") params.

Definition row : plan_row :=
  {| row_id := 1; plan_id := "p-1"; workspace_id := "w-1"; correlation_id := "c-1";
     incident_id := "i-1"; row_evidence_ref := "e-1"; row_status := RECOVERY_STATUS_SELECTED;
     selected_action_id := Some "e-1:replica_scale"; selected_by := Some "op";
     payload := [("candidates", VList [VDict (candidate_body candidate)]);
                 ("target", VDict (RecoveryAuthority.Sample.strs
                    [("cluster_id", "k-1"); ("namespace", "shop"); ("resource_kind", "Deployment");
                     ("resource_name", "web")]))];
     updated_at := 0 |}.
Definition plans : gmap (string * string) plan_row := {[ ("w-1", "p-1") := row ]}.

Definition approval_key : string := @recovery_approval_id sha "p-1" "e-1:replica_scale".
Definition approvals : gmap string approval :=
  @request_workflow_approval ∅ approval_key
    (recovery_approval_payload "p-1" "w-1" approval_key "" candidate).

Definition rd : readers :=
  {| get_workflow_approval := stored_approval approvals;
     get_evidence_payload := fun _ _ _ => VNone;
     list_alert_events := fun _ _ _ _ _ => [];
     get_cluster_registration := fun _ _ => VNone;
     env := fun _ d => d |}.

Definition evt : SafePrCreatedBody :=
  {| pr_url := "https://github.com/acme/shop/pull/7"; mode := "github_rest"; evt_workspace_id := "w-1";
     repository_id := "r-1"; binding_id := "b-1"; application_id := "a-1"; environment := "prod";
     manifest_path := "apps/web.yaml"; repo_ref := "acme/shop"; base_branch := "main";
     commit_sha := RecoveryAuthority.Sample.commit; patch_sha256 := ""; pr_number := Some 7;
     pr_node_id := "PR_7"; head_ref := "recovery/7"; head_sha := RecoveryAuthority.Sample.commit |}.

Definition tracked : res (gmap (string * string) plan_row * list feedback) :=
  @on_recovery_safe_pr_created coded_iso sha plans rd evt "c-1" 0.
Definition tracked_plans : gmap (string * string) plan_row :=
  match tracked with Ok (t, _) => t | Err _ => ∅ end.

Lemma is_tracked :
  tracked = Ok (tracked_plans, [RecoveryPrTracked "p-1" "i-1" (pr_url evt) "r-1" "acme/shop" "b-1" "a-1"
                                  "main" "w-1"]).
Proof. vm_compute. reflexivity. Qed.

End Sample.

Lemma tracked_pr_is_approved_witness :
  exists r', Sample.tracked_plans !! ("w-1", "p-1") = Some r' /\ row_status r' = RECOVERY_STATUS_PR_OPEN.
Proof.
  destruct (@tracked_pr_is_approved coded_iso Sample.sha _ _ _ _ _ _ _ _ _ _ _ _ _ _ _ _
    Sample.is_tracked) as (r & r' & _ & _ & _ & Hr' & Hst & _).
  exists r'. by split.
Defined.

Lemma tracked_contract_is_the_patch_witness :
  exists r', Sample.tracked_plans !! ("w-1", "p-1") = Some r' /\
    @RecoveryMerge.approved_change_contract Demo.plain_repr (payload r')
      = Some [("spec.replicas", (VInt 1, VInt 3))].
Proof.
  apply (@tracked_contract_is_the_patch Demo.plain_repr coded_iso Sample.sha Sample.plans Sample.rd Sample.evt
    "c-1" 0 Sample.tracked_plans "p-1" "i-1" (pr_url Sample.evt) "r-1" "acme/shop" "b-1" "a-1" "main" "w-1" []
    Sample.row Sample.plan).
  - apply SourcePatch.validate_scalar_patch_plan_spec. vm_compute. reflexivity.
  - vm_compute. reflexivity.
  - vm_compute. reflexivity.
  - exact Sample.is_tracked.
Defined.

Lemma reselection_keeps_first_approval_witness :
  selected_candidate_params (mapping (stored_approval
    (@request_workflow_approval Sample.approvals Sample.approval_key
      (recovery_approval_payload "p-1" "w-1" "" "" (RecoveryDispatch.with_params Sample.candidate [])))
    Sample.approval_key "w-1")) = Sample.params.
Proof.
  apply (@reselection_keeps_first_approval Sample.sha ∅ "p-1" "e-1:replica_scale" "w-1" Sample.approval_key ""
    "" "" Sample.candidate (RecoveryDispatch.with_params Sample.candidate [])).
  vm_compute. reflexivity.
Defined.

End RecoveryTracking.
