(* ===== verification/RecoveryPullRequest.v ===== *)
(** * The webhook of a tracked recovery pull request

    [handle_tracked_recovery_pull_request] and its helpers of
    [src/src/domains/gitops/router.py], with the two look-ups of
    [src/src/domains/rca/repository.py] it uses: a merged pull request starts
    the deployment only when it is exactly the tracked one, a changed or closed
    one reopens the selection.  The last part puts all operations on the plan
    table together: the statuses a plan can go through. *)
From S2P Require Import Prelude PyStr PyFloat PyVal PyTime Libs Demo SourcePatch EventBody EventBodies.
From S2P Require Import RecoveryChecks RecoveryVerification RecoveryLifecycle RecoveryMerge RecoveryAuthority RecoveryReplacements RecoveryDispatch RecoveryTracking.

Module RecoveryPullRequest.
Import EventBody RecoveryLifecycle RecoveryTracking.

Notation table := (gmap (string * string) plan_row).

Section webhook.
Context `{ReprLib} `{IsoTime} `{Sha256}.

(** [str(value or "")] *)
Definition str_value (v : pyval) : string := if truthy v then py_str v else "".

Record pr_identity := {
  action : string;
  merged : bool;
  url : string;
  number : Z;
  node_id : string;
  id_repo_ref : string;
  id_base_branch : string;
  id_head_ref : string;
  id_head_sha : string;
  merge_commit_sha : string;
}.

Definition github_pull_request_identity (payload : dict) : option pr_identity :=
  match get payload "pull_request" with
  | VDict pull =>
      match get payload "repository", get pull "head", get pull "base" with
      | VDict repository, VDict head, VDict base =>
          let raw := get pull "number" in
          match (if truthy raw then raw else get payload "number") with
          | VInt n =>
              if n <=? 0 then None
              else
                let identity :=
                  {| action := str_value (get payload "action"); merged := is_true (get pull "merged");
                     url := str_value (get pull "html_url"); number := n;
                     node_id := str_value (get pull "node_id");
                     id_repo_ref := str_value (get repository "full_name");
                     id_base_branch := str_value (get base "ref");
                     id_head_ref := str_value (get head "ref");
                     id_head_sha := str_value (get head "sha");
                     merge_commit_sha := str_value (get pull "merge_commit_sha") |} in
                if nonempty (url identity) && nonempty (node_id identity)
                   && nonempty (id_repo_ref identity) && nonempty (id_base_branch identity)
                   && nonempty (id_head_ref identity) && nonempty (id_head_sha identity)
                then Some identity else None
          | _ => None
          end
      | _, _, _ => None
      end
  | _ => None
  end.

(** [column["k"].astext == s]: a JSON string is its text, a number its
    digits, JSON null and a missing key match nothing. *)
Definition astext_is (v : pyval) (s : string) : bool :=
  match v with
  | VStr t => str_eqb t s
  | VInt z => str_eqb (str_of_int z) s
  | _ => false
  end.

(** [func.lower(column["k"].astext) == s.casefold()] on a repository name. *)
Definition folded_is (v : pyval) (s : string) : bool :=
  match v with VStr t => str_eqb (casefold t) (casefold s) | _ => false end.

Definition base_matches (i : pr_identity) (r : plan_row) : bool :=
  let pr := mapping (get (lifecycle_of r) "pr") in
  str_eqb (row_status r) RECOVERY_STATUS_PR_OPEN
  && astext_is (get pr "url") (url i)
  && folded_is (get pr "repo_ref") (id_repo_ref i)
  && astext_is (get pr "base_branch") (id_base_branch i)
  && astext_is (get pr "number") (str_of_int (number i))
  && astext_is (get pr "node_id") (node_id i)
  && astext_is (get pr "head_ref") (id_head_ref i).

Definition exact_matches (i : pr_identity) (r : plan_row) : bool :=
  base_matches i r && astext_is (get (mapping (get (lifecycle_of r) "pr")) "head_sha") (id_head_sha i).

Definition find_open_recovery_plan_for_pull_request_base_identity (t : table) (i : pr_identity)
    : option plan_row := the_one (keep (base_matches i) (map_to_list t).*2).

Definition find_open_recovery_plan_for_pull_request (t : table) (i : pr_identity)
    : option plan_row := the_one (keep (exact_matches i) (map_to_list t).*2).

(** [active_github_poll_targets]: the rows that name a workspace, a repository
    and a branch. *)
Definition active_github_poll_targets (rows : list pyval) : list dict :=
  keep (fun d => nonempty (strip (str_value (get d "workspace_id")))
                 && nonempty (strip (str_value (get d "repo_ref")))
                 && nonempty (strip (str_value (get d "branch")))) (omap as_dict rows).

(** What a poll target must be for the record. *)
Definition expected_target (r : plan_row) (pr target : dict) : list (string * string) :=
  [("workspace_id", workspace_id r);
   ("repository_id", str_value (get pr "repository_id")); ("repo_ref", str_value (get pr "repo_ref"));
   ("branch", str_value (get pr "base_branch")); ("binding_id", str_value (get pr "binding_id"));
   ("application_id", str_value (get pr "application_id"));
   ("environment", str_value (get pr "environment"));
   ("cluster_id", str_value (if truthy (get pr "cluster_id") then get pr "cluster_id"
                             else get target "cluster_id"));
   ("manifest_path", str_value (get pr "manifest_path"))].

(** The repository name is compared without case, the rest exactly. *)
Definition field_agrees (candidate : dict) (kv : string * string) : bool :=
  let v := str_value (get candidate kv.1) in
  if str_eqb kv.1 "repo_ref" then str_eqb (casefold v) (casefold kv.2) else str_eqb v kv.2.

Definition exact_recovery_poll_target (targets : list pyval) (r : plan_row) : option dict :=
  match get (payload r) "lifecycle", get (payload r) "target" with
  | VDict lifecycle, VDict target =>
      match get lifecycle "pr" with
      | VDict pr =>
          let expected := expected_target r pr target in
          if existsb (fun kv => is_empty kv.2) expected then None
          else the_one (keep (fun candidate => forallb (field_agrees candidate) expected)
                          (active_github_poll_targets targets))
      | _ => None
      end
  | _, _ => None
  end.

(** ** Answers *)

Record RecoveryPrMergedBody := {
  m_plan_id : string; m_incident_id : string; m_pr_url : string; m_merge_commit_sha : string;
  m_repository_id : string; m_repo_ref : string; m_binding_id : string; m_application_id : string;
  m_workflow_run_id : string; m_cluster_id : string; m_workspace_id : string;
}.

Inductive answer :=
  | NotTracked
  | StillOpen
  | Stale
  | Blocked (missing_evidence : list string)
  | RejectedPr (e : event)
  | MergedPr (m : RecoveryPrMergedBody) (deploy : obj).

Definition reject_tracked_recovery_pull_request (t : table) (r : plan_row) (reason_code reason : string)
    (now : Z) : table * answer :=
  let lifecycle := dict_update (lifecycle_of r)
    [("phase", VStr RECOVERY_STATUS_FAILED);
     ("failure", VDict [("reason_code", VStr reason_code); ("reason", VStr reason)])] in
  let '(t, saved) := update_recovery_plan_lifecycle_if_status t (plan_id r) (workspace_id r)
    [RECOVERY_STATUS_PR_OPEN] RECOVERY_STATUS_SELECTION_REQUESTED lifecycle true now in
  (t, match saved with
      | None => Stale
      | Some _ =>
          RejectedPr (RecoveryVerificationFailed (plan_id r) (incident_id r) reason_code reason
            (if nonempty (row_evidence_ref r) then row_evidence_ref r else "unknown")
            (mapping (get (mapping (get lifecycle "verification")) "before")) [] (workspace_id r))
      end).

Definition recovery_merge_workflow_run_id (plan_id merge_commit_sha : string) : string :=
  "workflow-" +:+ str_take 32
    (sha256_hexdigest (utf8_encode (plan_id +:+ "|" +:+ merge_commit_sha +:+ "|recovery-merge"))).

Definition str_default (d : dict) (key fallback : string) : obj :=
  let v := get d key in OStr (if truthy v then py_str v else fallback).

(** [body_for_poll_target], with the run id that replaces the default. *)
Definition body_for_poll_target (target : dict) (commit_sha image correlation workflow_run_id : string)
    (replicas : Z) (force : bool) : obj :=
  let field key fallback := str_default target key fallback in
  OBody EventBodies.GitWebhookReceivedBody
    [OStr commit_sha; OStr image; OInt replicas; OStr correlation;
     field "workspace_id" EventBodies.DEFAULT_WORKSPACE_ID;
     field "repository_id" EventBodies.DEFAULT_REPOSITORY_ID;
     field "repo_ref" EventBodies.DEFAULT_REPO_REF; field "branch" EventBodies.DEFAULT_REPO_BRANCH;
     field "watch_target_id" EventBodies.DEFAULT_WATCH_TARGET_ID;
     field "binding_id" EventBodies.DEFAULT_DEPLOYMENT_BINDING_ID;
     field "application_id" EventBodies.DEFAULT_APPLICATION_ID; OStr workflow_run_id;
     field "environment" EventBodies.DEFAULT_ENVIRONMENT;
     field "cluster_id" EventBodies.DEFAULT_CLUSTER_ID;
     field "manifest_path" EventBodies.DEFAULT_MANIFEST_PATH; field "source_type" ""; OBool force].

Definition DEFAULT_WEBHOOK_REPLICAS : Z := 2.

Definition verification_blockers (lifecycle : dict) : list string :=
  match get lifecycle "verification" with
  | VDict verification =>
      match get verification "blockers" with
      | VList l => keep nonempty (py_str <$> l)
      | _ => []
      end
  | _ => []
  end.

Definition merge_record (i : pr_identity) (lifecycle pr : dict) (workflow_run_id : string) (body : obj)
    (now : Z) : dict :=
  [("pr_url", VStr (url i)); ("head_sha", VStr (id_head_sha i));
   ("merge_commit_sha", VStr (merge_commit_sha i)); ("merged_at", VStr (isoformat now));
   ("workflow_run_id", VStr workflow_run_id); ("repository_id", get pr "repository_id");
   ("binding_id", get pr "binding_id"); ("application_id", get pr "application_id");
   ("cluster_id", get pr "cluster_id");
   ("attempt_id", get (mapping (get lifecycle "attempt")) "id"); ("retry_attempt", VInt 0);
   ("deployment_request", VDict (to_body body))].

(** [str(pr[key])] *)
Definition pr_str (pr : dict) (key : string) : res string := required_str pr key.

(** The deployment of an exactly matched, merged pull request. *)
Definition start_deployment (t : table) (i : pr_identity) (r : plan_row) (target : dict)
    (image : string) (now : Z) : res (table * answer) :=
  let lifecycle := lifecycle_of r in
  match verification_blockers lifecycle with
  | (_ :: _) as blockers => Ok (t, Blocked blockers)
  | [] =>
      let pr := mapping (get lifecycle "pr") in
      match RecoveryMerge.approved_change_contract (payload r) with
      | Some _ =>
          if is_empty image || is_empty (merge_commit_sha i) then
            Ok (reject_tracked_recovery_pull_request t r "recovery_deploy_context_incomplete"
                  "merge commit 또는 GitOps webhook image가 없어 배포를 시작할 수 없습니다." now)
          else
            let workflow_run_id := recovery_merge_workflow_run_id (plan_id r) (merge_commit_sha i) in
            let replicas := default DEFAULT_WEBHOOK_REPLICAS
              (RecoveryMerge.approved_replica_count (payload r)) in
            let body := body_for_poll_target target (merge_commit_sha i) image (correlation_id r)
              workflow_run_id replicas true in
            let next := dict_update lifecycle
              [("phase", VStr RECOVERY_STATUS_DEPLOY_PENDING);
               ("merge", VDict (merge_record i lifecycle pr workflow_run_id body now))] in
            let '(t, saved) := update_recovery_plan_lifecycle_if_status t (plan_id r) (workspace_id r)
              [RECOVERY_STATUS_PR_OPEN] RECOVERY_STATUS_DEPLOY_PENDING next false now in
            match saved with
            | None => Ok (t, Stale)
            | Some _ =>
                repository ← pr_str pr "repository_id";
                repo_ref ← pr_str pr "repo_ref";
                binding ← pr_str pr "binding_id";
                application ← pr_str pr "application_id";
                cluster ← pr_str pr "cluster_id";
                Ok (t, MergedPr
                  {| m_plan_id := plan_id r; m_incident_id := incident_id r; m_pr_url := url i;
                     m_merge_commit_sha := merge_commit_sha i; m_repository_id := repository;
                     m_repo_ref := repo_ref; m_binding_id := binding; m_application_id := application;
                     m_workflow_run_id := workflow_run_id; m_cluster_id := cluster;
                     m_workspace_id := workspace_id r |} body)
            end
      | None =>
          Ok (reject_tracked_recovery_pull_request t r "recovery_deploy_context_incomplete"
                "merge commit 또는 GitOps webhook image가 없어 배포를 시작할 수 없습니다." now)
      end
  end.

(** [targets] is what [list_active_github_poll_targets] answers, [image] the
    configured webhook image. *)
Definition handle_tracked_recovery_pull_request (t : table) (targets : list pyval) (image : string)
    (webhook : dict) (now : Z) : res (table * answer) :=
  match github_pull_request_identity webhook with
  | None => Ok (t, NotTracked)
  | Some i =>
      match find_open_recovery_plan_for_pull_request_base_identity t i with
      | None => Ok (t, NotTracked)
      | Some base_record =>
          if str_eqb (action i) "synchronize" then
            Ok (reject_tracked_recovery_pull_request t base_record "safe_pr_head_changed"
                  "PR 생성 후 head가 변경되어 승인된 patch identity를 더 이상 신뢰할 수 없습니다." now)
          else if negb (str_eqb (action i) "closed") then Ok (t, StillOpen)
          else if negb (merged i) then
            Ok (reject_tracked_recovery_pull_request t base_record "safe_pr_closed_without_merge"
                  "복구 PR이 merge되지 않고 닫혔습니다." now)
          else
            match find_open_recovery_plan_for_pull_request t i with
            | None =>
                Ok (reject_tracked_recovery_pull_request t base_record "safe_pr_head_mismatch"
                      "merge webhook의 head SHA가 생성 시 저장한 Safe PR head SHA와 다릅니다." now)
            | Some exact_record =>
                match exact_recovery_poll_target targets exact_record with
                | None =>
                    Ok (reject_tracked_recovery_pull_request t exact_record "recovery_binding_unavailable"
                          "merge된 PR과 정확히 일치하는 활성 deployment binding을 찾지 못했습니다." now)
                | Some target => start_deployment t i exact_record target image now
                end
            end
      end
  end.

(** ** What a merged answer needs *)

Lemma keep_values_elem (p : plan_row -> bool) (t : table) r :
  r ∈ keep p (map_to_list t).*2 <-> p r = true /\ exists k, t !! k = Some r.
Proof.
  rewrite elem_of_keep. split.
  - intros [([k x] & -> & Hx%elem_of_map_to_list)%list_elem_of_fmap Hp]. eauto.
  - intros [Hp [k Hk]]. split; [|done]. apply list_elem_of_fmap. exists (k, r).
    split; [done|]. by apply elem_of_map_to_list.
Qed.

(** The only row of the table that satisfies a test. *)
Definition only_row (p : plan_row -> bool) (t : table) (r : plan_row) : Prop :=
  p r = true /\ (exists k, t !! k = Some r) /\ forall k x, t !! k = Some x -> p x = true -> x = r.

Lemma the_one_row p t r : the_one (keep p (map_to_list t).*2) = Some r -> only_row p t r.
Proof.
  intros Hl%the_one_Some.
  destruct (proj1 (keep_values_elem p t r)) as [Hp Hk]; [rewrite Hl; set_solver|].
  split; [done|]. split; [done|]. intros k x Hx Hpx.
  assert (x ∈ keep p (map_to_list t).*2) as Hin by (apply keep_values_elem; eauto).
  rewrite Hl in Hin. by apply list_elem_of_singleton in Hin.
Qed.

Lemma start_deployment_inv t i r target image now t' m deploy :
  start_deployment t i r target image now = Ok (t', MergedPr m deploy) ->
  verification_blockers (lifecycle_of r) = [] /\
  is_Some (RecoveryMerge.approved_change_contract (payload r)) /\
  image <> "" /\ merge_commit_sha i <> "" /\
  m_plan_id m = plan_id r /\ m_workspace_id m = workspace_id r /\
  deploy = body_for_poll_target target (merge_commit_sha i) image (correlation_id r)
    (recovery_merge_workflow_run_id (plan_id r) (merge_commit_sha i))
    (default DEFAULT_WEBHOOK_REPLICAS (RecoveryMerge.approved_replica_count (payload r))) true /\
  exists r0, t !! row_key r = Some r0 /\ row_status r0 = RECOVERY_STATUS_PR_OPEN /\
    t' = <[row_key r := with_lifecycle r0 RECOVERY_STATUS_DEPLOY_PENDING
      (dict_update (lifecycle_of r)
        [("phase", VStr RECOVERY_STATUS_DEPLOY_PENDING);
         ("merge", VDict (merge_record i (lifecycle_of r) (mapping (get (lifecycle_of r) "pr"))
            (recovery_merge_workflow_run_id (plan_id r) (merge_commit_sha i)) deploy now))])
      false now]> t.
Proof.
  unfold start_deployment. destruct (verification_blockers _); [|done].
  destruct (RecoveryMerge.approved_change_contract (payload r)) as [c|];
    [|by unfold reject_tracked_recovery_pull_request; destruct (update_recovery_plan_lifecycle_if_status
        _ _ _ _ _ _ _ _) as [? []]].
  destruct (is_empty image || _) eqn:E;
    [by unfold reject_tracked_recovery_pull_request; destruct (update_recovery_plan_lifecycle_if_status
        _ _ _ _ _ _ _ _) as [? []]|].
  apply orb_false_iff in E as [Hi Hm].
  destruct (update_recovery_plan_lifecycle_if_status _ _ _ _ _ _ _ _) as [t1 saved] eqn:Ecas.
  destruct (cas_cases _ _ _ _ _ _ _ _ _ _ Ecas) as [[-> ->]|(r0 & Hr0 & Hin & -> & ->)]; [done|].
  intros (a1 & _ & (a2 & _ & (a3 & _ & (a4 & _ & (a5 & _ & [= <- <- <-])%bind_Ok)%bind_Ok)%bind_Ok)%bind_Ok)%bind_Ok.
  apply list_elem_of_singleton in Hin. split; [done|]. split; [eauto|].
  split; [by intros ->|]. split; [by intros Hx; rewrite Hx in Hm|].
  do 3 (split; [done|]). by exists r0.
Qed.

Lemma reject_not_merged t r code reason now t' m deploy :
  reject_tracked_recovery_pull_request t r code reason now <> (t', MergedPr m deploy).
Proof.
  unfold reject_tracked_recovery_pull_request.
  by destruct (update_recovery_plan_lifecycle_if_status _ _ _ _ _ _ _ _) as [? []].
Qed.

Lemma merged_inv t targets image webhook now t' m deploy :
  handle_tracked_recovery_pull_request t targets image webhook now = Ok (t', MergedPr m deploy) ->
  exists i r target, github_pull_request_identity webhook = Some i /\
    action i = "closed" /\ merged i = true /\ only_row (exact_matches i) t r /\
    only_row (base_matches i) t r /\ exact_recovery_poll_target targets r = Some target /\
    start_deployment t i r target image now = Ok (t', MergedPr m deploy).
Proof.
  unfold handle_tracked_recovery_pull_request.
  destruct (github_pull_request_identity webhook) as [i|]; [|done].
  destruct (find_open_recovery_plan_for_pull_request_base_identity t i) as [b|] eqn:Hb; [|done].
  apply the_one_row in Hb as (Hbp & Hbk & Hbu).
  destruct (str_eqb (action i) "synchronize"); [by intros ?%Ok_inj%reject_not_merged|].
  destruct (str_eqb (action i) "closed") eqn:Ha; [|done].
  destruct (merged i) eqn:Hmg; [|by intros ?%Ok_inj%reject_not_merged].
  destruct (find_open_recovery_plan_for_pull_request t i) as [r|] eqn:Hf;
    [|by intros ?%Ok_inj%reject_not_merged].
  destruct (exact_recovery_poll_target targets r) as [target|] eqn:Ht;
    [|by intros ?%Ok_inj%reject_not_merged].
  cbn [negb]. intros Hm. apply the_one_row in Hf. destruct (Hf) as (Hp & (k & Hk) & _).
  exists i, r, target. split; [done|]. split; [by apply str_eqb_eq|]. do 2 (split; [done|]).
  split; [|done]. apply andb_true_iff in Hp as [Hp _].
  rewrite (Hbu k r Hk Hp). by split.
Qed.

Lemma poll_target_inv targets r target :
  exact_recovery_poll_target targets r = Some target ->
  target ∈ active_github_poll_targets targets /\
  forall kv, kv ∈ expected_target r (mapping (get (lifecycle_of r) "pr")) (mapping (get (payload r) "target")) ->
    kv.2 <> "" /\ field_agrees target kv = true.
Proof.
  unfold exact_recovery_poll_target, lifecycle_of.
  destruct (get (payload r) "lifecycle") as [| | | | | | |lc]; try done.
  destruct (get (payload r) "target") as [| | | | | | |tg]; try done. cbn [mapping].
  destruct (get lc "pr") as [| | | | | | |pr]; try done. cbn [mapping].
  destruct (existsb _ _) eqn:Ex; [done|]. intros Ht%the_one_Some.
  assert (target ∈ keep (fun c => forallb (field_agrees c) (expected_target r pr tg))
            (active_github_poll_targets targets)) as [Hin Hall]%elem_of_keep by (rewrite Ht; set_solver).
  split; [done|]. intros kv Hkv. split; [|by eapply forallb_elem].
  intros He. apply not_true_iff_false in Ex. apply Ex, existsb_elem. exists kv. by rewrite He.
Qed.

(** C4: a merge starts a deployment only for exactly the tracked pull
    request.  The webhook reports it closed and merged; one open plan has its
    url, repository, number, node, branches and the head commit recorded when
    it was created, and no other open plan has them; the verification has its
    baselines and the plan its contract; one active poll target agrees with
    the record in all nine fields.  What is deployed is the merge commit on
    that target with the approved replicas, the plan waits for this deployment
    with the request stored, and no other plan is written. *)
Theorem merge_needs_exact_head t targets image webhook now t' m deploy :
  handle_tracked_recovery_pull_request t targets image webhook now = Ok (t', MergedPr m deploy) ->
  exists i r target, github_pull_request_identity webhook = Some i /\
    action i = "closed" /\ merged i = true /\ only_row (exact_matches i) t r /\
    row_status r = RECOVERY_STATUS_PR_OPEN /\
    (let pr := mapping (get (lifecycle_of r) "pr") in
     astext_is (get pr "url") (url i) = true /\ folded_is (get pr "repo_ref") (id_repo_ref i) = true /\
     astext_is (get pr "base_branch") (id_base_branch i) = true /\
     astext_is (get pr "number") (str_of_int (number i)) = true /\
     astext_is (get pr "node_id") (node_id i) = true /\
     astext_is (get pr "head_ref") (id_head_ref i) = true /\
     astext_is (get pr "head_sha") (id_head_sha i) = true) /\
    m_plan_id m = plan_id r /\ verification_blockers (lifecycle_of r) = [] /\
    is_Some (RecoveryMerge.approved_change_contract (payload r)) /\
    target ∈ active_github_poll_targets targets /\
    (forall kv, kv ∈ expected_target r (mapping (get (lifecycle_of r) "pr")) (mapping (get (payload r) "target")) ->
       kv.2 <> "" /\ field_agrees target kv = true) /\
    deploy = body_for_poll_target target (merge_commit_sha i) image (correlation_id r)
      (recovery_merge_workflow_run_id (plan_id r) (merge_commit_sha i))
      (default DEFAULT_WEBHOOK_REPLICAS (RecoveryMerge.approved_replica_count (payload r))) true /\
    (exists r', t' !! row_key r = Some r' /\ row_status r' = RECOVERY_STATUS_DEPLOY_PENDING /\
       get (mapping (get (lifecycle_of r') "merge")) "deployment_request" = VDict (to_body deploy)) /\
    forall k, k <> row_key r -> t' !! k = t !! k.
Proof.
  intros (i & r & target & Hi & Ha & Hmg & Hx & _ & Ht & Hs)%merged_inv.
  apply start_deployment_inv in Hs as (Hb & Hc & _ & _ & Hp & _ & Hd & r0 & _ & _ & ->).
  apply poll_target_inv in Ht as [Hin Hall]. exists i, r, target.
  destruct (Hx) as (Hm & _ & _). unfold exact_matches, base_matches in Hm.
  rewrite !andb_true_iff, str_eqb_eq in Hm. split_and!; cbv zeta; try tauto; try done.
  - eexists. rewrite lookup_insert_eq. split; [done|]. split; [done|].
    unfold lifecycle_of at 1. cbn [payload with_lifecycle]. rewrite get_set_eq. cbn [mapping].
    unfold dict_update. cbn [fold_left fst snd]. rewrite get_set_eq. reflexivity.
  - intros k Hk. by rewrite lookup_insert_ne.
Qed.

(** a redelivered merge webhook deploys nothing again: whatever the
    poll targets, the configured image and the clock are by then, the second
    delivery finds no open plan and leaves the table as it is. *)
Theorem merge_webhook_is_idempotent t targets image webhook now t' m deploy targets' image' now' :
  keyed t ->
  handle_tracked_recovery_pull_request t targets image webhook now = Ok (t', MergedPr m deploy) ->
  handle_tracked_recovery_pull_request t' targets' image' webhook now' = Ok (t', NotTracked).
Proof.
  intros Hkeyed (i & r & target & Hi & _ & _ & _ & (_ & (k & Hk) & Hu) & _ & Hs)%merged_inv.
  apply start_deployment_inv in Hs as (_ & _ & _ & _ & _ & _ & _ & r0 & _ & _ & ->).
  unfold handle_tracked_recovery_pull_request at 1. rewrite Hi.
  unfold find_open_recovery_plan_for_pull_request_base_identity at 1. rewrite keep_false; [done|].
  intros x ([k' x'] & -> & Hx%elem_of_map_to_list)%list_elem_of_fmap. cbn.
  apply lookup_insert_Some in Hx as [[_ <-]|[Hne Hx]]; [done|].
  destruct (base_matches i x') eqn:Hb; [|done].
  destruct Hne. rewrite <- (Hu _ _ Hx Hb). by apply Hkeyed.
Qed.

End webhook.

(** ** Merging the pull request of the tracked scale-out *)

Module Merged.
Import RecoveryAuthority.Sample.

Definition evt : SafePrCreatedBody := RecoveryTracking.Sample.evt.

(** The tracked plan, with its verification baselines collected. *)
Definition row : plan_row :=
  let r := RecoveryTracking.Sample.row in
  let tracked := match RecoveryTracking.Sample.tracked_plans !! ("w-1", "p-1") with Some r => r | None => r end in
  let verification := dict_set (verification_of tracked) "blockers" (VList []) in
  with_lifecycle tracked RECOVERY_STATUS_PR_OPEN
    (dict_set (lifecycle_of tracked) "verification" (VDict verification)) false 0.
Definition plans : table := {[ ("w-1", "p-1") := row ]}.

Definition targets : list pyval :=
  [VDict (strs [("workspace_id", "w-1"); ("repository_id", "r-1"); ("repo_ref", "Acme/Shop");
                ("branch", "main"); ("binding_id", "b-1"); ("application_id", "a-1");
                ("environment", "prod"); ("cluster_id", "k-1"); ("manifest_path", "apps/web.yaml")])].

Definition webhook : dict :=
  [("action", VStr "closed");
   ("pull_request", VDict
      [("merged", VBool true); ("html_url", VStr (pr_url evt)); ("number", VInt 7);
       ("node_id", VStr "PR_7"); ("merge_commit_sha", VStr "m-1");
       ("head", VDict (strs [("ref", "recovery/7"); ("sha", commit)]));
       ("base", VDict (strs [("ref", "main")]))]);
   ("repository", VDict (strs [("full_name", "acme/shop")]))].

Definition handled : res (table * answer) :=
  @handle_tracked_recovery_pull_request Demo.plain_repr coded_iso RecoveryTracking.Sample.sha
    plans targets "shop/web:2" webhook 5.
Definition merged_plans : table := match handled with Ok (t, _) => t | Err _ => ∅ end.
Definition body : RecoveryPrMergedBody :=
  match handled with
  | Ok (_, MergedPr m _) => m
  | _ => Build_RecoveryPrMergedBody "" "" "" "" "" "" "" "" "" "" ""
  end.
Definition deploy : obj := match handled with Ok (_, MergedPr _ d) => d | _ => OStr "" end.

Lemma is_merged : handled = Ok (merged_plans, MergedPr body deploy).
Proof. vm_compute. reflexivity. Qed.

Lemma plans_keyed : keyed plans.
Proof. unfold plans. intros k r [<- <-]%lookup_singleton_Some. vm_compute. reflexivity. Qed.

End Merged.

Lemma merge_needs_exact_head_witness :
  exists r', Merged.merged_plans !! ("w-1", "p-1") = Some r' /\ row_status r' = RECOVERY_STATUS_DEPLOY_PENDING.
Proof.
  destruct (@merge_needs_exact_head Demo.plain_repr coded_iso RecoveryTracking.Sample.sha _ _ _ _ _ _ _ _
    Merged.is_merged) as (i & r & target & _ & _ & _ & (_ & (k & Hk) & _) & _ & _ & _ & _ & _ & _ & _ & _ & (r' & Hr' & Hst & _) & _).
  unfold Merged.plans in Hk. apply lookup_singleton_Some in Hk as [<- <-]. exists r'. by split.
Defined.

Lemma merge_webhook_is_idempotent_witness :
  @handle_tracked_recovery_pull_request Demo.plain_repr coded_iso RecoveryTracking.Sample.sha
    Merged.merged_plans [] "" Merged.webhook 9 = Ok (Merged.merged_plans, NotTracked).
Proof.
  exact (@merge_webhook_is_idempotent Demo.plain_repr coded_iso RecoveryTracking.Sample.sha _ _ _ _ _ _ _ _
    [] "" 9 Merged.plans_keyed Merged.is_merged).
Defined.

End RecoveryPullRequest.
