(* ===== verification/RecoverySelection.v ===== *)
(** * Planning, selecting and retrying a recovery

    The entry points that move a plan by a person: [on_recovery_planned] of
    [src/src/services/ai/recovery-worker/app.py] with the selector of
    [services/ai/agent/recovery/select.py], the selection and the retry routes
    of [src/src/domains/rca/router.py] and the identifiers
    [domains/gitops/repository.py] derives for an approval.  The last part
    puts every operation on the plan table into one transition system: an
    incident is resolved only after a person selected the recovery, its pull
    request was tracked and exactly that pull request was merged; it is
    resolved once, and the outcome of a completed plan does not change.

    Access checks, the preflight and the reads of other tables are arguments.
    The prose of reasons is left out where nothing reads it back. *)
From S2P Require Import Prelude PyStr PyFloat PyVal PyTime Libs Demo SourcePatch EventBody EventBodies.
From S2P Require Import RecoveryChecks RecoveryVerification RecoveryLifecycle RecoveryMerge RecoveryAuthority RecoveryReplacements RecoveryDispatch RecoveryTracking RecoveryPullRequest.

Module RecoverySelection.
Import EventBody RecoveryChecks RecoveryLifecycle RecoveryTracking.

Notation table := (gmap (string * string) plan_row).
Notation candidate := RecoveryReplacements.RecoveryActionCandidate.

Definition SAFE_PR_ROUTES : list string := ["draft_pr"; "safe_pr"].
Definition PREFLIGHT_REQUIRED_ROUTES : list string := SAFE_PR_ROUTES ++ ["auto"].
Definition RECOVERY_PLAN_NOT_FOUND : string := "recovery plan not found".
Definition RECOVERY_ACTION_NOT_FOUND : string := "recovery action not found".
Definition RECOVERY_PLAN_ALREADY_RESOLVED : string := "recovery plan already resolved".
Definition RECOVERY_PLAN_CHANGED : string := "recovery plan changed".
Definition RECOVERY_SELECTION_ACCESS_DENIED : string := "recovery selection access denied".
Definition RECOVERY_RETRY_UNAVAILABLE : string := "recovery retry is unavailable".
Definition RECOVERY_RETRY_IDENTITY_INVALID : string := "recovery retry identity is invalid".
Definition RECOVERY_DEPLOY_FAILED_REASON : string := "recovery_deploy_failed".
Definition RECOVERY_VERIFICATION_EXPIRED_REASON : string := "verification_window_expired".
Definition RECOVERY_SAFE_PR_FAILED_STAGE : string := "safe_pr".

(** ** Reading a decoded plan *)

Definition attr_strings (o : obj) (name : string) : list string :=
  match RecoveryMerge.attribute o name with
  | OList l => omap (fun v => match v with OStr s => Some s | _ => None end) l
  | _ => []
  end.
Definition attr_dict (o : obj) (name : string) : dict :=
  mapping (to_body_value (RecoveryMerge.attribute o name)).

Definition draft_of (o : obj) : RecoveryReplacements.HealingActionDraft :=
  {| RecoveryReplacements.action_type := RecoveryMerge.attr_str o "action_type";
     RecoveryReplacements.d_namespace := RecoveryMerge.attr_str o "namespace";
     RecoveryReplacements.d_resource_kind := RecoveryMerge.attr_str o "resource_kind";
     RecoveryReplacements.d_resource_name := RecoveryMerge.attr_str o "resource_name";
     RecoveryReplacements.params := attr_dict o "params" |}.

Definition candidate_of (o : obj) : candidate :=
  {| RecoveryReplacements.action_id := RecoveryMerge.attr_str o "action_id";
     RecoveryReplacements.title := RecoveryMerge.attr_str o "title";
     RecoveryReplacements.description := RecoveryMerge.attr_str o "description";
     RecoveryReplacements.draft := draft_of (RecoveryMerge.attribute o "draft");
     RecoveryReplacements.route := RecoveryMerge.attr_str o "route";
     RecoveryReplacements.risk_level := RecoveryMerge.attr_str o "risk_level";
     RecoveryReplacements.blast_radius := RecoveryMerge.attr_str o "blast_radius";
     RecoveryReplacements.validation_checks := attr_strings o "validation_checks";
     RecoveryReplacements.rollback_plan := RecoveryMerge.attr_str o "rollback_plan" |}.

Definition candidates_of (o : obj) : list candidate :=
  match RecoveryMerge.attribute o "candidates" with OList l => candidate_of <$> l | _ => [] end.

Definition plan_of (o : obj) : RecoveryDispatch.RecoveryPlan :=
  {| RecoveryDispatch.plan_id := RecoveryMerge.attr_str o "plan_id";
     RecoveryDispatch.incident_id := RecoveryMerge.attr_str o "incident_id";
     RecoveryDispatch.plan_evidence_ref := RecoveryMerge.attr_str o "evidence_ref";
     RecoveryDispatch.target := attr_dict o "target" |}.

Definition candidate_by_action_id (plan : obj) (action_id : string) : option candidate :=
  find (fun c => str_eqb (RecoveryReplacements.action_id c) action_id) (candidates_of plan).

(** ** The planned recovery *)

Inductive selection :=
  | SelectionRequested (plan : obj) (workspace_id : string)
  | PlanRequired (evidence_ref workspace_id : string).

(** [RecoverySelector.select_body]; the recommendation only words its reason. *)
Definition select_body (evt : obj) : selection :=
  let ws := RecoveryMerge.attr_str evt "workspace_id" in
  match RecoveryMerge.attribute evt "plan" with
  | OBody c values => SelectionRequested (OBody c values) ws
  | _ => PlanRequired (match attr_strings (RecoveryMerge.attribute evt "draft") "source_evidence" with
                       | e :: _ => e | [] => "unknown" end) ws
  end.

Section router.
Context `{ReprLib} `{IsoTime} `{Sha256}.

(** [id] is the identifier the database gives to a new row.  The handler also
    stores a body of class [RecoveryActionSelectedBody] as selected; the
    selector it calls answers no such body, so [selection] has none and the
    branch is dead. *)
Definition on_recovery_planned (t : table) (evt : obj) (correlation : string) (id now : Z)
    : res (table * selection) :=
  let body := select_body evt in
  match body with
  | SelectionRequested plan ws =>
      t ← upsert_recovery_plan t id correlation ws (to_body plan) RECOVERY_STATUS_SELECTION_REQUESTED
            None None now;
      Ok (t, body)
  | PlanRequired _ _ => Ok (t, body)
  end.

(** ** Derived identifiers *)

Definition hashed (prefix : string) (parts : list string) : string :=
  prefix +:+ str_take 32 (sha256_hexdigest (utf8_encode (join "|" parts))).

(** [str(payload.get(key, fallback))] *)
Definition str_get (d : dict) (key fallback : string) : string :=
  match dict_get d key with Some v => py_str v | None => fallback end.

Definition explicit_id (payload : dict) (key default_id : string) : option string :=
  let v := get payload key in
  if truthy v && negb (py_eqb v (VStr default_id)) then Some (py_str v) else None.

Definition derive_repository_id (payload : dict) : string :=
  match explicit_id payload "repository_id" EventBodies.DEFAULT_REPOSITORY_ID with
  | Some id => id
  | None => hashed "repo-" [str_get payload "workspace_id" EventBodies.DEFAULT_WORKSPACE_ID;
                            str_get payload "repo_ref" EventBodies.DEFAULT_REPO_REF]
  end.

Definition derive_deployment_binding_id (payload : dict) : string :=
  match explicit_id payload "binding_id" EventBodies.DEFAULT_DEPLOYMENT_BINDING_ID with
  | Some id => id
  | None => hashed "binding-" [str_get payload "workspace_id" EventBodies.DEFAULT_WORKSPACE_ID;
                               derive_repository_id payload;
                               str_get payload "cluster_id" EventBodies.DEFAULT_CLUSTER_ID;
                               str_get payload "namespace" "sandbox";
                               str_get payload "app_name" EventBodies.DEFAULT_APPLICATION_ID]
  end.

Definition derive_application_name (payload : dict) : string :=
  let explicit := if truthy (get payload "name") then get payload "name" else get payload "app_name" in
  if truthy explicit then py_str explicit
  else
    let '(_, slash, after) := partition_char "/"%char (str_get payload "resource" "") in
    if (slash : bool) then after
    else
      let repo_ref := str_get payload "repo_ref" "" in
      let at_ := rfind_char "/"%char repo_ref in
      if 0 <=? at_ then str_drop (Z.to_nat (at_ + 1)) repo_ref else "".

Definition derive_application_id (payload : dict) : string :=
  match explicit_id payload "application_id" EventBodies.DEFAULT_APPLICATION_ID with
  | Some id => id
  | None =>
      let name := derive_application_name payload in
      hashed "app-" [str_get payload "workspace_id" EventBodies.DEFAULT_WORKSPACE_ID;
                     derive_repository_id payload;
                     str_get payload "manifest_path" EventBodies.DEFAULT_MANIFEST_PATH;
                     if nonempty name then name else EventBodies.DEFAULT_APPLICATION_ID]
  end.

Definition derive_workflow_run_id (payload : dict) : string :=
  match explicit_id payload "workflow_run_id" EventBodies.DEFAULT_WORKFLOW_RUN_ID with
  | Some id => id
  | None => hashed "workflow-" [str_get payload "workspace_id" EventBodies.DEFAULT_WORKSPACE_ID;
                                derive_application_id payload; derive_deployment_binding_id payload;
                                str_get payload "environment" EventBodies.DEFAULT_ENVIRONMENT;
                                str_get payload "commit_sha" ""]
  end.

(** ** The approval of a selection *)

Record state := { plans : table; approvals : gmap string approval }.

Definition recovery_policy_decision_ref (approval_ref : string) : string :=
  "recovery:" +:+ approval_ref +:+ ":selected".

Definition candidate_with_approval (c : candidate) (approval_ref policy_decision_ref : string) : candidate :=
  RecoveryDispatch.with_params c (dict_update (RecoveryReplacements.params (RecoveryReplacements.draft c))
    [("approval_ref", VStr approval_ref); ("policy_decision_ref", VStr policy_decision_ref)]).

(** The scalar fields of the request, from which the run id is derived. *)
Definition approval_request (plan : RecoveryDispatch.RecoveryPlan) (c : candidate) (ws approval_ref : string)
    : dict :=
  let p := RecoveryReplacements.params (RecoveryReplacements.draft c) in
  let tgt := RecoveryDispatch.target plan in
  [("approval_id", VStr approval_ref);
   ("workflow_run_id", VStr (str_get p "workflow_run_id" EventBodies.DEFAULT_WORKFLOW_RUN_ID));
   ("workspace_id", VStr (RecoveryDispatch.first_truthy [get tgt "workspace_id"; get p "workspace_id"; VStr ws]));
   ("application_id", VStr (str_get p "application_id" EventBodies.DEFAULT_APPLICATION_ID));
   ("binding_id", VStr (str_get p "binding_id" EventBodies.DEFAULT_DEPLOYMENT_BINDING_ID));
   ("environment", VStr (str_get p "environment" EventBodies.DEFAULT_ENVIRONMENT))].

(** The candidate that is dispatched carries the run id of its approval. *)
Definition candidate_with_approval_identity (c : candidate) (workflow_run_id : string) : candidate :=
  if is_empty workflow_run_id then c
  else RecoveryDispatch.with_params c (dict_update (RecoveryReplacements.params (RecoveryReplacements.draft c))
         [("workflow_run_id", VStr workflow_run_id)]).

(** Storing the approval under [approval_ref] and the candidate to dispatch. *)
Definition approve (store : gmap string approval) (plan : RecoveryDispatch.RecoveryPlan) (prepared : candidate)
    (ws approval_ref : string) : gmap string approval * candidate :=
  let policy := recovery_policy_decision_ref approval_ref in
  let c := candidate_with_approval prepared approval_ref policy in
  let request := approval_request plan c ws approval_ref in
  (request_workflow_approval store approval_ref
     (recovery_approval_payload (RecoveryDispatch.plan_id plan) (str_get request "workspace_id" "") approval_ref
        policy c),
   candidate_with_approval_identity c (derive_workflow_run_id request)).

(** ** Selecting *)

Inductive published :=
  | ActionRequiredPublished (b : RecoveryDispatch.RcaActionRequiredBody)
  | ActionSelectedPublished (evt : RecoveryDispatch.RecoveryActionSelectedBody) (selected_by : string)
  | RetryRequestedPublished (plan incident action stage : string) (attempt : Z)
      (requested_by reason : string) (workflow_run_id : option string) (workspace : string)
  | DeploymentPublished (deploy : obj).

Inductive reply :=
  | Accepted
  | NotFound (detail : string)
  | Forbidden (detail : string)
  | Conflict (detail : string)
  | ConflictRequired (b : RecoveryDispatch.RcaActionRequiredBody).

Definition selected_event (plan : obj) (c : candidate) (ws : string)
    : RecoveryDispatch.RecoveryActionSelectedBody :=
  {| RecoveryDispatch.plan := plan_of plan; RecoveryDispatch.selected := c;
     RecoveryDispatch.evt_workspace_id := ws |}.

Definition preflight_port : Type :=
  RecoveryDispatch.RecoveryActionSelectedBody -> string -> res RecoveryDispatch.prepared.

Definition preflight_unavailable (plan : obj) (c : candidate) (ws : string)
    : RecoveryDispatch.RcaActionRequiredBody :=
  let is_safe_pr := bool_decide (RecoveryReplacements.route c ∈ SAFE_PR_ROUTES) in
  {| RecoveryDispatch.ar_reason :=
       if is_safe_pr then "Safe PR 사전 검증 서비스가 준비되지 않았습니다."
       else "복구 명령 사전 정책 검증 서비스가 준비되지 않았습니다.";
     RecoveryDispatch.ar_evidence_ref := RecoveryMerge.attr_str plan "evidence_ref";
     RecoveryDispatch.ar_workspace_id := ws;
     RecoveryDispatch.ar_reason_code :=
       if is_safe_pr then "safe_pr_preflight_unavailable" else "recovery_action_preflight_unavailable";
     RecoveryDispatch.ar_missing_evidence :=
       if is_safe_pr then ["gitops_authority_context"] else ["command_control_policy"];
     RecoveryDispatch.ar_next_actions := [];
     RecoveryDispatch.ar_diagnostics :=
       [("plan_id", VStr (RecoveryMerge.attr_str plan "plan_id"));
        ("action_id", VStr (RecoveryReplacements.action_id c));
        ("route", VStr (RecoveryReplacements.route c))] |}.

(** The preflight of the routes that need one. *)
Definition preflighted (preflight : option preflight_port) (plan : obj) (c : candidate) (ws correlation : string)
    : res RecoveryDispatch.prepared :=
  if bool_decide (RecoveryReplacements.route c ∈ PREFLIGHT_REQUIRED_ROUTES) then
    match preflight with
    | None => Ok (RecoveryDispatch.Rejected (preflight_unavailable plan c ws))
    | Some prepare => prepare (selected_event plan c ws) correlation
    end
  else Ok (RecoveryDispatch.Prepared c).

(** [uuid] is the text of the fresh identifier of the attempt; [clock] is the
    process's clock, [now] the database's. *)
Definition select_recovery_action_from_record (s : state) (r : plan_row) (action_id expected_plan_id : option string)
    (ws user : string) (access : string -> bool) (preflight : option preflight_port) (uuid : string)
    (clock now : Z) : res (state * list published * reply) :=
  plan ← from_body EventBodies.RecoveryPlan true (VDict (payload r));
  if negb (access (str_get (attr_dict plan "target") "cluster_id" ""))
  then Ok (s, [], Forbidden RECOVERY_SELECTION_ACCESS_DENIED)
  else if match expected_plan_id with
          | Some expected => negb (str_eqb (RecoveryMerge.attr_str plan "plan_id") expected)
          | None => false
          end then Ok (s, [], Conflict RECOVERY_PLAN_CHANGED)
  else
    match candidate_by_action_id plan
            (match action_id with
             | Some a => if nonempty a then a else RecoveryMerge.attr_str plan "recommended_action_id"
             | None => RecoveryMerge.attr_str plan "recommended_action_id"
             end) with
    | None => Ok (s, [], NotFound RECOVERY_ACTION_NOT_FOUND)
    | Some c =>
        answer ← preflighted preflight plan c ws (correlation_id r);
        match answer with
        | RecoveryDispatch.Rejected b => Ok (s, [ActionRequiredPublished b], ConflictRequired b)
        | RecoveryDispatch.Prepared prepared =>
            let plan_key := RecoveryMerge.attr_str plan "plan_id" in
            '(t, saved) ← select_recovery_plan_action_if_open (plans s) plan_key ws
                            (RecoveryReplacements.action_id prepared) user uuid clock now;
            match saved with
            | None => Ok (s, [], Conflict RECOVERY_PLAN_ALREADY_RESOLVED)
            | Some _ =>
                let '(store, dispatched) := approve (approvals s) (plan_of plan) prepared ws
                  (recovery_approval_id plan_key (RecoveryReplacements.action_id prepared)) in
                Ok ({| plans := t; approvals := store |},
                    [ActionSelectedPublished (selected_event plan dispatched ws) user], Accepted)
            end
        end
    end.

Definition select_recovery_action (s : state) (plan_id action_id : string) (ws user : string)
    (access : string -> bool) (preflight : option preflight_port) (uuid : string) (clock now : Z)
    : res (state * list published * reply) :=
  match plans s !! (ws, plan_id) with
  | None => Ok (s, [], NotFound RECOVERY_PLAN_NOT_FOUND)
  | Some r => select_recovery_action_from_record s r (Some action_id) None ws user access preflight uuid clock now
  end.

Definition select_recovery_action_by_correlation (s : state) (correlation expected_plan_id : string)
    (action_id : option string) (ws user : string) (access : string -> bool)
    (preflight : option preflight_port) (uuid : string) (clock now : Z)
    : res (state * list published * reply) :=
  match get_recovery_plan_by_correlation (plans s) correlation ws with
  | None => Ok (s, [], NotFound RECOVERY_PLAN_NOT_FOUND)
  | Some r => select_recovery_action_from_record s r action_id (Some expected_plan_id) ws user access preflight
                uuid clock now
  end.

(** ** Retrying *)

Definition recovery_selection_attempt_number (lifecycle : dict) : Z :=
  match get (mapping (get lifecycle "attempt")) "number" with
  | VInt z => if 0 <=? z then z + 1 else 1
  | _ => 1
  end.

(** [replace(original, name=value)] *)
Definition with_attr (o : obj) (name : string) (v : obj) : obj :=
  match o with
  | OBody c values =>
      OBody c (zip_with (fun n old => if str_eqb n name then v else old) (f_name <$> (cls_fields c).*1) values)
  | _ => o
  end.

(** The stored request is the one of this plan, this pull request and this
    merge. *)
Definition request_is_original (original : obj) (r : plan_row) (merge pr : dict) : bool :=
  let same name expected := str_eqb (RecoveryMerge.attr_str original name) expected in
  same "workspace_id" (strip (workspace_id r)) && same "correlation_id" (strip (correlation_id r))
  && same "workflow_run_id" (text (get merge "workflow_run_id"))
  && same "commit_sha" (text (get merge "merge_commit_sha"))
  && same "repository_id" (text (get pr "repository_id")) && same "repo_ref" (text (get pr "repo_ref"))
  && same "branch" (text (get pr "base_branch")) && same "binding_id" (text (get merge "binding_id"))
  && same "application_id" (text (get merge "application_id"))
  && same "cluster_id" (text (get merge "cluster_id"))
  && same "manifest_path" (text (get pr "manifest_path"))
  && nonempty (strip (RecoveryMerge.attr_str original "image"))
  && match RecoveryMerge.attribute original "replicas" with OInt n => 0 <? n | _ => false end.

Definition deploy_retry_run_id (plan_id commit_sha : string) (attempt : Z) : string :=
  hashed "workflow-" [plan_id; commit_sha; "deploy-retry"; str_of_int attempt].

Definition deploy_retry_body (r : plan_row) (lifecycle : dict) (workflow : pyval) : res (option (obj * Z)) :=
  let merge := mapping (get lifecycle "merge") in
  let pr := mapping (get lifecycle "pr") in
  let commit_sha := text (get merge "merge_commit_sha") in
  if negb (recovery_workflow_matches workflow (strip (workspace_id r)) (text (get merge "workflow_run_id"))
             (text (get merge "binding_id")) (text (get merge "application_id"))
             (text (get merge "cluster_id")) commit_sha "failed")
  then Ok None
  else
    match from_body EventBodies.GitWebhookReceivedBody true (VDict (mapping (get merge "deployment_request"))) with
    | Err e => match e with TypeError | ValueError | EventBodyDecodeError _ => Ok None | e => Err e end
    | Ok original =>
        if negb (request_is_original original r merge pr) then Ok None
        else
          let attempt := recovery_retry_number merge in
          Ok (Some (with_attr (with_attr original "workflow_run_id"
                      (OStr (deploy_retry_run_id (plan_id r) commit_sha attempt))) "force" (OBool true), attempt))
    end.

Definition retry_record (stage : string) (attempt : Z) (user reason : string) (now : Z) (more : dict) : dict :=
  [("stage", VStr stage); ("attempt", VInt attempt); ("requested_by", VStr user);
   ("requested_at", VStr (isoformat now)); ("reason", VStr reason)] ++ more.

Definition deploy_retry_lifecycle (lifecycle : dict) (body : obj) (attempt : Z) (user reason : string) (now : Z)
    : dict :=
  let merge := mapping (get lifecycle "merge") in
  let run := OStr (RecoveryMerge.attr_str body "workflow_run_id") in
  let merge := dict_update merge
    [("previous_workflow_run_id", VStr (text (get merge "workflow_run_id")));
     ("workflow_run_id", to_body_value run); ("deployment_request", VDict (to_body body));
     ("retry_attempt", VInt attempt)] in
  let verification := dict_update (mapping (get lifecycle "verification"))
    [("status", VStr "waiting_for_deploy"); ("started_at", VNone); ("deadline_at", VNone);
     ("healthy_since", VNone); ("last_healthy_observed_at", VNone);
     ("distinct_evidence_count", VInt 0); ("last_evidence_key", VNone); ("after", VDict [])] in
  dict_update (dict_pop lifecycle "failure")
    [("phase", VStr RECOVERY_STATUS_DEPLOY_PENDING); ("merge", VDict merge);
     ("verification", VDict verification);
     ("retry", VDict (retry_record "deploy" attempt user reason now
                        [("workflow_run_id", to_body_value run)]))].

Definition safe_pr_retry_lifecycle (failure : dict) (action_id uuid : string) (attempt : Z)
    (user reason : string) (now : Z) : dict :=
  [("phase", VStr RECOVERY_STATUS_SELECTED);
   ("attempt", VDict
      [("id", VStr ("recovery-attempt-" +:+ uuid)); ("number", VInt attempt);
       ("action_id", VStr action_id); ("selected_by", VStr user); ("selected_at", VStr (isoformat now))]);
   ("retry", VDict (retry_record RECOVERY_SAFE_PR_FAILED_STAGE attempt user reason now
                      [("previous_failure", VDict failure)]))].

Definition text_or_none (s : string) : option string := if nonempty s then Some s else None.

(** The branch of a pull request that could not be created. *)
Definition retry_safe_pr (s : state) (r : plan_row) (plan : obj) (action_id ws user reason uuid : string)
    (preflight : option preflight_port) (now : Z) : res (state * list published * reply) :=
  let lifecycle := lifecycle_of r in
  match preflight with
  | None => Ok (s, [], Conflict RECOVERY_RETRY_UNAVAILABLE)
  | Some prepare =>
      match candidate_by_action_id plan action_id with
      | None => Ok (s, [], NotFound RECOVERY_ACTION_NOT_FOUND)
      | Some c =>
          if negb (bool_decide (RecoveryReplacements.route c ∈ SAFE_PR_ROUTES))
          then Ok (s, [], Conflict RECOVERY_RETRY_IDENTITY_INVALID)
          else
            answer ← prepare (selected_event plan c ws) (correlation_id r);
            match answer with
            | RecoveryDispatch.Rejected b => Ok (s, [ActionRequiredPublished b], ConflictRequired b)
            | RecoveryDispatch.Prepared prepared =>
                let attempt := recovery_selection_attempt_number lifecycle in
                let '(store, dispatched) := approve (approvals s) (plan_of plan) prepared ws
                  (recovery_retry_approval_id (RecoveryMerge.attr_str plan "plan_id") action_id attempt) in
                let '(t, saved) := update_recovery_plan_lifecycle_if_status (plans s) (strip (plan_id r)) ws
                  [RECOVERY_STATUS_FAILED] RECOVERY_STATUS_SELECTED
                  (safe_pr_retry_lifecycle (mapping (get lifecycle "failure")) action_id uuid attempt user
                     reason now) false now in
                let s := {| plans := t; approvals := store |} in
                match saved with
                | None => Ok (s, [], Conflict RECOVERY_RETRY_UNAVAILABLE)
                | Some _ =>
                    Ok (s, [RetryRequestedPublished (strip (plan_id r)) (strip (incident_id r)) action_id
                              RECOVERY_SAFE_PR_FAILED_STAGE attempt user reason
                              (text_or_none (text (get (RecoveryReplacements.params
                                 (RecoveryReplacements.draft dispatched)) "workflow_run_id"))) ws;
                            ActionSelectedPublished (selected_event plan dispatched ws) user], Accepted)
                end
            end
      end
  end.

(** What a retry after the merge writes: the new lifecycle, its status, the
    attempt, the stage, the run it waits for and the deployment to publish. *)
Definition prepared_retry (r : plan_row) (lifecycle : dict) (reason_code : string) (workflow : pyval)
    (user reason : string) (now : Z)
    : res (option (option (dict * string * Z * string * string * option obj))) :=
  if str_eqb reason_code RECOVERY_DEPLOY_FAILED_REASON then
    prepared ← deploy_retry_body r lifecycle workflow;
    Ok (Some (match prepared with
              | None => None
              | Some (body, attempt) =>
                  Some (deploy_retry_lifecycle lifecycle body attempt user reason now,
                        RECOVERY_STATUS_DEPLOY_PENDING, attempt, "deploy",
                        RecoveryMerge.attr_str body "workflow_run_id", Some body)
              end))
  else if str_eqb reason_code RECOVERY_VERIFICATION_EXPIRED_REASON then
    prepared ← verification_retry_lifecycle (workspace_id r) lifecycle workflow now user reason;
    Ok (Some (match prepared with
              | None => None
              | Some (retried, attempt) =>
                  Some (retried, RECOVERY_STATUS_VERIFICATION_PENDING, attempt, "verification",
                        text (get (mapping (get lifecycle "merge")) "workflow_run_id"), None)
              end))
  else Ok None.

Definition retry_merged (s : state) (r : plan_row) (action_id ws user reason reason_code : string)
    (get_workflow_run : string -> pyval) (now : Z) : res (state * list published * reply) :=
  let lifecycle := lifecycle_of r in
  let run := text (get (mapping (get lifecycle "merge")) "workflow_run_id") in
  if is_empty run then Ok (s, [], Conflict RECOVERY_RETRY_IDENTITY_INVALID)
  else
    prepared ← prepared_retry r lifecycle reason_code (get_workflow_run run) user reason now;
    match prepared with
    | None => Ok (s, [], Conflict RECOVERY_RETRY_UNAVAILABLE)
    | Some None => Ok (s, [], Conflict RECOVERY_RETRY_IDENTITY_INVALID)
    | Some (Some (next, status, attempt, stage, retry_run, deploy)) =>
        let '(t, saved) := update_recovery_plan_lifecycle_if_status (plans s) (strip (plan_id r)) ws
          [RECOVERY_STATUS_FAILED] status next false now in
        match saved with
        | None => Ok (s, [], Conflict RECOVERY_RETRY_UNAVAILABLE)
        | Some _ =>
            Ok ({| plans := t; approvals := approvals s |},
                RetryRequestedPublished (strip (plan_id r)) (strip (incident_id r)) action_id stage attempt
                  user reason (Some retry_run) ws :: (DeploymentPublished <$> option_list deploy), Accepted)
        end
    end.

Definition failed_reason_code (lifecycle : dict) : string :=
  let code := text (get (mapping (get lifecycle "failure")) "reason_code") in
  if nonempty code then code else text (get (mapping (get lifecycle "verification")) "last_reason_code").

Definition retry_recovery_by_correlation (s : state) (correlation expected_plan_id : string)
    (reason : option string) (ws user : string) (access : string -> bool) (preflight : option preflight_port)
    (get_workflow_run : string -> pyval) (uuid : string) (now : Z) : res (state * list published * reply) :=
  match get_recovery_plan_by_correlation (plans s) correlation ws with
  | None => Ok (s, [], NotFound RECOVERY_PLAN_NOT_FOUND)
  | Some r =>
      if negb (str_eqb (strip (plan_id r)) expected_plan_id) then Ok (s, [], Conflict RECOVERY_PLAN_CHANGED)
      else
        plan ← from_body EventBodies.RecoveryPlan true (VDict (payload r));
        if negb (access (text (get (attr_dict plan "target") "cluster_id")))
        then Ok (s, [], Forbidden RECOVERY_SELECTION_ACCESS_DENIED)
        else if negb (str_eqb (strip (row_status r)) RECOVERY_STATUS_FAILED)
        then Ok (s, [], Conflict RECOVERY_RETRY_UNAVAILABLE)
        else
          let lifecycle := lifecycle_of r in
          let reason_code := failed_reason_code lifecycle in
          let retry_reason := match reason with
                              | Some text => if nonempty text then text else "operator retried " +:+ reason_code
                              | None => "operator retried " +:+ reason_code
                              end in
          let action_id := opt_text (selected_action_id r) in
          if is_empty action_id then Ok (s, [], Conflict RECOVERY_RETRY_IDENTITY_INVALID)
          else if str_eqb (text (get (mapping (get lifecycle "failure")) "stage")) RECOVERY_SAFE_PR_FAILED_STAGE
          then retry_safe_pr s r plan action_id ws user retry_reason uuid preflight now
          else retry_merged s r action_id ws user retry_reason reason_code get_workflow_run now
  end.

(** ** The whole life of a plan *)

(** What becomes visible: the bodies that are published and the answers to
    the webhook, in the order of the steps. *)
Inductive fact :=
  | Planned (b : selection)
  | Published (p : published)
  | Fed (f : feedback)
  | Webhooked (a : RecoveryPullRequest.answer)
  | Verified (e : event).

(** The planner names a plan after its evidence and gives it no lifecycle. *)
Definition new_plan (evt : obj) : Prop :=
  match select_body evt with
  | SelectionRequested plan _ =>
      mapping (get (to_body plan) "lifecycle") = [] /\
      (forall id, required_str (to_body plan) "plan_id" = Ok id -> strip id = id)
  | PlanRequired _ _ => True
  end.

Definition lift (s : state) (t : table) : state := {| plans := t; approvals := approvals s |}.

(** Every operation that writes the plan table.  [step_commit] is the write of
    an evidence handler on its own: the handler read the plan before, and any
    other steps may have run since. *)
Inductive step : state -> list fact -> state -> Prop :=
  | step_planned s evt correlation id now t b :
      new_plan evt -> on_recovery_planned (plans s) evt correlation id now = Ok (t, b) ->
      step s [Planned b] (lift s t)
  | step_select s plan action ws user access preflight uuid clock now s' ps a :
      select_recovery_action s plan action ws user access preflight uuid clock now = Ok (s', ps, a) ->
      step s (Published <$> ps) s'
  | step_select_by_correlation s correlation expected action ws user access preflight uuid clock now s' ps a :
      select_recovery_action_by_correlation s correlation expected action ws user access preflight uuid clock now
        = Ok (s', ps, a) ->
      step s (Published <$> ps) s'
  | step_retry s correlation expected reason ws user access preflight runs uuid now s' ps a :
      retry_recovery_by_correlation s correlation expected reason ws user access preflight runs uuid now
        = Ok (s', ps, a) ->
      step s (Published <$> ps) s'
  | step_pr_created s rd evt correlation now t fs :
      on_recovery_safe_pr_created (plans s) rd evt correlation now = Ok (t, fs) ->
      step s (Fed <$> fs) (lift s t)
  | step_pr_failed s rd evt correlation now t fs :
      on_recovery_safe_pr_failed (plans s) rd evt correlation now = (t, fs) ->
      step s (Fed <$> fs) (lift s t)
  | step_action_required s evt correlation now t fs :
      on_rca_action_required (plans s) evt correlation now = (t, fs) ->
      step s (Fed <$> fs) (lift s t)
  | step_webhook s targets image webhook now t a :
      RecoveryPullRequest.handle_tracked_recovery_pull_request (plans s) targets image webhook now = Ok (t, a) ->
      step s [Webhooked a] (lift s t)
  | step_start s ws run binding application workflow now t e :
      start_recovery_verification (plans s) ws run binding application workflow now = Ok (t, e) ->
      step s (Verified <$> option_list e) (lift s t)
  | step_deploy_failed s ws run binding application why now t es :
      on_recovery_deploy_failed (plans s) ws run binding application why now = (t, es) ->
      step s (Verified <$> es) (lift s t)
  | step_evidence s reader ws cluster key evidence now t es :
      on_recovery_verification_evidence (plans s) reader ws cluster key evidence now = Ok (t, es) ->
      step s (Verified <$> es) (lift s t)
  | step_commit s ws key now record d t es :
      commit_record (plans s) ws key now record d = Ok (t, es) ->
      step s (Verified <$> es) (lift s t)
  | step_expire s now limit t es :
      expire_recovery_verifications (plans s) now limit = (t, es) ->
      step s (Verified <$> es) (lift s t).

Inductive run : list fact -> state -> Prop :=
  | run_nil store : run [] {| plans := ∅; approvals := store |}
  | run_step tr s es s' : run tr s -> step s es s' -> run (tr ++ es) s'.

(** *** The milestones of the plan with key [(workspace, plan)] *)

Definition decided (k : string * string) (f : fact) : bool :=
  match f with
  | Published (ActionSelectedPublished evt _) =>
      bool_decide (k = (RecoveryDispatch.evt_workspace_id evt, RecoveryDispatch.plan_id (RecoveryDispatch.plan evt)))
  | Published (RetryRequestedPublished plan _ _ _ _ _ _ _ ws) => bool_decide (k = (ws, plan))
  | _ => false
  end.
Definition tracked (k : string * string) (f : fact) : bool :=
  match f with Fed (RecoveryPrTracked plan _ _ _ _ _ _ _ ws) => bool_decide (k = (ws, plan)) | _ => false end.
Definition merged (k : string * string) (f : fact) : bool :=
  match f with
  | Webhooked (RecoveryPullRequest.MergedPr m _) =>
      bool_decide (k = (RecoveryPullRequest.m_workspace_id m, RecoveryPullRequest.m_plan_id m))
  | _ => false
  end.
Definition resolved (k : string * string) (f : fact) : bool :=
  match f with Verified e => resolves k e | _ => false end.

(** Each milestone needs the one before it. *)
Definition justified (tr : list fact) (f : fact) : Prop :=
  forall k, (tracked k f = true -> existsb (decided k) tr = true) /\
            (merged k f = true -> existsb (tracked k) tr = true) /\
            (resolved k f = true -> existsb (merged k) tr = true).

Definition has_merge (lifecycle : dict) : bool :=
  nonempty (text (get (mapping (get lifecycle "merge")) "workflow_run_id")).

Definition PAST_MERGE : list string :=
  [RECOVERY_STATUS_DEPLOY_PENDING; RECOVERY_STATUS_VERIFICATION_PENDING; RECOVERY_STATUS_COMPLETED].

(** What the status and the lifecycle of a plan say about the past. *)
Record claims_ok (tr : list fact) (k : string * string) (status : string) (lifecycle : dict) : Prop := {
  co_selected : status = RECOVERY_STATUS_SELECTED -> existsb (decided k) tr = true;
  co_open : status = RECOVERY_STATUS_PR_OPEN -> existsb (tracked k) tr = true;
  co_past : status ∈ PAST_MERGE -> existsb (merged k) tr = true;
  co_merge : has_merge lifecycle = true -> existsb (merged k) tr = true;
}.

Record row_ok (tr : list fact) (k : string * string) (r : plan_row) : Prop := {
  ro_key : row_key r = k;
  ro_plain : strip (plan_id r) = plan_id r;
  ro_claims : claims_ok tr k (row_status r) (lifecycle_of r);
}.

Definition table_ok (tr : list fact) (t : table) : Prop := forall k r, t !! k = Some r -> row_ok tr k r.

Lemma existsb_left {A} (p : A -> bool) l l' : existsb p l = true -> existsb p (l ++ l') = true.
Proof. rewrite existsb_app. by intros ->. Qed.

Lemma claims_ok_mono tr es k st lc : claims_ok tr k st lc -> claims_ok (tr ++ es) k st lc.
Proof. intros []. split; eauto using @existsb_left. Qed.

Lemma table_ok_mono tr es t : table_ok tr t -> table_ok (tr ++ es) t.
Proof. intros Ht k r [Hk Hp Hc]%Ht. split; [done..|]. by apply claims_ok_mono. Qed.

Lemma table_ok_insert tr es t k r :
  table_ok tr t -> row_ok (tr ++ es) k r -> table_ok (tr ++ es) (<[k := r]> t).
Proof.
  intros Ht Hr k' r' [[<- <-]|[_ Hx]]%lookup_insert_Some; [done|]. by apply (table_ok_mono tr es t Ht).
Qed.

Lemma table_ok_keyed tr t : table_ok tr t -> keyed t.
Proof. intros Ht k r Hk. by destruct (Ht k r Hk). Qed.

Lemma lifecycle_with r st lc clear now : lifecycle_of (with_lifecycle r st lc clear now) = lc.
Proof. unfold lifecycle_of. cbn [payload with_lifecycle]. by rewrite get_set_eq. Qed.

(** A compare-and-set is right when what it writes is. *)
Lemma cas_ok tr es t plan ws expected st lc clear now t' saved :
  table_ok tr t ->
  update_recovery_plan_lifecycle_if_status t plan ws expected st lc clear now = (t', saved) ->
  (saved <> None -> claims_ok (tr ++ es) (ws, plan) st lc) ->
  table_ok (tr ++ es) t'.
Proof.
  intros Ht [[-> _]|(r & Hr & _ & -> & ->)]%cas_cases Hc; [by apply table_ok_mono|].
  apply table_ok_insert; [done|]. destruct (Ht _ _ Hr) as [Hk Hp _].
  split; [done|done|]. rewrite lifecycle_with. by apply Hc.
Qed.

(** Rows of the table that a read returned. *)
Lemma by_correlation_ok tr t correlation ws r :
  table_ok tr t -> get_recovery_plan_by_correlation t correlation ws = Some r ->
  row_ok tr (ws, plan_id r) r /\ workspace_id r = ws.
Proof.
  intros Ht (k & Hk & _ & Hws)%by_correlation_elem. apply Ht in Hk as Hr. destruct (Hr) as [Hkey _ _].
  unfold row_key in Hkey. rewrite Hws in Hkey. by subst k.
Qed.

Lemma listed_ok (tr : list fact) (t : table) (p : plan_row -> bool) r :
  table_ok tr t -> r ∈ keep p (map_to_list t).*2 -> row_ok tr (row_key r) r /\ p r = true.
Proof.
  intros Ht [Hp [k Hk]]%RecoveryPullRequest.keep_values_elem. apply Ht in Hk as Hr.
  by destruct (Hr) as [<- _ _].
Qed.

Lemma has_merge_update lc es :
  "merge" ∉ es.*1 -> has_merge (dict_update lc es) = has_merge lc.
Proof. intros Hm. unfold has_merge. by rewrite get_update. Qed.

(** A status that claims nothing. *)
Lemma claims_idle tr k st lc :
  st ∈ [RECOVERY_STATUS_SELECTION_REQUESTED; RECOVERY_STATUS_FAILED] ->
  (has_merge lc = true -> existsb (merged k) tr = true) -> claims_ok tr k st lc.
Proof.
  intros Hst Hm. unfold PAST_MERGE. rewrite !elem_of_cons, elem_of_nil in Hst.
  split; [| | |done]; unfold PAST_MERGE; rewrite ?elem_of_cons, ?elem_of_nil;
    destruct Hst as [->|[->|[]]]; intros Hx; first [discriminate|by destruct Hx as [Hx|[Hx|[Hx|[]]]]].
Qed.

(** A status after a merge that happened. *)
Lemma claims_merged tr k st lc :
  existsb (merged k) tr = true -> st ∈ RECOVERY_STATUS_FAILED :: PAST_MERGE -> claims_ok tr k st lc.
Proof.
  intros Hm Hst. unfold PAST_MERGE in Hst. rewrite !elem_of_cons, elem_of_nil in Hst.
  split; [| |done|done]; by destruct Hst as [->|[->|[->|[->|[]]]]].
Qed.

(** *** Every operation is sound *)

(** The table after the step and the facts it adds. *)
Definition sound (tr es : list fact) (t : table) : Prop := table_ok (tr ++ es) t /\ Forall (justified tr) es.

Definition quiet (f : fact) : bool :=
  match f with
  | Fed (RecoveryPrTracked _ _ _ _ _ _ _ _ _) => false
  | Webhooked (RecoveryPullRequest.MergedPr _ _) => false
  | Verified (IncidentResolved _ _ _ _ _ _ _ _) => false
  | _ => true
  end.

Lemma quiet_justified tr f : quiet f = true -> justified tr f.
Proof. intros Hq k. destruct f as [| |[]|[]|[]]; try discriminate; repeat split; discriminate. Qed.

Lemma quiet_all tr es : forallb quiet es = true -> Forall (justified tr) es.
Proof. rewrite forallb_elem, Forall_forall. eauto using quiet_justified. Qed.

Lemma sound_none tr t : table_ok tr t -> sound tr [] t.
Proof. intros Ht. split; [by rewrite app_nil_r|constructor]. Qed.

Lemma planned_sound tr t evt correlation id now t' b :
  table_ok tr t -> new_plan evt -> on_recovery_planned t evt correlation id now = Ok (t', b) ->
  sound tr [Planned b] t'.
Proof.
  unfold on_recovery_planned, new_plan. intros Ht Hn Hp. split; [|by apply quiet_all].
  destruct (select_body evt) as [plan ws|]; [|by injection Hp as <- <-; apply table_ok_mono].
  destruct Hn as [Hlc Hid]. apply bind_Ok in Hp as (t1 & Hu & [= <- <-]).
  unfold upsert_recovery_plan in Hu. cbn [raise_if negb bool_decide] in Hu.
  apply bind_Ok in Hu as (_ & _ & (pid & Hpid & (inc & _ & (ev & _ & [= <-])%bind_Ok)%bind_Ok)%bind_Ok).
  specialize (Hid pid Hpid).
  assert (forall r, lifecycle_of r = [] -> claims_ok (tr ++ [Planned (SelectionRequested plan ws)]) (ws, pid)
            RECOVERY_STATUS_SELECTION_REQUESTED (lifecycle_of r)) as Hnew.
  { intros r ->. by apply claims_idle; [set_solver|]. }
  destruct (t !! (ws, pid)) as [r|] eqn:Hr.
  - destruct (Ht _ _ Hr) as [Hk Hpl Hc]. case_bool_decide; apply table_ok_insert; try done; split; try done.
    + cbn. by apply claims_ok_mono.
    + by apply Hnew.
  - apply table_ok_insert; [done|]. split; [done..|]. by apply Hnew.
Qed.

Lemma select_sound tr s r action expected ws user access preflight uuid clock now s' ps a :
  table_ok tr (plans s) ->
  select_recovery_action_from_record s r action expected ws user access preflight uuid clock now = Ok (s', ps, a) ->
  sound tr (Published <$> ps) (plans s').
Proof.
  intros Ht (plan & _ & Hs)%bind_Ok. assert (forall x, Ok (s, [], x) = Ok (s', ps, a) -> sound tr (Published <$> ps) (plans s'))
    as Hsame by (by intros x [= <- <- _]; apply sound_none).
  destruct (negb _); [by eapply Hsame|]. destruct (match expected with Some _ => _ | None => _ end); [by eapply Hsame|].
  destruct (candidate_by_action_id _ _) as [c|]; [|by eapply Hsame].
  apply bind_Ok in Hs as ([prepared|b] & _ & Hs).
  2: { injection Hs as <- <- _. split; [by apply table_ok_mono|by apply quiet_all]. }
  apply bind_Ok in Hs as ([t saved] & Hsel & Hs). destruct saved as [r'|]; [|by eapply Hsame].
  destruct (approve _ _ _ _ _) as [store d]. injection Hs as <- <- _. split; [|by apply quiet_all].
  unfold select_recovery_plan_action_if_open in Hsel. destruct (plans s !! _) as [r0|] eqn:Hr0; [|done].
  case_bool_decide; [|done]. apply bind_Ok in Hsel as (n & _ & [= <- _]). cbn [plans].
  apply table_ok_insert; [done|]. destruct (Ht _ _ Hr0) as [Hk Hp _].
  split; [done..|]. unfold lifecycle_of. cbn [payload row_status]. rewrite get_set_eq.
  split; try done.
  - intros _. rewrite existsb_app. cbn. rewrite bool_decide_eq_true_2 by done. by rewrite orb_true_r.
  - unfold PAST_MERGE. rewrite !elem_of_cons, elem_of_nil. by intros [Hx|[Hx|[Hx|[]]]].
Qed.

Lemma decided_by_retry tr plan incident action stage attempt user why run_ ws rest :
  existsb (decided (ws, plan))
    (tr ++ Published (RetryRequestedPublished plan incident action stage attempt user why run_ ws) :: rest) = true.
Proof. rewrite existsb_app. cbn. rewrite bool_decide_eq_true_2 by done. by rewrite orb_true_r. Qed.

Lemma retry_safe_pr_sound tr s r plan action ws user why uuid preflight now s' ps a :
  table_ok tr (plans s) ->
  retry_safe_pr s r plan action ws user why uuid preflight now = Ok (s', ps, a) ->
  sound tr (Published <$> ps) (plans s').
Proof.
  unfold retry_safe_pr. intros Ht Hs.
  assert (forall x, Ok (s, [], x) = Ok (s', ps, a) -> sound tr (Published <$> ps) (plans s'))
    as Hsame by (by intros x [= <- <- _]; apply sound_none).
  destruct preflight as [prepare|]; [|by eapply Hsame].
  destruct (candidate_by_action_id _ _) as [c|]; [|by eapply Hsame].
  destruct (negb _); [by eapply Hsame|].
  apply bind_Ok in Hs as ([prepared|b] & _ & Hs).
  2: { injection Hs as <- <- _. split; [by apply table_ok_mono|by apply quiet_all]. }
  destruct (approve _ _ _ _ _) as [store d].
  destruct (update_recovery_plan_lifecycle_if_status _ _ _ _ _ _ _ _) as [t saved] eqn:Ecas.
  destruct saved; injection Hs as <- <- _.
  - split; [|by apply quiet_all]. eapply cas_ok; [done|exact Ecas|]. intros _.
    split; try done; [intros _; apply decided_by_retry|].
    unfold PAST_MERGE. rewrite !elem_of_cons, elem_of_nil. by intros [Hx|[Hx|[Hx|[]]]].
  - split; [|by constructor]. by eapply cas_ok; [done|exact Ecas|].
Qed.

Lemma prepared_status r lifecycle code workflow user why now next status attempt stage run_ deploy :
  prepared_retry r lifecycle code workflow user why now
    = Ok (Some (Some (next, status, attempt, stage, run_, deploy))) ->
  status ∈ RECOVERY_STATUS_FAILED :: PAST_MERGE.
Proof.
  unfold prepared_retry. destruct (str_eqb code _).
  { intros ([[body n]|] & _ & [=])%bind_Ok. subst. set_solver. }
  destruct (str_eqb code _); [|done]. intros ([[lc n]|] & _ & [=])%bind_Ok. subst. set_solver.
Qed.

Lemma retry_merged_sound tr s r action ws user why code runs now s' ps a :
  table_ok tr (plans s) -> row_ok tr (ws, strip (plan_id r)) r ->
  retry_merged s r action ws user why code runs now = Ok (s', ps, a) ->
  sound tr (Published <$> ps) (plans s').
Proof.
  unfold retry_merged. intros Ht [_ _ Hc] Hs.
  assert (forall x, Ok (s, [], x) = Ok (s', ps, a) -> sound tr (Published <$> ps) (plans s'))
    as Hsame by (by intros x [= <- <- _]; apply sound_none).
  destruct (is_empty _) eqn:Erun; [by eapply Hsame|].
  apply bind_Ok in Hs as ([[[[[[[next status] attempt] stage] run_] deploy]|]|] & Hp & Hs);
    [|by eapply Hsame..].
  destruct (update_recovery_plan_lifecycle_if_status _ _ _ _ _ _ _ _) as [t saved] eqn:Ecas.
  destruct saved; [|by eapply Hsame]. injection Hs as <- <- _. split; [|apply quiet_all; by destruct deploy].
  eapply cas_ok; [done|exact Ecas|]. intros _. apply claims_merged; [|by eapply prepared_status].
  apply existsb_left, (co_merge _ _ _ _ Hc). unfold has_merge, nonempty. by rewrite Erun.
Qed.

Lemma retry_sound tr s correlation expected reason ws user access preflight runs uuid now s' ps a :
  table_ok tr (plans s) ->
  retry_recovery_by_correlation s correlation expected reason ws user access preflight runs uuid now
    = Ok (s', ps, a) ->
  sound tr (Published <$> ps) (plans s').
Proof.
  unfold retry_recovery_by_correlation. intros Ht Hs.
  assert (forall x, Ok (s, [], x) = Ok (s', ps, a) -> sound tr (Published <$> ps) (plans s'))
    as Hsame by (by intros x [= <- <- _]; apply sound_none).
  destruct (get_recovery_plan_by_correlation _ _ _) as [r|] eqn:Hr; [|by eapply Hsame].
  apply (by_correlation_ok tr) in Hr as [Hr _]; [|done].
  destruct (negb _); [by eapply Hsame|]. apply bind_Ok in Hs as (plan & _ & Hs).
  destruct (negb _); [by eapply Hsame|]. destruct (negb _); [by eapply Hsame|].
  destruct (is_empty _); [by eapply Hsame|]. destruct (str_eqb _ _).
  - by eapply retry_safe_pr_sound.
  - eapply retry_merged_sound; [done| |exact Hs]. by rewrite (ro_plain _ _ _ Hr).
Qed.

(** Reopening keeps the payload. *)
Lemma reopen_ok tr es t plan ws action now t' b :
  table_ok tr t -> reopen_recovery_plan_action t plan ws action now = (t', b) -> table_ok (tr ++ es) t'.
Proof.
  unfold reopen_recovery_plan_action. intros Ht.
  destruct (t !! (ws, plan)) as [r|] eqn:Hr; [|by intros [= <- _]; apply table_ok_mono].
  destruct (_ && _); intros [= <- _]; [|by apply table_ok_mono].
  apply table_ok_insert; [done|]. destruct (Ht _ _ Hr) as [Hk Hp Hc]. split; [done..|].
  apply claims_idle; [set_solver|]. intros Hm. by apply existsb_left, (co_merge _ _ _ _ Hc).
Qed.

Lemma pr_created_sound tr t rd evt correlation now t' fs :
  table_ok tr t -> on_recovery_safe_pr_created t rd evt correlation now = Ok (t', fs) ->
  sound tr (Fed <$> fs) t'.
Proof.
  unfold on_recovery_safe_pr_created. intros Ht Hs.
  assert (Ok (t, []) = Ok (t', fs) -> sound tr (Fed <$> fs) t')
    as Hsame by (by intros [= <- <-]; apply sound_none).
  destruct (get_recovery_plan_by_correlation _ _ _) as [r|] eqn:Hr; [|by apply Hsame].
  apply (by_correlation_ok tr) in Hr as [[Hk Hp Hc] Hws]; [|done].
  destruct (_ || _) eqn:E; [by apply Hsame|].
  apply orb_false_iff in E as [[Hst%negb_false_iff%str_eqb_eq _]%orb_false_iff _].
  destruct (safe_pr_identity_error _ _).
  - destruct (reopen_recovery_plan_action _ _ _ _ _) as [t1 b] eqn:Er. injection Hs as <- <-.
    split; [by eapply reopen_ok|]. apply quiet_all. by destruct b.
  - apply bind_Ok in Hs as (bl & _ & Hs).
    destruct (update_recovery_plan_lifecycle_if_status _ _ _ _ _ _ _ _) as [t1 saved] eqn:Ecas.
    injection Hs as <- <-. split.
    + eapply cas_ok; [done|exact Ecas|]. intros Hsv. destruct saved; [|done]. cbn [fmap list_fmap].
      split; try done.
      * intros _. rewrite existsb_app. cbn. rewrite bool_decide_eq_true_2 by done. by rewrite orb_true_r.
      * unfold PAST_MERGE. rewrite !elem_of_cons, elem_of_nil. by intros [Hx|[Hx|[Hx|[]]]].
    + destruct saved; [|constructor]. repeat constructor; try discriminate.
      cbn. intros ->%bool_decide_eq_true. by apply (co_selected _ _ _ _ Hc).
Qed.

Lemma pr_failed_sound tr t rd evt correlation now t' fs :
  table_ok tr t -> on_recovery_safe_pr_failed t rd evt correlation now = (t', fs) ->
  sound tr (Fed <$> fs) t'.
Proof.
  unfold on_recovery_safe_pr_failed. intros Ht Hs.
  assert ((t, []) = (t', fs) -> sound tr (Fed <$> fs) t')
    as Hsame by (by intros [= <- <-]; apply sound_none).
  destruct (failed_safe_pr_recovery_identity _ _ _ _) as [[plan action]|]; [|by apply Hsame].
  destruct (get_recovery_plan_by_correlation _ _ _) as [r|] eqn:Hr; [|by apply Hsame].
  apply (by_correlation_ok tr) in Hr as [[Hk Hp Hc] _]; [|done].
  destruct (_ || _) eqn:E; [by apply Hsame|].
  apply orb_false_iff in E as [[Hpl%negb_false_iff%str_eqb_eq _]%orb_false_iff _].
  rewrite Hp in Hpl. subst plan.
  destruct (update_recovery_plan_lifecycle_if_status _ _ _ _ _ _ _ _) as [t1 saved] eqn:Ecas.
  injection Hs as <- <-. split; [|apply quiet_all; by destruct saved].
  eapply cas_ok; [done|exact Ecas|]. intros _. apply claims_idle; [set_solver|].
  rewrite has_merge_update by set_solver. intros Hm. by apply existsb_left, (co_merge _ _ _ _ Hc).
Qed.

Lemma action_required_sound tr t evt correlation now t' fs :
  table_ok tr t -> on_rca_action_required t evt correlation now = (t', fs) -> sound tr (Fed <$> fs) t'.
Proof.
  unfold on_rca_action_required, reopen_recovery_selection. intros Ht Hs.
  assert (forall t1 l, (t1 = t \/ exists p a b', reopen_recovery_plan_action t p
            (RecoveryDispatch.ar_workspace_id evt) a now = (t1, b')) ->
          forallb quiet (Fed <$> l) = true -> (t1, l) = (t', fs) -> sound tr (Fed <$> fs) t') as Hany.
  { intros t1 l Ht1 Hq [= <- <-]. split; [|by apply quiet_all].
    destruct Ht1 as [->|(p & a & b' & Hre)]; [by apply table_ok_mono|by eapply reopen_ok]. }
  case_bool_decide; [|by eapply Hany; [left| |exact Hs]].
  destruct (_ || _); [by eapply Hany; [left| |exact Hs]|].
  destruct (reopen_recovery_plan_action _ _ _ _ _) as [t1 b] eqn:Er.
  destruct b; [by eapply Hany; [right; eauto| |exact Hs]|].
  eapply Hany; [right; eauto| |exact Hs]. by destruct (match _ with Some _ => _ | None => _ end).
Qed.

Lemma reject_sound tr t r code reason now t' a :
  table_ok tr t -> row_ok tr (row_key r) r ->
  RecoveryPullRequest.reject_tracked_recovery_pull_request t r code reason now = (t', a) ->
  sound tr [Webhooked a] t'.
Proof.
  unfold RecoveryPullRequest.reject_tracked_recovery_pull_request. intros Ht [_ _ Hc] Hs.
  destruct (update_recovery_plan_lifecycle_if_status _ _ _ _ _ _ _ _) as [t1 saved] eqn:Ecas.
  injection Hs as <- <-. split; [|apply quiet_all; by destruct saved].
  eapply cas_ok; [done|exact Ecas|]. intros _. apply claims_idle; [set_solver|].
  rewrite has_merge_update by set_solver. intros Hm. by apply existsb_left, (co_merge _ _ _ _ Hc).
Qed.

Lemma only_row_ok tr p t r : table_ok tr t -> RecoveryPullRequest.only_row p t r -> row_ok tr (row_key r) r.
Proof. intros Ht (_ & (k & Hk) & _). apply Ht in Hk as Hr. by destruct (Hr) as [<- _ _]. Qed.

(** A merge that is reported. *)
Lemma merged_sound tr t targets image webhook now t' m deploy :
  table_ok tr t ->
  RecoveryPullRequest.handle_tracked_recovery_pull_request t targets image webhook now
    = Ok (t', RecoveryPullRequest.MergedPr m deploy) ->
  sound tr [Webhooked (RecoveryPullRequest.MergedPr m deploy)] t'.
Proof.
  intros Ht (i & r & target & _ & _ & _ & Hx & _ & _ & Hs)%RecoveryPullRequest.merged_inv.
  apply (only_row_ok tr) in Hx as Hr; [|done]. destruct Hx as (Hp & _ & _).
  apply RecoveryPullRequest.start_deployment_inv in Hs as (_ & _ & _ & _ & Hid & Hws & _ & r0 & Hr0 & _ & ->).
  split.
  - apply table_ok_insert; [done|]. destruct (Ht _ _ Hr0) as [Hk0 Hp0 _]. split; [done..|].
    apply claims_merged; [|set_solver]. rewrite existsb_app. cbn. rewrite Hid, Hws.
    rewrite bool_decide_eq_true_2 by done. by rewrite orb_true_r.
  - repeat constructor; try discriminate. cbn. rewrite Hid, Hws. intros ->%bool_decide_eq_true.
    apply (co_open _ _ _ _ (ro_claims _ _ _ Hr)).
    unfold RecoveryPullRequest.exact_matches, RecoveryPullRequest.base_matches in Hp.
    rewrite !andb_true_iff in Hp. by destruct Hp as [[[[[[[?%str_eqb_eq _] _] _] _] _] _] _].
Qed.

Lemma start_deployment_quiet t i r target image now t' a :
  RecoveryPullRequest.start_deployment t i r target image now = Ok (t', a) ->
  (t' = t /\ quiet (Webhooked a) = true) \/
  (exists code reason, RecoveryPullRequest.reject_tracked_recovery_pull_request t r code reason now = (t', a)) \/
  exists m deploy, a = RecoveryPullRequest.MergedPr m deploy.
Proof.
  unfold RecoveryPullRequest.start_deployment.
  destruct (RecoveryPullRequest.verification_blockers _); [|intros [= <- <-]; by left].
  destruct (RecoveryMerge.approved_change_contract _); [|intros ?%Ok_inj; eauto].
  destruct (_ || _); [intros ?%Ok_inj; eauto|].
  destruct (update_recovery_plan_lifecycle_if_status _ _ _ _ _ _ _ _) as [t1 saved] eqn:Ecas.
  destruct (cas_cases _ _ _ _ _ _ _ _ _ _ Ecas) as [[-> ->]|(r0 & _ & _ & -> & _)];
    [intros [= <- <-]; by left|].
  intros (a1 & _ & (a2 & _ & (a3 & _ & (a4 & _ & (a5 & _ & [= <- <-])%bind_Ok)%bind_Ok)%bind_Ok)%bind_Ok)%bind_Ok.
  eauto.
Qed.

Lemma webhook_sound tr t targets image webhook now t' a :
  table_ok tr t ->
  RecoveryPullRequest.handle_tracked_recovery_pull_request t targets image webhook now = Ok (t', a) ->
  sound tr [Webhooked a] t'.
Proof.
  intros Ht Hs. assert (forall m d, a = RecoveryPullRequest.MergedPr m d -> sound tr [Webhooked a] t') as Hmg
    by (intros m d ->; by eapply merged_sound).
  assert (forall x, quiet (Webhooked x) = true -> Ok (t, x) = Ok (t', a) -> sound tr [Webhooked a] t') as Hsame.
  { intros x Hq [= <- <-]. split; [by apply table_ok_mono|]. apply quiet_all. cbn. by rewrite andb_true_r. }
  assert (forall r code reason, row_ok tr (row_key r) r ->
     Ok (RecoveryPullRequest.reject_tracked_recovery_pull_request t r code reason now) = Ok (t', a) ->
     sound tr [Webhooked a] t') as Hrej by (intros r code reason Hr ?%Ok_inj; by eapply reject_sound).
  unfold RecoveryPullRequest.handle_tracked_recovery_pull_request in Hs.
  destruct (RecoveryPullRequest.github_pull_request_identity webhook) as [i|]; [|by eapply Hsame, Hs].
  destruct (RecoveryPullRequest.find_open_recovery_plan_for_pull_request_base_identity t i) as [b|] eqn:Hb;
    [|by eapply Hsame, Hs].
  apply RecoveryPullRequest.the_one_row, (only_row_ok tr) in Hb; [|done].
  destruct (str_eqb _ "synchronize"); [by eapply Hrej, Hs|].
  destruct (negb _); [by eapply Hsame, Hs|]. destruct (negb _); [by eapply Hrej, Hs|].
  destruct (RecoveryPullRequest.find_open_recovery_plan_for_pull_request t i) as [r|] eqn:Hr;
    [|by eapply Hrej, Hs].
  apply RecoveryPullRequest.the_one_row, (only_row_ok tr) in Hr; [|done].
  destruct (RecoveryPullRequest.exact_recovery_poll_target _ _) as [target|]; [|by eapply Hrej, Hs].
  apply start_deployment_quiet in Hs as [[-> Hq]|[(code & reason & Hj)|(m & d & Hm)]].
  - by eapply Hsame.
  - eapply Hrej; [exact Hr|by rewrite Hj].
  - by eapply Hmg.
Qed.

Lemma for_workflow_ok tr t ws run_ binding application r :
  table_ok tr t -> get_recovery_plan_for_workflow t ws run_ binding application = Some r ->
  row_ok tr (ws, plan_id r) r.
Proof.
  intros Ht [Hp Hk]%RecoveryPullRequest.the_one_row. destruct Hk as [(k & Hk) _].
  apply Ht in Hk as Hr. destruct (Hr) as [<- _ _].
  apply andb_true_iff in Hp as [[?%str_eqb_eq _]%andb_true_iff _]. unfold row_key in Hr.
  by replace (workspace_id r) with ws in Hr.
Qed.

(** A compare-and-set on a plan whose merge was reported. *)
Lemma cas_merged tr t plan ws expected st lc clear now t' saved :
  table_ok tr t -> existsb (merged (ws, plan)) tr = true -> st ∈ RECOVERY_STATUS_FAILED :: PAST_MERGE ->
  update_recovery_plan_lifecycle_if_status t plan ws expected st lc clear now = (t', saved) ->
  table_ok tr t'.
Proof.
  intros Ht Hm Hst Hc. rewrite <- (app_nil_r tr). eapply cas_ok; [done|exact Hc|]. intros _.
  rewrite app_nil_r. by apply claims_merged.
Qed.

Lemma start_ok tr t ws run_ binding application workflow now t' e :
  table_ok tr t -> start_recovery_verification t ws run_ binding application workflow now = Ok (t', e) ->
  sound tr (Verified <$> option_list e) t'.
Proof.
  unfold start_recovery_verification. intros Ht Hs.
  assert (Ok (t, None) = Ok (t', e) -> sound tr (Verified <$> option_list e) t')
    as Hsame by (by intros [= <- <-]; apply sound_none).
  destruct (get_recovery_plan_for_workflow _ _ _ _ _) as [r|] eqn:Hr; [|by apply Hsame].
  apply (for_workflow_ok tr) in Hr as [_ _ Hc]; [|done].
  destruct workflow as [| | | | | | |workflow]; try (by apply Hsame).
  destruct (str_eqb _ _ && _) eqn:E; [|by apply Hsame].
  apply andb_true_iff in E as [Hst%str_eqb_eq _].
  apply bind_Ok in Hs as (m & _ & (dl & _ & Hd)%bind_Ok).
  destruct (update_recovery_plan_lifecycle_if_status _ _ _ _ _ _ _ _) as [t1 saved] eqn:Ecas.
  injection Hd as <- <-. split; [|apply quiet_all; by destruct saved].
  eapply table_ok_mono, cas_merged; [done| | |exact Ecas]; [|set_solver]. apply (co_past _ _ _ _ Hc). rewrite Hst. set_solver.
Qed.

Lemma deploy_failed_ok tr t ws run_ binding application why now t' es :
  table_ok tr t -> on_recovery_deploy_failed t ws run_ binding application why now = (t', es) ->
  sound tr (Verified <$> es) t'.
Proof.
  unfold on_recovery_deploy_failed. intros Ht Hs.
  assert ((t, []) = (t', es) -> sound tr (Verified <$> es) t')
    as Hsame by (by intros [= <- <-]; apply sound_none).
  destruct (get_recovery_plan_for_workflow _ _ _ _ _) as [r|] eqn:Hr; [|by apply Hsame].
  apply (for_workflow_ok tr) in Hr as [_ _ Hc]; [|done].
  destruct (str_eqb _ _) eqn:Hst; [|by apply Hsame]. apply str_eqb_eq in Hst.
  destruct (update_recovery_plan_lifecycle_if_status _ _ _ _ _ _ _ _) as [t1 saved] eqn:Ecas.
  injection Hs as <- <-. split; [|apply quiet_all; by destruct saved].
  eapply table_ok_mono, cas_merged; [done| | |exact Ecas]; [|set_solver]. apply (co_past _ _ _ _ Hc). rewrite Hst. set_solver.
Qed.

Lemma commit_ok tr t ws key now record d t' es :
  table_ok tr t -> commit_record t ws key now record d = Ok (t', es) ->
  table_ok tr t' /\ Forall (justified tr) (Verified <$> es).
Proof.
  unfold commit_record. intros Ht Hs.
  destruct (update_recovery_plan_lifecycle_if_status _ _ _ _ _ _ _ _) as [t1 saved] eqn:Ecas.
  destruct (cas_cases _ _ _ _ _ _ _ _ _ _ Ecas) as [[-> ->]|(r & Hr & Hin & _)].
  { injection Hs as <- <-. by split; [|constructor]. }
  assert (existsb (merged (ws, plan_id record)) tr = true) as Hm.
  { apply list_elem_of_singleton in Hin. destruct (Ht _ _ Hr) as [_ _ Hc].
    apply (co_past _ _ _ _ Hc). rewrite Hin. set_solver. }
  assert (table_ok tr t1) as Hok.
  { eapply cas_merged; [done|done| |exact Ecas]. unfold target_status. repeat case_match; set_solver. }
  destruct saved; [|injection Hs as <- <-; by split; [|constructor]].
  destruct (str_eqb (RecoveryVerification.status d) "failed"); [injection Hs as <- <-; by split; [|apply quiet_all]|].
  destruct (str_eqb (RecoveryVerification.status d) "completed"); [|injection Hs as <- <-; by split; [|apply quiet_all]].
  apply bind_Ok in Hs as (cluster & _ & [= <- <-]). split; [done|].
  repeat constructor; try discriminate. cbn. by intros ->%bool_decide_eq_true.
Qed.

Lemma evidence_ok tr t reader ws cluster key evidence now t' es :
  table_ok tr t -> on_recovery_verification_evidence t reader ws cluster key evidence now = Ok (t', es) ->
  sound tr (Verified <$> es) t'.
Proof.
  unfold on_recovery_verification_evidence. intros Ht Hs.
  assert (Ok (t, []) = Ok (t', es) -> sound tr (Verified <$> es) t')
    as Hsame by (by intros [= <- <-]; apply sound_none).
  destruct (is_empty key); [by apply Hsame|].
  destruct evidence as [| | | | | | |evidence]; try (by apply Hsame).
  eapply (foldr_res_inv _ (fun st => table_ok tr st.1 /\ Forall (justified tr) (Verified <$> st.2))) in Hs.
  - destruct Hs as [Hok Hj]. split; [|done]. by apply table_ok_mono.
  - intros [t1 out] record [t2 out'] _ Hrec [Ht1 Hj].
    apply bind_Ok in Hrec as (d & _ & ([t3 evs] & Hc & [= <- <-])%bind_Ok).
    destruct (commit_ok tr t1 _ _ _ _ _ _ _ Ht1 Hc) as [Ht3 Hj'].
    split; [done|]. cbn. rewrite fmap_app. by apply Forall_app.
  - split; [done|constructor].
Qed.

Lemma expire_ok tr t now limit t' es :
  table_ok tr t -> expire_recovery_verifications t now limit = (t', es) -> sound tr (Verified <$> es) t'.
Proof.
  unfold expire_recovery_verifications. intros Ht [= <- <-]. split.
  2: { apply quiet_all, forallb_elem. intros f (e & -> & (r & -> & _)%list_elem_of_fmap)%list_elem_of_fmap. done. }
  apply table_ok_mono.
  assert (Forall (fun r => row_ok tr (row_key r) r /\ existsb (merged (row_key r)) tr = true)
            (take (1 `max` (limit `min` 500)) (isort deadline_leb (keep (overdue now) (map_to_list t).*2)))) as Hall.
  { apply Forall_forall. intros r (i & Hi & _)%elem_of_take.
    apply list_elem_of_lookup_2, elem_of_isort, (listed_ok tr) in Hi as [Hr Hp]; [|done].
    split; [done|]. apply andb_true_iff in Hp as [Hst%str_eqb_eq _].
    apply (co_past _ _ _ _ (ro_claims _ _ _ Hr)). rewrite Hst. set_solver. }
  revert Hall. generalize (take (1 `max` (limit `min` 500)) (isort deadline_leb
    (keep (overdue now) (map_to_list t).*2))) as rows. intros rows. revert t Ht.
  induction rows as [|r rows IH]; intros t Ht Hall; [done|]. cbn [fold_left].
  apply Forall_cons in Hall as [[[Hk Hp Hc] Hm] Hall]. apply IH; [|done].
  rewrite <- (app_nil_r tr). apply table_ok_insert; [done|]. split; [done..|].
  rewrite app_nil_r. apply claims_merged; [done|set_solver].
Qed.

Lemma step_ok tr s es s' : table_ok tr (plans s) -> step s es s' -> sound tr es (plans s').
Proof.
  intros Ht. destruct 1; cbn [plans lift].
  - by eapply planned_sound.
  - unfold select_recovery_action in *. case_match; [by eapply select_sound|].
    simplify_eq. by apply sound_none.
  - unfold select_recovery_action_by_correlation in *. case_match; [by eapply select_sound|].
    simplify_eq. by apply sound_none.
  - by eapply retry_sound.
  - by eapply pr_created_sound.
  - by eapply pr_failed_sound.
  - by eapply action_required_sound.
  - by eapply webhook_sound.
  - by eapply start_ok.
  - by eapply deploy_failed_ok.
  - by eapply evidence_ok.
  - destruct (commit_ok tr (plans s) ws key now record d t es) as [Hok Hj]; [done..|].
    split; [by apply table_ok_mono|done].
  - by eapply expire_ok.
Qed.

Lemma run_ok tr s :
  run tr s -> table_ok tr (plans s) /\ forall pre f post, tr = pre ++ f :: post -> justified pre f.
Proof.
  induction 1 as [|tr s es s' _ [Ht Hj] Hs]; [split; [done|by intros []]|].
  apply (step_ok tr) in Hs as [Ht' He]; [|done]. split; [done|].
  intros pre f post Heq. apply app_eq_app in Heq as (l & [[-> Hl]|[-> Hl]]).
  - destruct l as [|g l]; cbn in Hl.
    + rewrite app_nil_r in *. subst es. by apply Forall_cons in He as [? _].
    + injection Hl as -> ->. by eapply Hj.
  - subst es. apply Forall_app in He as [_ [Hf _]%Forall_cons]. intros k. destruct (Hf k) as (Ha & Hb & Hc).
    split_and!; intros Hx; apply existsb_left; auto.
Qed.

(** C1: no incident is declared resolved without the whole way before it.
    In any history that starts with an empty table and interleaves planning,
    selections, retries, pull requests, webhooks, deployments, evidence and
    expiry in any order, each reported resolution of a plan has before it the
    merge webhook of exactly that plan, that merge has before it the tracking
    of the plan's pull request, and the tracking has before it a person's
    selection or retry of the plan.  The planned events are those of the
    planner ([new_plan]): the plan carries no lifecycle and its id has no
    surrounding blanks.  An operation is atomic, except that the write of an
    evidence handler may come any number of steps after its read. *)
Theorem resolution_needs_decision_and_merge tr s pre f post k :
  run tr s -> tr = pre ++ f :: post -> resolved k f = true ->
  exists p1 d p2 t p3 m p4, pre = p1 ++ d :: p2 ++ t :: p3 ++ m :: p4 /\
    decided k d = true /\ tracked k t = true /\ merged k m = true.
Proof.
  intros [_ Hj]%run_ok Heq Hf.
  destruct (Hj _ _ _ Heq k) as (_ & _ & Hm). specialize (Hm Hf).
  apply existsb_elem in Hm as (m & (q & p4 & ->)%list_elem_of_split & Hm).
  rewrite <- app_assoc in Heq. cbn in Heq. destruct (Hj _ _ _ Heq k) as (_ & Ht & _). specialize (Ht Hm).
  apply existsb_elem in Ht as (t & (q' & p3 & ->)%list_elem_of_split & Ht).
  rewrite <- app_assoc in Heq. cbn in Heq. destruct (Hj _ _ _ Heq k) as (Hd & _ & _). specialize (Hd Ht).
  apply existsb_elem in Hd as (d & (p1 & p2 & ->)%list_elem_of_split & Hd).
  exists p1, d, p2, t, p3, m, p4. split; [|done]. by rewrite <- !app_assoc.
Qed.

(** *** Resolved once *)

(** The verification events among the facts of a history. *)
Definition verified (fs : list fact) : list event :=
  omap (fun f => match f with Verified e => Some e | _ => None end) fs.

(** A history from any state, in the order of the steps. *)
Inductive history : state -> list fact -> state -> Prop :=
  | history_nil s : history s [] s
  | history_step s fs s' es s'' : history s fs s' -> step s' es s'' -> history s (fs ++ es) s''.

Lemma verified_events es : verified (Verified <$> es) = es.
Proof. induction es as [|e es IH]; [done|]. cbn. by f_equal. Qed.

Lemma verified_published ps : verified (Published <$> ps) = [].
Proof. by induction ps. Qed.

Lemma verified_fed fs : verified (Fed <$> fs) = [].
Proof. by induction fs. Qed.

(** A write of a row with a status other than completed. *)
Lemma open_write_sound t k r r' :
  t !! k = Some r -> row_status r <> RECOVERY_STATUS_COMPLETED -> row_key r' = row_key r ->
  sound_step t (<[k := r']> t) [].
Proof. intros. eapply sound_step_write; [done..|]. cbn. lia. Qed.

Lemma cas_quiet t plan ws expected st lc clear now t' saved :
  update_recovery_plan_lifecycle_if_status t plan ws [expected] st lc clear now = (t', saved) ->
  expected <> RECOVERY_STATUS_COMPLETED -> sound_step t t' [].
Proof. intros Hc Hne. eapply cas_sound; [exact Hc| |done]. by intros ?%list_elem_of_singleton. Qed.

(** A write under its own key that leaves the outcome of a completed row. *)
Lemma row_write_sound t k r' :
  row_key r' = k ->
  (forall r, t !! k = Some r -> row_status r = RECOVERY_STATUS_COMPLETED -> same_outcome r r') ->
  sound_step t (<[k := r']> t) [].
Proof.
  intros Hk Hc. split; [|split].
  - intros Hkeyed k' x [[<- <-]|[_ ?]]%lookup_insert_Some; [done|auto].
  - intros k' x Hx Hst. destruct (decide (k' = k)) as [->|Hne].
    + rewrite lookup_insert_eq. eauto.
    + rewrite lookup_insert_ne by done. eauto using same_outcome_refl.
  - intros k'. unfold is_completed. destruct (decide (k' = k)) as [->|Hne].
    + rewrite lookup_insert_eq. destruct (t !! k) as [r|] eqn:Hr; [|cbn; lia].
      destruct (str_eqb (row_status r) _) eqn:E; [|cbn; lia].
      apply str_eqb_eq in E. destruct (Hc r eq_refl E) as [-> _]. by rewrite E.
    + by rewrite lookup_insert_ne by done.
Qed.

(** A repeated planned event gives a completed plan another correlation and
    another evidence, and leaves its outcome. *)
Lemma planned_keeps t evt correlation id now t' b :
  on_recovery_planned t evt correlation id now = Ok (t', b) -> sound_step t t' [].
Proof.
  unfold on_recovery_planned.
  destruct (select_body evt) as [plan ws|]; [|intros [= <- _]; apply sound_step_refl].
  intros (t1 & Hu & [= <- _])%bind_Ok. unfold upsert_recovery_plan in Hu.
  apply bind_Ok in Hu as (_ & _ & (pid & _ & (inc & _ & (ev & _ & [= <-])%bind_Ok)%bind_Ok)%bind_Ok).
  destruct (t !! (ws, pid)) as [r|] eqn:Hr; [case_bool_decide as Hmono|];
    apply row_write_sound; try done; rewrite Hr; [|by intros x [= <-] Hst; destruct Hmono; rewrite Hst; set_solver|done].
  intros x [= <-] _. done.
Qed.

Lemma select_keeps s r action expected ws user access preflight uuid clock now s' ps a :
  select_recovery_action_from_record s r action expected ws user access preflight uuid clock now = Ok (s', ps, a) ->
  sound_step (plans s) (plans s') [].
Proof.
  intros (plan & _ & Hs)%bind_Ok.
  assert (forall l x, Ok (s, l, x) = Ok (s', ps, a) -> sound_step (plans s) (plans s') [])
    as Hsame by (intros l x [= <- _ _]; apply sound_step_refl).
  destruct (negb _); [by eapply Hsame|]. destruct (match expected with Some _ => _ | None => _ end); [by eapply Hsame|].
  destruct (candidate_by_action_id _ _) as [c|]; [|by eapply Hsame].
  apply bind_Ok in Hs as ([prepared|b] & _ & Hs); [|by eapply Hsame].
  apply bind_Ok in Hs as ([t saved] & Hsel & Hs). destruct saved as [r'|]; [|by eapply Hsame].
  destruct (approve _ _ _ _ _) as [store d]. injection Hs as <- _ _. cbn [plans].
  unfold select_recovery_plan_action_if_open in Hsel. destruct (plans s !! _) as [r0|] eqn:Hr0; [|done].
  case_bool_decide as Hopen; [|done]. apply bind_Ok in Hsel as (n & _ & [= <- _]).
  eapply open_write_sound; [exact Hr0| |done]. apply list_elem_of_singleton in Hopen as ->. done.
Qed.

Lemma retry_keeps s correlation expected reason ws user access preflight runs uuid now s' ps a :
  retry_recovery_by_correlation s correlation expected reason ws user access preflight runs uuid now
    = Ok (s', ps, a) -> sound_step (plans s) (plans s') [].
Proof.
  unfold retry_recovery_by_correlation, retry_safe_pr, retry_merged. intros Hs.
  assert (forall l x, Ok (s, l, x) = Ok (s', ps, a) -> sound_step (plans s) (plans s') [])
    as Hsame by (intros l x [= <- _ _]; apply sound_step_refl).
  destruct (get_recovery_plan_by_correlation _ _ _) as [r|]; [|by eapply Hsame].
  destruct (negb _); [by eapply Hsame|]. apply bind_Ok in Hs as (plan & _ & Hs).
  do 2 (destruct (negb _); [by eapply Hsame|]). destruct (is_empty _); [by eapply Hsame|].
  destruct (str_eqb _ _).
  - destruct preflight as [prepare|]; [|by eapply Hsame].
    destruct (candidate_by_action_id _ _) as [c|]; [|by eapply Hsame].
    destruct (negb _); [by eapply Hsame|]. apply bind_Ok in Hs as ([prepared|b] & _ & Hs); [|by eapply Hsame].
    destruct (approve _ _ _ _ _) as [store d].
    destruct (update_recovery_plan_lifecycle_if_status _ _ _ _ _ _ _ _) as [t saved] eqn:Ecas.
    destruct saved; injection Hs as <- _ _; by eapply cas_quiet.
  - destruct (is_empty _); [by eapply Hsame|].
    apply bind_Ok in Hs as ([[[[[[[next status] attempt] stage] run_] deploy]|]|] & _ & Hs); [|by eapply Hsame..].
    destruct (update_recovery_plan_lifecycle_if_status _ _ _ _ _ _ _ _) as [t saved] eqn:Ecas.
    destruct saved; [|by eapply Hsame]. injection Hs as <- _ _. by eapply cas_quiet.
Qed.

Lemma reopen_keeps t plan ws action now t' b :
  reopen_recovery_plan_action t plan ws action now = (t', b) -> sound_step t t' [].
Proof.
  unfold reopen_recovery_plan_action.
  destruct (t !! (ws, plan)) as [r|] eqn:Hr; [|intros [= <- _]; apply sound_step_refl].
  destruct (_ && _) eqn:E; intros [= <- _]; [|apply sound_step_refl].
  apply andb_true_iff in E as [Hst%str_eqb_eq _].
  eapply open_write_sound; [exact Hr|by rewrite Hst|done].
Qed.

Lemma pr_created_keeps t rd evt correlation now t' fs :
  on_recovery_safe_pr_created t rd evt correlation now = Ok (t', fs) -> sound_step t t' [].
Proof.
  unfold on_recovery_safe_pr_created.
  destruct (get_recovery_plan_by_correlation _ _ _) as [r|]; [|intros [= <- _]; apply sound_step_refl].
  destruct (_ || _); [intros [= <- _]; apply sound_step_refl|]. destruct (safe_pr_identity_error _ _).
  - destruct (reopen_recovery_plan_action _ _ _ _ _) as [t1 b] eqn:Er. intros [= <- _]. by eapply reopen_keeps.
  - intros (bl & _ & Hs)%bind_Ok.
    destruct (update_recovery_plan_lifecycle_if_status _ _ _ _ _ _ _ _) as [t1 saved] eqn:Ecas.
    injection Hs as <- _. by eapply cas_quiet.
Qed.

Lemma pr_failed_keeps t rd evt correlation now t' fs :
  on_recovery_safe_pr_failed t rd evt correlation now = (t', fs) -> sound_step t t' [].
Proof.
  unfold on_recovery_safe_pr_failed.
  destruct (failed_safe_pr_recovery_identity _ _ _ _) as [[plan action]|]; [|intros [= <- _]; apply sound_step_refl].
  destruct (get_recovery_plan_by_correlation _ _ _) as [r|]; [|intros [= <- _]; apply sound_step_refl].
  destruct (_ || _); [intros [= <- _]; apply sound_step_refl|].
  destruct (update_recovery_plan_lifecycle_if_status _ _ _ _ _ _ _ _) as [t1 saved] eqn:Ecas.
  intros [= <- _]. by eapply cas_quiet.
Qed.

Lemma action_required_keeps t evt correlation now t' fs :
  on_rca_action_required t evt correlation now = (t', fs) -> sound_step t t' [].
Proof.
  unfold on_rca_action_required, reopen_recovery_selection.
  case_bool_decide; [|intros [= <- _]; apply sound_step_refl].
  destruct (_ || _); [intros [= <- _]; apply sound_step_refl|].
  destruct (reopen_recovery_plan_action _ _ _ _ _) as [t1 b] eqn:Er.
  destruct b; intros [= <- _]; by eapply reopen_keeps.
Qed.

Lemma reject_keeps t r code reason now t' a :
  RecoveryPullRequest.reject_tracked_recovery_pull_request t r code reason now = (t', a) -> sound_step t t' [].
Proof.
  unfold RecoveryPullRequest.reject_tracked_recovery_pull_request.
  destruct (update_recovery_plan_lifecycle_if_status _ _ _ _ _ _ _ _) as [t1 saved] eqn:Ecas.
  intros [= <- _]. by eapply cas_quiet.
Qed.

Lemma webhook_keeps t targets image webhook now t' a :
  RecoveryPullRequest.handle_tracked_recovery_pull_request t targets image webhook now = Ok (t', a) ->
  sound_step t t' [].
Proof.
  assert (forall x, Ok (t, x) = Ok (t', a) -> sound_step t t' []) as Hsame
    by (intros x [= <- _]; apply sound_step_refl).
  assert (forall r code reason,
     Ok (RecoveryPullRequest.reject_tracked_recovery_pull_request t r code reason now) = Ok (t', a) ->
     sound_step t t' []) as Hrej by (intros r code reason ?%Ok_inj; by eapply reject_keeps).
  unfold RecoveryPullRequest.handle_tracked_recovery_pull_request. intros Hs.
  destruct (RecoveryPullRequest.github_pull_request_identity webhook) as [i|]; [|by eapply Hsame, Hs].
  destruct (RecoveryPullRequest.find_open_recovery_plan_for_pull_request_base_identity t i) as [b|];
    [|by eapply Hsame, Hs].
  destruct (str_eqb _ "synchronize"); [by eapply Hrej, Hs|].
  destruct (negb _); [by eapply Hsame, Hs|]. destruct (negb _); [by eapply Hrej, Hs|].
  destruct (RecoveryPullRequest.find_open_recovery_plan_for_pull_request t i) as [r|]; [|by eapply Hrej, Hs].
  destruct (RecoveryPullRequest.exact_recovery_poll_target _ _) as [target|]; [|by eapply Hrej, Hs].
  unfold RecoveryPullRequest.start_deployment in Hs.
  destruct (RecoveryPullRequest.verification_blockers _); [|by eapply Hsame, Hs].
  destruct (RecoveryMerge.approved_change_contract _); [|by eapply Hrej, Hs].
  destruct (_ || _); [by eapply Hrej, Hs|].
  destruct (update_recovery_plan_lifecycle_if_status _ _ _ _ _ _ _ _) as [t1 saved] eqn:Ecas.
  assert (t' = t1) as ->; [|by eapply cas_quiet].
  destruct saved; [|by injection Hs as <- _]. repeat apply bind_Ok in Hs as (? & _ & Hs). by injection Hs as <- _.
Qed.

Lemma step_keeps s es s' : step s es s' -> keyed (plans s) -> sound_step (plans s) (plans s') (verified es).
Proof.
  destruct 1; intros Hk; rewrite ?verified_events, ?verified_published, ?verified_fed; cbn [plans lift].
  - by eapply planned_keeps.
  - unfold select_recovery_action in *. case_match; [by eapply select_keeps|].
    simplify_eq. apply sound_step_refl.
  - unfold select_recovery_action_by_correlation in *. case_match; [by eapply select_keeps|].
    simplify_eq. apply sound_step_refl.
  - by eapply retry_keeps.
  - by eapply pr_created_keeps.
  - by eapply pr_failed_keeps.
  - by eapply action_required_keeps.
  - by eapply webhook_keeps.
  - by eapply start_sound.
  - by eapply deploy_failed_sound.
  - by eapply evidence_sound.
  - by eapply commit_record_sound.
  - by eapply expire_sound.
Qed.

(** C28: an incident is resolved once, and for good.  Along any history of
    everything that writes the plan table - planning and planning again,
    selections, all three retries, tracked and failed pull requests, webhooks,
    deployments, evidence, expiry, with the writes of concurrent evidence
    handlers interleaved in any order - the incident of a plan is reported
    resolved at most once; the plan was then not completed before and is
    completed at the end; and a completed plan keeps its status, its decision
    and its payload with the lifecycle, although a repeated planned event may
    give it another correlation, incident and evidence reference.  Planned
    events are those of the planner, as for the other histories of this file:
    without a lifecycle and with a plan id without surrounding blanks. *)
Theorem incident_resolved_once s fs s' :
  keyed (plans s) -> history s fs s' ->
  (forall k, (resolved_count k (verified fs) <= 1)%nat /\
     (resolved_count k (verified fs) = 1%nat ->
        is_completed (plans s) k = 0%nat /\ is_completed (plans s') k = 1%nat)) /\
  (forall k r, plans s !! k = Some r -> row_status r = RECOVERY_STATUS_COMPLETED ->
     exists r', plans s' !! k = Some r' /\ row_status r' = RECOVERY_STATUS_COMPLETED /\ payload r' = payload r /\
       selected_action_id r' = selected_action_id r /\ selected_by r' = selected_by r).
Proof.
  intros Hk Hh.
  assert (sound_step (plans s) (plans s') (verified fs)) as (_ & Hc & Hr).
  { induction Hh as [|s fs s' es s'' _ IH Hstep]; [apply sound_step_refl|].
    specialize (IH Hk). unfold verified. rewrite omap_app. eapply sound_step_trans; [exact IH|].
    apply step_keeps; [done|]. by apply IH. }
  split.
  - intros k. specialize (Hr k). unfold is_completed in *. repeat case_match; lia.
  - intros k r Hl Hst. destruct (Hc k r Hl Hst) as (r' & Hl' & Hs' & ?). rewrite Hst in Hs'. eauto.
Qed.

(** *** A retry of the deployment *)

Lemma deploy_round_trip target commit image correlation run_ replicas force :
  let deploy := RecoveryPullRequest.body_for_poll_target target commit image correlation run_ replicas force in
  from_body EventBodies.GitWebhookReceivedBody true (VDict (to_body deploy)) = Ok deploy.
Proof. reflexivity. Qed.

(** retrying a failed deployment redeploys the merge and nothing else.
    After a merge webhook started a deployment, a retry of the plan, while its
    merge record stands and whatever else of its lifecycle changed, publishes
    the very request of the merge with only the run id replaced: same commit,
    image, replicas, binding and cluster; and only when the run of that merge
    is recorded as failed in the plan's workspace. *)
Theorem retry_redeploys_the_merge t targets image webhook now t' m deploy r workflow body attempt :
  RecoveryPullRequest.handle_tracked_recovery_pull_request t targets image webhook now
    = Ok (t', RecoveryPullRequest.MergedPr m deploy) ->
  get (lifecycle_of r) "merge"
    = get (lifecycle_of (default r (t' !! (RecoveryPullRequest.m_workspace_id m, RecoveryPullRequest.m_plan_id m))))
        "merge" ->
  deploy_retry_body r (lifecycle_of r) workflow = Ok (Some (body, attempt)) ->
  attempt = 1 /\ text (get (mapping workflow) "status") = "failed" /\
  body = with_attr deploy "workflow_run_id"
    (OStr (deploy_retry_run_id (plan_id r) (text (get (mapping (get (lifecycle_of r) "merge")) "merge_commit_sha")) 1)).
Proof.
  intros (i & r0 & target & _ & _ & _ & _ & _ & _ & Hs)%RecoveryPullRequest.merged_inv Hmerge Hb.
  apply RecoveryPullRequest.start_deployment_inv in Hs as (_ & _ & _ & _ & Hid & Hws & Hd & r1 & _ & _ & ->).
  rewrite Hid, Hws, lookup_insert_eq in Hmerge. cbn [default from_option] in Hmerge. unfold id in Hmerge.
  rewrite lifecycle_with in Hmerge.
  unfold dict_update in Hmerge. cbn [fold_left fst snd] in Hmerge. rewrite get_set_eq in Hmerge.
  unfold deploy_retry_body in Hb. rewrite Hmerge in Hb |- *. cbn [mapping] in Hb |- *.
  destruct (recovery_workflow_matches _ _ _ _ _ _ _ _) eqn:Ew; [|done]. cbn [negb] in Hb.
  change (get (RecoveryPullRequest.merge_record _ _ _ _ _ _) "deployment_request")
    with (VDict (to_body deploy)) in Hb. cbn [mapping] in Hb.
  rewrite Hd, deploy_round_trip in Hb. destruct (negb _); [done|]. injection Hb as <- <-.
  split; [done|]. split.
  - unfold recovery_workflow_matches in Ew. by apply andb_true_iff in Ew as [_ ?%str_eqb_eq].
  - rewrite Hd. reflexivity.
Qed.

End router.

(** ** A recovery from its plan to the resolution *)

Module Story.
Import RecoveryVerification RecoveryVerification.Sample.

#[local] Existing Instance coded_iso.
#[local] Existing Instance Demo.plain_repr.
#[local] Existing Instance RecoveryTracking.Sample.sha.

Definition strs : list (string * string) -> dict := RecoveryAuthority.Sample.strs.
Definition commit : string := RecoveryAuthority.Sample.commit.

Definition draft_body : pyval :=
  VDict (strs [("action_type", "replica_scale"); ("namespace", "shop"); ("resource_kind", "Deployment");
               ("resource_name", "web"); ("reason", "errors"); ("risk_level", "low")]
         ++ [("dry_run", VBool true); ("source_evidence", VList [VStr "e-1"]); ("params", VDict [])]).
Definition candidate_wire : pyval :=
  VDict (strs [("action_id", "act-1"); ("title", "scale"); ("description", "scale out"); ("route", "draft_pr");
               ("risk_level", "low"); ("blast_radius", "deployment"); ("rollback_plan", "revert")]
         ++ [("draft", draft_body); ("rank", VInt 1); ("score", VInt 1); ("approval_required", VBool true);
             ("prerequisites", VList []); ("validation_checks", VList []); ("evidence_refs", VList [])]).
Definition plan_wire : pyval :=
  VDict (strs [("plan_id", "p-1"); ("incident_id", "i-1"); ("evidence_ref", "e-1"); ("summary", "errors");
               ("recommended_action_id", "act-1"); ("execution_route", "draft_pr")]
         ++ [("target", VDict target); ("selection_required", VBool true);
             ("candidates", VList [candidate_wire])]).
Definition planned_evt : obj :=
  value_of ONone (from_body EventBodies.RecoveryPlannedBody true
    (VDict [("draft", draft_body); ("plan", plan_wire); ("workspace_id", VStr "w-1")])).

(** What the preflight of this action adds to its parameters. *)
Definition approved_params : dict :=
  strs [("repository_id", "r-1"); ("binding_id", "b-1"); ("application_id", "a-1");
        ("repo_ref", "acme/shop"); ("base_branch", "main"); ("commit_sha", commit)]
  ++ [("authorized_changes", VList (RecoveryDispatch.authorized_change <$>
         [RecoveryReplacements.replacement "spec.replicas" (VInt 1) (VInt 2)]));
      ("expected_replicas", VInt 2); ("verification_evidence_cadence_seconds", VInt 300);
      ("verification_failure_ratio_before", VFloat (flit "0.4"));
      ("verification_failure_ratio_metric_identity", VDict labels);
      ("verification_request_rate_baseline", VFloat (flit "10.0"));
      ("verification_request_rate_metric_identity", VDict labels);
      ("verification_alert_before", VDict before)].
Definition preflight : preflight_port := fun evt _ =>
  Ok (RecoveryDispatch.Prepared (RecoveryDispatch.with_params (RecoveryDispatch.selected evt) approved_params)).

Definition s0 : state := {| plans := ∅; approvals := ∅ |}.
Definition planning : table * selection :=
  value_of (∅, PlanRequired "" "") (on_recovery_planned ∅ planned_evt "c-9" 1 0).
Definition s1 : state := lift s0 planning.1.
Definition selecting : state * list published * reply :=
  value_of (s0, [], Accepted) (select_recovery_action s1 "p-1" "act-1" "w-1" "op" (fun _ => true) (Some preflight)
    "u-1" 0 0).
Definition s2 : state := selecting.1.1.
Definition rd : readers :=
  {| get_workflow_approval := stored_approval (approvals s2); get_evidence_payload := fun _ _ _ => VNone;
     list_alert_events := fun _ _ _ _ _ => []; get_cluster_registration := fun _ _ => VNone;
     env := fun _ d => d |}.
Definition tracking : table * list feedback :=
  value_of (∅, []) (on_recovery_safe_pr_created (plans s2) rd RecoveryTracking.Sample.evt "c-9" 0).
Definition s3 : state := lift s2 tracking.1.
Definition targets : list pyval :=
  [VDict (strs [("workspace_id", "w-1"); ("repository_id", "r-1"); ("repo_ref", "acme/shop");
                ("branch", "main"); ("binding_id", "b-1"); ("application_id", "a-1");
                ("environment", "prod"); ("cluster_id", "c-1"); ("manifest_path", "apps/web.yaml")])].
Definition merging : table * RecoveryPullRequest.answer :=
  value_of (∅, RecoveryPullRequest.Stale) (RecoveryPullRequest.handle_tracked_recovery_pull_request (plans s3)
    targets "shop/web:2" RecoveryPullRequest.Merged.webhook 0).
Definition s4 : state := lift s3 merging.1.
Definition run_id : string := RecoveryPullRequest.recovery_merge_workflow_run_id "p-1" "m-1".
Definition workflow : pyval :=
  VDict (strs [("workflow_run_id", run_id); ("commit_sha", "m-1"); ("cluster_id", "c-1"); ("workspace_id", "w-1");
               ("binding_id", "b-1"); ("application_id", "a-1"); ("status", "succeeded")]).
Definition starting : table * option event :=
  value_of (∅, None) (start_recovery_verification (plans s4) "w-1" run_id "b-1" "a-1" workflow (1000 * SECOND)).
Definition s5 : state := lift s4 starting.1.
Definition observing1 : table * list event :=
  value_of (∅, []) (on_recovery_verification_evidence (plans s5) Runs.reader "w-1" "c-1" "k-1"
    (VDict (evidence "k-1" 1100)) (1110 * SECOND)).
Definition s6 : state := lift s5 observing1.1.
Definition observing2 : table * list event :=
  value_of (∅, []) (on_recovery_verification_evidence (plans s6) Runs.reader "w-1" "c-1" "k-2"
    (VDict (evidence "k-2" 1400)) (1410 * SECOND)).
Definition s7 : state := lift s6 observing2.1.

Definition before_last : list fact :=
  ((((([] ++ [Planned planning.2]) ++ (Published <$> selecting.1.2)) ++ (Fed <$> tracking.2))
   ++ [Webhooked merging.2]) ++ (Verified <$> option_list starting.2)) ++ (Verified <$> observing1.2).
Definition trace : list fact := before_last ++ (Verified <$> observing2.2).

Lemma is_planned : on_recovery_planned (plans s0) planned_evt "c-9" 1 0 = Ok (planning.1, planning.2).
Proof. vm_compute. reflexivity. Qed.
Lemma is_selected :
  select_recovery_action s1 "p-1" "act-1" "w-1" "op" (fun _ => true) (Some preflight) "u-1" 0 0
  = Ok (s2, selecting.1.2, selecting.2).
Proof. vm_compute. reflexivity. Qed.
Lemma story_tracked :
  on_recovery_safe_pr_created (plans s2) rd RecoveryTracking.Sample.evt "c-9" 0 = Ok (tracking.1, tracking.2).
Proof. vm_compute. reflexivity. Qed.
Lemma story_merged :
  RecoveryPullRequest.handle_tracked_recovery_pull_request (plans s3) targets "shop/web:2"
    RecoveryPullRequest.Merged.webhook 0 = Ok (merging.1, merging.2).
Proof. vm_compute. reflexivity. Qed.
Lemma is_started :
  start_recovery_verification (plans s4) "w-1" run_id "b-1" "a-1" workflow (1000 * SECOND)
  = Ok (starting.1, starting.2).
Proof. vm_compute. reflexivity. Qed.
Lemma is_observed1 :
  on_recovery_verification_evidence (plans s5) Runs.reader "w-1" "c-1" "k-1" (VDict (evidence "k-1" 1100))
    (1110 * SECOND) = Ok (observing1.1, observing1.2).
Proof. vm_compute. reflexivity. Qed.
Lemma is_observed2 :
  on_recovery_verification_evidence (plans s6) Runs.reader "w-1" "c-1" "k-2" (VDict (evidence "k-2" 1400))
    (1410 * SECOND) = Ok (observing2.1, observing2.2).
Proof. vm_compute. reflexivity. Qed.

Lemma plan_is_new : new_plan planned_evt.
Proof.
  split; [vm_compute; reflexivity|]. intros id Hid. vm_compute in Hid. by injection Hid as <-.
Qed.

Lemma runs : run trace s7.
Proof.
  exact (run_step _ s6 _ s7 (run_step _ s5 _ s6 (run_step _ s4 _ s5 (run_step _ s3 _ s4 (run_step _ s2 _ s3
    (run_step _ s1 _ s2 (run_step _ s0 _ s1 (run_nil ∅)
      (step_planned s0 _ _ _ _ _ _ plan_is_new is_planned))
      (step_select s1 _ _ _ _ _ _ _ _ _ s2 _ _ is_selected))
      (step_pr_created s2 _ _ _ _ _ _ story_tracked))
      (step_webhook s3 _ _ _ _ _ _ story_merged))
      (step_start s4 _ _ _ _ _ _ _ _ is_started))
      (step_evidence s5 _ _ _ _ _ _ _ _ is_observed1))
      (step_evidence s6 _ _ _ _ _ _ _ _ is_observed2)).
Qed.

Lemma told : history s0 trace s7.
Proof.
  exact (history_step _ _ s6 _ s7 (history_step _ _ s5 _ s6 (history_step _ _ s4 _ s5 (history_step _ _ s3 _ s4
    (history_step _ _ s2 _ s3 (history_step _ _ s1 _ s2 (history_step _ _ s0 _ s1 (history_nil s0)
      (step_planned s0 _ _ _ _ _ _ plan_is_new is_planned))
      (step_select s1 _ _ _ _ _ _ _ _ _ s2 _ _ is_selected))
      (step_pr_created s2 _ _ _ _ _ _ story_tracked))
      (step_webhook s3 _ _ _ _ _ _ story_merged))
      (step_start s4 _ _ _ _ _ _ _ _ is_started))
      (step_evidence s5 _ _ _ _ _ _ _ _ is_observed1))
      (step_evidence s6 _ _ _ _ _ _ _ _ is_observed2)).
Qed.

(** The plan is planned again after its resolution, under another
    correlation. *)
Definition again : table * selection :=
  value_of (∅, PlanRequired "" "") (on_recovery_planned (plans s7) planned_evt "c-10" 2 9).
Definition s8 : state := lift s7 again.1.
Definition resolved_row : plan_row := default RecoveryTracking.Sample.row (plans s7 !! ("w-1", "p-1")).

Lemma is_again : on_recovery_planned (plans s7) planned_evt "c-10" 2 9 = Ok (again.1, again.2).
Proof. vm_compute. reflexivity. Qed.

Lemma s7_keyed : keyed (plans s7).
Proof. apply (table_ok_keyed trace). exact (proj1 (run_ok _ _ runs)). Qed.

(** The two facts of the last window. *)
Definition updated : fact := Verified (default (RecoveryVerificationFailed "" "" "" "" "" [] [] "") (head observing2.2)).
Definition resolution : fact := Verified (default (RecoveryVerificationFailed "" "" "" "" "" [] [] "") (observing2.2 !! 1%nat)).

End Story.

(** The deployment of the story fails and is retried. *)
Module Retried.
Import Story.

#[local] Existing Instance coded_iso.
#[local] Existing Instance Demo.plain_repr.
#[local] Existing Instance RecoveryTracking.Sample.sha.

Definition body : RecoveryPullRequest.RecoveryPrMergedBody :=
  match merging.2 with
  | RecoveryPullRequest.MergedPr m _ => m
  | _ => RecoveryPullRequest.Build_RecoveryPrMergedBody "" "" "" "" "" "" "" "" "" "" ""
  end.
Definition deploy : obj := match merging.2 with RecoveryPullRequest.MergedPr _ d => d | _ => ONone end.
Definition row : plan_row := default RecoveryTracking.Sample.row (plans s4 !! ("w-1", "p-1")).
Definition failed_run : pyval := VDict (dict_set (mapping workflow) "status" (VStr "failed")).
Definition retried : obj * Z :=
  default (ONone, 0) (RecoveryVerification.value_of None (deploy_retry_body row (lifecycle_of row) failed_run)).

End Retried.

Lemma retry_redeploys_the_merge_witness :
  RecoveryMerge.attr_str Retried.retried.1 "commit_sha" = "m-1" /\
  RecoveryMerge.attribute Retried.retried.1 "replicas" = OInt 2 /\
  Retried.retried.1 = with_attr Retried.deploy "workflow_run_id"
    (OStr (@deploy_retry_run_id RecoveryTracking.Sample.sha "p-1" "m-1" 1)).
Proof.
  split; [vm_compute; reflexivity|]. split; [vm_compute; reflexivity|].
  apply (@retry_redeploys_the_merge Demo.plain_repr coded_iso RecoveryTracking.Sample.sha
    (plans Story.s3) Story.targets "shop/web:2" RecoveryPullRequest.Merged.webhook 0 Story.merging.1
    Retried.body Retried.deploy Retried.row Retried.failed_run Retried.retried.1 Retried.retried.2).
  - vm_compute. reflexivity.
  - vm_compute. reflexivity.
  - vm_compute. reflexivity.
Defined.

Lemma incident_resolved_once_witness :
  (resolved_count ("w-1", "p-1") (verified Story.trace) = 1%nat /\
   is_completed (plans Story.s7) ("w-1", "p-1") = 1%nat) /\
  exists r', plans Story.s8 !! ("w-1", "p-1") = Some r' /\ correlation_id r' = "c-10" /\
    row_status r' = RECOVERY_STATUS_COMPLETED.
Proof.
  split.
  - assert (resolved_count ("w-1", "p-1") (verified Story.trace) = 1%nat) as Hone by (vm_compute; reflexivity).
    split; [exact Hone|].
    destruct (@incident_resolved_once Demo.plain_repr coded_iso RecoveryTracking.Sample.sha Story.s0 Story.trace
      Story.s7) as [Hr _]; [by intros k r Hk|exact Story.told|]. exact (proj2 (proj2 (Hr _) Hone)).
  - destruct (@incident_resolved_once Demo.plain_repr coded_iso RecoveryTracking.Sample.sha Story.s7
      ([] ++ [Planned Story.again.2]) Story.s8) as [_ Hkeep].
    + exact Story.s7_keyed.
    + exact (history_step _ _ _ _ _ (history_nil _) (step_planned Story.s7 _ _ _ _ _ _ Story.plan_is_new Story.is_again)).
    + destruct (Hkeep ("w-1", "p-1") Story.resolved_row) as (r' & Hr' & Hst & _);
        [vm_compute; reflexivity|vm_compute; reflexivity|].
      exists r'. split; [exact Hr'|]. split; [|exact Hst].
      assert (correlation_id <$> plans Story.s8 !! ("w-1", "p-1") = Some "c-10") as Hc by (vm_compute; reflexivity).
      rewrite Hr' in Hc. by injection Hc.
Defined.

Lemma resolution_needs_decision_and_merge_witness :
  exists p1 d p2 t p3 m p4, Story.before_last ++ [Story.updated] = p1 ++ d :: p2 ++ t :: p3 ++ m :: p4 /\
    decided ("w-1", "p-1") d = true /\ tracked ("w-1", "p-1") t = true /\ merged ("w-1", "p-1") m = true.
Proof.
  apply (@resolution_needs_decision_and_merge Demo.plain_repr coded_iso RecoveryTracking.Sample.sha Story.trace
    Story.s7 (Story.before_last ++ [Story.updated]) Story.resolution [] ("w-1", "p-1")).
  - exact Story.runs.
  - vm_compute. reflexivity.
  - vm_compute. reflexivity.
Defined.

(** A poll target that spells the repository in another case is accepted by
    the merge webhook, and the failed deployment can then not be retried,
    although the run is recorded as failed with every identity equal. *)
Lemma case_differing_target_cannot_retry :
  exists r, RecoveryPullRequest.Merged.merged_plans !! ("w-1", "p-1") = Some r /\
    let merge := mapping (get (lifecycle_of r) "merge") in
    forall workflow, workflow = VDict
      [("workflow_run_id", get merge "workflow_run_id"); ("workspace_id", VStr "w-1");
       ("binding_id", get merge "binding_id"); ("application_id", get merge "application_id");
       ("cluster_id", get merge "cluster_id"); ("commit_sha", get merge "merge_commit_sha");
       ("status", VStr "failed")] ->
    recovery_workflow_matches workflow "w-1" (text (get merge "workflow_run_id"))
      (text (get merge "binding_id")) (text (get merge "application_id")) (text (get merge "cluster_id"))
      (text (get merge "merge_commit_sha")) "failed" = true /\
    @deploy_retry_body RecoveryTracking.Sample.sha r (lifecycle_of r) workflow = Ok None.
Proof.
  eexists. split; [vm_compute; reflexivity|]. cbv zeta. intros workflow ->. split; vm_compute; reflexivity.
Qed.

End RecoverySelection.
