(* ===== verification/RecoveryPlanner.v ===== *)
(** * Planning a recovery

    [src/src/services/ai/agent/playbooks/recovery.py], the rules of
    [recovery/builtin.py] and the planner of [recovery/engine.py]: the
    candidates a completed analysis gives rise to, their order and the plan
    that is published, with [blocked_recovery_plan] of
    [services/ai/rca-feedback-worker/app.py] for an analysis that could not be
    completed.  The plan is the body that [RecoverySelection] stores. *)
From S2P Require Import Prelude PyStr PyFloat PyVal PyTime Libs Demo ManifestEditor EventBody EventBodies WorkloadTarget Signals CauseEngine.
From S2P Require Import RecoveryChecks RecoveryVerification RecoveryLifecycle RecoveryMerge RecoveryReplacements RecoveryDispatch RecoveryTracking RecoverySelection.

Module RecoveryPlanner.
Import EventBody.

(** [Sandbox.NAMESPACE] *)
Definition SANDBOX_NAMESPACE : string := "sandbox".
Definition NO_RECOVERY_CANDIDATES : string := "복구 후보를 생성할 수 없습니다.".
Definition missing_analysis_context : string := "RCA analysis context is missing".

(** ** Bodies *)

(** The fields of the report that are read. *)
Record RcaCompletedBody := {
  rc_evidence_ref : string;
  rc_workspace_id : string;
  rc_incident : option CauseEngine.IncidentRecord;
  rc_evidence_bundle : option Signals.EvidenceBundle;
  rc_rca_detail : option CauseEngine.RcaReportDetail;
}.

Record HealingActionDraft := {
  h_action_type : string;
  h_namespace : string;
  h_resource_kind : string;
  h_resource_name : string;
  h_reason : string;
  h_risk_level : string;
  h_dry_run : bool;
  h_source_evidence : list string;
  h_params : dict;
}.

Record RecoveryActionCandidate := {
  c_action_id : string;
  c_title : string;
  c_description : string;
  c_draft : HealingActionDraft;
  c_route : string;
  c_rank : Z;
  c_score : float;
  c_risk_level : string;
  c_blast_radius : string;
  c_approval_required : bool;
  c_prerequisites : list string;
  c_validation_checks : list string;
  c_rollback_plan : string;
  c_evidence_refs : list string;
  c_recommendation_reason : string;
  c_expected_outcome : string;
  c_risk_explanation : string;
  c_rollback_reason : string;
  c_executable : bool;
  c_blocked_reason_code : option string;
  c_blocked_reason : option string;
}.

Record RecoveryPlan := {
  p_plan_id : string;
  p_incident_id : string;
  p_evidence_ref : string;
  p_summary : string;
  p_target : dict;
  p_recommended_action_id : string;
  p_execution_route : string;
  p_selection_required : bool;
  p_candidates : list RecoveryActionCandidate;
  p_lifecycle : dict;
}.

(** The bodies as the event codec sees them. *)
Definition ostrs (l : list string) : obj := OList (OStr <$> l).
Definition ostr_opt (o : option string) : obj := match o with Some s => OStr s | None => ONone end.

Definition draft_obj (d : HealingActionDraft) : obj :=
  OBody EventBodies.HealingActionDraft
    [OStr (h_action_type d); OStr (h_namespace d); OStr (h_resource_kind d); OStr (h_resource_name d);
     OStr (h_reason d); OStr (h_risk_level d); OBool (h_dry_run d); ostrs (h_source_evidence d);
     of_wire (VDict (h_params d))].

Definition candidate_obj (c : RecoveryActionCandidate) : obj :=
  OBody EventBodies.RecoveryActionCandidate
    [OStr (c_action_id c); OStr (c_title c); OStr (c_description c); draft_obj (c_draft c); OStr (c_route c);
     OInt (c_rank c); OFloat (c_score c); OStr (c_risk_level c); OStr (c_blast_radius c);
     OBool (c_approval_required c); ostrs (c_prerequisites c); ostrs (c_validation_checks c);
     OStr (c_rollback_plan c); ostrs (c_evidence_refs c); OStr (c_recommendation_reason c);
     OStr (c_expected_outcome c); OStr (c_risk_explanation c); OStr (c_rollback_reason c);
     OBool (c_executable c); ostr_opt (c_blocked_reason_code c); ostr_opt (c_blocked_reason c)].

Definition plan_obj (p : RecoveryPlan) : obj :=
  OBody EventBodies.RecoveryPlan
    [OStr (p_plan_id p); OStr (p_incident_id p); OStr (p_evidence_ref p); OStr (p_summary p);
     of_wire (VDict (p_target p)); OStr (p_recommended_action_id p); OStr (p_execution_route p);
     OBool (p_selection_required p); OList (candidate_obj <$> p_candidates p);
     of_wire (VDict (p_lifecycle p))].

Definition planned_obj (draft : HealingActionDraft) (plan : RecoveryPlan) (workspace_id : string) : obj :=
  OBody EventBodies.RecoveryPlannedBody [draft_obj draft; plan_obj plan; OStr workspace_id].

(** ** The context *)

Record RecoveryContext := {
  report : RcaCompletedBody;
  incident : CauseEngine.IncidentRecord;
  detail : CauseEngine.RcaReportDetail;
}.

Definition context_root_cause (c : RecoveryContext) : string := CauseEngine.root_cause (detail c).

Definition build_recovery_context (r : RcaCompletedBody) : option RecoveryContext :=
  match rc_incident r, rc_rca_detail r with
  | Some i, Some d => Some {| report := r; incident := i; detail := d |}
  | _, _ => None
  end.

Definition items_named (b : Signals.EvidenceBundle) (name : string) : list dict :=
  Signals.value <$> keep (fun i => str_eqb (Signals.source i) "metadata" && str_eqb (Signals.name i) name)
                      (Signals.items b).

Definition recovery_change_context (r : RcaCompletedBody) : dict :=
  match rc_evidence_bundle r with
  | None => []
  | Some bundle =>
      let context := default [] (the_one (items_named bundle "change_context")) in
      match the_one (items_named bundle "current_workload_snapshots") with
      | None => context
      | Some snapshot =>
          match get snapshot "items" with
          | VList items => dict_set context "current_workload_snapshots" (VList (VDict <$> omap as_dict items))
          | _ => context
          end
      end
  end.

Definition opt_value (o : option string) : pyval := match o with Some s => VStr s | None => VNone end.

Definition context_target (c : RecoveryContext) : dict :=
  let i := incident c in
  let resolved := WorkloadTarget.resolved_target_from_metadata (opt_value (CauseEngine.namespace i))
    (VStr (CauseEngine.resource_kind i)) (VStr (CauseEngine.resource_name i))
    [VDict (recovery_change_context (report c))] in
  dict_update
    [("cluster_id", VStr (CauseEngine.cluster_id i)); ("workspace_id", VStr (CauseEngine.workspace_id i));
     ("namespace", opt_value (CauseEngine.namespace i)); ("resource_kind", VStr (CauseEngine.resource_kind i));
     ("resource_name", VStr (CauseEngine.resource_name i)); ("symptom", VStr (CauseEngine.symptom i));
     ("severity", VStr (CauseEngine.severity i))]
    (WorkloadTarget.resolution_metadata resolved).

(** ** Rules *)

Record RecoveryDefaults := {
  default_action_type : string;
  default_risk_level : string;
  dry_run : bool;
  unknown_namespace : string;
}.
Definition defaults : RecoveryDefaults :=
  {| default_action_type := "rollout_restart"; default_risk_level := "low"; dry_run := true;
     unknown_namespace := "unknown" |}.

Record RecoveryActionSpec := {
  action_type : string;
  title : string;
  description : string;
  route : string;
  risk_level : string;
  score : float;
  blast_radius : string;
  approval_required : bool;
  prerequisites : list string;
  validation_checks : list string;
  rollback_plan : string;
  params : dict;
  approval_required_outside_sandbox : bool;
  recommendation_reason : string;
  expected_outcome : string;
  risk_explanation : string;
  rollback_reason : string;
}.

(** [incident.namespace or unknown_namespace] *)
Definition namespace_or_unknown (ns : option string) : string :=
  match ns with Some s => if nonempty s then s else unknown_namespace defaults | None => unknown_namespace defaults end.

Definition to_candidate (s : RecoveryActionSpec) (c : RecoveryContext) (rank : Z) : RecoveryActionCandidate :=
  let i := incident c in
  let d := detail c in
  {| c_action_id := rc_evidence_ref (report c) +:+ ":" +:+ action_type s;
     c_title := title s; c_description := description s;
     c_draft :=
       {| h_action_type := action_type s; h_namespace := namespace_or_unknown (CauseEngine.namespace i);
          h_resource_kind := CauseEngine.resource_kind i; h_resource_name := CauseEngine.resource_name i;
          h_reason := CauseEngine.d_reason d; h_risk_level := risk_level s; h_dry_run := dry_run defaults;
          h_source_evidence := CauseEngine.d_supporting_evidence d;
          h_params := dict_update [("root_cause", VStr (CauseEngine.root_cause d));
                                   ("confidence", VFloat (CauseEngine.confidence d));
                                   ("symptom", VStr (CauseEngine.symptom i))] (params s) |};
     c_route := route s; c_rank := rank; c_score := score s; c_risk_level := risk_level s;
     c_blast_radius := blast_radius s;
     c_approval_required := approval_required s
       || (approval_required_outside_sandbox s
           && negb (bool_decide (CauseEngine.namespace i = Some SANDBOX_NAMESPACE)));
     c_prerequisites := prerequisites s; c_validation_checks := validation_checks s;
     c_rollback_plan := rollback_plan s;
     c_evidence_refs := rc_evidence_ref (report c) :: CauseEngine.d_supporting_evidence d;
     c_recommendation_reason := recommendation_reason s; c_expected_outcome := expected_outcome s;
     c_risk_explanation := risk_explanation s; c_rollback_reason := rollback_reason s;
     c_executable := true; c_blocked_reason_code := None; c_blocked_reason := None |}.

Inductive RecoveryRule :=
  | RootCauseRecoveryRule (root_causes : list string) (action_specs : list RecoveryActionSpec)
  | AlwaysAvailableRecoveryRule (action_specs : list RecoveryActionSpec).

Definition supports (r : RecoveryRule) (c : RecoveryContext) : bool :=
  match r with
  | RootCauseRecoveryRule root_causes _ => bool_decide (context_root_cause c ∈ root_causes)
  | AlwaysAvailableRecoveryRule _ => true
  end.

Definition action_specs (r : RecoveryRule) : list RecoveryActionSpec :=
  match r with RootCauseRecoveryRule _ specs | AlwaysAvailableRecoveryRule specs => specs end.

Definition candidates (r : RecoveryRule) (c : RecoveryContext) : list RecoveryActionCandidate :=
  imap (fun index s => to_candidate s c (Z.of_nat index + 1)) (action_specs r).

(** ** The registered rules *)

Definition OomKilledRecoveryActions : RecoveryRule :=
  RootCauseRecoveryRule ["oom_killed"]
      [{| action_type := "rollout_restart";
          title := "대상 워크로드 재시작";
          description := "낮은 위험도의 임시 완화 조치로 대상 워크로드를 재시작합니다.";
          route := RecoveryDispatch.approval_required_route; risk_level := "low"; score := flit "0.58";
          blast_radius := "target_workload"; approval_required := true;
          prerequisites := ["대상 워크로드가 단일 namespace에 한정됨"];
          validation_checks := ["재시작 후 ready replica 회복"; "재시작 카운트 증가세 완화"];
          rollback_plan := "재시작은 되돌릴 변경이 없으며, 실패 시 수동 조사로 전환합니다.";
          params := [("manual", VBool true)];
          approval_required_outside_sandbox := false; recommendation_reason := ""; expected_outcome := "";
          risk_explanation := ""; rollback_reason := "" |};
       {| action_type := "oom_memory";
          title := "메모리 request/limit 조정 PR";
          description := "관측 working set과 승인 manifest의 현재 request/limit을 기준으로 정책 상한 안의 메모리 headroom 패치를 제안합니다.";
          route := RecoveryDispatch.safe_pr_route; risk_level := "medium"; score := flit "0.56";
          blast_radius := "target_workload"; approval_required := true;
          prerequisites := ["수치형 container memory working set 근거"; "GitOps 승인 snapshot"];
          validation_checks := ["OOM 재발 없음"; "메모리 사용률 안정"; "pod ready 상태 유지"];
          rollback_plan := "동반된 inverse patch로 이전 request/limit을 복원합니다.";
          params := [("strategy", VStr "usage_headroom"); ("headroom_ratio", VFloat (flit "1.25")); ("max_memory", VStr "4Gi")];
          approval_required_outside_sandbox := false; recommendation_reason := ""; expected_outcome := "";
          risk_explanation := ""; rollback_reason := "" |};
       {| action_type := "replica_scale";
          title := "임시 replica 증설 PR";
          description := "메모리 압박 완화를 위해 replica 증설 패치를 Safe PR로 제안합니다.";
          route := RecoveryDispatch.safe_pr_route; risk_level := "medium"; score := flit "0.52";
          blast_radius := "target_workload"; approval_required := true;
          prerequisites := ["HPA 또는 수동 replica 정책 확인"];
          validation_checks := ["에러율 감소"; "메모리 사용률 하락"; "pod ready 상태 유지"];
          rollback_plan := "동반된 inverse patch로 replica 수를 이전 값으로 되돌립니다.";
          params := [("strategy", VStr "increment_one"); ("max_replicas", VInt 10)];
          approval_required_outside_sandbox := false; recommendation_reason := ""; expected_outcome := "";
          risk_explanation := ""; rollback_reason := "" |}].

Definition Application5xxRecoveryActions : RecoveryRule :=
  RootCauseRecoveryRule ["application_5xx_spike"]
      [{| action_type := "replica_scale";
          title := "GitOps replica 증설 PR";
          description := "승인 manifest의 현재 replica를 1개 늘리는 제한된 패치를 제안합니다.";
          route := RecoveryDispatch.safe_pr_route; risk_level := "medium"; score := flit "0.62";
          blast_radius := "target_workload"; approval_required := true;
          prerequisites := ["GitOps 승인 snapshot"; "replica 상한 10"];
          validation_checks := ["Ready replica 증가"; "5xx/timeout 감소"; "리소스 여유 유지"];
          rollback_plan := "동반된 inverse patch로 이전 replica 수를 복원합니다.";
          params := [("strategy", VStr "increment_one"); ("max_replicas", VInt 10)];
          approval_required_outside_sandbox := false; recommendation_reason := ""; expected_outcome := "";
          risk_explanation := ""; rollback_reason := "" |};
       {| action_type := "gitops_recovery_review";
          title := "GitOps 복구 검토 PR";
          description := "연결된 GitOps 레포에 복구 검토 문서를 생성해 원인, 대상, 검증 조건을 운영자가 확인한 뒤 실제 manifest 변경으로 이어가게 합니다.";
          route := RecoveryDispatch.safe_pr_route; risk_level := "medium"; score := flit "0.35";
          blast_radius := "target_workload"; approval_required := true;
          prerequisites := ["대상 워크로드와 연결된 GitOps 레포가 있음"; "변경 대상 manifest를 운영자가 확인함"];
          validation_checks := ["RCA 근거와 대상 manifest 일치"; "변경 전후 Ready replica 회복 기준 확인"; "5xx 로그 감소"];
          rollback_plan := "생성된 PR 또는 merge commit을 revert합니다.";
          params := [("document_type", VStr "recovery_review")];
          approval_required_outside_sandbox := false; recommendation_reason := ""; expected_outcome := "";
          risk_explanation := ""; rollback_reason := "" |};
       {| action_type := "rollout_restart";
          title := "대상 워크로드 재시작";
          description := "최근 5xx/timeout을 내는 대상 워크로드를 재시작해 연결과 런타임 상태를 초기화합니다.";
          route := RecoveryDispatch.approval_required_route; risk_level := "low"; score := flit "0.5";
          blast_radius := "target_workload"; approval_required := true;
          prerequisites := ["대상 워크로드가 sandbox namespace에 한정됨"];
          validation_checks := ["5xx/timeout 로그 감소"; "Ready replica 유지"; "요청 성공률 회복"];
          rollback_plan := "재시작은 되돌릴 변경이 없으며, 실패 시 scale 또는 수동 조사로 전환합니다.";
          params := [("manual", VBool true)];
          approval_required_outside_sandbox := false; recommendation_reason := ""; expected_outcome := "";
          risk_explanation := ""; rollback_reason := "" |}].

Definition NetworkRecoveryActions : RecoveryRule :=
  RootCauseRecoveryRule ["backend_readiness_failure"; "upstream_unavailable"]
      [{| action_type := "rollout_restart";
          title := "대상 워크로드 재시작";
          description := "최근 5xx/timeout을 내는 대상 워크로드를 재시작해 연결과 런타임 상태를 초기화합니다.";
          route := RecoveryDispatch.approval_required_route; risk_level := "low"; score := flit "0.66";
          blast_radius := "target_workload"; approval_required := true;
          prerequisites := ["대상 워크로드가 sandbox namespace에 한정됨"];
          validation_checks := ["5xx/timeout 로그 감소"; "Ready replica 유지"; "요청 성공률 회복"];
          rollback_plan := "재시작은 되돌릴 변경이 없으며, 실패 시 scale 또는 수동 조사로 전환합니다.";
          params := [("manual", VBool true)];
          approval_required_outside_sandbox := false; recommendation_reason := ""; expected_outcome := "";
          risk_explanation := ""; rollback_reason := "" |}].

Definition RolloutRecoveryActions : RecoveryRule :=
  RootCauseRecoveryRule ["bad_image_rollout"; "app_startup_failure"]
      [{| action_type := "image_rollback";
          title := "이전 이미지 rollback PR";
          description := "최근 이미지 변경이 원인일 가능성이 높아 이전 태그로 되돌리는 PR을 제안합니다.";
          route := RecoveryDispatch.safe_pr_route; risk_level := "medium"; score := flit "0.74";
          blast_radius := "target_workload"; approval_required := true;
          prerequisites := ["이전 정상 revision 확인"; "rollback 이미지 digest 확인"];
          validation_checks := ["새 pod ready"; "startup error 소멸"; "5xx 감소"];
          rollback_plan := "rollback PR revert 또는 원래 이미지 tag 재적용";
          params := [("strategy", VStr "last_approved_snapshot")];
          approval_required_outside_sandbox := false; recommendation_reason := ""; expected_outcome := "";
          risk_explanation := ""; rollback_reason := "" |}].

Definition ConfigRecoveryActions : RecoveryRule :=
  RootCauseRecoveryRule ["config_env_error"]
      [{| action_type := "config_fix";
          title := "설정 보정 PR";
          description := "누락된 환경변수나 설정 키를 보정하는 Safe PR을 제안합니다.";
          route := RecoveryDispatch.safe_pr_route; risk_level := "medium"; score := flit "0.68";
          blast_radius := "target_workload"; approval_required := true;
          prerequisites := ["누락 key와 기대 value 확인"];
          validation_checks := ["config load error 소멸"; "pod ready"; "재시작 루프 중단"];
          rollback_plan := "설정 보정 commit revert";
          params := [("strategy", VStr "operator_supplied_config_value")];
          approval_required_outside_sandbox := false; recommendation_reason := ""; expected_outcome := "";
          risk_explanation := ""; rollback_reason := "" |}].

Definition ImageTagRecoveryActions : RecoveryRule :=
  RootCauseRecoveryRule ["wrong_image_tag"]
      [{| action_type := "image_tag_fix";
          title := "이미지 태그 보정 PR";
          description := "존재하지 않는 이미지 태그를 이전 정상 태그 또는 검증된 digest로 보정하는 PR을 제안합니다.";
          route := RecoveryDispatch.safe_pr_route; risk_level := "medium"; score := flit "0.7";
          blast_radius := "target_workload"; approval_required := true;
          prerequisites := ["정상 이미지 태그 또는 digest 확인"];
          validation_checks := ["새 pod image pull 성공"; "Ready 상태 회복"; "ImagePullBackOff 이벤트 소멸"];
          rollback_plan := "이미지 태그 보정 commit revert";
          params := [("strategy", VStr "last_approved_snapshot")];
          approval_required_outside_sandbox := false; recommendation_reason := ""; expected_outcome := "";
          risk_explanation := ""; rollback_reason := "" |}].

Definition ImagePullSecretRecoveryActions : RecoveryRule :=
  RootCauseRecoveryRule ["missing_image_pull_secret"]
      [{| action_type := "image_pull_secret_fix";
          title := "이미지 pull Secret 보정";
          description := "대상 namespace의 imagePullSecret 참조와 registry 인증 정보를 보정합니다.";
          route := RecoveryDispatch.approval_required_route; risk_level := "medium"; score := flit "0.66";
          blast_radius := "target_namespace"; approval_required := true;
          prerequisites := ["registry 접근 권한 확인"; "Secret 이름과 namespace 확인"];
          validation_checks := ["image pull 성공"; "Pod Ready 전환"; "인증 실패 이벤트 소멸"];
          rollback_plan := "변경한 Secret 참조 또는 Secret 값을 이전 상태로 되돌립니다.";
          params := [("manual", VBool true); ("fix", VStr "image_pull_secret")];
          approval_required_outside_sandbox := false; recommendation_reason := ""; expected_outcome := "";
          risk_explanation := ""; rollback_reason := "" |}].

Definition RegistryRecoveryActions : RecoveryRule :=
  RootCauseRecoveryRule ["registry_unavailable"]
      [{| action_type := "registry_recovery";
          title := "Registry 경로 복구";
          description := "registry/LB 상태를 확인하고 pull 재시도 또는 mirror 전환을 승인형 조치로 진행합니다.";
          route := RecoveryDispatch.approval_required_route; risk_level := "medium"; score := flit "0.62";
          blast_radius := "target_namespace"; approval_required := true;
          prerequisites := ["registry 상태 확인"; "mirror 또는 캐시 registry 사용 가능 여부 확인"];
          validation_checks := ["registry 응답 정상"; "image pull 재시도 성공"; "Pending Pod 감소"];
          rollback_plan := "mirror 전환 시 원 registry 참조로 되돌립니다.";
          params := [("manual", VBool true); ("fix", VStr "registry_path")];
          approval_required_outside_sandbox := false; recommendation_reason := ""; expected_outcome := "";
          risk_explanation := ""; rollback_reason := "" |}].

Definition SchedulingCapacityRecoveryActions : RecoveryRule :=
  RootCauseRecoveryRule ["insufficient_cpu"; "insufficient_memory"]
      [{| action_type := "resource_request_tuning";
          title := "리소스 요청값 조정 PR";
          description := "스케줄 가능한 범위로 CPU/메모리 request를 조정하거나 replica 배치를 나누는 PR을 제안합니다.";
          route := RecoveryDispatch.safe_pr_route; risk_level := "medium"; score := flit "0.64";
          blast_radius := "target_workload"; approval_required := true;
          prerequisites := ["현재 request/limit과 노드 allocatable 확인"];
          validation_checks := ["Pod Scheduled 전환"; "Ready 상태 회복"; "FailedScheduling 이벤트 소멸"];
          rollback_plan := "리소스 request 조정 commit revert";
          params := [("strategy", VStr "fit_node_allocatable")];
          approval_required_outside_sandbox := false; recommendation_reason := ""; expected_outcome := "";
          risk_explanation := ""; rollback_reason := "" |}].

Definition SchedulingConstraintRecoveryActions : RecoveryRule :=
  RootCauseRecoveryRule ["node_affinity_or_taint_mismatch"]
      [{| action_type := "scheduling_constraint_fix";
          title := "스케줄링 조건 보정 PR";
          description := "nodeSelector, affinity, toleration 조건을 현재 노드 라벨과 정책에 맞게 보정합니다.";
          route := RecoveryDispatch.safe_pr_route; risk_level := "medium"; score := flit "0.68";
          blast_radius := "target_workload"; approval_required := true;
          prerequisites := ["허용 노드 라벨과 taint/toleration 정책 확인"];
          validation_checks := ["Pod Scheduled 전환"; "Ready 상태 회복"; "affinity/taint 이벤트 소멸"];
          rollback_plan := "스케줄링 조건 보정 commit revert";
          params := [("strategy", VStr "match_approved_node_policy")];
          approval_required_outside_sandbox := false; recommendation_reason := ""; expected_outcome := "";
          risk_explanation := ""; rollback_reason := "" |}].

Definition PvcBindingRecoveryActions : RecoveryRule :=
  RootCauseRecoveryRule ["pvc_pending"]
      [{| action_type := "pvc_binding_fix";
          title := "PVC 바인딩 복구";
          description := "PVC, StorageClass, zone binding 상태를 확인하고 바인딩 가능한 설정으로 보정합니다.";
          route := RecoveryDispatch.approval_required_route; risk_level := "medium"; score := flit "0.62";
          blast_radius := "target_namespace"; approval_required := true;
          prerequisites := ["PVC와 StorageClass 상태 확인"; "데이터 보존 정책 확인"];
          validation_checks := ["PVC Bound 전환"; "Pod Scheduled 전환"; "volume binding 이벤트 소멸"];
          rollback_plan := "StorageClass/PVC 설정 변경을 이전 값으로 되돌립니다.";
          params := [("manual", VBool true); ("fix", VStr "pvc_binding")];
          approval_required_outside_sandbox := false; recommendation_reason := ""; expected_outcome := "";
          risk_explanation := ""; rollback_reason := "" |}].

Definition ProbeRecoveryActions : RecoveryRule :=
  RootCauseRecoveryRule ["probe_path_wrong"; "probe_port_wrong"; "timeout_too_short"; "startup_window_too_short"]
      [{| action_type := "probe_fix";
          title := "Probe 설정 보정 PR";
          description := "승인 snapshot의 probe scalar와 검증된 이전 값 또는 bounded timeout 정책을 사용해 path/port/timeout 패치를 제안합니다.";
          route := RecoveryDispatch.safe_pr_route; risk_level := "medium"; score := flit "0.66";
          blast_radius := "target_workload"; approval_required := true;
          prerequisites := ["GitOps 승인 snapshot"; "probe 실패 근거"];
          validation_checks := ["Probe 성공"; "Pod Ready 전환"; "실제 health 실패 은폐 없음"];
          rollback_plan := "동반된 inverse patch로 이전 probe scalar를 복원합니다.";
          params := [("strategy", VStr "approved_value_or_bounded_timeout")];
          approval_required_outside_sandbox := false; recommendation_reason := ""; expected_outcome := "";
          risk_explanation := ""; rollback_reason := "" |}].

Definition SelectorRecoveryActions : RecoveryRule :=
  RootCauseRecoveryRule ["selector_label_mismatch"]
      [{| action_type := "selector_fix";
          title := "Deployment selector 최소 보정 PR";
          description := "승인 Deployment snapshot에서 template label과 불일치한 단일 selector scalar만 보정하는 PR을 제안합니다.";
          route := RecoveryDispatch.safe_pr_route; risk_level := "medium"; score := flit "0.68";
          blast_radius := "target_workload"; approval_required := true;
          prerequisites := ["단일 selector 불일치"; "GitOps 승인 snapshot"];
          validation_checks := ["selector-template 일치"; "Ready endpoint 회복"];
          rollback_plan := "동반된 inverse patch로 이전 selector를 복원합니다.";
          params := [("strategy", VStr "match_template_label"); ("max_fields", VInt 1)];
          approval_required_outside_sandbox := false; recommendation_reason := ""; expected_outcome := "";
          risk_explanation := ""; rollback_reason := "" |}].

Definition StartupPortRecoveryActions : RecoveryRule :=
  RootCauseRecoveryRule ["app_port_bind_failed"]
      [{| action_type := "container_port_review";
          title := "컨테이너 포트 충돌 검토";
          description := "프로세스가 바인딩하려는 포트와 manifest/service/probe 포트 설정을 함께 확인합니다.";
          route := RecoveryDispatch.approval_required_route; risk_level := "medium"; score := flit "0.62";
          blast_radius := "target_workload"; approval_required := true;
          prerequisites := ["startup log의 port bind 실패 근거"; "컨테이너 port와 service targetPort 확인"];
          validation_checks := ["pod 재시작 루프 중단"; "프로세스 listen 성공"; "Ready 상태 회복"];
          rollback_plan := "포트 설정 변경이 있었다면 manifest 변경 commit을 revert합니다.";
          params := [("manual", VBool true); ("fix", VStr "container_port")];
          approval_required_outside_sandbox := false; recommendation_reason := ""; expected_outcome := "";
          risk_explanation := ""; rollback_reason := "" |}].

Definition StartupPermissionRecoveryActions : RecoveryRule :=
  RootCauseRecoveryRule ["permission_denied_startup"]
      [{| action_type := "startup_security_context_review";
          title := "Startup 권한/보안 컨텍스트 확인";
          description := "permission denied 로그와 securityContext, volume mount 권한, 실행 사용자 설정을 확인합니다.";
          route := RecoveryDispatch.approval_required_route; risk_level := "medium"; score := flit "0.62";
          blast_radius := "target_workload"; approval_required := true;
          prerequisites := ["startup log의 permission denied 근거"; "securityContext와 mount permission 확인"];
          validation_checks := ["permission denied 로그 소멸"; "pod Ready 회복"; "보안 정책 위반 없음"];
          rollback_plan := "securityContext 또는 mount 권한 변경 commit을 revert합니다.";
          params := [("manual", VBool true); ("fix", VStr "startup_permission")];
          approval_required_outside_sandbox := false; recommendation_reason := ""; expected_outcome := "";
          risk_explanation := ""; rollback_reason := "" |}].

Definition ConfigKeyRecoveryActions : RecoveryRule :=
  RootCauseRecoveryRule ["config_key_missing"]
      [{| action_type := "config_key_review";
          title := "ConfigMap key 누락 확인";
          description := "참조한 ConfigMap key가 실제 객체에 존재하는지 확인하고 필요한 보정 값을 운영자가 결정합니다.";
          route := RecoveryDispatch.approval_required_route; risk_level := "medium"; score := flit "0.64";
          blast_radius := "target_workload"; approval_required := true;
          prerequisites := ["누락 key 이름 확인"; "ConfigMap 참조 namespace 확인"];
          validation_checks := ["config load error 소멸"; "pod Ready 회복"; "잘못된 기본값 주입 없음"];
          rollback_plan := "ConfigMap key 보정 또는 참조 변경 commit을 revert합니다.";
          params := [("manual", VBool true); ("fix", VStr "config_key")];
          approval_required_outside_sandbox := false; recommendation_reason := ""; expected_outcome := "";
          risk_explanation := ""; rollback_reason := "" |}].

Definition SecretReferenceRecoveryActions : RecoveryRule :=
  RootCauseRecoveryRule ["missing_secret_reference"]
      [{| action_type := "secret_reference_fix";
          title := "Secret 참조 누락 확인";
          description := "Pod가 참조하는 Secret 이름과 key를 확인하고 민감값 없이 참조 수준에서 보정합니다.";
          route := RecoveryDispatch.approval_required_route; risk_level := "medium"; score := flit "0.64";
          blast_radius := "target_namespace"; approval_required := true;
          prerequisites := ["Secret 이름과 key reference 확인"; "대상 namespace 확인"];
          validation_checks := ["secret not found 이벤트 소멸"; "pod Ready 회복"; "민감값 노출 없음"];
          rollback_plan := "Secret 참조 변경 commit을 revert하거나 이전 참조로 되돌립니다.";
          params := [("manual", VBool true); ("fix", VStr "secret_reference")];
          approval_required_outside_sandbox := false; recommendation_reason := ""; expected_outcome := "";
          risk_explanation := ""; rollback_reason := "" |}].

Definition ServiceReferenceRecoveryActions : RecoveryRule :=
  RootCauseRecoveryRule ["service_name_or_namespace_mismatch"]
      [{| action_type := "service_reference_review";
          title := "Service 이름/namespace 참조 확인";
          description := "애플리케이션이 호출하는 service DNS 이름과 실제 Service namespace/name을 비교합니다.";
          route := RecoveryDispatch.approval_required_route; risk_level := "medium"; score := flit "0.62";
          blast_radius := "target_workload"; approval_required := true;
          prerequisites := ["오류 로그의 service host 확인"; "실제 Service name/namespace 확인"];
          validation_checks := ["DNS lookup 실패 소멸"; "대상 service 연결 성공"; "5xx/timeout 감소"];
          rollback_plan := "service 참조 설정 변경 commit을 revert합니다.";
          params := [("manual", VBool true); ("fix", VStr "service_reference")];
          approval_required_outside_sandbox := false; recommendation_reason := ""; expected_outcome := "";
          risk_explanation := ""; rollback_reason := "" |}].

Definition NetworkPolicyRecoveryActions : RecoveryRule :=
  RootCauseRecoveryRule ["network_policy_denied"]
      [{| action_type := "network_policy_review";
          title := "NetworkPolicy 차단 확인";
          description := "대상 namespace의 ingress/egress NetworkPolicy가 필요한 service 통신을 차단하는지 확인합니다.";
          route := RecoveryDispatch.approval_required_route; risk_level := "medium"; score := flit "0.62";
          blast_radius := "target_namespace"; approval_required := true;
          prerequisites := ["차단된 source/destination 확인"; "적용 중인 NetworkPolicy 확인"];
          validation_checks := ["허용 후 연결 성공"; "불필요한 namespace 노출 없음"; "5xx/timeout 감소"];
          rollback_plan := "NetworkPolicy 변경 commit을 revert합니다.";
          params := [("manual", VBool true); ("fix", VStr "network_policy")];
          approval_required_outside_sandbox := false; recommendation_reason := ""; expected_outcome := "";
          risk_explanation := ""; rollback_reason := "" |}].

Definition AutoscalingMetricsRecoveryActions : RecoveryRule :=
  RootCauseRecoveryRule ["metrics_server_unavailable"]
      [{| action_type := "autoscaling_metrics_recovery";
          title := "Autoscaling metrics 경로 복구";
          description := "metrics-server 또는 custom metrics adapter 상태를 확인해 HPA replica 계산 경로를 복구합니다.";
          route := RecoveryDispatch.approval_required_route; risk_level := "medium"; score := flit "0.62";
          blast_radius := "target_namespace"; approval_required := true;
          prerequisites := ["HPA FailedGetResourceMetric 근거"; "metrics API 또는 adapter 상태 확인"];
          validation_checks := ["HPA metric 조회 성공"; "ScalingActive 회복"; "replica 계산 재개"];
          rollback_plan := "metrics adapter 또는 HPA 설정 변경 commit을 revert합니다.";
          params := [("manual", VBool true); ("fix", VStr "autoscaling_metrics")];
          approval_required_outside_sandbox := false; recommendation_reason := ""; expected_outcome := "";
          risk_explanation := ""; rollback_reason := "" |}].

Definition AutoscalingResourceRequestRecoveryActions : RecoveryRule :=
  RootCauseRecoveryRule ["missing_resource_requests"]
      [{| action_type := "resource_request_tuning";
          title := "HPA resource request 보정 PR";
          description := "HPA 계산에 필요한 CPU/memory request를 정책 범위 안에서 보정하는 PR을 제안합니다.";
          route := RecoveryDispatch.safe_pr_route; risk_level := "medium"; score := flit "0.64";
          blast_radius := "target_workload"; approval_required := true;
          prerequisites := ["누락된 resource request 확인"; "GitOps 승인 snapshot"];
          validation_checks := ["HPA metric 계산 성공"; "Pod Ready 유지"; "리소스 사용률 안정"];
          rollback_plan := "resource request 보정 commit을 revert합니다.";
          params := [("strategy", VStr "hpa_required_requests")];
          approval_required_outside_sandbox := false; recommendation_reason := ""; expected_outcome := "";
          risk_explanation := ""; rollback_reason := "" |}].

Definition AutoscalingMaxReplicaRecoveryActions : RecoveryRule :=
  RootCauseRecoveryRule ["max_replica_limit_reached"]
      [{| action_type := "replica_scale";
          title := "HPA maxReplicas 상한 검토 PR";
          description := "트래픽 증가로 maxReplicas 상한에 도달한 경우 제한된 replica 상향 PR을 제안합니다.";
          route := RecoveryDispatch.safe_pr_route; risk_level := "medium"; score := flit "0.62";
          blast_radius := "target_workload"; approval_required := true;
          prerequisites := ["ScalingLimited=True 근거"; "GitOps 승인 snapshot"; "리소스 여유 확인"];
          validation_checks := ["Ready replica 증가"; "ScalingLimited 완화"; "5xx/latency 감소"];
          rollback_plan := "동반된 inverse patch로 replica 상한 또는 replica 수를 이전 값으로 되돌립니다.";
          params := [("strategy", VStr "hpa_max_replicas_review"); ("max_replicas", VInt 10)];
          approval_required_outside_sandbox := false; recommendation_reason := ""; expected_outcome := "";
          risk_explanation := ""; rollback_reason := "" |}].

Definition DatabaseConnectivityRecoveryActions : RecoveryRule :=
  RootCauseRecoveryRule ["database_connectivity_failure"; "database_connection_pool_exhausted"]
      [{| action_type := "dependency_connection_review";
          title := "DB 연결 경로 복구 검토";
          description := "DB endpoint, 네트워크 경로, connection pool 상태를 확인해 외부 의존성 복구 조치를 결정합니다.";
          route := RecoveryDispatch.approval_required_route; risk_level := "medium"; score := flit "0.62";
          blast_radius := "target_workload"; approval_required := true;
          prerequisites := ["DB connection error 로그 또는 trace 근거"; "DB endpoint와 pool 설정 확인"];
          validation_checks := ["DB 연결 성공"; "pool exhausted 로그 감소"; "요청 성공률 회복"];
          rollback_plan := "DB connection 설정 변경 commit을 revert합니다.";
          params := [("manual", VBool true); ("fix", VStr "db_connectivity")];
          approval_required_outside_sandbox := false; recommendation_reason := ""; expected_outcome := "";
          risk_explanation := ""; rollback_reason := "" |}].

Definition DatabaseConfigRecoveryActions : RecoveryRule :=
  RootCauseRecoveryRule ["database_credential_or_config_error"]
      [{| action_type := "dependency_config_review";
          title := "DB 인증/설정 참조 확인";
          description := "DB host, database name, credential Secret/ConfigMap 참조를 민감값 없이 확인합니다.";
          route := RecoveryDispatch.approval_required_route; risk_level := "medium"; score := flit "0.62";
          blast_radius := "target_workload"; approval_required := true;
          prerequisites := ["DB credential/config error 근거"; "Secret/ConfigMap reference 확인"];
          validation_checks := ["DB 인증 성공"; "설정 오류 로그 소멸"; "민감값 노출 없음"];
          rollback_plan := "DB 설정 참조 변경 commit을 revert합니다.";
          params := [("manual", VBool true); ("fix", VStr "db_config")];
          approval_required_outside_sandbox := false; recommendation_reason := ""; expected_outcome := "";
          risk_explanation := ""; rollback_reason := "" |}].

Definition FallbackRecoveryActions : RecoveryRule :=
  AlwaysAvailableRecoveryRule
      [{| action_type := "manual_analysis";
          title := "수동 RCA 분석 요청";
          description := "자동 복구 후보가 충분하지 않아 운영자 검토가 필요합니다.";
          route := RecoveryDispatch.approval_required_route; risk_level := "unknown"; score := flit "0.0";
          blast_radius := "unknown"; approval_required := true;
          prerequisites := ["운영자 RCA 검토"];
          validation_checks := ["원인 rule 추가 여부 검토"];
          rollback_plan := "자동 변경 없음";
          params := [("manual", VBool true)];
          approval_required_outside_sandbox := false; recommendation_reason := ""; expected_outcome := "";
          risk_explanation := ""; rollback_reason := "" |}].

Definition RECOVERY_RULES : list RecoveryRule :=
  [OomKilledRecoveryActions;
   Application5xxRecoveryActions;
   NetworkRecoveryActions;
   RolloutRecoveryActions;
   ConfigRecoveryActions;
   ImageTagRecoveryActions;
   ImagePullSecretRecoveryActions;
   RegistryRecoveryActions;
   SchedulingCapacityRecoveryActions;
   SchedulingConstraintRecoveryActions;
   PvcBindingRecoveryActions;
   ProbeRecoveryActions;
   SelectorRecoveryActions;
   StartupPortRecoveryActions;
   StartupPermissionRecoveryActions;
   ConfigKeyRecoveryActions;
   SecretReferenceRecoveryActions;
   ServiceReferenceRecoveryActions;
   NetworkPolicyRecoveryActions;
   AutoscalingMetricsRecoveryActions;
   AutoscalingResourceRequestRecoveryActions;
   AutoscalingMaxReplicaRecoveryActions;
   DatabaseConnectivityRecoveryActions;
   DatabaseConfigRecoveryActions;
   FallbackRecoveryActions].

(** ** The planner *)

(** [recovery_candidate_sort_key]; tuples compare element by element. *)
Definition sort_key (c : RecoveryActionCandidate) : bool * bool * Z * float :=
  (negb (c_executable c), truthy (get (h_params (c_draft c)) "manual"), c_rank c, fopp (c_score c)).

Definition bool_ltb (a b : bool) : bool := negb a && b.
Definition key_ltb (a b : bool * bool * Z * float) : bool :=
  let '(a1, a2, a3, a4) := a in
  let '(b1, b2, b3, b4) := b in
  if eqb a1 b1 then
    if eqb a2 b2 then if a3 =? b3 then fltb a4 b4 else a3 <? b3
    else bool_ltb a2 b2
  else bool_ltb a1 b1.

(** [sorted(candidates, key=...)] is stable and asks only whether a later key
    is smaller. *)
Definition key_leb (a b : RecoveryActionCandidate) : bool := negb (key_ltb (sort_key b) (sort_key a)).

Definition ranked_candidates (c : RecoveryContext) (rules : list RecoveryRule) : list RecoveryActionCandidate :=
  isort key_leb (mjoin ((fun r => if supports r c then candidates r c else []) <$> rules)).

Definition with_execution_eligibility (c : RecoveryActionCandidate) : RecoveryActionCandidate := c.

Definition first_draft_or_default (r : RcaCompletedBody) (cs : list RecoveryActionCandidate)
    : HealingActionDraft :=
  match cs with
  | c :: _ => c_draft c
  | [] =>
      {| h_action_type := default_action_type defaults;
         h_namespace := match rc_incident r with
                        | Some i => namespace_or_unknown (CauseEngine.namespace i)
                        | None => unknown_namespace defaults
                        end;
         h_resource_kind := match rc_incident r with Some i => CauseEngine.resource_kind i | None => "unknown" end;
         h_resource_name := match rc_incident r with Some i => CauseEngine.resource_name i | None => "unknown" end;
         h_reason := match rc_rca_detail r with Some d => CauseEngine.d_reason d | None => NO_RECOVERY_CANDIDATES end;
         h_risk_level := default_risk_level defaults; h_dry_run := dry_run defaults;
         h_source_evidence := match rc_rca_detail r with
                              | Some d => CauseEngine.d_supporting_evidence d | None => [] end;
         h_params := [] |}
  end.

Inductive plan_event :=
  | RecoveryPlanned (draft : HealingActionDraft) (plan : RecoveryPlan) (workspace_id : string)
  | ActionRequired (b : RecoveryDispatch.RcaActionRequiredBody).

Definition required (r : RcaCompletedBody) (reason code : string) (next : list dict) (diagnostics : dict)
    : plan_event :=
  ActionRequired
    {| RecoveryDispatch.ar_reason := reason; RecoveryDispatch.ar_evidence_ref := rc_evidence_ref r;
       RecoveryDispatch.ar_workspace_id := rc_workspace_id r; RecoveryDispatch.ar_reason_code := code;
       RecoveryDispatch.ar_missing_evidence := []; RecoveryDispatch.ar_next_actions := next;
       RecoveryDispatch.ar_diagnostics := diagnostics |}.

(** [o or fallback] *)
Definition opt_or (o : option string) (fallback : string) : string :=
  match o with Some s => if nonempty s then s else fallback | None => fallback end.

Definition blocked_event (r : RcaCompletedBody) (c : RecoveryContext) (blocked : RecoveryActionCandidate)
    : plan_event :=
  let reason := opt_or (c_blocked_reason blocked) NO_RECOVERY_CANDIDATES in
  required r reason (opt_or (c_blocked_reason_code blocked) "recovery_candidate_not_executable")
    [[("action_type", VStr "review_control_namespace_policy"); ("reason", VStr reason);
      ("target", VDict (context_target c))]]
    [("candidate_action_id", VStr (c_action_id blocked));
     ("candidate_action_type", VStr (h_action_type (c_draft blocked)));
     ("namespace", VStr (h_namespace (c_draft blocked)))].

Definition plan_body_with (rules : list RecoveryRule) (r : RcaCompletedBody) : plan_event :=
  match build_recovery_context r with
  | None => required r missing_analysis_context "action_required" [] []
  | Some c =>
      let cs := isort key_leb (with_execution_eligibility <$> ranked_candidates c rules) in
      let draft := first_draft_or_default r cs in
      match cs with
      | [] => required r NO_RECOVERY_CANDIDATES "action_required" [] []
      | first :: _ =>
          match keep c_executable cs with
          | [] => blocked_event r c first
          | recommended :: _ =>
              RecoveryPlanned draft
                {| p_plan_id := "recovery:" +:+ rc_evidence_ref r;
                   p_incident_id := CauseEngine.incident_id (incident c); p_evidence_ref := rc_evidence_ref r;
                   p_summary := CauseEngine.d_reason (detail c); p_target := context_target c;
                   p_recommended_action_id := c_action_id recommended;
                   p_execution_route := c_route recommended;
                   p_selection_required := c_approval_required recommended; p_candidates := cs;
                   p_lifecycle := [] |} (rc_workspace_id r)
          end
      end
  end.

Definition plan_body : RcaCompletedBody -> plan_event := plan_body_with RECOVERY_RULES.

(** ** An analysis that was blocked *)

Definition NON_ACTIONABLE_ROOT_CAUSES : list string :=
  [""; "unknown"; "insufficient_evidence"; "none"; "분석 가능한 원인 후보 없음"].

Record RcaAnalysisBlockedBody := {
  ab_reason_code : string;
  ab_report : RcaCompletedBody;
  ab_rule_missing : bool;
  ab_missing_evidence : list string;
}.

Definition fallback_candidate (evt : RcaAnalysisBlockedBody) (c : RecoveryActionCandidate)
    : RecoveryActionCandidate :=
  let d := c_draft c in
  {| c_action_id := c_action_id c; c_title := c_title c; c_description := c_description c;
     c_draft :=
       {| h_action_type := h_action_type d; h_namespace := h_namespace d; h_resource_kind := h_resource_kind d;
          h_resource_name := h_resource_name d; h_reason := h_reason d; h_risk_level := h_risk_level d;
          h_dry_run := h_dry_run d; h_source_evidence := h_source_evidence d;
          h_params := dict_update (h_params d)
            [("analysis_blocked_fallback", VBool true); ("analysis_blocked_reason", VStr (ab_reason_code evt));
             ("missing_evidence", VList (VStr <$> ab_missing_evidence evt))] |};
     c_route := c_route c; c_rank := c_rank c; c_score := c_score c; c_risk_level := c_risk_level c;
     c_blast_radius := c_blast_radius c; c_approval_required := true; c_prerequisites := c_prerequisites c;
     c_validation_checks := c_validation_checks c; c_rollback_plan := c_rollback_plan c;
     c_evidence_refs := c_evidence_refs c; c_recommendation_reason := c_recommendation_reason c;
     c_expected_outcome := c_expected_outcome c; c_risk_explanation := c_risk_explanation c;
     c_rollback_reason := c_rollback_reason c; c_executable := c_executable c;
     c_blocked_reason_code := c_blocked_reason_code c; c_blocked_reason := c_blocked_reason c |}.

Definition blocked_recovery_plan (evt : RcaAnalysisBlockedBody) : option plan_event :=
  match rc_incident (ab_report evt), rc_rca_detail (ab_report evt) with
  | Some _, Some d =>
      if ab_rule_missing evt
         || bool_decide (ManifestEditor.lower (strip (CauseEngine.root_cause d)) ∈ NON_ACTIONABLE_ROOT_CAUSES)
      then None
      else
        match plan_body (ab_report evt) with
        | RecoveryPlanned _ plan ws =>
            match fallback_candidate evt <$> p_candidates plan with
            | [] => None
            | (first :: _) as cs =>
                Some (RecoveryPlanned (c_draft first)
                  {| p_plan_id := p_plan_id plan; p_incident_id := p_incident_id plan;
                     p_evidence_ref := p_evidence_ref plan;
                     p_summary := p_summary plan +:+ " 추가 근거 수집이 필요해 운영자 선택 후 진행합니다.";
                     p_target := p_target plan; p_recommended_action_id := c_action_id first;
                     p_execution_route := c_route first; p_selection_required := true; p_candidates := cs;
                     p_lifecycle := p_lifecycle plan |} ws)
            end
        | ActionRequired _ => None
        end
  | _, _ => None
  end.

(** ** The plans that are made *)

(** The candidates before they are ranked. *)
Definition offered (c : RecoveryContext) (rules : list RecoveryRule) : list RecoveryActionCandidate :=
  mjoin ((fun r => if supports r c then candidates r c else []) <$> rules).

Lemma offered_elem c rules x :
  x ∈ offered c rules <->
  exists rule s n, rule ∈ rules /\ supports rule c = true /\ action_specs rule !! n = Some s /\
    x = to_candidate s c (Z.of_nat n + 1).
Proof.
  unfold offered. rewrite list_elem_of_join. split.
  - intros (l & Hx & (rule & -> & Hr)%list_elem_of_fmap).
    destruct (supports rule c) eqn:Hs; [|by apply elem_of_nil in Hx].
    apply elem_of_lookup_imap in Hx as (n & s & -> & Hl). by exists rule, s, n.
  - intros (rule & s & n & Hr & Hs & Hl & ->). exists (candidates rule c). split.
    + apply elem_of_lookup_imap. eauto.
    + apply list_elem_of_fmap. exists rule. by rewrite Hs.
Qed.

Lemma planned_elem c rules x :
  x ∈ isort key_leb (with_execution_eligibility <$> ranked_candidates c rules) <-> x ∈ offered c rules.
Proof. rewrite elem_of_isort. unfold with_execution_eligibility. rewrite list_fmap_id. apply elem_of_isort. Qed.

(** The planned body, when there is one. *)
Lemma planned_inv rules r draft plan ws :
  plan_body_with rules r = RecoveryPlanned draft plan ws ->
  exists c first rest, build_recovery_context r = Some c /\ ws = rc_workspace_id r /\
    p_candidates plan = first :: rest /\
    p_candidates plan = isort key_leb (with_execution_eligibility <$> ranked_candidates c rules) /\
    draft = c_draft first /\ p_plan_id plan = "recovery:" +:+ rc_evidence_ref r /\
    p_recommended_action_id plan = c_action_id first /\ p_execution_route plan = c_route first /\
    p_selection_required plan = c_approval_required first /\ p_lifecycle plan = [] /\
    p_target plan = context_target c.
Proof.
  unfold plan_body_with. destruct (build_recovery_context r) as [c|]; [|done]. cbn zeta.
  set (cs := isort key_leb (with_execution_eligibility <$> ranked_candidates c rules)).
  assert (keep c_executable cs = cs) as Hkeep.
  { apply keep_true. intros x (rule & s & n & _ & _ & _ & ->)%planned_elem%offered_elem. done. }
  destruct cs as [|first rest] eqn:Hcs; [done|]. rewrite Hkeep.
  intros [= <- <- <-]. exists c, first, rest. unfold cs in Hcs. by rewrite Hcs.
Qed.

(** *** The registered rules *)

(** What a person reviews: an instruction, or a pull request of a supported
    action. *)
Definition reviewable (action route : string) (params : dict) : bool :=
  (str_eqb route RecoveryDispatch.approval_required_route && truthy (get params "manual"))
  || (str_eqb route RecoveryDispatch.safe_pr_route
      && bool_decide (action ∈ RecoveryDispatch.REVIEW_DOC_ACTIONS ++ RecoveryDispatch.AUTHORITY_PATCH_ACTIONS)).

Lemma catalogue_reviewable :
  forallb (fun rule => forallb (fun s => approval_required s && reviewable (action_type s) (route s) (params s)
             && no_dup (params s).*1) (action_specs rule))
    RECOVERY_RULES = true.
Proof. vm_compute. reflexivity. Qed.

Lemma catalogue_spec rule s n :
  rule ∈ RECOVERY_RULES -> action_specs rule !! n = Some s ->
  approval_required s = true /\ reviewable (action_type s) (route s) (params s) = true /\ NoDup (params s).*1.
Proof.
  intros Hr Hs%list_elem_of_lookup_2. pose proof catalogue_reviewable as Hc.
  rewrite forallb_elem in Hc. specialize (Hc rule Hr). rewrite forallb_elem in Hc. specialize (Hc s Hs).
  by apply andb_true_iff in Hc as [[? ?]%andb_true_iff ?%no_dup_spec].
Qed.

(** The parameters of an action are kept in its candidate. *)
Lemma dict_get_update_in {A} (d e : list (string * A)) k v :
  NoDup e.*1 -> dict_get e k = Some v -> dict_get (dict_update d e) k = Some v.
Proof.
  unfold dict_update. revert d. induction e as [|[k' v'] e IH]; intros d Hnd; [done|].
  apply NoDup_cons in Hnd as [Hk' Hnd]. cbn [dict_get fold_left fst snd]. destruct (decide (k = k')) as [->|Hne].
  - rewrite str_eqb_refl. intros [= ->]. clear IH.
    assert (dict_get (dict_set d k' v) k' = Some v) as Hd by apply dict_get_set_eq.
    revert Hd. generalize (dict_set d k' v) as d'. induction e as [|[k'' v''] e IH]; intros d' Hd; [done|].
    cbn [fold_left fst snd]. cbn in Hk'. apply not_elem_of_cons in Hk' as [Hne Hk'].
    apply IH; [done|by apply NoDup_cons in Hnd as [_ ?]|]. by rewrite dict_get_set_ne.
  - destruct (str_eqb _ _) eqn:E; [by apply str_eqb_eq in E|]. by apply IH.
Qed.

(** *** Distinct actions *)

(** The action types offered for a root cause. *)
Definition types_for (rules : list RecoveryRule) (root_cause : string) : list string :=
  mjoin ((fun r => if match r with
                      | RootCauseRecoveryRule root_causes _ => bool_decide (root_cause ∈ root_causes)
                      | AlwaysAvailableRecoveryRule _ => true
                      end then action_type <$> action_specs r else []) <$> rules).

Definition root_causes (r : RecoveryRule) : list string :=
  match r with RootCauseRecoveryRule l _ => l | AlwaysAvailableRecoveryRule _ => [] end.

Definition always (r : RecoveryRule) : bool :=
  match r with AlwaysAvailableRecoveryRule _ => true | _ => false end.

(** A cause no rule names is offered what is always available. *)
Lemma types_for_unknown rules rc :
  rc ∉ mjoin (root_causes <$> rules) -> types_for rules rc = types_for (keep always rules) rc.
Proof.
  unfold types_for. induction rules as [|r rules IH]; [done|]. cbn [fmap list_fmap mjoin list_join].
  rewrite elem_of_app. intros Hn. destruct r as [l specs|specs]; cbn [always keep].
  - rewrite bool_decide_eq_false_2 by tauto. apply IH. tauto.
  - cbn [fmap list_fmap mjoin list_join]. f_equal. apply IH. tauto.
Qed.

Lemma catalogue_distinct :
  forallb (fun rc => no_dup (types_for RECOVERY_RULES rc)) (mjoin (root_causes <$> RECOVERY_RULES)) = true.
Proof. vm_compute. reflexivity. Qed.

Lemma types_distinct rc : NoDup (types_for RECOVERY_RULES rc).
Proof.
  destruct (decide (rc ∈ mjoin (root_causes <$> RECOVERY_RULES))) as [Hin|Hout].
  - pose proof catalogue_distinct as Hc. rewrite forallb_elem in Hc. by apply no_dup_spec, Hc.
  - rewrite types_for_unknown by done. apply no_dup_spec. vm_compute. reflexivity.
Qed.

Lemma offered_types c rules :
  h_action_type ∘ c_draft <$> offered c rules = types_for rules (context_root_cause c).
Proof.
  unfold offered, types_for. induction rules as [|r rules IH]; [done|].
  cbn [fmap list_fmap mjoin list_join]. rewrite fmap_app. f_equal; [|exact IH].
  assert (h_action_type ∘ c_draft <$> candidates r c = action_type <$> action_specs r) as Hc.
  { unfold candidates. rewrite fmap_imap. apply imap_const. }
  destruct r; cbn [supports]; [case_bool_decide|]; done.
Qed.

(** The identifiers of the candidates of a plan are distinct. *)
Lemma append_inj_l (a b c : string) : a +:+ b = a +:+ c -> b = c.
Proof. induction a as [|x a IH]; cbn; [done|]. intros [= ?]. auto. Qed.

Lemma plan_ids_distinct r draft plan ws :
  plan_body r = RecoveryPlanned draft plan ws -> NoDup (c_action_id <$> p_candidates plan).
Proof.
  intros (c & first & rest & Hc & _ & _ & Hcs & _)%planned_inv.
  assert (NoDup (h_action_type ∘ c_draft <$> p_candidates plan)) as Hnd.
  { rewrite Hcs. unfold with_execution_eligibility. rewrite list_fmap_id.
    unfold ranked_candidates. rewrite !isort_perm. fold (offered c RECOVERY_RULES).
    rewrite offered_types. apply types_distinct. }
  rewrite (list_fmap_ext c_action_id ((fun ty => rc_evidence_ref r +:+ ":" +:+ ty) ∘ (h_action_type ∘ c_draft))).
  - rewrite list_fmap_compose. apply NoDup_fmap_2; [|done]. intros x y ?%append_inj_l. by simplify_eq/=.
  - intros i x Hx%list_elem_of_lookup_2. rewrite Hcs in Hx.
    apply planned_elem, offered_elem in Hx as (rule & s & n & _ & _ & _ & ->).
    unfold build_recovery_context in Hc. repeat case_match; by simplify_eq.
Qed.

(** nothing that is planned runs by itself.  Every candidate of a plan
    made from the registered rules needs approval, is a dry run, and is
    either an instruction to a person or a pull request whose action the
    dispatcher has a patch or a review document for; the plan asks for a
    selection and starts without a lifecycle. *)
Theorem planned_candidates_are_reviewable r draft plan ws :
  plan_body r = RecoveryPlanned draft plan ws ->
  p_selection_required plan = true /\ p_lifecycle plan = [] /\
  forall c, c ∈ p_candidates plan ->
    c_approval_required c = true /\ h_dry_run (c_draft c) = true /\
    ((c_route c = RecoveryDispatch.approval_required_route /\
      truthy (get (h_params (c_draft c)) "manual") = true) \/
     (c_route c = RecoveryDispatch.safe_pr_route /\
      (h_action_type (c_draft c) ∈ RecoveryDispatch.REVIEW_DOC_ACTIONS \/
       h_action_type (c_draft c) ∈ RecoveryDispatch.AUTHORITY_PATCH_ACTIONS))).
Proof.
  intros (c & first & rest & _ & _ & Hf & Hcs & _ & _ & _ & _ & Hsel & Hlc & _)%planned_inv.
  assert (forall x, x ∈ p_candidates plan -> exists rule s n, rule ∈ RECOVERY_RULES /\
            action_specs rule !! n = Some s /\ x = to_candidate s c (Z.of_nat n + 1)) as Hall.
  { intros x Hx. rewrite Hcs in Hx. apply planned_elem, offered_elem in Hx as (rule & s & n & Hr & _ & Hs & Hx).
    by exists rule, s, n. }
  split; [|split; [done|]].
  - destruct (Hall first) as (rule & s & n & Hr & Hs & Hx); [rewrite Hf; set_solver|].
    rewrite Hsel, Hx. cbn. by rewrite (proj1 (catalogue_spec _ _ _ Hr Hs)).
  - intros x (rule & s & n & Hr & Hs & ->)%Hall.
    destruct (catalogue_spec _ _ _ Hr Hs) as (Ha & Hrev & Hnd). cbn. rewrite Ha. do 2 (split; [done|]).
    apply orb_true_iff in Hrev as [[Hrt%str_eqb_eq Hm]%andb_true_iff|[Hrt%str_eqb_eq Hact]%andb_true_iff].
    + left. split; [done|]. unfold get in *. destruct (dict_get (params s) "manual") as [v|] eqn:Hv; [|done].
      erewrite dict_get_update_in; [exact Hm|done|exact Hv].
    + right. split; [done|]. apply bool_decide_eq_true in Hact. by apply elem_of_app in Hact.
Qed.

(** *** The order *)

(** Keys as numbers: the order of the tuples when no score is NaN. *)
Definition key_lt (a b : bool * bool * Z * float) : Prop :=
  let '(a1, a2, a3, a4) := a in
  let '(b1, b2, b3, b4) := b in
  Z.b2z a1 < Z.b2z b1 \/ (a1 = b1 /\ (Z.b2z a2 < Z.b2z b2 \/ (a2 = b2 /\
    (a3 < b3 \/ (a3 = b3 /\ rank_lt (rank a4) (rank b4)))))).

Lemma key_ltb_lt a b :
  is_nan a.2 = false -> is_nan b.2 = false -> key_ltb a b = true <-> key_lt a b.
Proof.
  destruct a as [[[a1 a2] a3] a4], b as [[[b1 b2] b3] b4]. cbn [snd]. intros Ha Hb.
  unfold key_ltb, key_lt. rewrite <- (fltb_rank a4 b4) by done.
  destruct a1, b1, a2, b2; cbn; try (destruct (Z.eqb_spec a3 b3)); rewrite ?Z.ltb_lt; intuition (try lia; try done).
Qed.

Definition scored (c : RecoveryActionCandidate) : Prop := is_nan (c_score c) = false.

Lemma key_leb_spec a b : scored a -> scored b -> key_leb a b = true <-> ~ key_lt (sort_key b) (sort_key a).
Proof.
  intros Ha Hb. unfold key_leb. rewrite negb_true_iff, <- not_true_iff_false, key_ltb_lt; [done|..];
    cbn; by rewrite is_nan_fopp.
Qed.

Lemma candidate_key_total a b : scored a -> scored b -> key_leb a b = true \/ key_leb b a = true.
Proof.
  intros Ha Hb. rewrite !key_leb_spec by done. unfold key_lt, sort_key, rank_lt.
  destruct (rank (fopp (c_score a))) as [[x1 x2] x3], (rank (fopp (c_score b))) as [[y1 y2] y3].
  destruct (c_executable a), (c_executable b), (truthy _), (truthy _); cbn; lia.
Qed.

Lemma candidate_key_trans a b c :
  scored a -> scored b -> scored c -> key_leb a b = true -> key_leb b c = true -> key_leb a c = true.
Proof.
  intros Ha Hb Hc. rewrite !key_leb_spec by done. unfold key_lt, sort_key, rank_lt.
  destruct (rank (fopp (c_score a))) as [[x1 x2] x3], (rank (fopp (c_score b))) as [[y1 y2] y3],
    (rank (fopp (c_score c))) as [[z1 z2] z3].
  destruct (c_executable a), (c_executable b), (c_executable c), (truthy _), (truthy _), (truthy _); cbn; lia.
Qed.

Lemma catalogue_scored rule s n :
  rule ∈ RECOVERY_RULES -> action_specs rule !! n = Some s -> is_nan (score s) = false.
Proof.
  intros Hr Hs%list_elem_of_lookup_2.
  assert (forallb (fun rule => forallb (fun s => negb (is_nan (score s))) (action_specs rule)) RECOVERY_RULES = true)
    as Hc by (vm_compute; reflexivity).
  rewrite forallb_elem in Hc. specialize (Hc rule Hr). rewrite forallb_elem in Hc.
  by apply negb_true_iff, Hc.
Qed.

(** a plan offers exactly what the registered rules have for the root
    cause, the best first: the candidates are those of the rules that support
    the analysis, each once, no candidate is preferred over one with a smaller
    key before it, and the recommended action, its route and the draft are
    those of the first.  The actions of one plan have distinct identifiers, so
    choosing one by its identifier is unambiguous. *)
Theorem plan_offers_ranked_actions r draft plan ws :
  plan_body r = RecoveryPlanned draft plan ws ->
  exists c first rest, build_recovery_context r = Some c /\ p_candidates plan = first :: rest /\
    p_candidates plan ≡ₚ offered c RECOVERY_RULES /\
    StronglySorted (fun a b => key_ltb (sort_key b) (sort_key a) = false) (p_candidates plan) /\
    NoDup (c_action_id <$> p_candidates plan) /\ draft = c_draft first /\
    p_recommended_action_id plan = c_action_id first /\ p_execution_route plan = c_route first.
Proof.
  intros Hp. pose proof (plan_ids_distinct _ _ _ _ Hp) as Hnd.
  apply planned_inv in Hp as (c & first & rest & Hc & _ & Hf & Hcs & Hd & _ & Hrec & Hroute & _).
  exists c, first, rest. split; [done|]. split; [done|]. split_and!; try done.
  - rewrite Hcs. unfold with_execution_eligibility. rewrite list_fmap_id. unfold ranked_candidates.
    by rewrite !isort_perm.
  - rewrite Hcs. assert (StronglySorted (fun a b => key_leb a b = true)
      (isort key_leb (with_execution_eligibility <$> ranked_candidates c RECOVERY_RULES))) as Hs.
    { apply (isort_sorted_on key_leb scored); [exact candidate_key_total|exact candidate_key_trans|].
      apply Forall_forall. intros x Hx. unfold with_execution_eligibility in Hx. rewrite list_fmap_id in Hx.
      apply elem_of_isort, offered_elem in Hx as (rule & s & n & Hr & _ & Hl & ->).
      by eapply catalogue_scored. }
    clear -Hs. induction Hs as [|x l _ IH Hall]; [constructor|]. constructor; [done|].
    eapply Forall_impl; [exact Hall|]. intros y Hy. by apply negb_true_iff.
Qed.

(** ** From the plan to the selection *)

Lemma typed_str s : typed TStr (OStr s).
Proof. by eexists. Qed.
Lemma typed_bool b : typed TBool (OBool b).
Proof. by eexists. Qed.
Lemma typed_int z : typed TInt (OInt z).
Proof. by eexists. Qed.
Lemma typed_dict d : typed TDict (of_wire (VDict d)).
Proof. split; [apply plain_of_wire|by eexists]. Qed.
Lemma typed_float f : typed TUnchecked (OFloat f).
Proof. done. Qed.
Lemma typed_ostrs l : typed (TList TStr) (ostrs l).
Proof.
  apply typed_list. eexists. split; [done|]. apply Forall_fmap, Forall_true. intros s. by eexists.
Qed.
Lemma typed_ostr_opt o : typed (Nullable TStr) (ostr_opt o).
Proof. apply typed_union. destruct o; [right; exists TStr; split; [set_solver|split; [done|by eexists]]|by left]. Qed.

Create HintDb typed.
#[local] Hint Resolve typed_str typed_bool typed_int typed_dict typed_float typed_ostrs typed_ostr_opt : typed.

(** One goal per field. *)
Ltac typed_fields := repeat (constructor; [cbn [snd]; solve [auto with typed]|]); constructor.

Lemma typed_draft d : typed (Body EventBodies.HealingActionDraft) (draft_obj d).
Proof. apply typed_body. eexists. split; [done|]. split; [done|]. typed_fields. Qed.
#[local] Hint Resolve typed_draft : typed.

Lemma typed_candidate c : typed (Body EventBodies.RecoveryActionCandidate) (candidate_obj c).
Proof. apply typed_body. eexists. split; [done|]. split; [done|]. typed_fields. Qed.
#[local] Hint Resolve typed_candidate : typed.

Lemma typed_candidates l : typed (TList (Body EventBodies.RecoveryActionCandidate)) (OList (candidate_obj <$> l)).
Proof. apply typed_list. eexists. split; [done|]. apply Forall_fmap, Forall_true. auto with typed. Qed.
#[local] Hint Resolve typed_candidates : typed.

Lemma typed_plan p : typed (Body EventBodies.RecoveryPlan) (plan_obj p).
Proof. apply typed_body. eexists. split; [done|]. split; [done|]. typed_fields. Qed.

(** A stored plan is read back as it was planned. *)
Lemma plan_round_trip p :
  from_body EventBodies.RecoveryPlan true (VDict (to_body (plan_obj p))) = Ok (plan_obj p).
Proof.
  rewrite EventBodies.from_body_mapping by apply typed_plan.
  apply decode_encoded; [vm_compute; reflexivity|apply typed_plan].
Qed.

Section selection.
Context `{ReprLib} `{IsoTime} `{Sha256}.

Lemma find_by_key {A} (f : A -> string) (l : list A) x :
  NoDup (f <$> l) -> x ∈ l -> find (fun y => str_eqb (f y) (f x)) l = Some x.
Proof.
  induction l as [|y l IH]; [by intros _ ?%elem_of_nil|]. cbn. intros [Hy Hnd]%NoDup_cons Hx.
  destruct (str_eqb (f y) (f x)) eqn:E.
  - apply str_eqb_eq in E. apply elem_of_cons in Hx as [->|Hx]; [done|].
    destruct Hy. rewrite E. by apply list_elem_of_fmap_2.
  - apply elem_of_cons in Hx as [->|Hx]; [by rewrite str_eqb_refl in E|by apply IH].
Qed.

Lemma find_fmap {A B} (g : A -> B) (p : B -> bool) l : find p (g <$> l) = g <$> find (p ∘ g) l.
Proof. induction l as [|x l IH]; [done|]. cbn. by destruct (p (g x)). Qed.

(** Choosing by its identifier finds the candidate that was planned. *)
Lemma planned_candidate_found plan c :
  NoDup (c_action_id <$> p_candidates plan) -> c ∈ p_candidates plan ->
  RecoverySelection.candidate_by_action_id (plan_obj plan) (c_action_id c)
  = Some (RecoverySelection.candidate_of (candidate_obj c)).
Proof.
  intros Hnd Hc. unfold RecoverySelection.candidate_by_action_id.
  change (RecoverySelection.candidates_of (plan_obj plan))
    with (RecoverySelection.candidate_of <$> (candidate_obj <$> p_candidates plan)).
  rewrite !find_fmap.
  change (find _ _) with (find (fun y => str_eqb (c_action_id y) (c_action_id c)) (p_candidates plan)).
  by rewrite (find_by_key c_action_id).
Qed.

(** The row a new plan is stored in. *)
Definition planned_row (plan : RecoveryPlan) (ws correlation : string) (id now : Z)
    : RecoveryLifecycle.plan_row :=
  {| RecoveryLifecycle.row_id := id; RecoveryLifecycle.plan_id := p_plan_id plan;
     RecoveryLifecycle.workspace_id := ws; RecoveryLifecycle.correlation_id := correlation;
     RecoveryLifecycle.incident_id := p_incident_id plan; RecoveryLifecycle.row_evidence_ref := p_evidence_ref plan;
     RecoveryLifecycle.row_status := RecoveryTracking.RECOVERY_STATUS_SELECTION_REQUESTED;
     RecoveryLifecycle.selected_action_id := None; RecoveryLifecycle.selected_by := None;
     RecoveryLifecycle.payload := to_body (plan_obj plan); RecoveryLifecycle.updated_at := now |}.

Lemma planned_is_stored t draft plan ws correlation id now :
  t !! (ws, p_plan_id plan) = None ->
  RecoverySelection.on_recovery_planned t (planned_obj draft plan ws) correlation id now
  = Ok (<[(ws, p_plan_id plan) := planned_row plan ws correlation id now]> t,
        RecoverySelection.SelectionRequested (plan_obj plan) ws).
Proof.
  intros Hn. unfold RecoverySelection.on_recovery_planned. cbn [RecoverySelection.select_body].
  change (RecoverySelection.select_body (planned_obj draft plan ws))
    with (RecoverySelection.SelectionRequested (plan_obj plan) ws). cbv iota beta.
  unfold RecoveryTracking.upsert_recovery_plan.
  change (RecoveryTracking.required_str (to_body (plan_obj plan)) "plan_id") with (Ok (p_plan_id plan) : res string).
  cbn. by rewrite Hn.
Qed.

Lemma planned_row_selects t plan ws correlation id now0 action user uuid clock now :
  p_lifecycle plan = [] ->
  exists row, RecoveryTracking.select_recovery_plan_action_if_open
      (<[(ws, p_plan_id plan) := planned_row plan ws correlation id now0]> t) (p_plan_id plan) ws action user uuid
      clock now
      = Ok (<[(ws, p_plan_id plan) := row]> (<[(ws, p_plan_id plan) := planned_row plan ws correlation id now0]> t),
            Some row) /\
    RecoveryLifecycle.row_status row = RecoveryTracking.RECOVERY_STATUS_SELECTED /\
    RecoveryLifecycle.selected_action_id row = Some action.
Proof.
  intros Hlc. unfold RecoveryTracking.select_recovery_plan_action_if_open. rewrite lookup_insert_eq.
  rewrite bool_decide_eq_true_2 by (cbn; set_solver).
  assert (RecoveryLifecycle.lifecycle_of (planned_row plan ws correlation id now0) = []) as ->.
  { unfold RecoveryLifecycle.lifecycle_of. cbn [RecoveryLifecycle.payload planned_row].
    change (get (to_body (plan_obj plan)) "lifecycle") with (to_body_value (of_wire (VDict (p_lifecycle plan)))).
    by rewrite to_of_wire, Hlc. }
  eexists. split; [reflexivity|]. done.
Qed.

(** What approval and dispatch add to the parameters of a candidate. *)
Definition APPROVAL_KEYS : list string := ["approval_ref"; "policy_decision_ref"; "workflow_run_id"].

(** The dispatched candidate is the prepared one, with its approval. *)
Lemma approve_prepared store plan prepared ws ref store' d :
  RecoverySelection.approve store plan prepared ws ref = (store', d) ->
  exists params, d = RecoveryDispatch.with_params prepared params /\ get params "approval_ref" = VStr ref /\
    forall k, k ∉ APPROVAL_KEYS ->
      dict_get params k = dict_get (RecoveryReplacements.params (RecoveryReplacements.draft prepared)) k.
Proof.
  unfold RecoverySelection.approve. intros [= _ <-]. unfold RecoverySelection.candidate_with_approval_identity,
    RecoverySelection.candidate_with_approval.
  set (ps := dict_update _ _).
  assert (get ps "approval_ref" = VStr ref /\ forall k, k ∉ APPROVAL_KEYS ->
      dict_get ps k = dict_get (RecoveryReplacements.params (RecoveryReplacements.draft prepared)) k) as [Href Hps].
  { unfold ps, dict_update. cbn [fold_left fst snd]. split.
    - unfold get. by rewrite dict_get_set_ne, dict_get_set_eq.
    - intros k Hk. unfold APPROVAL_KEYS in Hk. rewrite !dict_get_set_ne by set_solver. done. }
  destruct (is_empty _); [by exists ps|].
  cbn [RecoveryDispatch.with_params RecoveryReplacements.draft RecoveryReplacements.params].
  eexists. split; [reflexivity|]. unfold dict_update. cbn [fold_left fst snd]. split.
  - unfold get in *. by rewrite dict_get_set_ne.
  - intros k Hk. rewrite dict_get_set_ne by (unfold APPROVAL_KEYS in Hk; set_solver). by apply Hps.
Qed.

Lemma plan_target plan : RecoverySelection.attr_dict (plan_obj plan) "target" = p_target plan.
Proof.
  unfold RecoverySelection.attr_dict.
  change (RecoveryMerge.attribute (plan_obj plan) "target") with (of_wire (VDict (p_target plan))). by rewrite to_of_wire.
Qed.

(** C25: every planned recovery can be carried on.  A plan that is not stored
    yet is stored, and then each of its candidates can be selected by its
    identifier: when the person has access to the cluster of the plan and the
    preflight, where the route needs one, prepares the candidate, the
    selection is accepted and the plan is selected; what is published is the
    prepared candidate, with all its fields and parameters, to which only the
    reference of the approval, that of its policy decision and the workflow
    run are added. *)
Theorem planned_candidate_is_selectable s r draft plan ws correlation id now0 c user access preflight prepared uuid clock now :
  plan_body r = RecoveryPlanned draft plan ws ->
  RecoverySelection.plans s !! (ws, p_plan_id plan) = None ->
  c ∈ p_candidates plan -> access (RecoverySelection.str_get (p_target plan) "cluster_id" "") = true ->
  RecoverySelection.preflighted preflight (plan_obj plan) (RecoverySelection.candidate_of (candidate_obj c)) ws correlation
    = Ok (RecoveryDispatch.Prepared prepared) ->
  exists t b s' params,
    let dispatched := RecoveryDispatch.with_params prepared params in
    RecoverySelection.on_recovery_planned (RecoverySelection.plans s) (planned_obj draft plan ws) correlation id now0
      = Ok (t, b) /\
    RecoverySelection.select_recovery_action (RecoverySelection.lift s t) (p_plan_id plan) (c_action_id c) ws user
      access preflight uuid clock now
      = Ok (s', [RecoverySelection.ActionSelectedPublished
                   (RecoverySelection.selected_event (plan_obj plan) dispatched ws) user],
            RecoverySelection.Accepted) /\
    get params "approval_ref"
      = VStr (RecoveryTracking.recovery_approval_id (p_plan_id plan) (RecoveryReplacements.action_id prepared)) /\
    (forall k, k ∉ APPROVAL_KEYS ->
       dict_get params k = dict_get (RecoveryReplacements.params (RecoveryReplacements.draft prepared)) k) /\
    exists row, RecoverySelection.plans s' !! (ws, p_plan_id plan) = Some row /\
      RecoveryLifecycle.row_status row = RecoveryTracking.RECOVERY_STATUS_SELECTED /\
      RecoveryLifecycle.selected_action_id row = Some (RecoveryReplacements.action_id prepared).
Proof.
  intros Hp Hn Hc Hacc Hpre. pose proof (plan_ids_distinct _ _ _ _ Hp) as Hnd.
  apply planned_inv in Hp as (ctx & first & rest & _ & _ & _ & Hcs & _ & _ & _ & _ & _ & Hlc & _).
  assert (nonempty (c_action_id c) = true) as Hid.
  { rewrite Hcs in Hc. apply planned_elem, offered_elem in Hc as (rule & sp & n & _ & _ & _ & ->).
    cbn. by destruct (rc_evidence_ref _). }
  destruct (RecoverySelection.approve (RecoverySelection.approvals s) (RecoverySelection.plan_of (plan_obj plan)) prepared ws
    (RecoveryTracking.recovery_approval_id (p_plan_id plan) (RecoveryReplacements.action_id prepared)))
    as [store d] eqn:Ea.
  destruct (planned_row_selects (RecoverySelection.plans s) plan ws correlation id now0
    (RecoveryReplacements.action_id prepared) user uuid clock now Hlc) as (row & Hsel & Hst & Hact).
  rewrite planned_is_stored by done. do 2 eexists. eexists {| RecoverySelection.plans := _; RecoverySelection.approvals := store |}.
  destruct (approve_prepared _ _ _ _ _ _ _ Ea) as (params & -> & Href & Hps).
  exists params. split; [done|]. split.
  - unfold RecoverySelection.select_recovery_action. cbn [RecoverySelection.plans RecoverySelection.lift].
    rewrite lookup_insert_eq. unfold RecoverySelection.select_recovery_action_from_record.
    cbn [RecoveryLifecycle.payload planned_row]. rewrite plan_round_trip. cbn [mbind res_bind]. rewrite plan_target, Hacc. cbn [negb].
    rewrite Hid, planned_candidate_found by done. cbn [RecoveryLifecycle.correlation_id planned_row].
    rewrite Hpre. cbn [mbind res_bind RecoverySelection.plans RecoverySelection.approvals RecoverySelection.lift].
    change (RecoveryMerge.attr_str (plan_obj plan) "plan_id") with (p_plan_id plan).
    rewrite Hsel. cbn [mbind res_bind]. by rewrite Ea.
  - split; [done|]. split; [done|]. exists row. cbn [RecoverySelection.plans]. by rewrite lookup_insert_eq.
Qed.

(** The transition system of [RecoverySelection] asks of a planned body what
    the planner guarantees. *)
Lemma planner_makes_new_plans r draft plan ws :
  strip ("recovery:" +:+ rc_evidence_ref r) = "recovery:" +:+ rc_evidence_ref r ->
  plan_body r = RecoveryPlanned draft plan ws -> RecoverySelection.new_plan (planned_obj draft plan ws).
Proof.
  intros Hs (ctx & first & rest & _ & _ & _ & _ & _ & Hid & _ & _ & _ & Hlc & _)%planned_inv.
  unfold RecoverySelection.new_plan. cbn [RecoverySelection.select_body].
  change (RecoverySelection.select_body (planned_obj draft plan ws))
    with (RecoverySelection.SelectionRequested (plan_obj plan) ws). cbv iota beta. split.
  - change (get (to_body (plan_obj plan)) "lifecycle") with (to_body_value (of_wire (VDict (p_lifecycle plan)))).
    by rewrite to_of_wire, Hlc.
  - change (RecoveryTracking.required_str (to_body (plan_obj plan)) "plan_id") with (Ok (p_plan_id plan) : res string).
    intros id [= <-]. by rewrite Hid.
Qed.

End selection.

(** A blocked analysis only proposes: it names an actionable cause, every
    candidate needs approval and says that the analysis was blocked, and the
    plan asks for a selection. *)
Theorem blocked_analysis_only_proposes evt e :
  blocked_recovery_plan evt = Some e ->
  exists draft plan ws d, e = RecoveryPlanned draft plan ws /\ rc_rca_detail (ab_report evt) = Some d /\
    ab_rule_missing evt = false /\
    ManifestEditor.lower (strip (CauseEngine.root_cause d)) ∉ NON_ACTIONABLE_ROOT_CAUSES /\
    p_selection_required plan = true /\ p_candidates plan <> [] /\
    forall c, c ∈ p_candidates plan ->
      c_approval_required c = true /\ get (h_params (c_draft c)) "analysis_blocked_fallback" = VBool true.
Proof.
  unfold blocked_recovery_plan. destruct (rc_incident _) as [i|]; [|done].
  destruct (rc_rca_detail _) as [d|]; [|done]. destruct (_ || _) eqn:E; [done|].
  apply orb_false_iff in E as [Hrm Hact%bool_decide_eq_false].
  destruct (plan_body _) as [draft plan ws|]; [|done].
  destruct (fallback_candidate evt <$> p_candidates plan) as [|first rest] eqn:Hcs; [done|].
  intros [= <-]. do 3 eexists. exists d. split; [done|]. split; [done|]. split; [done|]. split; [done|].
  split; [done|]. split; [done|]. cbn [p_candidates]. rewrite <- Hcs.
  intros c (x & -> & _)%list_elem_of_fmap. split; [done|]. cbn [c_draft fallback_candidate h_params].
  unfold dict_update. cbn [fold_left fst snd]. rewrite !get_set_ne by done. apply get_set_eq.
Qed.

(** ** A plan for a container that ran out of memory *)

Module Sample.

Definition incident : CauseEngine.IncidentRecord :=
  {| CauseEngine.incident_id := "i-1"; CauseEngine.cluster_id := "c-1";
     CauseEngine.resource_kind := "Deployment"; CauseEngine.resource_name := "web";
     CauseEngine.namespace := Some "shop"; CauseEngine.symptom := "restarts"; CauseEngine.severity := "critical";
     CauseEngine.first_seen_at := None; CauseEngine.i_summary := ""; CauseEngine.category := None;
     CauseEngine.workspace_id := "w-1"; CauseEngine.secondary_symptoms := [] |}.
Definition detail : CauseEngine.RcaReportDetail :=
  {| CauseEngine.root_cause := "oom_killed"; CauseEngine.confidence := flit "0.9";
     CauseEngine.selected_candidate_id := "oom"; CauseEngine.d_supporting_evidence := ["k8s:pod"];
     CauseEngine.d_missing_evidence := []; CauseEngine.d_reason := "OOMKilled";
     CauseEngine.d_missing_evidence_checks := []; CauseEngine.d_supporting_evidence_refs := [] |}.
Definition report : RcaCompletedBody :=
  {| rc_evidence_ref := "e-1"; rc_workspace_id := "w-1"; rc_incident := Some incident;
     rc_evidence_bundle := None; rc_rca_detail := Some detail |}.

Definition no_draft : HealingActionDraft :=
  {| h_action_type := ""; h_namespace := ""; h_resource_kind := ""; h_resource_name := ""; h_reason := "";
     h_risk_level := ""; h_dry_run := true; h_source_evidence := []; h_params := [] |}.
Definition draft : HealingActionDraft :=
  match plan_body report with RecoveryPlanned d _ _ => d | _ => no_draft end.
Definition plan : RecoveryPlan :=
  match plan_body report with
  | RecoveryPlanned _ p _ => p
  | _ => Build_RecoveryPlan "" "" "" "" [] "" "" false [] []
  end.

(** Two pull requests are ranked before the two instructions. *)
Example planned : plan_body report = RecoveryPlanned draft plan "w-1".
Proof. vm_compute. reflexivity. Qed.
Example ranked : h_action_type ∘ c_draft <$> p_candidates plan
  = ["oom_memory"; "replica_scale"; "rollout_restart"; "manual_analysis"].
Proof. vm_compute. reflexivity. Qed.

Definition scale : RecoveryActionCandidate :=
  to_candidate (default (Build_RecoveryActionSpec "" "" "" "" "" fzero "" true [] [] "" [] false "" "" "" "")
    (action_specs OomKilledRecoveryActions !! 2%nat))
    {| RecoveryPlanner.report := report; RecoveryPlanner.incident := incident; RecoveryPlanner.detail := detail |} 3.

End Sample.

Lemma planned_candidates_are_reviewable_witness :
  p_selection_required Sample.plan = true /\ c_approval_required Sample.scale = true.
Proof.
  destruct (planned_candidates_are_reviewable _ _ _ _ Sample.planned) as (Hsel & _ & Hall).
  split; [exact Hsel|]. apply Hall. apply list_elem_of_lookup_2 with 1%nat. vm_compute. reflexivity.
Defined.

Lemma plan_offers_ranked_actions_witness : NoDup (c_action_id <$> p_candidates Sample.plan).
Proof.
  destruct (plan_offers_ranked_actions _ _ _ _ Sample.planned) as (c & first & rest & _ & _ & _ & _ & Hnd & _).
  exact Hnd.
Defined.

Lemma planned_candidate_is_selectable_witness :
  exists t b s' params,
    @RecoverySelection.on_recovery_planned Demo.plain_repr ∅ (planned_obj Sample.draft Sample.plan "w-1") "c-1" 1 0
      = Ok (t, b) /\
    @RecoverySelection.select_recovery_action Demo.plain_repr coded_iso RecoveryTracking.Sample.sha
      (RecoverySelection.lift RecoverySelection.Story.s0 t) "recovery:e-1" "e-1:replica_scale" "w-1" "op"
      (fun _ => true) (Some RecoverySelection.Story.preflight) "u-1" 0 0
      = Ok (s', [RecoverySelection.ActionSelectedPublished
                   (RecoverySelection.selected_event (plan_obj Sample.plan)
                      (RecoveryDispatch.with_params
                         (RecoveryDispatch.with_params (RecoverySelection.candidate_of (candidate_obj Sample.scale))
                            RecoverySelection.Story.approved_params) params) "w-1") "op"],
            RecoverySelection.Accepted).
Proof.
  destruct (@planned_candidate_is_selectable Demo.plain_repr coded_iso RecoveryTracking.Sample.sha
    RecoverySelection.Story.s0 Sample.report Sample.draft Sample.plan "w-1" "c-1" 1 0 Sample.scale "op"
    (fun _ => true) (Some RecoverySelection.Story.preflight)
    (RecoveryDispatch.with_params (RecoverySelection.candidate_of (candidate_obj Sample.scale))
       RecoverySelection.Story.approved_params) "u-1" 0 0 Sample.planned)
    as (t & b & s' & d & Hp & Hs & _).
  - vm_compute. reflexivity.
  - apply list_elem_of_lookup_2 with 1%nat. vm_compute. reflexivity.
  - reflexivity.
  - vm_compute. reflexivity.
  - exists t, b, s', d. split; [exact Hp|exact Hs].
Defined.

End RecoveryPlanner.
