(* ===== verification/Symptom.v ===== *)
(** * From a snapshot to a symptom

    [src/src/services/ai/agent/pipeline/symptom.py]: the failure signals of a
    Kubernetes snapshot (pods, events, services with their endpoint slices),
    their order of precedence and the symptom an incident is given.  A
    snapshot is decoded JSON, so a count that is no number raises. *)
From S2P Require Import Prelude PyStr PyFloat PyVal PyTime Libs Demo ManifestEditor Signals.

Module Symptom.
Notation text_items := Signals.text_items.
Notation lower := ManifestEditor.lower.

Definition UNKNOWN_SYMPTOM : string := "unknown".

Definition SYMPTOM_IMAGE_PULL : string := "ImagePullBackOff".
Definition SYMPTOM_CRASHLOOP : string := "CrashLoopBackOff".
Definition SYMPTOM_FAILED_SCHEDULING : string := "FailedScheduling".
Definition SYMPTOM_INGRESS_5XX : string := "Ingress 502/503".
Definition SYMPTOM_READINESS_PROBE_FAILURE : string := "Readiness probe response failure".
Definition SYMPTOM_LIVENESS_PROBE_FAILURE : string := "Liveness probe response failure".
Definition SYMPTOM_STARTUP_PROBE_FAILURE : string := "Startup probe response failure".
Definition SYMPTOM_PROBE_FAILURE : string := "Probe response failure".
Definition SYMPTOM_POD_NOT_READY : string := "Pod readiness failure".
Definition SYMPTOM_SERVICE_ENDPOINTS_EMPTY : string := "Service has no ready endpoints".

Definition PRIORITY_IMAGE_PULL : Z := 1.
Definition PRIORITY_CRASHLOOP : Z := 2.
Definition PRIORITY_OOM : Z := 3.
Definition PRIORITY_SCHEDULING : Z := 4.
Definition PRIORITY_PROBE : Z := 5.
Definition PRIORITY_POD_NOT_READY : Z := 6.
Definition PRIORITY_SERVICE_ENDPOINT : Z := 7.

Definition IMAGE_PULL_WAITING_REASONS : list string :=
  ["ImagePullBackOff"; "ErrImagePull"; "InvalidImageName"; "ErrImageNeverPull"].

Definition SIGNAL_OOM_KILLED : string := "OOMKilled".
Definition SIGNAL_FAILED_SCHEDULING : string := "FailedScheduling".
Definition SIGNAL_POD_NOT_READY : string := "PodNotReady".
Definition SIGNAL_PROBE_FAILED : string := "ProbeFailed".
Definition SIGNAL_SERVICE_ENDPOINTS_EMPTY : string := "ServiceEndpointsEmpty".
(** [timedelta(minutes=10)] in microseconds. *)
Definition EVENT_SIGNAL_MAX_AGE : Z := 600 * SECOND.

Definition INCIDENT_CATEGORY_IMAGE_PULL : string := "image_pull".
Definition INCIDENT_CATEGORY_CONTAINER_RESTART : string := "container_restart".
Definition INCIDENT_CATEGORY_SCHEDULING : string := "scheduling".
Definition INCIDENT_CATEGORY_PROBE : string := "probe".
Definition INCIDENT_CATEGORY_READINESS : string := "readiness".
Definition INCIDENT_CATEGORY_SERVICE_ROUTING : string := "service_routing".

Definition SOURCE_RANK_POD : Z := 0.
Definition SOURCE_RANK_EVENT : Z := 1.
Definition SOURCE_RANK_SERVICE : Z := 2.

Record SymptomSignal := {
  signal : string;
  symptom : string;
  priority : Z;
  resource_kind : string;
  resource_name : string;
  namespace : option string;
  source_rank : Z;
  weight : Z;
}.

Record DerivedSymptom := {
  d_symptom : string;
  secondary_symptoms : list string;
  d_signal : option SymptomSignal;
}.

(** ** Precedence *)

(** [signal_sort_key]; tuples compare element by element. *)
Definition signal_sort_key (s : SymptomSignal) : Z * Z * Z * string * string :=
  (priority s, source_rank s, - weight s, resource_name s, signal s).

Definition key_leb : Z * Z * Z * string * string -> Z * Z * Z * string * string -> bool :=
  lex_leb (lex_leb (lex_leb (lex_leb Z.leb Z.leb) Z.leb) String.leb) String.leb.

Definition signal_leb (a b : SymptomSignal) : bool := key_leb (signal_sort_key a) (signal_sort_key b).

(** The labels not yet seen, [exclude] apart, in order. *)
Definition unique_signal_labels (signals : list SymptomSignal) (exclude : string) : list string :=
  unique_first (keep (fun l => negb (str_eqb l exclude)) (signal <$> signals)).

Definition incident_category_for_signal (s : option SymptomSignal) : option string :=
  match s with
  | None => None
  | Some s =>
      if bool_decide (signal s ∈ IMAGE_PULL_WAITING_REASONS) || str_eqb (signal s) SYMPTOM_IMAGE_PULL
      then Some INCIDENT_CATEGORY_IMAGE_PULL
      else if bool_decide (signal s ∈ [SYMPTOM_CRASHLOOP; SIGNAL_OOM_KILLED])
      then Some INCIDENT_CATEGORY_CONTAINER_RESTART
      else if str_eqb (signal s) SIGNAL_FAILED_SCHEDULING then Some INCIDENT_CATEGORY_SCHEDULING
      else if bool_decide (signal s ∈ [SIGNAL_PROBE_FAILED; "ReadinessProbeFailed"; "LivenessProbeFailed";
                                       "StartupProbeFailed"])
      then Some INCIDENT_CATEGORY_PROBE
      else if str_eqb (signal s) SIGNAL_POD_NOT_READY then Some INCIDENT_CATEGORY_READINESS
      else if str_eqb (signal s) SIGNAL_SERVICE_ENDPOINTS_EMPTY then Some INCIDENT_CATEGORY_SERVICE_ROUTING
      else None
  end.

Definition snapshot_items (kubernetes : dict) (key : string) : list dict :=
  Signals.dict_items (get kubernetes key).

Section symptom.
Context `{ReprLib} `{IsoTime}.

(** [str(v or "")] *)
Definition str_or_empty (v : pyval) : string := if truthy v then py_str v else "".

Definition optional_text (v : pyval) : option string := if truthy v then Some (py_str v) else None.

(** The conversion to UTC is outside the [try]. *)
Definition parse_event_time (v : pyval) : res (option Z) :=
  match v with
  | VStr s =>
      if nonempty s then
        match fromisoformat (replace_char "Z" "+00:00" s) with
        | Some m => t ← normalized_utc m; Ok (Some t)
        | None => Ok None
        end
      else Ok None
  | _ => Ok None
  end.

Definition collected_at_time (kubernetes : dict) : res (option Z) :=
  match get kubernetes "cluster" with
  | VDict cluster => parse_event_time (get cluster "collected_at")
  | _ => Ok None
  end.

(** ** Pods *)

Definition pod_resource_hint (pod : dict) : string * string :=
  match optional_text (get pod "owner_kind"), optional_text (get pod "owner_name") with
  | Some kind, Some name =>
      if nonempty kind && nonempty name then (kind, name)
      else ("Pod", py_str (Signals.or_str (get pod "name") "unknown"))
  | _, _ => ("Pod", py_str (Signals.or_str (get pod "name") "unknown"))
  end.

(** [int(v or 0)] *)
Definition int_or_zero (v : pyval) : res Z := if truthy v then py_int v else Ok 0.

Definition pod_signal (pod : dict) (label symptom : string) (priority : Z) : res SymptomSignal :=
  let '(kind, name) := pod_resource_hint pod in
  w ← int_or_zero (get pod "restart_total");
  Ok {| signal := label; symptom := symptom; priority := priority; resource_kind := kind;
        resource_name := name; namespace := optional_text (get pod "namespace");
        source_rank := SOURCE_RANK_POD; weight := w |}.

(** The first [Ready] condition decides. *)
Definition pod_not_ready (pod : dict) : res bool :=
  conditions ← Signals.iterable (get pod "conditions");
  Ok match find (fun c => str_eqb (py_str (get c "type")) "Ready") (omap as_dict conditions) with
     | Some c => negb (str_eqb (py_str (get c "status")) "True")
     | None => false
     end.

Definition waiting_signal (pod : dict) (reason : string) : res (option SymptomSignal) :=
  if bool_decide (reason ∈ IMAGE_PULL_WAITING_REASONS) then
    s ← pod_signal pod reason SYMPTOM_IMAGE_PULL PRIORITY_IMAGE_PULL; Ok (Some s)
  else if str_eqb reason SYMPTOM_CRASHLOOP then
    s ← pod_signal pod reason SYMPTOM_CRASHLOOP PRIORITY_CRASHLOOP; Ok (Some s)
  else Ok None.

(** [if c: signals.append(f())] *)
Definition when (c : bool) (m : res SymptomSignal) : res (list SymptomSignal) :=
  if c then s ← m; Ok [s] else Ok [].

Definition pod_signals (pod : dict) : res (list SymptomSignal) :=
  let phase := str_or_empty (get pod "phase") in
  waiting ← omapr (waiting_signal pod) (text_items (get pod "waiting_reasons"));
  oom ← when (bool_decide (SIGNAL_OOM_KILLED ∈ text_items (get pod "terminated_reasons")))
          (pod_signal pod SIGNAL_OOM_KILLED SYMPTOM_CRASHLOOP PRIORITY_OOM);
  pending ← when (str_eqb phase "Pending" && negb (truthy (get pod "node_name")))
              (pod_signal pod SIGNAL_FAILED_SCHEDULING SYMPTOM_FAILED_SCHEDULING PRIORITY_SCHEDULING);
  match waiting ++ oom ++ pending with
  | [] =>
      if str_eqb phase "Running" then
        not_ready ← pod_not_ready pod;
        when not_ready (pod_signal pod SIGNAL_POD_NOT_READY SYMPTOM_POD_NOT_READY PRIORITY_POD_NOT_READY)
      else Ok []
  | signals => Ok signals
  end.

(** ** Events *)

(** [next(pod for pod in pods if name and namespace agree)] *)
Definition current_pod (pods : list dict) (name : string) (ns : option string) : option dict :=
  find (fun pod => str_eqb (str_or_empty (get pod "name")) name
                   && bool_decide (optional_text (get pod "namespace") = ns)) pods.

Definition event_is_current_warning (event : dict) (collected_at : option Z) : res bool :=
  if negb (bool_decide (str_or_empty (get event "type") ∈ ["" : string; "Warning"])) then Ok false
  else
    match collected_at with
    | None => Ok true
    | Some now =>
        last_seen ← parse_event_time (if truthy (get event "last_timestamp") then get event "last_timestamp"
                                      else get event "first_timestamp");
        Ok match last_seen with
           | None => true
           | Some t => now - t <=? EVENT_SIGNAL_MAX_AGE
           end
    end.

Definition is_probe_event (event : dict) : bool :=
  str_eqb (str_or_empty (get event "reason")) "Unhealthy"
  && contains "probe" (lower (str_or_empty (get event "message"))).

Definition event_is_active_for_snapshot (event : dict) (pods : list dict) : res bool :=
  if negb (str_eqb (str_or_empty (get event "involved_kind")) "Pod") then Ok true
  else
    match current_pod pods (str_or_empty (get event "involved_name")) (optional_text (get event "namespace")) with
    | None => Ok false
    | Some pod => if is_probe_event event then pod_not_ready pod else Ok true
    end.

Definition probe_signal_label (message : string) : string :=
  if contains "readiness probe" message then "ReadinessProbeFailed"
  else if contains "liveness probe" message then "LivenessProbeFailed"
  else if contains "startup probe" message then "StartupProbeFailed"
  else SIGNAL_PROBE_FAILED.

Definition probe_failure_symptom (message : string) : string :=
  if contains "readiness probe" message then SYMPTOM_READINESS_PROBE_FAILURE
  else if contains "liveness probe" message then SYMPTOM_LIVENESS_PROBE_FAILURE
  else if contains "startup probe" message then SYMPTOM_STARTUP_PROBE_FAILURE
  else SYMPTOM_PROBE_FAILURE.

(** [pods] is empty where the caller passes none. *)
Definition event_signal (event : dict) (label symptom : string) (priority : Z) (pods : list dict)
    : res SymptomSignal :=
  let kind := py_str (Signals.or_str (get event "involved_kind") "Unknown") in
  let name := py_str (Signals.or_str (get event "involved_name") "unknown") in
  let ns := optional_text (get event "namespace") in
  let '(kind, name) :=
    if str_eqb kind "Pod" then
      match current_pod pods name ns with Some pod => pod_resource_hint pod | None => (kind, name) end
    else (kind, name) in
  w ← int_or_zero (get event "count");
  Ok {| signal := label; symptom := symptom; priority := priority; resource_kind := kind;
        resource_name := name; namespace := ns; source_rank := SOURCE_RANK_EVENT; weight := w |}.

Definition event_signals (event : dict) (pods : list dict) : res (list SymptomSignal) :=
  let reason := str_or_empty (get event "reason") in
  let message := lower (str_or_empty (get event "message")) in
  let one label symptom priority pods := when true (event_signal event label symptom priority pods) in
  if str_eqb reason "FailedScheduling" then
    one SIGNAL_FAILED_SCHEDULING SYMPTOM_FAILED_SCHEDULING PRIORITY_SCHEDULING []
  else if str_eqb reason "OOMKilling" || contains "oomkilled" message then
    one SIGNAL_OOM_KILLED SYMPTOM_CRASHLOOP PRIORITY_OOM []
  else if str_eqb reason "Failed" && (contains "pull image" message || contains "errimagepull" message) then
    one "ErrImagePull" SYMPTOM_IMAGE_PULL PRIORITY_IMAGE_PULL []
  else if str_eqb reason "BackOff" && contains "pulling image" message then
    one SYMPTOM_IMAGE_PULL SYMPTOM_IMAGE_PULL PRIORITY_IMAGE_PULL []
  else if str_eqb reason "BackOff" && contains "restarting failed container" message then
    one SYMPTOM_CRASHLOOP SYMPTOM_CRASHLOOP PRIORITY_CRASHLOOP []
  else if is_probe_event event then
    one (probe_signal_label message) (probe_failure_symptom message) PRIORITY_PROBE pods
  else Ok [].

(** ** Services *)

Definition slice_belongs_to_service (endpoint_slice service : dict) : bool :=
  let slice_name := str_or_empty (get endpoint_slice "name") in
  let service_name := str_or_empty (get service "name") in
  bool_decide (optional_text (get endpoint_slice "namespace") = optional_text (get service "namespace"))
  && nonempty slice_name && nonempty service_name
  && (str_eqb slice_name service_name || starts_with (service_name +:+ "-") slice_name).

Definition selector_matches_pod (selector pod : dict) : bool :=
  match get pod "labels" with
  | VDict labels => forallb (fun kv => str_eqb (py_str (get labels kv.1)) (py_str kv.2)) selector
  | _ => false
  end.

Definition endpoint_count (slices : list dict) : res Z :=
  counts ← mapr (fun item => int_or_zero (get item "endpoint_count")) slices;
  Ok (foldr Z.add 0 counts).

Definition service_signal (pods endpoints : list dict) (service : dict) : res (option SymptomSignal) :=
  match get service "selector" with
  | VDict ((_ :: _) as selector) =>
      match keep (fun item => slice_belongs_to_service item service) endpoints with
      | [] => Ok None
      | slices =>
          n ← endpoint_count slices;
          Ok (if 0 <? n then None
              else if existsb (selector_matches_pod selector) pods then None
              else Some {| signal := SIGNAL_SERVICE_ENDPOINTS_EMPTY; symptom := SYMPTOM_SERVICE_ENDPOINTS_EMPTY;
                           priority := PRIORITY_SERVICE_ENDPOINT; resource_kind := "Service";
                           resource_name := py_str (Signals.or_str (get service "name") "unknown");
                           namespace := optional_text (get service "namespace");
                           source_rank := SOURCE_RANK_SERVICE; weight := 0 |})
      end
  | _ => Ok None
  end.

Definition service_endpoint_signals (kubernetes : dict) : res (list SymptomSignal) :=
  omapr (service_signal (snapshot_items kubernetes "pods") (snapshot_items kubernetes "endpoints"))
    (snapshot_items kubernetes "services").

(** ** The snapshot *)

Definition current_event_signals (pods : list dict) (collected_at : option Z) (event : dict)
    : res (list SymptomSignal) :=
  current ← event_is_current_warning event collected_at;
  if negb current then Ok []
  else
    active ← event_is_active_for_snapshot event pods;
    if negb active then Ok [] else event_signals event pods.

Definition collect_signals (kubernetes : dict) : res (list SymptomSignal) :=
  let pods := snapshot_items kubernetes "pods" in
  from_pods ← mapr pod_signals pods;
  collected_at ← collected_at_time kubernetes;
  from_events ← mapr (current_event_signals pods collected_at) (snapshot_items kubernetes "events");
  from_services ← service_endpoint_signals kubernetes;
  Ok (mjoin from_pods ++ mjoin from_events ++ from_services).

Definition choose (signals : list SymptomSignal) : DerivedSymptom :=
  match isort signal_leb signals with
  | [] => {| d_symptom := UNKNOWN_SYMPTOM; secondary_symptoms := []; d_signal := None |}
  | primary :: rest =>
      {| d_symptom := symptom primary; secondary_symptoms := unique_signal_labels rest (signal primary);
         d_signal := Some primary |}
  end.

Definition derive_symptom (kubernetes : dict) : res DerivedSymptom :=
  let explicit := strip (str_or_empty (get kubernetes "symptom")) in
  if nonempty explicit then
    Ok {| d_symptom := explicit; secondary_symptoms := []; d_signal := None |}
  else signals ← collect_signals kubernetes; Ok (choose signals).

(** Kind, name and the namespace, which nothing forces to be text. *)
Definition resolve_resource (kubernetes : dict) (s : option SymptomSignal) : string * string * pyval :=
  match get kubernetes "resource" with
  | VDict ((_ :: _) as resource) =>
      (py_str (default (VStr "Unknown") (dict_get resource "kind")),
       py_str (default (VStr "unknown") (dict_get resource "name")), get resource "namespace")
  | _ =>
      match s with
      | Some s => (resource_kind s, resource_name s,
                   match namespace s with Some ns => VStr ns | None => VNone end)
      | None => ("Unknown", "unknown", VNone)
      end
  end.

(** ** What is chosen *)

Lemma signal_key_total a b : key_leb a b = true \/ key_leb b a = true.
Proof. revert a b. repeat apply lex_total; first [exact String.leb_total|intros; rewrite !Z.leb_le; lia]. Qed.

Lemma key_antisym a b : key_leb a b = true -> key_leb b a = true -> a = b.
Proof.
  revert a b. repeat apply lex_antisym; first [exact String.leb_antisym|intros ??; rewrite !Z.leb_le; lia].
Qed.

Lemma Z_leb_trans a b c : (a <=? b) = true -> (b <=? c) = true -> (a <=? c) = true.
Proof. rewrite !Z.leb_le. lia. Qed.
Lemma Z_leb_antisym a b : (a <=? b) = true -> (b <=? a) = true -> a = b.
Proof. rewrite !Z.leb_le. lia. Qed.

Lemma signal_key_trans a b c : key_leb a b = true -> key_leb b c = true -> key_leb a c = true.
Proof.
  revert a b c. repeat first [apply lex_trans|apply lex_antisym]; eauto using str_leb_trans, String.leb_antisym,
    Z_leb_trans, Z_leb_antisym.
Qed.

(** The signal that comes first, if there is one. *)
Lemma choose_first signals d :
  choose signals = d ->
  (signals = [] /\ d = {| d_symptom := UNKNOWN_SYMPTOM; secondary_symptoms := []; d_signal := None |}) \/
  exists p rest, signals ≡ₚ p :: rest /\ (forall s, s ∈ signals -> signal_leb p s = true) /\
    d = {| d_symptom := symptom p; secondary_symptoms := unique_signal_labels rest (signal p);
           d_signal := Some p |}.
Proof.
  unfold choose. pose proof (isort_perm signal_leb signals) as Hp.
  assert (StronglySorted (fun a b => signal_leb a b = true) (isort signal_leb signals)) as Hs.
  { apply isort_sorted; unfold signal_leb; eauto using signal_key_total, signal_key_trans. }
  destruct (isort signal_leb signals) as [|p rest].
  - intros <-. left. apply Permutation_nil in Hp as ->. done.
  - intros <-. right. exists p, rest. split; [done|]. split; [|done]. intros s Hin. rewrite <- Hp in Hin.
    apply StronglySorted_inv in Hs as [_ Hs]. apply elem_of_cons in Hin as [->|Hin].
    + destruct (signal_key_total (signal_sort_key p) (signal_sort_key p)); done.
    + rewrite Forall_forall in Hs. by apply Hs.
Qed.

Lemma unique_labels_spec rest x l :
  l ∈ x :: unique_signal_labels rest x <-> l = x \/ l ∈ signal <$> rest.
Proof.
  unfold unique_signal_labels. rewrite elem_of_cons, elem_of_unique_first, elem_of_keep.
  destruct (decide (l = x)) as [->|Hn]; [by intuition|].
  assert (str_eqb l x = false) as -> by (by apply bool_decide_eq_false). cbn. intuition.
Qed.

Lemma unique_labels_NoDup rest x : NoDup (x :: unique_signal_labels rest x).
Proof.
  constructor; [|apply NoDup_unique_first]. unfold unique_signal_labels.
  rewrite elem_of_unique_first, elem_of_keep, str_eqb_refl. by intros [_ ?].
Qed.

(** ** The vocabulary *)

(** Label, symptom, priority and category of every signal the detector
    makes. *)
Definition VOCABULARY : list (string * string * Z * string) :=
  ((fun r => (r, SYMPTOM_IMAGE_PULL, PRIORITY_IMAGE_PULL, INCIDENT_CATEGORY_IMAGE_PULL))
     <$> IMAGE_PULL_WAITING_REASONS) ++
  [(SYMPTOM_CRASHLOOP, SYMPTOM_CRASHLOOP, PRIORITY_CRASHLOOP, INCIDENT_CATEGORY_CONTAINER_RESTART);
   (SIGNAL_OOM_KILLED, SYMPTOM_CRASHLOOP, PRIORITY_OOM, INCIDENT_CATEGORY_CONTAINER_RESTART);
   (SIGNAL_FAILED_SCHEDULING, SYMPTOM_FAILED_SCHEDULING, PRIORITY_SCHEDULING, INCIDENT_CATEGORY_SCHEDULING);
   ("ReadinessProbeFailed", SYMPTOM_READINESS_PROBE_FAILURE, PRIORITY_PROBE, INCIDENT_CATEGORY_PROBE);
   ("LivenessProbeFailed", SYMPTOM_LIVENESS_PROBE_FAILURE, PRIORITY_PROBE, INCIDENT_CATEGORY_PROBE);
   ("StartupProbeFailed", SYMPTOM_STARTUP_PROBE_FAILURE, PRIORITY_PROBE, INCIDENT_CATEGORY_PROBE);
   (SIGNAL_PROBE_FAILED, SYMPTOM_PROBE_FAILURE, PRIORITY_PROBE, INCIDENT_CATEGORY_PROBE);
   (SIGNAL_POD_NOT_READY, SYMPTOM_POD_NOT_READY, PRIORITY_POD_NOT_READY, INCIDENT_CATEGORY_READINESS);
   (SIGNAL_SERVICE_ENDPOINTS_EMPTY, SYMPTOM_SERVICE_ENDPOINTS_EMPTY, PRIORITY_SERVICE_ENDPOINT,
    INCIDENT_CATEGORY_SERVICE_ROUTING)].

Definition known (s : SymptomSignal) : Prop :=
  exists category, (signal s, symptom s, priority s, category) ∈ VOCABULARY.

(** The category of a label alone. *)
Definition label_category (l : string) : option string :=
  incident_category_for_signal
    (Some {| signal := l; symptom := ""; priority := 0; resource_kind := ""; resource_name := "";
             namespace := None; source_rank := 0; weight := 0 |}).

Lemma vocabulary_categories :
  forallb (fun '(l, _, _, c) => bool_decide (label_category l = Some c)) VOCABULARY = true.
Proof. vm_compute. reflexivity. Qed.

Lemma known_category s :
  known s -> exists c, incident_category_for_signal (Some s) = Some c /\
    (signal s, symptom s, priority s, c) ∈ VOCABULARY.
Proof.
  intros [c Hc]. exists c. split; [|done].
  pose proof (proj1 (forallb_elem _ _) vocabulary_categories _ Hc) as E. cbn in E.
  by apply bool_decide_eq_true in E.
Qed.

(** A label and its priority determine the symptom. *)
Lemma vocabulary_functional :
  forallb (fun '(l, y, p, _) => forallb (fun '(l', y', p', _) =>
    negb (str_eqb l l' && (p =? p')) || str_eqb y y') VOCABULARY) VOCABULARY = true.
Proof. vm_compute. reflexivity. Qed.

Lemma known_symptom s s' :
  known s -> known s' -> signal s = signal s' -> priority s = priority s' -> symptom s = symptom s'.
Proof.
  intros [c Hc] [c' Hc'] Hl Hp.
  pose proof (proj1 (forallb_elem _ _) vocabulary_functional _ Hc) as E. cbv beta iota in E.
  pose proof (proj1 (forallb_elem _ _) E _ Hc') as E'. cbv beta iota in E'.
  rewrite Hl, Hp, str_eqb_refl, Z.eqb_refl in E'. by apply str_eqb_eq in E'.
Qed.

Definition made (l y : string) (p rank : Z) (s : SymptomSignal) : Prop :=
  signal s = l /\ symptom s = y /\ priority s = p /\ source_rank s = rank.

Definition in_vocabulary (l y : string) (p : Z) : bool :=
  existsb (fun '(l', y', p', _) => str_eqb l l' && str_eqb y y' && (p =? p')) VOCABULARY.

Lemma made_known l y p rank s : in_vocabulary l y p = true -> made l y p rank s -> known s /\ source_rank s = rank.
Proof.
  unfold in_vocabulary. rewrite existsb_elem. intros ([[[l' y'] p'] c] & Hc & E) (<- & <- & <- & <-).
  apply andb_true_iff in E as [[Hl%str_eqb_eq Hy%str_eqb_eq]%andb_true_iff Hp%Z.eqb_eq].
  split; [|done]. exists c. by rewrite Hl, Hy, Hp.
Qed.

Lemma pod_signal_made pod l y p s : pod_signal pod l y p = Ok s -> made l y p SOURCE_RANK_POD s.
Proof. unfold pod_signal. destruct (pod_resource_hint pod). by intros (w & _ & [= <-])%bind_Ok. Qed.

Lemma event_signal_made event l y p pods s :
  event_signal event l y p pods = Ok s -> made l y p SOURCE_RANK_EVENT s.
Proof. unfold event_signal. cbv zeta. case_match. by intros (w & _ & [= <-])%bind_Ok. Qed.

Lemma when_Ok c m l : when c m = Ok l -> forall s, s ∈ l -> c = true /\ m = Ok s.
Proof.
  destruct c; cbn; [|intros [= <-] s []%not_elem_of_nil].
  intros (s & Hm & [= <-])%bind_Ok s' ->%list_elem_of_singleton. done.
Qed.

Lemma pod_signal_known pod l y p s :
  in_vocabulary l y p = true -> pod_signal pod l y p = Ok s -> known s /\ source_rank s = SOURCE_RANK_POD.
Proof. eauto using made_known, pod_signal_made. Qed.

Lemma waiting_signal_known pod reason s :
  waiting_signal pod reason = Ok (Some s) -> known s /\ source_rank s = SOURCE_RANK_POD.
Proof.
  unfold waiting_signal. case_bool_decide as Hr.
  - intros (y & Hy & [= <-])%bind_Ok. eapply pod_signal_known, Hy.
    repeat (apply elem_of_cons in Hr as [->|Hr]; [vm_compute; reflexivity|]). by apply not_elem_of_nil in Hr.
  - destruct (str_eqb reason SYMPTOM_CRASHLOOP) eqn:E; [|done]. apply str_eqb_eq in E as ->.
    intros (y & Hy & [= <-])%bind_Ok. by eapply pod_signal_known, Hy.
Qed.

Lemma pod_signals_known pod l s : pod_signals pod = Ok l -> s ∈ l -> known s /\ source_rank s = SOURCE_RANK_POD.
Proof.
  unfold pod_signals. intros (waiting & Hw & (oom & Ho & (pending & Hp & Hl)%bind_Ok)%bind_Ok)%bind_Ok Hs.
  assert (forall x, x ∈ waiting ++ oom ++ pending -> known x /\ source_rank x = SOURCE_RANK_POD) as Hall.
  { intros x [Hx|[Hx|Hx]%elem_of_app]%elem_of_app.
    - eapply omapr_elem in Hx as (reason & _ & Hx); [by eapply waiting_signal_known|exact Hw].
    - destruct (when_Ok _ _ _ Ho _ Hx) as [_ Hy]. by eapply pod_signal_known, Hy.
    - destruct (when_Ok _ _ _ Hp _ Hx) as [_ Hy]. by eapply pod_signal_known, Hy. }
  destruct (waiting ++ oom ++ pending) as [|x k] eqn:E; [|injection Hl as <-; by apply Hall].
  destruct (str_eqb _ "Running"); [|by injection Hl as <-; apply not_elem_of_nil in Hs].
  apply bind_Ok in Hl as (b & _ & Hl). destruct (when_Ok _ _ _ Hl _ Hs) as [_ Hy]. by eapply pod_signal_known, Hy.
Qed.

(** What each branch makes; only the last one speaks of a probe. *)
Lemma event_signals_known event pods l s :
  event_signals event pods = Ok l -> s ∈ l ->
  known s /\ source_rank s = SOURCE_RANK_EVENT /\ (priority s = PRIORITY_PROBE -> is_probe_event event = true).
Proof.
  assert (forall l y p ps, in_vocabulary l y p = true -> (p = PRIORITY_PROBE -> is_probe_event event = true) ->
    forall k, when true (event_signal event l y p ps) = Ok k -> s ∈ k ->
    known s /\ source_rank s = SOURCE_RANK_EVENT /\ (priority s = PRIORITY_PROBE -> is_probe_event event = true)) as Hmade.
  { intros l0 y p ps Hv Hp k Hk Hs. destruct (when_Ok _ _ _ Hk _ Hs) as [_ Hy%event_signal_made].
    destruct (made_known _ _ _ _ _ Hv Hy). destruct Hy as (_ & _ & -> & _). done. }
  unfold event_signals. do 5 (case_match; [eapply Hmade; [vm_compute; reflexivity|intros E; discriminate E]|]).
  case_match; [|intros [= <-] []%not_elem_of_nil]. eapply Hmade; [|done].
  unfold probe_signal_label, probe_failure_symptom. repeat case_match; vm_compute; reflexivity.
Qed.

Lemma service_signal_known pods endpoints service s :
  service_signal pods endpoints service = Ok (Some s) -> known s /\ source_rank s = SOURCE_RANK_SERVICE.
Proof.
  unfold service_signal. destruct (get service _) as [| | | | | | |[|kv selector]]; try done.
  destruct (keep _ endpoints) as [|x slices]; [done|].
  intros (n & _ & E)%bind_Ok. destruct (0 <? n); [done|]. destruct (existsb _ pods); [done|].
  injection E as <-. by eapply (made_known SIGNAL_SERVICE_ENDPOINTS_EMPTY SYMPTOM_SERVICE_ENDPOINTS_EMPTY PRIORITY_SERVICE_ENDPOINT).
Qed.

(** Where the signals of a snapshot come from. *)
Lemma collect_signals_elem kubernetes signals s :
  collect_signals kubernetes = Ok signals -> s ∈ signals ->
  (exists pod l, pod ∈ snapshot_items kubernetes "pods" /\ pod_signals pod = Ok l /\ s ∈ l) \/
  (exists event now l, event ∈ snapshot_items kubernetes "events" /\ collected_at_time kubernetes = Ok now /\
     current_event_signals (snapshot_items kubernetes "pods") now event = Ok l /\ s ∈ l) \/
  (exists service, service ∈ snapshot_items kubernetes "services" /\
     service_signal (snapshot_items kubernetes "pods") (snapshot_items kubernetes "endpoints") service = Ok (Some s)).
Proof.
  unfold collect_signals. intros (ps & Hps & (now & Hnow & (es & Hes & (ss & Hss & [= <-])%bind_Ok)%bind_Ok)%bind_Ok)%bind_Ok.
  intros [(l & Hl & Hin)%list_elem_of_join|[(l & Hl & Hin)%list_elem_of_join|Hin]%elem_of_app]%elem_of_app.
  - left. eapply mapr_elem_r in Hin as (pod & Hpod & Hp); [|exact Hps]. by exists pod, l.
  - right. left. eapply mapr_elem_r in Hin as (event & He & Hp); [|exact Hes]. by exists event, now, l.
  - right. right. eapply omapr_elem in Hin as (service & Hs & Hp); [|exact Hss]. by exists service.
Qed.

Lemma current_event_inv pods now event l s :
  current_event_signals pods now event = Ok l -> s ∈ l ->
  event_is_current_warning event now = Ok true /\ event_is_active_for_snapshot event pods = Ok true /\
  event_signals event pods = Ok l.
Proof.
  unfold current_event_signals. intros (c & Hc & E)%bind_Ok Hs.
  destruct c; cbn in E; [|injection E as <-; by apply not_elem_of_nil in Hs].
  apply bind_Ok in E as (a & Ha & E). destruct a; cbn in E; [done|injection E as <-; by apply not_elem_of_nil in Hs].
Qed.

Lemma collect_signals_known kubernetes signals s :
  collect_signals kubernetes = Ok signals -> s ∈ signals -> known s.
Proof.
  intros Hc Hs. destruct (collect_signals_elem _ _ _ Hc Hs)
    as [(pod & l & _ & Hp & Hin)|[(event & now & l & _ & _ & Hp & Hin)|(service & _ & Hp)]].
  - by eapply pod_signals_known.
  - destruct (current_event_inv _ _ _ _ _ Hp Hin) as (_ & _ & Hev). by eapply event_signals_known.
  - by eapply service_signal_known.
Qed.

(** The symptom of a snapshot that names none: of all the signals found, one
    that comes first in the order of precedence stands for the incident, and
    its symptom, priority and category are those of the vocabulary.  Nothing
    is lost: the chosen label and the secondary ones are the labels of all
    signals, each once.  Without a signal the symptom is unknown. *)
Theorem derived_symptom_is_first kubernetes d :
  strip (str_or_empty (get kubernetes "symptom")) = "" -> derive_symptom kubernetes = Ok d ->
  exists signals, collect_signals kubernetes = Ok signals /\
    ((signals = [] /\ d_symptom d = UNKNOWN_SYMPTOM /\ d_signal d = None /\ secondary_symptoms d = []) \/
     exists p category, p ∈ signals /\ d_signal d = Some p /\ d_symptom d = symptom p /\
       (forall s, s ∈ signals -> key_leb (signal_sort_key p) (signal_sort_key s) = true) /\
       incident_category_for_signal (d_signal d) = Some category /\
       (signal p, d_symptom d, priority p, category) ∈ VOCABULARY /\
       NoDup (signal p :: secondary_symptoms d) /\
       (forall l, l ∈ signal p :: secondary_symptoms d <-> l ∈ signal <$> signals)).
Proof.
  unfold derive_symptom. intros ->. cbn [nonempty is_empty negb]. intros (signals & Hc & [= Hd])%bind_Ok.
  exists signals. split; [done|].
  destruct (choose_first _ _ Hd) as [[-> ->]|(p & rest & Hp & Hmin & ->)]; [by left|right].
  assert (p ∈ signals) as Hin by (rewrite Hp; set_solver).
  destruct (known_category p) as (c & Hcat & Hv); [by eapply collect_signals_known|].
  exists p, c. cbn. split_and!; try done; [apply unique_labels_NoDup|].
  intros l. rewrite unique_labels_spec, Hp. cbn. by rewrite elem_of_cons.
Qed.

(** The choice does not depend on the order in which the signals were found:
    another order gives the same symptom, category, label and resource name,
    and the same secondary labels. *)
Theorem choice_ignores_order signals signals' :
  Forall known signals -> signals ≡ₚ signals' ->
  d_symptom (choose signals) = d_symptom (choose signals') /\
  signal_sort_key <$> d_signal (choose signals) = signal_sort_key <$> d_signal (choose signals') /\
  incident_category_for_signal (d_signal (choose signals)) =
    incident_category_for_signal (d_signal (choose signals')) /\
  secondary_symptoms (choose signals) ≡ₚ secondary_symptoms (choose signals').
Proof.
  intros Hk Hperm.
  destruct (choose_first signals _ eq_refl) as [[-> ->]|(p & rest & Hp & Hmin & ->)].
  { apply Permutation_nil in Hperm as ->. done. }
  destruct (choose_first signals' _ eq_refl) as [[-> ->]|(q & rest' & Hq & Hmin' & ->)].
  { symmetry in Hperm. apply Permutation_nil in Hperm as ->. by apply Permutation_nil in Hp. }
  rewrite Forall_forall in Hk. cbn [d_symptom d_signal secondary_symptoms fmap option_fmap option_map].
  assert (p ∈ signals) as Hps by (rewrite Hp; set_solver).
  assert (q ∈ signals) as Hqs by (rewrite Hperm, Hq; set_solver).
  assert (signal_sort_key p = signal_sort_key q) as Hkey.
  { apply key_antisym; [by apply Hmin|]. apply Hmin'. by rewrite <- Hperm. }
  pose proof Hkey as [= Hpr _ _ _ Hl]. split; [|split; [by f_equal|split]].
  - apply known_symptom; auto.
  - cbn. by rewrite Hl.
  - rewrite Hl. apply (Permutation_cons_inv (a := signal q)).
    apply NoDup_Permutation; [apply unique_labels_NoDup..|].
    intros l. rewrite !unique_labels_spec.
    assert (signal <$> (p :: rest) ≡ₚ signal <$> (q :: rest')) as Hlabels
      by (by rewrite <- Hp, <- Hq, Hperm).
    cbn in Hlabels. rewrite Hl in Hlabels. apply Permutation_cons_inv in Hlabels. by rewrite Hlabels.
Qed.

(** A signal of an event is about something present.  It comes from a warning
    that is not older than ten minutes, and when the warning is about a pod,
    that pod is in the snapshot; a failing probe counts only while the pod is
    not ready. *)
Theorem event_signals_are_live kubernetes signals s :
  collect_signals kubernetes = Ok signals -> s ∈ signals -> source_rank s = SOURCE_RANK_EVENT ->
  exists event, event ∈ snapshot_items kubernetes "events" /\
    str_or_empty (get event "type") ∈ ["" : string; "Warning"] /\
    (forall now t, collected_at_time kubernetes = Ok (Some now) ->
       parse_event_time (if truthy (get event "last_timestamp") then get event "last_timestamp"
                         else get event "first_timestamp") = Ok (Some t) ->
       now - t <= EVENT_SIGNAL_MAX_AGE) /\
    (str_or_empty (get event "involved_kind") = "Pod" ->
     exists pod, pod ∈ snapshot_items kubernetes "pods" /\
       str_or_empty (get pod "name") = str_or_empty (get event "involved_name") /\
       optional_text (get pod "namespace") = optional_text (get event "namespace") /\
       (priority s = PRIORITY_PROBE -> pod_not_ready pod = Ok true)).
Proof.
  intros Hc Hs Hrank. destruct (collect_signals_elem _ _ _ Hc Hs)
    as [(pod & l & _ & Hp & Hin)|[(event & now & l & He & Hnow & Hp & Hin)|(service & _ & Hp)]].
  { destruct (pod_signals_known _ _ _ Hp Hin) as [_ E]. rewrite E in Hrank. discriminate Hrank. }
  2: { destruct (service_signal_known _ _ _ _ Hp) as [_ E]. rewrite E in Hrank. discriminate Hrank. }
  destruct (current_event_inv _ _ _ _ _ Hp Hin) as (Hcur & Hact & Hev).
  destruct (event_signals_known _ _ _ _ Hev Hin) as (_ & _ & Hprobe).
  exists event. split; [done|]. unfold event_is_current_warning in Hcur.
  case_bool_decide as Htype; [|done]. cbn in Hcur. split; [done|]. split.
  - intros t0 t Hnow' Ht. rewrite Hnow in Hnow'. injection Hnow' as ->. rewrite Ht in Hcur. cbn in Hcur.
    injection Hcur as Hcur. lia.
  - intros Hkind. unfold event_is_active_for_snapshot in Hact. rewrite Hkind in Hact. cbn in Hact.
    destruct (current_pod _ _ _) as [pod|] eqn:Hpod; [|done]. apply find_some in Hpod as [Hpin Hpod].
    apply andb_true_iff in Hpod as [Hn%str_eqb_eq Hns%bool_decide_eq_true].
    exists pod. apply list_elem_of_In in Hpin. split_and!; try done.
    intros Hpr%Hprobe. by rewrite Hpr in Hact.
Qed.
End symptom.

(** ** A snapshot *)
Module Sample.
#[local] Existing Instance Demo.plain_repr.
#[local] Existing Instance coded_iso.

Definition pod (name reason : string) (restarts : Z) (ready : string) : dict :=
  [("name", VStr name); ("namespace", VStr "shop"); ("owner_kind", VStr "ReplicaSet");
   ("owner_name", VStr "orders-7d9"); ("phase", VStr "Running"); ("restart_total", VInt restarts);
   ("waiting_reasons", VList [VStr reason]); ("terminated_reasons", VList [VStr "OOMKilled"]);
   ("conditions", VList [VDict [("type", VStr "Ready"); ("status", VStr ready)]])].
Definition event (name : string) : dict :=
  [("type", VStr "Warning"); ("reason", VStr "Unhealthy"); ("involved_kind", VStr "Pod");
   ("involved_name", VStr name); ("namespace", VStr "shop"); ("count", VInt 3);
   ("message", VStr "Readiness probe failed: HTTP 503")].
Definition snapshot : dict :=
  [("pods", VList [VDict (pod "orders-7d9-a" "CrashLoopBackOff" 4 "False");
                   VDict (pod "orders-7d9-b" "Completed" 9 "True")]);
   ("events", VList [VDict (event "orders-7d9-a"); VDict (event "orders-7d9-b"); VDict (event "orders-gone")])].
Definition probe : SymptomSignal :=
  {| signal := "ReadinessProbeFailed"; symptom := SYMPTOM_READINESS_PROBE_FAILURE; priority := PRIORITY_PROBE;
     resource_kind := "ReplicaSet"; resource_name := "orders-7d9"; namespace := Some "shop";
     source_rank := SOURCE_RANK_EVENT; weight := 3 |}.
Definition crash : SymptomSignal :=
  {| signal := SYMPTOM_CRASHLOOP; symptom := SYMPTOM_CRASHLOOP; priority := PRIORITY_CRASHLOOP;
     resource_kind := "ReplicaSet"; resource_name := "orders-7d9"; namespace := Some "shop";
     source_rank := SOURCE_RANK_POD; weight := 4 |}.
Definition oom (restarts : Z) : SymptomSignal :=
  {| signal := SIGNAL_OOM_KILLED; symptom := SYMPTOM_CRASHLOOP; priority := PRIORITY_OOM;
     resource_kind := "ReplicaSet"; resource_name := "orders-7d9"; namespace := Some "shop";
     source_rank := SOURCE_RANK_POD; weight := restarts |}.

(** Only the probe of the pod that is not ready counts. *)
Example found : collect_signals snapshot = Ok [crash; oom 4; oom 9; probe].
Proof. vm_compute. reflexivity. Qed.
Example derived :
  derive_symptom snapshot = Ok {| d_symptom := SYMPTOM_CRASHLOOP;
    secondary_symptoms := ["OOMKilled"; "ReadinessProbeFailed"]; d_signal := Some crash |}.
Proof. vm_compute. reflexivity. Qed.

Lemma derived_symptom_is_first_witness :
  exists signals, collect_signals snapshot = Ok signals /\ signals <> [].
Proof.
  destruct (derived_symptom_is_first snapshot _ eq_refl derived) as (signals & Hs & [(_ & E & _)|(p & c & Hp & _)]);
    [vm_compute in E; discriminate E|].
  exists signals. split; [exact Hs|]. intros ->. by apply not_elem_of_nil in Hp.
Defined.

Lemma choice_ignores_order_witness :
  d_symptom (choose [probe; oom 9; crash]) = d_symptom (choose [crash; probe; oom 9]).
Proof.
  refine (proj1 (choice_ignores_order _ _ _ _)).
  - repeat (apply Forall_cons; split;
      [refine (proj1 (made_known _ _ _ _ _ _ (conj eq_refl (conj eq_refl (conj eq_refl eq_refl))))); reflexivity|]).
    apply Forall_nil. exact I.
  - apply (Permutation_app_comm [probe; oom 9] [crash]).
Defined.

Lemma event_signals_are_live_witness :
  exists event, event ∈ snapshot_items snapshot "events" /\
    str_or_empty (get event "type") ∈ ["" : string; "Warning"].
Proof.
  destruct (event_signals_are_live snapshot _ probe found) as (e & He & Ht & _).
  - do 3 apply list_elem_of_further. apply list_elem_of_here.
  - reflexivity.
  - exists e. split; [exact He|exact Ht].
Defined.
End Sample.
End Symptom.
