(* ===== verification/EvidenceBundle.v ===== *)
(** * Evidence bundles

    [src/src/services/ai/agent/pipeline/evidence.py] and
    [pipeline/evidence_bundle.py]: the evidence built from what an agent
    collected, and the bundle an incident is analysed on, with the selection
    of what belongs to the incident, the bounds on its size and the redaction
    of sensitive changes.  Payloads are decoded JSON. *)
From S2P Require Import Prelude PyStr PyFloat PyVal PyTime Libs Demo Signals CauseEngine Symptom.

Module EvidenceBundle.
Notation str_or_empty := Symptom.str_or_empty.

Definition EVIDENCE_LINEAGE_KEY : string := "_lineage".
Definition EVIDENCE_SOURCE_SCHEMA_VERSION : Z := 1.
Definition SERVICE_NAME : string := "cluster-agent".
Definition COLLECTOR_VERSION_ENV : string := "EVIDENCE_COLLECTOR_VERSION".
Definition GIT_SHA_ENV : string := "GIT_SHA".
Definition IMAGE_TAG_ENV : string := "IMAGE_TAG".
Definition OBJECT_REF_PREFIX : string := "object://evidence".

Definition SENSITIVE_CHANGE_TOKENS : list string :=
  ["secret"; "token"; "password"; "credential"; "private"; "key"].

Definition REDACTED_CHANGE_VALUE : string := "redacted".
Definition MAX_KUBERNETES_PODS : nat := 16.
Definition MAX_KUBERNETES_EVENTS : nat := 24.
Definition MAX_KUBERNETES_NODES : nat := 12.
Definition MAX_LOG_ENTRIES : nat := 8.
Definition MAX_LOG_STREAMS : nat := 4.
Definition MAX_LOG_VALUES : nat := 20.
Definition MAX_LOG_TRACE_IDS : nat := 20.
Definition MAX_TEXT_LENGTH : nat := 1600.
Definition MAX_METRIC_RESULTS : nat := 12.
Definition MAX_METRIC_SERIES : nat := 8.
Definition MAX_TRACE_RESULTS : nat := 12.
Definition MAX_ALERTMANAGER_ALERTS : nat := 8.
Definition COLLECTION_STATUS_METADATA_KEY : string := "collection_status".
Definition COLLECTION_PROVIDERS_KEY : string := "providers".
Definition COLLECTION_UNAVAILABLE_STATES : list string := ["unavailable"; "not_queried"].
Definition NO_PROVIDER_RESULTS_REASON : string := "no_provider_results".
Definition LOG_STREAM_NAMESPACE_LABELS : list string := ["k8s_namespace_name"; "namespace"].
Definition LOG_STREAM_POD_LABELS : list string := ["k8s_pod_name"; "pod"; "pod_name"; "kubernetes_pod_name"].
Definition LOG_ENTRY_NAMESPACE_KEYS : list string := ["namespace"; "k8s_namespace_name"].
Definition LOG_ENTRY_POD_KEYS : list string := ["pod"; "k8s_pod_name"; "pod_name"; "kubernetes_pod_name"].

(** ** Data *)

(** The fields of the body that are read. *)
Record ClusterEvidenceReceivedBody := {
  ce_cluster_id : string;
  ce_kubernetes : dict;
  ce_metrics : dict;
  ce_logs : list pyval;
  ce_traces : dict;
  ce_workspace_id : string;
  ce_agent_id : option string;
  ce_source_id : option string;
  ce_window_start : option string;
  ce_evidence_key : option string;
  ce_collection_status : dict;
  ce_metadata : dict;
}.

Record Evidence := {
  cluster_id : string;
  kubernetes : dict;
  metrics : dict;
  logs : list pyval;
  traces : dict;
  object_ref : string;
  metadata : dict;
  workspace_id : string;
}.

Inductive EvidenceSource :=
  | Collected (evt : ClusterEvidenceReceivedBody)
  | Built (evt : Evidence).

Definition src_kubernetes (e : EvidenceSource) : dict :=
  match e with Collected e => ce_kubernetes e | Built e => kubernetes e end.
Definition src_metrics (e : EvidenceSource) : dict :=
  match e with Collected e => ce_metrics e | Built e => metrics e end.
Definition src_logs (e : EvidenceSource) : list pyval :=
  match e with Collected e => ce_logs e | Built e => logs e end.
Definition src_traces (e : EvidenceSource) : dict :=
  match e with Collected e => ce_traces e | Built e => traces e end.
Definition src_metadata (e : EvidenceSource) : dict :=
  match e with Collected e => ce_metadata e | Built e => metadata e end.

(** [v in (None, "", [], {})], [v in (None, "", [])] and [v in (None, "")] *)
Definition blank (v : pyval) : bool :=
  match v with VNone | VStr EmptyString | VList [] | VDict [] => true | _ => false end.
Definition blank_item (v : pyval) : bool :=
  match v with VNone | VStr EmptyString | VList [] => true | _ => false end.
Definition blank_text (v : pyval) : bool :=
  match v with VNone | VStr EmptyString => true | _ => false end.

Definition opt_str (o : option string) : pyval := match o with Some s => VStr s | None => VNone end.

(** [d.setdefault(k, v)] *)
Definition setdefault (d : dict) (k : string) (v : pyval) : dict :=
  if has_key d k then d else dict_set d k v.

(** A dictionary comprehension over the items of a dictionary. *)
Definition filter_items (p : string -> pyval -> bool) (d : dict) : dict := keep (fun kv => p kv.1 kv.2) d.

(** [for key in keys: item = d.get(key); if item not blank: value[key] = item] *)
Definition pick (blank : pyval -> bool) (keys : list string) (d : dict) : dict :=
  omap (fun k => if blank (get d k) then None else Some (k, get d k)) keys.

(** ** Building evidence *)

Section build.
(** [environ.get] *)
Context (environ : string -> option string).

Definition env_or (k : string) (fallback : string) : string :=
  match environ k with Some s => if nonempty s then s else fallback | None => fallback end.
Definition collector_version : string :=
  env_or COLLECTOR_VERSION_ENV (env_or GIT_SHA_ENV (env_or IMAGE_TAG_ENV "unknown")).

Definition lineage_for (evt : ClusterEvidenceReceivedBody) (source : string) : dict :=
  filter_items (fun _ v => negb (is_none v))
    [("schema_version", VInt EVIDENCE_SOURCE_SCHEMA_VERSION); ("source", VStr source);
     ("collector", VStr SERVICE_NAME); ("collector_version", VStr collector_version);
     ("workspace_id", VStr (ce_workspace_id evt)); ("cluster_id", VStr (ce_cluster_id evt));
     ("agent_id", opt_str (ce_agent_id evt)); ("source_id", opt_str (ce_source_id evt));
     ("window_start", opt_str (ce_window_start evt)); ("evidence_key", opt_str (ce_evidence_key evt))].

Definition with_lineage (payload lineage : dict) : dict :=
  match payload with
  | [] => payload
  | _ =>
      dict_set payload EVIDENCE_LINEAGE_KEY
        (VDict (match get payload EVIDENCE_LINEAGE_KEY with
                | VDict current => dict_update lineage current
                | _ => lineage
                end))
  end.

Definition build_evidence (evt : ClusterEvidenceReceivedBody) (correlation_id : string) : Evidence :=
  let metadata :=
    match ce_collection_status evt with
    | [] => ce_metadata evt
    | status => dict_set (ce_metadata evt) "collection_status" (VDict status)
    end in
  {| cluster_id := ce_cluster_id evt;
     kubernetes := with_lineage (ce_kubernetes evt) (lineage_for evt "kubernetes");
     metrics := with_lineage (ce_metrics evt) (lineage_for evt "metrics");
     logs := (fun entry => VDict (with_lineage entry (lineage_for evt "logs"))) <$> omap as_dict (ce_logs evt);
     traces := with_lineage (ce_traces evt) (lineage_for evt "traces");
     object_ref := OBJECT_REF_PREFIX +:+ "/" +:+ correlation_id +:+ ".json";
     metadata := with_lineage metadata (lineage_for evt "metadata");
     workspace_id := ce_workspace_id evt |}.
End build.

Section bundle.
Context `{ReprLib} `{IsoTime}.

(** ** References *)

Definition compact_reference_payload (payload : dict) : dict :=
  (match get payload EVIDENCE_LINEAGE_KEY with
   | VDict lineage => [(EVIDENCE_LINEAGE_KEY, VDict lineage)]
   | _ => []
   end) ++
  (match get payload "cluster" with
   | VDict cluster => [("cluster", VDict (pick is_none ["cluster_id"; "namespace"; "collected_at"] cluster))]
   | _ => []
   end).

Definition compact_evidence_reference (e : Evidence) : Evidence :=
  {| cluster_id := cluster_id e; kubernetes := compact_reference_payload (kubernetes e);
     metrics := compact_reference_payload (metrics e); logs := [];
     traces := compact_reference_payload (traces e); object_ref := object_ref e;
     metadata := compact_reference_payload (metadata e); workspace_id := workspace_id e |}.

Definition evidence_ref_for (evt : EvidenceSource) (source name : string) : string :=
  let base_ref :=
    match evt with
    | Built e => object_ref e
    | Collected e =>
        match ce_evidence_key e with
        | Some (String _ _ as k) => k
        | _ => "cluster:" +:+ ce_workspace_id e +:+ ":" +:+ ce_cluster_id e
        end
    end in
  base_ref +:+ "#" +:+ source +:+ ":" +:+ name.

Definition source_check_id (source name : string) : string := "evidence:" +:+ source +:+ ":" +:+ name.
Definition source_query (source name : string) : string := source +:+ "." +:+ name.

Definition source_payload (evt : EvidenceSource) (source : string) : pyval :=
  if str_eqb source "kubernetes" then VDict (src_kubernetes evt)
  else if str_eqb source "metrics" then VDict (src_metrics evt)
  else if str_eqb source "logs" then VList (src_logs evt)
  else if str_eqb source "traces" then VDict (src_traces evt)
  else if str_eqb source "metadata" then VDict (src_metadata evt)
  else VDict [].

Definition enrich_lineage_from_payload (lineage : dict) (source : string) (payload : dict) : dict :=
  let lineage :=
    if str_eqb source "kubernetes" then
      match get payload "cluster" with
      | VDict cluster => setdefault lineage "collected_at" (get cluster "collected_at")
      | _ => lineage
      end
    else lineage in
  if bool_decide (source ∈ ["metrics"; "traces"]) then
    match get payload "results" with
    | VDict results =>
        setdefault
          (setdefault (setdefault lineage "query_names" (VList (VStr <$> isort String.leb results.*1)))
             "query_count" (VInt (Z.of_nat (length results))))
          "source_version" (get payload "source")
    | _ => lineage
    end
  else lineage.

Definition enrich_lineage_from_logs (lineage : dict) (entries : list pyval) : dict :=
  let dicts := omap as_dict entries in
  let query_names := isort String.leb (unique_first
    (omap (fun e => if truthy (get e "query_name") then Some (py_str (get e "query_name")) else None) dicts)) in
  let lineage :=
    match query_names with
    | [] => lineage
    | _ => setdefault (setdefault lineage "query_names" (VList (VStr <$> query_names)))
             "query_count" (VInt (Z.of_nat (length query_names)))
    end in
  match find (fun e => truthy (get e "source")) dicts with
  | Some e => setdefault lineage "source_version" (get e "source")
  | None => lineage
  end.

Definition lineage_from_source_payload (evt : EvidenceSource) (source : string) : dict :=
  match source_payload evt source with
  | VDict payload =>
      enrich_lineage_from_payload (mapping (get payload EVIDENCE_LINEAGE_KEY)) source payload
  | VList entries =>
      if str_eqb source "logs" then
        let own := find (fun e => is_mapping (get e EVIDENCE_LINEAGE_KEY)) (omap as_dict entries) in
        enrich_lineage_from_logs
          (match own with Some e => mapping (get e EVIDENCE_LINEAGE_KEY) | None => [] end) entries
      else []
  | _ => []
  end.

Definition item_lineage (evt : EvidenceSource) (source name check_id query : string) : dict :=
  filter_items (fun _ v => negb (blank_item v))
    (dict_update
       [("schema_version", VInt EVIDENCE_SOURCE_SCHEMA_VERSION); ("source", VStr source); ("name", VStr name);
        ("check_id", VStr check_id); ("query", VStr query)]
       (lineage_from_source_payload evt source)).

Definition with_item_lineage (value lineage : dict) : dict :=
  dict_set value EVIDENCE_LINEAGE_KEY
    (VDict (match get value EVIDENCE_LINEAGE_KEY with
            | VDict current => dict_update lineage current
            | _ => lineage
            end)).

Definition evidence_item (evt : EvidenceSource) (source name : string) (value : dict) (summary : string)
    : Signals.EvidenceItem :=
  let check_id := source_check_id source name in
  let query := source_query source name in
  {| Signals.source := source; Signals.name := name;
     Signals.value := with_item_lineage value (item_lineage evt source name check_id query);
     Signals.summary := summary; Signals.evidence_ref := evidence_ref_for evt source name;
     Signals.check_id := check_id; Signals.query := Some query |}.

(** ** What was collected *)

Definition evidence_collection_status (evt : EvidenceSource) : dict :=
  match evt with
  | Collected e => ce_collection_status e
  | Built e => mapping (get (metadata e) COLLECTION_STATUS_METADATA_KEY)
  end.

Definition provider_collection_status (evt : EvidenceSource) (source : string) : dict :=
  mapping (get (mapping (get (evidence_collection_status evt) COLLECTION_PROVIDERS_KEY)) source).

(** [v in states], for a set of strings: an unhashable value raises. *)
Definition in_states (v : pyval) (states : list string) : res bool :=
  match v with
  | VStr s => Ok (bool_decide (s ∈ states))
  | VList _ | VDict _ => Err TypeError
  | _ => Ok false
  end.

Definition has_results (payload : dict) : bool :=
  match get payload "results" with VDict (_ :: _) => true | _ => false end.

Definition speaks_of_results (payload : dict) (source : string) : bool :=
  py_eqb (get payload "source") (VStr source) || has_key payload "results".

Definition source_evidence_available (evt : EvidenceSource) (source : string) : res bool :=
  down ← in_states (get (provider_collection_status evt source) "status") COLLECTION_UNAVAILABLE_STATES;
  if down : bool then Ok false
  else
    Ok match source_payload evt source with
       | VList l => str_eqb source "logs" && negb (bool_decide (l = []))
       | VDict payload =>
           if str_eqb source "metrics"
              && match get payload "alertmanager" with VDict (_ :: _) => true | _ => false end
           then true
           else if str_eqb source "metrics" && speaks_of_results payload "prometheus"
           then has_results payload
           else if str_eqb source "traces" && speaks_of_results payload "tempo" then has_results payload
           else existsb (fun kv => negb (str_eqb kv.1 EVIDENCE_LINEAGE_KEY) && negb (blank kv.2)) payload
       | _ => false
       end.

Definition legacy_empty_telemetry_source (evt : EvidenceSource) (source : string) : bool :=
  if negb (bool_decide (source ∈ ["metrics"; "traces"])) then false
  else
    match source_payload evt source with
    | VDict payload =>
        speaks_of_results payload (if str_eqb source "metrics" then "prometheus" else "tempo")
        && match get payload "results" with VDict [] => true | _ => false end
    | _ => false
    end.

Definition missing_source_check (evt : EvidenceSource) (source : string) : Signals.MissingEvidenceCheck :=
  let status := provider_collection_status evt source in
  let state := str_or_empty (get status "status") in
  let reason_codes :=
    match get status "reason_codes" with VList l => keep nonempty (omap as_str l) | _ => [] end in
  let '(check_status, reason) :=
    if bool_decide (state ∈ COLLECTION_UNAVAILABLE_STATES) || str_eqb state "partial" then
      (state, source +:+ " evidence collection is " +:+ state
              +:+ (match reason_codes with [] => "" | _ => " (" +:+ join ", " reason_codes +:+ ")" end) +:+ ".")
    else if legacy_empty_telemetry_source evt source then
      ("unavailable", source +:+ " evidence collection is unavailable (" +:+ NO_PROVIDER_RESULTS_REASON +:+ ").")
    else ("missing", source +:+ " evidence query/check must complete before RCA can be finalized.") in
  {| Signals.mc_check_id := "evidence:" +:+ source +:+ ":required"; Signals.mc_source := source;
     Signals.mc_status := check_status; Signals.mc_reason := reason |}.

Definition missing_source_checks (missing : list string) (evt : EvidenceSource)
    : list Signals.MissingEvidenceCheck := missing_source_check evt <$> missing.

(** ** Logs of the incident *)

(** [next((str(d[k]) for k in keys if d.get(k) is not None), None)] *)
Definition first_label (keys : list string) (d : dict) : option string :=
  match find (fun k => negb (is_none (get d k))) keys with
  | Some k => Some (py_str (get d k))
  | None => None
  end.

Definition first_present_string (payload : dict) (keys : list string) : option string :=
  match find (fun k => negb (blank_text (get payload k))) keys with
  | Some k => Some (py_str (get payload k))
  | None => None
  end.

(** [s == namespace] for a text that may be absent. *)
Definition is_namespace (s : option string) (namespace : pyval) : bool := py_eqb (opt_str s) namespace.

Definition stream_matches_namespace (stream : dict) (namespace : pyval) : bool :=
  match get stream "stream" with
  | VDict labels =>
      match first_label LOG_STREAM_NAMESPACE_LABELS labels with
      | Some s => py_eqb (VStr s) namespace
      | None => true
      end
  | _ => true
  end.

Definition pod_in (pod : option string) (pod_names : list string) : bool :=
  match pod with Some s => bool_decide (s ∈ pod_names) | None => false end.

Definition stream_matches_incident_scope (stream : dict) (namespace : pyval) (pod_names : option (list string))
    : bool :=
  match pod_names with
  | None => negb (truthy namespace) || stream_matches_namespace stream namespace
  | Some names =>
      if negb (truthy namespace) || bool_decide (names = []) then false
      else
        match get stream "stream" with
        | VDict labels =>
            is_namespace (first_label LOG_STREAM_NAMESPACE_LABELS labels) namespace
            && pod_in (first_label LOG_STREAM_POD_LABELS labels) names
        | _ => false
        end
  end.

Definition matched_entry_matches_incident_scope (entry : dict) (namespace : pyval)
    (pod_names : option (list string)) : bool :=
  let entry_namespace := first_present_string entry LOG_ENTRY_NAMESPACE_KEYS in
  match pod_names with
  | None => negb (truthy namespace) || bool_decide (entry_namespace = None) || is_namespace entry_namespace namespace
  | Some names =>
      if negb (truthy namespace) || bool_decide (names = []) then false
      else is_namespace entry_namespace namespace && pod_in (first_present_string entry LOG_ENTRY_POD_KEYS) names
  end.

Definition select_incident_matched_entries (entry : dict) (namespace : pyval) (pod_names : option (list string))
    : option (list dict) :=
  match get entry "matched_entries" with
  | VList l => Some (keep (fun e => matched_entry_matches_incident_scope e namespace pod_names) (omap as_dict l))
  | _ => None
  end.

(** [isinstance(v, int)]: a boolean is an integer. *)
Definition as_integer (v : pyval) : option Z :=
  match v with VInt z => Some z | VBool b => Some (if b then 1 else 0) | _ => None end.

Definition count_step (counts : list (string * Z)) (kv : string * pyval) : list (string * Z) :=
  match as_integer kv.2 with
  | Some n => dict_set counts kv.1 (default 0 (dict_get counts kv.1) + n)
  | None => counts
  end.

Definition summed_stream_counts (streams : list dict) (key : string) (base_counts : pyval) : option dict :=
  let base := match base_counts with
              | VDict d => omap (fun kv => (fun _ => (kv.1, 0)) <$> as_integer kv.2) d
              | _ => []
              end in
  match omap (fun s => as_dict (get s key)) streams with
  | [] => None
  | found => Some ((fun kv => (kv.1, VInt kv.2)) <$> foldl (foldl count_step) base found)
  end.

(** One trace id: kept when it is new and there is room. *)
Definition trace_step (ids : list string) (v : pyval) : list string :=
  let id := py_str v in
  if nonempty id && negb (bool_decide (id ∈ ids)) && (length ids <? MAX_LOG_TRACE_IDS)%nat then ids ++ [id] else ids.

Definition selected_stream_trace_ids (streams : list dict) : option (list string) :=
  match omap (fun s => as_list (get s "trace_ids")) streams with
  | [] => None
  | found => Some (foldl (foldl trace_step) [] found)
  end.

Definition set_some (d : dict) (k : string) (o : option pyval) : dict :=
  match o with Some v => dict_set d k v | None => d end.

Definition apply_scoped_log_summaries (entry : dict) (streams : list dict) : dict :=
  let entry := set_some entry "pattern_counts"
                 (VDict <$> summed_stream_counts streams "pattern_counts" (get entry "pattern_counts")) in
  let entry := set_some entry "severity_counts"
                 (VDict <$> summed_stream_counts streams "severity_counts" (get entry "severity_counts")) in
  set_some entry "trace_ids" ((fun ids => VList (VStr <$> ids)) <$> selected_stream_trace_ids streams).

(** [len(v or [])] *)
Definition len_or_empty (v : pyval) : res Z :=
  if truthy v then
    match v with
    | VList l => Ok (Z.of_nat (length l))
    | VDict d => Ok (Z.of_nat (length d))
    | VStr s => Ok (Z.of_nat (str_len s))
    | _ => Err TypeError
    end
  else Ok 0.

Definition select_log_entry (namespace : pyval) (pod_names : option (list string)) (entry : pyval)
    : res (option pyval) :=
  match entry with
  | VDict d =>
      match get d "streams" with
      | VList streams =>
          match keep (fun s => stream_matches_incident_scope s namespace pod_names) (omap as_dict streams) with
          | [] => Ok None
          | kept =>
              counts ← mapr (fun s => len_or_empty (get s "values")) kept;
              let selected := dict_set (dict_set d "streams" (VList (VDict <$> kept))) "line_count"
                                (VInt (foldr Z.add 0 counts)) in
              let selected := set_some selected "matched_entries"
                ((fun l => VList (VDict <$> l)) <$> select_incident_matched_entries d namespace pod_names) in
              Ok (Some (VDict (apply_scoped_log_summaries selected kept)))
          end
      | _ => Ok (match pod_names with None => Some entry | Some _ => None end)
      end
  | _ => Ok None
  end.

Definition select_incident_log_entries (logs : list pyval) (namespace : pyval) (pod_names : option (list string))
    : res (list pyval) :=
  if negb (truthy namespace) && bool_decide (pod_names = None) then Ok logs
  else omapr (select_log_entry namespace pod_names) logs.

(** ** Changes *)

Definition CHANGE_CONTEXT_KEYS : list string := ["recent_changes"; "gitops"; "image"; "rollout"; "config"; "risk"].

Definition change_context_payload (metadata : dict) : dict :=
  match get metadata "change_context" with
  | VDict raw => raw
  | _ => if existsb (has_key metadata) CHANGE_CONTEXT_KEYS then metadata else []
  end.

Definition is_sensitive_change (change : dict) : bool :=
  let text := casefold (join " " ((fun k => str_or_empty (get change k))
                <$> ["change_type"; "target_resource"; "field"; "source"])) in
  existsb (fun token => contains token text) SENSITIVE_CHANGE_TOKENS.

Definition redact (change : dict) (key : string) : dict :=
  if has_key change key && negb (blank_text (get change key))
  then dict_set change key (VStr REDACTED_CHANGE_VALUE) else change.

Definition sanitize_recent_change (change : dict) : dict :=
  if is_sensitive_change change then foldl redact change ["before"; "after"] else change.

Definition sanitize_change_context (value : dict) : dict :=
  match get value "recent_changes" with
  | VList l => dict_set value "recent_changes" (VList ((fun c => VDict (sanitize_recent_change c)) <$> omap as_dict l))
  | _ => value
  end.

Definition has_change_context (value : dict) : bool :=
  existsb (fun k => match get value k with VList (_ :: _) | VDict (_ :: _) => true | _ => false end)
    CHANGE_CONTEXT_KEYS.

Definition collect_change_context (evt : EvidenceSource) (resource_kind resource_name : string) (namespace : pyval)
    : option dict :=
  match change_context_payload (src_metadata evt) with
  | [] => None
  | payload =>
      let value := setdefault (sanitize_change_context payload) "resource"
        (VDict [("namespace", namespace); ("workload_kind", VStr resource_kind);
                ("workload_name", VStr resource_name)]) in
      if has_change_context value then Some value else None
  end.

(** ** Lists promoted from the metadata *)

(** [metadata.get(key)], or the same key of its change context, when it is of
    the expected type. *)
Definition metadata_value {A} (as_type : pyval -> option A) (metadata : dict) (key : string) : option A :=
  match as_type (get metadata key) with
  | Some a => Some a
  | None =>
      match get metadata "change_context" with
      | VDict context => as_type (get context key)
      | _ => None
      end
  end.

Definition metadata_collection_limit (metadata : dict) (key : string) : dict :=
  match metadata_value as_dict metadata "collection_limits" with
  | Some limits => mapping (get (mapping (get limits "lists")) key)
  | None => []
  end.

Definition attach_collection_limit (payload metadata : dict) (key : string) : dict :=
  match metadata_collection_limit metadata key with
  | [] => payload
  | limit => dict_set payload "collection_limit" (VDict limit)
  end.

Definition metadata_list_payload (metadata : dict) (key : string) : dict :=
  match metadata_value as_list metadata key with
  | Some raw =>
      match keep (fun d => negb (bool_decide (d = []))) (omap as_dict raw) with
      | [] => []
      | items => attach_collection_limit [("items", VList (VDict <$> items))] metadata key
      end
  | None => []
  end.

Definition current_workload_snapshots_payload (metadata : dict) : dict :=
  metadata_list_payload metadata "current_workload_snapshots".

Definition nonempty_dict (v : pyval) : option dict :=
  match v with VDict ((_ :: _) as d) => Some d | _ => None end.

Definition current_workload_snapshot_payload (metadata : dict) : dict :=
  default [] (metadata_value nonempty_dict metadata "current_workload_snapshot").

(** ** Compaction *)

Definition same_namespace (namespace : pyval) (item : dict) : bool :=
  negb (truthy namespace) || is_none (get item "namespace") || py_eqb (get item "namespace") namespace.

(** The items of one kind in the namespace. *)
Definition in_namespace (kubernetes : dict) (key : string) (namespace : pyval) : list dict :=
  keep (same_namespace namespace) (Symptom.snapshot_items kubernetes key).

Definition pod_is_related (resource_name : string) (pod : dict) : bool :=
  str_eqb (str_or_empty (get pod "name")) resource_name
  || str_eqb (str_or_empty (get pod "owner_name")) resource_name
  || ends_with ("/" +:+ resource_name) (str_or_empty (get pod "workload_key")).

(** [selected or fallback] *)
Definition or_list {A} (selected fallback : list A) : list A :=
  match selected with [] => fallback | _ => selected end.

Definition select_related_pods (kubernetes : dict) (namespace : pyval) (resource_name : string) : list dict :=
  let pods := in_namespace kubernetes "pods" namespace in
  or_list (keep (pod_is_related resource_name) pods) (take MAX_KUBERNETES_PODS pods).

Definition select_related_events (kubernetes : dict) (namespace : pyval) (resource_name : string)
    (selected_pod_names : list string) : list dict :=
  let events := in_namespace kubernetes "events" namespace in
  or_list (keep (fun e => let name := str_or_empty (get e "involved_name") in
                          bool_decide (name ∈ selected_pod_names) || str_eqb name resource_name) events)
    (take MAX_KUBERNETES_EVENTS events).

Definition select_not_ready_nodes (kubernetes : dict) : list dict :=
  keep (fun node => match get node "ready" with VBool false => true | VStr s => str_eqb s "False" | _ => false end)
    (Symptom.snapshot_items kubernetes "nodes").

Definition select_related_workloads (kubernetes : dict) (namespace : pyval) (resource_kind resource_name : string)
    : list dict :=
  take 4 (keep (fun w => str_eqb (casefold (str_or_empty (get w "kind"))) (casefold resource_kind)
                         && str_eqb (str_or_empty (get w "name")) resource_name)
            (in_namespace kubernetes "workloads" namespace)).

Definition select_related_named_items (kubernetes : dict) (key : string) (namespace : pyval) (resource_name : string)
    : list dict :=
  take 8 (keep (fun i => starts_with resource_name (str_or_empty (get i "name")))
            (in_namespace kubernetes key namespace)).

Definition dicts (l : list dict) : pyval := VList (VDict <$> l).

Definition compact_kubernetes_value (kubernetes : dict) (namespace : pyval) (resource_kind resource_name : string)
    : dict :=
  let pods := select_related_pods kubernetes namespace resource_name in
  let pod_names := (fun pod => py_str (get pod "name")) <$> keep (fun pod => negb (blank_text (get pod "name"))) pods in
  let events := select_related_events kubernetes namespace resource_name pod_names in
  filter_items (fun _ v => negb (blank v))
    (pick blank ["cluster"; "resource"; "symptom"; "severity"; EVIDENCE_LINEAGE_KEY] kubernetes ++
     [("pods", dicts (take MAX_KUBERNETES_PODS pods)); ("events", dicts (take MAX_KUBERNETES_EVENTS events));
      ("nodes", dicts (take MAX_KUBERNETES_NODES (select_not_ready_nodes kubernetes)));
      ("workloads", dicts (select_related_workloads kubernetes namespace resource_kind resource_name));
      ("services", dicts (select_related_named_items kubernetes "services" namespace resource_name));
      ("endpoints", dicts (select_related_named_items kubernetes "endpoints" namespace resource_name))]).

Definition trim_text (s : string) : string :=
  if (str_len s <=? MAX_TEXT_LENGTH)%nat then s else str_take MAX_TEXT_LENGTH s +:+ "...".

(** [type(v).__name__] *)
Definition type_name (v : pyval) : string :=
  match v with
  | VNone => "NoneType" | VBool _ => "bool" | VInt _ => "int" | VFloat _ => "float" | VStr _ => "str"
  | VTime _ => "datetime" | VList _ => "list" | VDict _ => "dict"
  end.

Definition summarize_payload (v : pyval) : dict :=
  match v with
  | VDict d => [("type", VStr "object"); ("keys", VList (VStr <$> take 20 (isort String.leb d.*1)))]
  | VList l => [("type", VStr "list"); ("count", VInt (Z.of_nat (length l)))]
  | _ => [("type", VStr (type_name v))]
  end.

Definition SERIES_KEYS : list string := ["data"; "result"; "values"; "streams"].

(** The lists are cut after their elements are compacted, which is the same. *)
Fixpoint compact_result (max_series : nat) (v : pyval) : pyval :=
  match v with
  | VDict d =>
      VDict (map (fun kv =>
        (kv.1, match kv.2 with
               | VList l =>
                   if bool_decide (kv.1 ∈ SERIES_KEYS) then VList (take max_series (map (compact_result max_series) l))
                   else VDict (summarize_payload kv.2)
               | VStr s => VStr (trim_text s)
               | VDict _ => VDict (summarize_payload kv.2)
               | _ => kv.2
               end)) d)
  | VList l => VList (take max_series (map (compact_result max_series) l))
  | VStr s => VStr (trim_text s)
  | _ => v
  end.

Definition compact_mapping_results (payload : dict) (max_results max_series : nat) : dict :=
  let value :=
    pick blank [EVIDENCE_LINEAGE_KEY; "source"; "status"; "query_count"; "result_count"] payload ++
    match get payload "results" with
    | VDict results =>
        [("results", VDict ((fun kv => (kv.1, compact_result max_series kv.2)) <$> take max_results results))]
    | _ => []
    end in
  match value with [] => [("summary", VDict (summarize_payload (VDict payload)))] | _ => value end.

(** [isinstance(v, (str, dict)) and v] *)
Definition text_or_mapping (v : pyval) : bool :=
  match v with VStr _ | VDict _ => truthy v | _ => false end.

Definition compact_alertmanager_value (alertmanager : dict) : dict :=
  pick blank_text ["group_key"; "receiver"] alertmanager ++
  match get alertmanager "alerts" with
  | VList alerts =>
      [("alerts", dicts ((fun alert => pick (fun v => negb (text_or_mapping v))
                            ["status"; "labels"; "annotations"; "startsAt"] alert)
                         <$> omap as_dict (take MAX_ALERTMANAGER_ALERTS alerts)))]
  | _ => []
  end.

Definition compact_metrics_value (metrics : dict) : dict :=
  let value := compact_mapping_results metrics MAX_METRIC_RESULTS MAX_METRIC_SERIES in
  match get metrics "alertmanager" with
  | VDict a => dict_set value "alertmanager" (VDict (compact_alertmanager_value a))
  | _ => value
  end.

Definition compact_traces_value (traces : dict) : dict :=
  compact_mapping_results traces MAX_TRACE_RESULTS MAX_METRIC_SERIES.

Definition compact_log_value (sample : dict) : dict :=
  filter_items (fun k _ => negb (str_eqb k "line")) sample ++ [("line", VStr (trim_text (str_or_empty (get sample "line"))))].

Definition compact_log_stream (stream : dict) : dict :=
  filter_items (fun k _ => negb (str_eqb k "values")) stream ++
  match get stream "values" with
  | VList values => [("values", dicts (compact_log_value <$> omap as_dict (take MAX_LOG_VALUES values)))]
  | _ => []
  end.

(** [trim_text(value) if isinstance(value, str) else value] *)
Definition trim_value (v : pyval) : pyval := match v with VStr s => VStr (trim_text s) | _ => v end.

Definition compact_log_entry (entry : pyval) : res dict :=
  match entry with
  | VDict d =>
      Ok (((fun kv => (kv.1, trim_value kv.2))
             <$> filter_items (fun k _ => negb (str_eqb k "streams")) d) ++
          match get d "streams" with
          | VList streams => [("streams", dicts (compact_log_stream <$> omap as_dict (take MAX_LOG_STREAMS streams)))]
          | _ => []
          end)
  | _ => Err AttributeError
  end.

Definition compact_log_entries (entries : list pyval) : res (list dict) :=
  mapr compact_log_entry (take MAX_LOG_ENTRIES entries).

(** ** The bundle *)

Definition extract_resource (kubernetes : dict) : res (string * string * pyval) :=
  d ← Symptom.derive_symptom kubernetes; Ok (Symptom.resolve_resource kubernetes (Symptom.d_signal d)).

Definition extract_symptom (kubernetes : dict) : res string :=
  d ← Symptom.derive_symptom kubernetes; Ok (Symptom.d_symptom d).

Definition METADATA_LISTS : list (string * string) :=
  [("service_selector_matches", " Service selector와 Pod labels 매칭 근거입니다.");
   ("endpoint_slice_ready_endpoints", " EndpointSlice ready endpoint 근거입니다.");
   ("referenced_config_objects", " ConfigMap/Secret reference 근거입니다.");
   ("resource_quotas", " ResourceQuota 근거입니다.")].

(** [if value: items.append(evidence_item(...))] *)
Definition item_when (evt : EvidenceSource) (source name : string) (value : dict) (summary : string)
    : list Signals.EvidenceItem :=
  match value with [] => [] | _ => [evidence_item evt source name value summary] end.

Definition collect_evidence_items (evt : EvidenceSource) : res (list Signals.EvidenceItem) :=
  resource ← extract_resource (src_kubernetes evt);
  let '(resource_kind, resource_name, namespace) := resource in
  symptom ← extract_symptom (src_kubernetes evt);
  let target_summary := (if truthy namespace then py_str namespace else "unknown") +:+ " namespace의 " +:+ resource_kind
    +:+ " " +:+ resource_name +:+ "에서 " +:+ symptom +:+ " 증상이 보고되었습니다." in
  has_kubernetes ← source_evidence_available evt "kubernetes";
  let kubernetes_items :=
    if has_kubernetes : bool then
      [evidence_item evt "kubernetes" "cluster_resource_state"
         (compact_kubernetes_value (src_kubernetes evt) namespace resource_kind resource_name)
         (target_summary +:+ " Kubernetes 상태 근거입니다.")]
    else [] in
  has_metrics ← source_evidence_available evt "metrics";
  let metrics_items :=
    if has_metrics : bool then
      [evidence_item evt "metrics" "telemetry_metrics" (compact_metrics_value (src_metrics evt))
         (target_summary +:+ " Metric snapshot 근거입니다.")]
    else [] in
  has_logs ← source_evidence_available evt "logs";
  log_entries ← (if has_logs : bool then select_incident_log_entries (src_logs evt) namespace None else Ok []);
  log_items ←
    match log_entries with
    | [] => Ok []
    | _ =>
        entries ← compact_log_entries log_entries;
        Ok [evidence_item evt "logs" "related_logs" [("entries", dicts entries)] (target_summary +:+ " Log tail 근거입니다.")]
    end;
  has_traces ← source_evidence_available evt "traces";
  let trace_items :=
    if has_traces : bool then
      [evidence_item evt "traces" "related_traces" (compact_traces_value (src_traces evt))
         (target_summary +:+ " Trace 근거입니다.")]
    else [] in
  let metadata := src_metadata evt in
  Ok (kubernetes_items ++ metrics_items ++ log_items ++ trace_items ++
      item_when evt "metadata" "current_workload_snapshots" (current_workload_snapshots_payload metadata)
        (target_summary +:+ " Workload snapshot 목록 근거입니다.") ++
      item_when evt "metadata" "current_workload_snapshot" (current_workload_snapshot_payload metadata)
        (target_summary +:+ " Workload snapshot 상세 근거입니다.") ++
      mjoin ((fun kv => item_when evt "metadata" kv.1 (metadata_list_payload metadata kv.1) (target_summary +:+ kv.2))
             <$> METADATA_LISTS) ++
      match collect_change_context evt resource_kind resource_name namespace with
      | Some value => item_when evt "metadata" "change_context" value (target_summary +:+ " Change context 근거입니다.")
      | None => []
      end).

Definition build_incident_evidence_bundle (rules : list CauseEngine.EvidenceRequirementRule)
    (evt : EvidenceSource) (incident : CauseEngine.IncidentRecord) : res Signals.EvidenceBundle :=
  let required_sources := CauseEngine.required_evidence_sources incident rules in
  items ← collect_evidence_items evt;
  let missing := keep (fun s => negb (bool_decide (s ∈ Signals.source <$> items))) required_sources in
  Ok {| Signals.eb_incident_id := CauseEngine.incident_id incident; Signals.items := items;
        Signals.eb_missing_evidence := missing; Signals.complete := bool_decide (missing = []);
        Signals.eb_missing_evidence_checks := missing_source_checks missing evt |}.

(** ** What a bundle holds *)

(** Where the items come from, for the resource the snapshot speaks of. *)
Inductive produced (evt : EvidenceSource) (kind rname : string) (namespace : pyval) : string -> string -> dict -> Prop :=
  | produced_kubernetes :
      source_evidence_available evt "kubernetes" = Ok true ->
      produced evt kind rname namespace "kubernetes" "cluster_resource_state"
        (compact_kubernetes_value (src_kubernetes evt) namespace kind rname)
  | produced_metrics :
      source_evidence_available evt "metrics" = Ok true ->
      produced evt kind rname namespace "metrics" "telemetry_metrics" (compact_metrics_value (src_metrics evt))
  | produced_logs entries compacted :
      source_evidence_available evt "logs" = Ok true ->
      select_incident_log_entries (src_logs evt) namespace None = Ok entries ->
      compact_log_entries entries = Ok compacted ->
      produced evt kind rname namespace "logs" "related_logs" [("entries", dicts compacted)]
  | produced_traces :
      source_evidence_available evt "traces" = Ok true ->
      produced evt kind rname namespace "traces" "related_traces" (compact_traces_value (src_traces evt))
  | produced_metadata name value :
      name <> "change_context" -> produced evt kind rname namespace "metadata" name value
  | produced_change value :
      collect_change_context evt kind rname namespace = Some value ->
      produced evt kind rname namespace "metadata" "change_context" value.

Lemma elem_of_if {A} (b : bool) (x y : A) : y ∈ (if b then [x] else []) -> b = true /\ y = x.
Proof. destruct b; [by intros ->%list_elem_of_singleton|by intros ?%not_elem_of_nil]. Qed.

Lemma elem_of_item_when evt source name value summary i :
  i ∈ item_when evt source name value summary -> i = evidence_item evt source name value summary.
Proof. destruct value; [by intros ?%not_elem_of_nil|by intros ->%list_elem_of_singleton]. Qed.

Lemma collected_item evt items i :
  collect_evidence_items evt = Ok items -> i ∈ items ->
  exists kind rname namespace source name value summary,
    extract_resource (src_kubernetes evt) = Ok (kind, rname, namespace) /\
    i = evidence_item evt source name value summary /\ produced evt kind rname namespace source name value.
Proof.
  unfold collect_evidence_items. intros ([[kind rname] namespace] & Hr & E)%bind_Ok Hi.
  apply bind_Ok in E as (symptom & _ & E). cbv zeta in E.
  apply bind_Ok in E as (hk & Hk & E). apply bind_Ok in E as (hm & Hm & E). apply bind_Ok in E as (hl & Hl & E).
  apply bind_Ok in E as (entries & He & E). apply bind_Ok in E as (log_items & Hli & E).
  apply bind_Ok in E as (ht & Ht & E%Ok_inj). subst items. exists kind, rname, namespace.
  apply elem_of_app in Hi as [Hi|[Hi|[Hi|[Hi|[Hi|[Hi|[Hi|Hi]%elem_of_app]%elem_of_app]%elem_of_app]%elem_of_app]%elem_of_app]%elem_of_app].
  - apply elem_of_if in Hi as [-> ->]. do 4 eexists. split; [done|]. split; [reflexivity|]. by constructor.
  - apply elem_of_if in Hi as [-> ->]. do 4 eexists. split; [done|]. split; [reflexivity|]. by constructor.
  - destruct entries as [|x entries]; [injection Hli as <-; by apply not_elem_of_nil in Hi|].
    apply bind_Ok in Hli as (compacted & Hc & [= <-]). apply list_elem_of_singleton in Hi as ->.
    destruct hl; [|done]. do 4 eexists. split; [done|]. split; [reflexivity|]. by econstructor.
  - apply elem_of_if in Hi as [-> ->]. do 4 eexists. split; [done|]. split; [reflexivity|]. by constructor.
  - apply elem_of_item_when in Hi as ->. do 4 eexists. split; [done|]. split; [reflexivity|]. by constructor.
  - apply elem_of_item_when in Hi as ->. do 4 eexists. split; [done|]. split; [reflexivity|]. by constructor.
  - apply list_elem_of_join in Hi as (l & Hi & (kv & -> & Hkv)%list_elem_of_fmap).
    apply elem_of_item_when in Hi as ->. do 4 eexists. split; [done|]. split; [reflexivity|]. constructor.
    intros E. repeat (apply elem_of_cons in Hkv as [->|Hkv]; [done|]). by apply not_elem_of_nil in Hkv.
  - destruct (collect_change_context _ _ _ _) as [value|] eqn:Hv; [|by apply not_elem_of_nil in Hi].
    apply elem_of_item_when in Hi as ->. do 4 eexists. split; [done|]. split; [reflexivity|]. by constructor.
Qed.

(** The converse for the sources whose item only asks for availability. *)
Lemma collected_available evt items source :
  collect_evidence_items evt = Ok items -> source ∈ ["kubernetes"; "metrics"; "traces"] ->
  source_evidence_available evt source = Ok true -> source ∈ Signals.source <$> items.
Proof.
  unfold collect_evidence_items. intros ([[kind rname] namespace] & Hr & E)%bind_Ok Hs Hav.
  apply bind_Ok in E as (symptom & _ & E). cbv zeta in E.
  apply bind_Ok in E as (hk & Hk & E). apply bind_Ok in E as (hm & Hm & E). apply bind_Ok in E as (hl & Hl & E).
  apply bind_Ok in E as (entries & He & E). apply bind_Ok in E as (log_items & Hli & E).
  apply bind_Ok in E as (ht & Ht & E%Ok_inj). subst items. rewrite !fmap_app.
  repeat (apply elem_of_cons in Hs as [->|Hs]; [|]); [| | |by apply not_elem_of_nil in Hs].
  - rewrite Hav in Hk. injection Hk as <-. cbn. set_solver.
  - rewrite Hav in Hm. injection Hm as <-. cbn. set_solver.
  - rewrite Hav in Ht. injection Ht as <-. cbn. set_solver.
Qed.

Lemma get_item evt source name value summary k :
  k <> EVIDENCE_LINEAGE_KEY -> get (Signals.value (evidence_item evt source name value summary)) k = get value k.
Proof. intros Hk. unfold evidence_item, with_item_lineage. cbn [Signals.value]. by rewrite get_set_ne. Qed.
(** A bundle accounts for every required source.  It is complete exactly when
    each of them has an item; what is missing is listed, with one check per
    source that says why; and the items of the snapshot, of the metrics and of
    the traces are there exactly when these were available. *)
Theorem bundle_accounts_for_sources rules evt incident b :
  build_incident_evidence_bundle rules evt incident = Ok b ->
  (Signals.complete b = true <->
   forall s, s ∈ CauseEngine.required_evidence_sources incident rules -> s ∈ Signals.source <$> Signals.items b) /\
  (forall s, s ∈ Signals.eb_missing_evidence b <->
     s ∈ CauseEngine.required_evidence_sources incident rules /\ s ∉ Signals.source <$> Signals.items b) /\
  Signals.mc_source <$> Signals.eb_missing_evidence_checks b = Signals.eb_missing_evidence b /\
  (forall s, s ∈ ["kubernetes"; "metrics"; "traces"] ->
     s ∈ Signals.source <$> Signals.items b <-> source_evidence_available evt s = Ok true).
Proof.
  unfold build_incident_evidence_bundle. intros (items & Hi & E%Ok_inj)%bind_Ok. subst b.
  cbn [Signals.complete Signals.items Signals.eb_missing_evidence Signals.eb_missing_evidence_checks].
  assert (forall s, s ∈ keep (fun s => negb (bool_decide (s ∈ Signals.source <$> items)))
            (CauseEngine.required_evidence_sources incident rules) <->
          s ∈ CauseEngine.required_evidence_sources incident rules /\ s ∉ Signals.source <$> items) as Hmiss.
  { intros s. by rewrite elem_of_keep, negb_true_iff, bool_decide_eq_false. }
  split; [|split; [done|split]].
  - rewrite bool_decide_eq_true. split.
    + intros E s Hs. destruct (decide (s ∈ Signals.source <$> items)) as [|Hn]; [done|].
      assert (s ∈ @nil string) as []%not_elem_of_nil. rewrite <- E. by apply Hmiss.
    + intros Hall. destruct (keep _ _) as [|s l] eqn:E; [done|]. destruct (proj1 (Hmiss s)) as [Hr Hn].
      * apply list_elem_of_here.
      * by destruct Hn; apply Hall.
  - unfold missing_source_checks. rewrite <- list_fmap_compose. rewrite <- (list_fmap_id (keep _ _)) at 2.
    apply list_fmap_ext. intros i s _. cbn. unfold missing_source_check. by case_match.
  - intros s Hs. split; [|by apply collected_available].
    intros (i & -> & Hin)%list_elem_of_fmap.
    destruct (collected_item _ _ _ Hi Hin) as (? & ? & ? & source & name & value & summary & _ & -> & Hp).
    cbn in Hs |- *. by destruct Hp; first [done|repeat (apply elem_of_cons in Hs as [?|Hs]; [done|]);
      apply not_elem_of_nil in Hs].
Qed.

(** *** Logs *)

Lemma get_set_some d k o j : k <> j -> get (set_some d k o) j = get d j.
Proof. destruct o; [|done]. apply get_set_ne. Qed.

Lemma apply_summaries_get entry streams k :
  k ∉ ["pattern_counts"; "severity_counts"; "trace_ids"] -> get (apply_scoped_log_summaries entry streams) k = get entry k.
Proof.
  intros Hk. unfold apply_scoped_log_summaries. by rewrite !get_set_some by (intros <-; apply Hk; set_solver).
Qed.

Lemma select_log_entry_streams namespace entry d :
  truthy namespace = true -> select_log_entry namespace None entry = Ok (Some (VDict d)) ->
  forall stream, stream ∈ Signals.dict_items (get d "streams") -> stream_matches_namespace stream namespace = true.
Proof.
  intros Hns. unfold select_log_entry. destruct entry as [| | | | | | |e]; try done.
  assert ((exists l, get e "streams" = VList l) \/ (forall l, get e "streams" <> VList l)) as [[l Hl]|Hl]
    by (destruct (get e "streams"); eauto).
  - rewrite Hl. destruct (keep _ _) as [|x kept] eqn:Hk; [done|]. intros (counts & _ & E%Ok_inj)%bind_Ok.
    injection E as <-. intros stream.
    rewrite apply_summaries_get by (intros Hin; repeat (apply elem_of_cons in Hin as [?|Hin]; [done|]);
      by apply not_elem_of_nil in Hin).
    rewrite get_set_some, get_set_ne, get_set_eq by done. intros Hin.
    assert (stream ∈ x :: kept) as Hin'.
    { cbn in Hin. apply elem_of_cons in Hin as [->|Hin]; [apply list_elem_of_here|apply list_elem_of_further].
      by apply list_elem_of_omap in Hin as (y & (z & -> & Hz)%list_elem_of_fmap & [= ->]). }
    rewrite <- Hk, elem_of_keep in Hin'. destruct Hin' as [_ Hm]. cbn in Hm. by rewrite Hns in Hm.
  - destruct (get e "streams") eqn:E; try (by destruct (Hl l)); intros [= <-]; rewrite E;
      intros stream []%not_elem_of_nil.
Qed.

Lemma dict_items_dicts l : Signals.dict_items (dicts l) = l.
Proof. unfold dicts. cbn. induction l as [|d l IH]; [done|]. cbn. by f_equal. Qed.

Lemma get_app d e k : dict_get d k = None -> get (d ++ e) k = get e k.
Proof.
  unfold get. intros Hd. f_equal. induction d as [|[j v] d IH]; [done|]. cbn in *. by destruct (str_eqb j k); [|apply IH].
Qed.

Lemma get_app_l d e k : dict_get e k = None -> get (d ++ e) k = get d k.
Proof. unfold get. intros He. induction d as [|[j v] d IH]; cbn; [by rewrite He|]. by destruct (str_eqb j k). Qed.

Lemma dict_get_filter p d k : (forall v, p k v = true) -> dict_get (filter_items p d) k = dict_get d k.
Proof.
  intros Hp. induction d as [|[j v] d IH]; [done|]. cbn. destruct (decide (j = k)) as [->|Hn].
  - rewrite Hp. cbn. by rewrite str_eqb_refl.
  - assert (str_eqb j k = false) as E by (by apply bool_decide_eq_false). destruct (p j v); cbn; by rewrite E.
Qed.

Lemma dict_get_filter_out p d k : (forall v, p k v = false) -> dict_get (filter_items p d) k = None.
Proof.
  intros Hp. induction d as [|[j v] d IH]; [done|]. cbn. destruct (p j v) eqn:E; [|done]. cbn.
  destruct (str_eqb j k) eqn:Ejk; [|done]. apply str_eqb_eq in Ejk as ->. congruence.
Qed.

Lemma dict_get_fmap {A B} (f : A -> B) (d : list (string * A)) k :
  dict_get ((fun kv => (kv.1, f kv.2)) <$> d) k = f <$> dict_get d k.
Proof. induction d as [|[j v] d IH]; [done|]. cbn. by destruct (str_eqb j k). Qed.

Lemma get_elem d k : get d k = VNone \/ (k, get d k) ∈ d.
Proof. unfold get. destruct (dict_get d k) eqn:E; [right; by apply dict_get_elem|by left]. Qed.

Lemma compact_stream_get stream k : k <> "values" -> get (compact_log_stream stream) k = get stream k.
Proof.
  intros Hk. unfold compact_log_stream. rewrite get_app_l.
  - unfold get. rewrite dict_get_filter; [done|]. intros v. by apply negb_true_iff, bool_decide_eq_false.
  - assert (str_eqb "values" k = false) as E by (by apply bool_decide_eq_false). case_match; cbn; by rewrite ?E.
Qed.

Lemma compact_entry_streams entry d :
  compact_log_entry entry = Ok d ->
  exists e, entry = VDict e /\ Signals.dict_items (get d "streams") =
    match get e "streams" with
    | VList l => compact_log_stream <$> omap as_dict (take MAX_LOG_STREAMS l)
    | _ => []
    end.
Proof.
  unfold compact_log_entry. destruct entry as [| | | | | | |e]; try done. intros E%Ok_inj. subst d. exists e. split; [done|].
  rewrite get_app.
  - case_match; try done. cbn [get dict_get]. unfold get. cbn. apply dict_items_dicts.
  - rewrite (dict_get_fmap trim_value).
    by rewrite dict_get_filter_out.
Qed.

Lemma compact_entries_elem entries compacted d :
  compact_log_entries entries = Ok compacted -> d ∈ compacted ->
  exists entry, entry ∈ entries /\ compact_log_entry entry = Ok d.
Proof.
  unfold compact_log_entries. intros Hc Hd. eapply mapr_elem_r in Hd as (entry & Hin & He); [|exact Hc].
  exists entry. split; [|done]. by apply elem_of_take in Hin as (i & Hi%list_elem_of_lookup_2 & _).
Qed.
(** The logs of a bundle are those of the incident: a stream that names its
    namespace names that of the resource the snapshot speaks of. *)
Theorem bundle_logs_are_of_the_namespace evt items i kind rname ns entry stream labels label :
  collect_evidence_items evt = Ok items ->
  extract_resource (src_kubernetes evt) = Ok (kind, rname, VStr ns) -> ns <> "" ->
  i ∈ items -> Signals.source i = "logs" ->
  entry ∈ Signals.dict_items (get (Signals.value i) "entries") -> stream ∈ Signals.dict_items (get entry "streams") ->
  get stream "stream" = VDict labels -> first_label LOG_STREAM_NAMESPACE_LABELS labels = Some label -> label = ns.
Proof.
  intros Hc Hr Hns Hi Hsrc He Hs Hl Hlab.
  destruct (collected_item _ _ _ Hc Hi) as (k & r & n & source & name & value & summary & Hr' & -> & Hp).
  rewrite Hr in Hr'. apply Ok_inj in Hr' as [= <- <- <-]. cbn in Hsrc. destruct Hp as [| |entries compacted _ Hsel Hcmp| | |]; try done.
  rewrite get_item in He by done.
  change (get [("entries", dicts compacted)] "entries") with (dicts compacted) in He. rewrite dict_items_dicts in He.
  destruct (compact_entries_elem _ _ _ Hcmp He) as (e & Hin & Hce).
  destruct (compact_entry_streams _ _ Hce) as (d & -> & Hd). rewrite Hd in Hs.
  assert (truthy (VStr ns) = true) as Htr by (by destruct ns).
  assert (forall st, st ∈ Signals.dict_items (get d "streams") -> stream_matches_namespace st (VStr ns) = true) as Hm.
  { unfold select_incident_log_entries in Hsel. rewrite Htr in Hsel. cbn [negb andb] in Hsel.
    eapply omapr_elem in Hin as (x & _ & Hx); [|exact Hsel]. by eapply select_log_entry_streams. }
  destruct (get d "streams") as [| | | | | |l|]; try by apply not_elem_of_nil in Hs.
  apply list_elem_of_fmap in Hs as (st & -> & Hst). rewrite compact_stream_get in Hl by done.
  specialize (Hm st). unfold stream_matches_namespace in Hm. rewrite Hl, Hlab in Hm.
  apply list_elem_of_omap in Hst as (v & (j & Hj%list_elem_of_lookup_2 & _)%elem_of_take & Hv).
  assert (VStr label = VStr ns) as [= ->]; [|done]. apply py_eqb_VStr, Hm. cbn. apply list_elem_of_omap. by exists v.
Qed.

(** *** Bounds *)

Definition KUBERNETES_BOUNDS : list (string * nat) :=
  [("pods", MAX_KUBERNETES_PODS); ("events", MAX_KUBERNETES_EVENTS); ("nodes", MAX_KUBERNETES_NODES);
   ("workloads", 4%nat); ("services", 8%nat); ("endpoints", 8%nat)].

Lemma pick_keys b keys d k v : (k, v) ∈ pick b keys d -> k ∈ keys.
Proof. intros (j & Hj & E)%list_elem_of_omap. by destruct (b (get d j)); simplify_eq. Qed.

Lemma length_dicts_take n (l : list dict) : (length (Signals.dict_items (dicts (take n l))) <= n)%nat.
Proof. rewrite dict_items_dicts, length_take. lia. Qed.

Lemma kubernetes_bounds kubernetes namespace kind rname k n :
  (k, n) ∈ KUBERNETES_BOUNDS ->
  (length (Signals.dict_items (get (compact_kubernetes_value kubernetes namespace kind rname) k)) <= n)%nat.
Proof.
  intros Hk. destruct (get_elem (compact_kubernetes_value kubernetes namespace kind rname) k) as [->|Hin]; [cbn; lia|].
  revert Hin. generalize (get (compact_kubernetes_value kubernetes namespace kind rname) k). intros v Hin.
  unfold compact_kubernetes_value, filter_items in Hin. apply elem_of_keep in Hin as [[Hin|Hin]%elem_of_app _].
  - apply pick_keys in Hin. exfalso. revert Hin.
    repeat (apply elem_of_cons in Hk as [[= -> ->]|Hk]; [set_solver|]). by apply not_elem_of_nil in Hk.
  - repeat (apply elem_of_cons in Hk as [[= -> ->]|Hk]); [..|by apply not_elem_of_nil in Hk];
      repeat (apply elem_of_cons in Hin as [[= Hv]|Hin]); try done; try (by apply not_elem_of_nil in Hin);
      subst v; apply length_dicts_take.
Qed.
Lemma trim_text_bound s : (str_len (trim_text s) <= MAX_TEXT_LENGTH + 3)%nat.
Proof.
  unfold trim_text. destruct (Nat.leb_spec (str_len s) MAX_TEXT_LENGTH); [lia|].
  rewrite str_app_length, str_len_take by lia. cbn [str_len]. lia.
Qed.

Lemma length_omap_le {A B} (f : A -> option B) l : (length (omap f l) <= length l)%nat.
Proof. induction l as [|x l IH]; [done|]. cbn. destruct (f x); cbn; lia. Qed.

Lemma compact_stream_values stream :
  (length (Signals.dict_items (get (compact_log_stream stream) "values")) <= MAX_LOG_VALUES)%nat /\
  forall sample, sample ∈ Signals.dict_items (get (compact_log_stream stream) "values") ->
    exists s, get sample "line" = VStr s /\ (str_len s <= MAX_TEXT_LENGTH + 3)%nat.
Proof.
  unfold compact_log_stream. rewrite get_app by (by apply dict_get_filter_out).
  destruct (get stream "values") as [| | | | | |l|]; try (split; [cbn; lia|by intros ? ?%not_elem_of_nil]).
  change (get [("values", ?d)] "values") with d. rewrite dict_items_dicts. split.
  - rewrite length_fmap. etrans; [apply length_omap_le|]. rewrite length_take. lia.
  - intros sample (x & -> & _)%list_elem_of_fmap. unfold compact_log_value.
    rewrite get_app by (by apply dict_get_filter_out). eexists. split; [reflexivity|apply trim_text_bound].
Qed.

Lemma dict_get_pick b keys d k : k ∉ keys -> dict_get (pick b keys d) k = None.
Proof. intros Hk. apply dict_get_None. intros ([j v] & -> & Hin)%list_elem_of_fmap. by apply Hk, (pick_keys b _ d _ v). Qed.

Lemma mapping_results_bound payload n m :
  (length (mapping (get (compact_mapping_results payload n m) "results")) <= n)%nat.
Proof.
  unfold compact_mapping_results.
  assert (get (pick blank [EVIDENCE_LINEAGE_KEY; "source"; "status"; "query_count"; "result_count"] payload ++
    match get payload "results" with
    | VDict results => [("results", VDict ((fun kv => (kv.1, compact_result m kv.2)) <$> take n results))]
    | _ => [] end) "results" = match get payload "results" with
    | VDict results => VDict ((fun kv => (kv.1, compact_result m kv.2)) <$> take n results) | _ => VNone end) as E.
  { rewrite get_app by (apply dict_get_pick; set_solver). by case_match. }
  set (value := pick _ _ _ ++ _) in E |- *. clearbody value. destruct value as [|kv value];
    [change (0 <= n)%nat; lia|].
  rewrite E. case_match; try (cbn; lia). cbn [mapping]. rewrite length_fmap, length_take. lia.
Qed.

(** The size of a bundle does not depend on that of the cluster: the items of
    the snapshot, the log entries, their streams, values and lines, and the
    metric and trace results have fixed bounds. *)
Theorem bundle_is_bounded evt items i :
  collect_evidence_items evt = Ok items -> i ∈ items ->
  (Signals.source i = "kubernetes" -> forall k n, (k, n) ∈ KUBERNETES_BOUNDS ->
     (length (Signals.dict_items (get (Signals.value i) k)) <= n)%nat) /\
  (Signals.source i = "logs" ->
     (length (Signals.dict_items (get (Signals.value i) "entries")) <= MAX_LOG_ENTRIES)%nat /\
     forall entry, entry ∈ Signals.dict_items (get (Signals.value i) "entries") ->
       (length (Signals.dict_items (get entry "streams")) <= MAX_LOG_STREAMS)%nat /\
       forall stream, stream ∈ Signals.dict_items (get entry "streams") ->
         (length (Signals.dict_items (get stream "values")) <= MAX_LOG_VALUES)%nat /\
         forall sample, sample ∈ Signals.dict_items (get stream "values") ->
           exists s, get sample "line" = VStr s /\ (str_len s <= MAX_TEXT_LENGTH + 3)%nat) /\
  (Signals.source i ∈ ["metrics"; "traces"] -> (length (mapping (get (Signals.value i) "results")) <= MAX_METRIC_RESULTS)%nat).
Proof.
  intros Hc Hi. destruct (collected_item _ _ _ Hc Hi) as (k & r & n & source & name & value & summary & _ & -> & Hp).
  split; [|split].
  - intros Hs. cbn in Hs. destruct Hp; try done. intros k' n' Hk. rewrite get_item; [by apply kubernetes_bounds|].
    intros ->. repeat (apply elem_of_cons in Hk as [?|Hk]; [done|]). by apply not_elem_of_nil in Hk.
  - intros Hs. cbn in Hs. destruct Hp as [| |entries compacted _ _ Hcmp| | |]; try done. rewrite get_item by done.
    change (get [("entries", dicts compacted)] "entries") with (dicts compacted). rewrite dict_items_dicts. split.
    + apply mapr_Ok, Forall2_length in Hcmp. rewrite <- Hcmp, length_take. lia.
    + intros entry (e & _ & He)%(compact_entries_elem _ _ _ Hcmp).
      destruct (compact_entry_streams _ _ He) as (d & _ & ->). split.
      * case_match; try (cbn; lia). rewrite length_fmap. etrans; [apply length_omap_le|]. rewrite length_take. lia.
      * intros stream Hst. case_match; try by apply not_elem_of_nil in Hst.
        apply list_elem_of_fmap in Hst as (x & -> & _). apply compact_stream_values.
  - intros Hs. cbn in Hs. rewrite get_item by done. destruct Hp;
      try (by repeat (apply elem_of_cons in Hs as [?|Hs]; [done|]); apply not_elem_of_nil in Hs).
    + unfold compact_metrics_value. case_match; rewrite ?get_set_ne by done; apply mapping_results_bound.
    + apply mapping_results_bound.
Qed.
(** *** Redaction *)

Lemma get_redact_ne change k j : k <> j -> get (redact change k) j = get change j.
Proof. intros Hk. unfold redact. case_match; [by apply get_set_ne|done]. Qed.

Lemma get_redact change k :
  get (redact change k) k = if blank_text (get change k) then get change k else VStr REDACTED_CHANGE_VALUE.
Proof.
  unfold redact. destruct (has_key change k) eqn:Hk.
  - destruct (blank_text (get change k)) eqn:E; [done|]. apply get_set_eq.
  - cbn [andb]. unfold get. destruct (dict_get change k) eqn:E; [|done]. unfold has_key in Hk. by rewrite E in Hk.
Qed.

Lemma sanitized_values change key :
  is_sensitive_change change = true -> key ∈ ["before"; "after"] ->
  get (sanitize_recent_change change) key
    = if blank_text (get change key) then get change key else VStr REDACTED_CHANGE_VALUE.
Proof.
  unfold sanitize_recent_change. intros -> Hk. cbn [foldl].
  apply elem_of_cons in Hk as [->|[->|[]%not_elem_of_nil]%elem_of_cons].
  - rewrite get_redact_ne by done. apply get_redact.
  - rewrite get_redact, get_redact_ne by done. done.
Qed.

Lemma sanitized_others change key :
  key ∉ ["before"; "after"] -> get (sanitize_recent_change change) key = get change key.
Proof.
  unfold sanitize_recent_change. intros Hk. destruct (is_sensitive_change change); [|done]. cbn [foldl].
  rewrite !get_redact_ne by set_solver. done.
Qed.

Lemma contains_spec p t : contains p t = true <-> exists a b, t = a +:+ p +:+ b.
Proof.
  split.
  - induction t as [|c t IH]; cbn [contains]; rewrite orb_true_iff.
    + intros [[b Hb]%starts_with_spec|]; [|done]. by exists "", b.
    + intros [[b Hb]%starts_with_spec|(a & b & ->)%IH]; [by exists "", b|]. by exists (String c a), b.
  - intros (a & b & ->). induction a as [|c a IH]; cbn [contains String.append].
    + destruct (p +:+ b) eqn:E; cbn [contains]; rewrite <- E, starts_with_app; done.
    + by rewrite IH, orb_true_r.
Qed.

Lemma casefold_append a b : casefold (a +:+ b) = casefold a +:+ casefold b.
Proof. induction a as [|c a IH]; [done|]. cbn. by rewrite IH, str_app_assoc. Qed.

(** A word of one of the parts is a word of the parts joined. *)
Lemma contains_join w part parts :
  part ∈ parts -> contains w (casefold part) = true -> contains w (casefold (join " " parts)) = true.
Proof.
  intros Hin. rewrite !contains_spec. intros (a & b & Hw). revert Hin. induction parts as [|x parts IH]; [set_solver|].
  intros [->|Hin]%elem_of_cons.
  - destruct parts as [|y parts]; [by exists a, b|]. cbn [join]. rewrite casefold_append, Hw.
    exists a, (b +:+ casefold (" " +:+ join " " (y :: parts))). by rewrite !str_app_assoc.
  - destruct parts as [|y parts]; [set_solver|]. destruct (IH Hin) as (a' & b' & E).
    cbn [join]. rewrite !casefold_append. cbn [join] in E. rewrite E.
    exists (casefold x +:+ casefold " " +:+ a'), b'. by rewrite !str_app_assoc.
Qed.

(** [change] names [word], in any case, in one of the fields that say what was
    changed. *)
Definition speaks_of (change : dict) (word : string) : Prop :=
  exists k, k ∈ ["change_type"; "target_resource"; "field"; "source"] /\
    contains word (casefold (str_or_empty (get change k))) = true.

Lemma speaking_is_sensitive change word :
  word ∈ ["secret"; "token"; "password"; "credential"; "private"; "key"] -> speaks_of change word ->
  is_sensitive_change change = true.
Proof.
  intros Hw (k & Hk & Hc). unfold is_sensitive_change. apply existsb_exists. exists word. split.
  - by apply list_elem_of_In.
  - eapply contains_join; [|exact Hc]. apply (list_elem_of_fmap_2 (fun k => str_or_empty (get change k))). exact Hk.
Qed.

(** C29: the values of sensitive changes are redacted in the collected change
    context.  The entries of the list [recent_changes] of the item
    [change_context] are, one for one, the mappings of the list in the
    evidence, with every field except [before] and [after] as it was; and when
    the type, the resource, the field or the source of a change contains the
    word secret, token, password, credential, private or key, in any case,
    then each of [before] and [after] that has a value is replaced by
    [redacted].  Only that list is covered: a [recent_changes] that is no list
    and the other parts of the context pass as they are. *)
Theorem sensitive_changes_are_redacted evt items i :
  collect_evidence_items evt = Ok items -> i ∈ items ->
  Signals.source i = "metadata" -> Signals.name i = "change_context" ->
  Forall2 (fun change kept =>
      (forall word key, word ∈ ["secret"; "token"; "password"; "credential"; "private"; "key"] ->
         speaks_of change word -> key ∈ ["before"; "after"] ->
         get kept key = if blank_text (get change key) then get change key else VStr "redacted") /\
      (forall key, key ∉ ["before"; "after"] -> get kept key = get change key))
    (Signals.dict_items (get (change_context_payload (src_metadata evt)) "recent_changes"))
    (Signals.dict_items (get (Signals.value i) "recent_changes")).
Proof.
  intros Hc Hi Hsrc Hname.
  destruct (collected_item _ _ _ Hc Hi) as (k & r & n & source & name & value & summary & _ & -> & Hp).
  cbn in Hsrc, Hname. destruct Hp as [| | | |name value Hn|value Hv]; try done.
  rewrite get_item by done. unfold collect_change_context in Hv.
  set (payload := change_context_payload (src_metadata evt)) in Hv |- *. destruct payload as [|kv payload']; [done|].
  set (payload := kv :: payload') in Hv |- *. destruct (has_change_context _); [|done]. injection Hv as <-.
  assert (get (setdefault (sanitize_change_context payload) "resource"
    (VDict [("namespace", n); ("workload_kind", VStr k); ("workload_name", VStr r)])) "recent_changes"
    = get (sanitize_change_context payload) "recent_changes") as ->.
  { unfold setdefault. case_match; [done|by rewrite get_set_ne]. }
  unfold sanitize_change_context.
  destruct (get payload "recent_changes") as [| | | | | |l|] eqn:El; rewrite ?El; try constructor.
  rewrite get_set_eq. cbn [Signals.dict_items].
  assert (omap as_dict ((fun c => VDict (sanitize_recent_change c)) <$> omap as_dict l)
          = sanitize_recent_change <$> omap as_dict l) as ->.
  { generalize (omap as_dict l) as cs. induction cs as [|c cs IH]; [done|]. cbn. by f_equal. }
  apply Forall2_fmap_r, Forall_Forall2_diag, Forall_true. intros change. split.
  - intros word key Hw Hs Hk. apply sanitized_values; [|done]. by eapply speaking_is_sensitive.
  - apply sanitized_others.
Qed.
End bundle.

(** ** Evidence of a crashing deployment *)
Module Sample.
#[local] Existing Instance Demo.plain_repr.
#[local] Existing Instance coded_iso.

Definition stream (ns line : string) : pyval :=
  VDict [("stream", VDict [("k8s_namespace_name", VStr ns); ("k8s_pod_name", VStr "orders-7d9-a")]);
         ("values", VList [VDict [("timestamp", VStr "1"); ("line", VStr line)]])].
Definition entry : pyval :=
  VDict [("query_name", VStr "errors"); ("streams", VList [stream "target" "loki error"; stream "shop" "out of memory"])].
Definition secret_change : dict :=
  [("change_type", VStr "env"); ("field", VStr "DB_PASSWORD"); ("before", VStr "old"); ("after", VStr "new")].
Definition plain_change : dict :=
  [("change_type", VStr "image"); ("field", VStr "image"); ("before", VStr "shop:1"); ("after", VStr "shop:2")].
Definition evidence : Evidence :=
  {| cluster_id := "c1"; kubernetes := Symptom.Sample.snapshot; metrics := [("source", VStr "prometheus"); ("results", VDict [])];
     logs := [entry]; traces := []; object_ref := "object://evidence/e1.json";
     metadata := [("change_context", VDict [("recent_changes", VList [VDict secret_change; VDict plain_change])])];
     workspace_id := "w" |}.
Definition record : CauseEngine.IncidentRecord :=
  {| CauseEngine.incident_id := "i1"; CauseEngine.cluster_id := "c1"; CauseEngine.resource_kind := "ReplicaSet";
     CauseEngine.resource_name := "orders-7d9"; CauseEngine.namespace := Some "shop";
     CauseEngine.symptom := "CrashLoopBackOff"; CauseEngine.severity := "medium"; CauseEngine.first_seen_at := None;
     CauseEngine.i_summary := ""; CauseEngine.category := None; CauseEngine.workspace_id := "w";
     CauseEngine.secondary_symptoms := [] |}.
Definition rules : list CauseEngine.EvidenceRequirementRule :=
  [CauseEngine.SymptomEvidenceRequirementRule ["CrashLoopBackOff"] ["kubernetes"; "logs"; "metrics"]].
Definition bundle : res Signals.EvidenceBundle := build_incident_evidence_bundle rules (Built evidence) record.
Definition items : list Signals.EvidenceItem := match bundle with Ok b => Signals.items b | Err _ => [] end.

Example collected : collect_evidence_items (Built evidence) = Ok items.
Proof. vm_compute. reflexivity. Qed.
Example item_names : Signals.name <$> items = ["cluster_resource_state"; "related_logs"; "change_context"].
Proof. vm_compute. reflexivity. Qed.

Lemma bundle_accounts_for_sources_witness :
  exists b, bundle = Ok b /\ Signals.mc_source <$> Signals.eb_missing_evidence_checks b = ["metrics"].
Proof.
  destruct bundle as [b|e] eqn:E; [|vm_compute in E; discriminate E]. exists b. split; [reflexivity|].
  rewrite (proj1 (proj2 (proj2 (bundle_accounts_for_sources _ _ _ _ E)))).
  vm_compute in E. injection E as <-. reflexivity.
Defined.

Definition log_item : Signals.EvidenceItem := default (evidence_item (Built evidence) "" "" [] "") (items !! 1%nat).
Definition change_item : Signals.EvidenceItem := default (evidence_item (Built evidence) "" "" [] "") (items !! 2%nat).
Definition kept_entry : dict := default [] (head (Signals.dict_items (get (Signals.value log_item) "entries"))).
Definition kept_stream : dict := default [] (head (Signals.dict_items (get kept_entry "streams"))).
Definition kept_change : dict := default [] (head (Signals.dict_items (get (Signals.value change_item) "recent_changes"))).

Lemma item_in n i : items !! n = Some i -> i ∈ items.
Proof. apply list_elem_of_lookup_2. Qed.

Lemma bundle_logs_are_of_the_namespace_witness :
  exists labels label, get kept_stream "stream" = VDict labels /\
    first_label LOG_STREAM_NAMESPACE_LABELS labels = Some label /\ label = "shop".
Proof.
  exists (mapping (get kept_stream "stream")), "shop". split; [vm_compute; reflexivity|]. split; [vm_compute; reflexivity|].
  eapply (bundle_logs_are_of_the_namespace (Built evidence) items log_item _ _ "shop" kept_entry kept_stream).
  - exact collected.
  - vm_compute. reflexivity.
  - discriminate.
  - apply (item_in 1). vm_compute. reflexivity.
  - vm_compute. reflexivity.
  - apply (list_elem_of_lookup_2 _ 0). vm_compute. reflexivity.
  - apply (list_elem_of_lookup_2 _ 0). vm_compute. reflexivity.
  - vm_compute. reflexivity.
  - vm_compute. reflexivity.
Defined.

Lemma bundle_is_bounded_witness : (length (Signals.dict_items (get (Signals.value log_item) "entries")) <= 8)%nat.
Proof.
  refine (proj1 (proj1 (proj2 (bundle_is_bounded (Built evidence) items log_item collected _)) _)).
  - apply (item_in 1). vm_compute. reflexivity.
  - vm_compute. reflexivity.
Defined.

Lemma sensitive_changes_are_redacted_witness :
  get kept_change "after" = VStr "redacted" /\ get kept_change "field" = VStr "DB_PASSWORD".
Proof.
  pose proof (sensitive_changes_are_redacted (Built evidence) items change_item collected) as Hall.
  destruct (Forall2_lookup_l _ _ _ 0%nat secret_change
    (Hall (item_in 2 change_item ltac:(vm_compute; reflexivity)) ltac:(vm_compute; reflexivity)
       ltac:(vm_compute; reflexivity)) ltac:(vm_compute; reflexivity)) as (kept & Hk & Hred & Hsame).
  assert (kept = kept_change) as -> by (vm_compute in Hk; injection Hk as <-; vm_compute; reflexivity).
  split; [|apply Hsame, (bool_decide_unpack _); vm_compute; exact I].
  rewrite (Hred "password" "after"); [reflexivity|by apply (list_elem_of_lookup_2 _ 2)
    | |by apply (list_elem_of_lookup_2 _ 1)].
  exists "field". split; [by apply (list_elem_of_lookup_2 _ 2)|vm_compute; reflexivity].
Defined.
End Sample.
End EvidenceBundle.
