(* ===== verification/IncidentDetection.v ===== *)
(** * Detecting an incident

    [src/src/services/ai/agent/pipeline/incident.py] and
    [pipeline/incident_signal.py], the bodies of [pipeline/pipeline.py], and
    the handler of [services/ai/incident-worker/app.py] with the claims of
    [domains/rca/repository.py], the timeline facts of
    [domains/rca/timeline.py] and their append in
    [domains/timeline/repository.py]. *)
From S2P Require Import Prelude PyStr PyFloat PyVal PyTime Libs Demo ManifestEditor EventBody EventBodies Signals CauseEngine.
From S2P Require Import Symptom EvidenceBundle RecoveryMerge.

Module IncidentDetection.
Import EvidenceBundle.
Notation str_or_empty := Symptom.str_or_empty.
Notation lower := ManifestEditor.lower.

Definition APPLICATION_5XX_SIGNAL : string := "Application5xx".
Definition APPLICATION_TIMEOUT_SIGNAL : string := "ApplicationTimeout".
Definition APP_5XX_FIELDS : list string := ["status"; "status_code"; "upstream_status"].
(** A field of a JSON line with a status, with and without a space. *)
Definition status_pattern (field space code : string) : string :=
  field +:+ String "034" (":" +:+ space +:+ code).
Definition APP_5XX_TEXT_PATTERNS : list string :=
  [status_pattern "upstream_status" "" "500"; status_pattern "upstream_status" " " "500";
   status_pattern "upstream_status" "" "502"; status_pattern "upstream_status" " " "502";
   status_pattern "upstream_status" "" "503"; status_pattern "upstream_status" " " "503";
   status_pattern "upstream_status" "" "504"; status_pattern "upstream_status" " " "504";
   status_pattern "status" "" "500"; status_pattern "status" " " "500";
   status_pattern "status" "" "502"; status_pattern "status" " " "502";
   status_pattern "status" "" "503"; status_pattern "status" " " "503";
   status_pattern "status" "" "504"; status_pattern "status" " " "504";
   "/api/orders/error"; "intentional_error_endpoint"; "intentional error endpoint called"].
Definition APP_TIMEOUT_TEXT_PATTERNS : list string :=
  ["dependency_timeout"; "dependency call timed out"; "timeout"].
(** [timedelta(minutes=5)] in microseconds. *)
Definition MAX_LOG_SIGNAL_AGE : Z := 300 * SECOND.
Definition CONTROL_PLANE_LOG_NAMESPACES : list string := ["management"; "target"].

Definition detected_reason : string := "deterministic evidence sample indicates failure".
Definition not_detected_reason : string := "no deterministic incident signal found".
Definition missing_incident_context : string := "incident context is missing".
Definition no_incident_action_required : string := "incident flag was not set".

Record LogIncidentSignal := {
  l_signal : string;
  l_symptom : string;
  l_resource_kind : string;
  l_resource_name : string;
  l_namespace : option string;
}.

(** The record as the detector builds it: nothing forces the namespace of an
    explicit resource, or the time first seen, to be text. *)
Record IncidentRecord := {
  incident_id : string;
  i_cluster_id : string;
  resource_kind : string;
  resource_name : string;
  namespace : pyval;
  symptom : string;
  severity : string;
  category : option string;
  first_seen_at : pyval;
  i_summary : string;
  i_workspace_id : string;
  secondary_symptoms : list string;
}.

(** The record as the rules see it, which read the symptom only. *)
Definition record_of (i : IncidentRecord) : CauseEngine.IncidentRecord :=
  {| CauseEngine.incident_id := incident_id i; CauseEngine.cluster_id := i_cluster_id i;
     CauseEngine.resource_kind := resource_kind i; CauseEngine.resource_name := resource_name i;
     CauseEngine.namespace := as_str (namespace i); CauseEngine.symptom := symptom i;
     CauseEngine.severity := severity i; CauseEngine.first_seen_at := as_str (first_seen_at i);
     CauseEngine.i_summary := i_summary i; CauseEngine.category := category i;
     CauseEngine.workspace_id := i_workspace_id i; CauseEngine.secondary_symptoms := secondary_symptoms i |}.

Record IncidentDetectedBody := {
  b_cluster_id : string;
  detected : bool;
  b_reason : string;
  b_workspace_id : string;
  b_severity : option string;
  affected : list dict;
  b_evidence : option Evidence;
  b_incident : option IncidentRecord;
}.

Inductive body :=
  | Detected (b : IncidentDetectedBody)
  | BundleBuilt (evidence : Evidence) (incident : IncidentRecord) (bundle : Signals.EvidenceBundle)
  | RcaActionRequired (reason evidence_ref workspace_id : string).

(** A sample of a log: namespace, container and line. *)
Record log_sample := { s_namespace : pyval; s_container : pyval; s_line : string }.

(** What follows the first occurrence of [p], as [s.split(p, 1)[1]]. *)
Fixpoint after (p s : string) : option string :=
  if starts_with p s then Some (str_drop (str_len p) s)
  else match s with EmptyString => None | String _ s => after p s end.

(** [s.split(c, 1)[0]] *)
Definition before_char (c : ascii) (s : string) : string := (partition_char c s).1.1.

Definition namespace_from_query (query : pyval) : option string :=
  match query with
  | VStr s => before_char "034" <$> after ("k8s_namespace_name=" +:+ String "034" "") s
  | _ => None
  end.

Definition is_5xx (v : pyval) : res bool :=
  match v with
  | VBool _ | VNone => Ok false
  | _ =>
      match py_int v with
      | Ok status => Ok ((500 <=? status) && (status <=? 599))
      | Err TypeError | Err ValueError => Ok false
      | Err e => Err e
      end
  end.

(** [datetime.fromtimestamp(z, tz=UTC)] of an integer. *)
Definition fromtimestamp_int (z : Z) : option Z := if in_years (z * SECOND) then Some (z * SECOND) else None.

(** [n / d]; the quotient of large integers raises. *)
Definition true_div (n d : Z) : res float :=
  let q := int_div n d in if is_finite q then Ok q else Err OverflowError.

Section detection.
Context `{ReprLib} `{IsoTime} `{JsonLib}.

(** ** Logs *)

Definition parse_json_line (line : string) : res dict :=
  match json_loads line with
  | Ok v => Ok (mapping v)
  | Err JSONDecodeError => Ok []
  | Err e => Err e
  end.

Fixpoint any_res {A} (f : A -> res bool) (l : list A) : res bool :=
  match l with
  | [] => Ok false
  | x :: l => b ← f x; if b : bool then Ok true else any_res f l
  end.

Definition has_5xx_status (parsed : dict) (line : string) : res bool :=
  found ← any_res (fun k => is_5xx (get parsed k)) APP_5XX_FIELDS;
  Ok ((found : bool) || existsb (fun p => contains p (casefold line)) APP_5XX_TEXT_PATTERNS).

Definition has_timeout_signal (parsed : dict) (line : string) : bool :=
  let event := casefold (str_or_empty (get parsed "event")) in
  let message := casefold (str_or_empty (get parsed "message")) in
  existsb (fun p => contains p (event +:+ " " +:+ message +:+ " " +:+ casefold line)) APP_TIMEOUT_TEXT_PATTERNS.

(** The first text that is not blank. *)
Definition first_text (values : list pyval) : option string :=
  find nonempty ((fun v => strip (str_or_empty v)) <$> values).

Definition resource_name_for_log_sample (s : log_sample) (parsed : dict) : option string :=
  first_text ((get parsed <$> ["service"; "service_name"; "app"; "deployment"]) ++ [s_container s]).

Definition log_timestamp (v : pyval) : res (option Z) :=
  parsed ← Symptom.parse_event_time v;
  match parsed with
  | Some t => Ok (Some t)
  | None =>
      match v with
      | VStr ((String _ _) as s) =>
          match int_of_str s with
          | None => Ok None
          | Some raw =>
              if 10000000000000000 <? raw then q ← true_div raw 1000000000; Ok (fromtimestamp q)
              else if 10000000000000 <? raw then q ← true_div raw 1000; Ok (fromtimestamp q)
              else Ok (fromtimestamp_int raw)
          end
      | _ => Ok None
      end
  end.

Definition log_sample_is_current (timestamp collected_at : option Z) : bool :=
  match timestamp, collected_at with
  | Some t, Some now => Z.abs (now - t) <=? MAX_LOG_SIGNAL_AGE
  | _, _ => true
  end.

(** [str(a or b or "")] *)
Definition str_or (values : list pyval) : string :=
  match find truthy values with Some v => py_str v | None => "" end.

Definition stream_sample (collected_at : option Z) (ns container : string) (value : dict) : res (option log_sample) :=
  ts ← log_timestamp (get value "timestamp");
  Ok match get value "line" with
     | VStr ((String _ _) as line) =>
         if log_sample_is_current ts collected_at
         then Some {| s_namespace := VStr ns; s_container := VStr container; s_line := line |} else None
     | _ => None
     end.

Definition stream_samples (collected_at : option Z) (entry_namespace : option string) (stream : dict)
    : res (list log_sample) :=
  let labels := mapping (get stream "stream") in
  let ns := str_or [get labels "k8s_namespace_name"; opt_str entry_namespace] in
  let container := str_or [get labels "k8s_container_name"; get labels "container"; get labels "app"] in
  omapr (stream_sample collected_at ns container) (Signals.dict_items (get stream "values")).

Definition entry_samples (collected_at : option Z) (entry : dict) : res (list log_sample) :=
  let entry_namespace := namespace_from_query (get entry "query") in
  ts ← log_timestamp (get entry "timestamp");
  let own :=
    match get entry "line" with
    | VStr line =>
        if log_sample_is_current ts collected_at
        then [{| s_namespace := opt_str entry_namespace; s_container := get entry "container"; s_line := line |}]
        else []
    | _ => []
    end in
  streams ← mapr (stream_samples collected_at entry_namespace) (Signals.dict_items (get entry "streams"));
  Ok (own ++ mjoin streams).

Definition iter_log_samples (logs : list pyval) (collected_at : option Z) : res (list log_sample) :=
  samples ← mapr (entry_samples collected_at) (omap as_dict logs); Ok (mjoin (samples : list (list log_sample))).

Definition sample_signal (s : log_sample) : res (option LogIncidentSignal) :=
  let ns := strip (str_or_empty (s_namespace s)) in
  if bool_decide (ns ∈ CONTROL_PLANE_LOG_NAMESPACES) then Ok None
  else
    parsed ← parse_json_line (s_line s);
    is_error ← has_5xx_status parsed (s_line s);
    Ok (signal ← (if is_error : bool then Some APPLICATION_5XX_SIGNAL
                  else if has_timeout_signal parsed (s_line s) then Some APPLICATION_TIMEOUT_SIGNAL else None);
        name ← resource_name_for_log_sample s parsed;
        Some {| l_signal := signal; l_symptom := Symptom.SYMPTOM_INGRESS_5XX; l_resource_kind := "Deployment";
                l_resource_name := name; l_namespace := if nonempty ns then Some ns else None |}).

Fixpoint first_signal (samples : list log_sample) : res (option LogIncidentSignal) :=
  match samples with
  | [] => Ok None
  | s :: samples =>
      found ← sample_signal s;
      match found with Some x => Ok (Some x) | None => first_signal samples end
  end.

Definition derive_log_incident_signal (logs : list pyval) (collected_at : option Z)
    : res (option LogIncidentSignal) :=
  samples ← iter_log_samples logs collected_at; first_signal samples.

Definition evidence_collected_at (kubernetes : dict) : res (option Z) := Symptom.collected_at_time kubernetes.

(** ** The detector *)

Definition has_firing_alert (metrics : dict) : bool :=
  match get metrics "alertmanager" with
  | VDict alertmanager =>
      existsb (fun alert => py_eqb (get alert "status") (VStr "firing")) (Signals.dict_items (get alertmanager "alerts"))
  | _ => false
  end.

(** No symptom of the snapshot. *)
Definition is_silent (d : Symptom.DerivedSymptom) : bool :=
  bool_decide (Symptom.d_signal d = None) && str_eqb (Symptom.d_symptom d) Symptom.UNKNOWN_SYMPTOM.

Definition has_signal (e : Evidence) : res bool :=
  derived ← Symptom.derive_symptom (kubernetes e);
  if negb (is_silent derived) then Ok true
  else
    collected_at ← evidence_collected_at (kubernetes e);
    log_signal ← derive_log_incident_signal (logs e) collected_at;
    Ok (match log_signal with Some _ => true | None => has_firing_alert (metrics e) end).

Definition classify (e : Evidence) (id : string) : res IncidentRecord :=
  derived ← Symptom.derive_symptom (kubernetes e);
  log_signal ←
    (if is_silent derived then
       collected_at ← evidence_collected_at (kubernetes e); derive_log_incident_signal (logs e) collected_at
     else Ok None);
  let '(kind, name, ns, symptom, secondary) :=
    match log_signal with
    | Some l => (l_resource_kind l, l_resource_name l, opt_str (l_namespace l), l_symptom l, [l_signal l])
    | None =>
        let '(kind, name, ns) := Symptom.resolve_resource (kubernetes e) (Symptom.d_signal derived) in
        (kind, name, ns, Symptom.d_symptom derived, Symptom.secondary_symptoms derived)
    end in
  let explicit_category := casefold (strip (str_or_empty (get (kubernetes e) "category"))) in
  let category :=
    match log_signal with
    | Some _ => Some "application_runtime"
    | None => if nonempty explicit_category then Some explicit_category
              else Symptom.incident_category_for_signal (Symptom.d_signal derived)
    end in
  Ok {| incident_id := id; i_cluster_id := cluster_id e; resource_kind := kind; resource_name := name;
        namespace := ns; symptom := symptom;
        severity := py_str (default (VStr "medium") (dict_get (kubernetes e) "severity"));
        category := category; first_seen_at := get (kubernetes e) "first_seen_at";
        i_summary := kind +:+ " " +:+ name +:+ " has " +:+ symptom; i_workspace_id := workspace_id e;
        secondary_symptoms := secondary |}.

Definition affected_resources (i : IncidentRecord) : list dict :=
  [[("cluster_id", VStr (i_cluster_id i)); ("workspace_id", VStr (i_workspace_id i)); ("namespace", namespace i);
    ("resource_kind", VStr (resource_kind i)); ("resource_name", VStr (resource_name i));
    ("symptom", VStr (symptom i)); ("severity", VStr (severity i))]].

Definition detect_body (e : Evidence) (correlation_id : string) : res IncidentDetectedBody :=
  incident ← classify e correlation_id;
  found ← has_signal e;
  Ok (if found : bool then
        {| b_cluster_id := cluster_id e; detected := true; b_reason := detected_reason;
           b_workspace_id := workspace_id e; b_severity := Some (severity incident);
           affected := affected_resources incident; b_evidence := Some (compact_evidence_reference e);
           b_incident := Some incident |}
      else
        {| b_cluster_id := cluster_id e; detected := false; b_reason := not_detected_reason;
           b_workspace_id := workspace_id e; b_severity := None; affected := [];
           b_evidence := Some (compact_evidence_reference e); b_incident := None |}).

Section rules.
(** The registered requirements of the cause catalogue. *)
Context (rules : list CauseEngine.EvidenceRequirementRule).

Definition build_body (b : IncidentDetectedBody) : res body :=
  match b_evidence b, b_incident b with
  | Some evidence, Some incident =>
      if negb (detected b) then Ok (RcaActionRequired no_incident_action_required (object_ref evidence) (workspace_id evidence))
      else
        bundle ← build_incident_evidence_bundle rules (Built evidence) (record_of incident);
        Ok (BundleBuilt (compact_evidence_reference evidence) incident bundle)
  | evidence, _ =>
      Ok (RcaActionRequired missing_incident_context
            (match evidence with Some e => object_ref e | None => "unknown" end) (b_workspace_id b))
  end.

Definition build_bodies (e : Evidence) (correlation_id : string) : res (IncidentDetectedBody * body) :=
  detected_body ← detect_body e correlation_id;
  next ← build_body {| b_cluster_id := b_cluster_id detected_body; detected := detected detected_body;
                       b_reason := b_reason detected_body; b_workspace_id := b_workspace_id detected_body;
                       b_severity := b_severity detected_body; affected := affected detected_body;
                       b_evidence := Some e; b_incident := b_incident detected_body |};
  Ok (detected_body, next).
End rules.

(** ** The identity of an occurrence *)

Definition SIGNAL_IDENTITY_VERSION : string := "k8s-container-termination-v1".
Definition ALERTMANAGER_SIGNAL_IDENTITY_VERSION : string := "alertmanager-firing-v1".
Definition EVIDENCE_SIGNAL_IDENTITY_VERSION : string := "rca-incident-evidence-v1".

Record IncidentSignalIdentity := { signal_key : string; payload : dict }.

Definition text (v : pyval) : option string :=
  match v with VStr s => if nonempty (strip s) then Some (strip s) else None | _ => None end.

Definition optional_int (v : pyval) : res (option Z) :=
  match v with
  | VBool _ => Ok None
  | _ =>
      match py_int v with
      | Ok z => Ok (Some z)
      | Err TypeError | Err ValueError => Ok None
      | Err e => Err e
      end
  end.

Definition non_negative_int (v : pyval) : res (option Z) :=
  parsed ← optional_int v;
  Ok match parsed with Some z => if 0 <=? z then Some z else None | None => None end.

Definition opt_int (o : option Z) : pyval := match o with Some z => VInt z | None => VNone end.

(** [a == b] for an optional text and any value. *)
Definition is_text (o : option string) (v : pyval) : bool := py_eqb (opt_str o) v.

Definition pod_matches_incident (pod : dict) (i : IncidentRecord) : bool :=
  if negb (is_text (text (get pod "namespace")) (namespace i)) then false
  else
    let kind := casefold (resource_kind i) in
    if str_eqb kind "pod" then bool_decide (text (get pod "name") = Some (resource_name i))
    else str_eqb (casefold (default "" (text (get pod "owner_kind")))) kind
         && bool_decide (text (get pod "owner_name") = Some (resource_name i)).

Definition alert_target_matches_incident (labels : dict) (i : IncidentRecord) : bool :=
  let ns := match text (get labels "kyro_namespace") with
            | Some s => Some s | None => text (get labels "namespace") end in
  match ns, text (get labels "kyro_resource_kind"), text (get labels "kyro_resource_name") with
  | Some ns, Some kind, Some name =>
      py_eqb (VStr ns) (namespace i) && str_eqb (casefold kind) (casefold (resource_kind i))
      && str_eqb name (resource_name i)
      && match text (get labels "kyro_symptom") with None => true | Some s => str_eqb s (symptom i) end
  | _, _, _ => false
  end.

Section identity.
Context `{Sha256}.

(** The key of an identity: its version and the hash of its canonical JSON. *)
Definition identity_of (version : string) (identity : dict) : res IncidentSignalIdentity :=
  encoded ← json_sorted json_ascii_string (VDict identity);
  Ok {| signal_key := version +:+ ":" +:+ sha256_hexdigest (utf8_encode encoded); payload := identity |}.

(** *** Terminations *)

Definition termination : Type := (string * Z * string * string) * dict.

Definition container_termination (e : Evidence) (i : IncidentRecord) (pod : dict) (pod_uid : string)
    (container : dict) : res (option termination) :=
  match text (get container "name"), text (get container "last_state_reason") with
  | Some name, Some reason =>
      let still_running := match text (get container "last_state") with
                           | Some s => negb (str_eqb (lower s) "terminated") | None => false end in
      if still_running then Ok None
      else
        restart_count ← non_negative_int (get container "restart_count");
        let finished_at := text (get container "last_finished_at") in
        match restart_count with
        | None => Ok None
        | Some count =>
            if (count =? 0) && bool_decide (finished_at = None) then Ok None
            else
              exit_code ← optional_int (get container "last_exit_code");
              Ok (Some ((default "" finished_at, count, default "" (text (get pod "name")), name),
                [("version", VStr SIGNAL_IDENTITY_VERSION); ("workspace_id", VStr (workspace_id e));
                 ("cluster_id", VStr (cluster_id e));
                 ("namespace", match text (get pod "namespace") with Some s => VStr s | None => namespace i end);
                 ("pod_uid", VStr pod_uid); ("pod_name", opt_str (text (get pod "name")));
                 ("container_name", VStr name); ("restart_count", VInt count);
                 ("last_finished_at", opt_str finished_at); ("reason", VStr reason); ("exit_code", opt_int exit_code)]))
        end
  | _, _ => Ok None
  end.

Definition pod_terminations (e : Evidence) (i : IncidentRecord) (pod : dict) : res (list termination) :=
  if negb (pod_matches_incident pod i) then Ok []
  else
    match text (get pod "uid") with
    | None => Ok []
    | Some uid => omapr (container_termination e i pod uid) (Signals.dict_items (get pod "containers"))
    end.

Definition termination_leb (a b : termination) : bool :=
  lex_leb (lex_leb (lex_leb String.leb Z.leb) String.leb) String.leb a.1 b.1.

(** [max(candidates, key=...)]: the first of the largest. *)
Definition max_termination (first : termination) (rest : list termination) : termination :=
  foldl (fun best t => if termination_leb t best then best else t) first rest.

Definition incident_termination_identity (e : Evidence) (i : IncidentRecord)
    : res (option IncidentSignalIdentity) :=
  candidates ← mapr (pod_terminations e i) (Signals.dict_items (get (kubernetes e) "pods"));
  match mjoin candidates with
  | [] => Ok None
  | first :: rest =>
      identity ← identity_of SIGNAL_IDENTITY_VERSION (max_termination first rest).2; Ok (Some identity)
  end.

(** *** Alerts *)

Definition alert_identity (e : Evidence) (i : IncidentRecord) (alert : dict) : option dict :=
  if negb (bool_decide (text (get alert "status") = Some "firing")) then None
  else
    match text (get alert "fingerprint"), text (get alert "startsAt"), get alert "labels" with
    | Some fingerprint, Some starts_at, VDict labels =>
        if alert_target_matches_incident labels i then
          Some [("version", VStr ALERTMANAGER_SIGNAL_IDENTITY_VERSION); ("workspace_id", VStr (workspace_id e));
                ("cluster_id", VStr (cluster_id e)); ("namespace", namespace i);
                ("resource_kind", VStr (resource_kind i)); ("resource_name", VStr (resource_name i));
                ("symptom", VStr (symptom i)); ("fingerprint", VStr fingerprint); ("starts_at", VStr starts_at)]
        else None
    | _, _, _ => None
    end.

Definition incident_alertmanager_identity (e : Evidence) (i : IncidentRecord)
    : res (option IncidentSignalIdentity) :=
  let alerts := Signals.dict_items (get (mapping (get (metrics e) "alertmanager")) "alerts") in
  match the_one (omap (alert_identity e i) alerts) with
  | None => Ok None
  | Some identity => x ← identity_of ALERTMANAGER_SIGNAL_IDENTITY_VERSION identity; Ok (Some x)
  end.

Definition incident_claim_identity (e : Evidence) (i : IncidentRecord) : res (option IncidentSignalIdentity) :=
  termination ← incident_termination_identity e i;
  match termination with
  | Some x => Ok (Some x)
  | None =>
      alertmanager ← incident_alertmanager_identity e i;
      match alertmanager with
      | Some x => Ok (Some x)
      | None =>
          match text (VStr (object_ref e)) with
          | None => Ok None
          | Some ref =>
              x ← identity_of EVIDENCE_SIGNAL_IDENTITY_VERSION
                    [("version", VStr EVIDENCE_SIGNAL_IDENTITY_VERSION); ("workspace_id", VStr (workspace_id e));
                     ("cluster_id", VStr (cluster_id e)); ("object_ref", VStr ref); ("namespace", namespace i);
                     ("resource_kind", VStr (resource_kind i)); ("resource_name", VStr (resource_name i));
                     ("symptom", VStr (symptom i)); ("first_seen_at", first_seen_at i)];
              Ok (Some x)
          end
      end
  end.

(** ** The worker *)

Definition MANAGEMENT_CLUSTER_ROLE : string := "management".
Definition TARGET_CLUSTER_ROLE : string := "target".

Definition cluster_role_from_registration (registration : option dict) : string :=
  match registration with
  | None | Some [] => TARGET_CLUSTER_ROLE
  | Some d =>
      match get d "settings" with
      | VDict settings =>
          match get settings "cluster_role" with VStr (String _ _ as role) => role | _ => TARGET_CLUSTER_ROLE end
      | _ => TARGET_CLUSTER_ROLE
      end
  end.

Definition is_management_registration (registration : option dict) : bool :=
  str_eqb (cluster_role_from_registration registration) MANAGEMENT_CLUSTER_ROLE.

Definition incident_timeline_severity (severity : string) : string :=
  let normalized := lower (strip severity) in
  if bool_decide (normalized ∈ ["critical"; "high"]) then "critical"
  else if bool_decide (normalized ∈ ["warning"; "medium"]) then "warning"
  else if bool_decide (normalized ∈ ["info"; "low"]) then "info"
  else "unknown".

Record TimelineEvent := {
  source_key : string;
  native_id : string;
  t_workspace_id : string;
  t_cluster_id : string;
  t_correlation_id : string;
  occurred_at : moment;
  t_severity : string;
  t_title : string;
}.

(** The source time as it is written, or the present. *)
Definition incident_occurred_at (source_created_at : string) (now : Z) : res moment :=
  let normalized := strip source_created_at in
  if nonempty normalized then
    m ← raise_none (fromisoformat (replace_char "Z" "+00:00" normalized)) ValueError;
    Ok match m_offset m with Some _ => m | None => Moment (m_wall m) (Some 0) end
  else Ok (Moment now (Some 0)).

Definition between (lo hi : nat) (s : string) : bool := (lo <=? str_len s)%nat && (str_len s <=? hi)%nat.

(** The model validation of the event's fields. *)
Definition incident_timeline_event (source_event_id source_created_at correlation_id : string) (i : IncidentRecord)
    (now : Z) : res TimelineEvent :=
  let key := "incident:" +:+ source_event_id +:+ ":" +:+ incident_id i in
  let title := "Incident " +:+ incident_id i +:+ " detected" in
  occurred ← incident_occurred_at source_created_at now;
  _ ← raise_if (negb (between 1 512 key && nonempty (i_workspace_id i) && nonempty (i_cluster_id i)
                      && between 1 512 (incident_id i) && between 1 512 correlation_id && between 1 1000 title)) ValueError;
  Ok {| source_key := key; native_id := incident_id i; t_workspace_id := i_workspace_id i;
        t_cluster_id := i_cluster_id i; t_correlation_id := correlation_id; occurred_at := occurred;
        t_severity := incident_timeline_severity (severity i); t_title := title |}.

(** The rows the handler writes: claims by workspace, cluster and key, the
    timeline by workspace and source key, and the sequence of each
    workspace. *)
Record db := {
  claims : gmap (string * string * string) (string * dict);
  timeline : gmap (string * string) (Z * TimelineEvent);
  last_sequence : gmap string Z;
}.

Definition claim_incident_signal (s : db) (workspace_id cluster_id key correlation_id : string) (payload : dict)
    : db * bool :=
  match claims s !! (workspace_id, cluster_id, key) with
  | Some _ => (s, false)
  | None => ({| claims := <[(workspace_id, cluster_id, key) := (correlation_id, payload)]> (claims s);
                timeline := timeline s; last_sequence := last_sequence s |}, true)
  end.

Definition append_timeline_event (s : db) (e : TimelineEvent) : db * bool :=
  match timeline s !! (t_workspace_id e, source_key e) with
  | Some _ => (s, false)
  | None =>
      let sequence := default 0 (last_sequence s !! t_workspace_id e) + 1 in
      ({| claims := claims s; timeline := <[(t_workspace_id e, source_key e) := (sequence, e)]> (timeline s);
          last_sequence := <[t_workspace_id e := sequence]> (last_sequence s) |}, true)
  end.

(** What the handler reads: registrations and stored evidence. *)
Record readers := {
  get_cluster_registration : string -> string -> option dict;
  get_evidence_payload : string -> string -> string -> option dict;
}.

Definition has_inline_evidence (e : Evidence) : bool :=
  negb (bool_decide (kubernetes e = []) && bool_decide (metrics e = []) && bool_decide (logs e = [])
        && bool_decide (traces e = [])).

(** The decoded body as a record. *)
Definition evidence_of (o : EventBody.obj) : Evidence :=
  let dict_attr k := mapping (EventBody.to_body_value (RecoveryMerge.attribute o k)) in
  {| cluster_id := RecoveryMerge.attr_str o "cluster_id"; kubernetes := dict_attr "kubernetes";
     metrics := dict_attr "metrics";
     logs := match EventBody.to_body_value (RecoveryMerge.attribute o "logs") with VList l => l | _ => [] end;
     traces := dict_attr "traces"; object_ref := RecoveryMerge.attr_str o "object_ref";
     metadata := dict_attr "metadata"; workspace_id := RecoveryMerge.attr_str o "workspace_id" |}.

Record call := {
  c_evidence : Evidence;
  c_correlation_id : option string;
  c_kind : option string;
  ctx_correlation_id : string;
  ctx_event_id : string;
  ctx_created_at : string;
  c_now : Z;
}.

Definition or_else (o : option string) (fallback : string) : string :=
  match o with Some (String _ _ as s) => s | _ => fallback end.

Definition hydrate_evidence_built (rd : readers) (c : call) : res Evidence :=
  if has_inline_evidence (c_evidence c) then Ok (c_evidence c)
  else
    match get_evidence_payload rd (workspace_id (c_evidence c)) (or_else (c_correlation_id c) (ctx_correlation_id c))
            (or_else (c_kind c) "rca_bundle") with
    | None => Ok (c_evidence c)
    | Some payload => o ← EventBody.from_body EventBodies.Evidence true (VDict payload); Ok (evidence_of o)
    end.

Context (rules : list CauseEngine.EvidenceRequirementRule).

Definition on_evidence_built (rd : readers) (s : db) (c : call) : res (db * list body) :=
  if is_management_registration
       (get_cluster_registration rd (workspace_id (c_evidence c)) (cluster_id (c_evidence c))) then Ok (s, [])
  else
    evidence ← hydrate_evidence_built rd c;
    bodies ← build_bodies rules evidence (ctx_correlation_id c);
    let '(detected_body, next_body) := bodies in
    if negb (detected detected_body) then Ok (s, [])
    else
      match b_incident detected_body with
      | None => Ok (s, [])
      | Some incident =>
          identity ← incident_claim_identity evidence incident;
          match identity with
          | None => Ok (s, [])
          | Some identity =>
              let '(s, claimed) := claim_incident_signal s (workspace_id evidence) (cluster_id evidence)
                                     (signal_key identity) (ctx_correlation_id c) (payload identity) in
              if negb claimed then Ok (s, [])
              else
                event ← incident_timeline_event (ctx_event_id c) (ctx_created_at c) (ctx_correlation_id c) incident (c_now c);
                let '(s, inserted) := append_timeline_event s event in
                Ok (s, if inserted then [Detected detected_body; next_body] else [])
          end
      end.

(** The deliveries one after the other; a handler that raises is rolled
    back. *)
Fixpoint deliver (rd : readers) (s : db) (calls : list call) : db * list (list body) :=
  match calls with
  | [] => (s, [])
  | c :: calls =>
      let '(s, bodies) := match on_evidence_built rd s c with Ok r => r | Err _ => (s, []) end in
      let '(s, rest) := deliver rd s calls in
      (s, bodies :: rest)
  end.

(** ** What is emitted *)

(** The occurrence a delivery is about: the claim it would make. *)
Definition occurrence (rd : readers) (c : call) : option (string * string * string) :=
  match evidence ← hydrate_evidence_built rd c;
        bodies ← build_bodies rules evidence (ctx_correlation_id c);
        match b_incident (bodies.1) with
        | Some incident =>
            identity ← incident_claim_identity evidence incident;
            Ok ((fun x => (workspace_id evidence, cluster_id evidence, signal_key x)) <$> identity)
        | None => Ok None
        end with
  | Ok o => o
  | Err _ => None
  end.

Lemma signal_claim_cases s ws cluster key correlation payload s' b :
  claim_incident_signal s ws cluster key correlation payload = (s', b) ->
  (b = false /\ s' = s /\ is_Some (claims s !! (ws, cluster, key))) \/
  (b = true /\ claims s !! (ws, cluster, key) = None /\ timeline s' = timeline s /\
   last_sequence s' = last_sequence s /\ claims s' = <[(ws, cluster, key) := (correlation, payload)]> (claims s)).
Proof. unfold claim_incident_signal. destruct (_ !! _) eqn:E; intros [= <- <-]; [left; eauto|by right]. Qed.

Lemma append_cases s e s' b :
  append_timeline_event s e = (s', b) ->
  claims s' = claims s /\
  (b = true -> timeline s !! (t_workspace_id e, source_key e) = None /\
     timeline s' = <[(t_workspace_id e, source_key e) := (default 0 (last_sequence s !! t_workspace_id e) + 1, e)]> (timeline s)).
Proof. unfold append_timeline_event. destruct (_ !! _) eqn:E; by intros [= <- <-]. Qed.

(** A body that was detected carries its incident. *)
Lemma detect_body_incident e id d :
  detect_body e id = Ok d ->
  exists incident, classify e id = Ok incident /\ has_signal e = Ok (detected d) /\
    b_incident d = (if detected d then Some incident else None).
Proof.
  unfold detect_body. intros (incident & Hc & (found & Hs & E%Ok_inj)%bind_Ok)%bind_Ok. exists incident. split; [done|].
  destruct found; subst d; done.
Qed.

(** One delivery: either it emits nothing and claims at most its occurrence,
    or it claims a fresh one, records the timeline fact and emits. *)
Lemma handled rd s c s' out :
  on_evidence_built rd s c = Ok (s', out) ->
  claims s ⊆ claims s' /\
  (out = [] \/
   exists evidence d next incident k payload event,
     is_management_registration (get_cluster_registration rd (workspace_id (c_evidence c)) (cluster_id (c_evidence c))) = false /\
     hydrate_evidence_built rd c = Ok evidence /\ build_bodies rules evidence (ctx_correlation_id c) = Ok (d, next) /\
     detected d = true /\ b_incident d = Some incident /\ occurrence rd c = Some k /\ claims s !! k = None /\
     claims s' = <[k := (ctx_correlation_id c, payload)]> (claims s) /\
     incident_timeline_event (ctx_event_id c) (ctx_created_at c) (ctx_correlation_id c) incident (c_now c) = Ok event /\
     timeline s !! (t_workspace_id event, source_key event) = None /\
     (exists n, timeline s' !! (t_workspace_id event, source_key event) = Some (n, event)) /\
     out = [Detected d; next]).
Proof.
  unfold on_evidence_built. destruct (is_management_registration _) eqn:Hm; [by intros [= <- <-]; auto|].
  intros (evidence & He & ([d next] & Hb & E)%bind_Ok)%bind_Ok.
  destruct (detected d) eqn:Hd; cbn [negb] in E; [|injection E as <- <-; auto].
  destruct (b_incident d) as [incident|] eqn:Hi; [|injection E as <- <-; auto].
  apply bind_Ok in E as ([identity|] & Hid & E); [|injection E as <- <-; auto].
  assert (occurrence rd c = Some (workspace_id evidence, cluster_id evidence, signal_key identity)) as Hocc.
  { unfold occurrence. rewrite He. cbn [mbind res_bind]. rewrite Hb. cbn [mbind res_bind fst]. rewrite Hi, Hid. done. }
  destruct (claim_incident_signal _ _ _ _ _ _) as [s1 claimed] eqn:Hc.
  apply signal_claim_cases in Hc as [(-> & -> & Hs)|(-> & Hn & Ht & Hl & Hcl)]; cbn [negb] in E; [injection E as <- <-; auto|].
  apply bind_Ok in E as (event & Hev & E). destruct (append_timeline_event s1 event) as [s2 inserted] eqn:Ha.
  apply append_cases in Ha as [Hcl2 Ha]. injection E as <- <-. rewrite Hcl2, Hcl.
  split; [by apply insert_subseteq|]. destruct inserted; [right|by left].
  destruct (Ha eq_refl) as [Hnew Htl].
  exists evidence, d, next, incident, (workspace_id evidence, cluster_id evidence, signal_key identity), (payload identity), event.
  rewrite <- Ht. split_and!; try done. rewrite Htl, lookup_insert_eq. eauto.
Qed.

Lemma deliver_claims rd s calls s' outs : deliver rd s calls = (s', outs) -> claims s ⊆ claims s'.
Proof.
  revert s outs. induction calls as [|c calls IH]; intros s outs; [by intros [= <- <-]|]. cbn.
  destruct (on_evidence_built rd s c) as [[s1 out]|e] eqn:Hh.
  - destruct (deliver rd s1 calls) as [s2 rest] eqn:Hd. intros [= <- <-].
    etrans; [by apply (handled rd s c s1 out)|by eapply IH].
  - destruct (deliver rd s calls) as [s2 rest] eqn:Hd. intros [= <- <-]. by eapply IH.
Qed.

(** The occurrences of the deliveries that emitted something. *)
Definition emitted (rd : readers) (calls : list call) (outs : list (list body)) : list (option (string * string * string)) :=
  omap (fun co => match co.2 with [] => None | _ => Some (occurrence rd co.1) end) (zip calls outs).

(** C11: An occurrence becomes an incident at most once.  Whatever evidence is
    delivered, in any order and however often, the deliveries that emit an
    incident are about pairwise different occurrences, none of which had been
    claimed before; all of them are claimed afterwards. *)
Theorem incident_emitted_once rd s calls s' outs :
  deliver rd s calls = (s', outs) ->
  NoDup (emitted rd calls outs) /\
  forall o, o ∈ emitted rd calls outs -> exists k, o = Some k /\ claims s !! k = None /\ is_Some (claims s' !! k).
Proof.
  revert s outs. induction calls as [|c calls IH]; intros s outs.
  { intros [= <- <-]. split; [constructor|by intros o ?%not_elem_of_nil]. }
  cbn [deliver]. destruct (on_evidence_built rd s c) as [[s1 out]|e] eqn:Hh.
  2: { destruct (deliver rd s calls) as [s2 rest] eqn:Hd. intros [= <- <-]. by apply IH in Hd. }
  destruct (deliver rd s1 calls) as [s2 rest] eqn:Hd. intros [= <- <-].
  apply handled in Hh as [Hsub Hout]. pose proof (deliver_claims _ _ _ _ _ Hd) as Hsub'. apply IH in Hd as [Hnd Hall].
  assert (forall o, o ∈ emitted rd calls rest -> exists k, o = Some k /\ claims s !! k = None /\ is_Some (claims s2 !! k)) as Hrest.
  { intros o (k & -> & Hn & Hs)%Hall. exists k. split_and!; try done. by eapply lookup_weaken_None. }
  destruct Hout as [->|(evidence & d & next & incident & k & payload & event & _ & _ & _ & _ & _ & Hocc & Hnone & Hcl & _ & _ & _ & ->)].
  { by split. }
  change (emitted rd (c :: calls) ([Detected d; next] :: rest)) with (occurrence rd c :: emitted rd calls rest).
  rewrite Hocc. assert (claims s1 !! k = Some (ctx_correlation_id c, payload)) as Hk by (by rewrite Hcl, lookup_insert_eq).
  split.
  - constructor; [|done]. intros (k' & [= <-] & Hn & _)%Hall. congruence.
  - intros o [->|Ho]%elem_of_cons; [|by apply Hrest]. exists k. split_and!; try done.
    exists (ctx_correlation_id c, payload). by eapply lookup_weaken.
Qed.

(** *** The same termination seen again *)

Lemma termination_identity_stable e e' i i' :
  workspace_id e = workspace_id e' -> cluster_id e = cluster_id e' ->
  get (kubernetes e) "pods" = get (kubernetes e') "pods" ->
  namespace i = namespace i' -> resource_kind i = resource_kind i' -> resource_name i = resource_name i' ->
  incident_termination_identity e i = incident_termination_identity e' i'.
Proof.
  intros Hw Hc Hp Hn Hk Hr. unfold incident_termination_identity, pod_terminations, pod_matches_incident, container_termination.
  by rewrite Hw, Hc, Hp, Hn, Hk, Hr.
Qed.

(** A delivery that is not ignored is about an occurrence. *)
Lemma handled_occurrence rd s c s' out :
  on_evidence_built rd s c = Ok (s', out) ->
  (s' = s /\ out = []) \/
  exists evidence incident identity,
    hydrate_evidence_built rd c = Ok evidence /\ classify evidence (ctx_correlation_id c) = Ok incident /\
    incident_claim_identity evidence incident = Ok (Some identity) /\
    claims s !! (workspace_id evidence, cluster_id evidence, signal_key identity) = None /\
    is_Some (claims s' !! (workspace_id evidence, cluster_id evidence, signal_key identity)).
Proof.
  unfold on_evidence_built. destruct (is_management_registration _) eqn:Hm; [by intros [= <- <-]; auto|].
  intros (evidence & He & ([d next] & Hb & E)%bind_Ok)%bind_Ok.
  destruct (detected d) eqn:Hd; cbn [negb] in E; [|injection E as <- <-; auto].
  destruct (b_incident d) as [incident|] eqn:Hi; [|injection E as <- <-; auto].
  apply bind_Ok in E as ([identity|] & Hid & E); [|injection E as <- <-; auto].
  destruct (claim_incident_signal _ _ _ _ _ _) as [s1 claimed] eqn:Hc.
  apply signal_claim_cases in Hc as [(-> & -> & Hs)|(-> & Hn & Ht & Hl & Hcl)]; cbn [negb] in E; [injection E as <- <-; auto|].
  apply bind_Ok in E as (event & Hev & E). destruct (append_timeline_event s1 event) as [s2 inserted] eqn:Ha.
  apply append_cases in Ha as [Hcl2 _]. injection E as <- _. right. exists evidence, incident, identity.
  apply bind_Ok in Hb as (d' & Hdet & (n & _ & [= -> ->])%bind_Ok).
  apply detect_body_incident in Hdet as (i & Hcl' & _ & Hbi). rewrite Hd, Hi in Hbi. injection Hbi as ->.
  split_and!; try done. rewrite Hcl2, Hcl, lookup_insert_eq. eauto.
Qed.

Lemma claim_of_termination e i x y :
  incident_termination_identity e i = Ok (Some x) -> incident_claim_identity e i = Ok (Some y) -> y = x.
Proof. unfold incident_claim_identity. intros ->. by intros [= ->]. Qed.

(** Snapshots are polled, so the last termination of a container stays
    visible.  Once an incident has been emitted for it, later evidence of the
    same workspace and cluster that shows the same pods, and is about the same
    resource, is silent, whatever else it contains. *)
Theorem repolled_termination_is_silent rd s c s1 out s1' c' s2 out' e e' i i' x :
  hydrate_evidence_built rd c = Ok e -> hydrate_evidence_built rd c' = Ok e' ->
  workspace_id e = workspace_id e' -> cluster_id e = cluster_id e' ->
  get (kubernetes e) "pods" = get (kubernetes e') "pods" ->
  classify e (ctx_correlation_id c) = Ok i -> classify e' (ctx_correlation_id c') = Ok i' ->
  namespace i = namespace i' -> resource_kind i = resource_kind i' -> resource_name i = resource_name i' ->
  incident_termination_identity e i = Ok (Some x) ->
  on_evidence_built rd s c = Ok (s1, out) -> out <> [] -> claims s1 ⊆ claims s1' ->
  on_evidence_built rd s1' c' = Ok (s2, out') -> out' = [] /\ s2 = s1'.
Proof.
  intros He He' Hw Hc Hp Hi Hi' Hn Hk Hr Hx Ho Hne Hsub Ho'.
  destruct (handled_occurrence _ _ _ _ _ Ho) as [[_ ->]|(e1 & i1 & x1 & E1 & E2 & E3 & _ & Hcl)]; [done|].
  destruct (handled_occurrence _ _ _ _ _ Ho') as [[-> ->]|(e2 & i2 & x2 & E4 & E5 & E6 & Hnone & _)]; [done|].
  rewrite He in E1. apply Ok_inj in E1 as <-. rewrite Hi in E2. apply Ok_inj in E2 as <-.
  rewrite He' in E4. apply Ok_inj in E4 as <-. rewrite Hi' in E5. apply Ok_inj in E5 as <-.
  pose proof Hx as Hx'. rewrite (termination_identity_stable _ e' _ i') in Hx' by done.
  rewrite (claim_of_termination _ _ _ _ Hx E3), Hw, Hc in Hcl.
  rewrite (claim_of_termination _ _ _ _ Hx' E6) in Hnone.
  destruct Hcl as [r Hr']. eapply lookup_weaken in Hr'; [|exact Hsub]. congruence.
Qed.

(** *** What an emitted incident rests on *)

(** Why evidence counts as an incident. *)
Definition grounded (e : Evidence) : Prop :=
  (exists d, Symptom.derive_symptom (kubernetes e) = Ok d /\
     (Symptom.d_signal d <> None \/ Symptom.d_symptom d <> Symptom.UNKNOWN_SYMPTOM)) \/
  (exists now samples sample l, evidence_collected_at (kubernetes e) = Ok now /\ iter_log_samples (logs e) now = Ok samples /\
     sample ∈ samples /\ sample_signal sample = Ok (Some l) /\
     strip (str_or_empty (s_namespace sample)) ∉ CONTROL_PLANE_LOG_NAMESPACES) \/
  has_firing_alert (metrics e) = true.

Lemma first_signal_elem samples l :
  first_signal samples = Ok (Some l) -> exists sample, sample ∈ samples /\ sample_signal sample = Ok (Some l).
Proof.
  induction samples as [|s samples IH]; [done|]. cbn. intros (found & Hf & E)%bind_Ok.
  destruct found as [x|]; [injection E as ->; exists s; split; [apply list_elem_of_here|done]|].
  destruct (IH E) as (sample & Hin & Hs). exists sample. split; [by apply list_elem_of_further|done].
Qed.

Lemma has_signal_grounded e : has_signal e = Ok true -> grounded e.
Proof.
  unfold has_signal, grounded. intros (d & Hd & E)%bind_Ok. destruct (is_silent d) eqn:Hs; cbn [negb] in E.
  - apply bind_Ok in E as (now & Hnow & (o & Ho & E)%bind_Ok). destruct o as [l|]; [|injection E as E; auto].
    right. left. unfold derive_log_incident_signal in Ho. apply bind_Ok in Ho as (samples & Hsm & Hf).
    destruct (first_signal_elem _ _ Hf) as (sample & Hin & Hl). exists now, samples, sample, l. split_and!; try done.
    intros Hcp. unfold sample_signal in Hl. by rewrite bool_decide_true in Hl.
  - left. exists d. split; [done|]. unfold is_silent in Hs. apply andb_false_iff in Hs as [Hs|Hs].
    + left. by apply bool_decide_eq_false in Hs.
    + right. intros E'. by rewrite E', str_eqb_refl in Hs.
Qed.

(** An emitted incident is grounded and accounted for.  Its cluster is not a
    management cluster; the evidence has a symptom, a failing log line of an
    application namespace or a firing alert; two bodies are emitted, the
    detection and a bundle built from that evidence, both about the same
    incident; the claim names the delivery and the timeline has the fact. *)
Theorem emitted_incident_is_grounded rd s c s' out :
  on_evidence_built rd s c = Ok (s', out) -> out <> [] ->
  is_management_registration (get_cluster_registration rd (workspace_id (c_evidence c)) (cluster_id (c_evidence c))) = false /\
  exists e d i bundle k claim event n,
    hydrate_evidence_built rd c = Ok e /\ grounded e /\ classify e (ctx_correlation_id c) = Ok i /\
    b_incident d = Some i /\ incident_id i = ctx_correlation_id c /\
    build_incident_evidence_bundle rules (Built e) (record_of i) = Ok bundle /\
    out = [Detected d; BundleBuilt (compact_evidence_reference e) i bundle] /\
    occurrence rd c = Some k /\ claims s' !! k = Some (ctx_correlation_id c, claim) /\
    native_id event = incident_id i /\ timeline s' !! (t_workspace_id event, source_key event) = Some (n, event).
Proof.
  intros Ho Hne. apply handled in Ho as [_ [?|(e & d & next & i & k & claim & event & Hm & He & Hb & Hd & Hi & Hocc & _ & Hcl & Hev & _ & [n Hn] & ->)]]; [done|].
  split; [done|]. apply bind_Ok in Hb as (d' & Hdet & (next' & Hnext & [= -> ->])%bind_Ok).
  pose proof Hdet as (i' & Hclass & Hsig & Hbi)%detect_body_incident. rewrite Hd in Hsig. rewrite Hd, Hi in Hbi. injection Hbi as <-.
  unfold build_body in Hnext. cbn [b_evidence b_incident detected] in Hnext. rewrite Hi, Hd in Hnext. cbn [negb] in Hnext.
  apply bind_Ok in Hnext as (bundle & Hbundle & E%Ok_inj). subst next.
  exists e, d, i, bundle, k, claim, event, n. split_and!; try done.
  - by apply has_signal_grounded.
  - unfold classify in Hclass. apply bind_Ok in Hclass as (dd & _ & (ll & _ & E)%bind_Ok). repeat case_match; by injection E as <-.
  - by rewrite Hcl, lookup_insert_eq.
  - unfold incident_timeline_event in Hev. apply bind_Ok in Hev as (m & _ & (u & _ & E)%bind_Ok). by injection E as <-.
Qed.
End identity.
End detection.

(** ** A container that ran out of memory *)
Module Sample.
#[local] Existing Instance Demo.plain_repr.
#[local] Instance hash : Sha256 := Demo.constant_hash "h".
#[local] Existing Instance coded_iso.

(** The one JSON line of the example; [json.loads] reads the number as
    infinity. *)
Definition bad_line : string := "a status of 1e999".
#[local] Instance json : JsonLib :=
  {| json_loads l := if str_eqb l bad_line then Ok (VDict [("status", VFloat (SpecFloat.S754_infinity false))])
                     else Err JSONDecodeError |}.

Definition container : dict :=
  [("name", VStr "orders"); ("last_state", VStr "Terminated"); ("last_state_reason", VStr "OOMKilled");
   ("restart_count", VInt 4); ("last_finished_at", VStr "2024-05-01T10:00:00Z"); ("last_exit_code", VInt 137)].
Definition crashed_pod : dict :=
  Symptom.Sample.pod "orders-7d9-a" "CrashLoopBackOff" 4 "False"
  ++ [("uid", VStr "u1"); ("containers", VList [VDict container])].
Definition evidence (ref : string) (logs : list pyval) : Evidence :=
  {| cluster_id := "c1"; kubernetes := [("pods", VList [VDict crashed_pod])]; metrics := []; logs := logs;
     traces := []; object_ref := ref; metadata := []; workspace_id := "w" |}.
Definition the_call (e : Evidence) (id : string) : call :=
  {| c_evidence := e; c_correlation_id := None; c_kind := None; ctx_correlation_id := id; ctx_event_id := "ev-" +:+ id;
     ctx_created_at := ""; c_now := 0 |}.
Definition rd : readers := {| get_cluster_registration _ _ := None; get_evidence_payload _ _ _ := None |}.
Definition empty : db := {| claims := ∅; timeline := ∅; last_sequence := ∅ |}.

Definition first : call := the_call (evidence "object://evidence/a.json" []) "i1".
Definition again : call := the_call (evidence "object://evidence/b.json" [VDict [("line", VStr "ok")]]) "i2".
Definition after_first : db := match on_evidence_built [] rd empty first with Ok (s, _) => s | Err _ => empty end.
Definition emitted_bodies : list body := match on_evidence_built [] rd empty first with Ok (_, out) => out | Err _ => [] end.

Definition incident (id : string) : IncidentRecord :=
  match classify (c_evidence first) id with
  | Ok i => i
  | Err _ => {| incident_id := ""; i_cluster_id := ""; resource_kind := ""; resource_name := ""; namespace := VNone;
                symptom := ""; severity := ""; category := None; first_seen_at := VNone; i_summary := "";
                i_workspace_id := ""; secondary_symptoms := [] |}
  end.

Example first_ok : is_ok (on_evidence_built [] rd empty first) = true.
Proof. vm_compute. reflexivity. Qed.
Example first_handled : on_evidence_built [] rd empty first = Ok (after_first, emitted_bodies).
Proof.
  unfold after_first, emitted_bodies. pose proof first_ok as E.
  destruct (on_evidence_built [] rd empty first) as [[s out]|e]; [reflexivity|discriminate E].
Qed.

Lemma incident_emitted_once_witness :
  NoDup (emitted [] rd [first; again; first] (deliver [] rd empty [first; again; first]).2) /\
  length (emitted [] rd [first; again; first] (deliver [] rd empty [first; again; first]).2) = 1%nat.
Proof.
  split; [|vm_compute; reflexivity].
  refine (proj1 (incident_emitted_once [] rd empty [first; again; first] (deliver [] rd empty [first; again; first]).1 _ _)).
  apply surjective_pairing.
Defined.

Example again_ok : is_ok (on_evidence_built [] rd after_first again) = true.
Proof. vm_compute. reflexivity. Qed.

Lemma repolled_termination_is_silent_witness :
  exists s out, on_evidence_built [] rd after_first again = Ok (s, out) /\ out = [].
Proof.
  pose proof again_ok as Hok.
  destruct (on_evidence_built [] rd after_first again) as [[s out]|e] eqn:E; [|discriminate Hok].
  exists s, out. split; [reflexivity|].
  destruct (incident_termination_identity (c_evidence first) (incident "i1")) as [[x|]|] eqn:Ex;
    [|vm_compute in Ex; discriminate Ex..].
  refine (proj1 (repolled_termination_is_silent [] rd empty first after_first emitted_bodies after_first again s out
    (c_evidence first) (c_evidence again) (incident "i1") (incident "i2") x
    eq_refl eq_refl eq_refl eq_refl eq_refl _ _ eq_refl eq_refl eq_refl Ex first_handled _ _ E)).
  - vm_compute. reflexivity.
  - vm_compute. reflexivity.
  - intros E'. vm_compute in E'. discriminate E'.
  - reflexivity.
Defined.

Lemma emitted_incident_is_grounded_witness :
  exists e, hydrate_evidence_built rd first = Ok e /\ grounded e.
Proof.
  destruct (emitted_incident_is_grounded [] rd empty first after_first emitted_bodies first_handled)
    as (_ & e & d & i & b & k & claim & event & n & He & Hg & _).
  - intros E'. vm_compute in E'. discriminate E'.
  - exists e. split; [exact He|exact Hg].
Defined.

(** A log line whose status is too large for a float stops the detection:
    [int] of an infinite float raises an error that is not caught, and the
    delivery fails however often it is repeated. *)
Lemma infinite_status_stops_detection s :
  on_evidence_built [] rd s
    (the_call {| cluster_id := "c1"; kubernetes := [("pods", VList [])]; metrics := [];
                 logs := [VDict [("line", VStr bad_line)]]; traces := []; object_ref := "r"; metadata := [];
                 workspace_id := "w" |} "i3") = Err OverflowError.
Proof. vm_compute. reflexivity. Qed.
End Sample.
End IncidentDetection.
