(* ===== verification/AnalysisPipeline.v ===== *)
(** * From a bundle to a report

    [src/src/services/ai/agent/pipeline/causes.py] and the handlers of
    [services/ai/rca-worker/app.py], with the backlog of missing rules and the
    reports of [domains/rca/repository.py]: what is published at each step,
    and the composition of detection, analysis and planning. *)
From S2P Require Import Prelude PyStr PyFloat PyVal PyTime Libs Demo Signals CauseEngine Symptom EvidenceBundle IncidentDetection.
From S2P Require Import RecoveryMerge RecoveryReplacements RecoveryDispatch RecoveryPlanner.

Module AnalysisPipeline.
Import CauseEngine.

Definition BACKLOG_STATUS_OPEN : string := "open".
Definition BACKLOG_STATUS_RESOLVED : string := "resolved".
Definition BACKLOG_RULE_RESOLVED_REASON : string := "matching RCA rule is now available".
Definition recommended_action : string := "plan_recovery".

(** ** Bodies *)

Record EvidenceBundleBuiltBody := {
  bb_evidence : EvidenceBundle.Evidence;
  bb_incident : IncidentRecord;
  bb_bundle : Signals.EvidenceBundle;
}.

Record RcaCandidatesPlannedBody := {
  cp_candidate_count : Z;
  cp_evidence_ref : string;
  cp_candidates : list CauseCandidate;
  cp_workspace_id : string;
  cp_evidence : option EvidenceBundle.Evidence;
  cp_incident : option IncidentRecord;
  cp_bundle : option Signals.EvidenceBundle;
  cp_rule_missing : option RcaRuleMissing;
}.

Record RcaCandidatesEvaluatedBody := {
  ce_planned : RcaCandidatesPlannedBody;
  ce_evaluations : list CauseEvaluation;
}.

(** A completed or blocked analysis carries the evaluated body. *)
Record RcaCompletedBody := {
  cb_root_cause : string;
  cb_action : string;
  cb_evaluated : RcaCandidatesEvaluatedBody;
  cb_detail : RcaReportDetail;
}.

Record RcaAnalysisBlockedBody := {
  bl_reason_code : string;
  bl_evaluated : RcaCandidatesEvaluatedBody;
  bl_detail : RcaReportDetail;
}.

(** Without the copy of the bodies in its payload. *)
Record RcaBacklogItemCreatedBody := {
  bi_backlog_id : string;
  bi_title : string;
  bi_reason : string;
  bi_evidence_ref : string;
  bi_incident_id : string;
  bi_symptom : string;
  bi_missing_evidence : list string;
  bi_status : string;
  bi_workspace_id : string;
}.

Inductive event :=
  | RuleMissing (rule_missing : RcaRuleMissing) (incident : IncidentRecord)
  | BacklogItemCreated (b : RcaBacklogItemCreatedBody)
  | CandidatesPlanned (b : RcaCandidatesPlannedBody)
  | CandidatesEvaluated (b : RcaCandidatesEvaluatedBody)
  | Completed (b : RcaCompletedBody)
  | AnalysisBlocked (b : RcaAnalysisBlockedBody)
  | PipelineContractFailed (contract reason consumer workspace_id evidence_ref : string)
  | ActionRequired (reason evidence_ref workspace_id : string).

(** The report as the planner reads it. *)
Definition report_of (b : RcaCompletedBody) : RecoveryPlanner.RcaCompletedBody :=
  let p := ce_planned (cb_evaluated b) in
  {| RecoveryPlanner.rc_evidence_ref := cp_evidence_ref p; RecoveryPlanner.rc_workspace_id := cp_workspace_id p;
     RecoveryPlanner.rc_incident := cp_incident p; RecoveryPlanner.rc_evidence_bundle := cp_bundle p;
     RecoveryPlanner.rc_rca_detail := Some (cb_detail b) |}.

(** ** The backlog *)

Record backlog_row := { bl_item : RcaBacklogItemCreatedBody; occurrence_count : Z }.

Definition backlog_id_of (workspace_id symptom : string) : string :=
  "missing-cause-rule:" +:+ workspace_id +:+ ":" +:+ symptom.

(** A conflict keeps the workspace, the symptom and the title of the row. *)
Definition upsert_rca_backlog_item (t : gmap string backlog_row) (b : RcaBacklogItemCreatedBody) : gmap string backlog_row :=
  match t !! bi_backlog_id b with
  | None => <[bi_backlog_id b := {| bl_item := b; occurrence_count := 1 |}]> t
  | Some row =>
      <[bi_backlog_id b :=
          {| bl_item := {| bi_backlog_id := bi_backlog_id b; bi_title := bi_title (bl_item row); bi_reason := bi_reason b;
                           bi_evidence_ref := bi_evidence_ref b; bi_incident_id := bi_incident_id b;
                           bi_symptom := bi_symptom (bl_item row); bi_missing_evidence := bi_missing_evidence b;
                           bi_status := bi_status b; bi_workspace_id := bi_workspace_id (bl_item row) |};
             occurrence_count := occurrence_count row + 1 |}]> t
  end.

Definition resolved_item (b : RcaBacklogItemCreatedBody) (reason : string) : RcaBacklogItemCreatedBody :=
  {| bi_backlog_id := bi_backlog_id b; bi_title := bi_title b; bi_reason := reason; bi_evidence_ref := bi_evidence_ref b;
     bi_incident_id := bi_incident_id b; bi_symptom := bi_symptom b; bi_missing_evidence := bi_missing_evidence b;
     bi_status := BACKLOG_STATUS_RESOLVED; bi_workspace_id := bi_workspace_id b |}.

Definition resolve_rca_backlog_item_for_rule (t : gmap string backlog_row) (workspace_id symptom reason : string)
    : gmap string backlog_row * Z :=
  match t !! backlog_id_of workspace_id symptom with
  | Some row =>
      if str_eqb (bi_workspace_id (bl_item row)) workspace_id && str_eqb (bi_status (bl_item row)) BACKLOG_STATUS_OPEN
      then (<[backlog_id_of workspace_id symptom :=
                {| bl_item := resolved_item (bl_item row) reason; occurrence_count := occurrence_count row |}]> t, 1)
      else (t, 0)
  | None => (t, 0)
  end.

Record report_row := {
  rr_workspace_id : string;
  rr_correlation_id : string;
  rr_root_cause : string;
  rr_action : string;
  rr_analysis_status : string;
}.

Record db := { backlog : gmap string backlog_row; reports : list report_row }.

Section pipeline.
Context `{ReprLib} `{IsoTime} `{JsonLib}.
(** The registered profiles. *)
Context (profiles : list CauseProfile).

(** ** The steps *)

Definition plan_body (evt : EvidenceBundleBuiltBody) : RcaCandidatesPlannedBody :=
  let ref := EvidenceBundle.object_ref (bb_evidence evt) in
  let plan := plan_causes (bb_incident evt) (bb_bundle evt) ref (cause_rules profiles) in
  {| cp_candidate_count := Z.of_nat (candidate_count plan); cp_evidence_ref := ref; cp_candidates := candidates plan;
     cp_workspace_id := EvidenceBundle.workspace_id (bb_evidence evt); cp_evidence := Some (bb_evidence evt);
     cp_incident := Some (bb_incident evt); cp_bundle := Some (bb_bundle evt); cp_rule_missing := rule_missing plan |}.

Definition build_backlog_item_created_body (rm : RcaRuleMissing) : RcaBacklogItemCreatedBody :=
  {| bi_backlog_id := backlog_id_of (rm_workspace_id rm) (rm_symptom rm);
     bi_title := "RCA rule 추가 필요: " +:+ rm_symptom rm; bi_reason := NO_MATCHING_RULE_MESSAGE;
     bi_evidence_ref := rm_evidence_ref rm; bi_incident_id := rm_incident_id rm; bi_symptom := rm_symptom rm;
     bi_missing_evidence := rm_missing_evidence rm; bi_status := BACKLOG_STATUS_OPEN;
     bi_workspace_id := rm_workspace_id rm |}.

Definition plan_bodies (evt : EvidenceBundleBuiltBody) : list event :=
  let planned := plan_body evt in
  match cp_rule_missing planned with
  | None => [CandidatesPlanned planned]
  | Some rm => [RuleMissing rm (bb_incident evt); BacklogItemCreated (build_backlog_item_created_body rm);
                CandidatesPlanned planned]
  end.

Definition evaluate_body (evt : RcaCandidatesPlannedBody) : res event :=
  match cp_bundle evt with
  | None =>
      Ok (PipelineContractFailed "RcaCandidatesPlannedBody.evidence_bundle" RecoveryPlanner.missing_analysis_context
            "analyze-worker" (cp_workspace_id evt) (cp_evidence_ref evt))
  | Some bundle =>
      evaluations ← evaluate_causes (cp_candidates evt) bundle (cp_rule_missing evt);
      Ok (CandidatesEvaluated {| ce_planned := evt; ce_evaluations := evaluations |})
  end.

Definition complete_body (evt : RcaCandidatesEvaluatedBody) : event :=
  let p := ce_planned evt in
  match cp_evidence p, cp_incident p, cp_bundle p with
  | Some _, Some _, Some _ =>
      let detail := analyze_root_cause (ce_evaluations evt) in
      match block_reason_code (cp_rule_missing p) detail with
      | Some code => AnalysisBlocked {| bl_reason_code := code; bl_evaluated := evt; bl_detail := detail |}
      | None => Completed {| cb_root_cause := root_cause detail; cb_action := recommended_action; cb_evaluated := evt;
                             cb_detail := detail |}
      end
  | _, _, _ => ActionRequired RecoveryPlanner.missing_analysis_context (cp_evidence_ref p) (cp_workspace_id p)
  end.

(** ** The handlers *)

Definition on_evidence_bundle_built (s : db) (evt : EvidenceBundleBuiltBody) : db * list event :=
  let bodies := plan_bodies evt in
  (match cp_rule_missing (plan_body evt) with
   | None =>
       {| backlog := (resolve_rca_backlog_item_for_rule (backlog s) (EvidenceBundle.workspace_id (bb_evidence evt))
                        (symptom (bb_incident evt)) BACKLOG_RULE_RESOLVED_REASON).1; reports := reports s |}
   | Some _ => s
   end, bodies).

Definition on_candidates_planned (evt : RcaCandidatesPlannedBody) : res (list event) :=
  body ← evaluate_body evt; Ok [body].

Definition save_rca_report (s : db) (correlation_id workspace_id root_cause action status : string) : db :=
  {| backlog := backlog s;
     reports := reports s ++ [{| rr_workspace_id := workspace_id; rr_correlation_id := correlation_id;
                                 rr_root_cause := root_cause; rr_action := action; rr_analysis_status := status |}] |}.

Definition on_candidates_evaluated (s : db) (evt : RcaCandidatesEvaluatedBody) (correlation_id : string) : db * list event :=
  let result := complete_body evt in
  (match result with
   | Completed b =>
       save_rca_report s correlation_id (cp_workspace_id (ce_planned evt)) (cb_root_cause b) (cb_action b) "completed"
   | AnalysisBlocked _ =>
       save_rca_report s correlation_id (cp_workspace_id (ce_planned evt)) "insufficient_evidence"
         "추가 근거 수집 후 RCA 재분석" "blocked"
   | _ => s
   end, [result]).

(** The three handlers one after the other, as the events chain them. *)
Definition analyse (evt : EvidenceBundleBuiltBody) : res event :=
  evaluated ← evaluate_body (plan_body evt);
  Ok match evaluated with CandidatesEvaluated e => complete_body e | other => other end.

(** ** What a completed analysis rests on *)

(** The specifications of a cause that the profiles declare for a symptom. *)
Definition declared (symptom_ : string) (cause : string) (spec : CauseCandidateSpec) : Prop :=
  exists p, p ∈ profiles /\ symptom_ ∈ symptoms p /\ spec ∈ candidate_specs p /\ cs_candidate_id spec = cause.

Lemma planned_is_declared incident bundle cause c :
  c ∈ with_id cause (planned incident bundle (cause_rules profiles)) <->
  exists spec, declared (symptom incident) cause spec /\ c = to_candidate spec.
Proof.
  unfold with_id, planned. rewrite elem_of_keep, list_elem_of_In, in_flat_map. setoid_rewrite <- list_elem_of_In.
  unfold cause_rules. setoid_rewrite list_elem_of_fmap. setoid_rewrite str_eqb_eq. split.
  - intros [(rule & (p & -> & Hp) & Hin) Hid]. cbn in Hin. case_bool_decide as Hs; [|by apply not_elem_of_nil in Hin].
    apply list_elem_of_fmap in Hin as (spec & -> & Hspec). exists spec. split; [by exists p|done].
  - intros (spec & (p & Hp & Hs & Hspec & Hid) & ->). split; [|done].
    eexists. split; [by exists p|]. cbn. rewrite bool_decide_true by done. by apply list_elem_of_fmap_2.
Qed.

(** The candidate of a cause joins the specifications the profiles declare
    for it: it expects the evidence of each of them, and holds the signal
    groups of the first and, under its id, every group of the others. *)
Lemma planned_candidate_declared incident bundle ref c :
  c ∈ candidates (plan_causes incident bundle ref (cause_rules profiles)) ->
  (exists spec, declared (symptom incident) (candidate_id c) spec /\
     forall g, g ∈ cs_signals spec -> VDict g ∈ signals c) /\
  (forall spec, declared (symptom incident) (candidate_id c) spec ->
     (forall k, k ∈ cs_expected_evidence spec -> k ∈ expected_evidence c) /\
     forall g, g ∈ cs_signals spec -> exists g', g' ∈ signals c /\ same_group (VDict g) g').
Proof.
  unfold plan_causes. set (ps := planned incident bundle (cause_rules profiles)).
  destruct (merge_candidates ps) as [|m ms] eqn:Hm; [by intros ?%not_elem_of_nil|]. cbn [candidates]. rewrite <- Hm.
  intros Hc. destruct (merge_candidates_spec ps) as [_ Hfrom].
  destruct (Hfrom c Hc) as ((c0 & rest & Hw & _ & _ & _ & Hfirst) & He & _ & Hg & _). split.
  - assert (c0 ∈ with_id (candidate_id c) ps) as (spec & Hd & ->)%planned_is_declared
      by (rewrite Hw; apply list_elem_of_here).
    exists spec. split; [done|]. intros g Hin. apply Hfirst. by apply list_elem_of_fmap_2.
  - intros spec Hd. assert (to_candidate spec ∈ with_id (candidate_id c) ps) as Hin
      by (apply planned_is_declared; eauto).
    split; [intros k Hk; apply He; eauto|]. intros g Hgin. apply (Hg _ (VDict g) Hin).
    by apply list_elem_of_fmap_2.
Qed.

Lemma analyse_completed evt b :
  analyse evt = Ok (Completed b) ->
  exists es, evaluate_causes (candidates (plan_causes (bb_incident evt) (bb_bundle evt)
      (EvidenceBundle.object_ref (bb_evidence evt)) (cause_rules profiles))) (bb_bundle evt) None = Ok es /\
    cp_rule_missing (plan_body evt) = None /\ block_reason_code None (analyze_root_cause es) = None /\
    cb_detail b = analyze_root_cause es /\ cb_root_cause b = root_cause (analyze_root_cause es) /\
    cb_evaluated b = {| ce_planned := plan_body evt; ce_evaluations := es |}.
Proof.
  unfold analyse, evaluate_body. cbn [cp_bundle plan_body]. intros (ev & (es & Hes & E%Ok_inj)%bind_Ok & E')%bind_Ok.
  subst ev. apply Ok_inj in E'. unfold complete_body in E'. cbn [ce_planned cp_evidence cp_incident cp_bundle plan_body] in E'.
  cbn [cp_candidates cp_rule_missing plan_body] in Hes, E'.
  destruct (block_reason_code _ _) as [code|] eqn:Hb; [done|]. injection E' as <-. exists es.
  assert (rule_missing (plan_causes (bb_incident evt) (bb_bundle evt) (EvidenceBundle.object_ref (bb_evidence evt))
    (cause_rules profiles)) = None) as Hrm.
  { unfold block_reason_code in Hb. destruct (rule_missing _); [|done]. by rewrite bool_decide_true in Hb. }
  cbn [cp_rule_missing plan_body]. rewrite Hrm in Hes, Hb. by split_and!.
Qed.

(** A bundle holds an item for a piece of expected evidence: of that source,
    or of that source and name. *)
Definition holds (bundle : Signals.EvidenceBundle) (k : string) : Prop :=
  exists item, item ∈ Signals.items bundle /\
    (k = Signals.source item \/ k = Signals.source item +:+ ":" +:+ Signals.name item).

(** A bundle proves a cause for a symptom: the profiles declare it, one
    declaration has all its signal groups matched, and every declaration has
    all the evidence it expects, and for each of its signal groups a matched
    group that is the same or has the same id. *)
Definition proved (bundle : Signals.EvidenceBundle) (symptom_ cause : string) : Prop :=
  exists sig, Signals.extract_bundle_signals bundle = Ok sig /\
    (exists spec, declared symptom_ cause spec /\
       forall g, g ∈ cs_signals spec -> Signals.match_signal_group (VDict g) sig = Ok true) /\
    (forall spec, declared symptom_ cause spec ->
       (forall k, k ∈ cs_expected_evidence spec -> holds bundle k) /\
       (forall g, g ∈ cs_signals spec ->
          exists g', same_group (VDict g) g' /\ Signals.match_signal_group g' sig = Ok true)).

Lemma completed_is_proved evt b :
  analyse evt = Ok (Completed b) ->
  proved (bb_bundle evt) (symptom (bb_incident evt)) (root_cause (cb_detail b)) /\
  confidence (cb_detail b) = flit "1.0".
Proof.
  intros (es & Hes & _ & Hb & Hd & _ & _)%analyse_completed. rewrite Hd.
  destruct (analyze_cases _ Hb) as (e & He & Hs & Hm & Hsel). rewrite Hsel.
  destruct (evaluate_causes_None _ _ _ Hes) as (sig & Hsig & Hall). destruct (Hall e He) as (c & Hc & Hcand).
  destruct (nothing_missing _ _ _ _ Hcand Hm Hs) as (Hev & Hsg & Hscore).
  destruct (planned_candidate_declared _ _ _ _ Hc) as [(spec & Hspec & Hfirst) Hspecs].
  assert (root_cause (selected_detail e) = candidate_id c) as Hid by (cbn; by erewrite evaluate_candidate_id).
  split; [|done]. rewrite Hid. exists sig. split; [done|]. split; [exists spec; auto|].
  intros spec' [Hexp Hsame]%Hspecs. split.
  - intros k Hk%Hexp%Hev. unfold evidence_keys in Hk.
    apply list_elem_of_In, in_flat_map in Hk as (item & Hi%list_elem_of_In & Hk%list_elem_of_In). exists item. split; [done|].
    apply elem_of_cons in Hk as [->|[->|[]%not_elem_of_nil]%elem_of_cons]; auto.
  - intros g (g' & Hg' & Hgg)%Hsame. exists g'. auto.
Qed.

(** ** From evidence to a plan *)

Lemma planned_identity r draft plan ws :
  RecoveryPlanner.plan_body r = RecoveryPlanner.RecoveryPlanned draft plan ws ->
  exists c, RecoveryPlanner.build_recovery_context r = Some c /\ ws = RecoveryPlanner.rc_workspace_id r /\
    RecoveryPlanner.p_incident_id plan = incident_id (RecoveryPlanner.incident c) /\
    RecoveryPlanner.p_evidence_ref plan = RecoveryPlanner.rc_evidence_ref r /\
    forall a, a ∈ RecoveryPlanner.p_candidates plan ->
      exists s n, a = RecoveryPlanner.to_candidate s c n.
Proof.
  intros Hp. pose proof Hp as (c & first & rest & Hc & Hws & _ & Hcs & _)%RecoveryPlanner.planned_inv.
  exists c. split; [done|]. split; [done|].
  assert (RecoveryPlanner.p_incident_id plan = incident_id (RecoveryPlanner.incident c) /\
          RecoveryPlanner.p_evidence_ref plan = RecoveryPlanner.rc_evidence_ref r) as [Hi He].
  { unfold RecoveryPlanner.plan_body, RecoveryPlanner.plan_body_with in Hp. rewrite Hc in Hp. cbn zeta in Hp.
    destruct (isort _ _) as [|x l]; [done|]. destruct (keep _ _) as [|y k]; [done|]. by injection Hp as _ <- _. }
  split_and!; try done. intros a Ha. rewrite Hcs in Ha.
  apply RecoveryPlanner.planned_elem, RecoveryPlanner.offered_elem in Ha as (rule & sp & n & _ & _ & _ & ->). eauto.
Qed.

Lemma bundle_of_detection e correlation d ref i bundle :
  IncidentDetection.build_bodies (evidence_rules profiles) e correlation = Ok (d, IncidentDetection.BundleBuilt ref i bundle) ->
  IncidentDetection.grounded e /\ ref = EvidenceBundle.compact_evidence_reference e /\
  IncidentDetection.classify e correlation = Ok i /\
  EvidenceBundle.build_incident_evidence_bundle (evidence_rules profiles) (EvidenceBundle.Built e)
    (IncidentDetection.record_of i) = Ok bundle.
Proof.
  intros (d' & Hd & (next & Hn & E%Ok_inj)%bind_Ok)%bind_Ok. injection E as -> ->.
  apply IncidentDetection.detect_body_incident in Hd as (i' & Hc & Hs & Hi).
  unfold IncidentDetection.build_body in Hn. cbn [IncidentDetection.b_evidence IncidentDetection.b_incident IncidentDetection.detected] in Hn.
  rewrite Hi in Hn. destruct (IncidentDetection.detected d); [|done]. cbn [negb] in Hn.
  apply bind_Ok in Hn as (b & Hb & E%Ok_inj). injection E as <- <- <-. split_and!; try done.
  by apply IncidentDetection.has_signal_grounded.
Qed.

Lemma classify_id e correlation i :
  IncidentDetection.classify e correlation = Ok i ->
  IncidentDetection.incident_id i = correlation /\ IncidentDetection.i_workspace_id i = EvidenceBundle.workspace_id e.
Proof.
  unfold IncidentDetection.classify. intros (dd & _ & (ll & _ & E)%bind_Ok)%bind_Ok. repeat case_match; by injection E as <-.
Qed.

(** C3: A planned recovery rests on evidence.  When the incident detected on some
    evidence is analysed to the end and a recovery is planned, the evidence
    shows a failure, the bundle is built from it, and the cause is one that
    the registered profiles declare for the symptom: all the evidence that any
    of its declarations expects is among the items of the bundle, all signal
    groups of one declaration match, for each group of another declaration a
    group with its id matches, and the confidence is full; the plan names that
    incident and that evidence, and each of its actions is about the resource
    of the incident. *)
Theorem planned_recovery_rests_on_evidence e correlation d ref i bundle b draft plan ws :
  IncidentDetection.build_bodies (evidence_rules profiles) e correlation = Ok (d, IncidentDetection.BundleBuilt ref i bundle) ->
  analyse {| bb_evidence := ref; bb_incident := IncidentDetection.record_of i; bb_bundle := bundle |} = Ok (Completed b) ->
  RecoveryPlanner.plan_body (report_of b) = RecoveryPlanner.RecoveryPlanned draft plan ws ->
  IncidentDetection.grounded e /\
  EvidenceBundle.build_incident_evidence_bundle (evidence_rules profiles) (EvidenceBundle.Built e)
    (IncidentDetection.record_of i) = Ok bundle /\
  proved bundle (IncidentDetection.symptom i) (root_cause (cb_detail b)) /\
  confidence (cb_detail b) = flit "1.0" /\
  ws = EvidenceBundle.workspace_id e /\ RecoveryPlanner.p_incident_id plan = correlation /\
  RecoveryPlanner.p_evidence_ref plan = EvidenceBundle.object_ref e /\
  forall a, a ∈ RecoveryPlanner.p_candidates plan ->
    RecoveryPlanner.h_resource_kind (RecoveryPlanner.c_draft a) = IncidentDetection.resource_kind i /\
    RecoveryPlanner.h_resource_name (RecoveryPlanner.c_draft a) = IncidentDetection.resource_name i /\
    EvidenceBundle.object_ref e ∈ RecoveryPlanner.c_evidence_refs a.
Proof.
  intros Hdet Han Hplan. apply bundle_of_detection in Hdet as (Hg & -> & Hcl & Hb).
  pose proof (completed_is_proved _ _ Han) as [Hproved Hconf]. cbn [bb_incident bb_bundle] in Hproved.
  apply analyse_completed in Han as (es & _ & _ & _ & Hd & _ & Hev).
  apply planned_identity in Hplan as (c & Hc & -> & Hinc & Href & Hall).
  destruct (classify_id _ _ _ Hcl) as [Hid Hws].
  unfold RecoveryPlanner.build_recovery_context, report_of in Hc. rewrite Hev in Hc. cbn in Hc. injection Hc as <-.
  split_and!; try done.
  - unfold report_of. by rewrite Hev.
  - rewrite Hinc. cbn. done.
  - rewrite Href. unfold report_of. by rewrite Hev.
  - intros a (sp & n & ->)%Hall. cbn. split_and!; try done. apply list_elem_of_here.
Qed.

(** ** The backlog *)

(** A row of the backlog is only made by an upsert, and no handler makes one:
    on an empty backlog there is never anything to resolve. *)
Lemma backlog_is_never_written s evt correlation evaluated :
  backlog s = ∅ ->
  backlog (on_evidence_bundle_built s evt).1 = ∅ /\ backlog (on_candidates_evaluated s evaluated correlation).1 = ∅.
Proof.
  intros Hs. split.
  - unfold on_evidence_bundle_built. cbn [fst]. case_match; [done|]. cbn [backlog].
    unfold resolve_rca_backlog_item_for_rule. by rewrite Hs, lookup_empty.
  - unfold on_candidates_evaluated. cbn [fst]. by case_match.
Qed.

(** Were the items stored, a symptom without a rule would stay open until a
    rule matches it, and count its occurrences. *)
Theorem stored_backlog_is_resolved_by_a_rule s evt rm evt' :
  cp_rule_missing (plan_body evt) = Some rm ->
  cp_rule_missing (plan_body evt') = None ->
  EvidenceBundle.workspace_id (bb_evidence evt') = rm_workspace_id rm -> symptom (bb_incident evt') = rm_symptom rm ->
  backlog s !! backlog_id_of (rm_workspace_id rm) (rm_symptom rm) = None ->
  let stored := {| backlog := upsert_rca_backlog_item (backlog s) (build_backlog_item_created_body rm); reports := reports s |} in
  exists row row', backlog stored !! backlog_id_of (rm_workspace_id rm) (rm_symptom rm) = Some row /\
    bi_status (bl_item row) = BACKLOG_STATUS_OPEN /\
    backlog (on_evidence_bundle_built stored evt').1 !! backlog_id_of (rm_workspace_id rm) (rm_symptom rm) = Some row' /\
    bi_status (bl_item row') = BACKLOG_STATUS_RESOLVED /\ occurrence_count row' = 1.
Proof.
  intros _ Hrm Hws Hsym Hnone stored.
  assert (backlog stored !! backlog_id_of (rm_workspace_id rm) (rm_symptom rm) =
    Some {| bl_item := build_backlog_item_created_body rm; occurrence_count := 1 |}) as Hrow.
  { unfold stored. cbn [backlog]. unfold upsert_rca_backlog_item. cbn [bi_backlog_id build_backlog_item_created_body].
    by rewrite Hnone, lookup_insert_eq. }
  do 2 eexists. split; [exact Hrow|]. split; [done|]. unfold on_evidence_bundle_built. cbn [fst]. rewrite Hrm. cbn [backlog].
  unfold resolve_rca_backlog_item_for_rule. rewrite Hws, Hsym, Hrow. cbn [bl_item bi_workspace_id bi_status build_backlog_item_created_body].
  rewrite str_eqb_refl. change (str_eqb BACKLOG_STATUS_OPEN BACKLOG_STATUS_OPEN) with true. cbn [andb fst].
  by rewrite lookup_insert_eq.
Qed.
End pipeline.

(** ** The analysis of the example *)
Module Sample.
#[local] Existing Instance Demo.plain_repr.
#[local] Existing Instance coded_iso.
#[local] Existing Instance Demo.no_json.

Definition profile : CauseProfile :=
  {| symptoms := ["CrashLoopBackOff"]; required_sources := ["kubernetes"];
     candidate_specs := [{| cs_candidate_id := "oom_killed"; cs_title := "OOM"; cs_description := "";
                            cs_expected_evidence := ["kubernetes"]; cs_checks := [];
                            cs_signals := [mapping oom_group] |}]; rule_id := Some "oom" |}.
Definition e : EvidenceBundle.Evidence := IncidentDetection.Sample.evidence "object://evidence/a.json" [].
Definition no_body : IncidentDetection.IncidentDetectedBody * IncidentDetection.body :=
  ({| IncidentDetection.b_cluster_id := ""; IncidentDetection.detected := false; IncidentDetection.b_reason := "";
      IncidentDetection.b_workspace_id := ""; IncidentDetection.b_severity := None; IncidentDetection.affected := [];
      IncidentDetection.b_evidence := None; IncidentDetection.b_incident := None |},
   IncidentDetection.RcaActionRequired "" "" "").
Definition bodies := match IncidentDetection.build_bodies (evidence_rules [profile]) e "i1" with Ok b => b | Err _ => no_body end.

Lemma planned_recovery_rests_on_evidence_witness :
  exists ref i bundle b draft plan ws,
    IncidentDetection.build_bodies (evidence_rules [profile]) e "i1" = Ok (bodies.1, IncidentDetection.BundleBuilt ref i bundle) /\
    analyse [profile] {| bb_evidence := ref; bb_incident := IncidentDetection.record_of i; bb_bundle := bundle |} = Ok (Completed b) /\
    RecoveryPlanner.plan_body (report_of b) = RecoveryPlanner.RecoveryPlanned draft plan ws /\
    RecoveryPlanner.p_evidence_ref plan = "object://evidence/a.json".
Proof.
  destruct (IncidentDetection.build_bodies (evidence_rules [profile]) e "i1") as [[d [|ref i bundle|]]|] eqn:Hb;
    [vm_compute in Hb; discriminate Hb| |vm_compute in Hb; discriminate Hb..].
  assert (bodies.1 = d) as -> by (unfold bodies; rewrite Hb; reflexivity).
  destruct (analyse [profile] {| bb_evidence := ref; bb_incident := IncidentDetection.record_of i; bb_bundle := bundle |})
    as [[| | | |b| | |]|] eqn:Ha;
    try (vm_compute in Hb; injection Hb as <- <- <- <-; vm_compute in Ha; discriminate Ha).
  destruct (RecoveryPlanner.plan_body (report_of b)) as [draft plan ws|] eqn:Hp;
    [|vm_compute in Hb; injection Hb as <- <- <- <-; vm_compute in Ha; injection Ha as <-; vm_compute in Hp; discriminate Hp].
  exists ref, i, bundle, b, draft, plan, ws. split; [reflexivity|]. split; [exact Ha|]. split; [exact Hp|].
  exact (proj1 (proj2 (proj2 (proj2 (proj2 (proj2 (proj2
    (planned_recovery_rests_on_evidence [profile] e "i1" d ref i bundle b draft plan ws Hb Ha Hp)))))))).
Defined.
End Sample.
End AnalysisPipeline.
