(* ===== verification/CollectionLimits.v ===== *)
(** * Limits on what an agent sends

    [src/src/services/target/cluster-agent/providers/collection_limits.py]:
    the bounded lists of a provider payload, the selection that is fair to
    groups, and the loop that halves the largest list until the payload fits.
    The two [while] loops are modelled with fuel; what they return is proved
    for every sufficient amount. *)
From S2P Require Import Prelude PyStr PyFloat PyVal Libs Demo.

Module CollectionLimits.

Definition COLLECTION_LIMITS_KEY : string := "collection_limits".
Definition MAX_EVIDENCE_PAYLOAD_BYTES : Z := 1048576.
Definition PROVIDER_PAYLOAD_BYTE_MARGIN : Z := 65536.
Definition MAX_PROVIDER_PAYLOAD_BYTES : Z := MAX_EVIDENCE_PAYLOAD_BYTES - PROVIDER_PAYLOAD_BYTE_MARGIN.
Definition MIN_LIMITED_LIST_ITEMS : nat := 0.

(** ** Groups *)

Section groups.
Context {A : Type}.

(** [buckets.setdefault(k, []).append(x)] *)
Definition add_bucket (buckets : list (string * list A)) (k : string) (x : A) : list (string * list A) :=
  dict_set buckets k (default [] (dict_get buckets k) ++ [x]).

(** One pass of the [for] loop over the buckets; the [break] leaves the rest
    and the bucket it stopped at. *)
Fixpoint round_robin_pass (max_items : nat) (selected : list A) (buckets : list (string * list A))
    : list A * list (string * list A) :=
  match buckets with
  | [] => (selected, [])
  | (k, []) :: rest => round_robin_pass max_items selected rest
  | (k, x :: bucket) :: rest =>
      let selected := selected ++ [x] in
      if (max_items <=? length selected)%nat then (selected, (k, bucket) :: rest)
      else
        let '(selected, rest) := round_robin_pass max_items selected rest in
        (selected, match bucket with [] => rest | _ => (k, bucket) :: rest end)
  end.

(** [while buckets and len(selected) < max_items]; [None] when the fuel runs
    out. *)
Fixpoint round_robin_loop (fuel max_items : nat) (selected : list A) (buckets : list (string * list A))
    : option (list A) :=
  match buckets with
  | [] => Some selected
  | _ =>
      if (length selected <? max_items)%nat then
        match fuel with
        | O => None
        | S fuel => let '(selected, buckets) := round_robin_pass max_items selected buckets in
                    round_robin_loop fuel max_items selected buckets
        end
      else Some selected
  end.

Definition group_items (group_key : A -> string) (items : list A) : list (string * list A) :=
  foldl (fun buckets x => add_bucket buckets (group_key x) x) [] items.

(** One pass per item is enough. *)
Definition round_robin_groups (items : list A) (max_items : nat) (group_key : A -> string) : option (list A) :=
  round_robin_loop (length items) max_items [] (group_items group_key items).

Definition limit_list (items : list A) (max_items : nat) (group_key : option (A -> string)) : option (list A) :=
  if (length items <=? max_items)%nat then Some items
  else match group_key with
       | None => Some (take max_items items)
       | Some g => round_robin_groups items max_items g
       end.

(** ** The selection *)

Definition pending (buckets : list (string * list A)) : list A := mjoin buckets.*2.

Lemma pass_perm max_items selected buckets s' b' :
  round_robin_pass max_items selected buckets = (s', b') -> s' ++ pending b' ≡ₚ selected ++ pending buckets.
Proof.
  revert selected s' b'. induction buckets as [|[k [|x bucket]] rest IH]; intros selected s' b'; cbn.
  - by intros [= <- <-].
  - apply IH.
  - destruct (Nat.leb_spec max_items (length (selected ++ [x]))).
    + intros [= <- <-]. unfold pending. cbn. by rewrite <- (assoc_L (++)).
    + destruct (round_robin_pass max_items (selected ++ [x]) rest) as [s b] eqn:E. apply IH in E.
      intros [= <- <-]. transitivity ((selected ++ [x]) ++ bucket ++ pending rest).
      * transitivity (s ++ bucket ++ pending b).
        { destruct bucket; unfold pending; cbn; done. }
        rewrite (Permutation_app_comm bucket), (assoc_L (++)), E. rewrite <- !(assoc_L (++)).
        by rewrite (Permutation_app_comm (pending rest) bucket).
      * unfold pending. cbn. by rewrite <- (assoc_L (++)).
Qed.

(** A pass never selects too many, and selects something when there is room
    and something to select. *)
Lemma pass_length max_items selected buckets s' b' :
  round_robin_pass max_items selected buckets = (s', b') -> (length selected < max_items)%nat ->
  (length selected <= length s' <= max_items)%nat /\
  (Exists (fun kb => kb.2 <> []) buckets -> length selected < length s')%nat /\
  ((length s' < max_items)%nat -> Forall (fun kb => kb.2 <> []) b').
Proof.
  revert selected s' b'. induction buckets as [|[k [|x bucket]] rest IH]; intros selected s' b'; cbn.
  - intros [= <- <-] Hlt. split; [lia|]. split; [by intros ?%Exists_nil|constructor].
  - intros E Hlt. destruct (IH _ _ _ E Hlt) as (Hl & He & Hf). split; [done|]. split; [|done].
    intros [?|?]%Exists_cons; [done|auto].
  - destruct (Nat.leb_spec max_items (length (selected ++ [x]))) as [Hm|Hm]; rewrite length_app in Hm; cbn in Hm.
    + intros [= <- <-] Hlt. rewrite length_app. cbn. split; [lia|]. split; [lia|lia].
    + destruct (round_robin_pass max_items (selected ++ [x]) rest) as [s b] eqn:E. intros [= <- <-] Hlt.
      destruct (IH _ _ _ E) as (Hl & He & Hf); [rewrite length_app; cbn; lia|]. rewrite length_app in Hl. cbn in Hl.
      split; [lia|]. split; [lia|]. intros Hs. destruct bucket; [by apply Hf|]. constructor; [done|by apply Hf].
Qed.

Lemma loop_selects fuel max_items selected buckets :
  (length (pending buckets) <= fuel)%nat -> (length selected <= max_items)%nat ->
  Forall (fun kb => kb.2 <> []) buckets ->
  exists s', round_robin_loop fuel max_items selected buckets = Some s' /\
    length s' = (max_items `min` (length selected + length (pending buckets)))%nat /\
    s' ⊆+ selected ++ pending buckets.
Proof.
  revert selected buckets. induction fuel as [|fuel IH]; intros selected [|[k bucket] rest] Hf Hl Hne; cbn [round_robin_loop].
  1, 3: exists selected; cbn; split; [done|]; rewrite app_nil_r; split; [lia|done].
  1: { apply Forall_cons in Hne as [Hb _]. destruct bucket; [done|]. cbn in Hf. lia. }
  destruct (Nat.ltb_spec (length selected) max_items) as [Hlt|Hge].
  2: { exists selected. split; [done|]. split; [lia|]. by apply submseteq_inserts_r. }
  destruct (round_robin_pass max_items selected ((k, bucket) :: rest)) as [s b] eqn:E.
  destruct (pass_length _ _ _ _ _ E Hlt) as (Hs & Hgrow & Hfull).
  pose proof (pass_perm _ _ _ _ _ E) as Hperm.
  assert (length s + length (pending b) = length selected + length (pending ((k, bucket) :: rest)))%nat as Hsum.
  { rewrite <- !length_app. by rewrite Hperm. }
  assert (length selected < length s)%nat as Hmore by (apply Hgrow; apply Exists_cons; left; by apply Forall_cons in Hne as []).
  destruct (decide (length s < max_items)%nat) as [Hroom|Hroom].
  - destruct (IH s b) as (s' & E' & Hlen & Hsub); [lia|lia|by apply Hfull|]. exists s'. split; [done|]. split; [lia|]. by rewrite <- Hperm.
  - exists s. split.
    + destruct b as [|kb b]; destruct fuel; cbn [round_robin_loop]; try done;
        destruct (Nat.ltb_spec (length s) max_items); try lia; done.
    + split; [lia|]. rewrite <- Hperm. by apply submseteq_inserts_r.
Qed.

Lemma pending_set k v (buckets : list (string * list A)) :
  pending (dict_set buckets k (default [] (dict_get buckets k) ++ v)) ≡ₚ pending buckets ++ v.
Proof.
  induction buckets as [|[j b] buckets IH]; unfold pending in *; cbn.
  - by rewrite app_nil_r.
  - destruct (str_eqb j k); cbn.
    + rewrite <- !(assoc_L (++)). by rewrite (Permutation_app_comm v).
    + rewrite <- (assoc_L (++)). by rewrite IH.
Qed.

Lemma group_items_spec (group_key : A -> string) items :
  pending (group_items group_key items) ≡ₚ items /\ Forall (fun kb => kb.2 <> []) (group_items group_key items).
Proof.
  unfold group_items. induction items as [|x items IH] using rev_ind; [by split|].
  rewrite foldl_app. cbn [foldl]. destruct IH as [Hp Hf]. unfold add_bucket. split.
  - by rewrite pending_set, Hp.
  - rewrite Forall_forall in Hf |- *. intros [j b] [Hin| ->]%dict_set_elem; [by apply Hf|by intros [_ ?]%app_nil].
Qed.

(** The selection terminates and is what was asked for: exactly the number of
    items that were asked for, or all, each taken from the list. *)
Lemma limit_list_spec items max_items (group_key : option (A -> string)) :
  exists s, limit_list items max_items group_key = Some s /\
    length s = (max_items `min` length items)%nat /\ s ⊆+ items.
Proof.
  unfold limit_list. destruct (Nat.leb_spec (length items) max_items) as [Hle|Hgt].
  { exists items. split; [done|]. split; [lia|done]. }
  destruct group_key as [g|].
  - destruct (group_items_spec g items) as [Hp Hf]. unfold round_robin_groups.
    destruct (loop_selects (length items) max_items [] (group_items g items)) as (s & E & Hl & Hs); [by rewrite Hp|cbn; lia|done|].
    exists s. split; [done|]. rewrite Hp in Hl, Hs. cbn in *. by split.
  - exists (take max_items items). split; [done|]. rewrite length_take. split; [lia|]. apply sublist_submseteq, sublist_take.
Qed.

(** ** Fairness *)

Lemma pass_prefix max_items selected buckets s' b' :
  round_robin_pass max_items selected buckets = (s', b') -> selected `prefix_of` s'.
Proof.
  revert selected s' b'. induction buckets as [|[k [|x bucket]] rest IH]; intros selected s' b'; cbn.
  - by intros [= <- <-].
  - apply IH.
  - destruct (_ <=? _)%nat; [intros [= <- <-]; by apply prefix_app_r|].
    destruct (round_robin_pass max_items (selected ++ [x]) rest) as [s b] eqn:E. intros [= <- <-].
    etrans; [|by eapply IH]. by apply prefix_app_r.
Qed.

Lemma loop_prefix fuel max_items selected buckets s' :
  round_robin_loop fuel max_items selected buckets = Some s' -> selected `prefix_of` s'.
Proof.
  revert selected buckets. induction fuel as [|fuel IH]; intros selected [|kb rest]; cbn [round_robin_loop];
    try (by intros [= <-]); destruct (_ <? _)%nat; try (by intros [= <-]).
  destruct (round_robin_pass max_items selected (kb :: rest)) as [s b] eqn:E. intros Hs%IH.
  etrans; [by eapply pass_prefix|done].
Qed.

(** A first pass that has room for every bucket takes one of each. *)
Lemma pass_heads max_items selected buckets s' b' k bucket :
  round_robin_pass max_items selected buckets = (s', b') -> (length selected + length buckets <= max_items)%nat ->
  (k, bucket) ∈ buckets -> bucket <> [] -> exists x, x ∈ bucket /\ x ∈ s'.
Proof.
  revert selected s' b'. induction buckets as [|[j [|y bucket']] rest IH]; intros selected s' b'; cbn;
    [by intros _ _ ?%not_elem_of_nil|..].
  - intros E Hl [[= -> ->]|Hin]%elem_of_cons Hne; [done|]. eapply IH; [exact E|lia|done..].
  - destruct (Nat.leb_spec max_items (length (selected ++ [y]))) as [Hm|Hm]; rewrite length_app in Hm; cbn in Hm.
    + intros [= <- <-] Hl Hin Hne. destruct rest; [|cbn in Hl; lia]. apply list_elem_of_singleton in Hin. injection Hin as -> ->.
      exists y. split; [apply list_elem_of_here|]. apply elem_of_app. right. apply list_elem_of_here.
    + destruct (round_robin_pass max_items (selected ++ [y]) rest) as [s b] eqn:E. intros [= <- <-] Hl.
      intros [[= -> ->]|Hin]%elem_of_cons Hne.
      * exists y. split; [apply list_elem_of_here|]. apply pass_prefix in E as [l ->]. set_solver.
      * eapply IH; [exact E|rewrite length_app; cbn; lia|done..].
Qed.

Lemma group_items_keys (group_key : A -> string) items :
  (group_items group_key items).*1 = unique_first (group_key <$> items) /\
  (forall k b x, (k, b) ∈ group_items group_key items -> x ∈ b -> group_key x = k).
Proof.
  unfold group_items. induction items as [|x items IH] using rev_ind; [split; [done|by intros ??? ?%not_elem_of_nil]|].
  rewrite foldl_app, fmap_app. cbn [foldl fmap list_fmap]. destruct IH as [Hk Hg]. unfold add_bucket.
  set (buckets := foldl _ [] items) in *. split.
  - rewrite unique_first_snoc, <- Hk. case_bool_decide as Hin; rewrite <- elem_of_unique_first, <- Hk in Hin.
    + rewrite dict_set_keys by (by apply has_key_elem). by rewrite app_nil_r.
    + rewrite dict_set_fresh by done. by rewrite fmap_app.
  - intros k b y Hin Hy. assert ((k, b) ∈ buckets \/ (k = group_key x /\ b = default [] (dict_get buckets (group_key x)) ++ [x]))
      as [Hold|[-> ->]].
    { clear Hk Hg Hy. induction buckets as [|[j c] d IHd]; cbn in *.
      - apply list_elem_of_singleton in Hin. injection Hin as -> ->. by right.
      - destruct (str_eqb j (group_key x)) eqn:Ej; [apply str_eqb_eq in Ej as ->|]; apply elem_of_cons in Hin as [[= -> ->]|Hin].
        + by right. + left. by apply list_elem_of_further. + left. apply list_elem_of_here.
        + destruct (IHd Hin); [left; by apply list_elem_of_further|by right]. }
    + by eapply Hg.
    + apply elem_of_app in Hy as [Hy| ->%list_elem_of_singleton]; [|done].
      destruct (dict_get buckets (group_key x)) as [c|] eqn:E; [|by apply not_elem_of_nil in Hy].
      eapply Hg; [by apply dict_get_elem|done].
Qed.

(** No group hides another: when as many items are kept as there are groups,
    every group is represented. *)
Theorem limited_list_is_fair items max_items (group_key : A -> string) s x :
  limit_list items max_items (Some group_key) = Some s ->
  (length (unique_first (group_key <$> items)) <= max_items)%nat -> x ∈ items ->
  exists y, y ∈ s /\ group_key y = group_key x.
Proof.
  unfold limit_list. destruct (Nat.leb_spec (length items) max_items) as [Hle|Hgt]; [intros [= <-]; by eauto|].
  unfold round_robin_groups. intros Hloop Hmax Hx.
  destruct (group_items_keys group_key items) as [Hk Hg]. destruct (group_items_spec group_key items) as [_ Hne].
  assert (group_key x ∈ (group_items group_key items).*1) as ([k b] & Ek & Hb)%list_elem_of_fmap.
  { rewrite Hk, elem_of_unique_first. apply list_elem_of_fmap. by exists x. }
  cbn in Ek. subst k. rewrite Forall_forall in Hne. pose proof (Hne _ Hb) as Hb0. cbn in Hb0.
  assert (0 < max_items)%nat as Hpos.
  { rewrite <- Hk, length_fmap in Hmax. apply list_elem_of_lookup_1 in Hb as [i Hi%lookup_lt_Some]. lia. }
  destruct items as [|i0 items]; [by apply not_elem_of_nil in Hx|]. cbn [length] in Hloop.
  set (buckets := group_items group_key (i0 :: items)) in *. destruct buckets as [|kb rest] eqn:Eb; [by apply not_elem_of_nil in Hb|].
  cbn [round_robin_loop length] in Hloop. destruct (Nat.ltb_spec 0 max_items); [|lia].
  destruct (round_robin_pass max_items [] (kb :: rest)) as [s1 b1] eqn:Ep. apply loop_prefix in Hloop.
  destruct (pass_heads _ _ _ _ _ (group_key x) b Ep) as (y & Hy & Hs); [|done|done|].
  { cbn [length Nat.add]. rewrite <- Hk, length_fmap in Hmax. done. }
  exists y. split; [|by eapply Hg]. destruct Hloop as [l ->]. apply elem_of_app. by left.
Qed.
End groups.

(** ** Sizes *)

Section payload.
Context `{ReprLib}.

(** [json.dumps(v, default=str)]: every value has a text. *)
Fixpoint json_text (v : pyval) : string :=
  match v with
  | VNone => "null"
  | VBool true => "true"
  | VBool false => "false"
  | VInt z => str_of_int z
  | VFloat f => json_float f
  | VStr s => json_ascii_string s
  | VTime _ => json_ascii_string (py_str v)
  | VList l => "[" +:+ join ", " (map json_text l) +:+ "]"
  | VDict d => "{" +:+ join ", " (map (fun kv => json_ascii_string kv.1 +:+ ": " +:+ json_text kv.2) d) +:+ "}"
  end.

(** The text is ASCII, so its bytes are its characters. *)
Definition payload_size_bytes (v : pyval) : Z := Z.of_nat (str_len (json_text v)).

(** ** The record of what was cut *)

Definition collection_limit (original_count : pyval) (returned_count : nat) : dict :=
  [("truncated", VBool true); ("original_count", original_count); ("returned_count", VInt (Z.of_nat returned_count))].

(** The first known count; a boolean is an integer. *)
Definition original_count_for (limits : dict) (key : string) (fallback : pyval) : pyval :=
  match get (mapping (get limits key)) "original_count" with
  | VInt z => VInt z
  | VBool b => VBool b
  | _ => fallback
  end.

Definition record_collection_limit (limits : dict) (key : string) (original_count : pyval) (returned_count : nat) : dict :=
  dict_set limits key (VDict (collection_limit (original_count_for limits key original_count) returned_count)).

Definition attach_collection_limits (payload limits : dict) : dict :=
  match limits with
  | [] => payload
  | _ =>
      let lists := match get payload COLLECTION_LIMITS_KEY with
                   | VDict existing => mapping (get existing "lists")
                   | _ => []
                   end in
      dict_set payload COLLECTION_LIMITS_KEY
        (VDict [("truncated", VBool true); ("lists", VDict (dict_update lists limits))])
  end.

(** ** The limits *)

Definition count (l : list pyval) : pyval := VInt (Z.of_nat (length l)).

Definition limit_payload_list (payload : dict) (key : string) (max_items : nat) (limits : dict)
    (group_key : option (pyval -> string)) : option (dict * dict) :=
  match get payload key with
  | VList value =>
      if (length value <=? max_items)%nat then Some (payload, limits)
      else
        limited ← limit_list value max_items group_key;
        Some (dict_set payload key (VList limited), record_collection_limit limits key (count value) (length limited))
  | _ => Some (payload, limits)
  end.

(** The lists of the keys that can still be reduced, with their sizes. *)
Definition shrinkable (payload : dict) (keys : list string) : list (Z * (string * list pyval)) :=
  omap (fun key => match get payload key with
                   | VList value => if (MIN_LIMITED_LIST_ITEMS <? length value)%nat
                                    then Some (payload_size_bytes (VList value), (key, value)) else None
                   | _ => None
                   end) keys.

(** [max(candidates, key=lambda item: item[0])]: the first of the largest. *)
Definition largest_shrinkable_list (payload : dict) (keys : list string) : option (string * list pyval) :=
  match shrinkable payload keys with
  | [] => None
  | first :: rest => Some (foldl (fun best c => if best.1 <? c.1 then c else best) first rest).2
  end.

Fixpoint limit_payload_size (fuel : nat) (keys : list string) (max_bytes : Z)
    (group_keys : string -> option (pyval -> string)) (payload limits : dict) : option (dict * dict) :=
  if payload_size_bytes (VDict payload) <=? max_bytes then Some (payload, limits)
  else
    match largest_shrinkable_list payload keys with
    | None => Some (payload, limits)
    | Some (key, value) =>
        match fuel with
        | O => None
        | S fuel =>
            limited ← limit_list value (MIN_LIMITED_LIST_ITEMS `max` (length value / 2)) (group_keys key);
            limit_payload_size fuel keys max_bytes group_keys (dict_set payload key (VList limited))
              (record_collection_limit limits key (original_count_for limits key (count value)) (length limited))
        end
    end.

(** ** What the loop returns *)

(** The items the loop may still drop. *)
Definition droppable (payload : dict) (keys : list string) : nat :=
  foldr (fun k n => (match get payload k with VList l => length l | _ => 0 end + n)%nat) 0%nat keys.

Lemma droppable_cons payload k keys :
  droppable payload (k :: keys) = (match get payload k with VList l => length l | _ => 0 end + droppable payload keys)%nat.
Proof. done. Qed.

Lemma shrinkable_elem payload keys size key value :
  (size, (key, value)) ∈ shrinkable payload keys <->
  key ∈ keys /\ get payload key = VList value /\ (0 < length value)%nat /\ size = payload_size_bytes (VList value).
Proof.
  unfold shrinkable. rewrite list_elem_of_omap. split.
  - intros (k & Hk & E). destruct (get payload k) as [| | | | | |l|] eqn:Hl; try done.
    destruct (Nat.ltb_spec MIN_LIMITED_LIST_ITEMS (length l)); [|done]. injection E as <- <- <-. done.
  - intros (Hk & Hl & Hpos & ->). exists key. split; [done|]. rewrite Hl. by destruct (Nat.ltb_spec MIN_LIMITED_LIST_ITEMS (length value)); [|unfold MIN_LIMITED_LIST_ITEMS in *; lia].
Qed.

Lemma largest_elem payload keys key value :
  largest_shrinkable_list payload keys = Some (key, value) ->
  key ∈ keys /\ get payload key = VList value /\ (0 < length value)%nat.
Proof.
  unfold largest_shrinkable_list. destruct (shrinkable payload keys) as [|first rest] eqn:E; [done|].
  set (best := foldl _ first rest). assert (best ∈ first :: rest) as Hin.
  { unfold best. clear. revert first. induction rest as [|c rest IH]; intros first; cbn; [apply list_elem_of_here|].
    specialize (IH (if first.1 <? c.1 then c else first)). destruct (first.1 <? c.1); set_solver. }
  intros [= Hb]. rewrite <- E in Hin. destruct best as [size [k v]]. cbn in Hb. injection Hb as -> ->.
  by apply shrinkable_elem in Hin as (? & ? & ? & _).
Qed.

Lemma largest_None payload keys k l :
  largest_shrinkable_list payload keys = None -> k ∈ keys -> get payload k = VList l -> l = [].
Proof.
  unfold largest_shrinkable_list. destruct (shrinkable payload keys) eqn:E; [|done]. intros _ Hk Hl.
  destruct l as [|x l]; [done|]. exfalso. apply (not_elem_of_nil (payload_size_bytes (VList (x :: l)), (k, x :: l))).
  rewrite <- E. apply shrinkable_elem. cbn. split_and!; [done..|lia|done].
Qed.

Lemma droppable_set payload keys key value limited :
  key ∈ keys -> get payload key = VList value -> (length limited < length value)%nat ->
  (droppable (dict_set payload key (VList limited)) keys < droppable payload keys)%nat.
Proof.
  intros Hk Hv Hl. assert (forall ks, droppable (dict_set payload key (VList limited)) ks <= droppable payload ks)%nat as Hle.
  { induction ks as [|k ks IH]; [done|]. rewrite !droppable_cons. destruct (decide (key = k)) as [<-|Hn].
    - rewrite get_set_eq, Hv. lia.
    - rewrite get_set_ne by done. lia. }
  induction keys as [|k keys IH]; [by apply not_elem_of_nil in Hk|]. rewrite !droppable_cons. destruct (decide (key = k)) as [<-|Hn].
  - rewrite get_set_eq, Hv. specialize (Hle keys). lia.
  - rewrite get_set_ne by done. apply elem_of_cons in Hk as [?|Hk]; [done|]. specialize (IH Hk). lia.
Qed.

(** What happened to one list. *)
Definition cut (payload limits payload' limits' : dict) (k : string) : Prop :=
  (get payload' k = get payload k /\ get limits' k = get limits k) \/
  exists l l', get payload k = VList l /\ get payload' k = VList l' /\ l' ⊆+ l /\ (length l' < length l)%nat /\
    get limits' k = VDict (collection_limit (original_count_for limits k (count l)) (length l')).

Lemma original_count_recorded limits key n m fallback :
  original_count_for (dict_set limits key (VDict (collection_limit (original_count_for limits key (VInt n)) m))) key fallback
  = original_count_for limits key (VInt n).
Proof.
  unfold original_count_for at 1. rewrite get_set_eq. cbn [mapping]. change (get (collection_limit ?o m) "original_count") with o.
  unfold original_count_for. by repeat case_match.
Qed.

Lemma original_count_idemp limits key n :
  original_count_for limits key (original_count_for limits key n) = original_count_for limits key n.
Proof. unfold original_count_for. by repeat case_match. Qed.

Lemma cut_step payload limits key value limited payload' limits' k :
  get payload key = VList value -> limited ⊆+ value -> (length limited < length value)%nat ->
  cut (dict_set payload key (VList limited))
    (record_collection_limit limits key (original_count_for limits key (count value)) (length limited)) payload' limits' k ->
  cut payload limits payload' limits' k.
Proof.
  intros Hv Hsub Hlen. unfold record_collection_limit. rewrite original_count_idemp. unfold count.
  destruct (decide (key = k)) as [<-|Hn].
  - intros [[Hp Hl]|(l & l' & Hl & Hl' & Hs & Hlt & Hlim)]; right.
    + exists value, limited. rewrite get_set_eq in Hp, Hl. done.
    + rewrite get_set_eq in Hl. injection Hl as <-. exists value, l'. rewrite Hlim. unfold count.
      rewrite original_count_recorded. split_and!; try done; [by etrans|lia].
  - unfold cut. rewrite !get_set_ne by done. unfold original_count_for. by rewrite !get_set_ne by done.
Qed.

(** The loop terminates and the payload fits, if it can be made to.  Whatever
    the sizes, with any sufficient fuel the loop returns the same payload,
    which is within the limit or has no item left to drop; other entries are
    untouched, and each list is unchanged or a smaller selection of its items
    with a record of its original and its final length. *)
Theorem limit_payload_size_fits keys max_bytes group_keys payload limits :
  exists payload' limits',
    (forall fuel, (droppable payload keys <= fuel)%nat ->
       limit_payload_size fuel keys max_bytes group_keys payload limits = Some (payload', limits')) /\
    (payload_size_bytes (VDict payload') <= max_bytes \/
     forall k l, k ∈ keys -> get payload' k = VList l -> l = []) /\
    (forall k, k ∉ keys -> get payload' k = get payload k) /\
    (forall k, cut payload limits payload' limits' k).
Proof.
  remember (droppable payload keys) as n eqn:Hn. revert payload limits Hn.
  induction n as [n IH] using lt_wf_ind. intros payload limits ->.
  destruct (Z.leb_spec (payload_size_bytes (VDict payload)) max_bytes) as [Hfit|Hbig].
  { exists payload, limits. split; [|split; [by left|split; [done|by left]]].
    intros [|fuel] _; cbn [limit_payload_size]; by destruct (Z.leb_spec (payload_size_bytes (VDict payload)) max_bytes); [|lia]. }
  assert ((payload_size_bytes (VDict payload) <=? max_bytes) = false) as Hcond by (apply Z.leb_gt; lia).
  destruct (largest_shrinkable_list payload keys) as [[key value]|] eqn:Hbest.
  2: { exists payload, limits. split; [|split; [right|split; [done|by left]]].
       - intros [|fuel] _; cbn [limit_payload_size]; by rewrite Hcond, Hbest.
       - intros k l. by apply largest_None. }
  destruct (largest_elem _ _ _ _ Hbest) as (Hkey & Hval & Hpos).
  destruct (limit_list_spec value (MIN_LIMITED_LIST_ITEMS `max` (length value / 2)) (group_keys key)) as (limited & Hlim & Hlen & Hsub).
  assert (length limited < length value)%nat as Hlt.
  { rewrite Hlen. assert (length value / 2 < length value)%nat by (apply Nat.div_lt; lia). unfold MIN_LIMITED_LIST_ITEMS. lia. }
  pose proof (droppable_set payload keys key value limited Hkey Hval Hlt) as Hdec.
  edestruct (IH _ Hdec (dict_set payload key (VList limited))) as (payload' & limits' & Hrun & Hfit & Hother & Hcut); [done|].
  exists payload', limits'. split; [|split; [exact Hfit|split]].
  - intros [|fuel] Hfuel; [lia|]. cbn [limit_payload_size]. rewrite Hcond, Hbest, Hlim. cbn [mbind option_bind]. apply Hrun. lia.
  - intros k Hk. rewrite Hother by done. apply get_set_ne. by intros <-.
  - intros k. by eapply cut_step.
Qed.
End payload.

(** ** A payload with too many pods *)
Module Sample.
#[local] Existing Instance Demo.plain_repr.

Definition pod (ns name : string) : pyval := VDict [("ns", VStr ns); ("name", VStr name)].
Definition pods : list pyval :=
  [pod "a" "1"; pod "a" "2"; pod "a" "3"; pod "a" "4"; pod "b" "5"; pod "c" "6"].
Definition by_namespace (v : pyval) : string := match get (mapping v) "ns" with VStr s => s | _ => "" end.

(** The small groups survive. *)
Example fair_selection : limit_list pods 4 (Some by_namespace) = Some [pod "a" "1"; pod "b" "5"; pod "c" "6"; pod "a" "2"].
Proof. vm_compute. reflexivity. Qed.

Lemma limited_list_is_fair_witness :
  exists y, y ∈ [pod "a" "1"; pod "b" "5"; pod "c" "6"; pod "a" "2"] /\ by_namespace y = "c".
Proof.
  apply (limited_list_is_fair pods 4 by_namespace _ (pod "c" "6") fair_selection).
  - vm_compute. lia.
  - apply (bool_decide_eq_true_1 _). vm_compute. reflexivity.
Defined.

Example shrunk :
  limit_payload_size 6 ["pods"] 120 (fun _ => Some by_namespace) [("pods", VList pods); ("cluster", VStr "c1")] [] =
  Some ([("pods", VList [pod "a" "1"; pod "b" "5"; pod "c" "6"]); ("cluster", VStr "c1")],
        [("pods", VDict (collection_limit (VInt 6) 3))]).
Proof. vm_compute. reflexivity. Qed.
End Sample.
End CollectionLimits.
