(* ===== verification/EvidenceJobs.v ===== *)
(** * Evidence jobs

    [src/src/domains/target/evidence_jobs.py] and the job table of
    [src/src/domains/target/repository.py]: one job per provider and window is
    queued, leased to an agent, reported and, when every job of a window has
    ended, aggregated into one evidence payload.  The table is a map by job
    id; each operation is one statement or one transaction of the database. *)
From S2P Require Import Prelude PyStr PyFloat PyVal PyTime Libs Demo Signals EvidenceBundle.

Module EvidenceJobs.
Import EvidenceBundle(blank, setdefault, in_states).

Definition DEFAULT_EVIDENCE_JOB_LEASE_SECONDS : Z := 60.
Definition EVIDENCE_FAILURE_POLICY_STRICT : string := "strict".
Definition COLLECTION_STATUS_KEY : string := "collection_status".
Definition COLLECTION_PROVIDERS_KEY : string := "providers".
Definition COLLECTION_COMPLETED : string := "completed".
Definition COLLECTION_PARTIAL : string := "partial".
Definition COLLECTION_UNAVAILABLE : string := "unavailable".
Definition COLLECTION_NOT_QUERIED : string := "not_queried".
Definition COLLECTION_STATES : list string :=
  [COLLECTION_COMPLETED; COLLECTION_PARTIAL; COLLECTION_UNAVAILABLE; COLLECTION_NOT_QUERIED].
Definition COLLECTION_COUNT_FIELDS : list string := ["query_count"; "completed_query_count"; "failed_query_count"].
Definition MAX_COLLECTION_REASON_CODES : nat := 8.
Definition MAX_COLLECTION_REASON_CODE_LENGTH : nat := 120.
Definition NO_PROVIDER_RESULTS_REASON : string := "no_provider_results".
Definition PROVIDER_JOB_FAILED_REASON : string := "provider_job_failed".

(** ** Keys *)

Definition evidence_key (workspace_id cluster_id source_id window_start : string) : string :=
  join ":" [workspace_id; cluster_id; source_id; window_start].

Definition evidence_job_id (workspace_id cluster_id source_id window_start provider_key : string) : string :=
  join ":" [evidence_key workspace_id cluster_id source_id window_start; provider_key].

Definition empty_provider_payload (provider_key : string) : pyval :=
  if str_eqb provider_key "logs" then VList [] else VDict [].

(** ** What a provider reports *)

Definition as_count (v : pyval) : option Z :=
  match v with VInt z => if 0 <=? z then Some z else None | _ => None end.

Definition nonempty_str (v : pyval) : option string :=
  match v with VStr (String c s) => Some (String c s) | _ => None end.

Definition add_source (raw normalized : dict) : dict :=
  match nonempty_str (get raw "source") with
  | Some s => dict_set normalized "source" (VStr (str_take MAX_COLLECTION_REASON_CODE_LENGTH s))
  | None => normalized
  end.

Definition add_count (raw normalized : dict) (field_name : string) : dict :=
  match as_count (get raw field_name) with
  | Some z => dict_set normalized field_name (VInt z)
  | None => normalized
  end.

Definition bounded_reasons (l : list pyval) : list pyval :=
  (fun s => VStr (str_take MAX_COLLECTION_REASON_CODE_LENGTH s))
    <$> omap nonempty_str (take MAX_COLLECTION_REASON_CODES l).

Definition add_reasons (raw normalized : dict) : dict :=
  match get raw "reason_codes" with
  | VList l => dict_set normalized "reason_codes" (VList (bounded_reasons l))
  | _ => normalized
  end.

Definition normalized_provider_collection_status (provider_key : string) (result : dict) : res dict :=
  match get result COLLECTION_STATUS_KEY with
  | VDict collection_status =>
      match get collection_status COLLECTION_PROVIDERS_KEY with
      | VDict providers =>
          match get providers provider_key with
          | VDict raw_status =>
              known ← in_states (get raw_status "status") COLLECTION_STATES;
              if negb known then Ok []
              else Ok (add_reasons raw_status
                         (foldl (add_count raw_status) (add_source raw_status [("status", get raw_status "status")])
                            COLLECTION_COUNT_FIELDS))
          | _ => Ok []
          end
      | _ => Ok []
      end
  | _ => Ok []
  end.

Definition status_envelope (provider_key : string) (status : dict) : pyval :=
  VDict [(COLLECTION_PROVIDERS_KEY, VDict [(provider_key, VDict status)])].

Definition normalize_evidence_provider_result (provider_key : string) (result : dict) : res dict :=
  let normalized :=
    if has_key result provider_key then [(provider_key, get result provider_key)] else [(provider_key, VDict result)] in
  provider_status ← normalized_provider_collection_status provider_key result;
  Ok (if bool_decide (provider_status = []) then normalized
      else dict_set normalized COLLECTION_STATUS_KEY (status_envelope provider_key provider_status)).

Definition without (k : string) (d : dict) : dict := keep (fun kv => negb (str_eqb kv.1 k)) d.

(** The payload that [merge_evidence_provider_payload] leaves in place. *)
Definition merge_evidence_provider_payload (payload provider_payload : dict) : dict :=
  let provider_payload := without COLLECTION_STATUS_KEY provider_payload in
  match get provider_payload "metadata" with
  | VDict provider_metadata =>
      let merged_metadata := dict_update (mapping (get payload "metadata")) provider_metadata in
      dict_update (dict_set payload "metadata" (VDict merged_metadata)) (without "metadata" provider_payload)
  | _ => dict_update payload provider_payload
  end.

Definition has_results (payload : dict) : bool :=
  match get payload "results" with VDict (_ :: _) => true | _ => false end.

Definition provider_payload_has_results (provider_key : string) (provider_payload : pyval) : bool :=
  if str_eqb provider_key "logs" then match provider_payload with VList (_ :: _) => true | _ => false end
  else
    match provider_payload with
    | VDict d =>
        let any_value := existsb (fun kv => negb (str_eqb kv.1 "_lineage") && negb (blank kv.2)) d in
        if str_eqb provider_key "metrics" then
          match get d "alertmanager" with
          | VDict (_ :: _) => true
          | _ => if py_eqb (get d "source") (VStr "prometheus") || has_key d "results" then has_results d else any_value
          end
        else if str_eqb provider_key "traces" && (py_eqb (get d "source") (VStr "tempo") || has_key d "results")
        then has_results d
        else any_value
    | _ => false
    end.

Definition merge_reason_codes (current : pyval) (reason : string) : list string :=
  let values := match current with VList l => omap nonempty_str l | _ => [] end in
  take MAX_COLLECTION_REASON_CODES (if bool_decide (reason ∈ values) then values else values ++ [reason]).

Definition state_in (status : dict) (states : list string) : bool :=
  match get status "status" with VStr s => bool_decide (s ∈ states) | _ => false end.

Definition resolved_provider_collection_status (provider_key : string) (provider_payload : pyval)
    (reported_status : dict) : dict :=
  if state_in reported_status [COLLECTION_UNAVAILABLE; COLLECTION_NOT_QUERIED] then reported_status
  else if negb (provider_payload_has_results provider_key provider_payload) then
    dict_set (dict_set reported_status "status" (VStr COLLECTION_UNAVAILABLE)) "reason_codes"
      (VList (VStr <$> merge_reason_codes (get reported_status "reason_codes") NO_PROVIDER_RESULTS_REASON))
  else if state_in reported_status [COLLECTION_COMPLETED; COLLECTION_PARTIAL] then reported_status
  else [("status", VStr COLLECTION_COMPLETED); ("reason_codes", VList [])].

Definition providers_in (states : list string) (statuses : list (string * dict)) : list string :=
  isort String.leb ((keep (fun kv => state_in kv.2 states) statuses).*1).

Definition strs (l : list string) : pyval := VList (VStr <$> l).

Definition aggregate_collection_status (statuses : list (string * dict)) : dict :=
  let completed := providers_in [COLLECTION_COMPLETED] statuses in
  [("complete", VBool (length completed =? length statuses)%nat);
   ("completed_providers", strs completed);
   ("partial_providers", strs (providers_in [COLLECTION_PARTIAL] statuses));
   ("failed_providers", strs (providers_in [COLLECTION_UNAVAILABLE; COLLECTION_NOT_QUERIED] statuses));
   ("pending_providers", VList []);
   (COLLECTION_PROVIDERS_KEY, VDict (prod_map id VDict <$> statuses))].

(** ** The job table *)

(** The four values of the column [status]. *)
Inductive job_status := Queued | Leased | Completed | Failed.

#[global] Instance job_status_eq_dec : EqDecision job_status.
Proof. solve_decision. Defined.

Record EvidenceJob := {
  j_evidence_key : string;
  j_workspace_id : string;
  j_cluster_id : string;
  j_source_id : string;
  j_provider_key : string;
  j_window_start : string;
  j_policy_generation : Z;
  j_provider_policy : dict;
  j_status : job_status;
  j_lease_id : option string;
  j_agent_id : option string;
  j_leased_until : option Z;
  j_attempt_count : Z;
  j_max_attempts : Z;
  j_failure_policy : string;
  j_result : option dict;
  j_error : option string;
  j_created_at : Z;
}.

Notation table := (gmap string EvidenceJob).

Definition is_terminal (s : job_status) : bool := match s with Completed | Failed => true | _ => false end.

Definition opt_text (o : option string) : pyval := match o with Some s => VStr s | None => VNone end.

Definition common_release_context (rows : list EvidenceJob) : dict :=
  let contexts := omap (fun row => match get (j_provider_policy row) "release_context" with
                                   | VDict (x :: d) => Some (x :: d) | _ => None end) rows in
  match contexts with
  | [] => []
  | first :: rest => if forallb (fun c => py_eqb (VDict c) (VDict first)) rest then first else []
  end.

(** One turn of the loop over the rows: the payload and the statuses. *)
Definition aggregate_row (acc : dict * list (string * dict)) (row : EvidenceJob) : res (dict * list (string * dict)) :=
  let '(payload, statuses) := acc in
  let provider_key := j_provider_key row in
  match j_status row, j_result row with
  | Completed, Some result =>
      normalized_result ← normalize_evidence_provider_result provider_key result;
      reported_status ← normalized_provider_collection_status provider_key normalized_result;
      Ok (merge_evidence_provider_payload payload normalized_result,
          dict_set statuses provider_key
            (resolved_provider_collection_status provider_key (get normalized_result provider_key) reported_status))
  | Failed, _ =>
      Ok (setdefault payload provider_key (empty_provider_payload provider_key),
          dict_set statuses provider_key
            [("status", VStr COLLECTION_UNAVAILABLE); ("reason_codes", VList [VStr PROVIDER_JOB_FAILED_REASON])])
  | _, _ => Ok (payload, statuses)
  end.

Definition window_base (first : EvidenceJob) : dict :=
  [("workspace_id", VStr (j_workspace_id first)); ("cluster_id", VStr (j_cluster_id first));
   ("source_id", VStr (j_source_id first)); ("window_start", VStr (j_window_start first));
   ("evidence_key", VStr (j_evidence_key first)); ("agent_id", opt_text (j_agent_id first));
   ("kubernetes", VDict [])].

Definition with_release_context (payload release_context : dict) : dict :=
  if bool_decide (release_context = []) then payload
  else
    let payload := dict_set payload "release_context" (VDict release_context) in
    match nonempty_str (get release_context "correlation_id") with
    | Some correlation_id => dict_set payload "correlation_id" (VStr correlation_id)
    | None => payload
    end.

Definition window_header (first : EvidenceJob) (rows : list EvidenceJob) : dict :=
  with_release_context (window_base first) (common_release_context rows).

Definition strictly_failed (row : EvidenceJob) : bool :=
  str_eqb (j_failure_policy row) EVIDENCE_FAILURE_POLICY_STRICT && bool_decide (j_status row = Failed).

Definition aggregate_evidence_payload (rows : list EvidenceJob) : res (option dict) :=
  match rows with
  | [] => Ok None
  | first :: _ =>
      if existsb (fun row => negb (is_terminal (j_status row))) rows || existsb strictly_failed rows then Ok None
      else
        acc ← foldr_res aggregate_row (window_header first rows, []) rows;
        Ok (Some (dict_set acc.1 COLLECTION_STATUS_KEY (VDict (aggregate_collection_status acc.2))))
  end.

Definition window_rows (t : table) (key : string) : list EvidenceJob :=
  isort (fun a b => String.leb (j_provider_key a) (j_provider_key b))
    (keep (fun row => str_eqb (j_evidence_key row) key) (map_to_list t).*2).

Definition evidence_payload_if_ready (t : table) (evidence_key_value : string) : res (option dict) :=
  aggregate_evidence_payload (window_rows t evidence_key_value).

(** *** Operations *)

Record job_batch := {
  q_workspace_id : string;
  q_cluster_id : string;
  q_source_id : string;
  q_window_start : string;
  q_provider_keys : list string;
  q_failure_policy : string;
  q_max_attempts : Z;
  q_policy_generation : Z;
  q_provider_policies : list (string * dict);
}.

Definition job_id_of (b : job_batch) (provider_key : string) : string :=
  evidence_job_id (q_workspace_id b) (q_cluster_id b) (q_source_id b) (q_window_start b) provider_key.

Definition new_job (b : job_batch) (provider_key : string) (now : Z) : EvidenceJob :=
  {| j_evidence_key := evidence_key (q_workspace_id b) (q_cluster_id b) (q_source_id b) (q_window_start b);
     j_workspace_id := q_workspace_id b; j_cluster_id := q_cluster_id b; j_source_id := q_source_id b;
     j_provider_key := provider_key; j_window_start := q_window_start b;
     j_policy_generation := q_policy_generation b;
     j_provider_policy := default [] (dict_get (q_provider_policies b) provider_key);
     j_status := Queued; j_lease_id := None; j_agent_id := None; j_leased_until := None;
     j_attempt_count := 0; j_max_attempts := q_max_attempts b; j_failure_policy := q_failure_policy b;
     j_result := None; j_error := None; j_created_at := now |}.

(** [INSERT .. ON CONFLICT (job_id) DO NOTHING RETURNING job_id] *)
Definition insert_job (b : job_batch) (now : Z) (acc : table * list string) (provider_key : string) : table * list string :=
  let '(t, job_ids) := acc in
  let job_id := job_id_of b provider_key in
  match t !! job_id with
  | Some _ => (t, job_ids)
  | None => (<[job_id := new_job b provider_key now]> t, job_ids ++ [job_id])
  end.

Definition queue_evidence_jobs (t : table) (b : job_batch) (now : Z) : table * list string :=
  foldl (insert_job b now) (t, []) (unique_first (q_provider_keys b)).

Definition expired (row : EvidenceJob) (now : Z) : bool :=
  match j_leased_until row with Some until => until <? now | None => false end.

Definition available (row : EvidenceJob) (now : Z) : bool :=
  bool_decide (j_status row = Queued) || (bool_decide (j_status row = Leased) && expired row now).

Definition leasable (row : EvidenceJob) (workspace_id cluster_id provider_key : string) (now : Z) : bool :=
  str_eqb (j_workspace_id row) workspace_id && str_eqb (j_cluster_id row) cluster_id
  && str_eqb (j_provider_key row) provider_key && available row now && (j_attempt_count row <? j_max_attempts row).

(** The oldest leasable row that no other transaction holds. *)
Definition lease_candidate (t : table) (locked : string -> bool) (workspace_id cluster_id provider_key : string)
    (now : Z) : option (string * EvidenceJob) :=
  head (isort (fun a b => j_created_at a.2 <=? j_created_at b.2)
          (keep (fun kv => leasable kv.2 workspace_id cluster_id provider_key now && negb (locked kv.1)) (map_to_list t))).

Definition leased_row (row : EvidenceJob) (lease_id agent_id : string) (until : Z) : EvidenceJob :=
  {| j_evidence_key := j_evidence_key row; j_workspace_id := j_workspace_id row; j_cluster_id := j_cluster_id row;
     j_source_id := j_source_id row; j_provider_key := j_provider_key row; j_window_start := j_window_start row;
     j_policy_generation := j_policy_generation row; j_provider_policy := j_provider_policy row;
     j_status := Leased; j_lease_id := Some lease_id; j_agent_id := Some agent_id; j_leased_until := Some until;
     j_attempt_count := j_attempt_count row + 1; j_max_attempts := j_max_attempts row;
     j_failure_policy := j_failure_policy row; j_result := j_result row; j_error := None;
     j_created_at := j_created_at row |}.

(** [now] is the clock of the database, [clock] that of the gateway, which
    sets the end of the lease. *)
Definition lease_evidence_job (t : table) (locked : string -> bool) (workspace_id cluster_id provider_key agent_id : string)
    (lease_id : string) (lease_seconds now clock : Z) : table * option (string * EvidenceJob) :=
  match lease_candidate t locked workspace_id cluster_id provider_key now with
  | Some (job_id, row) =>
      let row := leased_row row lease_id agent_id (clock + lease_seconds * SECOND) in
      (<[job_id := row]> t, Some (job_id, row))
  | None => (t, None)
  end.

Definition ended_row (row : EvidenceJob) (status : job_status) (result : option dict) (error : option string) : EvidenceJob :=
  {| j_evidence_key := j_evidence_key row; j_workspace_id := j_workspace_id row; j_cluster_id := j_cluster_id row;
     j_source_id := j_source_id row; j_provider_key := j_provider_key row; j_window_start := j_window_start row;
     j_policy_generation := j_policy_generation row; j_provider_policy := j_provider_policy row;
     j_status := status; j_lease_id := j_lease_id row; j_agent_id := j_agent_id row;
     j_leased_until := j_leased_until row; j_attempt_count := j_attempt_count row;
     j_max_attempts := j_max_attempts row; j_failure_policy := j_failure_policy row;
     j_result := result; j_error := error; j_created_at := j_created_at row |}.

Definition exhausted (row : EvidenceJob) (now : Z) : bool :=
  bool_decide (j_status row = Leased) && expired row now && (j_max_attempts row <=? j_attempt_count row).

Definition exhausted_ids (t : table) (locked : string -> bool) (now : Z) (limit : nat) : list string :=
  take limit (isort String.leb (keep (fun kv => exhausted kv.2 now && negb (locked kv.1)) (map_to_list t)).*1).

Definition EXHAUSTED_ERROR : string := "lease expired; retry attempts exhausted".

Definition fail_exhausted_evidence_jobs (t : table) (locked : string -> bool) (now : Z) (limit : nat)
    : table * list string :=
  let ids := exhausted_ids t locked now limit in
  (map_imap (fun id row => Some (if bool_decide (id ∈ ids) then ended_row row Failed None (Some EXHAUSTED_ERROR) else row)) t,
   isort String.leb (unique_first (omap (fun id => j_evidence_key <$> t !! id) ids))).

(** The row a report is about: every identity of the report agrees. *)
Definition reported (row : EvidenceJob) (workspace_id cluster_id lease_id agent_id : string) : bool :=
  str_eqb (j_workspace_id row) workspace_id && str_eqb (j_cluster_id row) cluster_id
  && bool_decide (j_lease_id row = Some lease_id) && bool_decide (j_agent_id row = Some agent_id).

Definition next_status (row : EvidenceJob) (status : string) : job_status :=
  if str_eqb status "failed" then (if j_max_attempts row <=? j_attempt_count row then Failed else Queued) else Completed.

(** [error or None] *)
Definition or_none (s : string) : option string := if is_empty s then None else Some s.

Definition complete_evidence_job (t : table) (workspace_id cluster_id job_id lease_id agent_id status : string)
    (result : dict) (error : string) : res (table * option EvidenceJob) :=
  match t !! job_id with
  | Some row =>
      if negb (reported row workspace_id cluster_id lease_id agent_id) then Ok (t, None)
      else if bool_decide (j_status row = Leased) then
        let s := next_status row status in
        result ← (if bool_decide (s = Completed)
                  then Some <$> normalize_evidence_provider_result (j_provider_key row) result else Ok None);
        let row := ended_row row s result (or_none error) in
        Ok (<[job_id := row]> t, Some row)
      else Ok (t, Some row)
  | None => Ok (t, None)
  end.

(** What recording a window does to the jobs: their results are dropped. *)
Definition drop_results (t : table) (key workspace_id : string) : table :=
  (fun row => if str_eqb (j_evidence_key row) key && str_eqb (j_workspace_id row) workspace_id
              then ended_row row (j_status row) None (j_error row) else row) <$> t.

(** ** The life of a job

    Any number of agents, gateways and janitors work on the table.  Each
    operation leaves a note for every job it moves on, newest first. *)

Inductive note :=
  | Handed (job lease : string)
  | Accepted (job lease : string) (s : job_status)
  | GivenUp (job : string).

Definition about (n : note) : string := match n with Handed j _ | Accepted j _ _ | GivenUp j => j end.

Inductive op :=
  | Queue (b : job_batch) (now : Z)
  | Lease (locked : string -> bool) (workspace_id cluster_id provider_key agent_id lease_id : string)
      (lease_seconds now clock : Z)
  | Janitor (locked : string -> bool) (now : Z) (limit : nat)
  | Report (workspace_id cluster_id job_id lease_id agent_id status : string) (result : dict) (error : string)
  | Record_window (key workspace_id : string).

(** A report that raises is rolled back. *)
Definition run_op (t : table) (o : op) : table * list note :=
  match o with
  | Queue b now => ((queue_evidence_jobs t b now).1, [])
  | Lease locked ws cluster provider agent lease secs now clock =>
      let '(t', leased) := lease_evidence_job t locked ws cluster provider agent lease secs now clock in
      (t', match leased with Some (id, _) => [Handed id lease] | None => [] end)
  | Janitor locked now limit => ((fail_exhausted_evidence_jobs t locked now limit).1, GivenUp <$> exhausted_ids t locked now limit)
  | Report ws cluster id lease agent status result error =>
      match complete_evidence_job t ws cluster id lease agent status result error with
      | Ok (t', Some row) =>
          (t', if bool_decide (j_status <$> t !! id = Some Leased) then [Accepted id lease (j_status row)] else [])
      | _ => (t, [])
      end
  | Record_window key ws => (drop_results t key ws, [])
  end.

Inductive reachable : table -> list note -> Prop :=
  | reach_empty : reachable ∅ []
  | reach_step t notes o : reachable t notes -> reachable (run_op t o).1 ((run_op t o).2 ++ notes).

(** What one job goes through: the specification.  The indices are its notes,
    its status, the lease it was last handed out under and its attempts. *)
Inductive life (max : Z) : list note -> job_status -> option string -> Z -> Prop :=
  | born : life max [] Queued None 0
  | handed story j s lo l n :
      life max story s lo n -> s = Queued \/ s = Leased -> n < max -> life max (Handed j l :: story) Leased (Some l) (n + 1)
  | accepted story j l n s :
      life max story Leased (Some l) n ->
      s = Completed \/ (s = Queued /\ n < max) \/ (s = Failed /\ max <= n) ->
      life max (Accepted j l s :: story) s (Some l) n
  | given_up story j l n :
      life max story Leased (Some l) n -> max <= n -> life max (GivenUp j :: story) Failed (Some l) n.

Definition story (id : string) (notes : list note) : list note := keep (fun n => str_eqb (about n) id) notes.

Definition row_ok (id : string) (row : EvidenceJob) (notes : list note) : Prop :=
  life (j_max_attempts row) (story id notes) (j_status row) (j_lease_id row) (j_attempt_count row) /\
  (j_status row = Leased -> is_Some (j_leased_until row)) /\
  id = evidence_job_id (j_workspace_id row) (j_cluster_id row) (j_source_id row) (j_window_start row) (j_provider_key row) /\
  j_evidence_key row = evidence_key (j_workspace_id row) (j_cluster_id row) (j_source_id row) (j_window_start row) /\
  (forall r, j_result row = Some r -> j_status row = Completed /\
     exists raw, normalize_evidence_provider_result (j_provider_key row) raw = Ok r).

Definition table_ok (t : table) (notes : list note) : Prop :=
  (forall id row, t !! id = Some row -> row_ok id row notes) /\
  (forall n, n ∈ notes -> is_Some (t !! about n)).

Lemma story_app id notes notes' : story id (notes ++ notes') = story id notes ++ story id notes'.
Proof. apply keep_app. Qed.

Lemma story_other id n notes : about n <> id -> story id (n :: notes) = story id notes.
Proof. intros Hn. unfold story. cbn. unfold str_eqb. by rewrite bool_decide_eq_false_2. Qed.

Lemma story_same n notes : story (about n) (n :: notes) = n :: story (about n) notes.
Proof. unfold story. cbn. by rewrite str_eqb_refl. Qed.

Lemma story_none id notes : (forall n, n ∈ notes -> about n <> id) -> story id notes = [].
Proof.
  intros Hn. apply keep_false. intros n Hin. unfold str_eqb. apply bool_decide_eq_false_2. by apply Hn.
Qed.
Lemma life_leased max st lo n : life max st Leased lo n -> exists l, lo = Some l.
Proof. inversion 1; subst; eauto. Qed.

(** *** The operations follow the specification *)

Lemma row_ok_moved id row notes n : about n <> id -> row_ok id row notes -> row_ok id row (n :: notes).
Proof. intros Hn. unfold row_ok. by rewrite story_other. Qed.

Lemma table_ok_update t notes id row row' n :
  table_ok t notes -> t !! id = Some row -> about n = id -> row_ok id row' (n :: notes) ->
  table_ok (<[id := row']> t) (n :: notes).
Proof.
  intros [Hrows Hnotes] Hid <- Hok. split.
  - intros id0 r [(<- & <-)|(Hne & Hr)]%lookup_insert_Some; [done|]. apply row_ok_moved; auto.
  - intros m Hm. apply lookup_insert_is_Some'. apply elem_of_cons in Hm as [->|Hm]; [by left|right; auto].
Qed.

Lemma insert_job_ok b now acc p notes : table_ok acc.1 notes -> table_ok (insert_job b now acc p).1 notes.
Proof.
  destruct acc as [t ids]. cbn [fst insert_job]. intros Hok. destruct (t !! job_id_of b p) eqn:E; [exact Hok|]. cbn [fst].
  destruct Hok as [Hrows Hnotes]. split.
  - intros id row [(<- & <-)|(Hne & Hr)]%lookup_insert_Some; [|auto]. unfold row_ok.
    rewrite story_none; [repeat split; try done; constructor|]. intros n Hn Ha.
    destruct (Hnotes n Hn) as [? Hs]. rewrite Ha in Hs. congruence.
  - intros n Hn. apply lookup_insert_is_Some'. auto.
Qed.

Lemma queue_ok t b now notes : table_ok t notes -> table_ok (queue_evidence_jobs t b now).1 notes.
Proof.
  intros Hok. unfold queue_evidence_jobs.
  assert (forall l acc, table_ok acc.1 notes -> table_ok (foldl (insert_job b now) acc l).1 notes) as Hf.
  { induction l as [|p l IH]; intros acc Hacc; cbn; [done|]. by apply IH, insert_job_ok. }
  by apply Hf.
Qed.

Lemma lease_candidate_Some t locked ws cl p now id row :
  lease_candidate t locked ws cl p now = Some (id, row) ->
  t !! id = Some row /\ leasable row ws cl p now = true /\ locked id = false.
Proof.
  unfold lease_candidate. intros E%head_Some_elem_of. rewrite elem_of_isort, elem_of_keep in E.
  destruct E as [Hin [Hl Hf]%andb_true_iff]. apply elem_of_map_to_list in Hin. cbn in *. by apply negb_true_iff in Hf.
Qed.

Lemma leasable_open row ws cl p now :
  leasable row ws cl p now = true ->
  (j_status row = Queued \/ j_status row = Leased) /\ j_attempt_count row < j_max_attempts row.
Proof.
  unfold leasable, available. intros [[_ Ha]%andb_true_iff Hn]%andb_true_iff. split; [|by apply Z.ltb_lt].
  apply orb_true_iff in Ha as [Ha|[Ha _]%andb_true_iff]; apply bool_decide_eq_true_1 in Ha; auto.
Qed.

Lemma lease_ok t locked ws cl p a l secs now clock notes :
  table_ok t notes -> table_ok (run_op t (Lease locked ws cl p a l secs now clock)).1
                        ((run_op t (Lease locked ws cl p a l secs now clock)).2 ++ notes).
Proof.
  intros Hok. cbn. unfold lease_evidence_job.
  destruct (lease_candidate _ _ _ _ _ _) as [[id row]|] eqn:E; [|done]. cbn.
  apply lease_candidate_Some in E as (Hid & Hl & _). eapply table_ok_update; [done..|].
  destruct (proj1 Hok id row Hid) as (Hlife & Hu & Hi & Hk & Hr). unfold row_ok. rewrite (story_same (Handed id l)). cbn.
  apply leasable_open in Hl as [Hs Hn]. split_and!; [by econstructor|eauto|done|done|].
  intros r Hres. destruct (Hr r Hres) as [Hc _]. destruct Hs; congruence.
Qed.
Lemma sublist_keep {A} (p : A -> bool) l : keep p l `sublist_of` l.
Proof. induction l as [|x l IH]; cbn; [done|]. destruct (p x); by constructor. Qed.

Lemma exhausted_ids_spec t locked now limit :
  NoDup (exhausted_ids t locked now limit) /\
  forall id, id ∈ exhausted_ids t locked now limit -> exists row, t !! id = Some row /\ exhausted row now = true.
Proof.
  unfold exhausted_ids. split.
  - apply (sublist_NoDup _ (isort String.leb (keep (fun kv => exhausted kv.2 now && negb (locked kv.1)) (map_to_list t)).*1));
      [|apply sublist_take]. rewrite isort_perm.
    apply (sublist_NoDup _ (map_to_list t).*1); [apply NoDup_fst_map_to_list|]. apply fmap_sublist, sublist_keep.
  - intros id Hid. apply elem_of_take in Hid as (i & Hi & _). apply list_elem_of_lookup_2 in Hi.
    rewrite elem_of_isort in Hi. apply list_elem_of_fmap in Hi as ([id' row] & -> & Hin%elem_of_keep).
    destruct Hin as [Hin [He _]%andb_true_iff]. apply elem_of_map_to_list in Hin. eauto.
Qed.

Lemma story_given_up ids id notes :
  NoDup ids -> story id ((GivenUp <$> ids) ++ notes) = (if bool_decide (id ∈ ids) then [GivenUp id] else []) ++ story id notes.
Proof.
  intros Hnd. rewrite story_app. f_equal. induction Hnd as [|x ids Hx Hnd IH]; [done|]. rewrite fmap_cons.
  destruct (decide (x = id)) as [->|Hne].
  - rewrite (story_same (GivenUp id)). cbn [about]. rewrite IH, bool_decide_eq_false_2 by done. by rewrite bool_decide_eq_true_2 by set_solver.
  - rewrite story_other, IH by done. by rewrite (bool_decide_ext (id ∈ ids) (id ∈ x :: ids)) by set_solver.
Qed.

Lemma janitor_ok t locked now limit notes :
  table_ok t notes -> table_ok (run_op t (Janitor locked now limit)).1 ((run_op t (Janitor locked now limit)).2 ++ notes).
Proof.
  intros [Hrows Hnotes]. cbn. destruct (exhausted_ids_spec t locked now limit) as [Hnd Hids].
  set (ids := exhausted_ids t locked now limit) in *. split.
  - intros id row. rewrite map_lookup_imap. destruct (t !! id) as [r|] eqn:Hr; [|done]. cbn. intros [= <-].
    destruct (Hrows id r Hr) as (Hlife & Hu & Hi & Hk & Hres). unfold row_ok. rewrite story_given_up by done.
    case_bool_decide as Hin; [|done]. cbn. destruct (Hids id Hin) as (r' & Hr' & He). rewrite Hr in Hr'.
    injection Hr' as <-. unfold exhausted in He. bool_simpl. split_and!; try done.
    rewrite H in Hlife. destruct (life_leased _ _ _ _ Hlife) as [l Hl]. rewrite Hl in *. by apply given_up.
  - intros n [Hn|Hn]%elem_of_app; rewrite map_lookup_imap.
    + apply list_elem_of_fmap in Hn as (id & -> & Hid). destruct (Hids id Hid) as (r & Hr & _). cbn. rewrite Hr. by eexists.
    + destruct (Hnotes n Hn) as [r Hr]. rewrite Hr. by eexists.
Qed.
Lemma report_cases t ws cl id l a status result error t' o :
  complete_evidence_job t ws cl id l a status result error = Ok (t', o) ->
  (t' = t /\ forall row, o = Some row -> t !! id = Some row /\ j_status row <> Leased) \/
  exists row r, t !! id = Some row /\ j_status row = Leased /\ j_lease_id row = Some l /\ j_agent_id row = Some a /\
    t' = <[id := ended_row row (next_status row status) r (or_none error)]> t /\
    o = Some (ended_row row (next_status row status) r (or_none error)) /\
    (forall d, r = Some d -> next_status row status = Completed /\
       normalize_evidence_provider_result (j_provider_key row) result = Ok d).
Proof.
  unfold complete_evidence_job. destruct (t !! id) as [row|] eqn:E; [|intros [= <- <-]; by left].
  destruct (reported _ _ _ _ _) eqn:R; cbn [negb]; [|intros [= <- <-]; by left].
  case_bool_decide as Hs; [|intros [= <- <-]; left; naive_solver].
  intros (r & Hr & [= <- <-])%bind_Ok. right. exists row, r. unfold reported in R. bool_simpl. split_and!; try done.
  intros d ->. case_bool_decide; [|done]. apply fmap_Ok in Hr as (d' & Hd & [= ->]). done.
Qed.

Lemma next_status_life row status (l : string) (id : string) (st : list note) :
  life (j_max_attempts row) st Leased (Some l) (j_attempt_count row) ->
  life (j_max_attempts row) (Accepted id l (next_status row status) :: st) (next_status row status) (Some l) (j_attempt_count row).
Proof.
  intros Hl. apply accepted; [done|]. unfold next_status. destruct (str_eqb status "failed"); [|auto].
  destruct (j_max_attempts row <=? j_attempt_count row) eqn:E; bool_simpl; auto.
Qed.

Lemma report_ok t ws cl id l a status result error notes :
  table_ok t notes -> table_ok (run_op t (Report ws cl id l a status result error)).1
                        ((run_op t (Report ws cl id l a status result error)).2 ++ notes).
Proof.
  intros Hok. cbn [run_op]. destruct (complete_evidence_job _ _ _ _ _ _ _ _ _) as [[t' [row'|]]|e] eqn:E; [|exact Hok..].
  apply report_cases in E as [(-> & Ho)|(row & r & Hid & Hs & Hl & Ha & -> & [= ->] & Hr)].
  - destruct (Ho row' eq_refl) as [Hrow Hs]. rewrite bool_decide_eq_false_2; [done|]. rewrite Hrow. cbn. congruence.
  - rewrite bool_decide_eq_true_2 by (by rewrite Hid; cbn; rewrite Hs). eapply table_ok_update; [done..|].
    destruct (proj1 Hok id row Hid) as (Hlife & Hu & Hi & Hk & Hres). unfold row_ok.
    rewrite (story_same (Accepted id l _)). cbn [about j_status ended_row j_lease_id j_attempt_count j_max_attempts j_result].
    rewrite Hs, Hl in Hlife. rewrite Hl. split_and!; [by apply next_status_life|auto|done|done|].
    intros d Hd. destruct (Hr d Hd) as [-> Hn]. eauto.
Qed.

Lemma record_ok t key ws notes : table_ok t notes -> table_ok (drop_results t key ws) notes.
Proof.
  intros [Hrows Hnotes]. unfold drop_results. split.
  - intros id row. rewrite lookup_fmap. intros (r & Hr & ->)%fmap_Some. specialize (Hrows id r Hr).
    destruct (_ && _); [|done]. destruct Hrows as (Hlife & Hu & Hi & Hk & Hres). done.
  - intros n Hn. rewrite lookup_fmap. apply fmap_is_Some. auto.
Qed.

(** Every reachable table follows the specification. *)
Lemma jobs_reachable_ok t notes : reachable t notes -> table_ok t notes.
Proof.
  induction 1 as [|t notes o Hr IH]; [split; [done|set_solver]|]. destruct o.
  - cbn. by apply queue_ok.
  - by apply lease_ok.
  - by apply janitor_ok.
  - by apply report_ok.
  - by apply record_ok.
Qed.
(** *** What the specification says *)

Definition is_handed (n : note) : bool := match n with Handed _ _ => true | _ => false end.
Definition ends (n : note) : bool := match n with Accepted _ _ s => is_terminal s | GivenUp _ => true | Handed _ _ => false end.

Lemma life_bounds max st s lo n :
  life max st s lo n ->
  0 <= n <= Z.max 0 max /\ Z.of_nat (length (keep is_handed st)) = n /\
  Z.of_nat (length st) <= 2 * n - (if decide (s = Leased) then 1 else 0).
Proof.
  induction 1 as [|st j s lo l n Hl IH Hs Hn|st j l n s Hl IH Hs|st j l n Hl IH Hn]; cbn -[Z.of_nat Z.mul];
    repeat case_decide; simplify_eq; lia || (destruct Hs as [?|[[??]|[??]]]; simplify_eq; lia).
Qed.

Lemma life_queued max st lo n : life max st Queued lo n -> n < max \/ n = 0.
Proof. inversion 1; subst; naive_solver. Qed.

Lemma life_tail max x st s lo n : life max (x :: st) s lo n -> exists s' lo' n', life max st s' lo' n'.
Proof. inversion 1; subst; eauto. Qed.

Lemma life_suffix max st1 st s lo n : life max (st1 ++ st) s lo n -> exists s' lo' n', life max st s' lo' n'.
Proof.
  revert s lo n. induction st1 as [|x st1 IH]; intros s lo n Hl; [eauto|].
  apply life_tail in Hl as (? & ? & ? & Hl). eauto.
Qed.

Lemma life_answers max st1 j l s' st2 s lo n :
  life max (st1 ++ Accepted j l s' :: st2) s lo n -> exists j' st3, st2 = Handed j' l :: st3.
Proof.
  intros (? & ? & ? & Hl)%life_suffix. inversion Hl as [| |st j0 l0 n0 s0 Hs Hc|]; subst.
  inversion Hs; subst; naive_solver.
Qed.

Lemma life_ending max st1 e st2 s lo n :
  life max (st1 ++ e :: st2) s lo n -> ends e = true -> st1 = [] /\ is_terminal s = true.
Proof.
  revert s lo n. induction st1 as [|x st1 IH]; intros s lo n Hl He.
  - split; [done|]. inversion Hl; subst; done.
  - cbn in Hl. inversion Hl as [|st j s0 lo0 l n0 Hl' Hs Hn|st j l n0 s0 Hl' Hs|st j l n0 Hl' Hs]; subst;
      destruct (IH _ _ _ Hl' He) as [_ Ht]; [by destruct Hs; subst|done..].
Qed.

(** C18: Every job of the table lives as specified, whatever the agents, gateways
    and janitors do and in whatever order.  Its status, lease and attempts are
    those its notes lead to; an accepted report answers the latest hand-out,
    with nothing in between, so the work of an agent that lost its lease is
    never taken; and a job ends at most once, after which nothing happens to
    it. *)
Theorem jobs_follow_their_life t notes id row :
  reachable t notes -> t !! id = Some row ->
  life (j_max_attempts row) (story id notes) (j_status row) (j_lease_id row) (j_attempt_count row) /\
  (forall later l s earlier, story id notes = later ++ Accepted id l s :: earlier ->
     exists before, earlier = Handed id l :: before) /\
  (forall later e earlier, story id notes = later ++ e :: earlier -> ends e = true ->
     later = [] /\ is_terminal (j_status row) = true).
Proof.
  intros Hr Hid. destruct (proj1 (jobs_reachable_ok t notes Hr) id row Hid) as [Hlife _]. split_and!; [done|..].
  - intros st1 l s st2 E. rewrite E in Hlife. destruct (life_answers _ _ _ _ _ _ _ _ _ Hlife) as (j & st3 & ->).
    assert (Handed j l ∈ story id notes) as Hin by (rewrite E; set_solver).
    unfold story in Hin. apply elem_of_keep in Hin as [_ Hj%str_eqb_eq]. cbn in Hj. subst. eauto.
  - intros st1 e st2 E He. rewrite E in Hlife. by eapply life_ending.
Qed.
(** *** Jobs come to an end *)

Lemma head_isort {A} (leb : A -> A -> bool) l x :
  (forall a b, leb a b = true \/ leb b a = true) ->
  (forall a b c, leb a b = true -> leb b c = true -> leb a c = true) ->
  x ∈ l -> exists y, head (isort leb l) = Some y /\ leb y x = true.
Proof.
  intros Htotal Htrans Hx. assert (StronglySorted (fun a b => leb a b = true) (isort leb l)) as Hs.
  { apply (isort_sorted_on leb (fun _ => True)); [auto|intros a b c _ _ _; apply Htrans|by apply Forall_true]. }
  rewrite <- (elem_of_isort leb) in Hx. destruct (isort leb l) as [|y k]; [set_solver|].
  exists y. split; [done|]. inversion Hs as [|? ? ? Hall]; subst. apply elem_of_cons in Hx as [->|Hx].
  - by destruct (Htotal y y).
  - rewrite Forall_forall in Hall. auto.
Qed.

Lemma lease_progress t id row now :
  t !! id = Some row -> available row now = true -> j_attempt_count row < j_max_attempts row ->
  exists id' row', lease_candidate t (fun _ => false) (j_workspace_id row) (j_cluster_id row) (j_provider_key row) now
                     = Some (id', row') /\ j_created_at row' <= j_created_at row.
Proof.
  intros Hid Ha Hn. unfold lease_candidate.
  assert ((id, row) ∈ keep (fun kv => leasable kv.2 (j_workspace_id row) (j_cluster_id row) (j_provider_key row) now
                                      && negb false) (map_to_list t)) as Hin.
  { apply elem_of_keep. split; [by apply elem_of_map_to_list|]. cbn. unfold leasable.
    rewrite !str_eqb_refl, Ha. cbn. by rewrite (proj2 (Z.ltb_lt _ _) Hn). }
  apply (head_isort (fun a b : string * EvidenceJob => j_created_at a.2 <=? j_created_at b.2)) in Hin
    as ([id' row'] & Hh & Hle%Z.leb_le); [by exists id', row'|..].
  - intros a b. rewrite !Z.leb_le. lia.
  - intros a b c. rewrite !Z.leb_le. lia.
Qed.

Lemma janitor_progress t id row now limit :
  t !! id = Some row -> exhausted row now = true -> (0 < limit)%nat -> exhausted_ids t (fun _ => false) now limit <> [].
Proof.
  intros Hid He Hl. unfold exhausted_ids.
  assert (id ∈ isort String.leb (keep (fun kv => exhausted kv.2 now && negb false) (map_to_list t)).*1) as Hin.
  { apply elem_of_isort, list_elem_of_fmap. exists (id, row). split; [done|]. apply elem_of_keep.
    split; [by apply elem_of_map_to_list|]. cbn. by rewrite He. }
  cbn in Hin |- *. destruct (isort _ _); [set_solver|]. destruct limit; [lia|done].
Qed.

(** C20: The work on a job is bounded and never gets stuck.  A job is handed out at
    most as often as it has attempts, and at most twice as many notes are made
    about it, whatever the failures.  A job that has not ended waits for
    nothing but the end of its lease: from then on either a poll of its
    provider is given a job, this one or one at least as old, or the janitor
    ends an exhausted job. *)
Theorem jobs_come_to_an_end t notes id row :
  reachable t notes -> t !! id = Some row -> 0 < j_max_attempts row ->
  (Z.of_nat (length (keep is_handed (story id notes))) <= j_max_attempts row) /\
  (Z.of_nat (length (story id notes)) <= 2 * j_max_attempts row) /\
  (is_terminal (j_status row) = false ->
   forall now, (forall until, j_leased_until row = Some until -> until < now) ->
   (forall agent lease secs clock, exists id' row',
      (lease_evidence_job t (fun _ => false) (j_workspace_id row) (j_cluster_id row) (j_provider_key row) agent
        lease secs now clock).2 = Some (id', row') /\ j_created_at row' <= j_created_at row) \/
   (forall limit, (0 < limit)%nat -> (run_op t (Janitor (fun _ => false) now limit)).2 <> [])).
Proof.
  intros Hr Hid Hm. destruct (proj1 (jobs_reachable_ok t notes Hr) id row Hid) as (Hlife & Hu & _).
  destruct (life_bounds _ _ _ _ _ Hlife) as (Hn & Hh & Hlen). split_and!; [lia|case_decide; lia|].
  intros Ht now Hnow.
  assert (j_status row = Leased -> expired row now = true) as Hexp.
  { intros [until Hu']%Hu. unfold expired. rewrite Hu'. apply Z.ltb_lt. auto. }
  destruct (Z.lt_ge_cases (j_attempt_count row) (j_max_attempts row)) as [Hlt|Hge].
  - left. intros agent lease secs clock. unfold lease_evidence_job.
    destruct (lease_progress t id row now) as (id' & row' & -> & Hle); [done| |done|by eexists _, _].
    unfold available. destruct (j_status row) eqn:Es; try done; cbn. by apply Hexp.
  - right. intros limit Hlim. cbn. intros E%fmap_nil_inv. revert E. eapply janitor_progress; [done| |done].
    unfold exhausted. destruct (j_status row) eqn:Es; try done.
    + destruct (life_queued _ _ _ _ Hlife); lia.
    + rewrite Hexp by done. cbn. by apply Z.leb_le.
Qed.
(** ** What a stored result looks like *)

Definition bounded_status (raw : dict) : dict :=
  add_reasons raw (foldl (add_count raw) (add_source raw [("status", get raw "status")]) COLLECTION_COUNT_FIELDS).

Lemma nonempty_str_Some v s : nonempty_str v = Some s <-> v = VStr s /\ s <> "".
Proof. destruct v as [| | | |[|c s']| | |]; cbn; naive_solver. Qed.

Lemma nonempty_str_take n v s :
  nonempty_str v = Some s -> nonempty_str (VStr (str_take (S n) s)) = Some (str_take (S n) s).
Proof. intros [_ Hs]%nonempty_str_Some. by destruct s. Qed.

Lemma omap_nonempty_take n m :
  Forall (fun s => s <> "") m ->
  omap nonempty_str ((fun s => VStr (str_take (S n) s)) <$> m) = str_take (S n) <$> m.
Proof.
  induction 1 as [|s m Hs _ IH]; [done|]. rewrite !fmap_cons. cbn [omap list_omap]. rewrite IH.
  by rewrite (nonempty_str_take n (VStr s) s) by (by apply nonempty_str_Some).
Qed.

Lemma bounded_reasons_idemp l : bounded_reasons (bounded_reasons l) = bounded_reasons l.
Proof.
  unfold bounded_reasons at 1. rewrite take_ge.
  - unfold bounded_reasons, MAX_COLLECTION_REASON_CODE_LENGTH. rewrite omap_nonempty_take.
    + rewrite <- list_fmap_compose. apply list_fmap_ext. intros i s _. unfold compose. by rewrite str_take_take.
    + apply Forall_forall. intros s (v & _ & [_ Hs]%nonempty_str_Some)%list_elem_of_omap. done.
  - unfold bounded_reasons. rewrite length_fmap. etrans; [apply EvidenceBundle.length_omap_le|]. rewrite length_take. lia.
Qed.

(** The fields of a bounded status. *)
Lemma get_add_source raw d k : k <> "source" -> get (add_source raw d) k = get d k.
Proof. intros Hk. unfold add_source. case_match; [|done]. by rewrite get_set_ne. Qed.

Lemma get_add_count raw d f k : k <> f -> get (add_count raw d f) k = get d k.
Proof. intros Hk. unfold add_count. case_match; [|done]. by rewrite get_set_ne. Qed.

Lemma get_add_reasons raw d k : k <> "reason_codes" -> get (add_reasons raw d) k = get d k.
Proof. intros Hk. unfold add_reasons. case_match; try done. by rewrite get_set_ne. Qed.

Lemma count_added raw d f : get d f = VNone -> as_count (get (add_count raw d f) f) = as_count (get raw f).
Proof.
  intros Hd. unfold add_count. destruct (as_count (get raw f)) as [z|] eqn:E; [|by rewrite Hd].
  rewrite get_set_eq. revert E. unfold as_count. destruct (get raw f) as [| |y| | | | |]; try done.
  destruct (0 <=? y) eqn:Ey; [|done]. intros [= <-]. by rewrite Ey.
Qed.

Ltac get_bounded := rewrite ?get_add_reasons, ?get_add_count, ?get_add_source by done.

Lemma bounded_status_fields raw :
  get (bounded_status raw) "status" = get raw "status" /\
  nonempty_str (get (bounded_status raw) "source")
    = str_take MAX_COLLECTION_REASON_CODE_LENGTH <$> nonempty_str (get raw "source") /\
  (forall f, f ∈ COLLECTION_COUNT_FIELDS -> as_count (get (bounded_status raw) f) = as_count (get raw f)) /\
  get (bounded_status raw) "reason_codes"
    = match get raw "reason_codes" with VList l => VList (bounded_reasons l) | _ => VNone end.
Proof.
  unfold bounded_status, COLLECTION_COUNT_FIELDS. cbn [foldl]. split_and!.
  - by get_bounded.
  - get_bounded. unfold add_source. destruct (nonempty_str (get raw "source")) as [s|] eqn:E; [|done].
    rewrite get_set_eq. apply (nonempty_str_take 119 _ _ E).
  - intros f Hf. rewrite get_add_reasons by set_solver.
    repeat (apply elem_of_cons in Hf as [->|Hf]); [..|by apply elem_of_nil in Hf]; get_bounded;
      rewrite count_added; [done|by get_bounded|done|by get_bounded|done|by get_bounded].
  - unfold add_reasons. case_match; try (by get_bounded). by rewrite get_set_eq.
Qed.

Lemma bounded_status_idemp raw : bounded_status (bounded_status raw) = bounded_status raw.
Proof.
  destruct (bounded_status_fields raw) as (Hs & Hsrc & Hc & Hr). set (b := bounded_status raw) in *.
  transitivity (add_reasons b (foldl (add_count b) (add_source raw [("status", get raw "status")]) COLLECTION_COUNT_FIELDS)).
  - unfold bounded_status. do 2 f_equal. unfold add_source. rewrite Hs, Hsrc.
    destruct (nonempty_str (get raw "source")); cbn [fmap option_fmap option_map]; [|done]. by rewrite str_take_take.
  - unfold b at 3, bounded_status. cbn [foldl COLLECTION_COUNT_FIELDS]. unfold add_count. rewrite !Hc by set_solver.
    unfold add_reasons. rewrite Hr. destruct (get raw "reason_codes"); try done. by rewrite bounded_reasons_idemp.
Qed.
Lemma normalized_status_cases k r st :
  normalized_provider_collection_status k r = Ok st ->
  st = [] \/ exists raw, st = bounded_status raw /\ in_states (get raw "status") COLLECTION_STATES = Ok true.
Proof.
  unfold normalized_provider_collection_status. repeat case_match; try (intros [= <-]; by left).
  intros (known & Hk & E)%bind_Ok. destruct known; cbn in E; [|injection E as <-; by left].
  apply Ok_inj in E. subst. right. eexists. split; [reflexivity|done].
Qed.

Lemma dict_set_nonempty {A} (d : list (string * A)) k v : dict_set d k v <> [].
Proof. destruct d as [|[i w] d]; cbn; [done|]. by destruct (str_eqb i k). Qed.

Lemma bounded_status_nonempty raw : bounded_status raw <> [].
Proof.
  unfold bounded_status, COLLECTION_COUNT_FIELDS. cbn [foldl].
  assert (forall d, d <> [] -> add_source raw d <> []) as Hs by (unfold add_source; intros; case_match; auto using @dict_set_nonempty).
  assert (forall d f, d <> [] -> add_count raw d f <> []) as Hc by (unfold add_count; intros; case_match; auto using @dict_set_nonempty).
  assert (forall d, d <> [] -> add_reasons raw d <> []) as Hr by (unfold add_reasons; intros; case_match; auto using @dict_set_nonempty).
  by apply Hr, Hc, Hc, Hc, Hs.
Qed.

(** A provider whose key is that of the envelope would overwrite it. *)
Lemma normalize_again k raw r :
  k <> COLLECTION_STATUS_KEY -> normalize_evidence_provider_result k raw = Ok r ->
  exists st, normalized_provider_collection_status k raw = Ok st /\
    normalized_provider_collection_status k r = Ok st /\ normalize_evidence_provider_result k r = Ok r /\
    (r = [(k, get r k)] \/ r = [(k, get r k); (COLLECTION_STATUS_KEY, status_envelope k st)]).
Proof.
  intros Hk E. unfold normalize_evidence_provider_result in E. apply bind_Ok in E as (st & Hst & E).
  assert (str_eqb k COLLECTION_STATUS_KEY = false) as Hkc by by apply bool_decide_eq_false_2.
  exists st. split; [done|].
  set (base := if has_key raw k then _ else _) in E.
  assert (exists v, base = [(k, v)]) as [v Hb] by (unfold base; destruct (has_key raw k); eauto). rewrite Hb in E. clear base Hb.
  apply Ok_inj in E. destruct (normalized_status_cases _ _ _ Hst) as [->|(raw' & -> & Hin)].
  - cbn in E. subst r.
    assert (normalized_provider_collection_status k [(k, v)] = Ok []) as Hn.
    { unfold normalized_provider_collection_status, get. cbn [dict_get]. by rewrite Hkc. }
    split; [done|]. unfold normalize_evidence_provider_result. rewrite Hn. unfold has_key, get. cbn.
    rewrite str_eqb_refl. cbn. auto.
  - rewrite bool_decide_eq_false_2 in E by apply bounded_status_nonempty. cbn [dict_set] in E. rewrite Hkc in E.
    subst r.
    assert (normalized_provider_collection_status k
              [(k, v); (COLLECTION_STATUS_KEY, status_envelope k (bounded_status raw'))] = Ok (bounded_status raw')) as Hn.
    { unfold normalized_provider_collection_status.
      replace (get [(k, v); (COLLECTION_STATUS_KEY, status_envelope k (bounded_status raw'))] COLLECTION_STATUS_KEY)
        with (status_envelope k (bounded_status raw')) by (unfold get; cbn [dict_get]; by rewrite Hkc, str_eqb_refl).
      cbn [status_envelope].
      replace (get [(COLLECTION_PROVIDERS_KEY, VDict [(k, VDict (bounded_status raw'))])] COLLECTION_PROVIDERS_KEY)
        with (VDict [(k, VDict (bounded_status raw'))]) by done.
      replace (get [(k, VDict (bounded_status raw'))] k) with (VDict (bounded_status raw'))
        by (unfold get; cbn [dict_get]; by rewrite str_eqb_refl).
      destruct (bounded_status_fields raw') as [Hs _]. rewrite Hs at 1. rewrite Hin. cbn [mbind res_bind negb].
      f_equal. exact (bounded_status_idemp raw'). }
    split; [done|]. unfold normalize_evidence_provider_result. rewrite Hn. unfold has_key, get. cbn [dict_get].
    rewrite str_eqb_refl. cbn [from_option mbind res_bind id]. rewrite bool_decide_eq_false_2 by apply bounded_status_nonempty.
    cbn [dict_set]. rewrite Hkc. auto.
Qed.
(** ** A window that is ready *)

(** The keys of the payload that are not buckets of providers. *)
Definition RESERVED : list string :=
  ["workspace_id"; "cluster_id"; "source_id"; "window_start"; "evidence_key"; "agent_id"; "release_context";
   "correlation_id"; COLLECTION_STATUS_KEY].

Definition settled (row : EvidenceJob) : Prop :=
  j_status row = Failed \/
  (j_status row = Completed /\ exists r raw, j_result row = Some r /\
     normalize_evidence_provider_result (j_provider_key row) raw = Ok r).

Definition final_status (row : EvidenceJob) : dict :=
  match j_status row, j_result row with
  | Completed, Some r =>
      resolved_provider_collection_status (j_provider_key row) (get r (j_provider_key row))
        (match normalized_provider_collection_status (j_provider_key row) r with Ok st => st | Err _ => [] end)
  | _, _ => [("status", VStr COLLECTION_UNAVAILABLE); ("reason_codes", VList [VStr PROVIDER_JOB_FAILED_REASON])]
  end.

Definition bucket (row : EvidenceJob) : pyval :=
  match j_status row, j_result row with
  | Completed, Some r => get r (j_provider_key row)
  | _, _ => empty_provider_payload (j_provider_key row)
  end.

Definition vacant (payload : dict) (k : string) : Prop :=
  dict_get payload k = None \/ dict_get payload k = Some (empty_provider_payload k).

Lemma dict_get_get (d : dict) k v : dict_get d k = Some v -> get d k = v.
Proof. unfold get. by intros ->. Qed.

Lemma merge_bucket payload k v r :
  k <> COLLECTION_STATUS_KEY -> r = [(k, v)] \/ (exists e, r = [(k, v); (COLLECTION_STATUS_KEY, e)]) ->
  (forall j, j <> k -> dict_get (merge_evidence_provider_payload payload r) j = dict_get payload j) /\
  (k <> "metadata" -> get (merge_evidence_provider_payload payload r) k = v).
Proof.
  intros Hk Hr. assert (without COLLECTION_STATUS_KEY r = [(k, v)]) as Hw.
  { assert (str_eqb k COLLECTION_STATUS_KEY = false) as Hf by by apply bool_decide_eq_false_2.
    destruct Hr as [->|[e ->]]; unfold without; cbn [keep fst]; by rewrite Hf, ?str_eqb_refl. }
  unfold merge_evidence_provider_payload. rewrite Hw. destruct (decide (k = "metadata")) as [->|Hm].
  - split; [|done]. intros j Hj. change (get [("metadata", v)] "metadata") with v.
    assert (forall m, dict_get (dict_update payload [("metadata", m)]) j = dict_get payload j) as Hset
      by (intros m; exact (dict_get_set_ne payload "metadata" j m (not_eq_sym Hj))).
    destruct v; exact (Hset _).
  - assert (get [(k, v)] "metadata" = VNone) as ->.
    { unfold get. cbn. unfold str_eqb. by rewrite bool_decide_eq_false_2. }
    cbn. split; [intros j Hj; by rewrite dict_get_set_ne|]. intros _. apply get_set_eq.
Qed.

Lemma aggregate_row_spec payload statuses row :
  settled row -> j_provider_key row ∉ RESERVED ->
  exists payload', aggregate_row (payload, statuses) row
                     = Ok (payload', dict_set statuses (j_provider_key row) (final_status row)) /\
    (forall j, j <> j_provider_key row -> dict_get payload' j = dict_get payload j) /\
    (j_provider_key row <> "metadata" -> vacant payload (j_provider_key row) -> get payload' (j_provider_key row) = bucket row).
Proof.
  intros Hs Hk. assert (j_provider_key row <> COLLECTION_STATUS_KEY) as Hkc by set_solver.
  unfold aggregate_row, final_status, bucket. destruct Hs as [Hf|(Hc & r & raw & Hr & Hn)].
  - rewrite Hf. eexists. split; [by destruct (j_result row)|]. unfold setdefault, has_key, get.
    split.
    + intros j Hj. case_match; [done|]. by rewrite dict_get_set_ne.
    + intros _ [Hv|Hv]; rewrite Hv; [by rewrite dict_get_set_eq|by rewrite Hv].
  - rewrite Hc, Hr. destruct (normalize_again _ _ _ Hkc Hn) as (st & _ & Hst & Hagain & Hshape). rewrite Hagain.
    cbn [mbind res_bind]. rewrite Hst. cbn [mbind res_bind]. eexists. split; [reflexivity|].
    destruct (merge_bucket payload (j_provider_key row) (get r (j_provider_key row)) r Hkc) as [H1 H2]; [naive_solver|].
    split; [exact H1|]. intros Hm _. by apply H2.
Qed.
Lemma aggregate_rows_spec rows payload statuses :
  NoDup (j_provider_key <$> rows) -> (forall row, row ∈ rows -> settled row /\ j_provider_key row ∉ RESERVED) ->
  (forall row, row ∈ rows -> j_provider_key row ∉ statuses.*1) ->
  exists payload', foldr_res aggregate_row (payload, statuses) rows
                     = Ok (payload', statuses ++ ((fun row => (j_provider_key row, final_status row)) <$> rows)) /\
    (forall j, j ∉ j_provider_key <$> rows -> dict_get payload' j = dict_get payload j) /\
    (forall row, row ∈ rows -> j_provider_key row <> "metadata" -> vacant payload (j_provider_key row) ->
       get payload' (j_provider_key row) = bucket row).
Proof.
  revert payload statuses. induction rows as [|row rows IH]; intros payload statuses Hnd Hrows Hst.
  { exists payload. cbn. rewrite app_nil_r. split_and!; [done..|]. set_solver. }
  rewrite fmap_cons, NoDup_cons in Hnd. destruct Hnd as [Hnew Hnd].
  destruct (Hrows row) as [Hs Hk]; [set_solver|].
  destruct (aggregate_row_spec payload statuses row Hs Hk) as (p1 & Hrow & Hother & Hbucket).
  rewrite dict_set_fresh in Hrow by (apply Hst; set_solver).
  destruct (IH p1 (statuses ++ [(j_provider_key row, final_status row)])) as (p2 & Hrest & Hother2 & Hbucket2); [done|..].
  - intros r Hr. apply Hrows. by right.
  - intros r Hr. rewrite fmap_app. intros [Hin|Hin%list_elem_of_singleton]%elem_of_app; [by eapply (Hst r); [right|]|].
    apply Hnew. cbn in Hin. rewrite <- Hin. by apply list_elem_of_fmap_2.
  - exists p2. split_and!.
    + cbn [foldr_res]. rewrite Hrow. cbn [mbind res_bind]. rewrite Hrest. by rewrite <- app_assoc.
    + intros j Hj. rewrite fmap_cons, not_elem_of_cons in Hj. destruct Hj. by rewrite Hother2, Hother.
    + intros r [->|Hr]%elem_of_cons Hm Hv.
      * unfold get. rewrite Hother2 by done. by apply Hbucket.
      * apply Hbucket2; [done..|]. unfold vacant. rewrite Hother; [done|]. intros E. apply Hnew. rewrite <- E.
        by apply list_elem_of_fmap_2.
Qed.

Lemma keep_fmap {A B} (f : A -> B) (p : B -> bool) l : keep p (f <$> l) = f <$> keep (fun x => p (f x)) l.
Proof. induction l as [|x l IH]; cbn; [done|]. destruct (p (f x)); cbn; by rewrite IH. Qed.

Lemma elem_of_window_rows t key row :
  row ∈ window_rows t key <-> exists id, t !! id = Some row /\ j_evidence_key row = key.
Proof.
  unfold window_rows. rewrite elem_of_isort, elem_of_keep, str_eqb_eq, list_elem_of_fmap. split.
  - intros [([id r] & -> & Hin%elem_of_map_to_list) Hk]. eauto.
  - intros (id & Hid & Hk). split; [|done]. exists (id, row). split; [done|]. by apply elem_of_map_to_list.
Qed.

Lemma window_providers_distinct t notes key : reachable t notes -> NoDup (j_provider_key <$> window_rows t key).
Proof.
  intros Hr%jobs_reachable_ok. unfold window_rows. rewrite isort_perm, keep_fmap, <- list_fmap_compose.
  apply NoDup_fmap_2_strong.
  - intros [i a] [j b] [Ha Hka]%elem_of_keep [Hb Hkb]%elem_of_keep E. cbn in *.
    apply str_eqb_eq in Hka, Hkb. apply elem_of_map_to_list in Ha, Hb.
    destruct (proj1 Hr i a Ha) as (_ & _ & Hi & Hka' & _). destruct (proj1 Hr j b Hb) as (_ & _ & Hj & Hkb' & _).
    assert (i = j) as ->; [|congruence]. rewrite Hi, Hj. unfold evidence_job_id. by rewrite <- Hka', <- Hkb', Hka, Hkb, E.
  - eapply sublist_NoDup; [apply NoDup_map_to_list|apply sublist_keep].
Qed.

(** The text of a key names its parts when they have no colon. *)
Lemma join_colon_inj a b c d :
  all_chars (fun x => negb (Ascii.eqb x ":")) a = true -> all_chars (fun x => negb (Ascii.eqb x ":")) c = true ->
  a +:+ String ":" b = c +:+ String ":" d -> a = c /\ b = d.
Proof.
  revert c. induction a as [|x a IH]; intros [|y c] Ha Hc E; cbn in *.
  - by injection E.
  - injection E as <- _. done.
  - injection E as -> _. by rewrite Ascii.eqb_refl in Ha.
  - injection E as -> E. apply andb_true_iff in Ha as [_ Ha]. apply andb_true_iff in Hc as [_ Hc].
    destruct (IH c Ha Hc E) as [-> ->]. done.
Qed.
Definition plain (s : string) : bool := all_chars (fun x => negb (Ascii.eqb x ":")) s.

(** Rows of one window have one tenant, cluster, source and start. *)
Definition same_window (a b : EvidenceJob) : Prop :=
  j_workspace_id a = j_workspace_id b /\ j_cluster_id a = j_cluster_id b /\ j_source_id a = j_source_id b /\
  j_window_start a = j_window_start b.

Lemma window_is_of_one_tenant t notes key a b :
  reachable t notes -> a ∈ window_rows t key -> b ∈ window_rows t key ->
  (forall row, row ∈ [a; b] -> plain (j_workspace_id row) && plain (j_cluster_id row) && plain (j_source_id row) = true) ->
  same_window a b.
Proof.
  intros Hr%jobs_reachable_ok (i & Hi & Ha)%elem_of_window_rows (j & Hj & Hb)%elem_of_window_rows Hp.
  destruct (proj1 Hr i a Hi) as (_ & _ & _ & Hka & _). destruct (proj1 Hr j b Hj) as (_ & _ & _ & Hkb & _).
  pose proof (Hp a ltac:(set_solver)) as Hpa. pose proof (Hp b ltac:(set_solver)) as Hpb. bool_simpl.
  assert (evidence_key (j_workspace_id a) (j_cluster_id a) (j_source_id a) (j_window_start a) =
          evidence_key (j_workspace_id b) (j_cluster_id b) (j_source_id b) (j_window_start b)) as E by congruence.
  unfold evidence_key in E. cbn [join String.append] in E.
  apply join_colon_inj in E as [Hw E]; [|done..]. apply join_colon_inj in E as [Hc E]; [|done..].
  apply join_colon_inj in E as [Hsrc Hwin]; [|done..]. done.
Qed.

Lemma get_with_release_context payload c k :
  k <> "release_context" -> k <> "correlation_id" -> dict_get (with_release_context payload c) k = dict_get payload k.
Proof. intros H1 H2. unfold with_release_context. repeat case_match; by rewrite ?dict_get_set_ne by done. Qed.

Lemma window_header_get first rows :
  get (window_header first rows) "workspace_id" = VStr (j_workspace_id first) /\
  get (window_header first rows) "cluster_id" = VStr (j_cluster_id first) /\
  get (window_header first rows) "source_id" = VStr (j_source_id first) /\
  get (window_header first rows) "window_start" = VStr (j_window_start first) /\
  (forall k, k ∉ RESERVED -> vacant (window_header first rows) k).
Proof.
  unfold window_header, get, vacant. split_and!; [by rewrite get_with_release_context..|].
  intros k Hk. rewrite get_with_release_context by set_solver.
  destruct (decide (k = "kubernetes")) as [->|Hn]; [by right|left].
  apply dict_get_None. cbn. set_solver.
Qed.

Lemma state_in_cons st s states :
  state_in st (s :: states) = true <-> get st "status" = VStr s \/ state_in st states = true.
Proof.
  unfold state_in. destruct (get st "status"); try (split; [done|by intros [?|?]]).
  rewrite !bool_decide_eq_true, elem_of_cons. split; (intros [?|?]; [left; congruence|auto]).
Qed.

Lemma state_in_nil st : state_in st [] = false.
Proof. unfold state_in. by destruct (get st "status"). Qed.

Lemma resolved_state k v st :
  state_in (resolved_provider_collection_status k v st) COLLECTION_STATES = true.
Proof.
  unfold resolved_provider_collection_status, COLLECTION_STATES.
  destruct (state_in st [COLLECTION_UNAVAILABLE; COLLECTION_NOT_QUERIED]) eqn:E1.
  { rewrite !state_in_cons in *. tauto. }
  destruct (negb _); [rewrite !state_in_cons; rewrite get_set_ne, get_set_eq by done; auto|].
  destruct (state_in st [COLLECTION_COMPLETED; COLLECTION_PARTIAL]) eqn:E2; [|done].
  rewrite !state_in_cons, state_in_nil in *. naive_solver.
Qed.

Lemma final_status_known row : settled row -> state_in (final_status row) COLLECTION_STATES = true.
Proof.
  unfold final_status. intros [->|(-> & r & raw & -> & _)]; [by destruct (j_result row)|]. apply resolved_state.
Qed.

Lemma elem_of_providers_in states statuses k :
  k ∈ providers_in states statuses <-> exists st, (k, st) ∈ statuses /\ state_in st states = true.
Proof.
  unfold providers_in. rewrite elem_of_isort, list_elem_of_fmap. split.
  - intros ([k' st] & -> & [Hin Hs]%elem_of_keep). eauto.
  - intros (st & Hin & Hs). exists (k, st). split; [done|]. by apply elem_of_keep.
Qed.

Lemma keep_length_full {A} (p : A -> bool) l : length (keep p l) = length l <-> forall x, x ∈ l -> p x = true.
Proof.
  induction l as [|x l IH]; cbn; [set_solver|]. pose proof (keep_length_le p l).
  destruct (p x) eqn:E; cbn; setoid_rewrite elem_of_cons.
  - rewrite Nat.succ_inj_wd, IH. naive_solver.
  - split; [lia|]. intros Hp. rewrite Hp in E by auto. done.
Qed.
(** The lists of providers of a collection status. *)
Definition GROUPS : list (list string) :=
  [[COLLECTION_COMPLETED]; [COLLECTION_PARTIAL]; [COLLECTION_UNAVAILABLE; COLLECTION_NOT_QUERIED]].

Definition statuses_of (rows : list EvidenceJob) : list (string * dict) :=
  (fun row => (j_provider_key row, final_status row)) <$> rows.

Lemma provider_listed rows row states :
  NoDup (j_provider_key <$> rows) -> row ∈ rows ->
  j_provider_key row ∈ providers_in states (statuses_of rows) <-> state_in (final_status row) states = true.
Proof.
  intros Hnd Hrow. rewrite elem_of_providers_in. unfold statuses_of. split.
  - intros (st & (r & [= Hk ->] & Hr)%list_elem_of_fmap & Hs).
    by rewrite (NoDup_fmap_fst_eq j_provider_key rows row r Hnd Hrow Hr Hk).
  - intros Hs. exists (final_status row). split; [|done]. apply list_elem_of_fmap. eauto.
Qed.

Lemma state_has_one_group st :
  state_in st COLLECTION_STATES = true ->
  exists group, group ∈ GROUPS /\ forall group', group' ∈ GROUPS -> state_in st group' = true <-> group' = group.
Proof.
  unfold state_in, GROUPS. destruct (get st "status") as [| | | |s| | |]; try done. intros Hs%bool_decide_eq_true_1.
  assert (exists group, group ∈ [[COLLECTION_COMPLETED]; [COLLECTION_PARTIAL]; [COLLECTION_UNAVAILABLE; COLLECTION_NOT_QUERIED]] /\
            bool_decide (s ∈ group) = true) as (g & Hg & Hsg).
  { unfold COLLECTION_STATES in Hs. repeat (apply elem_of_cons in Hs as [->|Hs]); [..|by apply elem_of_nil in Hs];
      [exists [COLLECTION_COMPLETED]|exists [COLLECTION_PARTIAL]|exists [COLLECTION_UNAVAILABLE; COLLECTION_NOT_QUERIED]..];
      (split; [|reflexivity]); set_solver. }
  exists g. split; [done|]. intros g' Hg'. split; [|by intros ->]. intros Hsg'.
  apply bool_decide_eq_true_1 in Hsg, Hsg'. clear Hs.
  repeat (apply elem_of_cons in Hg as [->|Hg]); [..|by apply elem_of_nil in Hg];
    repeat (apply elem_of_cons in Hg' as [->|Hg']); try (by apply elem_of_nil in Hg'); try done;
    repeat (apply elem_of_cons in Hsg as [->|Hsg]); try (by apply elem_of_nil in Hsg);
    repeat (apply elem_of_cons in Hsg' as [Hsg'|Hsg']; [discriminate Hsg'|]); by apply elem_of_nil in Hsg'.
Qed.

Lemma complete_means_all rows :
  NoDup (j_provider_key <$> rows) ->
  get (aggregate_collection_status (statuses_of rows)) "complete" = VBool true <->
  forall row, row ∈ rows -> j_provider_key row ∈ providers_in [COLLECTION_COMPLETED] (statuses_of rows).
Proof.
  intros Hnd. change (get (aggregate_collection_status (statuses_of rows)) "complete") with
    (VBool (length (providers_in [COLLECTION_COMPLETED] (statuses_of rows)) =? length (statuses_of rows))%nat).
  unfold providers_in at 1. rewrite length_isort, length_fmap. split.
  - intros [= E%Nat.eqb_eq] row Hin. apply provider_listed; [done..|].
    apply (proj1 (keep_length_full (fun kv => state_in kv.2 [COLLECTION_COMPLETED]) _) E (j_provider_key row, final_status row)).
    unfold statuses_of. apply list_elem_of_fmap. eauto.
  - intros Hall. f_equal. apply Nat.eqb_eq, keep_length_full. intros kv (row & -> & Hin)%list_elem_of_fmap.
    by apply (provider_listed rows row); auto.
Qed.

(** A window is reported once all its jobs have ended, and the report accounts
    for every provider.  When the jobs of a window have ended, none of them
    fatally, their results are aggregated without an error: the payload names
    the tenant, cluster, source and start of each job, holds under each
    provider what that provider's job delivered, or nothing for a failed one,
    and each provider is listed under exactly one of completed, partial and
    failed, a failed job always under failed; the window is complete exactly
    when every provider is completed. *)
Theorem ready_window_accounts t notes key :
  reachable t notes -> window_rows t key <> [] ->
  (forall row, row ∈ window_rows t key ->
     is_terminal (j_status row) = true /\ strictly_failed row = false /\ (j_status row = Completed -> j_result row <> None) /\
     j_provider_key row ∉ RESERVED /\
     plain (j_workspace_id row) && plain (j_cluster_id row) && plain (j_source_id row) = true) ->
  exists p statuses, evidence_payload_if_ready t key = Ok (Some p) /\
    get p COLLECTION_STATUS_KEY = VDict (aggregate_collection_status statuses) /\
    (get (aggregate_collection_status statuses) "complete" = VBool true <->
     forall row, row ∈ window_rows t key -> j_provider_key row ∈ providers_in [COLLECTION_COMPLETED] statuses) /\
    forall row, row ∈ window_rows t key ->
      get p "workspace_id" = VStr (j_workspace_id row) /\ get p "cluster_id" = VStr (j_cluster_id row) /\
      get p "source_id" = VStr (j_source_id row) /\ get p "window_start" = VStr (j_window_start row) /\
      (j_provider_key row <> "metadata" -> get p (j_provider_key row) = bucket row) /\
      (exists group, group ∈ GROUPS /\
         forall group', group' ∈ GROUPS ->
           j_provider_key row ∈ providers_in group' statuses <-> group' = group) /\
      (j_status row = Failed -> j_provider_key row ∈ providers_in [COLLECTION_UNAVAILABLE; COLLECTION_NOT_QUERIED] statuses).
Proof.
  intros Hr Hne Hrows. pose proof (window_providers_distinct t notes key Hr) as Hnd.
  assert (forall row, row ∈ window_rows t key -> settled row) as Hset.
  { intros row Hin. destruct (Hrows row Hin) as (Ht & _ & Hres & _). unfold settled.
    apply elem_of_window_rows in Hin as (id & Hid & _).
    destruct (proj1 (jobs_reachable_ok t notes Hr) id row Hid) as (_ & _ & _ & _ & Hn).
    destruct (j_status row); try done; [right|by left]. split; [done|].
    destruct (j_result row) as [r|]; [|by destruct Hres]. destruct (Hn r eq_refl) as (_ & raw & Hraw). eauto. }
  unfold evidence_payload_if_ready, aggregate_evidence_payload. destruct (window_rows t key) as [|first rest] eqn:Ew; [done|].
  rewrite (proj2 (orb_false_iff _ _)) by (split; apply not_true_iff_false; rewrite existsb_elem;
    intros (row & Hin & Hb); destruct (Hrows row Hin) as (Ht & Hs & _); by rewrite ?Ht, ?Hs in Hb).
  destruct (window_header_get first (first :: rest)) as (Hw & Hc & Hsrc & Hwin & Hvac).
  destruct (aggregate_rows_spec (first :: rest) (window_header first (first :: rest)) []) as (p & Hp & Hother & Hbucket);
    [done|intros row Hin; split; [auto|by apply Hrows]|set_solver|].
  fold (statuses_of (first :: rest)) in Hp. rewrite Hp. cbn [mbind res_bind fst snd app].
  eexists _, (statuses_of (first :: rest)). split; [reflexivity|]. split; [apply get_set_eq|].
  split; [by apply complete_means_all|]. intros row Hin. destruct (Hrows row Hin) as (_ & _ & _ & Hk & Hplain).
  assert (same_window first row) as (Sw & Sc & Ss & Sn).
  { apply (window_is_of_one_tenant t notes key); rewrite ?Ew; [done|by left|done|].
    intros r [->|[->|[]%elem_of_nil]%elem_of_cons]%elem_of_cons; [|done]. apply Hrows. by left. }
  assert (forall k, k ∈ RESERVED -> k <> COLLECTION_STATUS_KEY ->
            get (dict_set p COLLECTION_STATUS_KEY (VDict (aggregate_collection_status (statuses_of (first :: rest))))) k
            = get (window_header first (first :: rest)) k) as Hhead.
  { intros k Hres Hne'. rewrite get_set_ne by done. unfold get. rewrite Hother; [done|].
    intros (r & -> & Hr')%list_elem_of_fmap. by destruct (Hrows r Hr') as (_ & _ & _ & Hkr & _). }
  rewrite (Hhead "workspace_id"), (Hhead "cluster_id"), (Hhead "source_id"), (Hhead "window_start"), Hw, Hc, Hsrc, Hwin
    by (apply (bool_decide_eq_true_1 _); reflexivity). split_and!; try congruence.
  - intros Hm. rewrite get_set_ne by set_solver. apply Hbucket; [done..|]. by apply Hvac.
  - destruct (state_has_one_group (final_status row)) as (g & Hg & Hone); [by apply final_status_known, Hset|].
    exists g. split; [done|]. intros g' Hg'. rewrite provider_listed by done. by apply Hone.
  - intros Hf. apply provider_listed; [done..|]. unfold final_status. rewrite Hf. by destruct (j_result row).
Qed.
(** ** A window of two providers *)

Module Sample.
Definition batch : job_batch :=
  {| q_workspace_id := "w"; q_cluster_id := "c"; q_source_id := "s"; q_window_start := "t";
     q_provider_keys := ["pods"; "logs"]; q_failure_policy := "allow_partial"; q_max_attempts := 1;
     q_policy_generation := 1; q_provider_policies := [] |}.

Definition free (id : string) : bool := false.

Definition ops : list op :=
  [Queue batch 0; Lease free "w" "c" "pods" "a" "l1" 60 1 1; Lease free "w" "c" "logs" "a" "l2" 60 2 2;
   Report "w" "c" "w:c:s:t:pods" "l1" "a" "completed" [("pods", VDict [("n", VInt 3)])] "";
   Report "w" "c" "w:c:s:t:logs" "l2" "a" "failed" [] "boom"].

Definition run (acc : table * list note) (o : op) : table * list note := ((run_op acc.1 o).1, (run_op acc.1 o).2 ++ acc.2).

Definition state (n : nat) : table * list note := foldl run (∅, []) (take n ops).

Lemma run_reachable l acc : reachable acc.1 acc.2 -> reachable (foldl run acc l).1 (foldl run acc l).2.
Proof. revert acc. induction l as [|o l IH]; intros acc Hr; [exact Hr|]. apply IH. by apply reach_step. Qed.

Lemma state_reachable n : reachable (state n).1 (state n).2.
Proof. apply run_reachable, reach_empty. Qed.

Definition row_at (n : nat) (id : string) : EvidenceJob := default (new_job batch "" 0) ((state n).1 !! id).

Lemma row_found : (state 5).1 !! "w:c:s:t:pods" = Some (row_at 5 "w:c:s:t:pods").
Proof. vm_compute. reflexivity. Qed.

Lemma row_waits : (state 3).1 !! "w:c:s:t:logs" = Some (row_at 3 "w:c:s:t:logs").
Proof. vm_compute. reflexivity. Qed.

Lemma row_until : j_leased_until (row_at 3 "w:c:s:t:logs") = Some (2 + 60 * SECOND).
Proof. vm_compute. reflexivity. Qed.

Lemma jobs_follow_their_life_witness :
  story "w:c:s:t:pods" (state 5).2
    = [Accepted "w:c:s:t:pods" "l1" Completed] ++ [Handed "w:c:s:t:pods" "l1"] /\
  is_terminal (j_status (row_at 5 "w:c:s:t:pods")) = true.
Proof.
  assert (story "w:c:s:t:pods" (state 5).2
            = [] ++ Accepted "w:c:s:t:pods" "l1" Completed :: [Handed "w:c:s:t:pods" "l1"]) as E
    by (vm_compute; reflexivity).
  split; [exact E|].
  exact (proj2 (proj2 (proj2 (jobs_follow_their_life _ _ _ _ (state_reachable 5) row_found)) _ _ _ E eq_refl)).
Defined.

Lemma jobs_come_to_an_end_witness :
  (forall limit, (0 < limit)%nat -> (run_op (state 3).1 (Janitor (fun _ => false) (61 * SECOND) limit)).2 <> []) \/
  (forall agent lease secs clock, exists id' row',
      (lease_evidence_job (state 3).1 (fun _ => false) "w" "c" "logs" agent lease secs (61 * SECOND) clock).2
        = Some (id', row') /\ j_created_at row' <= 0).
Proof.
  destruct (jobs_come_to_an_end _ _ _ _ (state_reachable 3) row_waits) as (_ & _ & Hstuck); [vm_compute; reflexivity|].
  destruct (Hstuck eq_refl (61 * SECOND)) as [Hl|Hj]; [|right; exact Hl|left; exact Hj].
  intros u Hu. rewrite row_until in Hu. injection Hu as <-. reflexivity.
Defined.

Definition good (row : EvidenceJob) : bool :=
  is_terminal (j_status row) && negb (strictly_failed row)
  && (bool_decide (j_status row = Failed) || bool_decide (j_result row <> None))
  && bool_decide (j_provider_key row ∉ RESERVED)
  && (plain (j_workspace_id row) && plain (j_cluster_id row) && plain (j_source_id row)).

Lemma good_row row :
  good row = true ->
  is_terminal (j_status row) = true /\ strictly_failed row = false /\ (j_status row = Completed -> j_result row <> None) /\
  j_provider_key row ∉ RESERVED /\
  plain (j_workspace_id row) && plain (j_cluster_id row) && plain (j_source_id row) = true.
Proof.
  unfold good. intros Hg. repeat (apply andb_true_iff in Hg as [Hg ?]). bool_simpl.
  split_and!; try done; [|by repeat (apply andb_true_iff; split)]. intros Hc.
  match goal with E : _ || _ = true |- _ => apply orb_true_iff in E as [E|E]; apply bool_decide_eq_true_1 in E; congruence end.
Qed.

Lemma rows_good : forallb good (window_rows (state 5).1 "w:c:s:t") = true /\ length (window_rows (state 5).1 "w:c:s:t") = 2%nat.
Proof. vm_compute. split; reflexivity. Qed.

Lemma ready_window_accounts_witness :
  exists p, evidence_payload_if_ready (state 5).1 "w:c:s:t" = Ok (Some p) /\ get p "pods" = VDict [("n", VInt 3)].
Proof.
  destruct rows_good as [Hg Hl].
  destruct (ready_window_accounts _ _ "w:c:s:t" (state_reachable 5)) as (p & st & Hp & _ & _ & Hrows).
  - intros E. pose proof (eq_trans (eq_sym Hl) (f_equal (@length _) E)) as C. discriminate C.
  - intros row Hin. apply good_row. exact (proj1 (forallb_elem _ _) Hg row Hin).
  - exists p. split; [exact Hp|]. destruct (Hrows (row_at 5 "w:c:s:t:pods")) as (_ & _ & _ & _ & Hb & _).
    + apply elem_of_window_rows. exists "w:c:s:t:pods". split; [exact row_found|vm_compute; reflexivity].
    + refine (eq_trans (Hb _) _); [vm_compute; discriminate|vm_compute; reflexivity].
Defined.
End Sample.
End EvidenceJobs.
