(* ===== verification/AgentScheduler.v ===== *)
(** * The evidence scheduler of the cluster agent

    [src/src/services/target/cluster-agent/evidence/jobs.py]: when the
    providers of an agent are due, how a change of the provider set enters the
    next window, and the pools of workers.  The dictionaries of the scheduler
    are maps; a request to the management plane is split at its [await], since
    the schedule can change while it is under way. *)
From S2P Require Import Prelude PyStr PyFloat PyVal PyTime Libs Demo EvidenceJobs.

Module AgentScheduler.

Definition DEFAULT_WORKER_COUNT : Z := 1.

(** An asyncio task of a pool, by its worker id; [finished] is [done()]. *)
Record task := { worker_id : string; finished : bool }.

Record scheduler := {
  provider_keys : list string;
  provider_worker_counts : gmap string Z;
  provider_intervals : gmap string Z;
  enabled_provider_keys : gset string;
  next_provider_runs : gmap string float;
  interval_seconds : Z;
  schedule_revision : Z;
  has_client : bool;
  workers_started : bool;
  worker_tasks : gmap string (list task);
  worker_serials : gmap string Z;
}.

(** [{key: f(key) for key in keys}] *)
Definition dict_of {A} (keys : list string) (f : string -> A) : gmap string A := list_to_map ((fun k => (k, f k)) <$> keys).

Definition new_scheduler (keys : list string) (worker_counts : gmap string Z) (interval : Z) : scheduler :=
  {| provider_keys := keys;
     provider_worker_counts := dict_of keys (fun k => Z.max 0 (default DEFAULT_WORKER_COUNT (worker_counts !! k)));
     provider_intervals := dict_of keys (fun _ => Z.max 1 interval);
     enabled_provider_keys := list_to_set keys;
     next_provider_runs := dict_of keys (fun _ => fzero);
     interval_seconds := interval; schedule_revision := 0; has_client := false; workers_started := false;
     worker_tasks := dict_of keys (fun _ => []); worker_serials := dict_of keys (fun _ => 0) |}.

(** [d[key]] *)
Definition item {A} (d : gmap string A) (k : string) : res A := raise_none (d !! k) KeyError.

(** ** When providers are due *)

Definition is_due (s : scheduler) (now : float) (k : string) : res (option string) :=
  if bool_decide (k ∈ enabled_provider_keys s)
  then run ← item (next_provider_runs s) k; Ok (if fleb run now then Some k else None)
  else Ok None.

Definition due_provider_keys (s : scheduler) (now : float) : res (list string) := omapr (is_due s now) (provider_keys s).

Section schedule.
Context `{IsoTime}.

Definition window_seconds (s : scheduler) (now : float) : res Z :=
  let interval := Z.max 1 (interval_seconds s) in
  current ← int_of_float now;
  Ok (current - current mod interval).

Definition new_window_start (s : scheduler) (now : float) : res string :=
  w ← window_seconds s now;
  if in_years (w * SECOND) then Ok (isoformat (w * SECOND)) else Err ValueError.

(** What [schedule_once] keeps across its [await]. *)
Record request := { rq_now : float; rq_due : list string; rq_revision : Z; rq_window_start : string }.

Definition begin_schedule (s : scheduler) (now : float) : res (option request) :=
  due ← due_provider_keys s now;
  if bool_decide (due = []) then Ok None
  else
    window_start ← new_window_start s now;
    Ok (Some {| rq_now := now; rq_due := due; rq_revision := schedule_revision s; rq_window_start := window_start |}).

Definition set_next_runs (s : scheduler) (runs : gmap string float) : scheduler :=
  {| provider_keys := provider_keys s; provider_worker_counts := provider_worker_counts s;
     provider_intervals := provider_intervals s; enabled_provider_keys := enabled_provider_keys s;
     next_provider_runs := runs; interval_seconds := interval_seconds s; schedule_revision := schedule_revision s;
     has_client := has_client s; workers_started := workers_started s; worker_tasks := worker_tasks s;
     worker_serials := worker_serials s |}.

Definition postpone (s : scheduler) (now : float) (runs : gmap string float) (k : string) : res (gmap string float) :=
  interval ← item (provider_intervals s) k;
  seconds ← float_of_int interval;
  Ok (<[k := fadd now seconds]> runs).

(** After the reply of the management plane. *)
Definition finish_schedule (s : scheduler) (rq : request) : res scheduler :=
  if rq_revision rq =? schedule_revision s
  then set_next_runs s <$> foldr_res (postpone s (rq_now rq)) (next_provider_runs s) (rq_due rq)
  else Ok s.
End schedule.

(** ** Changing the schedule *)

Definition zeroed (enabled : gset string) (runs : gmap string float) : gmap string float :=
  set_fold (fun k m => <[k := fzero]> m) runs enabled.

Definition align_enabled_provider_runs (s : scheduler) : scheduler :=
  {| provider_keys := provider_keys s; provider_worker_counts := provider_worker_counts s;
     provider_intervals := provider_intervals s; enabled_provider_keys := enabled_provider_keys s;
     next_provider_runs := zeroed (enabled_provider_keys s) (next_provider_runs s);
     interval_seconds := interval_seconds s; schedule_revision := schedule_revision s + 1;
     has_client := has_client s; workers_started := workers_started s; worker_tasks := worker_tasks s;
     worker_serials := worker_serials s |}.

(** [d.setdefault(k, v)] *)
Definition set_default {A} (d : gmap string A) (k : string) (v : A) : gmap string A :=
  match d !! k with Some _ => d | None => <[k := v]> d end.

Definition with_schedule (s : scheduler) (intervals : gmap string Z) (runs : gmap string float) (enabled : gset string)
    : scheduler :=
  {| provider_keys := provider_keys s; provider_worker_counts := provider_worker_counts s;
     provider_intervals := intervals; enabled_provider_keys := enabled; next_provider_runs := runs;
     interval_seconds := interval_seconds s; schedule_revision := schedule_revision s; has_client := has_client s;
     workers_started := workers_started s; worker_tasks := worker_tasks s; worker_serials := worker_serials s |}.

Definition apply_interval (acc : gmap string Z * gmap string float) (ki : string * Z) : gmap string Z * gmap string float :=
  (<[ki.1 := Z.max 1 ki.2]> acc.1, set_default acc.2 ki.1 fzero).

Definition configure_schedule (s : scheduler) (intervals : list (string * Z)) (enabled : list string) : res scheduler :=
  if negb (forallb (fun k => bool_decide (k ∈ provider_keys s)) intervals.*1) then Err ValueError
  else
    let next_enabled := list_to_set (keep (fun k => bool_decide (k ∈ provider_keys s)) enabled) : gset string in
    let '(new_intervals, runs) := foldl apply_interval (provider_intervals s, next_provider_runs s) intervals in
    let schedule_changed :=
      negb (bool_decide (next_enabled = enabled_provider_keys s))
      || existsb (fun k => negb (bool_decide (provider_intervals s !! k = new_intervals !! k))) (elements next_enabled) in
    let s := with_schedule s new_intervals runs next_enabled in
    Ok (if schedule_changed then align_enabled_provider_runs s else s).

(** ** Worker pools *)

Definition with_pools (s : scheduler) (tasks : gmap string (list task)) (serials : gmap string Z) : scheduler :=
  {| provider_keys := provider_keys s; provider_worker_counts := provider_worker_counts s;
     provider_intervals := provider_intervals s; enabled_provider_keys := enabled_provider_keys s;
     next_provider_runs := next_provider_runs s; interval_seconds := interval_seconds s;
     schedule_revision := schedule_revision s; has_client := has_client s; workers_started := workers_started s;
     worker_tasks := tasks; worker_serials := serials |}.

Definition running (tasks : list task) : list task := keep (fun t => negb (finished t)) tasks.

Definition prune_finished_workers (s : scheduler) : scheduler := with_pools s (running <$> worker_tasks s) (worker_serials s).

Definition worker_name (k : string) (index : Z) : string := k +:+ "-worker-" +:+ str_of_int index.

(** The workers a pool starts, from a serial number on. *)
Fixpoint start_workers (k : string) (serial : Z) (n : nat) : list task :=
  match n with
  | O => []
  | S n => {| worker_id := worker_name k serial; finished := false |} :: start_workers k (serial + 1) n
  end.

Definition reconcile_worker_pool (s : scheduler) (k : string) : res scheduler :=
  let s := prune_finished_workers s in
  if negb (workers_started s) then Ok s
  else
    tasks ← item (worker_tasks s) k;
    desired ← item (provider_worker_counts s) k;
    serial ← (if Z.of_nat (length tasks) <? desired then item (worker_serials s) k else Ok 0);
    let missing := (Z.to_nat desired - length tasks)%nat in
    let tasks' := take (Z.to_nat desired) (tasks ++ start_workers k serial missing) in
    Ok (with_pools s (<[k := tasks']> (worker_tasks s))
          (if (0 <? missing)%nat then <[k := serial + Z.of_nat missing]> (worker_serials s) else worker_serials s)).

Definition reconcile_worker_pools (s : scheduler) : res scheduler := foldr_res reconcile_worker_pool s (provider_keys s).

(** The pools are reconciled only while a client is connected. *)
Definition reconcile_if_connected (s : scheduler) (k : string) : res scheduler :=
  if has_client s then reconcile_worker_pool s k else Ok s.

Definition with_provider (s : scheduler) (k : string) (worker_count interval : Z) (enabled : bool) : scheduler :=
  let fresh := bool_decide (k ∉ provider_keys s) in
  {| provider_keys := if fresh then provider_keys s ++ [k] else provider_keys s;
     provider_worker_counts := <[k := Z.max 0 worker_count]> (provider_worker_counts s);
     provider_intervals := <[k := Z.max 1 interval]> (provider_intervals s);
     enabled_provider_keys := if enabled then {[k]} ∪ enabled_provider_keys s else enabled_provider_keys s ∖ {[k]};
     next_provider_runs := set_default (next_provider_runs s) k fzero;
     interval_seconds := interval_seconds s; schedule_revision := schedule_revision s; has_client := has_client s;
     workers_started := workers_started s;
     worker_tasks := if fresh then <[k := []]> (worker_tasks s) else worker_tasks s;
     worker_serials := if fresh then <[k := 0]> (worker_serials s) else worker_serials s |}.

Definition register_provider (s : scheduler) (k : string) (worker_count interval : Z) (enabled : bool) : res scheduler :=
  if is_empty (strip k) then Err ValueError
  else
    let previous_enabled := bool_decide (k ∈ enabled_provider_keys s) in
    let previous_interval := provider_intervals s !! k in
    let s := with_provider s k worker_count interval enabled in
    let s := if negb (eqb previous_enabled enabled)
                || (enabled && negb (bool_decide (previous_interval = provider_intervals s !! k)))
             then align_enabled_provider_runs s else s in
    reconcile_if_connected s k.

Definition unregister_provider (s : scheduler) (k : string) : scheduler :=
  if bool_decide (k ∉ provider_keys s) then s
  else
    align_enabled_provider_runs
      {| provider_keys := keep (fun k' => negb (str_eqb k' k)) (provider_keys s);
         provider_worker_counts := delete k (provider_worker_counts s);
         provider_intervals := delete k (provider_intervals s);
         enabled_provider_keys := enabled_provider_keys s ∖ {[k]};
         next_provider_runs := delete k (next_provider_runs s);
         interval_seconds := interval_seconds s; schedule_revision := schedule_revision s; has_client := has_client s;
         workers_started := workers_started s; worker_tasks := delete k (worker_tasks s);
         worker_serials := delete k (worker_serials s) |}.

Definition with_counts (s : scheduler) (counts : gmap string Z) : scheduler :=
  {| provider_keys := provider_keys s; provider_worker_counts := counts; provider_intervals := provider_intervals s;
     enabled_provider_keys := enabled_provider_keys s; next_provider_runs := next_provider_runs s;
     interval_seconds := interval_seconds s; schedule_revision := schedule_revision s; has_client := has_client s;
     workers_started := workers_started s; worker_tasks := worker_tasks s; worker_serials := worker_serials s |}.

Definition set_worker_count (counts : gmap string Z) (s : scheduler) (k : string) : res scheduler :=
  current ← item (provider_worker_counts s) k;
  let s := with_counts s (<[k := Z.max 0 (default current (counts !! k))]> (provider_worker_counts s)) in
  reconcile_if_connected s k.

Definition set_worker_counts (s : scheduler) (counts : gmap string Z) : res scheduler :=
  foldr_res (set_worker_count counts) s (provider_keys s).

Definition current_worker_counts (s : scheduler) : res (scheduler * gmap string Z) :=
  let s := prune_finished_workers s in
  if negb (workers_started s) then Ok (s, provider_worker_counts s)
  else
    counts ← mapr (fun k => tasks ← item (worker_tasks s) k; Ok (k, Z.of_nat (length tasks))) (provider_keys s);
    Ok (s, list_to_map counts).

Definition with_connection (s : scheduler) (client started : bool) : scheduler :=
  {| provider_keys := provider_keys s; provider_worker_counts := provider_worker_counts s;
     provider_intervals := provider_intervals s; enabled_provider_keys := enabled_provider_keys s;
     next_provider_runs := next_provider_runs s; interval_seconds := interval_seconds s;
     schedule_revision := schedule_revision s; has_client := client; workers_started := started;
     worker_tasks := worker_tasks s; worker_serials := worker_serials s |}.

(** [run] up to its loop, and its [finally] clause. *)
Definition start (s : scheduler) : res scheduler := reconcile_worker_pools (with_connection s true true).
Definition stop (s : scheduler) : scheduler :=
  let s := with_connection s false false in
  with_pools s (foldl (fun m k => <[k := []]> m) (worker_tasks s) (provider_keys s)) (worker_serials s).

(** ** All operations together *)

Inductive op :=
  | Configure (intervals : list (string * Z)) (enabled : list string)
  | Register (k : string) (worker_count interval : Z) (enabled : bool)
  | Unregister (k : string)
  | SetCounts (counts : gmap string Z)
  | Begin (now : float)
  | Finish (n : nat)
  | Start
  | Stop
  | Work (k : string) (pool : list task).

Section steps.
Context `{IsoTime}.

(** The scheduler and its requests under way.  [Finish n] is the reply to the
    n-th of them; [Work] is whatever the workers of a pool have come to. *)
Definition step (sys : scheduler * list request) (o : op) : res (scheduler * list request) :=
  let '(s, rqs) := sys in
  match o with
  | Configure intervals enabled => s ← configure_schedule s intervals enabled; Ok (s, rqs)
  | Register k count interval enabled => s ← register_provider s k count interval enabled; Ok (s, rqs)
  | Unregister k => Ok (unregister_provider s k, rqs)
  | SetCounts counts => s ← set_worker_counts s counts; Ok (s, rqs)
  | Begin now => o ← begin_schedule s now; Ok (s, match o with Some rq => rqs ++ [rq] | None => rqs end)
  | Finish n => match rqs !! n with
                | Some rq => s ← finish_schedule s rq; Ok (s, rqs)
                | None => Ok sys
                end
  | Start => s ← start s; Ok (s, rqs)
  | Stop => Ok (stop s, rqs)
  | Work k pool =>
      Ok (match worker_tasks s !! k with
          | Some _ => with_pools s (<[k := pool]> (worker_tasks s)) (worker_serials s)
          | None => s
          end, rqs)
  end.

Inductive reachable : scheduler * list request -> Prop :=
  | reach_new keys counts interval : reachable (new_scheduler keys counts interval, [])
  | reach_step sys o sys' : reachable sys -> step sys o = Ok sys' -> reachable sys'.

(** *** The invariant *)

(** Every provider has its entries; the enabled ones are providers. *)
Definition wf (s : scheduler) : Prop :=
  (forall k, k ∈ provider_keys s ->
     is_Some (provider_worker_counts s !! k) /\ is_Some (provider_intervals s !! k) /\
     is_Some (next_provider_runs s !! k) /\ is_Some (worker_tasks s !! k) /\ is_Some (worker_serials s !! k)) /\
  (forall k, k ∈ enabled_provider_keys s -> k ∈ provider_keys s) /\
  (forall k i, provider_intervals s !! k = Some i -> 1 <= i) /\
  (forall k c, provider_worker_counts s !! k = Some c -> 0 <= c).

(** A request of the current revision is about providers that still exist. *)
Definition requests_ok (s : scheduler) (rqs : list request) : Prop :=
  forall rq, rq ∈ rqs -> rq_revision rq <= schedule_revision s /\
    (rq_revision rq = schedule_revision s -> forall k, k ∈ rq_due rq -> k ∈ provider_keys s).

Definition ok (sys : scheduler * list request) : Prop := wf sys.1 /\ requests_ok sys.1 sys.2.

Lemma lookup_dict_of {A} keys (f : string -> A) k : dict_of keys f !! k = if bool_decide (k ∈ keys) then Some (f k) else None.
Proof.
  unfold dict_of. induction keys as [|j keys IH]; [done|]. cbn. destruct (decide (j = k)) as [->|Hne].
  - rewrite lookup_insert. rewrite decide_True by done. by rewrite bool_decide_eq_true_2 by set_solver.
  - rewrite lookup_insert_ne, IH by done. by rewrite (bool_decide_ext (k ∈ keys) (k ∈ j :: keys)) by set_solver.
Qed.

Lemma new_scheduler_wf keys counts interval : wf (new_scheduler keys counts interval).
Proof.
  unfold wf. cbn. split_and!.
  - intros k Hk. rewrite !lookup_dict_of, !bool_decide_eq_true_2 by done. eauto 10.
  - set_solver.
  - intros k i. rewrite lookup_dict_of. case_bool_decide; [|done]. intros [= <-]. lia.
  - intros k c. rewrite lookup_dict_of. case_bool_decide; [|done]. intros [= <-]. lia.
Qed.

Lemma lookup_zeroed E runs k : zeroed E runs !! k = if bool_decide (k ∈ E) then Some fzero else runs !! k.
Proof.
  assert ((k ∈ E -> zeroed E runs !! k = Some fzero) /\ (k ∉ E -> zeroed E runs !! k = runs !! k)) as [H1 H2];
    [|case_bool_decide; auto].
  unfold zeroed. apply (set_fold_ind_L (fun (m : gmap string float) (X : gset string) =>
    (k ∈ X -> m !! k = Some fzero) /\ (k ∉ X -> m !! k = runs !! k))).
  - split; [set_solver|done].
  - intros x X m Hx [Hin Hout]. destruct (decide (x = k)) as [->|Hne].
    + rewrite lookup_insert, decide_True by done. split; [done|set_solver].
    + rewrite lookup_insert_ne by done. split; intros Hk; [apply Hin|apply Hout]; set_solver.
Qed.

Lemma align_wf s : wf s -> wf (align_enabled_provider_runs s).
Proof.
  intros (Hk & He & Hi & Hc). split_and!; [|done..]. intros k Hin. destruct (Hk k Hin) as (H1 & H2 & H3 & H4 & H5).
  split_and!; try done. cbn. rewrite lookup_zeroed. case_bool_decide; [by eexists|done].
Qed.
(** What the operations on the pools keep, and what every operation does to a
    well-formed scheduler. *)
Definition kept (s s' : scheduler) : Prop :=
  wf s' /\ provider_keys s' = provider_keys s /\ schedule_revision s' = schedule_revision s /\
  enabled_provider_keys s' = enabled_provider_keys s /\ provider_intervals s' = provider_intervals s.

(** The schedule changes: another set of providers is enabled, or an enabled
    one gets another interval. *)
Definition changes (s s' : scheduler) : Prop :=
  enabled_provider_keys s' <> enabled_provider_keys s \/
  exists k, k ∈ enabled_provider_keys s' /\ provider_intervals s' !! k <> provider_intervals s !! k.

Lemma kept_no_change s s' : kept s s' -> ~ changes s s'.
Proof. intros (_ & _ & _ & He & Hi) [Hne|(k & _ & Hne)]; [done|]. by rewrite Hi in Hne. Qed.

Definition good (s s' : scheduler) : Prop :=
  wf s' /\ schedule_revision s <= schedule_revision s' /\
  (schedule_revision s = schedule_revision s' -> forall k, k ∈ provider_keys s -> k ∈ provider_keys s').

Definition safe (R : scheduler -> scheduler -> Prop) (s : scheduler) (m : res scheduler) : Prop :=
  match m with Ok s' => R s s' | Err e => e <> KeyError end.

Lemma kept_refl s : wf s -> kept s s.
Proof. done. Qed.

Lemma kept_trans s1 s2 s3 : kept s1 s2 -> kept s2 s3 -> kept s1 s3.
Proof. intros (_ & Hk & Hr & He & Hi) (Hw & Hk' & Hr' & He' & Hi'). split_and!; [done|congruence..]. Qed.

Lemma kept_good s s' : kept s s' -> good s s'.
Proof. intros (Hw & Hk & Hr & _). split_and!; [done|lia|]. intros _ k. by rewrite Hk. Qed.

Lemma safe_after s s' m :
  schedule_revision s <= schedule_revision s' ->
  (schedule_revision s = schedule_revision s' -> forall k, k ∈ provider_keys s -> k ∈ provider_keys s') ->
  safe kept s' m -> safe good s m.
Proof.
  intros Hr Hk. destruct m as [s''|e]; cbn; [|done]. intros (Hw & Hk' & Hr' & _). split_and!; [done|lia|].
  intros E k Hin. rewrite Hk'. apply Hk; [lia|done].
Qed.

Lemma good_align s s' : wf s' -> schedule_revision s' = schedule_revision s -> good s (align_enabled_provider_runs s').
Proof. intros Hw Hr. split_and!; [by apply align_wf|cbn; lia|cbn; lia]. Qed.

Lemma safe_fold {A} (f : scheduler -> A -> res scheduler) l s :
  wf s -> (forall s' a, kept s s' -> a ∈ l -> safe kept s' (f s' a)) -> safe kept s (foldr_res f s l).
Proof.
  intros Hw Hf. pose proof (kept_refl s Hw) as Hs. generalize dependent s. intros s Hw.
  assert (forall acc, kept s acc -> (forall s' a, kept s s' -> a ∈ l -> safe kept s' (f s' a)) ->
    safe kept s (foldr_res f acc l)) as Hgen; [|intros Hf Hs; by apply Hgen].
  induction l as [|a l IH]; intros acc Hacc Hf; cbn; [done|].
  pose proof (Hf acc a Hacc ltac:(set_solver)) as Hs. destruct (f acc a) as [s'|e]; cbn; [|done].
  apply IH; [by eapply kept_trans|]. intros s'' b Hg Hb. apply Hf; [done|by right].
Qed.

Lemma with_pools_kept s tasks serials :
  wf s -> (forall k, k ∈ provider_keys s -> is_Some (tasks !! k) /\ is_Some (serials !! k)) -> kept s (with_pools s tasks serials).
Proof.
  intros (Hk & He & Hi & Hc) Ht. split_and!; [|done..]. split_and!; [|done..].
  intros k Hin. destruct (Hk k Hin) as (? & ? & ? & _ & _), (Ht k Hin). done.
Qed.

Lemma prune_kept s : wf s -> kept s (prune_finished_workers s).
Proof.
  intros Hw. apply with_pools_kept; [done|]. intros k Hin. destruct (proj1 Hw k Hin) as (_ & _ & _ & Ht & Hn).
  split; [|done]. rewrite lookup_fmap. by apply fmap_is_Some.
Qed.

Lemma item_ok {A} (m : gmap string A) k : is_Some (m !! k) -> exists a, item m k = Ok a /\ m !! k = Some a.
Proof. intros [a Ha]. exists a. unfold item. by rewrite Ha. Qed.

Lemma reconcile_safe s k : wf s -> k ∈ provider_keys s -> safe kept s (reconcile_worker_pool s k).
Proof.
  intros Hw Hk. unfold reconcile_worker_pool. pose proof (prune_kept s Hw) as Hp. set (p := prune_finished_workers s) in *.
  assert (k ∈ provider_keys p) as Hkp by done. destruct (proj1 (proj1 Hp) k Hkp) as (Hc & _ & _ & Ht & Hn).
  destruct (negb (workers_started p)); [done|].
  destruct (item_ok _ _ Ht) as (ts & -> & Hts). destruct (item_ok _ _ Hc) as (d & -> & Hd). cbn [mbind res_bind].
  destruct (item_ok _ _ Hn) as (n & Hitem & Hn').
  assert (exists n', (if Z.of_nat (length ts) <? d then item (worker_serials p) k else Ok 0) = Ok n') as [n' ->]
    by (destruct (_ <? _); eauto). cbn [mbind res_bind safe].
  eapply kept_trans; [exact Hp|]. apply with_pools_kept; [apply Hp|]. intros j Hj.
  destruct (proj1 (proj1 Hp) j Hj) as (_ & _ & _ & Htj & Hnj). split.
  - apply lookup_insert_is_Some'. auto.
  - destruct (0 <? _)%nat; [apply lookup_insert_is_Some'; auto|done].
Qed.

Lemma connected_safe s k : wf s -> k ∈ provider_keys s -> safe kept s (reconcile_if_connected s k).
Proof. intros Hw Hk. unfold reconcile_if_connected. destruct (has_client s); [by apply reconcile_safe|done]. Qed.

Lemma set_counts_safe s counts : wf s -> safe kept s (set_worker_counts s counts).
Proof.
  intros Hw. unfold set_worker_counts. apply safe_fold; [done|]. intros s' k (Hw' & Hkeys & Hr & _) Hk. unfold set_worker_count.
  rewrite <- Hkeys in Hk. destruct (proj1 Hw' k Hk) as (Hc & _). destruct (item_ok _ _ Hc) as (c & -> & Hc'). cbn [mbind res_bind].
  set (s1 := with_counts _ _). apply (connected_safe s1 k); [|done]. destruct Hw' as (Hall & He & Hi & Hn).
  split_and!; [|done|done|].
  - intros j Hj. destruct (Hall j Hj) as (? & ? & ? & ? & ?). split_and!; try done. apply lookup_insert_is_Some'. auto.
  - intros j x. cbn. intros [(<- & <-)|(_ & Hx)]%lookup_insert_Some; [lia|eauto].
Qed.

Lemma start_safe s : wf s -> safe kept s (start s).
Proof.
  intros Hw. unfold start, reconcile_worker_pools. apply (safe_fold reconcile_worker_pool _ (with_connection s true true)); [done|].
  intros s' k (Hw' & Hk & _) Hin. apply reconcile_safe; [done|by rewrite Hk].
Qed.

Lemma stop_kept s : wf s -> kept s (stop s).
Proof.
  intros Hw. unfold stop. apply (with_pools_kept (with_connection s false false)); [done|]. intros k Hk.
  destruct (proj1 Hw k Hk) as (_ & _ & _ & Ht & Hn). split; [|done]. cbn in *. clear Hk. revert Ht.
  generalize (worker_tasks s). induction (provider_keys s) as [|j l IH]; intros m Ht; cbn; [done|].
  apply IH, lookup_insert_is_Some'. auto.
Qed.

Lemma set_default_Some {A} (d : gmap string A) k v j : is_Some (d !! j) \/ j = k -> is_Some (set_default d k v !! j).
Proof.
  unfold set_default. destruct (d !! k) as [a|] eqn:E.
  - intros [Hj| ->]; [done|eauto].
  - intros Hj. apply lookup_insert_is_Some'. naive_solver.
Qed.

Lemma with_provider_wf s k count interval enabled : wf s -> wf (with_provider s k count interval enabled).
Proof.
  intros (Hall & He & Hi & Hc). unfold wf, with_provider. cbn. split_and!.
  - intros j Hj. assert (j ∈ provider_keys s \/ j = k) as Hjk by (case_bool_decide; set_solver). clear Hj.
    assert (forall A (m : gmap string A) v, (j ∈ provider_keys s -> is_Some (m !! j)) ->
              is_Some ((if bool_decide (k ∉ provider_keys s) then <[k := v]> m else m) !! j)) as Hnew.
    { intros A m v Hm. case_bool_decide as Hk; [apply lookup_insert_is_Some'; destruct Hjk as [Hjk| ->]; auto|]. apply Hm.
      destruct Hjk as [Hjk| ->]; [done|exact Hk]. }
    split_and!; [apply lookup_insert_is_Some'|apply lookup_insert_is_Some'|apply set_default_Some|apply Hnew|apply Hnew];
      naive_solver.
  - intros j Hj. assert (j ∈ provider_keys s \/ j = k) as Hjk by (destruct enabled; set_solver).
    case_bool_decide as Hnew; [set_solver|]. destruct Hjk as [Hjk| ->]; done.
  - intros j i [(<- & <-)|(_ & Hx)]%lookup_insert_Some; [lia|eauto].
  - intros j i [(<- & <-)|(_ & Hx)]%lookup_insert_Some; [lia|eauto].
Qed.

Lemma register_safe s k count interval enabled : wf s -> safe good s (register_provider s k count interval enabled).
Proof.
  intros Hw. unfold register_provider. destruct (is_empty (strip k)); [done|].
  pose proof (with_provider_wf s k count interval enabled Hw) as Hw'. set (s1 := with_provider _ _ _ _ _) in *.
  assert (k ∈ provider_keys s1) as Hk.
  { unfold s1, with_provider. cbn. case_bool_decide as Hnew; [set_solver|done]. }
  assert (forall j, j ∈ provider_keys s -> j ∈ provider_keys s1) as Hsub.
  { intros j Hj. unfold s1, with_provider. cbn. case_bool_decide; set_solver. }
  destruct (_ || _).
  - apply (safe_after s (align_enabled_provider_runs s1)); [cbn; lia|cbn; lia|].
    apply connected_safe; [by apply align_wf|done].
  - apply (safe_after s s1); [cbn; lia|auto|]. by apply connected_safe.
Qed.

Lemma unregister_good s k : wf s -> good s (unregister_provider s k).
Proof.
  intros Hw. unfold unregister_provider. case_bool_decide; [by apply kept_good, kept_refl|].
  apply good_align; [|done]. destruct Hw as (Hall & He & Hi & Hc). unfold wf. cbn. split_and!.
  - intros j [Hj Hne]%elem_of_keep. destruct (Hall j Hj) as (? & ? & ? & ? & ?). apply negb_true_iff in Hne.
    assert (k <> j) by (intros ->; by rewrite str_eqb_refl in Hne). by rewrite !lookup_delete_ne.
  - intros j Hj. apply elem_of_keep. split; [apply He; set_solver|]. apply negb_true_iff, not_true_iff_false.
    rewrite str_eqb_eq. set_solver.
  - intros j i [_ Hx]%lookup_delete_Some. eauto.
  - intros j i [_ Hx]%lookup_delete_Some. eauto.
Qed.

Lemma apply_intervals_spec l acc :
  (forall k i, acc.1 !! k = Some i -> 1 <= i) ->
  (forall k i, (foldl apply_interval acc l).1 !! k = Some i -> 1 <= i) /\
  (forall k, is_Some (acc.1 !! k) -> is_Some ((foldl apply_interval acc l).1 !! k)) /\
  (forall k, is_Some (acc.2 !! k) -> is_Some ((foldl apply_interval acc l).2 !! k)).
Proof.
  revert acc. induction l as [|[k i] l IH]; intros acc Hpos; cbn; [done|].
  destruct (IH (apply_interval acc (k, i))) as (H1 & H2 & H3).
  - intros j x. cbn. intros [(<- & <-)|(_ & Hx)]%lookup_insert_Some; [lia|eauto].
  - split_and!; [done|..]; intros j Hj; [apply H2|apply H3]; cbn; [apply lookup_insert_is_Some'|apply set_default_Some]; auto.
Qed.

Lemma configure_safe s intervals enabled : wf s -> safe good s (configure_schedule s intervals enabled).
Proof.
  intros Hw. pose proof Hw as (Hall & He & Hi & Hc). unfold configure_schedule. destruct (negb _); [done|].
  destruct (apply_intervals_spec intervals (provider_intervals s, next_provider_runs s) Hi) as (H1 & H2 & H3).
  destruct (foldl _ _ _) as [ivs runs] eqn:E. cbn [fst snd] in *. cbv zeta. set (E' := list_to_set _ : gset string).
  assert (wf (with_schedule s ivs runs E')) as Hw'.
  { split_and!; [|intros k; cbn; unfold E'; rewrite elem_of_list_to_set, elem_of_keep, bool_decide_eq_true; tauto|done|done].
    intros k Hk. destruct (Hall k Hk) as (? & ? & ? & ? & ?). split_and!; try done; [by apply H2|by apply H3]. }
  cbn [safe]. destruct (_ || _); [by apply good_align|]. split_and!; [done|cbn; lia|done].
Qed.

Lemma postpone_spec s now due runs :
  wf s -> (forall k, k ∈ due -> k ∈ provider_keys s) ->
  match foldr_res (postpone s now) runs due with
  | Ok runs' => forall k, is_Some (runs !! k) -> is_Some (runs' !! k)
  | Err e => e <> KeyError
  end.
Proof.
  intros Hw. revert runs. induction due as [|k due IH]; intros runs Hdue; cbn [foldr_res]; [done|].
  destruct (proj1 Hw k) as (_ & Hi & _); [set_solver|]. destruct (item_ok _ _ Hi) as (i & Hitem & _).
  assert (postpone s now runs k = (seconds ← float_of_int i; Ok (<[k := fadd now seconds]> runs))) as ->
    by (unfold postpone; by rewrite Hitem).
  destruct (float_of_int i) as [f|e] eqn:Ef; cbn [mbind res_bind].
  - specialize (IH (<[k := fadd now f]> runs) ltac:(set_solver)). destruct (foldr_res _ _ _); [|done].
    intros j Hj. apply IH, lookup_insert_is_Some'. auto.
  - unfold float_of_int in Ef. destruct (is_finite _); [done|]. by injection Ef as <-.
Qed.

Lemma finish_safe s rq :
  wf s -> (rq_revision rq = schedule_revision s -> forall k, k ∈ rq_due rq -> k ∈ provider_keys s) ->
  safe kept s (finish_schedule s rq).
Proof.
  intros Hw Hrq. unfold finish_schedule. destruct (rq_revision rq =? schedule_revision s) eqn:E; [|done].
  pose proof (postpone_spec s (rq_now rq) (rq_due rq) (next_provider_runs s) Hw (Hrq (proj1 (Z.eqb_eq _ _) E))) as Hp.
  destruct (foldr_res _ _ _) as [runs|e]; [|done]. cbn. split_and!; [|done..]. destruct Hw as (Hall & He & Hi & Hc).
  split_and!; [|done..]. intros k Hk. destruct (Hall k Hk) as (? & ? & ? & ? & ?). split_and!; try done. by apply Hp.
Qed.

Lemma omapr_total {A B} (f : A -> res (option B)) l :
  (forall x, x ∈ l -> is_ok (f x) = true) -> exists ys, omapr f l = Ok ys.
Proof. intros Hf. destruct (mapr_total f l Hf) as [os Hos]. exists (omap id os). apply omapr_Ok. eauto. Qed.

Lemma due_total s now :
  wf s -> exists due, due_provider_keys s now = Ok due /\ forall k, k ∈ due -> k ∈ provider_keys s.
Proof.
  intros Hw. destruct (omapr_total (is_due s now) (provider_keys s)) as [due Hd].
  - intros k Hk. unfold is_due. case_bool_decide; [|done]. destruct (proj1 Hw k Hk) as (_ & _ & Hr & _).
    by destruct (item_ok _ _ Hr) as (r & -> & _).
  - exists due. split; [done|]. intros k Hk. destruct (omapr_elem _ _ _ _ Hd Hk) as (j & Hj & E).
    unfold is_due in E. case_bool_decide; [|done]. res_inv. case_match; by simplify_eq.
Qed.

Lemma window_no_KeyError s now e : new_window_start s now = Err e -> e <> KeyError.
Proof.
  unfold new_window_start, window_seconds. intros [E|(w & _ & E)]%bind_Err; [|by case_match; simplify_eq].
  apply bind_Err in E as [E|(c & _ & E)]; [|done]. unfold int_of_float in E. by destruct now; simplify_eq.
Qed.

(** Every operation keeps the invariant and none fails on a missing entry. *)
Lemma scheduler_step_ok sys o :
  ok sys -> match step sys o with Ok sys' => ok sys' | Err e => e <> KeyError end.
Proof.
  destruct sys as [s rqs]. intros [Hw Hrqs]. cbn [fst snd] in *.
  assert (forall s', good s s' -> ok (s', rqs)) as Hgood.
  { intros s' (Hw' & Hr & Hk). split; [done|]. intros rq Hin. destruct (Hrqs rq Hin) as [Hle Hdue]. cbn [fst snd].
    split; [lia|]. intros E k Hd. apply Hk; [lia|]. apply Hdue; [lia|done]. }
  assert (forall m, safe good s m -> match s ← m; Ok (s, rqs) with Ok sys' => ok sys' | Err e => e <> KeyError end) as Hsafe.
  { intros [s'|e]; cbn; [auto|done]. }
  assert (forall m, safe kept s m -> safe good s m) as Hkept by (intros [?|?]; cbn; auto using kept_good).
  destruct o; cbn [step].
  - by apply Hsafe, configure_safe.
  - by apply Hsafe, register_safe.
  - by apply Hgood, unregister_good.
  - by apply Hsafe, Hkept, set_counts_safe.
  - unfold begin_schedule. destruct (due_total s now Hw) as (due & -> & Hdue). cbn [mbind res_bind].
    case_bool_decide; [by apply Hgood, kept_good|]. destruct (new_window_start s now) as [w|e] eqn:E; cbn [mbind res_bind].
    + split; [done|]. intros rq [Hin| ->%list_elem_of_singleton]%elem_of_app; [by apply Hrqs|]. cbn. split; [lia|auto].
    + by eapply window_no_KeyError.
  - destruct (rqs !! n) as [rq|] eqn:E; [|done]. apply Hsafe, Hkept, finish_safe; [done|].
    intros Hr. apply (Hrqs rq); [by eapply list_elem_of_lookup_2|done].
  - by apply Hsafe, Hkept, start_safe.
  - by apply Hgood, kept_good, stop_kept.
  - apply Hgood, kept_good. destruct (worker_tasks s !! k) eqn:E; [|done]. apply with_pools_kept; [done|].
    intros j Hj. destruct (proj1 Hw j Hj) as (_ & _ & _ & Ht & Hn). split; [|done]. apply lookup_insert_is_Some'. auto.
Qed.

Lemma scheduler_reachable_ok sys : reachable sys -> ok sys.
Proof.
  induction 1 as [keys counts interval|sys o sys' _ IH E]; [split; [apply new_scheduler_wf|set_solver]|].
  pose proof (scheduler_step_ok sys o IH) as Hs. by rewrite E in Hs.
Qed.

(** *** A changed set of providers *)

Definition aligned (s : scheduler) : Prop := forall k, k ∈ enabled_provider_keys s -> next_provider_runs s !! k = Some fzero.

Lemma align_aligned s : aligned (align_enabled_provider_runs s).
Proof. intros k Hk. cbn in *. by rewrite lookup_zeroed, bool_decide_eq_true_2. Qed.

Lemma reconcile_schedule s k s' :
  reconcile_if_connected s k = Ok s' ->
  enabled_provider_keys s' = enabled_provider_keys s /\ next_provider_runs s' = next_provider_runs s /\
  schedule_revision s' = schedule_revision s /\ provider_intervals s' = provider_intervals s.
Proof.
  unfold reconcile_if_connected, reconcile_worker_pool. destruct (has_client s); [|by intros [= <-]].
  destruct (negb _); [by intros [= <-]|]. intros E. res_inv. done.
Qed.

(** A new revision has every enabled provider due. *)
Lemma revision_aligns sys o sys' :
  ok sys -> step sys o = Ok sys' -> schedule_revision sys.1 <> schedule_revision sys'.1 -> aligned sys'.1 /\ sys'.2 = sys.2.
Proof.
  destruct sys as [s rqs]. intros [Hw Hrqs] E Hrev. cbn [fst snd] in *.
  assert (forall m, safe kept s m -> (s' ← m; Ok (s', rqs)) = Ok sys' -> False) as Hkept.
  { intros m Hm (s' & -> & <-%Ok_inj)%bind_Ok. cbn in Hm. destruct Hm as (_ & _ & Hr & _). by apply Hrev. }
  destruct o; cbn [step] in E.
  - apply bind_Ok in E as (s' & E & <-%Ok_inj). split; [|done]. revert E. unfold configure_schedule.
    destruct (negb _); [done|]. destruct (foldl _ _ _) as [ivs runs]. intros <-%Ok_inj. cbn [fst] in *.
    destruct (_ || _); [apply align_aligned|]. by destruct Hrev.
  - apply bind_Ok in E as (s' & E & <-%Ok_inj). split; [|done]. revert E. unfold register_provider.
    destruct (is_empty _); [done|]. cbv zeta. intros (He & Hn & Hr & _)%reconcile_schedule. cbn [fst] in *.
    intros j. rewrite He, Hn. destruct (_ || _); [apply align_aligned|]. by rewrite Hr in Hrev.
  - apply Ok_inj in E. subst. cbn in *. split; [|done]. unfold unregister_provider in *. case_bool_decide; [done|]. apply align_aligned.
  - by apply Hkept in E; [|apply set_counts_safe].
  - apply bind_Ok in E as (o & _ & <-%Ok_inj). by destruct Hrev.
  - destruct (rqs !! n) as [rq|] eqn:En; [|apply Ok_inj in E; subst; by destruct Hrev].
    apply Hkept in E; [done|]. apply finish_safe; [done|]. apply Hrqs. by eapply list_elem_of_lookup_2.
  - by apply Hkept in E; [|apply start_safe].
  - apply Ok_inj in E. subst. by destruct Hrev.
  - apply Ok_inj in E. subst. destruct Hrev. cbn. by destruct (worker_tasks s !! k).
Qed.

(** A changed schedule is a new revision. *)
Lemma change_is_a_revision sys o sys' :
  ok sys -> step sys o = Ok sys' -> changes sys.1 sys'.1 -> schedule_revision sys.1 <> schedule_revision sys'.1.
Proof.
  destruct sys as [s rqs]. intros [Hw Hrqs] E Hch. cbn [fst snd] in *.
  assert (forall m, safe kept s m -> (s' ← m; Ok (s', rqs)) = Ok sys' -> False) as Hkept.
  { intros m Hm (s' & -> & <-%Ok_inj)%bind_Ok. by apply (kept_no_change s s'). }
  assert (forall s', enabled_provider_keys s' = enabled_provider_keys s -> provider_intervals s' = provider_intervals s ->
    ~ changes s s') as Hsame by (intros s' He Hi [Hne|(k & _ & Hne)]; [done|]; by rewrite Hi in Hne).
  destruct o; cbn [step] in E.
  - apply bind_Ok in E as (s' & E & <-%Ok_inj). revert E Hch. cbn [fst]. unfold configure_schedule.
    destruct (negb (forallb _ _)); [done|]. destruct (foldl _ _ _) as [ivs runs]. cbv zeta.
    set (next := list_to_set _ : gset string). intros <-%Ok_inj.
    destruct (negb (bool_decide (next = _)) || _) eqn:Ec; [intros _; cbn; lia|]. cbn.
    apply orb_false_iff in Ec as [E1%negb_false_iff%bool_decide_eq_true E2]. intros [Hne|(k & Hk & Hne)]; [done|].
    exfalso. cbn in Hk, Hne.
    assert (existsb (fun k => negb (bool_decide (provider_intervals s !! k = ivs !! k))) (elements next) = true); [|congruence].
    apply existsb_exists. exists k. split; [by apply list_elem_of_In, elem_of_elements|]. rewrite bool_decide_false; [done|]. congruence.
  - apply bind_Ok in E as (s' & E & <-%Ok_inj). revert E Hch. cbn [fst]. unfold register_provider.
    destruct (is_empty _); [done|]. cbv zeta. intros (He & Hn & Hr & Hi)%reconcile_schedule.
    rewrite Hr. unfold changes. rewrite He, Hi.
    destruct (negb (eqb _ enabled) || _) eqn:Ec; [intros _; cbn; lia|].
    apply orb_false_iff in Ec as [E1%negb_false_iff E2]. apply eqb_prop in E1. cbn in E2 |- *. rewrite lookup_insert_eq in E2.
    intros [Hne|(j & Hj & Hne)]; exfalso.
    + apply Hne. destruct enabled; [apply bool_decide_eq_true in E1|apply bool_decide_eq_false in E1]; set_solver.
    + destruct (decide (k = j)) as [<-|Hkj]; [|by rewrite lookup_insert_ne in Hne].
      destruct enabled; [|set_solver]. cbn in E2. apply negb_false_iff, bool_decide_eq_true in E2.
      rewrite lookup_insert_eq in Hne. congruence.
  - apply Ok_inj in E. subst. cbn [fst] in *. unfold unregister_provider in *. case_bool_decide; [|cbn; lia].
    by apply (Hsame s) in Hch.
  - by apply Hkept in E; [|apply set_counts_safe].
  - apply bind_Ok in E as (o & _ & <-%Ok_inj). by apply (Hsame s) in Hch.
  - destruct (rqs !! n) as [rq|] eqn:En; [|apply Ok_inj in E; subst; by apply (Hsame s) in Hch].
    apply Hkept in E; [done|]. apply finish_safe; [done|]. apply Hrqs. by eapply list_elem_of_lookup_2.
  - by apply Hkept in E; [|apply start_safe].
  - apply Ok_inj in E. subst. by apply Hsame in Hch.
  - apply Ok_inj in E. subst. cbn [fst] in Hch. destruct (worker_tasks s !! k); by apply Hsame in Hch.
Qed.

Lemma revision_grows sys o sys' :
  ok sys -> step sys o = Ok sys' -> schedule_revision sys.1 <= schedule_revision sys'.1.
Proof.
  destruct sys as [s rqs]. intros [Hw Hrqs] E. cbn [fst snd] in *.
  assert (forall R m, (forall s', R s s' -> schedule_revision s <= schedule_revision s') -> safe R s m ->
            (s' ← m; Ok (s', rqs)) = Ok sys' -> schedule_revision s <= schedule_revision sys'.1) as Hsafe.
  { intros R m HR Hm (s' & -> & <-%Ok_inj)%bind_Ok. by apply HR. }
  assert (forall s', good s s' -> schedule_revision s <= schedule_revision s') as Hg by (by intros s' (_ & ? & _)).
  assert (forall s', kept s s' -> schedule_revision s <= schedule_revision s') as Hk by (intros s' (_ & _ & -> & _); lia).
  destruct o; cbn [step] in E; try (apply Ok_inj in E; subst; cbn [fst]).
  - eapply Hsafe; [exact Hg|by apply configure_safe|done].
  - eapply Hsafe; [exact Hg|by apply register_safe|done].
  - by apply Hg, unregister_good.
  - eapply Hsafe; [exact Hk|by apply set_counts_safe|done].
  - apply bind_Ok in E as (o & _ & <-%Ok_inj). cbn. lia.
  - destruct (rqs !! n) as [rq|] eqn:En; [|apply Ok_inj in E; subst; cbn; lia].
    eapply Hsafe; [exact Hk| |exact E]. apply finish_safe; [done|]. apply Hrqs. by eapply list_elem_of_lookup_2.
  - eapply Hsafe; [exact Hk|by apply start_safe|done].
  - by apply Hk, stop_kept.
  - destruct (worker_tasks s !! k); cbn; lia.
Qed.

Lemma old_replies_change_nothing sys ns :
  (forall rq, rq ∈ sys.2 -> rq_revision rq < schedule_revision sys.1) -> foldr_res step sys (Finish <$> ns) = Ok sys.
Proof.
  intros Hold. induction ns as [|n ns IH]; [done|]. rewrite fmap_cons. cbn [foldr_res].
  assert (step sys (Finish n) = Ok sys) as ->; [|exact IH]. destruct sys as [s rqs]. cbn in *.
  destruct (rqs !! n) as [rq|] eqn:E; [|done]. unfold finish_schedule.
  rewrite (proj2 (Z.eqb_neq _ _)); [done|]. specialize (Hold rq (list_elem_of_lookup_2 _ _ _ E)). lia.
Qed.

(** C24: A changed set of providers is due together.  When an operation changes
    which providers are enabled, or the interval of an enabled one, then,
    whatever replies to earlier requests are still to come, every enabled
    provider is due at once, so that the next request asks for all of them; and
    no operation ever fails on a provider without its entries.  The window of
    that request is that of the clock, which may be one that was asked for
    before the change. *)
Theorem changed_providers_are_due_together sys o sys' ns now :
  reachable sys -> step sys o = Ok sys' -> changes sys.1 sys'.1 -> fleb fzero now = true ->
  foldr_res step sys' (Finish <$> ns) = Ok sys' /\
  due_provider_keys sys'.1 now = Ok (keep (fun k => bool_decide (k ∈ enabled_provider_keys sys'.1)) (provider_keys sys'.1)) /\
  (forall o', step sys' o' <> Err KeyError).
Proof.
  intros Hr%scheduler_reachable_ok E Hch Hnow. pose proof (change_is_a_revision _ _ _ Hr E Hch) as Hrev. pose proof (scheduler_step_ok sys o Hr) as Hok. rewrite E in Hok.
  destruct (revision_aligns _ _ _ Hr E Hrev) as [Hal Hrqs]. split_and!.
  - apply old_replies_change_nothing. rewrite Hrqs. intros rq Hin. destruct (proj2 Hr rq Hin) as [Hle _].
    pose proof (revision_grows _ _ _ Hr E). lia.
  - assert (forall k, is_due sys'.1 now k = Ok (if bool_decide (k ∈ enabled_provider_keys sys'.1) then Some k else None)) as Hd.
    { intros k. unfold is_due, item. case_bool_decide as Hk; [|done]. rewrite (Hal k Hk). cbn. by rewrite Hnow. }
    unfold due_provider_keys. induction (provider_keys sys'.1) as [|k l IH]; [done|]. cbn [omapr keep].
    rewrite Hd, IH. cbn [mbind res_bind]. by case_bool_decide.
  - intros o' E'. pose proof (scheduler_step_ok sys' o' Hok) as H'. by rewrite E' in H'.
Qed.

(** *** Pools and windows *)

Lemma start_workers_spec k serial n :
  length (start_workers k serial n) = n /\ Forall (fun t => finished t = false) (start_workers k serial n).
Proof.
  revert serial. induction n as [|n IH]; intros serial; cbn; [done|]. destruct (IH (serial + 1)) as [-> ?]. auto.
Qed.

(** A reconciled pool has exactly the configured number of workers, all of
    them running; workers that were running are kept, oldest first. *)
Theorem reconciled_pool_has_its_workers s k s' :
  reconcile_worker_pool s k = Ok s' -> workers_started s = true ->
  exists before pool desired, worker_tasks s !! k = Some before /\ worker_tasks s' !! k = Some pool /\
    provider_worker_counts s' !! k = Some desired /\ length pool = Z.to_nat desired /\
    Forall (fun t => finished t = false) pool /\
    take (length pool) (running before) `prefix_of` pool.
Proof.
  unfold reconcile_worker_pool. intros E Hst. cbn in E. rewrite Hst in E. cbn [negb] in E.
  apply bind_Ok in E as (ts & Ht & E). apply bind_Ok in E as (d & Hd & E). apply bind_Ok in E as (n & Hn & <-%Ok_inj).
  unfold item in Ht, Hd. apply raise_none_Ok in Ht, Hd. cbn in Ht, Hd. rewrite lookup_fmap in Ht.
  apply fmap_Some in Ht as (before & Hb & ->). destruct (start_workers_spec k n (Z.to_nat d - length (running before))) as [Hl Hf].
  eexists before, _, d. cbn. split_and!; [done|by rewrite lookup_insert, decide_True|done|..].
  - rewrite length_take, length_app, Hl. lia.
  - apply Forall_take, Forall_app. split; [|done]. apply Forall_forall. intros t [_ Ht]%elem_of_keep. by apply negb_true_iff.
  - rewrite length_take, length_app, Hl. rewrite take_app. replace (_ `min` _)%nat with (Z.to_nat d) by lia. by eexists.
Qed.

(** The window of a request holds its time and is a multiple of the interval. *)
Lemma window_holds_now s now w :
  window_seconds s now = Ok w ->
  exists t, int_of_float now = Ok t /\ w <= t < w + Z.max 1 (interval_seconds s) /\ (Z.max 1 (interval_seconds s) | w).
Proof.
  unfold window_seconds. intros (t & Ht & <-%Ok_inj)%bind_Ok. exists t. split; [done|].
  set (i := Z.max 1 (interval_seconds s)). assert (0 < i) as Hi by lia. pose proof (Z.mod_pos_bound t i Hi).
  split; [lia|]. exists (t / i). pose proof (Z.div_mod t i ltac:(lia)). lia.
Qed.

End steps.

(** ** A provider that is registered between two windows *)

Module Sample.
#[local] Existing Instance coded_iso.

Definition fresh : scheduler * list request := (new_scheduler ["kubernetes"] ∅ 30, []).
Definition after (sys : scheduler * list request) (o : op) : scheduler * list request :=
  match step sys o with Ok sys' => sys' | Err _ => sys end.
Definition asked : scheduler * list request := after fresh (Begin (flit "60.5")).
Definition changed : scheduler * list request := after asked (Register "metrics" 1 30 true).

Lemma after_ok sys o : is_ok (step sys o) = true -> step sys o = Ok (after sys o).
Proof. unfold after. by destruct (step sys o). Qed.

Lemma asked_ok : step fresh (Begin (flit "60.5")) = Ok asked.
Proof. apply after_ok. vm_compute. reflexivity. Qed.

Lemma changed_ok : step asked (Register "metrics" 1 30 true) = Ok changed.
Proof. apply after_ok. vm_compute. reflexivity. Qed.

Lemma changed_providers_are_due_together_witness :
  foldr_res step changed [Finish 0] = Ok changed /\ due_provider_keys changed.1 (flit "70.0") = Ok ["kubernetes"; "metrics"].
Proof.
  destruct (changed_providers_are_due_together asked (Register "metrics" 1 30 true) changed [0%nat] (flit "70.0")) as (Hf & Hd & _).
  - apply (reach_step fresh (Begin (flit "60.5"))); [apply reach_new|exact asked_ok].
  - exact changed_ok.
  - left. intros Heq. assert ("metrics" ∈ enabled_provider_keys asked.1) as Hin by (rewrite <- Heq; vm_compute; reflexivity).
    vm_compute in Hin. discriminate Hin.
  - vm_compute. reflexivity.
  - split; [exact Hf|]. rewrite Hd. vm_compute. reflexivity.
Defined.

Lemma reconciled_pool_has_its_workers_witness :
  exists pool, worker_tasks (after changed Start).1 !! "metrics" = Some pool /\ length pool = 1%nat.
Proof.
  assert (reconcile_worker_pool (after changed Start).1 "metrics" = Ok (after changed Start).1) as E
    by (vm_compute; reflexivity).
  destruct (reconciled_pool_has_its_workers _ _ _ E) as (b & pool & d & _ & Hp & Hd & Hl & _); [vm_compute; reflexivity|].
  exists pool. split; [exact Hp|]. rewrite Hl. vm_compute in Hd. by injection Hd as <-.
Defined.

Definition batch_of (rq : request) : EvidenceJobs.job_batch :=
  {| EvidenceJobs.q_workspace_id := "w"; EvidenceJobs.q_cluster_id := "c"; EvidenceJobs.q_source_id := "s";
     EvidenceJobs.q_window_start := rq_window_start rq; EvidenceJobs.q_provider_keys := rq_due rq;
     EvidenceJobs.q_failure_policy := ""; EvidenceJobs.q_max_attempts := 3; EvidenceJobs.q_policy_generation := 1;
     EvidenceJobs.q_provider_policies := [] |}.

(** The changed set is asked for together, but the window is that of the
    clock: within one interval it is the window already asked for, whose jobs
    exist.  Only the job of the new provider is queued, and it belongs to a
    window that the first provider may have completed and sealed. *)
Lemma changed_set_joins_the_current_window :
  exists sys rq1 rq2, reachable sys /\ sys.2 = [rq1; rq2] /\
    rq_due rq1 = ["kubernetes"] /\ rq_due rq2 = ["kubernetes"; "metrics"] /\
    rq_window_start rq1 = rq_window_start rq2 /\
    (EvidenceJobs.queue_evidence_jobs (EvidenceJobs.queue_evidence_jobs ∅ (batch_of rq1) 0).1 (batch_of rq2) 10).2
      = [EvidenceJobs.evidence_job_id "w" "c" "s" (rq_window_start rq2) "metrics"].
Proof.
  exists (after changed (Begin (flit "70.0"))). eexists _, _. split; [|split; [vm_compute; reflexivity|]].
  - eapply reach_step; [|apply after_ok; vm_compute; reflexivity]. eapply reach_step; [|exact changed_ok].
    eapply reach_step; [apply reach_new|exact asked_ok].
  - vm_compute. repeat split; reflexivity.
Qed.
End Sample.
End AgentScheduler.
