(* ===== verification/EvidenceIntake.v ===== *)
(** * Evidence intake

    The routes of [src/src/domains/rca/router.py] through which evidence
    enters, from cluster agents and from Alertmanager, and the evidence
    windows of [src/src/domains/target/repository.py] that make each of them
    count once.  A window, the event it causes and the results of its jobs
    change in one transaction.  The evidence worker files its derived windows
    in the same table. *)
From S2P Require Import Prelude PyStr PyFloat PyVal PyTime Libs Demo EventStore EventBodies Dispatch ManifestEditor RecoveryChecks EvidenceBundle EvidenceJobs.

Module EvidenceIntake.
Import EventStore.

Definition DEFAULT_EVIDENCE_SOURCE_ID : string := "cluster-snapshot".
Definition ALERTMANAGER_SOURCE_ID : string := "alertmanager-webhook".
Definition ALERTMANAGER_REOPEN_DISPOSITIONS : list string := ["orphan"; "terminal"].
Definition MAX_EVIDENCE_EVENT_SUMMARY_BYTES : nat := 2048.
Definition EVENT_SOURCE : string := "api-gateway".
Definition RCA_ENRICHED_EVIDENCE_KEY_SEGMENT : string := "rca-enriched".
(** [server_default] of [events.schema_version] *)
Definition DEFAULT_SCHEMA_VERSION : Z := 1.

(** ** Data *)

(** The workspace and cluster that the token of an agent stands for. *)
Record ClusterAgentIdentity := { id_workspace_id : string; id_cluster_id : string }.

(** The fields that [AgentEvidenceRequest] and the event body share. *)
Record AgentEvidenceRequest := {
  p_cluster_id : string;
  p_workspace_id : string;
  p_correlation_id : option string;
  p_agent_id : option string;
  p_source_id : option string;
  p_window_start : option string;
  p_evidence_key : option string;
  p_workflow_run_id : option string;
  p_release_context : dict;
  p_collection_status : dict;
  p_kubernetes : dict;
  p_metrics : dict;
  p_logs : list dict;
  p_traces : dict;
  p_metadata : dict;
}.

Record AlertmanagerAlert := {
  a_status : string;
  a_labels : dict;
  a_annotations : dict;
  a_startsAt : string;
  a_endsAt : string;
  a_fingerprint : string;
  a_extra : dict;
}.

Record AlertmanagerWebhookRequest := { groupKey : string; receiver : string; alerts : list AlertmanagerAlert }.

Definition opt_value (o : option string) : pyval := match o with Some s => VStr s | None => VNone end.

Definition dicts (l : list dict) : pyval := VList (VDict <$> l).

(** [model_dump(exclude={"correlation_id"})] with the trusted identity, in the
    order of the model. *)
Definition request_data (p : AgentEvidenceRequest) (id : ClusterAgentIdentity) (evidence_key : option string) : dict :=
  [("cluster_id", VStr (id_cluster_id id)); ("workspace_id", VStr (id_workspace_id id));
   ("agent_id", opt_value (p_agent_id p)); ("source_id", opt_value (p_source_id p));
   ("window_start", opt_value (p_window_start p)); ("evidence_key", opt_value evidence_key);
   ("workflow_run_id", opt_value (p_workflow_run_id p)); ("release_context", VDict (p_release_context p));
   ("collection_status", VDict (p_collection_status p)); ("kubernetes", VDict (p_kubernetes p));
   ("metrics", VDict (p_metrics p)); ("logs", dicts (p_logs p)); ("traces", VDict (p_traces p));
   ("metadata", VDict (p_metadata p))].

(** [x or y] on optional text. *)
Definition or_text (o : option string) (rest : option string) : option string :=
  match o with Some s => if is_empty s then rest else Some s | None => rest end.

Section intake.
Context `{ReprLib} `{Sha256}.

(** ** Keys *)

Definition scope (id : ClusterAgentIdentity) : string := id_workspace_id id +:+ ":" +:+ id_cluster_id id.

Definition scoped_evidence_key (id : ClusterAgentIdentity) (evidence_key : option string) : option string :=
  match or_text evidence_key None with
  | Some k => Some (scope id +:+ ":" +:+ k)
  | None => None
  end.

Definition agent_evidence_key (id : ClusterAgentIdentity) (p : AgentEvidenceRequest) : res string :=
  match scoped_evidence_key id (p_evidence_key p) with
  | Some k => Ok k
  | None =>
      encoded ← json_canonical (VDict (request_data p id None));
      let digest := str_take 32 (sha256_hexdigest (utf8_encode encoded)) in
      let source_id := default DEFAULT_EVIDENCE_SOURCE_ID (or_text (p_source_id p) None) in
      let window_start := default "adhoc" (or_text (p_window_start p) (or_text (p_correlation_id p) None)) in
      Ok (scope id +:+ ":" +:+ source_id +:+ ":" +:+ window_start +:+ ":" +:+ digest)
  end.

(** The body built from a request: the identity and the key are trusted. *)
Definition build_cluster_evidence_body (p : AgentEvidenceRequest) (id : ClusterAgentIdentity)
    : res AgentEvidenceRequest :=
  key ← agent_evidence_key id p;
  Ok {| p_cluster_id := id_cluster_id id; p_workspace_id := id_workspace_id id; p_correlation_id := p_correlation_id p;
        p_agent_id := p_agent_id p; p_source_id := p_source_id p; p_window_start := p_window_start p;
        p_evidence_key := Some key; p_workflow_run_id := p_workflow_run_id p; p_release_context := p_release_context p;
        p_collection_status := p_collection_status p; p_kubernetes := p_kubernetes p; p_metrics := p_metrics p;
        p_logs := p_logs p; p_traces := p_traces p; p_metadata := p_metadata p |}.

Definition to_body (b : AgentEvidenceRequest) : dict :=
  [("cluster_id", VStr (p_cluster_id b)); ("kubernetes", VDict (p_kubernetes b)); ("metrics", VDict (p_metrics b));
   ("logs", dicts (p_logs b)); ("traces", VDict (p_traces b)); ("workspace_id", VStr (p_workspace_id b));
   ("agent_id", opt_value (p_agent_id b)); ("source_id", opt_value (p_source_id b));
   ("window_start", opt_value (p_window_start b)); ("evidence_key", opt_value (p_evidence_key b));
   ("workflow_run_id", opt_value (p_workflow_run_id b)); ("release_context", VDict (p_release_context b));
   ("collection_status", VDict (p_collection_status b)); ("metadata", VDict (p_metadata b));
   ("correlation_id", opt_value (p_correlation_id b)); ("kind", VNone); ("payload_size", VNone); ("summary", VDict [])].

(** *** The reference that the event carries *)

(** The size of the text in bytes, which the order of its keys does not change. *)
Definition evidence_payload_size (d : dict) : res nat :=
  text ← json_canonical (VDict d); Ok (str_len (utf8_encode text)).

Definition kubernetes_resource (kubernetes : dict) : dict :=
  match get kubernetes "resource" with
  | VDict r => keep (fun kv => bool_decide (kv.1 ∈ ["kind"; "name"; "namespace"])) r
  | _ => []
  end.

Definition sorted_keys (d : dict) : pyval := VList (VStr <$> take 20 (isort String.leb d.*1)).

(** [v not in (None, {}, [])] *)
Definition present (v : pyval) : bool := match v with VNone | VDict [] | VList [] => false | _ => true end.

Definition evidence_summary (b : AgentEvidenceRequest) : res dict :=
  let summary :=
    keep (fun kv => present kv.2)
      [("resource", VDict (kubernetes_resource (p_kubernetes b))); ("symptom", get (p_kubernetes b) "symptom");
       ("severity", get (p_kubernetes b) "severity"); ("kubernetes_keys", sorted_keys (p_kubernetes b));
       ("metrics_keys", sorted_keys (p_metrics b)); ("logs_count", VInt (Z.of_nat (length (p_logs b))));
       ("traces_keys", sorted_keys (p_traces b))] in
  size ← evidence_payload_size summary;
  if (size <=? MAX_EVIDENCE_EVENT_SUMMARY_BYTES)%nat then Ok summary
  else Ok [("resource", get summary "resource"); ("symptom", get summary "symptom"); ("severity", get summary "severity");
           ("logs_count", if has_key summary "logs_count" then get summary "logs_count" else VInt 0);
           ("truncated", VBool true)].

Definition compact_cluster_evidence_payload (b : AgentEvidenceRequest) (correlation_id : option string) : res dict :=
  size ← evidence_payload_size (to_body b);
  summary ← evidence_summary b;
  Ok [("workspace_id", VStr (p_workspace_id b)); ("cluster_id", VStr (p_cluster_id b));
      ("agent_id", opt_value (p_agent_id b)); ("source_id", opt_value (p_source_id b));
      ("window_start", opt_value (p_window_start b)); ("evidence_key", opt_value (p_evidence_key b));
      ("workflow_run_id", opt_value (p_workflow_run_id b)); ("release_context", VDict (p_release_context b));
      ("collection_status", VDict (p_collection_status b));
      ("correlation_id", opt_value (or_text correlation_id (p_correlation_id b))); ("kind", VStr "cluster_evidence");
      ("payload_size", VInt (Z.of_nat size)); ("summary", VDict summary); ("kubernetes", VDict []); ("metrics", VDict []);
      ("logs", VList []); ("traces", VDict [])].

(** ** Windows *)

Record EvidenceWindow := {
  w_workspace_id : string;
  w_cluster_id : string;
  w_source_id : string;
  w_window_start : string;
  w_agent_id : option string;
  w_event_id : string;
  w_correlation_id : string;
  w_payload : dict;
  w_created_at : Z;
  w_updated_at : Z;
}.

(** An alert of [alert_events]; the display entry of its evidence is left out. *)
Record AlertEvent := {
  ae_workspace_id : string;
  ae_rule_name : string;
  ae_severity : string;
  ae_subject_key : string;
  ae_subject : dict;
  ae_fired_at : moment;
  ae_resolved_at : option moment;
  ae_status : string;
  ae_observed_value : option float;
  ae_threshold : option float;
  ae_series_identity : option dict;
  ae_incident_id : option string;
  ae_acknowledged : option (Z * string);
  ae_promoted : option (Z * string);
}.

(** The tables the intake writes.  [inventory] is what it hands to the
    inventory of the same transaction: tenant, cluster, agent and payload. *)
Record db := {
  windows : gmap string EvidenceWindow;
  store_of : store;
  jobs : gmap string EvidenceJobs.EvidenceJob;
  alert_events : gmap string AlertEvent;
  inventory : list (string * string * string * dict);
}.

Definition set_windows (s : db) (w : gmap string EvidenceWindow) : db :=
  {| windows := w; store_of := store_of s; jobs := jobs s; alert_events := alert_events s; inventory := inventory s |}.

(** [ON CONFLICT (event_id) DO NOTHING] on both tables *)
Definition stage_event_envelope (s : db) (e : EventEnvelope) : db :=
  let st := store_of s in
  let st := {| events := match events st !! event_id e with Some _ => events st | None => <[event_id e := event_row_of e DEFAULT_SCHEMA_VERSION]> (events st) end;
               processing := processing st; outbox := outbox st; dead_letters := dead_letters st |} in
  {| windows := windows s; store_of := stage_event st e; jobs := jobs s; alert_events := alert_events s;
     inventory := inventory s |}.

(** [replace(event_envelope, workspace_id=workspace_id)] *)
Definition trusted_envelope (e : EventEnvelope) (ws : string) : EventEnvelope :=
  {| event_id := event_id e; subject := subject e; source := source e; correlation_id := correlation_id e;
     causation_id := causation_id e; created_at := created_at e; payload := payload e;
     schema_version := schema_version e; workspace_id := Some ws |}.

(** The columns of a recording. *)
Record recording := {
  r_key : string;
  r_workspace_id : string;
  r_cluster_id : string;
  r_source_id : string;
  r_window_start : string;
  r_agent_id : option string;
  r_envelope : EventEnvelope;
  r_payload : dict;
  r_inventory : option dict;
}.

Definition window_of (r : recording) (created now : Z) : EvidenceWindow :=
  {| w_workspace_id := r_workspace_id r; w_cluster_id := r_cluster_id r; w_source_id := r_source_id r;
     w_window_start := r_window_start r; w_agent_id := r_agent_id r; w_event_id := event_id (r_envelope r);
     w_correlation_id := correlation_id (r_envelope r); w_payload := r_payload r; w_created_at := created;
     w_updated_at := now |}.

(** What a recording answers: whether it was a duplicate, and the event and
    correlation that now stand for the key. *)
Record outcome := { o_duplicate : bool; o_event_id : string; o_correlation_id : string }.

Definition outcome_of (duplicate : bool) (w : EvidenceWindow) : outcome :=
  {| o_duplicate := duplicate; o_event_id := w_event_id w; o_correlation_id := w_correlation_id w |}.

Definition record_evidence_event_once (s : db) (r : recording) (now : Z) : db * outcome :=
  match windows s !! r_key r with
  | Some existing => (s, outcome_of true existing)
  | None =>
      let w := window_of r now now in
      let s := set_windows s (<[r_key r := w]> (windows s)) in
      let s := stage_event_envelope s (trusted_envelope (r_envelope r) (r_workspace_id r)) in
      ({| windows := windows s; store_of := store_of s;
          jobs := EvidenceJobs.drop_results (jobs s) (r_key r) (r_workspace_id r); alert_events := alert_events s;
          inventory := match r_inventory r with
                       | Some p => inventory s ++ [(r_workspace_id r, r_cluster_id r,
                                                    default "cluster-agent" (or_text (r_agent_id r) None), p)]
                       | None => inventory s
                       end |}, outcome_of false w)
  end.

Definition history_key (key expected_event_id expected_correlation_id : string) : string :=
  key +:+ ":history:" +:+
  str_take 24 (sha256_hexdigest (utf8_encode (expected_event_id +:+ String "000" expected_correlation_id))).

Definition rotate_alertmanager_evidence_window (s : db) (r : recording) (expected_event_id expected_correlation_id : string)
    (now : Z) : db * outcome :=
  let e := trusted_envelope (r_envelope r) (r_workspace_id r) in
  match windows s !! r_key r with
  | None =>
      let w := window_of r now now in
      (stage_event_envelope (set_windows s (<[r_key r := w]> (windows s))) e, outcome_of false w)
  | Some current =>
      if negb (str_eqb (w_event_id current) expected_event_id)
         || negb (str_eqb (w_correlation_id current) expected_correlation_id)
      then (s, outcome_of true current)
      else
        let h := history_key (r_key r) expected_event_id expected_correlation_id in
        let archived := match windows s !! h with Some _ => windows s | None => <[h := current]> (windows s) end in
        let w := window_of r (w_created_at current) now in
        (stage_event_envelope (set_windows s (<[r_key r := w]> archived)) e, outcome_of false w)
  end.

(** *** The derived window of the evidence worker *)

Definition rca_enriched_evidence_key (workspace_id cluster_id correlation_id : string) : string :=
  join ":" [workspace_id; cluster_id; RCA_ENRICHED_EVIDENCE_KEY_SEGMENT; correlation_id].

Definition in_tenant (workspace_id cluster_id : string) (w : EvidenceWindow) : bool :=
  str_eqb (w_workspace_id w) workspace_id && str_eqb (w_cluster_id w) cluster_id.

(** The windows and whether the row was saved: the update of an existing row
    keeps its event, and requires the same tenant and correlation. *)
Definition upsert_enriched_row (t : gmap string EvidenceWindow) (evidence_key workspace_id cluster_id correlation_id
    window_start source_id : string) (agent_id : option string) (payload : dict) (now : Z)
    : gmap string EvidenceWindow * bool :=
  match t !! evidence_key with
  | None =>
      (<[evidence_key :=
         {| w_workspace_id := workspace_id; w_cluster_id := cluster_id; w_source_id := source_id;
            w_window_start := window_start; w_agent_id := agent_id; w_event_id := "derived:" +:+ correlation_id;
            w_correlation_id := correlation_id; w_payload := payload; w_created_at := now; w_updated_at := now |}]> t, true)
  | Some w =>
      if in_tenant workspace_id cluster_id w && str_eqb (w_correlation_id w) correlation_id
      then
        (<[evidence_key :=
           {| w_workspace_id := w_workspace_id w; w_cluster_id := w_cluster_id w; w_source_id := source_id;
              w_window_start := window_start; w_agent_id := agent_id; w_event_id := w_event_id w;
              w_correlation_id := w_correlation_id w; w_payload := payload; w_created_at := w_created_at w;
              w_updated_at := now |}]> t, true)
      else (t, false)
  end.

(** ** The routes *)

Inductive reply := AcceptedResponse (event_id correlation_id : string) | HttpError (status : Z) (detail : string).

(** The [inventory] snapshot of a payload, made by [history_ingest.py]. *)
Context (evidence_inventory_payload : dict -> option dict).

(** The event of a body; [uuid] and [clock] are drawn by [event]. *)
Definition evidence_event (b : AgentEvidenceRequest) (correlation : option string) (uuid clock : string) : res EventEnvelope :=
  payload ← compact_cluster_evidence_payload b correlation;
  Ok (Dispatch.event uuid clock None "cluster.evidence.received" EVENT_SOURCE payload correlation None None).

Definition agent_recording (p : AgentEvidenceRequest) (id : ClusterAgentIdentity) (uuid clock : string) : res recording :=
  key ← agent_evidence_key id p;
  b ← build_cluster_evidence_body p id;
  e ← evidence_event b (p_correlation_id p) uuid clock;
  Ok {| r_key := key; r_workspace_id := id_workspace_id id; r_cluster_id := id_cluster_id id;
        r_source_id := default DEFAULT_EVIDENCE_SOURCE_ID (or_text (p_source_id b) None);
        r_window_start := default key (or_text (p_window_start b) (or_text (p_evidence_key b) None));
        r_agent_id := p_agent_id b; r_envelope := e; r_payload := to_body b;
        r_inventory := evidence_inventory_payload (p_kubernetes p) |}.

(** [seen] is what [get_evidence_window] found, earlier. *)
Definition agent_evidence (seen : option EvidenceWindow) (s : db) (p : AgentEvidenceRequest) (id : ClusterAgentIdentity)
    (uuid clock : string) (now : Z) : res (db * reply) :=
  r ← agent_recording p id uuid clock;
  match seen with
  | Some w => Ok (s, AcceptedResponse (w_event_id w) (w_correlation_id w))
  | None =>
      let '(s, o) := record_evidence_event_once s r now in
      Ok (s, AcceptedResponse (o_event_id o) (o_correlation_id o))
  end.

(** ** Alertmanager *)

Definition STANDARD_SLI_ALERT_NAME : string := "KyroSliFailureRatioHigh".
Definition STANDARD_SLI_REQUIRED_LABELS : list string :=
  ["kyro_namespace"; "kyro_resource_kind"; "kyro_resource_name"; "kyro_service"; "kyro_sli"; "kyro_symptom"].
Definition STANDARD_SLI_LABELS_INVALID : string := "standard SLI alert is missing required resource labels".
Definition STANDARD_SLI_MEASUREMENT_INVALID : string := "standard SLI alert is missing valid machine-readable measurements".
Definition WEBHOOK_TOKEN_INVALID : string := "invalid webhook token".
Definition CLUSTER_NOT_REGISTERED : string := "cluster is not registered".

(** [str(value or "").strip()] *)
Definition text (v : pyval) : string := strip (if truthy v then py_str v else "").

(** One measurement: [Ok None] when [float(raw)] raises what is caught or the
    value is out of bounds. *)
Definition measurement (raw : pyval) : res (option float) :=
  match py_float raw with
  | Ok f => Ok (if is_finite f && fleb fzero f && fleb f (flit "1.0") then Some f else None)
  | Err TypeError | Err ValueError => Ok None
  | Err e => Err e
  end.

Definition standard_sli_measurements (a : AlertmanagerAlert) : res (option (float * float)) :=
  if negb (str_eqb (text (get (a_labels a) "alertname")) STANDARD_SLI_ALERT_NAME) then Ok None
  else
    observed ← measurement (get (a_annotations a) "kyro_observed_value");
    match observed with
    | None => Ok None
    | Some o =>
        threshold ← measurement (get (a_annotations a) "kyro_threshold");
        Ok (match threshold with Some t => Some (o, t) | None => None end)
    end.

Definition says_firing (a : AlertmanagerAlert) : bool := str_eqb (ManifestEditor.lower (strip (a_status a))) "firing".

(** The detail of the 422 answer, if the alert is not acceptable. *)
Definition sli_error (a : AlertmanagerAlert) : res (option string) :=
  if negb (str_eqb (text (get (a_labels a) "alertname")) STANDARD_SLI_ALERT_NAME) then Ok None
  else if existsb (fun k => is_empty (text (get (a_labels a) k))) STANDARD_SLI_REQUIRED_LABELS
  then Ok (Some STANDARD_SLI_LABELS_INVALID)
  else
    m ← standard_sli_measurements a;
    Ok (match m with
        | None => Some STANDARD_SLI_MEASUREMENT_INVALID
        | Some (o, t) => if says_firing a && fleb o t then Some STANDARD_SLI_MEASUREMENT_INVALID else None
        end).

Fixpoint validate_alertmanager_sli_labels (l : list AlertmanagerAlert) : res (option string) :=
  match l with
  | [] => Ok None
  | a :: l =>
      e ← sli_error a;
      match e with Some detail => Ok (Some detail) | None => validate_alertmanager_sli_labels l end
  end.

Definition is_firing (a : AlertmanagerAlert) : bool := str_eqb (a_status a) "firing".

Definition alertmanager_evidence_key (ws cluster : string) (p : AlertmanagerWebhookRequest) : string :=
  let firing := isort String.leb ((fun a => a_fingerprint a +:+ "@" +:+ a_startsAt a) <$> keep is_firing (alerts p)) in
  let digest := str_take 32 (sha256_hexdigest (utf8_encode (join "|" (groupKey p :: firing)))) in
  ws +:+ ":" +:+ cluster +:+ ":alertmanager:" +:+ digest.

Definition first_nonempty (l : list string) : option string := head (keep nonempty l).

(** [d.setdefault(k, v)] when [d] is not empty *)
Definition alertmanager_kubernetes_hint (p : AlertmanagerWebhookRequest) : dict :=
  match keep is_firing (alerts p) with
  | [] => []
  | a :: _ =>
      let label k := text (get (a_labels a) k) in
      let symptom := first_nonempty [text (get (a_annotations a) "kyro_symptom"); label "kyro_symptom"; label "alertname"] in
      let hint := match symptom with Some s => [("symptom", VStr s)] | None => [] end in
      let hint := hint ++
        (if is_empty (label "kyro_resource_name") then []
         else [("resource", VDict [("kind", VStr (default "Deployment" (first_nonempty [label "kyro_resource_kind"])));
                                   ("name", VStr (label "kyro_resource_name"));
                                   ("namespace", opt_value (first_nonempty [label "kyro_namespace"; label "namespace"]))])]) in
      let hint := hint ++ (if is_empty (label "severity") then [] else [("severity", VStr (label "severity"))]) in
      if bool_decide (hint = []) then [] else hint ++ [("category", VStr "application_runtime")]
  end.

(** [min(..., default=None)] *)
Definition earliest (l : list string) : option string := head (isort String.leb l).

Definition alert_dump (a : AlertmanagerAlert) : pyval :=
  VDict ([("status", VStr (a_status a)); ("labels", VDict (a_labels a)); ("annotations", VDict (a_annotations a));
         ("startsAt", VStr (a_startsAt a)); ("endsAt", VStr (a_endsAt a)); ("fingerprint", VStr (a_fingerprint a))]
         ++ a_extra a).

Definition build_alertmanager_evidence_body (ws cluster : string) (p : AlertmanagerWebhookRequest) (key : string)
    : AgentEvidenceRequest :=
  let firing := keep is_firing (alerts p) in
  {| p_cluster_id := cluster; p_workspace_id := ws; p_correlation_id := None; p_agent_id := None;
     p_source_id := Some ALERTMANAGER_SOURCE_ID; p_window_start := earliest (keep nonempty (a_startsAt <$> firing));
     p_evidence_key := Some key; p_workflow_run_id := None; p_release_context := []; p_collection_status := [];
     p_kubernetes := alertmanager_kubernetes_hint p;
     p_metrics := [("alertmanager", VDict [("group_key", VStr (groupKey p)); ("receiver", VStr (receiver p));
                                           ("alerts", VList (alert_dump <$> firing))])];
     p_logs := []; p_traces := []; p_metadata := [] |}.

(** *** Alert events *)

Context `{IsoTime}.

Definition alertmanager_alert_event_id (ws cluster : string) (a : AlertmanagerAlert) : string :=
  let alertname := get (a_labels a) "alertname" in
  let identity := join "|" [ws; cluster; a_fingerprint a; a_startsAt a; if truthy alertname then py_str alertname else ""] in
  "ale-am-" +:+ str_take 32 (sha256_hexdigest (utf8_encode identity)).

Definition alertmanager_timestamp (s : string) : option moment :=
  if is_empty s then None
  else match fromisoformat (replace_char "Z" "+00:00" s) with
       | Some m => Some (match m_offset m with Some _ => m | None => Moment (m_wall m) (Some 0) end)
       | None => None
       end.

Definition RESOURCE_LABELS : list (string * string) :=
  [("pod", "Pod"); ("deployment", "Deployment"); ("statefulset", "StatefulSet"); ("service", "Service"); ("room", "GameRoom")].

Definition SEVERITIES : list string := ["critical"; "high"; "medium"; "low"; "warning"; "info"].

(** [labels.get(k)] of the labels as text, with a missing one as the empty text *)
Definition label (a : AlertmanagerAlert) (k : string) : string :=
  match dict_get (a_labels a) k with Some v => py_str v | None => "" end.

Definition subject_resource (a : AlertmanagerAlert) (alert_name : string) : string * string :=
  if nonempty (label a "kyro_resource_name")
  then (default "Workload" (first_nonempty [label a "kyro_resource_kind"]), label a "kyro_resource_name")
  else
    match keep (fun lk => nonempty (label a lk.1)) RESOURCE_LABELS with
    | (l, k) :: _ => (k, label a l)
    | [] => (default "Workload" (first_nonempty [label a "kind"]), default alert_name (first_nonempty [label a "instance"]))
    end.

Definition build_alertmanager_alert_event (ws cluster : string) (a : AlertmanagerAlert) (incident_id : option string)
    (observed_at : Z) : res AlertEvent :=
  let alert_name := str_take 120 (default "External alert" (first_nonempty [label a "alertname"])) in
  let namespace := first_nonempty [str_take 253 (strip (default "" (first_nonempty [label a "kyro_namespace"; label a "namespace"])))] in
  let '(kind, name) := subject_resource a alert_name in
  let subject := [("cluster", VStr (str_take 512 cluster)); ("namespace", opt_value namespace);
                  ("kind", VStr (str_take 253 kind)); ("name", VStr (str_take 253 name))] in
  let severity := ManifestEditor.lower (strip (default "warning" (first_nonempty [label a "severity"]))) in
  let severity := if bool_decide (severity ∈ SEVERITIES) then severity else "warning" in
  let resolved := str_eqb (ManifestEditor.lower (strip (a_status a))) "resolved" in
  let observed := Moment observed_at (Some 0) in
  subject_text ← json_sorted json_ascii_string (VDict subject);
  measurements ← standard_sli_measurements a;
  Ok {| ae_workspace_id := ws; ae_rule_name := alert_name; ae_severity := severity;
        ae_subject_key := sha256_hexdigest subject_text; ae_subject := subject;
        ae_fired_at := default observed (alertmanager_timestamp (a_startsAt a));
        ae_resolved_at := if resolved then Some (default observed (alertmanager_timestamp (a_endsAt a))) else None;
        ae_status := if resolved then "resolved" else "firing";
        ae_observed_value := fst <$> measurements; ae_threshold := snd <$> measurements;
        ae_series_identity :=
          if str_eqb alert_name STANDARD_SLI_ALERT_NAME
          then RecoveryChecks.standard_sli_series_identity
                 (VDict [("namespace", VStr (label a "kyro_namespace")); ("resource_kind", VStr (label a "kyro_resource_kind"));
                         ("resource_name", VStr (label a "kyro_resource_name")); ("service", VStr (label a "kyro_service"));
                         ("sli", VStr (label a "kyro_sli")); ("symptom", VStr (label a "kyro_symptom"))])
          else None;
        ae_incident_id := incident_id; ae_acknowledged := None; ae_promoted := None |}.

(** The conflict clause of [upsert_external_alert_event]: what a repeated
    notification makes of the stored alert. *)
Definition incident_changed (stored new : AlertEvent) : bool :=
  match ae_incident_id new, ae_incident_id stored with Some n, Some o => negb (str_eqb n o) | _, _ => false end.

Definition resolved_is_terminal (stored new : AlertEvent) : bool :=
  str_eqb (ae_status stored) "resolved" && negb (str_eqb (ae_status new) "resolved") && negb (incident_changed stored new).

Definition merge_alert_event (stored new : AlertEvent) : AlertEvent :=
  let keep_resolved {A} (o n : A) : A := if resolved_is_terminal stored new then o else n in
  {| ae_workspace_id := ae_workspace_id new; ae_rule_name := ae_rule_name new; ae_severity := ae_severity new;
     ae_subject_key := ae_subject_key new; ae_subject := ae_subject new; ae_fired_at := ae_fired_at stored;
     ae_resolved_at := keep_resolved (ae_resolved_at stored) (ae_resolved_at new);
     ae_status := keep_resolved (ae_status stored) (ae_status new);
     ae_observed_value := keep_resolved (ae_observed_value stored) (ae_observed_value new);
     ae_threshold := keep_resolved (ae_threshold stored) (ae_threshold new);
     ae_series_identity := match ae_series_identity new with Some i => Some i | None => ae_series_identity stored end;
     ae_incident_id := match ae_incident_id new with Some i => Some i | None => ae_incident_id stored end;
     ae_acknowledged := if incident_changed stored new then None else ae_acknowledged stored;
     ae_promoted := if incident_changed stored new then None else ae_promoted stored |}.

Definition upsert_external_alert_event (s : db) (id : string) (new : AlertEvent) : db :=
  {| windows := windows s; store_of := store_of s; jobs := jobs s; inventory := inventory s;
     alert_events := <[id := match alert_events s !! id with Some old => merge_alert_event old new | None => new end]>
                       (alert_events s) |}.

Definition persist_alert (ws cluster : string) (incident_id : option string) (observed_at : Z) (s : db) (a : AlertmanagerAlert)
    : res db :=
  e ← build_alertmanager_alert_event ws cluster a incident_id observed_at;
  Ok (upsert_external_alert_event s (alertmanager_alert_event_id ws cluster a) e).

Definition persist_alertmanager_alert_events (s : db) (ws cluster : string) (p : AlertmanagerWebhookRequest)
    (incident_id : option string) (observed_at : Z) : res db :=
  foldr_res (persist_alert ws cluster incident_id observed_at) s (alerts p).

(** The alerts of a validated webhook are persisted without an error, so that
    a webhook never fails after it has filed its window. *)
Lemma valid_measurements l :
  validate_alertmanager_sli_labels l = Ok None -> Forall (fun a => exists m, standard_sli_measurements a = Ok m) l.
Proof.
  induction l as [|a l IH]; cbn; [constructor|]. intros ([d|] & He & Hl)%bind_Ok; [done|]. constructor; [|by apply IH].
  unfold sli_error in He. destruct (str_eqb (text _) _) eqn:En; cbn [negb] in He.
  - destruct (existsb _ _); [done|]. apply bind_Ok in He as (m & Hm & _). by exists m.
  - exists None. unfold standard_sli_measurements. by rewrite En.
Qed.

Lemma persist_total ws cluster p incident now s :
  validate_alertmanager_sli_labels (alerts p) = Ok None ->
  exists s', persist_alertmanager_alert_events s ws cluster p incident now = Ok s'.
Proof.
  intros Hall%valid_measurements. unfold persist_alertmanager_alert_events. revert s.
  induction Hall as [|a l [m Hm] _ IH]; intros s; cbn [foldr_res]; [by eexists|].
  assert (exists e, build_alertmanager_alert_event ws cluster a incident now = Ok e) as [e He].
  { unfold build_alertmanager_alert_event. destruct (subject_resource a _) as [kind name]. rewrite Hm.
    destruct (first_nonempty [str_take 253 _]); cbn [opt_value json_sorted mapr mbind res_bind snd]; eauto. }
  assert (persist_alert ws cluster incident now s a = Ok (upsert_external_alert_event s (alertmanager_alert_event_id ws cluster a) e)) as ->
    by (unfold persist_alert; by rewrite He).
  apply IH.
Qed.

(** *** Whether a key may still stand for its incident *)

Definition ALERTMANAGER_TERMINAL_TIMELINE_STATUSES : list string := ["incident_resolved"; "incident_expired"].

(** What the other tables say about a workspace and a correlation. *)
Record incident_view := {
  latest_timeline_status : option string;
  latest_plan_status : option string;
  report_exists : bool;
  claim_exists : bool;
}.

Definition in_flight (st : EventProcessingStatus) : bool := match st with PROCESSING | RETRYING => true | _ => false end.

Definition processing_of (st : store) (event_id : string) : list processing_row :=
  (keep (fun kr => str_eqb kr.1.1 event_id) (map_to_list (processing st))).*2.

Definition get_alertmanager_evidence_disposition (v : incident_view) (st : store) (correlation event_id : string) : string :=
  match latest_timeline_status v with
  | Some status => if bool_decide (status ∈ ALERTMANAGER_TERMINAL_TIMELINE_STATUSES) then "terminal" else "active"
  | None =>
      match latest_plan_status v with
      | Some status => if str_eqb status "completed" then "terminal" else "active"
      | None =>
          if report_exists v then "active"
          else if claim_exists v then "active"
          else
            match events st !! event_id with
            | Some e =>
                if negb (str_eqb (er_correlation_id e) correlation) then "orphan"
                else if existsb (fun r => in_flight (pr_status r)) (processing_of st event_id) then "pending"
                else if bool_decide (processing_of st event_id = []) then "pending" else "orphan"
            | None => "orphan"
            end
      end
  end.

(** *** The webhook *)

Record webhook_call := {
  h_authorization : string;
  h_workspace_id : string;
  h_cluster_id : string;
  h_payload : AlertmanagerWebhookRequest;
  h_uuid : string;
  h_clock : string;
  h_now : Z;
}.

(** The secret of the environment and what the database answers. *)
Record webhook_readers := {
  webhook_token : string;
  authenticate_cluster_agent : string -> option (string * string);
  cluster_registered : string -> string -> bool;
  view_of : string -> string -> incident_view;
}.

Definition bearer (authorization : string) : string :=
  let '(scheme, separator, raw) := partition_char " " authorization in
  if separator && str_eqb (casefold scheme) "bearer" then strip raw else "".

Definition require_alertmanager_token (rd : webhook_readers) (c : webhook_call) : bool :=
  let configured := strip (webhook_token rd) in
  let supplied := bearer (h_authorization c) in
  if is_empty supplied then false
  else if nonempty configured && str_eqb supplied configured then true
  else match authenticate_cluster_agent rd (sha256_hexdigest (utf8_encode supplied)) with
       | Some (ws, cluster) => str_eqb ws (h_workspace_id c) && str_eqb cluster (h_cluster_id c)
       | None => false
       end.

Definition alert_recording (c : webhook_call) : res recording :=
  let ws := h_workspace_id c in
  let cluster := h_cluster_id c in
  let key := alertmanager_evidence_key ws cluster (h_payload c) in
  let b := build_alertmanager_evidence_body ws cluster (h_payload c) key in
  e ← evidence_event b None (h_uuid c) (h_clock c);
  Ok {| r_key := key; r_workspace_id := ws; r_cluster_id := cluster; r_source_id := ALERTMANAGER_SOURCE_ID;
        r_window_start := default key (or_text (p_window_start b) None); r_agent_id := None; r_envelope := e;
        r_payload := to_body b; r_inventory := None |}.

(** [seen] and [disposition] are what the handler read before it writes. *)
Definition alertmanager_webhook (rd : webhook_readers) (seen : option EvidenceWindow) (disposition : string) (s : db)
    (c : webhook_call) : res (db * reply) :=
  let persist s incident := persist_alertmanager_alert_events s (h_workspace_id c) (h_cluster_id c) (h_payload c) incident (h_now c) in
  if negb (require_alertmanager_token rd c) then Ok (s, HttpError 401 WEBHOOK_TOKEN_INVALID)
  else if negb (cluster_registered rd (h_workspace_id c) (h_cluster_id c)) then Ok (s, HttpError 404 CLUSTER_NOT_REGISTERED)
  else
    invalid ← validate_alertmanager_sli_labels (alerts (h_payload c));
    match invalid with
    | Some detail => Ok (s, HttpError 422 detail)
    | None =>
        if negb (existsb says_firing (alerts (h_payload c))) then
          s ← persist s None; Ok (s, AcceptedResponse "" "")
        else
          r ← alert_recording c;
          match seen with
          | Some w =>
              if negb (bool_decide (disposition ∈ ALERTMANAGER_REOPEN_DISPOSITIONS)) then
                s ← persist s (Some (w_correlation_id w));
                Ok (s, AcceptedResponse (w_event_id w) (w_correlation_id w))
              else
                let '(s, o) := rotate_alertmanager_evidence_window s r (w_event_id w) (w_correlation_id w) (h_now c) in
                s ← persist s (Some (o_correlation_id o)); Ok (s, AcceptedResponse (o_event_id o) (o_correlation_id o))
          | None =>
              let '(s, o) := record_evidence_event_once s r (h_now c) in
              s ← persist s (Some (o_correlation_id o)); Ok (s, AcceptedResponse (o_event_id o) (o_correlation_id o))
          end
    end.

(** ** Everything that happens to the windows

    The states a database goes through, newest first.  A handler reads the
    window of its key in any earlier state, decides, and writes to the newest
    one; event identifiers are new.  The evidence worker files the derived
    window of a tenant and a correlation, with a payload that names the
    tenant.  Elsewhere jobs and deliveries change, but no window and no event.
    The parts of a key are joined with colons, so the names of tenants are
    taken to have none. *)
Section runs.
Context (rd : webhook_readers).

Definition empty : db :=
  {| windows := ∅; store_of := empty_store; jobs := ∅; alert_events := ∅; inventory := [] |}.

Definition tenant_ok (ws cluster : string) : bool := EvidenceJobs.plain ws && EvidenceJobs.plain cluster.

Inductive reachable : list db -> Prop :=
  | reach_empty : reachable [empty]
  | reach_agent s tr s0 p id key uuid clock now s' answer :
      reachable (s :: tr) -> s0 ∈ s :: tr -> tenant_ok (id_workspace_id id) (id_cluster_id id) = true ->
      agent_evidence_key id p = Ok key -> events (store_of s) !! uuid = None ->
      agent_evidence (windows s0 !! key) s p id uuid clock now = Ok (s', answer) -> reachable (s' :: s :: tr)
  | reach_alert s tr s0 c disposition s' answer :
      reachable (s :: tr) -> s0 ∈ s :: tr -> tenant_ok (h_workspace_id c) (h_cluster_id c) = true ->
      events (store_of s) !! h_uuid c = None ->
      alertmanager_webhook rd (windows s0 !! alertmanager_evidence_key (h_workspace_id c) (h_cluster_id c) (h_payload c))
        disposition s c = Ok (s', answer) -> reachable (s' :: s :: tr)
  | reach_enriched s tr ws cluster correlation start source agent body now :
      reachable (s :: tr) -> tenant_ok ws cluster = true ->
      get body "workspace_id" = VStr ws -> get body "cluster_id" = VStr cluster ->
      reachable (set_windows s (upsert_enriched_row (windows s) (rca_enriched_evidence_key ws cluster correlation)
                                  ws cluster correlation start source agent body now).1 :: s :: tr)
  | reach_elsewhere s tr s' :
      reachable (s :: tr) -> windows s' = windows s -> events (store_of s') = events (store_of s) ->
      reachable (s' :: s :: tr).

(** *** Keys and their tenants *)

Definition under (ws cluster key : string) : Prop := exists rest, key = ws +:+ ":" +:+ cluster +:+ ":" +:+ rest.

Lemma scope_app id rest : scope id +:+ rest = id_workspace_id id +:+ ":" +:+ id_cluster_id id +:+ rest.
Proof. unfold scope. by rewrite !str_app_assoc. Qed.

Lemma agent_key_under id p key : agent_evidence_key id p = Ok key -> under (id_workspace_id id) (id_cluster_id id) key.
Proof.
  unfold agent_evidence_key, scoped_evidence_key. destruct (or_text (p_evidence_key p) None) as [k|].
  - intros <-%Ok_inj. rewrite scope_app. by eexists.
  - intros (t & _ & <-%Ok_inj)%bind_Ok. rewrite scope_app. by eexists.
Qed.

Lemma alert_key_under ws cluster p : under ws cluster (alertmanager_evidence_key ws cluster p).
Proof. unfold alertmanager_evidence_key, under. eexists. cbn [String.append]. reflexivity. Qed.

Lemma history_key_under ws cluster key e c : under ws cluster key -> under ws cluster (history_key key e c).
Proof. intros [rest ->]. unfold history_key, under. exists (rest +:+ ":history:" +:+ str_take 24 (sha256_hexdigest (utf8_encode (e +:+ String "000" c)))). by rewrite !str_app_assoc. Qed.

Lemma under_unique ws cluster ws' cluster' key :
  tenant_ok ws cluster = true -> tenant_ok ws' cluster' = true -> under ws cluster key -> under ws' cluster' key ->
  ws = ws' /\ cluster = cluster'.
Proof.
  unfold tenant_ok. intros [Hw Hc]%andb_true_iff [Hw' Hc']%andb_true_iff [r Hr] [r' Hr']. rewrite Hr in Hr'.
  cbn [String.append] in Hr'. apply EvidenceJobs.join_colon_inj in Hr' as [Ews E]; [|done..].
  apply EvidenceJobs.join_colon_inj in E as [Ec _]; done.
Qed.

(** A window is filed under its own tenant, and its payload names it. *)
Definition filed (key : string) (w : EvidenceWindow) : Prop :=
  under (w_workspace_id w) (w_cluster_id w) key /\ tenant_ok (w_workspace_id w) (w_cluster_id w) = true /\
  get (w_payload w) "workspace_id" = VStr (w_workspace_id w) /\ get (w_payload w) "cluster_id" = VStr (w_cluster_id w).

Definition recording_ok (r : recording) : Prop :=
  (forall created now, filed (r_key r) (window_of r created now)) /\
  get (payload (r_envelope r)) "workspace_id" = VStr (r_workspace_id r).

Lemma payload_workspace b correlation d :
  compact_cluster_evidence_payload b correlation = Ok d -> get d "workspace_id" = VStr (p_workspace_id b).
Proof. unfold compact_cluster_evidence_payload. by intros (n & _ & (m & _ & <-%Ok_inj)%bind_Ok)%bind_Ok. Qed.

Lemma agent_recording_ok p id uuid clock r :
  tenant_ok (id_workspace_id id) (id_cluster_id id) = true -> agent_recording p id uuid clock = Ok r ->
  recording_ok r /\ agent_evidence_key id p = Ok (r_key r) /\ event_id (r_envelope r) = uuid /\
  r_workspace_id r = id_workspace_id id /\ r_cluster_id r = id_cluster_id id.
Proof.
  intros Ht. unfold agent_recording, build_cluster_evidence_body. intros (key & Hk & (b & Hb & (e & He & <-%Ok_inj)%bind_Ok)%bind_Ok)%bind_Ok.
  rewrite Hk in Hb. cbn [mbind res_bind] in Hb. apply Ok_inj in Hb. subst b.
  unfold evidence_event in He. apply bind_Ok in He as (d & Hd%payload_workspace & <-%Ok_inj).
  split_and!; try done. split; [|done]. intros created now. split_and!; try done. by apply (agent_key_under id p).
Qed.

Lemma alert_recording_ok c r :
  tenant_ok (h_workspace_id c) (h_cluster_id c) = true -> alert_recording c = Ok r ->
  recording_ok r /\ r_key r = alertmanager_evidence_key (h_workspace_id c) (h_cluster_id c) (h_payload c) /\
  event_id (r_envelope r) = h_uuid c.
Proof.
  intros Ht. unfold alert_recording, evidence_event.
  intros (e & (d & Hd%payload_workspace & <-%Ok_inj)%bind_Ok & <-%Ok_inj)%bind_Ok.
  split_and!; try done. split; [|done]. intros created now. split_and!; try done. apply alert_key_under.
Qed.

(** *** How a database grows *)

Definition alert_key (key : string) : Prop := exists ws cluster p, key = alertmanager_evidence_key ws cluster p.

(** The event of a workspace and a correlation is stored: its payload names
    the workspace. *)
Definition stored_for (s : db) (event_id ws correlation : string) : Prop :=
  exists e, events (store_of s) !! event_id = Some e /\ get (er_payload e) "workspace_id" = VStr ws /\
            er_correlation_id e = correlation.

(** A window stands for a stored event of its own workspace, or is the derived
    window of its tenant and correlation. *)
Definition caused (s : db) (key : string) (w : EvidenceWindow) : Prop :=
  stored_for s (w_event_id w) (w_workspace_id w) (w_correlation_id w) \/
  (key = rca_enriched_evidence_key (w_workspace_id w) (w_cluster_id w) (w_correlation_id w) /\
   w_event_id w = "derived:" +:+ w_correlation_id w).

Definition windows_ok (s : db) : Prop := forall key w, windows s !! key = Some w -> filed key w /\ caused s key w.

(** Two windows that are answered alike. *)
Definition same_answer (w w' : EvidenceWindow) : Prop :=
  w_event_id w' = w_event_id w /\ w_correlation_id w' = w_correlation_id w /\ w_workspace_id w' = w_workspace_id w.

(** A later state of the same database: events stay, and a key stays with its
    event, except that a new event may take over the key of an alert. *)
Record evolves (s s' : db) : Prop := {
  ev_events : events (store_of s) ⊆ events (store_of s');
  ev_windows : forall key w, windows s !! key = Some w ->
    exists w', windows s' !! key = Some w' /\ (same_answer w w' \/ (events (store_of s) !! w_event_id w' = None /\ alert_key key));
}.

#[local] Instance evolves_preorder : PreOrder evolves.
Proof.
  split.
  - intros s. split; [done|]. intros key w Hw. exists w. split; [done|by left].
  - intros s1 s2 s3 [E12 W12] [E23 W23]. split; [by etrans|]. intros key w (w2 & H2 & C2)%W12.
    apply W23 in H2 as (w3 & H3 & [(E1 & E2 & E3)|[Hn Ha]]); exists w3; (split; [done|]).
    + destruct C2 as [(F1 & F2 & F3)|[Hn Ha]]; [left; split_and!; congruence|]. right. by rewrite E1.
    + right. split; [|done]. by apply (lookup_weaken_None _ _ _ Hn).
Qed.

Lemma evolves_frame s s' : windows s' = windows s -> events (store_of s') = events (store_of s) -> evolves s s'.
Proof. intros Ew Ee. split; [by rewrite Ee|]. intros key w Hw. rewrite Ew. exists w. split; [done|by left]. Qed.

Lemma windows_ok_frame s s' :
  windows s' = windows s -> events (store_of s') = events (store_of s) -> windows_ok s -> windows_ok s'.
Proof. unfold windows_ok, caused, stored_for. intros -> ->. done. Qed.

Lemma caused_weaken s s' key w : events (store_of s) ⊆ events (store_of s') -> caused s key w -> caused s' key w.
Proof.
  intros Hs [(e & He & Hr)|Hd]; [left|by right]. exists e. split; [by apply (lookup_weaken _ _ _ _ He)|done].
Qed.

(** The key of an alert is not that of a derived window. *)
Lemma alert_key_not_enriched ws cluster p ws' cluster' correlation :
  tenant_ok ws cluster = true -> tenant_ok ws' cluster' = true ->
  alertmanager_evidence_key ws cluster p <> rca_enriched_evidence_key ws' cluster' correlation.
Proof.
  unfold tenant_ok, alertmanager_evidence_key, rca_enriched_evidence_key. cbn [join String.append].
  intros [Hw Hc]%andb_true_iff [Hw' Hc']%andb_true_iff E.
  apply EvidenceJobs.join_colon_inj in E as [_ E]; [|done..]. apply EvidenceJobs.join_colon_inj in E as [_ E]; done.
Qed.

(** Staging a new event. *)
Lemma staged_events s e :
  events (store_of s) !! event_id e = None ->
  events (store_of (stage_event_envelope s e)) = <[event_id e := event_row_of e DEFAULT_SCHEMA_VERSION]> (events (store_of s)).
Proof. intros Hn. unfold stage_event_envelope, stage_event. cbn [store_of events event_id]. rewrite Hn. by destruct (has_outbox _ _). Qed.

(** Filing a new window under a key, on top of windows [ws] that keep the
    old ones. *)
Lemma file_window s s' r ws created now :
  recording_ok r -> events (store_of s) !! event_id (r_envelope r) = None ->
  (windows s !! r_key r = None \/ alert_key (r_key r)) -> windows s ⊆ ws ->
  (forall key w, ws !! key = Some w -> windows s !! key = Some w \/ (filed key w /\ caused s key w)) ->
  windows s' = <[r_key r := window_of r created now]> ws ->
  events (store_of s') = <[event_id (r_envelope r) :=
    event_row_of (trusted_envelope (r_envelope r) (r_workspace_id r)) DEFAULT_SCHEMA_VERSION]> (events (store_of s)) ->
  evolves s s' /\ (windows_ok s -> windows_ok s').
Proof.
  intros Hr Hn Hkey Hsub Hnew Ew Ee.
  assert (events (store_of s) ⊆ events (store_of s')) as Hes by (rewrite Ee; by apply insert_subseteq).
  split.
  - split; [done|]. intros key w Hw. rewrite Ew. destruct (decide (r_key r = key)) as [<-|Hne].
    + rewrite lookup_insert, decide_True by done. eexists. split; [done|]. right. split; [done|]. destruct Hkey as [Hk|]; [congruence|done].
    + rewrite lookup_insert_ne by done. exists w. split; [by apply (lookup_weaken _ _ _ _ Hw)|by left].
  - destruct Hr as [Hr Hws]. intros Hok key w. rewrite Ew. destruct (decide (r_key r = key)) as [<-|Hne].
    + rewrite lookup_insert, decide_True by done. intros [= <-]. split; [apply Hr|]. left. eexists.
      cbn [w_event_id window_of]. rewrite Ee, lookup_insert, decide_True by done. done.
    + rewrite lookup_insert_ne by done. intros [[Hf Hc]%Hok|[Hf Hc]]%Hnew; split; try done; by apply (caused_weaken s).
Qed.

Lemma record_evolves s r now :
  recording_ok r -> events (store_of s) !! event_id (r_envelope r) = None ->
  let s' := (record_evidence_event_once s r now).1 in evolves s s' /\ (windows_ok s -> windows_ok s').
Proof.
  intros Hr Hn. unfold record_evidence_event_once. destruct (windows s !! r_key r) as [w|] eqn:Hw; [by split|].
  cbn [fst]. apply (file_window s _ r (windows s) now now); auto. cbn [store_of]. by rewrite staged_events.
Qed.

Lemma rotate_evolves s r e0 c0 now :
  recording_ok r ->
  (exists ws cluster p, tenant_ok ws cluster = true /\ r_key r = alertmanager_evidence_key ws cluster p) ->
  events (store_of s) !! event_id (r_envelope r) = None -> windows_ok s ->
  let s' := (rotate_alertmanager_evidence_window s r e0 c0 now).1 in evolves s s' /\ windows_ok s'.
Proof.
  intros Hr Ha Hn Hok.
  assert (alert_key (r_key r)) as Hak by (destruct Ha as (? & ? & ? & _ & ?); by do 3 eexists).
  unfold rotate_alertmanager_evidence_window. destruct (windows s !! r_key r) as [w|] eqn:Hw.
  - destruct (negb _ || negb _); [by split|]. cbn [fst]. set (h := history_key _ _ _).
    edestruct (file_window s) as [He Hk]; [exact Hr|exact Hn|by right| | | | |split; [exact He|by apply Hk]].
    4: { cbn [store_of set_windows]. by rewrite staged_events. }
    3: { cbn [windows set_windows stage_event_envelope]. done. }
    + destruct (windows s !! h) eqn:Hh; [done|]. by apply insert_subseteq.
    + intros key w'. destruct (windows s !! h) eqn:Hh; [by left|]. destruct (decide (h = key)) as [<-|Hne].
      * rewrite lookup_insert, decide_True by done. intros [= <-]. right. apply Hok in Hw as [[Hu Hf] Hc]. split; [split; [by apply history_key_under|done]|].
        destruct Hc as [Hc|[E _]]; [by left|]. destruct Ha as (ws & cluster & p & Et & Ek). rewrite Ek in E.
        destruct Hf as [Ht _]. by apply alert_key_not_enriched in E.
      * rewrite lookup_insert_ne by done. by left.
  - cbn [fst]. edestruct (file_window s) as [He Hk]; [exact Hr|exact Hn|by left|reflexivity| | | |split; [exact He|by apply Hk]].
    3: { cbn [store_of set_windows]. by rewrite staged_events. }
    2: { cbn [windows set_windows stage_event_envelope]. done. }
    by left.
Qed.

Lemma persist_frame ws cluster incident now l : forall s s',
  foldr_res (persist_alert ws cluster incident now) s l = Ok s' -> windows s' = windows s /\ store_of s' = store_of s.
Proof.
  induction l as [|a l IH]; cbn; intros s s'; [by intros <-%Ok_inj|].
  intros (s1 & E1 & E2)%bind_Ok. unfold persist_alert in E1. apply bind_Ok in E1 as (e & _ & <-%Ok_inj). by apply IH in E2.
Qed.

(** *** What a handler does *)

Lemma agent_evolves seen s p id uuid clock now s' answer :
  tenant_ok (id_workspace_id id) (id_cluster_id id) = true -> events (store_of s) !! uuid = None ->
  agent_evidence seen s p id uuid clock now = Ok (s', answer) -> evolves s s' /\ (windows_ok s -> windows_ok s').
Proof.
  intros Ht Hn. unfold agent_evidence. intros (r & Hr & Hs)%bind_Ok.
  apply agent_recording_ok in Hr as (Hr & _ & Eid & _ & _); [|done]. rewrite <- Eid in Hn.
  destruct seen as [w|]; [by apply Ok_inj in Hs as [= <- <-]|].
  pose proof (record_evolves s r now Hr Hn) as He. destruct (record_evidence_event_once s r now) as [s1 o].
  apply Ok_inj in Hs as [= <- <-]. exact He.
Qed.

Lemma then_persist ws cluster p incident now (s1 s2 : db) (answer answer' : reply) :
  (s' ← persist_alertmanager_alert_events s1 ws cluster p incident now; Ok (s', answer)) = Ok (s2, answer') ->
  answer' = answer /\ windows s2 = windows s1 /\ store_of s2 = store_of s1.
Proof. intros (s' & Hp & [= <- <-]%Ok_inj)%bind_Ok. by apply persist_frame in Hp. Qed.

Lemma persist_evolves s s1 s2 :
  evolves s s1 /\ windows_ok s1 -> windows s2 = windows s1 /\ store_of s2 = store_of s1 -> evolves s s2 /\ windows_ok s2.
Proof.
  intros [He Hk] [Ew Es]. split; [etrans; [exact He|]; apply evolves_frame; congruence|].
  apply (windows_ok_frame s1); [done|by rewrite Es|done].
Qed.

Lemma webhook_evolves seen disposition s c s' answer :
  tenant_ok (h_workspace_id c) (h_cluster_id c) = true -> events (store_of s) !! h_uuid c = None ->
  alertmanager_webhook rd seen disposition s c = Ok (s', answer) -> windows_ok s -> evolves s s' /\ windows_ok s'.
Proof.
  intros Ht Hn Hrun Hok. unfold alertmanager_webhook in Hrun.
  destruct (negb (require_alertmanager_token rd c)); [by apply Ok_inj in Hrun as [= <- <-]|].
  destruct (negb (cluster_registered _ _ _)); [by apply Ok_inj in Hrun as [= <- <-]|].
  apply bind_Ok in Hrun as ([detail|] & _ & Hrun); [by apply Ok_inj in Hrun as [= <- <-]|].
  destruct (negb (existsb _ _)); [by apply then_persist in Hrun as [_ Hf]; apply (persist_evolves s s)|].
  apply bind_Ok in Hrun as (r & Hr & Hrun). apply alert_recording_ok in Hr as (Hr & Ek & Eid); [|done]. rewrite <- Eid in Hn.
  destruct seen as [w|].
  - destruct (negb (bool_decide _)); [by apply then_persist in Hrun as [_ Hf]; apply (persist_evolves s s)|].
    assert (exists ws cluster p, tenant_ok ws cluster = true /\ r_key r = alertmanager_evidence_key ws cluster p) as Ha
      by eauto.
    pose proof (rotate_evolves s r (w_event_id w) (w_correlation_id w) (h_now c) Hr Ha Hn Hok) as He.
    destruct (rotate_alertmanager_evidence_window _ _ _ _ _) as [s1 o]. apply then_persist in Hrun as [_ Hf].
    by apply (persist_evolves s s1).
  - pose proof (record_evolves s r (h_now c) Hr Hn) as [He Hk].
    destruct (record_evidence_event_once _ _ _) as [s1 o]. apply then_persist in Hrun as [_ Hf].
    apply (persist_evolves s s1); auto.
Qed.

Lemma enriched_evolves s ws cluster correlation start source agent body now :
  tenant_ok ws cluster = true -> get body "workspace_id" = VStr ws -> get body "cluster_id" = VStr cluster ->
  let s' := set_windows s (upsert_enriched_row (windows s) (rca_enriched_evidence_key ws cluster correlation)
                             ws cluster correlation start source agent body now).1 in
  evolves s s' /\ (windows_ok s -> windows_ok s').
Proof.
  intros Ht Hw Hc. set (k := rca_enriched_evidence_key ws cluster correlation). unfold upsert_enriched_row.
  destruct (windows s !! k) as [w|] eqn:Hk.
  - destruct (in_tenant ws cluster w && _) eqn:Hin; cbn [fst]; [|by destruct s].
    apply andb_true_iff in Hin as [[Ew%str_eqb_eq Ec%str_eqb_eq]%andb_true_iff _]. split.
    + split; [done|]. intros key w0 Hw0. cbn [windows set_windows]. destruct (decide (k = key)) as [<-|Hne].
      * rewrite lookup_insert_eq. eexists. split; [done|]. left. by simplify_eq.
      * rewrite lookup_insert_ne by done. exists w0. split; [done|by left].
    + intros Hok key w0. cbn [windows set_windows]. destruct (decide (k = key)) as [<-|Hne].
      * rewrite lookup_insert_eq. intros [= <-]. destruct (Hok k w Hk) as [(Hu & Ht' & _) Hcau].
        split; [|done]. unfold filed. cbn [w_workspace_id w_cluster_id w_payload]. rewrite Hw, Hc, Ew, Ec in *. done.
      * rewrite lookup_insert_ne by done. apply Hok.
  - cbn [fst]. split.
    + split; [done|]. intros key w0 Hw0. cbn [windows set_windows]. rewrite lookup_insert_ne by congruence.
      exists w0. split; [done|by left].
    + intros Hok key w0. cbn [windows set_windows]. destruct (decide (k = key)) as [<-|Hne].
      * rewrite lookup_insert_eq. intros [= <-]. split; [|by right]. split_and!; try done. unfold under, k. by eexists.
      * rewrite lookup_insert_ne by done. apply Hok.
Qed.

Lemma reachable_states states : reachable states ->
  exists s tr, states = s :: tr /\ windows_ok s /\ forall s0, s0 ∈ states -> evolves s0 s.
Proof.
  assert (forall s s' tr, evolves s s' -> (forall s0, s0 ∈ s :: tr -> evolves s0 s) ->
          forall s0, s0 ∈ s' :: s :: tr -> evolves s0 s') as Hcons.
  { intros s s' tr He Hall s0 [->|Hin]%elem_of_cons; [done|]. etrans; [by apply Hall|done]. }
  induction 1 as [|s tr s0 p id key uuid clock now s' answer _ (? & ? & [= <- <-] & Hok & Hall) _ Ht Hk Hn Hrun
                  |s tr s0 c disposition s' answer _ (? & ? & [= <- <-] & Hok & Hall) _ Ht Hn Hrun
                  |s tr ws cluster correlation start source agent body now _ (? & ? & [= <- <-] & Hok & Hall) Ht Hw Hc
                  |s tr s' _ (? & ? & [= <- <-] & Hok & Hall) Ew Ee]; do 2 eexists; (split; [done|]).
  - split; [intros key w; cbn; by rewrite lookup_empty|]. by intros s0 ->%list_elem_of_singleton.
  - apply agent_evolves in Hrun as [He Hk']; [|done..]. split; [by apply Hk'|]. by apply Hcons.
  - apply webhook_evolves in Hrun as [He Hk']; [|done..]. split; [done|]. by apply Hcons.
  - destruct (enriched_evolves s ws cluster correlation start source agent body now Ht Hw Hc) as [He Hk].
    split; [by apply Hk|]. by apply Hcons.
  - split; [by apply (windows_ok_frame s)|]. apply Hcons; [|done]. by apply evolves_frame.
Qed.

(** The key of a recording ends up with a window, which is the answer. *)
Lemma record_files s r now :
  let '(s', o) := record_evidence_event_once s r now in
  exists w, windows s' !! r_key r = Some w /\ o_event_id o = w_event_id w /\ o_correlation_id o = w_correlation_id w.
Proof.
  unfold record_evidence_event_once. destruct (windows s !! r_key r) as [w|] eqn:Hw; [by exists w|].
  exists (window_of r now now). cbn [windows stage_event_envelope set_windows]. by rewrite lookup_insert, decide_True by done.
Qed.

Lemma reachable_suffix states : reachable states -> forall later s0 tr, states = later ++ s0 :: tr -> reachable (s0 :: tr).
Proof.
  assert (forall s s' tr, reachable (s' :: s :: tr) ->
          (forall later s0 tr0, s :: tr = later ++ s0 :: tr0 -> reachable (s0 :: tr0)) ->
          forall later s0 tr0, s' :: s :: tr = later ++ s0 :: tr0 -> reachable (s0 :: tr0)) as Hcons.
  { intros s s' tr Hr IH [|s1 later] s0 tr0 [= -> E]; [by rewrite <- E|by apply (IH later)]. }
  induction 1; [intros [|s1 later] s0 tr [= E1 E2]; [rewrite <- E1, <- E2; constructor|by destruct later]|..];
    (eapply Hcons; [|eassumption]); by econstructor.
Qed.

Lemma reachable_member states s0 : reachable states -> s0 ∈ states -> exists tr, reachable (s0 :: tr).
Proof. intros Hr (l & tr & ->)%list_elem_of_split. exists tr. by apply (reachable_suffix _ Hr l). Qed.

(** ** The claims *)

(** C12: Whatever agents, Alertmanager and the evidence worker write, in any
    order and with reads as old as they like, and as long as the names of
    workspaces and clusters contain no colon: every evidence window is filed
    under the workspace and cluster of the token that sent it, so that its key
    starts with them and its payload names them whatever the request said.  An
    agent is only ever answered with an event of its own workspace: the stored
    event has that workspace in its payload and the answered correlation, or
    else the agent has used the key of the derived window of its own cluster
    and correlation, which has no event of its own. *)
Theorem evidence_stays_with_its_tenant s tr s0 p id key uuid clock now s' event_id correlation :
  reachable (s :: tr) -> s0 ∈ s :: tr -> tenant_ok (id_workspace_id id) (id_cluster_id id) = true ->
  agent_evidence_key id p = Ok key -> events (store_of s) !! uuid = None ->
  agent_evidence (windows s0 !! key) s p id uuid clock now = Ok (s', AcceptedResponse event_id correlation) ->
  (forall k w, windows s' !! k = Some w ->
     (exists rest, k = w_workspace_id w +:+ ":" +:+ w_cluster_id w +:+ ":" +:+ rest) /\
     get (w_payload w) "workspace_id" = VStr (w_workspace_id w) /\ get (w_payload w) "cluster_id" = VStr (w_cluster_id w)) /\
  (exists w, windows s' !! key = Some w /\ w_workspace_id w = id_workspace_id id /\ w_cluster_id w = id_cluster_id id) /\
  (stored_for s' event_id (id_workspace_id id) correlation \/
   (key = rca_enriched_evidence_key (id_workspace_id id) (id_cluster_id id) correlation /\
    event_id = "derived:" +:+ correlation)).
Proof.
  intros Hreach Hin Ht Hk Hn Hrun.
  assert (reachable (s' :: s :: tr)) as Hreach' by by econstructor.
  pose proof Hreach' as (? & ? & [= <- <-] & Hok & Hev)%reachable_states.
  assert (forall s1 w, windows_ok s1 -> windows s1 !! key = Some w ->
    w_workspace_id w = id_workspace_id id /\ w_cluster_id w = id_cluster_id id) as Hten.
  { intros s1 w Hok1 [(Hu & Ht' & _) _]%Hok1. apply agent_key_under in Hk.
    by destruct (under_unique _ _ _ _ _ Ht' Ht Hu Hk). }
  split; [by intros k w [(? & _ & ? & ?) _]%Hok|].
  assert (exists w, windows s' !! key = Some w) as [w' Hw'].
  { apply bind_Ok in Hrun as (r & Hr & Hrun). destruct (windows s0 !! key) as [w|] eqn:Hw.
    - apply (ev_windows _ _ (Hev s0 ltac:(by apply list_elem_of_further))) in Hw as (w' & Hw' & _). eauto.
    - apply agent_recording_ok in Hr as (_ & Hk' & _); [|done]. rewrite Hk in Hk'. apply Ok_inj in Hk' as ->.
      pose proof (record_files s r now) as Hf. destruct (record_evidence_event_once s r now) as [s1 o].
      apply Ok_inj in Hrun as [= <- _ _]. destruct Hf as (w & Hf & _). eauto. }
  split; [exists w'; split; [done|by apply (Hten s')]|].
  apply bind_Ok in Hrun as (r & Hr & Hrun). destruct (windows s0 !! key) as [w|] eqn:Hw.
  - apply Ok_inj in Hrun as [= <- <- <-].
    assert (exists tr0, reachable (s0 :: tr0)) as [tr0 Hr0] by by apply (reachable_member (s :: tr)).
    apply reachable_states in Hr0 as (? & ? & [= <- <-] & Hok0 & _). destruct (Hten s0 w Hok0 Hw) as [<- <-].
    destruct (Hok0 _ _ Hw) as [_ Hc]. apply (caused_weaken s0 s); [|done].
    apply ev_events, Hev, list_elem_of_further, Hin.
  - apply agent_recording_ok in Hr as (_ & Hk' & _); [|done]. rewrite Hk in Hk'. apply Ok_inj in Hk'.
    destruct (record_evidence_event_once s r now) as [s1 o] eqn:Hrec. apply Ok_inj in Hrun as [= <- <- <-].
    pose proof (record_files s r now) as Hf. rewrite Hrec in Hf. destruct Hf as (w & Hf & -> & ->). rewrite <- Hk' in Hf.
    destruct (Hten s1 w Hok Hf) as [<- <-]. by apply Hok in Hf as [_ Hc].
Qed.

(** C19: Evidence counts once.  Once an agent's evidence has been answered, the
    same evidence sent again under its key, however much later and however old
    the window that its handler read, gets the same event and correlation and
    changes nothing.  In between agents, Alertmanager and the evidence worker
    may write any windows; other parts of the program write none.  The keys of
    alerts, whose incidents may be reopened, are left out, and the names of
    workspaces and clusters are taken to contain no colon. *)
Theorem repeated_evidence_counts_once s tr s0 p id key uuid clock now s1 answer later s2 rest s0' p' id' uuid' clock' now' r' :
  reachable (s :: tr) -> s0 ∈ s :: tr -> tenant_ok (id_workspace_id id) (id_cluster_id id) = true ->
  agent_evidence_key id p = Ok key -> ~ alert_key key -> events (store_of s) !! uuid = None ->
  agent_evidence (windows s0 !! key) s p id uuid clock now = Ok (s1, answer) ->
  later ++ s1 :: s :: tr = s2 :: rest -> reachable (s2 :: rest) -> s0' ∈ s2 :: rest ->
  agent_evidence_key id' p' = Ok key -> tenant_ok (id_workspace_id id') (id_cluster_id id') = true ->
  agent_recording p' id' uuid' clock' = Ok r' ->
  agent_evidence (windows s0' !! key) s2 p' id' uuid' clock' now' = Ok (s2, answer).
Proof.
  intros Hreach Hin Ht Hk Hna Hn Hrun Elater Hreach2 Hin2 Hk' Ht' Hr'.
  destruct (reachable_states _ Hreach2) as (? & ? & [= <- <-] & _ & Hev2).
  assert (forall s0 w, s0 ∈ s2 :: rest -> windows s0 !! key = Some w ->
    exists w', windows s2 !! key = Some w' /\ AcceptedResponse (w_event_id w) (w_correlation_id w) =
      AcceptedResponse (w_event_id w') (w_correlation_id w')) as Hstay.
  { intros s3 w Hin3 Hw. destruct (ev_windows _ _ (Hev2 _ Hin3) _ _ Hw) as (w' & Hw' & [(E1 & E2 & _)|[_ Ha]]); [|done].
    exists w'. by rewrite E1, E2. }
  assert (exists w, windows s2 !! key = Some w /\ answer = AcceptedResponse (w_event_id w) (w_correlation_id w)) as (w & Hw & ->).
  { apply bind_Ok in Hrun as (r & Hr & Hrun). destruct (windows s0 !! key) as [w|] eqn:Hw0.
    - apply Ok_inj in Hrun as [= <- <-]. apply (Hstay s0); [|done]. rewrite <- Elater. set_solver.
    - apply agent_recording_ok in Hr as (_ & E & _); [|done]. rewrite Hk in E. apply Ok_inj in E. subst key.
      pose proof (record_files s r now) as Hf. destruct (record_evidence_event_once s r now) as [s1' o].
      apply Ok_inj in Hrun as [= <- <-]. destruct Hf as (w & Hf & -> & ->).
      apply (Hstay s1'); [|done]. rewrite <- Elater. set_solver. }
  unfold agent_evidence. rewrite Hr'. cbn [mbind res_bind]. destruct (windows s0' !! key) as [w'|] eqn:Hw'.
  - apply (Hstay s0') in Hw' as (w2 & Hw2 & ->); [|done]. rewrite Hw in Hw2. by injection Hw2 as ->.
  - apply agent_recording_ok in Hr' as (_ & E & _); [|done]. rewrite Hk' in E. apply Ok_inj in E. subst key.
    unfold record_evidence_event_once. by rewrite Hw.
Qed.

(** An incident that is over is reopened once.  When a webhook acts on a
    window that has since been given to another event, it opens nothing: no
    window and no event changes, and a webhook that meant to reopen is
    answered with the incident that stands now. *)
Theorem incident_is_reopened_once later s1 tr s rest s0 c w w1 disposition s' event_id correlation :
  let key := alertmanager_evidence_key (h_workspace_id c) (h_cluster_id c) (h_payload c) in
  later ++ s1 :: tr = s :: rest -> reachable (s :: rest) -> s0 ∈ s1 :: tr ->
  windows s0 !! key = Some w -> windows s1 !! key = Some w1 -> w_event_id w1 <> w_event_id w ->
  tenant_ok (h_workspace_id c) (h_cluster_id c) = true ->
  disposition ∈ ALERTMANAGER_REOPEN_DISPOSITIONS -> nonempty event_id = true ->
  alertmanager_webhook rd (Some w) disposition s c = Ok (s', AcceptedResponse event_id correlation) ->
  windows s' = windows s /\ store_of s' = store_of s /\
  exists current, windows s !! key = Some current /\ w_event_id current <> w_event_id w /\
    event_id = w_event_id current /\ correlation = w_correlation_id current.
Proof.
  intros key Elist Hreach Hin Hw Hw1 Hne Ht Hd Hevent Hrun.
  pose proof (reachable_suffix _ Hreach later s1 tr (eq_sym Elist)) as Hreach1.
  destruct (reachable_states _ Hreach1) as (? & ? & [= <- <-] & _ & Hev1).
  destruct (reachable_states _ Hreach) as (? & ? & [= <- <-] & _ & Hev).
  assert (exists current, windows s !! key = Some current /\ w_event_id current <> w_event_id w) as (current & Hcur & Hncur).
  { assert (s1 ∈ s :: rest) as Hin1 by (rewrite <- Elist; set_solver).
    destruct (ev_windows _ _ (Hev _ Hin1) _ _ Hw1) as (w2 & Hw2 & [(E1 & _)|[Hnone _]]); [by exists w2; rewrite E1|].
    exists w2. split; [done|]. intros E. rewrite E in Hnone.
    destruct (reachable_member (s1 :: tr) s0) as [tr0 Hr0]; [done..|].
    apply reachable_states in Hr0 as (? & ? & [= <- <-] & Hok0 & _). apply Hok0 in Hw as [(_ & Ht' & _) [(e & He & _)|[Ek _]]];
      [|by apply alert_key_not_enriched in Ek].
    apply (lookup_weaken _ (events (store_of s1))) in He; [congruence|]. apply ev_events, Hev1, Hin. }
  unfold alertmanager_webhook in Hrun.
  destruct (negb (require_alertmanager_token rd c)); [done|]. destruct (negb (cluster_registered _ _ _)); [done|].
  apply bind_Ok in Hrun as ([detail|] & _ & Hrun); [done|].
  destruct (negb (existsb _ _)); [apply then_persist in Hrun as [[= -> ->] _]; done|].
  apply bind_Ok in Hrun as (r & Hr & Hrun). apply alert_recording_ok in Hr as (_ & Ek & _); [|done].
  rewrite bool_decide_true in Hrun by done. cbn [negb] in Hrun.
  unfold rotate_alertmanager_evidence_window in Hrun. rewrite Ek in Hrun. fold key in Hrun. rewrite Hcur in Hrun.
  assert (str_eqb (w_event_id current) (w_event_id w) = false) as Hb by (apply not_true_is_false; by rewrite str_eqb_eq). rewrite Hb in Hrun. cbn [negb orb] in Hrun.
  apply then_persist in Hrun as [[= -> ->] [Ew Es]]. split_and!; try done. by exists current.
Qed.

(** Every key of an alert has an "m" in it. *)
Lemma alert_key_has_m key : alert_key key -> all_chars (fun x => negb (Ascii.eqb x "m")) key = false.
Proof.
  intros (ws & cluster & p & ->). unfold alertmanager_evidence_key. rewrite !all_chars_app. cbn.
  by rewrite !andb_false_r.
Qed.

(** The body of a webhook lists the alerts whose status is the word "firing",
    and so does its key; but any spelling of the word lets the webhook open an
    incident.  An alert that says it in capitals opens one that shows no
    alert, under a key that is the same for every such alert of its group. *)
Lemma capital_alerts_are_not_evidence ws cluster p key :
  Forall (fun a => a_status a = "FIRING") (alerts p) ->
  Forall (fun a => says_firing a = true) (alerts p) /\
  get (p_metrics (build_alertmanager_evidence_body ws cluster p key)) "alertmanager" =
    VDict [("group_key", VStr (groupKey p)); ("receiver", VStr (receiver p)); ("alerts", VList [])] /\
  alertmanager_evidence_key ws cluster p =
    ws +:+ ":" +:+ cluster +:+ ":alertmanager:" +:+ str_take 32 (sha256_hexdigest (utf8_encode (groupKey p))).
Proof.
  intros Hall.
  assert (keep is_firing (alerts p) = []) as Hnone.
  { induction Hall as [|a l Ha _ IH]; [done|]. cbn. unfold is_firing at 1. by rewrite Ha. }
  split_and!.
  - apply (Forall_impl _ _ _ Hall). intros a Ha. unfold says_firing. by rewrite Ha.
  - unfold build_alertmanager_evidence_body. cbn [p_metrics]. rewrite Hnone. reflexivity.
  - unfold alertmanager_evidence_key. rewrite Hnone. reflexivity.
Qed.
End runs.
End intake.

(** ** A cluster that reports twice, and an alert that comes back *)
Module Sample.
#[local] Existing Instance Demo.plain_repr.
#[local] Existing Instance coded_iso.
#[local] Existing Instance Demo.plain_hash.

Definition alert : AlertmanagerAlert :=
  {| a_status := "firing"; a_labels := [("alertname", VStr "PodDown"); ("pod", VStr "orders-1")]; a_annotations := [];
     a_startsAt := ""; a_endsAt := ""; a_fingerprint := "f1"; a_extra := [] |}.
Definition notice (uuid : string) : webhook_call :=
  {| h_authorization := "Bearer secret"; h_workspace_id := "w1"; h_cluster_id := "c1";
     h_payload := {| groupKey := "g1"; receiver := "kyro"; alerts := [alert] |}; h_uuid := uuid; h_clock := "now"; h_now := 0 |}.
Definition demo_readers : webhook_readers :=
  {| webhook_token := "secret"; authenticate_cluster_agent := fun _ => None; cluster_registered := fun _ _ => true;
     view_of := fun _ _ => {| latest_timeline_status := Some "incident_resolved"; latest_plan_status := None;
                              report_exists := false; claim_exists := false |} |}.

Definition shop : ClusterAgentIdentity := {| id_workspace_id := "w1"; id_cluster_id := "c1" |}.
Definition none (d : dict) : option dict := None.

(** The request claims another tenant. *)
Definition request : AgentEvidenceRequest :=
  {| p_cluster_id := "c2"; p_workspace_id := "w2"; p_correlation_id := None; p_agent_id := Some "a1";
     p_source_id := Some "pods"; p_window_start := Some "t0"; p_evidence_key := Some "pods:t0"; p_workflow_run_id := None;
     p_release_context := []; p_collection_status := []; p_kubernetes := [("symptom", VStr "CrashLoopBackOff")];
     p_metrics := []; p_logs := []; p_traces := []; p_metadata := [] |}.

Definition key : string := "w1:c1:pods:t0".
Definition after (r : res (db * reply)) : db := match r with Ok (s, _) => s | Err _ => empty end.

Definition first : res (db * reply) := agent_evidence none None empty request shop "e1" "now" 0.
Definition s1 : db := after first.

Lemma first_reached rd : reachable none rd [s1; empty].
Proof.
  eapply (reach_agent none rd empty [] empty request shop key "e1" "now" 0 s1).
  - constructor.
  - apply list_elem_of_here.
  - reflexivity.
  - reflexivity.
  - reflexivity.
  - vm_compute. reflexivity.
Qed.

Lemma evidence_stays_with_its_tenant_witness :
  (exists w, windows s1 !! key = Some w /\ w_workspace_id w = "w1" /\ w_cluster_id w = "c1") /\
  stored_for s1 "e1" "w1" "e1".
Proof.
  edestruct (evidence_stays_with_its_tenant none demo_readers empty [] empty request shop key "e1" "now" 0 s1 "e1" "e1")
    as (_ & Hw & [Hs|[Hk _]]).
  - constructor.
  - apply list_elem_of_here.
  - reflexivity.
  - reflexivity.
  - reflexivity.
  - vm_compute. reflexivity.
  - split; [exact Hw|exact Hs].
  - vm_compute in Hk. discriminate Hk.
Defined.

(** The second time, the handler read the window before there was one. *)
Lemma repeated_evidence_counts_once_witness :
  agent_evidence none None s1 request shop "e2" "later" 5 = Ok (s1, AcceptedResponse "e1" "e1").
Proof.
  destruct (agent_recording none request shop "e2" "later") as [r|] eqn:Hr; [|vm_compute in Hr; discriminate Hr].
  assert (windows empty !! key = None) as E by reflexivity. rewrite <- E.
  refine (repeated_evidence_counts_once none demo_readers empty [] empty request shop key "e1" "now" 0 s1
            (AcceptedResponse "e1" "e1") [] s1 [empty] empty request shop "e2" "later" 5 r _ _ _ _ _ _ _ _ _ _ _ _ _).
  - constructor.
  - apply list_elem_of_here.
  - reflexivity.
  - reflexivity.
  - intros H%alert_key_has_m. vm_compute in H. discriminate H.
  - reflexivity.
  - vm_compute. reflexivity.
  - reflexivity.
  - apply first_reached.
  - apply list_elem_of_further, list_elem_of_here.
  - reflexivity.
  - reflexivity.
  - exact Hr.
Defined.

Definition alert_text : string := alertmanager_evidence_key "w1" "c1" (h_payload (notice "e1")).
Definition opened : db := after (alertmanager_webhook demo_readers None "" empty (notice "e1")).
Definition reopened : db := after (alertmanager_webhook demo_readers (windows opened !! alert_text) "terminal" opened (notice "e2")).

Lemma reopened_reached : reachable none demo_readers [reopened; opened; empty].
Proof.
  eapply (reach_alert none demo_readers opened [empty] opened (notice "e2") "terminal").
  - eapply (reach_alert none demo_readers empty [] empty (notice "e1") "").
    + constructor.
    + apply list_elem_of_here.
    + reflexivity.
    + reflexivity.
    + vm_compute. reflexivity.
  - apply list_elem_of_here.
  - reflexivity.
  - vm_compute. reflexivity.
  - vm_compute. reflexivity.
Qed.

Definition third : res (db * reply) := alertmanager_webhook demo_readers (windows opened !! alert_text) "terminal" reopened (notice "e3").

(** Two gateways saw the resolved incident; the first has reopened it. *)
Lemma incident_is_reopened_once_witness :
  windows (after third) = windows reopened /\
  exists current, windows reopened !! alert_text = Some current /\ "e2" = w_event_id current.
Proof.
  destruct (windows opened !! alert_text) as [w|] eqn:Hw; [|vm_compute in Hw; discriminate Hw].
  destruct (windows reopened !! alert_text) as [w1|] eqn:Hw1; [|vm_compute in Hw1; discriminate Hw1].
  edestruct (incident_is_reopened_once none demo_readers [] reopened [opened; empty] reopened [opened; empty] opened
    (notice "e3") w w1 "terminal" (after third) "e2" "e2") as (Ew & _ & current & Hc & _ & Ee & _).
  - reflexivity.
  - apply reopened_reached.
  - apply list_elem_of_further, list_elem_of_here.
  - exact Hw.
  - exact Hw1.
  - vm_compute in Hw, Hw1. injection Hw as <-. injection Hw1 as <-. discriminate.
  - reflexivity.
  - apply list_elem_of_further, list_elem_of_here.
  - reflexivity.
  - rewrite <- Hw. vm_compute. reflexivity.
  - split; [exact Ew|]. exists w1. split; [reflexivity|]. etrans; [exact Ee|]. f_equal.
    change (windows reopened !! alert_text = Some current) in Hc. rewrite Hw1 in Hc. by injection Hc.
Defined.
End Sample.
End EvidenceIntake.
