(* ===== verification/Identity.v ===== *)
(** * Identity and access

    [src/src/packages/contracts/identity.py] (roles and permissions) and
    [src/src/domains/identity/repository.py] (users, organizations, groups,
    resource roles, cluster registrations), with the admin routes of
    [admin_router.py].  Each repository method is one transaction: it returns
    the new database, or raises and leaves the old one. *)
From S2P Require Import Prelude PyStr PyVal Libs Demo.

Module Identity.

(** ** Roles and permissions *)

Inductive ResourceRole := OBSERVER | RELEASE_OPERATOR | INCIDENT_OPERATOR | CLUSTER_STEWARD.

#[export] Instance ResourceRole_eq_dec : EqDecision ResourceRole.
Proof. solve_decision. Defined.

Definition role_value (r : ResourceRole) : string :=
  match r with
  | OBSERVER => "observer" | RELEASE_OPERATOR => "release_operator"
  | INCIDENT_OPERATOR => "incident_operator" | CLUSTER_STEWARD => "cluster_steward"
  end.

Definition ROLES : list ResourceRole := [OBSERVER; RELEASE_OPERATOR; INCIDENT_OPERATOR; CLUSTER_STEWARD].

(** [ResourceRole(text)] *)
Definition resource_role (text : string) : res ResourceRole :=
  raise_none (head (keep (fun r => str_eqb (role_value r) text) ROLES)) ValueError.

Definition SERVICE_ADMIN : string := "service_admin".
Definition USER : string := "user".
Definition OWNER : string := "owner".
Definition ORG_MEMBER : string := "member".
Definition MANAGER : string := "manager".
Definition GROUP_MEMBER : string := "member".
Definition ACTIVE : string := "active".
Definition DISABLED : string := "disabled".
Definition PENDING_EMAIL_VERIFICATION : string := "pending_email_verification".
Definition PENDING_APPROVAL : string := "pending_approval".

Definition REGISTERED : string := "registered".
Definition PENDING_INSTALL : string := "pending_install".
Definition INSTALL_APPLIED : string := "install_applied".
Definition INSTALL_FAILED : string := "install_failed".
Definition INSTALL_EXPIRED : string := "install_expired".
Definition UNINSTALL_REQUESTED : string := "uninstall_requested".
Definition DISCONNECTED : string := "disconnected".

Definition Permissions : list string :=
  ["service.manage"; "service.audit.read"; "organization.create"; "organization.delete"; "organization.status.manage";
   "organization.owner.assign"; "organization.member.manage"; "organization.policy.manage"; "group.create";
   "group.member.manage"; "resource.assign"; "resource.role.grant"; "profile.read"; "cluster.read"; "inventory.read";
   "dashboard.read"; "dashboard.manage"; "evidence.read"; "rca.read"; "manifest.read"; "application.read";
   "application.manage"; "deployment.read"; "deploy.run"; "workload.scale"; "image.update"; "config.update";
   "restart.run"; "rollback.run"; "incident.respond"; "catalog.read"; "catalog.install"; "stack.read"; "stack.plan";
   "stack.apply"; "runner_job.read"; "runner_job.cancel"; "cluster.policy.manage"; "cluster.role.manage";
   "dangerous_action.approve"; "pod.exec"].

(** [Permission(text).value] *)
Definition permission_value (text : string) : res string :=
  if bool_decide (text ∈ Permissions) then Ok text else Err ValueError.

Definition DEFAULT_WORKSPACE_ID : string := "default".
Definition DEFAULT_WORKSPACE_NAME : string := "Default Workspace".
Definition DEFAULT_ORGANIZATION_ID : string := "default".
Definition DEFAULT_ORGANIZATION_NAME : string := "Default Organization".
Definition DEFAULT_GROUP_ID : string := "default-operations".
Definition DEFAULT_GROUP_NAME : string := "Default Operations".
Definition GLOBAL_ROLE_POLICY_ORGANIZATION_ID : string := "__global__".

Definition OBSERVABILITY_PERMISSIONS : list string :=
  ["cluster.read"; "inventory.read"; "dashboard.read"; "evidence.read"; "rca.read"; "manifest.read"; "application.read";
   "deployment.read"; "catalog.read"; "stack.read"; "runner_job.read"].
Definition RELEASE_PERMISSIONS : list string :=
  OBSERVABILITY_PERMISSIONS ++
  ["dashboard.manage"; "application.manage"; "deploy.run"; "workload.scale"; "image.update"; "config.update";
   "catalog.install"; "stack.plan"].
Definition INCIDENT_PERMISSIONS : list string :=
  RELEASE_PERMISSIONS ++ ["restart.run"; "rollback.run"; "incident.respond"; "runner_job.cancel"].
Definition CLUSTER_STEWARD_PERMISSIONS : list string :=
  INCIDENT_PERMISSIONS ++
  ["stack.apply"; "cluster.policy.manage"; "cluster.role.manage"; "dangerous_action.approve"; "pod.exec"].

Definition RESOURCE_ROLE_PERMISSIONS (r : ResourceRole) : list string :=
  match r with
  | OBSERVER => OBSERVABILITY_PERMISSIONS
  | RELEASE_OPERATOR => RELEASE_PERMISSIONS
  | INCIDENT_OPERATOR => INCIDENT_PERMISSIONS
  | CLUSTER_STEWARD => CLUSTER_STEWARD_PERMISSIONS
  end.

Definition CLUSTER : string := "cluster".
Definition PLATFORM_RESOURCE_TYPES : list string :=
  [CLUSTER; "namespace"; "workload"; "application"; "environment"; "deployment"; "deployment_binding"; "manifest_path";
   "catalog_item"; "helm_chart_source"; "stack"; "runner_job"; "incident"].

(** The order of the rows does not matter: they are upserted one by one. *)
Definition DEFAULT_ROLE_PERMISSION_ROWS : list (string * string * string * string * string) :=
  t ← PLATFORM_RESOURCE_TYPES; r ← ROLES; p ← RESOURCE_ROLE_PERMISSIONS r;
  [(GLOBAL_ROLE_POLICY_ORGANIZATION_ID, t, role_value r, p, ACTIVE)].

Definition resource_role_allows_permission (role permission : string) : res bool :=
  p ← permission_value permission;
  r ← resource_role role;
  Ok (bool_decide (p ∈ RESOURCE_ROLE_PERMISSIONS r)).

(** ** Tables

    A [slug] is always the identifier of its row and is left out. *)

Record UserAccount := {
  u_email : option string;
  u_password_hash : option string;
  u_display_name : string;
  u_status : string;
  u_role : string;
}.

(** A workspace or an organization. *)
Record Named := { n_name : string; n_status : string }.

Record Group := { g_organization_id : string; g_name : string; g_status : string }.

(** A row of [organization_members] or [group_members]. *)
Record Membership := { mb_role : string; mb_status : string; mb_created_at : Z }.

Record ResourceAssignment := {
  ra_organization_id : string;
  ra_group_id : string;
  ra_resource_type : string;
  ra_resource_id : string;
  ra_status : string;
}.

Record MemberResourceRole := { mr_id : Z; mr_role : string; mr_status : string; mr_created_at : Z }.

Record ClusterRegistration := {
  c_name : string;
  c_environment : string;
  c_status : string;
  c_agent_token_hash : option string;
  c_agent_envelope_public_key : option string;
  c_agent_envelope_private_key_encrypted : option string;
  c_settings : dict;
}.

(** Policy rows are keyed by organization, resource type, role and permission. *)
Record db := {
  users : gmap string UserAccount;
  workspaces : gmap string Named;
  organizations : gmap string Named;
  organization_members : gmap (string * string) Membership;
  groups : gmap string Group;
  group_members : gmap (string * string) Membership;
  resource_assignments : gmap string ResourceAssignment;
  member_resource_roles : gmap (string * string) MemberResourceRole;
  role_permissions : gmap (string * string * string * string) string;
  cluster_registrations : gmap (string * string) ClusterRegistration;
  next_id : Z;
}.

Definition with_users (s : db) x := {| users := x; workspaces := workspaces s; organizations := organizations s;
  organization_members := organization_members s; groups := groups s; group_members := group_members s;
  resource_assignments := resource_assignments s; member_resource_roles := member_resource_roles s;
  role_permissions := role_permissions s; cluster_registrations := cluster_registrations s; next_id := next_id s |}.
Definition with_workspaces (s : db) x := {| users := users s; workspaces := x; organizations := organizations s;
  organization_members := organization_members s; groups := groups s; group_members := group_members s;
  resource_assignments := resource_assignments s; member_resource_roles := member_resource_roles s;
  role_permissions := role_permissions s; cluster_registrations := cluster_registrations s; next_id := next_id s |}.
Definition with_organizations (s : db) x := {| users := users s; workspaces := workspaces s; organizations := x;
  organization_members := organization_members s; groups := groups s; group_members := group_members s;
  resource_assignments := resource_assignments s; member_resource_roles := member_resource_roles s;
  role_permissions := role_permissions s; cluster_registrations := cluster_registrations s; next_id := next_id s |}.
Definition with_organization_members (s : db) x := {| users := users s; workspaces := workspaces s;
  organizations := organizations s; organization_members := x; groups := groups s; group_members := group_members s;
  resource_assignments := resource_assignments s; member_resource_roles := member_resource_roles s;
  role_permissions := role_permissions s; cluster_registrations := cluster_registrations s; next_id := next_id s |}.
Definition with_groups (s : db) x := {| users := users s; workspaces := workspaces s; organizations := organizations s;
  organization_members := organization_members s; groups := x; group_members := group_members s;
  resource_assignments := resource_assignments s; member_resource_roles := member_resource_roles s;
  role_permissions := role_permissions s; cluster_registrations := cluster_registrations s; next_id := next_id s |}.
Definition with_group_members (s : db) x := {| users := users s; workspaces := workspaces s; organizations := organizations s;
  organization_members := organization_members s; groups := groups s; group_members := x;
  resource_assignments := resource_assignments s; member_resource_roles := member_resource_roles s;
  role_permissions := role_permissions s; cluster_registrations := cluster_registrations s; next_id := next_id s |}.
Definition with_assignments (s : db) x := {| users := users s; workspaces := workspaces s; organizations := organizations s;
  organization_members := organization_members s; groups := groups s; group_members := group_members s;
  resource_assignments := x; member_resource_roles := member_resource_roles s;
  role_permissions := role_permissions s; cluster_registrations := cluster_registrations s; next_id := next_id s |}.
Definition with_member_roles (s : db) x n := {| users := users s; workspaces := workspaces s; organizations := organizations s;
  organization_members := organization_members s; groups := groups s; group_members := group_members s;
  resource_assignments := resource_assignments s; member_resource_roles := x;
  role_permissions := role_permissions s; cluster_registrations := cluster_registrations s; next_id := n |}.
Definition with_role_permissions (s : db) x := {| users := users s; workspaces := workspaces s;
  organizations := organizations s; organization_members := organization_members s; groups := groups s;
  group_members := group_members s; resource_assignments := resource_assignments s;
  member_resource_roles := member_resource_roles s; role_permissions := x;
  cluster_registrations := cluster_registrations s; next_id := next_id s |}.
Definition with_clusters (s : db) x := {| users := users s; workspaces := workspaces s; organizations := organizations s;
  organization_members := organization_members s; groups := groups s; group_members := group_members s;
  resource_assignments := resource_assignments s; member_resource_roles := member_resource_roles s;
  role_permissions := role_permissions s; cluster_registrations := x; next_id := next_id s |}.

(** ** Upserts *)

Definition user_upsert (s : db) (user_id : string) : db :=
  match users s !! user_id with
  | Some _ => s
  | None => with_users s (<[user_id := {| u_email := None; u_password_hash := None; u_display_name := user_id;
                                          u_status := ACTIVE; u_role := USER |}]> (users s))
  end.

(** The account that has an e-mail address, which is unique. *)
Definition user_with_email (s : db) (email : string) : option string :=
  head ((keep (fun ua => bool_decide (u_email ua.2 = Some email)) (map_to_list (users s))).*1).

Definition admin_user_upsert (s : db) (user_id email password_hash display_name : string) : res db :=
  match user_with_email s email with
  | Some id =>
      Ok (with_users s (<[id := {| u_email := Some email; u_password_hash := Some password_hash;
                                   u_display_name := display_name; u_status := ACTIVE; u_role := SERVICE_ADMIN |}]> (users s)))
  | None =>
      _ ← raise_if (bool_decide (is_Some (users s !! user_id))) IntegrityError;
      Ok (with_users s (<[user_id := {| u_email := Some email; u_password_hash := Some password_hash;
                                        u_display_name := display_name; u_status := ACTIVE; u_role := SERVICE_ADMIN |}]> (users s)))
  end.

Definition workspace_upsert (s : db) (workspace_id name : string) : db :=
  with_workspaces s (<[workspace_id := {| n_name := name; n_status := ACTIVE |}]> (workspaces s)).

Definition organization_upsert (s : db) (organization_id name : string) : db :=
  with_organizations s (<[organization_id := {| n_name := name; n_status := ACTIVE |}]> (organizations s)).

(** A stored top role is kept; otherwise the new role wins. *)
Definition upserted_role (top stored new : string) : string := if str_eqb stored top then stored else new.

Definition membership_upsert (top : string) (t : gmap (string * string) Membership) (k : string * string) (role : string)
    (now : Z) : gmap (string * string) Membership :=
  <[k := match t !! k with
         | Some m => {| mb_role := upserted_role top (mb_role m) role; mb_status := ACTIVE; mb_created_at := mb_created_at m |}
         | None => {| mb_role := role; mb_status := ACTIVE; mb_created_at := now |}
         end]> t.

Definition organization_member_upsert (s : db) (organization_id user_id role : string) (now : Z) : res db :=
  _ ← raise_if (negb (bool_decide (is_Some (organizations s !! organization_id)))) IntegrityError;
  _ ← raise_if (negb (bool_decide (is_Some (users s !! user_id)))) IntegrityError;
  Ok (with_organization_members s (membership_upsert OWNER (organization_members s) (organization_id, user_id) role now)).

Definition group_upsert (s : db) (group_id organization_id name : string) : res db :=
  match groups s !! group_id with
  | Some g => Ok (with_groups s (<[group_id := {| g_organization_id := g_organization_id g; g_name := name;
                                                  g_status := ACTIVE |}]> (groups s)))
  | None =>
      _ ← raise_if (negb (bool_decide (is_Some (organizations s !! organization_id)))) IntegrityError;
      Ok (with_groups s (<[group_id := {| g_organization_id := organization_id; g_name := name; g_status := ACTIVE |}]>
                           (groups s)))
  end.

Definition group_member_upsert (s : db) (group_id user_id role : string) (now : Z) : res db :=
  _ ← raise_if (negb (bool_decide (is_Some (groups s !! group_id)))) IntegrityError;
  _ ← raise_if (negb (bool_decide (is_Some (users s !! user_id)))) IntegrityError;
  Ok (with_group_members s (membership_upsert MANAGER (group_members s) (group_id, user_id) role now)).

(** Another assignment of the resource to the group. *)
Definition group_has_resource (s : db) (id group_id resource_type resource_id : string) : bool :=
  existsb (fun ia => negb (str_eqb ia.1 id) && str_eqb (ra_group_id ia.2) group_id
                     && str_eqb (ra_resource_type ia.2) resource_type && str_eqb (ra_resource_id ia.2) resource_id)
    (map_to_list (resource_assignments s)).

Definition resource_assignment_upsert (s : db) (id organization_id group_id resource_type resource_id : string) : res db :=
  let row := match resource_assignments s !! id with
    | Some a => {| ra_organization_id := ra_organization_id a; ra_group_id := group_id;
                   ra_resource_type := ra_resource_type a; ra_resource_id := ra_resource_id a; ra_status := ACTIVE |}
    | None => {| ra_organization_id := organization_id; ra_group_id := group_id; ra_resource_type := resource_type;
                 ra_resource_id := resource_id; ra_status := ACTIVE |}
    end in
  _ ← raise_if (group_has_resource s id group_id (ra_resource_type row) (ra_resource_id row)) IntegrityError;
  Ok (with_assignments s (<[id := row]> (resource_assignments s))).

Definition member_resource_role_upsert (s : db) (resource_assignment_id user_id role : string) (now : Z) : res db :=
  r ← resource_role role;
  let k := (resource_assignment_id, user_id) in
  let row := match member_resource_roles s !! k with
    | Some m => {| mr_id := mr_id m; mr_role := upserted_role (role_value CLUSTER_STEWARD) (mr_role m) (role_value r);
                   mr_status := ACTIVE; mr_created_at := mr_created_at m |}
    | None => {| mr_id := next_id s; mr_role := role_value r; mr_status := ACTIVE; mr_created_at := now |}
    end in
  Ok (with_member_roles s (<[k := row]> (member_resource_roles s)) (next_id s + 1)).

Definition role_permission_upsert (s : db) (row : string * string * string * string * string) : db :=
  with_role_permissions s (<[row.1 := row.2]> (role_permissions s)).

Section access.
Context `{ReprLib} `{Sha256}.

(** [str(payload.get(k1) or payload.get(k2) or ... or last)] *)
Fixpoint first_of (d : dict) (ks : list string) (last : pyval) : pyval :=
  match ks with
  | [] => last
  | k :: ks => if truthy (get d k) then get d k else first_of d ks last
  end.

Definition required_text (d : dict) (k : string) : res string := py_str <$> raise_none (dict_get d k) KeyError.

(** A nullable text column. *)
Definition column (v : pyval) : option string := match v with VNone => None | v => Some (py_str v) end.

Definition lower_char (x : ascii) : ascii := if is_upper x then ascii_of_N (code x + 32) else x.
Fixpoint sql_lower (s : string) : string :=
  match s with EmptyString => EmptyString | String x s => String (lower_char x) (sql_lower s) end.
Definition is_blank (x : ascii) : bool := Ascii.eqb x " ".
Fixpoint drop_blanks (l : list ascii) : list ascii :=
  match l with x :: l' => if is_blank x then drop_blanks l' else l | [] => [] end.
Definition btrim (s : string) : string := unchars (rev (drop_blanks (rev (drop_blanks (chars s))))).

Definition in_use (status : string) : bool := negb (str_eqb status INSTALL_EXPIRED) && negb (str_eqb status DISCONNECTED).

(** The unique index on the names in use of a workspace. *)
Definition name_taken (s : db) (k : string * string) (name : string) : bool :=
  existsb (fun kc => negb (bool_decide (kc.1 = k)) && str_eqb kc.1.1 k.1 && in_use (c_status kc.2)
                     && str_eqb (sql_lower (btrim (c_name kc.2))) (sql_lower (btrim name)))
    (map_to_list (cluster_registrations s)).

Definition put_cluster (s : db) (k : string * string) (row : ClusterRegistration) : res db :=
  _ ← raise_if (in_use (c_status row) && name_taken s k (c_name row)) IntegrityError;
  Ok (with_clusters s (<[k := row]> (cluster_registrations s))).

Definition cluster_upsert (s : db) (payload : dict) : res db :=
  cluster_id ← required_text payload "cluster_id";
  let workspace_id := py_str (first_of payload ["workspace_id"] (VStr DEFAULT_WORKSPACE_ID)) in
  _ ← raise_if (negb (bool_decide (is_Some (workspaces s !! workspace_id)))) IntegrityError;
  put_cluster s (workspace_id, cluster_id)
    {| c_name := py_str (first_of payload ["name"; "cluster_id"] (get payload "cluster_id"));
       c_environment := py_str (first_of payload ["environment"] (VStr "default"));
       c_status := py_str (first_of payload ["status"] (VStr REGISTERED));
       c_agent_token_hash := column (get payload "agent_token_hash");
       c_agent_envelope_public_key := column (get payload "agent_envelope_public_key");
       c_agent_envelope_private_key_encrypted := column (get payload "agent_envelope_private_key_encrypted");
       c_settings := if truthy (get payload "settings") then mapping (get payload "settings") else [] |}.

Definition default_group_id (organization_id : string) : string :=
  if str_eqb organization_id DEFAULT_ORGANIZATION_ID then DEFAULT_GROUP_ID
  else "group-" +:+ str_take 24 (sha256_hexdigest (utf8_encode organization_id)).

Definition resource_assignment_id (organization_id resource_type resource_id : string) : string :=
  "resource-assignment-" +:+
  str_take 32 (sha256_hexdigest (utf8_encode (join "|" [organization_id; resource_type; resource_id]))).

(** ** Operations *)

(** The statements that the methods below share: a workspace, its
    organization and a group, with the user in both. *)
Definition enroll (s : db) (user_id workspace_id workspace_name organization_id organization_name organization_role group_id
    group_role : string) (now : Z) : res db :=
  let s := workspace_upsert s workspace_id workspace_name in
  let s := organization_upsert s organization_id organization_name in
  s ← organization_member_upsert s organization_id user_id organization_role now;
  s ← group_upsert s group_id organization_id DEFAULT_GROUP_NAME;
  group_member_upsert s group_id user_id group_role now.

Definition ensure_default_workspace (s : db) : db := workspace_upsert s DEFAULT_WORKSPACE_ID DEFAULT_WORKSPACE_NAME.

Definition ensure_default_organization (s : db) : res db :=
  group_upsert (organization_upsert s DEFAULT_ORGANIZATION_ID DEFAULT_ORGANIZATION_NAME) DEFAULT_GROUP_ID
    DEFAULT_ORGANIZATION_ID DEFAULT_GROUP_NAME.

(** Rows of the global policy whose role no longer exists are disabled. *)
Definition retire_roles (k : string * string * string * string) (status : string) : string :=
  let '(scope, resource_type, role, _) := k in
  if str_eqb scope GLOBAL_ROLE_POLICY_ORGANIZATION_ID && bool_decide (resource_type ∈ PLATFORM_RESOURCE_TYPES)
     && negb (bool_decide (role ∈ role_value <$> ROLES)) && str_eqb status ACTIVE
  then DISABLED else status.

Definition ensure_default_role_permissions (s : db) : db :=
  foldl role_permission_upsert (with_role_permissions s (map_imap (fun k st => Some (retire_roles k st)) (role_permissions s)))
    DEFAULT_ROLE_PERMISSION_ROWS.

(** [register_target_cluster]: the caller becomes owner, manager and steward. *)
Definition register_target_cluster (s : db) (payload : dict) (now : Z) : res db :=
  user_id ← required_text payload "user_id";
  let workspace_id := py_str (first_of payload ["workspace_id"] (VStr DEFAULT_WORKSPACE_ID)) in
  let organization_id := py_str (first_of payload ["organization_id"] (VStr workspace_id)) in
  let group_id := default_group_id organization_id in
  cluster_id ← required_text payload "cluster_id";
  let assignment_id := resource_assignment_id organization_id CLUSTER cluster_id in
  s ← enroll (user_upsert s user_id) user_id workspace_id workspace_id organization_id organization_id OWNER group_id MANAGER now;
  s ← resource_assignment_upsert s assignment_id organization_id group_id CLUSTER cluster_id;
  s ← member_resource_role_upsert s assignment_id user_id (role_value CLUSTER_STEWARD) now;
  cluster_upsert s payload.

Definition grant_organization (payload : dict) : string :=
  py_str (first_of payload ["organization_id"; "workspace_id"] (VStr DEFAULT_ORGANIZATION_ID)).
Definition grant_user (payload : dict) : string := py_str (first_of payload ["subject_id"] (get payload "user_id")).

Definition grant_resource_access (s : db) (payload : dict) (now : Z) : res db :=
  let user_id := grant_user payload in
  let organization_id := grant_organization payload in
  resource_type ← required_text payload "resource_type";
  resource_id ← required_text payload "resource_id";
  role ← resource_role (py_str (first_of payload ["role"] (VStr (role_value OBSERVER))));
  let group_id := py_str (first_of payload ["group_id"] (VStr (default_group_id organization_id))) in
  let assignment_id := resource_assignment_id organization_id resource_type resource_id in
  s ← enroll (user_upsert s user_id) user_id organization_id organization_id organization_id organization_id ORG_MEMBER group_id
        GROUP_MEMBER now;
  s ← resource_assignment_upsert s assignment_id organization_id group_id resource_type resource_id;
  member_resource_role_upsert s assignment_id user_id (role_value role) now.

Definition create_user (s : db) (user_id email password_hash display_name status role : string) : res (db * option string) :=
  match user_with_email s email with
  | Some _ => Ok (s, None)
  | None =>
      _ ← raise_if (bool_decide (is_Some (users s !! user_id))) IntegrityError;
      Ok (with_users s (<[user_id := {| u_email := Some email; u_password_hash := Some password_hash;
                                        u_display_name := display_name; u_status := status;
                                        u_role := if str_eqb role SERVICE_ADMIN then SERVICE_ADMIN else USER |}]> (users s)),
          Some user_id)
  end.

Definition enroll_in_default (s : db) (user_id : string) (now : Z) : res db :=
  enroll s user_id DEFAULT_WORKSPACE_ID DEFAULT_WORKSPACE_NAME DEFAULT_ORGANIZATION_ID DEFAULT_ORGANIZATION_NAME OWNER
    DEFAULT_GROUP_ID MANAGER now.

Definition upsert_admin_account (s : db) (user_id email password_hash display_name : string) (now : Z) : res db :=
  s ← admin_user_upsert s user_id email password_hash display_name;
  enroll_in_default s user_id now.

Definition is_admin (a : UserAccount) : bool := str_eqb (u_role a) SERVICE_ADMIN && str_eqb (u_status a) ACTIVE.
Definition has_service_admin (s : db) : bool := existsb (fun ua => is_admin ua.2) (map_to_list (users s)).

Definition set_standing (s : db) (user_id : string) (a : UserAccount) (status role : string) : db :=
  with_users s (<[user_id := {| u_email := u_email a; u_password_hash := u_password_hash a;
                                u_display_name := u_display_name a; u_status := status; u_role := role |}]> (users s)).

Definition complete_email_verification (s : db) (user_id : string) (now : Z) : res db :=
  match users s !! user_id with
  | None => Ok s
  | Some a =>
      if negb (str_eqb (u_status a) PENDING_EMAIL_VERIFICATION) then Ok s
      else if has_service_admin s then Ok (set_standing s user_id a PENDING_APPROVAL USER)
      else enroll_in_default (set_standing s user_id a ACTIVE SERVICE_ADMIN) user_id now
  end.

Definition approve_user (s : db) (user_id workspace_id : string) (now : Z) : res (db * bool) :=
  let organization_id := if is_empty workspace_id then DEFAULT_ORGANIZATION_ID else workspace_id in
  match users s !! user_id with
  | None => Ok (s, false)
  | Some a =>
      if negb (str_eqb (u_status a) PENDING_APPROVAL) then Ok (s, false)
      else
        s ← enroll (set_standing s user_id a ACTIVE USER) user_id organization_id organization_id organization_id
              organization_id ORG_MEMBER (default_group_id organization_id) GROUP_MEMBER now;
        Ok (s, true)
  end.

Definition create_organization (s : db) (organization_id name : string) : db := organization_upsert s organization_id name.

Definition delete_organization (s : db) (organization_id : string) : db * bool :=
  if existsb (fun ig => str_eqb (g_organization_id ig.2) organization_id && str_eqb (g_status ig.2) ACTIVE) (map_to_list (groups s))
  then (s, false)
  else (with_organizations s (alter (fun o => {| n_name := n_name o; n_status := DISABLED |}) organization_id (organizations s)), true).

Definition create_group (s : db) (group_id organization_id name : string) : res db := group_upsert s group_id organization_id name.

Definition add_group_member (s : db) (group_id user_id : string) (now : Z) : res db :=
  group_member_upsert s group_id user_id GROUP_MEMBER now.

Definition is_last_active_service_admin (s : db) (user_id : string) : bool :=
  bool_decide ((keep (fun ua => is_admin ua.2) (map_to_list (users s))).*1 = [user_id]).

Definition remove_group_member (s : db) (group_id user_id : string) : db :=
  with_group_members s (alter (fun m => {| mb_role := mb_role m; mb_status := DISABLED; mb_created_at := mb_created_at m |})
                          (group_id, user_id) (group_members s)).

(** The route: [None] is the answer 400 for the last administrator. *)
Definition remove_group_member_route (s : db) (group_id user_id : string) : option db :=
  if is_last_active_service_admin s user_id then None else Some (remove_group_member s group_id user_id).

Definition disable_role (m : MemberResourceRole) : MemberResourceRole :=
  {| mr_id := mr_id m; mr_role := mr_role m; mr_status := DISABLED; mr_created_at := mr_created_at m |}.

Definition revoke_access (s : db) (access_id : string) : db :=
  match int_of_str access_id with
  | None => s
  | Some row_id =>
      with_member_roles s ((fun m => if mr_id m =? row_id then disable_role m else m) <$> member_resource_roles s) (next_id s)
  end.

Definition TEST_FIXTURE_ENVIRONMENT : string := "test".
Definition TARGET_CLUSTER_ROLE : string := "target".
Definition MANAGEMENT_CLUSTER_ROLE : string := "management".

(** [settings->>'cluster_role'], or the role of a target *)
Definition cluster_role (settings : dict) : string :=
  match get settings "cluster_role" with VNone => TARGET_CLUSTER_ROLE | v => py_str v end.

Definition names_cluster (workspace_id cluster_id : string) (a : ResourceAssignment) : bool :=
  str_eqb (ra_organization_id a) workspace_id && str_eqb (ra_resource_type a) CLUSTER && str_eqb (ra_resource_id a) cluster_id.

(** [enabled] is [test_fixture_purge_enabled()]. *)
Definition purge_test_target_cluster_registration (enabled : bool) (s : db) (workspace_id cluster_id : string) : db * bool :=
  if negb enabled then (s, false)
  else
    match cluster_registrations s !! (workspace_id, cluster_id) with
    | Some c =>
        if str_eqb (c_environment c) TEST_FIXTURE_ENVIRONMENT && negb (str_eqb (cluster_role (c_settings c)) MANAGEMENT_CLUSTER_ROLE)
        then
          let s := with_clusters s (delete (workspace_id, cluster_id) (cluster_registrations s)) in
          let doomed id := match resource_assignments s !! id with Some a => names_cluster workspace_id cluster_id a | None => false end in
          let s := with_member_roles s (filter (fun km => doomed km.1.1 = false) (member_resource_roles s)) (next_id s) in
          (with_assignments s (filter (fun ia => names_cluster workspace_id cluster_id ia.2 = false) (resource_assignments s)), true)
        else (s, false)
    | None => (s, false)
    end.

(** *** Cluster registrations *)

Definition set_cluster_status (c : ClusterRegistration) (status : string) : ClusterRegistration :=
  {| c_name := c_name c; c_environment := c_environment c; c_status := status; c_agent_token_hash := c_agent_token_hash c;
     c_agent_envelope_public_key := c_agent_envelope_public_key c;
     c_agent_envelope_private_key_encrypted := c_agent_envelope_private_key_encrypted c; c_settings := c_settings c |}.

Definition update_cluster_registration_status (s : db) (workspace_id cluster_id status : string) : res db :=
  match cluster_registrations s !! (workspace_id, cluster_id) with
  | Some c => put_cluster s (workspace_id, cluster_id) (set_cluster_status c status)
  | None => Ok s
  end.

Definition CONNECTABLE : list string := [PENDING_INSTALL; INSTALL_APPLIED; INSTALL_FAILED; REGISTERED].

Definition mark_cluster_registration_connected (s : db) (workspace_id cluster_id : string) : res (db * bool) :=
  match cluster_registrations s !! (workspace_id, cluster_id) with
  | Some c =>
      if bool_decide (c_status c ∈ CONNECTABLE)
      then s ← put_cluster s (workspace_id, cluster_id) (set_cluster_status c REGISTERED); Ok (s, true)
      else Ok (s, false)
  | None => Ok (s, false)
  end.

Definition REISSUABLE : list string := [PENDING_INSTALL; INSTALL_APPLIED; INSTALL_FAILED; INSTALL_EXPIRED].

Definition reissue_target_cluster_install (s : db) (workspace_id cluster_id token_hash public_key private_key : string)
    (settings : dict) : res (db * bool) :=
  match cluster_registrations s !! (workspace_id, cluster_id) with
  | Some c =>
      if bool_decide (c_status c ∈ REISSUABLE)
      then
        s ← put_cluster s (workspace_id, cluster_id)
              {| c_name := c_name c; c_environment := c_environment c; c_status := PENDING_INSTALL;
                 c_agent_token_hash := Some token_hash; c_agent_envelope_public_key := Some public_key;
                 c_agent_envelope_private_key_encrypted := Some private_key; c_settings := settings |};
        Ok (s, true)
      else Ok (s, false)
  | None => Ok (s, false)
  end.

Definition unregister_target_cluster (s : db) (workspace_id cluster_id : string) : db * bool :=
  match cluster_registrations s !! (workspace_id, cluster_id) with
  | Some c =>
      (with_clusters s (<[(workspace_id, cluster_id) :=
         {| c_name := c_name c; c_environment := c_environment c; c_status := DISCONNECTED; c_agent_token_hash := None;
            c_agent_envelope_public_key := None; c_agent_envelope_private_key_encrypted := None;
            c_settings := c_settings c |}]> (cluster_registrations s)), true)
  | None => (s, false)
  end.

Definition AUTHENTICABLE : list string := [PENDING_INSTALL; INSTALL_APPLIED; INSTALL_FAILED; REGISTERED; UNINSTALL_REQUESTED].

Definition holds_token (token_hash : string) (c : ClusterRegistration) : bool :=
  bool_decide (c_agent_token_hash c = Some token_hash) && bool_decide (c_status c ∈ AUTHENTICABLE).

(** One of the matching rows: the statement has no order. *)
Definition authenticate_cluster_agent (s : db) (token_hash : string) : option (string * string) :=
  if is_empty token_hash then None
  else head ((keep (fun kc => holds_token token_hash kc.2) (map_to_list (cluster_registrations s))).*1).

Definition hash_agent_token (token : string) : string := sha256_hexdigest (utf8_encode token).

Definition require_cluster_agent (s : db) (token : string) : option (string * string) :=
  if is_empty token then None else authenticate_cluster_agent s (hash_agent_token token).

(** ** Access *)

Definition is_service_admin (s : db) (user_id : string) : bool :=
  match users s !! user_id with Some a => is_admin a | None => false end.

Definition active_member (t : gmap (string * string) Membership) (k : string * string) : bool :=
  match t !! k with Some m => str_eqb (mb_status m) ACTIVE | None => false end.

Definition get_organization_member (s : db) (organization_id user_id : string) : bool :=
  active_member (organization_members s) (organization_id, user_id).
Definition get_group_member (s : db) (group_id user_id : string) : bool := active_member (group_members s) (group_id, user_id).

Definition assigned (organization_id resource_type resource_id : string) (a : ResourceAssignment) : bool :=
  str_eqb (ra_organization_id a) organization_id && str_eqb (ra_resource_type a) resource_type
  && str_eqb (ra_resource_id a) resource_id && str_eqb (ra_status a) ACTIVE.

Definition get_resource_assignment_for_org (s : db) (organization_id resource_type resource_id : string)
    : option (string * ResourceAssignment) :=
  head (keep (fun ia => assigned organization_id resource_type resource_id ia.2) (map_to_list (resource_assignments s))).

Definition get_member_resource_role (s : db) (resource_assignment_id user_id : string) : option string :=
  match member_resource_roles s !! (resource_assignment_id, user_id) with
  | Some m => if str_eqb (mr_status m) ACTIVE then Some (mr_role m) else None
  | None => None
  end.

Definition role_policy_scope (organization_id : string) : string :=
  if is_empty organization_id then GLOBAL_ROLE_POLICY_ORGANIZATION_ID else organization_id.

Definition scoped_rows_exist (s : db) (scope resource_type role : string) : bool :=
  existsb (fun kr => bool_decide (kr.1.1 = (scope, resource_type, role))) (map_to_list (role_permissions s)).

Definition active_policy (s : db) (scope resource_type role permission : string) : bool :=
  match role_permissions s !! (scope, resource_type, role, permission) with Some st => str_eqb st ACTIVE | None => false end.

Definition get_role_permissions (s : db) (resource_type role organization_id : string) : res (gset string) :=
  r ← resource_role role;
  let scope := role_policy_scope organization_id in
  let scope := if scoped_rows_exist s scope resource_type (role_value r) then scope else GLOBAL_ROLE_POLICY_ORGANIZATION_ID in
  Ok (list_to_set ((fun kr => kr.1.2) <$>
    keep (fun kr => bool_decide (kr.1.1 = (scope, resource_type, role_value r)) && str_eqb kr.2 ACTIVE)
      (map_to_list (role_permissions s)))).

Definition role_has_permission (s : db) (resource_type role permission organization_id : string) : res bool :=
  p ← permission_value permission;
  ps ← get_role_permissions s resource_type role organization_id;
  Ok (bool_decide (p ∈ ps)).

(** The role that a member holds on a resource, through the group it is
    assigned to. *)
Definition held_role (s : db) (user_id organization_id resource_type resource_id : string) : option string :=
  if negb (get_organization_member s organization_id user_id) then None
  else
    match get_resource_assignment_for_org s organization_id resource_type resource_id with
    | None => None
    | Some (id, a) =>
        if negb (get_group_member s (ra_group_id a) user_id) then None else get_member_resource_role s id user_id
    end.

Definition can_access (s : db) (user_id organization_id resource_type resource_id permission : string) : res bool :=
  if is_service_admin s user_id then Ok true
  else
    match held_role s user_id organization_id resource_type resource_id with
    | None => Ok false
    | Some role => role_has_permission s resource_type role permission organization_id
    end.

Definition effective_permissions_for_resource (s : db) (user_id organization_id resource_type resource_id : string)
    : res (gset string) :=
  if is_service_admin s user_id then Ok (list_to_set Permissions)
  else
    match held_role s user_id organization_id resource_type resource_id with
    | None => Ok ∅
    | Some role => get_role_permissions s resource_type role organization_id
    end.

(** The rows of the one statement that resolves all resources of a user. *)
Definition accessible_row (s : db) (user_id workspace_id resource_type permission : string) (ia : string * ResourceAssignment)
    : bool :=
  str_eqb (ra_organization_id ia.2) workspace_id && str_eqb (ra_resource_type ia.2) resource_type
  && str_eqb (ra_status ia.2) ACTIVE && get_group_member s (ra_group_id ia.2) user_id
  && match get_member_resource_role s ia.1 user_id with
     | Some role =>
         active_policy s (if scoped_rows_exist s workspace_id resource_type role then workspace_id
                          else GLOBAL_ROLE_POLICY_ORGANIZATION_ID) resource_type role permission
     | None => false
     end.

Definition accessible_resource_ids (s : db) (user_id workspace_id resource_type action : string) : res (option (gset string)) :=
  if is_service_admin s user_id then Ok None
  else
    permission ← permission_value action;
    Ok (Some (list_to_set ((fun ia => ra_resource_id ia.2) <$>
      keep (accessible_row s user_id workspace_id resource_type permission) (map_to_list (resource_assignments s))))).

(** *** The route that grants access *)

Record access_grant := {
  ag_access_id : string;
  ag_subject_id : string;
  ag_resource_type : string;
  ag_resource_id : string;
  ag_role : string;
  ag_granted_at : Z;
}.

Definition grant_of (s : db) (organization_id resource_id : string) (km : string * string * MemberResourceRole) : option access_grant :=
  match resource_assignments s !! km.1.1 with
  | Some a =>
      if str_eqb (mr_status km.2) ACTIVE && str_eqb (ra_organization_id a) organization_id
         && (is_empty resource_id || str_eqb (ra_resource_id a) resource_id)
      then Some {| ag_access_id := str_of_int (mr_id km.2); ag_subject_id := km.1.2; ag_resource_type := ra_resource_type a;
                   ag_resource_id := ra_resource_id a; ag_role := mr_role km.2; ag_granted_at := mr_created_at km.2 |}
      else None
  | None => None
  end.

Definition list_access_grants (s : db) (organization_id resource_id : string) : list access_grant :=
  isort (fun a b => ag_granted_at a <=? ag_granted_at b)
    (omap (grant_of s organization_id resource_id) (map_to_list (member_resource_roles s))).

Record AccessGrantRequest := { rq_subject_id : string; rq_resource_type : string; rq_resource_id : string; rq_role : string }.

(** The answer of the route, as access identifier and role. *)
Definition grant_access (s : db) (workspace_id : string) (q : AccessGrantRequest) (now : Z) : res (db * (string * string)) :=
  s ← grant_resource_access s
        [("subject_id", VStr (rq_subject_id q)); ("resource_type", VStr (rq_resource_type q));
         ("resource_id", VStr (rq_resource_id q)); ("role", VStr (rq_role q)); ("organization_id", VStr workspace_id)] now;
  let matches := keep (fun g => str_eqb (ag_resource_id g) (rq_resource_id q) && str_eqb (ag_role g) (rq_role q)
                                && str_eqb (ag_subject_id g) (rq_subject_id q))
                   (list_access_grants s workspace_id (rq_resource_id q)) in
  Ok (s, match last matches with
         | Some g => (ag_access_id g, ag_role g)
         | None => ("pending", rq_role q)
         end).

(** ** Everything that happens to the tables *)

Inductive op :=
  | EnsureWorkspace
  | EnsureOrganization
  | EnsurePolicies
  | Register (payload : dict)
  | Grant (payload : dict)
  | Revoke (access_id : string)
  | AddMember (group_id user_id : string)
  | RemoveMember (group_id user_id : string)
  | CreateOrganization (organization_id name : string)
  | DeleteOrganization (organization_id : string)
  | CreateGroup (group_id organization_id name : string)
  | CreateUser (user_id email password_hash display_name status role : string)
  | UpsertAdmin (user_id email password_hash display_name : string)
  | VerifyEmail (user_id : string)
  | Approve (user_id workspace_id : string)
  | Purge (enabled : bool) (workspace_id cluster_id : string)
  | SetStatus (workspace_id cluster_id status : string)
  | Connected (workspace_id cluster_id : string)
  | Reissue (workspace_id cluster_id token_hash public_key private_key : string) (settings : dict)
  | Unregister (workspace_id cluster_id : string).

Definition run_op (s : db) (o : op) (now : Z) : res db :=
  match o with
  | EnsureWorkspace => Ok (ensure_default_workspace s)
  | EnsureOrganization => ensure_default_organization s
  | EnsurePolicies => Ok (ensure_default_role_permissions s)
  | Register payload => register_target_cluster s payload now
  | Grant payload => grant_resource_access s payload now
  | Revoke id => Ok (revoke_access s id)
  | AddMember g u => add_group_member s g u now
  | RemoveMember g u => Ok (default s (remove_group_member_route s g u))
  | CreateOrganization id name => Ok (create_organization s id name)
  | DeleteOrganization id => Ok (delete_organization s id).1
  | CreateGroup g id name => create_group s g id name
  | CreateUser u e p d st r => fst <$> create_user s u e p d st r
  | UpsertAdmin u e p d => upsert_admin_account s u e p d now
  | VerifyEmail u => complete_email_verification s u now
  | Approve u w => fst <$> approve_user s u w now
  | Purge b w c => Ok (purge_test_target_cluster_registration b s w c).1
  | SetStatus w c st => update_cluster_registration_status s w c st
  | Connected w c => fst <$> mark_cluster_registration_connected s w c
  | Reissue w c h pk sk st => fst <$> reissue_target_cluster_install s w c h pk sk st
  | Unregister w c => Ok (unregister_target_cluster s w c).1
  end.

(** What an operation says about the role of a user on an assignment. *)
Inductive role_event :=
  | Granted (id user_id : string) (r : ResourceRole)
  | Revoked (id user_id : string)
  | Dropped (id user_id : string).

Definition granted_by (o : op) : option (string * string * string * string * ResourceRole) :=
  match o with
  | Grant p =>
      match dict_get p "resource_type", dict_get p "resource_id",
            resource_role (py_str (first_of p ["role"] (VStr (role_value OBSERVER)))) with
      | Some t, Some i, Ok r => Some (grant_user p, grant_organization p, py_str t, py_str i, r)
      | _, _, _ => None
      end
  | Register p =>
      match dict_get p "user_id", dict_get p "cluster_id" with
      | Some u, Some c =>
          let w := py_str (first_of p ["workspace_id"] (VStr DEFAULT_WORKSPACE_ID)) in
          Some (py_str u, py_str (first_of p ["organization_id"] (VStr w)), CLUSTER, py_str c, CLUSTER_STEWARD)
      | _, _ => None
      end
  | _ => None
  end.

Definition gone (s s' : db) (km : string * string * MemberResourceRole) : bool :=
  bool_decide (member_resource_roles s' !! km.1 = None).

Definition events_of (s : db) (o : op) (s' : db) : list role_event :=
  match o, granted_by o with
  | _, Some (u, org, t, i, r) => [Granted (resource_assignment_id org t i) u r]
  | Revoke id, _ =>
      match int_of_str id with
      | Some n => (fun km => Revoked km.1.1 km.1.2) <$> keep (fun km => mr_id km.2 =? n) (map_to_list (member_resource_roles s))
      | None => []
      end
  | Purge _ _ _, _ => (fun km => Dropped km.1.1 km.1.2) <$> keep (gone s s') (map_to_list (member_resource_roles s))
  | _, _ => []
  end.

(** Two resources never have the same identifier of their assignments, which
    is a digest. *)
Definition no_collision (s : db) (o : op) : Prop :=
  forall u org t i r a, granted_by o = Some (u, org, t, i, r) ->
    resource_assignments s !! resource_assignment_id org t i = Some a ->
    ra_organization_id a = org /\ ra_resource_type a = t /\ ra_resource_id a = i.

Definition empty : db :=
  {| users := ∅; workspaces := ∅; organizations := ∅; organization_members := ∅; groups := ∅; group_members := ∅;
     resource_assignments := ∅; member_resource_roles := ∅; role_permissions := ∅; cluster_registrations := ∅; next_id := 1 |}.

(** The database with the events so far, newest first.  An operation that
    raises changes nothing. *)
Inductive run : db -> list role_event -> Prop :=
  | run_empty : run empty []
  | run_step s h o now s' :
      run s h -> no_collision s o -> run_op s o now = Ok s' -> run s' (events_of s o s' ++ h).

(** The role of a user on an assignment, and whether it is in force: the last
    one granted, except that a steward stays one. *)
Fixpoint standing (id u : string) (h : list role_event) : option (ResourceRole * bool) :=
  match h with
  | [] => None
  | Granted id' u' r :: h =>
      if bool_decide ((id', u') = (id, u))
      then Some (match standing id u h with Some (CLUSTER_STEWARD, _) => CLUSTER_STEWARD | _ => r end, true)
      else standing id u h
  | Revoked id' u' :: h =>
      if bool_decide ((id', u') = (id, u)) then (fun rb => (rb.1, false)) <$> standing id u h else standing id u h
  | Dropped id' u' :: h => if bool_decide ((id', u') = (id, u)) then None else standing id u h
  end.

(** ** Invariants *)

Lemma resource_role_value r : resource_role (role_value r) = Ok r.
Proof. by destruct r. Qed.

Lemma role_value_inj r r' : role_value r = role_value r' -> r = r'.
Proof. by destruct r, r'. Qed.

Lemma resource_role_Ok text r : resource_role text = Ok r -> text = role_value r.
Proof.
  unfold resource_role. cbn. repeat (case_match; [intros [= <-]; by rewrite <- (proj1 (str_eqb_eq _ _) ltac:(eassumption))|]). done.
Qed.

Record wf (s : db) : Prop := {
  wf_assignments : forall id a, resource_assignments s !! id = Some a ->
    id = resource_assignment_id (ra_organization_id a) (ra_resource_type a) (ra_resource_id a);
  wf_roles : forall id u m, member_resource_roles s !! (id, u) = Some m ->
    (exists r, mr_role m = role_value r) /\
    exists a, resource_assignments s !! id = Some a /\ get_organization_member s (ra_organization_id a) u = true;
  wf_policies : forall k st, role_permissions s !! k = Some st -> (k, st) ∈ DEFAULT_ROLE_PERMISSION_ROWS;
}.

(** A change that leaves the roles alone and takes no membership away. *)
Record grows (s s' : db) : Prop := {
  gr_assignments : resource_assignments s' = resource_assignments s;
  gr_roles : member_resource_roles s' = member_resource_roles s;
  gr_policies : role_permissions s' = role_permissions s;
  gr_members : forall k, active_member (organization_members s) k = true -> active_member (organization_members s') k = true;
}.

#[local] Instance grows_preorder : PreOrder grows.
Proof.
  split; [by intros s; split|]. intros s1 s2 s3 [a1 r1 p1 m1] [a2 r2 p2 m2]. split; try congruence. auto.
Qed.

Lemma wf_grows s s' : wf s -> grows s s' -> wf s'.
Proof.
  intros [Ha Hr Hp] [Ea Er Ep Hm]. split; rewrite ?Ea, ?Er, ?Ep; [done| |done].
  intros id u m Hm'. destruct (Hr _ _ _ Hm') as (Hv & a & Hla & Ho). split; [done|]. exists a. split; [done|by apply Hm].
Qed.

Lemma membership_upsert_active top t k role now : active_member (membership_upsert top t k role now) k = true.
Proof. unfold active_member, membership_upsert. rewrite lookup_insert, decide_True by done. by destruct (t !! k). Qed.

Lemma membership_upsert_keeps top t k role now k' :
  active_member t k' = true -> active_member (membership_upsert top t k role now) k' = true.
Proof.
  intros Hk. destruct (decide (k = k')) as [<-|Hne]; [apply membership_upsert_active|].
  unfold active_member, membership_upsert. by rewrite lookup_insert_ne.
Qed.

Lemma organization_member_upsert_Ok s org u role now s' :
  organization_member_upsert s org u role now = Ok s' -> grows s s' /\ get_organization_member s' org u = true.
Proof.
  unfold organization_member_upsert. intros (? & _ & (? & _ & <-%Ok_inj)%bind_Ok)%bind_Ok. split.
  - split; try done. intros k. apply membership_upsert_keeps.
  - apply membership_upsert_active.
Qed.

Lemma group_upsert_grows s g org name s' : group_upsert s g org name = Ok s' -> grows s s'.
Proof.
  unfold group_upsert. destruct (groups s !! g); [intros <-%Ok_inj|intros (? & _ & <-%Ok_inj)%bind_Ok]; by split.
Qed.

Lemma group_member_upsert_grows s g u role now s' : group_member_upsert s g u role now = Ok s' -> grows s s'.
Proof. unfold group_member_upsert. intros (? & _ & (? & _ & <-%Ok_inj)%bind_Ok)%bind_Ok. by split. Qed.

Lemma enroll_Ok s u w wn org on orole g grole now s' :
  enroll s u w wn org on orole g grole now = Ok s' -> grows s s' /\ get_organization_member s' org u = true.
Proof.
  unfold enroll. intros (s1 & [G1 M1]%organization_member_upsert_Ok & (s2 & G2%group_upsert_grows & G3%group_member_upsert_grows)%bind_Ok)%bind_Ok.
  split.
  - etrans; [|exact G3]. etrans; [|exact G2]. etrans; [|exact G1]. by split.
  - apply (gr_members _ _ G3), (gr_members _ _ G2), M1.
Qed.

Lemma user_upsert_grows s u : grows s (user_upsert s u).
Proof. unfold user_upsert. destruct (users s !! u); by split. Qed.

Lemma set_standing_grows s u a st r : grows s (set_standing s u a st r).
Proof. by split. Qed.

Lemma put_cluster_grows s k row s' : put_cluster s k row = Ok s' -> grows s s'.
Proof. unfold put_cluster. intros (? & _ & <-%Ok_inj)%bind_Ok. by split. Qed.

Lemma cluster_upsert_grows s p s' : cluster_upsert s p = Ok s' -> grows s s'.
Proof. unfold cluster_upsert. intros (c & _ & (? & _ & E%put_cluster_grows)%bind_Ok)%bind_Ok. done. Qed.

(** *** The operations on assignments and roles *)

(** A change of one role row. *)
Definition writes_role (s s' : db) (id u : string) (m : MemberResourceRole) : Prop :=
  resource_assignments s' = resource_assignments s /\ role_permissions s' = role_permissions s /\
  organization_members s' = organization_members s /\
  member_resource_roles s' = <[(id, u) := m]> (member_resource_roles s).

Definition next_role (stored : option MemberResourceRole) (r : ResourceRole) : string :=
  match stored with Some m => upserted_role (role_value CLUSTER_STEWARD) (mr_role m) (role_value r) | None => role_value r end.

Lemma member_role_upsert_Ok s id u role now s' :
  member_resource_role_upsert s id u role now = Ok s' ->
  exists r m, resource_role role = Ok r /\ writes_role s s' id u m /\ mr_status m = ACTIVE /\
    mr_role m = next_role (member_resource_roles s !! (id, u)) r.
Proof.
  unfold member_resource_role_upsert. intros (r & Hr & <-%Ok_inj)%bind_Ok. exists r. eexists. split; [done|].
  split; [split_and!; reflexivity|]. unfold next_role. by destruct (member_resource_roles s !! (id, u)).
Qed.

Lemma assignment_upsert_Ok s id org g t i s' :
  (forall a, resource_assignments s !! id = Some a -> ra_organization_id a = org /\ ra_resource_type a = t /\ ra_resource_id a = i) ->
  resource_assignment_upsert s id org g t i = Ok s' ->
  organization_members s' = organization_members s /\ member_resource_roles s' = member_resource_roles s /\
  role_permissions s' = role_permissions s /\
  resource_assignments s' = <[id := {| ra_organization_id := org; ra_group_id := g; ra_resource_type := t;
                                       ra_resource_id := i; ra_status := ACTIVE |}]> (resource_assignments s).
Proof.
  intros Hc. unfold resource_assignment_upsert. intros (? & _ & <-%Ok_inj)%bind_Ok. split_and!; try done. cbn.
  destruct (resource_assignments s !! id) as [a|] eqn:Ha; [|done]. by destruct (Hc a eq_refl) as (-> & -> & ->).
Qed.

(** What a grant comes to. *)
Definition grants (s s' : db) (u org t i : string) (r : ResourceRole) : Prop :=
  let id := resource_assignment_id org t i in
  role_permissions s' = role_permissions s /\
  (forall k, active_member (organization_members s) k = true -> active_member (organization_members s') k = true) /\
  get_organization_member s' org u = true /\
  (exists g, resource_assignments s' = <[id := {| ra_organization_id := org; ra_group_id := g; ra_resource_type := t;
                                                  ra_resource_id := i; ra_status := ACTIVE |}]> (resource_assignments s)) /\
  exists m, member_resource_roles s' = <[(id, u) := m]> (member_resource_roles s) /\ mr_status m = ACTIVE /\
    mr_role m = next_role (member_resource_roles s !! (id, u)) r.

Lemma assign_and_grant s0 s u org t i g role now s1 s2 r :
  let id := resource_assignment_id org t i in
  grows s0 s -> get_organization_member s org u = true ->
  (forall a, resource_assignments s0 !! id = Some a -> ra_organization_id a = org /\ ra_resource_type a = t /\ ra_resource_id a = i) ->
  resource_assignment_upsert s id org g t i = Ok s1 -> member_resource_role_upsert s1 id u role now = Ok s2 ->
  resource_role role = Ok r -> grants s0 s2 u org t i r.
Proof.
  intros id [Ea Er Ep Hm] Ho Hc H1 H2 Hrole. apply assignment_upsert_Ok in H1 as (E1 & E2 & E3 & E4); [|by rewrite Ea].
  apply member_role_upsert_Ok in H2 as (r' & m & Hr' & (F1 & F2 & F3 & F4) & Hst & Hmr).
  rewrite Hrole in Hr'. apply Ok_inj in Hr'. subst r'. split_and!.
  - congruence.
  - intros k Hk. rewrite F3, E1. by apply Hm.
  - unfold get_organization_member. by rewrite F3, E1.
  - exists g. by rewrite F1, E4, Ea.
  - exists m. split; [by rewrite F4, E2, Er|]. split; [done|]. by rewrite Hmr, E2, Er.
Qed.

Lemma grants_grows s s1 s' u org t i r : grants s s1 u org t i r -> grows s1 s' -> grants s s' u org t i r.
Proof.
  intros (Hp & Hm & Ho & (g & Ha) & m & Hr & Hst & Hmr) [Ea Er Ep Hm']. split_and!.
  - congruence.
  - auto.
  - by apply Hm'.
  - exists g. congruence.
  - exists m. split; [congruence|done].
Qed.

Lemma register_Ok s p now s' :
  no_collision s (Register p) -> register_target_cluster s p now = Ok s' ->
  exists u org t i r, granted_by (Register p) = Some (u, org, t, i, r) /\ grants s s' u org t i r.
Proof.
  intros Hc. unfold register_target_cluster, required_text. unfold no_collision, granted_by in *.
  destruct (dict_get p "user_id") as [u|]; [|done]. cbn [raise_none fmap res_fmap mbind res_bind].
  destruct (dict_get p "cluster_id") as [c|]; [|done]. cbn [raise_none fmap res_fmap mbind res_bind].
  intros (s1 & [G1 M1]%enroll_Ok & (s2 & A & (s3 & R & G3%cluster_upsert_grows)%bind_Ok)%bind_Ok)%bind_Ok.
  do 5 eexists. split; [done|]. eapply grants_grows; [|exact G3].
  eapply (assign_and_grant s s1); [etrans; [apply user_upsert_grows|exact G1]|exact M1| |exact A|exact R|apply resource_role_value].
  intros a Ha. by apply (Hc _ _ _ _ _ a eq_refl).
Qed.

Lemma grant_Ok s p now s' :
  no_collision s (Grant p) -> grant_resource_access s p now = Ok s' ->
  exists u org t i r, granted_by (Grant p) = Some (u, org, t, i, r) /\ grants s s' u org t i r.
Proof.
  intros Hc. unfold grant_resource_access, required_text. unfold no_collision, granted_by in *.
  destruct (dict_get p "resource_type") as [t|]; [|done]. cbn [raise_none fmap res_fmap mbind res_bind].
  destruct (dict_get p "resource_id") as [i|]; [|done]. cbn [raise_none fmap res_fmap mbind res_bind].
  destruct (resource_role _) as [r|]; [|done]. cbn [mbind res_bind].
  intros (s1 & [G1 M1]%enroll_Ok & (s2 & A & R)%bind_Ok)%bind_Ok. do 5 eexists. split; [done|].
  eapply (assign_and_grant s s1); [etrans; [apply user_upsert_grows|exact G1]|exact M1| |exact A|exact R|apply resource_role_value].
  intros a Ha. by apply (Hc _ _ _ _ _ a eq_refl).
Qed.

(** All other operations, apart from revocation, purge and policies. *)
Definition quiet (o : op) : bool :=
  match o with Register _ | Grant _ | Revoke _ | Purge _ _ _ | EnsurePolicies => false | _ => true end.

Lemma quiet_grows s o now s' : quiet o = true -> run_op s o now = Ok s' -> grows s s'.
Proof.
  destruct o; try discriminate; intros _; cbn [run_op].
  - by intros <-%Ok_inj.
  - intros G%group_upsert_grows. by etrans; [|exact G].
  - apply group_member_upsert_grows.
  - unfold remove_group_member_route. intros <-%Ok_inj. by destruct (is_last_active_service_admin s user_id).
  - by intros <-%Ok_inj.
  - unfold delete_organization. intros <-%Ok_inj. by case_match.
  - apply group_upsert_grows.
  - unfold create_user. destruct (user_with_email s email); [by intros <-%Ok_inj|].
    destruct (raise_if _ _); [|done]. by intros <-%Ok_inj.
  - unfold upsert_admin_account, admin_user_upsert. intros (s1 & H1 & [G _]%enroll_Ok)%bind_Ok. etrans; [|exact G].
    destruct (user_with_email s email); [by apply Ok_inj in H1 as <-|].
    apply bind_Ok in H1 as (? & _ & <-%Ok_inj). by split.
  - unfold complete_email_verification. destruct (users s !! user_id); [|by intros <-%Ok_inj].
    destruct (negb _); [by intros <-%Ok_inj|]. destruct (has_service_admin s); [by intros <-%Ok_inj|].
    intros [G _]%enroll_Ok. by etrans; [|exact G].
  - unfold approve_user. destruct (users s !! user_id); [|by intros <-%Ok_inj]. destruct (negb _); [by intros <-%Ok_inj|].
    destruct (enroll _ _ _ _ _ _ _ _ _ _) as [s1|] eqn:E; [|done]. intros <-%Ok_inj. apply enroll_Ok in E as [G _].
    by etrans; [|exact G].
  - unfold update_cluster_registration_status. destruct (_ !! _); [apply put_cluster_grows|by intros <-%Ok_inj].
  - unfold mark_cluster_registration_connected. destruct (_ !! _); [|by intros <-%Ok_inj]. case_bool_decide; [|by intros <-%Ok_inj].
    destruct (put_cluster _ _ _) eqn:E; [|done]. intros <-%Ok_inj. by apply put_cluster_grows in E.
  - unfold reissue_target_cluster_install. destruct (_ !! _); [|by intros <-%Ok_inj]. case_bool_decide; [|by intros <-%Ok_inj].
    destruct (put_cluster _ _ _) eqn:E; [|done]. intros <-%Ok_inj. by apply put_cluster_grows in E.
  - unfold unregister_target_cluster. destruct (_ !! _); intros <-%Ok_inj; by split.
Qed.

Lemma quiet_events s o s' : quiet o = true -> events_of s o s' = [].
Proof. by destruct o. Qed.

(** *** Policies *)

Lemma default_rows_checked :
  forallb (fun row => str_eqb row.2 ACTIVE && str_eqb row.1.1.1.1 GLOBAL_ROLE_POLICY_ORGANIZATION_ID
                      && str_eqb (retire_roles row.1 ACTIVE) ACTIVE) DEFAULT_ROLE_PERMISSION_ROWS = true.
Proof. vm_compute. reflexivity. Qed.

Lemma default_row k st : (k, st) ∈ DEFAULT_ROLE_PERMISSION_ROWS ->
  st = ACTIVE /\ k.1.1.1 = GLOBAL_ROLE_POLICY_ORGANIZATION_ID /\ retire_roles k ACTIVE = ACTIVE.
Proof.
  intros Hin%list_elem_of_In. pose proof (proj1 (forallb_forall _ _) default_rows_checked _ Hin) as Hrow. cbn [fst snd] in Hrow.
  apply andb_true_iff in Hrow as [[H1 H2]%andb_true_iff H3]. by rewrite str_eqb_eq in H1, H2, H3.
Qed.

Lemma default_row_iff t r p :
  (GLOBAL_ROLE_POLICY_ORGANIZATION_ID, t, role_value r, p, ACTIVE) ∈ DEFAULT_ROLE_PERMISSION_ROWS <->
  t ∈ PLATFORM_RESOURCE_TYPES /\ p ∈ RESOURCE_ROLE_PERMISSIONS r.
Proof.
  unfold DEFAULT_ROLE_PERMISSION_ROWS. split.
  - intros (t' & (r' & (p' & Hin & Hp)%list_elem_of_bind & _)%list_elem_of_bind & Ht)%list_elem_of_bind.
    apply list_elem_of_singleton in Hin. injection Hin as -> E ->. apply role_value_inj in E as <-. done.
  - intros [Ht Hp]. apply list_elem_of_bind. exists t. split; [|done]. apply list_elem_of_bind. exists r.
    split; [|apply (bool_decide_eq_true_1 _); by destruct r]. apply list_elem_of_bind. exists p. split; [|done]. by apply list_elem_of_singleton.
Qed.

Lemma upserts_policies rows s :
  resource_assignments (foldl role_permission_upsert s rows) = resource_assignments s /\
  member_resource_roles (foldl role_permission_upsert s rows) = member_resource_roles s /\
  organization_members (foldl role_permission_upsert s rows) = organization_members s /\
  forall k st, role_permissions (foldl role_permission_upsert s rows) !! k = Some st ->
    (k, st) ∈ rows \/ role_permissions s !! k = Some st.
Proof.
  revert s. induction rows as [|row rows IH]; intros s; cbn [foldl]; [by split_and!; auto|].
  destruct (IH (role_permission_upsert s row)) as (-> & -> & -> & Hrows). split_and!; try done.
  intros k st [Hin|Hk]%Hrows; [left; by right|]. cbn in Hk. destruct (decide (row.1 = k)) as [<-|Hne].
  - rewrite lookup_insert, decide_True in Hk by done. injection Hk as <-. left. rewrite <- surjective_pairing. by left.
  - rewrite lookup_insert_ne in Hk by done. by right.
Qed.

Lemma ensure_policies_wf s : wf s -> wf (ensure_default_role_permissions s).
Proof.
  intros [Ha Hr Hp]. unfold ensure_default_role_permissions.
  edestruct upserts_policies as (Ea & Er & Eo & Hrows). split.
  - by rewrite Ea.
  - rewrite Er, Ea. unfold get_organization_member. by rewrite Eo.
  - intros k st [Hin|Hk]%Hrows; [done|]. cbn in Hk. rewrite map_lookup_imap in Hk.
    destruct (role_permissions s !! k) as [st'|] eqn:Hk'; [|done]. cbn in Hk. injection Hk as <-.
    pose proof (Hp _ _ Hk') as Hin. destruct (default_row _ _ Hin) as (-> & _ & ->). done.
Qed.

(** *** Roles and their history *)

Definition row_view (m : MemberResourceRole) : string * string := (mr_role m, mr_status m).
Definition standing_view (rb : ResourceRole * bool) : string * string :=
  (role_value rb.1, if rb.2 then ACTIVE else DISABLED).

Definition follows (s : db) (h : list role_event) : Prop :=
  forall id u, row_view <$> member_resource_roles s !! (id, u) = standing_view <$> standing id u h.

Lemma grants_wf s s' u org t i r :
  wf s -> (forall a, resource_assignments s !! resource_assignment_id org t i = Some a -> ra_organization_id a = org) ->
  grants s s' u org t i r -> wf s'.
Proof.
  intros [Ha Hr Hp] Hc (Ep & Hm & Ho & (g & Ea) & m & Er & Hst & Hmr). set (id := resource_assignment_id org t i) in *.
  split.
  - rewrite Ea. intros id' a. destruct (decide (id = id')) as [<-|Hne];
      [rewrite lookup_insert, decide_True by done; by intros [= <-]|rewrite lookup_insert_ne by done; apply Ha].
  - rewrite Er, Ea. intros id' u' m' Hl.
    assert ((exists r', mr_role m' = role_value r') /\
            (id' = id /\ u' = u \/ exists m0, member_resource_roles s !! (id', u') = Some m0)) as [Hv Hwhich].
    { destruct (decide ((id, u) = (id', u'))) as [[= <- <-]|Hne].
      - rewrite lookup_insert, decide_True in Hl by done. injection Hl as <-. split; [|by left]. rewrite Hmr.
        unfold next_role, upserted_role. destruct (member_resource_roles s !! (id, u)) eqn:E; [|by eexists].
        case_match; [|by eexists]. by apply Hr in E as [? _].
      - rewrite lookup_insert_ne in Hl by done. split; [by apply Hr in Hl as [? _]|]. right. by eexists. }
    split; [done|]. destruct (decide (id = id')) as [<-|Hne].
    + rewrite lookup_insert, decide_True by done. eexists. split; [done|]. cbn [ra_organization_id].
      destruct Hwhich as [[_ ->]|[m0 Hm0]]; [done|]. apply Hr in Hm0 as (_ & a & Hla & Hoa).
      apply Hm. by rewrite <- (Hc _ Hla).
    + rewrite lookup_insert_ne by done. destruct Hwhich as [[-> _]|[m0 Hm0]]; [done|].
      apply Hr in Hm0 as (_ & a & Hla & Hoa). exists a. split; [done|by apply Hm].
  - by rewrite Ep.
Qed.

Lemma grants_follows s s' u org t i r h :
  grants s s' u org t i r -> follows s h -> follows s' (Granted (resource_assignment_id org t i) u r :: h).
Proof.
  intros (_ & _ & _ & _ & m & Er & Hst & Hmr) Hf id' u'. rewrite Er. cbn [standing].
  destruct (decide ((resource_assignment_id org t i, u) = (id', u'))) as [E|Hne].
  - rewrite bool_decide_true by done. injection E as <- <-. rewrite lookup_insert, decide_True by done.
    cbn. unfold row_view. rewrite Hst, Hmr. do 2 f_equal. specialize (Hf (resource_assignment_id org t i) u).
    unfold next_role, upserted_role. destruct (member_resource_roles s !! _) as [m0|], (standing _ _ h) as [[r0 b0]|]; try done.
    cbn in Hf. injection Hf as -> _. by destruct r0, r.
  - rewrite bool_decide_false by done. rewrite lookup_insert_ne by done. apply Hf.
Qed.

Definition revoked (km : string * string * MemberResourceRole) : role_event := Revoked km.1.1 km.1.2.
Definition dropped (km : string * string * MemberResourceRole) : role_event := Dropped km.1.1 km.1.2.

Lemma standing_revoked id u l h :
  standing id u ((revoked <$> l) ++ h) =
  if bool_decide ((id, u) ∈ l.*1) then (fun rb => (rb.1, false)) <$> standing id u h else standing id u h.
Proof.
  induction l as [|[[id' u'] m] l IH]; [done|]. rewrite !fmap_cons. cbn [app standing revoked fst snd].
  rewrite IH. destruct (decide ((id', u') = (id, u))) as [E|Hne].
  - rewrite (bool_decide_true ((id', u') = (id, u))) by done. rewrite (bool_decide_true (_ ∈ _ :: _)) by (rewrite E; left).
    case_bool_decide; [|done]. by destruct (standing id u h).
  - rewrite (bool_decide_false ((id', u') = (id, u))) by done.
    assert (bool_decide ((id, u) ∈ (id', u') :: l.*1) = bool_decide ((id, u) ∈ l.*1)) as ->; [|done].
    apply bool_decide_ext. rewrite elem_of_cons. naive_solver.
Qed.

Lemma standing_dropped id u l h :
  standing id u ((dropped <$> l) ++ h) = if bool_decide ((id, u) ∈ l.*1) then None else standing id u h.
Proof.
  induction l as [|[[id' u'] m] l IH]; [done|]. rewrite !fmap_cons. cbn [app standing dropped fst snd].
  rewrite IH. destruct (decide ((id', u') = (id, u))) as [E|Hne].
  - rewrite (bool_decide_true ((id', u') = (id, u))) by done. by rewrite (bool_decide_true (_ ∈ _ :: _)) by (rewrite E; left).
  - rewrite (bool_decide_false ((id', u') = (id, u))) by done.
    assert (bool_decide ((id, u) ∈ (id', u') :: l.*1) = bool_decide ((id, u) ∈ l.*1)) as ->; [|done].
    apply bool_decide_ext. rewrite elem_of_cons. naive_solver.
Qed.

(** The keys of the rows that a condition selects. *)
Lemma selected_keys (p : string * string * MemberResourceRole -> bool) (t : gmap (string * string) MemberResourceRole) k :
  k ∈ (keep p (map_to_list t)).*1 <-> exists m, t !! k = Some m /\ p (k, m) = true.
Proof.
  rewrite list_elem_of_fmap. split.
  - intros ([k' m] & -> & [Hin Hp]%elem_of_keep). apply elem_of_map_to_list in Hin. by exists m.
  - intros (m & Hk & Hp). exists (k, m). split; [done|]. apply elem_of_keep. by rewrite elem_of_map_to_list.
Qed.

Lemma revoke_wf s id : wf s -> wf (revoke_access s id).
Proof.
  intros [Ha Hr Hp]. unfold revoke_access. destruct (int_of_str id) as [n|]; [|by split].
  split; [exact Ha| |exact Hp]. intros id' u m. cbn. rewrite lookup_fmap. intros (m0 & Hm0 & ->)%fmap_Some_1.
  destruct (Hr _ _ _ Hm0) as [Hv Hex]. split; [|done]. by case_match.
Qed.

Lemma revoke_follows s id s' h : s' = revoke_access s id -> follows s h -> follows s' (events_of s (Revoke id) s' ++ h).
Proof.
  intros -> Hf. unfold revoke_access. cbn [events_of granted_by]. destruct (int_of_str id) as [n|]; [|exact Hf].
  intros id' u. change (_ <$> keep ?p ?l) with (revoked <$> keep p l). rewrite standing_revoked. cbn [member_resource_roles with_member_roles].
  rewrite lookup_fmap. specialize (Hf id' u). rewrite bool_decide_decide. destruct (decide _) as [Hin|Hnin].
  - apply selected_keys in Hin as (m & Hm & Hn). cbn [snd] in Hn. rewrite Hm in Hf |- *. cbn in Hf |- *. rewrite Hn.
    destruct (standing id' u h) as [[r b]|]; [|done]. cbn in Hf |- *. unfold row_view, standing_view in *. cbn in *. by injection Hf as ->.
  - destruct (member_resource_roles s !! (id', u)) as [m|] eqn:Hm; [|done]. cbn. rewrite <- Hf.
    destruct (mr_id m =? n) eqn:Hn; [|done]. exfalso. apply Hnin, selected_keys. by exists m.
Qed.

Lemma purge_shape b s w c :
  let s' := (purge_test_target_cluster_registration b s w c).1 in
  organization_members s' = organization_members s /\ role_permissions s' = role_permissions s /\
  (forall id a, resource_assignments s' !! id = Some a -> resource_assignments s !! id = Some a) /\
  (forall id u m, member_resource_roles s' !! (id, u) = Some m -> member_resource_roles s !! (id, u) = Some m /\
     forall a, resource_assignments s !! id = Some a -> resource_assignments s' !! id = Some a).
Proof.
  unfold purge_test_target_cluster_registration. destruct (negb b); [by split_and!|].
  destruct (cluster_registrations s !! (w, c)) as [reg|]; [|by split_and!]. destruct (_ && _); [|by split_and!].
  cbn [fst]. split_and!; try done.
  - intros id a [Hla _]%map_lookup_filter_Some. done.
  - intros id u m [Hm Hd]%map_lookup_filter_Some. split; [done|]. intros a Hla. apply map_lookup_filter_Some. split; [done|].
    cbn in Hd. by rewrite Hla in Hd.
Qed.

Lemma purge_wf b s w c : wf s -> wf (purge_test_target_cluster_registration b s w c).1.
Proof.
  intros [Ha Hr Hp]. destruct (purge_shape b s w c) as (Eo & Ep & Hass & Hrol). split.
  - intros id a Hla. by apply Ha, Hass.
  - intros id u m [Hm Hk]%Hrol. destruct (Hr _ _ _ Hm) as (Hv & a & Hla & Hoa). split; [done|]. exists a.
    split; [by apply Hk|]. unfold get_organization_member. by rewrite Eo.
  - by rewrite Ep.
Qed.

Lemma purge_follows b s w c s' h :
  s' = (purge_test_target_cluster_registration b s w c).1 -> follows s h -> follows s' (events_of s (Purge b w c) s' ++ h).
Proof.
  intros -> Hf id u. destruct (purge_shape b s w c) as (_ & _ & _ & Hrol). set (s' := _.1) in *.
  cbn [events_of granted_by]. change (_ <$> keep ?p ?l) with (dropped <$> keep p l). rewrite standing_dropped, bool_decide_decide.
  specialize (Hf id u).
  destruct (decide _) as [Hin|Hnin].
  - apply selected_keys in Hin as (m & Hm & Hg). unfold gone in Hg. apply bool_decide_eq_true in Hg. cbn [fst] in Hg. by rewrite Hg.
  - destruct (member_resource_roles s' !! (id, u)) as [m|] eqn:Hm; [by rewrite <- Hf; destruct (Hrol _ _ _ Hm) as [-> _]|].
    destruct (member_resource_roles s !! (id, u)) as [m|] eqn:Hm0; [|by rewrite <- Hf]. exfalso. apply Hnin, selected_keys. exists m.
    split; [done|]. by apply bool_decide_true.
Qed.

Lemma history_ok s h : run s h -> wf s /\ follows s h.
Proof.
  induction 1 as [|s h o now s' _ [Hwf Hf] Hc Hrun].
  - unfold follows. split; [split|]; intros *; cbn [empty resource_assignments member_resource_roles role_permissions standing];
      by rewrite lookup_empty.
  - destruct (quiet o) eqn:Hq.
    + pose proof (quiet_grows _ _ _ _ Hq Hrun) as G. rewrite quiet_events by done. split; [by apply (wf_grows s)|].
      intros id u. rewrite (gr_roles _ _ G). apply Hf.
    + assert (forall u org t i r, granted_by o = Some (u, org, t, i, r) -> grants s s' u org t i r ->
                wf s' /\ follows s' (Granted (resource_assignment_id org t i) u r :: h)) as Hgrant.
      { intros u org t i r Hg Hgr. split; [|by apply (grants_follows s)]. apply (grants_wf s s' u org t i r); [done| |done].
        intros a Ha. by destruct (Hc _ _ _ _ _ a Hg Ha). }
      destruct o; try discriminate Hq; cbn [run_op] in Hrun.
      * apply Ok_inj in Hrun as <-. split; [by apply ensure_policies_wf|]. intros id u.
        unfold ensure_default_role_permissions. edestruct upserts_policies as (_ & -> & _). apply Hf.
      * apply register_Ok in Hrun as (u & org & t & i & r & Hg & Hgr); [|done]. unfold events_of. rewrite Hg. by apply Hgrant.
      * apply grant_Ok in Hrun as (u & org & t & i & r & Hg & Hgr); [|done]. unfold events_of. rewrite Hg. by apply Hgrant.
      * apply Ok_inj in Hrun. split; [rewrite <- Hrun; by apply revoke_wf|by apply revoke_follows].
      * apply Ok_inj in Hrun. split; [rewrite <- Hrun; by apply purge_wf|by apply purge_follows].
Qed.

(** ** Who may do what *)

Lemma assignment_found s o t i id a :
  wf s -> (get_resource_assignment_for_org s o t i = Some (id, a) <->
           id = resource_assignment_id o t i /\ resource_assignments s !! id = Some a /\ assigned o t i a = true).
Proof.
  intros Hwf. unfold get_resource_assignment_for_org.
  assert (forall id a, (id, a) ∈ keep (fun ia => assigned o t i ia.2) (map_to_list (resource_assignments s)) ->
            id = resource_assignment_id o t i /\ resource_assignments s !! id = Some a /\ assigned o t i a = true) as Hin.
  { intros id' a' [Hl Ha]%elem_of_keep. apply elem_of_map_to_list in Hl. cbn [snd] in Ha. split; [|done].
    pose proof (wf_assignments _ Hwf _ _ Hl) as ->. unfold assigned in Ha. rewrite !andb_true_iff, !str_eqb_eq in Ha.
    by destruct Ha as [[[-> ->] ->] _]. }
  split.
  - intros Hh%head_Some_elem_of. by apply Hin.
  - intros (Eid & Hl & Ha).
    assert ((id, a) ∈ keep (fun ia => assigned o t i ia.2) (map_to_list (resource_assignments s))) as Hmem
      by (apply elem_of_keep; by rewrite elem_of_map_to_list).
    destruct (keep _ _) as [|[id' a'] l] eqn:Ek; [by apply not_elem_of_nil in Hmem|]. cbn [head].
    destruct (Hin id' a') as (-> & Hl' & _); [left|]. subst id. congruence.
Qed.

(** The role of a member, and what lets it be in force. *)
Lemma held_role_iff s u o t i role :
  wf s -> held_role s u o t i = Some role <->
  get_organization_member s o u = true /\
  exists a, resource_assignments s !! resource_assignment_id o t i = Some a /\ assigned o t i a = true /\
    get_group_member s (ra_group_id a) u = true /\ get_member_resource_role s (resource_assignment_id o t i) u = Some role.
Proof.
  intros Hwf. unfold held_role. destruct (get_organization_member s o u); cbn [negb]; [|naive_solver].
  destruct (get_resource_assignment_for_org s o t i) as [[id a]|] eqn:Hg.
  - apply assignment_found in Hg as (-> & Hl & Ha); [|done]. destruct (get_group_member s (ra_group_id a) u) eqn:Em; cbn [negb].
    + split; [intros Hr; split_and!; try done; by exists a|]. intros (_ & a' & Hl' & _ & _ & Hr). done.
    + split; [done|]. intros (_ & a' & Hl' & _ & Hm & _). congruence.
  - split; [done|]. intros (_ & a & Hl & Ha & _).
    assert (get_resource_assignment_for_org s o t i = Some (resource_assignment_id o t i, a)) as E by (by apply assignment_found).
    congruence.
Qed.

Definition policy_scope (s : db) (o t role : string) : string :=
  if scoped_rows_exist s o t role then o else GLOBAL_ROLE_POLICY_ORGANIZATION_ID.

Lemma scoped_rows_none s o t role : wf s -> o <> GLOBAL_ROLE_POLICY_ORGANIZATION_ID -> scoped_rows_exist s o t role = false.
Proof.
  intros Hwf Ho. unfold scoped_rows_exist. apply not_true_is_false. rewrite existsb_exists.
  intros ([[[[o' t'] r'] p'] st] & Hin%list_elem_of_In & Hb%bool_decide_eq_true). apply elem_of_map_to_list in Hin.
  apply (wf_policies _ Hwf), default_row in Hin as (_ & E & _). cbn in Hb, E. injection Hb as -> -> ->. done.
Qed.

Lemma policy_scope_global s o t role : wf s -> policy_scope s o t role = GLOBAL_ROLE_POLICY_ORGANIZATION_ID.
Proof.
  intros Hwf. unfold policy_scope. destruct (decide (o = GLOBAL_ROLE_POLICY_ORGANIZATION_ID)) as [->|Ho]; [by case_match|].
  by rewrite scoped_rows_none.
Qed.

Lemma role_permissions_iff s t r o :
  wf s -> exists ps, get_role_permissions s t (role_value r) o = Ok ps /\
    forall p, p ∈ ps <-> active_policy s (policy_scope s o t (role_value r)) t (role_value r) p = true.
Proof.
  intros Hwf. unfold get_role_permissions. rewrite resource_role_value. cbn [mbind res_bind]. eexists. split; [reflexivity|].
  intros p. rewrite policy_scope_global by done.
  assert ((if scoped_rows_exist s (role_policy_scope o) t (role_value r) then role_policy_scope o
           else GLOBAL_ROLE_POLICY_ORGANIZATION_ID) = GLOBAL_ROLE_POLICY_ORGANIZATION_ID) as ->
    by apply (policy_scope_global s (role_policy_scope o) t (role_value r) Hwf).
  rewrite elem_of_list_to_set, list_elem_of_fmap. unfold active_policy. split.
  - intros ([[k p'] st] & -> & [Hin Hb]%elem_of_keep). apply elem_of_map_to_list in Hin. cbn [fst snd] in Hb |- *.
    apply andb_true_iff in Hb as [->%bool_decide_eq_true Hst]. by rewrite Hin.
  - destruct (role_permissions s !! _) as [st|] eqn:Hl; [|done]. intros Hst. eexists (_, st). split; [|apply elem_of_keep].
    2: { split; [by apply elem_of_map_to_list|]. cbn [fst snd]. rewrite bool_decide_true by done. done. }
    done.
Qed.

Lemma active_policy_default s t r p :
  wf s -> active_policy s GLOBAL_ROLE_POLICY_ORGANIZATION_ID t (role_value r) p = true ->
  t ∈ PLATFORM_RESOURCE_TYPES /\ p ∈ RESOURCE_ROLE_PERMISSIONS r.
Proof.
  intros Hwf. unfold active_policy. destruct (role_permissions s !! _) as [st|] eqn:Hl; [|done]. intros ->%str_eqb_eq.
  apply default_row_iff. by apply (wf_policies _ Hwf).
Qed.

Lemma member_role_standing s h id u role :
  follows s h -> get_member_resource_role s id u = Some role <-> exists r, role = role_value r /\ standing id u h = Some (r, true).
Proof.
  intros Hf. specialize (Hf id u). unfold get_member_resource_role.
  destruct (member_resource_roles s !! (id, u)) as [m|], (standing id u h) as [[r b]|]; try done; [|naive_solver].
  cbn in Hf. injection Hf as Er Es. rewrite Er, Es. destruct b; cbn; naive_solver.
Qed.

Lemma permission_valid p q : permission_value p = Ok q -> q = p /\ p ∈ Permissions.
Proof. unfold permission_value. case_bool_decide; [|done]. by intros <-%Ok_inj. Qed.

(** A role that stands was granted, and the row has not been dropped since. *)
Lemma standing_granted id u h r b :
  standing id u h = Some (r, b) -> exists h1 h2, h = h1 ++ Granted id u r :: h2 /\ Dropped id u ∉ h1.
Proof.
  revert r b. induction h as [|e h IH]; intros r b; [done|]. cbn [standing].
  assert (forall r b, standing id u h = Some (r, b) -> e <> Dropped id u ->
    exists h1 h2, e :: h = h1 ++ Granted id u r :: h2 /\ Dropped id u ∉ h1) as Hstep.
  { intros r' b' (h1 & h2 & -> & Hd)%IH He. exists (e :: h1), h2. split; [done|]. by apply not_elem_of_cons. }
  destruct e as [id' u' r'|id' u'|id' u']; case_bool_decide as E;
    try (intros Hs; apply (Hstep _ _ Hs); intros [= -> ->]; done); [..|done]; injection E as -> ->.
  - destruct (standing id u h) as [[[] b']|] eqn:Es; intros [= <- <-];
      try (exists [], h; split; [done|apply not_elem_of_nil]). by apply (Hstep _ _ eq_refl).
  - destruct (standing id u h) as [[r0 b']|] eqn:Es; [|done]. intros [= <- <-]. by apply (Hstep _ _ eq_refl).
Qed.

(** A role is in force only when the last that happened to it is a grant. *)
Lemma standing_in_force id u h r :
  standing id u h = Some (r, true) ->
  exists later r0 before, h = later ++ Granted id u r0 :: before /\
    (forall e, e ∈ later -> e <> Revoked id u /\ e <> Dropped id u /\ forall r', e <> Granted id u r') /\
    (r = r0 \/ (r = CLUSTER_STEWARD /\ exists b, standing id u before = Some (CLUSTER_STEWARD, b))).
Proof.
  induction h as [|e h IH]; [done|]. cbn [standing].
  assert (standing id u h = Some (r, true) -> (e <> Revoked id u /\ e <> Dropped id u /\ forall r', e <> Granted id u r') ->
    exists later r0 before, e :: h = later ++ Granted id u r0 :: before /\
      (forall e, e ∈ later -> e <> Revoked id u /\ e <> Dropped id u /\ forall r', e <> Granted id u r') /\
      (r = r0 \/ (r = CLUSTER_STEWARD /\ exists b, standing id u before = Some (CLUSTER_STEWARD, b)))) as Hstep.
  { intros (later & r0 & before & -> & Hl & Hr)%IH He. exists (e :: later), r0, before. split_and!; [done| |done].
    by intros e' [->|Hin]%elem_of_cons; [|apply Hl]. }
  destruct e as [id' u' r'|id' u'|id' u']; case_bool_decide as E; try (intros; apply Hstep; [done|split_and!; congruence]).
  - injection E as -> ->. intros Hr. exists [], r', h. split_and!; [done|by intros e ?%not_elem_of_nil|].
    destruct (standing id u h) as [[[] b']|] eqn:Es; injection Hr as <-; eauto.
  - by destruct (standing id u h).
Qed.

(** C13: Access of anyone but an administrator rests on a grant.  Over every
    sequence of operations on the tables, a user may do something to a
    resource only when the last thing that happened to the user's role on that
    very resource is a grant, so that nothing has been revoked or removed
    since; the user is a member of the organization and of the group the
    resource is assigned to; and the permission is one of the role that was
    granted then, or of a steward, if the user had been granted the role of a
    steward there before: a grant of any role restores that one, even after it
    was revoked, unless the row was removed in between.  Assignment
    identifiers, which are digests, are taken not to collide. *)
Theorem access_needs_a_grant s h u o t i p :
  let id := resource_assignment_id o t i in
  run s h -> can_access s u o t i p = Ok true -> is_service_admin s u = false ->
  exists later granted before,
    h = later ++ Granted id u granted :: before /\
    (forall e, e ∈ later -> e <> Revoked id u /\ e <> Dropped id u /\ forall r, e <> Granted id u r) /\
    (p ∈ RESOURCE_ROLE_PERMISSIONS granted \/
     (p ∈ RESOURCE_ROLE_PERMISSIONS CLUSTER_STEWARD /\
      exists between old, before = between ++ Granted id u CLUSTER_STEWARD :: old /\ Dropped id u ∉ between)) /\
    t ∈ PLATFORM_RESOURCE_TYPES /\
    exists a, resource_assignments s !! id = Some a /\
      assigned o t i a = true /\ get_group_member s (ra_group_id a) u = true /\ get_organization_member s o u = true.
Proof.
  intros id [Hwf Hf]%history_ok Hcan Hadm. unfold can_access in Hcan. rewrite Hadm in Hcan.
  destruct (held_role s u o t i) as [role|] eqn:Hh; [|done].
  apply held_role_iff in Hh as (Ho & a & Hl & Ha & Hg & Hr); [|done].
  apply (member_role_standing s h) in Hr as (r & -> & Hst); [|done].
  unfold role_has_permission in Hcan. apply bind_Ok in Hcan as (p' & [-> Hp]%permission_valid & Hcan).
  destruct (role_permissions_iff s t r o Hwf) as (ps & Eps & Hps). rewrite Eps in Hcan. cbn [mbind res_bind] in Hcan.
  apply Ok_inj, bool_decide_eq_true in Hcan. apply Hps in Hcan. rewrite policy_scope_global in Hcan by done.
  apply active_policy_default in Hcan as [Ht Hp']; [|done].
  apply standing_in_force in Hst as (later & r0 & before & -> & Hlast & Hrole). exists later, r0, before.
  split_and!; [done|done| |done|by exists a].
  destruct Hrole as [->|(-> & b & (h1 & h2 & -> & Hd)%standing_granted)]; [by left|right]. eauto.
Qed.

(** Once a role has been revoked, it gives no access any more, whatever
    happens to anything else, until the same user is granted a role on the
    same resource again. *)
Theorem revoked_access_stays_revoked s later h u o t i p :
  let id := resource_assignment_id o t i in
  run s (later ++ Revoked id u :: h) -> (forall r, Granted id u r ∉ later) -> is_service_admin s u = false ->
  can_access s u o t i p = Ok false.
Proof.
  intros id [Hwf Hf]%history_ok Hno Hadm. unfold can_access. rewrite Hadm.
  destruct (held_role s u o t i) as [role|] eqn:Hh; [exfalso|done].
  apply held_role_iff in Hh as (_ & a & _ & _ & _ & Hr); [|done].
  apply (member_role_standing s _ _ _ _ Hf) in Hr as (r & _ & Hst). fold id in Hst.
  assert (forall r, standing id u (later ++ Revoked id u :: h) <> Some (r, true)) as Hnot; [|by apply (Hnot r)].
  clear -Hno. induction later as [|e later IH]; intros r; cbn [app standing].
  - rewrite bool_decide_true by done. by destruct (standing id u h).
  - assert (forall r, standing id u (later ++ Revoked id u :: h) <> Some (r, true)) as IH'
      by (apply IH; intros r' Hin; apply (Hno r'); by right).
    destruct e as [id' u' r'|id' u'|id' u']; case_bool_decide as E; try apply IH'; try done.
    + injection E as -> ->. exfalso. apply (Hno r'). by left.
    + by destruct (standing id u _).
Qed.

(** C22: The list of what a user may reach is made by one statement over all
    assignments; it is the list of the resources that the check of a single
    resource would admit. *)
Theorem accessible_ids_are_the_accessible s h u w t p :
  run s h -> is_service_admin s u = false -> p ∈ Permissions ->
  exists ids, accessible_resource_ids s u w t p = Ok (Some ids) /\
    forall i, i ∈ ids <-> can_access s u w t i p = Ok true.
Proof.
  intros [Hwf Hf]%history_ok Hadm Hp. unfold accessible_resource_ids, can_access. rewrite Hadm.
  unfold role_has_permission, permission_value. rewrite bool_decide_true by done. cbn [mbind res_bind]. eexists. split; [done|].
  intros i. rewrite elem_of_list_to_set, list_elem_of_fmap. split.
  - intros ([id a] & -> & [Hin Hrow]%elem_of_keep). apply elem_of_map_to_list in Hin. cbn [snd].
    unfold accessible_row in Hrow. cbn [fst snd] in Hrow. rewrite !andb_true_iff, !str_eqb_eq in Hrow.
    destruct Hrow as [[[[Ew Et] Es] Hg] Hpol]. destruct (get_member_resource_role s id u) as [role|] eqn:Hr; [|done].
    pose proof (wf_assignments _ Hwf _ _ Hin) as Eid. rewrite Ew, Et in Eid. subst id.
    assert (held_role s u w t (ra_resource_id a) = Some role) as ->.
    { apply held_role_iff; [done|]. split.
      - unfold get_member_resource_role in Hr. destruct (member_resource_roles s !! _) as [m|] eqn:Hm; [|done].
        destruct (wf_roles _ Hwf _ _ _ Hm) as (_ & a' & Ha' & Ho). congruence.
      - exists a. split_and!; try done. unfold assigned. by rewrite Ew, Et, Es, !str_eqb_refl. }
    apply (member_role_standing s h) in Hr as (r & -> & _); [|done].
    destruct (role_permissions_iff s t r w Hwf) as (ps & -> & Hps). cbn [mbind res_bind]. f_equal. apply bool_decide_true. by apply Hps.
  - destruct (held_role s u w t i) as [role|] eqn:Hh; [|done]. apply held_role_iff in Hh as (Ho & a & Hl & Ha & Hg & Hr); [|done].
    intros Hok. pose proof Ha as Ha'. unfold assigned in Ha'. rewrite !andb_true_iff, !str_eqb_eq in Ha'. destruct Ha' as [[[Ew Et] Ei] Es].
    exists (resource_assignment_id w t i, a). split; [done|]. apply elem_of_keep. split; [by apply elem_of_map_to_list|].
    unfold accessible_row. cbn [fst snd]. rewrite Ew, Et, Es, !str_eqb_refl, Hg, Hr. cbn [andb].
    apply (member_role_standing s h) in Hr as (r & -> & _); [|done].
    destruct (role_permissions_iff s t r w Hwf) as (ps & Eps & Hps). rewrite Eps in Hok. cbn [mbind res_bind] in Hok.
    apply Ok_inj, bool_decide_eq_true, Hps in Hok. done.
Qed.

(** The list of permissions that the interface shows for a resource is the
    set of those that the check would admit. *)
Theorem effective_permissions_are_the_admitted s h u o t i p :
  run s h -> p ∈ Permissions ->
  exists ps, effective_permissions_for_resource s u o t i = Ok ps /\ (p ∈ ps <-> can_access s u o t i p = Ok true).
Proof.
  intros [Hwf Hf]%history_ok Hp. unfold effective_permissions_for_resource, can_access. destruct (is_service_admin s u).
  { eexists. split; [done|]. by rewrite elem_of_list_to_set. }
  destruct (held_role s u o t i) as [role|] eqn:Hh; [|by exists ∅; split; [done|set_solver]].
  apply held_role_iff in Hh as (_ & a & _ & _ & _ & Hr); [|done]. apply (member_role_standing s h) in Hr as (r & -> & _); [|done].
  destruct (role_permissions_iff s t r o Hwf) as (ps & Eps & _). exists ps. split; [done|].
  unfold role_has_permission, permission_value. rewrite bool_decide_true by done. cbn [mbind res_bind]. rewrite Eps. cbn [mbind res_bind].
  split; [intros Hin; by rewrite bool_decide_true|]. by intros ?%Ok_inj%bool_decide_eq_true.
Qed.

(** Taking a user out of the group that a resource is assigned to ends the
    access to it at once. *)
Lemma removed_member_has_no_access s h g u o t i p a :
  run s h -> is_service_admin s u = false ->
  resource_assignments s !! resource_assignment_id o t i = Some a -> ra_group_id a = g ->
  can_access (remove_group_member s g u) u o t i p = Ok false.
Proof.
  intros [Hwf Hf]%history_ok Hadm Hl Hg. set (s' := remove_group_member s g u).
  assert (wf s') as Hwf' by (by apply (wf_grows s)).
  unfold can_access. assert (is_service_admin s' u = false) as -> by done.
  destruct (held_role s' u o t i) as [role|] eqn:Hh; [exfalso|done].
  apply held_role_iff in Hh as (_ & a' & Hl' & _ & Hm & _); [|done].
  assert (a' = a) as -> by (change (resource_assignments s') with (resource_assignments s) in Hl'; congruence).
  unfold get_group_member, active_member, s', remove_group_member in Hm. cbn [group_members with_group_members] in Hm.
  rewrite Hg, lookup_alter in Hm. rewrite decide_True in Hm by done. by destruct (group_members s !! (g, u)).
Qed.

(** Each role has what the roles below it have. *)
Lemma roles_are_nested r r' p :
  (r, r') ∈ [(OBSERVER, RELEASE_OPERATOR); (RELEASE_OPERATOR, INCIDENT_OPERATOR); (INCIDENT_OPERATOR, CLUSTER_STEWARD)] ->
  p ∈ RESOURCE_ROLE_PERMISSIONS r -> p ∈ RESOURCE_ROLE_PERMISSIONS r'.
Proof.
  rewrite !elem_of_cons. intros [[= -> ->]|[[= -> ->]|[[= -> ->]|?%not_elem_of_nil]]] Hp; try done; apply elem_of_app; by left.
Qed.

Lemma steward_has_all r p : p ∈ RESOURCE_ROLE_PERMISSIONS r -> p ∈ RESOURCE_ROLE_PERMISSIONS CLUSTER_STEWARD.
Proof.
  intros Hp. assert (forall r1 r2, (r1, r2) ∈ [(OBSERVER, RELEASE_OPERATOR); (RELEASE_OPERATOR, INCIDENT_OPERATOR);
    (INCIDENT_OPERATOR, CLUSTER_STEWARD)] -> p ∈ RESOURCE_ROLE_PERMISSIONS r1 -> p ∈ RESOURCE_ROLE_PERMISSIONS r2) as Hn
    by (intros r1 r2; apply roles_are_nested).
  destruct r; [apply (Hn INCIDENT_OPERATOR), (Hn RELEASE_OPERATOR), (Hn OBSERVER)|apply (Hn INCIDENT_OPERATOR), (Hn RELEASE_OPERATOR)
              |apply (Hn INCIDENT_OPERATOR)|]; try done; rewrite !elem_of_cons; auto.
Qed.

Lemma role_permissions_exist r p : p ∈ RESOURCE_ROLE_PERMISSIONS r -> p ∈ Permissions.
Proof.
  intros Hp%steward_has_all%list_elem_of_In.
  assert (forallb (fun p => bool_decide (p ∈ Permissions)) (RESOURCE_ROLE_PERMISSIONS CLUSTER_STEWARD) = true) as Hall
    by (vm_compute; reflexivity).
  by apply (proj1 (forallb_forall _ _) Hall), bool_decide_eq_true in Hp.
Qed.

(** *** A grant gives what it says *)

Definition policies_in_force (s : db) : Prop :=
  forall k st, (k, st) ∈ DEFAULT_ROLE_PERMISSION_ROWS -> role_permissions s !! k = Some ACTIVE.

Lemma upserts_in_force rows : forall s k,
  Forall (fun row => row.2 = ACTIVE) rows -> (k ∈ rows.*1 \/ role_permissions s !! k = Some ACTIVE) ->
  role_permissions (foldl role_permission_upsert s rows) !! k = Some ACTIVE.
Proof.
  induction rows as [|row rows IH]; intros s k Hall Hk; cbn [foldl]; [by destruct Hk as [?%not_elem_of_nil|]|].
  apply Forall_cons in Hall as [Hrow Hall]. apply IH; [done|]. cbn. destruct (decide (row.1 = k)) as [<-|Hne].
  - right. rewrite lookup_insert, decide_True by done. by rewrite Hrow.
  - rewrite lookup_insert_ne by done. rewrite fmap_cons, elem_of_cons in Hk. naive_solver.
Qed.

Lemma ensured_policies s : policies_in_force (ensure_default_role_permissions s).
Proof.
  intros k st Hin. unfold ensure_default_role_permissions. apply (upserts_in_force DEFAULT_ROLE_PERMISSION_ROWS).
  - rewrite Forall_forall. intros [k' st'] Hrow. by apply default_row in Hrow as (-> & _).
  - left. apply list_elem_of_fmap. by exists (k, st).
Qed.

Lemma enroll_group s u w wn org on orole g grole now s' :
  enroll s u w wn org on orole g grole now = Ok s' -> get_group_member s' g u = true.
Proof.
  unfold enroll. intros (s1 & _ & (s2 & _ & H3)%bind_Ok)%bind_Ok. unfold group_member_upsert in H3.
  apply bind_Ok in H3 as (? & _ & (? & _ & <-%Ok_inj)%bind_Ok). apply membership_upsert_active.
Qed.

(** Granting a role on a resource of the platform lets the user do all that
    the role may do. *)
Theorem granted_role_gives_access s h payload now s' u o t i r p :
  run s h -> policies_in_force s -> no_collision s (Grant payload) -> grant_resource_access s payload now = Ok s' ->
  granted_by (Grant payload) = Some (u, o, t, i, r) -> t ∈ PLATFORM_RESOURCE_TYPES -> p ∈ RESOURCE_ROLE_PERMISSIONS r ->
  can_access s' u o t i p = Ok true.
Proof.
  intros Hrun Hpol Hc Hgrant Hby Ht Hp.
  assert (run s' (events_of s (Grant payload) s' ++ h)) as Hrun' by by econstructor.
  destruct (history_ok _ _ Hrun') as [Hwf Hf]. destruct (grant_Ok _ _ _ _ Hc Hgrant) as (u' & o' & t' & i' & r' & E & Hgr).
  rewrite Hby in E. injection E as <- <- <- <- <-.
  destruct Hgr as (Ep & _ & Ho & (g & Ea) & _).
  assert (get_group_member s' g u = true) as Hg.
  { unfold grant_resource_access, required_text in Hgrant. unfold granted_by in Hby.
    destruct (dict_get payload "resource_type") as [t'|]; [|done]. cbn [raise_none fmap res_fmap mbind res_bind] in Hgrant.
    destruct (dict_get payload "resource_id") as [i'|]; [|done]. cbn [raise_none fmap res_fmap mbind res_bind] in Hgrant.
    destruct (resource_role _) as [r'|]; [|done]. injection Hby as <- <- <- <- <-. cbn [mbind res_bind] in Hgrant.
    apply bind_Ok in Hgrant as (s1 & E1 & (s2 & A2 & R3)%bind_Ok). apply enroll_group in E1.
    unfold resource_assignment_upsert in A2. apply bind_Ok in A2 as (? & _ & <-%Ok_inj).
    unfold member_resource_role_upsert in R3. apply bind_Ok in R3 as (? & _ & <-%Ok_inj).
    cbn [resource_assignments with_member_roles with_assignments] in Ea. apply (f_equal (lookup (resource_assignment_id (grant_organization payload) (py_str t') (py_str i')))) in Ea.
    rewrite !lookup_insert, !decide_True in Ea by done.
    change (get_group_member s1 g (grant_user payload) = true). apply (f_equal (fmap ra_group_id)) in Ea.
    cbn in Ea. injection Ea as <-. by destruct (resource_assignments s1 !! _). }
  unfold can_access. destruct (is_service_admin s' u); [done|].
  assert (exists r1, get_member_resource_role s' (resource_assignment_id o t i) u = Some (role_value r1) /\
            p ∈ RESOURCE_ROLE_PERMISSIONS r1) as (r1 & Hr1 & Hp1).
  { assert (standing (resource_assignment_id o t i) u (events_of s (Grant payload) s' ++ h) =
       Some (match standing (resource_assignment_id o t i) u h with Some (CLUSTER_STEWARD, _) => CLUSTER_STEWARD | _ => r end, true)) as Est
      by (unfold events_of; rewrite Hby; cbn [app standing]; by rewrite bool_decide_true).
    eexists. split; [apply (member_role_standing _ _ _ _ _ Hf); eexists; split; [reflexivity|exact Est]|].
    destruct (standing _ _ h) as [[[] ?]|]; try done. by apply (steward_has_all r). }
  assert (held_role s' u o t i = Some (role_value r1)) as ->.
  { apply held_role_iff; [done|]. split; [done|]. exists {| ra_organization_id := o; ra_group_id := g; ra_resource_type := t;
      ra_resource_id := i; ra_status := ACTIVE |}. rewrite Ea, lookup_insert, decide_True by done. split_and!; try done.
    unfold assigned. cbn. by rewrite !str_eqb_refl. }
  unfold role_has_permission, permission_value. rewrite bool_decide_true by (by apply (role_permissions_exist r1)). cbn [mbind res_bind].
  destruct (role_permissions_iff s' t r1 o Hwf) as (ps & -> & Hps). cbn [mbind res_bind]. f_equal. apply bool_decide_true, Hps.
  rewrite policy_scope_global by done. unfold active_policy. rewrite Ep.
  rewrite (Hpol _ ACTIVE); [done|]. by apply default_row_iff.
Qed.

End access.

(** ** A cluster, its steward and an observer *)
Module Sample.
#[local] Existing Instance Demo.plain_repr.
#[local] Existing Instance Demo.plain_hash.

Definition after (s : db) (o : op) : db := match run_op s o 0 with Ok s' => s' | Err _ => s end.
Definition history (s : db) (h : list role_event) (o : op) : list role_event := events_of s o (after s o) ++ h.

Definition registration : op := Register [("user_id", VStr "ann"); ("workspace_id", VStr "w1"); ("cluster_id", VStr "c1")].
Definition grant_payload (user role : string) : dict :=
  [("subject_id", VStr user); ("resource_type", VStr CLUSTER); ("resource_id", VStr "c1"); ("role", VStr role);
   ("organization_id", VStr "w1")].
Definition grant (user role : string) : op := Grant (grant_payload user role).

Definition s1 : db := after empty EnsurePolicies.
Definition s2 : db := after s1 registration.
Definition s3 : db := after s2 (grant "bob" "observer").
Definition s4 : db := after s3 (Revoke "1").
Definition s5 : db := after s4 (grant "ann" "observer").

Definition h2 : list role_event := history s1 [] registration.
Definition h3 : list role_event := history s2 h2 (grant "bob" "observer").
Definition h4 : list role_event := history s3 h3 (Revoke "1").

Lemma role_after_ok s o : is_ok (run_op s o 0) = true -> run_op s o 0 = Ok (after s o).
Proof. unfold after. by destruct (run_op s o 0). Qed.

Lemma grant_after s p : is_ok (grant_resource_access s p 0) = true -> grant_resource_access s p 0 = Ok (after s (Grant p)).
Proof. apply (role_after_ok s (Grant p)). Qed.

(** No assignment yet, or that of the resource itself. *)
Definition collision_free (s : db) (o : op) : bool :=
  match granted_by o with
  | Some (u, org, t, i, r) =>
      match resource_assignments s !! resource_assignment_id org t i with
      | Some a => str_eqb (ra_organization_id a) org && str_eqb (ra_resource_type a) t && str_eqb (ra_resource_id a) i
      | None => true
      end
  | None => true
  end.

Lemma collision_free_ok s o : collision_free s o = true -> no_collision s o.
Proof.
  unfold collision_free, no_collision. intros Hc u org t i r a Hg Ha. rewrite Hg, Ha in Hc.
  rewrite !andb_true_iff, !str_eqb_eq in Hc. tauto.
Qed.

Lemma reached s h o : run s h -> is_ok (run_op s o 0) && collision_free s o = true -> run (after s o) (history s h o).
Proof. intros Hr [Ho Hc]%andb_true_iff. eapply run_step; [exact Hr|by apply collision_free_ok|by apply role_after_ok]. Qed.

Lemma policies_reached : run s1 [].
Proof. apply (reached empty [] EnsurePolicies); [constructor|vm_compute; reflexivity]. Qed.
Lemma registered_reached : run s2 h2.
Proof. apply reached; [exact policies_reached|vm_compute; reflexivity]. Qed.
Lemma s3_reached : run s3 h3.
Proof. apply reached; [exact registered_reached|vm_compute; reflexivity]. Qed.
Lemma s4_reached : run s4 h4.
Proof. apply reached; [exact s3_reached|vm_compute; reflexivity]. Qed.

Definition the_cluster : string := resource_assignment_id "w1" CLUSTER "c1".

Lemma access_needs_a_grant_witness : exists later r before, h3 = later ++ Granted the_cluster "bob" r :: before.
Proof.
  destruct (access_needs_a_grant s3 h3 "bob" "w1" CLUSTER "c1" "cluster.read") as (later & r & before & Eh & _).
  - exact s3_reached.
  - vm_compute. reflexivity.
  - vm_compute. reflexivity.
  - exists later, r, before. exact Eh.
Defined.

Lemma revoked_access_stays_revoked_witness : can_access s4 "ann" "w1" CLUSTER "c1" "cluster.read" = Ok false.
Proof.
  apply (revoked_access_stays_revoked s4 [] h3 "ann" "w1" CLUSTER "c1" "cluster.read").
  - assert (h4 = [] ++ Revoked (resource_assignment_id "w1" CLUSTER "c1") "ann" :: h3) as <- by (vm_compute; reflexivity).
    exact s4_reached.
  - intros r. apply not_elem_of_nil.
  - vm_compute. reflexivity.
Defined.

Lemma accessible_ids_are_the_accessible_witness :
  exists ids, accessible_resource_ids s3 "bob" "w1" CLUSTER "cluster.read" = Ok (Some ids) /\ "c1" ∈ ids.
Proof.
  destruct (accessible_ids_are_the_accessible s3 h3 "bob" "w1" CLUSTER "cluster.read") as (ids & E & Hin).
  - exact s3_reached.
  - vm_compute. reflexivity.
  - apply (bool_decide_eq_true_1 _). vm_compute. reflexivity.
  - exists ids. split; [exact E|]. apply Hin. vm_compute. reflexivity.
Defined.

Lemma effective_permissions_are_the_admitted_witness :
  exists ps, effective_permissions_for_resource s3 "bob" "w1" CLUSTER "c1" = Ok ps /\ "cluster.read" ∈ ps.
Proof.
  destruct (effective_permissions_are_the_admitted s3 h3 "bob" "w1" CLUSTER "c1" "cluster.read") as (ps & E & Hin).
  - exact s3_reached.
  - apply (bool_decide_eq_true_1 _). vm_compute. reflexivity.
  - exists ps. split; [exact E|]. apply Hin. vm_compute. reflexivity.
Defined.

Lemma s2_policies : policies_in_force s2.
Proof.
  assert (forallb (fun row => bool_decide (role_permissions s2 !! row.1 = Some ACTIVE)) DEFAULT_ROLE_PERMISSION_ROWS = true) as Hall
    by (vm_compute; reflexivity).
  intros k st Hin%list_elem_of_In. exact (bool_decide_eq_true_1 _ (proj1 (forallb_forall _ _) Hall _ Hin)).
Qed.

Lemma s3_granted : grant_resource_access s2 (grant_payload "bob" "observer") 0 = Ok s3.
Proof. apply grant_after. vm_compute. reflexivity. Qed.

Lemma granted_role_gives_access_witness : can_access s3 "bob" "w1" CLUSTER "c1" "rca.read" = Ok true.
Proof.
  apply (granted_role_gives_access s2 h2 (grant_payload "bob" "observer") 0 s3 "bob" "w1" CLUSTER "c1" OBSERVER "rca.read").
  - exact registered_reached.
  - exact s2_policies.
  - apply collision_free_ok. vm_compute. reflexivity.
  - exact s3_granted.
  - vm_compute. reflexivity.
  - apply (bool_decide_eq_true_1 _). vm_compute. reflexivity.
  - apply (bool_decide_eq_true_1 _). vm_compute. reflexivity.
Defined.

(** A steward whose role was revoked and who is then granted the role of an
    observer is a steward again, and may open a shell in any pod; the route
    answers that the role of an observer was granted. *)
Lemma revoked_steward_returns :
  can_access s4 "ann" "w1" CLUSTER "c1" "pod.exec" = Ok false /\
  can_access s5 "ann" "w1" CLUSTER "c1" "pod.exec" = Ok true /\
  (snd <$> grant_access s4 "w1" {| rq_subject_id := "ann"; rq_resource_type := CLUSTER; rq_resource_id := "c1";
                                   rq_role := "observer" |} 0) = Ok ("pending", "observer").
Proof. vm_compute. split_and!; reflexivity. Qed.
End Sample.
End Identity.
