(* ===== verification/ClusterAgents.v ===== *)
(** * Tokens of cluster agents

    The registrations of [src/src/domains/identity/repository.py] as the
    authority behind [require_cluster_agent]
    ([src/src/domains/identity/dependencies.py]): over every sequence of
    operations, a token stands for the one cluster it was last issued to. *)
From S2P Require Import Prelude PyStr PyVal Libs Demo Identity.
Import Identity.

Module ClusterAgents.

Section tokens.
Context `{ReprLib} `{Sha256}.

(** The token that an operation issues, as its digest. *)
Definition issues (o : op) : option (string * string * string) :=
  match o with
  | Register p =>
      match dict_get p "cluster_id", column (get p "agent_token_hash") with
      | Some c, Some t => Some (py_str (first_of p ["workspace_id"] (VStr DEFAULT_WORKSPACE_ID)), py_str c, t)
      | _, _ => None
      end
  | Reissue w c t _ _ _ => Some (w, c, t)
  | _ => None
  end.

(** The database and the digests issued so far; tokens are drawn at random,
    so that a new one is none of those. *)
Definition state : Type := db * gset string.

Definition new_token (issued : gset string) (o : op) : Prop := forall k t, issues o = Some (k, t) -> t ∉ issued.
Definition with_token (issued : gset string) (o : op) : gset string :=
  match issues o with Some (_, t) => {[t]} ∪ issued | None => issued end.

Inductive step : state -> state -> Prop :=
  | step_op s issued o now s' :
      run_op s o now = Ok s' -> new_token issued o -> step (s, issued) (s', with_token issued o).

Definition reachable (x : state) : Prop := rtc step (empty, ∅) x.

Definition token_at (s : db) (k : string * string) : option string := cluster_registrations s !! k ≫= c_agent_token_hash.

(** *** What an operation does to the tokens *)

Lemma organization_member_upsert_clusters s org u role now s' :
  organization_member_upsert s org u role now = Ok s' -> cluster_registrations s' = cluster_registrations s.
Proof. unfold organization_member_upsert. by intros (? & _ & (? & _ & <-%Ok_inj)%bind_Ok)%bind_Ok. Qed.

Lemma group_upsert_clusters s g org name s' : group_upsert s g org name = Ok s' -> cluster_registrations s' = cluster_registrations s.
Proof. unfold group_upsert. destruct (groups s !! g); [by intros <-%Ok_inj|by intros (? & _ & <-%Ok_inj)%bind_Ok]. Qed.

Lemma group_member_upsert_clusters s g u role now s' :
  group_member_upsert s g u role now = Ok s' -> cluster_registrations s' = cluster_registrations s.
Proof. unfold group_member_upsert. by intros (? & _ & (? & _ & <-%Ok_inj)%bind_Ok)%bind_Ok. Qed.

Lemma enroll_clusters s u w wn org on orole g grole now s' :
  enroll s u w wn org on orole g grole now = Ok s' -> cluster_registrations s' = cluster_registrations s.
Proof.
  unfold enroll. intros (s1 & E1 & (s2 & E2 & E3)%bind_Ok)%bind_Ok. apply organization_member_upsert_clusters in E1.
  apply group_upsert_clusters in E2. apply group_member_upsert_clusters in E3. cbn in E1. congruence.
Qed.

Lemma user_upsert_clusters s u : cluster_registrations (user_upsert s u) = cluster_registrations s.
Proof. unfold user_upsert. by destruct (users s !! u). Qed.

Lemma assign_clusters s id org g t i u role now s1 s2 :
  resource_assignment_upsert s id org g t i = Ok s1 -> member_resource_role_upsert s1 id u role now = Ok s2 ->
  cluster_registrations s2 = cluster_registrations s.
Proof.
  unfold resource_assignment_upsert, member_resource_role_upsert.
  by intros (? & _ & <-%Ok_inj)%bind_Ok (? & _ & <-%Ok_inj)%bind_Ok.
Qed.

Lemma policies_clusters rows s : cluster_registrations (foldl role_permission_upsert s rows) = cluster_registrations s.
Proof. revert s. induction rows as [|row rows IH]; intros s; [done|]. cbn [foldl]. by rewrite IH. Qed.

(** How one registration may change its token. *)
Definition moves (s s' : db) (o : op) : Prop :=
  forall k t, token_at s' k = Some t -> token_at s k = Some t \/ issues o = Some (k, t).

Lemma moves_same s s' o : cluster_registrations s' = cluster_registrations s -> moves s s' o.
Proof. intros E k t. unfold token_at. rewrite E. by left. Qed.

Lemma put_cluster_moves s s0 k row s' o :
  cluster_registrations s0 = cluster_registrations s -> put_cluster s0 k row = Ok s' ->
  (forall t, c_agent_token_hash row = Some t -> token_at s k = Some t \/ issues o = Some (k, t)) -> moves s s' o.
Proof.
  intros E0. unfold put_cluster. intros (? & _ & <-%Ok_inj)%bind_Ok Hrow k' t. unfold token_at. cbn.
  destruct (decide (k = k')) as [<-|Hne].
  - rewrite lookup_insert, decide_True by done. cbn. apply Hrow.
  - rewrite lookup_insert_ne, E0 by done. by left.
Qed.

Lemma register_moves s p now s' : register_target_cluster s p now = Ok s' -> moves s s' (Register p).
Proof.
  unfold register_target_cluster, required_text.
  intros (u & _ & (c & Hc & (s1 & E1 & (s2 & E2 & (s3 & E3 & E4)%bind_Ok)%bind_Ok)%bind_Ok)%bind_Ok)%bind_Ok.
  apply enroll_clusters in E1. rewrite user_upsert_clusters in E1. pose proof (assign_clusters _ _ _ _ _ _ _ _ _ _ _ E2 E3) as E5.
  unfold cluster_upsert, required_text in E4. rewrite Hc in E4. cbn [mbind res_bind] in E4. apply bind_Ok in E4 as (? & _ & E4).
  apply (put_cluster_moves s) with (o := Register p) in E4; [done|congruence|]. cbn [c_agent_token_hash]. intros t Ht. right.
  cbn [issues]. rewrite Ht. destruct (dict_get p "cluster_id") as [v|]; [|done]. by apply Ok_inj in Hc as <-.
Qed.

Lemma run_op_moves s o now s' : run_op s o now = Ok s' -> moves s s' o.
Proof.
  destruct o; cbn [run_op].
  - intros <-%Ok_inj. by apply moves_same.
  - intros E%group_upsert_clusters. by apply moves_same.
  - intros <-%Ok_inj. apply moves_same. unfold ensure_default_role_permissions. by rewrite policies_clusters.
  - apply register_moves.
  - unfold grant_resource_access.
    intros (? & _ & (? & _ & (? & _ & (s1 & E1 & (s2 & E2 & E3)%bind_Ok)%bind_Ok)%bind_Ok)%bind_Ok)%bind_Ok.
    apply enroll_clusters in E1. rewrite user_upsert_clusters in E1. apply moves_same. rewrite <- E1. by eapply assign_clusters.
  - intros <-%Ok_inj. apply moves_same. unfold revoke_access. by destruct (int_of_str access_id).
  - intros E%group_member_upsert_clusters. by apply moves_same.
  - intros <-%Ok_inj. apply moves_same. unfold remove_group_member_route. by destruct (is_last_active_service_admin s user_id).
  - intros <-%Ok_inj. by apply moves_same.
  - intros <-%Ok_inj. apply moves_same. unfold delete_organization. by case_match.
  - intros E%group_upsert_clusters. by apply moves_same.
  - intros E. apply moves_same. revert E. unfold create_user. destruct (user_with_email s email); [by intros <-%Ok_inj|].
    destruct (raise_if _ _); [|done]. by intros <-%Ok_inj.
  - unfold upsert_admin_account, admin_user_upsert. intros (s1 & E1 & E2%enroll_clusters)%bind_Ok. apply moves_same. rewrite E2.
    destruct (user_with_email s email); [by apply Ok_inj in E1 as <-|]. by apply bind_Ok in E1 as (? & _ & <-%Ok_inj).
  - intros E. apply moves_same. revert E. unfold complete_email_verification. destruct (users s !! user_id); [|by intros <-%Ok_inj].
    destruct (negb _); [by intros <-%Ok_inj|]. destruct (has_service_admin s); [by intros <-%Ok_inj|]. by intros ->%enroll_clusters.
  - intros E. apply moves_same. revert E. unfold approve_user. destruct (users s !! user_id); [|by intros <-%Ok_inj].
    destruct (negb _); [by intros <-%Ok_inj|]. destruct (enroll _ _ _ _ _ _ _ _ _ _) as [s1|] eqn:E; [|done]. intros <-%Ok_inj.
    by apply enroll_clusters in E.
  - intros <-%Ok_inj k t. unfold purge_test_target_cluster_registration. destruct (negb enabled); [by left|].
    destruct (cluster_registrations s !! _) as [c|] eqn:Hc; [|by left]. destruct (_ && _); [|by left].
    unfold token_at. cbn. destruct (decide ((workspace_id, cluster_id) = k)) as [<-|Hne].
    + by rewrite lookup_delete, decide_True.
    + rewrite lookup_delete_ne by done. by left.
  - unfold update_cluster_registration_status. destruct (_ !! _) as [c|] eqn:Hc; [|intros <-%Ok_inj; by apply moves_same].
    intros E. apply (put_cluster_moves s) with (o := SetStatus workspace_id cluster_id status) in E; [done..|].
    intros t Ht. left. unfold token_at. by rewrite Hc.
  - unfold mark_cluster_registration_connected. destruct (_ !! _) as [c|] eqn:Hc; [|intros <-%Ok_inj; by apply moves_same].
    case_bool_decide; [|intros <-%Ok_inj; by apply moves_same]. destruct (put_cluster _ _ _) as [s1|] eqn:E; [|done]. intros <-%Ok_inj.
    apply (put_cluster_moves s) with (o := Connected workspace_id cluster_id) in E; [done..|].
    intros t Ht. left. unfold token_at. by rewrite Hc.
  - unfold reissue_target_cluster_install. destruct (_ !! _) as [c|] eqn:Hc; [|intros <-%Ok_inj; by apply moves_same].
    case_bool_decide; [|intros <-%Ok_inj; by apply moves_same]. destruct (put_cluster _ _ _) as [s1|] eqn:E; [|done]. intros <-%Ok_inj.
    eapply (put_cluster_moves s) in E; [exact E|done|]. cbn. intros t [= <-]. by right.
  - intros <-%Ok_inj k t. unfold unregister_target_cluster. destruct (cluster_registrations s !! _) as [c|] eqn:Hc; [|by left].
    unfold token_at. cbn. destruct (decide ((workspace_id, cluster_id) = k)) as [<-|Hne].
    + by rewrite lookup_insert, decide_True.
    + rewrite lookup_insert_ne by done. by left.
Qed.

(** Tokens in the table have been issued, each to one cluster. *)
Record tokens_ok (x : state) : Prop := {
  tok_issued : forall k t, token_at x.1 k = Some t -> t ∈ x.2;
  tok_unique : forall k k' t, token_at x.1 k = Some t -> token_at x.1 k' = Some t -> k = k';
}.

Lemma step_tokens x y : step x y -> tokens_ok x -> tokens_ok y.
Proof.
  intros [s issued o now s' Hrun Hfresh] [Hi Hu]. unfold with_token. cbn [fst snd] in *. pose proof (run_op_moves _ _ _ _ Hrun) as Hm. split; cbn [fst snd].
  - intros k t [Hk|Ho]%Hm; [apply Hi in Hk; destruct (issues o) as [[? ?]|]; set_solver|]. rewrite Ho. set_solver.
  - intros k k' t Hk Hk'. apply Hm in Hk as [Hk|Ho], Hk' as [Hk'|Ho']; [by apply (Hu _ _ t)|..].
    + apply Hi in Hk. by apply Hfresh in Ho'.
    + apply Hi in Hk'. by apply Hfresh in Ho.
    + rewrite Ho in Ho'. by injection Ho'.
Qed.

Lemma steps_tokens x y : rtc step x y -> tokens_ok x -> tokens_ok y.
Proof. induction 1 as [|x y z Hxy _ IH]; [done|]. intros Hx. by apply IH, (step_tokens x). Qed.

Lemma reachable_tokens x : reachable x -> tokens_ok x.
Proof.
  intros Hr. apply (steps_tokens _ _ Hr). split; intros *; unfold token_at; cbn; by rewrite lookup_empty.
Qed.

Lemma token_held s k t : token_at s k = Some t <-> exists c, cluster_registrations s !! k = Some c /\ c_agent_token_hash c = Some t.
Proof. unfold token_at. destruct (cluster_registrations s !! k) as [c|]; cbn; naive_solver. Qed.

Lemma holds_token_iff t c : holds_token t c = true <-> c_agent_token_hash c = Some t /\ c_status c ∈ AUTHENTICABLE.
Proof. unfold holds_token. by rewrite andb_true_iff, !bool_decide_eq_true. Qed.

(** A token speaks for one cluster: the agent that presents it is taken for
    the cluster whose registration holds its digest and is not expired or
    disconnected, there is at most one, and every other token is refused. *)
Theorem token_speaks_for_one_cluster x token k :
  reachable x -> nonempty token = true -> nonempty (hash_agent_token token) = true ->
  require_cluster_agent x.1 token = Some k <->
  exists c, cluster_registrations x.1 !! k = Some c /\ c_agent_token_hash c = Some (hash_agent_token token) /\
            c_status c ∈ AUTHENTICABLE.
Proof.
  intros [_ Hu]%reachable_tokens Ht Hh. unfold require_cluster_agent, authenticate_cluster_agent.
  unfold nonempty in Ht, Hh. rewrite negb_true_iff in Ht, Hh. rewrite Ht, Hh. set (t := hash_agent_token token) in *.
  assert (forall k, k ∈ (keep (fun kc => holds_token t kc.2) (map_to_list (cluster_registrations x.1))).*1 <->
            exists c, cluster_registrations x.1 !! k = Some c /\ c_agent_token_hash c = Some t /\ c_status c ∈ AUTHENTICABLE) as Hin.
  { intros k'. rewrite list_elem_of_fmap. split.
    - intros ([k1 c] & -> & [Hl Hc]%elem_of_keep). apply elem_of_map_to_list in Hl. apply holds_token_iff in Hc. by exists c.
    - intros (c & Hl & Hc). exists (k', c). split; [done|]. apply elem_of_keep. rewrite elem_of_map_to_list. split; [done|].
      by apply holds_token_iff. }
  split; [intros Hk%head_Some_elem_of; by apply Hin|]. intros Hk. pose proof Hk as Hmem%Hin.
  destruct (_.*1) as [|k' l]; [by apply not_elem_of_nil in Hmem|]. cbn [head]. f_equal.
  destruct (proj1 (Hin k')) as (c' & Hl' & Hc' & _); [left|]. destruct Hk as (c & Hl & Hc & _).
  apply (Hu k' k t); apply token_held; eauto.
Qed.



End tokens.

(** ** A cluster that is registered, and unregistered *)
Module Sample.
#[local] Existing Instance Demo.plain_repr.
#[local] Existing Instance Demo.plain_hash.

Definition payload (cluster token : string) : dict :=
  [("user_id", VStr "ann"); ("workspace_id", VStr "w1"); ("cluster_id", VStr cluster); ("agent_token_hash", VStr token)].
Definition after (s : db) (o : op) : db := match run_op s o 0 with Ok s' => s' | Err _ => s end.
Lemma token_after_ok s o : is_ok (run_op s o 0) = true -> run_op s o 0 = Ok (after s o).
Proof. unfold after. by destruct (run_op s o 0). Qed.
Definition s1 : db := after empty (Register (payload "c1" "t1")).
Definition s2 : db := after s1 (Register (payload "c2" "t2")).
Definition s3 : db := after s2 (Unregister "w1" "c1").

Lemma one_token_reached : reachable (s1, {["t1"]} ∪ ∅).
Proof.
  apply rtc_once. apply (step_op empty ∅ (Register (payload "c1" "t1")) 0); [apply token_after_ok; vm_compute; reflexivity|].
  intros k t _. set_solver.
Qed.

Lemma two_tokens_reached : reachable (s2, {["t2"]} ∪ ({["t1"]} ∪ ∅)).
Proof.
  eapply rtc_r; [exact one_token_reached|]. apply (step_op s1 _ (Register (payload "c2" "t2")) 0); [apply token_after_ok; vm_compute; reflexivity|].
  intros k t E. vm_compute in E. injection E as _ <-. set_solver.
Qed.

Definition issued : gset string := {["t2"]} ∪ ({["t1"]} ∪ ∅).

Lemma token_speaks_for_one_cluster_witness : require_cluster_agent s2 "t1" = Some ("w1", "c1").
Proof.
  pose proof (proj2 (token_speaks_for_one_cluster (s2, issued) "t1" ("w1", "c1") two_tokens_reached eq_refl eq_refl)) as Hone.
  cbn [fst] in Hone. apply Hone. clear Hone.
  destruct (cluster_registrations s2 !! ("w1", "c1")) as [c|] eqn:Ec; [|vm_compute in Ec; discriminate Ec].
  exists c. split; [reflexivity|]. vm_compute in Ec. injection Ec as <-. split; [reflexivity|].
  apply (bool_decide_eq_true_1 _). vm_compute. reflexivity.
Defined.

End Sample.
End ClusterAgents.
