(* ===== verification/Sessions.v ===== *)
(** * Sessions and rate limits

    [src/src/packages/storage/sessions.py] (the session store on Redis),
    [src/src/services/gateway/api-gateway/auth.py], [rate_limits.py],
    [passwords.py] and [src/src/packages/security/trusted_proxy.py]: who is
    behind a request, for how long, and how often one may try. *)
From S2P Require Import Prelude PyStr PyVal Libs Demo Identity.
Import Identity.

Module Sessions.

(** ** Redis

    The documented meaning of the commands that the store uses, on a clock in
    seconds.  The text of a stored object is represented by the object. *)

Inductive rvalue := Text (d : dict) | Count (n : Z).
Record entry := { e_value : rvalue; e_expires : option Z }.
Notation redis := (gmap string entry).

Definition live (now : Z) (e : entry) : bool := match e_expires e with Some t => now <? t | None => true end.

Definition find (r : redis) (now : Z) (k : string) : option entry :=
  match r !! k with Some e => if live now e then Some e else None | None => None end.

Definition r_get (r : redis) (now : Z) (k : string) : option rvalue := e_value <$> find r now k.

Definition r_set (r : redis) (now : Z) (k : string) (v : rvalue) (seconds : Z) : redis :=
  <[k := {| e_value := v; e_expires := Some (now + seconds) |}]> r.

Definition r_incr (r : redis) (now : Z) (k : string) : res (redis * Z) :=
  match find r now k with
  | Some {| e_value := Count n; e_expires := t |} => Ok (<[k := {| e_value := Count (n + 1); e_expires := t |}]> r, n + 1)
  | Some {| e_value := Text _ |} => Err ValueError
  | None => Ok (<[k := {| e_value := Count 1; e_expires := None |}]> r, 1)
  end.

Definition r_expire (r : redis) (now : Z) (k : string) (seconds : Z) : redis * bool :=
  match find r now k with
  | Some e => (<[k := {| e_value := e_value e; e_expires := Some (now + seconds) |}]> r, true)
  | None => (r, false)
  end.

Definition r_ttl (r : redis) (now : Z) (k : string) : Z :=
  match find r now k with
  | Some e => match e_expires e with Some t => t - now | None => -1 end
  | None => -2
  end.

Definition r_delete (r : redis) (k : string) : redis := delete k r.

(** ** Sessions *)

Definition PASSWORD : string := "password".
Definition TRUSTED_PROXY : string := "trusted_proxy".
Definition TRUSTED_PROXY_SESSION_TOKEN : string := "trusted-proxy".

Record AuthSession := {
  s_token : string;
  s_user_id : string;
  s_roles : list string;
  s_workspace_id : string;
  s_display_name : option string;
  s_email : option string;
  s_auth_mode : string;
}.

Record RedisSessionStoreConfig := {
  ttl_seconds : Z;
  key_prefix : string;
  default_roles : list string;
  default_workspace_id : string;
  rate_limit_key_prefix : string;
  rate_limit : Z;
  rate_limit_window_seconds : Z;
}.

Definition opt_value (o : option string) : pyval := match o with Some s => VStr s | None => VNone end.

Definition session_body (s : AuthSession) : dict :=
  [("user_id", VStr (s_user_id s)); ("roles", VList (VStr <$> s_roles s)); ("workspace_id", VStr (s_workspace_id s));
   ("display_name", opt_value (s_display_name s)); ("email", opt_value (s_email s)); ("auth_mode", VStr (s_auth_mode s))].

Section store.
Context (cfg : RedisSessionStoreConfig).

Definition session_key (token : string) : string := key_prefix cfg +:+ ":" +:+ token.

Definition or_default (o : option string) (d : string) : string :=
  match o with Some s => if is_empty s then d else s | None => d end.

(** [token] is drawn by [secrets.token_urlsafe]. *)
Definition create_session (r : redis) (now : Z) (token user_id : string) (roles : list string) (workspace_id : option string)
    (display_name email : option string) (auth_mode : string) : redis * AuthSession :=
  let s := {| s_token := token; s_user_id := user_id;
              s_roles := if bool_decide (roles = []) then default_roles cfg else roles;
              s_workspace_id := or_default workspace_id (default_workspace_id cfg);
              s_display_name := display_name; s_email := email; s_auth_mode := auth_mode |} in
  (r_set r now (session_key token) (Text (session_body s)) (ttl_seconds cfg), s).

Definition text_option (v : pyval) : option string := match v with VStr s => Some s | _ => None end.
Definition texts (v : pyval) : list string := match v with VList l => omap text_option l | _ => [] end.

(** The object read back; the store only ever wrote [session_body]. *)
Definition session_of (token : string) (payload : dict) : res AuthSession :=
  user_id ← raise_none (dict_get payload "user_id") KeyError;
  Ok {| s_token := token; s_user_id := default "" (text_option user_id); s_roles := texts (get payload "roles");
        s_workspace_id := default (default_workspace_id cfg) (dict_get payload "workspace_id" ≫= text_option);
        s_display_name := text_option (get payload "display_name"); s_email := text_option (get payload "email");
        s_auth_mode := if py_eqb (get payload "auth_mode") (VStr TRUSTED_PROXY) then TRUSTED_PROXY else PASSWORD |}.

Definition get_session (r : redis) (now : Z) (token : string) : res (option AuthSession) :=
  if is_empty token then Ok None
  else
    match r_get r now (session_key token) with
    | None => Ok None
    | Some (Text payload) => Some <$> session_of token payload
    | Some (Count _) => Err TypeError
    end.

Definition touch_session (r : redis) (now : Z) (token : string) : redis * bool :=
  if is_empty token then (r, false) else r_expire r now (session_key token) (ttl_seconds cfg).

Definition delete_session (r : redis) (token : string) : redis := r_delete r (session_key token).

(** ** Rate limits

    [Some n] is [RateLimitExceeded(n)]. *)

Definition counter_key (key : string) : string := rate_limit_key_prefix cfg +:+ ":" +:+ key.

Definition check_rate_limit (r : redis) (now : Z) (key : string) (limit window_seconds : option Z) : res (redis * option Z) :=
  let threshold := default (rate_limit cfg) limit in
  let window := default (rate_limit_window_seconds cfg) window_seconds in
  let k := counter_key key in
  '(r, count) ← r_incr r now k;
  let r := if count =? 1 then (r_expire r now k window).1 else r in
  if threshold <? count then Ok (r, Some (Z.max 1 (r_ttl r now k))) else Ok (r, None).

Definition check_escalating_rate_limit (r : redis) (now : Z) (key : string) (limit window_seconds : Z) (lock_steps : list Z)
    (strike_ttl : Z) : res (redis * option Z) :=
  let prefix := rate_limit_key_prefix cfg in
  let lock_key := prefix +:+ ":lock:" +:+ key in
  let count_key := prefix +:+ ":count:" +:+ key in
  let strike_key := prefix +:+ ":strike:" +:+ key in
  let retry_after := r_ttl r now lock_key in
  if 0 <? retry_after then Ok (r, Some retry_after)
  else
    '(r, count) ← r_incr r now count_key;
    let r := if count =? 1 then (r_expire r now count_key window_seconds).1 else r in
    if count <=? limit then Ok (r, None)
    else
      '(r, strikes) ← r_incr r now strike_key;
      let r := if strikes =? 1 then (r_expire r now strike_key strike_ttl).1 else r in
      lock ← raise_none (lock_steps !! (Z.to_nat (Z.min strikes (Z.of_nat (length lock_steps))) - 1)%nat) IndexError;
      Ok (r_set r now lock_key (Count strikes) lock, Some lock).
End store.

(** ** Policies of the gateway *)

Record AuthRateLimitPolicy := {
  scope : string;
  email_limit : Z;
  client_limit : Z;
  window_seconds : Z;
  lock_steps_seconds : list Z;
  strike_ttl_seconds : Z;
}.

(** The limits of the environment. *)
Record Settings := {
  LOGIN_EMAIL_RATE_LIMIT : Z;
  LOGIN_IP_RATE_LIMIT : Z;
  AUTH_ABUSE_RATE_WINDOW_SECONDS : Z;
  AUTH_ABUSE_FIRST_LOCK_SECONDS : Z;
  AUTH_ABUSE_SECOND_LOCK_SECONDS : Z;
  AUTH_ABUSE_THIRD_LOCK_SECONDS : Z;
  AUTH_ABUSE_STRIKE_TTL_SECONDS : Z;
  AUTHENTICATED_READ_RATE_LIMIT : Z;
  AUTHENTICATED_READ_RATE_WINDOW_SECONDS : Z;
  AUTHENTICATED_MUTATION_SESSION_RATE_LIMIT : Z;
  AUTHENTICATED_MUTATION_USER_RATE_LIMIT : Z;
  AUTHENTICATED_MUTATION_RATE_WINDOW_SECONDS : Z;
}.

Definition READ_ONLY_METHODS : list string := ["GET"; "HEAD"; "OPTIONS"].

Record AuthenticatedRequestRateLimitPolicy := {
  request_class : string;
  session_limit : Z;
  user_limit : option Z;
  request_window_seconds : Z;
}.

Definition lower_ascii (x : ascii) : ascii := if is_upper x then ascii_of_N (code x + 32) else x.
Fixpoint lower (s : string) : string :=
  match s with EmptyString => EmptyString | String x s => String (lower_ascii x) (lower s) end.
Definition upper_ascii (x : ascii) : ascii := if is_lower x then ascii_of_N (code x - 32) else x.
Fixpoint upper (s : string) : string :=
  match s with EmptyString => EmptyString | String x s => String (upper_ascii x) (upper s) end.

Definition normalize_email (email : string) : string := lower (strip email).

(** The environment of the trusted proxy. *)
Record ProxySettings := { proxy_secret : string; proxy_user_id : string; proxy_workspace_id : string }.

Definition trusted_proxy_identity (env : ProxySettings) (header : string) : option (string * string) :=
  let configured := strip (proxy_secret env) in
  if is_empty configured then None
  else
    let supplied := strip header in
    if is_empty supplied || negb (str_eqb configured supplied) then None
    else
      let user_id := strip (proxy_user_id env) in
      let workspace_id := strip (proxy_workspace_id env) in
      if is_empty user_id || is_empty workspace_id then None else Some (user_id, workspace_id).

(** What a request carries; the header names are those of the gateway. *)
Record request := {
  rq_method : string;
  rq_authorization : string;
  rq_session_header : string;
  rq_cookie : string;
  rq_proxy_header : string;
}.

Definition BEARER_PREFIX : string := "bearer ".

Definition after_space (s : string) : string := (partition_char " " s).2.

Definition extract_session_tokens (q : request) : list string :=
  let candidates :=
    (if starts_with BEARER_PREFIX (lower (rq_authorization q)) then [strip (after_space (rq_authorization q))] else [])
    ++ [rq_session_header q; rq_cookie q] in
  unique_first (keep nonempty candidates).

Inductive http_error := Unauthorized | Forbidden | TooManyRequests (retry_after : Z).

Section auth.
Context `{ReprLib} `{Sha256} (cfg : RedisSessionStoreConfig) (limits : Settings) (proxy : ProxySettings).

Definition stable_rate_key (value : string) : string := sha256_hexdigest (utf8_encode value).

Definition email_key (p : AuthRateLimitPolicy) (email : string) : string :=
  "auth:" +:+ scope p +:+ ":email:" +:+ stable_rate_key (normalize_email email).
Definition client_key (p : AuthRateLimitPolicy) (client : string) : string :=
  "auth:" +:+ scope p +:+ ":client:" +:+ stable_rate_key client.

Definition auth_policy (scope : string) (email_limit client_limit : Z) : AuthRateLimitPolicy :=
  {| scope := scope; email_limit := email_limit; client_limit := client_limit;
     window_seconds := AUTH_ABUSE_RATE_WINDOW_SECONDS limits;
     lock_steps_seconds := [AUTH_ABUSE_FIRST_LOCK_SECONDS limits; AUTH_ABUSE_SECOND_LOCK_SECONDS limits;
                            AUTH_ABUSE_THIRD_LOCK_SECONDS limits];
     strike_ttl_seconds := AUTH_ABUSE_STRIKE_TTL_SECONDS limits |}.

Definition login_rate_limit_policy : AuthRateLimitPolicy :=
  auth_policy "login" (LOGIN_EMAIL_RATE_LIMIT limits) (LOGIN_IP_RATE_LIMIT limits).

Definition escalating (p : AuthRateLimitPolicy) (r : redis) (now : Z) (key : string) (limit : Z) : res (redis * option Z) :=
  check_escalating_rate_limit cfg r now key limit (window_seconds p) (lock_steps_seconds p) (strike_ttl_seconds p).

(** [exc.retry_after_seconds or 1] *)
Definition rate_limited (retry : Z) : http_error := TooManyRequests (if retry =? 0 then 1 else retry).

(** The outcome of two checks in a row. *)
Definition then_check (first : redis * option Z) (next : redis -> res (redis * option Z)) : res (redis * option http_error) :=
  match first.2 with
  | Some n => Ok (first.1, Some (rate_limited n))
  | None => second ← next first.1; Ok (second.1, option_map rate_limited second.2)
  end.

(** [AuthRateLimiter.check]: the first limit that is exceeded answers. *)
Definition auth_rate_check (p : AuthRateLimitPolicy) (r : redis) (now : Z) (email client : string) : res (redis * option http_error) :=
  first ← escalating p r now (email_key p email) (email_limit p);
  then_check first (fun r => escalating p r now (client_key p client) (client_limit p)).

Definition authenticated_request_rate_limit_policy (method : string) : AuthenticatedRequestRateLimitPolicy :=
  if bool_decide (upper method ∈ READ_ONLY_METHODS)
  then {| request_class := "read"; session_limit := AUTHENTICATED_READ_RATE_LIMIT limits; user_limit := None;
          request_window_seconds := AUTHENTICATED_READ_RATE_WINDOW_SECONDS limits |}
  else {| request_class := "mutation"; session_limit := AUTHENTICATED_MUTATION_SESSION_RATE_LIMIT limits;
          user_limit := Some (AUTHENTICATED_MUTATION_USER_RATE_LIMIT limits);
          request_window_seconds := AUTHENTICATED_MUTATION_RATE_WINDOW_SECONDS limits |}.

Definition session_request_key (request_class token : string) : string :=
  "authenticated:" +:+ request_class +:+ ":session:" +:+ stable_rate_key token.
Definition user_request_key (request_class user_id : string) : string :=
  "authenticated:" +:+ request_class +:+ ":user:" +:+ stable_rate_key user_id.

(** [AuthenticatedRequestRateLimiter.check] *)
Definition request_rate_check (r : redis) (now : Z) (method token user_id : string) : res (redis * option http_error) :=
  let p := authenticated_request_rate_limit_policy method in
  first ← check_rate_limit cfg r now (session_request_key (request_class p) token) (Some (session_limit p))
            (Some (request_window_seconds p));
  then_check first (fun r =>
    match user_limit p with
    | None => Ok (r, None)
    | Some limit => check_rate_limit cfg r now (user_request_key (request_class p) user_id) (Some limit)
                      (Some (request_window_seconds p))
    end).

Inductive answer (A : Type) := Answer (a : A) | Refused (e : http_error).
Arguments Answer {_} _.
Arguments Refused {_} _.

Fixpoint first_session (r : redis) (now : Z) (tokens : list string) : res (option AuthSession) :=
  match tokens with
  | [] => Ok None
  | token :: tokens =>
      found ← get_session cfg r now token;
      match found with Some s => Ok (Some s) | None => first_session r now tokens end
  end.

Definition proxy_session (identity : string * string) : AuthSession :=
  {| s_token := TRUSTED_PROXY_SESSION_TOKEN; s_user_id := identity.1; s_roles := [SERVICE_ADMIN]; s_workspace_id := identity.2;
     s_display_name := None; s_email := None; s_auth_mode := TRUSTED_PROXY |}.

Definition require_session (r : redis) (now : Z) (q : request) : res (redis * answer AuthSession) :=
  found ← first_session r now (extract_session_tokens q);
  match found with
  | Some s =>
      checked ← request_rate_check r now (rq_method q) (s_token s) (s_user_id s);
      Ok (checked.1, match checked.2 with Some e => Refused e | None => Answer s end)
  | None =>
      Ok (r, match trusted_proxy_identity proxy (rq_proxy_header q) with
             | Some identity => Answer (proxy_session identity)
             | None => Refused Unauthorized
             end)
  end.

Definition require_admin_session (r : redis) (now : Z) (q : request) : res (redis * answer AuthSession) :=
  required ← require_session r now q;
  Ok (required.1, match required.2 with
         | Answer s => if bool_decide (SERVICE_ADMIN ∈ s_roles s) then Answer s else Refused Forbidden
         | refused => refused
         end).

(** *** Passwords *)

Definition PASSWORD_HASH_ALGORITHM : string := "pbkdf2_sha256".

(** [hashlib.pbkdf2_hmac] and [base64.urlsafe_b64decode]; [None] is an error
    that is caught. *)
Context (pbkdf2_hmac : string -> string -> Z -> option string) (b64decode : string -> option string).

(** [s.split("$", 3)] *)
Definition split4 (s : string) : option (string * string * string * string) :=
  let '(a, f1, rest) := partition_char "$" s in
  let '(b, f2, rest) := partition_char "$" rest in
  let '(c, f3, rest) := partition_char "$" rest in
  if f1 && f2 && f3 then Some (a, b, c, rest) else None.

Definition verify_password (password password_hash : string) : bool :=
  match split4 password_hash with
  | None => false
  | Some (algorithm, iterations, salt_value, digest_value) =>
      if negb (str_eqb algorithm PASSWORD_HASH_ALGORITHM) then false
      else
        match b64decode salt_value, b64decode digest_value, int_of_str iterations with
        | Some salt, Some expected, Some n =>
            match pbkdf2_hmac password salt n with Some actual => str_eqb actual expected | None => false end
        | _, _, _ => false
        end
  end.

(** *** The services *)

(** The oldest membership, or the default workspace of an administrator. *)
Definition get_default_workspace_id_for_user (s : db) (user_id : string) : option string :=
  if is_service_admin s user_id then Some DEFAULT_WORKSPACE_ID
  else
    (fun km => km.1.1) <$>
      head (isort (fun a b : string * string * Membership => mb_created_at a.2 <=? mb_created_at b.2)
              (keep (fun km : string * string * Membership => str_eqb km.1.2 user_id && str_eqb (mb_status km.2) ACTIVE)
                 (map_to_list (organization_members s)))).

(** Active workspaces, by name; for anyone but an administrator those of an
    active organization with an active membership. *)
Definition authorized_workspace (s : db) (user_id : string) (service_admin : bool) (wn : string * Named) : bool :=
  str_eqb (n_status wn.2) ACTIVE
  && (service_admin
      || match organizations s !! wn.1 with
         | Some o => str_eqb (n_status o) ACTIVE && get_organization_member s wn.1 user_id
         | None => false
         end).

Definition list_authorized_workspaces (s : db) (user_id : string) (service_admin : bool) : list string :=
  (isort (lex_leb String.leb String.leb)
     ((fun wn : string * Named => (lower (n_name wn.2), wn.1)) <$>
        keep (authorized_workspace s user_id service_admin) (map_to_list (workspaces s)))).*2.

Record session_identity_view := { si_display_name : string; si_email : option string; si_roles : list string }.

(** The groups of the identity are left out: no decision reads them. *)
Definition session_identity (s : db) (user_id : string) : option session_identity_view :=
  match users s !! user_id with
  | Some a =>
      if negb (str_eqb (u_status a) ACTIVE) then None
      else
        let role := strip (u_role a) in
        if is_empty role then None
        else Some {| si_display_name := u_display_name a; si_email := u_email a; si_roles := [role] |}
  | None => None
  end.

Definition effective_roles (s : db) (session : AuthSession) : option (list string) :=
  if str_eqb (s_auth_mode session) TRUSTED_PROXY then Some [SERVICE_ADMIN]
  else si_roles <$> session_identity s (s_user_id session).

Definition opt_str (o : option string) : string := match o with Some x => x | None => "None" end.

Definition login (s : db) (r : redis) (now : Z) (email password client token : string) : res (redis * answer AuthSession) :=
  checked ← auth_rate_check login_rate_limit_policy r now email client;
  let '(r, exceeded) := checked in
  match exceeded with
  | Some e => Ok (r, Refused e)
  | None =>
      match user_with_email s (normalize_email email) with
      | None => Ok (r, Refused Unauthorized)
      | Some user_id =>
          match users s !! user_id with
          | None => Ok (r, Refused Unauthorized)
          | Some a =>
              if negb (verify_password password (opt_str (u_password_hash a))) then Ok (r, Refused Unauthorized)
              else if str_eqb (u_status a) PENDING_EMAIL_VERIFICATION then Ok (r, Refused Forbidden)
              else if str_eqb (u_status a) PENDING_APPROVAL then Ok (r, Refused Forbidden)
              else if negb (str_eqb (u_status a) ACTIVE) then Ok (r, Refused Unauthorized)
              else
                let role := if is_empty (u_role a) then USER else u_role a in
                let '(r, session) := create_session cfg r now token user_id [role] (get_default_workspace_id_for_user s user_id)
                                       (Some (u_display_name a)) (Some (opt_str (u_email a))) PASSWORD in
                Ok (r, Answer session)
          end
      end
  end.

Definition logout (r : redis) (token : string) : redis := if is_empty token then r else delete_session cfg r token.

(** [str(x or y or "") or None] *)
Definition shown (a b : option string) : option string :=
  let t := or_default a (or_default b "") in if is_empty t then None else Some t.

Definition switch_workspace (s : db) (r : redis) (now : Z) (session : AuthSession) (workspace_id token : string)
    : redis * answer AuthSession :=
  match effective_roles s session with
  | None => (r, Refused Unauthorized)
  | Some roles =>
      if negb (bool_decide (workspace_id ∈ list_authorized_workspaces s (s_user_id session) (bool_decide (SERVICE_ADMIN ∈ roles))))
      then (r, Refused Forbidden)
      else
        let identity := users s !! s_user_id session in
        let '(r, next) := create_session cfg r now token (s_user_id session) roles (Some workspace_id)
                            (shown (u_display_name <$> identity) (s_display_name session))
                            (shown ((fun a => opt_str (u_email a)) <$> identity) (s_email session)) (s_auth_mode session) in
        ((if str_eqb (s_token session) TRUSTED_PROXY_SESSION_TOKEN then r else delete_session cfg r (s_token session)), Answer next)
  end.
End auth.
Arguments Answer {_} _.
Arguments Refused {_} _.

(** ** How many attempts a limit lets through

    Commands of different requests interleave: each request increments the
    counter, and the one that created it sets its expiry later, or loses the
    connection before it does. *)
Section bound.
Context (k : string) (limit window : Z) (Hlimit : 0 <= limit) (Hwindow : 0 < window).

(** The store, the clock, how many requests still have to set the expiry, and
    the times of the attempts let through, newest first. *)
Inductive attempts : redis -> Z -> nat -> list Z -> Prop :=
  | at_start r now : r !! k = None -> attempts r now 0 []
  | at_try r now waiting acc now' r' n :
      attempts r now waiting acc -> now <= now' -> r_incr r now' k = Ok (r', n) ->
      attempts r' now' (if n =? 1 then S waiting else waiting) (if limit <? n then acc else now' :: acc)
  | at_expire r now waiting acc now' :
      attempts r now (S waiting) acc -> now <= now' -> attempts (r_expire r now' k window).1 now' waiting acc
  | at_lost r now waiting acc : attempts r now (S waiting) acc -> attempts r now waiting acc
  | at_elsewhere r now waiting acc r' now' :
      attempts r now waiting acc -> now <= now' -> r' !! k = r !! k -> attempts r' now' waiting acc.

(** The lives of the counter, newest first: its start and what it let
    through. *)
Fixpoint spaced (g : list (Z * list Z)) : Prop :=
  match g with
  | [] => True
  | (s, ts) :: g' =>
      Forall (Z.le s) ts /\ Z.of_nat (length ts) <= limit /\
      match g' with (s', ts') :: _ => s' + window <= s /\ Forall (fun t => t < s) ts' | [] => True end /\ spaced g'
  end.

Definition all_times (g : list (Z * list Z)) : list Z := concat (snd <$> g).

Definition between (a b t : Z) : bool := (a <=? t) && (t <=? b).

Lemma between_none a b l : Forall (fun t => t < a \/ b < t) l -> keep (between a b) l = [].
Proof.
  induction 1 as [|t l Ht _ IH]; [done|]. cbn. unfold between at 1.
  destruct (Z.leb_spec a t), (Z.leb_spec t b); cbn; [lia|done..].
Qed.

Lemma older_times s ts g : spaced ((s, ts) :: g) -> Forall (fun t => t < s) (all_times g).
Proof.
  revert s ts. induction g as [|[s' ts'] g IH]; intros s ts Hg; [constructor|].
  destruct Hg as (_ & _ & [Hs Hts] & Hg'). unfold all_times. rewrite fmap_cons. cbn [concat snd]. apply Forall_app. split; [done|].
  apply IH in Hg'. eapply Forall_impl; [exact Hg'|]. cbn. intros t Ht. lia.
Qed.

Lemma spaced_bound g a b : spaced g -> b < a + window -> Z.of_nat (length (keep (between a b) (all_times g))) <= 2 * limit.
Proof.
  intros Hg Hab. induction g as [|[s ts] g IH]; [cbn; lia|]. pose proof (older_times _ _ _ Hg) as Hold. destruct Hg as (Hts & Hlen & Hnext & Hg).
  unfold all_times. rewrite fmap_cons. cbn [concat snd]. rewrite keep_app, length_app.
  destruct (Z.lt_ge_cases b s) as [Hbs|Hbs].
  - rewrite between_none; [by apply IH|]. eapply Forall_impl; [exact Hts|]. cbn. lia.
  - assert ((length (keep (between a b) ts) <= length ts)%nat) as H1 by apply keep_length_le.
    assert (Z.of_nat (length (keep (between a b) (all_times g))) <= limit) as H2; [|unfold all_times in H2; lia].
    destruct g as [|[s' ts'] g]; [cbn; lia|]. destruct Hnext as [Hs _]. pose proof (older_times _ _ _ Hg) as Hold'.
    destruct Hg as (_ & Hlen' & _ & _). unfold all_times. rewrite fmap_cons. cbn [concat snd].
    rewrite keep_app, length_app, (between_none a b (concat _)).
    + cbn [length]. rewrite Nat.add_0_r. pose proof (keep_length_le (between a b) ts'). lia.
    + eapply Forall_impl; [exact Hold'|]. cbn. lia.
Qed.

(** What the store says about the newest life. *)
Definition counted (r : redis) (now : Z) (waiting : nat) (g : list (Z * list Z)) : Prop :=
  match r !! k with
  | None => g = [] /\ waiting = 0%nat
  | Some e =>
      exists n s ts g', g = (s, ts) :: g' /\ e_value e = Count n /\ 1 <= n /\ Z.of_nat (length ts) = Z.min n limit /\ s <= now /\
        Forall (fun t => t <= now) ts /\
        match e_expires e with
        | Some t => s + window <= t /\ Forall (fun x => x < t) ts /\ waiting = 0%nat
        | None => (waiting <= 1)%nat
        end
  end.

(** A new life of the counter. *)
Lemma counted_new r now' waiting g :
  spaced g -> waiting = 0%nat ->
  match g with (s, ts) :: _ => s + window <= now' /\ Forall (fun t => t < now') ts | [] => True end ->
  let r' := <[k := {| e_value := Count 1; e_expires := None |}]> r in
  exists g', all_times g' = (if limit <? 1 then all_times g else now' :: all_times g) /\ spaced g' /\ counted r' now' (S waiting) g'.
Proof.
  intros Hg -> Hnext r'. exists ((now', if limit <? 1 then [] else [now']) :: g).
  assert (Z.of_nat (length (if limit <? 1 then [] else [now'])) = Z.min 1 limit) as Hlen
    by (destruct (Z.ltb_spec limit 1); cbn; lia).
  split; [unfold all_times; rewrite fmap_cons; by destruct (limit <? 1)|]. split.
  - cbn [spaced]. split_and!; try done; [destruct (limit <? 1); repeat constructor; lia|lia].
  - unfold counted, r'. rewrite lookup_insert, decide_True by done. exists 1. do 3 eexists. cbn [e_value e_expires].
    split_and!; try done. destruct (limit <? 1); repeat constructor; lia.
Qed.

Lemma counted_try r now waiting g now' r' n :
  spaced g -> counted r now waiting g -> now <= now' -> r_incr r now' k = Ok (r', n) ->
  exists g', all_times g' = (if limit <? n then all_times g else now' :: all_times g) /\ spaced g' /\
    counted r' now' (if n =? 1 then S waiting else waiting) g'.
Proof.
  intros Hg Hc Hn. unfold r_incr, find, counted in *. destruct (r !! k) as [e|] eqn:Hk.
  2: { destruct Hc as [-> ->]. intros [= <- <-]%Ok_inj. by apply (counted_new r now' 0 []). }
  destruct Hc as (n0 & s & ts & g' & -> & Hv & Hn1 & Hlen & Hs & Hle & Hex). unfold live. destruct e as [v ex]. cbn [e_value e_expires] in *. subst v.
  destruct (match ex with Some t => now' <? t | None => true end) eqn:Hlive.
  - intros [= <- <-]%Ok_inj. destruct (Z.eqb_spec (n0 + 1) 1) as [?|_]; [lia|].
    exists ((s, if limit <? n0 + 1 then ts else now' :: ts) :: g').
    split; [unfold all_times; rewrite !fmap_cons; by destruct (limit <? n0 + 1)|]. split.
    + destruct Hg as (Hts & _ & Hnext & Hg'). cbn [spaced]. split_and!; try done;
        destruct (Z.ltb_spec limit (n0 + 1)); cbn [length]; try done; [constructor; [lia|done]|lia..].
    + unfold counted. rewrite lookup_insert, decide_True by done. exists (n0 + 1), s. do 2 eexists. cbn [e_value e_expires]. split_and!; try done; [lia|..].
      * destruct (Z.ltb_spec limit (n0 + 1)); cbn [length]; lia.
      * lia.
      * assert (Forall (fun t => t <= now') ts) by (eapply Forall_impl; [exact Hle|]; cbn; lia).
        destruct (limit <? n0 + 1); [done|]. constructor; [lia|done].
      * destruct ex as [t|]; [|done]. destruct Hex as (Hst & Hts & ->). apply Z.ltb_lt in Hlive. split_and!; try done.
        destruct (limit <? n0 + 1); [done|]. by constructor.
  - destruct ex as [t|]; [|done]. destruct Hex as (Hst & Hts & ->). apply Z.ltb_ge in Hlive.
    intros [= <- <-]%Ok_inj. apply (counted_new r now' 0 ((s, ts) :: g')); try done. split; [lia|].
    eapply Forall_impl; [exact Hts|]. cbn. lia.
Qed.

Lemma counted_expire r now waiting g now' :
  counted r now (S waiting) g -> now <= now' -> counted (r_expire r now' k window).1 now' waiting g.
Proof.
  unfold counted, r_expire, find. destruct (r !! k) as [e|] eqn:Hk; [|by intros [_ ?]].
  intros (n & s & ts & g' & -> & Hv & Hn1 & Hlen & Hs & Hle & Hex) Hn. destruct (e_expires e) as [t|] eqn:Ee; [by destruct Hex as (_ & _ & ?)|].
  unfold live. rewrite Ee. cbn [fst]. rewrite lookup_insert, decide_True by done. exists n, s, ts, g'. cbn [e_value e_expires].
  split_and!; try done; [lia| |lia| |lia]; eapply Forall_impl; try exact Hle; cbn; lia.
Qed.

Lemma attempts_counted r now waiting acc :
  attempts r now waiting acc -> exists g, all_times g = acc /\ spaced g /\ counted r now waiting g.
Proof.
  induction 1 as [r now Hr|r now waiting acc now' r' n _ (g & <- & Hg & Hc) Hn Hincr|r now waiting acc now' _ (g & <- & Hg & Hc) Hn
                 |r now waiting acc _ (g & <- & Hg & Hc)|r now waiting acc r' now' _ (g & <- & Hg & Hc) Hn Hk].
  - exists []. split; [done|]. split; [done|]. unfold counted. by rewrite Hr.
  - by apply (counted_try r now).
  - exists g. split_and!; try done. by apply (counted_expire r now).
  - exists g. split_and!; try done. unfold counted in *. destruct (r !! k) as [e|]; [|by destruct Hc].
    destruct Hc as (n & s & ts & g' & -> & Hv & Hn1 & Hlen & Hs & Hle & Hex). exists n, s, ts, g'. split_and!; try done.
    destruct (e_expires e); [by destruct Hex as (_ & _ & ?)|lia].
  - exists g. split_and!; try done. unfold counted in *. rewrite Hk. destruct (r !! k) as [e|]; [|done].
    destruct Hc as (n & s & ts & g' & -> & Hv & Hn1 & Hlen & Hs & Hle & Hex). exists n, s, ts, g'. split_and!; try done; [lia|].
    eapply Forall_impl; [exact Hle|]. cbn. lia.
Qed.

(** In any period as long as the window of a limit, at most twice the limit
    is let through, however the requests interleave; and the counter itself
    never lets more than the limit through before it expires. *)
Lemma attempts_bounded r now waiting acc a b :
  attempts r now waiting acc -> b < a + window -> Z.of_nat (length (keep (between a b) acc)) <= 2 * limit.
Proof. intros (g & <- & Hg & _)%attempts_counted Hab. by apply spaced_bound. Qed.
End bound.

(** ** The claims on rate limits *)

(** C23: A limit holds however the requests interleave.  In any period shorter than
    the window of a limit, at most twice the limit is let through; this
    counts every request whose [check_rate_limit] raised nothing, with the
    single commands of other requests in between. *)
Theorem rate_limit_bounds_requests cfg key limit window r now waiting acc now' r' verdict :
  0 <= limit -> 0 < window ->
  attempts (counter_key cfg key) limit window r now waiting acc -> now <= now' ->
  check_rate_limit cfg r now' key (Some limit) (Some window) = Ok (r', verdict) ->
  let acc' := match verdict with None => now' :: acc | Some _ => acc end in
  attempts (counter_key cfg key) limit window r' now' waiting acc' /\
  forall a b, b < a + window -> Z.of_nat (length (keep (between a b) acc')) <= 2 * limit.
Proof.
  intros Hlimit Hwindow Hatt Hn Hcheck. cbn zeta. set (acc' := match verdict with None => _ | Some _ => _ end).
  assert (attempts (counter_key cfg key) limit window r' now' waiting acc') as Hatt'.
  { unfold check_rate_limit in Hcheck. cbn [default] in Hcheck. unfold id in Hcheck. apply bind_Ok in Hcheck as ([r1 n] & Hincr & Hcheck).
    pose proof (at_try _ _ _ _ _ _ _ _ _ _ Hatt Hn Hincr) as Htry.
    assert (attempts (counter_key cfg key) limit window
              (if n =? 1 then (r_expire r1 now' (counter_key cfg key) window).1 else r1) now' waiting
              (if limit <? n then acc else now' :: acc)) as Hfull.
    { destruct (n =? 1); [|done]. by eapply at_expire; [exact Htry|lia]. }
    destruct (limit <? n); apply Ok_inj in Hcheck as [= <- <-]; exact Hfull. }
  split; [done|]. intros a b Hab. by eapply attempts_bounded.
Qed.

(** A counter whose expiry was lost with the connection blocks for ever: once
    the limit is reached, every later request is refused. *)
Lemma lost_expiry_blocks cfg key limit window r now n :
  r !! counter_key cfg key = Some {| e_value := Count n; e_expires := None |} -> 1 <= limit <= n ->
  exists r', check_rate_limit cfg r now key (Some limit) (Some window) = Ok (r', Some 1) /\
    r' !! counter_key cfg key = Some {| e_value := Count (n + 1); e_expires := None |}.
Proof.
  intros Hk Hn. unfold check_rate_limit, r_incr, find. cbn [default]. unfold id. rewrite Hk. cbn [live e_expires].
  cbn [mbind res_bind]. destruct (Z.eqb_spec (n + 1) 1) as [?|_]; [lia|].
  destruct (Z.ltb_spec limit (n + 1)); [|lia]. eexists. split.
  - unfold r_ttl, find. rewrite lookup_insert, decide_True by done. done.
  - by rewrite lookup_insert, decide_True.
Qed.

Definition lock_key (cfg : RedisSessionStoreConfig) (key : string) : string := rate_limit_key_prefix cfg +:+ ":lock:" +:+ key.

(** Once an escalating limit has refused an attempt for a time, it refuses
    every attempt until that time has passed, whatever else happens in the
    store, and says how long is left. *)
Theorem refusal_lasts cfg r now key limit window steps strike_ttl r' lock r'' now' :
  check_escalating_rate_limit cfg r now key limit window steps strike_ttl = Ok (r', Some lock) ->
  now <= now' < now + lock -> r'' !! lock_key cfg key = r' !! lock_key cfg key ->
  check_escalating_rate_limit cfg r'' now' key limit window steps strike_ttl = Ok (r'', Some (now + lock - now')).
Proof.
  intros Hcheck Hn Hlock.
  assert (exists v, r' !! lock_key cfg key = Some {| e_value := v; e_expires := Some (now + lock) |}) as [v Hv].
  { unfold check_escalating_rate_limit in Hcheck. fold (lock_key cfg key) in Hcheck.
    destruct (Z.ltb_spec 0 (r_ttl r now (lock_key cfg key))) as [Hpos|_].
    - apply Ok_inj in Hcheck as [= <- <-]. unfold r_ttl, find in *. destruct (r !! lock_key cfg key) as [[v [t|]]|]; [|cbn in Hpos; lia|lia].
      cbn in Hpos |- *. destruct (now <? t); [|lia]. exists v. cbn. do 3 f_equal. lia.
    - apply bind_Ok in Hcheck as ([r1 n] & _ & Hcheck). cbn beta iota in Hcheck. destruct (n <=? limit); [done|].
      apply bind_Ok in Hcheck as ([r2 strikes] & _ & Hcheck). apply bind_Ok in Hcheck as (l & _ & [= <- <-]%Ok_inj).
      exists (Count strikes). unfold r_set. by rewrite lookup_insert, decide_True. }
  unfold check_escalating_rate_limit. fold (lock_key cfg key).
  assert (r_ttl r'' now' (lock_key cfg key) = now + lock - now') as Ettl.
  { unfold r_ttl, find. rewrite Hlock, Hv. unfold live. cbn [e_expires]. by destruct (Z.ltb_spec now' (now + lock)); [|lia]. }
  rewrite Ettl. by destruct (Z.ltb_spec 0 (now + lock - now')); [|lia].
Qed.

(** ** Everything that happens to sessions *)

Lemma texts_strings l : texts (VList (VStr <$> l)) = l.
Proof. cbn. induction l as [|x l IH]; [done|]. rewrite fmap_cons. cbn. by rewrite IH. Qed.

Lemma text_option_value o : text_option (opt_value o) = o.
Proof. by destruct o. Qed.

Definition valid_mode (m : string) : Prop := m = PASSWORD \/ m = TRUSTED_PROXY.

(** A session survives the store. *)
Lemma session_of_body cfg s : valid_mode (s_auth_mode s) -> session_of cfg (s_token s) (session_body s) = Ok s.
Proof.
  intros Hm. unfold session_of.
  assert (dict_get (session_body s) "user_id" = Some (VStr (s_user_id s))) as -> by reflexivity.
  assert (dict_get (session_body s) "workspace_id" = Some (VStr (s_workspace_id s))) as -> by reflexivity.
  assert (get (session_body s) "roles" = VList (VStr <$> s_roles s)) as -> by reflexivity.
  assert (get (session_body s) "display_name" = opt_value (s_display_name s)) as -> by reflexivity.
  assert (get (session_body s) "email" = opt_value (s_email s)) as -> by reflexivity.
  assert (get (session_body s) "auth_mode" = VStr (s_auth_mode s)) as -> by reflexivity.
  rewrite texts_strings, !text_option_value. cbn [raise_none mbind res_bind text_option option_bind default]. unfold id.
  destruct s as [token user roles ws display email mode]. cbn in Hm |- *. by destruct Hm as [-> | ->].
Qed.

(** Only the commands of rate limits write to the keys of rate limits, and
    they write counters only. *)
Section world.
Context `{ReprLib} `{Sha256} (cfg : RedisSessionStoreConfig) (limits : Settings) (proxy : ProxySettings).
Context (pbkdf2_hmac : string -> string -> Z -> option string) (b64decode : string -> option string).

(** The prefixes of the two kinds of keys differ. *)
Hypothesis keys_apart : forall token key, session_key cfg token <> counter_key cfg key.

Definition apart (r r' : redis) : Prop := forall token, r' !! session_key cfg token = r !! session_key cfg token.

#[local] Instance apart_preorder : PreOrder apart.
Proof. split; [done|]. intros r1 r2 r3 H1 H2 t. by rewrite H2. Qed.

Lemma r_incr_apart r now key r' n : r_incr r now (counter_key cfg key) = Ok (r', n) -> apart r r'.
Proof.
  unfold r_incr. intros E token. pose proof (keys_apart token key) as Hne.
  destruct (find _ _ _) as [[[d|m] t]|]; [done|..]; apply Ok_inj in E as [= <- <-]; by rewrite lookup_insert_ne.
Qed.

Lemma r_expire_apart r now key seconds : apart r (r_expire r now (counter_key cfg key) seconds).1.
Proof.
  unfold r_expire. intros token. pose proof (keys_apart token key) as Hne. destruct (find _ _ _); cbn [fst]; [|done].
  by rewrite lookup_insert_ne.
Qed.

Lemma count_apart r now key r1 n (b : bool) seconds :
  r_incr r now (counter_key cfg key) = Ok (r1, n) ->
  apart r (if b then (r_expire r1 now (counter_key cfg key) seconds).1 else r1).
Proof.
  intros Hi%r_incr_apart. destruct b; [|done]. etrans; [exact Hi|]. apply r_expire_apart.
Qed.

Lemma check_apart r now key l w r' v : check_rate_limit cfg r now key l w = Ok (r', v) -> apart r r'.
Proof.
  unfold check_rate_limit. intros ([r1 n] & Hi & E)%bind_Ok. cbn beta iota in E.
  pose proof (count_apart _ _ _ _ _ (n =? 1) (default (rate_limit_window_seconds cfg) w) Hi) as Ha.
  destruct (_ <? n); apply Ok_inj in E as [= <- <-]; exact Ha.
Qed.

Lemma check_escalating_apart r now key l w steps ttl r' v :
  check_escalating_rate_limit cfg r now key l w steps ttl = Ok (r', v) -> apart r r'.
Proof.
  unfold check_escalating_rate_limit. destruct (0 <? _); [by intros [= <- <-]%Ok_inj|].
  intros ([r1 n] & Hi & E)%bind_Ok. cbn beta iota in E.
  pose proof (count_apart _ _ ("count:" +:+ key) _ _ (n =? 1) w Hi) as Ha. destruct (n <=? l); [by apply Ok_inj in E as [= <- <-]|].
  apply bind_Ok in E as ([r2 m] & Hi2 & E). cbn beta iota in E. apply bind_Ok in E as (lock & _ & [= <- <-]%Ok_inj).
  pose proof (count_apart _ _ ("strike:" +:+ key) _ _ (m =? 1) ttl Hi2) as Ha2. etrans; [exact Ha|]. etrans; [exact Ha2|].
  intros token. unfold r_set. rewrite lookup_insert_ne; [done|]. intros Ek. by apply (keys_apart token ("lock:" +:+ key)).
Qed.

Lemma then_check_apart r first next r' v :
  apart r first.1 -> (forall r1 r2 v, next r1 = Ok (r2, v) -> apart r1 r2) -> then_check first next = Ok (r', v) -> apart r r'.
Proof.
  intros Hf Hnext. unfold then_check. destruct first.2; [by intros [= <- <-]%Ok_inj|].
  intros ([r2 v2] & E & [= <- <-]%Ok_inj)%bind_Ok. etrans; [exact Hf|]. by apply Hnext in E.
Qed.

Lemma auth_rate_check_apart p r now email client r' v : auth_rate_check cfg p r now email client = Ok (r', v) -> apart r r'.
Proof.
  unfold auth_rate_check. intros ([r1 v1] & E1%check_escalating_apart & E2)%bind_Ok.
  eapply then_check_apart; [|..|exact E2]; [done|]. intros r2 r3 v3 E. by apply check_escalating_apart in E.
Qed.

Lemma request_rate_check_apart r now m token user r' v : request_rate_check cfg limits r now m token user = Ok (r', v) -> apart r r'.
Proof.
  unfold request_rate_check. intros ([r1 v1] & E1%check_apart & E2)%bind_Ok.
  eapply then_check_apart; [|..|exact E2]; [done|]. intros r2 r3 v3. destruct (user_limit _); [apply check_apart|by intros [= <- <-]%Ok_inj].
Qed.

Lemma first_session_found r now tokens s :
  first_session cfg r now tokens = Ok (Some s) -> exists token, token ∈ tokens /\ get_session cfg r now token = Ok (Some s).
Proof.
  induction tokens as [|token tokens IH]; cbn; [done|]. intros ([s'|] & Hg & E)%bind_Ok.
  - apply Ok_inj in E as [= <-]. exists token. split; [by left|done].
  - destruct (IH E) as (t & Hin & Ht). exists t. split; [by right|done].
Qed.

Lemma require_session_Ok r now q r' s :
  require_session cfg limits proxy r now q = Ok (r', Answer s) ->
  apart r r' /\ ((exists token, token ∈ extract_session_tokens q /\ get_session cfg r now token = Ok (Some s)) \/
                 exists identity, trusted_proxy_identity proxy (rq_proxy_header q) = Some identity /\ s = proxy_session identity).
Proof.
  unfold require_session. intros ([s'|] & Hf & E)%bind_Ok.
  - apply bind_Ok in E as ([r1 v] & Hc & E). cbn [fst snd] in E. destruct v; [done|]. apply Ok_inj in E as [= <- <-].
    split; [by apply request_rate_check_apart in Hc|]. left. by apply first_session_found in Hf.
  - apply Ok_inj in E as [= <- Ea]. split; [done|]. right. destruct (trusted_proxy_identity _ _) as [i|]; [|done].
    exists i. split; [done|]. by injection Ea.
Qed.

Lemma require_session_apart r now q r' a : require_session cfg limits proxy r now q = Ok (r', a) -> apart r r'.
Proof.
  unfold require_session. intros ([s'|] & Hf & E)%bind_Ok.
  - apply bind_Ok in E as ([r1 v] & Hc%request_rate_check_apart & [= <- <-]%Ok_inj). done.
  - by apply Ok_inj in E as [= <- _].
Qed.

Lemma login_Ok s r now email password client token r' a :
  login cfg limits pbkdf2_hmac b64decode s r now email password client token = Ok (r', a) ->
  exists r1, apart r r1 /\
    (r' = r1 \/
     exists user_id account roles ws display mail,
       users s !! user_id = Some account /\ u_status account = ACTIVE /\
       roles = [if is_empty (u_role account) then USER else u_role account] /\
       r' = (create_session cfg r1 now token user_id roles ws display mail PASSWORD).1).
Proof.
  unfold login. intros ([r1 v] & Hc%auth_rate_check_apart & E)%bind_Ok. exists r1. split; [done|]. cbn beta iota in E.
  destruct v; [apply Ok_inj in E as [= <- _]; by left|].
  destruct (user_with_email _ _) as [u|]; [|apply Ok_inj in E as [= <- _]; by left].
  destruct (users s !! u) as [acc|] eqn:Hu; [|apply Ok_inj in E as [= <- _]; by left].
  destruct (negb (verify_password _ _ _ _)); [apply Ok_inj in E as [= <- _]; by left|].
  destruct (str_eqb _ PENDING_EMAIL_VERIFICATION); [apply Ok_inj in E as [= <- _]; by left|].
  destruct (str_eqb _ PENDING_APPROVAL); [apply Ok_inj in E as [= <- _]; by left|].
  destruct (str_eqb (u_status acc) ACTIVE) eqn:Ha; cbn [negb] in E; [|apply Ok_inj in E as [= <- _]; by left].
  right. apply Ok_inj in E as [= <- _]. apply str_eqb_eq in Ha. by do 6 eexists.
Qed.

(** How a session was issued: its token, the database its roles were read
    from and, for a switch of workspace, the request and the token of the
    session that it came from. *)
Record issue := { is_token : string; is_db : db; is_via : option (request * string) }.

(** The store, the clock, the tokens drawn so far and how they were issued. *)
Record world := { w_redis : redis; w_now : Z; w_drawn : gset string; w_log : list issue }.

(** A token that is drawn is new and not empty. *)
Definition fresh (w : world) (token : string) : Prop := token <> "" /\ token ∉ w_drawn w.

Definition moved (w : world) (r : redis) (now : Z) : world :=
  {| w_redis := r; w_now := now; w_drawn := w_drawn w; w_log := w_log w |}.
Definition drew (w : world) (r : redis) (now : Z) (i : issue) : world :=
  {| w_redis := r; w_now := now; w_drawn := {[is_token i]} ∪ w_drawn w; w_log := i :: w_log w |}.

(** A request arrives at any later time, on any state of the database. *)
Inductive happens (w : world) : world -> Prop :=
  | on_login s now email password client token r a :
      w_now w <= now -> fresh w token ->
      login cfg limits pbkdf2_hmac b64decode s (w_redis w) now email password client token = Ok (r, a) ->
      happens w (drew w r now {| is_token := token; is_db := s; is_via := None |})
  | on_request now q r a :
      w_now w <= now -> require_session cfg limits proxy (w_redis w) now q = Ok (r, a) -> happens w (moved w r now)
  | on_switch s now q session r workspace_id token r' a :
      w_now w <= now -> fresh w token ->
      require_session cfg limits proxy (w_redis w) now q = Ok (r, Answer session) ->
      switch_workspace cfg s r now session workspace_id token = (r', a) ->
      happens w (drew w r' now {| is_token := token; is_db := s; is_via := Some (q, s_token session) |})
  | on_touch now token : w_now w <= now -> happens w (moved w (touch_session cfg (w_redis w) now token).1 now)
  | on_logout now token : w_now w <= now -> happens w (moved w (logout cfg (w_redis w) token) now).

Inductive reached : world -> Prop :=
  | reached_start now : reached {| w_redis := ∅; w_now := now; w_drawn := ∅; w_log := [] |}
  | reached_next w w' : reached w -> happens w w' -> reached w'.

(** The administrator role of a user in a database. *)
Definition held_admin (s : db) (user_id : string) : Prop :=
  exists account, users s !! user_id = Some account /\ u_status account = ACTIVE /\ strip (u_role account) = SERVICE_ADMIN.

(** The request carries the configured secret, and there is one. *)
Definition carries_secret (q : request) : Prop :=
  strip (proxy_secret proxy) <> "" /\ strip (rq_proxy_header q) = strip (proxy_secret proxy).

(** The session of the token goes back, over switches of workspace, to a
    request that carried the secret. *)
Inductive descends (log : list issue) : string -> Prop :=
  | from_secret i q prev :
      i ∈ log -> is_via i = Some (q, prev) -> carries_secret q -> descends log (is_token i)
  | from_session i q prev :
      i ∈ log -> is_via i = Some (q, prev) -> prev ∈ extract_session_tokens q -> descends log prev ->
      descends log (is_token i).

Lemma descends_weaken log i token : descends log token -> descends (i :: log) token.
Proof.
  induction 1 as [x q prev Hin Hv Hc|x q prev Hin Hv Hp _ IH].
  - by eapply from_secret; [right|..].
  - by eapply from_session; [right|..].
Qed.

Lemma identity_carries q u w :
  trusted_proxy_identity proxy (rq_proxy_header q) = Some (u, w) -> carries_secret q /\ u = strip (proxy_user_id proxy).
Proof.
  unfold trusted_proxy_identity, carries_secret. destruct (strip (proxy_secret proxy)) as [|c x] eqn:Es; [done|].
  cbn [is_empty]. destruct (is_empty (strip (rq_proxy_header q))); [done|]. cbn [orb].
  destruct (str_eqb _ _) eqn:E; [|done]. apply str_eqb_eq in E. cbn [negb]. destruct (_ || _); [done|].
  intros [= <- _]. by rewrite <- E.
Qed.

(** What stands behind a session that is in the store. *)
Definition honest (log : list issue) (s : AuthSession) : Prop :=
  valid_mode (s_auth_mode s) /\
  (s_auth_mode s = TRUSTED_PROXY -> descends log (s_token s) /\ s_user_id s = strip (proxy_user_id proxy)) /\
  (s_auth_mode s = PASSWORD -> SERVICE_ADMIN ∈ s_roles s ->
   exists i, i ∈ log /\ is_token i = s_token s /\ held_admin (is_db i) (s_user_id s)).

Lemma honest_weaken log i s : honest log s -> honest (i :: log) s.
Proof.
  intros (Hm & Hp & Hr). split_and!; [done|intros E; destruct (Hp E); split; [by apply descends_weaken|done]|].
  intros E Hin. destruct (Hr E Hin) as (d' & Hd & Ha). exists d'. split; [by right|done].
Qed.

Definition kept (drawn : gset string) (log : list issue) (token : string) (e : entry) : Prop :=
  token ∈ drawn /\ exists s, s_token s = token /\ e_value e = Text (session_body s) /\ honest log s.

Lemma kept_weaken drawn log token i e : kept drawn log token e -> kept ({[is_token i]} ∪ drawn) (i :: log) token e.
Proof. intros (Hin & s & Ht & Hv & Hh). split; [set_solver|]. exists s. split_and!; [done..|]. by apply honest_weaken. Qed.

(** Every entry of a session key is a session that was issued. *)
Definition stored (r : redis) (drawn : gset string) (log : list issue) : Prop :=
  forall token e, r !! session_key cfg token = Some e -> kept drawn log token e.

Lemma session_key_inj t1 t2 : session_key cfg t1 = session_key cfg t2 -> t1 = t2.
Proof. unfold session_key. intros Ek. by do 2 apply (inj (String.append _)) in Ek. Qed.

Lemma stored_apart r r' drawn seen : apart r r' -> stored r drawn seen -> stored r' drawn seen.
Proof. intros Ha Hs token e. rewrite Ha. apply Hs. Qed.

Lemma stored_weaken r drawn seen i : stored r drawn seen -> stored r ({[is_token i]} ∪ drawn) (i :: seen).
Proof. intros Hs token e He. apply kept_weaken. by apply Hs. Qed.

Lemma stored_delete r drawn seen token : stored r drawn seen -> stored (delete_session cfg r token) drawn seen.
Proof. intros Hs t e. unfold delete_session, r_delete. intros [_ He]%lookup_delete_Some. by apply Hs. Qed.

Lemma stored_create r now user roles ws display mail mode drawn seen i :
  stored r drawn seen ->
  honest (i :: seen) (create_session cfg r now (is_token i) user roles ws display mail mode).2 ->
  stored (create_session cfg r now (is_token i) user roles ws display mail mode).1 ({[is_token i]} ∪ drawn) (i :: seen).
Proof.
  intros Hs Hh t e. unfold create_session, r_set. cbn [fst].
  intros [[Ek%session_key_inj <-]|[_ He]]%lookup_insert_Some; [subst t|by apply kept_weaken, Hs].
  split; [set_solver|]. eexists. split_and!; [..|exact Hh]; done.
Qed.

Lemma stored_get r now drawn seen token s :
  stored r drawn seen -> get_session cfg r now token = Ok (Some s) -> s_token s = token /\ token ∈ drawn /\ honest seen s.
Proof.
  intros Hs. unfold get_session, r_get, find. destruct (is_empty token); [done|].
  destruct (r !! session_key cfg token) as [e|] eqn:He; [|done]. destruct (live now e); [|done]. cbn [fmap option_fmap option_map].
  destruct (Hs _ _ He) as (Hin & s' & Ht & -> & Hh). cbn beta iota. subst token. rewrite session_of_body by apply Hh.
  intros [= <-]%Ok_inj. done.
Qed.

Lemma stored_require r now q r' s drawn seen :
  stored r drawn seen -> require_session cfg limits proxy r now q = Ok (r', Answer s) ->
  stored r' drawn seen /\
  ((s_token s ∈ extract_session_tokens q /\ s_token s ∈ drawn /\ honest seen s) \/
   (carries_secret q /\ s_auth_mode s = TRUSTED_PROXY /\ s_user_id s = strip (proxy_user_id proxy))).
Proof.
  intros Hs [Ha Hcase]%require_session_Ok. split; [by eapply stored_apart|].
  destruct Hcase as [(token & Hin & Hg)|([u w] & [Hc ->]%identity_carries & ->)]; [left|by right].
  by apply (stored_get _ _ drawn seen) in Hg as (<- & ? & ?).
Qed.

Lemma effective_roles_honest d s roles :
  effective_roles d s = Some roles -> SERVICE_ADMIN ∈ roles -> s_auth_mode s = PASSWORD -> held_admin d (s_user_id s).
Proof.
  intros Hr Hin Hm. unfold effective_roles in Hr. rewrite Hm in Hr. change (str_eqb PASSWORD TRUSTED_PROXY) with false in Hr.
  cbn beta iota in Hr. unfold session_identity in Hr. destruct (users d !! s_user_id s) as [a|] eqn:Hu; [|done].
  destruct (str_eqb (u_status a) ACTIVE) eqn:Ha; [|done]. cbn [negb] in Hr. destruct (is_empty (strip (u_role a))); [done|].
  injection Hr as <-. apply str_eqb_eq in Ha. apply list_elem_of_singleton in Hin. by exists a.
Qed.

Lemma stored_switch d r now session workspace_id token q r' a drawn seen :
  stored r drawn seen -> valid_mode (s_auth_mode session) ->
  (s_auth_mode session = TRUSTED_PROXY -> s_user_id session = strip (proxy_user_id proxy) /\
     (carries_secret q \/ (s_token session ∈ extract_session_tokens q /\ descends seen (s_token session)))) ->
  switch_workspace cfg d r now session workspace_id token = (r', a) ->
  let i := {| is_token := token; is_db := d; is_via := Some (q, s_token session) |} in
  stored r' ({[is_token i]} ∪ drawn) (i :: seen).
Proof.
  intros Hs Hm Hp Hsw i. revert Hsw. unfold switch_workspace. destruct (effective_roles d session) as [roles|] eqn:Hr.
  2: { intros [= <- _]. by apply stored_weaken. }
  destruct (negb _); [intros [= <- _]; by apply stored_weaken|].
  match goal with |- context [create_session cfg r now token ?u ?ro ?w ?x ?y ?m] =>
    pose proof (stored_create r now u ro w x y m drawn seen i Hs) as Hc; change (is_token i) with token in Hc |- *;
    destruct (create_session cfg r now token u ro w x y m) as [r1 next] eqn:Ec end.
  intros [= <- _]. cbn [fst snd] in Hc.
  assert (stored r1 ({[token]} ∪ drawn) (i :: seen)) as Hs1.
  { apply Hc. unfold create_session in Ec. injection Ec as <- <-. split_and!; cbn; [done| |].
    { intros E. destruct (Hp E) as [Hu [Hq|[Hq Hd]]]; (split; [|done]).
      - by apply (from_secret (i :: seen) i q (s_token session)); [left|..].
      - apply (from_session (i :: seen) i q (s_token session)); [by left|done..|]. by apply descends_weaken. }
    intros E Hin. exists i. split; [by left|]. split; [done|]. eapply effective_roles_honest; [exact Hr| |done].
    unfold effective_roles in Hr. rewrite E in Hr. cbn in Hr. destruct (session_identity _ _) as [v|] eqn:Hi; [|done]. injection Hr as <-.
    destruct (decide (si_roles v = [])) as [E0|E0]; [|by rewrite bool_decide_false in Hin].
    unfold session_identity in Hi. destruct (users d !! _); [|done]. repeat (destruct (_ : bool) in Hi; [done|]). by injection Hi as <-. }
  destruct (str_eqb _ _); [done|]. by apply stored_delete.
Qed.

Lemma stored_login d r now email password client token r' a drawn seen :
  stored r drawn seen -> login cfg limits pbkdf2_hmac b64decode d r now email password client token = Ok (r', a) ->
  let i := {| is_token := token; is_db := d; is_via := None |} in
  stored r' ({[is_token i]} ∪ drawn) (i :: seen).
Proof.
  intros Hs Hlog i. revert Hlog. intros (r1 & Ha & [-> | (u & acc & roles & ws & x & y & Hu & Hact & -> & ->)])%login_Ok;
    apply (stored_apart _ r1) in Hs; try done; [by apply stored_weaken|].
  apply (stored_create r1 now u _ ws x y PASSWORD drawn seen i); [done|]. cbn. split_and!; [by left|done|].
  intros _ Hin%list_elem_of_singleton. exists i. split; [by left|]. split; [done|]. exists acc. split_and!; [done..|]. destruct (is_empty (u_role acc)); [done|]. by rewrite <- Hin.
Qed.

Lemma reached_stored w : reached w -> stored (w_redis w) (w_drawn w) (w_log w).
Proof.
  induction 1 as [now|w w' _ IH Hstep]; [intros token e; cbn; by rewrite lookup_empty|].
  destruct Hstep as [s now email password client token r a _ _ Hl|now q r a _ Hq|s now q session r ws token r' a _ _ Hq Hsw|now token _|now token _]; cbn.
  - by eapply stored_login.
  - apply require_session_apart in Hq. by eapply stored_apart.
  - apply (stored_require _ _ _ _ _ (w_drawn w) (w_log w)) in Hq as [Hr Hh]; [|done].
    eapply (stored_switch s); [exact Hr| | |exact Hsw].
    + destruct Hh as [(_ & _ & Hm & _)|(_ & -> & _)]; [done|by right].
    + intros E. destruct Hh as [(Hin & _ & _ & Hp & _)|(Hc & _ & Hu)]; [destruct (Hp E) as [Hd Hu]|]; auto.
  - unfold touch_session. destruct (is_empty token); [done|]. unfold r_expire, find.
    destruct (w_redis w !! session_key cfg token) as [e|] eqn:He; [|done]. destruct (live now e); [|done]. cbn. intros t e'.
    intros [[Ek%session_key_inj <-]|[_ He']]%lookup_insert_Some; [|by apply IH]. subst t. apply IH in He as (Hin & s & Ht & Hv & Hh).
    split; [done|]. by exists s.
  - unfold logout. destruct (is_empty token); [done|]. by apply stored_delete.
Qed.

(** A session that cannot be found stays so. *)
Definition ended (r : redis) (now : Z) (token : string) : Prop := find r now (session_key cfg token) = None.

Lemma ended_get r now token : ended r now token -> get_session cfg r now token = Ok None.
Proof. unfold ended, get_session, r_get. intros ->. by destruct (is_empty token). Qed.

Lemma ended_later r now now' token : ended r now token -> now <= now' -> ended r now' token.
Proof.
  unfold ended, find, live. destruct (r !! _) as [[v [t|]]|]; cbn; [|done..].
  destruct (Z.ltb_spec now t), (Z.ltb_spec now' t); done || lia.
Qed.

Lemma ended_apart r r' now token : apart r r' -> ended r now token -> ended r' now token.
Proof. unfold ended, find. intros Ha. by rewrite Ha. Qed.

Lemma ended_delete r now t token : ended r now token -> ended (delete_session cfg r t) now token.
Proof.
  unfold ended, find, delete_session, r_delete. rewrite lookup_delete. by case_decide.
Qed.

Lemma ended_set r now t token v seconds :
  t <> token -> ended r now token -> ended (r_set r now (session_key cfg t) v seconds) now token.
Proof. intros Hne. unfold ended, find, r_set. rewrite lookup_insert_ne; [done|]. by intros ?%session_key_inj. Qed.

Lemma ended_step w w' token :
  token ∈ w_drawn w -> ended (w_redis w) (w_now w) token -> happens w w' ->
  token ∈ w_drawn w' /\ ended (w_redis w') (w_now w') token.
Proof.
  intros Hin He Hstep. assert (forall now, w_now w <= now -> ended (w_redis w) now token) as Hl by (intros; by eapply ended_later).
  destruct Hstep as [s now email password client t r a Hn Hf Hlog|now q r a Hn Hq|s now q session r ws t r' a Hn Hf Hq Hsw|now t Hn|now t Hn];
    cbn; (split; [set_solver|]); specialize (Hl now Hn).
  - assert (t <> token) as Hne by (intros ->; by apply Hf).
    apply login_Ok in Hlog as (r1 & Ha & [-> | (u & acc & roles & w0 & x & y & _ & _ & _ & ->)]); [by eapply ended_apart|].
    apply ended_set; [done|]. by eapply ended_apart.
  - apply require_session_apart in Hq. by eapply ended_apart.
  - assert (t <> token) as Hne by (intros ->; by apply Hf).
    assert (ended r now token) as Hr by (apply require_session_apart in Hq; by eapply ended_apart).
    unfold switch_workspace in Hsw. destruct (effective_roles s session); [|by injection Hsw as <- _].
    destruct (negb _); [by injection Hsw as <- _|]. injection Hsw as <- _.
    destruct (str_eqb _ _); [|apply ended_delete]; by apply ended_set.
  - unfold touch_session. destruct (is_empty t); [done|]. unfold r_expire. destruct (find _ now (session_key cfg t)) eqn:Hfind; [|done].
    unfold ended, find in *. cbn. rewrite lookup_insert_ne; [done|]. intros E%session_key_inj. subst t. congruence.
  - unfold logout. destruct (is_empty t); [done|]. by apply ended_delete.
Qed.

(** Steps in a row. *)
Definition later : relation world := rtc happens.

Lemma ended_for_ever w w' token :
  token ∈ w_drawn w -> ended (w_redis w) (w_now w) token -> later w w' -> ended (w_redis w') (w_now w') token.
Proof.
  intros Hin He Hl. induction Hl as [w|w w1 w' Hstep _ IH]; [done|].
  destruct (ended_step _ _ _ Hin He Hstep) as [Hin' He']. by apply IH.
Qed.

(** ** The claims on sessions *)

(** C14: A request passes as an administrator only in one of three ways.  It
    carries the secret configured for the trusted proxy, and stands for the
    configured user.  Or it carries the token of a session whose user was
    active and held the administrator role in the database that this very
    session was issued on.  Or it carries the token of a session that goes
    back, over switches of workspace, to a request that carried the secret.
    Session tokens are drawn fresh, and the keys of sessions and of counters
    in the store differ. *)
Theorem admin_requests_are_admins w now q r session :
  reached w -> require_admin_session cfg limits proxy (w_redis w) now q = Ok (r, Answer session) ->
  (carries_secret q /\ s_user_id session = strip (proxy_user_id proxy)) \/
  (s_token session ∈ extract_session_tokens q /\
   ((exists i, i ∈ w_log w /\ is_token i = s_token session /\ held_admin (is_db i) (s_user_id session)) \/
    (descends (w_log w) (s_token session) /\ s_user_id session = strip (proxy_user_id proxy)))).
Proof.
  intros Hw. unfold require_admin_session. intros ([r1 a1] & Hq & E)%bind_Ok. cbn [fst snd] in E.
  destruct a1 as [s|]; [|done]. destruct (bool_decide (SERVICE_ADMIN ∈ s_roles s)) eqn:Hb; [|done].
  apply bool_decide_eq_true in Hb. apply Ok_inj in E as [= <- <-]. pose proof (reached_stored _ Hw) as Hs.
  apply (stored_require _ _ _ _ _ (w_drawn w) (w_log w)) in Hq as [_ [(Hin & _ & [Em|Em] & Hp & Hr)|(Hc & _ & Hu)]]; [..|done].
  - right. split; [done|]. left. by apply Hr.
  - right. split; [done|]. right. by apply Hp.
  - by left.
Qed.

(** A session that was logged out, or that expired, stays ended: whatever
    logins, requests, switches of workspace, renewals and logouts follow, its
    token finds no session. *)
Theorem ended_session_stays_ended w w' now token :
  token ∈ w_drawn w -> token <> "" -> later w w' ->
  ((exists r, w_redis w = logout cfg r token) \/ get_session cfg (w_redis w) (w_now w) token = Ok None) ->
  w_now w' <= now -> get_session cfg (w_redis w') now token = Ok None.
Proof.
  intros Hin Hne Hl He Hn. apply ended_get. eapply ended_later; [|exact Hn]. apply (ended_for_ever w); [done| |done].
  unfold ended. destruct He as [[r ->]|Hg].
  - unfold logout. destruct token as [|c token]; [done|]. cbn [is_empty]. unfold find, delete_session, r_delete. by rewrite lookup_delete, decide_True.
  - unfold get_session, r_get in Hg. destruct token as [|c token]; [done|]. cbn [is_empty] in Hg.
    destruct (find _ _ _) as [[[d|n] t]|]; [|done..]. cbn in Hg. by destruct (session_of _ _ _).
Qed.
End world.

(** ** A run on concrete requests *)
Module Sample.
#[local] Existing Instance Demo.plain_repr.
#[local] Existing Instance Demo.plain_hash.

Definition config : RedisSessionStoreConfig :=
  {| ttl_seconds := 60; key_prefix := "session"; default_roles := [USER]; default_workspace_id := "default";
     rate_limit_key_prefix := "rate"; rate_limit := 10; rate_limit_window_seconds := 60 |}.
Definition limits : Settings :=
  {| LOGIN_EMAIL_RATE_LIMIT := 2; LOGIN_IP_RATE_LIMIT := 5; AUTH_ABUSE_RATE_WINDOW_SECONDS := 60; AUTH_ABUSE_FIRST_LOCK_SECONDS := 30;
     AUTH_ABUSE_SECOND_LOCK_SECONDS := 300; AUTH_ABUSE_THIRD_LOCK_SECONDS := 3600; AUTH_ABUSE_STRIKE_TTL_SECONDS := 3600;
     AUTHENTICATED_READ_RATE_LIMIT := 100; AUTHENTICATED_READ_RATE_WINDOW_SECONDS := 60;
     AUTHENTICATED_MUTATION_SESSION_RATE_LIMIT := 20; AUTHENTICATED_MUTATION_USER_RATE_LIMIT := 40;
     AUTHENTICATED_MUTATION_RATE_WINDOW_SECONDS := 60 |}.
Definition no_proxy : ProxySettings := {| proxy_secret := ""; proxy_user_id := "svc"; proxy_workspace_id := "default" |}.
Definition derive (password salt : string) (n : Z) : option string := Some (password +:+ salt).
Definition decode (s : string) : option string := Some s.

Lemma keys_differ token key : session_key config token <> counter_key config key.
Proof. discriminate. Qed.

Definition accounts : db :=
  match admin_user_upsert Identity.empty "root" "root@example.org" "pbkdf2_sha256$1$salt$pwsalt" "Root" with Ok s => s | Err _ => Identity.empty end.
Definition w0 : world := {| w_redis := ∅; w_now := 0; w_drawn := ∅; w_log := [] |}.
Definition store_of {A} (o : res (redis * A)) : redis := match o with Ok x => x.1 | Err _ => ∅ end.
Definition logged_in : redis := store_of (login config limits derive decode accounts ∅ 1 "root@example.org" "pw" "10.0.0.1" "tok").
Definition w1 : world := drew w0 logged_in 1 {| is_token := "tok"; is_db := accounts; is_via := None |}.
Definition ask : request := {| rq_method := "GET"; rq_authorization := "Bearer tok"; rq_session_header := ""; rq_cookie := ""; rq_proxy_header := "" |}.
Definition root_session : AuthSession :=
  {| s_token := "tok"; s_user_id := "root"; s_roles := [SERVICE_ADMIN]; s_workspace_id := "default"; s_display_name := Some "Root";
     s_email := Some "root@example.org"; s_auth_mode := PASSWORD |}.

(** What a call answers, apart from the store. *)
Lemma answered {A} (o : res (redis * A)) (a : A) : snd <$> o = Ok a -> o = Ok (store_of o, a).
Proof. destruct o as [[r a']|]; cbn; [by intros [= ->]|done]. Qed.

Lemma w1_reached : reached config limits no_proxy derive decode w1.
Proof.
  eapply reached_next; [apply (reached_start _ _ _ _ _ 0)|].
  apply (on_login _ _ _ _ _ w0 accounts 1 "root@example.org" "pw" "10.0.0.1" "tok" logged_in (Answer root_session)); [done|split; [done|set_solver]|].
  apply answered. vm_compute. reflexivity.
Qed.

Lemma admin_requests_are_admins_witness : exists i, i ∈ w_log w1 /\ is_token i = "tok" /\ held_admin (is_db i) "root".
Proof.
  pose proof (admin_requests_are_admins config limits no_proxy derive decode keys_differ w1 2 ask _ root_session w1_reached
                (answered (require_admin_session config limits no_proxy (w_redis w1) 2 ask) (Answer root_session) ltac:(vm_compute; reflexivity)))
    as [[[Hc _] _]|[_ [Hd|[_ E]]]].
  - exfalso. apply Hc. reflexivity.
  - exact Hd.
  - discriminate E.
Defined.

Definition w2 : world := moved w1 (logout config logged_in "tok") 5.

Lemma ended_session_stays_ended_witness : get_session config (logout config logged_in "tok") 9 "tok" = Ok None.
Proof.
  apply (ended_session_stays_ended config limits no_proxy derive decode keys_differ w2 w2 9 "tok").
  - set_solver.
  - discriminate.
  - apply rtc_refl.
  - left. exists logged_in. reflexivity.
  - vm_compute. discriminate.
Defined.

Definition checked : res (redis * option Z) := check_rate_limit config (w_redis w0) 7 "k" (Some 3) (Some 60).
Lemma checked_Ok : checked = Ok (store_of checked, None).
Proof. apply answered. vm_compute. reflexivity. Qed.

Lemma rate_limit_bounds_requests_witness : Z.of_nat (length (keep (between 0 50) [7])) <= 2 * 3.
Proof.
  pose proof (rate_limit_bounds_requests config "k" 3 60 (w_redis w0) 0 0 [] 7 (store_of checked) None
    ltac:(lia) ltac:(lia) (at_start _ _ _ (w_redis w0) 0 (lookup_empty _)) ltac:(lia) checked_Ok) as [_ Hbound].
  apply (Hbound 0 50). lia.
Defined.

(** The third attempt in a window of two locks the key for the first step. *)
Definition attempt (r : redis) : res (redis * option Z) := check_escalating_rate_limit config r 10 "k" 2 60 [30; 300] 3600.
Definition tried2 : redis := store_of (attempt (store_of (attempt ∅))).
Definition tried3 : redis := store_of (attempt tried2).

Lemma refusal_lasts_witness :
  check_escalating_rate_limit config tried3 20 "k" 2 60 [30; 300] 3600 = Ok (tried3, Some 20).
Proof.
  apply (refusal_lasts config tried2 10 "k" 2 60 [30; 300] 3600 tried3 30 tried3 20); [|lia|reflexivity].
  apply answered. vm_compute. reflexivity.
Defined.
End Sample.
End Sessions.
