(* ===== verification/EvidenceWorker.v ===== *)
(** * Building evidence

    [src/src/services/ai/evidence-worker/app.py], with the evidence windows of
    [domains/target/repository.py], the stored evidence of
    [domains/rca/repository.py] and the workload changes of
    [domains/rca_changes/repository.py]: a reference to a window becomes the
    evidence that incidents are detected on, joined with the window of the
    other source and with the changes of the workload. *)
From S2P Require Import Prelude PyStr PyFloat PyVal PyTime Libs Demo EventBody EventBodies WorkloadTarget RecoveryMerge EvidenceBundle EvidenceIntake IncidentDetection.
Import EvidenceBundle.

Module EvidenceWorker.

Definition GITOPS_CHANGE_CONTEXT_EVIDENCE_KIND : string := "gitops_change_context".
Definition RECENT_CHANGE_LIMIT : nat := 5.
Definition ALERTMANAGER_SOURCE_ID : string := "alertmanager-webhook".
Definition RCA_ENRICHED_SOURCE_ID : string := "rca-evidence-worker".
Definition ALIGNED_EVIDENCE_BEFORE_SECONDS : Z := 600.
Definition ALIGNED_EVIDENCE_AFTER_SECONDS : Z := 60.
Definition ALIGNED_EVIDENCE_LIMIT : Z := 12.
Definition ALIGNED_EVIDENCE_REFS_KEY : string := "aligned_evidence_refs".
Definition PIPELINE_KIND : string := "rca_bundle".

(** ** Data *)

Record SliIdentity := Sli {
  sli_namespace : string;
  sli_kind : string;
  sli_name : string;
  sli_service : string;
  sli_sli : string;
  sli_symptom : string;
}.

#[global] Instance SliIdentity_eq_dec : EqDecision SliIdentity.
Proof. solve_decision. Defined.

Record WorkloadChange := {
  wc_workspace_id : string;
  wc_cluster_id : string;
  wc_namespace : string;
  wc_resource_kind : string;
  wc_resource_name : string;
  wc_repository_id : string;
  wc_binding_id : string;
  wc_manifest_path : string;
  wc_repo_ref : string;
  wc_commit_sha : string;
  wc_workflow_run_id : string;
  wc_image_before : option string;
  wc_image_after : option string;
  wc_diff_details : dict;
  wc_changed_at : Z;
}.

(** A row of the table [evidence]. *)
Record saved_evidence := { sv_workspace_id : string; sv_correlation_id : string; sv_kind : string; sv_payload : dict }.

(** The primary key of [workflow_pr_references]. *)
Notation reference_key := (string * string * string * string * string * string)%type.

(** The tables of the worker: windows by key, stored evidence with the newest
    row first, workload changes by event, pull requests of workflows. *)
Record db := {
  windows : gmap string EvidenceIntake.EvidenceWindow;
  evidence : list saved_evidence;
  workload_changes : gmap string WorkloadChange;
  workflow_pr_references : gmap reference_key string;
}.

(** What the worker knows about the event it handles; [ctx_now] is the clock. *)
Record context := { ctx_correlation_id : string; ctx_created_at : string; ctx_now : Z }.

Section worker.
Context `{ReprLib} `{IsoTime}.

(** ** The repositories *)

(** [table.c.updated_at] between two bounds around a moment; the arithmetic is
    that of the wall clock of the moment. *)
Definition instant (m : moment) (wall : Z) : Z := wall - default 0 (m_offset m).

(** [order_by(time.desc(), key.desc())] *)
Definition latest_first {A} (time : A -> Z) (a b : string * A) : bool :=
  (time b.2 <? time a.2) || ((time b.2 =? time a.2) && String.leb b.1 a.1).

Definition adjacent_windows (s : db) (selects : EvidenceIntake.EvidenceWindow -> bool) (observed_at : string)
    (before after limit : Z) : res (list (string * EvidenceIntake.EvidenceWindow)) :=
  match fromisoformat (replace_char "Z" "+00:00" observed_at) with
  | None => Ok []
  | Some observed =>
      low ← add_seconds (m_wall observed) (- before);
      high ← add_seconds (m_wall observed) after;
      Ok (take (Z.to_nat (Z.max 1 (Z.min limit 50)))
            (isort (latest_first EvidenceIntake.w_updated_at)
               (keep (fun kw => selects kw.2 && (instant observed low <=? EvidenceIntake.w_updated_at kw.2)
                                && (EvidenceIntake.w_updated_at kw.2 <=? instant observed high))
                  (map_to_list (windows s)))))
  end.

Definition list_aligned_evidence_window_payloads (s : db) (workspace_id cluster_id observed_at exclude_source_id : string)
    (before_seconds after_seconds limit : Z) : res (list (string * EvidenceIntake.EvidenceWindow)) :=
  adjacent_windows s (fun w => EvidenceIntake.in_tenant workspace_id cluster_id w
                               && negb (str_eqb (EvidenceIntake.w_source_id w) exclude_source_id)
                               && bool_decide (is_Some (EvidenceIntake.w_agent_id w)))
    observed_at (Z.max 0 (Z.min before_seconds 3600)) (Z.max 0 (Z.min after_seconds 300)) limit.

Definition list_aligned_alertmanager_window_payloads (s : db) (workspace_id cluster_id observed_at source_id : string)
    (before_seconds after_seconds limit : Z) : res (list (string * EvidenceIntake.EvidenceWindow)) :=
  adjacent_windows s (fun w => EvidenceIntake.in_tenant workspace_id cluster_id w && str_eqb (EvidenceIntake.w_source_id w) source_id)
    observed_at (Z.max 0 (Z.min before_seconds 300)) (Z.max 0 (Z.min after_seconds 3600)) limit.

Definition get_evidence_window_payload_for_workspace (s : db) (workspace_id evidence_key : string) : option dict :=
  match windows s !! evidence_key with
  | Some w => if str_eqb (EvidenceIntake.w_workspace_id w) workspace_id then Some (EvidenceIntake.w_payload w) else None
  | None => None
  end.

Definition with_windows (s : db) (w : gmap string EvidenceIntake.EvidenceWindow) : db :=
  {| windows := w; evidence := evidence s; workload_changes := workload_changes s;
     workflow_pr_references := workflow_pr_references s |}.

Definition upsert_rca_enriched_evidence_window (s : db) (evidence_key workspace_id cluster_id correlation_id window_start
    source_id : string) (agent_id : option string) (payload : dict) (now : Z) : db * bool :=
  let '(t, saved) := EvidenceIntake.upsert_enriched_row (windows s) evidence_key workspace_id cluster_id correlation_id
                       window_start source_id agent_id payload now in
  (with_windows s t, saved).

Definition save_evidence (s : db) (correlation_id workspace_id kind : string) (body : dict) : db :=
  {| windows := windows s;
     evidence := {| sv_workspace_id := workspace_id; sv_correlation_id := correlation_id; sv_kind := kind;
                    sv_payload := body |} :: evidence s;
     workload_changes := workload_changes s; workflow_pr_references := workflow_pr_references s |}.

Definition get_evidence_payload (s : db) (workspace_id correlation_id kind : string) : option dict :=
  sv_payload <$> head (keep (fun v => str_eqb (sv_workspace_id v) workspace_id
                                      && str_eqb (sv_correlation_id v) correlation_id && str_eqb (sv_kind v) kind)
                         (evidence s)).

Definition opt_text (o : option string) : pyval := match o with Some t => VStr t | None => VNone end.

(** A row of the query, with the pull request of the same deployment. *)
Definition change_row (s : db) (ec : string * WorkloadChange) : dict :=
  let c := ec.2 in
  [("event_id", VStr ec.1); ("workspace_id", VStr (wc_workspace_id c)); ("cluster_id", VStr (wc_cluster_id c));
   ("changed_at", VTime (Moment (wc_changed_at c) (Some 0))); ("image_before", opt_text (wc_image_before c));
   ("image_after", opt_text (wc_image_after c));
   ("pr_url", opt_text (workflow_pr_references s !! (wc_workspace_id c, wc_repository_id c, wc_binding_id c,
                                                     wc_workflow_run_id c, wc_commit_sha c, wc_manifest_path c)));
   ("commit_sha", VStr (wc_commit_sha c)); ("repository_id", VStr (wc_repository_id c));
   ("binding_id", VStr (wc_binding_id c)); ("repo_ref", VStr (wc_repo_ref c));
   ("workflow_run_id", VStr (wc_workflow_run_id c)); ("namespace", VStr (wc_namespace c));
   ("resource_kind", VStr (wc_resource_kind c)); ("resource_name", VStr (wc_resource_name c));
   ("manifest_path", VStr (wc_manifest_path c)); ("diff_details", VDict (wc_diff_details c))].

Definition changes_workload (workspace_id cluster_id namespace resource_kind resource_name : string) (c : WorkloadChange)
    : bool :=
  str_eqb (wc_workspace_id c) workspace_id && str_eqb (wc_cluster_id c) cluster_id && str_eqb (wc_namespace c) namespace
  && str_eqb (wc_resource_kind c) (casefold resource_kind) && str_eqb (wc_resource_name c) resource_name.

(** A moment without a time zone gives no rows. *)
Definition list_recent_workload_changes_for_evidence (s : db)
    (workspace_id cluster_id namespace resource_kind resource_name changed_before : string) (limit : nat) : list dict :=
  match fromisoformat (replace_char "Z" "+00:00" changed_before) with
  | Some {| m_wall := wall; m_offset := Some offset |} =>
      change_row s <$>
        take limit (isort (latest_first wc_changed_at)
          (keep (fun ec => changes_workload workspace_id cluster_id namespace resource_kind resource_name ec.2
                           && (wc_changed_at ec.2 <=? wall - offset)) (map_to_list (workload_changes s))))
  | _ => []
  end.

(** ** Hydration *)

Definition has_inline_evidence (e : ClusterEvidenceReceivedBody) : bool :=
  negb (bool_decide (ce_kubernetes e = []) && bool_decide (ce_metrics e = []) && bool_decide (ce_logs e = [])
        && bool_decide (ce_traces e = [])).

Definition payload_identity_matches_reference (payload : dict) (evt : ClusterEvidenceReceivedBody) : bool :=
  str_eqb (str_or_empty (get payload "workspace_id")) (ce_workspace_id evt)
  && str_eqb (str_or_empty (get payload "cluster_id")) (ce_cluster_id evt)
  && py_eqb (get payload "source_id") (opt_str (ce_source_id evt))
  && py_eqb (get payload "evidence_key") (opt_str (ce_evidence_key evt)).

(** The decoded body as a record. *)
Definition received_of (o : EventBody.obj) : ClusterEvidenceReceivedBody :=
  let value k := EventBody.to_body_value (RecoveryMerge.attribute o k) in
  let text k := match value k with VStr t => Some t | _ => None end in
  {| ce_cluster_id := RecoveryMerge.attr_str o "cluster_id"; ce_kubernetes := mapping (value "kubernetes");
     ce_metrics := mapping (value "metrics"); ce_logs := match value "logs" with VList l => l | _ => [] end;
     ce_traces := mapping (value "traces"); ce_workspace_id := RecoveryMerge.attr_str o "workspace_id";
     ce_agent_id := text "agent_id"; ce_source_id := text "source_id"; ce_window_start := text "window_start";
     ce_evidence_key := text "evidence_key"; ce_collection_status := mapping (value "collection_status");
     ce_metadata := mapping (value "metadata") |}.

Definition hydrate_evidence (s : db) (evt : ClusterEvidenceReceivedBody) : res ClusterEvidenceReceivedBody :=
  match ce_evidence_key evt with
  | Some (String _ _ as key) =>
      if has_inline_evidence evt then Ok evt
      else
        match get_evidence_window_payload_for_workspace s (ce_workspace_id evt) key with
        | Some payload =>
            if negb (payload_identity_matches_reference payload evt) then Ok evt
            else
              o ← EventBody.from_body EventBodies.ClusterEvidenceReceivedBody true (VDict payload);
              Ok (received_of o)
        | None => Ok evt
        end
  | _ => Ok evt
  end.

(** ** Identities of service levels *)

(** [str(labels.get(key) or "").strip()] *)
Definition label_text (labels : dict) (key : string) : string := strip (str_or_empty (get labels key)).

Definition complete_identity (i : SliIdentity) : bool :=
  nonempty (sli_namespace i) && nonempty (sli_kind i) && nonempty (sli_name i) && nonempty (sli_service i)
  && nonempty (sli_sli i) && nonempty (sli_symptom i).

Definition same_sli_identity (left right : SliIdentity) : bool :=
  str_eqb (sli_namespace left) (sli_namespace right)
  && str_eqb (casefold (sli_kind left)) (casefold (sli_kind right))
  && str_eqb (sli_name left) (sli_name right) && str_eqb (sli_service left) (sli_service right)
  && str_eqb (sli_sli left) (sli_sli right) && str_eqb (sli_symptom left) (sli_symptom right).

Definition metric_samples (result : dict) : list dict :=
  match get result "samples", get result "result", get result "data" with
  | VList l, _, _ => omap as_dict l
  | _, VList l, _ => omap as_dict l
  | _, _, VList l => omap as_dict l
  | _, _, _ => []
  end.

Definition observed_identity (labels : dict) : SliIdentity :=
  Sli (label_text labels "namespace") (label_text labels "resource_kind") (label_text labels "resource_name")
    (label_text labels "service") (label_text labels "sli") (label_text labels "symptom").

(** [metrics.get("results").get("kyro_sli_failure_ratio")] where both are
    mappings. *)
Definition failure_ratio_samples (metrics : pyval) : list dict :=
  match get (mapping (get (mapping metrics) "results")) "kyro_sli_failure_ratio" with
  | VDict result => omap (fun sample => as_dict (get sample "metric")) (metric_samples result)
  | _ => []
  end.

Definition standard_sli_result_identities (metrics : dict) : list SliIdentity :=
  keep complete_identity (observed_identity <$> failure_ratio_samples (VDict metrics)).

Definition payload_matches_sli_identity (payload : dict) (identity : SliIdentity) : bool :=
  existsb (fun labels => same_sli_identity (observed_identity labels) identity) (failure_ratio_samples (get payload "metrics")).

Definition alert_identity (alert : pyval) : option SliIdentity :=
  match alert with
  | VDict alert =>
      if negb (str_eqb (str_or_empty (get alert "status")) "firing") then None
      else
        match get alert "labels" with
        | VDict labels =>
            if negb (str_eqb (str_or_empty (get labels "alertname")) "KyroSliFailureRatioHigh") then None
            else
              let i := Sli (label_text labels "kyro_namespace") (label_text labels "kyro_resource_kind")
                         (label_text labels "kyro_resource_name") (label_text labels "kyro_service")
                         (label_text labels "kyro_sli") (label_text labels "kyro_symptom") in
              if complete_identity i then Some i else None
        | _ => None
        end
  | _ => None
  end.

Definition normalized_identity (i : SliIdentity) : SliIdentity :=
  Sli (sli_namespace i) (casefold (sli_kind i)) (sli_name i) (sli_service i) (sli_sli i) (sli_symptom i).

(** [identities[normalized] = identity] *)
Fixpoint put_identity (identities : list (SliIdentity * SliIdentity)) (k v : SliIdentity) : list (SliIdentity * SliIdentity) :=
  match identities with
  | [] => [(k, v)]
  | (k', v') :: rest => if decide (k' = k) then (k', v) :: rest else (k', v') :: put_identity rest k v
  end.

Definition standard_sli_identity (metrics : dict) : option SliIdentity :=
  let alerts := match get (mapping (get metrics "alertmanager")) "alerts" with VList l => l | _ => [] end in
  snd <$> the_one (fold_left (fun m i => put_identity m (normalized_identity i) i) (omap alert_identity alerts) []).

Definition evidence_resource (kubernetes : dict) : dict :=
  match get kubernetes "resource" with
  | VDict resource =>
      omap (fun kv => if bool_decide (kv.1 ∈ ["kind"; "name"; "namespace"]) && nonempty (strip (py_str kv.2))
                      then Some (kv.1, VStr (strip (py_str kv.2))) else None) resource
  | _ => []
  end.

Definition sli_identity_matches_incident (identity : SliIdentity) (kubernetes : dict) : bool :=
  let resource := evidence_resource kubernetes in
  let symptom := strip (str_or_empty (get kubernetes "symptom")) in
  match get resource "namespace", get resource "kind", get resource "name" with
  | VStr ns, VStr kind, VStr name =>
      str_eqb (sli_namespace identity) ns && str_eqb (casefold (sli_kind identity)) (casefold kind)
      && str_eqb (sli_name identity) name && (is_empty symptom || str_eqb (sli_symptom identity) symptom)
  | _, _, _ => false
  end.

(** ** Times *)

Definition parse_timestamp (value : string) : res (option Z) :=
  match fromisoformat (replace_char "Z" "+00:00" (strip value)) with
  | Some m => t ← normalized_utc m; Ok (Some t)
  | None => Ok None
  end.

Definition trusted_window_time (w : EvidenceIntake.EvidenceWindow) : res (option Z) :=
  row_time ← parse_timestamp (EvidenceIntake.w_window_start w);
  payload_time ← parse_timestamp (str_or_empty (get (EvidenceIntake.w_payload w) "window_start"));
  Ok (match row_time, payload_time with
      | Some a, Some b => if a =? b then Some a else None
      | _, _ => None
      end).

(** [aligned_window_distance_seconds] and [inverse_window_distance_seconds]:
    both measure from the window of the row to the moment given. *)
Definition window_distance_seconds (w : EvidenceIntake.EvidenceWindow) (start : string) : res (option float) :=
  time ← parse_timestamp start;
  window_time ← trusted_window_time w;
  Ok (match time, window_time with
      | Some t, Some u =>
          let seconds := total_seconds (t - u) in
          if fleb (nearest_float (- ALIGNED_EVIDENCE_AFTER_SECONDS)) seconds
             && fleb seconds (nearest_float ALIGNED_EVIDENCE_BEFORE_SECONDS)
          then Some (fabs seconds) else None
      | _, _ => None
      end).

Record candidate := { cd_distance : float; cd_payload : dict; cd_evidence_key : string }.

(** [str(row.get("evidence_key") or payload.get("evidence_key") or "").strip()] *)
Definition row_key (row : string * EvidenceIntake.EvidenceWindow) : string :=
  strip (if is_empty row.1 then str_or_empty (get (EvidenceIntake.w_payload row.2) "evidence_key") else row.1).

(** One turn of the loops over the rows, for the rows that [accepts] takes. *)
Definition row_candidate (accepts : dict -> bool) (start : string) (row : string * EvidenceIntake.EvidenceWindow)
    : res (option candidate) :=
  let payload := EvidenceIntake.w_payload row.2 in
  if negb (accepts payload) then Ok None
  else
    distance ← window_distance_seconds row.2 start;
    Ok (match distance with
        | Some d => if nonempty (row_key row)
                    then Some {| cd_distance := d; cd_payload := payload; cd_evidence_key := row_key row |} else None
        | None => None
        end).

Definition nearest_distance (c : candidate) (cs : list candidate) : float :=
  fold_left (fun m x => if fltb (cd_distance x) m then cd_distance x else m) cs (cd_distance c).

Definition unique_nearest_window (candidates : list candidate) : option candidate :=
  match candidates with
  | [] => None
  | c :: cs => the_one (keep (fun x => feqb (cd_distance x) (nearest_distance c cs)) (c :: cs))
  end.

(** ** Joining windows *)

Definition JOIN : string := "workspace_cluster_time_standard_sli_identity".

(** [for key in keys: if source.get(key) not in (None, "", [], {}): d[key] = source[key]] *)
Definition copy_present (keys : list string) (source d : dict) : dict :=
  fold_left (fun d k => if blank (get source k) then d else dict_set d k (get source k)) keys d.

Definition with_parts (evt : ClusterEvidenceReceivedBody) (kubernetes metrics : dict) (logs : list pyval)
    (traces metadata collection_status : dict) : ClusterEvidenceReceivedBody :=
  {| ce_cluster_id := ce_cluster_id evt; ce_kubernetes := kubernetes; ce_metrics := metrics; ce_logs := logs;
     ce_traces := traces; ce_workspace_id := ce_workspace_id evt; ce_agent_id := ce_agent_id evt;
     ce_source_id := ce_source_id evt; ce_window_start := ce_window_start evt; ce_evidence_key := ce_evidence_key evt;
     ce_collection_status := collection_status; ce_metadata := metadata |}.

Definition merge_alertmanager_evidence (agent_evt : ClusterEvidenceReceivedBody) (alert_payload : dict) (evidence_key : string)
    : ClusterEvidenceReceivedBody :=
  match get (mapping (get alert_payload "metrics")) "alertmanager", get alert_payload "kubernetes" with
  | VDict alertmanager, VDict alert_kubernetes =>
      let refs := dict_set (mapping (get (ce_metadata agent_evt) ALIGNED_EVIDENCE_REFS_KEY)) "metrics" (VStr evidence_key) in
      let metadata := dict_set (ce_metadata agent_evt) ALIGNED_EVIDENCE_REFS_KEY (VDict refs) in
      let metadata := dict_set metadata "aligned_alertmanager_evidence"
        (VDict [("evidence_key", VStr evidence_key);
                ("window_start", VStr (str_or_empty (get alert_payload "window_start"))); ("join", VStr JOIN)]) in
      with_parts agent_evt (copy_present ["resource"; "symptom"; "severity"; "category"] alert_kubernetes (ce_kubernetes agent_evt))
        (dict_set (ce_metrics agent_evt) "alertmanager" (VDict alertmanager)) (ce_logs agent_evt) (ce_traces agent_evt)
        metadata (ce_collection_status agent_evt)
  | _, _ => agent_evt
  end.

Definition source_payload_present (payload : dict) (source : string) : bool := negb (blank (get payload source)).

Definition merge_aligned_evidence (alert_evt : ClusterEvidenceReceivedBody) (payload : dict) (evidence_key : string)
    : res ClusterEvidenceReceivedBody :=
  alertmanager ← raise_none (dict_get (ce_metrics alert_evt) "alertmanager") KeyError;
  let metrics := dict_set (mapping (get payload "metrics")) "alertmanager" alertmanager in
  let refs := omap (fun source => if source_payload_present payload source then Some (source, VStr evidence_key) else None)
                ["logs"; "traces"] in
  let metadata := dict_set (mapping (get payload "metadata")) ALIGNED_EVIDENCE_REFS_KEY (VDict refs) in
  let metadata := dict_set metadata "aligned_evidence"
    (VDict [("evidence_key", VStr evidence_key); ("source_id", VStr (str_or_empty (get payload "source_id")));
            ("window_start", VStr (str_or_empty (get payload "window_start"))); ("join", VStr JOIN)]) in
  Ok (with_parts alert_evt (ce_kubernetes alert_evt) metrics
        (match get payload "logs" with VList l => keep is_mapping l | _ => [] end) (mapping (get payload "traces")) metadata
        (match get payload "collection_status" with VDict d => d | _ => ce_collection_status alert_evt end)).

(** Whether the window of an alert belongs to one of the identities. *)
Definition alert_payload_matches (identities : list SliIdentity) (payload : dict) : bool :=
  match get payload "metrics" with
  | VDict metrics =>
      match standard_sli_identity metrics, get payload "kubernetes" with
      | Some identity, VDict kubernetes =>
          existsb (same_sli_identity identity) identities && sli_identity_matches_incident identity kubernetes
      | _, _ => false
      end
  | _ => false
  end.

Definition attach_aligned_alertmanager_evidence (s : db) (evt : ClusterEvidenceReceivedBody) (window_start : string)
    : res ClusterEvidenceReceivedBody :=
  match standard_sli_result_identities (ce_metrics evt) with
  | [] => Ok evt
  | identities =>
      rows ← list_aligned_alertmanager_window_payloads s (ce_workspace_id evt) (ce_cluster_id evt) window_start
               ALERTMANAGER_SOURCE_ID ALIGNED_EVIDENCE_AFTER_SECONDS ALIGNED_EVIDENCE_BEFORE_SECONDS ALIGNED_EVIDENCE_LIMIT;
      candidates ← omapr (row_candidate (alert_payload_matches identities) window_start) rows;
      Ok (match unique_nearest_window candidates with
          | Some c => merge_alertmanager_evidence evt (cd_payload c) (cd_evidence_key c)
          | None => evt
          end)
  end.

Definition attach_aligned_cluster_evidence (s : db) (evt : ClusterEvidenceReceivedBody) : res ClusterEvidenceReceivedBody :=
  match ce_window_start evt with
  | Some (String _ _ as window_start) =>
      if negb (bool_decide (ce_source_id evt = Some ALERTMANAGER_SOURCE_ID))
      then attach_aligned_alertmanager_evidence s evt window_start
      else
        match standard_sli_identity (ce_metrics evt) with
        | None => Ok evt
        | Some identity =>
            if negb (sli_identity_matches_incident identity (ce_kubernetes evt)) then Ok evt
            else
              rows ← list_aligned_evidence_window_payloads s (ce_workspace_id evt) (ce_cluster_id evt) window_start
                       ALERTMANAGER_SOURCE_ID ALIGNED_EVIDENCE_BEFORE_SECONDS ALIGNED_EVIDENCE_AFTER_SECONDS
                       ALIGNED_EVIDENCE_LIMIT;
              candidates ← omapr (row_candidate (fun payload => payload_matches_sli_identity payload identity) window_start) rows;
              match unique_nearest_window candidates with
              | Some c => merge_aligned_evidence evt (cd_payload c) (cd_evidence_key c)
              | None => Ok evt
              end
        end
  | _ => Ok evt
  end.

(** ** Changes of the workload *)

Definition optional_text (v : pyval) : pyval :=
  match v with VStr t => if nonempty (strip t) then VStr (strip t) else VNone | _ => VNone end.

(** The database answers in UTC. *)
Definition timestamp_text (v : pyval) : pyval :=
  match v with VTime m => VStr (isoformat (instant m (m_wall m))) | v => optional_text v end.

Definition is_bool (v : pyval) : bool := match v with VBool _ => true | _ => false end.

(** [d.get(k, fallback)] *)
Definition get_or (d : dict) (k : string) (fallback : pyval) : pyval := default fallback (dict_get d k).

(** [None]: the loop goes on. *)
Definition replica_change (change : pyval) : res (option (Z * Z)) :=
  match change with
  | VDict change =>
      if negb (str_eqb (str_or_empty (get change "field_path")) "spec.replicas") then Ok None
      else
        let before := get_or change "before" (get_or change "live" (get change "old_desired")) in
        let after := get_or change "after" (get change "new_desired") in
        if is_bool before || is_bool after then Ok None
        else
          match b ← py_int before; a ← py_int after; Ok (b, a) with
          | Ok ba => Ok (Some ba)
          | Err TypeError | Err ValueError => Ok None
          | Err e => Err e
          end
  | _ => Ok None
  end.

Fixpoint first_replica_change (changes : list pyval) : res (option (Z * Z)) :=
  match changes with
  | [] => Ok None
  | change :: changes =>
      found ← replica_change change;
      match found with Some ba => Ok (Some ba) | None => first_replica_change changes end
  end.

Definition replica_field_change (value : pyval) : res (option (Z * Z)) :=
  let details := mapping value in
  match get details "basis" with
  | VDict basis =>
      if negb (str_eqb (str_or_empty (get basis "old_desired_source")) "last_approved_snapshot") then Ok None
      else first_replica_change (match get details "changes" with VList l => l | _ => [] end)
  | _ => Ok None
  end.

Definition filled (d : dict) : dict := filter_items (fun _ v => negb (blank v)) d.

Definition recent_change_payload (change : dict) : res dict :=
  let image_before := optional_text (get change "image_before") in
  let image_after := optional_text (get change "image_after") in
  let what := if truthy image_before || truthy image_after then "image" else "manifest" in
  let payload :=
    [("change_type", VStr what); ("changed_at", timestamp_text (get change "changed_at"));
     ("target_resource", VStr (py_str (get change "resource_kind") +:+ "/" +:+ py_str (get change "resource_name")));
     ("field", VStr what); ("source", VStr "gitops"); ("repository_id", optional_text (get change "repository_id"));
     ("repo_ref", optional_text (get change "repo_ref")); ("manifest_path", optional_text (get change "manifest_path"));
     ("commit_sha", optional_text (get change "commit_sha"));
     ("workflow_run_id", optional_text (get change "workflow_run_id")); ("pr_url", optional_text (get change "pr_url"))] in
  let payload := if truthy image_before then dict_set payload "before" image_before else payload in
  let payload := if truthy image_after then dict_set payload "after" image_after else payload in
  replicas ← replica_field_change (get change "diff_details");
  Ok (filled (match replicas with
              | Some (before, after) =>
                  dict_update payload [("change_type", VStr "replicas"); ("field", VStr "spec.replicas");
                    ("field_path", VStr "spec.replicas"); ("before", VInt before); ("after", VInt after)]
              | None => payload
              end)).

Definition GITOPS_KEYS : list string :=
  ["workspace_id"; "cluster_id"; "namespace"; "resource_kind"; "resource_name"; "repository_id"; "binding_id"; "repo_ref";
   "manifest_path"; "commit_sha"; "workflow_run_id"; "pr_url"].

Definition gitops_context_payload (change : dict) : dict :=
  filled ((fun k => (k, optional_text (get change k))) <$> GITOPS_KEYS).

Definition image_context_payload (change : dict) : dict :=
  let previous := optional_text (get change "image_before") in
  let current := optional_text (get change "image_after") in
  if negb (truthy previous) && negb (truthy current) then []
  else filled [("previous", previous); ("current", current); ("changed", VBool (negb (py_eqb previous current)))].

Definition TARGET_KEYS : list string := ["gitops_target"; "original_target"; "gitops_target_resolution"].

(** [changes[0]] is [latest]. *)
Definition merge_gitops_change_context (metadata latest : dict) (older : list dict) (target : WorkloadTarget.WorkloadTarget)
    : res dict :=
  let change_context := mapping (get metadata "change_context") in
  let existing := match get change_context "recent_changes" with VList l => l | _ => [] end in
  recent ← mapr recent_change_payload (latest :: older);
  let change_context := dict_set change_context "recent_changes" (VList (existing ++ (VDict <$> recent))) in
  let change_context := dict_set change_context "gitops" (VDict (gitops_context_payload latest)) in
  let change_context := filter_items (fun k _ => negb (bool_decide (k ∈ TARGET_KEYS))) change_context in
  let change_context := dict_update change_context (WorkloadTarget.resolution_metadata target) in
  let change_context := match image_context_payload latest with
                        | [] => change_context
                        | image => setdefault change_context "image" (VDict image)
                        end in
  Ok (dict_set metadata "change_context" (VDict change_context)).

Definition or_else (o : option string) (fallback : string) : string :=
  match o with Some (String _ _ as t) => t | _ => fallback end.

(** [evt.window_start or ctx.created_at or datetime.now(UTC).isoformat()] *)
Definition event_time (evt : ClusterEvidenceReceivedBody) (ctx : context) : string :=
  or_else (ce_window_start evt) (or_else (Some (ctx_created_at ctx)) (isoformat (ctx_now ctx))).

Definition evidence_target (evt : ClusterEvidenceReceivedBody) : WorkloadTarget.WorkloadTarget :=
  let resource := evidence_resource (ce_kubernetes evt) in
  WorkloadTarget.resolve_workload_target (get resource "namespace") (get resource "kind") (get resource "name")
    (VDict (ce_metadata evt)).

Definition attach_gitops_change_context (s : db) (evt : ClusterEvidenceReceivedBody) (ctx : context)
    : res ClusterEvidenceReceivedBody :=
  let target := evidence_target evt in
  if negb (nonempty (ce_workspace_id evt) && nonempty (ce_cluster_id evt) && nonempty (WorkloadTarget.namespace target)
           && nonempty (WorkloadTarget.resource_kind target) && nonempty (WorkloadTarget.resource_name target)
           && nonempty (event_time evt ctx))
  then Ok evt
  else
    match list_recent_workload_changes_for_evidence s (ce_workspace_id evt) (ce_cluster_id evt)
            (WorkloadTarget.namespace target) (WorkloadTarget.resource_kind target) (WorkloadTarget.resource_name target)
            (event_time evt ctx) RECENT_CHANGE_LIMIT with
    | [] => Ok evt
    | latest :: older =>
        metadata ← merge_gitops_change_context (ce_metadata evt) latest older target;
        Ok (with_parts evt (ce_kubernetes evt) (ce_metrics evt) (ce_logs evt) (ce_traces evt) metadata (ce_collection_status evt))
    end.

(** ** The handlers *)

Context (environ : string -> option string).

(** [evidence.to_body()] *)
Definition evidence_body (e : Evidence) : dict :=
  [("cluster_id", VStr (cluster_id e)); ("kubernetes", VDict (kubernetes e)); ("metrics", VDict (metrics e));
   ("logs", VList (logs e)); ("traces", VDict (traces e)); ("object_ref", VStr (object_ref e));
   ("metadata", VDict (metadata e)); ("workspace_id", VStr (workspace_id e))].

Definition evidence_built_summary (e : Evidence) : res dict :=
  let summary :=
    keep (fun kv => EvidenceIntake.present kv.2)
      [("resource", VDict (EvidenceIntake.kubernetes_resource (kubernetes e))); ("symptom", get (kubernetes e) "symptom");
       ("severity", get (kubernetes e) "severity"); ("kubernetes_keys", EvidenceIntake.sorted_keys (kubernetes e));
       ("metrics_keys", EvidenceIntake.sorted_keys (metrics e)); ("logs_count", VInt (Z.of_nat (length (logs e))));
       ("traces_keys", EvidenceIntake.sorted_keys (traces e)); ("object_ref", VStr (object_ref e))] in
  size ← EvidenceIntake.evidence_payload_size summary;
  if (size <=? EvidenceIntake.MAX_EVIDENCE_EVENT_SUMMARY_BYTES)%nat then Ok summary
  else Ok [("resource", get summary "resource"); ("symptom", get summary "symptom"); ("severity", get summary "severity");
           ("logs_count", get_or summary "logs_count" (VInt 0)); ("object_ref", get summary "object_ref");
           ("truncated", VBool true)].

Record EvidenceBuiltBody := {
  eb_evidence : Evidence;
  eb_correlation_id : string;
  eb_kind : string;
  eb_payload_size : nat;
  eb_summary : dict;
}.

Definition compact_evidence_built_body (e : Evidence) (correlation_id kind : string) : res EvidenceBuiltBody :=
  size ← EvidenceIntake.evidence_payload_size (evidence_body e);
  summary ← evidence_built_summary e;
  Ok {| eb_evidence := {| cluster_id := cluster_id e; kubernetes := []; metrics := []; logs := []; traces := [];
                          object_ref := object_ref e; metadata := []; workspace_id := workspace_id e |};
        eb_correlation_id := correlation_id; eb_kind := kind; eb_payload_size := size; eb_summary := summary |}.

(** The event as it is before the evidence is built. *)
Definition enriched_event (s : db) (evt : ClusterEvidenceReceivedBody) (ctx : context) : res ClusterEvidenceReceivedBody :=
  evt ← hydrate_evidence s evt;
  evt ← attach_aligned_cluster_evidence s evt;
  attach_gitops_change_context s evt ctx.

(** [replace(evt, evidence_key=key)] *)
Definition with_key (evt : ClusterEvidenceReceivedBody) (key : string) : ClusterEvidenceReceivedBody :=
  {| ce_cluster_id := ce_cluster_id evt; ce_kubernetes := ce_kubernetes evt; ce_metrics := ce_metrics evt;
     ce_logs := ce_logs evt; ce_traces := ce_traces evt; ce_workspace_id := ce_workspace_id evt;
     ce_agent_id := ce_agent_id evt; ce_source_id := ce_source_id evt; ce_window_start := ce_window_start evt;
     ce_evidence_key := Some key; ce_collection_status := ce_collection_status evt; ce_metadata := ce_metadata evt |}.

Definition enriched_key (evt : ClusterEvidenceReceivedBody) (ctx : context) : string :=
  EvidenceIntake.rca_enriched_evidence_key (ce_workspace_id evt) (ce_cluster_id evt) (ctx_correlation_id ctx).

Definition built_evidence (evt : ClusterEvidenceReceivedBody) (ctx : context) : Evidence :=
  build_evidence environ (with_key evt (enriched_key evt ctx)) (ctx_correlation_id ctx).

Definition on_cluster_evidence (s : db) (evt : ClusterEvidenceReceivedBody) (ctx : context) : res (db * EvidenceBuiltBody) :=
  evt ← enriched_event s evt ctx;
  let e := built_evidence evt ctx in
  let '(s, window_saved) :=
    upsert_rca_enriched_evidence_window s (enriched_key evt ctx) (workspace_id e) (cluster_id e) (ctx_correlation_id ctx)
      (event_time evt ctx) RCA_ENRICHED_SOURCE_ID None (evidence_body e) (ctx_now ctx) in
  if negb window_saved then Err RuntimeError
  else
    let s := save_evidence s (ctx_correlation_id ctx) (workspace_id e) PIPELINE_KIND (evidence_body e) in
    body ← compact_evidence_built_body e (ctx_correlation_id ctx) PIPELINE_KIND;
    Ok (s, body).

(** The body of a detected change is stored as it is. *)
Definition on_gitops_change_context (s : db) (workspace_id : string) (body : dict) (ctx : context) : db :=
  save_evidence s (ctx_correlation_id ctx) workspace_id GITOPS_CHANGE_CONTEXT_EVIDENCE_KIND body.

End worker.

Section facts.
Context `{ReprLib} `{IsoTime}.

(** ** Rows in order *)

Lemma latest_first_total {A} (time : A -> Z) a b : latest_first time a b = true \/ latest_first time b a = true.
Proof.
  unfold latest_first. rewrite !orb_true_iff, !andb_true_iff, !Z.ltb_lt, !Z.eqb_eq.
  destruct (Z.lt_trichotomy (time a.2) (time b.2)) as [?|[?|?]]; [by right; left| |by left; left].
  destruct (String.leb_total a.1 b.1); auto.
Qed.

Lemma latest_first_trans {A} (time : A -> Z) a b c :
  latest_first time a b = true -> latest_first time b c = true -> latest_first time a c = true.
Proof.
  unfold latest_first. rewrite !orb_true_iff, !andb_true_iff, !Z.ltb_lt, !Z.eqb_eq.
  intros [?|[? Hab]] [?|[? Hbc]]; [left; lia..|]. right. split; [lia|]. by eapply str_leb_trans.
Qed.

Lemma latest_first_antisym {A} (time : A -> Z) a b :
  latest_first time a b = true -> latest_first time b a = true -> a.1 = b.1.
Proof.
  unfold latest_first. rewrite !orb_true_iff, !andb_true_iff, !Z.ltb_lt, !Z.eqb_eq.
  intros [?|[? Hab]] [?|[? Hba]]; [lia..|]. by apply String.leb_antisym.
Qed.

Lemma keep_nodup {A} (p : A -> bool) (l : list A) : NoDup l -> NoDup (keep p l).
Proof.
  induction 1 as [|x l Hx _ IH]; cbn; [constructor|]. destruct (p x); [|done]. constructor; [|done]. by intros [? _]%elem_of_keep.
Qed.

(** Rows that two tables share come in the same order from both. *)
Lemma latest_rows {A} (time : A -> Z) (m1 m2 : gmap string A) (q : string * A -> bool) :
  (forall k x, q (k, x) = true -> m1 !! k = Some x <-> m2 !! k = Some x) ->
  isort (latest_first time) (keep q (map_to_list m1)) = isort (latest_first time) (keep q (map_to_list m2)).
Proof.
  intros Hq. assert (forall m : gmap string A, NoDup (keep q (map_to_list m))) as Hnd.
  { intros m. apply keep_nodup, NoDup_map_to_list. }
  assert (keep q (map_to_list m1) ≡ₚ keep q (map_to_list m2)) as Hp.
  { apply NoDup_Permutation; [done..|]. intros [k x]. rewrite !elem_of_keep, !elem_of_map_to_list. naive_solver. }
  apply (StronglySorted_unique_strong (fun a b => latest_first time a b = true)).
  - intros [k x] [k' x']. rewrite !elem_of_isort, !elem_of_keep, !elem_of_map_to_list. intros [Hx Qx] [Hx' _] Hab Hba.
    pose proof (latest_first_antisym _ _ _ Hab Hba) as Ek. cbn in Ek. subst k'. apply (Hq k x Qx) in Hx. congruence.
  - apply isort_sorted; [apply latest_first_total|apply latest_first_trans].
  - apply isort_sorted; [apply latest_first_total|apply latest_first_trans].
  - by rewrite !isort_perm.
Qed.

(** Two databases that agree on what belongs to a workspace. *)
Record agree (ws : string) (s1 s2 : db) : Prop := {
  agree_windows k w : EvidenceIntake.w_workspace_id w = ws -> windows s1 !! k = Some w <-> windows s2 !! k = Some w;
  agree_changes k c : wc_workspace_id c = ws -> workload_changes s1 !! k = Some c <-> workload_changes s2 !! k = Some c;
  agree_references repo binding run sha path :
    workflow_pr_references s1 !! (ws, repo, binding, run, sha, path) = workflow_pr_references s2 !! (ws, repo, binding, run, sha, path);
}.

Lemma agree_adjacent s1 s2 ws cluster selects observed before after limit :
  agree ws s1 s2 -> (forall w, selects w = true -> EvidenceIntake.in_tenant ws cluster w = true) ->
  adjacent_windows s1 selects observed before after limit = adjacent_windows s2 selects observed before after limit.
Proof.
  intros Ha Hs. unfold adjacent_windows. destruct (fromisoformat _) as [m|]; [|done].
  destruct (add_seconds (m_wall m) (- before)); [|done]. destruct (add_seconds (m_wall m) after); [|done].
  cbn [mbind res_bind]. do 2 f_equal. apply latest_rows. intros k w. cbn [snd]. rewrite !andb_true_iff.
  intros [[Hw _] _]. apply Hs in Hw. unfold EvidenceIntake.in_tenant in Hw. rewrite andb_true_iff, !str_eqb_eq in Hw. apply (agree_windows _ _ _ Ha), Hw.
Qed.

Lemma agree_changes_rows s1 s2 ws cluster ns kind name before limit :
  agree ws s1 s2 ->
  list_recent_workload_changes_for_evidence s1 ws cluster ns kind name before limit =
  list_recent_workload_changes_for_evidence s2 ws cluster ns kind name before limit.
Proof.
  intros Ha. unfold list_recent_workload_changes_for_evidence. destruct (fromisoformat _) as [[wall [offset|]]|]; [|done..].
  set (q := fun ec : string * WorkloadChange => _).
  assert (forall k c, q (k, c) = true -> wc_workspace_id c = ws) as Hq.
  { intros k c. unfold q, changes_workload. cbn [snd]. rewrite !andb_true_iff, !str_eqb_eq. naive_solver. }
  rewrite (latest_rows _ _ (workload_changes s2)) by (intros k c Hc%Hq; by apply (agree_changes _ _ _ Ha)).
  apply list_fmap_ext. intros i [k c] Hi%list_elem_of_lookup_2. apply elem_of_take in Hi as (j & Hi & _).
  apply list_elem_of_lookup_2 in Hi. rewrite elem_of_isort, elem_of_keep in Hi. destruct Hi as [_ Hc%Hq].
  unfold change_row. cbn [snd fst]. rewrite Hc. by rewrite (agree_references _ _ _ Ha).
Qed.

(** ** Decoding *)

Lemma zip_field_value (fields : list (EventBody.field_info * EventBody.field_type)) (values : list EventBody.obj)
    (decodes : EventBody.field_info * EventBody.field_type -> res EventBody.obj) name ft :
  mapr decodes fields = Ok values -> dict_get (zip (EventBody.f_name <$> fields.*1) fields) name = Some ft ->
  exists v, dict_get (zip (EventBody.f_name <$> fields.*1) values) name = Some v /\ decodes ft = Ok v.
Proof.
  intros HF%mapr_Ok. induction HF as [|f v fields values Hf _ IH]; [done|]. rewrite !fmap_cons. cbn [zip zip_with dict_get].
  destruct (str_eqb _ _); [|done]. intros [= <-]. by exists v.
Qed.

(** The attribute of a decoded body is the decoded value of its field. *)
Lemma decoded_attribute c strict payload o name ft :
  EventBody.from_body c strict (VDict payload) = Ok o ->
  dict_get (zip (EventBody.f_name <$> (EventBody.cls_fields c).*1) (EventBody.cls_fields c)) name = Some ft ->
  EventBody.decode_field strict (EventBody.cls_name c) payload ft = Ok (RecoveryMerge.attribute o name).
Proof.
  destruct c as [cname enums fields]. unfold EventBody.from_body, EventBody.Body. cbn [EventBody.cls_fields EventBody.cls_name EventBody.cls_enums].
  rewrite EventBody.decode_body. intros (? & _ & (values & Hv & (? & _ & [= <-]%Ok_inj)%bind_Ok)%bind_Ok)%bind_Ok Hft.
  destruct (zip_field_value _ _ _ _ _ Hv Hft) as (v & Hget & Hdec). unfold RecoveryMerge.attribute. cbn [EventBody.cls_fields].
  by rewrite Hget.
Qed.

Lemma str_or_empty_text t : str_or_empty (VStr t) = t.
Proof. by destruct t. Qed.

(** What is hydrated is evidence of the tenant of the reference. *)
Lemma hydrated_tenant s evt evt' :
  ce_workspace_id evt <> "" -> hydrate_evidence s evt = Ok evt' ->
  ce_workspace_id evt' = ce_workspace_id evt /\ ce_cluster_id evt' = ce_cluster_id evt.
Proof.
  intros Hws. unfold hydrate_evidence. destruct (ce_evidence_key evt) as [[|x key]|]; try (by intros [= <-]%Ok_inj).
  destruct (has_inline_evidence evt); [by intros [= <-]%Ok_inj|].
  destruct (get_evidence_window_payload_for_workspace _ _ _) as [payload|]; [|by intros [= <-]%Ok_inj].
  destruct (payload_identity_matches_reference payload evt) eqn:Hm; cbn [negb]; [|by intros [= <-]%Ok_inj].
  intros (o & Ho & [= <-]%Ok_inj)%bind_Ok. unfold payload_identity_matches_reference in Hm.
  rewrite !andb_true_iff, !str_eqb_eq in Hm. destruct Hm as [[[Hw Hc] _] _]. cbn [received_of ce_workspace_id ce_cluster_id].
  pose proof (decoded_attribute _ _ _ _ "workspace_id" _ Ho eq_refl) as Aw.
  pose proof (decoded_attribute _ _ _ _ "cluster_id" _ Ho eq_refl) as Ac.
  unfold EventBody.decode_field in Aw, Ac. cbn in Aw, Ac.
  unfold RecoveryMerge.attr_str, get in *. split.
  - destruct (dict_get payload "workspace_id") as [[]|]; try discriminate Aw; apply Ok_inj in Aw as <-;
      cbn [default] in Hw; unfold id in Hw; [by rewrite str_or_empty_text in Hw|by cbn in Hw].
  - destruct (dict_get payload "cluster_id") as [[]|]; try discriminate Ac; apply Ok_inj in Ac as <-.
    cbn [default] in Hc. unfold id in Hc. by rewrite str_or_empty_text in Hc.
Qed.

Lemma with_parts_tenant evt k m l t md cs :
  ce_workspace_id (with_parts evt k m l t md cs) = ce_workspace_id evt /\ ce_cluster_id (with_parts evt k m l t md cs) = ce_cluster_id evt.
Proof. done. Qed.

Lemma attached_tenant s evt evt' :
  attach_aligned_cluster_evidence s evt = Ok evt' ->
  ce_workspace_id evt' = ce_workspace_id evt /\ ce_cluster_id evt' = ce_cluster_id evt.
Proof.
  unfold attach_aligned_cluster_evidence. destruct (ce_window_start evt) as [[|x start]|]; try (by intros [= <-]%Ok_inj).
  destruct (negb _).
  - unfold attach_aligned_alertmanager_evidence. destruct (standard_sli_result_identities _); [by intros [= <-]%Ok_inj|].
    intros (rows & _ & (cs & _ & [= <-]%Ok_inj)%bind_Ok)%bind_Ok. destruct (unique_nearest_window cs) as [c|]; [|done].
    unfold merge_alertmanager_evidence. destruct (get _ "alertmanager"); try done. by destruct (get _ "kubernetes").
  - destruct (standard_sli_identity _) as [i|]; [|by intros [= <-]%Ok_inj]. destruct (negb _); [by intros [= <-]%Ok_inj|].
    intros (rows & _ & (cs & _ & E)%bind_Ok)%bind_Ok. destruct (unique_nearest_window cs) as [c|]; [|by apply Ok_inj in E as <-].
    unfold merge_aligned_evidence in E. by apply bind_Ok in E as (am & _ & [= <-]%Ok_inj).
Qed.

Lemma gitops_tenant s evt ctx evt' :
  attach_gitops_change_context s evt ctx = Ok evt' ->
  ce_workspace_id evt' = ce_workspace_id evt /\ ce_cluster_id evt' = ce_cluster_id evt.
Proof.
  unfold attach_gitops_change_context. destruct (negb _); [by intros [= <-]%Ok_inj|].
  destruct (list_recent_workload_changes_for_evidence _ _ _ _ _ _ _ _); [by intros [= <-]%Ok_inj|].
  by intros (md & _ & [= <-]%Ok_inj)%bind_Ok.
Qed.

Lemma enriched_tenant s evt ctx evt' :
  ce_workspace_id evt <> "" -> enriched_event s evt ctx = Ok evt' ->
  ce_workspace_id evt' = ce_workspace_id evt /\ ce_cluster_id evt' = ce_cluster_id evt.
Proof.
  intros Hws. unfold enriched_event. intros (e1 & H1 & (e2 & H2 & H3)%bind_Ok)%bind_Ok.
  apply hydrated_tenant in H1 as [E1 E1']; [|done]. apply attached_tenant in H2 as [E2 E2']. apply gitops_tenant in H3 as [E3 E3'].
  split; congruence.
Qed.

(** ** What the evidence depends on *)

Lemma agree_payload s1 s2 ws key :
  agree ws s1 s2 -> get_evidence_window_payload_for_workspace s1 ws key = get_evidence_window_payload_for_workspace s2 ws key.
Proof.
  intros Ha. unfold get_evidence_window_payload_for_workspace. pose proof (agree_windows _ _ _ Ha key) as Hk.
  destruct (windows s1 !! key) as [w1|] eqn:E1, (windows s2 !! key) as [w2|] eqn:E2; [|..|done].
  - destruct (str_eqb (EvidenceIntake.w_workspace_id w1) ws) eqn:H1.
    + apply str_eqb_eq in H1. specialize (Hk w1 H1) as [Hk _]. specialize (Hk eq_refl). injection Hk as ->. by rewrite (proj2 (str_eqb_eq _ _) H1).
    + destruct (str_eqb (EvidenceIntake.w_workspace_id w2) ws) eqn:H2; [|done]. apply str_eqb_eq in H2.
      specialize (Hk w2 H2) as [_ Hk]. specialize (Hk eq_refl). injection Hk as ->. by rewrite (proj2 (str_eqb_eq _ _) H2) in H1.
  - destruct (str_eqb _ ws) eqn:H1; [|done]. apply str_eqb_eq in H1. specialize (Hk w1 H1) as [Hk _]. by specialize (Hk eq_refl).
  - destruct (str_eqb _ ws) eqn:H2; [|done]. apply str_eqb_eq in H2. specialize (Hk w2 H2) as [_ Hk]. by specialize (Hk eq_refl).
Qed.

Lemma agree_hydrate s1 s2 evt : agree (ce_workspace_id evt) s1 s2 -> hydrate_evidence s1 evt = hydrate_evidence s2 evt.
Proof.
  intros Ha. unfold hydrate_evidence. destruct (ce_evidence_key evt) as [[|x key]|]; [done| |done].
  by rewrite (agree_payload _ _ _ _ Ha).
Qed.

Lemma agree_attach s1 s2 evt :
  agree (ce_workspace_id evt) s1 s2 -> attach_aligned_cluster_evidence s1 evt = attach_aligned_cluster_evidence s2 evt.
Proof.
  intros Ha. unfold attach_aligned_cluster_evidence, attach_aligned_alertmanager_evidence,
    list_aligned_alertmanager_window_payloads, list_aligned_evidence_window_payloads.
  destruct (ce_window_start evt) as [[|x start]|]; [done| |done].
  rewrite (agree_adjacent s1 s2 _ (ce_cluster_id evt) _ _ _ _ _ Ha) by (intros w; rewrite !andb_true_iff; tauto).
  destruct (standard_sli_identity _); [|done].
  by rewrite (agree_adjacent s1 s2 _ (ce_cluster_id evt) _ _ _ _ _ Ha) by (intros w; rewrite !andb_true_iff; tauto).
Qed.

Lemma agree_gitops s1 s2 evt ctx :
  agree (ce_workspace_id evt) s1 s2 -> attach_gitops_change_context s1 evt ctx = attach_gitops_change_context s2 evt ctx.
Proof. intros Ha. unfold attach_gitops_change_context. by rewrite (agree_changes_rows s1 s2). Qed.

Lemma agree_enriched s1 s2 evt ctx :
  ce_workspace_id evt <> "" -> agree (ce_workspace_id evt) s1 s2 -> enriched_event s1 evt ctx = enriched_event s2 evt ctx.
Proof.
  intros Hws Ha. unfold enriched_event. rewrite (agree_hydrate s1 s2) by done.
  destruct (hydrate_evidence s2 evt) as [e1|] eqn:E1; [|done]. cbn [mbind res_bind].
  apply hydrated_tenant in E1 as [E1 _]; [|done]. rewrite <- E1 in Ha. rewrite (agree_attach s1 s2) by done.
  destruct (attach_aligned_cluster_evidence s2 e1) as [e2|] eqn:E2; [|done]. cbn [mbind res_bind].
  apply attached_tenant in E2 as [E2 _]. rewrite <- E2 in Ha. by apply agree_gitops.
Qed.

(** The window that is written belongs to the tenant of the evidence. *)
Lemma upsert_elsewhere s key ws cluster corr start source agent payload now s' k w :
  upsert_rca_enriched_evidence_window s key ws cluster corr start source agent payload now = (s', true) ->
  EvidenceIntake.w_workspace_id w <> ws -> windows s' !! k = Some w <-> windows s !! k = Some w.
Proof.
  unfold upsert_rca_enriched_evidence_window, EvidenceIntake.upsert_enriched_row. intros E Hw.
  destruct (windows s !! key) as [v|] eqn:Hv; [destruct (EvidenceIntake.in_tenant ws cluster v && _) eqn:Ht; [|done]|];
    injection E as <-; cbn; destruct (decide (k = key)) as [->|Hk].
  2,4: by rewrite lookup_insert_ne.
  - unfold EvidenceIntake.in_tenant in Ht. rewrite !andb_true_iff, !str_eqb_eq in Ht. rewrite lookup_insert_eq, Hv.
    split; [intros [= <-]|intros [= <-]]; cbn in *; tauto.
  - rewrite lookup_insert_eq, Hv. split; [|done]. by intros [= <-].
Qed.

(** ** The joined window *)

Lemma omapr_elem_l {A B} (f : A -> res (option B)) l ys x y : omapr f l = Ok ys -> x ∈ l -> f x = Ok (Some y) -> y ∈ ys.
Proof.
  intros (os & Hos & ->)%omapr_Ok Hx Hf. destruct (mapr_elem_l _ _ _ _ Hos Hx) as (o & Ho & Ef).
  apply list_elem_of_omap. exists o. split; [done|]. cbn. congruence.
Qed.

Lemma unique_row {A B} (f : A -> res (option B)) (p : B -> bool) rows cs c :
  omapr f rows = Ok cs -> keep p cs = [c] ->
  exists r, r ∈ rows /\ f r = Ok (Some c) /\ forall r' c', r' ∈ rows -> f r' = Ok (Some c') -> p c' = true -> r' = r.
Proof.
  revert cs. induction rows as [|x rows IH]; intros cs; cbn; [by intros [= <-]%Ok_inj|].
  intros (o & Ho & (cs' & Hcs & [= <-]%Ok_inj)%bind_Ok)%bind_Ok Hk. destruct o as [b|].
  2: { destruct (IH _ Hcs Hk) as (r & Hr & Hf & Hone). exists r. split_and!; [by right|done|]. intros r' c' [->|Hr']%elem_of_cons Hf'; [congruence|eauto]. }
  cbn in Hk. destruct (p b) eqn:Hp.
  - injection Hk as -> Hnil. exists x. split_and!; [by left|done|]. intros r' c' [->|Hr']%elem_of_cons Hf' Hp'; [done|exfalso].
    assert (c' ∈ keep p cs') as Hin by (apply elem_of_keep; split; [|done]; by eapply omapr_elem_l). by rewrite Hnil in Hin; apply elem_of_nil in Hin.
  - destruct (IH _ Hcs Hk) as (r & Hr & Hf & Hone). exists r. split_and!; [by right|done|].
    intros r' c' [->|Hr']%elem_of_cons Hf' Hp'; [congruence|eauto].
Qed.

Definition measured (c : candidate) : Prop := is_nan (cd_distance c) = false.

Lemma nearest_least c cs :
  measured c -> Forall measured cs ->
  (exists x, x ∈ c :: cs /\ cd_distance x = nearest_distance c cs) /\
  forall x, x ∈ c :: cs -> fltb (cd_distance x) (nearest_distance c cs) = false.
Proof.
  intros Hc. induction cs as [|y cs IH] using rev_ind; intros Hcs.
  - split; [exists c; set_solver|]. intros x Hx%list_elem_of_singleton. subst x. unfold nearest_distance. cbn.
    apply not_true_iff_false. rewrite fltb_rank by done. destruct (rank _) as [[??]?]. cbn. lia.
  - apply Forall_app in Hcs as [Hcs [Hy _]%Forall_cons]. destruct (IH Hcs) as ((m & Hm & Em) & Hl).
    assert (nearest_distance c (cs ++ [y]) =
            if fltb (cd_distance y) (nearest_distance c cs) then cd_distance y else nearest_distance c cs) as ->
      by (unfold nearest_distance; by rewrite fold_left_app).
    assert (is_nan (cd_distance m) = false) as Hnm.
    { apply elem_of_cons in Hm as [->|Hm]; [done|]. rewrite Forall_forall in Hcs. by apply Hcs. }
    rewrite <- Em in Hl |- *. destruct (fltb (cd_distance y) (cd_distance m)) eqn:Hlt; split.
    + exists y. set_solver.
    + intros x Hx. apply not_true_iff_false. intros Hxy.
      assert (x ∈ c :: cs \/ x = y) as [Hin| ->] by set_solver.
      * specialize (Hl x Hin). apply not_true_iff_false in Hl. apply Hl.
        assert (is_nan (cd_distance x) = false) as Hnx.
        { apply elem_of_cons in Hin as [-> |Hin]; [done|]. rewrite Forall_forall in Hcs. by apply Hcs. }
        apply (fltb_rank _ _ Hnx Hy) in Hxy. apply (fltb_rank _ _ Hy Hnm) in Hlt. apply (fltb_rank _ _ Hnx Hnm).
        destruct (rank (cd_distance x)) as [[??]?], (rank (cd_distance y)) as [[??]?], (rank (cd_distance m)) as [[??]?].
        cbn in *. lia.
      * apply (fltb_rank _ _ Hy Hy) in Hxy. destruct (rank _) as [[??]?]. cbn in Hxy. lia.
    + exists m. split; [set_solver|done].
    + intros x Hx. assert (x ∈ c :: cs \/ x = y) as [Hin| ->] by set_solver; [by apply Hl|done].
Qed.

Lemma distance_measured w start d : window_distance_seconds w start = Ok (Some d) -> is_nan d = false.
Proof.
  unfold window_distance_seconds. intros (t & _ & (u & _ & E)%bind_Ok)%bind_Ok. destruct t as [t|], u as [u|]; try discriminate E.
  destruct (_ && _); [|discriminate E]. apply Ok_inj in E as [= <-]. pose proof (int_div_not_nan (t - u) SECOND eq_refl) as Hn.
  unfold total_seconds. by destruct (int_div _ _).
Qed.

Lemma row_candidate_Some accepts start row c :
  row_candidate accepts start row = Ok (Some c) <->
  accepts (EvidenceIntake.w_payload row.2) = true /\ window_distance_seconds row.2 start = Ok (Some (cd_distance c)) /\
  row_key row <> "" /\ c = {| cd_distance := cd_distance c; cd_payload := EvidenceIntake.w_payload row.2; cd_evidence_key := row_key row |}.
Proof.
  unfold row_candidate, nonempty. destruct (accepts _); cbn [negb]; [|naive_solver]. rewrite bind_Ok. split.
  - intros ([d|] & Hd & E); [|discriminate E]. destruct (is_empty (row_key row)) eqn:Ek; [discriminate E|]. apply Ok_inj in E as [= <-].
    cbn. split_and!; try done. intros E. by rewrite E in Ek.
  - intros (_ & Hd & Hk & ->). exists (Some (cd_distance c)). split; [done|]. by destruct (row_key row).
Qed.

(** The nearest row is the only one: every other one that could be joined is
    farther away. *)
Lemma nearest_row accepts start rows cs c :
  omapr (row_candidate accepts start) rows = Ok cs -> unique_nearest_window cs = Some c ->
  exists row, row ∈ rows /\ row_candidate accepts start row = Ok (Some c) /\
    forall row' c', row' ∈ rows -> row' <> row -> row_candidate accepts start row' = Ok (Some c') ->
      fltb (cd_distance c) (cd_distance c') = true.
Proof.
  intros Hcs Hu. assert (Forall measured cs) as Hm.
  { apply Forall_forall. intros x Hx. destruct (omapr_elem _ _ _ _ Hcs Hx) as (row & _ & (_ & Hd & _)%row_candidate_Some).
    by eapply distance_measured. }
  destruct cs as [|c0 cs]; [done|]. apply the_one_Some in Hu. apply Forall_cons in Hm as [Hm0 Hm].
  destruct (nearest_least c0 cs Hm0 Hm) as [(m & Hin & Em) Hleast].
  destruct (unique_row _ _ _ _ _ Hcs Hu) as (row & Hrow & Hf & Hone). exists row. split_and!; [done..|].
  intros row' c' Hrow' Hne Hf'. assert (c' ∈ c0 :: cs) as Hc' by (by eapply omapr_elem_l).
  assert (c ∈ keep (fun x => feqb (cd_distance x) (nearest_distance c0 cs)) (c0 :: cs)) as [Hc Heq]%elem_of_keep by (rewrite Hu; by left).
  assert (Forall measured (c0 :: cs)) as Hall by (by constructor). rewrite Forall_forall in Hall.
  specialize (Hleast c' Hc'). rewrite <- Em in *. apply not_true_iff_false in Hleast. pose proof (Hall _ Hin) as Nm.
  pose proof (Hall _ Hc) as Nc. pose proof (Hall _ Hc') as Nc'. unfold measured in *.
  assert (feqb (cd_distance c') (cd_distance m) = true -> False) as Hneq by (intros E; by apply Hne, (Hone row' c')).
  rewrite feqb_rank in Heq, Hneq by done. rewrite fltb_rank in Hleast |- * by done. rewrite Heq in *.
  destruct (rank (cd_distance m)) as [[a1 a2] a3], (rank (cd_distance c')) as [[b1 b2] b3]. cbn in *.
  destruct (decide ((b1, b2, b3) = (a1, a2, a3))) as [E|E]; [by destruct Hneq|].
  assert (~ (b1 = a1 /\ b2 = a2 /\ b3 = a3)) by (intros (-> & -> & ->); done). lia.
Qed.

(** An event of Alertmanager looks for a window of an agent, any other event
    for a window of Alertmanager. *)
Definition of_alertmanager (evt : ClusterEvidenceReceivedBody) : bool := bool_decide (ce_source_id evt = Some ALERTMANAGER_SOURCE_ID).

Definition other_side (evt : ClusterEvidenceReceivedBody) (w : EvidenceIntake.EvidenceWindow) : bool :=
  if of_alertmanager evt
  then negb (str_eqb (EvidenceIntake.w_source_id w) ALERTMANAGER_SOURCE_ID) && bool_decide (is_Some (EvidenceIntake.w_agent_id w))
  else str_eqb (EvidenceIntake.w_source_id w) ALERTMANAGER_SOURCE_ID.

(** Both speak of the same service level of the incident's resource. *)
Definition same_subject (evt : ClusterEvidenceReceivedBody) (payload : dict) : bool :=
  if of_alertmanager evt
  then match standard_sli_identity (ce_metrics evt) with
       | Some i => sli_identity_matches_incident i (ce_kubernetes evt) && payload_matches_sli_identity payload i
       | None => false
       end
  else alert_payload_matches (standard_sli_result_identities (ce_metrics evt)) payload.

Definition joined (evt : ClusterEvidenceReceivedBody) (payload : dict) (key : string) : res ClusterEvidenceReceivedBody :=
  if of_alertmanager evt then merge_aligned_evidence evt payload key else Ok (merge_alertmanager_evidence evt payload key).

(** A window of the other side that arrived around the event: it was written
    at most ten minutes before and one minute after its start, or, for the
    alert of an agent's evidence, one minute before and ten minutes after. *)
Definition arrived (s : db) (evt : ClusterEvidenceReceivedBody) (start : string) (kw : string * EvidenceIntake.EvidenceWindow)
    : Prop :=
  windows s !! kw.1 = Some kw.2 /\ EvidenceIntake.in_tenant (ce_workspace_id evt) (ce_cluster_id evt) kw.2 = true /\
  other_side evt kw.2 = true /\
  exists observed low high, fromisoformat (replace_char "Z" "+00:00" start) = Some observed /\
    add_seconds (m_wall observed) (if of_alertmanager evt then -600 else -60) = Ok low /\
    add_seconds (m_wall observed) (if of_alertmanager evt then 60 else 600) = Ok high /\
    instant observed low <= EvidenceIntake.w_updated_at kw.2 <= instant observed high.

(** The repository lists at most twelve of them, those written last; so a
    window is passed over when twelve others were written after it, or at the
    same time with a greater key. *)
Definition passed_over (s : db) (evt : ClusterEvidenceReceivedBody) (start : string)
    (kw : string * EvidenceIntake.EvidenceWindow) : Prop :=
  exists newer, length newer = 12%nat /\ NoDup newer /\ kw ∉ newer /\
    forall x, x ∈ newer -> arrived s evt start x /\ latest_first EvidenceIntake.w_updated_at x kw = true.

(** The windows the repository lists. *)
Definition listed (s : db) (evt : ClusterEvidenceReceivedBody) (start : string) : res (list (string * EvidenceIntake.EvidenceWindow)) :=
  adjacent_windows s (fun w => EvidenceIntake.in_tenant (ce_workspace_id evt) (ce_cluster_id evt) w && other_side evt w) start
    (if of_alertmanager evt then ALIGNED_EVIDENCE_BEFORE_SECONDS else ALIGNED_EVIDENCE_AFTER_SECONDS)
    (if of_alertmanager evt then ALIGNED_EVIDENCE_AFTER_SECONDS else ALIGNED_EVIDENCE_BEFORE_SECONDS) ALIGNED_EVIDENCE_LIMIT.

Lemma adjacent_ext s p q start before after limit :
  (forall w, p w = q w) -> adjacent_windows s p start before after limit = adjacent_windows s q start before after limit.
Proof.
  intros E. unfold adjacent_windows. destruct (fromisoformat _); [|done].
  do 2 (destruct (add_seconds _ _); [|done]; cbn [mbind res_bind]). do 2 f_equal.
  assert (forall l : list (string * EvidenceIntake.EvidenceWindow), forall f g : _ -> bool, (forall x, f x = g x) -> keep f l = keep g l) as Hk.
  { intros l f g Hfg. induction l as [|x l IH]; cbn; [done|]. by rewrite Hfg, IH. }
  f_equal. apply Hk. intros x. by rewrite E.
Qed.

Lemma adjacent_elem s p start before after limit rows k w :
  adjacent_windows s p start before after limit = Ok rows -> (k, w) ∈ rows -> windows s !! k = Some w /\ p w = true.
Proof.
  unfold adjacent_windows. destruct (fromisoformat _); [|intros [= <-]%Ok_inj ?%elem_of_nil; done].
  intros (low & _ & (high & _ & [= <-]%Ok_inj)%bind_Ok)%bind_Ok (i & Hi & _)%elem_of_take.
  apply list_elem_of_lookup_2 in Hi. rewrite elem_of_isort, elem_of_keep, elem_of_map_to_list in Hi. cbn [snd] in Hi.
  rewrite !andb_true_iff in Hi. tauto.
Qed.

Lemma sorted_app_before {A} (R : A -> A -> Prop) l1 l2 x y :
  StronglySorted R (l1 ++ l2) -> x ∈ l1 -> y ∈ l2 -> R x y.
Proof.
  induction l1 as [|a l1 IH]; cbn; [by intros _ ?%not_elem_of_nil|].
  intros [Hs Hf]%StronglySorted_inv [->|Hx]%elem_of_cons Hy; [|by apply IH].
  rewrite Forall_forall in Hf. apply Hf, elem_of_app. by right.
Qed.

Lemma listed_elem s evt start rows kw :
  listed s evt start = Ok rows ->
  (kw ∈ rows -> arrived s evt start kw) /\
  (arrived s evt start kw -> kw ∈ rows \/ passed_over s evt start kw).
Proof.
  unfold listed, passed_over, arrived. destruct kw as [k w]. cbn [fst snd].
  assert ((- (if of_alertmanager evt then ALIGNED_EVIDENCE_BEFORE_SECONDS else ALIGNED_EVIDENCE_AFTER_SECONDS))%Z =
    if of_alertmanager evt then -600 else -60) as E1 by by destruct (of_alertmanager evt).
  assert ((if of_alertmanager evt then ALIGNED_EVIDENCE_AFTER_SECONDS else ALIGNED_EVIDENCE_BEFORE_SECONDS) =
    if of_alertmanager evt then 60 else 600) as E2 by by destruct (of_alertmanager evt).
  unfold adjacent_windows. rewrite E1, E2. destruct (fromisoformat _) as [observed|].
  2: { intros <-%Ok_inj. split; [by intros ?%not_elem_of_nil|]. by intros (_ & _ & _ & ? & _ & _ & ? & _). }
  intros (low & Hlow & (high & Hhigh & <-%Ok_inj)%bind_Ok)%bind_Ok.
  set (l := keep _ _). change (Z.to_nat _) with 12%nat.
  assert (forall x, x ∈ l <-> windows s !! x.1 = Some x.2 /\
    EvidenceIntake.in_tenant (ce_workspace_id evt) (ce_cluster_id evt) x.2 = true /\ other_side evt x.2 = true /\
    exists observed' low' high', Some observed = Some observed' /\
      add_seconds (m_wall observed') (if of_alertmanager evt then -600 else -60) = Ok low' /\
      add_seconds (m_wall observed') (if of_alertmanager evt then 60 else 600) = Ok high' /\
      instant observed' low' <= EvidenceIntake.w_updated_at x.2 <= instant observed' high') as Hl.
  { intros [k0 w0]. unfold l. rewrite elem_of_keep, elem_of_map_to_list. cbn [fst snd].
    rewrite !andb_true_iff, !Z.leb_le. split.
    - intros (? & ((? & ?) & ?) & ?). split_and!; try done. exists observed, low, high. done.
    - intros (? & ? & ? & o & lo & hi & [= <-] & Hlo & Hhi & ? & ?). rewrite Hlow in Hlo. rewrite Hhigh in Hhi.
      injection Hlo as <-. injection Hhi as <-. tauto. }
  split.
  - intros (i & Hi & _)%elem_of_take. apply list_elem_of_lookup_2 in Hi. rewrite elem_of_isort in Hi. by apply Hl in Hi.
  - intros Ha. apply (Hl (k, w)) in Ha. rewrite <- (elem_of_isort (latest_first EvidenceIntake.w_updated_at)) in Ha.
    pose proof (isort_sorted _ (latest_first_total EvidenceIntake.w_updated_at) (latest_first_trans EvidenceIntake.w_updated_at) l) as Hs.
    set (srt := isort (latest_first EvidenceIntake.w_updated_at) l) in *.
    rewrite <- (take_drop 12 srt) in Ha, Hs. apply elem_of_app in Ha as [Ha|Ha]; [by left|right].
    assert (NoDup srt) as Hnd.
    { unfold srt. rewrite isort_perm. unfold l. apply keep_nodup, NoDup_map_to_list. }
    exists (take 12 srt). split_and!.
    + assert (12 < length srt)%nat; [|rewrite length_take; lia].
      destruct (drop 12 _) eqn:Ed; [by apply not_elem_of_nil in Ha|]. apply (f_equal length) in Ed. rewrite length_drop in Ed. cbn in Ed. lia.
    + by eapply sublist_NoDup, sublist_take.
    + rewrite <- (take_drop 12 srt) in Hnd. apply NoDup_app in Hnd as (_ & Hd & _). intros Hin. by apply (Hd _ Hin).
    + intros x Hx. split.
      * apply Hl. rewrite <- (elem_of_isort (latest_first EvidenceIntake.w_updated_at)). fold srt.
        rewrite <- (take_drop 12 srt). apply elem_of_app. by left.
      * exact (sorted_app_before _ _ _ _ _ Hs Hx Ha).
Qed.

(** The two directions of the join as one. *)
Lemma attach_cases s evt evt' :
  attach_aligned_cluster_evidence s evt = Ok evt' ->
  evt' = evt \/
  exists start rows cs c, ce_window_start evt = Some start /\ listed s evt start = Ok rows /\
    omapr (row_candidate (same_subject evt) start) rows = Ok cs /\ unique_nearest_window cs = Some c /\
    joined evt (cd_payload c) (cd_evidence_key c) = Ok evt'.
Proof.
  unfold attach_aligned_cluster_evidence, listed, joined, other_side, same_subject. fold (of_alertmanager evt).
  destruct (ce_window_start evt) as [[|x start]|]; try (intros [= <-]%Ok_inj; by left).
  destruct (of_alertmanager evt) eqn:Ea; cbn [negb].
  - destruct (standard_sli_identity (ce_metrics evt)) as [i|]; [|intros [= <-]%Ok_inj; by left].
    destruct (sli_identity_matches_incident i (ce_kubernetes evt)); cbn [negb andb]; [|intros [= <-]%Ok_inj; by left].
    intros (rows & Hr & (cs & Hcs & E)%bind_Ok)%bind_Ok. destruct (unique_nearest_window cs) as [c|] eqn:Hc; [|apply Ok_inj in E as <-; by left].
    right. exists (String x start), rows, cs, c. split_and!; try done.
    erewrite adjacent_ext; [exact Hr|]. intros w. cbn beta. by rewrite andb_assoc.
  - unfold attach_aligned_alertmanager_evidence. destruct (standard_sli_result_identities (ce_metrics evt)) as [|i ids] eqn:Ei; [intros [= <-]%Ok_inj; by left|].
    intros (rows & Hr & (cs & Hcs & E)%bind_Ok)%bind_Ok. apply Ok_inj in E.
    destruct (unique_nearest_window cs) as [c|] eqn:Hc; [|subst evt'; by left].
    right. exists (String x start), rows, cs, c. split_and!; try done. by rewrite <- E.
Qed.

(** ** The latest change *)

Lemma recent_changes_first s ws cluster ns kind name before limit row rows :
  list_recent_workload_changes_for_evidence s ws cluster ns kind name before limit = row :: rows ->
  exists e c wall offset, fromisoformat (replace_char "Z" "+00:00" before) = Some (Moment wall (Some offset)) /\
    workload_changes s !! e = Some c /\ changes_workload ws cluster ns kind name c = true /\ wc_changed_at c <= wall - offset /\
    row = change_row s (e, c) /\
    forall e' c', workload_changes s !! e' = Some c' -> changes_workload ws cluster ns kind name c' = true ->
      wc_changed_at c' <= wall - offset -> wc_changed_at c' <= wc_changed_at c.
Proof.
  unfold list_recent_workload_changes_for_evidence. destruct (fromisoformat _) as [[wall [offset|]]|]; [|done..].
  set (q := fun ec : string * WorkloadChange => _). set (l := keep q _).
  pose proof (isort_sorted _ (latest_first_total wc_changed_at) (latest_first_trans wc_changed_at) l) as Hs.
  destruct (isort (latest_first wc_changed_at) l) as [|[e c] rest] eqn:El; [by destruct limit|].
  destruct limit as [|limit]; [done|]. cbn [take fmap list_fmap]. intros [= <- _]. exists e, c, wall, offset.
  assert (forall e' c', (e', c') ∈ (e, c) :: rest <-> workload_changes s !! e' = Some c' /\ q (e', c') = true) as Hin.
  { intros e' c'. rewrite <- El, elem_of_isort. unfold l. by rewrite elem_of_keep, elem_of_map_to_list. }
  assert (forall e' c', q (e', c') = true <-> changes_workload ws cluster ns kind name c' = true /\ wc_changed_at c' <= wall - offset) as Hq.
  { intros e' c'. unfold q. cbn [snd]. by rewrite andb_true_iff, Z.leb_le. }
  destruct (proj1 (Hin e c) ltac:(by left)) as [Hl Hc]. apply Hq in Hc as [Hc Ht]. split_and!; try done.
  intros e' c' Hl' Hc' Ht'. assert ((e', c') ∈ (e, c) :: rest) as [[= -> ->]|Hr]%elem_of_cons by (apply Hin; split; [done|]; by apply Hq); [done|].
  apply StronglySorted_inv in Hs as [_ Hs]. rewrite Forall_forall in Hs. specialize (Hs _ Hr). unfold latest_first in Hs. cbn [snd] in Hs.
  rewrite orb_true_iff, andb_true_iff, Z.ltb_lt, Z.eqb_eq in Hs. lia.
Qed.

Lemma resolution_keys d t k :
  dict_get (dict_update (filter_items (fun k _ => negb (bool_decide (k ∈ TARGET_KEYS))) d) (WorkloadTarget.resolution_metadata t)) k =
  if bool_decide (k ∈ TARGET_KEYS) then dict_get (WorkloadTarget.resolution_metadata t) k else dict_get d k.
Proof.
  unfold WorkloadTarget.resolution_metadata. destruct (WorkloadTarget.resolved t); cbn [negb].
  - unfold dict_update. cbn [fold_left fst snd]. case_bool_decide as Hk.
    + unfold TARGET_KEYS in Hk. rewrite !elem_of_cons, elem_of_nil in Hk. destruct Hk as [->|[->|[->|[]]]];
        repeat (rewrite dict_get_set_eq || rewrite dict_get_set_ne by done); done.
    + assert (k <> "gitops_target" /\ k <> "original_target" /\ k <> "gitops_target_resolution") as (H1 & H2 & H3)
        by (split_and!; intros ->; apply Hk; unfold TARGET_KEYS; set_solver).
      rewrite !dict_get_set_ne by (by apply not_eq_sym). apply dict_get_filter.
      intros v. by rewrite bool_decide_false.
  - cbn. case_bool_decide as Hk; [apply dict_get_filter_out|apply dict_get_filter]; intros v; [by rewrite bool_decide_true|by rewrite bool_decide_false].
Qed.

(** ** From one worker to the next *)

Lemma decode_mappings strict owner key l :
  Forall (fun v => is_mapping v = true) l -> mapr (EventBody.decode_value strict owner key EventBody.TDict) l = Ok (EventBody.of_wire <$> l).
Proof. induction 1 as [|v l Hv _ IH]; [done|]. destruct v; try done. cbn in IH |- *. by rewrite IH. Qed.

(** Evidence survives its stored form. *)
Lemma evidence_survives e :
  Forall (fun v => is_mapping v = true) (logs e) ->
  exists o, EventBody.from_body EventBodies.Evidence true (VDict (evidence_body e)) = Ok o /\ IncidentDetection.evidence_of o = e.
Proof.
  intros Hl. unfold EventBody.from_body, EventBody.Body. rewrite EventBody.decode_body.
  assert (EventBody.extra_keys (EventBody.payload_name <$> (EventBody.cls_fields EventBodies.Evidence).*1) (evidence_body e) = []) as ->
    by reflexivity.
  rewrite bool_decide_true by done. cbn [negb andb raise_if mbind res_bind].
  set (values := [EventBody.OStr (cluster_id e); EventBody.of_wire (VDict (kubernetes e)); EventBody.of_wire (VDict (metrics e));
    EventBody.OList (EventBody.of_wire <$> logs e); EventBody.of_wire (VDict (traces e)); EventBody.OStr (object_ref e);
    EventBody.of_wire (VDict (metadata e)); EventBody.OStr (workspace_id e)]).
  assert (mapr (EventBody.decode_field true (EventBody.cls_name EventBodies.Evidence) (evidence_body e))
            (EventBody.cls_fields EventBodies.Evidence) = Ok values) as ->.
  { apply mapr_Ok. repeat constructor. unfold EventBody.decode_field. cbn [snd]. 
    assert (forall m : res (list EventBody.obj), m = Ok (EventBody.of_wire <$> logs e) ->
      EventBody.OList <$> m = Ok (EventBody.OList (EventBody.of_wire <$> logs e))) as Hm by (by intros m ->).
    apply Hm. exact (decode_mappings true "Evidence" "logs[]" _ Hl). }
  eexists. split; [reflexivity|]. unfold IncidentDetection.evidence_of.
  change (RecoveryMerge.attribute _ "kubernetes") with (EventBody.of_wire (VDict (kubernetes e))).
  change (RecoveryMerge.attribute _ "metrics") with (EventBody.of_wire (VDict (metrics e))).
  change (RecoveryMerge.attribute _ "logs") with (EventBody.OList (EventBody.of_wire <$> logs e)).
  change (RecoveryMerge.attribute _ "traces") with (EventBody.of_wire (VDict (traces e))).
  change (RecoveryMerge.attribute _ "metadata") with (EventBody.of_wire (VDict (metadata e))).
  rewrite !EventBody.to_of_wire. destruct e as [c k m l t r md w]. cbn -[EventBody.of_wire EventBody.to_body_value]. f_equal.
  cbn [EventBody.to_body_value]. clear. induction l as [|v l IH]; [done|]. cbn. by rewrite EventBody.to_of_wire, IH.
Qed.

(** What the worker of incidents reads from the tables. *)
Definition readers_of (s : db) (registration : string -> string -> option dict) : IncidentDetection.readers :=
  {| IncidentDetection.get_cluster_registration := registration;
     IncidentDetection.get_evidence_payload := get_evidence_payload s |}.

(** The delivery of the body to that worker. *)
Definition delivery (b : EvidenceBuiltBody) (correlation_id event_id created_at : string) (now : Z) : IncidentDetection.call :=
  {| IncidentDetection.c_evidence := eb_evidence b; IncidentDetection.c_correlation_id := Some (eb_correlation_id b);
     IncidentDetection.c_kind := Some (eb_kind b); IncidentDetection.ctx_correlation_id := correlation_id;
     IncidentDetection.ctx_event_id := event_id; IncidentDetection.ctx_created_at := created_at; IncidentDetection.c_now := now |}.

Lemma compact_body e corr kind b :
  compact_evidence_built_body e corr kind = Ok b ->
  eb_correlation_id b = corr /\ eb_kind b = kind /\ workspace_id (eb_evidence b) = workspace_id e /\
  cluster_id (eb_evidence b) = cluster_id e /\ IncidentDetection.has_inline_evidence (eb_evidence b) = false.
Proof. unfold compact_evidence_built_body. intros (n & _ & (m & _ & [= <-]%Ok_inj)%bind_Ok)%bind_Ok. done. Qed.

(** ** The claims *)

(** C16: Windows are joined only when they belong together, and never by chance.
    Evidence is left as it is, or is joined with one window: of the same
    workspace and cluster, from the other side, about the same service level
    of the resource of the incident, written around the start of the event,
    with a trusted start at most 600 seconds before or 60 seconds after that
    of the event; and every other window that was written around the event and
    could be joined is farther away, unless twelve windows written later hide
    it from the worker, which reads no more than the latest twelve. *)
Theorem joined_window_is_the_only_nearest s evt evt' :
  attach_aligned_cluster_evidence s evt = Ok evt' ->
  evt' = evt \/
  exists start k w t u,
    ce_window_start evt = Some start /\ arrived s evt start (k, w) /\
    same_subject evt (EvidenceIntake.w_payload w) = true /\
    parse_timestamp start = Ok (Some t) /\ trusted_window_time w = Ok (Some u) /\
    fleb (nearest_float (-60)) (total_seconds (t - u)) = true /\ fleb (total_seconds (t - u)) (nearest_float 600) = true /\
    joined evt (EvidenceIntake.w_payload w) (row_key (k, w)) = Ok evt' /\
    forall k' w' d, arrived s evt start (k', w') -> (k', w') <> (k, w) -> same_subject evt (EvidenceIntake.w_payload w') = true ->
      row_key (k', w') <> "" -> window_distance_seconds w' start = Ok (Some d) ->
      fltb (fabs (total_seconds (t - u))) d = true \/ passed_over s evt start (k', w').
Proof.
  intros [->|(start & rows & cs & c & Hstart & Hrows & Hcs & Hc & Hj)]%attach_cases; [by left|right].
  destruct (nearest_row _ _ _ _ _ Hcs Hc) as ([k w] & Hin & (Hs & Hd & Hk & Ec)%row_candidate_Some & Hfar). cbn [snd] in Hs, Hd.
  pose proof Hd as Hd0. unfold window_distance_seconds in Hd0. apply bind_Ok in Hd0 as (t & Ht0 & Hd0). apply bind_Ok in Hd0 as (u & Hu & Hd0).
  destruct t as [t|], u as [u|]; try discriminate Hd0. destruct (fleb _ _) eqn:Hlow; cbn [andb] in Hd0; [|discriminate Hd0].
  destruct (fleb (total_seconds _) _) eqn:Hhigh in Hd0; [|discriminate Hd0]. apply Ok_inj in Hd0 as [= Ed].
  exists start, k, w, t, u. split_and!; try done.
  - by apply (listed_elem _ _ _ _ _ Hrows).
  - rewrite Ec in Hj. exact Hj.
  - intros k' w' d Ha Hne Hs' Hk' Hd'. destruct (listed_elem _ _ _ _ (k', w') Hrows) as [_ Hl].
    destruct (Hl Ha) as [Hin'|]; [left|by right]. rewrite Ed.
    eapply (Hfar (k', w') {| cd_distance := d; cd_payload := EvidenceIntake.w_payload w'; cd_evidence_key := row_key (k', w') |}); [done..|].
    apply row_candidate_Some. done.
Qed.

(** The GitOps identity of evidence is the server's.  When the worker changes
    the context of an event, its identity is that of the latest change of the
    workload in the database, among the changes of the same workspace, cluster
    and workload up to the time of the event, and the targets it names are the
    resolved ones; whatever the agent put there is gone. *)
Theorem gitops_identity_is_the_servers s evt ctx evt' :
  attach_gitops_change_context s evt ctx = Ok evt' ->
  let target := evidence_target evt in
  let changed := changes_workload (ce_workspace_id evt) (ce_cluster_id evt) (WorkloadTarget.namespace target)
                   (WorkloadTarget.resource_kind target) (WorkloadTarget.resource_name target) in
  let change_context := mapping (get (ce_metadata evt') "change_context") in
  evt' = evt \/
  exists e c wall offset,
    fromisoformat (replace_char "Z" "+00:00" (event_time evt ctx)) = Some (Moment wall (Some offset)) /\
    workload_changes s !! e = Some c /\ changed c = true /\ wc_changed_at c <= wall - offset /\
    (forall e' c', workload_changes s !! e' = Some c' -> changed c' = true -> wc_changed_at c' <= wall - offset ->
       wc_changed_at c' <= wc_changed_at c) /\
    get change_context "gitops" = VDict (gitops_context_payload (change_row s (e, c))) /\
    forall k, k ∈ TARGET_KEYS -> dict_get change_context k = dict_get (WorkloadTarget.resolution_metadata target) k.
Proof.
  cbn zeta. unfold attach_gitops_change_context. destruct (negb _); [intros [= <-]%Ok_inj; by left|].
  destruct (list_recent_workload_changes_for_evidence _ _ _ _ _ _ _ _) as [|row rows] eqn:El; [intros [= <-]%Ok_inj; by left|].
  apply recent_changes_first in El as (e & c & wall & offset & Hf & Hl & Hc & Ht & -> & Hmax).
  intros (md & Hmd & [= <-]%Ok_inj)%bind_Ok. right. exists e, c, wall, offset. cbn [with_parts ce_metadata].
  unfold merge_gitops_change_context in Hmd. apply bind_Ok in Hmd as (recent & _ & [= <-]%Ok_inj). rewrite get_set_eq. cbn [mapping].
  set (base := dict_set _ "gitops" _).
  assert (forall d k, k <> "image" -> dict_get (match image_context_payload (change_row s (e, c)) with [] => d | image => setdefault d "image" (VDict image) end) k
            = dict_get d k) as Himg.
  { intros d k Hk. destruct (image_context_payload _); [done|]. unfold setdefault. destruct (has_key d "image"); [done|]. by rewrite dict_get_set_ne. }
  split_and!; try done.
  - unfold get. rewrite Himg, resolution_keys by done. rewrite bool_decide_false by (unfold TARGET_KEYS; rewrite !elem_of_cons, elem_of_nil; by intros [?|[?|[?|[]]]]).
    unfold base. by rewrite dict_get_set_eq.
  - intros k Hk. rewrite Himg, resolution_keys; [by rewrite bool_decide_true|]. intros ->.
    unfold TARGET_KEYS in Hk. rewrite !elem_of_cons, elem_of_nil in Hk. by destruct Hk as [?|[?|[?|[]]]].
Qed.

(** Without such a change the context that the agent sent stays as it is, its
    GitOps identity included. *)
Lemma agent_context_stays s evt ctx :
  (forall e c, workload_changes s !! e = Some c -> wc_workspace_id c <> ce_workspace_id evt) ->
  attach_gitops_change_context s evt ctx = Ok evt.
Proof.
  intros Hno. unfold attach_gitops_change_context. destruct (negb _); [done|].
  destruct (list_recent_workload_changes_for_evidence _ _ _ _ _ _ _ _) as [|row rows] eqn:El; [done|].
  apply recent_changes_first in El as (e & c & wall & offset & _ & Hl & Hc & _). unfold changes_workload in Hc.
  rewrite !andb_true_iff, !str_eqb_eq in Hc. exfalso. apply (Hno e c Hl), Hc.
Qed.
End facts.

Section handlers.
Context `{ReprLib} `{IsoTime} (environ : string -> option string).

(** What the handler does when it succeeds. *)
Lemma cluster_evidence_handled s evt ctx s' body :
  on_cluster_evidence environ s evt ctx = Ok (s', body) ->
  exists evt' s1, enriched_event s evt ctx = Ok evt' /\
    upsert_rca_enriched_evidence_window s (enriched_key evt' ctx) (ce_workspace_id evt') (ce_cluster_id evt') (ctx_correlation_id ctx)
      (event_time evt' ctx) RCA_ENRICHED_SOURCE_ID None (evidence_body (built_evidence environ evt' ctx)) (ctx_now ctx) = (s1, true) /\
    s' = save_evidence s1 (ctx_correlation_id ctx) (ce_workspace_id evt') PIPELINE_KIND (evidence_body (built_evidence environ evt' ctx)) /\
    compact_evidence_built_body (built_evidence environ evt' ctx) (ctx_correlation_id ctx) PIPELINE_KIND = Ok body.
Proof.
  unfold on_cluster_evidence. intros (evt' & He & E)%bind_Ok. exists evt'.
  change (workspace_id (built_evidence environ evt' ctx)) with (ce_workspace_id evt') in E.
  change (cluster_id (built_evidence environ evt' ctx)) with (ce_cluster_id evt') in E.
  destruct (upsert_rca_enriched_evidence_window _ _ _ _ _ _ _ _ _ _) as [s1 []]; [|done]. cbn [negb] in E.
  apply bind_Ok in E as (b & Hb & [= <- <-]%Ok_inj). by exists s1.
Qed.

(** What the worker writes is a step of the windows of the intake: the derived
    window of a tenant, with a payload that names the tenant. *)
Lemma worker_step_of_the_windows s evt ctx s' body :
  on_cluster_evidence environ s evt ctx = Ok (s', body) ->
  exists ws cluster start payload,
    windows s' = (EvidenceIntake.upsert_enriched_row (windows s)
                    (EvidenceIntake.rca_enriched_evidence_key ws cluster (ctx_correlation_id ctx)) ws cluster
                    (ctx_correlation_id ctx) start RCA_ENRICHED_SOURCE_ID None payload (ctx_now ctx)).1 /\
    get payload "workspace_id" = VStr ws /\ get payload "cluster_id" = VStr cluster.
Proof.
  intros (evt' & s1 & _ & Hup & -> & _)%cluster_evidence_handled.
  exists (ce_workspace_id evt'), (ce_cluster_id evt'), (event_time evt' ctx), (evidence_body (built_evidence environ evt' ctx)).
  split; [|done]. unfold upsert_rca_enriched_evidence_window in Hup. unfold enriched_key in Hup.
  destruct (EvidenceIntake.upsert_enriched_row _ _ _ _ _ _ _ _ _ _) as [t saved]. by injection Hup as <- _.
Qed.

Lemma built_logs evt ctx : Forall (fun v => is_mapping v = true) (logs (built_evidence environ evt ctx)).
Proof. apply Forall_fmap, Forall_true. done. Qed.

(** C15: Evidence is built within its workspace.  Two databases that agree on the
    windows, changes and pull requests of a workspace give the same enriched
    event; what is built carries the tenant of the event that was received,
    and no window of another workspace is touched. *)
Theorem evidence_is_built_within_its_workspace s1 s2 evt ctx :
  ce_workspace_id evt <> "" -> agree (ce_workspace_id evt) s1 s2 ->
  enriched_event s1 evt ctx = enriched_event s2 evt ctx /\
  forall s' body, on_cluster_evidence environ s1 evt ctx = Ok (s', body) ->
    workspace_id (eb_evidence body) = ce_workspace_id evt /\ cluster_id (eb_evidence body) = ce_cluster_id evt /\
    forall k w, EvidenceIntake.w_workspace_id w <> ce_workspace_id evt -> windows s' !! k = Some w <-> windows s1 !! k = Some w.
Proof.
  intros Hws Ha. split; [by apply agree_enriched|]. intros s' body (evt' & s3 & He & Hup & -> & Hb)%cluster_evidence_handled.
  apply enriched_tenant in He as [Ew Ec]; [|done]. apply compact_body in Hb as (_ & _ & Bw & Bc & _).
  split; [by rewrite Bw|]. split; [by rewrite Bc|]. intros k w Hw. cbn [windows save_evidence].
  eapply upsert_elsewhere; [exact Hup|]. by rewrite Ew.
Qed.

(** C17: The reference that the worker emits is good: the worker of incidents that
    receives it reads from the database exactly the evidence that was built,
    which is also what the enriched window shows. *)
Theorem incidents_read_what_was_built s evt ctx s' body registration event_id created_at now :
  ctx_correlation_id ctx <> "" -> on_cluster_evidence environ s evt ctx = Ok (s', body) ->
  exists evt', enriched_event s evt ctx = Ok evt' /\
    IncidentDetection.hydrate_evidence_built (readers_of s' registration)
      (delivery body (ctx_correlation_id ctx) event_id created_at now) = Ok (built_evidence environ evt' ctx) /\
    EvidenceIntake.w_payload <$> windows s' !! enriched_key evt' ctx = Some (evidence_body (built_evidence environ evt' ctx)).
Proof.
  intros Hc (evt' & s1 & He & Hup & -> & Hb)%cluster_evidence_handled. exists evt'. split; [done|].
  apply compact_body in Hb as (Bc & Bk & Bw & _ & Hin). split.
  - unfold IncidentDetection.hydrate_evidence_built, delivery. cbn [IncidentDetection.c_evidence]. rewrite Hin.
    cbn [IncidentDetection.c_correlation_id IncidentDetection.c_kind IncidentDetection.ctx_correlation_id readers_of
         IncidentDetection.get_evidence_payload]. rewrite Bc, Bk, Bw.
    destruct (ctx_correlation_id ctx) as [|x corr] eqn:Ecorr; [done|]. cbn [IncidentDetection.or_else PIPELINE_KIND].
    unfold get_evidence_payload, save_evidence. cbn [evidence keep sv_workspace_id sv_correlation_id sv_kind].
    change (workspace_id (built_evidence environ evt' ctx)) with (ce_workspace_id evt'). rewrite !str_eqb_refl. cbn [andb head fmap option_fmap option_map sv_payload].
    destruct (evidence_survives _ (built_logs evt' ctx)) as (o & -> & Ho). cbn [mbind res_bind]. by rewrite Ho.
  - cbn [windows save_evidence]. unfold upsert_rca_enriched_evidence_window, EvidenceIntake.upsert_enriched_row in Hup.
    destruct (windows s !! enriched_key evt' ctx) as [w|]; [destruct (_ && _); [|done]|]; injection Hup as <-; cbn;
      by rewrite lookup_insert, decide_True.
Qed.

End handlers.

(** ** An alert and the window of an agent *)
Module Sample.
#[local] Existing Instance Demo.plain_repr.
#[local] Existing Instance coded_iso.

Definition noon : Z := 1700000000 * SECOND.
Definition at_second (n : Z) : string := isoformat (noon + n * SECOND).
Definition no_environ (k : string) : option string := None.

Definition resource : dict := [("kind", VStr "Deployment"); ("name", VStr "api"); ("namespace", VStr "shop")].
Definition sli_labels : dict :=
  [("namespace", VStr "shop"); ("resource_kind", VStr "deployment"); ("resource_name", VStr "api"); ("service", VStr "api");
   ("sli", VStr "availability"); ("symptom", VStr "HighErrorRate")].
Definition alert : dict :=
  [("status", VStr "firing");
   ("labels", VDict [("alertname", VStr "KyroSliFailureRatioHigh"); ("kyro_namespace", VStr "shop");
      ("kyro_resource_kind", VStr "Deployment"); ("kyro_resource_name", VStr "api"); ("kyro_service", VStr "api");
      ("kyro_sli", VStr "availability"); ("kyro_symptom", VStr "HighErrorRate")])].

Definition alert_event : ClusterEvidenceReceivedBody :=
  {| ce_cluster_id := "c1"; ce_kubernetes := [("resource", VDict resource); ("symptom", VStr "HighErrorRate")];
     ce_metrics := [("alertmanager", VDict [("alerts", VList [VDict alert])])]; ce_logs := []; ce_traces := [];
     ce_workspace_id := "w1"; ce_agent_id := None; ce_source_id := Some ALERTMANAGER_SOURCE_ID;
     ce_window_start := Some (at_second 0); ce_evidence_key := Some "alert-key"; ce_collection_status := []; ce_metadata := [] |}.

(** A window of an agent that starts [n] seconds after noon. *)
Definition agent_window (ws : string) (n : Z) : EvidenceIntake.EvidenceWindow :=
  {| EvidenceIntake.w_workspace_id := ws; EvidenceIntake.w_cluster_id := "c1"; EvidenceIntake.w_source_id := "cluster-snapshot";
     EvidenceIntake.w_window_start := at_second n; EvidenceIntake.w_agent_id := Some "a1"; EvidenceIntake.w_event_id := "e1";
     EvidenceIntake.w_correlation_id := "x1";
     EvidenceIntake.w_payload :=
       [("workspace_id", VStr ws); ("cluster_id", VStr "c1"); ("window_start", VStr (at_second n));
        ("metrics", VDict [("results", VDict [("kyro_sli_failure_ratio", VDict [("samples", VList [VDict [("metric", VDict sli_labels)]])])])]);
        ("logs", VList [VDict [("line", VStr "connection refused")]])];
     EvidenceIntake.w_created_at := noon + n * SECOND; EvidenceIntake.w_updated_at := noon + n * SECOND |}.

Definition rollout : WorkloadChange :=
  {| wc_workspace_id := "w1"; wc_cluster_id := "c1"; wc_namespace := "shop"; wc_resource_kind := "deployment"; wc_resource_name := "api";
     wc_repository_id := "r1"; wc_binding_id := "b1"; wc_manifest_path := "api.yaml"; wc_repo_ref := "org/shop"; wc_commit_sha := "abc";
     wc_workflow_run_id := "run1"; wc_image_before := Some "api:1"; wc_image_after := Some "api:2"; wc_diff_details := [];
     wc_changed_at := noon - 60 * SECOND |}.

Definition s1 : db :=
  {| windows := {["near" := agent_window "w1" (-30); "far" := agent_window "w1" (-90)]}; evidence := [];
     workload_changes := {["ch1" := rollout]}; workflow_pr_references := ∅ |}.
Definition ctx : context := {| ctx_correlation_id := "corr"; ctx_created_at := at_second 5; ctx_now := noon + 5 * SECOND |}.

Definition value {A} (o : res A) (d : A) : A := match o with Ok a => a | Err _ => d end.
Lemma value_ok {A} (o : res A) d : is_ok o = true -> o = Ok (value o d).
Proof. by destruct o. Qed.

Definition joined_event : ClusterEvidenceReceivedBody := value (attach_aligned_cluster_evidence s1 alert_event) alert_event.

Lemma joined_ok : attach_aligned_cluster_evidence s1 alert_event = Ok joined_event.
Proof. apply value_ok. vm_compute. reflexivity. Qed.

Lemma joined_window_is_the_only_nearest_witness :
  exists k w, windows s1 !! k = Some w /\ same_subject alert_event (EvidenceIntake.w_payload w) = true /\
    joined alert_event (EvidenceIntake.w_payload w) (row_key (k, w)) = Ok joined_event.
Proof.
  destruct (joined_window_is_the_only_nearest s1 alert_event joined_event joined_ok)
    as [E|(start & k & w & t & u & _ & [Hw _] & Hs & _ & _ & _ & _ & Hj & _)].
  - apply (f_equal (fun e => length (ce_logs e))) in E. vm_compute in E. discriminate E.
  - exists k, w. split_and!; assumption.
Defined.

Definition with_gitops : ClusterEvidenceReceivedBody := value (attach_gitops_change_context s1 alert_event ctx) alert_event.

Lemma gitops_ok : attach_gitops_change_context s1 alert_event ctx = Ok with_gitops.
Proof. apply value_ok. vm_compute. reflexivity. Qed.

Lemma gitops_identity_is_the_servers_witness :
  exists e c, workload_changes s1 !! e = Some c /\
    get (mapping (get (ce_metadata with_gitops) "change_context")) "gitops" = VDict (gitops_context_payload (change_row s1 (e, c))).
Proof.
  destruct (gitops_identity_is_the_servers s1 alert_event ctx with_gitops gitops_ok)
    as [E|(e & c & wall & offset & _ & Hl & _ & _ & _ & Hg & _)].
  - apply (f_equal (fun e => length (ce_metadata e))) in E. vm_compute in E. discriminate E.
  - exists e, c. split; assumption.
Defined.

(** Another workspace has evidence of its own. *)
Definition s2 : db := with_windows s1 (<["other" := agent_window "w2" (-10)]> (windows s1)).

Lemma s1_s2_agree : agree "w1" s1 s2.
Proof.
  split; [|done..]. intros k w Hw. cbn [s2 with_windows windows]. rewrite lookup_insert_Some. split.
  - intros Hk. right. split; [|done]. intros <-. vm_compute in Hk. discriminate Hk.
  - intros [[_ <-]|[_ Hk]]; [|done]. vm_compute in Hw. discriminate Hw.
Qed.

Lemma evidence_is_built_within_its_workspace_witness : enriched_event s1 alert_event ctx = enriched_event s2 alert_event ctx.
Proof. apply (evidence_is_built_within_its_workspace no_environ s1 s2 alert_event ctx); [discriminate|exact s1_s2_agree]. Defined.

Definition handled_event : res (db * EvidenceBuiltBody) := on_cluster_evidence no_environ s1 alert_event ctx.
Definition no_body : EvidenceBuiltBody :=
  {| eb_evidence := {| cluster_id := ""; kubernetes := []; metrics := []; logs := []; traces := []; object_ref := ""; metadata := [];
                       workspace_id := "" |}; eb_correlation_id := ""; eb_kind := ""; eb_payload_size := 0; eb_summary := [] |}.
Definition after : db := (value handled_event (s1, no_body)).1.
Definition body : EvidenceBuiltBody := (value handled_event (s1, no_body)).2.

Lemma handled_ok : handled_event = Ok (after, body).
Proof.
  assert (is_ok handled_event = true) as Hok by (vm_compute; reflexivity). unfold after, body.
  destruct handled_event as [[s b]|]; [done|discriminate Hok].
Qed.

Lemma incidents_read_what_was_built_witness :
  exists e, IncidentDetection.hydrate_evidence_built (readers_of after (fun _ _ => None)) (delivery body "corr" "e2" (at_second 6) 0) = Ok e.
Proof.
  destruct (incidents_read_what_was_built no_environ s1 alert_event ctx after body (fun _ _ => None) "e2" (at_second 6) 0
              ltac:(discriminate) handled_ok) as (evt' & _ & Hh & _).
  eexists. exact Hh.
Defined.
End Sample.
End EvidenceWorker.
