(* ===== verification/TimelineModel.v ===== *)
(** * Timeline events

    [src/src/packages/contracts/timeline/models.py] and
    [src/src/packages/contracts/parity.py]: the events of the timeline with
    their subjects, the checks of the models, and the JSON form of a subject,
    which the ledger stores and reads back.  An aware datetime is its instant;
    the scope of an event names no namespaces. *)
From S2P Require Import Prelude PyStr PyFloat PyVal.

Module TimelineModel.

(** ** Data *)

Record ResourceRef := {
  rr_api_group : string;
  rr_version : string;
  rr_kind : string;
  rr_namespace : option string;
  rr_name : string;
  rr_uid : string;
}.

#[global] Instance ResourceRef_eq_dec : EqDecision ResourceRef.
Proof. solve_decision. Defined.

Inductive TimelineSubject :=
  | TimelineResourceSubject (resource : ResourceRef)
  | TimelineInventoryLocatorSubject (inventory_key api_group version resource_kind : string)
      (namespace : option string) (name : string)
  | TimelineIncidentSubject (incident_id : string) (correlation_id : option string)
  | TimelineApplicationWorkflowSubject (application_id binding_id workflow_run_id : string).

Record TimelineEvent := {
  event_id : string;
  source : string;
  source_key : string;
  native_id : string;
  activity : string;
  occurred_at : Z;
  scope_workspace_id : string;
  scope_cluster_id : string;
  scope_freshness : string;
  subject : TimelineSubject;
  resource : option ResourceRef;
  event_type : string;
  severity : string;
  title : string;
  owner : option ResourceRef;
  metadata : dict;
}.

Record ClusterScope := { sc_workspace_id : string; sc_cluster_id : string; sc_namespaces : list string }.

#[global] Instance ClusterScope_eq_dec : EqDecision ClusterScope.
Proof. solve_decision. Defined.

Record TimelineWindow := { from_ms : Z; to_ms : Z }.

Record TimelineFilters := {
  tf_activity : list string;
  tf_kinds : list string;
  tf_include_deleted : bool;
  tf_pinned_only : bool;
  tf_query : string;
}.

Record TimelineQuery := {
  q_scopes : list ClusterScope;
  q_window : TimelineWindow;
  q_filters : TimelineFilters;
  q_mode : string;
}.

(** ** Literals *)

Definition SOURCES : list string := ["inventory"; "incident"; "application_workflow"; "kubernetes_event"; "gitops"].
Definition ACTIVITIES : list string := ["change"; "k8s_event"; "warning"; "unhealthy"].
Definition EVENT_TYPES : list string := ["add"; "update"; "delete"; "k8s_event"; "incident"; "deployment"; "gitops_change"].
Definition SEVERITIES : list string := ["info"; "warning"; "critical"; "unknown"].
Definition FRESHNESS : list string := ["live"; "stale"; "partial"; "disconnected"].

(** ** The checks of the models *)

(** [Field(min_length=lo, max_length=hi)] *)
Definition sized (lo hi : nat) (s : string) : bool := (lo <=? str_len s)%nat && (str_len s <=? hi)%nat.
Definition opt_all (p : string -> bool) (o : option string) : bool := match o with Some s => p s | None => true end.

Definition valid_resource (r : ResourceRef) : bool := nonempty (rr_kind r) && nonempty (rr_name r) && nonempty (rr_uid r).

Definition valid_subject (s : TimelineSubject) : bool :=
  match s with
  | TimelineResourceSubject r => valid_resource r
  | TimelineInventoryLocatorSubject key _ _ kind namespace name =>
      sized 1 512 key && sized 1 253 kind && opt_all (sized 0 253) namespace && sized 1 253 name
  | TimelineIncidentSubject incident correlation => sized 1 512 incident && opt_all (sized 1 512) correlation
  | TimelineApplicationWorkflowSubject application binding run => sized 1 512 application && sized 1 512 binding && sized 1 512 run
  end.

Definition opt_resource_ok (o : option ResourceRef) : bool := match o with Some r => valid_resource r | None => true end.

(** [validate_exact_resource_relation] *)
Definition exact_resource_relation (e : TimelineEvent) : bool :=
  (if bool_decide (source e ∈ ["application_workflow"; "gitops"])
   then match subject e with TimelineApplicationWorkflowSubject _ _ _ => true | _ => false end else true)
  && match subject e with
     | TimelineResourceSubject r => bool_decide (resource e = Some r)
     | TimelineInventoryLocatorSubject _ _ _ _ _ _ => bool_decide (resource e = None)
     | _ => true
     end.

Definition valid_event (e : TimelineEvent) : bool :=
  sized 1 512 (event_id e) && bool_decide (source e ∈ SOURCES) && sized 1 1024 (source_key e) && sized 1 1024 (native_id e)
  && bool_decide (activity e ∈ ACTIVITIES) && nonempty (scope_workspace_id e) && nonempty (scope_cluster_id e)
  && bool_decide (scope_freshness e ∈ FRESHNESS) && valid_subject (subject e) && opt_resource_ok (resource e)
  && bool_decide (event_type e ∈ EVENT_TYPES) && bool_decide (severity e ∈ SEVERITIES) && sized 1 1000 (title e)
  && opt_resource_ok (owner e) && exact_resource_relation e.

Definition validated (e : TimelineEvent) : res TimelineEvent := _ ← raise_if (negb (valid_event e)) ValueError; Ok e.

Lemma validated_Ok e e' : validated e = Ok e' <-> e' = e /\ valid_event e = true.
Proof. unfold validated. destruct (valid_event e); cbn; [|by split; [|intros [_ ?]]]. split; [by intros [= ->]|by intros [-> _]]. Qed.

(** ** The JSON form of a subject *)

Definition opt_text (o : option string) : pyval := match o with Some s => VStr s | None => VNone end.

(** [resource.model_dump(mode="json")] *)
Definition dump_resource (r : ResourceRef) : dict :=
  [("api_group", VStr (rr_api_group r)); ("version", VStr (rr_version r)); ("kind", VStr (rr_kind r));
   ("namespace", opt_text (rr_namespace r)); ("name", VStr (rr_name r)); ("uid", VStr (rr_uid r))].

(** [subject.model_dump(mode="json")] *)
Definition dump_subject (s : TimelineSubject) : dict :=
  match s with
  | TimelineResourceSubject r => [("kind", VStr "resource"); ("resource", VDict (dump_resource r))]
  | TimelineInventoryLocatorSubject key group version kind namespace name =>
      [("kind", VStr "inventory_locator"); ("inventory_key", VStr key); ("api_group", VStr group); ("version", VStr version);
       ("resource_kind", VStr kind); ("namespace", opt_text namespace); ("name", VStr name)]
  | TimelineIncidentSubject incident correlation =>
      [("kind", VStr "incident"); ("incident_id", VStr incident); ("correlation_id", opt_text correlation)]
  | TimelineApplicationWorkflowSubject application binding run =>
      [("kind", VStr "application_workflow"); ("application_id", VStr application); ("binding_id", VStr binding); ("workflow_run_id", VStr run)]
  end.

(** A model of fields: no other keys ([extra="forbid"]). *)
Definition only_keys (allowed : list string) (d : dict) : bool := forallb (fun kv => bool_decide (kv.1 ∈ allowed)) d.

Definition text_field (d : dict) (k : string) : res string := match dict_get d k with Some (VStr s) => Ok s | _ => Err ValueError end.
(** With the default [""]. *)
Definition text_or_blank (d : dict) (k : string) : res string :=
  match dict_get d k with None => Ok "" | Some (VStr s) => Ok s | _ => Err ValueError end.
(** [str | None], with the default [None]. *)
Definition nullable_field (d : dict) (k : string) : res (option string) :=
  match dict_get d k with None | Some VNone => Ok None | Some (VStr s) => Ok (Some s) | _ => Err ValueError end.

Definition load_resource (v : pyval) : res ResourceRef :=
  match v with
  | VDict d =>
      group ← text_or_blank d "api_group"; version ← text_or_blank d "version"; kind ← text_field d "kind";
      namespace ← nullable_field d "namespace"; name ← text_field d "name"; uid ← text_field d "uid";
      let r := {| rr_api_group := group; rr_version := version; rr_kind := kind; rr_namespace := namespace; rr_name := name; rr_uid := uid |} in
      _ ← raise_if (negb (only_keys ["api_group"; "version"; "kind"; "namespace"; "name"; "uid"] d && valid_resource r)) ValueError;
      Ok r
  | _ => Err ValueError
  end.

Definition load_opt_resource (o : option pyval) : res (option ResourceRef) :=
  match o with None => Ok None | Some v => r ← load_resource v; Ok (Some r) end.

(** The union discriminated by [kind]. *)
Definition load_subject (v : pyval) : res TimelineSubject :=
  match v with
  | VDict d =>
      kind ← text_field d "kind";
      let checked keys (s : TimelineSubject) :=
        _ ← raise_if (negb (only_keys ("kind" :: keys) d && valid_subject s)) ValueError; Ok s in
      if str_eqb kind "resource" then
        r ← load_resource (get d "resource"); checked ["resource"] (TimelineResourceSubject r)
      else if str_eqb kind "inventory_locator" then
        key ← text_field d "inventory_key"; group ← text_or_blank d "api_group"; version ← text_or_blank d "version";
        rkind ← text_field d "resource_kind"; namespace ← nullable_field d "namespace"; name ← text_field d "name";
        checked ["inventory_key"; "api_group"; "version"; "resource_kind"; "namespace"; "name"]
          (TimelineInventoryLocatorSubject key group version rkind namespace name)
      else if str_eqb kind "incident" then
        incident ← text_field d "incident_id"; correlation ← nullable_field d "correlation_id";
        checked ["incident_id"; "correlation_id"] (TimelineIncidentSubject incident correlation)
      else if str_eqb kind "application_workflow" then
        application ← text_field d "application_id"; binding ← text_field d "binding_id"; run ← text_field d "workflow_run_id";
        checked ["application_id"; "binding_id"; "workflow_run_id"] (TimelineApplicationWorkflowSubject application binding run)
      else Err ValueError
  | _ => Err ValueError
  end.

Lemma load_dump_resource r : valid_resource r = true -> load_resource (VDict (dump_resource r)) = Ok r.
Proof. destruct r as [g v [|k] [n|] [|m] [|u]]; intros Hr; try discriminate Hr; reflexivity. Qed.

Lemma load_dump_subject s : valid_subject s = true -> load_subject (VDict (dump_subject s)) = Ok s.
Proof.
  intros Hs. destruct s as [r|key g v k [n|] m|i [c|]|a b w]; cbv -[valid_subject load_resource dump_resource]; try by rewrite Hs.
  by rewrite load_dump_resource, Hs.
Qed.
End TimelineModel.
