(* ===== verification/KubernetesEvents.v ===== *)
(** * Kubernetes events and the gaps of their capture

    [src/src/domains/inventory/kubernetes_events.py] and
    [src/src/domains/timeline/coverage.py]: which observations of Kubernetes
    events enter the timeline, and the intervals in which their capture is
    known to have been incomplete.  An aware datetime is its instant. *)
From S2P Require Import Prelude PyStr PyFloat PyVal PyTime Libs Demo TimelineModel.

Module KubernetesEvents.
Import TimelineModel.

Definition EVENT_CAPTURE_SUMMARY_KEY : string := "kubernetes_event_capture".
Definition EVENT_FACTS_SUMMARY_KEY : string := "kubernetes_event_facts".
Definition EVENT_CAPTURE_REASON_COMPLETE : string := "complete".
Definition EVENT_CAPTURE_REASON_INVALID_FACT : string := "invalid_event_fact_contract".

(** ** Data *)

Record KubernetesEventCapture := {
  complete : bool;
  truncated : bool;
  reason : string;
  capture_observed_at : option Z;
  max_age_seconds : option Z;
  coverage : dict;
}.

Record KubernetesEventObservation := {
  uid : string;
  api_version : string;
  ob_namespace : option string;
  ob_name : string;
  ob_event_type : string;
  count : Z;
  last_occurrence_at : Z;
}.

Record KubernetesEventFactBatch := { capture : KubernetesEventCapture; observations : list KubernetesEventObservation }.

Section facts.
Context `{ReprLib} `{IsoTime}.

(** ** Reading values *)

Definition normalized_text (v : pyval) : string := match v with VNone => "" | v => strip (py_str v) end.

Definition nullable_text (v : pyval) : option string :=
  let t := normalized_text v in if is_empty t then None else Some t.

Definition positive_int (v : pyval) : option Z :=
  match v with
  | VInt z => if 1 <=? z then Some z else None
  | VStr s => match int_of_str s with Some z => if 1 <=? z then Some z else None | None => None end
  | _ => None
  end.

Definition exact_nonnegative_int (v : pyval) : option Z :=
  match v with VInt z => if 0 <=? z then Some z else None | _ => None end.

Definition parse_timestamp (v : pyval) : option Z :=
  match v with
  | VStr s =>
      if is_empty (strip s) then None
      else (fun m => m_wall m - default 0 (m_offset m)) <$> fromisoformat (replace_char "Z" "+00:00" s)
  | _ => None
  end.

(** [text.replace("+00:00", "Z")] on a text in UTC: the suffix is cut. *)
Definition zulu (text : string) : string :=
  if ends_with "+00:00" text then str_take (str_len text - 6) text +:+ "Z" else text.

Definition timestamp_wire_value (t : Z) : res string := if in_years t then Ok (zulu (isoformat t)) else Err OverflowError.

(** [api_version.rsplit("/", 1)] *)
Definition split_api_version (v : string) : string * string :=
  if rfind_char "/" v <? 0 then ("", v)
  else (str_take (Z.to_nat (rfind_char "/" v)) v, str_drop (Z.to_nat (rfind_char "/" v) + 1) v).

(** ** Captures *)

Definition authoritative (c : KubernetesEventCapture) : bool :=
  complete c && negb (truncated c) && str_eqb (reason c) EVENT_CAPTURE_REASON_COMPLETE
  && bool_decide (is_Some (capture_observed_at c))
  && match max_age_seconds c with Some n => 0 <? n | None => false end
  && py_eqb (get (coverage c) "scope") (VStr "all_namespaces")
  && py_eqb (get (coverage c) "pagination") (VStr "continue") && negb (truthy (get (coverage c) "gap")).

Definition is_fresh_at (c : KubernetesEventCapture) (observed_at : Z) : bool :=
  authoritative c &&
  match capture_observed_at c, max_age_seconds c with
  | Some t, Some n =>
      let age_seconds := total_seconds (observed_at - t) in
      fleb fzero age_seconds && fleb age_seconds (nearest_float n)
  | _, _ => false
  end.

Definition with_gap (c : KubernetesEventCapture) (why : string) : KubernetesEventCapture :=
  {| complete := false; truncated := truncated c; reason := why; capture_observed_at := capture_observed_at c;
     max_age_seconds := max_age_seconds c; coverage := dict_set (coverage c) "gap" (VStr why) |}.

Definition no_capture : KubernetesEventCapture :=
  {| complete := false; truncated := false; reason := ""; capture_observed_at := None; max_age_seconds := None; coverage := [] |}.

Definition capture_of_summary (summary : dict) : KubernetesEventCapture :=
  match get summary EVENT_CAPTURE_SUMMARY_KEY with
  | VDict c =>
      match get c "complete", get c "truncated" with
      | VBool complete, VBool truncated =>
          let freshness := mapping (get c "freshness") in
          {| complete := complete; truncated := truncated; reason := normalized_text (get c "reason");
             capture_observed_at := parse_timestamp (get freshness "observed_at");
             max_age_seconds := positive_int (get freshness "max_age_seconds"); coverage := mapping (get c "coverage") |}
      | _, _ => no_capture
      end
  | _ => no_capture
  end.

(** ** Facts *)

Definition event_last_occurrence (fact : dict) : option Z :=
  match parse_timestamp (get fact "last_occurrence_at") with
  | Some t => Some t
  | None => parse_timestamp (get fact "last_timestamp")
  end.

Definition kubernetes_event_fact_observation (fact : pyval) : option KubernetesEventObservation :=
  match fact with
  | VDict fact =>
      let id := normalized_text (get fact "uid") in
      let name := normalized_text (get fact "name") in
      match positive_int (get fact "count"), event_last_occurrence fact with
      | Some n, Some t =>
          if is_empty id || is_empty name then None
          else Some {| uid := id; api_version := normalized_text (get fact "api_version");
                       ob_namespace := nullable_text (get fact "namespace"); ob_name := name;
                       ob_event_type := normalized_text (get fact "type"); count := n; last_occurrence_at := t |}
      | _, _ => None
      end
  | _ => None
  end.

(** [None]: some fact is not one. *)
Fixpoint fact_observations (facts : list pyval) : option (list KubernetesEventObservation) :=
  match facts with
  | [] => Some []
  | fact :: facts =>
      o ← kubernetes_event_fact_observation fact; rest ← fact_observations facts; Some (o :: rest)
  end.

Definition batch_of_summary (summary : dict) : KubernetesEventFactBatch :=
  let c := capture_of_summary summary in
  let invalid := {| capture := with_gap c EVENT_CAPTURE_REASON_INVALID_FACT; observations := [] |} in
  if negb (authoritative c) then {| capture := c; observations := [] |}
  else
    match get summary EVENT_FACTS_SUMMARY_KEY with
    | VList facts =>
        match fact_observations facts with
        | None => invalid
        | Some os =>
            match exact_nonnegative_int (get (coverage c) "event_count") with
            | Some n => if n =? Z.of_nat (length os) then {| capture := c; observations := os |} else invalid
            | None => invalid
            end
        end
    | _ => invalid
    end.

(** ** Timeline events *)

Definition observation_gtb (a b : KubernetesEventObservation) : bool :=
  (count b <? count a) || ((count b =? count a) && (last_occurrence_at b <? last_occurrence_at a)).

Definition newest_by_uid (by_uid : list (string * KubernetesEventObservation)) (o : KubernetesEventObservation)
    : list (string * KubernetesEventObservation) :=
  match dict_get by_uid (uid o) with
  | Some existing => if observation_gtb o existing then dict_set by_uid (uid o) o else by_uid
  | None => dict_set by_uid (uid o) o
  end.

Definition event_observations_by_uid_from_facts (os : list KubernetesEventObservation)
    : list (string * KubernetesEventObservation) :=
  fold_left newest_by_uid os [].

Definition event_observation_advanced (previous : option KubernetesEventObservation) (current : KubernetesEventObservation) : bool :=
  match previous with
  | None => true
  | Some p => (count p <? count current) || (last_occurrence_at p <? last_occurrence_at current)
  end.

Definition kubernetes_event_source_key (o : KubernetesEventObservation) : res string :=
  wire ← timestamp_wire_value (last_occurrence_at o);
  Ok (join ":" ["kubernetes_event"; uid o; str_of_int (count o); wire]).

Definition opt_int (o : option Z) : pyval := match o with Some z => VInt z | None => VNone end.

Definition kubernetes_event_timeline_metadata (o : KubernetesEventObservation) (c : KubernetesEventCapture) : res dict :=
  wire ← timestamp_wire_value (last_occurrence_at o);
  let metadata := [("count", VInt (count o)); ("last_occurrence_at", VStr wire); ("collection_complete", VBool true);
                   ("collection_truncated", VBool false)] in
  match capture_observed_at c with
  | None => Ok metadata
  | Some t =>
      observed ← timestamp_wire_value t;
      Ok (dict_update metadata [("collection_reason", VStr (reason c)); ("capture_observed_at", VStr observed);
                                ("freshness_max_age_seconds", opt_int (max_age_seconds c))])
  end.

Definition kubernetes_event_timeline_event (workspace_id cluster_id : string) (o : KubernetesEventObservation)
    (c : KubernetesEventCapture) : res TimelineEvent :=
  key ← kubernetes_event_source_key o;
  md ← kubernetes_event_timeline_metadata o c;
  let r := {| rr_api_group := (split_api_version (api_version o)).1; rr_version := (split_api_version (api_version o)).2; rr_kind := "Event";
              rr_namespace := ob_namespace o; rr_name := ob_name o; rr_uid := uid o |} in
  validated {| event_id := key; source := "kubernetes_event"; source_key := key; native_id := uid o; activity := "k8s_event";
               occurred_at := last_occurrence_at o; scope_workspace_id := workspace_id; scope_cluster_id := cluster_id;
               scope_freshness := "live"; subject := TimelineResourceSubject r; resource := Some r; event_type := "k8s_event";
               severity := if str_eqb (casefold (ob_event_type o)) "warning" then "warning" else "info";
               title := "Kubernetes event observed"; owner := None; metadata := md |}.

Definition kubernetes_event_fact_timeline_events (workspace_id cluster_id : string) (observed_at : Z)
    (previous : option KubernetesEventFactBatch) (current : KubernetesEventFactBatch) : res (list TimelineEvent) :=
  if negb (is_fresh_at (capture current) observed_at) then Ok []
  else
    let previous_by_uid :=
      match previous with
      | Some p => if authoritative (capture p) then event_observations_by_uid_from_facts (observations p) else []
      | None => []
      end in
    mapr (fun uo => kubernetes_event_timeline_event workspace_id cluster_id uo.2 (capture current))
      (keep (fun uo => event_observation_advanced (dict_get previous_by_uid uo.1) uo.2)
         (isort key_leb (event_observations_by_uid_from_facts (observations current)))).

(** ** Gaps of the capture *)

Record TimelineCoverage := { cv_scope : ClusterScope; cv_source : string; cv_from_ms : Z; cv_to_ms : Z; cv_reason : string }.

#[global] Instance TimelineCoverage_eq_dec : EqDecision TimelineCoverage.
Proof. solve_decision. Defined.

Record read_scope := { scopes : list ClusterScope; kubernetes_event_cluster_ids : list string }.

Inductive capture_state := Gap | Recovery.

Record KubernetesEventCaptureObservation := { ko_cluster_id : string; ko_observed_at : Z; ko_state : capture_state }.

(** Tuples of strings in their order. *)
Fixpoint strings_leb (a b : list string) : bool :=
  match a, b with
  | [], _ => true
  | _ :: _, [] => false
  | x :: a, y :: b => if bool_decide (x = y) then strings_leb a b else String.leb x y
  end.

Definition scope_key (s : ClusterScope) : string * (string * list string) := (sc_workspace_id s, (sc_cluster_id s, sc_namespaces s)).
Definition scope_key_leb : string * (string * list string) -> string * (string * list string) -> bool :=
  lex_leb String.leb (lex_leb String.leb strings_leb).

Definition coverage_sort_key (c : TimelineCoverage) : Z * (Z * (string * (string * list string) * (string * string))) :=
  (cv_from_ms c, (cv_to_ms c, (scope_key (cv_scope c), (cv_source c, cv_reason c)))).
Definition coverage_leb (a b : TimelineCoverage) : bool :=
  lex_leb Z.leb (lex_leb Z.leb (lex_leb scope_key_leb (lex_leb String.leb String.leb))) (coverage_sort_key a) (coverage_sort_key b).

(** [_authorized_scopes_by_cluster(read_scope).get(cluster)]; an empty list
    stands for a missing key. *)
Definition authorized_scopes (rs : read_scope) (cluster : string) : list ClusterScope :=
  isort (fun a b => scope_key_leb (scope_key a) (scope_key b))
    (keep (fun s => str_eqb (sc_cluster_id s) cluster && bool_decide (sc_cluster_id s ∈ kubernetes_event_cluster_ids rs)) (scopes rs)).

(** [int(value.timestamp() * 1_000)]; the timestamp of a datetime is finite. *)
Definition milliseconds (t : Z) : Z :=
  match int_of_float (fmul (total_seconds t) (nearest_float 1000)) with Ok z => z | Err _ => 0 end.

Definition is_explicit_gap (c : KubernetesEventCapture) : bool :=
  let gap := normalized_text (get (coverage c) "gap") in
  negb (complete c) && nonempty gap && str_eqb (reason c) gap
  && py_eqb (get (coverage c) "scope") (VStr "all_namespaces") && py_eqb (get (coverage c) "pagination") (VStr "continue").

Definition is_proven_recovery (c : KubernetesEventCapture) : bool :=
  authoritative c && bool_decide (is_Some (positive_int (get (coverage c) "page_count")))
  && bool_decide (is_Some (exact_nonnegative_int (get (coverage c) "event_count")))
  && nonempty (normalized_text (get (coverage c) "resource_version")).

Definition capture_observation (rs : read_scope) (window : TimelineWindow) (snapshot : dict)
    : option KubernetesEventCaptureObservation :=
  let cluster := normalized_text (get snapshot "cluster_id") in
  if str_eqb (normalized_text (get snapshot "status")) "ignored_stale" then None
  else if bool_decide (authorized_scopes rs cluster = []) then None
  else
    match get (mapping (get snapshot "summary")) "summary" with
    | VDict source_summary =>
        let c := capture_of_summary source_summary in
        match capture_observed_at c with
        | None => None
        | Some t =>
            if to_ms window <=? milliseconds t then None
            else if is_explicit_gap c then Some {| ko_cluster_id := cluster; ko_observed_at := t; ko_state := Gap |}
            else if is_proven_recovery c then Some {| ko_cluster_id := cluster; ko_observed_at := t; ko_state := Recovery |}
            else None
        end
    | _ => None
    end.

Definition intersects_window (from to : Z) (w : TimelineWindow) : bool := (from <? to_ms w) && (from_ms w <? to).

(** [TimelineCoverage(...)] with its validation, which raises pydantic's
    [ValidationError]. *)
Definition new_coverage (scope : ClusterScope) (from to : Z) : res TimelineCoverage :=
  _ ← raise_if (negb ((0 <=? from) && (0 <? to) && (from <? to))) ValidationError;
  Ok {| cv_scope := scope; cv_source := "kubernetes_event"; cv_from_ms := from; cv_to_ms := to; cv_reason := "collection_gap" |}.

Section projection.
Context (rs : read_scope) (window : TimelineWindow) (max_intervals : option nat).

Definition append_scope (from to : Z) (projected : list TimelineCoverage) (scope : ClusterScope) : res (list TimelineCoverage) :=
  _ ← raise_if (match max_intervals with Some n => (n <=? length projected)%nat | None => false end)
        TimelineCoverageLimitExceeded;
  c ← new_coverage scope from to;
  Ok (projected ++ [c]).

Definition append_coverage_intervals (projected : list TimelineCoverage) (cluster : string) (from to : Z)
    : res (list TimelineCoverage) :=
  foldr_res (append_scope from to) projected (authorized_scopes rs cluster).

(** A closed gap, when it touches the window. *)
Definition append_gap (projected : list TimelineCoverage) (cluster : string) (opened closed : Z) : res (list TimelineCoverage) :=
  let from := milliseconds opened in
  let to := milliseconds closed in
  if intersects_window from to window then append_coverage_intervals projected cluster from to else Ok projected.

(** *** The projection of all observations *)

Definition cluster_step (st : option Z * list TimelineCoverage) (o : KubernetesEventCaptureObservation)
    : res (option Z * list TimelineCoverage) :=
  let '(opened, projected) := st in
  match ko_state o with
  | Gap => Ok (Some (default (ko_observed_at o) opened), projected)
  | Recovery =>
      match opened with
      | None => Ok (opened, projected)
      | Some t =>
          if ko_observed_at o <=? t then Ok (opened, projected)
          else projected ← append_gap projected (ko_cluster_id o) t (ko_observed_at o); Ok (None, projected)
      end
  end.

Definition of_cluster (c : string) (o : KubernetesEventCaptureObservation) : bool := str_eqb (ko_cluster_id o) c.
Definition earlier (a b : KubernetesEventCaptureObservation) : bool := ko_observed_at a <=? ko_observed_at b.

Definition project_cluster (os : list KubernetesEventCaptureObservation) (projected : list TimelineCoverage) (c : string)
    : res (list TimelineCoverage) :=
  st ← foldr_res cluster_step (None, projected) (isort earlier (keep (of_cluster c) os));
  Ok st.2.

Definition project_all (os : list KubernetesEventCaptureObservation) : res (list TimelineCoverage) :=
  projected ← foldr_res (project_cluster os) [] (unique_first (ko_cluster_id <$> os));
  Ok (isort coverage_leb projected).

(** *** The projection of an ordered cursor *)

Record cursor := { opened_by_cluster : gmap string Z; last_observed_by_cluster : gmap string Z; projected_so_far : list TimelineCoverage }.

Definition ordered_step (st : cursor) (o : KubernetesEventCaptureObservation) : res cursor :=
  let c := ko_cluster_id o in
  let t := ko_observed_at o in
  _ ← raise_if (match last_observed_by_cluster st !! c with Some p => t <? p | None => false end) ValueError;
  let last := <[c := t]> (last_observed_by_cluster st) in
  match ko_state o with
  | Gap =>
      Ok {| opened_by_cluster := match opened_by_cluster st !! c with Some _ => opened_by_cluster st | None => <[c := t]> (opened_by_cluster st) end;
            last_observed_by_cluster := last; projected_so_far := projected_so_far st |}
  | Recovery =>
      match opened_by_cluster st !! c with
      | None => Ok {| opened_by_cluster := opened_by_cluster st; last_observed_by_cluster := last; projected_so_far := projected_so_far st |}
      | Some a =>
          if t <=? a
          then Ok {| opened_by_cluster := opened_by_cluster st; last_observed_by_cluster := last; projected_so_far := projected_so_far st |}
          else
            projected ← append_gap (projected_so_far st) c a t;
            Ok {| opened_by_cluster := delete c (opened_by_cluster st); last_observed_by_cluster := last; projected_so_far := projected |}
      end
  end.

Definition project_ordered (os : list KubernetesEventCaptureObservation) : res (list TimelineCoverage) :=
  st ← foldr_res ordered_step {| opened_by_cluster := ∅; last_observed_by_cluster := ∅; projected_so_far := [] |} os;
  Ok (isort coverage_leb (projected_so_far st)).

Definition project_kubernetes_event_capture_coverage (snapshots : list dict) (snapshots_ordered : bool) : res (list TimelineCoverage) :=
  let os := omap (capture_observation rs window) snapshots in
  if snapshots_ordered then project_ordered os else project_all os.
End projection.

(** [sorted] over a dictionary by [_coverage_key], which identifies an item. *)
Definition sorted_coverage (items : list TimelineCoverage) : list TimelineCoverage := isort coverage_leb (unique_first items).

Definition authorized_kubernetes_event_coverage (rs : read_scope) (window : TimelineWindow) (items : list TimelineCoverage)
    : list TimelineCoverage :=
  sorted_coverage
    (keep (fun c => str_eqb (cv_source c) "kubernetes_event" && str_eqb (cv_reason c) "collection_gap"
                    && bool_decide (cv_scope c ∈ authorized_scopes rs (sc_cluster_id (cv_scope c)))
                    && intersects_window (cv_from_ms c) (cv_to_ms c) window) items).

Definition coverage_additions (previous current : list TimelineCoverage) : list TimelineCoverage :=
  sorted_coverage (keep (fun c => negb (bool_decide (c ∈ previous))) current).

(** The filters of a query. *)
Definition kubernetes_event_coverage_visible_for_query (f : TimelineFilters) : bool :=
  if negb (bool_decide (tf_activity f = [])) && negb (bool_decide ("k8s_event" ∈ tf_activity f)) then false
  else if negb (bool_decide (tf_kinds f = [])) && negb (bool_decide ("Event" ∈ tf_kinds f)) then false
  else is_empty (strip (tf_query f)).

(** ** The order of coverage *)

Lemma strings_leb_total a b : strings_leb a b = true \/ strings_leb b a = true.
Proof.
  revert b. induction a as [|x a IH]; intros [|y b]; cbn; auto. rewrite (bool_decide_ext (y = x) (x = y)) by done.
  case_bool_decide; [apply IH|apply String.leb_total].
Qed.

Lemma strings_leb_antisym a b : strings_leb a b = true -> strings_leb b a = true -> a = b.
Proof.
  revert b. induction a as [|x a IH]; intros [|y b]; cbn; try done. rewrite (bool_decide_ext (y = x) (x = y)) by done.
  case_bool_decide as E; [subst; intros; f_equal; by apply IH|]. intros H1 H2. destruct E. by apply String.leb_antisym.
Qed.

Lemma strings_leb_trans a b c : strings_leb a b = true -> strings_leb b c = true -> strings_leb a c = true.
Proof.
  revert b c. induction a as [|x a IH]; intros [|y b] [|z c]; cbn; try done.
  destruct (decide (x = y)) as [->|Hxy]; [rewrite (bool_decide_true (y = y)) by done|rewrite (bool_decide_false (x = y)) by done].
  - case_bool_decide; [apply IH|done].
  - case_bool_decide as E; [subst; by rewrite bool_decide_false|]. intros H1 H2.
    rewrite bool_decide_false; [by eapply str_leb_trans|]. intros ->. by apply Hxy, String.leb_antisym.
Qed.

Lemma coverage_leb_total a b : coverage_leb a b = true \/ coverage_leb b a = true.
Proof.
  unfold coverage_leb, scope_key_leb. generalize (coverage_sort_key a) (coverage_sort_key b).
  repeat apply lex_total; try apply String.leb_total; try apply strings_leb_total; intros; rewrite !Z.leb_le; lia.
Qed.

Lemma coverage_leb_antisym a b : coverage_leb a b = true -> coverage_leb b a = true -> a = b.
Proof.
  intros H1 H2. assert (coverage_sort_key a = coverage_sort_key b) as E.
  { revert H1 H2. unfold coverage_leb, scope_key_leb. generalize (coverage_sort_key a) (coverage_sort_key b).
    repeat apply lex_antisym; try apply String.leb_antisym; try apply strings_leb_antisym; intros ??; rewrite !Z.leb_le; lia. }
  destruct a as [[] ? ? ? ?], b as [[] ? ? ? ?]. unfold coverage_sort_key, scope_key in E. cbn in E. by simplify_eq.
Qed.

Lemma coverage_leb_trans a b c : coverage_leb a b = true -> coverage_leb b c = true -> coverage_leb a c = true.
Proof.
  unfold coverage_leb, scope_key_leb. generalize (coverage_sort_key a) (coverage_sort_key b) (coverage_sort_key c).
  assert (forall a b, (a <=? b) = true -> (b <=? a) = true -> a = b) by (intros ??; rewrite !Z.leb_le; lia).
  assert (forall a b c, (a <=? b) = true -> (b <=? c) = true -> (a <=? c) = true) by (intros ???; rewrite !Z.leb_le; lia).
  repeat first [apply lex_trans | apply lex_antisym]; eauto using str_leb_trans, String.leb_antisym, strings_leb_trans, strings_leb_antisym.
Qed.

Lemma isort_coverage_perm l k : l ≡ₚ k -> isort coverage_leb l = isort coverage_leb k.
Proof.
  intros Hp. apply (StronglySorted_unique_strong (fun a b => coverage_leb a b = true)).
  - intros; by apply coverage_leb_antisym.
  - apply isort_sorted; [apply coverage_leb_total|apply coverage_leb_trans].
  - apply isort_sorted; [apply coverage_leb_total|apply coverage_leb_trans].
  - by rewrite !isort_perm.
Qed.

(** ** What both projections append *)

Section agreement.
Context (rs : read_scope) (window : TimelineWindow) (max_intervals : option nat).

Notation gap := (string * (Z * Z))%type.

Definition append_gaps (projected : list TimelineCoverage) (gaps : list gap) : res (list TimelineCoverage) :=
  foldr_res (fun p (g : gap) => append_gap rs window max_intervals p g.1 g.2.1 g.2.2) projected gaps.

(** The coverage of a gap, before it is checked. *)
Definition gap_coverage (g : gap) : list TimelineCoverage :=
  let from := milliseconds g.2.1 in
  let to := milliseconds g.2.2 in
  if intersects_window from to window
  then (fun s => {| cv_scope := s; cv_source := "kubernetes_event"; cv_from_ms := from; cv_to_ms := to; cv_reason := "collection_gap" |})
         <$> authorized_scopes rs g.1
  else [].

Definition valid_coverage (c : TimelineCoverage) : bool := (0 <=? cv_from_ms c) && (0 <? cv_to_ms c) && (cv_from_ms c <? cv_to_ms c).

Definition fits (n : nat) : bool := match max_intervals with Some m => (n <=? m)%nat | None => true end.

(** Nothing is appended past the limit, and nothing without width. *)
Definition appended (projected cs : list TimelineCoverage) : option (list TimelineCoverage) :=
  if forallb valid_coverage cs && (bool_decide (cs = []) || fits (length projected + length cs)) then Some (projected ++ cs) else None.

Lemma returned_bind {A B} (m : res A) (f : A -> res B) : returned (m ≫= f) = returned m ≫= (fun a => returned (f a)).
Proof. by destruct m. Qed.

Lemma appended_nil projected : appended projected [] = Some projected.
Proof. unfold appended. cbn. by rewrite app_nil_r. Qed.

Lemma fits_le n m : (n <= m)%nat -> fits m = true -> fits n = true.
Proof. unfold fits. destruct max_intervals; [|done]. rewrite !Nat.leb_le. lia. Qed.

Lemma appended_app projected cs ds : (appended projected cs ≫= fun p => appended p ds) = appended projected (cs ++ ds).
Proof.
  destruct cs as [|c cs]; [by rewrite appended_nil|]. destruct ds as [|d ds].
  { rewrite app_nil_r. destruct (appended projected (c :: cs)) as [p|] eqn:E; cbn [mbind option_bind]; [by rewrite appended_nil|done]. }
  unfold appended. rewrite forallb_app, !length_app. cbn [app length]. rewrite !bool_decide_false by done. cbn [orb].
  destruct (forallb valid_coverage (c :: cs)); cbn [andb]; [|done].
  destruct (fits (length projected + S (length cs))) eqn:F1; cbn [mbind option_bind].
  - rewrite length_app. cbn [length]. rewrite app_assoc_reverse. cbn [app].
    replace (length projected + S (length cs) + S (length ds))%nat with (length projected + (S (length cs) + S (length ds)))%nat by lia. done.
  - destruct (forallb valid_coverage (d :: ds)); cbn [andb]; [|done].
    destruct (fits (length projected + (S (length cs) + S (length ds)))) eqn:F2; [|done]. exfalso.
    apply (fits_le (length projected + S (length cs))) in F2; [congruence|lia].
Qed.

Lemma append_scope_appended from to projected s :
  returned (append_scope max_intervals from to projected s) =
  appended projected [{| cv_scope := s; cv_source := "kubernetes_event"; cv_from_ms := from; cv_to_ms := to; cv_reason := "collection_gap" |}].
Proof.
  unfold append_scope, appended, new_coverage. cbn [forallb length]. unfold valid_coverage. cbn [cv_from_ms cv_to_ms]. rewrite bool_decide_false by done.
  rewrite andb_true_r. cbn [orb]. set (ok := (0 <=? from) && (0 <? to) && (from <? to)).
  assert (match max_intervals with Some n => (n <=? length projected)%nat | None => false end = negb (fits (length projected + 1))) as ->.
  { unfold fits. destruct max_intervals; [|done]. destruct (Nat.leb_spec n (length projected)), (Nat.leb_spec (length projected + 1) n); cbn; lia. }
  by destruct (fits _), ok.
Qed.

Lemma append_gap_appended projected c a b :
  returned (append_gap rs window max_intervals projected c a b) = appended projected (gap_coverage (c, (a, b))).
Proof.
  unfold append_gap, gap_coverage, append_coverage_intervals. cbn [fst snd]. destruct (intersects_window _ _ _); [|by rewrite appended_nil].
  set (f := fun s : ClusterScope => _). generalize (authorized_scopes rs c). intros l. revert projected. induction l as [|s l IH]; intros projected; [by rewrite appended_nil|].
  cbn [foldr_res]. rewrite returned_bind, append_scope_appended. fold (f s). rewrite fmap_cons.
  assert (f s :: (f <$> l) = [f s] ++ (f <$> l)) as -> by done. rewrite <- appended_app.
  destruct (appended projected [f s]); cbn [mbind option_bind]; [apply IH|done].
Qed.

Lemma append_gaps_appended projected gaps : returned (append_gaps projected gaps) = appended projected (flat_map gap_coverage gaps).
Proof.
  revert projected. induction gaps as [|[c [a b]] gaps IH]; intros projected; [by rewrite appended_nil|]. unfold append_gaps. cbn [foldr_res flat_map fst snd].
  rewrite returned_bind, append_gap_appended, <- appended_app. destruct (appended projected _); cbn [mbind option_bind]; [apply IH|done].
Qed.

Lemma append_gaps_app projected g1 g2 : append_gaps projected (g1 ++ g2) = (p ← append_gaps projected g1; append_gaps p g2).
Proof.
  revert projected. induction g1 as [|g g1 IH]; intros projected; [done|]. unfold append_gaps. cbn [app foldr_res].
  destruct (append_gap _ _ _ _ _ _ _) as [p|e]; cbn [mbind res_bind]; [apply IH|done].
Qed.

(** The exceptions of the two: an interval past the limit, and an interval
    without width. *)
Definition append_error (e : exn) : Prop :=
  (e = TimelineCoverageLimitExceeded /\ max_intervals <> None) \/ e = ValidationError.

Lemma append_gaps_error projected gaps e : append_gaps projected gaps = Err e -> append_error e.
Proof.
  revert projected. induction gaps as [|[c [a b]] gaps IH]; intros projected; [done|]. unfold append_gaps. cbn [foldr_res fst snd].
  destruct (append_gap _ _ _ _ _ _ _) as [p|e'] eqn:E; cbn [mbind res_bind]; [apply IH|]. intros [= <-]. revert E.
  unfold append_gap, append_coverage_intervals. destruct (intersects_window _ _ _); [|done].
  generalize (authorized_scopes rs c) as l. clear IH. intros l. revert projected.
  induction l as [|s l IH]; intros projected; [done|]. cbn [foldr_res].
  destruct (append_scope _ _ _ _ _) as [p|e2] eqn:E; cbn [mbind res_bind]; [apply IH|]. intros [= <-]. revert E.
  unfold append_scope, new_coverage. destruct max_intervals as [n|] eqn:Em.
  - destruct (n <=? length projected)%nat; cbn [raise_if mbind res_bind]; [intros [= <-]; left; by rewrite Em|].
    destruct (negb _); [|done]. intros [= <-]. by right.
  - cbn [raise_if mbind res_bind]. destruct (negb _); [|done]. intros [= <-]. by right.
Qed.

(** The order of the gaps does not matter once the result is sorted. *)
Lemma append_gaps_perm g1 g2 :
  g1 ≡ₚ g2 ->
  returned (p ← append_gaps [] g1; Ok (isort coverage_leb p)) = returned (p ← append_gaps [] g2; Ok (isort coverage_leb p)).
Proof.
  intros Hp. rewrite !returned_bind, !append_gaps_appended.
  assert (flat_map gap_coverage g1 ≡ₚ flat_map gap_coverage g2) as Hc by (by apply Permutation_flat_map).
  unfold appended. cbn [length app].
  assert (forallb valid_coverage (flat_map gap_coverage g1) = forallb valid_coverage (flat_map gap_coverage g2)) as ->.
  { apply eq_bool_prop_intro. rewrite !Is_true_true, !forallb_forall. setoid_rewrite <- list_elem_of_In. by setoid_rewrite Hc. }
  rewrite (bool_decide_ext (flat_map gap_coverage g1 = []) (flat_map gap_coverage g2 = [])), Hc.
  2: { split; intros E; [rewrite E in Hc; by apply Permutation_nil_l in Hc|rewrite E in Hc; by apply Permutation_nil_r in Hc]. }
  destruct (_ && _); [|done]. cbn. f_equal. by apply isort_coverage_perm.
Qed.

(** *** The gaps that each projection finds *)

Fixpoint gaps_of (opened : option Z) (os : list KubernetesEventCaptureObservation) : list (Z * Z) :=
  match os with
  | [] => []
  | o :: os =>
      match ko_state o, opened with
      | Gap, _ => gaps_of (Some (default (ko_observed_at o) opened)) os
      | Recovery, None => gaps_of None os
      | Recovery, Some a => if ko_observed_at o <=? a then gaps_of (Some a) os else (a, ko_observed_at o) :: gaps_of None os
      end
  end.

Definition gaps_in (c : string) (os : list KubernetesEventCaptureObservation) : list gap :=
  pair c <$> gaps_of None (isort earlier (keep (of_cluster c) os)).

Lemma cluster_fold c opened projected os :
  Forall (fun o => ko_cluster_id o = c) os ->
  snd <$> foldr_res (cluster_step rs window max_intervals) (opened, projected) os = append_gaps projected (pair c <$> gaps_of opened os).
Proof.
  intros Hc. revert opened projected. induction Hc as [|o os Ho _ IH]; intros opened projected; [done|]. cbn [foldr_res cluster_step gaps_of].
  destruct (ko_state o); [apply IH|]. destruct opened as [a|]; [|apply IH]. destruct (ko_observed_at o <=? a); [apply IH|].
  rewrite fmap_cons. unfold append_gaps at 1. cbn [foldr_res fst snd]. rewrite Ho.
  destruct (append_gap rs window max_intervals projected c a (ko_observed_at o)); cbn [mbind res_bind]; [apply IH|done].
Qed.

Lemma project_cluster_gaps os projected c : project_cluster rs window max_intervals os projected c = append_gaps projected (gaps_in c os).
Proof.
  unfold project_cluster, gaps_in. rewrite <- (cluster_fold c None).
  - by destruct (foldr_res _ _ _) as [[? ?]|].
  - rewrite Forall_forall. intros o. rewrite elem_of_isort, elem_of_keep. unfold of_cluster. rewrite str_eqb_eq. tauto.
Qed.

Lemma project_all_gaps os :
  project_all rs window max_intervals os =
  (p ← append_gaps [] (flat_map (fun c => gaps_in c os) (unique_first (ko_cluster_id <$> os))); Ok (isort coverage_leb p)).
Proof.
  unfold project_all. f_equal. generalize (unique_first (ko_cluster_id <$> os)). intros cs.
  generalize (@nil TimelineCoverage). induction cs as [|c cs IH]; intros projected; [done|]. cbn [foldr_res flat_map].
  rewrite append_gaps_app, project_cluster_gaps. destruct (append_gaps projected _); cbn [mbind res_bind]; [apply IH|done].
Qed.

Fixpoint cursor_gaps (opened : gmap string Z) (os : list KubernetesEventCaptureObservation) : list gap :=
  match os with
  | [] => []
  | o :: os =>
      let c := ko_cluster_id o in
      let t := ko_observed_at o in
      match ko_state o, opened !! c with
      | Gap, Some _ => cursor_gaps opened os
      | Gap, None => cursor_gaps (<[c := t]> opened) os
      | Recovery, None => cursor_gaps opened os
      | Recovery, Some a => if t <=? a then cursor_gaps opened os else (c, (a, t)) :: cursor_gaps (delete c opened) os
      end
  end.

(** The observations of each cluster come in the order of time. *)
Definition in_order (os : list KubernetesEventCaptureObservation) : Prop :=
  forall c, StronglySorted (fun a b => earlier a b = true) (keep (of_cluster c) os).

Definition after_last (last : gmap string Z) (os : list KubernetesEventCaptureObservation) : Prop :=
  forall c p, last !! c = Some p -> Forall (fun o => p <= ko_observed_at o) (keep (of_cluster c) os).

Lemma in_order_cons o os last :
  in_order (o :: os) -> after_last last (o :: os) ->
  match last !! ko_cluster_id o with Some p => ko_observed_at o <? p | None => false end = false /\ in_order os /\
  after_last (<[ko_cluster_id o := ko_observed_at o]> last) os.
Proof.
  intros Ho Ha. assert (of_cluster (ko_cluster_id o) o = true) as Hown by apply str_eqb_refl. split_and!.
  - destruct (last !! ko_cluster_id o) as [p|] eqn:Hp; [|done]. apply Ha in Hp. cbn in Hp. rewrite Hown in Hp.
    apply Forall_cons in Hp as [Hp _]. apply Z.ltb_ge. lia.
  - intros c. specialize (Ho c). cbn in Ho. destruct (of_cluster c o); [|done]. by apply StronglySorted_inv in Ho as [Ho _].
  - intros c p. rewrite lookup_insert_Some. intros [[<- <-]|[_ Hp]].
    + specialize (Ho (ko_cluster_id o)). cbn in Ho. rewrite Hown in Ho. apply StronglySorted_inv in Ho as [_ Ho].
      eapply Forall_impl; [exact Ho|]. cbn. unfold earlier. intros x. by rewrite Z.leb_le.
    + specialize (Ha c p Hp). cbn in Ha. destruct (of_cluster c o); [|done]. by apply Forall_cons in Ha as [_ Ha].
Qed.

Lemma ordered_fold os opened last projected :
  in_order os -> after_last last os ->
  projected_so_far <$> foldr_res (ordered_step rs window max_intervals)
    {| opened_by_cluster := opened; last_observed_by_cluster := last; projected_so_far := projected |} os =
  append_gaps projected (cursor_gaps opened os).
Proof.
  revert opened last projected. induction os as [|o os IH]; intros opened last projected Ho Ha; [done|].
  destruct (in_order_cons _ _ _ Ho Ha) as (Hp & Ho' & Ha'). cbn [foldr_res cursor_gaps]. unfold ordered_step at 2.
  cbn [last_observed_by_cluster opened_by_cluster projected_so_far]. rewrite Hp. cbn [raise_if mbind res_bind].
  destruct (ko_state o), (opened !! ko_cluster_id o) as [a|]; cbn [mbind res_bind]; try (by apply IH).
  destruct (ko_observed_at o <=? a); cbn [mbind res_bind]; [by apply IH|]. unfold append_gaps at 1. cbn [foldr_res fst snd].
  destruct (append_gap rs window max_intervals projected _ a _); cbn [mbind res_bind]; [by apply IH|done].
Qed.

Lemma cursor_gaps_cluster c opened os :
  keep (fun g : gap => str_eqb g.1 c) (cursor_gaps opened os) = pair c <$> gaps_of (opened !! c) (keep (of_cluster c) os).
Proof.
  revert opened. induction os as [|o os IH]; intros opened; [done|]. cbn [cursor_gaps keep]. unfold of_cluster at 1.
  destruct (str_eqb (ko_cluster_id o) c) eqn:Ec.
  - apply str_eqb_eq in Ec. subst c. cbn [gaps_of]. destruct (ko_state o).
    + destruct (opened !! ko_cluster_id o) as [a|] eqn:Eo; rewrite IH; [by rewrite Eo|]. by rewrite lookup_insert, decide_True.
    + destruct (opened !! ko_cluster_id o) as [a|] eqn:Eo; [|by rewrite IH, Eo]. destruct (ko_observed_at o <=? a); [by rewrite IH, Eo|].
      cbn [keep fst]. rewrite str_eqb_refl, fmap_cons, IH. by rewrite lookup_delete, decide_True.
  - assert (ko_cluster_id o <> c) as Hne by (intros <-; by rewrite str_eqb_refl in Ec).
    destruct (ko_state o), (opened !! ko_cluster_id o) as [a|]; try apply IH; [rewrite IH; by rewrite lookup_insert_ne|].
    destruct (ko_observed_at o <=? a); [apply IH|]. cbn [keep fst]. rewrite Ec, IH. by rewrite lookup_delete_ne.
Qed.

Lemma cursor_gaps_known opened os g : g ∈ cursor_gaps opened os -> g.1 ∈ ko_cluster_id <$> os.
Proof.
  revert opened. induction os as [|o os IH]; intros opened; [by intros ?%elem_of_nil|]. cbn [cursor_gaps]. rewrite fmap_cons, elem_of_cons.
  destruct (ko_state o), (opened !! ko_cluster_id o) as [a|]; try (intros; right; by eapply IH).
  destruct (_ <=? a); [intros; right; by eapply IH|]. intros [->|Hg]%elem_of_cons; [by left|right; by eapply IH].
Qed.

Lemma keep_split {A} (p : A -> bool) l : l ≡ₚ keep p l ++ keep (fun x => negb (p x)) l.
Proof.
  induction l as [|x l IH]; [done|]. cbn. destruct (p x); cbn; [by constructor|]. rewrite <- Permutation_middle. by constructor.
Qed.

Lemma by_cluster (cs : list string) (l : list gap) :
  NoDup cs -> (forall g, g ∈ l -> g.1 ∈ cs) -> l ≡ₚ flat_map (fun c => keep (fun g => str_eqb g.1 c) l) cs.
Proof.
  intros Hnd. revert l. induction Hnd as [|c cs Hc _ IH]; intros l Hl; cbn [flat_map].
  - destruct l as [|g l]; [done|]. by specialize (Hl g (list_elem_of_here _ _)) as ?%elem_of_nil.
  - rewrite (keep_split (fun g => str_eqb g.1 c) l) at 1. apply Permutation_app; [done|].
    assert (flat_map (fun c => keep (fun g : gap => str_eqb g.1 c) l) cs =
            flat_map (fun c' => keep (fun g => str_eqb g.1 c') (keep (fun g => negb (str_eqb g.1 c)) l)) cs) as ->.
    { clear IH Hl. induction cs as [|c' cs IHc]; [done|]. apply not_elem_of_cons in Hc as [Hne Hc]. cbn [flat_map]. rewrite IHc by done.
      f_equal. clear -Hne. induction l as [|g l IH]; [done|]. cbn. destruct (str_eqb g.1 c) eqn:E; cbn.
      - apply str_eqb_eq in E. destruct (str_eqb g.1 c') eqn:E'; [|done]. apply str_eqb_eq in E'. congruence.
      - by rewrite IH. }
    apply IH. intros g [Hg Hn]%elem_of_keep. apply Hl in Hg. apply elem_of_cons in Hg as [Eg|Hg]; [|done].
    apply negb_true_iff in Hn. rewrite Eg in Hn. by rewrite str_eqb_refl in Hn.
Qed.

Lemma sorted_isort_id (l : list KubernetesEventCaptureObservation) :
  StronglySorted (fun a b => earlier a b = true) l -> isort earlier l = l.
Proof.
  induction 1 as [|x l _ IH Hx]; [done|]. cbn [isort]. rewrite IH. destruct l as [|y l]; [done|]. cbn [insert_sorted].
  apply Forall_cons in Hx as [-> _]. done.
Qed.

Lemma project_ordered_gaps os :
  in_order os ->
  project_ordered rs window max_intervals os = (p ← append_gaps [] (cursor_gaps ∅ os); Ok (isort coverage_leb p)).
Proof.
  intros Ho. unfold project_ordered.
  pose proof (ordered_fold os ∅ ∅ [] Ho ltac:(intros c p Hp; by rewrite lookup_empty in Hp)) as Hf.
  rewrite <- Hf. by destruct (foldr_res _ _ _).
Qed.

Lemma ordered_is_all os :
  in_order os -> returned (project_ordered rs window max_intervals os) = returned (project_all rs window max_intervals os).
Proof.
  intros Ho. rewrite project_all_gaps, project_ordered_gaps by done.
  apply append_gaps_perm. rewrite (by_cluster (unique_first (ko_cluster_id <$> os)) (cursor_gaps ∅ os)) at 1.
  - assert (forall cs, flat_map (fun c => keep (fun g : gap => str_eqb g.1 c) (cursor_gaps ∅ os)) cs = flat_map (fun c => gaps_in c os) cs) as Hcs.
    { induction cs as [|c cs IH]; [done|]. cbn [flat_map]. rewrite IH. f_equal. rewrite cursor_gaps_cluster, lookup_empty.
      unfold gaps_in. by rewrite sorted_isort_id. }
    by rewrite Hcs.
  - apply NoDup_unique_first.
  - intros g Hg. apply elem_of_unique_first. by eapply cursor_gaps_known.
Qed.

Lemma sorted_gaps_error gaps e : (p ← append_gaps [] gaps; Ok (isort coverage_leb p)) = Err e -> append_error e.
Proof. destruct (append_gaps [] gaps) as [p|e'] eqn:E; cbn [mbind res_bind]; [done|]. intros [= <-]. by eapply append_gaps_error. Qed.
End agreement.

(** ** The newest observation of each event *)

Lemma newest_spec os :
  NoDup (event_observations_by_uid_from_facts os).*1 /\
  forall u, match dict_get (event_observations_by_uid_from_facts os) u with
            | Some o => o ∈ os /\ uid o = u /\ forall o', o' ∈ os -> uid o' = u -> observation_gtb o' o = false
            | None => forall o', o' ∈ os -> uid o' <> u
            end.
Proof.
  unfold event_observations_by_uid_from_facts. induction os as [|o os [Hnd IH]] using rev_ind; [split; [constructor|by intros u o' ?%elem_of_nil]|].
  rewrite fold_left_app. cbn [fold_left]. set (m := fold_left newest_by_uid os []) in *. unfold newest_by_uid.
  assert (observation_gtb o o = false) as Hself by (unfold observation_gtb; rewrite !Z.ltb_irrefl; by rewrite andb_false_r).
  pose proof (IH (uid o)) as Ho.
  assert (forall u, u <> uid o -> match dict_get m u with
            | Some o' => o' ∈ os ++ [o] /\ uid o' = u /\ forall o'', o'' ∈ os ++ [o] -> uid o'' = u -> observation_gtb o'' o' = false
            | None => forall o', o' ∈ os ++ [o] -> uid o' <> u end) as Hother.
  { intros u Hu. specialize (IH u). destruct (dict_get m u) as [o'|].
    - destruct IH as (Hin & Eu & Hmax). split_and!; [set_solver|done|]. intros o'' [Hin'| ->%list_elem_of_singleton]%elem_of_app Eu'; [by apply Hmax|congruence].
    - intros o' [Hin'| ->%list_elem_of_singleton]%elem_of_app; [by apply IH|congruence]. }
  assert (forall d, NoDup d.*1 -> (forall u, u <> uid o -> dict_get d u = dict_get m u) -> dict_get d (uid o) = Some o ->
            (forall o', o' ∈ os -> uid o' = uid o -> observation_gtb o' o = false) ->
            NoDup d.*1 /\ forall u, match dict_get d u with
              | Some o' => o' ∈ os ++ [o] /\ uid o' = u /\ forall o'', o'' ∈ os ++ [o] -> uid o'' = u -> observation_gtb o'' o' = false
              | None => forall o', o' ∈ os ++ [o] -> uid o' <> u end) as Hput.
  { intros d Hd Hsame Hget Hmax. split; [done|]. intros u. destruct (decide (u = uid o)) as [->|Hu]; [|rewrite Hsame by done; by apply Hother].
    rewrite Hget. split_and!; [set_solver|done|]. intros o'' [Hin| ->%list_elem_of_singleton]%elem_of_app Eu; [by apply Hmax|done]. }
  destruct (dict_get m (uid o)) as [e|] eqn:Em.
  - destruct Ho as (Hin & Eu & Hmax). destruct (observation_gtb o e) eqn:Hgt.
    + apply Hput; [by apply dict_set_NoDup|intros; by apply dict_get_set_ne, not_eq_sym|apply dict_get_set_eq|].
      intros o' Hin' Eu'. specialize (Hmax o' Hin' Eu'). revert Hgt Hmax. unfold observation_gtb.
      destruct (Z.ltb_spec (count e) (count o)), (Z.eqb_spec (count e) (count o)), (Z.ltb_spec (last_occurrence_at e) (last_occurrence_at o)),
        (Z.ltb_spec (count e) (count o')), (Z.eqb_spec (count e) (count o')), (Z.ltb_spec (last_occurrence_at e) (last_occurrence_at o')),
        (Z.ltb_spec (count o) (count o')), (Z.eqb_spec (count o) (count o')), (Z.ltb_spec (last_occurrence_at o) (last_occurrence_at o')); cbn; done || lia.
    + split; [done|]. intros u. destruct (decide (u = uid o)) as [->|Hu]; [|by apply Hother]. rewrite Em.
      split_and!; [set_solver|done|]. intros o'' [Hin'| ->%list_elem_of_singleton]%elem_of_app Eu'; [by apply Hmax|done].
  - apply Hput; [by apply dict_set_NoDup|intros; by apply dict_get_set_ne, not_eq_sym|apply dict_get_set_eq|].
    intros o' Hin Eu. by destruct (Ho o' Hin).
Qed.

Lemma newest_get os u o :
  (u, o) ∈ event_observations_by_uid_from_facts os -> dict_get (event_observations_by_uid_from_facts os) u = Some o.
Proof. intros Hin. apply dict_get_NoDup; [apply newest_spec|done]. Qed.

Lemma timeline_event_of ws cl o c e :
  kubernetes_event_timeline_event ws cl o c = Ok e ->
  native_id e = uid o /\ occurred_at e = last_occurrence_at o /\ scope_workspace_id e = ws /\ scope_cluster_id e = cl /\
  kubernetes_event_source_key o = Ok (source_key e).
Proof.
  unfold kubernetes_event_timeline_event. by intros (key & Hk & (md & _ & [-> _]%validated_Ok)%bind_Ok)%bind_Ok.
Qed.

(** ** The claims *)

Lemma fresh_capture c t :
  is_fresh_at c t = true ->
  complete c = true /\ truncated c = false /\
  exists seen n, capture_observed_at c = Some seen /\ max_age_seconds c = Some n /\ 0 < n /\
    fleb fzero (total_seconds (t - seen)) = true /\ fleb (total_seconds (t - seen)) (nearest_float n) = true.
Proof.
  unfold is_fresh_at, authoritative. rewrite !andb_true_iff, negb_true_iff.
  intros [[[[[[[[Hc Ht] _] _] Hn] _] _] _] Hf]. split; [done|]. split; [done|].
  destruct (capture_observed_at c) as [seen|], (max_age_seconds c) as [n|]; try done.
  exists seen, n. apply andb_true_iff in Hf as [Hz Hm]. rewrite Z.ltb_lt in Hn. done.
Qed.

Lemma newest_order a b :
  observation_gtb a b = false ->
  count a < count b \/ (count a = count b /\ last_occurrence_at a <= last_occurrence_at b).
Proof. unfold observation_gtb. rewrite orb_false_iff, andb_false_iff, !Z.ltb_ge, Z.eqb_neq. lia. Qed.

(** C35: only new observations of Kubernetes events enter the timeline.  Each
    event that is appended comes from a capture that is complete, was not cut
    and is not older than its own age limit; it is the newest observation of
    its object in that capture, where the one with the higher count is newer
    and, of equal counts, the later one; and when the previous capture was
    complete, either it has no observation of the object or the appended one
    is ahead, in count or in time, of the newest observation of the object
    there.  It need not be ahead of the older observations of that capture in
    both. *)
Theorem timeline_events_are_new_observations ws cl t previous current es e :
  kubernetes_event_fact_timeline_events ws cl t previous current = Ok es -> e ∈ es ->
  (complete (capture current) = true /\ truncated (capture current) = false /\
   exists seen n, capture_observed_at (capture current) = Some seen /\ max_age_seconds (capture current) = Some n /\
     0 < n /\ fleb fzero (total_seconds (t - seen)) = true /\ fleb (total_seconds (t - seen)) (nearest_float n) = true) /\
  exists o, o ∈ observations current /\ native_id e = uid o /\ occurred_at e = last_occurrence_at o /\
    scope_workspace_id e = ws /\ scope_cluster_id e = cl /\
    (forall o', o' ∈ observations current -> uid o' = uid o ->
       count o' < count o \/ (count o' = count o /\ last_occurrence_at o' <= last_occurrence_at o)) /\
    forall p, previous = Some p -> authoritative (capture p) = true ->
      (forall o', o' ∈ observations p -> uid o' <> uid o) \/
      exists n, n ∈ observations p /\ uid n = uid o /\
        (forall o', o' ∈ observations p -> uid o' = uid o ->
           count o' < count n \/ (count o' = count n /\ last_occurrence_at o' <= last_occurrence_at n)) /\
        (count n < count o \/ last_occurrence_at n < last_occurrence_at o).
Proof.
  unfold kubernetes_event_fact_timeline_events.
  destruct (is_fresh_at (capture current) t) eqn:Hfresh; cbn [negb]; [|intros [= <-]%Ok_inj ?%elem_of_nil; done].
  intros Hes Hin. split; [by apply fresh_capture|].
  destruct (mapr_elem_r _ _ _ _ Hes Hin) as ([u o] & Hu & (En & Et & Ew & Ec & _)%timeline_event_of).
  apply elem_of_keep in Hu as [Hu Hadv]. rewrite elem_of_isort in Hu. apply newest_get in Hu. cbn [fst snd] in *.
  destruct (newest_spec (observations current)) as [_ Hcur]. specialize (Hcur u). rewrite Hu in Hcur. destruct Hcur as (Ho & <- & Hmax).
  exists o. split_and!; try done; [by intros; apply newest_order, Hmax|]. intros p -> Hp. rewrite Hp in Hadv.
  destruct (newest_spec (observations p)) as [_ Hprev]. specialize (Hprev (uid o)).
  destruct (dict_get (event_observations_by_uid_from_facts (observations p)) (uid o)) as [n|]; [right|by left].
  destruct Hprev as (Hn & Eu & Hmax'). exists n. split_and!; try done; [by intros; apply newest_order, Hmax'|].
  cbn in Hadv. rewrite orb_true_iff, !Z.ltb_lt in Hadv. done.
Qed.

(** A capture that is sent again is silent. *)
Lemma repeated_capture_is_silent ws cl t b :
  authoritative (capture b) = true -> kubernetes_event_fact_timeline_events ws cl t (Some b) b = Ok [].
Proof.
  intros Hb. unfold kubernetes_event_fact_timeline_events. destruct (negb _); [done|]. rewrite Hb.
  set (m := event_observations_by_uid_from_facts (observations b)).
  assert (keep (fun uo => event_observation_advanced (dict_get m uo.1) uo.2) (isort key_leb m) = []) as ->; [|done].
  apply keep_false. intros [u o] Hu. rewrite elem_of_isort in Hu. apply newest_get in Hu. cbn [fst snd]. unfold m. rewrite Hu.
  cbn. by rewrite !Z.ltb_irrefl.
Qed.

(** C34: the projection that reads an ordered cursor, once and from front to
    back, agrees with the reference projection, which groups the observations
    by cluster and sorts them: when the observations of each cluster come in
    the order of time, both return the same coverage or both raise.  What they
    raise is the limit on the number of intervals, only when there is one, or
    the validation of an interval without width; each raises the one it meets
    first, so with both in the input the two can differ.  Without a limit the
    results are the same, the exception included. *)
Theorem ordered_coverage_is_the_reference rs window max_intervals snapshots :
  in_order (omap (capture_observation rs window) snapshots) ->
  let project := project_kubernetes_event_capture_coverage rs window max_intervals snapshots in
  match project true, project false with
  | Ok ordered, Ok reference => ordered = reference
  | Err e, Err e' =>
      (e = ValidationError \/ e = TimelineCoverageLimitExceeded) /\
      (e' = ValidationError \/ e' = TimelineCoverageLimitExceeded) /\
      (max_intervals = None -> e = ValidationError /\ e' = ValidationError)
  | _, _ => False
  end.
Proof.
  intros Ho. cbn zeta. unfold project_kubernetes_event_capture_coverage.
  pose proof (ordered_is_all rs window max_intervals _ Ho) as Heq.
  pose proof (sorted_gaps_error rs window max_intervals) as Herr.
  rewrite project_ordered_gaps, project_all_gaps in Heq |- * by done.
  destruct (append_gaps _ _ _ _ (cursor_gaps _ _) ≫= _) as [x|e] eqn:E1;
    destruct (append_gaps _ _ _ _ (flat_map _ _) ≫= _) as [y|e'] eqn:E2; try done; [by injection Heq|].
  apply Herr in E1, E2. destruct E1 as [[-> Hn]| ->], E2 as [[-> Hn']| ->]; split_and!; intros; auto; done.
Qed.
End facts.

(** ** Captures of a cluster *)
Module Sample.
#[local] Existing Instance Demo.plain_repr.
#[local] Existing Instance coded_iso.

Definition noon : Z := 1700000000 * SECOND.

Definition freshness (t : Z) : pyval := VDict [("observed_at", VStr (isoformat t)); ("max_age_seconds", VInt 120)].
Definition gap_capture (t : Z) : dict :=
  [("complete", VBool false); ("truncated", VBool false); ("reason", VStr "timeout"); ("freshness", freshness t);
   ("coverage", VDict [("scope", VStr "all_namespaces"); ("pagination", VStr "continue"); ("gap", VStr "timeout")])].
Definition full_capture (t : Z) (n : Z) : dict :=
  [("complete", VBool true); ("truncated", VBool false); ("reason", VStr "complete"); ("freshness", freshness t);
   ("coverage", VDict [("scope", VStr "all_namespaces"); ("pagination", VStr "continue"); ("page_count", VInt 1);
                       ("event_count", VInt n); ("resource_version", VStr "77")])].
Definition snapshot (cluster : string) (c : dict) : dict :=
  [("cluster_id", VStr cluster); ("status", VStr "accepted"); ("summary", VDict [("summary", VDict [(EVENT_CAPTURE_SUMMARY_KEY, VDict c)])])].

Definition viewer : read_scope :=
  {| scopes := [{| sc_workspace_id := "w1"; sc_cluster_id := "c1"; sc_namespaces := [] |};
                {| sc_workspace_id := "w1"; sc_cluster_id := "c2"; sc_namespaces := [] |}];
     kubernetes_event_cluster_ids := ["c1"; "c2"] |}.
Definition day : TimelineWindow := {| from_ms := 1699990000000; to_ms := 1700010000000 |}.

Definition history : list dict :=
  [snapshot "c1" (gap_capture noon); snapshot "c2" (gap_capture (noon + 5 * SECOND));
   snapshot "c1" (full_capture (noon + 60 * SECOND) 0); snapshot "c2" (full_capture (noon + 65 * SECOND) 0)].

Lemma keep_sorted p (l : list KubernetesEventCaptureObservation) :
  StronglySorted (fun a b => earlier a b = true) l -> StronglySorted (fun a b => earlier a b = true) (keep p l).
Proof.
  induction 1 as [|x l _ IH Hx]; cbn; [constructor|]. destruct (p x); [|done]. constructor; [done|].
  rewrite Forall_forall in Hx |- *. intros y [Hy _]%elem_of_keep. by apply Hx.
Qed.

Lemma history_in_order : in_order (omap (capture_observation viewer day) history).
Proof.
  intros c. apply keep_sorted.
  assert (omap (capture_observation viewer day) history =
    [{| ko_cluster_id := "c1"; ko_observed_at := noon; ko_state := Gap |}; {| ko_cluster_id := "c2"; ko_observed_at := noon + 5 * SECOND; ko_state := Gap |};
     {| ko_cluster_id := "c1"; ko_observed_at := noon + 60 * SECOND; ko_state := Recovery |};
     {| ko_cluster_id := "c2"; ko_observed_at := noon + 65 * SECOND; ko_state := Recovery |}]) as -> by (vm_compute; reflexivity).
  repeat constructor.
Qed.

Definition projected_history (limit : option nat) (ordered : bool) : res (list TimelineCoverage) :=
  project_kubernetes_event_capture_coverage viewer day limit history ordered.

Lemma ordered_coverage_is_the_reference_witness :
  (exists cs, length cs = 2%nat /\ projected_history (Some 2%nat) true = Ok cs /\ projected_history (Some 2%nat) false = Ok cs) /\
  projected_history (Some 1%nat) false = Err TimelineCoverageLimitExceeded /\ is_ok (projected_history (Some 1%nat) true) = false.
Proof.
  pose proof (ordered_coverage_is_the_reference viewer day (Some 2%nat) history history_in_order) as H2.
  pose proof (ordered_coverage_is_the_reference viewer day (Some 1%nat) history history_in_order) as H1.
  cbn zeta in H1, H2. fold (projected_history (Some 2%nat) true) (projected_history (Some 2%nat) false) in H2.
  fold (projected_history (Some 1%nat) true) (projected_history (Some 1%nat) false) in H1. split.
  - assert (length <$> returned (projected_history (Some 2%nat) false) = Some 2%nat) as Hl by (vm_compute; reflexivity).
    revert H2 Hl. generalize (projected_history (Some 2%nat) true) (projected_history (Some 2%nat) false).
    intros [x|e] [y|e'] H2 Hl; [|destruct H2|destruct H2|discriminate Hl].
    exists y. split; [injection Hl as Hl; exact Hl|]. split; [f_equal; exact H2|reflexivity].
  - assert (projected_history (Some 1%nat) false = Err TimelineCoverageLimitExceeded) as He by (vm_compute; reflexivity).
    split; [exact He|]. rewrite He in H1. revert H1. generalize (projected_history (Some 1%nat) true).
    intros [x|e] H1; [destruct H1|reflexivity].
Defined.

Definition fact (u : string) (n : Z) (t : Z) : pyval :=
  VDict [("uid", VStr u); ("name", VStr "pull-failed"); ("count", VInt n); ("last_occurrence_at", VStr (isoformat t)); ("type", VStr "Warning")].
Definition batch (t : Z) (facts : list pyval) : KubernetesEventFactBatch :=
  batch_of_summary [(EVENT_CAPTURE_SUMMARY_KEY, VDict (full_capture t (Z.of_nat (length facts)))); (EVENT_FACTS_SUMMARY_KEY, VList facts)].
Definition before : KubernetesEventFactBatch := batch noon [fact "u1" 3 noon].
Definition now : KubernetesEventFactBatch := batch (noon + 60 * SECOND) [fact "u1" 4 (noon + 30 * SECOND)].
Definition facts_now : res (list TimelineEvent) := kubernetes_event_fact_timeline_events "w1" "c1" (noon + 61 * SECOND) (Some before) now.
Definition appended_now : list TimelineEvent := match facts_now with Ok es => es | Err _ => [] end.

Lemma facts_now_ok : facts_now = Ok appended_now /\ length appended_now = 1%nat.
Proof.
  assert (is_ok facts_now = true) as Hok by (vm_compute; reflexivity). split; [|vm_compute; reflexivity].
  unfold appended_now. by destruct facts_now.
Qed.

Lemma timeline_events_are_new_observations_witness : exists e o, e ∈ appended_now /\ o ∈ observations now /\ native_id e = uid o.
Proof.
  destruct appended_now as [|e rest] eqn:E; [destruct facts_now_ok as [_ Hl]; rewrite E in Hl; discriminate Hl|].
  assert (e ∈ appended_now) as Hin by (rewrite E; left).
  destruct (timeline_events_are_new_observations "w1" "c1" (noon + 61 * SECOND) (Some before) now appended_now e (proj1 facts_now_ok) Hin)
    as (_ & o & Ho & En & _).
  exists e, o. split; [left|]. split; assumption.
Defined.

(** A capture that recovers within the millisecond of its failure makes an
    interval without width, and the whole projection fails. *)
Lemma short_gap_breaks_the_projection :
  project_kubernetes_event_capture_coverage viewer day None
    [snapshot "c1" (gap_capture noon); snapshot "c1" (full_capture (noon + 100) 0)] false = Err ValidationError.
Proof. vm_compute. reflexivity. Qed.
End Sample.
End KubernetesEvents.
