(* ===== verification/TimelineLedger.v ===== *)
(** * The timeline ledger

    [src/src/domains/timeline/predicate.py] and the append-only ledger of
    [src/src/domains/timeline/repository.py]: which events a reader sees, as
    the guard in Python and as the SQL predicate on the stored rows, and the
    operations that append events, read them back and move the retention
    boundary.  The identities a reader may see come in; an aware datetime is
    its instant, and PostgreSQL's clock is an argument. *)
From Stdlib Require Import Btauto.
From S2P Require Import Prelude PyStr PyFloat PyVal PyTime Libs Demo TimelineModel.

Module TimelineLedger.
Import TimelineModel.

Definition MAX_TIMELINE_EVENTS : Z := 10000.

(** ** Readers *)

Record TimelineLedgerReadScope := {
  rs_workspace_id : string;
  rs_scopes : list ClusterScope;
  inventory_cluster_ids : list string;
  kubernetes_event_cluster_ids : list string;
  incident_cluster_ids : list string;
  application_workflow_ids : list string;
  gitops_application_ids : list string;
}.

(** A set of identities without blank ones or ones that coincide when trimmed. *)
Definition trimmed_ids (values : list string) : res (list string) :=
  let normalized := unique_first (strip <$> keep (fun v => nonempty (strip v)) values) in
  _ ← raise_if (negb (length normalized =? length (unique_first values))%nat) ValueError;
  Ok normalized.

Definition new_read_scope (r : TimelineLedgerReadScope) : res TimelineLedgerReadScope :=
  _ ← raise_if (is_empty (rs_workspace_id r)) ValueError;
  _ ← raise_if (bool_decide (rs_scopes r = [])) ValueError;
  _ ← raise_if (existsb (fun s => negb (str_eqb (sc_workspace_id s) (rs_workspace_id r))) (rs_scopes r)) ValueError;
  inventory ← trimmed_ids (inventory_cluster_ids r);
  events ← trimmed_ids (kubernetes_event_cluster_ids r);
  incidents ← trimmed_ids (incident_cluster_ids r);
  workflows ← trimmed_ids (application_workflow_ids r);
  gitops ← trimmed_ids (gitops_application_ids r);
  Ok {| rs_workspace_id := rs_workspace_id r; rs_scopes := rs_scopes r; inventory_cluster_ids := inventory;
        kubernetes_event_cluster_ids := events; incident_cluster_ids := incidents; application_workflow_ids := workflows;
        gitops_application_ids := gitops |}.

Record TimelineEvidenceFilters := {
  ef_activity : list string;
  ef_kinds : list string;
  ef_include_deleted : bool;
  ef_pinned_only : bool;
  ef_search : string;
}.

Record TimelineReplayIdentity := {
  ri_scopes : list ClusterScope;
  ri_window : TimelineWindow;
  ri_mode : string;
  ri_filters : TimelineEvidenceFilters;
  ri_pin_set_revision : option Z;
}.

Record TimelinePinMembership := {
  pm_revision : Z;
  pm_resource_identities : list (string * string);
  pm_application_ids : list string;
}.

Record TimelineEvidencePredicate := {
  p_read_scope : TimelineLedgerReadScope;
  p_replay_identity : TimelineReplayIdentity;
  p_pin_membership : option TimelinePinMembership;
}.

Definition identity_from_query (query : TimelineQuery) (pin_set_revision : option Z) : res TimelineReplayIdentity :=
  let f := q_filters query in
  _ ← raise_if (tf_pinned_only f && bool_decide (pin_set_revision = None)) ValueError;
  _ ← raise_if (match pin_set_revision with Some n => n <? 0 | None => false end) ValueError;
  Ok {| ri_scopes := q_scopes query; ri_window := q_window query; ri_mode := q_mode query;
        ri_filters := {| ef_activity := tf_activity f; ef_kinds := tf_kinds f; ef_include_deleted := tf_include_deleted f;
                         ef_pinned_only := tf_pinned_only f; ef_search := strip (tf_query f) |};
        ri_pin_set_revision := if tf_pinned_only f then pin_set_revision else None |}.

Definition new_predicate (rs : TimelineLedgerReadScope) (identity : TimelineReplayIdentity) (pins : option TimelinePinMembership)
    : res TimelineEvidencePredicate :=
  _ ← raise_if (ef_pinned_only (ri_filters identity) && bool_decide (pm_revision <$> pins = None)) ValueError;
  Ok {| p_read_scope := rs; p_replay_identity := identity; p_pin_membership := pins |}.

Definition predicate_from_query (rs : TimelineLedgerReadScope) (query : TimelineQuery) (pins : option TimelinePinMembership)
    : res TimelineEvidencePredicate :=
  identity ← identity_from_query query (pm_revision <$> pins);
  new_predicate rs identity pins.

(** Later facts of a frozen reader: the same scope, grants and filters. *)
Definition after_frozen_window (p : TimelineEvidencePredicate) : res (option TimelineEvidencePredicate) :=
  let i := p_replay_identity p in
  if negb (str_eqb (ri_mode i) "frozen") then Ok None
  else
    later ← new_predicate (p_read_scope p)
              {| ri_scopes := ri_scopes i; ri_window := {| from_ms := to_ms (ri_window i); to_ms := to_ms (ri_window i) + 1 |};
                 ri_mode := "live"; ri_filters := ri_filters i; ri_pin_set_revision := ri_pin_set_revision i |} (p_pin_membership p);
    Ok (Some later).

(** ** The guard in Python *)

Definition event_namespace (e : TimelineEvent) : option string :=
  match resource e, subject e with
  | Some r, _ => rr_namespace r
  | None, TimelineResourceSubject r => rr_namespace r
  | None, TimelineInventoryLocatorSubject _ _ _ _ namespace _ => namespace
  | None, _ => None
  end.

Definition resource_kind (e : TimelineEvent) : option string :=
  match resource e, subject e with
  | Some r, _ => Some (rr_kind r)
  | None, TimelineResourceSubject r => Some (rr_kind r)
  | None, TimelineInventoryLocatorSubject _ _ _ kind _ _ => Some kind
  | None, _ => None
  end.

Definition subject_application (s : TimelineSubject) : option string :=
  match s with TimelineApplicationWorkflowSubject a _ _ => Some a | _ => None end.

Definition opt_in (o : option string) (l : list string) : bool := match o with Some x => bool_decide (x ∈ l) | None => false end.

Definition scope_matches (e : TimelineEvent) (scopes : list ClusterScope) : bool :=
  existsb (fun s => str_eqb (scope_workspace_id e) (sc_workspace_id s) && str_eqb (scope_cluster_id e) (sc_cluster_id s)
                    && (bool_decide (sc_namespaces s = []) || opt_in (event_namespace e) (sc_namespaces s))) scopes.

Definition source_is_authorized (e : TimelineEvent) (rs : TimelineLedgerReadScope) : bool :=
  if str_eqb (source e) "inventory" then bool_decide (scope_cluster_id e ∈ inventory_cluster_ids rs)
  else if str_eqb (source e) "kubernetes_event" then bool_decide (scope_cluster_id e ∈ kubernetes_event_cluster_ids rs)
  else if str_eqb (source e) "incident" then bool_decide (scope_cluster_id e ∈ incident_cluster_ids rs)
  else if str_eqb (source e) "application_workflow" then opt_in (subject_application (subject e)) (application_workflow_ids rs)
  else if str_eqb (source e) "gitops" then opt_in (subject_application (subject e)) (gitops_application_ids rs)
  else false.

Definition from_datetime (milliseconds : Z) : res Z := raise_none (fromtimestamp (int_div milliseconds 1000)) ValueError.

Definition is_within_snapshot_window (e : TimelineEvent) (i : TimelineReplayIdentity) : res bool :=
  lower ← from_datetime (from_ms (ri_window i));
  and_res (lower <=? occurred_at e) (upper ← from_datetime (to_ms (ri_window i)); Ok (occurred_at e <? upper)).

Definition is_within_stream_window (e : TimelineEvent) (i : TimelineReplayIdentity) (now : Z) : res bool :=
  lower ← from_datetime (from_ms (ri_window i));
  if occurred_at e <? lower then Ok false
  else if str_eqb (ri_mode i) "frozen" then upper ← from_datetime (to_ms (ri_window i)); Ok (occurred_at e <? upper)
  else Ok (occurred_at e <=? now).

Definition resource_texts (r : ResourceRef) : list string := [rr_kind r; rr_name r; rr_uid r].

Definition search_values (e : TimelineEvent) : list string :=
  [event_id e; source_key e; native_id e; title e]
  ++ match resource e with Some r => resource_texts r | None => [] end
  ++ match subject e with
     | TimelineResourceSubject r => resource_texts r
     | TimelineInventoryLocatorSubject key _ _ kind _ name => [kind; name; key]
     | TimelineApplicationWorkflowSubject application binding run => [application; binding; run]
     | TimelineIncidentSubject incident correlation => incident :: option_list correlation
     end.

Definition search_matches (e : TimelineEvent) (search : string) : bool :=
  existsb (fun value => contains (casefold search) (casefold value)) (search_values e).

Definition matches_filters (e : TimelineEvent) (i : TimelineReplayIdentity) : bool :=
  let f := ri_filters i in
  if negb (bool_decide (ef_activity f = [])) && negb (bool_decide (activity e ∈ ef_activity f)) then false
  else if negb (bool_decide (ef_kinds f = [])) && negb (opt_in (resource_kind e) (ef_kinds f)) then false
  else if negb (ef_include_deleted f) && str_eqb (event_type e) "delete" then false
  else is_empty (ef_search f) || search_matches e (ef_search f).

Definition pinned_resource (e : TimelineEvent) : option ResourceRef :=
  match resource e, subject e with
  | Some r, _ => Some r
  | None, TimelineResourceSubject r => Some r
  | None, _ => None
  end.

Definition matches_pins (e : TimelineEvent) (i : TimelineReplayIdentity) (membership : option TimelinePinMembership) : bool :=
  if negb (ef_pinned_only (ri_filters i)) then true
  else match membership with
       | None => false
       | Some m =>
           match pinned_resource e with
           | Some r => bool_decide ((scope_cluster_id e, rr_uid r) ∈ pm_resource_identities m)
           | None => false
           end || opt_in (subject_application (subject e)) (pm_application_ids m)
       end.

Definition matches_snapshot (p : TimelineEvidencePredicate) (e : TimelineEvent) : res bool :=
  let i := p_replay_identity p in
  and_res (scope_matches e (rs_scopes (p_read_scope p)))
    (and_res (source_is_authorized e (p_read_scope p))
       (w ← is_within_snapshot_window e i; Ok (w && matches_filters e i && matches_pins e i (p_pin_membership p)))).

Definition matches_stream (p : TimelineEvidencePredicate) (now : Z) (e : TimelineEvent) : res bool :=
  let i := p_replay_identity p in
  and_res (scope_matches e (rs_scopes (p_read_scope p)))
    (and_res (source_is_authorized e (p_read_scope p))
       (w ← is_within_stream_window e i now; Ok (w && matches_filters e i && matches_pins e i (p_pin_membership p)))).

(** ** Rows *)

Record TimelineLedgerEvent := {
  l_workspace_id : string;
  l_sequence : Z;
  l_source_key : string;
  l_event_id : string;
  l_source : string;
  l_native_id : string;
  l_activity : string;
  l_cluster_id : string;
  l_namespace : option string;
  l_freshness : string;
  l_event_type : string;
  l_severity : string;
  l_title : string;
  l_subject : pyval;
  l_resource : option pyval;
  l_owner : option pyval;
  l_metadata : dict;
  l_occurred_at : Z;
}.

(** [_event_namespace] of the repository, which reads the namespace of the
    subject itself; the one of the guard also looks into a resource subject. *)
Definition row_namespace (e : TimelineEvent) : option string :=
  match resource e, subject e with
  | Some r, _ => rr_namespace r
  | None, TimelineInventoryLocatorSubject _ _ _ _ namespace _ => namespace
  | None, _ => None
  end.

Definition event_values (e : TimelineEvent) (sequence : Z) : TimelineLedgerEvent :=
  {| l_workspace_id := scope_workspace_id e; l_sequence := sequence; l_source_key := source_key e; l_event_id := event_id e;
     l_source := source e; l_native_id := native_id e; l_activity := activity e; l_cluster_id := scope_cluster_id e;
     l_namespace := row_namespace e; l_freshness := scope_freshness e; l_event_type := event_type e; l_severity := severity e;
     l_title := title e; l_subject := VDict (dump_subject (subject e));
     l_resource := (fun r => VDict (dump_resource r)) <$> resource e; l_owner := (fun r => VDict (dump_resource r)) <$> owner e;
     l_metadata := metadata e; l_occurred_at := occurred_at e |}.

Definition event_from_row (r : TimelineLedgerEvent) : res TimelineEvent :=
  subject ← load_subject (l_subject r);
  resource ← load_opt_resource (l_resource r);
  owner ← load_opt_resource (l_owner r);
  validated {| event_id := l_event_id r; source := l_source r; source_key := l_source_key r; native_id := l_native_id r;
               activity := l_activity r; occurred_at := l_occurred_at r; scope_workspace_id := l_workspace_id r;
               scope_cluster_id := l_cluster_id r; scope_freshness := l_freshness r; subject := subject; resource := resource;
               event_type := l_event_type r; severity := l_severity r; title := l_title r; owner := owner; metadata := l_metadata r |}.

(** ** The SQL predicate *)

(** [text LIKE pattern ESCAPE '\'] *)
Fixpoint any_suffix (f : string -> bool) (s : string) : bool :=
  f s || match s with EmptyString => false | String _ s => any_suffix f s end.
Definition starts_char (c : ascii) (f : string -> bool) (s : string) : bool :=
  match s with String d s => bool_decide (c = d) && f s | EmptyString => false end.
Fixpoint like (pattern : string) : string -> bool :=
  match pattern with
  | EmptyString => is_empty
  | String c rest =>
      if bool_decide (c = "%"%char) then any_suffix (like rest)
      else if bool_decide (c = "_"%char) then fun s => match s with String _ s => like rest s | EmptyString => false end
      else if bool_decide (c = "\"%char)
      then match rest with String d rest => starts_char d (like rest) | EmptyString => fun _ => false end
      else starts_char c (like rest)
  end.

Inductive phase := Snapshot | Stream.

Section Sql.
Context `{ReprLib}.
(** How the collation folds the characters beyond ASCII. *)
Context (collation : ascii -> ascii).

Definition fold_char (c : ascii) : ascii :=
  if (code c <? 128)%N then (if is_upper c then ascii_of_N (code c + 32) else c) else collation c.
Fixpoint fold_case (s : string) : string := match s with EmptyString => "" | String c s => String (fold_char c) (fold_case s) end.

(** [text ILIKE pattern ESCAPE '\'] *)
Definition ilike (text pattern : string) : bool := like (fold_case pattern) (fold_case text).

Definition escaped_contains_pattern (search : string) : string :=
  "%" +:+ replace_char "_" "\_" (replace_char "%" "\%" (replace_char "\" "\\" search)) +:+ "%".

(** [column[k1][k2].astext]: NULL for a missing key and for null. *)
Fixpoint astext (path : list string) (v : pyval) : option string :=
  match path with
  | [] => match v with
          | VNone => None
          | VStr s => Some s
          | v => match json_canonical v with Ok text => Some text | Err _ => None end
          end
  | k :: path => match v with VDict d => astext path (get d k) | _ => None end
  end.
Definition column_text (path : list string) (column : option pyval) : option string := v ← column; astext path v.

Definition scope_sql_predicate (r : TimelineLedgerEvent) (scopes : list ClusterScope) : bool :=
  existsb (fun s => str_eqb (l_cluster_id r) (sc_cluster_id s)
                    && (bool_decide (sc_namespaces s = []) || opt_in (l_namespace r) (sc_namespaces s))) scopes.

Definition subject_text (path : list string) (r : TimelineLedgerEvent) : option string := astext path (l_subject r).
Definition resource_text (path : list string) (r : TimelineLedgerEvent) : option string := column_text path (l_resource r).

Definition source_authorization_sql_predicate (r : TimelineLedgerEvent) (rs : TimelineLedgerReadScope) : bool :=
  let granted (src : string) (ids : list string) (column : option string) := str_eqb (l_source r) src && opt_in column ids in
  granted "inventory" (inventory_cluster_ids rs) (Some (l_cluster_id r))
  || granted "kubernetes_event" (kubernetes_event_cluster_ids rs) (Some (l_cluster_id r))
  || granted "incident" (incident_cluster_ids rs) (Some (l_cluster_id r))
  || granted "application_workflow" (application_workflow_ids rs) (subject_text ["application_id"] r)
  || granted "gitops" (gitops_application_ids rs) (subject_text ["application_id"] r).

Definition sql_text_is (column : option string) (text : string) : bool :=
  match column with Some t => str_eqb t text | None => false end.

Definition pin_membership_sql_predicate (r : TimelineLedgerEvent) (membership : option TimelinePinMembership) : bool :=
  match membership with
  | None => false
  | Some m =>
      existsb (fun cu => str_eqb (l_cluster_id r) cu.1
                         && (sql_text_is (resource_text ["uid"] r) cu.2 || sql_text_is (subject_text ["resource"; "uid"] r) cu.2))
        (pm_resource_identities m)
      || opt_in (subject_text ["application_id"] r) (pm_application_ids m)
  end.

Definition or_text (a b : option string) : option string := match a with Some x => Some x | None => b end.

(** [func.coalesce(...)] *)
Definition timeline_resource_kind_sql (r : TimelineLedgerEvent) : option string :=
  or_text (resource_text ["kind"] r) (or_text (subject_text ["resource"; "kind"] r) (subject_text ["resource_kind"] r)).

Definition search_columns (r : TimelineLedgerEvent) : list (option string) :=
  [Some (l_event_id r); Some (l_source_key r); Some (l_native_id r); Some (l_title r);
   resource_text ["kind"] r; resource_text ["name"] r; resource_text ["uid"] r;
   subject_text ["resource"; "kind"] r; subject_text ["resource"; "name"] r; subject_text ["resource"; "uid"] r;
   subject_text ["resource_kind"] r; subject_text ["name"] r; subject_text ["inventory_key"] r;
   subject_text ["application_id"] r; subject_text ["binding_id"] r; subject_text ["workflow_run_id"] r;
   subject_text ["incident_id"] r; subject_text ["correlation_id"] r].

(** The statement is built first; its bounds can be out of the range of years. *)
Definition timeline_evidence_sql_predicate (p : TimelineEvidencePredicate) (ph : phase) (now : Z)
    : res (TimelineLedgerEvent -> bool) :=
  let i := p_replay_identity p in
  let f := ri_filters i in
  lower ← from_datetime (from_ms (ri_window i));
  before ← (if match ph with Snapshot => true | Stream => str_eqb (ri_mode i) "frozen" end
            then upper ← from_datetime (to_ms (ri_window i)); Ok (fun t => t <? upper)
            else Ok (fun t => t <=? now));
  Ok (fun r =>
    scope_sql_predicate r (rs_scopes (p_read_scope p))
    && source_authorization_sql_predicate r (p_read_scope p)
    && (lower <=? l_occurred_at r) && before (l_occurred_at r)
    && (bool_decide (ef_activity f = []) || bool_decide (l_activity r ∈ ef_activity f))
    && (bool_decide (ef_kinds f = []) || opt_in (timeline_resource_kind_sql r) (ef_kinds f))
    && (ef_include_deleted f || negb (str_eqb (l_event_type r) "delete"))
    && (is_empty (ef_search f)
        || existsb (fun column => match column with Some text => ilike text (escaped_contains_pattern (ef_search f)) | None => false end)
             (search_columns r))
    && (negb (ef_pinned_only f) || pin_membership_sql_predicate r (p_pin_membership p))).
End Sql.

(** ** Operations *)

Record cursor := { last_sequence : Z; retained_from_sequence : Z }.

Record db := { cursors : gmap string cursor; ledger : list TimelineLedgerEvent }.

Definition fresh_cursor : cursor := {| last_sequence := 0; retained_from_sequence := 1 |}.

(** [INSERT ... ON CONFLICT DO NOTHING] *)
Definition ensure_cursor (s : db) (workspace_id : string) (c : cursor) : db :=
  match cursors s !! workspace_id with Some _ => s | None => {| cursors := <[workspace_id := c]> (cursors s); ledger := ledger s |} end.

Definition in_workspace (workspace_id : string) (r : TimelineLedgerEvent) : bool := str_eqb (l_workspace_id r) workspace_id.
Definition row_of_key (rows : list TimelineLedgerEvent) (workspace_id key : string) : option TimelineLedgerEvent :=
  head (keep (fun r => in_workspace workspace_id r && str_eqb (l_source_key r) key) rows).

(** [{event.source_key: event for event in reversed(batch)}] *)
Definition first_events (batch : list TimelineEvent) : list (string * TimelineEvent) :=
  fold_left (fun d e => dict_set d (source_key e) e) (rev batch) [].

Fixpoint numbered (first : Z) (events : list TimelineEvent) : list TimelineLedgerEvent :=
  match events with [] => [] | e :: events => event_values e first :: numbered (first + 1) events end.

Record TimelineLedgerAppend := { ap_event : TimelineEvent; ap_sequence : Z; ap_inserted : bool }.

(** The answer for each event of the batch, from the rows of its keys. *)
Fixpoint appends (existing inserted : string -> option TimelineLedgerEvent) (reported : list string) (batch : list TimelineEvent)
    : res (list TimelineLedgerAppend) :=
  match batch with
  | [] => Ok []
  | e :: batch =>
      let key := source_key e in
      row ← raise_none (match inserted key with Some r => Some r | None => existing key end) KeyError;
      let is_new := bool_decide (is_Some (inserted key)) && negb (bool_decide (key ∈ reported)) in
      event ← event_from_row row;
      rest ← appends existing inserted (key :: reported) batch;
      Ok ({| ap_event := event; ap_sequence := l_sequence row; ap_inserted := is_new |} :: rest)
  end.

(** The rows are committed before the answer is made of them. *)
Definition append_timeline_events (s : db) (batch : list TimelineEvent) : db * res (list TimelineLedgerAppend) :=
  match batch with
  | [] => (s, Ok [])
  | e :: _ =>
      let workspace_id := scope_workspace_id e in
      if existsb (fun e => negb (str_eqb (scope_workspace_id e) workspace_id)) batch then (s, Err ValueError)
      else
        let source_keys := unique_first (source_key <$> batch) in
        let s := ensure_cursor s workspace_id fresh_cursor in
        let existing := row_of_key (ledger s) workspace_id in
        let new_events := omap (dict_get (first_events batch)) (keep (fun k => negb (bool_decide (is_Some (existing k)))) source_keys) in
        let c := default fresh_cursor (cursors s !! workspace_id) in
        let high_water := last_sequence c + Z.of_nat (length new_events) in
        let rows := numbered (high_water - Z.of_nat (length new_events) + 1) new_events in
        let s' := match new_events with
                  | [] => s
                  | _ => {| cursors := <[workspace_id := {| last_sequence := high_water; retained_from_sequence := retained_from_sequence c |}]> (cursors s);
                            ledger := ledger s ++ rows |}
                  end in
        (s', appends existing (row_of_key rows workspace_id) [] batch)
  end.

Definition cursor_state (s : db) (workspace_id : string) : Z * Z :=
  match cursors s !! workspace_id with None => (0, 1) | Some c => (last_sequence c, retained_from_sequence c) end.

Record TimelineLedgerRecord := { rec_sequence : Z; rec_event : TimelineEvent }.

Definition record_from_row (r : TimelineLedgerEvent) : res TimelineLedgerRecord :=
  e ← event_from_row r;
  _ ← raise_if (l_sequence r <? 1) ValueError;
  Ok {| rec_sequence := l_sequence r; rec_event := e |}.

Definition by_sequence (a b : TimelineLedgerEvent) : bool := l_sequence a <=? l_sequence b.

Definition validate_requested_limit (limit : Z) : res unit := raise_if ((limit <? 1) || (MAX_TIMELINE_EVENTS <? limit)) ValueError.

(** [_timeline_events_statement], in ascending or descending order. *)
Definition timeline_rows (workspace_id : string) (after through : Z) (matches : TimelineLedgerEvent -> bool) (rows : list TimelineLedgerEvent)
    : list TimelineLedgerEvent :=
  isort by_sequence (keep (fun r => in_workspace workspace_id r && (after <? l_sequence r) && (l_sequence r <=? through) && matches r) rows).

Section Reads.
Context `{ReprLib} (collation : ascii -> ascii).

(** The newest rows are fetched first and put back in order. *)
Definition read_records (s : db) (p : TimelineEvidencePredicate) (rs : TimelineLedgerReadScope) (now after through : Z) (ph : phase)
    (limit : Z) (replay_order : bool) : res (list TimelineLedgerRecord) :=
  _ ← raise_if ((limit <? 1) || (MAX_TIMELINE_EVENTS + 1 <? limit)) ValueError;
  matches ← timeline_evidence_sql_predicate collation p ph now;
  let rows := timeline_rows (rs_workspace_id rs) after through matches (ledger s) in
  mapr record_from_row
    (if replay_order then take (Z.to_nat limit) rows else rev (take (Z.to_nat limit) (rev rows))).

Record TimelineLedgerSnapshot := {
  sn_records : list TimelineLedgerRecord;
  sn_high_water_sequence : Z;
  sn_retained_from_sequence : Z;
  sn_truncated : bool;
}.

Definition snapshot_timeline_events (s : db) (rs : TimelineLedgerReadScope) (p : TimelineEvidencePredicate) (now limit : Z)
    : res TimelineLedgerSnapshot :=
  _ ← validate_requested_limit limit;
  let '(high_water, retained_from) := cursor_state s (rs_workspace_id rs) in
  records ← read_records s p rs now (retained_from - 1) high_water Snapshot (limit + 1) false;
  let truncated := limit <? Z.of_nat (length records) in
  Ok {| sn_records := if truncated then drop 1 records else records; sn_high_water_sequence := high_water;
        sn_retained_from_sequence := retained_from; sn_truncated := truncated |}.

Inductive TimelineReplayResult :=
  | ResyncRequired (high_water retained_from : Z)
  | Available (records : list TimelineLedgerRecord) (high_water retained_from : Z).

Definition replay_timeline_events (s : db) (rs : TimelineLedgerReadScope) (p : TimelineEvidencePredicate) (now after limit : Z)
    : res TimelineReplayResult :=
  _ ← raise_if (after <? 0) ValueError;
  _ ← validate_requested_limit limit;
  let '(high_water, retained_from) := cursor_state s (rs_workspace_id rs) in
  if after <? retained_from - 1 then Ok (ResyncRequired high_water retained_from)
  else
    records ← read_records s p rs now after high_water Stream limit true;
    Ok (Available records high_water retained_from).
End Reads.

(** [UPDATE ... WHERE retained_from_sequence < n], or the stored boundary. *)
Definition advance_timeline_retention (s : db) (workspace_id : string) (retained_from : Z) : res (db * Z) :=
  _ ← raise_if (is_empty workspace_id || (retained_from <? 1)) ValueError;
  let s := ensure_cursor s workspace_id {| last_sequence := 0; retained_from_sequence := retained_from |} in
  let c := default fresh_cursor (cursors s !! workspace_id) in
  if retained_from_sequence c <? retained_from
  then Ok ({| cursors := <[workspace_id := {| last_sequence := last_sequence c; retained_from_sequence := retained_from |}]> (cursors s);
              ledger := ledger s |}, retained_from)
  else Ok (s, retained_from_sequence c).

Record diagnostics := {
  event_count : Z;
  oldest_occurred_at : option Z;
  newest_occurred_at : option Z;
  high_water_sequence : Z;
  dg_retained_from_sequence : Z;
}.

Definition by_time (a b : TimelineLedgerEvent) : bool :=
  (l_occurred_at a <? l_occurred_at b) || ((l_occurred_at a =? l_occurred_at b) && (l_sequence a <=? l_sequence b)).

Definition timeline_diagnostics (s : db) (workspace_id : string) : diagnostics :=
  let rows := isort by_time (keep (in_workspace workspace_id) (ledger s)) in
  {| event_count := (cursor_state s workspace_id).1; oldest_occurred_at := l_occurred_at <$> head rows;
     newest_occurred_at := l_occurred_at <$> last rows; high_water_sequence := (cursor_state s workspace_id).1;
     dg_retained_from_sequence := (cursor_state s workspace_id).2 |}.

(** *** Replay without a database *)

Inductive replay_item := Record_item (r : TimelineLedgerRecord) | Pair_item (sequence : Z) (e : TimelineEvent) | Event_item (e : TimelineEvent).

Definition new_record (sequence : Z) (e : TimelineEvent) : res TimelineLedgerRecord :=
  _ ← raise_if (sequence <? 1) ValueError; Ok {| rec_sequence := sequence; rec_event := e |}.

Fixpoint replay_records (index : Z) (items : list replay_item) : res (list TimelineLedgerRecord) :=
  match items with
  | [] => Ok []
  | item :: items =>
      r ← match item with Record_item r => Ok r | Pair_item n e => new_record n e | Event_item e => new_record index e end;
      rest ← replay_records (index + 1) items;
      Ok (r :: rest)
  end.

Fixpoint first_of_keys (seen : list string) (records : list TimelineLedgerRecord) : list TimelineLedgerRecord :=
  match records with
  | [] => []
  | r :: records =>
      let key := source_key (rec_event r) in
      if bool_decide (key ∈ seen) then first_of_keys seen records else r :: first_of_keys (key :: seen) records
  end.

Definition replay_result (after retained_from high_water : Z) (items : list replay_item) : res TimelineReplayResult :=
  _ ← raise_if ((after <? 0) || (retained_from <? 1) || (high_water <? 0)) ValueError;
  if after <? retained_from - 1 then Ok (ResyncRequired high_water retained_from)
  else
    records ← replay_records 1 items;
    Ok (Available (first_of_keys [] (isort (fun a b => rec_sequence a <=? rec_sequence b)
                                       (keep (fun r => after <? rec_sequence r) records))) high_water retained_from).

(** ** Patterns *)

Definition is_ascii (s : string) : bool := all_chars (fun c => (code c <? 128)%N) s.
Definition is_special (c : ascii) : bool := bool_decide (c ∈ ["\"%char; "%"%char; "_"%char]).

Fixpoint escape (s : string) : string :=
  match s with EmptyString => "" | String c s => (if is_special c then String "\" (String c "") else String c "") +:+ escape s end.

Lemma replace_char_app c t a b : replace_char c t (a +:+ b) = replace_char c t a +:+ replace_char c t b.
Proof. induction a as [|d a IH]; cbn; [done|]. by rewrite IH, str_app_assoc. Qed.

Lemma escaped_contains_pattern_eq s : escaped_contains_pattern s = "%" +:+ escape s +:+ "%".
Proof.
  unfold escaped_contains_pattern. do 2 f_equal. induction s as [|c s IH]; [done|]. cbn [replace_char escape]. rewrite !replace_char_app, IH. f_equal.
  unfold is_special. destruct (decide (c = "\"%char)) as [->|H1]; [done|]. destruct (decide (c = "%"%char)) as [->|H2]; [done|].
  destruct (decide (c = "_"%char)) as [->|H3]; [done|].
  rewrite (bool_decide_false ("\"%char = c)) by congruence. cbn [replace_char]. rewrite (bool_decide_false ("%"%char = c)) by congruence.
  cbn [replace_char String.append]. rewrite (bool_decide_false ("_"%char = c)) by congruence. cbn [String.append].
  rewrite bool_decide_false; [done|]. rewrite !elem_of_cons. intros [?|[?|[?|?%elem_of_nil]]]; done.
Qed.

Lemma like_escape s t : like (escape s +:+ "%") t = starts_with s t.
Proof.
  revert t. induction s as [|c s IH]; intros t.
  { change (any_suffix is_empty t = true). by induction t as [|d t IHt]; [|cbn; rewrite IHt]. }
  cbn [escape]. destruct (is_special c) eqn:E.
  - cbn [String.append like]. rewrite !bool_decide_false by done. rewrite bool_decide_true by done. destruct t as [|d t]; [done|]. cbn. by rewrite IH.
  - unfold is_special in E. rewrite bool_decide_eq_false in E. cbn [String.append like].
    rewrite !bool_decide_false by (intros ->; apply E; set_solver).
    destruct t as [|d t]; [done|]. cbn. by rewrite IH.
Qed.

Lemma any_suffix_contains s t : any_suffix (starts_with s) t = contains s t.
Proof. induction t as [|d t IH]; cbn; [done|]. by rewrite IH. Qed.

Lemma like_contains s t : like (escaped_contains_pattern s) t = contains s t.
Proof.
  rewrite escaped_contains_pattern_eq. rewrite <- any_suffix_contains. cbn [String.append like]. rewrite bool_decide_true by done.
  induction t as [|d t IH]; cbn [any_suffix]; rewrite like_escape; [done|]. by rewrite IH.
Qed.

Section Fold.
Context (collation : ascii -> ascii).

Lemma fold_char_ascii c : (code c <? 128)%N = true ->
  casefold_char c = String (fold_char collation c) "" /\ is_special (fold_char collation c) = is_special c /\
  (is_special c = true -> fold_char collation c = c).
Proof.
  intros Hc. unfold fold_char. rewrite Hc. destruct c as [[] [] [] [] [] [] [] []]; try discriminate Hc; split_and!; reflexivity || (intros; reflexivity || discriminate).
Qed.

Lemma fold_casefold s : is_ascii s = true -> casefold s = fold_case collation s.
Proof.
  induction s as [|c s IH]; [done|]. cbn. intros [Hc Hs]%andb_true_iff. rewrite (proj1 (fold_char_ascii c Hc)), IH by done. done.
Qed.

Lemma fold_escape s : is_ascii s = true -> fold_case collation (escape s +:+ "%") = escape (fold_case collation s) +:+ "%".
Proof.
  induction s as [|c s IH]; [done|]. cbn. intros [Hc Hs]%andb_true_iff. destruct (fold_char_ascii c Hc) as (_ & Es & Ef). rewrite Es.
  destruct (is_special c) eqn:E; cbn; rewrite ?Ef, IH by done; done.
Qed.

(** On ASCII texts the SQL search is the search in Python. *)
Lemma ilike_is_contains s t :
  is_ascii s = true -> is_ascii t = true -> ilike collation t (escaped_contains_pattern s) = contains (casefold s) (casefold t).
Proof.
  intros Hs Ht. unfold ilike. rewrite !fold_casefold, <- like_contains, !escaped_contains_pattern_eq by done. f_equal.
  cbn [String.append fold_case]. f_equal. by apply fold_escape.
Qed.
End Fold.

(** ** The two predicates agree *)

Section Agreement.
Context `{ReprLib} (collation : ascii -> ascii).

Implicit Types (e : TimelineEvent) (n : Z).

Lemma subject_text_application e n : subject_text ["application_id"] (event_values e n) = subject_application (subject e).
Proof. unfold subject_text. cbn. by destruct (subject e). Qed.

Lemma resource_text_of e n k :
  resource_text [k] (event_values e n) = match resource e with Some r => astext [k] (VDict (dump_resource r)) | None => None end.
Proof. unfold resource_text, column_text. cbn. by destruct (resource e). Qed.

Lemma subject_resource_text e n k :
  subject_text ["resource"; k] (event_values e n) =
  match subject e with TimelineResourceSubject r => astext [k] (VDict (dump_resource r)) | _ => None end.
Proof. unfold subject_text. cbn. by destruct (subject e). Qed.

(** The two namespaces agree on valid events. *)
Lemma namespaces_agree e : exact_resource_relation e = true -> row_namespace e = event_namespace e.
Proof.
  unfold exact_resource_relation, row_namespace, event_namespace. intros [_ Hs]%andb_true_iff.
  destruct (resource e) eqn:Er; [done|]. destruct (subject e); try done.
Qed.

Lemma scopes_agree e n scopes :
  exact_resource_relation e = true -> (forall s, s ∈ scopes -> sc_workspace_id s = scope_workspace_id e) ->
  scope_matches e scopes = scope_sql_predicate (event_values e n) scopes.
Proof.
  unfold scope_matches, scope_sql_predicate. intros He%namespaces_agree Hs. induction scopes as [|s scopes IH]; [done|]. cbn [existsb].
  rewrite IH by (intros; apply Hs; by right). rewrite (Hs s), str_eqb_refl by left. cbn [event_values l_namespace]. by rewrite He.
Qed.

Lemma sources_agree e n rs : source_is_authorized e rs = source_authorization_sql_predicate (event_values e n) rs.
Proof.
  unfold source_is_authorized, source_authorization_sql_predicate. rewrite subject_text_application. cbn [event_values l_source l_cluster_id opt_in].
  repeat match goal with
  | |- (if str_eqb (source e) ?b then _ else _) = _ =>
      let E := fresh "E" in destruct (str_eqb (source e) b) eqn:E;
      [apply str_eqb_eq in E; rewrite ?E; repeat match goal with |- context [str_eqb ?x ?y] => let v := eval vm_compute in (str_eqb x y) in change (str_eqb x y) with v end; btauto|]
  end. btauto.
Qed.

Lemma kinds_agree e n : timeline_resource_kind_sql (event_values e n) = resource_kind e.
Proof.
  unfold timeline_resource_kind_sql. rewrite resource_text_of, subject_resource_text. unfold resource_kind, subject_text. cbn [event_values l_subject].
  by destruct (resource e), (subject e).
Qed.

Lemma existsb_pointwise {A} (f g : A -> bool) l : (forall x, f x = g x) -> existsb f l = existsb g l.
Proof. intros Hfg. induction l as [|x l IH]; cbn; [done|]. by rewrite Hfg, IH. Qed.

Lemma identities_agree (c u : string) ids : existsb (fun cu : string * string => str_eqb c cu.1 && str_eqb u cu.2) ids = bool_decide ((c, u) ∈ ids).
Proof.
  apply eq_bool_prop_intro. rewrite !Is_true_true, existsb_elem, bool_decide_eq_true. setoid_rewrite andb_true_iff. setoid_rewrite str_eqb_eq.
  split; [by intros ([? ?] & Hin & -> & ->)|intros Hin; by exists (c, u)].
Qed.

Lemma pins_agree e n m :
  exact_resource_relation e = true ->
  match pinned_resource e with
  | Some r => bool_decide ((scope_cluster_id e, rr_uid r) ∈ pm_resource_identities m)
  | None => false
  end || opt_in (subject_application (subject e)) (pm_application_ids m) =
  pin_membership_sql_predicate (event_values e n) (Some m).
Proof.
  intros Hr. unfold pin_membership_sql_predicate. rewrite subject_text_application. f_equal.
  rewrite resource_text_of, subject_resource_text. cbn [event_values l_cluster_id].
  assert (forall r, resource e = Some r -> match subject e with TimelineResourceSubject r' => r' = r | _ => True end) as Hsame.
  { intros r Er. apply andb_true_iff in Hr as [_ Hr]. destruct (subject e); try done. rewrite bool_decide_eq_true in Hr. congruence. }
  assert (forall r, astext ["uid"] (VDict (dump_resource r)) = Some (rr_uid r)) as Huid by done.
  unfold pinned_resource. destruct (resource e) as [r|]; [specialize (Hsame r eq_refl)|].
  - destruct (subject e); subst; rewrite <- identities_agree; apply existsb_pointwise; intros [c' u']; cbn [sql_text_is fst snd]; rewrite ?Huid; cbn [sql_text_is];
      by rewrite ?orb_diag, ?orb_false_r.
  - destruct (subject e); try rewrite <- identities_agree; cbn [sql_text_is orb].
    1: by rewrite Huid.
    all: symmetry; induction (pm_resource_identities m) as [|cu l IH]; [done|]; cbn [existsb]; rewrite IH; by rewrite andb_false_r.
Qed.

Lemma existsb_some (f : string -> bool) l : existsb (fun c => match c with Some t => f t | None => false end) l = existsb f (omap id l).
Proof. induction l as [|[t|] l IH]; cbn; [done|by rewrite IH|done]. Qed.

Lemma values_are_columns e n : search_values e = omap id (search_columns (event_values e n)).
Proof.
  unfold search_values, search_columns. rewrite !resource_text_of, !subject_resource_text. unfold subject_text. cbn [event_values l_subject].
  destruct (resource e), (subject e) as [|?????|? [|]|]; reflexivity.
Qed.

Lemma values_agree (f : string -> bool) e n :
  existsb f (search_values e) = existsb (fun c => match c with Some t => f t | None => false end) (search_columns (event_values e n)).
Proof. by rewrite existsb_some, <- values_are_columns. Qed.

Lemma searches_agree e n s :
  is_ascii s && forallb is_ascii (search_values e) = true ->
  search_matches e s =
  existsb (fun column => match column with Some text => ilike collation text (escaped_contains_pattern s) | None => false end)
    (search_columns (event_values e n)).
Proof.
  intros [Hs Hv]%andb_true_iff. rewrite <- values_agree. unfold search_matches. rewrite forallb_elem in Hv.
  induction (search_values e) as [|v vs IH]; [done|]. cbn [existsb]. rewrite IH by (intros; apply Hv; by right).
  by rewrite ilike_is_contains by (done || apply Hv; left).
Qed.

(** The texts that the collation does not decide. *)
Definition searchable (p : TimelineEvidencePredicate) (e : TimelineEvent) : bool :=
  let search := ef_search (ri_filters (p_replay_identity p)) in
  is_empty search || (is_ascii search && forallb is_ascii (search_values e)).

Lemma selections_agree p e n :
  valid_event e = true -> searchable p e = true ->
  matches_filters e (p_replay_identity p) && matches_pins e (p_replay_identity p) (p_pin_membership p) =
  let f := ri_filters (p_replay_identity p) in
  let r := event_values e n in
  (bool_decide (ef_activity f = []) || bool_decide (l_activity r ∈ ef_activity f))
  && (bool_decide (ef_kinds f = []) || opt_in (timeline_resource_kind_sql r) (ef_kinds f))
  && (ef_include_deleted f || negb (str_eqb (l_event_type r) "delete"))
  && (is_empty (ef_search f)
      || existsb (fun column => match column with Some text => ilike collation text (escaped_contains_pattern (ef_search f)) | None => false end)
           (search_columns r))
  && (negb (ef_pinned_only f) || pin_membership_sql_predicate r (p_pin_membership p)).
Proof.
  intros Hv Hs. cbv zeta. set (f := ri_filters (p_replay_identity p)). rewrite kinds_agree.
  assert (matches_pins e (p_replay_identity p) (p_pin_membership p) =
          negb (ef_pinned_only f) || pin_membership_sql_predicate (event_values e n) (p_pin_membership p)) as ->.
  { unfold matches_pins. fold f. destruct (ef_pinned_only f); [|done]. cbn [negb orb]. destruct (p_pin_membership p); [|done].
    apply pins_agree. by apply andb_true_iff in Hv as [_ ?]. }
  assert (is_empty (ef_search f) || search_matches e (ef_search f) = is_empty (ef_search f) ||
          existsb (fun column => match column with Some text => ilike collation text (escaped_contains_pattern (ef_search f)) | None => false end)
           (search_columns (event_values e n))) as <-.
  { unfold searchable in Hs. fold f in Hs. destruct (is_empty (ef_search f)); [done|]. cbn [orb] in *. by apply searches_agree. }
  unfold matches_filters. fold f. cbn [event_values l_activity l_event_type].
  destruct (bool_decide (ef_activity f = [])), (bool_decide (activity e ∈ ef_activity f)), (bool_decide (ef_kinds f = [])),
    (opt_in (resource_kind e) (ef_kinds f)), (ef_include_deleted f), (str_eqb (event_type e) "delete"); cbn [negb andb orb]; by rewrite ?andb_false_r.
Qed.

Definition guard (p : TimelineEvidencePredicate) (ph : phase) (now : Z) (e : TimelineEvent) : res bool :=
  match ph with Snapshot => matches_snapshot p e | Stream => matches_stream p now e end.

Lemma read_scope_workspace rs rs' : new_read_scope rs = Ok rs' -> forall s, s ∈ rs_scopes rs' -> sc_workspace_id s = rs_workspace_id rs'.
Proof.
  unfold new_read_scope. intros Hn. res_inv. intros s Hs.
  match goal with Hx : existsb _ (rs_scopes rs) = false |- _ => rename Hx into Hsame end.
  destruct (str_eqb (sc_workspace_id s) (rs_workspace_id rs)) eqn:E; [by apply str_eqb_eq|]. exfalso.
  apply not_true_iff_false in Hsame. apply Hsame. apply existsb_elem. exists s. by rewrite E.
Qed.

(** C36: The guard in Python and the SQL predicate select the same events: for an
    event of the workspace of the reader, the predicate on its stored row says
    what the guard says of the event, for snapshots and for streams, when the
    bounds of the window are datetimes and the texts of a search are ASCII,
    where the collation has no say. *)
Theorem sql_predicate_is_the_guard p rs ph now e n :
  valid_event e = true -> new_read_scope rs = Ok (p_read_scope p) -> scope_workspace_id e = rs_workspace_id (p_read_scope p) ->
  searchable p e = true ->
  is_ok (from_datetime (from_ms (ri_window (p_replay_identity p)))) = true ->
  is_ok (from_datetime (to_ms (ri_window (p_replay_identity p)))) = true ->
  exists sql, timeline_evidence_sql_predicate collation p ph now = Ok sql /\ guard p ph now e = Ok (sql (event_values e n)).
Proof.
  intros Hv Hrs Hws Hs Hlo Hhi. unfold timeline_evidence_sql_predicate, guard, matches_snapshot, matches_stream, is_within_snapshot_window, is_within_stream_window.
  pose proof (selections_agree p e n Hv Hs) as Hsel. cbv zeta in Hsel |- *.
  assert (scope_matches e (rs_scopes (p_read_scope p)) = scope_sql_predicate (event_values e n) (rs_scopes (p_read_scope p))) as ->.
  { apply scopes_agree; [by apply andb_true_iff in Hv as [_ Hv]|]. intros s Hin. rewrite Hws. by eapply read_scope_workspace. }
  rewrite (sources_agree e n).
  destruct (from_datetime (from_ms _)) as [lo|]; [|done]. destruct (from_datetime (to_ms _)) as [hi|]; [|done]. cbn [mbind res_bind].
  set (frozen := str_eqb (ri_mode (p_replay_identity p)) "frozen").
  set (scope := scope_sql_predicate _ _). set (src := source_authorization_sql_predicate _ _).
  set (fs := matches_filters e (p_replay_identity p)) in *. set (pins := matches_pins e _ _) in *.
  assert (forall w : bool, and_res scope (and_res src (Ok (w && fs && pins))) = Ok (scope && src && (w && (fs && pins)))) as Hand.
  { intros w. destruct scope, src; cbn [and_res andb]; by rewrite ?andb_assoc. }
  destruct ph; [|destruct frozen]; cbn [mbind res_bind]; eexists; (split; [reflexivity|]); fold scope src; cbn [event_values l_occurred_at].
  1: unfold and_res at 3; destruct (lo <=? occurred_at e).
  3, 4: rewrite (Z.leb_antisym (occurred_at e) lo); destruct (occurred_at e <? lo).
  all: cbn [mbind res_bind]; rewrite Hand; f_equal; cbn [negb andb];
    rewrite ?Hsel, ?andb_assoc, ?andb_true_r, ?andb_false_r; reflexivity.
Qed.
End Agreement.

(** ** The rows of a workspace *)

Lemma NoDup_kept {A} (p : A -> bool) (l : list A) : NoDup l -> NoDup (keep p l).
Proof.
  induction 1 as [|x l Hx _ IH]; cbn; [constructor|]. destruct (p x); [|done]. constructor; [|done]. by intros [? _]%elem_of_keep.
Qed.

Lemma event_round_trip e n : valid_event e = true -> event_from_row (event_values e n) = Ok e.
Proof.
  intros Hv. pose proof Hv as Hv'. unfold valid_event in Hv'. rewrite !andb_true_iff in Hv'. destruct_and!.
  unfold event_from_row. cbn [event_values l_subject l_resource l_owner]. rewrite load_dump_subject by done. cbn [mbind res_bind].
  assert (forall o, opt_resource_ok o = true -> load_opt_resource ((fun r => VDict (dump_resource r)) <$> o) = Ok o) as Ho.
  { intros [r|] Hr; [|done]. cbn [fmap option_fmap option_map load_opt_resource]. by rewrite load_dump_resource. }
  rewrite !Ho by done. cbn [mbind res_bind]. apply validated_Ok. by destruct e.
Qed.

Definition rows (s : db) (workspace_id : string) : list TimelineLedgerEvent := keep (in_workspace workspace_id) (ledger s).

Lemma first_events_get batch k : dict_get (first_events batch) k = head (keep (fun e => str_eqb (source_key e) k) batch).
Proof.
  unfold first_events. rewrite <- fold_left_rev_right, rev_involutive. induction batch as [|e batch IH]; [done|]. cbn [fold_right keep].
  destruct (str_eqb (source_key e) k) eqn:E.
  - apply str_eqb_eq in E as <-. by rewrite dict_get_set_eq.
  - rewrite dict_get_set_ne; [done|]. intros <-. by rewrite str_eqb_refl in E.
Qed.

Lemma head_keep {A} (p : A -> bool) l : match head (keep p l) with Some x => x ∈ l /\ p x = true | None => forall x, x ∈ l -> p x = false end.
Proof.
  induction l as [|y l IH]; cbn; [by intros x ?%elem_of_nil|]. destruct (p y) eqn:E; cbn; [split; [left|done]|].
  destruct (head (keep p l)) as [x|]; [destruct IH; split; [by right|done]|]. intros x [->|Hx]%elem_of_cons; [done|by apply IH].
Qed.

Lemma new_event_keys batch (ks : list string) :
  (forall k, k ∈ ks -> k ∈ source_key <$> batch) ->
  source_key <$> omap (dict_get (first_events batch)) ks = ks /\ forall e, e ∈ omap (dict_get (first_events batch)) ks -> e ∈ batch.
Proof.
  induction ks as [|k ks IH]; intros Hk; [by split; [|intros e ?%elem_of_nil]|]. cbn.
  destruct IH as [E1 E2]; [intros; apply Hk; by right|]. rewrite first_events_get.
  pose proof (head_keep (fun e => str_eqb (source_key e) k) batch) as Hh. destruct (head (keep _ batch)) as [e|].
  - destruct Hh as [He <-%str_eqb_eq]. cbn. split; [f_equal; apply E1|]. intros e' [->|He']%elem_of_cons; [done|by apply E2].
  - exfalso. specialize (Hk k (list_elem_of_here _ _)). apply list_elem_of_fmap in Hk as (e & -> & He). specialize (Hh e He). by rewrite str_eqb_refl in Hh.
Qed.

Lemma numbered_sequences first es : l_sequence <$> numbered first es = seqZ first (Z.of_nat (length es)).
Proof.
  revert first. induction es as [|e es IH]; intros first; [done|]. cbn [numbered fmap list_fmap length]. rewrite seqZ_cons by lia. cbn. f_equal.
  rewrite IH. f_equal; lia.
Qed.

Lemma numbered_keys first es : l_source_key <$> numbered first es = source_key <$> es.
Proof. revert first. induction es as [|e es IH]; intros first; cbn; [done|]. by rewrite IH. Qed.

Lemma elem_of_numbered first es r : r ∈ numbered first es -> exists e n, e ∈ es /\ r = event_values e n.
Proof.
  revert first. induction es as [|e es IH]; intros first; cbn; [by intros ?%elem_of_nil|].
  intros [->|Hr]%elem_of_cons; [exists e, first; split; [left|done]|]. destruct (IH _ Hr) as (e' & n & He & ->). exists e', n. split; [by right|done].
Qed.

Lemma row_of_key_spec rs ws k :
  match row_of_key rs ws k with
  | Some r => r ∈ rs /\ l_workspace_id r = ws /\ l_source_key r = k
  | None => k ∉ l_source_key <$> keep (in_workspace ws) rs
  end.
Proof.
  unfold row_of_key. pose proof (head_keep (fun r => in_workspace ws r && str_eqb (l_source_key r) k) rs) as Hh. destruct (head _) as [r|].
  - destruct Hh as [Hr [Hw%str_eqb_eq Hk%str_eqb_eq]%andb_true_iff]. done.
  - intros (r & -> & [Hr Hw]%elem_of_keep)%list_elem_of_fmap. specialize (Hh r Hr). by rewrite Hw, str_eqb_refl in Hh.
Qed.

(** ** What every operation keeps *)

Inductive step : db -> db -> Prop :=
  | Appended s batch : forallb valid_event batch = true -> step s (append_timeline_events s batch).1
  | Retained s ws n s' k : advance_timeline_retention s ws n = Ok (s', k) -> step s s'.

Inductive reachable : db -> Prop :=
  | Start : reachable {| cursors := ∅; ledger := [] |}
  | Next s s' : reachable s -> step s s' -> reachable s'.

Record ledger_ok (s : db) : Prop := {
  lk_sequences : forall ws, l_sequence <$> rows s ws = seqZ 1 (cursor_state s ws).1;
  lk_keys : forall ws, NoDup (l_source_key <$> rows s ws);
  lk_events : forall r, r ∈ ledger s -> exists e n, valid_event e = true /\ r = event_values e n;
  lk_count : forall ws, 0 <= (cursor_state s ws).1;
}.

Lemma ensure_cursor_state s ws c ws' :
  last_sequence c = 0 -> (cursor_state (ensure_cursor s ws c) ws').1 = (cursor_state s ws').1 /\ ledger (ensure_cursor s ws c) = ledger s.
Proof.
  intros Hc. unfold ensure_cursor, cursor_state. destruct (cursors s !! ws) eqn:E; [done|]. cbn [cursors ledger]. split; [|done].
  rewrite lookup_insert. destruct (decide (ws = ws')) as [<-|]; [by rewrite E|done].
Qed.

(** The new rows of a batch. *)
Lemma append_grows s batch :
  forallb valid_event batch = true ->
  exists ws news, ledger (append_timeline_events s batch).1 = ledger s ++ numbered ((cursor_state s ws).1 + 1) news /\
    (forall ws', (cursor_state (append_timeline_events s batch).1 ws').1 =
                 (cursor_state s ws').1 + if decide (ws = ws') then Z.of_nat (length news) else 0) /\
    (forall e, e ∈ news -> valid_event e = true /\ scope_workspace_id e = ws) /\ NoDup (source_key <$> news) /\
    (forall k, k ∈ source_key <$> news -> k ∉ l_source_key <$> rows s ws) /\
    (forall e, e ∈ batch -> (append_timeline_events s batch).2 = Err ValueError \/
       (scope_workspace_id e = ws /\ source_key e ∈ (l_source_key <$> rows s ws) ++ (source_key <$> news))).
Proof.
  intros Hvalid. rewrite forallb_elem in Hvalid. destruct batch as [|e0 batch0]; [exists "", []; cbn [append_timeline_events fst numbered]; rewrite app_nil_r|].
  { split_and!; try done; [intros; case_decide; cbn; lia|by intros e ?%elem_of_nil|constructor|by intros k ?%elem_of_nil|by intros e ?%elem_of_nil]. }
  unfold append_timeline_events. set (ws := scope_workspace_id e0). set (batch := e0 :: batch0) in *.
  destruct (existsb _ batch) eqn:Hsame; cbn [fst snd].
  { exists ws, []. cbn [numbered]. rewrite app_nil_r. split_and!; try done; [intros; case_decide; cbn; lia|by intros e ?%elem_of_nil|constructor|by intros k ?%elem_of_nil|by left]. }
  assert (forall e, e ∈ batch -> scope_workspace_id e = ws) as Hws.
  { intros e He. destruct (str_eqb (scope_workspace_id e) ws) eqn:E; [by apply str_eqb_eq|]. exfalso. apply not_true_iff_false in Hsame. apply Hsame.
    apply existsb_elem. exists e. by rewrite E. }
  destruct (ensure_cursor_state s ws fresh_cursor ws eq_refl) as [Ec El]. set (s1 := ensure_cursor s ws fresh_cursor) in *. rewrite El.
  set (ks := keep _ (unique_first (source_key <$> batch))).
  destruct (new_event_keys batch ks) as [Ek Eb]; [intros k [Hk _]%elem_of_keep; apply elem_of_unique_first; exact Hk|].
  set (news := omap (dict_get (first_events batch)) ks) in *.
  assert (NoDup ks) as Hnd by (apply NoDup_kept, NoDup_unique_first).
  assert (forall k, k ∈ ks -> k ∉ l_source_key <$> rows s ws) as Hnew.
  { intros k [_ Hk]%elem_of_keep Hin. pose proof (row_of_key_spec (ledger s) ws k) as Hr. destruct (row_of_key (ledger s) ws k); [by rewrite bool_decide_true in Hk by done|done]. }
  assert (last_sequence (default fresh_cursor (cursors s1 !! ws)) = (cursor_state s ws).1) as Elast.
  { rewrite <- Ec. unfold cursor_state. by destruct (cursors s1 !! ws). }
  exists ws, news. split_and!.
  - destruct news as [|e es] eqn:En; [by rewrite app_nil_r|]. cbn [ledger]. rewrite ?El. do 2 f_equal. rewrite Elast. lia.
  - intros ws'. destruct (ensure_cursor_state s ws fresh_cursor ws' eq_refl) as [Ec' _]. fold s1 in Ec'.
    destruct news as [|e es] eqn:En; [rewrite Ec'; case_decide; cbn; lia|]. rewrite <- En. unfold cursor_state at 1. cbn [cursors]. rewrite lookup_insert.
    case_decide as Hd; [subst ws'; cbn [fst last_sequence]; by rewrite Elast|]. rewrite <- Ec'. unfold cursor_state. lia.
  - intros e He. specialize (Eb e He). split; [by apply Hvalid|by apply Hws].
  - by rewrite Ek.
  - rewrite Ek. done.
  - intros e He. right. split; [by apply Hws|]. rewrite Ek. apply elem_of_app.
    destruct (row_of_key (ledger s) ws (source_key e)) as [r|] eqn:Er.
    + left. pose proof (row_of_key_spec (ledger s) ws (source_key e)) as Hr. rewrite Er in Hr. destruct Hr as (Hr & Hw & <-).
      apply list_elem_of_fmap. exists r. split; [done|]. apply elem_of_keep. split; [done|]. by apply str_eqb_eq.
    + right. apply elem_of_keep. rewrite Er. split; [|done]. apply elem_of_unique_first, list_elem_of_fmap. by exists e.
Qed.

Lemma keep_numbered ws news first ws' :
  (forall e, e ∈ news -> scope_workspace_id e = ws) ->
  keep (in_workspace ws') (numbered first news) = if decide (ws = ws') then numbered first news else [].
Proof.
  intros Hn. case_decide as Hd.
  - apply keep_true. intros r (e & n & He & ->)%elem_of_numbered. unfold in_workspace. cbn. rewrite (Hn e He). by apply str_eqb_eq.
  - apply keep_false. intros r (e & n & He & ->)%elem_of_numbered. unfold in_workspace. cbn. rewrite (Hn e He). destruct (str_eqb ws ws') eqn:E; [|done].
    by apply str_eqb_eq in E.
Qed.

Lemma append_ok s batch : forallb valid_event batch = true -> ledger_ok s -> ledger_ok (append_timeline_events s batch).1.
Proof.
  intros Hv [Hseq Hkeys Hev Hc]. destruct (append_grows s batch Hv) as (ws & news & El & Ec & Hn & Hnd & Hfresh & _).
  assert (forall ws', rows (append_timeline_events s batch).1 ws' = rows s ws' ++ if decide (ws = ws') then numbered ((cursor_state s ws).1 + 1) news else []) as Er.
  { intros ws'. unfold rows. rewrite El, keep_app. f_equal. apply keep_numbered. intros e He. by apply Hn. }
  split.
  - intros ws'. rewrite Er, fmap_app, Hseq, Ec. case_decide as Hd; [subst ws'|by rewrite app_nil_r, Z.add_0_r].
    rewrite numbered_sequences, seqZ_app by (apply Hc || lia). by rewrite (Z.add_comm 1).
  - intros ws'. rewrite Er, fmap_app. case_decide as Hd; [subst ws'|by rewrite app_nil_r]. rewrite numbered_keys. apply NoDup_app. split_and!; [done| |done].
    intros k Hk Hk'. by apply (Hfresh k).
  - intros r. rewrite El. intros [Hr|(e & n & He & ->)%elem_of_numbered]%elem_of_app; [by apply Hev|]. exists e, n. split; [by apply Hn|done].
  - intros ws'. rewrite Ec. specialize (Hc ws'). case_decide; lia.
Qed.

Lemma retention_ok s ws n s' k :
  advance_timeline_retention s ws n = Ok (s', k) ->
  ledger s' = ledger s /\ forall ws', (cursor_state s' ws').1 = (cursor_state s ws').1.
Proof.
  unfold advance_timeline_retention. intros Hs. res_inv. set (c0 := {| last_sequence := 0; retained_from_sequence := n |}) in *.
  destruct (ensure_cursor_state s ws c0 ws eq_refl) as [_ El]. set (s1 := ensure_cursor s ws c0) in *.
  assert (forall ws', (cursor_state s1 ws').1 = (cursor_state s ws').1) as Es by (intros ws'; by apply ensure_cursor_state).
  destruct (_ <? n); simplify_eq; [|done]. cbn [ledger]. split; [done|]. intros ws'. rewrite <- Es. unfold cursor_state. cbn [cursors]. rewrite lookup_insert.
  case_decide as Hd; [subst ws'|done]. by destruct (cursors s1 !! ws).
Qed.

Lemma reachable_ledger_ok s : reachable s -> ledger_ok s.
Proof.
  induction 1 as [|s s' _ IH Hstep]; [split; cbn; intros; try done; [constructor|by apply elem_of_nil in H]|].
  destruct Hstep as [s batch Hv|s ws n s' k Hr]; [by apply append_ok|]. destruct (retention_ok _ _ _ _ _ Hr) as [El Ec]. destruct IH as [H1 H2 H3 H4].
  unfold rows in *. split; unfold rows; rewrite ?El; intros; rewrite ?Ec; eauto.
Qed.

(** ** The answers of an append *)

Definition of_key (k : string) (e : TimelineEvent) : bool := str_eqb (source_key e) k.

Lemma row_of_key_app l1 l2 ws k :
  row_of_key (l1 ++ l2) ws k = match row_of_key l1 ws k with Some r => Some r | None => row_of_key l2 ws k end.
Proof. unfold row_of_key. rewrite keep_app. by destruct (keep _ l1). Qed.

Lemma row_of_numbered first es ws k r :
  row_of_key (numbered first es) ws k = Some r -> exists e n, e ∈ es /\ source_key e = k /\ r = event_values e n.
Proof.
  intros Hr. pose proof (row_of_key_spec (numbered first es) ws k) as Hs. rewrite Hr in Hs. destruct Hs as (Hin & _ & Hk).
  apply elem_of_numbered in Hin as (e & n & He & ->). by exists e, n.
Qed.

Lemma append_parts s e0 batch0 ws :
  (forall e, e ∈ e0 :: batch0 -> scope_workspace_id e = ws) ->
  exists first ks s', let new := numbered first (omap (dict_get (first_events (e0 :: batch0))) ks) in
    append_timeline_events s (e0 :: batch0) = (s', appends (row_of_key (ledger s) ws) (row_of_key new ws) [] (e0 :: batch0)) /\
    ledger s' = ledger s ++ new /\ is_Some (cursors s' !! ws) /\
    (forall k, k ∈ ks <-> k ∈ source_key <$> e0 :: batch0 /\ row_of_key (ledger s) ws k = None) /\
    (ks = [] -> s' = ensure_cursor s ws fresh_cursor).
Proof.
  intros Hws. unfold append_timeline_events. rewrite (Hws e0) by left.
  assert (existsb (fun e => negb (str_eqb (scope_workspace_id e) ws)) (e0 :: batch0) = false) as ->.
  { apply not_true_iff_false. rewrite existsb_elem. intros (e & He & Hn). rewrite (Hws e He), str_eqb_refl in Hn. done. }
  destruct (ensure_cursor_state s ws fresh_cursor ws eq_refl) as [_ El]. set (batch := e0 :: batch0). set (s1 := ensure_cursor s ws fresh_cursor) in *. rewrite El.
  set (ks := keep _ (unique_first (source_key <$> batch))). set (news := omap _ ks). set (c := default _ _).
  eexists _, ks, _. cbv zeta. fold news. split_and!; [reflexivity| | | |].
  - destruct news; [by rewrite app_nil_r|]. cbn [ledger]. by rewrite ?El.
  - destruct news; [|cbn [cursors]; rewrite lookup_insert, decide_True by done; by eexists]. unfold s1, ensure_cursor.
    destruct (cursors s !! ws) eqn:E; [by rewrite E|]. cbn [cursors]. rewrite lookup_insert, decide_True by done. by eexists.
  - intros k. unfold ks. rewrite elem_of_keep, elem_of_unique_first, negb_true_iff, bool_decide_eq_false, eq_None_not_Some. done.
  - intros Hk. assert (news = []) as -> by (unfold news; by rewrite Hk). done.
Qed.

Section Answers.
Context (existing inserted : string -> option TimelineLedgerEvent).

Definition row_for (k : string) : option TimelineLedgerEvent := match inserted k with Some r => Some r | None => existing k end.

Lemma appends_spec reported batch :
  (forall e, e ∈ batch -> exists r e', row_for (source_key e) = Some r /\ event_from_row r = Ok e') ->
  exists answers, appends existing inserted reported batch = Ok answers /\
    Forall2 (fun e a => exists r, row_for (source_key e) = Some r /\ l_sequence r = ap_sequence a /\ event_from_row r = Ok (ap_event a) /\
      (ap_inserted a = true -> is_Some (inserted (source_key e)) /\ source_key e ∉ reported /\ head (keep (of_key (source_key e)) batch) = Some e))
      batch answers.
Proof.
  revert reported. induction batch as [|e batch IH]; intros reported Hb; [by exists []|].
  destruct (Hb e (list_elem_of_here _ _)) as (r & e' & Hr & He). destruct (IH (source_key e :: reported)) as (answers & Ha & Hall); [intros; apply Hb; by right|].
  cbn [appends]. fold (row_for (source_key e)). rewrite Hr. cbn [raise_none mbind res_bind]. rewrite He. cbn [mbind res_bind]. rewrite Ha. cbn [mbind res_bind].
  eexists. split; [reflexivity|]. constructor.
  - exists r. split_and!; try done. cbn [ap_inserted keep]. rewrite andb_true_iff, negb_true_iff, bool_decide_eq_true, bool_decide_eq_false.
    intros [Hi Hn]. unfold of_key. by rewrite str_eqb_refl.
  - apply (Forall2_impl _ _ _ _ Hall). intros e2 a (r2 & Hr2 & Hs & He2 & Hi). exists r2. split_and!; try done. intros Ht. destruct (Hi Ht) as (H1 & H2 & H3).
    rewrite not_elem_of_cons in H2. destruct H2 as [Hne Hn]. split_and!; try done. cbn [keep]. unfold of_key at 1.
    destruct (str_eqb (source_key e) (source_key e2)) eqn:E; [|done]. by apply str_eqb_eq in E.
Qed.
End Answers.

(** What is stored after an append: the row of a key is the old one, or the
    first event of the batch with that key. *)
Lemma append_stored s batch ws :
  ledger_ok s -> forallb valid_event batch = true -> (forall e, e ∈ batch -> scope_workspace_id e = ws) -> batch <> [] ->
  exists new s', append_timeline_events s batch = (s', appends (row_of_key (ledger s) ws) (row_of_key new ws) [] batch) /\
    ledger s' = ledger s ++ new /\ is_Some (cursors s' !! ws) /\
    (forall k, row_for (row_of_key (ledger s) ws) (row_of_key new ws) k = row_of_key (ledger s') ws k) /\
    (forall e, e ∈ batch -> exists r e', row_of_key (ledger s') ws (source_key e) = Some r /\ event_from_row r = Ok e') /\
    (forall k r, row_of_key new ws k = Some r ->
       row_of_key (ledger s) ws k = None /\ exists e n, head (keep (of_key k) batch) = Some e /\ r = event_values e n).
Proof.
  intros Hok Hv Hws Hne. pose proof (append_ok s batch Hv Hok) as Hok'. destruct batch as [|e0 batch0]; [done|].
  destruct (append_parts s e0 batch0 ws Hws) as (first & ks & s1 & Ea & El & Hc & Hks & _). set (batch := e0 :: batch0) in *. cbv zeta in *.
  destruct (new_event_keys batch ks) as [Ek Eb]; [intros k Hk; by apply Hks in Hk as [? _]|].
  set (news := omap (dict_get (first_events batch)) ks) in *. set (new := numbered first news) in *. rewrite Ea in Hok' |- *. cbn [fst] in Hok'.
  assert (forall k r, row_of_key new ws k = Some r ->
       row_of_key (ledger s) ws k = None /\ exists e n, head (keep (of_key k) batch) = Some e /\ r = event_values e n) as Hnew.
  { intros k r Hr. apply row_of_numbered in Hr as (e & n & He & Hk & ->). assert (k ∈ ks) as Hin by (rewrite <- Ek, <- Hk; by apply list_elem_of_fmap_2).
    split; [by apply Hks|]. exists e, n. split; [|done]. apply list_elem_of_omap in He as (k1 & _ & Hg). rewrite first_events_get in Hg.
    pose proof (head_keep (fun e => str_eqb (source_key e) k1) batch) as Hh. rewrite Hg in Hh. destruct Hh as [_ <-%str_eqb_eq]. by rewrite <- Hk. }
  assert (forall k, row_for (row_of_key (ledger s) ws) (row_of_key new ws) k = row_of_key (ledger s1) ws k) as Hrow.
  { intros k. rewrite El, row_of_key_app. unfold row_for. destruct (row_of_key new ws k) as [r|] eqn:Er; [|by destruct (row_of_key (ledger s) ws k)].
    by destruct (Hnew k r Er) as [-> _]. }
  exists new, s1. split_and!; try done. intros e He.
  pose proof (row_of_key_spec (ledger s1) ws (source_key e)) as Hspec. destruct (row_of_key (ledger s1) ws (source_key e)) as [r|] eqn:Er.
  - destruct Hspec as (Hin & _). destruct (lk_events _ Hok' r Hin) as (e' & n & Hve & ->). exists (event_values e' n), e'. by rewrite event_round_trip.
  - exfalso. apply Hspec. rewrite El, keep_app, fmap_app. apply elem_of_app. rewrite El, row_of_key_app in Er.
    destruct (row_of_key (ledger s) ws (source_key e)) eqn:Eo; [done|]. right. unfold new.
    rewrite (keep_numbered ws) by (intros e' He'; by apply Hws, Eb). rewrite decide_True by done. rewrite numbered_keys, Ek. apply Hks.
    split; [by apply list_elem_of_fmap_2|done].
Qed.

Lemma append_again s batch ws :
  is_Some (cursors s !! ws) -> (forall e, e ∈ batch -> scope_workspace_id e = ws) -> batch <> [] ->
  (forall e, e ∈ batch -> is_Some (row_of_key (ledger s) ws (source_key e))) ->
  append_timeline_events s batch = (s, appends (row_of_key (ledger s) ws) (fun _ => None) [] batch).
Proof.
  intros Hc Hws Hne Hknown. destruct batch as [|e0 batch0]; [done|].
  destruct (append_parts s e0 batch0 ws Hws) as (first & ks & s1 & Ea & _ & _ & Hks & Hnil). cbv zeta in *.
  assert (ks = []) as ->.
  { destruct ks as [|k ks]; [done|]. exfalso. destruct (proj1 (Hks k) (list_elem_of_here _ _)) as [(e & -> & He)%list_elem_of_fmap Hno].
    destruct (Hknown e He) as [r Hr]. congruence. }
  rewrite Ea, Hnil by done. unfold ensure_cursor. by destruct Hc as [c ->].
Qed.

(** C38: Every event is answered with its row of the ledger, and what is reported as
    inserted is the event itself, in a row that was not there before.  Sending
    the batch again changes nothing and gives the same answers, with nothing
    inserted. *)
Theorem append_answers_what_is_stored s batch ws s' answer :
  reachable s -> forallb valid_event batch = true -> (forall e, e ∈ batch -> scope_workspace_id e = ws) -> batch <> [] ->
  append_timeline_events s batch = (s', answer) ->
  exists answers, answer = Ok answers /\
    Forall2 (fun e a => exists r, r ∈ ledger s' /\ l_workspace_id r = ws /\ l_source_key r = source_key e /\ l_sequence r = ap_sequence a /\
      event_from_row r = Ok (ap_event a) /\ (ap_inserted a = true -> ap_event a = e /\ r ∉ ledger s)) batch answers /\
    exists again, append_timeline_events s' batch = (s', Ok again) /\
      Forall2 (fun a b => ap_event b = ap_event a /\ ap_sequence b = ap_sequence a /\ ap_inserted b = false) answers again.
Proof.
  intros Hs Hv Hws Hne. destruct (append_stored s batch ws (reachable_ledger_ok _ Hs) Hv Hws Hne) as (new & s1 & -> & El & Hc & Hrow & Hall & Hnew). intros [= <- <-].
  destruct (appends_spec (row_of_key (ledger s) ws) (row_of_key new ws) [] batch) as (answers & -> & Hans); [intros e He; rewrite Hrow; by apply Hall|].
  destruct (appends_spec (row_of_key (ledger s1) ws) (fun _ => None) [] batch Hall) as (again & Eagain & Hagain).
  exists answers. split_and!; [done| |exists again].
  - apply (Forall2_impl_elem _ _ _ _ Hans). intros e a He (r & Hr & Hseq & Hev & Hi). rewrite Hrow in Hr.
    pose proof (row_of_key_spec (ledger s1) ws (source_key e)) as Hspec. rewrite Hr in Hspec. destruct Hspec as (Hin & Hw & Hk).
    exists r. split_and!; try done. intros Ht. destruct (Hi Ht) as ((r' & Hr') & _ & Hfirst).
    assert (r' = r) as -> by (rewrite <- Hrow in Hr; unfold row_for in Hr; rewrite Hr' in Hr; congruence).
    destruct (Hnew _ _ Hr') as (Hnone & e1 & n & Hg & ->). rewrite Hfirst in Hg. injection Hg as <-. split.
    + rewrite event_round_trip in Hev; [by injection Hev|]. rewrite forallb_elem in Hv. by apply Hv.
    + intros Hold. pose proof (row_of_key_spec (ledger s) ws (source_key e)) as Hspec. rewrite Hnone in Hspec. apply Hspec.
      apply list_elem_of_fmap. eexists. split; [symmetry; exact Hk|]. apply elem_of_keep. split; [done|]. by apply str_eqb_eq.
  - split; [rewrite append_again with (ws := ws), Eagain; try done; intros e He; destruct (Hall e He) as (r & _ & -> & _); by eexists|].
    apply Forall2_flip in Hans. refine (Forall2_compose _ _ _ _ _ _ _ Hans Hagain). intros a e b (r & Hr & Hseq & Hev & _) (r' & Hr' & Hseq' & Hev' & Hi).
    rewrite Hrow in Hr. cbn [row_for] in Hr'. assert (r' = r) as -> by congruence. split_and!; [congruence|congruence|].
    destruct (ap_inserted b); [|done]. by destruct (Hi eq_refl) as ([? ?] & _).
Qed.

(** ** Replay *)

Inductive later (s : db) : db -> Prop :=
  | Now : later s s
  | Then s1 s2 : later s s1 -> step s1 s2 -> later s s2.

Lemma later_reachable s s' : reachable s -> later s s' -> reachable s'.
Proof. intros Hs. induction 1; [done|]. by eapply Next. Qed.

(** Rows are only added at the end. *)
Lemma later_grows s s' : later s s' -> exists news, ledger s' = ledger s ++ news.
Proof.
  induction 1 as [|s1 s2 _ [n1 IH] Hstep]; [exists []; by rewrite app_nil_r|]. destruct Hstep as [s1 batch Hv|s1 ws n s2 k Hr].
  - destruct (append_grows s1 batch Hv) as (ws & n2 & E & _). rewrite E, IH, <- app_assoc. by eexists.
  - destruct (retention_ok _ _ _ _ _ Hr) as [E _]. exists n1. by rewrite E, IH.
Qed.

Lemma isort_of_sorted (l : list TimelineLedgerEvent) : StronglySorted (fun a b => by_sequence a b = true) l -> isort by_sequence l = l.
Proof.
  induction 1 as [|x l _ IH Hx]; [done|]. cbn [isort]. rewrite IH. destruct l as [|y l]; [done|]. cbn [insert_sorted]. by apply Forall_cons in Hx as [-> _].
Qed.

Lemma sorted_sequences l n m : l_sequence <$> l = seqZ n m -> StronglySorted (fun a b => by_sequence a b = true) l.
Proof.
  revert n m. induction l as [|r l IH]; intros n m E; [constructor|]. destruct (decide (0 < m)); [|rewrite seqZ_nil in E by lia; done].
  rewrite seqZ_cons in E by done. cbn in E. injection E as Er El. constructor; [by apply (IH _ _ El)|]. apply Forall_forall. intros r' Hr'.
  assert (l_sequence r' ∈ seqZ (Z.succ n) (Z.pred m)) as Hin by (rewrite <- El; by apply list_elem_of_fmap_2). rewrite elem_of_seqZ in Hin. apply Z.leb_le. lia.
Qed.

Lemma sorted_kept p (l : list TimelineLedgerEvent) :
  StronglySorted (fun a b => by_sequence a b = true) l -> StronglySorted (fun a b => by_sequence a b = true) (keep p l).
Proof.
  induction 1 as [|x l _ IH Hx]; cbn; [constructor|]. destruct (p x); [|done]. constructor; [done|].
  rewrite Forall_forall in Hx |- *. intros y [Hy _]%elem_of_keep. by apply Hx.
Qed.

Lemma keep_and {A} (p q : A -> bool) l : keep (fun x => p x && q x) l = keep q (keep p l).
Proof. induction l as [|x l IH]; cbn; [done|]. destruct (p x), (q x) eqn:E; cbn; rewrite ?E, IH; done. Qed.

Lemma keep_same {A} (p q : A -> bool) l : (forall x, x ∈ l -> p x = q x) -> keep p l = keep q l.
Proof.
  induction l as [|x l IH]; intros Hpq; [done|]. cbn. rewrite (Hpq x) by left. rewrite IH; [done|]. intros; apply Hpq; by right.
Qed.

(** The rows after the high-water mark of an earlier state are the rows that
    were added since. *)
Lemma rows_since s s' ws matches :
  ledger_ok s -> ledger_ok s' -> forall news, ledger s' = ledger s ++ news ->
  timeline_rows ws (cursor_state s ws).1 (cursor_state s' ws).1 matches (ledger s') = keep matches (keep (in_workspace ws) news).
Proof.
  intros Hok Hok' news E. unfold timeline_rows.
  rewrite (keep_same _ (fun r => in_workspace ws r && (((cursor_state s ws).1 <? l_sequence r) && (l_sequence r <=? (cursor_state s' ws).1) && matches r)))
    by (intros; by rewrite !andb_assoc).
  rewrite keep_and. pose proof (lk_sequences _ Hok ws) as H1. pose proof (lk_sequences _ Hok' ws) as H2. pose proof (lk_count _ Hok ws) as H0.
  fold (rows s' ws). unfold rows in H1, H2 |- *. rewrite isort_of_sorted by (eapply sorted_kept, sorted_sequences; exact H2).
  rewrite E, keep_app in H2 |- *. rewrite fmap_app, H1 in H2. rewrite keep_app.
  set (old := keep (in_workspace ws) (ledger s)) in *. set (new := keep (in_workspace ws) news) in *. set (h := (cursor_state s ws).1) in *.
  set (h' := (cursor_state s' ws).1) in *.
  assert (h <= h') as Hle.
  { apply (f_equal length) in H2. rewrite length_app, !length_seqZ, length_fmap in H2. pose proof (lk_count _ Hok' ws). subst h h'. lia. }
  replace h' with (h + (h' - h)) in H2 by lia. rewrite seqZ_app in H2 by lia. apply app_inv_head in H2.
  rewrite keep_false, app_nil_l.
  - apply keep_same. intros r Hr. assert (l_sequence r ∈ seqZ (1 + h) (h' - h)) as Hin by (rewrite <- H2; by apply list_elem_of_fmap_2).
    rewrite elem_of_seqZ in Hin. destruct (Z.ltb_spec h (l_sequence r)), (Z.leb_spec (l_sequence r) h'); cbn; done || lia.
  - intros r Hr. assert (l_sequence r ∈ seqZ 1 h) as Hin by (rewrite <- H1; by apply list_elem_of_fmap_2). rewrite elem_of_seqZ in Hin.
    destruct (Z.ltb_spec h (l_sequence r)); cbn; done || lia.
Qed.

Definition record_of (e : TimelineEvent) (r : TimelineLedgerEvent) (rec : TimelineLedgerRecord) : Prop :=
  rec = {| rec_sequence := l_sequence r; rec_event := e |} /\ event_from_row r = Ok e.

Lemma records_of_rows s l : ledger_ok s -> (forall r, r ∈ l -> r ∈ ledger s) ->
  exists recs, mapr record_from_row l = Ok recs /\ Forall2 (fun r rec => exists e, record_of e r rec) l recs.
Proof.
  intros Hok. induction l as [|r l IH]; intros Hl; [by exists []|].
  destruct IH as (recs & E & Hrecs); [intros; apply Hl; by right|]. destruct (lk_events _ Hok r (Hl r (list_elem_of_here _ _))) as (e & n & Hv & ->).
  assert (1 <= n) as Hn.
  { assert (n ∈ seqZ 1 (cursor_state s (scope_workspace_id e)).1) as Hin; [|rewrite elem_of_seqZ in Hin; lia].
    rewrite <- (lk_sequences _ Hok). apply list_elem_of_fmap. exists (event_values e n). split; [done|]. apply elem_of_keep. split; [apply Hl; left|].
    apply str_eqb_refl. }
  assert (record_from_row (event_values e n) = Ok {| rec_sequence := n; rec_event := e |}) as Erec.
  { unfold record_from_row. rewrite event_round_trip by done. cbn [mbind res_bind event_values l_sequence]. by destruct (Z.ltb_spec n 1); [lia|]. }
  exists ({| rec_sequence := n; rec_event := e |} :: recs). split; [transitivity (y ← record_from_row (event_values e n); ys ← mapr record_from_row l; Ok (y :: ys)); [done|by rewrite Erec, E]|].
  constructor; [|done]. exists e. split; [done|]. by apply event_round_trip.
Qed.

(** C37: a reader that resumes at the high-water mark of an earlier state
    misses nothing and sees nothing twice.  As long as the retention of the
    workspace has not passed that mark, it gets the selected events that were
    appended since, all of them up to the limit, in the order they were
    appended, and none that it has seen; when the retention has passed it, the
    answer has no events and asks for a resynchronisation. *)
Theorem replay_resumes_where_it_stopped `{ReprLib} collation s s' rs p now limit sql :
  reachable s -> later s s' -> timeline_evidence_sql_predicate collation p Stream now = Ok sql ->
  1 <= limit <= MAX_TIMELINE_EVENTS ->
  let mark := (cursor_state s (rs_workspace_id rs)).1 in
  let '(high_water, retained_from) := cursor_state s' (rs_workspace_id rs) in
  exists news, ledger s' = ledger s ++ news /\
    (retained_from <= mark + 1 ->
       exists recs, replay_timeline_events collation s' rs p now mark limit = Ok (Available recs high_water retained_from) /\
         Forall2 (fun r rec => exists e, record_of e r rec)
           (take (Z.to_nat limit) (keep sql (keep (in_workspace (rs_workspace_id rs)) news))) recs) /\
    (mark + 1 < retained_from ->
       replay_timeline_events collation s' rs p now mark limit = Ok (ResyncRequired high_water retained_from)).
Proof.
  intros Hs Hl Hsql Hlim. destruct (later_grows _ _ Hl) as [news E]. set (ws := rs_workspace_id rs) in *.
  pose proof (reachable_ledger_ok _ Hs) as Hok. pose proof (reachable_ledger_ok _ (later_reachable _ _ Hs Hl)) as Hok'.
  destruct (records_of_rows s' (take (Z.to_nat limit) (keep sql (keep (in_workspace ws) news)))) as (recs & Er & Hrecs); [done| |].
  { intros r Hr. rewrite E. apply elem_of_app. right. apply elem_of_take in Hr as (i & Hi & _). apply list_elem_of_lookup_2 in Hi.
    apply elem_of_keep in Hi as [[Hi _]%elem_of_keep _]. done. }
  pose proof (lk_count _ Hok ws) as Hc. pose proof (rows_since s s' ws sql Hok Hok' news E) as Hrows.
  unfold replay_timeline_events, validate_requested_limit, read_records. fold ws. unfold MAX_TIMELINE_EVENTS in *. cbn zeta.
  destruct (cursor_state s' ws) as [high retained] eqn:Ec'. cbn [fst snd] in *. exists news. split; [done|].
  destruct (Z.ltb_spec (cursor_state s ws).1 0), (Z.ltb_spec limit 1), (Z.ltb_spec 10000 limit), (Z.ltb_spec (cursor_state s ws).1 (retained - 1)),
    (Z.ltb_spec (10000 + 1) limit); try lia; cbn [orb raise_if mbind res_bind]; (split; [intros Hret|intros Hpast]); try lia; [done|].
  exists recs. split; [|done]. rewrite Hsql. cbn [mbind res_bind]. by rewrite Hrows, Er.
Qed.

(** C39: The ledger of a workspace is numbered from one without gaps, no source key
    occurs twice, and every row is an event that can be read back; the count
    of the diagnostics, which is only read off the cursor, is exact. *)
Theorem ledger_is_contiguous s ws :
  reachable s ->
  (l_sequence <$> rows s ws) = seqZ 1 (event_count (timeline_diagnostics s ws)) /\
  event_count (timeline_diagnostics s ws) = Z.of_nat (length (rows s ws)) /\
  NoDup (l_source_key <$> rows s ws) /\ forall r, r ∈ rows s ws -> is_ok (event_from_row r) = true.
Proof.
  intros Hok%reachable_ledger_ok. pose proof (lk_sequences _ Hok ws) as Hs. pose proof (lk_count _ Hok ws) as Hc. cbn [timeline_diagnostics event_count].
  split_and!; [done| |by apply lk_keys|].
  - apply (f_equal length) in Hs. rewrite length_fmap, length_seqZ in Hs. lia.
  - intros r [Hr _]%elem_of_keep. destruct (lk_events _ Hok r Hr) as (e & n & Hv & ->). by rewrite event_round_trip.
Qed.

(** ** A workspace with one cluster *)
Module Sample.
#[local] Existing Instance Demo.plain_repr.

Definition pod (key name : string) (at_ : Z) : TimelineEvent :=
  {| event_id := key; source := "inventory"; source_key := key; native_id := "k-" +:+ name; activity := "change"; occurred_at := at_;
     scope_workspace_id := "w1"; scope_cluster_id := "c1"; scope_freshness := "live";
     subject := TimelineInventoryLocatorSubject ("k-" +:+ name) "" "v1" "Pod" (Some "shop") name; resource := None; event_type := "add";
     severity := "info"; title := "Pod " +:+ name +:+ " added"; owner := None; metadata := [] |}.

Definition reader : TimelineLedgerReadScope :=
  {| rs_workspace_id := "w1"; rs_scopes := [{| sc_workspace_id := "w1"; sc_cluster_id := "c1"; sc_namespaces := ["shop"] |}];
     inventory_cluster_ids := ["c1"]; kubernetes_event_cluster_ids := []; incident_cluster_ids := []; application_workflow_ids := [];
     gitops_application_ids := [] |}.

Definition searching (search : string) : TimelineEvidencePredicate :=
  {| p_read_scope := reader;
     p_replay_identity := {| ri_scopes := rs_scopes reader; ri_window := {| from_ms := 0; to_ms := 5000 |}; ri_mode := "frozen";
       ri_filters := {| ef_activity := []; ef_kinds := ["Pod"]; ef_include_deleted := false; ef_pinned_only := false; ef_search := search |};
       ri_pin_set_revision := None |};
     p_pin_membership := None |}.

Definition web : TimelineEvent := pod "a" "web_1" (2 * SECOND).
Definition api : TimelineEvent := pod "b" "api" (3 * SECOND).

Lemma sql_predicate_is_the_guard_witness :
  exists sql, timeline_evidence_sql_predicate (fun c => c) (searching "WEB_") Stream 0 = Ok sql /\
    guard (searching "WEB_") Stream 0 web = Ok (sql (event_values web 1)).
Proof. apply (sql_predicate_is_the_guard (fun c => c) (searching "WEB_") reader Stream 0 web 1); vm_compute; reflexivity. Defined.

(** [casefold] writes a sharp s as two letters, and the database does not: the
    guard lets an event through that no stored read returns. *)
Lemma sharp_s_differs :
  let sharp := pod "c" ("stra" +:+ String (ascii_of_nat 223) "e") (2 * SECOND) in
  valid_event sharp = true /\ guard (searching "strasse") Snapshot 0 sharp = Ok true /\
  (sql ← timeline_evidence_sql_predicate (fun c => c) (searching "strasse") Snapshot 0; Ok (sql (event_values sharp 1))) = Ok false.
Proof. vm_compute. done. Qed.

Definition empty : db := {| cursors := ∅; ledger := [] |}.
Definition one : db := (append_timeline_events empty [web]).1.
Definition two : db := (append_timeline_events one [api; web]).1.

Lemma reachable_one : reachable one.
Proof. apply (Next empty); [constructor|]. by apply Appended. Qed.

Lemma ledger_is_contiguous_witness : NoDup (l_source_key <$> rows one "w1") /\ event_count (timeline_diagnostics one "w1") = 1.
Proof. split; [apply (ledger_is_contiguous one "w1" reachable_one)|reflexivity]. Defined.

Lemma append_answers_what_is_stored_witness : exists answers, (append_timeline_events one [api; web]).2 = Ok answers.
Proof.
  assert (forall e, e ∈ [api; web] -> scope_workspace_id e = "w1") as Hws by (by intros e [->|[->|?%elem_of_nil]%elem_of_cons]%elem_of_cons).
  destruct (append_answers_what_is_stored one [api; web] "w1" two _ reachable_one eq_refl Hws ltac:(discriminate) (surjective_pairing _)) as (answers & E & _).
  exists answers. exact E.
Defined.

(** The ledger after the retention has passed its only event. *)
Definition kept : db := match advance_timeline_retention two "w1" 3 with Ok (s, _) => s | Err _ => two end.

Lemma later_two : later one two.
Proof. apply (Then _ one); [constructor|]. by apply Appended. Qed.

Lemma replay_resumes_where_it_stopped_witness :
  (exists recs, replay_timeline_events (fun c => c) two reader (searching "") 0 1 10 = Ok (Available recs 2 1)) /\
  replay_timeline_events (fun c => c) kept reader (searching "") 0 1 10 = Ok (ResyncRequired 2 3).
Proof.
  assert (is_ok (timeline_evidence_sql_predicate (fun c => c) (searching "") Stream 0) = true) as Hok by (vm_compute; reflexivity).
  destruct (timeline_evidence_sql_predicate (fun c => c) (searching "") Stream 0) as [sql|] eqn:E; [clear Hok|discriminate Hok].
  assert (1 <= 10 <= MAX_TIMELINE_EVENTS) as Hlim by (vm_compute; split; intros; discriminate). split.
  - destruct (replay_resumes_where_it_stopped (fun c => c) one two reader (searching "") 0 10 sql reachable_one later_two E Hlim)
      as (news & _ & Havail & _). destruct Havail as (recs & Hrecs & _); [vm_compute; intros; discriminate|]. exists recs. exact Hrecs.
  - assert (later one kept) as Hlater
      by (apply (Then _ two); [exact later_two|]; apply (Retained two "w1" 3 kept 3); vm_compute; reflexivity).
    destruct (replay_resumes_where_it_stopped (fun c => c) one kept reader (searching "") 0 10 sql reachable_one Hlater E Hlim)
      as (news & _ & _ & Hpast). exact (Hpast ltac:(vm_compute; reflexivity)).
Defined.
End Sample.
End TimelineLedger.
