(* ===== verification/HistoryIngest.v ===== *)
(** * Evidence as an inventory snapshot

    [src/src/domains/rca/history_ingest.py]: the Kubernetes payload of agent
    evidence is reused as an inventory snapshot.  It is a scoped collection and
    never fleet truth, so the only deletions it may prove are those of pods in
    a namespace whose list the agent proved complete; the expression of
    [save_inventory_snapshot_mutation] that reads these proofs is
    [scoped_delete_scopes]. *)
From S2P Require Import Prelude PyStr PyFloat PyVal PyTime Libs Demo DeleteScope KubernetesEvents.

Module HistoryIngest.
Import DeleteScope.

Definition SCOPED_COVERAGE_AUTHORITY_KEY : string := "scoped_coverage_authority".
Definition POD_COLLECTION : string := "pods".
Definition EVIDENCE_SNAPSHOT_SOURCE : string := "agent-evidence".
Definition INVALID_PROOF_REASON : string := "invalid_proof".
Definition PROOF_FLAGS : list string := ["observed"; "complete"; "delete_safe"; "truncated"].
Definition POD_SUMMARY_FIELDS : list string := ["phase"; "reason"; "restart_total"; "owner_kind"; "owner_name"; "owner_uid"].
Definition WORKLOAD_SUMMARY_FIELDS : list string :=
  ["generation"; "desired_replicas"; "ready_replicas"; "available_replicas"; "updated_replicas"; "unavailable_replicas"; "owner_kind"; "owner_name"].

Section ingest.
Context `{ReprLib} `{IsoTime}.
(** [value.isoformat()] of an aware datetime, in its own offset. *)
Context (isoformat_of : moment -> string).

(** ** Proofs of completeness *)

(** [flag] of a mapping that is a bool. *)
Definition is_bool (v : pyval) : bool := match v with VBool _ => true | _ => false end.

Definition is_well_typed (entry : dict) : bool :=
  let flags_are_bool := forallb (fun key => is_bool (get entry key)) PROOF_FLAGS in
  let reasons_are_text := match get entry "reason_codes" with VList l => forallb is_str l | _ => false end in
  let selector_is_text := match get entry "label_selector" with VNone | VStr _ => true | _ => false end in
  flags_are_bool && reasons_are_text && selector_is_text.

Definition grants_deletion (entry : dict) : bool :=
  let proved := truthy (get entry "observed") && truthy (get entry "complete") && truthy (get entry "delete_safe") in
  let clean := negb (truthy (get entry "truncated")) && negb (truthy (get entry "reason_codes")) && negb (truthy (get entry "label_selector")) in
  proved && clean.

(** [_entry(...)] *)
Definition entry_of (namespace : string) (observed complete truncated : bool) (reasons : list string) (label_selector : pyval) : dict :=
  [("collection", VStr POD_COLLECTION); ("scope", VStr "namespace"); ("namespace", VStr namespace); ("observed", VBool observed);
   ("complete", VBool complete); ("delete_safe", VBool complete); ("truncated", VBool truncated);
   ("label_selector", match label_selector with VStr s => if nonempty s then VStr s else VNone | _ => VNone end);
   ("reason_codes", VList (VStr <$> reasons))].

Definition text_codes (v : pyval) : list string := match v with VList l => omap as_str l | _ => [] end.

Definition unauthorized_entry (entry : dict) (namespace : string) : dict :=
  let named := if is_well_typed entry then isort String.leb (unique_first (text_codes (get entry "reason_codes"))) else [] in
  entry_of namespace (is_true (get entry "observed")) false (negb (is_false (get entry "truncated")))
    (match named with [] => [INVALID_PROOF_REASON] | _ => named end) (get entry "label_selector").

Definition proof_entry (entry : dict) (namespace : string) : dict :=
  if is_well_typed entry && grants_deletion entry then entry_of namespace true true false [] VNone
  else unauthorized_entry entry namespace.

Definition pod_list_limited (kubernetes : dict) : bool :=
  match dict_get kubernetes "collection_limits" with
  | None => false
  | Some (VDict limits) =>
      match get limits "truncated", get limits "lists" with
      | VBool truncated, VDict lists =>
          if negb (Bool.eqb truncated (truthy (VDict lists))) then true else has_key lists POD_COLLECTION
      | _, _ => true
      end
  | Some _ => true
  end.

Definition pod_coverage_entry (entry : pyval) : option dict :=
  match entry with
  | VDict entry =>
      if negb (py_eqb (get entry "collection") (VStr POD_COLLECTION)) then None
      else match get entry "namespace" with
           | VStr namespace =>
               if negb (py_eqb (get entry "scope") (VStr "namespace")) || is_empty namespace then None
               else Some (proof_entry entry namespace)
           | _ => None
           end
  | _ => None
  end.

Definition pod_coverage (kubernetes : dict) : list dict :=
  match get kubernetes COLLECTION_COVERAGE_SUMMARY_KEY with
  | VList raw => if pod_list_limited kubernetes then [] else omap pod_coverage_entry raw
  | _ => []
  end.

(** ** Resources *)

Definition identified (value : pyval) : list dict :=
  match value with
  | VList l => omap (fun item => match item with
                                 | VDict d => match get d "name" with VStr s => if nonempty s then Some d else None | _ => None end
                                 | _ => None
                                 end) l
  | _ => []
  end.

(** [_uid(item)] *)
Definition item_uid (item : dict) : pyval := match get item "uid" with VStr s => if nonempty (strip s) then VStr (strip s) else VNone | _ => VNone end.

Definition evidence_resource (item : dict) (resource_type api_version kind : string) (status : pyval) (fields : list string) : dict :=
  [("resource_type", VStr resource_type); ("api_version", VStr api_version); ("kind", VStr kind); ("namespace", get item "namespace");
   ("name", get item "name"); ("uid", item_uid item); ("resource_version", get item "resource_version");
   ("status", VStr (if truthy status then py_str status else "unknown"));
   ("summary", VDict (omap (fun f => if is_none (get item f) then None else Some (f, get item f)) fields))].

Definition or_str (v : pyval) (other : string) : string := if truthy v then py_str v else other.

Definition pod_resources (value : pyval) : list dict :=
  (fun item => evidence_resource item "pod" "v1" "Pod" (get item "phase") POD_SUMMARY_FIELDS) <$> identified value.
Definition workload_resources (value : pyval) : list dict :=
  (fun item => evidence_resource item "workload" (or_str (get item "api_version") "apps/v1") (or_str (get item "kind") "Workload") VNone
                 WORKLOAD_SUMMARY_FIELDS) <$> identified value.

(** ** The payload *)

Definition summary_base : dict := [("live_inventory", VBool false); ("resources_complete", VBool false); ("labels_complete", VBool false)].

(** [if ...: d[k] = v] *)
Definition put_some (d : dict) (k : string) (o : option pyval) : dict := match o with Some v => dict_set d k v | None => d end.

Definition evidence_summary (kubernetes : dict) : dict :=
  let scopes := match get kubernetes "collection_scopes" with VList scopes => Some (VList (keep is_mapping scopes)) | _ => None end in
  let status := match get kubernetes "collection_status" with VDict status => Some (VDict status) | _ => None end in
  let coverage := match pod_coverage kubernetes with [] => None | coverage => Some (VList (VDict <$> coverage)) end in
  let capture := as_dict (get kubernetes "event_capture") in
  let summary := put_some summary_base "collection_scopes" scopes in
  let summary := put_some summary "collection_status" status in
  let summary := put_some summary COLLECTION_COVERAGE_SUMMARY_KEY coverage in
  let summary := put_some summary SCOPED_COVERAGE_AUTHORITY_KEY (_ ← coverage; Some (VBool true)) in
  let summary := put_some summary KubernetesEvents.EVENT_CAPTURE_SUMMARY_KEY
                   (c ← capture; Some (VDict (keep (fun kv => negb (str_eqb kv.1 "events")) c))) in
  put_some summary KubernetesEvents.EVENT_FACTS_SUMMARY_KEY
    (c ← capture; Some (match get c "events" with VList facts => VList facts | _ => VList [] end)).

(** [parse_timestamp] of [kubernetes_events.py], with the offset it keeps. *)
Definition parse_moment (v : pyval) : option moment :=
  match v with
  | VStr s =>
      if is_empty (strip s) then None
      else (fun m => Moment (m_wall m) (Some (default 0 (m_offset m)))) <$> fromisoformat (replace_char "Z" "+00:00" s)
  | _ => None
  end.

Definition evidence_inventory_payload (kubernetes : pyval) : option dict :=
  match kubernetes with
  | VDict kubernetes =>
      let collected_at := match get kubernetes "cluster" with VDict cluster => get cluster "collected_at" | _ => VNone end in
      match parse_moment collected_at with
      | None => None
      | Some observed =>
          let resources := pod_resources (get kubernetes "pods") ++ workload_resources (get kubernetes "workloads") in
          let summary := evidence_summary kubernetes in
          if bool_decide (resources = []) && negb (has_key summary KubernetesEvents.EVENT_CAPTURE_SUMMARY_KEY)
             && negb (truthy (get summary COLLECTION_COVERAGE_SUMMARY_KEY)) then None
          else Some [("collected_at", VStr (isoformat_of observed)); ("source", VStr EVIDENCE_SNAPSHOT_SOURCE); ("replace", VBool false);
                     ("resources", VList (VDict <$> resources)); ("summary", VDict summary)]
      end
  | _ => None
  end.

(** [dict(summary)] of a payload and the deletions the writer takes from it. *)
Definition source_summary (payload : dict) : dict := mapping (get payload "summary").

Definition scoped_delete_scopes (summary : dict) : list InventoryDeleteScope :=
  inventory_deletion_scopes (if is_true (get summary SCOPED_COVERAGE_AUTHORITY_KEY) then dict_set summary "live_inventory" (VBool true) else summary).

(** Whether the writer may treat the snapshot as the whole list. *)
Definition resources_complete (payload : dict) : bool :=
  let summary := source_summary payload in
  let source_truncated := match get summary "collection_limits" with VDict limits => is_true (get limits "truncated") | _ => false end in
  truthy (get payload "replace") && is_true (get summary "resources_complete") && negb source_truncated.

(** ** What the agent has to prove *)

(** The agent says of the pods of a namespace that it saw all of them. *)
Record proves_pods (entry : dict) (ns : string) : Prop := {
  pp_collection : get entry "collection" = VStr POD_COLLECTION;
  pp_scope : get entry "scope" = VStr "namespace";
  pp_namespace : get entry "namespace" = VStr ns;
  pp_observed : get entry "observed" = VBool true;
  pp_complete : get entry "complete" = VBool true;
  pp_delete_safe : get entry "delete_safe" = VBool true;
  pp_whole : get entry "truncated" = VBool false;
  pp_reasons : get entry "reason_codes" = VList [];
  pp_selector : get entry "label_selector" = VNone \/ get entry "label_selector" = VStr "";
}.

Definition proved_namespace (kubernetes : dict) (ns : string) : Prop :=
  pod_list_limited kubernetes = false /\ strip ns <> "" /\
  exists raw entry, get kubernetes COLLECTION_COVERAGE_SUMMARY_KEY = VList raw /\ VDict entry ∈ raw /\ proves_pods entry ns.

Lemma authorized_spec entry :
  is_well_typed entry && grants_deletion entry = true <->
  get entry "observed" = VBool true /\ get entry "complete" = VBool true /\ get entry "delete_safe" = VBool true /\
  get entry "truncated" = VBool false /\ get entry "reason_codes" = VList [] /\
  (get entry "label_selector" = VNone \/ get entry "label_selector" = VStr "").
Proof.
  unfold is_well_typed, grants_deletion, PROOF_FLAGS. cbn [forallb]. split.
  - rewrite !andb_true_iff, !negb_true_iff. intros ((((Ho & Hc & Hd & Ht & _) & Hr) & Hs) & ((To & Tc) & Td) & ((Tt & Tr) & Ts)).
    destruct (get entry "observed") as [|[]| | | | | |]; try discriminate. destruct (get entry "complete") as [|[]| | | | | |]; try discriminate.
    destruct (get entry "delete_safe") as [|[]| | | | | |]; try discriminate. destruct (get entry "truncated") as [|[]| | | | | |]; try discriminate.
    destruct (get entry "reason_codes") as [| | | | | |[|]|]; try discriminate.
    split_and!; try done. destruct (get entry "label_selector") as [| | | |[|]| | |]; try discriminate; auto.
  - intros (-> & -> & -> & -> & -> & [->| ->]); done.
Qed.

Lemma authorized_proves ns s :
  proves (entry_of ns true true false [] VNone) s <-> s = Scope "pod" (Some (strip ns)) /\ strip ns <> "".
Proof.
  split.
  - intros []. destruct pv_covers0 as (types & Ht & Hty & [(_ & _ & Hns & Hne)|(Hc & _)]); [|vm_compute in Hc; discriminate].
    change (text (get (entry_of ns true true false [] VNone) "collection")) with "pods" in Ht. injection Ht as <-. apply list_elem_of_singleton in Hty.
    change (text (get (entry_of ns true true false [] VNone) "namespace")) with (strip ns) in *. destruct s. cbn in *. by subst.
  - intros [-> Hne]. split; try done; [apply list_elem_of_here|]. exists ["pod"]. split_and!; [done|left|]. left. by split_and!.
Qed.

Lemma unauthorized_proves entry ns s : ~ proves (unauthorized_entry entry ns) s.
Proof. intros []. discriminate. Qed.

Lemma pod_coverage_proves k s :
  (exists entry, entry ∈ pod_coverage k /\ proves entry s) <-> exists ns, s = Scope "pod" (Some (strip ns)) /\ proved_namespace k ns.
Proof.
  unfold pod_coverage, proved_namespace. split.
  - intros (entry & Hin & Hp). destruct (get k COLLECTION_COVERAGE_SUMMARY_KEY) as [| | | | | |raw|] eqn:Ec; try by apply elem_of_nil in Hin.
    destruct (pod_list_limited k) eqn:El; [by apply elem_of_nil in Hin|]. apply list_elem_of_omap in Hin as (v & Hv & He). destruct v as [| | | | | | |e]; try done.
    cbn in He. destruct (py_eqb (get e "collection") _) eqn:E1; [|done]. apply py_eqb_VStr in E1. cbn [negb] in He.
    destruct (get e "namespace") as [| | | |ns| | |] eqn:En; try done. destruct (py_eqb (get e "scope") _) eqn:E2; [|done]. apply py_eqb_VStr in E2.
    cbn [negb orb] in He. destruct (is_empty ns); [done|]. injection He as <-. unfold proof_entry in Hp.
    destruct (is_well_typed e && grants_deletion e) eqn:Ea; [|by apply unauthorized_proves in Hp]. apply authorized_proves in Hp as [-> Hne].
    apply authorized_spec in Ea as (? & ? & ? & ? & ? & ?). exists ns. split_and!; try done. exists raw, e. by split_and!.
  - intros (ns & -> & El & Hne & raw & e & -> & Hin & []). rewrite El. exists (entry_of ns true true false [] VNone). split; [|by apply authorized_proves].
    apply list_elem_of_omap. exists (VDict e). split; [done|]. cbn. rewrite pp_collection0, pp_scope0, pp_namespace0. cbn.
    destruct ns as [|c ns]; [done|]. cbn. unfold proof_entry. rewrite (proj2 (authorized_spec e)) by (by split_and!). done.
Qed.

Lemma get_put_ne d k k' o : k <> k' -> get (put_some d k o) k' = get d k'.
Proof. intros Hk. destruct o; [by apply get_set_ne|done]. Qed.

Lemma get_put_eq d k o : get (put_some d k o) k = default (get d k) o.
Proof. destruct o; [apply get_set_eq|done]. Qed.

Lemma summary_not_live k : get (evidence_summary k) "live_inventory" = VBool false.
Proof. unfold evidence_summary. by rewrite !get_put_ne by done. Qed.

Lemma summary_coverage k :
  get (evidence_summary k) COLLECTION_COVERAGE_SUMMARY_KEY = (if bool_decide (pod_coverage k = []) then VNone else VList (VDict <$> pod_coverage k)) /\
  is_true (get (evidence_summary k) SCOPED_COVERAGE_AUTHORITY_KEY) = negb (bool_decide (pod_coverage k = [])).
Proof.
  unfold evidence_summary. cbv zeta. split.
  - rewrite !(get_put_ne _ _ COLLECTION_COVERAGE_SUMMARY_KEY) by done. rewrite get_put_eq, !get_put_ne by done. by destruct (pod_coverage k).
  - rewrite !(get_put_ne _ _ SCOPED_COVERAGE_AUTHORITY_KEY) by done. rewrite get_put_eq, !get_put_ne by done. by destruct (pod_coverage k).
Qed.

(** C40: The only deletions that evidence of an agent brings about are those of
    pods, in exactly the namespaces whose pod list the agent proved complete:
    observed, complete, safe to delete from, not truncated, without a reason
    or a selector, and with no limit on the pod lists.  The snapshot itself
    never replaces the inventory. *)
Theorem evidence_deletes_proved_pods k payload :
  evidence_inventory_payload (VDict k) = Some payload ->
  resources_complete payload = false /\
  forall s, s ∈ scoped_delete_scopes (source_summary payload) <-> exists ns, s = Scope "pod" (Some (strip ns)) /\ proved_namespace k ns.
Proof.
  unfold evidence_inventory_payload. intros Hp. destruct (parse_moment _) as [m|]; [|done]. destruct (_ && _ && _); [done|]. injection Hp as <-.
  split; [done|]. intros s. change (source_summary _) with (evidence_summary k). rewrite <- pod_coverage_proves. unfold scoped_delete_scopes.
  destruct (summary_coverage k) as [Ec Es]. rewrite Es, deletion_scopes_iff. destruct (pod_coverage k) as [|c cs] eqn:Epc.
  - rewrite bool_decide_true by done. cbn [negb]. rewrite summary_not_live. split; [by intros [? _]|by intros (entry & ?%elem_of_nil & _)].
  - rewrite bool_decide_false in Ec |- * by done. cbn [negb]. rewrite get_set_eq. rewrite get_set_ne, Ec by done. split.
    + intros (_ & entries & entry & He & Hin & Hpr). assert (entries = VDict <$> (c :: cs)) as -> by (by injection He).
      apply list_elem_of_fmap in Hin as (entry' & [= <-] & Hin). by exists entry.
    + intros (entry & Hin & Hpr). split; [done|]. exists (VDict <$> (c :: cs)), entry. split_and!; [done|by apply list_elem_of_fmap_2|done].
Qed.
End ingest.

(** ** One namespace proved, one not *)
Module Sample.
#[local] Existing Instance Demo.plain_repr.
#[local] Existing Instance coded_iso.

Definition coverage (ns : string) (complete : bool) : pyval :=
  VDict [("collection", VStr "pods"); ("scope", VStr "namespace"); ("namespace", VStr ns); ("observed", VBool true); ("complete", VBool complete);
         ("delete_safe", VBool true); ("truncated", VBool false); ("reason_codes", VList []); ("label_selector", VNone)].
Definition kubernetes : dict :=
  [("cluster", VDict [("collected_at", VStr (isoformat 1700000000000000))]); ("pods", VList [VDict [("name", VStr "web"); ("namespace", VStr "shop")]]);
   ("collection_coverage", VList [coverage "shop" true; coverage "billing" false])].
Definition payload : dict := default [] (evidence_inventory_payload (fun _ => "t") (VDict kubernetes)).

Lemma evidence_deletes_proved_pods_witness :
  Scope "pod" (Some "shop") ∈ scoped_delete_scopes (source_summary payload) /\ ~ Scope "pod" (Some "billing") ∈ scoped_delete_scopes (source_summary payload).
Proof.
  assert (evidence_inventory_payload (fun _ => "t") (VDict kubernetes) = Some payload) as Hp by (vm_compute; reflexivity).
  destruct (evidence_deletes_proved_pods (fun _ => "t") kubernetes payload Hp) as [_ Hs]. split.
  - apply Hs. exists "shop". split; [reflexivity|]. split_and!; [reflexivity|discriminate|]. eexists _, _. split_and!; [reflexivity|left|]. split; auto.
  - rewrite Hs. intros (ns & E & _ & _ & raw & entry & Er & Hin & Hpr). injection Er as <-. injection E as E.
    apply elem_of_cons in Hin as [Hin|[Hin|?%elem_of_nil]%elem_of_cons]; [|injection Hin as ->; by destruct Hpr|done].
    injection Hin as ->. destruct Hpr as [_ _ Hns]. injection Hns as <-. discriminate E.
Defined.
End Sample.
End HistoryIngest.
